(* ===== verification/_CoqProject ===== *)
-Q . S2P
Prelude.v
KMem.v
Spinlock.v
BuddySpec.v
Buddy.v
PageAlloc.v
PageTable.v
KString.v
Ring.v
Pipe.v
Vfs.v
Tables.v
Initfs.v
Serial.v
Print.v
Log.v
Ports.v
Pci.v
PciScan.v
Dma.v
Acpi.v
Apic.v
Kconsole.v
Blk.v
DiskBytes.v
Ata.v
AtaDrive.v
Ahci.v
AhciDisk.v
Nvme.v
Scratch.v
Ext2.v
Devfs.v
Mounting.v
Ext2Mount.v
BootFs.v
Blkdev.v
Ps2.v
AddrSpace.v
Elf.v
UserStack.v
UserCopy.v
Reclaim.v
Proc.v
Gdt.v
Panic.v
Idt.v
Boot.v
Sched.v
Syscall.v
KStack.v
Fds.v
SchedInv.v
User.v
