(* ===== verification/Prelude.v ===== *)
(** * JEOS kernel: a verification library

    JEOS is a small x86-64 kernel in C (src/src/kernel/).  This library models
    its own logic, function by function, as executable state-passing
    definitions with the names of the source, and proves what each part does.

    ** How C is modelled

    Integers are [Z] with the wrap-around of their C type written out ([u8],
    [u16], [u32], [u64], [i32], [i64]).  A function that touches state is a
    computation [M St A := St -> res (A * St)]; [Stuck w] says why it does not
    come back: [Fault] (an access C leaves undefined), [Spin], [Halt] and
    [Diverge].  [wp m s Q] is total correctness: [m] returns, and [Q] holds.
    A [while] loop is [mloop], which unrolls 2^64 rounds by doubling: a C loop
    whose counters are machine words cannot need more without repeating a
    state, and every theorem shows that the loops it runs through end within
    that bound (by a measure below 2^64), so none of them is vacuous.  [loop]
    is the same without state, [mfor] a counted loop.  Linked structures that
    the C code walks byte by byte (free lists, page tables, strings) live in
    one byte heap ([KMem.mem]); the objects of the file systems live in typed
    stores keyed by their address, where a freed or unknown pointer faults.

    ** Files

    - Prelude.v: integers, loops, the monad, weakest preconditions, tactics.
    - KMem.v: the byte heap; memset, memcpy, little-endian accesses.  Dma.v:
      the same accesses from a larger state, for memory shared with devices.
    - Spinlock.v (spinlock.h): acquire and release with their interrupt
      nesting on one CPU, and the interleaving of many CPUs as [lock_step].
    - BuddySpec.v, Buddy.v (mem.c): the buddy allocator.  BuddySpec is the
      abstract allocator on lists of blocks, Buddy the code on the heap, refined
      to it; the lock it takes is Spinlock's.
    - PageAlloc.v: the class [PageAllocator] every other part allocates pages
      through, and its instance from Buddy.
    - PageTable.v (mem.c): four-level page tables on the heap.
    - KString.v (string.c), Ring.v (ring.h), Pipe.v (pipe.c): C strings, the
      byte ring of the keyboard, pipes and the interleaving of their calls.
    - Vfs.v (vfs.c, vfs.h): objects and reference counts, path walking, mounts,
      the registry of file systems; file systems are operation tables reached
      through the class [VfsOps].
    - Tables.v: scanning a static array, shared by the registries.
    - Initfs.v (initfs.c), Ext2.v (ext2.c, ext2.h), Devfs.v and Blkdev.v
      (devfs.c): the three file systems over Vfs and PageAlloc.  Scratch.v holds
      what they share: pages borrowed during an operation.
    - Mounting.v: vfs_mount of Vfs.v against the class [FsType], what a file
      system promises about its own mount and unmount; the instances of Initfs
      and Devfs.  Ext2Mount.v (ext2.c): the mount of a volume, and the instance
      of Ext2 for devices that hold one.
    - Serial.v (serial.c), Print.v (print.c), Kconsole.v (kconsole.c): the UART,
      the formatted log, the framebuffer console.  Print is proved against the
      class [Console]; Kconsole discharges it from the UART and the screen.
      Log.v: the log calls of the drivers, which change nothing else.
    - Ports.v (x86.h): the classes [PortIO] and [Mmio], the two ways to reach a
      device.
    - Pci.v (pci.c, pci.h): configuration space accesses and the enumeration;
      PciScan.v: a hierarchy of buses, and what the enumeration finds in it.
    - Acpi.v (acpi.c, acpi.h): the search for the MADT.  Apic.v (apic.c, apic.h,
      pit.h): the local and the I/O APIC and the timers.
    - Blk.v (blk.c, blk.h): the device table and the synchronous request
      protocol, offered to the file systems as the class [BlockLayer].
      DiskBytes.v: what a transfer of sectors does to disk and memory, and the
      synchronous call over a driver, shared by the two disk drivers.
    - Ata.v (ata.c, ata.h) and AtaDrive.v: the driver, and the drive with its
      bus master engine it is proved against.  Ahci.v (ahci.c, ahci.h) and
      AhciDisk.v: the same for AHCI.  Nvme.v (nvme.c).
    - Ps2.v (ps2.c, ps2.h): keyboard and mouse, from the bytes of the
      controller to the rings the device files read.
    - AddrSpace.v: the loop that maps fresh pages, shared by the ELF loader and
      by sys_brk, and what "these pages are mapped with these bytes" means
      ([shows]).  Elf.v (proc.c, elf.h): elf_load_segments.  UserStack.v
      (proc.c): setup_user_stack.  UserCopy.v (mem.c): copy_user_pml4.
      Reclaim.v (mem.c): free_user_pml4.
    - Proc.v (proc.c, proc.h): the process table, creation, fork and exec, the
      descriptors.  KStack.v: the first kernel stack of a process.
    - Gdt.v (gdt.c, gdt.h): segment descriptors and the task state segment.
      Panic.v (panic.c): the register dump and the back trace.  Idt.v (idt.c,
      idt.h): the gates, the entry stubs with isr_common as moves of a processor
      ([icpu]), and exception_handler over the handlers of the drivers.
    - Boot.v (main.c, and init_syscall of syscall.c): the memory map, the
      processor table and the registers of the system call instruction.
      BootFs.v (main.c): the registration of the file systems and the mounts
      made at boot, with a run of them on a machine without a disk.
    - Sched.v (proc.c, gdt.c): yield, exit and the scheduler as the pieces
      between the switches, and [sched_step], how the pieces alternate.
      SchedInv.v: the invariant of that machine.
    - Syscall.v (syscall.c, pipe.c): the system calls and their dispatcher.
      Fds.v: what the calls on descriptors do to the files' reference counts,
      over the whole process table, against the class [QuietOps].
    - User.v (src/src/user): the library of the programs, the wrappers of the
      system calls over one [syscall] instruction, init and the shell.

    ** What the theorems show

    - Memory: live allocations never overlap and together with the free pages
      partition memory, whatever the sequence of calls; kalloc and kfree take
      and return exactly the aligned runs they should, for every size; the
      memory given at boot is all used, and nothing else is; mapping a page
      makes exactly that translation appear.
    - Concurrency: at most one CPU is inside a locked section in every
      reachable interleaving; pipes deliver the bytes written in order,
      whatever the interleaving of calls, and no call waits when it need not.
    - Files: path walking is a walk of the path's components; reading an ext2
      file returns the bytes the volume's block trees hold; looking up a name
      scans the directory; a block device file reads and writes single bytes
      correctly through whole sectors; the device registry is a finite map, and
      its directory lists each entry once; a mount takes effect, so that names
      lead into the new file system, or leaves no trace; mounting an ext2 volume
      reads its descriptors and its root; booting registers the
      three types and makes initfs the root, whatever the globals held.
    - Disks: through the block layer, each of the two drivers moves exactly the
      sectors asked for between the disk and memory, whatever other interrupts
      come first: the controller models take the command apart as the hardware
      does, from registers and from the structures in memory.
    - Enumeration: a configuration access touches exactly its bytes; the scan
      of the buses terminates and finds what at most one bridge leads to; an
      interrupt line is routed where the firmware's table says.
    - Interrupts: the interrupted program gets its registers back, the handler
      sees them in the trap frame, and each device's interrupt is ended exactly
      once; the selectors name the segments they are meant for; the processors
      that come up find their slots.
    - Input: what the keyboard's scancodes type and where the mouse's packets
      move the pointer, however the bytes are split over interrupts; what the
      shell makes of a line with corrections in it.
    - Programs: after loading an ELF file the address space holds exactly the
      segments' bytes, zero-filled, and the stack pages, with their flags;
      exec's stack holds the argument table and the strings; a fork's child
      sees every byte its parent saw, in frames of its own; taking an address
      space down gives back exactly its frames and tables; sys_brk maps the
      pages a larger heap needs; a new process's kernel stack holds what the
      first switch to it pops.
    - Processes: whatever calls processes make, a file's reference count is
      the number of descriptors that name it, in all processes, so none is used
      after it was freed and none is lost; however they are scheduled, one
      process runs at a time, on its own page table and stack, and the table's
      lock is never lost over a switch.
    - Output: a block request returns exactly at its own completion; the log
      renders printf's conversions as their specification; the console's
      pixels always show a grid of characters, no byte sequence makes it touch
      memory outside the framebuffer.
    - Errors: cases where the code does not do what it should are theorems
      too (a dup2 that uses a file it freed, ".." above an overlaid root, a page
      table with no page left, a lookup that leaks its temporary dentry, an
      exception whose frame is read one word off, a processor number that does
      not fit its slot).

    ** Fuel

    Besides [mloop]'s 2^64 rounds there is one bound of depth: [pci_scan_bus]
    recurses through bridges and is given 257 levels.  Every level takes a
    record of a table of 256, so that is enough whatever the hardware answers
    ([Pci.pci_scan_terminates]).

    ** Parameters

    What is not kernel code is an argument: the disk's content and the driver
    behind [blk_read] ([Ext2.device_ok], [Blkdev.disk_ok]), the interrupts that
    arrive ([Blk.machine]), the UART's line status ([Serial.uart]), the
    registers of the devices ([PortIO], [Mmio]), with the machines the theorems
    use as instances: configuration space ([PciScan]), a drive and its bus
    master ([AtaDrive]), a controller with one disk ([AhciDisk]), the I/O APIC's
    two registers ([Apic]); the addresses of static tables and of the assembly
    routines trapret and forkret.  The assembly swtch is the rest of the
    machine: a system call that gives the CPU up takes it as an argument, and
    [Sched.sched_step] makes it the alternation of scheduler and processes.  A
    [struct proc *] is the index in the table plus one; a user pointer is read
    and written in the byte heap at its own address.  The static variables of
    the parts (process table, task state segments, device table, ...) are
    components of one type, reached through lenses.  Each theorem with
    such a hypothesis has a witness on a concrete instance.

    ** Not modelled

    The order in which _start calls the initialisers up to vfs_init, and its
    wait for the other processors; the assembly of the system call entry and of swtch (the inline
    assembly of idt.c is modelled); the boot loader's header, of which only the
    records of the memory map are used.  Device initialisation sequences are
    definitions without a theorem of their own where the devices' side has no
    model.  Alignment of C objects, the stack depth, and caches and memory
    ordering beyond the lock's atomic exchange are not represented. *)
From Stdlib Require Export ZArith Lia.
From stdpp Require Export base gmap strings numbers option.
From stdpp Require Export list_basics list_relations list_monad list_misc list.

#[export] Set Default Goal Selector "!".
#[local] Open Scope Z_scope.

(** The bytes of a string literal, without its terminator. *)
Fixpoint str (s : string) : list Z :=
  match s with
  | EmptyString => []
  | String c s => Z.of_N (Ascii.N_of_ascii c) :: str s
  end.

(** ** Machine integers *)

(** Fixed-width unsigned integers are [Z] in [0 <= x < 2^w]; arithmetic is
    done in [Z] and wrapped where the C code wraps it. *)
Definition u8 (x : Z) : Z := x mod 2 ^ 8.
Definition u16 (x : Z) : Z := x mod 2 ^ 16.
Definition u32 (x : Z) : Z := x mod 2 ^ 32.
Definition u64 (x : Z) : Z := x mod 2 ^ 64.

(** Two's-complement reading of a [w]-bit pattern. *)
Definition to_signed (w x : Z) : Z :=
  let y := x mod 2 ^ w in if y <? 2 ^ (w - 1) then y else y - 2 ^ w.
Definition i8 (x : Z) : Z := to_signed 8 x.
Definition i32 (x : Z) : Z := to_signed 32 x.
Definition i64 (x : Z) : Z := to_signed 64 x.

#[global] Arguments u8 : simpl never.
#[global] Arguments u16 : simpl never.
#[global] Arguments u32 : simpl never.
#[global] Arguments u64 : simpl never.
#[global] Arguments to_signed : simpl never.
#[global] Arguments Z.add : simpl never.
#[global] Arguments Z.sub : simpl never.
#[global] Arguments Z.mul : simpl never.
#[global] Arguments Z.pow : simpl never.
#[global] Arguments Z.modulo : simpl never.
#[global] Arguments Z.div : simpl never.

(** ** Loops *)

(** [loop body s] runs [body] until it answers [inr]; a C [while] loop whose
    body may [break] or [return].  The unrolling doubles at every level, so
    [loopn 64] allows [2^64] iterations (no 64-bit counter can outlast it) and
    still evaluates in the number of iterations actually taken. *)
Fixpoint loopn {A B : Type} (n : nat) (body : A -> A + B) (s : A) : A + B :=
  match n with
  | O => body s
  | S k => match loopn k body s with
           | inl s' => loopn k body s'
           | inr b => inr b
           end
  end.

Definition loop {A B : Type} (body : A -> A + B) (s : A) : option B :=
  match loopn 64 body s with inl _ => None | inr b => Some b end.

Section LoopRules.
Context {A B : Type} (body : A -> A + B).

Lemma loopn_rule (I : A -> Prop) (Q : B -> Prop) (mu : A -> Z) (n : nat) (s : A) :
  (forall s, I s -> match body s with
                    | inl s' => I s' /\ 0 <= mu s' < mu s
                    | inr b => Q b
                    end) ->
  I s ->
  match loopn n body s with
  | inl s' => I s' /\ 0 <= mu s' /\ mu s' + 2 ^ Z.of_nat n <= mu s
  | inr b => Q b
  end.
Proof.
  intros Hstep. revert s. induction n as [|n IH]; intros s Hs.
  { simpl. specialize (Hstep s Hs). destruct (body s); [|done].
    replace (2 ^ Z.of_nat 0) with 1 by done. intuition lia. }
  cbn [loopn]. specialize (IH s Hs) as IH1. destruct (loopn n body s) as [s1|b]; [|done].
  destruct IH1 as (HI1 & Hp1 & Hle1). specialize (IH s1 HI1) as IH2.
  destruct (loopn n body s1) as [s2|b2]; [|done].
  rewrite Nat2Z.inj_succ, Z.pow_succ_r by lia. intuition lia.
Qed.

(** Total correctness of a loop from an invariant and a variant. *)
Lemma loop_total (I : A -> Prop) (Q : B -> Prop) (mu : A -> Z) (s : A) :
  (forall s, I s -> match body s with
                    | inl s' => I s' /\ 0 <= mu s' < mu s
                    | inr b => Q b
                    end) ->
  I s -> mu s < 2 ^ 64 -> exists b, loop body s = Some b /\ Q b.
Proof.
  intros Hstep HI Hmu. pose proof (loopn_rule I Q mu 64 s Hstep HI) as H.
  unfold loop. destruct (loopn 64 body s) as [s'|b]; [|eauto].
  change (Z.of_nat 64) with 64 in H. lia.
Qed.

(** A loop whose body never exits does not return. *)
Lemma loop_diverges (I : A -> Prop) (s : A) :
  (forall s, I s -> exists s', body s = inl s' /\ I s') -> I s -> loop body s = None.
Proof.
  intros Hstep HI. unfold loop.
  assert (forall n s, I s -> exists s', loopn n body s = inl s' /\ I s') as H.
  { induction n as [|n IH]; intros t Ht; cbn [loopn]; [by apply Hstep|].
    destruct (IH t Ht) as (t1 & -> & Ht1). by apply IH. }
  by destruct (H 64%nat s HI) as (s' & -> & _).
Qed.
End LoopRules.

(** ** A state-and-failure monad *)

(** Ways in which straight-line C code does not come back: it spins on a lock
    another CPU owns, it executes [hlt] with interrupts off, a loop never
    exits, or it performs an access the language leaves undefined. *)
Inductive stuck := Spin | Halt | Diverge | Fault.

Inductive res (A : Type) :=
| Ok (a : A)
| Stuck (why : stuck).
Arguments Ok {A} a.
Arguments Stuck {A} why.

#[export] Instance stuck_eq_dec : EqDecision stuck.
Proof. solve_decision. Defined.

Definition M (St A : Type) : Type := St -> res (A * St).

#[export] Instance M_ret {St} : MRet (M St) := fun A a s => Ok (a, s).
#[export] Instance M_bind {St} : MBind (M St) := fun A B k m s =>
  match m s with Ok (a, s') => k a s' | Stuck w => Stuck w end.

Definition mget {St} : M St St := fun s => Ok (s, s).
Definition mput {St} (s : St) : M St unit := fun _ => Ok (tt, s).
Definition mmodify {St} (f : St -> St) : M St unit := fun s => Ok (tt, f s).
Definition mgets {St A} (f : St -> A) : M St A := fun s => Ok (f s, s).
Definition mstuck {St A} (w : stuck) : M St A := fun _ => Stuck w.
Definition mlift {St A} (o : option A) : M St A := fun s =>
  match o with Some a => Ok (a, s) | None => Stuck Diverge end.

(** Unsigned division traps on zero. *)
Definition udiv {St} (a b : Z) : M St Z := if b =? 0 then mstuck Fault else mret (a / b).
Definition umod {St} (a b : Z) : M St Z := if b =? 0 then mstuck Fault else mret (a mod b).

(** Run a computation on a component [T] of the state [St]. *)
Definition mzoom {St T A} (get : St -> T) (set : T -> St -> St) (m : M T A) : M St A :=
  fun s => match m (get s) with
           | Ok (a, t) => Ok (a, set t s)
           | Stuck w => Stuck w
           end.

(** What a component of a state must satisfy. *)
Record lens {St T} (get : St -> T) (set : T -> St -> St) : Prop := {
  get_set : forall x s, get (set x s) = x;
  set_get : forall s, set (get s) s = s;
  set_set : forall x y s, set x (set y s) = set x s
}.

(** A monadic loop, with the same doubling unrolling as [loop]. *)
Fixpoint mloopn {St A B : Type} (n : nat) (body : A -> M St (A + B)) (a : A) : M St (A + B) :=
  match n with
  | O => body a
  | S k => r ← mloopn k body a;
           match r with inl a' => mloopn k body a' | inr b => mret (inr b) end
  end.

Definition mloop {St A B : Type} (body : A -> M St (A + B)) (a : A) : M St B :=
  r ← mloopn 64 body a;
  match r with inl _ => mstuck Diverge | inr b => mret b end.

(** [mfor n body i] runs [body i], [body (i+1)], ... [n] times, or until one
    of them answers [Some] (a [return] from inside the loop). *)
Fixpoint mfor {St R : Type} (n : nat) (body : Z -> M St (option R)) (i : Z) : M St (option R) :=
  match n with
  | O => mret None
  | S k => r ← body i;
           match r with Some v => mret (Some v) | None => mfor k body (i + 1) end
  end.

(** Total-correctness weakest precondition: the computation returns. *)
Definition wp {St A} (m : M St A) (s : St) (Q : A -> St -> Prop) : Prop :=
  match m s with Ok (a, s') => Q a s' | Stuck _ => False end.

Section Wp.
Context {St : Type}.

Lemma wp_ret {A} (a : A) (s : St) Q : Q a s -> wp (mret a) s Q.
Proof. done. Qed.

Lemma wp_bind {A B} (m : M St A) (k : A -> M St B) s Q :
  wp m s (fun a s' => wp (k a) s' Q) -> wp (m ≫= k) s Q.
Proof. unfold wp, mbind, M_bind. by destruct (m s) as [[a s']|]. Qed.

Lemma wp_bind_inv {A B} (m : M St A) (k : A -> M St B) s Q :
  wp (m ≫= k) s Q -> wp m s (fun a s' => wp (k a) s' Q).
Proof. unfold wp, mbind, M_bind. by destruct (m s) as [[a s']|]. Qed.

Lemma wp_run {A} (m : M St A) a s s' Q : m s = Ok (a, s') -> Q a s' -> wp m s Q.
Proof. unfold wp. by intros ->. Qed.

Lemma wp_same {A} (m m' : M St A) s Q : m s = m' s -> wp m' s Q -> wp m s Q.
Proof. unfold wp. by intros ->. Qed.

Lemma wp_mono {A} (m : M St A) s (Q Q' : A -> St -> Prop) :
  wp m s Q -> (forall a s', Q a s' -> Q' a s') -> wp m s Q'.
Proof. unfold wp. destruct (m s) as [[a s']|]; eauto. Qed.

Lemma wp_and {A} (m : M St A) s (Q Q' : A -> St -> Prop) :
  wp m s Q -> wp m s Q' -> wp m s (fun a s' => Q a s' /\ Q' a s').
Proof. unfold wp. destruct (m s) as [[a s']|]; eauto. Qed.

Lemma wp_get s (Q : St -> St -> Prop) : Q s s -> wp mget s Q.
Proof. done. Qed.

Lemma wp_gets {A} (f : St -> A) s Q : Q (f s) s -> wp (mgets f) s Q.
Proof. done. Qed.

Lemma wp_put s' (s : St) Q : Q tt s' -> wp (mput s') s Q.
Proof. done. Qed.

Lemma wp_modify f (s : St) Q : Q tt (f s) -> wp (mmodify f) s Q.
Proof. done. Qed.

Lemma wp_lift {A} (o : option A) a (s : St) Q :
  o = Some a -> Q a s -> wp (mlift o) s Q.
Proof. by intros ->. Qed.

Lemma wp_zoom {T A} (get : St -> T) set (m : M T A) (s : St) Q :
  wp m (get s) (fun a t => Q a (set t s)) -> wp (mzoom get set m) s Q.
Proof. unfold wp, mzoom. by destruct (m (get s)) as [[a t]|]. Qed.

Lemma wp_ok {A} (m : M St A) s Q :
  wp m s Q <-> exists a s', m s = Ok (a, s') /\ Q a s'.
Proof.
  unfold wp. destruct (m s) as [[a s']|]; split.
  - intros HQ. by exists a, s'.
  - intros (a1 & s1 & [= <- <-] & HQ). done.
  - done.
  - by intros (a1 & s1 & [=] & _).
Qed.

(** Loop rules.  In the indexed form the variant [n] is carried by the
    invariant, which may choose it existentially. *)
Lemma wp_mloopn_ix {A B} (body : A -> M St (A + B)) (I : Z -> A -> St -> Prop)
    (Q : B -> St -> Prop) k n a s :
  (forall n a s, I n a s ->
     wp (body a) s (fun r s' => match r with
                                | inl a' => exists n', I n' a' s' /\ 0 <= n' < n
                                | inr b => Q b s'
                                end)) ->
  I n a s ->
  wp (mloopn k body a) s (fun r s' =>
    match r with
    | inl a' => exists n', I n' a' s' /\ 0 <= n' /\ n' + 2 ^ Z.of_nat k <= n
    | inr b => Q b s'
    end).
Proof.
  intros Hstep. revert n a s. induction k as [|k IH]; intros n a s Ha; cbn [mloopn].
  { eapply wp_mono; [by apply Hstep|]. intros [a'|b] s'; [|done].
    intros (n' & HI & Hn). exists n'. split; [done|].
    replace (2 ^ Z.of_nat 0) with 1 by done. lia. }
  apply wp_bind. eapply wp_mono; [by eapply IH|].
  intros [a1|b] s1; [|done]. intros (n1 & HI1 & Hp1 & Hle1).
  eapply wp_mono; [by eapply IH|]. intros [a2|b] s2; [|done].
  intros (n2 & HI2 & Hp2 & Hle2). exists n2. split; [done|].
  rewrite Nat2Z.inj_succ, Z.pow_succ_r by lia. lia.
Qed.

Lemma wp_mloop_ix {A B} (body : A -> M St (A + B)) (I : Z -> A -> St -> Prop)
    (Q : B -> St -> Prop) n a s :
  (forall n a s, I n a s ->
     wp (body a) s (fun r s' => match r with
                                | inl a' => exists n', I n' a' s' /\ 0 <= n' < n
                                | inr b => Q b s'
                                end)) ->
  I n a s -> n < 2 ^ 64 -> wp (mloop body a) s Q.
Proof.
  intros Hstep HI Hn. unfold mloop. apply wp_bind.
  eapply wp_mono; [by apply (wp_mloopn_ix body I Q 64 n)|].
  intros [a'|b] s'; [|done]. change (Z.of_nat 64) with 64. intros (n' & _ & ? & ?). lia.
Qed.

Lemma wp_mloop {A B} (body : A -> M St (A + B)) (I : A -> St -> Prop)
    (Q : B -> St -> Prop) (mu : A -> St -> Z) a s :
  (forall a s, I a s ->
     wp (body a) s (fun r s' => match r with
                                | inl a' => I a' s' /\ 0 <= mu a' s' < mu a s
                                | inr b => Q b s'
                                end)) ->
  I a s -> mu a s < 2 ^ 64 -> wp (mloop body a) s Q.
Proof.
  intros Hstep HI Hmu.
  apply (wp_mloop_ix body (fun n a s => I a s /\ n = mu a s) Q (mu a s)); [|done..].
  intros n b t [Hb ->]. eapply wp_mono; [by apply Hstep|].
  intros [b'|r] t'; [|done]. intros [HI' Hm]. by exists (mu b' t').
Qed.

Lemma wp_mfor {R} (body : Z -> M St (option R)) (I : Z -> St -> Prop)
    (Q : option R -> St -> Prop) n i s :
  (forall j s, i <= j < i + Z.of_nat n -> I j s ->
     wp (body j) s (fun r s' => match r with
                                | None => I (j + 1) s'
                                | Some v => Q (Some v) s'
                                end)) ->
  (forall s, I (i + Z.of_nat n) s -> Q None s) ->
  I i s -> wp (mfor n body i) s Q.
Proof.
  revert i s. induction n as [|n IH]; intros i s Hstep Hend Hi; cbn [mfor].
  { apply Hend. by rewrite Z.add_0_r. }
  apply wp_bind. eapply wp_mono; [apply Hstep; [lia|done]|].
  intros [v|] s'; [done|]. intros Hi'. apply IH; [| |done].
  - intros j t Hj. apply Hstep. lia.
  - intros t. replace (i + 1 + Z.of_nat n) with (i + Z.of_nat (S n)) by lia. apply Hend.
Qed.
End Wp.

(** *** What a computation leaves alone

    The partial-correctness counterpart: whenever [m] returns, [J] still holds. *)
Definition keeps {St A} (J : St -> Prop) (m : M St A) : Prop := forall s r s', J s -> m s = Ok (r, s') -> J s'.

Section Keeps.
Context {St : Type} (J : St -> Prop).

Lemma keeps_ret {A} (a : A) : keeps J (mret a).
Proof. by intros s r s' Hs [= _ <-]. Qed.

Lemma keeps_stuck {A} w : keeps J (mstuck w : M St A).
Proof. by intros s r s' Hs. Qed.

Lemma keeps_bind {A B} (m : M St A) (k : A -> M St B) :
  keeps J m -> (forall a, keeps J (k a)) -> keeps J (m ≫= k).
Proof.
  intros Hm Hk s r s' Hs. unfold mbind, M_bind. destruct (m s) as [[a s1]|] eqn:E; [|done].
  apply Hk. by eapply Hm.
Qed.

Lemma keeps_mfor {R} (body : Z -> M St (option R)) n i : (forall j, keeps J (body j)) -> keeps J (mfor n body i).
Proof.
  intros Hb. revert i. induction n as [|n IH]; intros i; cbn [mfor]; [apply keeps_ret|].
  apply keeps_bind; [apply Hb|]. intros [v|]; [apply keeps_ret|apply IH].
Qed.

Lemma keeps_mloop {A B} (body : A -> M St (A + B)) a : (forall a, keeps J (body a)) -> keeps J (mloop body a).
Proof.
  intros Hb. unfold mloop. apply keeps_bind.
  - generalize 64%nat as n. intros n. revert a. induction n as [|n IH]; intros a; cbn [mloopn]; [apply Hb|].
    apply keeps_bind; [apply IH|]. intros [a'|b]; [apply IH|apply keeps_ret].
  - intros [a'|b]; [apply keeps_stuck|apply keeps_ret].
Qed.
End Keeps.

Create HintDb keeps discriminated.

(** Follows the structure of a computation. *)
Ltac solve_keeps :=
  repeat (intros; cbv zeta;
    lazymatch goal with
    | |- keeps _ (mret _) => apply keeps_ret
    | |- keeps _ (mstuck _) => apply keeps_stuck
    | |- keeps _ (_ ≫= _) => apply keeps_bind
    | |- keeps _ (mfor _ _ _) => apply keeps_mfor
    | |- keeps _ (mloop _ _) => apply keeps_mloop
    | |- keeps _ (match ?x with _ => _ end) => destruct x
    | |- keeps _ _ => solve [eauto with keeps nocore]
    end).

(** Exact runs of a monadic loop: [runs body a s r k] says that from [a] in
    state [s] the body asks for another round [k] times and then gives [r]. *)
Inductive runs {St A B} (body : A -> M St (A + B)) : A -> St -> res (B * St) -> Z -> Prop :=
| runs_stop a s b s' : body a s = Ok (inr b, s') -> runs body a s (Ok (b, s')) 0
| runs_stuck a s w : body a s = Stuck w -> runs body a s (Stuck w) 0
| runs_next a s a' s' r k :
    body a s = Ok (inl a', s') -> runs body a' s' r k -> 0 <= k -> runs body a s r (k + 1).

Lemma mloopn_runs {St A B} (body : A -> M St (A + B)) n a s r k :
  runs body a s r k ->
  if k <? 2 ^ Z.of_nat n
  then mloopn n body a s = match r with Ok (b, s') => Ok (inr b, s') | Stuck w => Stuck w end
  else exists a' s', mloopn n body a s = Ok (inl a', s') /\ runs body a' s' r (k - 2 ^ Z.of_nat n).
Proof.
  revert a s k. induction n as [|n IH]; intros a s k H.
  - change (2 ^ Z.of_nat 0) with 1. destruct H as [a s b s' E|a s w E|a s a' s' r k E H Hk]; cbn [mloopn].
    + by rewrite E.
    + by rewrite E.
    + rewrite (proj2 (Z.ltb_ge _ _)) by lia. exists a', s'. by rewrite Z.add_simpl_r.
  - cbn [mloopn]. unfold mbind, M_bind. pose proof (IH a s k H) as H1.
    assert (2 ^ Z.of_nat (S n) = 2 ^ Z.of_nat n + 2 ^ Z.of_nat n) as E2.
    { rewrite Nat2Z.inj_succ, Z.pow_succ_r by lia. lia. }
    destruct (Z.ltb_spec k (2 ^ Z.of_nat n)) as [Hlt|Hge].
    + rewrite (proj2 (Z.ltb_lt _ _)) by lia. rewrite H1. by destruct r as [[b s']|w].
    + destruct H1 as (a1 & s1 & E1 & Hr1). rewrite E1. specialize (IH a1 s1 _ Hr1).
      destruct (Z.ltb_spec (k - 2 ^ Z.of_nat n) (2 ^ Z.of_nat n)) as [Hlt2|Hge2].
      * by rewrite (proj2 (Z.ltb_lt _ _)) by lia.
      * rewrite (proj2 (Z.ltb_ge _ _)) by lia. destruct IH as (a2 & s2 & E3 & Hr2).
        exists a2, s2. split; [done|]. by replace (k - _) with (k - 2 ^ Z.of_nat n - 2 ^ Z.of_nat n) by lia.
Qed.

(** A loop that ends within [2^64] rounds gives its exact result. *)
Lemma mloop_runs {St A B} (body : A -> M St (A + B)) a s r k :
  runs body a s r k -> k < 2 ^ 64 -> mloop body a s = r.
Proof.
  intros H Hk. unfold mloop, mbind, M_bind. pose proof (mloopn_runs body 64 a s r k H) as E.
  change (Z.of_nat 64) with 64 in E. rewrite (proj2 (Z.ltb_lt _ _) Hk) in E. rewrite E.
  by destruct r as [[b s']|w].
Qed.

#[global] Arguments wp : simpl never.
#[global] Arguments mloop : simpl never.
#[global] Arguments loop : simpl never.

(** Closes a decidable goal about concrete data by evaluation. *)
Ltac by_decide := apply (bool_decide_unpack _); vm_compute; exact I.

(** [wp_step] consumes one monadic operation of the goal's program. *)
Ltac wp_step :=
  lazymatch goal with
  | |- wp (_ ≫= _) _ _ => apply wp_bind
  | |- wp (mret _) _ _ => apply wp_ret
  | |- wp mget _ _ => apply wp_get
  | |- wp (mgets _) _ _ => apply wp_gets
  | |- wp (mput _) _ _ => apply wp_put
  | |- wp (mmodify _) _ _ => apply wp_modify
  | |- wp (if ?b then _ else _) _ _ => destruct b eqn:?
  end.
Ltac wp_steps := repeat (wp_step; cbn beta).

(** [wp_via H] runs the goal's first command by the first command of [H], a
    [wp] of the same sequence; [H] becomes the [wp] of the rest. *)
Ltac wp_via H :=
  apply wp_bind_inv in H; wp_step; eapply wp_mono; [exact H|]; clear H;
  let a := fresh "a" in let t := fresh "t" in intros a t H; cbn beta in H.

(** ** Arithmetic shared by the components *)

Lemma u64_small x : 0 <= x < 2 ^ 64 -> u64 x = x.
Proof. apply Z.mod_small. Qed.
Lemma u32_small x : 0 <= x < 2 ^ 32 -> u32 x = x.
Proof. apply Z.mod_small. Qed.
Lemma u16_small x : 0 <= x < 2 ^ 16 -> u16 x = x.
Proof. apply Z.mod_small. Qed.
Lemma u8_small x : 0 <= x < 2 ^ 8 -> u8 x = x.
Proof. apply Z.mod_small. Qed.

Lemma u64_range x : 0 <= u64 x < 2 ^ 64.
Proof. by apply Z.mod_pos_bound. Qed.
Lemma u32_range x : 0 <= u32 x < 2 ^ 32.
Proof. by apply Z.mod_pos_bound. Qed.
Lemma u16_range x : 0 <= u16 x < 2 ^ 16.
Proof. by apply Z.mod_pos_bound. Qed.
Lemma u8_range x : 0 <= u8 x < 2 ^ 8.
Proof. by apply Z.mod_pos_bound. Qed.

Lemma i32_range x : - 2 ^ 31 <= i32 x < 2 ^ 31.
Proof.
  unfold i32, to_signed. pose proof (Z.mod_pos_bound x (2 ^ 32) eq_refl).
  destruct (Z.ltb_spec (x mod 2 ^ 32) (2 ^ (32 - 1))); lia.
Qed.

Lemma to_signed_small w x : 0 < w -> - 2 ^ (w - 1) <= x < 2 ^ (w - 1) -> to_signed w x = x.
Proof.
  intros Hw Hx. assert (2 ^ w = 2 * 2 ^ (w - 1)) as E by (rewrite <- Z.pow_succ_r by lia; f_equal; lia).
  unfold to_signed. destruct (Z.leb_spec 0 x).
  - rewrite Z.mod_small by lia. destruct (Z.ltb_spec x (2 ^ (w - 1))); lia.
  - rewrite <- (Z.mod_add x 1) by lia. rewrite Z.mod_small by lia.
    destruct (Z.ltb_spec (x + 1 * 2 ^ w) (2 ^ (w - 1))); lia.
Qed.

Lemma i32_small x : - 2 ^ 31 <= x < 2 ^ 31 -> i32 x = x.
Proof. by apply (to_signed_small 32). Qed.

Lemma i64_small x : - 2 ^ 63 <= x < 2 ^ 63 -> i64 x = x.
Proof. by apply (to_signed_small 64). Qed.

(** Masking with a run of [n] ones starting at bit [k]. *)
Lemma land_field x k n :
  0 <= k -> 0 <= n ->
  Z.land x (Z.shiftl (Z.ones n) k) = x mod 2 ^ (k + n) - x mod 2 ^ k.
Proof.
  intros Hk Hn. replace (Z.land x (Z.shiftl (Z.ones n) k))
    with (Z.shiftl (Z.land (Z.shiftr x k) (Z.ones n)) k).
  - rewrite Z.land_ones, Z.shiftr_div_pow2, Z.shiftl_mul_pow2 by done.
    rewrite Z.pow_add_r by lia. rewrite Z.rem_mul_r by lia. lia.
  - apply Z.bits_inj'. intros i Hi. rewrite Z.land_spec, !Z.shiftl_spec, Z.land_spec by done.
    destruct (Z.ltb_spec (i - k) 0).
    + rewrite !(Z.testbit_neg_r _ (i - k)) by done. symmetry. apply andb_false_r.
    + rewrite Z.shiftr_spec by done. by rewrite Z.sub_add.
Qed.

Lemma land_low x n : 0 <= n -> Z.land x (2 ^ n - 1) = x mod 2 ^ n.
Proof. intros Hn. by rewrite <- Z.land_ones, Z.ones_equiv, Z.sub_1_r. Qed.

(** [a ^ 2^k] toggles bit [k]. *)
Lemma lxor_pow2 a k :
  0 <= k -> Z.lxor a (2 ^ k) = if Z.testbit a k then a - 2 ^ k else a + 2 ^ k.
Proof.
  intros Hk.
  assert (forall b, Z.testbit b k = false -> Z.lxor b (2 ^ k) = b + 2 ^ k) as Hadd.
  { intros b Hb. symmetry. apply Z.add_nocarry_lxor. apply Z.bits_inj'. intros i Hi.
    rewrite Z.land_spec, Z.pow2_bits_eqb, Z.bits_0 by done.
    destruct (Z.eqb_spec k i) as [->|]; [by rewrite Hb|by rewrite andb_false_r]. }
  destruct (Z.testbit a k) eqn:E; [|by apply Hadd].
  set (b := Z.lxor a (2 ^ k)).
  assert (Z.testbit b k = false) as Hb.
  { unfold b. rewrite Z.lxor_spec, E, Z.pow2_bits_true by done. done. }
  pose proof (Hadd b Hb) as H. unfold b in H at 1.
  rewrite Z.lxor_assoc, Z.lxor_nilpotent, Z.lxor_0_r in H. lia.
Qed.

Lemma testbit_mod_pow2 a k :
  0 <= k -> Z.testbit a k = (2 ^ k <=? a mod 2 ^ (k + 1)).
Proof.
  intros Hk. pose proof (Z.mod_pos_bound a (2 ^ k) ltac:(lia)).
  assert (a mod 2 ^ (k + 1) = a mod 2 ^ k + 2 ^ k * (a / 2 ^ k mod 2)) as ->.
  { rewrite Z.pow_add_r by lia. by rewrite Z.rem_mul_r by lia. }
  pose proof (Z.testbit_spec' a k Hk) as Hb.
  destruct (Z.testbit a k); simpl in Hb; rewrite <- Hb;
    symmetry; [apply Z.leb_le|apply Z.leb_gt]; lia.
Qed.

Lemma mod_mod_pow2 x m n : 0 <= m <= n -> (x mod 2 ^ n) mod 2 ^ m = x mod 2 ^ m.
Proof.
  intros H. replace (2 ^ n) with (2 ^ m * 2 ^ (n - m)).
  - rewrite Z.rem_mul_r by lia. by rewrite Z.mul_comm, Z.mod_add, Z.mod_mod by lia.
  - rewrite <- Z.pow_add_r by lia. f_equal. lia.
Qed.

Lemma mod_0_pow2_le x m n : 0 <= m <= n -> x mod 2 ^ n = 0 -> x mod 2 ^ m = 0.
Proof.
  intros H Hx. rewrite <- (mod_mod_pow2 x m n), Hx by done. by apply Z.mod_0_l; lia.
Qed.

(** ** Concatenations over a range *)

Lemma concat_seqZ_snoc {A} (f : Z -> list A) n : 0 <= n ->
  concat (f <$> seqZ 0 (n + 1)) = concat (f <$> seqZ 0 n) ++ f n.
Proof.
  intros Hn. rewrite seqZ_app, fmap_app, concat_app by lia. f_equal.
  rewrite seqZ_cons, seqZ_nil by lia. cbn. by rewrite app_nil_r, Z.add_0_l.
Qed.

Lemma concat_seqZ_length {A} (f : Z -> list A) i n : 0 <= i <= n ->
  (length (concat (f <$> seqZ 0 i)) <= length (concat (f <$> seqZ 0 n)))%nat.
Proof.
  intros Hi. replace n with (i + (n - i)) by lia.
  rewrite seqZ_app, fmap_app, concat_app, length_app by lia. lia.
Qed.

Lemma elem_of_concat_seqZ {A} (f : Z -> list A) n x :
  x ∈ concat (f <$> seqZ 0 n) <-> exists i, 0 <= i < n /\ x ∈ f i.
Proof.
  rewrite list_elem_of_In, in_concat. split.
  - intros (l & Hl%list_elem_of_In & Hx%list_elem_of_In). apply list_elem_of_fmap in Hl as (i & -> & Hi%elem_of_seqZ).
    exists i. split; [lia|done].
  - intros (i & Hi & Hx). exists (f i). split; [|by apply list_elem_of_In]. apply list_elem_of_In, list_elem_of_fmap. exists i.
    split; [done|]. apply elem_of_seqZ. lia.
Qed.

(** [a | b] where they share no bit. *)
Lemma lor_disjoint a b n : 0 <= n -> a mod 2 ^ n = 0 -> 0 <= b < 2 ^ n -> Z.lor a b = a + b.
Proof.
  intros Hn Ha Hb. symmetry. apply Z.add_nocarry_lor. apply Z.bits_inj'. intros i Hi.
  rewrite Z.land_spec, Z.bits_0. destruct (Z.ltb_spec i n).
  - assert (Z.testbit a i = false) as ->; [|done].
    apply Z_div_exact_2 in Ha; [|lia]. rewrite Ha, Z.mul_comm. by apply Z.mul_pow2_bits_low.
  - assert (Z.testbit b i = false) as ->; [|apply andb_false_r].
    destruct (decide (b = 0)) as [->|]; [apply Z.bits_0|].
    apply Z.bits_above_log2; [lia|]. apply Z.log2_lt_pow2; [lia|].
    eapply Z.lt_le_trans; [apply Hb|]. apply Z.pow_le_mono_r; lia.
Qed.

(** A decidable fact about every number below [n], by evaluation. *)
Lemma all_below (P : Z -> bool) n : forallb P (seqZ 0 n) = true -> forall x, 0 <= x < n -> P x = true.
Proof. intros H x Hx. rewrite forallb_forall in H. apply H, list_elem_of_In, elem_of_seqZ. lia. Qed.

(** ** Bits and bytes of registers *)

Lemma testbit_u32 x j : 0 <= j -> Z.testbit (u32 x) j = (j <? 32) && Z.testbit x j.
Proof.
  intros Hj. unfold u32. destruct (Z.ltb_spec j 32); [by rewrite Z.mod_pow2_bits_low|by rewrite Z.mod_pow2_bits_high].
Qed.

Lemma testbit_above x w i : 0 <= x < 2 ^ w -> 0 <= w <= i -> Z.testbit x i = false.
Proof. intros Hx Hi. rewrite <- (Z.mod_small x (2 ^ w)) by done. by apply Z.mod_pow2_bits_high. Qed.

(** Bits decide the range. *)
Lemma bits_range x w : 0 <= w -> (forall i, w <= i -> Z.testbit x i = false) -> 0 <= x < 2 ^ w.
Proof.
  intros Hw H. replace x with (x mod 2 ^ w); [apply Z.mod_pos_bound; lia|].
  apply Z.bits_inj'. intros i Hi. destruct (Z.ltb_spec i w); [by rewrite Z.mod_pow2_bits_low|].
  by rewrite Z.mod_pow2_bits_high, H by lia.
Qed.

(** A field of [n] bits at [k] replaced by [v]. *)
Lemma testbit_insert d v n k j :
  0 <= k -> 0 <= n -> k + n <= 32 -> 0 <= v < 2 ^ n -> 0 <= d < 2 ^ 32 -> 0 <= j ->
  Z.testbit (Z.lor (Z.land d (u32 (Z.lnot (Z.shiftl (Z.ones n) k)))) (u32 (Z.shiftl v k))) j =
  if (k <=? j) && (j <? k + n) then Z.testbit v (j - k) else Z.testbit d j.
Proof.
  intros Hk Hn Hkn Hv Hd Hj.
  rewrite Z.lor_spec, Z.land_spec, !testbit_u32, Z.lnot_spec, !Z.shiftl_spec by done.
  destruct (Z.leb_spec k j), (Z.ltb_spec j (k + n)), (Z.ltb_spec j 32); cbn [andb]; try lia.
  - rewrite Z.ones_spec_low by lia. cbn. by rewrite andb_false_r.
  - rewrite Z.ones_spec_high by lia. rewrite (testbit_above v n) by lia. cbn. by rewrite andb_true_r, orb_false_r.
  - rewrite (testbit_above d 32) by lia. done.
  - rewrite (Z.testbit_neg_r _ (j - k)), (Z.testbit_neg_r _ (j - k)) by lia. cbn. by rewrite andb_true_r, orb_false_r.
Qed.

(** Byte [i] of a number. *)
Definition nth_byte (v i : Z) : Z := Z.land (Z.shiftr v (8 * i)) 255.
Lemma testbit_byte v i j : 0 <= i -> 0 <= j -> Z.testbit (nth_byte v i) j = (j <? 8) && Z.testbit v (8 * i + j).
Proof.
  intros Hi Hj. unfold nth_byte. change 255 with (Z.ones 8). rewrite Z.land_spec, Z.shiftr_spec by done.
  rewrite Z.testbit_ones by done. rewrite (proj2 (Z.leb_le 0 j)) by done. cbn [andb]. rewrite andb_comm.
  f_equal. f_equal. lia.
Qed.

Lemma nth_byte_div v i : 0 <= i -> nth_byte v i = v / 2 ^ (8 * i) mod 2 ^ 8.
Proof.
  intros Hi. unfold nth_byte. change 255 with (Z.ones 8). by rewrite Z.land_ones, Z.shiftr_div_pow2 by lia.
Qed.

(** The next byte up of a number cut at [8 * n] bits. *)
Lemma take_byte v i n : 0 <= i -> 0 <= n ->
  v / 2 ^ (8 * i) mod 2 ^ (8 * (n + 1)) = nth_byte v i + 2 ^ 8 * (v / 2 ^ (8 * (i + 1)) mod 2 ^ (8 * n)).
Proof.
  intros Hi Hn. rewrite nth_byte_div by done. replace (8 * (n + 1)) with (8 + 8 * n) by lia.
  rewrite Z.pow_add_r, Z.rem_mul_r by lia. do 2 f_equal. f_equal.
  replace (8 * (i + 1)) with (8 * i + 8) by lia. by rewrite Z.pow_add_r, Z.div_div by lia.
Qed.

Lemma take_half v i : 0 <= i ->
  Z.land (Z.shiftr v (i * 8)) 65535 = nth_byte v i + 2 ^ 8 * nth_byte v (i + 1).
Proof.
  intros Hi. change 65535 with (Z.ones 16). rewrite Z.land_ones, Z.shiftr_div_pow2 by lia.
  rewrite (Z.mul_comm i 8). change 16 with (8 * (1 + 1)). rewrite take_byte by lia. do 2 f_equal.
  by rewrite (nth_byte_div v (i + 1)) by lia.
Qed.

Lemma take_word v : 0 <= v < 2 ^ 32 ->
  v = nth_byte v 0 + 2 ^ 8 * nth_byte v 1 + 2 ^ 16 * nth_byte v 2 + 2 ^ 24 * nth_byte v 3.
Proof.
  intros Hv. pose proof (take_byte v 0 3 ltac:(lia) ltac:(lia)) as E0. pose proof (take_byte v 1 2 ltac:(lia) ltac:(lia)) as E1.
  pose proof (take_byte v 2 1 ltac:(lia) ltac:(lia)) as E2. pose proof (take_byte v 3 0 ltac:(lia) ltac:(lia)) as E3.
  change (2 ^ (8 * (3 + 1))) with (2 ^ 32) in E0. change (2 ^ (8 * 0)) with 1 in *. rewrite Z.div_1_r, Z.mod_small in E0 by done.
  rewrite Z.mod_1_r in E3. change (0 + 1) with 1 in *. change (1 + 1) with 2 in *. change (2 + 1) with 3 in *.
  rewrite E2 in E1. rewrite E1 in E0. rewrite E3 in E0. lia.
Qed.
