(* ===== verification/KMem.v ===== *)
(** * Kernel memory: a byte store and the accesses the C code makes to it

    Every object the kernel reaches through a pointer lives in one byte store
    keyed by kernel virtual address.  [rd n] and [wr n] are the little-endian
    accesses of an [n]-byte integer; [memset] and [memcpy] are the byte loops
    of src/src/kernel/mem.c. *)
From S2P Require Import Prelude.

#[local] Open Scope Z_scope.

Abbreviation mem := (gmap Z Z).

Definition rd8 (m : mem) (a : Z) : Z := u8 (default 0 (m !! a)).
Definition wr8 (m : mem) (a v : Z) : mem := <[a := u8 v]> m.

Fixpoint rd (n : nat) (m : mem) (a : Z) : Z :=
  match n with
  | O => 0
  | S k => rd8 m a + 256 * rd k m (a + 1)
  end.

Fixpoint wr (n : nat) (m : mem) (a v : Z) : mem :=
  match n with
  | O => m
  | S k => wr k (wr8 m a v) (a + 1) (v / 256)
  end.

Abbreviation rd16 := (rd 2).
Abbreviation rd32 := (rd 4).
Abbreviation rd64 := (rd 8).
Abbreviation wr32 := (wr 4).
Abbreviation wr64 := (wr 8).

(** The bytes at [a], [a+1], ... *)
Fixpoint bytes_at (n : nat) (m : mem) (a : Z) : list Z :=
  match n with
  | O => []
  | S k => rd8 m a :: bytes_at k m (a + 1)
  end.

(** [for (i = 0; i < n; i++) d[i] = c], [d] advancing. *)
Fixpoint memset_go (n : nat) (m : mem) (d c : Z) : mem :=
  match n with
  | O => m
  | S k => memset_go k (wr8 m d c) (d + 1) c
  end.
Definition memset (m : mem) (dst c n : Z) : mem := memset_go (Z.to_nat n) m dst c.

(** [for (i = 0; i < n; i++) d[i] = s[i]]: each byte is read from the memory
    already written by the previous iterations. *)
Fixpoint memcpy_go (n : nat) (m : mem) (d s : Z) : mem :=
  match n with
  | O => m
  | S k => memcpy_go k (wr8 m d (rd8 m s)) (d + 1) (s + 1)
  end.
Definition memcpy (m : mem) (dst src n : Z) : mem := memcpy_go (Z.to_nat n) m dst src.

(** What a [memcpy] of [bs] to [dst] leaves. *)
Fixpoint store_bytes (m : mem) (dst : Z) (bs : list Z) : mem :=
  match bs with [] => m | b :: bs' => store_bytes (wr8 m dst b) (dst + 1) bs' end.

(** ** Byte-level facts *)

Lemma rd8_range m a : 0 <= rd8 m a < 256.
Proof. apply u8_range. Qed.

Lemma rd8_wr8 m a v b : rd8 (wr8 m a v) b = if decide (a = b) then u8 v else rd8 m b.
Proof.
  unfold rd8, wr8. rewrite lookup_insert. case_decide; [|done].
  simpl. apply Z.mod_mod. lia.
Qed.

Lemma rd8_wr8_eq m a v : rd8 (wr8 m a v) a = u8 v.
Proof. rewrite rd8_wr8. by case_decide. Qed.

Lemma rd8_wr8_ne m a v b : a <> b -> rd8 (wr8 m a v) b = rd8 m b.
Proof. intros. rewrite rd8_wr8. by case_decide. Qed.

Lemma rd_range n m a : 0 <= rd n m a < 2 ^ (8 * Z.of_nat n).
Proof.
  revert a. induction n as [|n IH]; intros a; [done|].
  cbn [rd]. pose proof (rd8_range m a). specialize (IH (a + 1)).
  replace (8 * Z.of_nat (S n)) with (8 + 8 * Z.of_nat n) by lia.
  rewrite Z.pow_add_r by lia. lia.
Qed.

(** A load depends only on the bytes it covers. *)
Lemma rd_agree n m m' a :
  (forall b, a <= b < a + Z.of_nat n -> rd8 m b = rd8 m' b) -> rd n m a = rd n m' a.
Proof.
  revert a. induction n as [|n IH]; intros a H; [done|]. cbn [rd].
  rewrite (H a) by lia. f_equal. f_equal. apply IH. intros b Hb. apply H. lia.
Qed.

Lemma rd8_wr_ne n m a v b :
  b < a \/ a + Z.of_nat n <= b -> rd8 (wr n m a v) b = rd8 m b.
Proof.
  revert m a v. induction n as [|n IH]; intros m a v Hb; [done|]. cbn [wr].
  rewrite IH by lia. apply rd8_wr8_ne. lia.
Qed.

Lemma rd_wr_ne k n m a v b :
  b + Z.of_nat k <= a \/ a + Z.of_nat n <= b -> rd k (wr n m a v) b = rd k m b.
Proof. intros Hb. apply rd_agree. intros c Hc. apply rd8_wr_ne. lia. Qed.

Lemma rd_wr_eq n m a v : rd n (wr n m a v) a = v mod 2 ^ (8 * Z.of_nat n).
Proof.
  revert m a v. induction n as [|n IH]; intros m a v; [by rewrite Z.mod_1_r|].
  cbn [rd wr]. rewrite IH, rd8_wr_ne, rd8_wr8_eq by lia.
  replace (8 * Z.of_nat (S n)) with (8 + 8 * Z.of_nat n) by lia.
  rewrite Z.pow_add_r by lia. change (2 ^ 8) with 256.
  by rewrite Z.rem_mul_r by lia.
Qed.

Lemma rd64_wr64_eq m a v : 0 <= v < 2 ^ 64 -> rd64 (wr64 m a v) a = v.
Proof. intros. rewrite rd_wr_eq. by apply Z.mod_small. Qed.

Lemma rd64_range m a : 0 <= rd64 m a < 2 ^ 64.
Proof. apply (rd_range 8). Qed.

Lemma rd8_store_bytes m d bs a :
  rd8 (store_bytes m d bs) a =
  if (d <=? a) && (a <? d + Z.of_nat (length bs)) then u8 (bs !!! Z.to_nat (a - d)) else rd8 m a.
Proof.
  revert m d. induction bs as [|b bs IH]; intros m d; cbn [store_bytes length].
  - replace ((d <=? a) && (a <? d + Z.of_nat 0)) with false; [done|].
    destruct (Z.leb_spec d a), (Z.ltb_spec a (d + Z.of_nat 0)); lia || done.
  - rewrite IH, rd8_wr8. destruct (decide (d = a)) as [->|Hne].
    + rewrite (proj2 (Z.leb_gt (a + 1) a)), Z.leb_refl by lia. cbn [andb].
      rewrite (proj2 (Z.ltb_lt _ _)) by lia. by rewrite Z.sub_diag.
    + replace (d + 1 <=? a) with (d <=? a) by (destruct (Z.leb_spec d a), (Z.leb_spec (d + 1) a); lia || done).
      replace (d + 1 + Z.of_nat (length bs)) with (d + Z.of_nat (S (length bs))) by lia.
      destruct (Z.leb_spec d a); cbn [andb]; [|done]. destruct (Z.ltb_spec a (d + Z.of_nat (S (length bs)))); [|done].
      replace (Z.to_nat (a - d)) with (S (Z.to_nat (a - (d + 1)))) by lia. done.
Qed.

Lemma length_bytes_at n m a : length (bytes_at n m a) = n.
Proof. revert a. induction n as [|n IH]; intros a; cbn; [done|by rewrite IH]. Qed.

Lemma lookup_bytes_at n m a (j : nat) : (j < n)%nat -> bytes_at n m a !!! j = rd8 m (a + Z.of_nat j).
Proof.
  revert a j. induction n as [|n IH]; intros a [|j] Hj; [lia..| |]; cbn [bytes_at].
  - cbn. f_equal. lia.
  - cbn. rewrite IH by lia. f_equal. lia.
Qed.

Lemma bytes_at_snoc n m a : bytes_at (S n) m a = bytes_at n m a ++ [rd8 m (a + Z.of_nat n)].
Proof.
  revert a. induction n as [|n IH]; intros a; [cbn; do 2 f_equal; lia|]. cbn [bytes_at app]. f_equal.
  cbn [bytes_at] in IH. rewrite IH. do 3 f_equal; lia.
Qed.

Lemma bytes_at_agree n m m' a :
  (forall b, a <= b < a + Z.of_nat n -> rd8 m b = rd8 m' b) -> bytes_at n m a = bytes_at n m' a.
Proof.
  revert a. induction n as [|n IH]; intros a H; [done|]. cbn [bytes_at]. rewrite (H a) by lia. f_equal. apply IH.
  intros b Hb. apply H. lia.
Qed.

(** ** memset and memcpy *)

Lemma rd8_memset_go n m d c a :
  rd8 (memset_go n m d c) a =
  if (d <=? a) && (a <? d + Z.of_nat n) then u8 c else rd8 m a.
Proof.
  revert m d. induction n as [|n IH]; intros m d; cbn [memset_go].
  - destruct (Z.leb_spec d a), (Z.ltb_spec a (d + Z.of_nat 0)); simpl; (lia || done).
  - rewrite IH, rd8_wr8.
    destruct (Z.leb_spec (d + 1) a), (Z.ltb_spec a (d + 1 + Z.of_nat n)),
      (Z.leb_spec d a), (Z.ltb_spec a (d + Z.of_nat (S n)));
      simpl; try lia; case_decide; (lia || done).
Qed.

(** The loop of [memset] sets exactly the [n] bytes from [dst]. *)
Lemma rd8_memset m d c n a :
  rd8 (memset m d c n) a = if (d <=? a) && (a <? d + n) then u8 c else rd8 m a.
Proof.
  unfold memset. rewrite rd8_memset_go.
  destruct (Z.leb_spec 0 n); [by rewrite Z2Nat.id|].
  rewrite Z2Nat.nonpos by lia.
  destruct (Z.leb_spec d a), (Z.ltb_spec a (d + n)), (Z.ltb_spec a (d + Z.of_nat 0));
    simpl; (lia || done).
Qed.

Lemma rd8_memset_out m d c n a : a < d \/ d + n <= a -> rd8 (memset m d c n) a = rd8 m a.
Proof.
  intros Ha. rewrite rd8_memset.
  destruct (Z.leb_spec d a), (Z.ltb_spec a (d + n)); simpl; (lia || done).
Qed.

Lemma rd_memset_out k m d c n a :
  a + Z.of_nat k <= d \/ d + n <= a -> rd k (memset m d c n) a = rd k m a.
Proof. intros Ha. apply rd_agree. intros b Hb. apply rd8_memset_out. lia. Qed.

Lemma rd_memset_0 k m d n a :
  d <= a -> a + Z.of_nat k <= d + n -> rd k (memset m d 0 n) a = 0.
Proof.
  revert a. induction k as [|k IH]; intros a Ha Hk; [done|]. cbn [rd].
  rewrite IH by lia. rewrite rd8_memset.
  destruct (Z.leb_spec d a), (Z.ltb_spec a (d + n)); simpl; (lia || done).
Qed.

Lemma rd8_memcpy_go n m d s a :
  d + Z.of_nat n <= s \/ s + Z.of_nat n <= d ->
  rd8 (memcpy_go n m d s) a =
  if (d <=? a) && (a <? d + Z.of_nat n) then rd8 m (s + (a - d)) else rd8 m a.
Proof.
  revert m d s. induction n as [|n IH]; intros m d s Hd; cbn [memcpy_go].
  - destruct (Z.leb_spec d a), (Z.ltb_spec a (d + Z.of_nat 0)); simpl; (lia || done).
  - rewrite IH by lia.
    destruct (Z.leb_spec (d + 1) a), (Z.ltb_spec a (d + 1 + Z.of_nat n)),
      (Z.leb_spec d a), (Z.ltb_spec a (d + Z.of_nat (S n))); simpl; try lia;
      rewrite rd8_wr8; case_decide; try lia; try done.
    + f_equal. lia.
    + rewrite u8_small by (pose proof (rd8_range m s); lia). f_equal. lia.
Qed.

(** [memcpy] between disjoint ranges copies them. *)
Lemma rd8_memcpy m d s n a :
  0 <= n -> d + n <= s \/ s + n <= d ->
  rd8 (memcpy m d s n) a = if (d <=? a) && (a <? d + n) then rd8 m (s + (a - d)) else rd8 m a.
Proof. intros Hn Hd. unfold memcpy. rewrite rd8_memcpy_go; rewrite Z2Nat.id by done; done. Qed.

Lemma rd_memcpy_out k m d s n a :
  0 <= n -> d + n <= s \/ s + n <= d -> a + Z.of_nat k <= d \/ d + n <= a ->
  rd k (memcpy m d s n) a = rd k m a.
Proof.
  intros Hn Hd Ha. apply rd_agree. intros b Hb. rewrite rd8_memcpy by done.
  destruct (Z.leb_spec d b), (Z.ltb_spec b (d + n)); simpl; (lia || done).
Qed.

Create HintDb kmem.
#[export] Hint Resolve rd8_range rd_range rd64_range : kmem.
#[global] Arguments rd : simpl never.
#[global] Arguments wr : simpl never.
#[global] Arguments memset : simpl never.
#[global] Arguments memcpy : simpl never.

(** Conversion compares memories before computing them. *)
Strategy 1000 [memset memcpy rd wr].
