(* ===== verification/Spinlock.v ===== *)
(** * Spinlocks and interrupt nesting (src/src/kernel/spinlock.h)

    [hw] is what the lock code touches of the executing CPU: its interrupt
    flag, its GS base (the address of its [struct cpu]) and the CPU table.
    The functions of spinlock.h are translated as they run on one CPU; the
    interleaving of several CPUs is the step relation [lock_step], whose steps
    are the memory accesses those functions make to the lock word. *)
From S2P Require Import Prelude.

#[local] Open Scope Z_scope.

(** [struct cpu]; pointers are addresses, 0 is the null pointer. *)
Record cpu := Cpu {
  kernel_rsp : Z;
  scratch_rsp : Z;
  cpu_proc : Z;
  scheduler_ctx : Z;
  apic_id : Z;
  ncli : Z;
  intena : Z;
  cpu_id : Z
}.

(** [struct spinlock] *)
Record spinlock := Spinlock {
  locked : Z;
  lname : Z;
  lcpu : Z
}.

Record hw := Hw {
  iflag : bool;              (* RFLAGS.IF *)
  gs_base : Z;               (* MSR_GS_BASE *)
  cpus : gmap Z cpu          (* the [struct cpu] objects, by address *)
}.

Definition set_iflag (b : bool) (h : hw) : hw := Hw b (gs_base h) (cpus h).
Definition set_cpus (m : gmap Z cpu) (h : hw) : hw := Hw (iflag h) (gs_base h) m.
Definition set_ncli (n : Z) (c : cpu) : cpu :=
  Cpu (kernel_rsp c) (scratch_rsp c) (cpu_proc c) (scheduler_ctx c) (apic_id c) n
      (intena c) (cpu_id c).
Definition set_intena (n : Z) (c : cpu) : cpu :=
  Cpu (kernel_rsp c) (scratch_rsp c) (cpu_proc c) (scheduler_ctx c) (apic_id c) (ncli c)
      n (cpu_id c).

Definition cli : M hw unit := mmodify (set_iflag false).
Definition sti : M hw unit := mmodify (set_iflag true).

(** [hlt] waits for an interrupt: with interrupts off it never comes back. *)
Definition hlt : M hw unit := fun h => if iflag h then Ok (tt, h) else Stuck Halt.

Definition mycpu : M hw Z := mgets gs_base.

(** Dereferences of a [struct cpu *]. *)
Definition cpu_load (p : Z) : M hw cpu := fun h =>
  match cpus h !! p with Some c => Ok (c, h) | None => Stuck Fault end.
Definition cpu_store (p : Z) (f : cpu -> cpu) : M hw unit := fun h =>
  match cpus h !! p with
  | Some c => Ok (tt, set_cpus (<[p := f c]> (cpus h)) h)
  | None => Stuck Fault
  end.

Definition pushcli : M hw unit :=
  rflags ← mgets iflag;
  cli;;
  c ← mycpu;
  v ← cpu_load c;
  (if ncli v =? 0
   then cpu_store c (set_intena (if rflags : bool then 1 else 0))
   else mret tt);;
  cpu_store c (fun v => set_ncli (u8 (ncli v + 1)) v).

Definition popcli : M hw unit :=
  rflags ← mgets iflag;
  (if rflags : bool then hlt else mret tt);;
  c ← mycpu;
  v ← cpu_load c;
  (if ncli v =? 0 then hlt else mret tt);;
  cpu_store c (fun v => set_ncli (u8 (ncli v - 1)) v);;
  v ← cpu_load c;
  if (ncli v =? 0) && negb (intena v =? 0) then sti else mret tt.

(** [lk->locked && lk->cpu == mycpu()] *)
Definition holds (lk : spinlock) (me : Z) : bool := negb (locked lk =? 0) && (lcpu lk =? me).

Definition holding (lk : spinlock) : M hw bool :=
  pushcli;;
  me ← mycpu;
  let r := holds lk me in
  popcli;;
  mret r.

(** [xchg(&lk->locked, 1)]: the old value, and the lock after the store. *)
Definition xchg_locked (lk : spinlock) (newval : Z) : Z * spinlock :=
  (locked lk, Spinlock newval (lname lk) (lcpu lk)).

(** [acquire] on one CPU.  When the exchange finds the lock taken the [while]
    loop repeats until another CPU frees it, which cannot happen while only
    this CPU runs: the computation is then [Stuck Spin]. *)
Definition acquire (lk : spinlock) : M hw spinlock :=
  pushcli;;
  h ← holding lk;
  (if h : bool then hlt else mret tt);;
  let '(old, lk) := xchg_locked lk 1 in
  if negb (old =? 0) then mstuck Spin
  else me ← mycpu; mret (Spinlock (locked lk) (lname lk) me).

Definition release (lk : spinlock) : M hw spinlock :=
  h ← holding lk;
  (if negb h then hlt else mret tt);;
  let lk := Spinlock (locked lk) (lname lk) 0 in
  let lk := Spinlock 0 (lname lk) (lcpu lk) in
  popcli;;
  mret lk.

Definition initlock (name : Z) : spinlock := Spinlock 0 name 0.

(** ** What the nesting counters guarantee *)

(** The executing CPU has its structure, its nesting depth is below the width
    of [ncli], and interrupts are on only outside every section. *)
Definition cpu_ready (h : hw) (c : cpu) : Prop :=
  cpus h !! gs_base h = Some c /\ 0 <= ncli c < 250 /\ (iflag h = true -> ncli c = 0).

(** Equality of CPU states up to the scratch field [intena]. *)
Definition same_hw (h h' : hw) : Prop :=
  iflag h' = iflag h /\ gs_base h' = gs_base h /\
  forall p, set_intena 0 <$> cpus h' !! p = set_intena 0 <$> cpus h !! p.

#[export] Instance same_hw_equivalence : Equivalence same_hw.
Proof.
  split.
  - by intros h.
  - intros h h' (Hi & Hg & Hc). split_and!; auto.
  - intros h1 h2 h3 (Hi & Hg & Hc) (Hi' & Hg' & Hc'). split_and!; [congruence..|].
    intros p. by rewrite Hc'.
Qed.

(** [h'] is [h] inside one more lock section. *)
Definition held (h h' : hw) : Prop :=
  exists c i, cpu_ready h c /\ iflag h' = false /\ gs_base h' = gs_base h /\
    cpus h' = <[gs_base h := set_ncli (ncli c + 1) (set_intena i c)]> (cpus h) /\
    (ncli c = 0 -> i = if iflag h then 1 else 0).

Lemma set_intena_same c : set_intena (intena c) c = c.
Proof. by destruct c. Qed.
Lemma set_intena_twice i j c : set_intena i (set_intena j c) = set_intena i c.
Proof. by destruct c. Qed.
Lemma set_ncli_twice i j c : set_ncli i (set_ncli j c) = set_ncli i c.
Proof. by destruct c. Qed.
Lemma set_ncli_same c : set_ncli (ncli c) c = c.
Proof. by destruct c. Qed.

(** The net effect of one [pushcli] and of one matched [popcli]. *)
Lemma pushcli_eq h c :
  cpus h !! gs_base h = Some c ->
  pushcli h = Ok (tt, Hw false (gs_base h)
    (<[gs_base h := set_ncli (u8 (ncli c + 1))
        (if ncli c =? 0 then set_intena (if iflag h then 1 else 0) c else c)]> (cpus h))).
Proof.
  intros Hc. destruct h as [f g m]; cbn [iflag gs_base cpus] in *.
  unfold pushcli, mbind, M_bind, mycpu, mgets, cli, mmodify, cpu_load, cpu_store, mret, M_ret,
    set_iflag, set_cpus; cbn [iflag gs_base cpus].
 rewrite Hc.
  destruct (Z.eqb_spec (ncli c) 0) as [E|E]; cbn [iflag gs_base cpus]; rewrite Hc;
    cbn [iflag gs_base cpus]; [|done].
  rewrite lookup_insert_eq, insert_insert_eq. done.
Qed.

Lemma popcli_eq h c :
  cpus h !! gs_base h = Some c -> iflag h = false -> ncli c <> 0 ->
  popcli h = Ok (tt, Hw ((u8 (ncli c - 1) =? 0) && negb (intena c =? 0)) (gs_base h)
                        (<[gs_base h := set_ncli (u8 (ncli c - 1)) c]> (cpus h))).
Proof.
  intros Hc Hf Hn. destruct h as [f g m]; cbn [iflag gs_base cpus] in *; subst f.
  unfold popcli, mbind, M_bind, mycpu, mgets, sti, hlt, mmodify, cpu_load, cpu_store, mret, M_ret,
    set_iflag, set_cpus; cbn [iflag gs_base cpus]. rewrite Hc.
  destruct (Z.eqb_spec (ncli c) 0) as [E|E]; [done|]; cbn [iflag gs_base cpus].
  rewrite Hc; cbn [iflag gs_base cpus]. rewrite lookup_insert_eq; cbn [ncli intena set_ncli].
  by destruct (_ && _).
Qed.

(** One [pushcli] enters a section. *)
Lemma pushcli_held h c : cpu_ready h c -> wp pushcli h (fun _ h' => held h h').
Proof.
  intros Hr. pose proof Hr as (Hc & Hn & Hi). unfold wp. rewrite (pushcli_eq h c Hc).
  rewrite u8_small by lia. destruct (Z.eqb_spec (ncli c) 0) as [E|E].
  - by exists c, (if iflag h then 1 else 0).
  - exists c, (intena c). split_and!; [done..| |done]. by rewrite set_intena_same.
Qed.

(** The matching [popcli] leaves it, restoring the interrupt flag. *)
Lemma popcli_held h h' : held h h' -> wp popcli h' (fun _ h'' => same_hw h h'').
Proof.
  intros (c & i & Hr & Hf & Hg & Hm & Hi). destruct Hr as (Hc & Hn & Hif).
  set (c1 := set_ncli (ncli c + 1) (set_intena i c)) in *.
  assert (cpus h' !! gs_base h' = Some c1) as Hc1 by by rewrite Hm, Hg, lookup_insert_eq.
  unfold wp. rewrite (popcli_eq h' c1 Hc1 Hf) by (simpl; lia).
  cbn [ncli intena c1 set_ncli set_intena]. rewrite Z.add_simpl_r, u8_small by lia.
  split_and!; cbn [iflag gs_base cpus]; [|done|].
  - destruct (Z.eqb_spec (ncli c) 0) as [E|E].
    + rewrite (Hi E). by destruct (iflag h).
    + destruct (iflag h); [|done]. by specialize (Hif eq_refl).
  - intros p. rewrite Hm, Hg, insert_insert_eq. destruct (decide (p = gs_base h)) as [->|Hp].
    + rewrite lookup_insert_eq, Hc. by destruct c.
    + by rewrite lookup_insert_ne.
Qed.

Lemma same_hw_ready h h' c : same_hw h h' -> cpu_ready h c ->
  exists c', cpu_ready h' c' /\ ncli c' = ncli c.
Proof.
  intros (Hi & Hg & Hc) (Hc0 & Hn & Hif). specialize (Hc (gs_base h)).
  rewrite Hc0 in Hc. destruct (cpus h' !! gs_base h) as [c'|] eqn:E; [|done].
  simpl in Hc. injection Hc as _ _ _ _ _ Hn' _.
  exists c'. split; [|done]. split_and!; [congruence|lia..|]. rewrite Hi, Hn'. auto.
Qed.

(** [holding] inside a section changes nothing at all. *)
Lemma holding_nested lk h c :
  cpus h !! gs_base h = Some c -> 0 < ncli c <= 252 -> iflag h = false ->
  wp (holding lk) h (fun r h' => r = holds lk (gs_base h) /\ h' = h).
Proof.
  intros Hc Hn Hf. destruct h as [f g m]; cbn [iflag gs_base cpus] in *; subst f.
  unfold holding. wp_step. unfold wp at 1. rewrite (pushcli_eq _ c) by done.
  rewrite (proj2 (Z.eqb_neq _ _)), u8_small by lia. wp_step. apply wp_gets.
  wp_step. unfold wp at 1. cbn [iflag gs_base cpus].
  rewrite (popcli_eq _ (set_ncli (ncli c + 1) c));
    cbn [iflag gs_base cpus ncli intena set_ncli];
    [|by rewrite lookup_insert_eq|done|lia].
  rewrite Z.add_simpl_r, u8_small, (proj2 (Z.eqb_neq _ _)) by lia.
  split; [done|]. cbn [gs_base].
  rewrite insert_insert_eq, set_ncli_twice, set_ncli_same. by rewrite insert_id.
Qed.

Lemma held_cpu h h' : held h h' ->
  exists c', cpus h' !! gs_base h' = Some c' /\ 0 < ncli c' <= 250 /\ iflag h' = false.
Proof.
  intros (c & i & (Hc & Hn & Hif) & Hf & Hg & Hm & _). eexists.
  split_and!; [by rewrite Hm, Hg, lookup_insert_eq| | |done]; simpl; lia.
Qed.

Lemma held_gs h h' : held h h' -> gs_base h' = gs_base h.
Proof. by intros (c & i & Hr & Hf & Hg & Hm). Qed.

(** [holding] answers the test and leaves the CPU as it found it. *)
Lemma holding_spec lk h c :
  cpu_ready h c ->
  wp (holding lk) h (fun r h' => r = holds lk (gs_base h) /\ same_hw h h').
Proof.
  intros Hr. unfold holding. wp_step. eapply wp_mono; [by eapply pushcli_held|].
  intros [] h1 H1. wp_step. apply wp_gets. wp_step. eapply wp_mono; [by eapply popcli_held|].
  intros [] h2 H2. wp_step. split; [|done]. by rewrite (held_gs _ _ H1).
Qed.

(** [acquire] of a free lock takes it in this CPU's name, interrupts off. *)
Lemma acquire_spec lk h c :
  cpu_ready h c -> locked lk = 0 ->
  wp (acquire lk) h (fun lk' h' => lk' = Spinlock 1 (lname lk) (gs_base h) /\ held h h').
Proof.
  intros Hr Hl. unfold acquire. wp_step. eapply wp_mono; [by eapply pushcli_held|].
  intros [] h1 H1. destruct (held_cpu _ _ H1) as (c1 & Hc1 & Hn1 & Hf1).
  wp_step. eapply wp_mono; [eapply holding_nested; [done|lia|done]|]. intros r h2 [-> ->].
  unfold holds, xchg_locked. rewrite Hl. simpl. wp_steps.
  split; [|done]. by rewrite (held_gs _ _ H1).
Qed.

(** [release] by the holder frees it and undoes the [pushcli] of [acquire]. *)
Lemma release_spec nm h h' :
  held h h' ->
  wp (release (Spinlock 1 nm (gs_base h))) h'
     (fun lk' h'' => lk' = Spinlock 0 nm 0 /\ same_hw h h'').
Proof.
  intros H1. destruct (held_cpu _ _ H1) as (c1 & Hc1 & Hn1 & Hf1).
  unfold release. wp_step. eapply wp_mono; [eapply holding_nested; [done|lia|done]|]. intros r h2 [-> ->].
  unfold holds. cbn [locked lcpu]. rewrite (held_gs _ _ H1), Z.eqb_refl. simpl. wp_steps.
  eapply wp_mono; [by eapply popcli_held|]. intros [] h3 H3. by wp_steps.
Qed.

(** A second [acquire] by the holder stops the CPU: the deadlock check. *)
Lemma acquire_held_halts nm h h' :
  held h h' -> acquire (Spinlock 1 nm (gs_base h)) h' = Stuck Halt.
Proof.
  intros H1. destruct (held_cpu _ _ H1) as (c1 & Hc1 & Hn1 & Hf1).
  unfold acquire, mbind, M_bind. rewrite (pushcli_eq _ _ Hc1).
  rewrite (proj2 (Z.eqb_neq (ncli c1) 0)) by lia. rewrite u8_small by lia.
  set (h2 := Hw _ _ _).
  pose proof (holding_nested (Spinlock 1 nm (gs_base h)) h2 (set_ncli (ncli c1 + 1) c1)) as H2.
  unfold wp in H2. destruct (holding _ h2) as [[r h3]|w].
  - destruct H2 as [-> ->]; [by apply lookup_insert_eq|simpl; lia|done|].
    unfold holds. cbn [locked lcpu h2 gs_base]. by rewrite (held_gs _ _ H1), Z.eqb_refl.
  - exfalso. apply H2; [by apply lookup_insert_eq|simpl; lia|done].
Qed.

(** ** Several CPUs on one lock

    A CPU is between two of the accesses [acquire] and [release] make to the
    lock word.  A step is one such access; the CPUs' steps interleave freely. *)
Inductive pc :=
| Outside      (* not in an acquire..release section *)
| Trying       (* past the [holding] check, in the [xchg] loop *)
| Won          (* the exchange read 0; [lk->cpu] not stored yet *)
| Inside       (* acquire has returned *)
| Leaving      (* release has cleared [lk->cpu]; [locked] not stored yet *)
| Halted.      (* stopped at one of the two [hlt]s *)

#[export] Instance pc_eq_dec : EqDecision pc.
Proof. solve_decision. Defined.

Record sys := Sys { word : spinlock; at_pc : Z -> pc }.

Definition set_pc (c : Z) (p : pc) (f : Z -> pc) : Z -> pc :=
  fun d => if decide (c = d) then p else f d.

(** CPU structures have non-null addresses. *)
Inductive lock_step : sys -> sys -> Prop :=
| step_check lk f c : c <> 0 -> f c = Outside ->
    lock_step (Sys lk f) (Sys lk (set_pc c (if holds lk c then Halted else Trying) f))
| step_spin lk f c : f c = Trying -> fst (xchg_locked lk 1) <> 0 ->
    lock_step (Sys lk f) (Sys (snd (xchg_locked lk 1)) f)
| step_win lk f c : f c = Trying -> fst (xchg_locked lk 1) = 0 ->
    lock_step (Sys lk f) (Sys (snd (xchg_locked lk 1)) (set_pc c Won f))
| step_own lk f c : f c = Won ->
    lock_step (Sys lk f) (Sys (Spinlock (locked lk) (lname lk) c) (set_pc c Inside f))
| step_disown lk f c : f c = Inside ->
    lock_step (Sys lk f)
      (if holds lk c then Sys (Spinlock (locked lk) (lname lk) 0) (set_pc c Leaving f)
       else Sys lk (set_pc c Halted f))
| step_free lk f c : f c = Leaving ->
    lock_step (Sys lk f) (Sys (Spinlock 0 (lname lk) (lcpu lk)) (set_pc c Outside f)).

(** Between winning the exchange and freeing the word. *)
Definition owning (p : pc) : bool :=
  match p with Won | Inside | Leaving => true | _ => false end.

Definition owner_cpu (f : Z -> pc) (o : option Z) : Z :=
  match o with
  | Some c => if decide (f c = Inside) then c else 0
  | None => 0
  end.

(** At any time there is at most one owner [o]; the two fields of the lock
    word are determined by it. *)
Record lock_inv (s : sys) (o : option Z) : Prop := {
  inv_own : forall c, owning (at_pc s c) = true <-> o = Some c;
  inv_bit : locked (word s) = if o is Some _ then 1 else 0;
  inv_cpu : lcpu (word s) = owner_cpu (at_pc s) o;
  inv_nz : forall c, at_pc s c <> Outside -> c <> 0;
  inv_live : forall c, at_pc s c <> Halted
}.

Lemma lock_inv_init nm : lock_inv (Sys (initlock nm) (fun _ => Outside)) None.
Proof. by split. Qed.

Lemma set_pc_eq c p f : set_pc c p f c = p.
Proof. unfold set_pc. by case_decide. Qed.
Lemma set_pc_ne c p f d : c <> d -> set_pc c p f d = f d.
Proof. unfold set_pc. by case_decide. Qed.

(** The shape every step has: CPU [c] moves to [p], the owner becomes [o']. *)
Lemma lock_inv_move lk f o lk' c p o' :
  lock_inv (Sys lk f) o ->
  (forall d, d <> c -> o = Some d <-> o' = Some d) ->
  (owning p = true <-> o' = Some c) ->
  locked lk' = (if o' is Some _ then 1 else 0) ->
  lcpu lk' = owner_cpu (set_pc c p f) o' ->
  (p <> Outside -> c <> 0) -> p <> Halted ->
  lock_inv (Sys lk' (set_pc c p f)) o'.
Proof.
  intros [Hown Hbit Hcpu Hnz Hlive] Ho Hp Hb Hc Hz Hl. split; cbn [word at_pc] in *.
  - intros d. destruct (decide (c = d)) as [->|Hd]; [by rewrite set_pc_eq|].
    rewrite set_pc_ne by done. rewrite Hown. by apply Ho.
  - done.
  - done.
  - intros d. destruct (decide (c = d)) as [->|Hd]; [by rewrite set_pc_eq|].
    rewrite set_pc_ne by done. apply Hnz.
  - intros d. destruct (decide (c = d)) as [->|Hd]; [by rewrite set_pc_eq|].
    rewrite set_pc_ne by done. apply Hlive.
Qed.

(** The [holding] test answers true exactly to the CPU inside the section. *)
Lemma holds_iff lk f o c :
  lock_inv (Sys lk f) o -> c <> 0 -> holds lk c = true <-> f c = Inside.
Proof.
  intros [Hown Hbit Hcpu Hnz Hlive] Hc. cbn [word at_pc] in *.
  unfold holds. rewrite Hbit, Hcpu. specialize (Hown c). destruct o as [d|]; simpl.
  - case_decide as E.
    + destruct (Z.eqb_spec d c) as [->|Hne]; [done|]. split; [done|].
      intros E'. rewrite E' in Hown. destruct Hown as [Hown _]. by specialize (Hown eq_refl) as [= ->].
    + destruct (Z.eqb_spec 0 c) as [|_]; [done|]. split; [done|].
      intros E'. rewrite E' in Hown. destruct Hown as [Hown _]. by specialize (Hown eq_refl) as [= ->].
  - split; [done|]. intros E'. rewrite E' in Hown. destruct Hown as [Hown _]. by specialize (Hown eq_refl) as [= ->].
Qed.

(** Every access of every CPU preserves the invariant. *)
Lemma lock_step_inv s s' o :
  lock_inv s o -> lock_step s s' -> exists o', lock_inv s' o'.
Proof.
  intros Hi Hstep. pose proof Hi as [Hown Hbit Hcpu Hnz Hlive].
  destruct Hstep as [lk f c Hc Hf|lk f c Hf Hl|lk f c Hf Hl|lk f c Hf|lk f c Hf|lk f c Hf];
    cbn [word at_pc xchg_locked fst snd] in *; pose proof (Hown c) as Hc'; rewrite Hf in Hc'.
  - destruct (holds lk c) eqn:E.
    { apply (holds_iff lk f o c Hi Hc) in E. congruence. }
    exists o. eapply lock_inv_move; [exact Hi|done|exact Hc'|done| |done|done].
    rewrite Hcpu. destruct o as [d|]; [|done]. simpl. rewrite set_pc_ne; [done|].
    intros <-. naive_solver.
  - exists o. destruct Hi. split; cbn [word at_pc locked lcpu] in *; try done.
    by destruct o.
  - destruct o as [d|]; [by rewrite Hbit in Hl|]. exists (Some c).
    eapply lock_inv_move; [exact Hi| |done|done| | |done]; cbn [locked lcpu].
    + intros d Hd. split; [done|]. by intros [= ->].
    + rewrite Hcpu. simpl. by rewrite set_pc_eq.
    + intros _. apply Hnz. by rewrite Hf.
  - assert (o = Some c) as -> by by apply Hc'. exists (Some c).
    eapply lock_inv_move; [exact Hi|done|done|done| | |done]; cbn [lcpu].
    + simpl. by rewrite set_pc_eq.
    + intros _. apply Hnz. by rewrite Hf.
  - assert (o = Some c) as -> by by apply Hc'.
    assert (c <> 0) as Hc0 by (apply Hnz; by rewrite Hf).
    rewrite (proj2 (holds_iff lk f (Some c) c Hi Hc0) Hf). exists (Some c).
    eapply lock_inv_move; [exact Hi|done|done|done| |done|done]; cbn [lcpu].
    simpl. by rewrite set_pc_eq.
  - assert (o = Some c) as -> by by apply Hc'. exists None.
    eapply lock_inv_move; [exact Hi| |done|done| |done|done]; cbn [lcpu].
    + intros d Hd. split; [|done]. by intros [= ->].
    + rewrite Hcpu. simpl. by rewrite Hf.
Qed.

Lemma lock_steps_inv s s' o :
  lock_inv s o -> rtc lock_step s s' -> exists o', lock_inv s' o'.
Proof.
  intros Hi Hs. revert o Hi. induction Hs as [s|s1 s2 s3 H12 _ IH]; [eauto|].
  intros o Hi. destruct (lock_step_inv _ _ _ Hi H12) as (o2 & Hi2). eauto.
Qed.

(** The path one CPU takes through the steps when it runs [acquire] on a free
    lock: the sequential function and the interleaving model agree. *)
Lemma acquire_path lk f c h :
  f c = Outside -> locked lk = 0 -> gs_base h = c -> c <> 0 ->
  (exists v, cpu_ready h v) ->
  exists lk' h', acquire lk h = Ok (lk', h') /\
    exists f', rtc lock_step (Sys lk f) (Sys lk' f') /\ f' c = Inside.
Proof.
  intros Hf Hl <- Hc (v & Hr).
  pose proof (acquire_spec lk h v Hr Hl) as (lk' & h' & Ha & -> & Hheld)%wp_ok.
  eexists _, _. split; [done|].
  set (f1 := set_pc (gs_base h) Trying f). set (f2 := set_pc (gs_base h) Won f1).
  exists (set_pc (gs_base h) Inside f2). split; [|by rewrite set_pc_eq].
  eapply rtc_l. { apply step_check; done. }
  unfold holds. rewrite Hl. simpl. fold f1.
  eapply rtc_l. { apply (step_win _ _ (gs_base h)); [apply set_pc_eq|done]. }
  fold f2. eapply rtc_l. { apply (step_own _ _ (gs_base h)). apply set_pc_eq. }
  done.
Qed.

(** ** Properties *)

(** C2: mutual exclusion and no false alarm.  However the accesses of any
    number of CPUs to one lock interleave, at most one CPU is between winning
    the exchange and freeing the word, the owner field names the CPU inside
    the section, and no CPU ever stops at the "acquire held lock" or "release
    unheld lock" checks when each uses the lock as acquire;release. *)
Theorem spinlock_mutual_exclusion nm s :
  rtc lock_step (Sys (initlock nm) (fun _ => Outside)) s ->
  (forall c d, owning (at_pc s c) = true -> owning (at_pc s d) = true -> c = d) /\
  (forall c, at_pc s c = Inside -> lcpu (word s) = c /\ locked (word s) = 1) /\
  (forall c, at_pc s c <> Halted).
Proof.
  intros Hr. destruct (lock_steps_inv _ _ None (lock_inv_init nm) Hr) as (o & Hi).
  pose proof Hi as [Hown Hbit Hcpu Hnz Hlive]. split_and!; [| |done].
  - intros c d Hc Hd. apply Hown in Hc, Hd. congruence.
  - intros c Hc. assert (o = Some c) as -> by by (apply Hown; rewrite Hc).
    rewrite Hbit, Hcpu. simpl. by rewrite decide_True.
Qed.

(** CPU 1 inside, CPU 2 spinning. *)
Lemma spinlock_mutual_exclusion_witness :
  let s := Sys (Spinlock 1 9 1)
             (set_pc 2 Trying (set_pc 1 Inside (set_pc 1 Won (set_pc 1 Trying (fun _ => Outside))))) in
  rtc lock_step (Sys (initlock 9) (fun _ => Outside)) s /\
  (forall c d, owning (at_pc s c) = true -> owning (at_pc s d) = true -> c = d) /\
  (forall c, at_pc s c = Inside -> lcpu (word s) = c /\ locked (word s) = 1) /\
  (forall c, at_pc s c <> Halted).
Proof.
  intros s. assert (rtc lock_step (Sys (initlock 9) (fun _ => Outside)) s) as Hr.
  { set (f1 := set_pc 1 Trying (fun _ => Outside)). set (f2 := set_pc 1 Won f1).
    set (f3 := set_pc 1 Inside f2).
    apply rtc_r with (Sys (Spinlock 1 9 1) f3).
    - apply rtc_r with (Sys (Spinlock 1 9 0) f2); [|by apply (step_own (Spinlock 1 9 0) f2 1)].
      apply rtc_r with (Sys (initlock 9) f1); [|by apply (step_win (initlock 9) f1 1)].
      apply rtc_once. by apply (step_check (initlock 9) (fun _ => Outside) 1).
    - by apply (step_check (Spinlock 1 9 1) f3 2). }
  split; [exact Hr|]. exact (spinlock_mutual_exclusion 9 s Hr).
Defined.

(** On one CPU, [acquire] of a free lock takes it with interrupts off,
    [release] gives it back and restores the interrupt flag and the nesting
    depth, and a second [acquire] inside the section stops the CPU instead of
    spinning for ever. *)
Lemma acquire_release_restores lk h c :
  cpu_ready h c -> locked lk = 0 ->
  wp (acquire lk) h (fun lk1 h1 =>
    lk1 = Spinlock 1 (lname lk) (gs_base h) /\ iflag h1 = false /\
    acquire lk1 h1 = Stuck Halt /\
    wp (release lk1) h1 (fun lk2 h2 => lk2 = Spinlock 0 (lname lk) 0 /\ same_hw h h2)).
Proof.
  intros Hr Hl. eapply wp_mono; [by eapply acquire_spec|]. intros lk1 h1 [-> Hh].
  destruct (held_cpu _ _ Hh) as (c1 & _ & _ & Hf).
  split_and!; [done|done|by apply (acquire_held_halts _ h)|by apply release_spec].
Qed.

Lemma acquire_release_restores_witness :
  let c := Cpu 0 0 0 0 3 2 1 0 in
  let h := Hw false 4096 {[ 4096 := c ]} in
  cpu_ready h c /\
  wp (acquire (initlock 5)) h (fun lk1 h1 =>
    lk1 = Spinlock 1 5 (gs_base h) /\ iflag h1 = false /\ acquire lk1 h1 = Stuck Halt /\
    wp (release lk1) h1 (fun lk2 h2 => lk2 = Spinlock 0 5 0 /\ same_hw h h2)).
Proof.
  intros c h. assert (cpu_ready h c) as Hr by (split_and!; done).
  split; [exact Hr|]. exact (acquire_release_restores (initlock 5) h c Hr eq_refl).
Defined.
