(* ===== verification/BuddySpec.v ===== *)
(** * The buddy allocator as a specification

    Free memory is a list of blocks per order: a block of order [k] at address
    [a] is the [2^k] pages from [a].  The operations here are the ones
    src/src/kernel/mem.c implements over intrusive linked lists (Buddy.v proves
    the refinement); this file holds their invariants: no page is in two
    blocks, every block is naturally aligned, and no two free blocks are
    buddies.  The last two make the decomposition of the free pages into
    blocks unique, so a [free] after an [alloc] gives back the same state. *)
From S2P Require Import Prelude.

#[local] Open Scope Z_scope.

Definition PAGE_SIZE : Z := 4096.
Definition MAX_ORDER : Z := 12.
Abbreviation max_order := 12%nat.
Abbreviation blocks := (list (list Z)).

(** Bytes and buddy of a block of order [k]. *)
Definition bsize (k : nat) : Z := 2 ^ (12 + Z.of_nat k).
Definition buddy_of (k : nat) (a : Z) : Z := Z.lxor a (bsize k).

(** ** Operations *)

Fixpoint remove_first (x : Z) (l : list Z) : option (list Z) :=
  match l with
  | [] => None
  | y :: l' => if y =? x then Some l' else (cons y) <$> remove_first x l'
  end.

Definition push (F : blocks) (k : nat) (a : Z) : blocks :=
  match F !! k with Some l => <[k := a :: l]> F | None => F end.

(** Merge upwards while the buddy is free, at most [n] times. *)
Fixpoint merge_spec (n : nat) (F : blocks) (a : Z) (k : nat) : blocks * Z * nat :=
  match n with
  | O => (F, a, k)
  | S n' =>
      match F !! k ≫= remove_first (buddy_of k a) with
      | Some l => merge_spec n' (<[k := l]> F) (Z.min (buddy_of k a) a) (S k)
      | None => (F, a, k)
      end
  end.

Definition free_spec (F : blocks) (a : Z) (k : nat) : blocks :=
  let '(F', a', k') := merge_spec (max_order - 1 - k) F a k in push F' k' a'.

(** The smallest order from [k] on with a free block, and that block. *)
Fixpoint find_spec (n : nat) (F : blocks) (k : nat) : option (nat * Z * list Z) :=
  match n with
  | O => None
  | S n' => match F !! k with
            | Some (a :: l) => Some (k, a, l)
            | _ => find_spec n' F (S k)
            end
  end.

(** Give back the upper halves of a block of order [o + n] down to order [o]. *)
Fixpoint split_spec (n : nat) (F : blocks) (a : Z) (o : nat) : blocks :=
  match n with
  | O => F
  | S n' => split_spec n' (push F (o + n') (a + bsize (o + n'))) a o
  end.

Definition alloc_spec (F : blocks) (o : nat) : option (Z * blocks) :=
  '(k, a, l) ← find_spec (max_order - o) F o;
  Some (a, split_spec (k - o) (<[k := l]> F) a o).

(** ** Blocks and pages *)

Definition block := (nat * Z)%type.

Definition flat (F : blocks) : list block := mjoin (imap (fun k l => (k,.) <$> l) F).

Definition block_pages (b : block) : list Z := seqZ (b.2 / 4096) (2 ^ Z.of_nat b.1).
Definition pages (bs : list block) : list Z := bs ≫= block_pages.
Definition free_pages (F : blocks) : list Z := pages (flat F).

Definition wf_block (b : block) : Prop :=
  (b.1 < max_order)%nat /\ 0 < b.2 /\ b.2 mod bsize b.1 = 0 /\ b.2 + bsize b.1 <= 2 ^ 64.

Definition coalesced (bs : list block) : Prop :=
  forall k a, (k, a) ∈ bs -> (k < max_order - 1)%nat -> (k, buddy_of k a) ∉ bs.

Record wf (F : blocks) : Prop := {
  wf_len : length F = max_order;
  wf_blocks : Forall wf_block (flat F);
  wf_nodup : NoDup (free_pages F);
  wf_coal : coalesced (flat F)
}.

(** The state after [kinit]: every list empty. *)
Definition empty_blocks : blocks := replicate max_order [].

Lemma wf_empty : wf empty_blocks.
Proof. split; [done|apply Forall_nil_2|apply NoDup_nil_2|]. intros k a Ha. by apply elem_of_nil in Ha. Qed.

(** ** Lists of blocks up to permutation *)

Lemma flat_split_go (F : blocks) (f : nat -> nat) k l :
  F !! k = Some l ->
  exists R, forall l', mjoin (imap (fun i l => (f i,.) <$> l) (<[k := l']> F))
                       ≡ₚ ((f k,.) <$> l') ++ R.
Proof.
  revert f k. induction F as [|l0 F IH]; intros f [|k]; cbn; intros Hk; try done.
  - exists (mjoin (imap ((fun i l => (f i,.) <$> l) ∘ S) F)). intros l'. done.
  - destruct (IH (f ∘ S) k Hk) as (R & HR). exists (((f 0%nat,.) <$> l0) ++ R).
    intros l'. cbn. specialize (HR l'). rewrite (imap_ext _ (fun i l => ((f ∘ S) i,.) <$> l)) by done.
    rewrite HR. rewrite !app_assoc. by rewrite (Permutation_app_comm ((f 0%nat,.) <$> l0)).
Qed.

(** All of [F] but list [k]. *)
Lemma flat_split F k l :
  F !! k = Some l ->
  exists R, flat F ≡ₚ ((k,.) <$> l) ++ R /\
            forall l', flat (<[k := l']> F) ≡ₚ ((k,.) <$> l') ++ R.
Proof.
  intros Hk. destruct (flat_split_go F id k l Hk) as (R & HR). exists R. split.
  - rewrite <- (HR l). unfold flat. by rewrite list_insert_id.
  - intros l'. apply HR.
Qed.

Lemma flat_push F k a :
  (k < length F)%nat -> flat (push F k a) ≡ₚ (k, a) :: flat F.
Proof.
  intros [l Hk]%lookup_lt_is_Some. destruct (flat_split F k l Hk) as (R & HF & HR).
  unfold push. rewrite Hk, (HR (a :: l)), HF. done.
Qed.

Lemma length_push F k a : length (push F k a) = length F.
Proof. unfold push. destruct (F !! k); [apply length_insert|done]. Qed.

Lemma elem_of_flat F k a : (k, a) ∈ flat F <-> exists l, F !! k = Some l /\ a ∈ l.
Proof.
  unfold flat. rewrite list_elem_of_join. split.
  - intros (l0 & Hin & (i & l & -> & Hl)%elem_of_lookup_imap).
    apply list_elem_of_fmap in Hin as (y & [= -> ->] & Hy). eauto.
  - intros (l & Hk & Ha). exists ((k,.) <$> l). split; [by apply list_elem_of_fmap_2|].
    apply elem_of_lookup_imap. eauto.
Qed.

#[export] Instance pages_perm : Proper ((≡ₚ) ==> (≡ₚ)) pages.
Proof. intros bs bs' H. unfold pages. by rewrite H. Qed.

Lemma pages_cons b bs : pages (b :: bs) = block_pages b ++ pages bs.
Proof. done. Qed.

Lemma elem_of_pages p bs : p ∈ pages bs <-> exists b, b ∈ bs /\ p ∈ block_pages b.
Proof. unfold pages. rewrite list_elem_of_bind. naive_solver. Qed.

(** ** Arithmetic of blocks and buddies *)

Lemma bsize_pos k : 0 < bsize k.
Proof. unfold bsize. lia. Qed.

Lemma bsize_S k : bsize (S k) = 2 * bsize k.
Proof. unfold bsize. rewrite <- Z.pow_succ_r by lia. f_equal. lia. Qed.

Lemma bsize_pages k : bsize k = 4096 * 2 ^ Z.of_nat k.
Proof. unfold bsize. by rewrite Z.pow_add_r by lia. Qed.

Lemma buddy_involutive k a : buddy_of k (buddy_of k a) = a.
Proof. unfold buddy_of. by rewrite Z.lxor_assoc, Z.lxor_nilpotent, Z.lxor_0_r. Qed.

Lemma buddy_cases k a :
  a mod bsize k = 0 ->
  (a mod bsize (S k) = 0 /\ buddy_of k a = a + bsize k) \/
  (a mod bsize (S k) = bsize k /\ buddy_of k a = a - bsize k).
Proof.
  intros Ha. unfold buddy_of, bsize in *. rewrite lxor_pow2, testbit_mod_pow2 by lia.
  replace (12 + Z.of_nat (S k)) with (12 + Z.of_nat k + 1) by lia.
  set (e := 12 + Z.of_nat k) in *. assert (0 <= e) as He by (unfold e; lia).
  pose proof (Z.pow_pos_nonneg 2 e ltac:(lia) He).
  rewrite Z.pow_add_r in * by lia. change (2 ^ 1) with 2.
  rewrite Z.rem_mul_r, Ha by lia. pose proof (Z.mod_pos_bound (a / 2 ^ e) 2 ltac:(lia)).
  assert ((a / 2 ^ e) mod 2 = 0 \/ (a / 2 ^ e) mod 2 = 1) as [-> | ->] by lia; [left|right].
  - destruct (Z.leb_spec (2 ^ e) (0 + 2 ^ e * 0)); lia.
  - destruct (Z.leb_spec (2 ^ e) (0 + 2 ^ e * 1)); lia.
Qed.

Lemma buddy_aligned k a : a mod bsize k = 0 -> buddy_of k a mod bsize k = 0.
Proof.
  intros Ha. pose proof (bsize_pos k).
  destruct (buddy_cases k a Ha) as [[_ ->]|[_ ->]].
  - by rewrite <- Zplus_mod_idemp_r, Z_mod_same_full, Z.add_0_r.
  - by rewrite Zminus_mod, Ha, Z_mod_same_full.
Qed.

(** The merged block starts at the lower of the two and is aligned to the
    next order. *)
Lemma merge_aligned k a :
  a mod bsize k = 0 ->
  Z.min (buddy_of k a) a mod bsize (S k) = 0 /\
  Z.max (buddy_of k a) a = Z.min (buddy_of k a) a + bsize k.
Proof.
  intros Ha. pose proof (bsize_pos k). pose proof (bsize_S k).
  destruct (buddy_cases k a Ha) as [[E ->]|[E ->]].
  - rewrite Z.min_r, Z.max_l by lia. done.
  - rewrite Z.min_l, Z.max_r by lia. split; [|lia].
    rewrite Zminus_mod, E, (Z.mod_small (bsize k)) by lia. by rewrite Z.sub_diag.
Qed.

Lemma block_pages_split k a :
  a mod 4096 = 0 ->
  block_pages (S k, a) = block_pages (k, a) ++ block_pages (k, a + bsize k).
Proof.
  intros Ha. unfold block_pages. cbn [fst snd].
  rewrite bsize_pages, (Z.mul_comm 4096), Z.div_add by lia.
  rewrite Nat2Z.inj_succ, Z.pow_succ_r by lia.
  replace (2 * 2 ^ Z.of_nat k) with (2 ^ Z.of_nat k + 2 ^ Z.of_nat k) by lia.
  by rewrite seqZ_app by lia.
Qed.

Lemma bsize_mod_page k a : a mod bsize k = 0 -> a mod 4096 = 0.
Proof. apply (mod_0_pow2_le a 12 (12 + Z.of_nat k)). lia. Qed.

Lemma block_pages_merge k a :
  a mod bsize k = 0 ->
  block_pages (S k, Z.min (buddy_of k a) a) ≡ₚ block_pages (k, buddy_of k a) ++ block_pages (k, a).
Proof.
  intros Ha. rewrite block_pages_split.
  - destruct (merge_aligned k a Ha) as [_ <-]. destruct (Z.le_ge_cases (buddy_of k a) a).
    + by rewrite Z.min_l, Z.max_r.
    + rewrite Z.min_r, Z.max_l by done. apply Permutation_app_comm.
  - apply (bsize_mod_page (S k)). by apply merge_aligned.
Qed.

Lemma remove_first_Some x l l' : remove_first x l = Some l' -> l ≡ₚ x :: l'.
Proof.
  revert l'. induction l as [|y l IH]; intros l'; cbn; [done|].
  destruct (Z.eqb_spec y x) as [->|]; [by intros [= ->]|].
  destruct (remove_first x l) as [l1|]; cbn; [|done]. intros [= <-].
  rewrite (IH l1) by done. constructor.
Qed.

Lemma remove_first_None x l : remove_first x l = None <-> x ∉ l.
Proof.
  induction l as [|y l IH]; cbn; [by split; [intros _ ?%elem_of_nil|]|].
  rewrite not_elem_of_cons. destruct (Z.eqb_spec y x) as [->|]; [naive_solver|].
  destruct (remove_first x l); cbn; naive_solver.
Qed.

Lemma flat_remove F k l x l' :
  F !! k = Some l -> remove_first x l = Some l' -> flat F ≡ₚ (k, x) :: flat (<[k := l']> F).
Proof.
  intros Hl Erm%remove_first_Some. destruct (flat_split F k l Hl) as (R & HF & HR).
  by rewrite HF, (HR l'), Erm.
Qed.

(** ** Freeing *)

Lemma wf_merge k a :
  (S k < max_order)%nat -> wf_block (k, a) -> wf_block (k, buddy_of k a) ->
  wf_block (S k, Z.min (buddy_of k a) a).
Proof.
  unfold wf_block; cbn [fst snd]. intros Hk (_ & H0 & Ha & Hend) (_ & H0' & _ & Hend').
  destruct (merge_aligned k a Ha) as [Hal Hmax]. pose proof (bsize_pos k).
  rewrite bsize_S in *. split_and!; [done|lia|done|lia].
Qed.

Lemma merge_spec_correct n F a k F' a' k' :
  length F = max_order -> Forall wf_block (flat F) -> wf_block (k, a) ->
  (k + n = max_order - 1)%nat -> merge_spec n F a k = (F', a', k') ->
  length F' = max_order /\ wf_block (k', a') /\
  (forall b, b ∈ flat F' -> b ∈ flat F) /\
  block_pages (k, a) ++ pages (flat F) ≡ₚ block_pages (k', a') ++ pages (flat F') /\
  ((k' < max_order - 1)%nat -> (k', buddy_of k' a') ∉ flat F').
Proof.
  revert F a k. induction n as [|n IH]; intros F a k Hlen Hwf Hb Hk; cbn [merge_spec].
  { intros [= <- <- <-]. split_and!; auto. intros. lia. }
  destruct (lookup_lt_is_Some_2 F k) as [l Hl]; [lia|]. rewrite Hl. cbn.
  destruct (remove_first _ l) as [l'|] eqn:Erm.
  - intros Hm. pose proof (flat_remove F k l _ l' Hl Erm) as Hperm.
    assert (wf_block (k, buddy_of k a)) as Hbud.
    { rewrite Forall_forall in Hwf. apply Hwf. rewrite Hperm. apply elem_of_cons. by left. }
    destruct (IH (<[k:=l']> F) (Z.min (buddy_of k a) a) (S k)) as (H1 & H2 & H3 & H4 & H5);
      [by rewrite length_insert| |by (apply wf_merge; [lia|done..])|lia|exact Hm|].
    { rewrite Hperm, Forall_cons in Hwf. apply Hwf. }
    split_and!; [done|done|intros b Hin; rewrite Hperm; apply elem_of_cons; right; auto| |done].
    rewrite <- H4, Hperm, pages_cons, block_pages_merge by apply Hb.
    rewrite app_assoc. apply Permutation_app_tail, Permutation_app_comm.
  - apply remove_first_None in Erm. intros [= <- <- <-]. split_and!; auto.
    intros _ (l1 & Hl1 & Hin)%elem_of_flat. by simplify_eq.
Qed.

Lemma push_wf F k a :
  length F = max_order -> Forall wf_block (flat F) -> wf_block (k, a) ->
  NoDup (block_pages (k, a) ++ pages (flat F)) ->
  coalesced (flat F) -> ((k < max_order - 1)%nat -> (k, buddy_of k a) ∉ flat F) ->
  wf (push F k a).
Proof.
  intros Hlen Hwf Hb Hnd Hco Hbud. assert (k < length F)%nat as Hk by (rewrite Hlen; apply Hb).
  pose proof (flat_push F k a Hk) as Hp. split.
  - by rewrite length_push.
  - rewrite Hp. by constructor.
  - unfold free_pages. rewrite Hp. done.
  - intros j c. rewrite Hp, elem_of_cons. intros [[= -> ->]|Hc] Hj.
    + rewrite not_elem_of_cons. split; [|auto]. intros [= E].
      pose proof (bsize_pos k). destruct Hb as (_ & _ & Ha & _).
      destruct (buddy_cases k a Ha) as [[_ E']|[_ E']]; rewrite E' in E; lia.
    + rewrite not_elem_of_cons. split; [|by apply Hco]. intros [= -> E].
      apply (Hbud Hj). by rewrite <- E, buddy_involutive.
Qed.

(** Freeing a block none of whose pages is free gives a well-formed state
    whose free pages are the old ones and the block's. *)
Lemma free_spec_correct F a k :
  wf F -> wf_block (k, a) -> NoDup (block_pages (k, a) ++ free_pages F) ->
  wf (free_spec F a k) /\ free_pages (free_spec F a k) ≡ₚ block_pages (k, a) ++ free_pages F.
Proof.
  intros [Hlen Hwf Hnd Hco] Hb Hnd'. unfold free_spec, free_pages in *.
  destruct (merge_spec _ F a k) as [[F' a'] k'] eqn:Em.
  assert (k + (max_order - 1 - k) = max_order - 1)%nat as Hk by (destruct Hb; simpl in *; lia).
  destruct (merge_spec_correct _ _ _ _ _ _ _ Hlen Hwf Hb Hk Em)
    as (Hlen' & Hb' & Hsub & Hpages & Hbud).
  assert (wf (push F' k' a')) as Hpush.
  { apply push_wf; [done| |done| | |done].
    - apply Forall_forall. intros b Hin. rewrite Forall_forall in Hwf. auto.
    - by rewrite <- Hpages.
    - intros j c Hin Hj Hin'. exact (Hco j c (Hsub _ Hin) Hj (Hsub _ Hin')). }
  split; [done|]. rewrite flat_push by (rewrite Hlen'; apply Hb'). by rewrite pages_cons, Hpages.
Qed.

(** ** Allocating *)

Lemma find_spec_Some n F k k' a l :
  find_spec n F k = Some (k', a, l) ->
  (k <= k' < k + n)%nat /\ F !! k' = Some (a :: l) /\
  (forall j b l', (k <= j < k')%nat -> F !! j <> Some (b :: l')).
Proof.
  revert k. induction n as [|n IH]; intros k; cbn [find_spec]; [done|].
  destruct (F !! k) as [[|b l1]|] eqn:E.
  2: { intros [= <- <- <-]. split_and!; [lia|lia|done|]. intros. lia. }
  all: intros (Hr & Hk' & Hj)%IH; split_and!; [lia|lia|done|];
    intros j c l' Hjr; destruct (decide (j = k)) as [->|]; [by rewrite E|apply Hj; lia].
Qed.

Lemma find_spec_None n F k :
  find_spec n F k = None <-> forall j b l, (k <= j < k + n)%nat -> F !! j <> Some (b :: l).
Proof.
  revert k. induction n as [|n IH]; intros k; cbn [find_spec].
  { split; [|done]. intros _ j b l Hj. lia. }
  destruct (F !! k) as [[|b l1]|] eqn:E.
  2: { split; [done|]. intros H. exfalso. apply (H k b l1); [lia|done]. }
  all: rewrite IH; split; intros H j c l Hj; [|apply H; lia];
    destruct (decide (j = k)) as [->|]; [by rewrite E|apply H; lia].
Qed.

(** Taking the first block of a list. *)
Lemma pop_wf F k a l :
  wf F -> F !! k = Some (a :: l) ->
  wf (<[k := l]> F) /\ wf_block (k, a) /\
  free_pages F ≡ₚ block_pages (k, a) ++ free_pages (<[k := l]> F).
Proof.
  intros [Hlen Hwf Hnd Hco] Hk. destruct (flat_split F k _ Hk) as (R & HF & HR).
  assert (flat F ≡ₚ (k, a) :: flat (<[k := l]> F)) as Hp by by rewrite HF, HR.
  assert (free_pages F ≡ₚ block_pages (k, a) ++ free_pages (<[k := l]> F)) as Hpg.
  { unfold free_pages. by rewrite Hp, pages_cons. }
  rewrite Hp, Forall_cons in Hwf. split_and!; [split|apply Hwf|done].
  - by rewrite length_insert.
  - apply Hwf.
  - rewrite Hpg in Hnd. by apply NoDup_app in Hnd as (_ & _ & Hnd).
  - intros j c Hin Hj Hin'. apply (Hco j c); [|done|]; rewrite Hp; apply elem_of_cons; by right.
Qed.

Lemma block_pages_head k a : (a / 4096) ∈ block_pages (k, a).
Proof. apply elem_of_seqZ. cbn [fst snd]. pose proof (Z.pow_pos_nonneg 2 (Z.of_nat k)). lia. Qed.

(** A block with a page that is not free is not a free block. *)
Lemma block_not_free F b k a :
  NoDup (block_pages b ++ free_pages F) -> (a / 4096) ∈ block_pages b -> (k, a) ∉ flat F.
Proof.
  intros (_ & Hd & _)%NoDup_app Ha Hin. apply (Hd _ Ha). apply elem_of_pages.
  exists (k, a). split; [done|]. apply block_pages_head.
Qed.

Lemma wf_block_halves k a :
  wf_block (S k, a) ->
  wf_block (k, a) /\ wf_block (k, a + bsize k) /\ buddy_of k (a + bsize k) = a.
Proof.
  unfold wf_block; cbn [fst snd]. intros (Hk & Ha & Hal & He).
  pose proof (bsize_pos k). pose proof (bsize_S k) as Hs. rewrite Hs in *.
  assert (a mod bsize k = 0) as Hal'.
  { apply (mod_0_pow2_le a (12 + Z.of_nat k) (12 + Z.of_nat (S k))); [lia|].
    change (2 ^ (12 + Z.of_nat (S k))) with (bsize (S k)). by rewrite Hs. }
  assert ((a + bsize k) mod bsize k = 0) as Hal2.
  { by rewrite <- Zplus_mod_idemp_r, Z_mod_same_full, Z.add_0_r. }
  split_and!; try done; try lia.
  destruct (buddy_cases k a Hal') as [[_ <-]|[E _]]; [apply buddy_involutive|].
  rewrite Hs in E. lia.
Qed.

(** Giving back the upper half of a block being split. *)
Lemma split_step F k a :
  wf F -> wf_block (S k, a) -> NoDup (block_pages (S k, a) ++ free_pages F) ->
  wf (push F k (a + bsize k)) /\ wf_block (k, a) /\ wf_block (k, a + bsize k) /\
  block_pages (S k, a) ++ free_pages F ≡ₚ
    block_pages (k, a) ++ free_pages (push F k (a + bsize k)).
Proof.
  intros HF Hb Hnd. destruct (wf_block_halves k a Hb) as (Hlo & Hhi & Hbud).
  pose proof HF as [Hlen Hwf _ Hco].
  assert (k < length F)%nat as Hkl by (rewrite Hlen; apply Hlo).
  assert (block_pages (S k, a) ++ free_pages F ≡ₚ
          block_pages (k, a) ++ free_pages (push F k (a + bsize k))) as Hpg.
  { unfold free_pages. rewrite flat_push, pages_cons by done.
    rewrite block_pages_split by (eapply bsize_mod_page; apply Hb). by rewrite app_assoc. }
  split_and!; [|done..]. apply push_wf; [done..| |done|].
  - rewrite Hpg in Hnd. apply NoDup_app in Hnd as (_ & _ & Hnd).
    unfold free_pages in Hnd. by rewrite flat_push, pages_cons in Hnd.
  - intros _. rewrite Hbud. eapply block_not_free; [exact Hnd|]. apply block_pages_head.
Qed.

Lemma split_spec_correct n F a o :
  wf F -> wf_block ((o + n)%nat, a) -> NoDup (block_pages ((o + n)%nat, a) ++ free_pages F) ->
  wf (split_spec n F a o) /\ wf_block (o, a) /\
  block_pages ((o + n)%nat, a) ++ free_pages F ≡ₚ
    block_pages (o, a) ++ free_pages (split_spec n F a o).
Proof.
  revert F. induction n as [|n IH]; intros F HF Hb Hnd; cbn [split_spec].
  { by rewrite Nat.add_0_r in *. }
  replace (o + S n)%nat with (S (o + n)) in * by lia.
  destruct (split_step F (o + n) a HF Hb Hnd) as (HF' & Hlo & _ & Hpg).
  destruct (IH (push F (o + n) (a + bsize (o + n)))) as (H1 & H2 & H3); [done..|by rewrite <- Hpg|].
  split_and!; [done|done|]. by rewrite Hpg.
Qed.

(** Allocating takes exactly one naturally aligned block of the asked order
    out of the free pages and keeps the state well-formed. *)
Lemma alloc_spec_correct F o a F' :
  wf F -> (o < max_order)%nat -> alloc_spec F o = Some (a, F') ->
  wf F' /\ wf_block (o, a) /\ free_pages F ≡ₚ block_pages (o, a) ++ free_pages F'.
Proof.
  intros HF Ho. unfold alloc_spec.
  destruct (find_spec _ F o) as [[[k b] l]|] eqn:E; [|done]. cbn. intros [= -> <-].
  apply find_spec_Some in E as (Hr & Hk & _).
  destruct (pop_wf F k a l HF Hk) as (H1 & H2 & H3).
  replace k with (o + (k - o))%nat in H2, H3 by lia.
  replace (o + (k - o))%nat with k in H3 at 2 by lia.
  destruct (split_spec_correct (k - o) (<[k:=l]> F) a o H1 H2) as (H4 & H5 & H6).
  - rewrite <- H3. apply HF.
  - split_and!; [done|done|]. by rewrite H3.
Qed.

Lemma alloc_spec_None F o :
  length F = max_order -> (o < max_order)%nat ->
  alloc_spec F o = None <-> forall b, b ∈ flat F -> (b.1 < o)%nat.
Proof.
  intros Hlen Ho. transitivity (find_spec (max_order - o) F o = None).
  { unfold alloc_spec. destruct (find_spec _ F o) as [[[k b] l]|]; done. }
  rewrite find_spec_None. split.
  - intros H [k a] (l & Hk & Ha)%elem_of_flat. cbn. apply not_le. intros Hle.
    pose proof (lookup_lt_Some _ _ _ Hk). destruct l as [|b l]; [by apply elem_of_nil in Ha|].
    apply (H k b l); [lia|done].
  - intros H j b l Hj Hl. assert ((j, b) ∈ flat F) as Hin.
    { apply elem_of_flat. exists (b :: l). split; [done|]. apply elem_of_cons. by left. }
    specialize (H _ Hin). simpl in H. lia.
Qed.

(** ** The decomposition into blocks is determined by the free pages *)

Lemma elem_of_block_pages p k a :
  a mod 4096 = 0 -> p ∈ block_pages (k, a) <-> a <= 4096 * p < a + bsize k.
Proof.
  intros Ha. unfold block_pages. rewrite elem_of_seqZ, bsize_pages. cbn [fst snd].
  pose proof (Z_div_exact_2 a 4096 ltac:(lia) Ha). lia.
Qed.

(** Aligned blocks are nested or disjoint. *)
Lemma block_nested j k a b p :
  (j <= k)%nat -> a mod bsize j = 0 -> b mod bsize k = 0 ->
  p ∈ block_pages (j, a) -> p ∈ block_pages (k, b) -> b <= a /\ a + bsize j <= b + bsize k.
Proof.
  intros Hjk Ha Hb Hp Hp'. pose proof (bsize_pos j).
  rewrite elem_of_block_pages in Hp by by eapply bsize_mod_page.
  rewrite elem_of_block_pages in Hp' by by eapply bsize_mod_page.
  assert (bsize k = bsize j * 2 ^ (Z.of_nat k - Z.of_nat j)) as Hk.
  { unfold bsize. rewrite <- Z.pow_add_r by lia. f_equal. lia. }
  assert (b mod bsize j = 0) as Hbj.
  { unfold bsize. apply (mod_0_pow2_le _ _ (12 + Z.of_nat k)); [lia|done]. }
  apply Z_div_exact_2 in Ha; [|lia]. apply Z_div_exact_2 in Hbj; [|lia].
  set (x := a / bsize j) in *. set (y := b / bsize j) in *.
  set (w := 2 ^ (Z.of_nat k - Z.of_nat j)) in *.
  assert (y <= x /\ x + 1 <= y + w); [|nia].
  split; apply Z.lt_succ_r, (Z.mul_lt_mono_pos_l (bsize j)); nia.
Qed.

Lemma block_disjoint F b b' p :
  NoDup (free_pages F) -> b ∈ flat F -> b' ∈ flat F ->
  p ∈ block_pages b -> p ∈ block_pages b' -> b = b'.
Proof.
  unfold free_pages. induction (flat F) as [|b0 bs IH]; intros Hnd Hb Hb' Hp Hp'.
  { by apply elem_of_nil in Hb. }
  rewrite pages_cons in Hnd. apply NoDup_app in Hnd as (_ & Hd & Hnd).
  apply elem_of_cons in Hb as [->|Hb], Hb' as [->|Hb']; [done| | |by apply IH].
  - exfalso. apply (Hd p Hp). apply elem_of_pages. eauto.
  - exfalso. apply (Hd p Hp'). apply elem_of_pages. eauto.
Qed.

(** If every page of an aligned region is free, one free block holds it all:
    coalescing leaves no region split over several blocks. *)
Lemma coalesced_covers F j a :
  wf F -> (j < max_order)%nat -> a mod bsize j = 0 ->
  (forall p, p ∈ block_pages (j, a) -> p ∈ free_pages F) ->
  exists k b, (k, b) ∈ flat F /\ (j <= k)%nat /\ b <= a /\ a + bsize j <= b + bsize k.
Proof.
  intros HF. pose proof HF as [Hlen Hwf Hnd Hco]. rewrite Forall_forall in Hwf.
  revert a. induction j as [|j IH]; intros a Hj Ha Hall.
  - assert ((a / 4096) ∈ free_pages F) as ([k b] & Hin & Hp)%elem_of_pages.
    { apply Hall, block_pages_head. }
    exists k, b. split_and!; [done|lia| |];
      apply (block_nested 0 k a b (a / 4096)); try done;
      (lia || apply (Hwf _ Hin) || apply block_pages_head).
  - assert (a mod bsize j = 0) as Ha'.
    { unfold bsize. apply (mod_0_pow2_le _ _ (12 + Z.of_nat (S j))); [lia|done]. }
    assert ((a + bsize j) mod bsize j = 0) as Ha2.
    { by rewrite <- Zplus_mod_idemp_r, Z_mod_same_full, Z.add_0_r. }
    rewrite block_pages_split in Hall by by eapply bsize_mod_page.
    destruct (IH a) as (k1 & b1 & H1 & Hk1 & Hb1 & He1); [lia|done|intros; apply Hall, elem_of_app; auto|].
    destruct (IH (a + bsize j)) as (k2 & b2 & H2 & Hk2 & Hb2 & He2);
      [lia|done|intros; apply Hall, elem_of_app; auto|].
    pose proof (bsize_pos j). pose proof (bsize_S j).
    destruct (decide (k1 = j)) as [->|].
    2: { exists k1, b1. split; [done|]. split; [lia|].
         apply (block_nested (S j) k1 a b1 (a / 4096)); [lia|done|apply (Hwf _ H1)|apply block_pages_head|].
         apply elem_of_block_pages; [eapply bsize_mod_page; apply (Hwf _ H1)|].
         pose proof (Z_div_exact_2 a 4096 ltac:(lia) (bsize_mod_page _ _ Ha)). lia. }
    destruct (decide (k2 = j)) as [->|].
    2: { exists k2, b2. split; [done|]. split; [lia|].
         assert ((a + bsize j) / 4096 ∈ block_pages (k2, b2)) as Hp2.
         { apply elem_of_block_pages; [eapply bsize_mod_page; apply (Hwf _ H2)|].
           pose proof (Z_div_exact_2 _ 4096 ltac:(lia) (bsize_mod_page _ _ Ha2)). lia. }
         apply (block_nested (S j) k2 a b2 ((a + bsize j) / 4096)); [lia|done|apply (Hwf _ H2)| |done].
         rewrite block_pages_split by by eapply bsize_mod_page.
         apply elem_of_app. right. apply block_pages_head. }
    exfalso. apply (Hco j b1 H1); [lia|].
    assert (b1 = a) as -> by lia. assert (b2 = a + bsize j) as -> by lia.
    destruct (buddy_cases j a Ha') as [[_ ->]|[E _]]; [done|]. rewrite Ha in E. lia.
Qed.

Lemma flat_nodup F : NoDup (free_pages F) -> NoDup (flat F).
Proof.
  unfold free_pages. induction (flat F) as [|b bs IH]; intros Hnd; [constructor|].
  rewrite pages_cons in Hnd. apply NoDup_app in Hnd as (_ & Hd & Hnd).
  constructor; [|by apply IH]. intros Hin. destruct b as [k a].
  apply (Hd (a / 4096)); [apply block_pages_head|]. apply elem_of_pages.
  exists (k, a). split; [done|apply block_pages_head].
Qed.

Lemma same_pages_sub F F' b :
  wf F -> wf F' -> free_pages F ≡ₚ free_pages F' -> b ∈ flat F -> b ∈ flat F'.
Proof.
  intros HF HF' Heq. destruct b as [k a]. intros Hin.
  pose proof (wf_blocks F HF) as Hw. rewrite Forall_forall in Hw.
  pose proof (wf_blocks F' HF') as Hw'. rewrite Forall_forall in Hw'.
  destruct (Hw _ Hin) as (Hk & _ & Ha & _). cbn [fst snd] in *.
  destruct (coalesced_covers F' k a HF' Hk Ha) as (k1 & b1 & Hin1 & Hk1 & Hb1 & He1).
  { intros p Hp. rewrite <- Heq. apply elem_of_pages. eauto. }
  destruct (Hw' _ Hin1) as (Hk1' & _ & Ha1 & _). cbn [fst snd] in *.
  destruct (coalesced_covers F k1 b1 HF Hk1' Ha1) as (k2 & b2 & Hin2 & Hk2 & Hb2 & He2).
  { intros p Hp. rewrite Heq. apply elem_of_pages. eauto. }
  assert ((k, a) = (k2, b2)) as [= <- <-].
  { eapply (block_disjoint F _ _ (a / 4096)); [apply HF|done|done|apply block_pages_head|].
    apply elem_of_block_pages; [eapply bsize_mod_page; apply (Hw _ Hin2)|].
    pose proof (Z_div_exact_2 a 4096 ltac:(lia) (bsize_mod_page _ _ Ha)).
    pose proof (bsize_pos k). lia. }
  assert (k = k1) as <- by lia. assert (b1 = a) as -> by lia. done.
Qed.

(** Two well-formed states with the same free pages are the same blocks. *)
Lemma same_pages F F' :
  wf F -> wf F' -> free_pages F ≡ₚ free_pages F' -> flat F ≡ₚ flat F'.
Proof.
  intros HF HF' Heq. apply NoDup_Permutation.
  - apply flat_nodup, HF.
  - apply flat_nodup, HF'.
  - intros b. split; apply same_pages_sub; done.
Qed.

(** No request fails while an aligned region of its size is free. *)
Lemma alloc_spec_complete F o :
  wf F -> (o < max_order)%nat -> alloc_spec F o = None ->
  forall a, a mod bsize o = 0 -> exists p, p ∈ block_pages (o, a) /\ p ∉ free_pages F.
Proof.
  intros HF Ho Hnone a Ha. rewrite alloc_spec_None in Hnone by (done || apply HF).
  destruct (decide (Forall (fun p => p ∈ free_pages F) (block_pages (o, a)))) as [Hall|Hex].
  - rewrite Forall_forall in Hall.
    destruct (coalesced_covers F o a HF Ho Ha Hall) as (k & b & Hin & Hk & _).
    specialize (Hnone _ Hin). simpl in Hnone. lia.
  - apply not_Forall_Exists in Hex; [|intros p; apply _].
    apply Exists_exists in Hex as (p & Hp & Hn). eauto.
Qed.

(** Freeing what was just allocated restores the free lists. *)
Lemma free_alloc_spec F o a F' :
  wf F -> (o < max_order)%nat -> alloc_spec F o = Some (a, F') ->
  flat (free_spec F' a o) ≡ₚ flat F.
Proof.
  intros HF Ho Ha. destruct (alloc_spec_correct F o a F' HF Ho Ha) as (HF' & Hb & Hpg).
  destruct (free_spec_correct F' a o HF' Hb) as [Hfree Hpf].
  - rewrite <- Hpg. apply HF.
  - apply same_pages; [done|done|]. by rewrite Hpf, Hpg.
Qed.
