(* ===== verification/Buddy.v ===== *)
(** * The buddy page allocator (src/src/kernel/mem.c)

    [kalloc], [kfree] and [freerange] as the C code runs them: intrusive free
    lists threaded through the free pages themselves, a pointer-to-pointer
    unlink, the merge and split loops, the optional spinlock.  The theorems
    relate every operation to its specification in BuddySpec.v through
    [chain], which reads the linked lists out of the heap. *)
From S2P Require Import Prelude KMem Spinlock BuddySpec.

#[local] Set Warnings "-clear-no-such-hyp".
#[local] Open Scope Z_scope.

Definition MEM_FREE_PATTERN : Z := 1.
Definition MEM_ALLOC_PATTERN : Z := 5.

(** [struct buddy_state]; a [struct run *] is the address of the page whose
    first eight bytes are its [next] field. *)
Record buddy_state := Buddy_state {
  buddy_lock : spinlock;
  use_lock : Z;
  free_lists : list Z
}.

(** What the memory subsystem touches: kernel memory, the static [buddy], the
    executing CPU, [hhdm_offset] and the page-table base register. *)
Record kst := Kst {
  heap : mem;
  buddy : buddy_state;
  khw : hw;
  hhdm_offset : Z;
  cr3 : Z
}.

Definition set_heap (m : mem) (s : kst) : kst := Kst m (buddy s) (khw s) (hhdm_offset s) (cr3 s).
Definition set_buddy (b : buddy_state) (s : kst) : kst :=
  Kst (heap s) b (khw s) (hhdm_offset s) (cr3 s).
Definition set_khw (h : hw) (s : kst) : kst := Kst (heap s) (buddy s) h (hhdm_offset s) (cr3 s).
Definition set_lists (l : list Z) (s : kst) : kst :=
  set_buddy (Buddy_state (buddy_lock (buddy s)) (use_lock (buddy s)) l) s.
Definition set_lock (lk : spinlock) (s : kst) : kst :=
  set_buddy (Buddy_state lk (use_lock (buddy s)) (free_lists (buddy s))) s.

(** [buddy.free_lists[k]]: an index out of range is undefined behaviour. *)
Definition list_load (k : Z) : M kst Z := fun s =>
  match free_lists (buddy s) !! Z.to_nat k with
  | Some p => Ok (p, s)
  | None => Stuck Fault
  end.
Definition list_store (k p : Z) : M kst unit := fun s =>
  match free_lists (buddy s) !! Z.to_nat k with
  | Some _ => Ok (tt, set_lists (<[Z.to_nat k := p]> (free_lists (buddy s))) s)
  | None => Stuck Fault
  end.

(** [r->next] *)
Definition next_load (r : Z) : M kst Z := mgets (fun s => rd64 (heap s) r).
Definition next_store (r p : Z) : M kst unit := mmodify (fun s => set_heap (wr64 (heap s) r p) s).

(** A [struct run **]: a list head or the [next] field of a node. *)
Inductive link := Head (order : Z) | Next (r : Z).
Definition link_load (pp : link) : M kst Z :=
  match pp with Head k => list_load k | Next r => next_load r end.
Definition link_store (pp : link) (p : Z) : M kst unit :=
  match pp with Head k => list_store k p | Next r => next_store r p end.

(** [PAGE_SIZE << order] *)
Definition order_bytes (order : Z) : Z := Z.shiftl PAGE_SIZE order.

Definition order_for (n : Z) : option Z :=
  loop (fun '(o, size) =>
          if size <? n then inl (u64 (o + 1), u64 (Z.shiftl size 1)) else inr o)
       (0, 1).

Definition kinit (hhdm : Z) (name : Z) (s : kst) : kst :=
  Kst (heap s) (Buddy_state (initlock name) 0 (replicate 12 0)) (khw s) hhdm (cr3 s).

Definition buddy_remove (addr order : Z) : M kst Z :=
  mloop (fun pp =>
    p ← link_load pp;
    if p =? 0 then mret (inr 0)
    else if p =? addr then
      n ← next_load p;
      link_store pp n;;
      mret (inr 1)
    else mret (inl (Next p))) (Head order).

(** The merge loop, and the insertion that follows it (the same code stands in
    [kfree] and in [freerange]). *)
Definition buddy_merge (addr order : Z) : M kst (Z * Z) :=
  mloop (fun '(addr, order) =>
    if order <? MAX_ORDER - 1 then
      let buddy_addr := Z.lxor addr (order_bytes order) in
      found ← buddy_remove buddy_addr order;
      if found =? 0 then mret (inr (addr, order))
      else mret (inl (if buddy_addr <? addr then buddy_addr else addr, u64 (order + 1)))
    else mret (inr (addr, order))) (addr, order).

Definition buddy_push (r order : Z) : M kst unit :=
  h ← list_load order;
  next_store r h;;
  list_store order r.

Definition buddy_acquire : M kst unit :=
  lk ← mgets (fun s => buddy_lock (buddy s));
  lk ← mzoom khw set_khw (acquire lk);
  mmodify (set_lock lk).
Definition buddy_release : M kst unit :=
  lk ← mgets (fun s => buddy_lock (buddy s));
  lk ← mzoom khw set_khw (release lk);
  mmodify (set_lock lk).

(** [if (buddy.use_lock) ...] *)
Definition when_locking (m : M kst unit) : M kst unit :=
  b ← mgets (fun s => use_lock (buddy s));
  if negb (b =? 0) then m else mret tt.

Definition kfree (v npages : Z) : M kst unit :=
  if negb (v mod PAGE_SIZE =? 0) || (npages =? 0) then mret tt
  else
    order ← mlift (order_for npages);
    let order := if MAX_ORDER <=? order then MAX_ORDER - 1 else order in
    let block_pages := Z.shiftl 1 order in
    mmodify (fun s => set_heap (memset (heap s) v MEM_FREE_PATTERN
                                  (u64 (block_pages * PAGE_SIZE))) s);;
    when_locking buddy_acquire;;
    r ← buddy_merge v order;
    buddy_push r.1 r.2;;
    when_locking buddy_release.

(** Smallest order from [k] on with a non-empty list, or [MAX_ORDER]. *)
Definition find_order (k : Z) : M kst Z :=
  mloop (fun k =>
    if k <? MAX_ORDER then
      p ← list_load k;
      if p =? 0 then mret (inl (u64 (k + 1))) else mret (inr k)
    else mret (inr k)) k.

(** Return upper halves of [block] until it has order [order]. *)
Definition buddy_split (block k order : Z) : M kst unit :=
  mloop (fun k =>
    if order <? k then
      let k := u64 (k - 1) in
      let upper := u64 (block + order_bytes k) in
      buddy_push upper k;;
      mret (inl k)
    else mret (inr tt)) k.

Definition kalloc (npages : Z) : M kst Z :=
  if npages =? 0 then mret 0
  else
    order ← mlift (order_for npages);
    if MAX_ORDER <=? order then mret 0
    else
      when_locking buddy_acquire;;
      k ← find_order order;
      if k =? MAX_ORDER then when_locking buddy_release;; mret 0
      else
        block ← list_load k;
        n ← next_load block;
        list_store k n;;
        buddy_split block k order;;
        when_locking buddy_release;;
        mmodify (fun s => set_heap (memset (heap s) block MEM_ALLOC_PATTERN
                                      (u64 (npages * PAGE_SIZE))) s);;
        mret block.

(** [__builtin_ctzll] of a non-zero argument. *)
Definition ctzll (x : Z) : option Z :=
  loop (fun '(n, x) => if Z.odd x then inr n else inl (n + 1, Z.shiftr x 1)) (0, x).

(** The largest order the natural alignment of [p] allows. *)
Definition align_order (p : Z) : M kst Z :=
  let page_idx := p / PAGE_SIZE in
  max_order ← (if page_idx =? 0 then mret (MAX_ORDER - 1) else mlift (ctzll page_idx));
  mret (if MAX_ORDER <=? max_order then MAX_ORDER - 1 else max_order).

(** [while (max_order > 0 && p + (PAGE_SIZE << max_order) > phys_end) max_order--;] *)
Definition shrink_order (p phys_end max_order : Z) : option Z :=
  loop (fun max_order =>
    if (0 <? max_order) && (phys_end <? u64 (p + order_bytes max_order))
    then inl (u64 (max_order - 1)) else inr max_order) max_order.

Definition freerange (phys_start phys_end : Z) : M kst unit :=
  let p := Z.land (u64 (phys_start + PAGE_SIZE - 1)) (2 ^ 64 - PAGE_SIZE) in
  mloop (fun p =>
    if u64 (p + PAGE_SIZE) <=? phys_end then
      max_order ← align_order p;
      max_order ← mlift (shrink_order p phys_end max_order);
      off ← mgets hhdm_offset;
      r ← buddy_merge (u64 (p + off)) max_order;
      buddy_push r.1 r.2;;
      mret (inl (u64 (p + order_bytes max_order)))
    else mret (inr tt)) p.

Definition buddy_enable_lock : M kst unit :=
  mmodify (fun s => set_buddy (Buddy_state (buddy_lock (buddy s)) 1 (free_lists (buddy s))) s).

(** ** Arithmetic of the loops *)

(** [order_for n] is the least [o] with [n <= 2^o], and the loop ends for
    every request that such a size exists for in 64 bits. *)
Lemma order_for_spec n :
  n <= 2 ^ 63 ->
  exists o, order_for n = Some o /\ 0 <= o < 64 /\ n <= 2 ^ o /\ (0 < o -> 2 ^ (o - 1) < n).
Proof.
  intros Hn. unfold order_for.
  apply (loop_total _ (fun '(o, size) => 0 <= o < 64 /\ size = 2 ^ o /\ (0 < o -> 2 ^ (o - 1) < n))
           _ (fun '(o, _) => 64 - o)); [|split_and!; (done || lia)|lia].
  intros [o size] (Ho & -> & Hlow). cbn.
  destruct (Z.ltb_spec (2 ^ o) n) as [Hlt|Hge]; [|split_and!; (done || lia)].
  assert (o < 63) by (apply (Z.pow_lt_mono_r_iff 2); lia).
  rewrite Z.shiftl_mul_pow2, (u64_small (o + 1)) by lia.
  assert (2 ^ (o + 1) = 2 ^ o * 2 ^ 1) as He by (rewrite Z.pow_add_r; lia).
  pose proof (Z.pow_lt_mono_r 2 (o + 1) 64 ltac:(lia) ltac:(lia) ltac:(lia)).
  rewrite u64_small by lia. split_and!; try lia. intros _. by rewrite Z.add_simpl_r.
Qed.

Lemma order_for_mono n o : n <= 2 ^ 63 -> order_for n = Some o -> o < 12 <-> n <= 2048.
Proof.
  intros Hn E. destruct (order_for_spec n Hn) as (o' & E' & Ho & Hhi & Hlo). simplify_eq. split.
  - intros Hlt. transitivity (2 ^ o); [done|]. change 2048 with (2 ^ 11).
    apply Z.pow_le_mono_r; lia.
  - intros Hle. destruct (Z.le_gt_cases o 11); [lia|].
    assert (2 ^ 11 <= 2 ^ (o - 1)) by (apply Z.pow_le_mono_r; lia). specialize (Hlo ltac:(lia)). lia.
Qed.

(** Above [2^63] the doubled size wraps to 0 and the loop never ends. *)
Lemma order_for_diverges n : 2 ^ 63 < n < 2 ^ 64 -> order_for n = None.
Proof.
  intros Hn. unfold order_for.
  apply (loop_diverges _ (fun '(_, size) => size = 0 \/ exists k, 0 <= k < 64 /\ size = 2 ^ k));
    [|right; by exists 0].
  intros [o size] Hs.
  assert (size < n) as Hlt.
  { destruct Hs as [->|(k & Hk & ->)]; [lia|].
    assert (2 ^ k <= 2 ^ 63) by (apply Z.pow_le_mono_r; lia). lia. }
  rewrite (proj2 (Z.ltb_lt _ _) Hlt). eexists. split; [done|]. rewrite Z.shiftl_mul_pow2 by lia.
  destruct Hs as [->|(k & Hk & ->)]; [by left|].
  rewrite <- Z.pow_add_r by lia. destruct (decide (k = 63)) as [->|]; [by left|right].
  exists (k + 1). split; [lia|]. apply u64_small. split; [lia|].
  apply Z.pow_lt_mono_r; lia.
Qed.

(** [ctzll x] is the exponent of two in [x]. *)
Lemma ctzll_spec x :
  0 < x < 2 ^ 64 ->
  exists n, ctzll x = Some n /\ 0 <= n /\ x mod 2 ^ n = 0 /\ Z.odd (x / 2 ^ n) = true.
Proof.
  intros Hx. unfold ctzll.
  apply (loop_total _ (fun '(n, y) => 0 <= n /\ 0 < y /\ x = y * 2 ^ n) _ (fun '(_, y) => y));
    [|split_and!; (done || lia)|lia].
  intros [n y] (Hn & Hy & ->). destruct (Z.odd y) eqn:E.
  - split_and!; [done| |].
    + by apply Z.mod_mul, Z.pow_nonzero; lia.
    + by rewrite Z.div_mul by (apply Z.pow_nonzero; lia).
  - rewrite Z.shiftr_div_pow2 by lia. change (2 ^ 1) with 2.
    rewrite <- Z.negb_even, negb_false_iff in E. apply Z.even_spec in E as [z ->].
    rewrite (Z.mul_comm 2), Z.div_mul by lia. split_and!; try lia.
    rewrite Z.pow_add_r by lia. lia.
Qed.

Lemma order_bytes_bsize k : order_bytes (Z.of_nat k) = bsize k.
Proof.
  unfold order_bytes, bsize. rewrite Z.shiftl_mul_pow2, Z.pow_add_r by lia. done.
Qed.

(** ** Lists in memory *)

(** [seg m p l q]: following [next] from [p] visits [l] and stops at [q]. *)
Fixpoint seg (m : mem) (p : Z) (l : list Z) (q : Z) : Prop :=
  match l with
  | [] => p = q
  | a :: l' => p = a /\ seg m (rd64 m a) l' q
  end.
Definition chain (m : mem) (p : Z) (l : list Z) : Prop := seg m p l 0.

Lemma seg_app m p l1 l2 q :
  seg m p (l1 ++ l2) q <-> exists r, seg m p l1 r /\ seg m r l2 q.
Proof.
  revert p. induction l1 as [|a l1 IH]; intros p; cbn [app seg].
  - split; [eauto|]. by intros (r & -> & H).
  - rewrite IH. naive_solver.
Qed.

Lemma seg_frame m m' p l q :
  (forall a, a ∈ l -> rd64 m' a = rd64 m a) -> seg m p l q -> seg m' p l q.
Proof.
  revert p. induction l as [|a l IH]; intros p Hf; cbn [seg]; [done|].
  intros [-> Hs]. split; [done|]. rewrite Hf by (apply elem_of_cons; auto).
  apply IH; [|done]. intros b Hb. apply Hf, elem_of_cons. auto.
Qed.

(** The heads and the heap represent the lists [F]. *)
Definition lists_in (m : mem) (heads : list Z) (F : blocks) : Prop := Forall2 (chain m) heads F.

(** The node addresses of [F]: page-aligned, positive, all different. *)
Definition nodes_ok (F : blocks) : Prop :=
  length F = max_order /\ Forall wf_block (flat F) /\ NoDup (flat F).*2.

Definition nodes (F : blocks) : list Z := (flat F).*2.

Lemma elem_of_nodes F a : a ∈ nodes F <-> exists k, (k, a) ∈ flat F.
Proof.
  unfold nodes. rewrite list_elem_of_fmap. split.
  - intros ([k b] & -> & H). eauto.
  - intros (k & H). by exists (k, a).
Qed.

Lemma wf_nodes_ok F :
  length F = max_order -> Forall wf_block (flat F) -> NoDup (free_pages F) -> nodes_ok F.
Proof.
  intros Hlen Hwf Hnd. split_and!; [done..|].
  apply NoDup_fmap_2_strong; [|by apply flat_nodup].
  intros [k a] [k' a'] H H' E. cbn in E. subst a'.
  by apply (block_disjoint F _ _ (a / 4096) Hnd H H'); apply block_pages_head.
Qed.

Lemma node_aligned F a : nodes_ok F -> a ∈ nodes F -> a mod 4096 = 0 /\ 0 < a /\ a + 4096 <= 2 ^ 64.
Proof.
  intros (_ & Hwf & _) (k & Hin)%elem_of_nodes. rewrite Forall_forall in Hwf.
  destruct (Hwf _ Hin) as (Hk & Ha & Hal & He). cbn [fst snd] in *.
  split_and!; [by eapply bsize_mod_page|done|]. rewrite bsize_pages in He.
  assert (0 < 2 ^ Z.of_nat k) by lia. nia.
Qed.

(** Distinct page-aligned addresses are a page apart. *)
Lemma aligned_apart a b :
  a mod 4096 = 0 -> b mod 4096 = 0 -> a <> b -> b + 4096 <= a \/ a + 4096 <= b.
Proof.
  intros Ha Hb Hne. apply Z_div_exact_2 in Ha, Hb; [|lia..]. lia.
Qed.

Lemma rd64_other_node m a b v :
  a mod 4096 = 0 -> b mod 4096 = 0 -> a <> b -> rd64 (wr64 m a v) b = rd64 m b.
Proof. intros Ha Hb Hne. apply rd_wr_ne. destruct (aligned_apart a b Ha Hb Hne); lia. Qed.

(** A free list is shorter than the address space. *)
Lemma NoDup_bounded_length (l : list Z) n :
  0 <= n -> NoDup l -> (forall x, x ∈ l -> 0 <= x < n) -> Z.of_nat (length l) <= n.
Proof.
  intros Hn Hnd Hb. assert (length l <= length (seqZ 0 n))%nat as Hle.
  { apply submseteq_length, NoDup_submseteq; [done|]. intros x Hx. apply elem_of_seqZ.
    specialize (Hb x Hx). lia. }
  rewrite length_seqZ in Hle. lia.
Qed.

Lemma list_nodes F k l :
  nodes_ok F -> F !! k = Some l ->
  NoDup l /\ (forall a, a ∈ l -> a ∈ nodes F) /\ Z.of_nat (length l) < 2 ^ 64.
Proof.
  intros HF Hk. assert (forall a, a ∈ l -> a ∈ nodes F) as Hsub.
  { intros a Ha. apply elem_of_nodes. exists k. apply elem_of_flat. eauto. }
  destruct (flat_split F k l Hk) as (R & Hp & _).
  assert (NoDup l) as Hnd.
  { pose proof HF as (_ & _ & Hnd). rewrite Hp, fmap_app, <- list_fmap_compose in Hnd.
    apply NoDup_app in Hnd as (Hnd & _). rewrite (list_fmap_ext _ id) in Hnd by done.
    by rewrite list_fmap_id in Hnd. }
  split_and!; [done..|].
  enough (Z.of_nat (length l) <= 2 ^ 64 - 1) by lia.
  apply NoDup_bounded_length; [lia|done|]. intros x Hx%Hsub.
  destruct (node_aligned F x HF Hx) as (_ & ? & ?). lia.
Qed.

Lemma lists_in_update m m' heads F k h l :
  lists_in m heads F ->
  (forall j l0 a, j <> k -> F !! j = Some l0 -> a ∈ l0 -> rd64 m' a = rd64 m a) ->
  chain m' h l -> lists_in m' (<[k := h]> heads) (<[k := l]> F).
Proof.
  intros HL Hf Hc. pose proof (Forall2_length _ _ _ HL) as Hlen.
  apply Forall2_lookup. intros j. destruct (decide (j = k)) as [->|Hne].
  - destruct (decide (k < length heads)%nat) as [Hk|Hk].
    + rewrite !list_lookup_insert_eq by lia. by constructor.
    + rewrite !lookup_ge_None_2 by (rewrite length_insert; lia). constructor.
  - rewrite !list_lookup_insert_ne by done.
    pose proof (proj1 (Forall2_lookup _ _ _) HL j) as Hj.
    destruct (F !! j) as [l0|] eqn:E; inversion Hj as [p ? Hp|]; subst; constructor.
    eapply seg_frame; [|exact Hp]. intros a Ha. by eapply Hf.
Qed.

(** Two nodes of different lists differ. *)
Lemma node_one_list F j k l l' a :
  nodes_ok F -> F !! j = Some l -> F !! k = Some l' -> a ∈ l -> a ∈ l' -> j = k.
Proof.
  intros (_ & _ & Hnd) Hj Hk Ha Ha'.
  assert ((j, a) ∈ flat F) as H1 by (apply elem_of_flat; eauto).
  assert ((k, a) ∈ flat F) as H2 by (apply elem_of_flat; eauto).
  revert H1 H2. induction (flat F) as [|b bs IH]; [by intros ?%elem_of_nil|].
  rewrite fmap_cons, NoDup_cons in Hnd. destruct Hnd as [Hb Hnd].
  rewrite !elem_of_cons. intros [<-|H1] [E|H2].
  - by injection E.
  - destruct Hb. apply list_elem_of_fmap. by exists (k, a).
  - subst b. destruct Hb. apply list_elem_of_fmap. by exists (j, a).
  - by apply IH.
Qed.

(** Writing the [next] field of a page that is no node of another list. *)
Lemma lists_in_write m heads F k h l b v :
  nodes_ok F -> lists_in m heads F -> b mod 4096 = 0 ->
  (forall j l0, j <> k -> F !! j = Some l0 -> b ∉ l0) ->
  chain (wr64 m b v) h l ->
  lists_in (wr64 m b v) (<[k := h]> heads) (<[k := l]> F).
Proof.
  intros HF HL Hb Hout Hc. eapply lists_in_update; [exact HL| |exact Hc].
  intros j l0 a Hj Hl Ha. apply rd64_other_node; [done| |].
  - apply (node_aligned F a HF). by apply (list_nodes F j l0).
  - intros ->. by eapply Hout.
Qed.

Lemma lists_in_lookup m heads F k l :
  lists_in m heads F -> F !! k = Some l -> exists h, heads !! k = Some h /\ chain m h l.
Proof.
  intros HL Hk. destruct (Forall2_lookup_r _ _ _ _ _ HL Hk) as (h & Hh & Hc). eauto.
Qed.

(** [s'] differs from [s] in the list heads and in link words (the first eight
    bytes) of the pages [ps]. *)
Definition touches (ps : list Z) (s s' : kst) : Prop :=
  (exists m hs, s' = set_heap m (set_lists hs s)) /\
  forall b, (b / 4096) ∉ ps \/ 8 <= b mod 4096 -> rd8 (heap s') b = rd8 (heap s) b.

Lemma touches_refl ps s : touches ps s s.
Proof. split; [|done]. exists (heap s), (free_lists (buddy s)). by destruct s as [? [] ? ?]. Qed.

Lemma touches_trans ps qs s1 s2 s3 :
  touches ps s1 s2 -> touches qs s2 s3 -> touches (ps ++ qs) s1 s3.
Proof.
  intros [(m & hs & ->) H] [(m' & hs' & ->) H']. split; [by exists m', hs'|].
  intros b Hb. rewrite not_elem_of_app in Hb. by rewrite H', H by tauto.
Qed.

Lemma touches_mono ps qs s s' : (forall p, p ∈ ps -> p ∈ qs) -> touches ps s s' -> touches qs s s'.
Proof. intros Hsub [Hs H]. split; [done|]. intros b Hb. apply H. intuition. Qed.

Lemma touches_lists ps hs s : touches ps s (set_lists hs s).
Proof. split; [by exists (heap s), hs|done]. Qed.

Lemma touches_write ps a v s :
  a mod 4096 = 0 -> (a / 4096) ∈ ps -> touches ps s (set_heap (wr64 (heap s) a v) s).
Proof.
  intros Ha Hp. split.
  - exists (wr64 (heap s) a v), (free_lists (buddy s)). by destruct s as [? [] ? ?].
  - intros b Hb. cbn. apply rd8_wr_ne. apply Z_div_exact_2 in Ha; [|lia].
    destruct (decide (b < a)); [by left|right]. change (Z.of_nat 8) with 8.
    destruct (decide (a + 8 <= b)); [done|]. exfalso.
    assert (a / 4096 = b / 4096) as E by (apply (Z.div_unique _ _ _ (b - a)); lia).
    assert (b - a = b mod 4096) by (apply (Z.mod_unique _ _ (a / 4096)); lia).
    rewrite <- E in Hb. destruct Hb; [done|lia].
Qed.

(** ** Unlinking *)

Definition link_after (k : nat) (l : list Z) : link :=
  match last l with None => Head (Z.of_nat k) | Some b => Next b end.

Lemma link_load_after k h l1 l2 s :
  free_lists (buddy s) !! k = Some h -> chain (heap s) h (l1 ++ l2) ->
  exists p, link_load (link_after k l1) s = Ok (p, s) /\ seg (heap s) h l1 p /\ chain (heap s) p l2.
Proof.
  intros Hh (p & Hs & Hc)%seg_app. exists p. split; [|done]. unfold link_after.
  destruct l1 as [|b l1' _] using rev_ind.
  - simpl in Hs. subst p. cbn. unfold list_load. by rewrite Nat2Z.id, Hh.
  - rewrite last_snoc. apply seg_app in Hs as (r & _ & -> & Hp). simpl in Hp.
    cbn. unfold next_load, mgets. by rewrite Hp.
Qed.

Lemma remove_first_app addr l1 l2 :
  addr ∉ l1 -> remove_first addr (l1 ++ l2) = (app l1) <$> remove_first addr l2.
Proof.
  intros Hn. induction l1 as [|b l1 IH]; cbn; [by destruct (remove_first addr l2)|].
  rewrite not_elem_of_cons in Hn. destruct Hn as [Hb Hn].
  rewrite (proj2 (Z.eqb_neq b addr)), IH by done. by destruct (remove_first addr l2).
Qed.

(** The lists of a state. *)
Definition slists (s : kst) (F : blocks) : Prop := lists_in (heap s) (free_lists (buddy s)) F.

Lemma list_store_ok k p s (h : Z) :
  free_lists (buddy s) !! k = Some h ->
  list_store (Z.of_nat k) p s = Ok (tt, set_lists (<[k := p]> (free_lists (buddy s))) s).
Proof. intros Hh. unfold list_store. by rewrite Nat2Z.id, Hh. Qed.

Lemma list_load_ok k s (h : Z) :
  free_lists (buddy s) !! k = Some h -> list_load (Z.of_nat k) s = Ok (h, s).
Proof. intros Hh. unfold list_load. by rewrite Nat2Z.id, Hh. Qed.

Lemma unlink_spec F k h l1 addr l2 s :
  nodes_ok F -> slists s F -> F !! k = Some (l1 ++ addr :: l2) ->
  free_lists (buddy s) !! k = Some h ->
  seg (heap s) h l1 addr -> chain (heap s) (rd64 (heap s) addr) l2 ->
  wp (link_store (link_after k l1) (rd64 (heap s) addr)) s
     (fun _ s' => slists s' (<[k := l1 ++ l2]> F) /\ touches (free_pages F) s s').
Proof.
  intros HF HL Hk Hh Hs Hc. destruct (list_nodes F k _ HF Hk) as (Hnd & Hsub & _).
  unfold link_after. destruct l1 as [|b l1 _] using rev_ind.
  - cbn. eapply wp_run; [by eapply list_store_ok|]. split; [|apply touches_lists].
    unfold slists. cbn. by eapply lists_in_update.
  - rewrite last_snoc. cbn. apply wp_modify.
    assert (b ∈ nodes F) as Hb by (apply Hsub; set_solver).
    destruct (node_aligned F b HF Hb) as (Hal & _).
    rewrite <- app_assoc in Hnd. apply NoDup_app in Hnd as (Hnd1 & Hd & Hnd2).
    apply NoDup_cons in Hnd2 as [Hb2 _].
    split.
    + unfold slists. cbn. rewrite <- (list_insert_id _ _ _ Hh) at 1.
      apply lists_in_write; [done..| |].
      * intros j l0 Hj Hl0 Hin. apply Hj. eapply node_one_list; [done|exact Hl0|exact Hk|exact Hin|].
        set_solver.
      * rewrite <- app_assoc. apply seg_app in Hs as (r & Hs1 & -> & _).
        apply seg_app. exists b. split.
        { eapply seg_frame; [|exact Hs1]. intros a Ha. apply rd64_other_node; [done| |].
          - apply (node_aligned F a HF), Hsub. set_solver.
          - intros ->. apply (Hd a Ha). set_solver. }
        cbn [app seg]. split; [done|]. rewrite rd64_wr64_eq by apply rd64_range.
        eapply seg_frame; [|exact Hc]. intros a Ha. apply rd64_other_node; [done| |].
        { apply (node_aligned F a HF), Hsub. set_solver. }
        intros ->. set_solver.
    + apply touches_write; [done|]. apply elem_of_nodes in Hb as (j & Hj).
      apply elem_of_pages. exists (j, b). split; [done|apply block_pages_head].
Qed.

(** [buddy_remove] is [remove_first] on the list it walks. *)
Lemma buddy_remove_spec F k l addr s :
  nodes_ok F -> slists s F -> F !! k = Some l ->
  wp (buddy_remove addr (Z.of_nat k)) s (fun r s' =>
    match remove_first addr l with
    | Some l' => r = 1 /\ slists s' (<[k := l']> F) /\ touches (free_pages F) s s'
    | None => r = 0 /\ s' = s
    end).
Proof.
  intros HF HL Hk. destruct (list_nodes F k l HF Hk) as (Hnd & Hsub & Hlen).
  destruct (lists_in_lookup _ _ _ _ _ HL Hk) as (h & Hh & Hc). unfold buddy_remove.
  eapply (wp_mloop_ix _ (fun n pp t => t = s /\ exists l1 l2,
             l = l1 ++ l2 /\ (addr ∉ l1) /\ pp = link_after k l1 /\ n = Z.of_nat (length l2))); [| |exact Hlen].
  2: { split; [done|]. exists [], l. split_and!; [done|apply not_elem_of_nil|done..]. }
  intros n pp t (-> & l1 & l2 & -> & Hn & -> & ->).
  destruct (link_load_after k h l1 l2 s Hh Hc) as (p & Hp & Hs & Hc2).
  wp_step. eapply wp_run; [exact Hp|]. destruct l2 as [|a l2].
  - assert (p = 0) as -> by exact Hc2. rewrite Z.eqb_refl. wp_step.
    by rewrite app_nil_r, (proj2 (remove_first_None addr l1)).
  - destruct Hc2 as [-> Hc2]. destruct (node_aligned F a HF) as (_ & Ha & _); [set_solver|].
    rewrite (proj2 (Z.eqb_neq a 0)) by lia.
    rewrite remove_first_app by done. cbn [remove_first].
    destruct (Z.eqb_spec a addr) as [->|Hne].
    + wp_step. apply wp_gets. cbn beta. wp_step.
      eapply wp_mono; [by eapply unlink_spec|]. intros [] t Ht. by wp_step.
    + wp_step. exists (Z.of_nat (length l2)). split; [|simpl; lia]. split; [done|].
      exists (l1 ++ [a]), l2. split_and!; [by rewrite <- app_assoc|set_solver| |done].
      unfold link_after. by rewrite last_snoc.
Qed.

(** ** Inserting and merging *)

Lemma chain_head_range F m h l :
  nodes_ok F -> (forall a, a ∈ l -> a ∈ nodes F) -> chain m h l -> 0 <= h < 2 ^ 64.
Proof.
  intros HF Hsub Hc. destruct l as [|a l]; [assert (h = 0) as -> by exact Hc; lia|].
  destruct Hc as [-> _]. destruct (node_aligned F a HF) as (_ & ? & ?); [set_solver|lia].
Qed.

Lemma buddy_push_spec F k a s :
  nodes_ok F -> slists s F -> (k < max_order)%nat -> a mod 4096 = 0 -> a ∉ nodes F ->
  wp (buddy_push a (Z.of_nat k)) s
     (fun _ s' => slists s' (push F k a) /\ touches [a / 4096] s s').
Proof.
  intros HF HL Hk Ha Hn. destruct (lookup_lt_is_Some_2 F k) as [l Hl]; [by destruct HF as [-> _]|].
  destruct (list_nodes F k l HF Hl) as (Hnd & Hsub & _).
  destruct (lists_in_lookup _ _ _ _ _ HL Hl) as (h & Hh & Hc).
  unfold buddy_push. wp_step. eapply wp_run; [by apply list_load_ok|].
  unfold next_store. wp_step. apply wp_modify. eapply wp_run; [by eapply list_store_ok|]. split.
  - unfold push, slists. rewrite Hl. cbn. apply lists_in_write; [done..| |].
    + intros j l0 _ Hl0 Hin. apply Hn. by apply (list_nodes F j l0).
    + split; [done|]. rewrite rd64_wr64_eq by by eapply chain_head_range.
      eapply seg_frame; [|exact Hc]. intros b Hb. apply rd64_other_node; [done| |].
      * apply (node_aligned F b HF). auto.
      * intros ->. auto.
  - apply (touches_trans [a / 4096] [] _ (set_heap (wr64 (heap s) a h) s)); [|apply touches_lists].
    apply touches_write; [done|]. apply elem_of_cons. by left.
Qed.

Lemma buddy_merge_spec F k a s :
  length F = max_order -> Forall wf_block (flat F) -> NoDup (free_pages F) ->
  slists s F -> wf_block (k, a) ->
  wp (buddy_merge a (Z.of_nat k)) s (fun r s' => exists F' k',
    merge_spec (max_order - 1 - k) F a k = (F', r.1, k') /\ r.2 = Z.of_nat k' /\
    slists s' F' /\ touches (free_pages F) s s').
Proof.
  intros Hlen Hwf Hnd HL Hb. unfold buddy_merge.
  eapply (wp_mloop_ix _ (fun n '(a1, k1) t => exists F1 j,
    k1 = Z.of_nat j /\ n = 11 - Z.of_nat j /\ length F1 = max_order /\
    Forall wf_block (flat F1) /\ NoDup (free_pages F1) /\ slists t F1 /\ wf_block (j, a1) /\
    (forall p, p ∈ free_pages F1 -> p ∈ free_pages F) /\ touches (free_pages F) s t /\
    merge_spec (max_order - 1 - k) F a k = merge_spec (max_order - 1 - j) F1 a1 j));
    [| |exact (ltac:(lia) : 11 - Z.of_nat k < 2 ^ 64)].
  2: { exists F, k. split_and!; (done || apply touches_refl). }
  intros n [a1 k1] t (F1 & j & -> & -> & Hlen1 & Hwf1 & Hnd1 & HL1 & Hb1 & Hsub & Ht & Hm).
  change (MAX_ORDER - 1) with 11. destruct (Z.ltb_spec (Z.of_nat j) 11) as [Hj|Hj].
  2: { wp_step. exists F1, j. split_and!; try done. rewrite Hm.
       by replace (max_order - 1 - j)%nat with 0%nat by lia. }
  destruct (lookup_lt_is_Some_2 F1 j) as [l Hl]; [lia|].
  rewrite order_bytes_bsize. change (Z.lxor a1 (bsize j)) with (buddy_of j a1).
  wp_step. eapply wp_mono; [apply (buddy_remove_spec F1 j l); [by apply wf_nodes_ok|done..]|].
  intros r t' Hr. replace (max_order - 1 - j)%nat with (S (max_order - 1 - S j)) in Hm by lia.
  cbn [merge_spec] in Hm. rewrite Hl in Hm. cbn in Hm.
  destruct (remove_first (buddy_of j a1) l) as [l'|] eqn:Erm.
  - destruct Hr as (-> & HL' & Ht'). rewrite (proj2 (Z.eqb_neq 1 0)) by done. wp_step.
    pose proof (flat_remove F1 j l _ l' Hl Erm) as Hperm.
    assert (free_pages F1 ≡ₚ block_pages (j, buddy_of j a1) ++ free_pages (<[j:=l']> F1)) as Hpg.
    { unfold free_pages. by rewrite Hperm, pages_cons. }
    rewrite Hperm, Forall_cons in Hwf1. destruct Hwf1 as [Hbud Hwf'].
    exists (11 - Z.of_nat (S j)). split; [|lia]. exists (<[j:=l']> F1), (S j).
    replace (if buddy_of j a1 <? a1 then buddy_of j a1 else a1) with (Z.min (buddy_of j a1) a1)
      by (destruct (Z.ltb_spec (buddy_of j a1) a1); lia).
    split_and!; [rewrite u64_small by lia; lia|done|by rewrite length_insert|done| |done
                |by (apply wf_merge; [lia|done..])| | |done].
    + rewrite Hpg in Hnd1. by apply NoDup_app in Hnd1 as (_ & _ & Hnd1).
    + intros p Hp. apply Hsub. rewrite Hpg. apply elem_of_app. by right.
    + eapply touches_mono; [|eapply touches_trans; [exact Ht|exact Ht']].
      intros p [Hp|Hp]%elem_of_app; auto.
  - destruct Hr as (-> & ->). rewrite Z.eqb_refl. wp_step. by exists F1, j.
Qed.

(** ** Searching and splitting *)

Lemma find_order_spec F k s :
  length F = max_order -> slists s F -> (forall a, a ∈ nodes F -> a <> 0) -> (k <= max_order)%nat ->
  wp (find_order (Z.of_nat k)) s (fun r s' =>
    s' = s /\ r = match find_spec (max_order - k) F k with
                  | Some (j, _, _) => Z.of_nat j
                  | None => MAX_ORDER
                  end).
Proof.
  intros Hlen HL Hnz Hk. unfold find_order.
  eapply (wp_mloop_ix _ (fun n k1 t => t = s /\ exists j, k1 = Z.of_nat j /\ (j <= max_order)%nat /\
    n = 12 - Z.of_nat j /\ find_spec (max_order - k) F k = find_spec (max_order - j) F j));
    [| |exact (ltac:(lia) : 12 - Z.of_nat k < 2 ^ 64)].
  2: { split; [done|]. by exists k. }
  intros n k1 t (-> & j & -> & Hj & -> & Hf). change MAX_ORDER with 12 at 1.
  destruct (Z.ltb_spec (Z.of_nat j) 12).
  2: { wp_step. split; [done|]. rewrite Hf. replace (max_order - j)%nat with 0%nat by lia.
       cbn [find_spec]. unfold MAX_ORDER. lia. }
  destruct (lookup_lt_is_Some_2 F j) as [l Hl]; [lia|].
  destruct (lists_in_lookup _ _ _ _ _ HL Hl) as (h & Hh & Hc).
  replace (max_order - j)%nat with (S (max_order - S j)) in Hf by lia.
  cbn [find_spec] in Hf. rewrite Hl in Hf.
  wp_step. eapply wp_run; [by apply list_load_ok|]. destruct l as [|a l].
  - assert (h = 0) as -> by exact Hc. rewrite Z.eqb_refl. wp_step.
    exists (12 - Z.of_nat (S j)). split; [|lia]. split; [done|]. exists (S j).
    split_and!; [rewrite u64_small; lia|lia|lia|done].
  - destruct Hc as [-> Hc]. rewrite (proj2 (Z.eqb_neq a 0)).
    2: { apply Hnz, elem_of_nodes. exists j. apply elem_of_flat. exists (a :: l). split; [done|set_solver]. }
    wp_step. split; [done|]. by rewrite Hf.
Qed.

Lemma pages_of_node F k a : (k, a) ∈ flat F -> (a / 4096) ∈ free_pages F.
Proof. intros Hin. apply elem_of_pages. exists (k, a). split; [done|apply block_pages_head]. Qed.

Lemma buddy_split_spec F n o a s :
  wf F -> slists s F -> wf_block ((o + n)%nat, a) ->
  NoDup (block_pages ((o + n)%nat, a) ++ free_pages F) ->
  wp (buddy_split a (Z.of_nat (o + n)) (Z.of_nat o)) s (fun _ s' =>
    slists s' (split_spec n F a o) /\ touches (block_pages ((o + n)%nat, a)) s s').
Proof.
  intros HF HL Hb Hnd. unfold buddy_split.
  eapply (wp_mloop_ix _ (fun i k1 t => exists j F1, k1 = Z.of_nat (o + j) /\ i = Z.of_nat j /\
    wf F1 /\ slists t F1 /\ wf_block ((o + j)%nat, a) /\
    NoDup (block_pages ((o + j)%nat, a) ++ free_pages F1) /\
    (forall p, p ∈ block_pages ((o + j)%nat, a) -> p ∈ block_pages ((o + n)%nat, a)) /\
    touches (block_pages ((o + n)%nat, a)) s t /\ split_spec n F a o = split_spec j F1 a o));
    [| |exact (ltac:(destruct Hb; simpl in *; lia) : Z.of_nat n < 2 ^ 64)].
  2: { exists n, F. split_and!; (done || apply touches_refl). }
  intros i k1 t (j & F1 & -> & -> & HF1 & HL1 & Hb1 & Hnd1 & Hsub & Ht & Hs).
  destruct (Z.ltb_spec (Z.of_nat o) (Z.of_nat (o + j))) as [Hj|Hj].
  2: { wp_step. replace j with 0%nat in * by lia. by rewrite Hs. }
  destruct j as [|j]; [lia|]. replace (o + S j)%nat with (S (o + j)) in * by lia.
  destruct (split_step F1 (o + j) a HF1 Hb1 Hnd1) as (HF2 & Hlo & Hhi & Hpg).
  replace (u64 (Z.of_nat (S (o + j)) - 1)) with (Z.of_nat (o + j))
    by (destruct Hlo; simpl in *; rewrite u64_small; lia).
  rewrite order_bytes_bsize. assert (u64 (a + bsize (o + j)) = a + bsize (o + j)) as ->.
  { apply u64_small. destruct Hhi as (_ & ? & _ & ?). simpl in *. pose proof (bsize_pos (o + j)). lia. }
  assert (a mod 4096 = 0) as Hal by (eapply bsize_mod_page; apply Hlo).
  assert ((a + bsize (o + j)) / 4096 ∈ block_pages (S (o + j), a)) as Hup.
  { rewrite block_pages_split by done. apply elem_of_app. right. apply block_pages_head. }
  wp_step. eapply wp_mono; [apply (buddy_push_spec F1)|].
  - apply wf_nodes_ok; apply HF1.
  - done.
  - apply Hlo.
  - eapply bsize_mod_page. apply Hhi.
  - intros (j' & Hin)%elem_of_nodes. eapply block_not_free; [exact Hnd1|exact Hup|exact Hin].
  - intros [] t' (HL2 & Ht2). wp_step. exists (Z.of_nat j). split; [|lia].
    exists j, (push F1 (o + j) (a + bsize (o + j))).
    split_and!; [done..|by rewrite <- Hpg| | |done].
    + intros p Hp. apply Hsub. rewrite block_pages_split by done. apply elem_of_app. by left.
    + eapply touches_mono; [|eapply touches_trans; [exact Ht|exact Ht2]].
      intros p [Hp|Hp]%elem_of_app; [done|]. apply list_elem_of_singleton in Hp as ->. by apply Hsub.
Qed.

(** ** The allocator's lock *)

(** When locking is on, the lock is free and the CPU may nest once more. *)
Definition lock_idle (s : kst) : Prop :=
  use_lock (buddy s) <> 0 ->
  (exists nm, buddy_lock (buddy s) = Spinlock 0 nm 0) /\ (exists c, cpu_ready (khw s) c).

(** [s1] is [s] inside the critical section. *)
Definition entered (s s1 : kst) : Prop :=
  exists h lk, s1 = set_khw h (set_lock lk s) /\
    if use_lock (buddy s) =? 0 then h = khw s /\ lk = buddy_lock (buddy s)
    else held (khw s) h /\ exists nm,
           buddy_lock (buddy s) = Spinlock 0 nm 0 /\ lk = Spinlock 1 nm (gs_base (khw s)).

(** The critical section's only lasting effect: new heap, new list heads, and
    a CPU equal to the old one up to the scratch field of the nesting count. *)
Definition left_as (s s' : kst) (m : mem) (hs : list Z) : Prop :=
  exists h, s' = set_khw h (set_heap m (set_lists hs s)) /\ same_hw (khw s) h.

Lemma enter_spec s :
  lock_idle s -> wp (when_locking buddy_acquire) s (fun _ s1 => entered s s1).
Proof.
  intros Hi. unfold when_locking. wp_step. apply wp_gets. cbn beta.
  destruct (Z.eqb_spec (use_lock (buddy s)) 0) as [E|E]; cbn [negb].
  - wp_step. exists (khw s), (buddy_lock (buddy s)). rewrite E. split; [|done].
    by destruct s as [? [] ? ? ?].
  - destruct (Hi E) as ((nm & Hlk) & c & Hc). unfold buddy_acquire.
    wp_step. apply wp_gets. cbn beta. wp_step. apply wp_zoom. rewrite Hlk.
    eapply wp_mono; [by eapply acquire_spec|]. intros lk h [-> Hh]. apply wp_modify.
    exists h, (Spinlock 1 nm (gs_base (khw s))). rewrite (proj2 (Z.eqb_neq _ _) E).
    split; [by destruct s as [? [] ? ? ?]|]. split; [done|]. by exists nm.
Qed.

Lemma leave_spec s s1 m hs :
  entered s s1 ->
  wp (when_locking buddy_release) (set_heap m (set_lists hs s1)) (fun _ s' => left_as s s' m hs).
Proof.
  intros (h & lk & -> & He). unfold when_locking. wp_step. apply wp_gets. cbn -[Z.eqb negb wp].
  destruct (Z.eqb_spec (use_lock (buddy s)) 0) as [E|E]; cbn [negb].
  - destruct He as [-> ->]. wp_step. exists (khw s). by destruct s as [? [] ? ? ?].
  - destruct He as (Hh & nm & Hlk & ->). unfold buddy_release.
    wp_step. apply wp_gets. cbn beta. wp_step. apply wp_zoom. cbn -[wp].
    eapply wp_mono; [by apply release_spec|]. intros lk h' [-> Hh']. apply wp_modify.
    exists h'. split; [|done]. destruct s as [? [] ? ? ?]. cbn in *. by subst.
Qed.

Lemma entered_lists s s1 F : entered s s1 -> slists s F -> slists s1 F.
Proof. by intros (h & lk & -> & _). Qed.

Lemma entered_heap s s1 : entered s s1 -> heap s1 = heap s.
Proof. by intros (h & lk & -> & _). Qed.

(** ** The operations *)

(** The order a request of [n] pages is rounded up to. *)
Definition order_of (n : Z) : nat := Z.to_nat (Z.log2_up n).

Lemma order_for_order_of n :
  0 < n <= 2 ^ 63 -> order_for n = Some (Z.of_nat (order_of n)) /\ n <= 2 ^ Z.of_nat (order_of n).
Proof.
  intros Hn. destruct (order_for_spec n) as (o & -> & Ho & Hhi & Hlo); [lia|].
  assert (Z.log2_up n = o) as E.
  { destruct (decide (o = 0)) as [->|].
    - apply Z.log2_up_eqn0. simpl in Hhi. lia.
    - replace (2 ^ (o - 1)) with (2 ^ Z.pred o) in Hlo by (f_equal; lia).
      apply Z.log2_up_unique; lia. }
  unfold order_of. rewrite E, Z2Nat.id by lia. done.
Qed.

(** Bytes outside the pages [ps] keep their value. *)
Definition same_outside (ps : list Z) (m m' : mem) : Prop :=
  forall b, (b / 4096) ∉ ps -> rd8 m' b = rd8 m b.

(** What an allocator operation may do to the state: heap bytes of the pages
    [ps], the list heads, the CPU's scratch field. *)
Definition kupd (ps : list Z) (s s' : kst) : Prop :=
  exists m hs, left_as s s' m hs /\ same_outside ps (heap s) m.

Lemma touches_spec_bytes ps s s' :
  touches ps s s' ->
  exists m hs, s' = set_heap m (set_lists hs s) /\
    forall b, (b / 4096) ∉ ps \/ 8 <= b mod 4096 -> rd8 m b = rd8 (heap s) b.
Proof. intros [(m & hs & ->) H]. by exists m, hs. Qed.

Lemma merge_pages_fact F k a F' a' k' :
  wf F -> wf_block (k, a) -> merge_spec (max_order - 1 - k) F a k = (F', a', k') ->
  NoDup (block_pages (k, a) ++ free_pages F) ->
  nodes_ok F' /\ wf_block (k', a') /\ (a' ∉ nodes F') /\
  (forall p, p ∈ block_pages (k', a') -> p ∈ block_pages (k, a) ++ free_pages F).
Proof.
  intros [Hlen Hwf _ _] Hb Hm Hnd.
  assert (k + (max_order - 1 - k) = max_order - 1)%nat as Hk by (destruct Hb; simpl in *; lia).
  destruct (merge_spec_correct _ _ _ _ _ _ _ Hlen Hwf Hb Hk Hm) as (Hlen' & Hb' & Hsub & Hpg & _).
  fold (free_pages F) (free_pages F') in Hpg. rewrite Hpg in Hnd. split_and!; [|done| |].
  - apply wf_nodes_ok; [done| |by apply NoDup_app in Hnd as (_ & _ & Hnd)].
    apply Forall_forall. intros b Hin. rewrite Forall_forall in Hwf. auto.
  - intros (j & Hin)%elem_of_nodes. by apply (block_not_free F' (k', a') j a' Hnd (block_pages_head _ _)).
  - intros p Hp. rewrite Hpg. apply elem_of_app. by left.
Qed.

(** Merging and inserting a block: the part [kfree] and [freerange] share. *)
Lemma insert_block_spec F k a s :
  wf F -> slists s F -> wf_block (k, a) -> NoDup (block_pages (k, a) ++ free_pages F) ->
  wp (r ← buddy_merge a (Z.of_nat k); buddy_push r.1 r.2) s (fun _ s' =>
    slists s' (free_spec F a k) /\ touches (block_pages (k, a) ++ free_pages F) s s').
Proof.
  intros HF HL Hb Hnd. wp_step.
  eapply wp_mono; [apply (buddy_merge_spec F k a s); [apply HF..|done|done]|].
  intros [a' k1] s1 (F' & k' & Hm & Hk1 & HL1 & Ht1). cbn [fst snd] in *. subst k1.
  destruct (merge_pages_fact F k a F' a' k' HF Hb Hm Hnd) as (HF' & Hb' & Hn' & Hsub).
  eapply wp_mono.
  { apply (buddy_push_spec F'); [done|done|apply Hb'| |done]. eapply bsize_mod_page. apply Hb'. }
  intros [] s2 (HL2 & Ht2). unfold free_spec. rewrite Hm. split; [done|].
  eapply touches_mono; [|eapply touches_trans; [exact Ht1|exact Ht2]].
  intros p [Hp|Hp]%elem_of_app; [apply elem_of_app; auto|].
  apply list_elem_of_singleton in Hp as ->. apply Hsub, block_pages_head.
Qed.

Lemma page_of_byte a b : a mod 4096 = 0 -> a <= b < a + 4096 -> b / 4096 = a / 4096.
Proof.
  intros Ha Hb. apply Z_div_exact_2 in Ha; [|lia]. symmetry.
  apply (Z.div_unique _ _ _ (b - a)); lia.
Qed.

(** Changing pages that hold no free block keeps the lists. *)
Lemma slists_outside F ps m s :
  nodes_ok F -> slists s F -> same_outside ps (heap s) m ->
  (forall k a, (k, a) ∈ flat F -> (a / 4096) ∉ ps) -> slists (set_heap m s) F.
Proof.
  intros HF HL Ho Hps. unfold slists, lists_in. cbn. apply Forall2_lookup. intros j.
  pose proof (proj1 (Forall2_lookup _ _ _) HL j) as Hj.
  destruct (F !! j) as [l|] eqn:E; inversion Hj as [p ? Hp|]; subst; constructor.
  eapply seg_frame; [|exact Hp]. intros a Ha. apply rd_agree. intros b Hb. apply Ho.
  assert ((j, a) ∈ flat F) as Hin by (apply elem_of_flat; eauto).
  assert (a mod 4096 = 0) by (apply (node_aligned F a HF), elem_of_nodes; eauto).
  rewrite (page_of_byte a) by lia. eauto.
Qed.

Lemma byte_outside_block b k a :
  a mod 4096 = 0 -> (b / 4096) ∉ block_pages (k, a) -> b < a \/ a + bsize k <= b.
Proof.
  intros Ha Hb. rewrite elem_of_block_pages in Hb by done. rewrite bsize_pages in *.
  pose proof (Z_div_exact_2 a 4096 ltac:(lia) Ha).
  pose proof (Z.mod_pos_bound b 4096 ltac:(lia)). pose proof (Z_div_mod_eq_full b 4096). lia.
Qed.

Lemma memset_block_outside m k a c len :
  a mod 4096 = 0 -> len <= bsize k -> same_outside (block_pages (k, a)) m (memset m a c len).
Proof.
  intros Ha Hlen b Hb. apply rd8_memset_out. destruct (byte_outside_block b k a Ha Hb); lia.
Qed.

(** The order [kfree] uses. *)
Definition free_order (n : Z) : nat := Nat.min (max_order - 1) (order_of n).

Lemma when_locking_ext s s' : buddy s' = buddy s -> khw s' = khw s -> lock_idle s -> lock_idle s'.
Proof. unfold lock_idle. by intros -> ->. Qed.

(** [kfree] returns, inserts the block, touches nothing else, and leaves the
    freed bytes (but for the link word of a page) filled with the pattern. *)
Lemma kfree_spec F v n s :
  wf F -> slists s F -> lock_idle s -> 0 < n <= 2 ^ 63 ->
  wf_block (free_order n, v) -> NoDup (block_pages (free_order n, v) ++ free_pages F) ->
  wp (kfree v n) s (fun _ s' =>
    slists s' (free_spec F v (free_order n)) /\
    kupd (block_pages (free_order n, v) ++ free_pages F) s s' /\
    forall b, v <= b < v + bsize (free_order n) -> 8 <= b mod 4096 ->
              rd8 (heap s') b = MEM_FREE_PATTERN).
Proof.
  intros HF HL Hlk Hn Hb Hnd. set (k := free_order n) in *.
  pose proof Hb as (Hk & Hv & Hal & Hend). cbn [fst snd] in *.
  assert (v mod 4096 = 0) as Hvp by by eapply bsize_mod_page.
  unfold kfree. change PAGE_SIZE with 4096 at 1. rewrite Hvp, (proj2 (Z.eqb_neq n 0)) by lia.
  destruct (order_for_order_of n Hn) as [Eo Hno]. cbn [negb orb Z.eqb].
  wp_step. eapply wp_lift; [exact Eo|]. cbn zeta.
  assert ((if MAX_ORDER <=? Z.of_nat (order_of n) then MAX_ORDER - 1 else Z.of_nat (order_of n))
          = Z.of_nat k) as ->.
  { unfold k, free_order, MAX_ORDER. destruct (Z.leb_spec 12 (Z.of_nat (order_of n))); lia. }
  assert (u64 (Z.shiftl 1 (Z.of_nat k) * PAGE_SIZE) = bsize k) as ->.
  { rewrite Z.shiftl_mul_pow2, Z.mul_1_l, Z.mul_comm by lia. change PAGE_SIZE with 4096.
    rewrite <- bsize_pages. apply u64_small. pose proof (bsize_pos k). lia. }
  wp_step. apply wp_modify. set (m1 := memset _ _ _ _).
  assert (slists (set_heap m1 s) F) as HL1.
  { apply (slists_outside F (block_pages (k, v))); [apply wf_nodes_ok; apply HF|done| |].
    - by apply memset_block_outside.
    - intros j a Hin Hp. by apply (block_not_free F (k, v) j a Hnd Hp). }
  wp_step. eapply wp_mono; [by apply enter_spec, (when_locking_ext s)|]. intros [] s1 Hs1.
  pose proof (entered_heap _ _ Hs1) as Hh1. cbn [heap set_heap] in Hh1.
  wp_step. eapply wp_mono.
  { refine (wp_bind_inv _ _ _ _ (insert_block_spec F k v s1 HF _ Hb Hnd)).
    by eapply entered_lists. }
  intros r s2 Hs2. wp_step. eapply wp_mono; [exact Hs2|].
  intros [] s3 (HL3 & (m3 & hs & -> & Hm3)%touches_spec_bytes). rewrite Hh1 in Hm3.
  eapply wp_mono; [by eapply leave_spec|]. intros [] s4 (h & -> & Hh).
  split_and!; [done| |].
  - exists m3, hs. split; [exists h; by destruct s as [? [] ? ? ?]|].
    intros b Hout. rewrite Hm3 by by left. apply (memset_block_outside _ k); [done..|].
    rewrite not_elem_of_app in Hout. apply Hout.
  - intros b Hbv Hb8. cbn. rewrite Hm3 by by right. unfold m1. rewrite rd8_memset.
    rewrite (proj2 (Z.leb_le _ _)), (proj2 (Z.ltb_lt _ _)) by lia. done.
Qed.

Lemma slists_pop F k a l s :
  slists s F -> F !! k = Some (a :: l) ->
  exists hs, free_lists (buddy s) !! k = Some a /\
    hs = <[k := rd64 (heap s) a]> (free_lists (buddy s)) /\
    slists (set_lists hs s) (<[k := l]> F).
Proof.
  intros HL Hk. destruct (lists_in_lookup _ _ _ _ _ HL Hk) as (h & Hh & -> & Hc).
  eexists. split_and!; [done..|]. unfold slists. cbn. by eapply lists_in_update.
Qed.

Lemma set_self s : s = set_heap (heap s) (set_lists (free_lists (buddy s)) s).
Proof. by destruct s as [? [] ? ? ?]. Qed.

(** Pop and split, from the critical section's state. *)
Lemma take_block_spec F o j a l s :
  wf F -> slists s F -> (o < max_order)%nat -> find_spec (max_order - o) F o = Some (j, a, l) ->
  wp (block ← list_load (Z.of_nat j); n ← next_load block; list_store (Z.of_nat j) n;;
      buddy_split block (Z.of_nat j) (Z.of_nat o);; mret block) s (fun r s' =>
    r = a /\ slists s' (split_spec (j - o) (<[j := l]> F) a o) /\ touches (free_pages F) s s').
Proof.
  intros HF HL Ho Hf. apply find_spec_Some in Hf as (Hj & Hl & _).
  destruct (slists_pop F j a l s HL Hl) as (hs & Hh & -> & HL').
  destruct (pop_wf F j a l HF Hl) as (HF' & Hb & Hpg).
  wp_step. eapply wp_run; [by apply list_load_ok|]. wp_step. apply wp_gets.
  wp_step. eapply wp_run; [by eapply list_store_ok|].
  replace j with (o + (j - o))%nat in Hb, Hpg by lia.
  replace (o + (j - o))%nat with j in Hpg at 2 by lia.
  wp_step. replace (Z.of_nat j) with (Z.of_nat (o + (j - o))) by lia.
  eapply wp_mono; [apply (buddy_split_spec (<[j:=l]> F)); [done|done|done|]|].
  - rewrite <- Hpg. apply HF.
  - intros [] s2 (HL2 & Ht2). wp_step. split_and!; [done|done|].
    eapply touches_mono; [|eapply touches_trans; [apply (touches_lists [])|exact Ht2]].
    intros p Hp. rewrite Hpg. apply elem_of_app. by left.
Qed.

(** A request of [n] pages is answered from the free lists exactly when the
    specification answers it; memory outside the free pages is untouched and
    the pages handed out carry the allocation pattern. *)
Lemma kalloc_spec F n s :
  wf F -> slists s F -> lock_idle s -> 0 < n <= 2 ^ 63 -> (order_of n < max_order)%nat ->
  wp (kalloc n) s (fun r s' =>
    match alloc_spec F (order_of n) with
    | Some (a, F') =>
        r = a /\ slists s' F' /\ kupd (free_pages F) s s' /\
        forall b, a <= b < a + n * 4096 -> rd8 (heap s') b = MEM_ALLOC_PATTERN
    | None => r = 0 /\ slists s' F /\ kupd [] s s'
    end).
Proof.
  intros HF HL Hlk Hn Ho. set (o := order_of n) in *.
  destruct (order_for_order_of n Hn) as [Eo Hno]. fold o in Eo, Hno.
  assert (nodes_ok F) as HN by (apply wf_nodes_ok; apply HF).
  unfold kalloc. rewrite (proj2 (Z.eqb_neq n 0)) by lia.
  wp_step. eapply wp_lift; [exact Eo|]. change MAX_ORDER with 12 at 1.
  rewrite (proj2 (Z.leb_gt 12 (Z.of_nat o))) by lia.
  wp_step. eapply wp_mono; [by apply enter_spec|]. intros [] s1 Hs1.
  pose proof (entered_lists _ _ F Hs1 HL) as HL1. pose proof (entered_heap _ _ Hs1) as Hh1.
  wp_step. eapply wp_mono; [apply (find_order_spec F o s1); [apply HF|done| |lia]|].
  { intros a Ha. destruct (node_aligned F a HN Ha) as (_ & ? & _). lia. }
  intros k1 s1' [-> ->]. pose proof (alloc_spec_correct F o) as Hcor. unfold alloc_spec in *.
  destruct (find_spec _ F o) as [[[j a] l]|] eqn:Hf; cbn in *.
  - apply find_spec_Some in Hf as Hj. destruct Hj as (Hj & _).
    destruct (Hcor a _ HF Ho eq_refl) as (HF' & Hb & Hpg). clear Hcor.
    rewrite (proj2 (Z.eqb_neq (Z.of_nat j) MAX_ORDER)) by (unfold MAX_ORDER; lia).
    pose proof (take_block_spec F o j a l s1 HF HL1 Ho Hf) as Htake.
    wp_via Htake. wp_via Htake. wp_via Htake. wp_via Htake.
    apply wp_ok in Htake as (? & ? & [= <- <-] & Htake).
    destruct Htake as (-> & HL2 & (m2 & hs & -> & Hm2)%touches_spec_bytes). rewrite Hh1 in Hm2.
    wp_step. eapply wp_mono; [by eapply leave_spec|]. intros [] s3 (h & -> & Hh).
    wp_step. apply wp_modify. wp_step.
    assert (bsize o = 4096 * 2 ^ Z.of_nat o) as Hbs by apply bsize_pages.
    destruct Hb as (_ & Ha & Hal & Hend). cbn [fst snd] in *.
    assert (u64 (n * PAGE_SIZE) = n * 4096) as -> by (apply u64_small; unfold PAGE_SIZE; lia).
    assert (same_outside (block_pages (o, a)) m2 (memset m2 a MEM_ALLOC_PATTERN (n * 4096))) as Hout.
    { apply memset_block_outside; [by eapply bsize_mod_page|lia]. }
    split_and!; [done| | |].
    + eapply (slists_outside _ (block_pages (o, a))); [apply wf_nodes_ok; apply HF'|done|exact Hout|].
      intros k b Hin Hp. refine (block_not_free _ (o, a) k b _ Hp Hin). rewrite <- Hpg. apply HF.
    + exists (memset m2 a MEM_ALLOC_PATTERN (n * 4096)), hs. split; [by exists h|].
      intros b Hb. rewrite Hout.
      * rewrite Hm2; [done|by left].
      * intros Hin. apply Hb. rewrite Hpg. apply elem_of_app. by left.
    + intros b Hb. cbn. rewrite rd8_memset.
      rewrite (proj2 (Z.leb_le _ _)), (proj2 (Z.ltb_lt _ _)) by lia. done.
  - wp_step. rewrite (set_self s1).
    eapply wp_mono; [by eapply leave_spec|]. intros [] s2 (h & -> & Hh). wp_step.
    destruct Hs1 as (h1 & lk1 & -> & _). split_and!; [done|done|].
    exists (heap s), (free_lists (buddy s)). split; [by exists h|done].
Qed.

(** ** Seeding the allocator *)

Lemma shrink_order_spec p e k :
  (k < max_order)%nat -> 0 <= p -> p + 4096 <= e <= 2 ^ 52 ->
  exists j, shrink_order p e (Z.of_nat k) = Some (Z.of_nat j) /\ (j <= k)%nat /\ p + bsize j <= e.
Proof.
  intros Hk Hp He. unfold shrink_order.
  destruct (loop_total
    (fun m => if (0 <? m) && (e <? u64 (p + order_bytes m)) then inl (u64 (m - 1)) else inr m)
    (fun m => exists j, m = Z.of_nat j /\ (j <= k)%nat)
    (fun m => exists j, m = Z.of_nat j /\ (j <= k)%nat /\ p + bsize j <= e)
    (fun m => m) (Z.of_nat k)) as (r & -> & j & -> & H); [|by exists k|lia|eauto].
  intros m (j & -> & Hj). rewrite order_bytes_bsize.
  assert (bsize j <= 2 ^ 23) as Hjb by (unfold bsize; apply Z.pow_le_mono_r; lia).
  pose proof (bsize_pos j). rewrite u64_small by lia.
  destruct (Z.ltb_spec 0 (Z.of_nat j)), (Z.ltb_spec e (p + bsize j)); cbn [andb].
  - rewrite u64_small by lia. split; [|lia]. exists (j - 1)%nat. lia.
  - exists j. split_and!; [done..|lia].
  - exists j. split_and!; [done..|]. replace j with 0%nat in * by lia.
    change (bsize 0) with 4096 in *. lia.
  - exists j. split_and!; [done..|lia].
Qed.

Lemma align_order_spec p s :
  0 <= p < 2 ^ 64 -> p mod 4096 = 0 ->
  wp (align_order p) s (fun r s' =>
    s' = s /\ exists k, r = Z.of_nat k /\ (k < max_order)%nat /\ p mod bsize k = 0).
Proof.
  intros Hp Hal. unfold align_order, PAGE_SIZE, MAX_ORDER. wp_step.
  apply Z_div_exact_2 in Hal; [|lia]. set (i := p / 4096) in *.
  destruct (Z.eqb_spec i 0) as [E|E].
  - wp_step. cbn. wp_step. split; [done|]. exists 11%nat. rewrite Hal, E. split_and!; [done|lia|done].
  - destruct (ctzll_spec i) as (n & -> & Hn & Hi & _); [lia|]. apply wp_ret. wp_step.
    split; [done|]. exists (Z.to_nat (Z.min n 11)). split_and!; [|lia|].
    + destruct (Z.leb_spec 12 n); lia.
    + rewrite bsize_pages, Hal, Z2Nat.id by lia. rewrite Zmult_mod_distr_l.
      rewrite (mod_0_pow2_le i (Z.min n 11) n) by (done || lia). lia.
Qed.

(** ** [freerange] frees exactly the whole pages of a physical range *)

(** First page at or after [x], and the pages of [[p, e)] seen at offset [off]. *)
Definition page_up (x : Z) : Z := (x + 4095) / 4096 * 4096.
Definition range_pages (off p e : Z) : list Z := seqZ ((p + off) / 4096) ((e - p) / 4096).

Lemma page_up_land x :
  0 <= x -> x + 4095 < 2 ^ 64 ->
  Z.land (u64 (x + PAGE_SIZE - 1)) (2 ^ 64 - PAGE_SIZE) = page_up x.
Proof.
  intros Hx Hx'. unfold PAGE_SIZE, page_up. replace (x + 4096 - 1) with (x + 4095) by lia.
  rewrite u64_small by lia.
  change (2 ^ 64 - 4096) with (Z.shiftl (Z.ones 52) 12). rewrite land_field by lia.
  change (12 + 52) with 64. rewrite Z.mod_small by lia. change (2 ^ 12) with 4096.
  pose proof (Z_div_mod_eq_full (x + 4095) 4096). lia.
Qed.

Lemma block_range_pages off p k :
  p mod 4096 = 0 -> off mod 4096 = 0 ->
  block_pages (k, p + off) = range_pages off p (p + bsize k).
Proof.
  intros Hp Ho. unfold block_pages, range_pages. cbn [fst snd]. f_equal.
  rewrite bsize_pages. replace (p + 4096 * 2 ^ Z.of_nat k - p) with (2 ^ Z.of_nat k * 4096) by lia.
  by rewrite Z.div_mul.
Qed.

Lemma range_pages_app off p q e :
  p mod 4096 = 0 -> q mod 4096 = 0 -> off mod 4096 = 0 -> p <= q -> q <= e ->
  range_pages off p e = range_pages off p q ++ range_pages off q e.
Proof.
  intros Hp Hq Ho Hpq Hqe. apply Z_div_exact_2 in Hp, Hq, Ho; [|lia..].
  set (i := p / 4096) in *. set (j := q / 4096) in *. set (o := off / 4096) in *.
  unfold range_pages. replace (p + off) with ((i + o) * 4096) by lia.
  replace (q + off) with ((j + o) * 4096) by lia. replace (q - p) with ((j - i) * 4096) by lia.
  replace (e - p) with (e - q + (j - i) * 4096) by lia. rewrite Z.div_add, !Z.div_mul by lia.
  rewrite (Z.add_comm ((e - q) / 4096)), seqZ_app; [|lia|apply Z.div_pos; lia].
  f_equal. f_equal. lia.
Qed.

Lemma range_pages_nil off p e : e < p + 4096 -> range_pages off p e = [].
Proof.
  intros H. unfold range_pages. apply seqZ_nil. apply Z.lt_succ_r.
  apply Z.div_lt_upper_bound; lia.
Qed.

(** The mapping offset keeps the alignment of the largest blocks. *)
Definition hhdm_ok (off e : Z) : Prop := 0 < off /\ off mod 2 ^ 23 = 0 /\ e + off <= 2 ^ 64.

Lemma hhdm_aligned off e k : hhdm_ok off e -> (k < max_order)%nat -> off mod bsize k = 0.
Proof. intros (_ & H & _) Hk. unfold bsize. apply (mod_0_pow2_le off _ 23); [lia|done]. Qed.

Lemma add_mod_0 a b n : a mod n = 0 -> b mod n = 0 -> (a + b) mod n = 0.
Proof. intros Ha Hb. by rewrite Zplus_mod, Ha, Hb. Qed.

(** What the loop of [freerange] keeps: the pages before [p] are in. *)
Definition seeded (F : blocks) (s : kst) (p0 p : Z) (s' : kst) : Prop :=
  exists F1, wf F1 /\ slists s' F1 /\
    free_pages F1 ≡ₚ range_pages (hhdm_offset s) p0 p ++ free_pages F /\
    touches (range_pages (hhdm_offset s) p0 p ++ free_pages F) s s'.

Lemma seeded_step F s p0 p e k s1 :
  hhdm_ok (hhdm_offset s) e -> 0 <= p0 <= p -> p0 mod 4096 = 0 -> p mod bsize k = 0 ->
  (k < max_order)%nat -> p + bsize k <= e ->
  NoDup (range_pages (hhdm_offset s) p0 e ++ free_pages F) -> seeded F s p0 p s1 ->
  wp (r ← buddy_merge (p + hhdm_offset s) (Z.of_nat k); buddy_push r.1 r.2) s1
     (fun _ s2 => seeded F s p0 (p + bsize k) s2).
Proof.
  intros Hoff Hp Hp0 Hal Hk He Hnd (F1 & HF1 & HL1 & Hpg & Ht).
  set (off := hhdm_offset s) in *. pose proof (hhdm_aligned off e k Hoff Hk) as Hoffk.
  pose proof (bsize_mod_page k p Hal) as Hpp. pose proof (bsize_mod_page k off Hoffk) as Hop.
  pose proof (bsize_pos k). assert ((p + bsize k) mod 4096 = 0) as Hpk.
  { apply add_mod_0; [done|]. apply (bsize_mod_page k). apply Z_mod_same_full. }
  assert (block_pages (k, p + off) = range_pages off p (p + bsize k)) as Hblk
    by by apply block_range_pages.
  assert (range_pages off p0 (p + bsize k)
          = range_pages off p0 p ++ range_pages off p (p + bsize k)) as Happ
    by (apply range_pages_app; (done || lia)).
  assert (NoDup (block_pages (k, p + off) ++ free_pages F1)) as Hnd1.
  { rewrite Hblk, Hpg, app_assoc.
    rewrite (Permutation_app_comm (range_pages off p (p + bsize k))), <- Happ.
    rewrite (range_pages_app off p0 (p + bsize k) e) in Hnd by (done || lia).
    rewrite <- app_assoc in Hnd. apply NoDup_app in Hnd as (Hn1 & Hd & Hn2).
    apply NoDup_app in Hn2 as (_ & _ & Hn2). apply NoDup_app. split_and!; [done| |done].
    intros x Hx Hx'. apply (Hd x Hx), elem_of_app. by right. }
  assert (wf_block (k, p + off)) as Hb.
  { destruct Hoff as (Ho & _ & Heo). split_and!; cbn [fst snd]; [done|lia|by apply add_mod_0|lia]. }
  eapply wp_mono; [by apply (insert_block_spec F1 k)|]. intros [] s2 (HL2 & Ht2).
  destruct (free_spec_correct F1 (p + off) k HF1 Hb Hnd1) as [HF2 Hpg2].
  exists (free_spec F1 (p + off) k). fold off.
  assert (block_pages (k, p + off) ++ free_pages F1
          ≡ₚ range_pages off p0 (p + bsize k) ++ free_pages F) as Heq.
  { rewrite Hpg, Hblk, Happ, <- app_assoc. rewrite !app_assoc.
    by rewrite (Permutation_app_comm (range_pages off p (p + bsize k))). }
  split_and!; [done|done|by rewrite Hpg2|].
  eapply touches_mono; [|eapply touches_trans; [exact Ht|exact Ht2]].
  intros x [Hx|Hx]%elem_of_app; [|by rewrite <- Heq].
  rewrite <- Heq, elem_of_app. right. rewrite Hpg. done.
Qed.

(** [freerange st e] terminates and makes exactly the whole pages of the
    physical range [st, e) free, whatever orders it cuts the range into. *)
Lemma freerange_spec F st e s :
  wf F -> slists s F -> 0 <= st <= 2 ^ 52 -> e <= 2 ^ 52 -> hhdm_ok (hhdm_offset s) e ->
  NoDup (range_pages (hhdm_offset s) (page_up st) e ++ free_pages F) ->
  wp (freerange st e) s (fun _ s' => exists F',
    wf F' /\ slists s' F' /\
    free_pages F' ≡ₚ range_pages (hhdm_offset s) (page_up st) e ++ free_pages F /\
    touches (range_pages (hhdm_offset s) (page_up st) e ++ free_pages F) s s').
Proof.
  intros HF HL Hst He Hoff Hnd. unfold freerange. rewrite page_up_land by lia.
  set (p0 := page_up st) in *. set (off := hhdm_offset s) in *.
  assert (p0 mod 4096 = 0) as Hp0 by apply Z_mod_mult.
  assert (0 <= p0 <= 2 ^ 52 + 4096) as Hp0r.
  { unfold p0, page_up. pose proof (Z_div_mod_eq_full (st + 4095) 4096).
    pose proof (Z.mod_pos_bound (st + 4095) 4096). lia. }
  eapply (wp_mloop_ix _ (fun n p s1 => n = Z.max 0 (e - p) /\ p0 <= p /\ (p = p0 \/ p <= e) /\
            p mod 4096 = 0 /\ seeded F s p0 p s1));
    [| |exact (ltac:(lia) : Z.max 0 (e - p0) < 2 ^ 64)].
  2: { split_and!; [done|lia|by left|done|]. exists F. fold off.
       rewrite range_pages_nil by lia. split_and!; [done..|]. apply touches_refl. }
  intros n p s1 (-> & Hp & Hpe & Hpal & Hseed). unfold PAGE_SIZE. rewrite u64_small by lia.
  destruct (Z.leb_spec (p + 4096) e) as [Hle|Hgt].
  - wp_step. eapply wp_mono; [by apply align_order_spec; [lia|]|].
    intros r s1' (-> & k & -> & Hk & Halk).
    destruct (shrink_order_spec p e k Hk) as (j & Hj & Hjk & Hje); [lia..|].
    wp_step. eapply wp_lift; [exact Hj|]. wp_step. apply wp_gets.
    assert (hhdm_offset s1 = off) as ->.
    { destruct Hseed as (F1 & _ & _ & _ & (m & hs & ->) & _). done. }
    assert (p mod bsize j = 0) as Hpj.
    { apply (mod_0_pow2_le p _ (12 + Z.of_nat k)); [lia|done]. }
    pose proof (bsize_pos j). assert (off <= 2 ^ 64) by (destruct Hoff; lia).
    rewrite (u64_small (p + off)) by (destruct Hoff; lia).
    pose proof (seeded_step F s p0 p e j s1 Hoff ltac:(lia) Hp0 Hpj ltac:(lia) Hje Hnd Hseed) as Hstep.
    wp_via Hstep. wp_step. eapply wp_mono; [exact Hstep|]. intros [] s2 Hs2. wp_step.
    rewrite order_bytes_bsize, u64_small by lia. eexists. split_and!; [done|lia|by right|
      |exact Hs2|lia|lia].
    apply add_mod_0; [done|]. apply (bsize_mod_page j), Z_mod_same_full.
  - wp_step. destruct Hseed as (F1 & HF1 & HL1 & Hpg & Ht). fold off in Hpg, Ht.
    assert (range_pages off p0 e = range_pages off p0 p) as Heq.
    { destruct Hpe as [->|Hpe].
      - by rewrite !range_pages_nil by lia.
      - assert (off mod 4096 = 0) by (apply (hhdm_aligned off e 0 Hoff); lia).
        by rewrite (range_pages_app off p0 p e), (range_pages_nil off p e), app_nil_r by (done || lia). }
    rewrite Heq. by exists F1.
Qed.

(** ** What the allocator promises

    [alloc_inv ps s]: in state [s] exactly the pages [ps] are free. *)
Definition alloc_inv (ps : list Z) (s : kst) : Prop :=
  exists F, wf F /\ slists s F /\ lock_idle s /\ free_pages F ≡ₚ ps.

Lemma left_as_idle s s' m hs : left_as s s' m hs -> lock_idle s -> lock_idle s'.
Proof.
  intros (h & -> & Hh) Hi Hu. destruct (Hi Hu) as (Hlk & c & Hc). split; [done|].
  destruct (same_hw_ready _ _ _ Hh Hc) as (c' & Hc' & _). by exists c'.
Qed.

Lemma kupd_idle ps s s' : kupd ps s s' -> lock_idle s -> lock_idle s'.
Proof. intros (m & hs & H & _). by eapply left_as_idle. Qed.

Lemma same_outside_perm ps qs m m' :
  (forall p, p ∈ ps -> p ∈ qs) -> same_outside ps m m' -> same_outside qs m m'.
Proof. intros Hsub H b Hb. apply H. auto. Qed.

Lemma kupd_mono ps qs s s' : (forall p, p ∈ ps -> p ∈ qs) -> kupd ps s s' -> kupd qs s s'.
Proof. intros Hsub (m & hs & Hl & Ho). exists m, hs. split; [done|]. by eapply same_outside_perm. Qed.

Lemma alloc_inv_nodup ps s : alloc_inv ps s -> NoDup ps.
Proof. intros (F & HF & _ & _ & <-). apply HF. Qed.

Lemma order_of_small n : 0 < n -> (order_of n < max_order)%nat <-> n <= 2048.
Proof.
  intros Hn. unfold order_of. pose proof (Z.log2_up_nonneg n). split.
  - intros Hlt. apply (Z.log2_up_le_pow2 n 11); lia.
  - intros Hle%(Z.log2_up_le_pow2 n 11); lia.
Qed.

Lemma free_order_small n : 0 < n <= 2048 -> free_order n = order_of n.
Proof. intros Hn. pose proof (proj2 (order_of_small n ltac:(lia)) ltac:(lia)). unfold free_order. lia. Qed.

Lemma kalloc_inv ps n s :
  alloc_inv ps s -> 0 < n <= 2048 ->
  wp (kalloc n) s (fun r s' =>
    (r = 0 /\ alloc_inv ps s' /\ kupd [] s s' /\
     forall a, a mod bsize (order_of n) = 0 -> exists p, p ∈ block_pages (order_of n, a) /\ (p ∉ ps)) \/
    (wf_block (order_of n, r) /\
     exists qs, ps ≡ₚ block_pages (order_of n, r) ++ qs /\ alloc_inv qs s' /\ kupd ps s s' /\
       forall b, r <= b < r + n * 4096 -> rd8 (heap s') b = MEM_ALLOC_PATTERN)).
Proof.
  intros (F & HF & HL & Hi & Hpg) Hn.
  pose proof (proj2 (order_of_small n ltac:(lia)) ltac:(lia)) as Ho.
  eapply wp_mono; [apply (kalloc_spec F n s); (done || lia)|]. intros r s'.
  destruct (alloc_spec F (order_of n)) as [[a F']|] eqn:Ea.
  - intros (-> & HL' & Hk & Hpat). right.
    destruct (alloc_spec_correct F _ _ _ HF Ho Ea) as (HF' & Hb & Hp). split; [done|].
    exists (free_pages F'). split_and!; [by rewrite <- Hpg| | |done].
    + exists F'. split_and!; [done|done| |done]. by eapply kupd_idle.
    + eapply kupd_mono; [|exact Hk]. intros p. by rewrite Hpg.
  - intros (-> & HL' & Hk). left. split_and!; [done| |done|].
    + exists F. split_and!; [done|done| |done]. by eapply kupd_idle.
    + intros a Ha. destruct (alloc_spec_complete F _ HF Ho Ea a Ha) as (p & Hp & Hn').
      exists p. split; [done|]. by rewrite <- Hpg.
Qed.

Lemma kalloc_big n s : 2048 < n <= 2 ^ 63 -> kalloc n s = Ok (0, s).
Proof.
  intros Hn. unfold kalloc. rewrite (proj2 (Z.eqb_neq n 0)) by lia.
  destruct (order_for_order_of n ltac:(lia)) as [Eo _].
  unfold mbind, M_bind, mlift. rewrite Eo. unfold MAX_ORDER.
  destruct (Z.leb_spec 12 (Z.of_nat (order_of n))); [done|].
  pose proof (proj1 (order_of_small n ltac:(lia)) ltac:(lia)). lia.
Qed.

Lemma kfree_inv ps v n s :
  alloc_inv ps s -> 0 < n <= 2048 -> wf_block (order_of n, v) ->
  NoDup (block_pages (order_of n, v) ++ ps) ->
  wp (kfree v n) s (fun _ s' =>
    alloc_inv (block_pages (order_of n, v) ++ ps) s' /\
    kupd (block_pages (order_of n, v) ++ ps) s s').
Proof.
  intros (F & HF & HL & Hi & Hpg) Hn Hb Hnd. rewrite <- Hpg in Hnd.
  rewrite <- (free_order_small n Hn) in *.
  eapply wp_mono; [by apply (kfree_spec F v n s); (done || lia)|]. intros [] s' (HL' & Hk & _).
  destruct (free_spec_correct F v _ HF Hb Hnd) as [HF' Hp]. split.
  - exists (free_spec F v (free_order n)). split_and!; [done|done|by eapply kupd_idle|].
    by rewrite Hp, Hpg.
  - eapply kupd_mono; [|exact Hk]. intros p. by rewrite Hpg.
Qed.

(** *** Clients: any interleaving of allocations and frees of what is live *)

Inductive client_step : kst * list (Z * Z) -> kst * list (Z * Z) -> Prop :=
| client_alloc s live n r s' :
    0 < n <= 2 ^ 63 -> kalloc n s = Ok (r, s') ->
    client_step (s, live) (s', if r =? 0 then live else (r, n) :: live)
| client_free s l1 v n l2 s' :
    kfree v n s = Ok (tt, s') -> client_step (s, l1 ++ (v, n) :: l2) (s', l1 ++ l2).

Definition live_pages (live : list (Z * Z)) : list Z :=
  live ≫= (fun '(v, n) => block_pages (order_of n, v)).

Definition live_ok (live : list (Z * Z)) : Prop :=
  Forall (fun '(v, n) => 0 < n <= 2048 /\ wf_block (order_of n, v)) live.

Lemma live_pages_mid l1 v n l2 :
  live_pages (l1 ++ (v, n) :: l2) ≡ₚ block_pages (order_of n, v) ++ live_pages (l1 ++ l2).
Proof.
  unfold live_pages. rewrite !bind_app. cbn [mbind list_bind].
  rewrite !app_assoc. by rewrite (Permutation_app_comm (mbind _ l1)).
Qed.

Definition client_inv (ps : list Z) (c : kst * list (Z * Z)) : Prop :=
  live_ok c.2 /\ exists qs, alloc_inv qs c.1 /\ live_pages c.2 ++ qs ≡ₚ ps.

Lemma client_step_inv ps c c' :
  NoDup ps -> client_inv ps c -> client_step c c' -> client_inv ps c'.
Proof.
  intros Hnd (Hlive & qs & Hq & Hpg) Hstep. destruct Hstep as [s live n r s' Hn Hk|s l1 v n l2 s' Hk];
    cbn [fst snd] in *.
  - destruct (Z.le_gt_cases n 2048) as [Hle|Hgt].
    + pose proof (kalloc_inv qs n s Hq ltac:(lia)) as (r' & s1 & Hk' & Hr)%wp_ok.
      rewrite Hk in Hk'. injection Hk' as <- <-.
      destruct Hr as [(-> & Hq' & _)|(Hb & qs' & Hqs & Hq' & _)]; [by split; [|by exists qs]|].
      rewrite (proj2 (Z.eqb_neq r 0)) by (destruct Hb as (_ & ? & _); simpl in *; lia).
      split; [constructor; [split; [lia|done]|done]|]. exists qs'. split; [done|].
      rewrite <- Hpg, Hqs. cbn. rewrite !app_assoc. by rewrite (Permutation_app_comm (live_pages live)).
    + rewrite kalloc_big in Hk by lia. injection Hk as <- <-. split; [done|]. by exists qs.
  - apply Forall_app in Hlive as [H1 [[Hn Hb] H2]%Forall_cons].
    rewrite live_pages_mid, <- app_assoc in Hpg.
    assert (NoDup (block_pages (order_of n, v) ++ qs)) as Hnd'.
    { rewrite <- Hpg in Hnd. apply NoDup_app in Hnd as (Hn1 & Hd & Hn2).
      apply NoDup_app in Hn2 as (_ & _ & Hn2). apply NoDup_app. split_and!; [done| |done].
      intros x Hx Hx'. apply (Hd x Hx), elem_of_app. by right. }
    pose proof (kfree_inv qs v n s Hq Hn Hb Hnd') as (r' & s1 & Hk' & Hq' & _)%wp_ok.
    rewrite Hk in Hk'. injection Hk' as _ <-. split; [by apply Forall_app|].
    exists (block_pages (order_of n, v) ++ qs). split; [done|]. rewrite <- Hpg.
    rewrite !app_assoc. by rewrite (Permutation_app_comm (live_pages (l1 ++ l2))).
Qed.

(** ** Properties *)

(** A machine with one free block of four pages, locking enabled. *)
Definition demo_cpu : cpu := Cpu 0 0 0 0 0 0 0 0.
Definition demo_blocks : blocks := push empty_blocks 2 1048576.
Definition demo_pages : list Z := [256; 257; 258; 259].
Definition demo_kst : kst :=
  Kst ∅ (Buddy_state (initlock 1) 1 (<[2%nat := 1048576]> (replicate 12 0)))
      (Hw true 4096 {[ 4096 := demo_cpu ]}) (2 ^ 40) 0.

Lemma demo_blocks_wf : wf demo_blocks.
Proof.
  apply push_wf; [done|apply wf_empty| |by_decide| |].
  - split_and!; cbn [fst snd]; [lia|done..].
  - intros k a Ha. by apply elem_of_nil in Ha.
  - intros _ Ha. by apply elem_of_nil in Ha.
Qed.

Lemma demo_lists : slists demo_kst demo_blocks.
Proof. unfold slists. repeat constructor. Qed.

Lemma demo_idle : lock_idle demo_kst.
Proof. intros _. split; [by exists 1|]. by exists demo_cpu. Qed.

Lemma demo_inv : alloc_inv demo_pages demo_kst.
Proof.
  exists demo_blocks. split_and!; [apply demo_blocks_wf|apply demo_lists|apply demo_idle|done].
Qed.

(** C1: whatever sequence of [kalloc]s and of [kfree]s of live allocations the
    kernel runs, the live blocks and the free pages always partition the pages
    it started with: no two live allocations share a page, no live page is on
    a free list, and no page is ever lost. *)
Theorem allocations_partition ps s s' live :
  alloc_inv ps s -> rtc client_step (s, []) (s', live) ->
  live_ok live /\ exists qs, alloc_inv qs s' /\ live_pages live ++ qs ≡ₚ ps.
Proof.
  intros Hi Hr. change (client_inv ps (s', live)).
  assert (client_inv ps (s, [])) as H0 by (split; [constructor|]; exists ps; done).
  revert H0. induction Hr as [c|c1 c2 c3 H12 _ IH]; [done|]. intros H1. apply IH.
  eapply client_step_inv; [by eapply alloc_inv_nodup|done..].
Qed.

Lemma allocations_partition_witness :
  exists r s', rtc client_step (demo_kst, []) (s', [(r, 1)]) /\ live_ok [(r, 1)] /\
    exists qs, alloc_inv qs s' /\ live_pages [(r, 1)] ++ qs ≡ₚ demo_pages.
Proof.
  pose proof (kalloc_spec demo_blocks 1 demo_kst demo_blocks_wf demo_lists demo_idle
                ltac:(lia) (proj2 (order_of_small 1 eq_refl) ltac:(lia))) as (r & s' & Hk & Hr)%wp_ok.
  destruct (alloc_spec demo_blocks (order_of 1)) as [[a F']|] eqn:E; [|by vm_compute in E].
  assert (a = 1048576) as -> by (vm_compute in E; congruence). destruct Hr as (-> & _).
  assert (rtc client_step (demo_kst, []) (s', [(1048576, 1)])) as Hrtc.
  { eapply rtc_once. apply (client_alloc demo_kst [] 1 1048576 s'); [lia|done]. }
  exists 1048576, s'. split; [done|]. apply (allocations_partition _ _ _ _ demo_inv Hrtc).
Defined.



(** C13: [kfree] of a block whose pages are not free always returns, adds
    exactly those pages to the free ones, fills the block (but for the link
    word of a page) with the free pattern, and changes no other memory. *)
Theorem kfree_correct ps v n s :
  alloc_inv ps s -> 0 < n <= 2048 -> wf_block (order_of n, v) ->
  NoDup (block_pages (order_of n, v) ++ ps) ->
  wp (kfree v n) s (fun _ s' =>
    alloc_inv (block_pages (order_of n, v) ++ ps) s' /\
    kupd (block_pages (order_of n, v) ++ ps) s s' /\
    forall b, v <= b < v + bsize (order_of n) -> 8 <= b mod 4096 ->
              rd8 (heap s') b = MEM_FREE_PATTERN).
Proof.
  intros Hi Hn Hb Hnd. pose proof (kfree_inv ps v n s Hi Hn Hb Hnd) as H1.
  destruct Hi as (F & HF & HL & Hi & Hpg).
  rewrite <- (free_order_small n Hn) in Hb, Hnd. rewrite <- Hpg in Hnd.
  pose proof (kfree_spec F v n s HF HL Hi ltac:(lia) Hb Hnd) as H2.
  eapply wp_mono; [exact (wp_and _ _ _ _ H1 H2)|].
  intros [] s' [[Hi' Hk] (_ & _ & Hpat)]. rewrite (free_order_small n Hn) in Hpat. done.
Qed.

Lemma kfree_correct_witness :
  wf_block (order_of 1, 4194304) /\
  wp (kfree 4194304 1) demo_kst (fun _ s' =>
    alloc_inv (block_pages (order_of 1, 4194304) ++ demo_pages) s' /\
    kupd (block_pages (order_of 1, 4194304) ++ demo_pages) demo_kst s' /\
    forall b, 4194304 <= b < 4194304 + bsize (order_of 1) -> 8 <= b mod 4096 ->
              rd8 (heap s') b = MEM_FREE_PATTERN).
Proof.
  assert (wf_block (order_of 1, 4194304)) as Hb by (split_and!; [by_decide|done..]).
  split; [done|]. apply (kfree_correct demo_pages 4194304 1 demo_kst demo_inv); [lia|done|].
  by_decide.
Defined.

(** A [kfree] right after the [kalloc] of the same size restores the free
    lists: the same blocks, all merges undone and redone, up to their order. *)
Lemma kalloc_kfree_restores F n s :
  wf F -> slists s F -> lock_idle s -> 0 < n <= 2048 ->
  wp (p ← kalloc n; (if p =? 0 then mret tt else kfree p n)) s (fun _ s' =>
    exists F', slists s' F' /\ wf F' /\ flat F' ≡ₚ flat F).
Proof.
  intros HF HL Hi Hn. pose proof (proj2 (order_of_small n ltac:(lia)) ltac:(lia)) as Ho.
  wp_step. eapply wp_mono; [apply (kalloc_spec F n s); (done || lia)|]. intros r s1.
  destruct (alloc_spec F (order_of n)) as [[a F1]|] eqn:Ea.
  2: { intros (-> & HL1 & _). rewrite Z.eqb_refl. wp_step. by exists F. }
  intros (-> & HL1 & Hk & _). destruct (alloc_spec_correct F _ _ _ HF Ho Ea) as (HF1 & Hb & Hpg).
  rewrite (proj2 (Z.eqb_neq a 0)) by (destruct Hb as (_ & ? & _); simpl in *; lia).
  pose proof (free_alloc_spec F _ a F1 HF Ho Ea) as Hrt.
  assert (NoDup (block_pages (order_of n, a) ++ free_pages F1)) as Hnd by (rewrite <- Hpg; apply HF).
  pose proof (free_spec_correct F1 a _ HF1 Hb Hnd) as [HF2 _].
  rewrite <- (free_order_small n Hn) in *.
  eapply wp_mono; [apply (kfree_spec F1 a n s1); (done || lia || by eapply kupd_idle)|].
  intros [] s2 (HL2 & _). eauto.
Qed.

Lemma kalloc_kfree_restores_witness :
  wp (p ← kalloc 1; (if p =? 0 then mret tt else kfree p 1)) demo_kst (fun _ s' =>
    exists F', slists s' F' /\ wf F' /\ flat F' ≡ₚ flat demo_blocks).
Proof. apply (kalloc_kfree_restores _ 1 _ demo_blocks_wf demo_lists demo_idle). lia. Defined.

(** [order_for] returns the least [o] with [n <= 2^o] for every request up
    to [2^63] pages; above that the doubled size wraps to zero and the loop
    never ends, which makes [kalloc] and [kfree] hang. *)
Lemma order_for_least n :
  0 <= n < 2 ^ 64 ->
  if n <=? 2 ^ 63
  then exists o, order_for n = Some o /\ 0 <= o < 64 /\ n <= 2 ^ o /\ (forall j, 0 <= j < o -> 2 ^ j < n)
  else order_for n = None /\ forall s, kalloc n s = Stuck Diverge.
Proof.
  intros Hn. destruct (Z.leb_spec n (2 ^ 63)) as [Hle|Hgt].
  - destruct (order_for_spec n Hle) as (o & Ho & Hr & Hhi & Hlo). exists o.
    split_and!; [done|lia|lia|done|]. intros j Hj.
    eapply Z.le_lt_trans; [|apply Hlo; lia]. apply Z.pow_le_mono_r; lia.
  - pose proof (order_for_diverges n ltac:(lia)) as E. split; [done|]. intros s.
    unfold kalloc. rewrite (proj2 (Z.eqb_neq n 0)) by lia. unfold mbind, M_bind, mlift. by rewrite E.
Qed.

(** [freerange] terminates and adds to the free pages exactly the whole pages
    of the physical range it is given (seen through the direct map), whatever
    naturally aligned blocks it cuts the range into, and changes no memory
    outside them and the pages already free. *)
Lemma freerange_frees ps st e s :
  alloc_inv ps s -> 0 <= st <= 2 ^ 52 -> e <= 2 ^ 52 -> hhdm_ok (hhdm_offset s) e ->
  NoDup (range_pages (hhdm_offset s) (page_up st) e ++ ps) ->
  wp (freerange st e) s (fun _ s' =>
    alloc_inv (range_pages (hhdm_offset s) (page_up st) e ++ ps) s' /\
    touches (range_pages (hhdm_offset s) (page_up st) e ++ ps) s s').
Proof.
  intros (F & HF & HL & Hi & Hpg) Hst He Hoff Hnd. rewrite <- Hpg in Hnd.
  eapply wp_mono; [by apply (freerange_spec F)|].
  intros [] s' (F' & HF' & HL' & Hpg' & Hm). split.
  - exists F'. destruct Hm as ((m & hs & ->) & _). split_and!; [done|done|done|]. by rewrite Hpg', Hpg.
  - eapply touches_mono; [|exact Hm]. intros x. by rewrite Hpg.
Qed.

(** The interrupt flag and nesting depth survive any allocator call. *)
Lemma kupd_hw ps s s' : kupd ps s s' -> same_hw (khw s) (khw s').
Proof. by intros (m & hs & (h & -> & Hh) & _). Qed.
