(* ===== verification/PageAlloc.v ===== *)
(** * What the page allocator promises its clients

    The rest of the kernel uses [kalloc] and [kfree] only through this
    interface: a predicate saying which pages are free, and the two laws of
    the operations.  [buddy_allocator] discharges it from Buddy.v; the page
    tables, processes and file systems are proved against the class. *)
From S2P Require Import Prelude KMem Spinlock BuddySpec Buddy.

#[local] Open Scope Z_scope.

Class PageAllocator := {
  pa_alloc : Z -> M kst Z;
  pa_free : Z -> Z -> M kst unit;
  (** Exactly the pages [ps] are free. *)
  pa_inv : list Z -> kst -> Prop;
  pa_inv_nodup : forall ps s, pa_inv ps s -> NoDup ps;
  (** Free pages are whole pages of the address space, not the null page. *)
  pa_inv_range : forall ps s p, pa_inv ps s -> p ∈ ps -> 0 < p < 2 ^ 52;
  (** The invariant constrains no byte of a page that is not free. *)
  pa_inv_heap : forall ps qs s m, pa_inv ps s -> same_outside qs (heap s) m ->
    (forall p, p ∈ qs -> p ∉ ps) -> pa_inv ps (set_heap m s);
  (** Nor the CPU, as long as it can take a lock. *)
  pa_inv_cpu : forall ps s h c x, pa_inv ps s -> cpu_ready h c ->
    pa_inv ps (Kst (heap s) (buddy s) h (hhdm_offset s) x);
  pa_alloc_law : forall ps n s, pa_inv ps s -> 0 < n <= 2048 ->
    wp (pa_alloc n) s (fun r s' =>
      (r = 0 /\ pa_inv ps s' /\ kupd [] s s' /\
       forall a, a mod bsize (order_of n) = 0 ->
         exists p, p ∈ block_pages (order_of n, a) /\ (p ∉ ps)) \/
      (wf_block (order_of n, r) /\
       exists qs, ps ≡ₚ block_pages (order_of n, r) ++ qs /\ pa_inv qs s' /\ kupd ps s s'));
  pa_free_law : forall ps v n s, pa_inv ps s -> 0 < n <= 2048 ->
    wf_block (order_of n, v) -> NoDup (block_pages (order_of n, v) ++ ps) ->
    wp (pa_free v n) s (fun _ s' =>
      pa_inv (block_pages (order_of n, v) ++ ps) s' /\
      kupd (block_pages (order_of n, v) ++ ps) s s')
}.

Lemma alloc_inv_range ps s p : alloc_inv ps s -> p ∈ ps -> 0 < p < 2 ^ 52.
Proof.
  intros (F & HF & _ & _ & <-) ([k a] & Hin & Hp)%elem_of_pages.
  pose proof (wf_blocks F HF) as Hw. rewrite Forall_forall in Hw.
  destruct (Hw _ Hin) as (Hk & Ha & Hal & He). cbn [fst snd] in *.
  apply bsize_mod_page in Hal as Hal'. rewrite elem_of_block_pages in Hp by done.
  apply Z_div_exact_2 in Hal'; lia.
Qed.

Lemma alloc_inv_heap ps qs s m :
  alloc_inv ps s -> same_outside qs (heap s) m -> (forall p, p ∈ qs -> p ∉ ps) ->
  alloc_inv ps (set_heap m s).
Proof.
  intros (F & HF & HL & Hi & Hpg) Hq Hd. exists F. split_and!; [done| |done|done].
  apply (slists_outside F qs); [apply wf_nodes_ok; apply HF|done|done|].
  intros k a Hin Hp. apply (Hd _ Hp). rewrite <- Hpg. by eapply pages_of_node.
Qed.

Lemma alloc_inv_cpu ps s h c x :
  alloc_inv ps s -> cpu_ready h c -> alloc_inv ps (Kst (heap s) (buddy s) h (hhdm_offset s) x).
Proof.
  intros (F & HF & HL & Hi & Hpg) Hc. exists F. split_and!; [done..| |done].
  intros Hu. destruct (Hi Hu) as [Hl _]. split; [done|]. by exists c.
Qed.

#[export, refine] Instance buddy_allocator : PageAllocator := {
  pa_alloc := kalloc;
  pa_free := kfree;
  pa_inv := alloc_inv;
  pa_inv_nodup := alloc_inv_nodup;
  pa_inv_range := alloc_inv_range;
  pa_inv_heap := alloc_inv_heap;
  pa_inv_cpu := alloc_inv_cpu;
  pa_free_law := kfree_inv
}.
Proof.
  intros ps n s Hi Hn. eapply wp_mono; [by apply kalloc_inv|]. intros r s' [H|H]; [by left|right].
  destruct H as (Hb & qs & Hp & Hq & Hk & _). split; [done|]. by exists qs.
Defined.

(** ** One page *)

Section OnePage.
Context `{PA : PageAllocator}.

Lemma block_pages_one a : block_pages (order_of 1, a) = [a / 4096].
Proof. done. Qed.

Lemma page_of_number p : p * 4096 / 4096 = p.
Proof. by rewrite Z.div_mul. Qed.

(** While a page is free, a request of one page succeeds. *)
Lemma alloc_page ps s :
  pa_inv ps s -> ps <> [] ->
  wp (pa_alloc 1) s (fun r s' =>
    r mod 4096 = 0 /\ 0 < r /\ r + 4096 <= 2 ^ 64 /\
    exists qs, ps ≡ₚ (r / 4096) :: qs /\ pa_inv qs s' /\ kupd ps s s').
Proof.
  intros Hi Hne. eapply wp_mono; [by apply pa_alloc_law|]. intros r s' [(_ & _ & _ & Hno)|H].
  - exfalso. destruct ps as [|p ps]; [done|]. destruct (Hno (p * 4096)) as (q & Hq & Hq').
    + by apply Z.mod_mul.
    + rewrite block_pages_one, page_of_number in Hq. apply list_elem_of_singleton in Hq as ->.
      apply Hq', elem_of_cons. by left.
  - destruct H as ((Hk & Hr & Hal & He) & qs & Hp & Hq & Hu). change (bsize (order_of 1)) with 4096 in *.
    split_and!; [done..|]. by exists qs.
Qed.

Lemma free_page ps v s :
  pa_inv ps s -> v mod 4096 = 0 -> 0 < v -> v + 4096 <= 2 ^ 64 -> (v / 4096) ∉ ps ->
  wp (pa_free v 1) s (fun _ s' => pa_inv ((v / 4096) :: ps) s' /\ kupd ((v / 4096) :: ps) s s').
Proof.
  intros Hi Hal Hv He Hn. apply (pa_free_law ps v 1); [done|done| |].
  - split_and!; cbn [fst snd]; [by apply order_of_small|done..].
  - rewrite block_pages_one. constructor; [done|]. by eapply pa_inv_nodup.
Qed.
End OnePage.
