(* ===== verification/PageTable.v ===== *)
(** * Four-level page tables (src/src/kernel/mem.c)

    [map_page], [map_page_pml4] and [create_user_pml4] over the byte heap,
    with the pages for new tables taken from a [PageAllocator].  [translate]
    is the walk the processor makes; the theorems say what each operation does
    to it.  [pt_inv] is the shape of one tree of tables: which pages are
    tables, at which level, and that no two entries share a table. *)
From S2P Require Import Prelude KMem Spinlock BuddySpec Buddy PageAlloc.

#[local] Set Warnings "-clear-no-such-hyp".
#[local] Open Scope Z_scope.

Definition PTE_PRESENT : Z := 1.
Definition PTE_WRITE : Z := 2.
Definition PTE_USER : Z := 4.
Definition PTE_PWT : Z := 8.
Definition PTE_PCD : Z := 16.
Definition PTE_NX : Z := Z.shiftl 1 63.
Definition PAGE_FRAME_MASK : Z := 2 ^ 64 - 4096.

Definition pte_get_phys (pte : Z) : Z := Z.land pte PAGE_FRAME_MASK.
Definition pte_is_present (pte : Z) : bool := negb (Z.land pte PTE_PRESENT =? 0).

(** [PML4_INDEX], [PDPT_INDEX], [PD_INDEX], [PT_INDEX]: levels 3 to 0. *)
Definition PML4_INDEX (va : Z) : Z := Z.land (Z.shiftr va 39) 511.
Definition PDPT_INDEX (va : Z) : Z := Z.land (Z.shiftr va 30) 511.
Definition PD_INDEX (va : Z) : Z := Z.land (Z.shiftr va 21) 511.
Definition PT_INDEX (va : Z) : Z := Z.land (Z.shiftr va 12) 511.

(** [t[i]] of a [pte_t *]. *)
Definition entry (m : mem) (t i : Z) : Z := rd64 m (t + 8 * i).

Section Mapping.
Context `{PA : PageAllocator}.

Definition PHYS_TO_VIRT (a : Z) : M kst Z := mgets (fun s => u64 (a + hhdm_offset s)).
Definition VIRT_TO_PHYS (a : Z) : M kst Z := mgets (fun s => u64 (a - hhdm_offset s)).

Definition entry_load (t i : Z) : M kst Z := mgets (fun s => entry (heap s) t i).
Definition entry_store (t i e : Z) : M kst unit :=
  mmodify (fun s => set_heap (wr64 (heap s) (t + 8 * i) e) s).

Definition get_pml4 : M kst Z :=
  c ← mgets cr3;
  PHYS_TO_VIRT (pte_get_phys c).

(** [memset(p, 0, PAGE_SIZE)]; storing through the null pointer faults. *)
Definition zero_page (p : Z) : M kst unit :=
  if p =? 0 then mstuck Fault
  else mmodify (fun s => set_heap (memset (heap s) p 0 PAGE_SIZE) s).

(** "Get or create" the table entry [i] of [t] points to. *)
Definition next_table (tflags t i : Z) : M kst Z :=
  e ← entry_load t i;
  (if negb (pte_is_present e) then
     page ← pa_alloc 1;
     new_table ← VIRT_TO_PHYS page;
     v ← PHYS_TO_VIRT new_table;
     zero_page v;;
     entry_store t i (Z.lor new_table tflags)
   else mret tt);;
  e ← entry_load t i;
  PHYS_TO_VIRT (pte_get_phys e).

(** The code [map_page] and [map_page_pml4] share; they differ in the flags
    of the tables they create and in where the root comes from. *)
Definition map_in (tflags pml4 virt phys flags : Z) : M kst unit :=
  pdpt ← next_table tflags pml4 (PML4_INDEX virt);
  pd ← next_table tflags pdpt (PDPT_INDEX virt);
  pt ← next_table tflags pd (PD_INDEX virt);
  entry_store pt (PT_INDEX virt) (Z.lor (Z.lor (pte_get_phys phys) flags) PTE_PRESENT).

Definition map_page (virt phys flags : Z) : M kst unit :=
  pml4 ← get_pml4;
  map_in (Z.lor PTE_PRESENT PTE_WRITE) pml4 virt phys flags.

Definition map_page_pml4 (pml4 virt phys flags : Z) : M kst unit :=
  map_in (Z.lor (Z.lor PTE_PRESENT PTE_WRITE) PTE_USER) pml4 virt phys flags.

Definition map_mmio (phys size : Z) : M kst unit :=
  let start := Z.land phys PAGE_FRAME_MASK in
  let last := Z.land (u64 (phys + size + PAGE_SIZE - 1)) PAGE_FRAME_MASK in
  mloop (fun p =>
    if p <? last then
      virt ← PHYS_TO_VIRT p;
      map_page virt p (Z.lor (Z.lor (Z.lor PTE_PRESENT PTE_WRITE) PTE_PCD) PTE_PWT);;
      mret (inl (u64 (p + PAGE_SIZE)))
    else mret (inr tt)) start.

Definition create_user_pml4 : M kst Z :=
  new_pml4 ← pa_alloc 1;
  if new_pml4 =? 0 then mret 0
  else
    zero_page new_pml4;;
    kernel_pml4 ← get_pml4;
    mfor 256 (fun i =>
      e ← entry_load kernel_pml4 i;
      entry_store new_pml4 i e;;
      mret (None : option unit)) 256;;
    mret new_pml4.

(** [for (i = 0; i < n; i++) { if (!(t[i] & PTE_PRESENT)) continue; ... }],
    the body given the index and the table the entry points to. *)
Definition for_present (n : nat) (t : Z) (body : Z -> Z -> M kst unit) : M kst unit :=
  mfor n (fun i =>
    e ← entry_load t i;
    (if negb (pte_is_present e) then mret tt
     else sub ← PHYS_TO_VIRT (pte_get_phys e); body i sub);;
    mret (None : option unit)) 0;;
  mret tt.

(** One leaf entry of [copy_user_pml4]. *)
Definition copy_leaf (new_pml4 va pte : Z) : M kst unit :=
  if negb (pte_is_present pte) || (Z.land pte PTE_USER =? 0) then mret tt
  else
    new_page ← pa_alloc 1;
    if new_page =? 0 then mret tt
    else
      src ← PHYS_TO_VIRT (pte_get_phys pte);
      mmodify (fun s => set_heap (memcpy (heap s) new_page src PAGE_SIZE) s);;
      let flags := Z.ldiff (Z.land pte 4095) PTE_PRESENT in
      phys ← VIRT_TO_PHYS new_page;
      map_page_pml4 new_pml4 va phys flags.

Definition copy_user_pml4 (new_pml4 old_pml4 : Z) : M kst unit :=
  for_present 256 old_pml4 (fun i4 old_pdpt =>
    for_present 512 old_pdpt (fun i3 old_pd =>
      for_present 512 old_pd (fun i2 old_pt =>
        mfor 512 (fun i1 =>
          pte ← entry_load old_pt i1;
          copy_leaf new_pml4
            (Z.lor (Z.lor (Z.lor (Z.shiftl i4 39) (Z.shiftl i3 30)) (Z.shiftl i2 21))
                   (Z.shiftl i1 12)) pte;;
          mret (None : option unit)) 0;;
        mret tt))).

Definition free_user_pml4 (pml4 : Z) : M kst unit :=
  for_present 256 pml4 (fun i4 pdpt =>
    for_present 512 pdpt (fun i3 pd =>
      for_present 512 pd (fun i2 pt =>
        mfor 512 (fun i1 =>
          pte ← entry_load pt i1;
          (if pte_is_present pte && negb (Z.land pte PTE_USER =? 0)
           then v ← PHYS_TO_VIRT (pte_get_phys pte); pa_free v 1 else mret tt);;
          mret (None : option unit)) 0;;
        pa_free pt 1);;
      pa_free pd 1);;
    pa_free pdpt 1;;
    entry_store pml4 i4 0).
End Mapping.

(** ** The processor's walk *)

(** Index into the table at level [l] (3 is the PML4, 0 the page table). *)
Definition index (l : nat) (va : Z) : Z := (Z.shiftr va (12 + 9 * Z.of_nat l)) mod 512.

Definition child (off e : Z) : Z := u64 (pte_get_phys e + off).

(** The table reached after [n] levels, and the leaf entry for [va]. *)
Fixpoint descend (n : nat) (m : mem) (off root va : Z) : option Z :=
  match n with
  | O => Some root
  | S n' =>
      t ← descend n' m off root va;
      let e := entry m t (index (3 - n') va) in
      if pte_is_present e then Some (child off e) else None
  end.

Definition translate (m : mem) (off root va : Z) : option Z :=
  t ← descend 3 m off root va;
  let e := entry m t (index 0 va) in
  if pte_is_present e then Some e else None.

(** Two addresses in the same 4 KiB page of the 48-bit space. *)
Definition same_page (va va' : Z) : Prop := (va / 4096) mod 2 ^ 36 = (va' / 4096) mod 2 ^ 36.

#[export] Instance same_page_dec va va' : Decision (same_page va va').
Proof. unfold same_page. apply _. Defined.

Lemma index_range l va : 0 <= index l va < 512.
Proof. apply Z.mod_pos_bound. lia. Qed.

Lemma index_land l va : Z.land (Z.shiftr va (12 + 9 * Z.of_nat l)) 511 = index l va.
Proof. unfold index. change 511 with (2 ^ 9 - 1). by rewrite land_low by lia. Qed.

Lemma same_page_index va va' :
  same_page va va' <-> forall l, (l < 4)%nat -> index l va = index l va'.
Proof.
  assert (forall v, (v / 4096) mod 2 ^ 36 =
    index 0 v + 512 * (index 1 v + 512 * (index 2 v + 512 * index 3 v))) as Hdec.
  { intros v. unfold index. rewrite !Z.shiftr_div_pow2 by lia.
    change (12 + 9 * Z.of_nat 0) with 12. change (12 + 9 * Z.of_nat 1) with (12 + 9).
    change (12 + 9 * Z.of_nat 2) with (12 + 18). change (12 + 9 * Z.of_nat 3) with (12 + 27).
    rewrite !Z.pow_add_r, <- !Z.div_div by lia. change (2 ^ 12) with 4096.
    set (x := v / 4096). change (2 ^ 36) with (512 * (512 * (512 * 512))).
    rewrite !Z.rem_mul_r by lia. rewrite !Z.div_div by lia. done. }
  unfold same_page. rewrite !Hdec. split.
  - intros E l Hl. pose proof (index_range 0 va). pose proof (index_range 0 va').
    pose proof (index_range 1 va). pose proof (index_range 1 va').
    pose proof (index_range 2 va). pose proof (index_range 2 va').
    pose proof (index_range 3 va). pose proof (index_range 3 va').
    destruct l as [|[|[|[|l]]]]; lia.
  - intros H. by rewrite !H by lia.
Qed.

(** ** Entries in memory *)

Lemma entry_bytes_page t i b :
  t mod 4096 = 0 -> 0 <= i < 512 -> t + 8 * i <= b < t + 8 * i + 8 -> b / 4096 = t / 4096.
Proof. intros Ht Hi Hb. apply page_of_byte; [done|lia]. Qed.

Lemma entry_outside ps m m' t i :
  same_outside ps m m' -> t mod 4096 = 0 -> 0 <= i < 512 -> (t / 4096) ∉ ps ->
  entry m' t i = entry m t i.
Proof.
  intros Ho Ht Hi Hps. apply rd_agree. intros b Hb. change (Z.of_nat 8) with 8 in Hb.
  apply Ho. by rewrite (entry_bytes_page t i b) by (done || lia).
Qed.

Lemma entry_write_eq m t i e : 0 <= e < 2 ^ 64 -> entry (wr64 m (t + 8 * i) e) t i = e.
Proof. apply rd64_wr64_eq. Qed.

Lemma entry_write_ne m t i e t' i' :
  t mod 4096 = 0 -> t' mod 4096 = 0 -> 0 <= i < 512 -> 0 <= i' < 512 -> (t, i) <> (t', i') ->
  entry (wr64 m (t + 8 * i) e) t' i' = entry m t' i'.
Proof.
  intros Ht Ht' Hi Hi' Hne. apply rd_wr_ne. change (Z.of_nat 8) with 8.
  destruct (decide (t = t')) as [->|Hd].
  - destruct (decide (i = i')) as [->|]; [done|]. lia.
  - destruct (aligned_apart t t' Ht Ht' Hd); lia.
Qed.

Lemma entry_zeroed m t i : 0 <= i < 512 -> entry (memset m t 0 PAGE_SIZE) t i = 0.
Proof. intros Hi. unfold PAGE_SIZE. apply rd_memset_0; change (Z.of_nat 8) with 8; lia. Qed.

Lemma write_entry_outside m t i e :
  t mod 4096 = 0 -> 0 <= i < 512 -> same_outside [t / 4096] m (wr64 m (t + 8 * i) e).
Proof.
  intros Ht Hi b Hb. apply rd8_wr_ne. change (Z.of_nat 8) with 8.
  destruct (decide (b < t + 8 * i)); [by left|]. destruct (decide (t + 8 * i + 8 <= b)); [by right|].
  exfalso. apply Hb. rewrite (entry_bytes_page t i b) by (done || lia). set_solver.
Qed.

Lemma not_present_0 : pte_is_present 0 = false.
Proof. done. Qed.

Lemma lor_low_high a b : a mod 4096 = 0 -> 0 <= b < 4096 -> Z.lor a b = a + b.
Proof. intros Ha Hb. by apply (lor_disjoint a b 12). Qed.

Lemma phys_of_entry a b :
  0 <= a < 2 ^ 64 -> a mod 4096 = 0 -> 0 <= b < 4096 -> pte_get_phys (Z.lor a b) = a.
Proof.
  intros Ha Hal Hb. rewrite lor_low_high by done. unfold pte_get_phys, PAGE_FRAME_MASK.
  change (2 ^ 64 - 4096) with (Z.shiftl (Z.ones 52) 12). rewrite land_field by lia.
  change (12 + 52) with 64. change (2 ^ 12) with 4096.
  apply Z_div_exact_2 in Hal as Ha'; [|lia].
  rewrite (Z.mod_small (a + b)) by lia.
  rewrite Zplus_mod, Hal, (Z.mod_small b), Z.add_0_l, Z.mod_small by lia. lia.
Qed.

Lemma present_bit e : pte_is_present e = Z.testbit e 0.
Proof.
  unfold pte_is_present, PTE_PRESENT. change 1 with (2 ^ 1 - 1). rewrite land_low by lia.
  change (2 ^ 1) with 2. pose proof (Z.bit0_mod e) as H. destruct (Z.testbit e 0); simpl in H; by rewrite <- H.
Qed.

Lemma present_lor a b : pte_is_present (Z.lor a b) = pte_is_present a || pte_is_present b.
Proof. by rewrite !present_bit, Z.lor_spec. Qed.

(** ** Trees of tables *)

(** [T] gives the level of every table page of the tree under [root]. *)
Record pt_inv (m : mem) (off root : Z) (T : gmap Z nat) : Prop := {
  pt_root : T !! root = Some 3%nat;
  pt_aligned : forall t l, T !! t = Some l -> t mod 4096 = 0 /\ 0 < t /\ t + 4096 <= 2 ^ 64;
  pt_level : forall t l, T !! t = Some l -> (l <= 3)%nat;
  pt_child : forall t l i, T !! t = Some (S l) -> 0 <= i < 512 ->
    pte_is_present (entry m t i) = true -> T !! child off (entry m t i) = Some l;
  pt_unique : forall t l i t' l' i', T !! t = Some (S l) -> T !! t' = Some (S l') ->
    0 <= i < 512 -> 0 <= i' < 512 ->
    pte_is_present (entry m t i) = true -> pte_is_present (entry m t' i') = true ->
    child off (entry m t i) = child off (entry m t' i') -> t = t' /\ i = i'
}.

(** The pages of the tables. *)
Definition table_pages (T : gmap Z nat) (p : Z) : Prop := exists t l, T !! t = Some l /\ p = t / 4096.

Section Tree.
Context (off root : Z).

Lemma pt_inv_ext m m' T :
  (forall t l i, T !! t = Some l -> 0 <= i < 512 -> entry m' t i = entry m t i) ->
  pt_inv m off root T -> pt_inv m' off root T.
Proof.
  intros Hext [Hr Hal Hlv Hc Hu]. split; [done|done|done| |].
  - intros t l i Ht Hi. rewrite (Hext t (S l) i Ht Hi). by apply Hc.
  - intros t l i t' l' i' Ht Ht' Hi Hi'.
    rewrite (Hext t (S l) i Ht Hi), (Hext t' (S l') i' Ht' Hi'). by eapply Hu.
Qed.

Lemma pt_inv_outside m m' ps T :
  same_outside ps m m' -> (forall p, table_pages T p -> p ∉ ps) ->
  pt_inv m off root T -> pt_inv m' off root T.
Proof.
  intros Ho Hd Hi. eapply pt_inv_ext; [|exact Hi]. intros t l i Ht Hi'.
  apply (entry_outside ps); [done|by eapply pt_aligned|done|]. apply Hd. by exists t, l.
Qed.

Lemma descend_level m T n va t :
  pt_inv m off root T -> (n <= 3)%nat -> descend n m off root va = Some t -> T !! t = Some (3 - n)%nat.
Proof.
  intros Hi. revert t. induction n as [|n IH]; intros t Hn; cbn [descend].
  - intros [= <-]. apply Hi.
  - destruct (descend n m off root va) as [t0|] eqn:E; [|done]. cbn.
    destruct (pte_is_present _) eqn:Ep; [|done]. intros [= <-].
    specialize (IH t0 ltac:(lia) eq_refl). replace (3 - n)%nat with (S (3 - S n)) in * by lia.
    eapply pt_child; [done|done|apply index_range|done].
Qed.

(** Two walks that meet at a table have made the same choices. *)
Lemma descend_meet m T n va va' t :
  pt_inv m off root T -> (n <= 3)%nat ->
  descend n m off root va = Some t -> descend n m off root va' = Some t ->
  forall l, (3 - n < l <= 3)%nat -> index l va = index l va'.
Proof.
  intros Hi. revert t. induction n as [|n IH]; intros t Hn; cbn [descend]; [intros; lia|].
  destruct (descend n m off root va) as [t0|] eqn:E; [|done].
  destruct (descend n m off root va') as [t0'|] eqn:E'; [|done]. cbn.
  destruct (pte_is_present (entry m t0 _)) eqn:Ep; [|done]. intros [= H1].
  destruct (pte_is_present (entry m t0' _)) eqn:Ep'; [|done]. intros [= H2] l Hl.
  pose proof (descend_level m T n va t0 Hi ltac:(lia) E) as Ht0.
  pose proof (descend_level m T n va' t0' Hi ltac:(lia) E') as Ht0'.
  replace (3 - n)%nat with (S (3 - S n)) in * by lia.
  destruct (pt_unique m off root T Hi _ _ _ _ _ _ Ht0 Ht0' (index_range _ _) (index_range _ _) Ep Ep'
              ltac:(congruence)) as [<- Heq].
  destruct (decide (l = S (3 - S n))) as [->|]; [done|]. apply (IH t0); [lia|done..|lia].
Qed.

(** A walk reads only entries of tables. *)
Lemma descend_ext m m' T n va :
  pt_inv m off root T -> (n <= 3)%nat ->
  (forall t l i, T !! t = Some l -> 0 <= i < 512 -> entry m' t i = entry m t i) ->
  descend n m' off root va = descend n m off root va.
Proof.
  intros Hi Hn Hext. induction n as [|n IH]; [done|]. cbn [descend]. rewrite IH by lia.
  destruct (descend n m off root va) as [t|] eqn:E; [|done]. cbn.
  rewrite (Hext t (3 - n)%nat); [done| |apply index_range].
  by apply (descend_level m T n va t Hi); [lia|].
Qed.

Lemma translate_ext m m' T va :
  pt_inv m off root T ->
  (forall t l i, T !! t = Some l -> 0 <= i < 512 -> entry m' t i = entry m t i) ->
  translate m' off root va = translate m off root va.
Proof.
  intros Hi Hext. unfold translate. rewrite (descend_ext m m' T) by (done || lia).
  destruct (descend 3 m off root va) as [t|] eqn:E; [|done]. cbn.
  rewrite (Hext t 0%nat); [done| |apply index_range].
  by apply (descend_level m T 3 va t Hi); [lia|].
Qed.
(** [m'] is [m] with a fresh empty table [r] hung into entry [i] of [t]. *)
Record hangs (m m' : mem) (T : gmap Z nat) (t i r : Z) : Prop := {
  hang_fresh : T !! r = None;
  hang_old : pte_is_present (entry m t i) = false;
  hang_new : pte_is_present (entry m' t i) = true;
  hang_child : child off (entry m' t i) = r;
  hang_zero : forall j, 0 <= j < 512 -> entry m' r j = 0;
  hang_same : forall t' l' i', T !! t' = Some l' -> 0 <= i' < 512 -> (t, i) <> (t', i') ->
    entry m' t' i' = entry m t' i'
}.

Lemma pt_inv_hang m m' T t i r l :
  pt_inv m off root T -> hangs m m' T t i r -> T !! t = Some (S l) ->
  r mod 4096 = 0 -> 0 < r -> r + 4096 <= 2 ^ 64 -> pt_inv m' off root (<[r := l]> T).
Proof.
  intros [Hroot Hal Hlv Hc Hu] [Hf Hold Hnew Hch Hz Hs] Ht Hr1 Hr2 Hr3.
  assert (forall t' l' j, <[r:=l]> T !! t' = Some (S l') -> 0 <= j < 512 ->
    pte_is_present (entry m' t' j) = true ->
    T !! t' = Some (S l') /\ ((t, i) = (t', j) \/
      (t, i) <> (t', j) /\ entry m' t' j = entry m t' j)) as Hcase.
  { intros t' l' j Ht' Hj Hp. apply lookup_insert_Some in Ht' as [[<- _]|[Hne Ht']].
    - by rewrite Hz in Hp.
    - split; [done|]. destruct (decide ((t, i) = (t', j))) as [|Hd]; [by left|right].
      split; [done|]. by eapply Hs. }
  split.
  - rewrite lookup_insert_ne; [done|]. intros ->. by rewrite Hroot in Hf.
  - intros t' l' [[<- _]|[_ Ht']]%lookup_insert_Some; [done|]. by eapply Hal.
  - intros t' l' [[<- <-]|[_ Ht']]%lookup_insert_Some; [specialize (Hlv _ _ Ht); lia|by eapply Hlv].
  - intros t' l' j Ht' Hj Hp. destruct (Hcase t' l' j Ht' Hj Hp) as [HT [[= <- <-]|[Hd He]]].
    + rewrite Ht in HT. injection HT as <-. by rewrite Hch, lookup_insert_eq.
    + rewrite He in Hp |- *. pose proof (Hc t' l' j HT Hj Hp) as Hin.
      rewrite lookup_insert_ne; [done|]. intros E. by rewrite <- E, Hf in Hin.
  - intros t1 l1 j1 t2 l2 j2 Ht1 Ht2 Hj1 Hj2 Hp1 Hp2 Heq.
    destruct (Hcase t1 l1 j1 Ht1 Hj1 Hp1) as [HT1 [[= <- <-]|[Hd1 He1]]],
      (Hcase t2 l2 j2 Ht2 Hj2 Hp2) as [HT2 [[= <- <-]|[Hd2 He2]]]; [done| | |].
    + exfalso. rewrite Hch in Heq. rewrite He2 in Heq, Hp2.
      pose proof (Hc t2 l2 j2 HT2 Hj2 Hp2) as Hin. by rewrite <- Heq, Hf in Hin.
    + exfalso. rewrite Hch in Heq. rewrite He1 in Heq, Hp1.
      pose proof (Hc t1 l1 j1 HT1 Hj1 Hp1) as Hin. by rewrite Heq, Hf in Hin.
    + rewrite He1, He2 in *. by eapply Hu.
Qed.

(** Hanging an empty table keeps every walk that existed, and a new walk
    can only end in the new table. *)
Lemma descend_hang m m' T t i r n va :
  pt_inv m off root T -> hangs m m' T t i r -> (n <= 3)%nat ->
  descend n m' off root va = descend n m off root va \/
  (descend n m off root va = None /\
   (descend n m' off root va = None \/ descend n m' off root va = Some r)).
Proof.
  intros Hi [Hf Hold Hnew Hch Hz Hs] Hn. induction n as [|n IH]; [by left|]. cbn [descend].
  destruct (IH ltac:(lia)) as [->|[-> [->| ->]]]; [|by left|].
  - destruct (descend n m off root va) as [t0|] eqn:E; [|by left]. cbn.
    pose proof (descend_level m T n va t0 Hi ltac:(lia) E) as Ht0.
    destruct (decide ((t, i) = (t0, index (3 - n) va))) as [[= <- Hidx]|Hd].
    + rewrite <- Hidx, Hold, Hnew, Hch. right. split; [done|by right].
    + left. by rewrite (Hs t0 (3 - n)%nat) by (done || apply index_range).
  - right. split; [done|]. cbn. rewrite Hz by apply index_range. by left.
Qed.

Lemma translate_hang m m' T t i r l va :
  pt_inv m off root T -> hangs m m' T t i r -> T !! t = Some (S l) ->
  translate m' off root va = translate m off root va.
Proof.
  intros Hi Hh Ht. unfold translate.
  destruct (descend_hang m m' T t i r 3 va Hi Hh ltac:(lia)) as [->|[-> [->| ->]]]; [|done|].
  - destruct (descend 3 m off root va) as [t0|] eqn:E; [|done]. cbn.
    pose proof (descend_level m T 3 va t0 Hi ltac:(lia) E) as Ht0. simpl in Ht0.
    rewrite (hang_same _ _ _ _ _ _ Hh t0 0%nat); [done|done|apply index_range|].
    intros [= -> _]. by rewrite Ht in Ht0.
  - cbn. by rewrite (hang_zero _ _ _ _ _ _ Hh) by apply index_range.
Qed.

(** Writing a leaf entry changes the translation of its page only. *)
Lemma translate_leaf m T va pt e va' :
  pt_inv m off root T -> descend 3 m off root va = Some pt -> 0 <= e < 2 ^ 64 ->
  pte_is_present e = true ->
  let m' := wr64 m (pt + 8 * index 0 va) e in
  pt_inv m' off root T /\
  translate m' off root va' =
    if decide (same_page va va') then Some e else translate m off root va'.
Proof.
  intros Hi Hd He Hp m'.
  pose proof (descend_level m T 3 va pt Hi ltac:(lia) Hd) as Hpt. simpl in Hpt.
  destruct (pt_aligned _ _ _ _ Hi pt 0 Hpt) as (Hal & _).
  assert (forall t l i, T !! t = Some l -> 0 <= i < 512 -> (pt, index 0 va) <> (t, i) ->
            entry m' t i = entry m t i) as Hother.
  { intros t l i Ht Hi' Hne. apply entry_write_ne; [done| |apply index_range|done|done].
    by eapply pt_aligned. }
  assert (forall t l i, T !! t = Some (S l) -> 0 <= i < 512 -> entry m' t i = entry m t i) as Hup.
  { intros t l i Ht Hi'. apply (Hother t (S l)); [done..|]. intros [= <- _]. by rewrite Hpt in Ht. }
  assert (forall n v, (n <= 3)%nat -> descend n m' off root v = descend n m off root v) as Hdesc.
  { intros n v Hn. induction n as [|n IH]; [done|]. cbn [descend]. rewrite IH by lia.
    destruct (descend n m off root v) as [t|] eqn:E; [|done]. cbn.
    pose proof (descend_level m T n v t Hi ltac:(lia) E) as Ht.
    replace (3 - n)%nat with (S (2 - n)) in * by lia.
    by rewrite (Hup t (2 - n)%nat) by (done || apply index_range). }
  split.
  - destruct Hi as [Hr Ha Hlv Hc Hu]. split; [done|done|done| |].
    + intros t l i Ht Hi'. rewrite (Hup t l i) by done. by apply Hc.
    + intros t l i t' l' i' Ht Ht' Hi1 Hi2. rewrite (Hup t l i), (Hup t' l' i') by done. by eapply Hu.
  - unfold translate. rewrite Hdesc by lia. case_decide as Hsp.
    + rewrite same_page_index in Hsp.
      assert (descend 3 m off root va' = Some pt) as ->.
      { rewrite <- Hd. cbn [descend Nat.sub].
        by rewrite (Hsp 3%nat), (Hsp 2%nat), (Hsp 1%nat) by lia. }
      cbn. rewrite <- (Hsp 0%nat) by lia. unfold m'. rewrite entry_write_eq by done. by rewrite Hp.
    + destruct (descend 3 m off root va') as [t|] eqn:E; [|done]. cbn.
      pose proof (descend_level m T 3 va' t Hi ltac:(lia) E) as Ht. simpl in Ht.
      rewrite (Hother t 0%nat); [done|done|apply index_range|]. intros [= <- Hidx]. apply Hsp.
      apply same_page_index. intros l Hl. destruct l as [|l]; [done|].
      by apply (descend_meet m T 3 va va' pt Hi); [lia|done|done|lia].
Qed.
End Tree.

(** ** The operations *)

Section MappingSpec.
Context `{PA : PageAllocator} (root : Z).

(** A tree of tables outside the free pages. *)
Record pt_state (T : gmap Z nat) (ps : list Z) (s : kst) : Prop := {
  ps_tree : pt_inv (heap s) (hhdm_offset s) root T;
  ps_pages : pa_inv ps s;
  ps_apart : forall p, table_pages T p -> p ∉ ps;
  ps_off : hhdm_offset s mod 4096 = 0
}.

(** What building tables may change: new tables come from the free pages and
    every byte outside tables and free pages is kept. *)
Record grows (T : gmap Z nat) (ps : list Z) (s : kst) (T' : gmap Z nat) (ps' : list Z) (s' : kst) :
  Prop := {
  gr_tables : T ⊆ T';
  gr_new : forall p, table_pages T' p -> table_pages T p \/ p ∈ ps;
  gr_free : forall p, p ∈ ps' -> p ∈ ps;
  gr_frame : forall b, ~ table_pages T (b / 4096) -> ((b / 4096) ∉ ps) ->
                       rd8 (heap s') b = rd8 (heap s) b;
  gr_regs : hhdm_offset s' = hhdm_offset s /\ cr3 s' = cr3 s /\ same_hw (khw s) (khw s')
}.

Lemma grows_refl T ps s : grows T ps s T ps s.
Proof. split; try done. by left. Qed.

Lemma grows_trans T ps s T1 ps1 s1 T2 ps2 s2 :
  grows T ps s T1 ps1 s1 -> grows T1 ps1 s1 T2 ps2 s2 -> grows T ps s T2 ps2 s2.
Proof.
  intros [Ht Hn Hf Hm (Ho & Hc & Hh)] [Ht' Hn' Hf' Hm' (Ho' & Hc' & Hh')]. split.
  - by etrans.
  - intros p [Hp|Hp]%Hn'; auto.
  - auto.
  - intros b Hb Hb'. rewrite Hm', Hm; [done..| |].
    + intros [Hp|Hp]%Hn; auto.
    + auto.
  - split_and!; [congruence..|]. by etrans.
Qed.

Lemma phys_virt_roundtrip a off : 0 <= a < 2 ^ 64 -> u64 (u64 (a - off) + off) = a.
Proof.
  intros Ha. unfold u64. rewrite Zplus_mod_idemp_l, Z.sub_add. by apply Z.mod_small.
Qed.

Lemma table_pages_insert T r l p :
  table_pages (<[r := l]> T) p -> p = r / 4096 \/ table_pages T p.
Proof.
  intros (t & l' & [[<- _]|[_ Ht]]%lookup_insert_Some & ->); [by left|right]. by exists t, l'.
Qed.

(** Flags of a table entry: low bits, present. *)
Definition table_flags (f : Z) : Prop := 0 <= f < 4096 /\ pte_is_present f = true.

Lemma memset_page_outside m r c : r mod 4096 = 0 -> same_outside [r / 4096] m (memset m r c PAGE_SIZE).
Proof. intros Hr. by apply (memset_block_outside m 0 r c 4096). Qed.

Lemma fresh_entry r off f :
  r mod 4096 = 0 -> 0 <= r < 2 ^ 64 -> off mod 4096 = 0 -> table_flags f ->
  let e := Z.lor (u64 (r - off)) f in
  0 <= e < 2 ^ 64 /\ pte_is_present e = true /\ child off e = r.
Proof.
  intros Hr1 Hr2 Hoff (Hf & Hfp) e. pose proof (u64_range (r - off)) as Hu.
  assert (u64 (r - off) mod 4096 = 0) as Hal.
  { unfold u64. rewrite (mod_mod_pow2 _ 12 64) by lia. change (2 ^ 12) with 4096.
    by rewrite Zminus_mod, Hr1, Hoff. }
  split_and!.
  - unfold e. rewrite lor_low_high by done. apply Z_div_exact_2 in Hal; lia.
  - unfold e. rewrite lor_low_high by done. apply Z_div_exact_2 in Hal; lia.
  - unfold e. by rewrite present_lor, Hfp, orb_true_r.
  - unfold child, e. rewrite phys_of_entry by done. by apply phys_virt_roundtrip.
Qed.

(** The heap after creating a table: [m1] is the heap after the allocation. *)
Definition hang_heap (m1 : mem) (t i r e : Z) : mem := wr64 (memset m1 r 0 PAGE_SIZE) (t + 8 * i) e.

Lemma hang_hangs off f T ps m m1 t l i r :
  pt_inv m off root T -> off mod 4096 = 0 -> (forall p, table_pages T p -> p ∉ ps) ->
  T !! t = Some (S l) -> 0 <= i < 512 -> table_flags f -> pte_is_present (entry m t i) = false ->
  r mod 4096 = 0 -> 0 <= r < 2 ^ 64 -> (r / 4096) ∈ ps -> same_outside ps m m1 ->
  hangs off m (hang_heap m1 t i r (Z.lor (u64 (r - off)) f)) T t i r.
Proof.
  intros Htree Hoff Hap Ht Hi Hf Hold Hr1 Hr2 Hrps Hm1.
  destruct (fresh_entry r off f Hr1 Hr2 Hoff Hf) as (He & Hep & Hec).
  destruct (pt_aligned _ _ _ _ Htree t _ Ht) as (Hta & _).
  assert (forall x lx, T !! x = Some lx -> (x / 4096) ∉ ps) as Hx.
  { intros x lx Hx. apply Hap. by exists x, lx. }
  assert (t <> r) as Htr by (intros ->; by apply (Hx r _ Ht)). split.
  - destruct (T !! r) as [lr|] eqn:E; [|done]. by destruct (Hx r lr E).
  - done.
  - unfold hang_heap. by rewrite entry_write_eq.
  - unfold hang_heap. by rewrite entry_write_eq.
  - intros j Hj. unfold hang_heap. rewrite entry_write_ne by (done || congruence).
    by apply entry_zeroed.
  - intros t' l' i' Ht' Hi' Hne. destruct (pt_aligned _ _ _ _ Htree t' _ Ht') as (Hta' & _).
    unfold hang_heap. rewrite entry_write_ne by done. pose proof (Hx t' l' Ht') as Hp.
    rewrite (entry_outside [r / 4096] m1); [|by apply memset_page_outside|done|done|].
    + by apply (entry_outside ps).
    + intros Hin%list_elem_of_singleton. by rewrite Hin in Hp.
Qed.

(** The state change of creating a table: a page, zeroed, hung at [t[i]]. *)
Lemma hang_state f T ps s t l i s1 r qs :
  pt_state T ps s -> T !! t = Some (S l) -> 0 <= i < 512 -> table_flags f ->
  pte_is_present (entry (heap s) t i) = false ->
  r mod 4096 = 0 -> 0 < r -> r + 4096 <= 2 ^ 64 ->
  ps ≡ₚ (r / 4096) :: qs -> pa_inv qs s1 -> kupd ps s s1 ->
  let s' := set_heap (hang_heap (heap s1) t i r (Z.lor (u64 (r - hhdm_offset s)) f)) s1 in
  pt_state (<[r := l]> T) qs s' /\ grows T ps s (<[r := l]> T) qs s' /\
  hangs (hhdm_offset s) (heap s) (heap s') T t i r.
Proof.
  intros [Htree Hpa Hap Hoff] Ht Hi Hf Hold Hr1 Hr2 Hr3 Hps Hq Hk s'.
  destruct Hk as (m1 & hs & (h & -> & Hh) & Hm1). cbn [heap set_heap set_khw set_lists set_buddy] in *.
  assert ((r / 4096) ∈ ps) as Hrps by (rewrite Hps; set_solver).
  pose proof (hang_hangs _ f T ps _ m1 t l i r Htree Hoff Hap Ht Hi Hf Hold Hr1 ltac:(lia) Hrps Hm1) as Hang.
  destruct (pt_aligned _ _ _ _ Htree t _ Ht) as (Hta & _).
  assert (table_pages T (t / 4096)) as Htp by (by exists t, (S l)).
  assert (same_outside [r / 4096; t / 4096] m1 (heap s')) as Hout.
  { intros b Hb. rewrite not_elem_of_cons in Hb. destruct Hb as [Hb1 Hb2].
    unfold s', hang_heap. cbn [heap set_heap]. rewrite (write_entry_outside _ t i) by done. apply memset_page_outside; [done|set_solver]. }
  pose proof (pa_inv_nodup _ _ Hpa) as Hnd. rewrite Hps in Hnd. apply NoDup_cons in Hnd as [Hrq _].
  assert (forall p, p ∈ qs -> p ∈ ps) as Hsub by (intros p Hp; rewrite Hps; set_solver).
  split_and!; [| |done]; split.
  - by eapply (pt_inv_hang (hhdm_offset s) root (heap s)).
  - eapply pa_inv_heap; [exact Hq|exact Hout|]. intros p Hp Hpq. rewrite !elem_of_cons in Hp.
    destruct Hp as [->|[->|Hp%elem_of_nil]]; [done| |done]. by apply (Hap _ Htp), Hsub.
  - intros p [->|Hp]%table_pages_insert; [done|]. intros Hpq. by apply (Hap _ Hp), Hsub.
  - done.
  - apply insert_subseteq. by destruct Hang.
  - intros p [->|Hp]%table_pages_insert; [by right|by left].
  - done.
  - intros b Hb Hb'. rewrite Hout.
    + by apply Hm1.
    + intros Hin. rewrite !elem_of_cons in Hin. destruct Hin as [E|[E|Hin%elem_of_nil]]; [| |done].
      * by rewrite E in Hb'.
      * by rewrite E in Hb.
  - done.
Qed.

(** [next_table] answers the table behind the entry, creating an empty one if
    there is none; no translation changes. *)
Lemma next_table_spec f T ps s t l i :
  pt_state T ps s -> T !! t = Some (S l) -> 0 <= i < 512 -> table_flags f -> ps <> [] ->
  wp (next_table f t i) s (fun c s' => exists T' ps',
    pt_state T' ps' s' /\ grows T ps s T' ps' s' /\ (length ps <= S (length ps'))%nat /\
    T' !! c = Some l /\
    (forall va n, (n <= 3)%nat -> descend n (heap s) (hhdm_offset s) root va = Some t ->
      l = (2 - n)%nat -> i = index (3 - n) va ->
      descend (S n) (heap s') (hhdm_offset s) root va = Some c) /\
    (forall va, translate (heap s') (hhdm_offset s) root va = translate (heap s) (hhdm_offset s) root va)).
Proof.
  intros Hst Ht Hi Hf Hne. pose proof Hst as [Htree Hpa Hap Hoff]. unfold next_table.
  wp_step. apply wp_gets. cbn beta. destruct (pte_is_present (entry (heap s) t i)) eqn:Ep; cbn [negb].
  - wp_step. wp_step. wp_step. apply wp_gets. cbn beta. apply wp_gets.
    change (u64 (pte_get_phys (entry (heap s) t i) + hhdm_offset s))
      with (child (hhdm_offset s) (entry (heap s) t i)).
    exists T, ps. split_and!; [done|apply grows_refl|lia|by eapply pt_child| |done].
    intros va n Hn Hd _ ->. cbn [descend]. rewrite Hd. cbn. by rewrite Ep.
  - wp_step. wp_step. eapply wp_mono; [by apply alloc_page|].
    intros r s1 (Hr1 & Hr2 & Hr3 & qs & Hps & Hq & Hk).
    assert (hhdm_offset s1 = hhdm_offset s) as Ho1.
    { by destruct Hk as (m1 & hs & (h & -> & _) & _). }
    wp_step. apply wp_gets. cbn beta. wp_step. apply wp_gets. cbn beta.
    rewrite Ho1, phys_virt_roundtrip by lia. unfold zero_page.
    rewrite (proj2 (Z.eqb_neq r 0)) by lia. wp_step. apply wp_modify. apply wp_modify.
    destruct (hang_state f T ps s t l i s1 r qs) as (Hst' & Hgr & Hang); [done..|].
    set (s' := set_heap _ _) in Hst', Hgr, Hang.
    change (set_heap _ (set_heap _ s1)) with s'.
    assert (hhdm_offset s' = hhdm_offset s) as Ho' by done. clearbody s'.
    wp_step. apply wp_gets. cbn beta. apply wp_gets. cbn beta.
    pose proof (hang_child _ _ _ _ _ _ _ Hang) as Hc. unfold child in Hc. rewrite Ho', Hc. clear Hc.
    exists (<[r := l]> T), qs. split_and!; [done|done|by rewrite Hps|by rewrite lookup_insert_eq| |].
    + intros va n Hn Hd -> ->. cbn [descend].
      destruct (descend_hang _ _ _ _ _ _ _ _ n va Htree Hang Hn) as [-> |[Hd' _]]; [|by rewrite Hd in Hd'].
      rewrite Hd. cbn. by rewrite (hang_new _ _ _ _ _ _ _ Hang), (hang_child _ _ _ _ _ _ _ Hang).
    + intros va. by eapply translate_hang.
Qed.

(** The entry [map_page] writes. *)
Definition leaf_entry (phys flags : Z) : Z := Z.lor (Z.lor (pte_get_phys phys) flags) PTE_PRESENT.

Lemma lor_range a b : 0 <= a < 2 ^ 64 -> 0 <= b < 2 ^ 64 -> 0 <= Z.lor a b < 2 ^ 64.
Proof.
  intros Ha Hb. split; [apply Z.lor_nonneg; lia|].
  assert (forall x, 0 <= x < 2 ^ 64 <-> x = Z.land x (Z.ones 64)) as Hm.
  { intros x. rewrite Z.land_ones by lia. split; [by intros; rewrite Z.mod_small|].
    intros ->. by apply Z.mod_pos_bound. }
  apply Hm. rewrite Z.land_lor_distr_l. f_equal; by apply Hm.
Qed.

Lemma leaf_entry_ok phys flags :
  0 <= flags < 2 ^ 64 -> 0 <= leaf_entry phys flags < 2 ^ 64 /\
  pte_is_present (leaf_entry phys flags) = true.
Proof.
  intros Hf. split; [|by unfold leaf_entry; rewrite present_lor, orb_true_r].
  apply lor_range; [|done]. apply lor_range; [|done]. unfold pte_get_phys, PAGE_FRAME_MASK.
  change (2 ^ 64 - 4096) with (Z.shiftl (Z.ones 52) 12). rewrite land_field by lia.
  change (12 + 52) with 64. pose proof (Z.mod_pos_bound phys (2 ^ 64) ltac:(lia)).
  rewrite <- (mod_mod_pow2 phys 12 64) by lia.
  pose proof (Z.mod_le (phys mod 2 ^ 64) (2 ^ 12) ltac:(lia) ltac:(lia)).
  pose proof (Z.mod_pos_bound (phys mod 2 ^ 64) (2 ^ 12) ltac:(lia)). lia.
Qed.

Lemma store_leaf_spec T ps s virt pt e :
  pt_state T ps s -> descend 3 (heap s) (hhdm_offset s) root virt = Some pt ->
  0 <= e < 2 ^ 64 -> pte_is_present e = true ->
  wp (entry_store pt (index 0 virt) e) s (fun _ s' =>
    pt_state T ps s' /\ grows T ps s T ps s' /\
    forall va, translate (heap s') (hhdm_offset s) root va =
      if decide (same_page virt va) then Some e else translate (heap s) (hhdm_offset s) root va).
Proof.
  intros [Htree Hpa Hap Hoff] Hd He Hp. apply wp_modify.
  pose proof (descend_level _ root _ T 3 virt pt Htree ltac:(lia) Hd) as Hpt. simpl in Hpt.
  destruct (pt_aligned _ _ _ _ Htree pt _ Hpt) as (Hal & _).
  assert (table_pages T (pt / 4096)) as Htp by (by exists pt, 0%nat).
  pose proof (write_entry_outside (heap s) pt (index 0 virt) e Hal (index_range _ _)) as Hout.
  split_and!.
  - split; [|eapply pa_inv_heap; [exact Hpa|exact Hout|]|done|done].
    + by apply (translate_leaf _ root (heap s) T virt pt e virt Htree Hd He Hp).
    + intros p ->%list_elem_of_singleton. by apply Hap.
  - split; [done|by left|done| |done]. intros b Hb _. apply Hout.
    intros E%list_elem_of_singleton. by rewrite E in Hb.
  - intros va. by apply (translate_leaf _ root (heap s) T virt pt e va Htree Hd He Hp).
Qed.

Lemma map_in_spec f T ps s virt phys flags :
  pt_state T ps s -> table_flags f -> (3 <= length ps)%nat -> 0 <= flags < 2 ^ 64 ->
  wp (map_in f root virt phys flags) s (fun _ s' => exists T' ps',
    pt_state T' ps' s' /\ grows T ps s T' ps' s' /\ (length ps <= 3 + length ps')%nat /\
    forall va, translate (heap s') (hhdm_offset s) root va =
      if decide (same_page virt va) then Some (leaf_entry phys flags)
      else translate (heap s) (hhdm_offset s) root va).
Proof.
  intros Hst Hf Hlen Hfl. unfold map_in. fold (leaf_entry phys flags).
  change (PML4_INDEX virt) with (Z.land (Z.shiftr virt (12 + 9 * Z.of_nat 3)) 511).
  change (PDPT_INDEX virt) with (Z.land (Z.shiftr virt (12 + 9 * Z.of_nat 2)) 511).
  change (PD_INDEX virt) with (Z.land (Z.shiftr virt (12 + 9 * Z.of_nat 1)) 511).
  change (PT_INDEX virt) with (Z.land (Z.shiftr virt (12 + 9 * Z.of_nat 0)) 511).
  rewrite !index_land. set (off := hhdm_offset s).
  pose proof (pt_root _ _ _ _ (ps_tree _ _ _ Hst)) as Hr.
  wp_step. eapply wp_mono; [apply (next_table_spec f T ps s root 2 (index 3 virt)); [done|done|apply index_range|done|intros ->; simpl in *; lia]|].
  intros pdpt s1 (T1 & ps1 & Hst1 & Hg1 & Hl1 & Hc1 & Hd1 & Ht1).
  specialize (Hd1 virt 0%nat ltac:(lia) eq_refl eq_refl eq_refl).
  assert (hhdm_offset s1 = off) as Ho1 by apply Hg1.
  wp_step. eapply wp_mono; [apply (next_table_spec f T1 ps1 s1 pdpt 1 (index 2 virt)); [done|done|apply index_range|done|intros ->; simpl in *; lia]|].
  intros pd s2 (T2 & ps2 & Hst2 & Hg2 & Hl2 & Hc2 & Hd2 & Ht2). rewrite Ho1 in Hd2, Ht2.
  specialize (Hd2 virt 1%nat ltac:(lia) Hd1 eq_refl eq_refl).
  assert (hhdm_offset s2 = off) as Ho2 by (rewrite <- Ho1; apply Hg2).
  wp_step. eapply wp_mono; [apply (next_table_spec f T2 ps2 s2 pd 0 (index 1 virt)); [done|done|apply index_range|done|intros ->; simpl in *; lia]|].
  intros pt s3 (T3 & ps3 & Hst3 & Hg3 & Hl3 & Hc3 & Hd3 & Ht3). rewrite Ho2 in Hd3, Ht3.
  specialize (Hd3 virt 2%nat ltac:(lia) Hd2 eq_refl eq_refl).
  assert (hhdm_offset s3 = off) as Ho3 by (rewrite <- Ho2; apply Hg3).
  destruct (leaf_entry_ok phys flags Hfl) as [He Hep].
  eapply wp_mono; [apply (store_leaf_spec T3 ps3 s3 virt pt); [done|by rewrite Ho3|done|done]|].
  intros [] s4 (Hst4 & Hg4 & Ht4). exists T3, ps3. rewrite Ho3 in Ht4. split_and!; [done| |lia|].
  - eapply grows_trans; [exact Hg1|]. eapply grows_trans; [exact Hg2|].
    by eapply grows_trans; [exact Hg3|].
  - intros va. rewrite Ht4. case_decide; [done|]. by rewrite Ht3, Ht2, Ht1.
Qed.

Lemma user_table_flags : table_flags (Z.lor (Z.lor PTE_PRESENT PTE_WRITE) PTE_USER).
Proof. done. Qed.
Lemma kernel_table_flags : table_flags (Z.lor PTE_PRESENT PTE_WRITE).
Proof. done. Qed.

(** The loaded page-table base is [root]. *)
Definition loaded (s : kst) : Prop := child (hhdm_offset s) (cr3 s) = root.

(** The entries copied so far by the loop of [create_user_pml4]. *)
Definition copied (s1 : kst) (r j : Z) (s : kst) : Prop :=
  exists m, s = set_heap m s1 /\ same_outside [r / 4096] (heap s1) m /\
    forall x, 0 <= x < 512 ->
      entry m r x = if (256 <=? x) && (x <? j) then entry (heap s1) root x else 0.

Lemma copied_step s1 r j s :
  r mod 4096 = 0 -> root mod 4096 = 0 -> r / 4096 <> root / 4096 -> 256 <= j < 512 ->
  copied s1 r j s ->
  copied s1 r (j + 1) (set_heap (wr64 (heap s) (r + 8 * j) (entry (heap s) root j)) s).
Proof.
  intros Hr Hroot Hne Hj (m & -> & Hout & He). cbn [heap set_heap].
  set (v := entry m root j). exists (wr64 m (r + 8 * j) v). split; [done|]. split.
  - intros b Hb. rewrite (write_entry_outside m r j) by (done || lia). by apply Hout.
  - intros x Hx. destruct (decide (x = j)) as [->|Hxj].
    + rewrite entry_write_eq by apply rd64_range. unfold v.
      rewrite (entry_outside [r / 4096] (heap s1) m) by (done || lia || set_solver).
      destruct (Z.leb_spec 256 j), (Z.ltb_spec j (j + 1)); simpl; (lia || done).
    + rewrite entry_write_ne by (done || lia || congruence). rewrite He by done.
      destruct (Z.leb_spec 256 x), (Z.ltb_spec x j), (Z.ltb_spec x (j + 1)); simpl; (lia || done).
Qed.

(** A root [r] with the upper half of [root] and nothing below. *)
Lemma pt_inv_user m m' T off r :
  pt_inv m off root T -> T !! r = None -> r mod 4096 = 0 -> 0 < r -> r + 4096 <= 2 ^ 64 ->
  (forall t l i, T !! t = Some l -> 0 <= i < 512 -> entry m' t i = entry m t i) ->
  (forall i, 0 <= i < 512 -> entry m' r i = if 256 <=? i then entry m root i else 0) ->
  pt_inv m' off r (<[r := 3%nat]> (delete root T)).
Proof.
  intros [Hroot Hal Hlv Hc Hu] Hf Hr1 Hr2 Hr3 Hsame Hr. set (T' := <[r := 3%nat]> (delete root T)).
  (* each present entry of the new tree copies one of the old tree *)
  assert (forall t l i, T' !! t = Some (S l) -> 0 <= i < 512 -> pte_is_present (entry m' t i) = true ->
    let t0 := if decide (t = r) then root else t in
    T !! t0 = Some (S l) /\ entry m' t i = entry m t0 i) as Hcase.
  { intros t l i Ht Hi Hp. unfold T' in Ht. apply lookup_insert_Some in Ht as [[<- [= <-]]|[Hne Ht]].
    - rewrite decide_True by done. split; [done|]. rewrite Hr in Hp |- * by done.
      by destruct (256 <=? i).
    - apply lookup_delete_Some in Ht as [_ Ht]. rewrite decide_False by done. split; [done|].
      by apply (Hsame t (S l)). }
  split.
  - unfold T'. by rewrite lookup_insert_eq.
  - intros t l [[<- _]|[_ [_ Ht]%lookup_delete_Some]]%lookup_insert_Some; [done|]. by eapply Hal.
  - intros t l [[_ <-]|[_ [_ Ht]%lookup_delete_Some]]%lookup_insert_Some; [done|]. by eapply Hlv.
  - intros t l i Ht Hi Hp. destruct (Hcase t l i Ht Hi Hp) as [Ht0 He]. rewrite He in Hp |- *.
    pose proof (Hc _ l i Ht0 Hi Hp) as Hin. unfold T'.
    assert (l <> 3)%nat as Hl3.
    { specialize (Hlv _ _ Ht0). lia. }
    rewrite lookup_insert_ne by (intros E; by rewrite <- E, Hf in Hin).
    rewrite lookup_delete_ne; [done|]. intros E. rewrite <- E, Hroot in Hin. by injection Hin as <-.
  - intros t l i t' l' i' Ht Ht' Hi Hi' Hp Hp' Heq.
    destruct (Hcase t l i Ht Hi Hp) as [Ht0 He], (Hcase t' l' i' Ht' Hi' Hp') as [Ht0' He'].
    rewrite He in Hp, Heq. rewrite He' in Hp', Heq.
    destruct (Hu _ _ _ _ _ _ Ht0 Ht0' Hi Hi' Hp Hp' Heq) as [E ->]. split; [|done].
    assert (forall x lx, T' !! x = Some lx -> x <> r -> x <> root) as Hnr.
    { intros x lx [[<- _]|[_ [Hx _]%lookup_delete_Some]]%lookup_insert_Some Hxr; congruence. }
    destruct (decide (t = r)) as [->|Hn], (decide (t' = r)) as [->|Hn']; [done| | |done].
    + by destruct (Hnr t' _ Ht' Hn').
    + by destruct (Hnr t _ Ht Hn).
Qed.

(** Walks in the new tree: nothing below the middle, the old tree above. *)
Lemma translate_user m m' T off r va :
  pt_inv m off root T -> T !! r = None ->
  (forall t l i, T !! t = Some l -> 0 <= i < 512 -> entry m' t i = entry m t i) ->
  (forall i, 0 <= i < 512 -> entry m' r i = if 256 <=? i then entry m root i else 0) ->
  translate m' off r va = if index 3 va <? 256 then None else translate m off root va.
Proof.
  intros Hi Hf Hsame Hr. pose proof (index_range 3 va) as Hi3.
  assert (descend 1 m' off r va = if index 3 va <? 256 then None else descend 1 m off root va) as H1.
  { cbn [descend Nat.sub]. cbn. rewrite Hr by done.
    destruct (Z.leb_spec 256 (index 3 va)), (Z.ltb_spec (index 3 va) 256); (lia || done). }
  assert (forall n, (n <= 2)%nat -> descend (S n) m' off r va =
            if index 3 va <? 256 then None else descend (S n) m off root va) as Hd.
  { intros n Hn. induction n as [|n IH]; [exact H1|].
    change (descend (S (S n)) ?m ?o ?x ?v) with
      (t ← descend (S n) m o x v;
       let e := entry m t (index (3 - S n) v) in if pte_is_present e then Some (child o e) else None).
    rewrite IH by lia. destruct (index 3 va <? 256); [done|].
    destruct (descend (S n) m off root va) as [t|] eqn:E; [|done]. cbn.
    rewrite (Hsame t (3 - S n)%nat); [done| |apply index_range].
    by apply (descend_level off root m T (S n) va t Hi); [lia|]. }
  unfold translate. rewrite (Hd 2%nat) by lia. destruct (index 3 va <? 256); [done|].
  destruct (descend 3 m off root va) as [t|] eqn:E; [|done]. cbn.
  rewrite (Hsame t 0%nat); [done| |apply index_range].
  by apply (descend_level off root m T 3 va t Hi); [lia|].
Qed.

Lemma create_user_pml4_spec T ps s :
  pt_state T ps s -> loaded s -> ps <> [] ->
  wp create_user_pml4 s (fun r s' => exists qs,
    ps ≡ₚ (r / 4096) :: qs /\ pa_inv qs s' /\
    pt_inv (heap s') (hhdm_offset s) r (<[r := 3%nat]> (delete root T)) /\
    pt_state T qs s' /\
    (forall va, translate (heap s') (hhdm_offset s) root va = translate (heap s) (hhdm_offset s) root va) /\
    (forall va, translate (heap s') (hhdm_offset s) r va =
       if index 3 va <? 256 then None else translate (heap s) (hhdm_offset s) root va) /\
    same_outside ps (heap s) (heap s')).
Proof.
  intros [Htree Hpa Hap Hoff] Hld Hne. unfold create_user_pml4.
  wp_step. eapply wp_mono; [by apply alloc_page|].
  intros r s1 (Hr1 & Hr2 & Hr3 & qs & Hps & Hq & (m1 & hs & (h & -> & Hh) & Hm1)).
  rewrite (proj2 (Z.eqb_neq r 0)) by lia. unfold zero_page. rewrite (proj2 (Z.eqb_neq r 0)) by lia.
  wp_step. apply wp_modify. cbn [heap set_heap set_khw set_lists set_buddy].
  wp_step. unfold get_pml4. wp_step. apply wp_gets. apply wp_gets. cbn beta.
  cbn [cr3 hhdm_offset set_heap set_khw set_lists set_buddy].
  change (u64 (pte_get_phys (cr3 s) + hhdm_offset s)) with (child (hhdm_offset s) (cr3 s)).
  rewrite Hld. set (m2 := memset m1 r 0 PAGE_SIZE). set (s2 := set_heap m2 _).
  destruct (pt_aligned _ _ _ _ Htree root 3 (pt_root _ _ _ _ Htree)) as (Hroot & _).
  assert ((r / 4096) ∈ ps) as Hrps by (rewrite Hps; set_solver).
  assert (forall t l, T !! t = Some l -> (t / 4096) ∉ ps) as Hx.
  { intros t l Ht. apply Hap. by exists t, l. }
  assert (r / 4096 <> root / 4096) as Hrr.
  { intros E. apply (Hx root 3%nat); [apply Htree|]. by rewrite <- E. }
  wp_step. eapply (wp_mfor _ (fun j s3 => copied s2 r j s3)).
  { intros j s3 Hj Hc. wp_step. apply wp_gets. wp_step. apply wp_modify. wp_step.
    apply copied_step; (done || lia). }
  2: { exists m2. split_and!; [by destruct s as [? [] ? ? ?]|done|]. intros x Hx'.
       destruct (Z.leb_spec 256 x), (Z.ltb_spec x 256); simpl; try lia; by apply entry_zeroed. }
  intros s3 (m3 & -> & Hm3 & He3). wp_step. exists qs.
  assert (same_outside ps (heap s) m3) as Hout.
  { intros b Hb. assert (b / 4096 <> r / 4096) as Hbr by (intros E; by rewrite E in Hb).
    rewrite Hm3 by set_solver. cbn. unfold m2. rewrite memset_page_outside by (done || set_solver).
    by apply Hm1. }
  assert (forall t l i, T !! t = Some l -> 0 <= i < 512 -> entry m3 t i = entry (heap s) t i) as Hsame.
  { intros t l i Ht Hi. apply (entry_outside ps); [done|by eapply (pt_aligned _ _ _ _ Htree)|done|].
    by eapply Hx. }
  assert (forall i, 0 <= i < 512 -> entry m3 r i = if 256 <=? i then entry (heap s) root i else 0) as Hr.
  { intros i Hi. rewrite He3 by done.
    replace (i <? 256 + Z.of_nat 256) with true by (symmetry; apply Z.ltb_lt; lia). rewrite andb_true_r.
    destruct (256 <=? i); [|done]. cbn. unfold m2.
    rewrite (entry_outside [r / 4096] m1); [|by apply memset_page_outside|done|done|set_solver].
    apply (entry_outside ps); [done..|]. apply (Hx root 3%nat). apply Htree. }
  assert (T !! r = None) as Hfr.
  { destruct (T !! r) as [l|] eqn:E; [|done]. by destruct (Hx r l E). }
  pose proof (pa_inv_nodup _ _ Hpa) as Hnd. rewrite Hps in Hnd. apply NoDup_cons in Hnd as [Hrq _].
  assert (pa_inv qs (set_heap m3 s2)) as Hqs.
  { eapply (pa_inv_heap qs [r / 4096] s2); [|exact Hm3|set_solver].
    eapply (pa_inv_heap qs [r / 4096]); [exact Hq|by apply memset_page_outside|set_solver]. }
  split_and!; [done|done|by eapply pt_inv_user| | | |done].
  - split; [by eapply pt_inv_ext|done| |done]. intros p Hp Hpq. apply (Hap p Hp). rewrite Hps. set_solver.
  - intros va. by eapply translate_ext.
  - intros va. by eapply translate_user.
Qed.
End MappingSpec.

(** ** Properties *)

(** C3: [map_page_pml4] terminates whenever three pages are free, and then the
    processor's walk from that root gives the new entry for every address of
    the mapped page and is unchanged for every other page; the tree of tables
    stays well-formed and no byte outside tables and free pages changes. *)
Theorem map_page_pml4_translates `{PA : PageAllocator} root T ps s virt phys flags :
  pt_state root T ps s -> (3 <= length ps)%nat -> 0 <= flags < 2 ^ 64 ->
  wp (map_page_pml4 root virt phys flags) s (fun _ s' => exists T' ps',
    pt_state root T' ps' s' /\ grows T ps s T' ps' s' /\
    forall va, translate (heap s') (hhdm_offset s) root va =
      if decide (same_page virt va)
      then Some (Z.lor (Z.lor (pte_get_phys phys) flags) PTE_PRESENT)
      else translate (heap s) (hhdm_offset s) root va).
Proof.
  intros Hst Hlen Hfl. eapply wp_mono; [by apply (map_in_spec root); [|apply user_table_flags|..]|].
  intros [] s' (T' & ps' & Hst' & Hg & _ & Ht). by exists T', ps'.
Qed.

(** One empty root table at page 512, four free pages. *)
Lemma demo_tables : pt_state 2097152 {[ 2097152 := 3%nat ]} demo_pages demo_kst.
Proof.
  assert (forall i, entry (heap demo_kst) 2097152 i = 0) as Hz by done.
  split; [split|exact demo_inv| |done].
  - by rewrite lookup_singleton_eq.
  - intros t l [<- <-]%lookup_singleton_Some. done.
  - intros t l [_ <-]%lookup_singleton_Some. lia.
  - intros t l i [<- _]%lookup_singleton_Some _. by rewrite Hz.
  - intros t l i t' l' i' [<- _]%lookup_singleton_Some _ _ _. by rewrite Hz.
  - intros p (t & l & [<- _]%lookup_singleton_Some & ->). by_decide.
Qed.

Lemma map_page_pml4_translates_witness :
  wp (map_page_pml4 2097152 4194304 1052672 (Z.lor PTE_USER PTE_WRITE)) demo_kst (fun _ s' =>
    exists T' ps', pt_state 2097152 T' ps' s' /\
      grows {[ 2097152 := 3%nat ]} demo_pages demo_kst T' ps' s' /\
      forall va, translate (heap s') (hhdm_offset demo_kst) 2097152 va =
        if decide (same_page 4194304 va)
        then Some (Z.lor (Z.lor (pte_get_phys 1052672) (Z.lor PTE_USER PTE_WRITE)) PTE_PRESENT)
        else translate (heap demo_kst) (hhdm_offset demo_kst) 2097152 va).
Proof.
  apply (map_page_pml4_translates 2097152 _ _ _ _ _ _ demo_tables); [by apply Nat.leb_le|done].
Defined.

(** [map_page] does the same to the loaded tables. *)
Lemma map_page_translates `{PA : PageAllocator} root T ps s virt phys flags :
  pt_state root T ps s -> loaded root s -> (3 <= length ps)%nat -> 0 <= flags < 2 ^ 64 ->
  wp (map_page virt phys flags) s (fun _ s' => exists T' ps',
    pt_state root T' ps' s' /\ grows T ps s T' ps' s' /\ loaded root s' /\
    forall va, translate (heap s') (hhdm_offset s) root va =
      if decide (same_page virt va)
      then Some (Z.lor (Z.lor (pte_get_phys phys) flags) PTE_PRESENT)
      else translate (heap s) (hhdm_offset s) root va).
Proof.
  intros Hst Hld Hlen Hfl. unfold map_page, get_pml4. wp_step. wp_step. apply wp_gets. apply wp_gets.
  cbn beta. change (u64 (pte_get_phys (cr3 s) + hhdm_offset s)) with (child (hhdm_offset s) (cr3 s)).
  rewrite Hld. eapply wp_mono; [by apply (map_in_spec root); [|apply kernel_table_flags|..]|].
  intros [] s' (T' & ps' & Hst' & Hg & _ & Ht). exists T', ps'. split_and!; [done|done| |done].
  unfold loaded. destruct (gr_regs _ _ _ _ _ _ Hg) as (-> & -> & _). done.
Qed.

(** The demo machine with that root loaded: physical 2097152 - 2^40. *)
Definition demo_loaded : kst :=
  Kst ∅ (buddy demo_kst) (khw demo_kst) (2 ^ 40) (u64 (2097152 - 2 ^ 40)).

Lemma demo_loaded_tables : pt_state 2097152 {[ 2097152 := 3%nat ]} demo_pages demo_loaded.
Proof. destruct demo_tables as [H1 H2 H3 H4]. by split. Qed.

Lemma map_page_translates_witness :
  wp (map_page (2 ^ 47) 4096 PTE_WRITE) demo_loaded (fun _ s' =>
    exists T' ps', pt_state 2097152 T' ps' s' /\
      grows {[ 2097152 := 3%nat ]} demo_pages demo_loaded T' ps' s' /\ loaded 2097152 s' /\
      forall va, translate (heap s') (hhdm_offset demo_loaded) 2097152 va =
        if decide (same_page (2 ^ 47) va)
        then Some (Z.lor (Z.lor (pte_get_phys 4096) PTE_WRITE) PTE_PRESENT)
        else translate (heap demo_loaded) (hhdm_offset demo_loaded) 2097152 va).
Proof.
  apply (map_page_translates 2097152 _ _ _ _ _ _ demo_loaded_tables);
    [done|by apply Nat.leb_le|done].
Defined.

(** While a page is free, [create_user_pml4] returns a fresh root whose
    lower half maps nothing and whose upper half translates exactly as the
    loaded kernel tables do; both trees are well-formed afterwards and the
    kernel's own translations are untouched. *)
Lemma create_user_pml4_shares_kernel `{PA : PageAllocator} root T ps s :
  pt_state root T ps s -> loaded root s -> ps <> [] ->
  wp create_user_pml4 s (fun r s' => exists qs,
    ps ≡ₚ (r / 4096) :: qs /\ pt_state root T qs s' /\
    pt_inv (heap s') (hhdm_offset s) r (<[r := 3%nat]> (delete root T)) /\
    (forall va, translate (heap s') (hhdm_offset s) root va = translate (heap s) (hhdm_offset s) root va) /\
    (forall va, translate (heap s') (hhdm_offset s) r va =
       if index 3 va <? 256 then None else translate (heap s) (hhdm_offset s) root va)).
Proof.
  intros Hst Hld Hne. eapply wp_mono; [by apply (create_user_pml4_spec root)|].
  intros r s' (qs & Hps & _ & Hr & Hst' & Ht & Hu & _). by exists qs.
Qed.

Lemma create_user_pml4_shares_kernel_witness :
  wp create_user_pml4 demo_loaded (fun r s' => exists qs,
    demo_pages ≡ₚ (r / 4096) :: qs /\ pt_state 2097152 {[ 2097152 := 3%nat ]} qs s' /\
    pt_inv (heap s') (hhdm_offset demo_loaded) r (<[r := 3%nat]> (delete 2097152 {[ 2097152 := 3%nat ]})) /\
    (forall va, translate (heap s') (hhdm_offset demo_loaded) 2097152 va
                = translate (heap demo_loaded) (hhdm_offset demo_loaded) 2097152 va) /\
    (forall va, translate (heap s') (hhdm_offset demo_loaded) r va =
       if index 3 va <? 256 then None
       else translate (heap demo_loaded) (hhdm_offset demo_loaded) 2097152 va)).
Proof.
  apply (create_user_pml4_shares_kernel 2097152 _ _ _ demo_loaded_tables); done.
Defined.

(** no caller of [kalloc] in [map_page_pml4] checks the answer: with no
    page free and a table missing, the store through the null pointer faults. *)
Lemma map_page_pml4_oom_faults `{PA : PageAllocator} root T s virt phys flags :
  pt_state root T [] s -> pte_is_present (entry (heap s) root (PML4_INDEX virt)) = false ->
  map_page_pml4 root virt phys flags s = Stuck Fault.
Proof.
  intros [Htree Hpa Hap Hoff] Hp.
  pose proof (pa_alloc_law [] 1 s Hpa ltac:(lia)) as (r & s1 & Ha & Hr)%wp_ok.
  assert (r = 0) as ->.
  { destruct Hr as [(-> & _)|(_ & qs & Hq & _)]; [done|].
    rewrite block_pages_one in Hq. by apply Permutation_nil_cons in Hq. }
  unfold map_page_pml4, map_in, next_table, mbind, M_bind, entry_load, mgets. rewrite Hp. cbn.
  rewrite Ha. unfold VIRT_TO_PHYS, PHYS_TO_VIRT, mgets. rewrite phys_virt_roundtrip by lia. done.
Qed.

