(* ===== verification/KString.v ===== *)
(** * C strings (src/src/kernel/string.c)

    The three string functions, reading kernel memory byte by byte, and their
    meaning on the byte lists the pointers stand for. *)
From S2P Require Import Prelude KMem.

#[local] Open Scope Z_scope.

(** Pointers are addresses; 0 is the null pointer.  A loop that runs off the
    64-bit address space does not return. *)
Definition kstrlen (m : mem) (s : Z) : option Z :=
  if s =? 0 then Some 0
  else loop (fun n => if rd8 m (s + n) =? 0 then inr n else inl (u64 (n + 1))) 0.

Definition kstrcmp (m : mem) (a b : Z) : option Z :=
  if a =? b then Some 0
  else if a =? 0 then Some (-1)
  else if b =? 0 then Some 1
  else loop (fun '(a, b) =>
         if negb (rd8 m a =? 0) && (rd8 m a =? rd8 m b) then inl (a + 1, b + 1)
         else inr (rd8 m a - rd8 m b)) (a, b).

Definition kstreq_nlit (m : mem) (s len lit : Z) : option Z :=
  loop (fun i =>
    if (i <? len) && negb (rd8 m (lit + i) =? 0)
    then if negb (rd8 m (s + i) =? rd8 m (lit + i)) then inr 0 else inl (u64 (i + 1))
    else inr (if (i =? len) && (rd8 m (lit + i) =? 0) then 1 else 0)) 0.

(** ** The strings in memory *)

(** The non-zero bytes [l] stand at [a], followed by a zero byte. *)
Fixpoint cstr (m : mem) (a : Z) (l : list Z) : Prop :=
  match l with
  | [] => rd8 m a = 0
  | c :: l' => rd8 m a = c /\ c <> 0 /\ cstr m (a + 1) l'
  end.

(** The bytes [l] stand at [a]. *)
Fixpoint bytes (m : mem) (a : Z) (l : list Z) : Prop :=
  match l with
  | [] => True
  | c :: l' => rd8 m a = c /\ bytes m (a + 1) l'
  end.

(** Difference of the first bytes where two zero-terminated strings differ. *)
Fixpoint str_diff (l1 l2 : list Z) : Z :=
  match l1, l2 with
  | [], [] => 0
  | [], d :: _ => 0 - d
  | c :: _, [] => c - 0
  | c :: l1', d :: l2' => if c =? d then str_diff l1' l2' else c - d
  end.

Lemma str_diff_zero_eq a b :
  Forall (fun c => c <> 0) a -> Forall (fun c => c <> 0) b -> str_diff a b = 0 <-> a = b.
Proof.
  intros Ha. revert b. induction Ha as [|c a Hc Ha IH]; intros b Hb; destruct Hb as [|d b Hd Hb]; cbn.
  - done.
  - split; [lia|done].
  - split; [lia|done].
  - destruct (Z.eqb_spec c d) as [->|Hne].
    + rewrite IH by done. split; [by intros ->|by intros [= ->]].
    + split; [lia|]. by intros [= -> _].
Qed.

Lemma cstr_lookup m a l i c : cstr m a l -> l !! i = Some c -> rd8 m (a + Z.of_nat i) = c /\ c <> 0.
Proof.
  revert a i. induction l as [|d l IH]; intros a i; [done|]. intros (Hd & Hnz & Hl).
  destruct i as [|i]; cbn.
  - intros [= <-]. by rewrite Z.add_0_r.
  - intros Hi. replace (a + Z.of_nat (S i)) with (a + 1 + Z.of_nat i) by lia. by apply IH.
Qed.

Lemma cstr_end m a l : cstr m a l -> rd8 m (a + Z.of_nat (length l)) = 0.
Proof.
  revert a. induction l as [|d l IH]; intros a; cbn [cstr length]; [by rewrite Z.add_0_r|].
  intros (_ & _ & Hl). replace (a + Z.of_nat (S (length l))) with (a + 1 + Z.of_nat (length l)) by lia.
  by apply IH.
Qed.

Lemma cstr_unique m a l l' : cstr m a l -> cstr m a l' -> l = l'.
Proof.
  revert a l'. induction l as [|c l IH]; intros a [|c' l']; cbn [cstr]; try done.
  - intros -> (<- & H & _). done.
  - intros (H & Hne & _) E. by rewrite E in H.
  - intros (<- & _ & H) (<- & _ & H'). f_equal. by eapply IH.
Qed.

Lemma bytes_lookup m a l i c : bytes m a l -> l !! i = Some c -> rd8 m (a + Z.of_nat i) = c.
Proof.
  revert a i. induction l as [|d l IH]; intros a i; [done|]. intros (Hd & Hl).
  destruct i as [|i]; cbn.
  - intros [= <-]. by rewrite Z.add_0_r.
  - intros Hi. replace (a + Z.of_nat (S i)) with (a + 1 + Z.of_nat i) by lia. by apply IH.
Qed.

Lemma kstrlen_spec m s l :
  s <> 0 -> cstr m s l -> Z.of_nat (length l) < 2 ^ 64 -> kstrlen m s = Some (Z.of_nat (length l)).
Proof.
  intros Hs Hc Hlen. unfold kstrlen. rewrite (proj2 (Z.eqb_neq s 0) Hs).
  destruct (loop_total (fun n => if rd8 m (s + n) =? 0 then inr n else inl (u64 (n + 1)))
    (fun n => 0 <= n <= Z.of_nat (length l)) (fun n => n = Z.of_nat (length l))
    (fun n => Z.of_nat (length l) - n) 0) as (r & -> & ->); [|lia|lia|done].
  intros n Hn. destruct (decide (n = Z.of_nat (length l))) as [->|Hne].
  - by rewrite (cstr_end m s l Hc).
  - destruct (lookup_lt_is_Some_2 l (Z.to_nat n)) as [c Hl]; [lia|].
    destruct (cstr_lookup m s l _ c Hc Hl) as [Hr Hnz]. rewrite Z2Nat.id in Hr by lia.
    rewrite Hr, (proj2 (Z.eqb_neq c 0) Hnz), u64_small by lia. lia.
Qed.

Lemma kstrcmp_spec m a b l1 l2 :
  a <> 0 -> b <> 0 -> cstr m a l1 -> cstr m b l2 -> Z.of_nat (length l1) < 2 ^ 64 ->
  kstrcmp m a b = Some (str_diff l1 l2).
Proof.
  intros Ha Hb H1 H2 Hlen. unfold kstrcmp. destruct (Z.eqb_spec a b) as [->|Hab].
  { rewrite (cstr_unique m b l1 l2) by done. f_equal. clear. induction l2 as [|c l IH]; [done|].
    cbn. by rewrite Z.eqb_refl. }
  rewrite (proj2 (Z.eqb_neq a 0) Ha), (proj2 (Z.eqb_neq b 0) Hb). clear Ha Hb Hab.
  set (body := fun '(a, b) => _).
  destruct (loop_total body
    (fun '(x, y) => exists k1 k2, cstr m x k1 /\ cstr m y k2 /\ str_diff k1 k2 = str_diff l1 l2 /\
       a + Z.of_nat (length l1) - x = Z.of_nat (length k1))
    (fun r => r = str_diff l1 l2)
    (fun '(x, y) => a + Z.of_nat (length l1) - x) (a, b)) as (r & -> & ->); [| |lia|done].
  2: { exists l1, l2. split_and!; (done || lia). }
  intros [x y] (k1 & k2 & Hk1 & Hk2 & Hd & Hm). cbn.
  destruct k1 as [|c k1], k2 as [|d k2]; cbn [cstr str_diff length] in *.
  - by rewrite Hk1, Hk2.
  - destruct Hk2 as (-> & _). by rewrite Hk1.
  - destruct Hk1 as (-> & Hc & _). rewrite Hk2, (proj2 (Z.eqb_neq c 0) Hc). done.
  - destruct Hk1 as (-> & Hc & Hk1), Hk2 as (-> & _ & Hk2). rewrite (proj2 (Z.eqb_neq c 0) Hc).
    cbn. destruct (Z.eqb_spec c d) as [->|]; [|done]. split; [|lia].
    exists k1, k2. split_and!; (done || lia).
Qed.

Lemma str_diff_0 m a b l1 l2 : cstr m a l1 -> cstr m b l2 -> str_diff l1 l2 = 0 <-> l1 = l2.
Proof.
  revert a b l2. induction l1 as [|c l1 IH]; intros a b [|d l2]; cbn [cstr str_diff]; intros H1 H2.
  - done.
  - split; [lia|done].
  - split; [lia|done].
  - destruct H1 as (_ & _ & H1), H2 as (_ & _ & H2). destruct (Z.eqb_spec c d) as [->|Hne].
    + rewrite IH by done. split; [by intros ->|by intros [= ->]].
    + split; [lia|]. by intros [= -> _].
Qed.

Lemma kstreq_nlit_spec m s lit k l :
  bytes m s k -> Z.of_nat (length k) < 2 ^ 64 -> cstr m lit l -> Forall (fun c => c <> 0) k ->
  kstreq_nlit m s (Z.of_nat (length k)) lit = Some (if decide (k = l) then 1 else 0).
Proof.
  intros Hk Hlen Hl Hnz. unfold kstreq_nlit. set (body := fun i => _).
  destruct (loop_total body
    (fun i => exists j, i = Z.of_nat j /\ (j <= length k)%nat /\ (j <= length l)%nat /\ take j k = take j l)
    (fun r => r = if decide (k = l) then 1 else 0)
    (fun i => Z.of_nat (length k) - i) 0) as (r & -> & ->); [| |lia|done].
  2: { exists 0%nat. split_and!; (done || lia). }
  intros i (j & -> & Hj & Hj' & Heq). unfold body.
  destruct (decide (j = length l)) as [->|Hjl].
  { rewrite (cstr_end m lit l Hl), andb_false_r. cbn [negb andb Z.eqb].
    rewrite andb_true_r. rewrite firstn_all in Heq.
    case_decide as Hkl; [subst k; by rewrite Z.eqb_refl|]. rewrite (proj2 (Z.eqb_neq _ _)); [done|].
    intros E. apply Hkl. rewrite <- Heq. rewrite take_ge; [done|lia]. }
  destruct (lookup_lt_is_Some_2 l j) as [c Hc]; [lia|].
  destruct (cstr_lookup m lit l j c Hl Hc) as [-> Hcz]. rewrite (proj2 (Z.eqb_neq c 0) Hcz).
  destruct (Z.ltb_spec (Z.of_nat j) (Z.of_nat (length k))) as [Hlt|Hge]; cbn [negb andb].
  - destruct (lookup_lt_is_Some_2 k j) as [d Hd]; [lia|]. rewrite (bytes_lookup m s k j d Hk Hd).
    destruct (Z.eqb_spec d c) as [->|Hne]; cbn [negb].
    + split; [|rewrite u64_small by lia; lia]. exists (S j). split_and!; [rewrite u64_small; lia|lia|lia|].
      by rewrite (take_S_r k j c), (take_S_r l j c), Heq.
    + case_decide as E; [|done]. subst l. congruence.
  - rewrite andb_false_r. case_decide as E; [|done]. subst l. lia.
Qed.

(** ** Properties *)

(** on zero-terminated strings [kstrlen] is the length and [kstrcmp] is
    the difference of the first differing bytes read as unsigned, so it is zero
    exactly for equal strings; both terminate. *)
Lemma kstr_correct m a b l1 l2 :
  a <> 0 -> b <> 0 -> cstr m a l1 -> cstr m b l2 -> Z.of_nat (length l1) < 2 ^ 64 ->
  kstrlen m a = Some (Z.of_nat (length l1)) /\
  kstrcmp m a b = Some (str_diff l1 l2) /\ (kstrcmp m a b = Some 0 <-> l1 = l2).
Proof.
  intros Ha Hb H1 H2 Hlen. pose proof (kstrcmp_spec m a b l1 l2 Ha Hb H1 H2 Hlen) as E.
  split_and!; [by apply kstrlen_spec|done|]. rewrite E, <- (str_diff_0 m a b l1 l2 H1 H2).
  split; [by intros [=]|by intros ->].
Qed.

(** [kstreq_nlit] compares a counted path component with a literal: it
    answers 1 exactly when they are the same bytes, never a prefix match. *)
Lemma kstreq_nlit_correct m s lit k l :
  bytes m s k -> Z.of_nat (length k) < 2 ^ 64 -> cstr m lit l -> Forall (fun c => c <> 0) k ->
  kstreq_nlit m s (Z.of_nat (length k)) lit = Some (if decide (k = l) then 1 else 0).
Proof. apply kstreq_nlit_spec. Qed.
