(* ===== verification/Ring.v ===== *)
(** * The byte ring behind the keyboard and mouse (src/src/kernel/ring.h)

    [ring_t] with its index arithmetic, and the bounded queue it implements:
    [contents] lists the valid bytes oldest first, writing keeps the newest
    [cap] bytes, reading takes from the front. *)
From S2P Require Import Prelude.

#[local] Open Scope Z_scope.

Record ring_t := Ring {
  rbuf : list Z;     (* backing storage *)
  rcap : Z;
  rhead : Z;
  rlen : Z
}.

Definition ring_init (storage : list Z) (capacity : Z) : ring_t := Ring storage capacity 0 0.

(** [r->buf[i] = c] and [r->buf[i]]; out of the storage is undefined. *)
Definition buf_store (i c : Z) : M ring_t unit := fun r =>
  match rbuf r !! Z.to_nat i with
  | Some _ => Ok (tt, Ring (<[Z.to_nat i := c]> (rbuf r)) (rcap r) (rhead r) (rlen r))
  | None => Stuck Fault
  end.
Definition buf_load (i : Z) : M ring_t Z := fun r =>
  match rbuf r !! Z.to_nat i with
  | Some c => Ok (c, r)
  | None => Stuck Fault
  end.

(** [data[i]] of the caller's bytes. *)
Definition data_load (data : list Z) (i : Z) : M ring_t Z := fun r =>
  match data !! Z.to_nat i with
  | Some c => Ok (c, r)
  | None => Stuck Fault
  end.

Definition set_head (h : Z) (r : ring_t) : ring_t := Ring (rbuf r) (rcap r) h (rlen r).
Definition set_len (l : Z) (r : ring_t) : ring_t := Ring (rbuf r) (rcap r) (rhead r) l.

Definition ring_putc (c : Z) : M ring_t unit :=
  h ← mgets rhead;
  buf_store h c;;
  mmodify (fun r => set_head (u32 (rhead r + 1)) r);;
  mmodify (fun r => if rhead r =? rcap r then set_head 0 r else r);;
  mmodify (fun r => if rlen r <? rcap r then set_len (u32 (rlen r + 1)) r else r).

Definition ring_write (data : list Z) (n : Z) : M ring_t unit :=
  cap ← mgets rcap;
  if cap <=? n then
    let skip := n - cap in
    mmodify (fun r => set_len (rcap r) (set_head 0 r));;
    mfor (Z.to_nat cap) (fun i =>
      c ← data_load data (skip + i); buf_store i c;; mret (None : option unit)) 0;;
    mret tt
  else
    mfor (Z.to_nat n) (fun i =>
      c ← data_load data i; ring_putc c;; mret (None : option unit)) 0;;
    mret tt.

Definition ring_start (r : ring_t) : Z :=
  if rlen r <=? rhead r then u32 (rhead r - rlen r) else u32 (rcap r - u32 (rlen r - rhead r)).

(** The bytes written to [out], in order. *)
Definition ring_read (out_cap : Z) : M ring_t (list Z) :=
  n ← mgets rlen;
  let n := if out_cap <? n then out_cap else n in
  if n =? 0 then mret []
  else
    start ← mgets ring_start;
    out ← mloop (fun '(i, idx, out) =>
      if i <? n then
        c ← buf_load idx;
        cap ← mgets rcap;
        let idx := u32 (idx + 1) in
        mret (inl (u32 (i + 1), if idx =? cap then 0 else idx, out ++ [c]))
      else mret (inr out)) (0, start, []);
    mmodify (fun r => set_len (u32 (rlen r - n)) r);;
    mret out.

(** ** The queue *)

Record ring_ok (r : ring_t) : Prop := {
  ring_cap : 0 < rcap r < 2 ^ 32;
  ring_buf : Z.of_nat (length (rbuf r)) = rcap r;
  ring_head : 0 <= rhead r < rcap r;
  ring_len : 0 <= rlen r <= rcap r
}.

(** Index of the [k]th oldest byte. *)
Definition slot (r : ring_t) (k : Z) : Z := (rhead r - rlen r + k) mod rcap r.

Definition contents (r : ring_t) : list Z :=
  (fun k => rbuf r !!! Z.to_nat (slot r k)) <$> seqZ 0 (rlen r).

(** The last [n] elements. *)
Definition lastn (n : nat) (l : list Z) : list Z := drop (length l - n) l.

Lemma slot_range r k : ring_ok r -> 0 <= slot r k < rcap r.
Proof. intros [Hc _ _ _]. apply Z.mod_pos_bound. lia. Qed.

Lemma length_contents r : ring_ok r -> Z.of_nat (length (contents r)) = rlen r.
Proof. intros [_ _ _ Hl]. unfold contents. rewrite length_fmap, length_seqZ. lia. Qed.

Lemma contents_lookup r (k : nat) :
  ring_ok r -> Z.of_nat k < rlen r -> contents r !! k = Some (rbuf r !!! Z.to_nat (slot r (Z.of_nat k))).
Proof.
  intros Hr Hk. unfold contents. rewrite list_lookup_fmap, lookup_seqZ_lt by lia.
  cbn. by rewrite Z.add_0_l.
Qed.

Lemma ring_start_slot r : ring_ok r -> rlen r <> 0 -> ring_start r = slot r 0.
Proof.
  intros [Hc Hb Hh Hl] Hne. unfold ring_start, slot. rewrite Z.add_0_r.
  destruct (Z.leb_spec (rlen r) (rhead r)).
  - rewrite u32_small, Z.mod_small by lia. done.
  - rewrite (u32_small (rlen r - rhead r)), u32_small by lia.
    rewrite <- (Z.mod_add _ 1), Z.mod_small by lia. lia.
Qed.

Lemma buf_lookup r i : ring_ok r -> 0 <= i < rcap r -> exists c, rbuf r !! Z.to_nat i = Some c.
Proof. intros [Hc Hb Hh Hl] Hi. apply lookup_lt_is_Some_2. lia. Qed.

(** [ring_putc] as one state change. *)
Definition put (c : Z) (r : ring_t) : ring_t :=
  Ring (<[Z.to_nat (rhead r) := c]> (rbuf r)) (rcap r)
       (if rhead r + 1 =? rcap r then 0 else rhead r + 1) (Z.min (rlen r + 1) (rcap r)).

Lemma ring_putc_eq c r : ring_ok r -> ring_putc c r = Ok (tt, put c r).
Proof.
  intros Hr. pose proof Hr as [Hc Hb Hh Hl]. destruct (buf_lookup r (rhead r) Hr Hh) as [d Hd].
  unfold ring_putc, mbind, M_bind, mgets, mmodify, buf_store. rewrite Hd. cbn.
  unfold put, set_head, set_len. cbn. rewrite u32_small by lia.
  destruct (Z.eqb_spec (rhead r + 1) (rcap r)); cbn;
    destruct (Z.ltb_spec (rlen r) (rcap r)); cbn.
  - rewrite u32_small, Z.min_l by lia. done.
  - rewrite Z.min_r by lia. repeat f_equal. lia.
  - rewrite u32_small, Z.min_l by lia. done.
  - rewrite Z.min_r by lia. repeat f_equal. lia.
Qed.

Lemma put_ok c r : ring_ok r -> ring_ok (put c r).
Proof.
  intros [Hc Hb Hh Hl]. split; cbn; [done|by rewrite length_insert| |lia].
  destruct (Z.eqb_spec (rhead r + 1) (rcap r)); lia.
Qed.

Lemma lookup_lastn n l k :
  lastn n l !! k = if decide (k < n)%nat then l !! (length l - n + k)%nat else None.
Proof.
  unfold lastn. rewrite lookup_drop. case_decide; [done|]. apply lookup_ge_None_2. lia.
Qed.

Lemma slot_put_old c r k :
  ring_ok r -> 0 <= k < rlen (put c r) - 1 ->
  slot (put c r) k = slot r (k + (rlen r + 1 - rlen (put c r))) /\ slot (put c r) k <> rhead r.
Proof.
  intros [Hc Hb Hh Hl] Hk. unfold slot, put in *. cbn [rhead rlen rcap] in *.
  assert (((if rhead r + 1 =? rcap r then 0 else rhead r + 1) - Z.min (rlen r + 1) (rcap r) + k)
            mod rcap r = (rhead r + 1 - Z.min (rlen r + 1) (rcap r) + k) mod rcap r) as ->.
  { destruct (Z.eqb_spec (rhead r + 1) (rcap r)) as [->|]; [|done].
    rewrite <- (Z.mod_add (0 - _ + k) 1) by lia. f_equal. lia. }
  split; [f_equal; lia|].
  set (n := Z.min (rlen r + 1) (rcap r)) in *. intros E.
  pose proof (Z_div_mod_eq_full (rhead r + 1 - n + k) (rcap r)) as Hq. rewrite E in Hq.
  set (q := (rhead r + 1 - n + k) / rcap r) in *. assert (n <= rcap r) by (unfold n; lia).
  destruct (Z.le_gt_cases 0 q); nia.
Qed.

Lemma slot_put_new c r : ring_ok r -> slot (put c r) (rlen (put c r) - 1) = rhead r.
Proof.
  intros [Hc Hb Hh Hl]. unfold slot, put. cbn [rhead rlen rcap].
  set (n := Z.min (rlen r + 1) (rcap r)).
  destruct (Z.eqb_spec (rhead r + 1) (rcap r)) as [E|].
  - replace (0 - n + (n - 1)) with (-1) by lia. rewrite <- (Z.mod_add (-1) 1), Z.mod_small by lia. lia.
  - replace (rhead r + 1 - n + (n - 1)) with (rhead r) by lia. by apply Z.mod_small.
Qed.

(** Writing a byte appends it and, when full, drops the oldest. *)
Lemma contents_put c r :
  ring_ok r -> contents (put c r) = lastn (Z.to_nat (rcap r)) (contents r ++ [c]).
Proof.
  intros Hr. pose proof (put_ok c r Hr) as Hp. pose proof Hr as [Hc Hb Hh Hl].
  pose proof (length_contents r Hr) as Hlen. apply list_eq. intros k.
  rewrite lookup_lastn, length_app, Nat.add_1_r.
  assert (rlen (put c r) = Z.min (rlen r + 1) (rcap r)) as Hn by done.
  destruct (decide (Z.of_nat k < rlen (put c r))) as [Hk|Hk].
  - rewrite decide_True by lia. rewrite contents_lookup by done.
    destruct (decide (Z.of_nat k = rlen (put c r) - 1)) as [E|Hne].
    + rewrite E, slot_put_new by done. cbn [put rbuf].
      rewrite list_lookup_total_insert_eq by lia.
      rewrite lookup_app_r by lia. by replace (_ - _)%nat with 0%nat by lia.
    + destruct (slot_put_old c r (Z.of_nat k) Hr ltac:(lia)) as [Hs Hd].
      rewrite lookup_app_l by lia. rewrite contents_lookup by (done || lia).
      cbn [put rbuf]. rewrite list_lookup_total_insert_ne.
      * do 3 f_equal. rewrite Hs. f_equal. lia.
      * pose proof (slot_range (put c r) (Z.of_nat k) Hp). lia.
  - rewrite lookup_ge_None_2 by (pose proof (length_contents _ Hp); lia).
    case_decide; [|done]. symmetry. apply lookup_ge_None_2. rewrite length_app. simpl. lia.
Qed.

Lemma lastn_small n l : (length l <= n)%nat -> lastn n l = l.
Proof. intros H. unfold lastn. by replace (length l - n)%nat with 0%nat by lia. Qed.

Lemma lastn_app n l l' : lastn n (lastn n l ++ l') = lastn n (l ++ l').
Proof.
  unfold lastn. rewrite !length_app, length_drop.
  destruct (decide (length l <= n)%nat) as [Hle|Hgt].
  - replace (length l - n)%nat with 0%nat by lia. cbn [drop]. f_equal. lia.
  - replace (length l + length l' - n)%nat
      with ((length l - n) + (length l - (length l - n) + length l' - n))%nat by lia.
    rewrite <- drop_drop. f_equal. rewrite drop_app_le by lia. done.
Qed.

(** ** Writing *)

(** Fewer bytes than the capacity: one [ring_putc] each. *)
Lemma put_many_spec data (cap : nat) r :
  ring_ok r -> rcap r = Z.of_nat cap ->
  wp (mfor (length data) (fun i =>
        c ← data_load data i; ring_putc c;; mret (None : option unit)) 0) r
     (fun o r' => o = None /\ ring_ok r' /\ rcap r' = rcap r /\
                  contents r' = lastn cap (contents r ++ data)).
Proof.
  intros Hr Hcap. apply (wp_mfor _ (fun j r' => ring_ok r' /\ rcap r' = rcap r /\
    contents r' = lastn cap (contents r ++ take (Z.to_nat j) data))).
  - intros j r1 Hj (Hr1 & Hc1 & Hcon). destruct (lookup_lt_is_Some_2 data (Z.to_nat j)) as [c Hc]; [lia|].
    wp_step. eapply wp_run; [unfold data_load; by rewrite Hc|].
    wp_step. eapply wp_run; [by apply ring_putc_eq|]. wp_step.
    split_and!; [by apply put_ok|done|]. rewrite contents_put by done.
    rewrite Hc1, Hcap, Nat2Z.id, Hcon, lastn_app, <- app_assoc. f_equal. f_equal.
    replace (Z.to_nat (j + 1)) with (S (Z.to_nat j)) by lia. by rewrite (take_S_r data _ c).
  - intros r1 (Hr1 & Hc1 & Hcon). split_and!; [done..|]. rewrite Hcon. f_equal. f_equal.
    by rewrite take_ge by lia.
  - split_and!; [done..|]. change (Z.to_nat 0) with 0%nat. rewrite take_0, app_nil_r.
    symmetry. apply lastn_small. pose proof (length_contents r Hr). destruct Hr. lia.
Qed.

(** As many bytes as the capacity or more: the storage is refilled in order. *)
Lemma fill_spec data (cap skip : nat) r :
  ring_ok r -> rcap r = Z.of_nat cap -> length data = (skip + cap)%nat ->
  rhead r = 0 -> rlen r = rcap r ->
  wp (mfor cap (fun i =>
        c ← data_load data (Z.of_nat skip + i); buf_store i c;; mret (None : option unit)) 0) r
     (fun o r' => o = None /\ ring_ok r' /\ rcap r' = rcap r /\ contents r' = drop skip data).
Proof.
  intros Hr Hcap Hlen Hh0 Hl0. apply (wp_mfor _ (fun j r' => exists b,
    r' = Ring b (rcap r) 0 (rcap r) /\ length b = cap /\
    forall i, (Z.of_nat i < j) -> b !! i = data !! (skip + i)%nat)).
  - intros j r1 Hj (b & -> & Hb & Hsame).
    destruct (lookup_lt_is_Some_2 data (skip + Z.to_nat j)) as [c Hc]; [lia|].
    wp_step. eapply wp_run.
    { unfold data_load. replace (Z.to_nat (Z.of_nat skip + j)) with (skip + Z.to_nat j)%nat by lia.
      by rewrite Hc. }
    destruct (lookup_lt_is_Some_2 b (Z.to_nat j)) as [d Hd]; [lia|].
    wp_step. eapply wp_run; [unfold buf_store; cbn [rbuf]; by rewrite Hd|]. wp_step.
    exists (<[Z.to_nat j := c]> b). split_and!; [done|by rewrite length_insert|]. intros i Hi.
    destruct (decide (i = Z.to_nat j)) as [->|Hne].
    + by rewrite list_lookup_insert_eq by lia.
    + rewrite list_lookup_insert_ne by done. apply Hsame. lia.
  - intros r1 (b & -> & Hb & Hsame). pose proof (ring_cap r Hr).
    assert (ring_ok (Ring b (rcap r) 0 (rcap r))) as Hok by (split; cbn; lia).
    split_and!; [done..|]. apply list_eq. intros k. rewrite lookup_drop.
    destruct (decide (k < cap)%nat) as [Hk|Hk].
    + rewrite contents_lookup by (done || (cbn; lia)). unfold slot. cbn [rhead rlen rcap rbuf].
      rewrite <- (Z.mod_add _ 1), Z.mod_small, <- (Hsame k) by lia.
      replace (Z.to_nat (0 - rcap r + Z.of_nat k + 1 * rcap r)) with k by lia.
      symmetry. apply list_lookup_lookup_total_lt. lia.
    + pose proof (length_contents _ Hok) as Hlc. cbn in Hlc.
      rewrite !lookup_ge_None_2 by lia. done.
  - exists (rbuf r). destruct r as [b c h l]; cbn in *. subst h l. destruct Hr as [_ Hb _ _]. cbn in Hb.
    split_and!; [done|lia|]. intros. lia.
Qed.

Lemma ring_write_spec data r :
  ring_ok r -> Z.of_nat (length data) < 2 ^ 32 ->
  wp (ring_write data (Z.of_nat (length data))) r (fun _ r' =>
    ring_ok r' /\ rcap r' = rcap r /\
    contents r' = lastn (Z.to_nat (rcap r)) (contents r ++ data)).
Proof.
  intros Hr Hlen. pose proof Hr as [Hc Hb Hh Hl]. unfold ring_write.
  wp_step. apply wp_gets. cbn beta. destruct (Z.leb_spec (rcap r) (Z.of_nat (length data))) as [Hle|Hgt].
  - wp_step. apply wp_modify. set (r0 := set_len _ _). wp_step.
    set (skip := (length data - Z.to_nat (rcap r))%nat).
    assert (ring_ok r0) as Hr0 by (split; cbn; lia).
    replace (Z.of_nat (length data) - rcap r) with (Z.of_nat skip) by lia.
    eapply wp_mono; [apply (fill_spec data (Z.to_nat (rcap r)) skip r0 Hr0); (done || (cbn; lia))|].
    intros o r1 (-> & Hr1 & Hc1 & Hcon). wp_step. split_and!; [done|done|]. rewrite Hcon.
    unfold lastn. rewrite length_app, drop_app_ge by lia. f_equal. lia.
  - rewrite Nat2Z.id. wp_step.
    eapply wp_mono; [apply (put_many_spec data (Z.to_nat (rcap r)) r Hr); lia|].
    intros o r1 (-> & Hr1 & Hc1 & Hcon). by wp_step.
Qed.

(** ** Reading *)

Lemma slot_next r k :
  ring_ok r -> 0 <= k ->
  slot r (k + 1) = if u32 (slot r k + 1) =? rcap r then 0 else u32 (slot r k + 1).
Proof.
  intros Hr Hk. pose proof (slot_range r k Hr) as Hs. pose proof (ring_cap r Hr).
  rewrite u32_small by lia. unfold slot in *. set (x := rhead r - rlen r + k) in *.
  replace (rhead r - rlen r + (k + 1)) with (x + 1) by lia.
  rewrite <- Zplus_mod_idemp_l. destruct (Z.eqb_spec (x mod rcap r + 1) (rcap r)) as [->|Hne].
  - by apply Z_mod_same_full.
  - apply Z.mod_small. lia.
Qed.

Lemma ring_read_spec out_cap r :
  ring_ok r -> 0 <= out_cap < 2 ^ 32 ->
  wp (ring_read out_cap) r (fun out r' =>
    let n := Z.to_nat (Z.min (rlen r) out_cap) in
    out = take n (contents r) /\ contents r' = drop n (contents r) /\
    ring_ok r' /\ rcap r' = rcap r).
Proof.
  intros Hr Ho. pose proof Hr as [Hc Hb Hh Hl]. unfold ring_read.
  wp_step. apply wp_gets. cbn beta zeta.
  replace (if out_cap <? rlen r then out_cap else rlen r) with (Z.min (rlen r) out_cap)
    by (destruct (Z.ltb_spec out_cap (rlen r)); lia).
  set (n := Z.min (rlen r) out_cap). destruct (Z.eqb_spec n 0) as [E|E].
  { wp_step. rewrite E. change (Z.to_nat 0) with 0%nat. by rewrite take_0, drop_0. }
  wp_step. apply wp_gets. cbn beta. rewrite ring_start_slot by (done || lia). wp_step.
  eapply (wp_mloop_ix _ (fun m '(i, idx, out) r1 => r1 = r /\ m = n - i /\ 0 <= i <= n /\
    idx = slot r i /\ out = take (Z.to_nat i) (contents r))); [| |exact (ltac:(lia) : n - 0 < 2 ^ 64)].
  2: { split_and!; (done || lia || by rewrite take_0). }
  intros m [[i idx] out] r1 (-> & -> & Hi & -> & ->).
  destruct (Z.ltb_spec i n) as [Hlt|Hge].
  - pose proof (slot_range r i Hr) as Hs. pose proof (contents_lookup r (Z.to_nat i) Hr ltac:(lia)) as Hk.
    rewrite Z2Nat.id in Hk by lia. destruct (buf_lookup r _ Hr Hs) as [c Hcl].
    rewrite (list_lookup_total_correct _ _ c) in Hk by done.
    wp_step. eapply wp_run; [unfold buf_load; by rewrite Hcl|]. wp_step. apply wp_gets. wp_step.
    exists (n - (i + 1)). split; [|lia]. rewrite u32_small by lia.
    split_and!; [done|done|lia|lia|by rewrite slot_next by (done || lia)|].
    replace (Z.to_nat (i + 1)) with (S (Z.to_nat i)) by lia. by rewrite (take_S_r _ _ c).
  - wp_step. wp_step. apply wp_modify. wp_step. replace i with n by lia. split; [done|].
    rewrite u32_small by lia.
    assert (ring_ok (set_len (rlen r - n) r)) as Hok by (split; cbn; lia).
    split_and!; [|done|done]. apply list_eq. intros k. rewrite lookup_drop.
    destruct (decide (Z.of_nat k < rlen r - n)) as [Hk|Hk].
    + rewrite !contents_lookup by (done || (cbn; lia)). cbn [rbuf set_len]. do 3 f_equal.
      unfold slot. cbn [rhead rlen rcap set_len]. f_equal. lia.
    + pose proof (length_contents _ Hok) as H1. cbn in H1. pose proof (length_contents r Hr).
      rewrite !lookup_ge_None_2 by lia. done.
Qed.

(** ** Properties *)

(** The ring is a bounded queue that keeps the newest bytes: for any
    sequence of a [ring_write] and a [ring_read], no access leaves the storage,
    a write appends to the contents and drops the oldest beyond the capacity
    (both code paths agree on this), and a read hands out the oldest bytes in
    order and removes exactly those. *)
Lemma ring_queue data out_cap r :
  ring_ok r -> Z.of_nat (length data) < 2 ^ 32 -> 0 <= out_cap < 2 ^ 32 ->
  wp (ring_write data (Z.of_nat (length data));; ring_read out_cap) r (fun out r' =>
    let q := lastn (Z.to_nat (rcap r)) (contents r ++ data) in
    let n := Nat.min (length q) (Z.to_nat out_cap) in
    ring_ok r' /\ rcap r' = rcap r /\ out = take n q /\ contents r' = drop n q).
Proof.
  intros Hr Hlen Ho. wp_step. eapply wp_mono; [by apply ring_write_spec|].
  intros [] r1 (Hr1 & Hc1 & Hcon). eapply wp_mono; [by apply ring_read_spec|].
  intros out r2. pose proof (length_contents r1 Hr1) as Hl1. rewrite Hcon in *.
  intros (Hout & Hcon2 & Hr2 & Hc2). cbn zeta.
  replace (Nat.min _ _) with (Z.to_nat (Z.min (rlen r1) out_cap)) by lia.
  split_and!; [done|congruence|done|done].
Qed.

(** A four-byte ring holding 1, 2, 3 is sent 4, 5, 6 and read by two. *)
Lemma ring_queue_witness :
  let r := Ring [0; 1; 2; 3] 4 0 3 in
  wp (ring_write [4; 5; 6] (Z.of_nat (length [4; 5; 6]));; ring_read 2) r (fun out r' =>
    ring_ok r' /\ rcap r' = 4 /\ out = [3; 4] /\ contents r' = [5; 6]).
Proof.
  intros r. assert (ring_ok r) as Hr by (split; cbn; lia).
  eapply wp_mono; [apply (ring_queue [4; 5; 6] 2 r Hr); cbn; lia|].
  intros out r' (H1 & H2 & H3 & H4). split_and!; [exact H1|exact H2|exact H3|exact H4].
Defined.
