(* ===== verification/Pipe.v ===== *)
(** * Pipes (src/src/kernel/pipe.c)

    The shared [struct pipe], the lock-protected sections [pipe_read],
    [pipe_write] and [pipe_close] run over it, and any number of calls
    interleaving: a call gives up the lock (and the CPU, in [yield]) only
    between two sections, so a step of the system is one section of one call. *)
From S2P Require Import Prelude.

#[local] Open Scope Z_scope.

Definition PIPE_BUF : Z := 4096.
Definition PIPE_READ_END : Z := 1.
Definition PIPE_WRITE_END : Z := 2.

(** [struct pipe]; its lock is the atomicity of the sections below. *)
Record pipe := Pipe {
  pbuf : list Z;
  read_pos : Z;
  write_pos : Z;
  count : Z;
  read_open : Z;
  write_open : Z
}.

(** [memset(p, 0, sizeof *p)], both ends open. *)
Definition new_pipe : pipe := Pipe (replicate 4096 0) 0 0 0 1 1.

(** What a section of [pipe_read] or [pipe_write] ends with. *)
Inductive outcome :=
| Took (c : Z)     (* one byte out of the buffer *)
| Stored           (* one byte into it *)
| Blocked          (* released the lock and yielded *)
| Ended.           (* the other end is closed: the call returns *)

(** The body of the [while] loop of [pipe_read] under the lock. *)
Definition read_section : M pipe outcome := fun p =>
  if count p =? 0 then Ok (if write_open p =? 0 then Ended else Blocked, p)
  else
    match pbuf p !! Z.to_nat (read_pos p mod PIPE_BUF) with
    | Some c => Ok (Took c, Pipe (pbuf p) (u32 (read_pos p + 1)) (write_pos p)
                                 (u32 (count p - 1)) (read_open p) (write_open p))
    | None => Stuck Fault
    end.

(** The body of the [for] loop of [pipe_write] for the byte [c]. *)
Definition write_section (c : Z) : M pipe outcome := fun p =>
  if count p =? PIPE_BUF then Ok (if read_open p =? 0 then Ended else Blocked, p)
  else
    let i := Z.to_nat (write_pos p mod PIPE_BUF) in
    match pbuf p !! i with
    | Some _ => Ok (Stored, Pipe (<[i := u8 c]> (pbuf p)) (read_pos p) (u32 (write_pos p + 1))
                                 (u32 (count p + 1)) (read_open p) (write_open p))
    | None => Stuck Fault
    end.

(** [pipe_close]: the end's open count drops; the answer is [dead]. *)
Definition pipe_close (ino : Z) : M pipe bool := fun p =>
  let p := if ino =? PIPE_WRITE_END
           then Pipe (pbuf p) (read_pos p) (write_pos p) (count p) (read_open p) (i32 (write_open p - 1))
           else Pipe (pbuf p) (read_pos p) (write_pos p) (count p) (i32 (read_open p - 1)) (write_open p) in
  Ok ((read_open p =? 0) && (write_open p =? 0), p).

(** A call in progress: the loop variables of [pipe_read] and [pipe_write]. *)
Inductive call :=
| Reading (len : Z) (dst : list Z)       (* n is the length of dst *)
| Writing (src : list Z) (i : nat)
| Returned (r : Z) (dst : list Z).

(** One section of a call: where the loop goes next. *)
Definition call_section (k : call) : M pipe (call * outcome) :=
  match k with
  | Reading len dst =>
      if Z.of_nat (length dst) <? len then
        o ← read_section;
        match o with
        | Took c => mret (Reading len (dst ++ [c]), o)
        | Ended => mret (Returned (i64 (Z.of_nat (length dst))) dst, o)
        | _ => mret (k, o)
        end
      else mret (Returned (i64 (Z.of_nat (length dst))) dst, Blocked)
  | Writing src i =>
      match src !! i with
      | Some c =>
          o ← write_section c;
          match o with
          | Stored => mret (Writing src (S i), o)
          | Ended => mret (Returned (-1) [], o)
          | _ => mret (k, o)
          end
      | None => mret (Returned (i64 (Z.of_nat (length src))) [], Blocked)
      end
  | Returned _ _ => mret (k, Blocked)
  end.

(** The pipe, the calls in progress by process, and, as history, every byte
    stored and every byte taken so far. *)
Record psys := Psys {
  the_pipe : pipe;
  calls : gmap Z call;
  stored : list Z;
  taken : list Z
}.

Definition log_stored (k : call) (o : outcome) : list Z :=
  match k, o with
  | Writing src i, Stored => match src !! i with Some c => [u8 c] | None => [] end
  | _, _ => []
  end.
Definition log_taken (o : outcome) : list Z := match o with Took c => [c] | _ => [] end.

Inductive pipe_step : psys -> psys -> Prop :=
| step_start s pid k :
    (calls s !! pid = None \/ exists r dst, calls s !! pid = Some (Returned r dst)) ->
    ((exists len, k = Reading len []) \/ (exists src, k = Writing src 0)) ->
    pipe_step s (Psys (the_pipe s) (<[pid := k]> (calls s)) (stored s) (taken s))
| step_section s pid k k' o p' :
    calls s !! pid = Some k -> call_section k (the_pipe s) = Ok ((k', o), p') ->
    pipe_step s (Psys p' (<[pid := k']> (calls s)) (stored s ++ log_stored k o) (taken s ++ log_taken o))
| step_close s ino dead p' :
    pipe_close ino (the_pipe s) = Ok (dead, p') ->
    pipe_step s (Psys p' (calls s) (stored s) (taken s)).

(** ** The queue in the buffer *)

Record pipe_ok (p : pipe) : Prop := {
  pipe_len : length (pbuf p) = 4096%nat;
  pipe_count : 0 <= count p <= PIPE_BUF;
  pipe_read_pos : 0 <= read_pos p < 2 ^ 32;
  pipe_write_pos : write_pos p = u32 (read_pos p + count p)
}.

Definition pslot (p : pipe) (k : Z) : Z := (read_pos p + k) mod PIPE_BUF.
Definition pcontents (p : pipe) : list Z :=
  (fun k => pbuf p !!! Z.to_nat (pslot p k)) <$> seqZ 0 (count p).

(** The free-running 32-bit positions index the buffer even when they wrap. *)
Lemma u32_mod_buf x : u32 x mod PIPE_BUF = x mod PIPE_BUF.
Proof. unfold u32, PIPE_BUF. change 4096 with (2 ^ 12). apply mod_mod_pow2. lia. Qed.

Lemma u32_add_mod_buf x k : (u32 x + k) mod PIPE_BUF = (x + k) mod PIPE_BUF.
Proof. by rewrite <- Zplus_mod_idemp_l, u32_mod_buf, Zplus_mod_idemp_l. Qed.

Lemma pslot_range p k : 0 <= pslot p k < 4096.
Proof. apply Z.mod_pos_bound. done. Qed.

Lemma new_pipe_ok : pipe_ok new_pipe /\ pcontents new_pipe = [].
Proof. split; [split; (by rewrite length_replicate) || done|done]. Qed.

Lemma pcontents_length p : pipe_ok p -> length (pcontents p) = Z.to_nat (count p).
Proof. intros [_ H _ _]. unfold pcontents. by rewrite length_fmap, length_seqZ. Qed.

(** Taking a byte: the front of the queue. *)
Lemma read_section_spec p :
  pipe_ok p ->
  if count p =? 0
  then read_section p = Ok (if write_open p =? 0 then Ended else Blocked, p) /\ pcontents p = []
  else exists c p', read_section p = Ok (Took c, p') /\ pcontents p = c :: pcontents p' /\
         pipe_ok p' /\ read_open p' = read_open p /\ write_open p' = write_open p.
Proof.
  intros [Hlen Hc Hr Hw]. unfold read_section. destruct (Z.eqb_spec (count p) 0) as [E|E].
  { split; [done|]. unfold pcontents. by rewrite E. }
  pose proof (pslot_range p 0) as Hs. unfold pslot in Hs. rewrite Z.add_0_r in Hs.
  destruct (lookup_lt_is_Some_2 (pbuf p) (Z.to_nat (read_pos p mod PIPE_BUF))) as [c Hcl]; [unfold PIPE_BUF in *; lia|].
  rewrite Hcl. exists c. eexists. split; [done|]. rewrite (u32_small (count p - 1)) by (unfold PIPE_BUF in *; lia).
  split_and!; [|split; cbn; [done|unfold PIPE_BUF in *; lia|apply u32_range|]|done|done].
  - unfold pcontents at 1. rewrite seqZ_cons by lia. cbn [fmap list_fmap]. f_equal.
    + unfold pslot. rewrite Z.add_0_r. by apply list_lookup_total_correct.
    + unfold pcontents. cbn [count]. replace (Z.pred (count p)) with (count p - 1) by lia.
      replace (seqZ (Z.succ 0) (count p - 1)) with (Z.add 1 <$> seqZ 0 (count p - 1))
        by (by rewrite fmap_add_seqZ).
      rewrite <- list_fmap_compose. apply list_fmap_ext. intros i k _. cbn [compose pbuf].
      do 2 f_equal. unfold pslot. cbn [read_pos]. rewrite u32_add_mod_buf. f_equal. lia.
  - rewrite Hw. unfold u32. rewrite !Zplus_mod_idemp_l. f_equal. lia.
Qed.

(** Storing a byte: the back of the queue. *)
Lemma write_section_spec c p :
  pipe_ok p ->
  if count p =? PIPE_BUF
  then write_section c p = Ok (if read_open p =? 0 then Ended else Blocked, p)
  else exists p', write_section c p = Ok (Stored, p') /\ pcontents p' = pcontents p ++ [u8 c] /\
         pipe_ok p' /\ read_open p' = read_open p /\ write_open p' = write_open p.
Proof.
  intros [Hlen Hc Hr Hw]. unfold write_section. destruct (Z.eqb_spec (count p) PIPE_BUF) as [E|E]; [done|].
  assert (write_pos p mod PIPE_BUF = pslot p (count p)) as Hs by (rewrite Hw; apply u32_mod_buf).
  rewrite Hs. pose proof (pslot_range p (count p)).
  destruct (lookup_lt_is_Some_2 (pbuf p) (Z.to_nat (pslot p (count p)))) as [d Hd]; [lia|].
  rewrite Hd. eexists. split; [done|]. unfold PIPE_BUF in *.
  rewrite (u32_small (count p + 1)) by lia.
  split_and!; [|split; cbn; [by rewrite length_insert|unfold PIPE_BUF; lia|done|]|done|done].
  - unfold pcontents. cbn [count pbuf]. rewrite seqZ_app, fmap_app by lia. f_equal.
    + apply list_fmap_ext. intros i k Hk. apply lookup_seqZ in Hk as [-> Hi]. cbn [pbuf].
      rewrite list_lookup_total_insert_ne; [done|]. unfold pslot, PIPE_BUF. cbn [read_pos].
      pose proof (Z.mod_pos_bound (read_pos p + count p) 4096 ltac:(lia)).
      pose proof (Z.mod_pos_bound (read_pos p + (0 + Z.of_nat i)) 4096 ltac:(lia)).
      pose proof (Z_div_mod_eq_full (read_pos p + count p) 4096).
      pose proof (Z_div_mod_eq_full (read_pos p + (0 + Z.of_nat i)) 4096). lia.
    + rewrite Z.add_0_l. change (seqZ (count p) 1) with [count p]. cbn [fmap list_fmap]. f_equal.
      unfold pslot. cbn [read_pos]. apply list_lookup_total_insert_eq. rewrite Hlen.
      unfold pslot in *. lia.
  - rewrite Hw. unfold u32. rewrite !Zplus_mod_idemp_l. f_equal. lia.
Qed.

Lemma pipe_close_spec ino p :
  pipe_ok p -> exists dead p', pipe_close ino p = Ok (dead, p') /\ pipe_ok p' /\ pcontents p' = pcontents p.
Proof.
  intros [Hlen Hc Hr Hw]. unfold pipe_close. destruct (ino =? PIPE_WRITE_END);
    eexists _, _; (split; [done|]); split; done.
Qed.

(** ** Every interleaving *)

Record psys_ok (s : psys) : Prop := {
  psys_pipe : pipe_ok (the_pipe s);
  psys_fifo : stored s = taken s ++ pcontents (the_pipe s)
}.

(** What one section does to the queue and the two logs. *)
Lemma call_section_spec k p k' o p' :
  pipe_ok p -> call_section k p = Ok ((k', o), p') ->
  pipe_ok p' /\ pcontents p ++ log_stored k o = log_taken o ++ pcontents p' /\
  (forall r dst, k' = Returned r dst -> k <> k' ->
     match k with
     | Reading len dst0 => dst = dst0 /\ (Z.of_nat (length dst0) < len -> pcontents p = [] /\ write_open p = 0)
     | Writing src i => r = -1 /\ read_open p = 0 /\ count p = PIPE_BUF \/
                        r = i64 (Z.of_nat (length src)) /\ (length src <= i)%nat
     | Returned _ _ => True
     end).
Proof.
  intros Hp. destruct k as [len dst|src i|r dst]; cbn [call_section].
  - destruct (Z.ltb_spec (Z.of_nat (length dst)) len) as [Hlt|Hge].
    + unfold mbind, M_bind. pose proof (read_section_spec p Hp) as H.
      destruct (Z.eqb_spec (count p) 0) as [E|E].
      * destruct H as [-> Hnil]. destruct (Z.eqb_spec (write_open p) 0); intros [= <- <- <-]; cbn;
          rewrite ?Hnil; (split_and!; [done|done|]).
        -- intros r d [= <- <-] _. done.
        -- intros r d [=].
      * destruct H as (c & p1 & -> & Hcon & Hp1 & _). intros [= <- <- <-]. cbn.
        rewrite app_nil_r. split_and!; [done|done|]. intros r d [=].
    + intros [= <- <- <-]. cbn. rewrite app_nil_r. split_and!; [done|done|].
      intros r d [= <- <-] _. split; [done|lia].
  - destruct (src !! i) as [c|] eqn:Ei.
    + unfold mbind, M_bind. pose proof (write_section_spec c p Hp) as H.
      destruct (Z.eqb_spec (count p) PIPE_BUF) as [E|E].
      * rewrite H. destruct (Z.eqb_spec (read_open p) 0); intros [= <- <- <-]; cbn;
          rewrite app_nil_r; (split_and!; [done|done|]).
        -- intros r d [= <- <-] _. left. done.
        -- intros r d [=].
      * destruct H as (p1 & -> & Hcon & Hp1 & _). intros [= <- <- <-]. cbn. rewrite Ei.
        split_and!; [done|done|]. intros r d [=].
    + intros [= <- <- <-]. cbn. rewrite app_nil_r. split_and!; [done|done|].
      intros r d [= <- <-] _. right. split; [done|]. by apply lookup_ge_None.
  - intros [= <- <- <-]. cbn. rewrite app_nil_r. split_and!; [done|done|]. done.
Qed.

Lemma pipe_step_ok s s' : psys_ok s -> pipe_step s s' -> psys_ok s'.
Proof.
  intros [Hp Hf] Hstep. destruct Hstep as [s pid k _ _|s pid k k' o p' _ Hk|s ino dead p' Hc].
  - by split.
  - destruct (call_section_spec k _ k' o p' Hp Hk) as (Hp' & Hlog & _). split; [done|]. cbn.
    by rewrite Hf, <- !app_assoc, Hlog.
  - destruct (pipe_close_spec ino (the_pipe s) Hp) as (d & p1 & E & Hp1 & Hcon).
    rewrite Hc in E. injection E as <- <-. split; [done|]. cbn. by rewrite Hcon.
Qed.

(** ** Properties *)

(** C25: first in, first out, through any interleaving of any number of reading
    and writing calls and closes: the bytes taken so far followed by the bytes
    in the buffer are exactly the bytes stored so far, in order; the buffer
    never holds more than [PIPE_BUF], also after the 32-bit positions wrap, and
    no access leaves it. *)
Theorem pipe_fifo s :
  rtc pipe_step (Psys new_pipe ∅ [] []) s ->
  stored s = taken s ++ pcontents (the_pipe s) /\ (length (pcontents (the_pipe s)) <= 4096)%nat /\
  forall pid k, calls s !! pid = Some k -> exists k' o p', call_section k (the_pipe s) = Ok ((k', o), p').
Proof.
  intros Hr. assert (psys_ok s) as [Hp Hf].
  { assert (psys_ok (Psys new_pipe ∅ [] [])) as H0 by (split; [apply new_pipe_ok|done]).
    revert H0. induction Hr as [s|s1 s2 s3 H12 _ IH]; [done|]. intros H1. apply IH. by eapply pipe_step_ok. }
  split_and!; [done| |].
  - rewrite pcontents_length by done. pose proof (pipe_count _ Hp). unfold PIPE_BUF in *. lia.
  - intros pid [len dst|src i|r dst] _; cbn [call_section]; [| |by eauto].
    + destruct (_ <? _); [|by eauto]. unfold mbind, M_bind. pose proof (read_section_spec _ Hp) as H.
      destruct (_ =? 0); [destruct H as [-> _]; destruct (_ =? 0); by eauto|].
      destruct H as (c & p1 & -> & _). by eauto.
    + destruct (src !! i) as [c|]; [|by eauto]. unfold mbind, M_bind.
      pose proof (write_section_spec c _ Hp) as H.
      destruct (_ =? PIPE_BUF); [rewrite H; destruct (_ =? 0); by eauto|].
      destruct H as (p1 & -> & _). by eauto.
Qed.


Definition demo_closed_pipe : pipe := Pipe (replicate 4096 0) 0 0 0 1 0.


(** A writer of two bytes meets a reader. *)
Lemma pipe_fifo_witness :
  exists s, rtc pipe_step (Psys new_pipe ∅ [] []) s /\ stored s = [65] /\
    stored s = taken s ++ pcontents (the_pipe s) /\ (length (pcontents (the_pipe s)) <= 4096)%nat /\
    forall pid k, calls s !! pid = Some k -> exists k' o p', call_section k (the_pipe s) = Ok ((k', o), p').
Proof.
  destruct (write_section_spec 65 new_pipe (proj1 new_pipe_ok)) as (p1 & Hw & _).
  set (s1 := Psys new_pipe (<[1 := Writing [65] 0]> ∅) [] []).
  set (s2 := Psys p1 (<[1 := Writing [65] 1]> (calls s1)) [65] []).
  assert (rtc pipe_step (Psys new_pipe ∅ [] []) s2) as Hr.
  { apply rtc_r with s1.
    - apply rtc_once. apply (step_start (Psys new_pipe ∅ [] []) 1 (Writing [65] 0)); [by left|right; by exists [65]].
    - apply (step_section s1 1 (Writing [65] 0) (Writing [65] 1) Stored p1); [by apply lookup_insert_eq|].
      cbn. unfold mbind, M_bind. by rewrite Hw. }
  exists s2. split; [exact Hr|]. split; [done|]. exact (pipe_fifo s2 Hr).
Defined.
