(* ===== verification/Vfs.v ===== *)
(** * The virtual file system (src/src/kernel/vfs.c, vfs.h)

    Inodes, dentries, superblocks, mounts and open files are objects in typed
    stores keyed by the address [kalloc] gave them; freeing one removes it, so
    a later access is a [Fault].  A [const char *] walking a path is the list
    of bytes left before the terminator.  The operation tables of the file
    systems are looked up by address through [VfsOps]. *)
From S2P Require Import Prelude KMem Spinlock BuddySpec Buddy PageAlloc KString.

#[local] Open Scope Z_scope.

(** ** Constants *)

Definition VFS_OK : Z := 0.
Definition VFS_EINVAL : Z := -22.
Definition VFS_ENOENT : Z := -2.
Definition VFS_ENOTDIR : Z := -20.
Definition VFS_EEXIST : Z := -17.
Definition VFS_ENOSYS : Z := -38.
Definition VFS_ENOMEM : Z := -12.
Definition VFS_EBUSY : Z := -16.

(** Octal 0170000, 0100000, 0040000, 0020000. *)
Definition VFS_S_IFMT : Z := 61440.
Definition VFS_S_IFREG : Z := 32768.
Definition VFS_S_IFDIR : Z := 16384.
Definition VFS_S_IFCHR : Z := 8192.
Definition VFS_S_IFBLK : Z := 24576.
Definition VFS_S_IFLNK : Z := 40960.
Definition VFS_S_IFIFO : Z := 4096.
Definition VFS_S_IFSOCK : Z := 49152.

Definition VFS_O_CREAT : Z := 256.

Definition VFS_SEEK_SET : Z := 0.
Definition VFS_SEEK_CUR : Z := 1.
Definition VFS_SEEK_END : Z := 2.

(** ['/'] *)
Definition SLASH : Z := 47.

(** ** Objects *)

Record vfs_inode := Inode {
  i_ino : Z; i_mode : Z; i_refcnt : Z; i_sb : Z; i_iops : Z; i_fops : Z; i_priv : Z
}.

(** [d_name] is the [name_len] bytes of [name]. *)
Record vfs_dentry := Dentry {
  d_refcnt : Z; d_name : list Z; d_inode : Z; d_parent : Z; d_is_mountpoint : Z; d_priv : Z
}.

Record vfs_superblock := Super {
  sb_flags : Z; sb_refcnt : Z; sb_type : Z; sb_root : Z; sb_priv : Z
}.

Record vfs_mount := Mount {
  m_flags : Z; m_refcnt : Z; m_sb : Z; m_mountpoint : Z; m_root : Z; m_next : Z
}.

Record vfs_file := File {
  f_refcnt : Z; f_flags : Z; f_pos : Z; f_inode : Z; f_fops : Z; f_priv : Z
}.

(** [ft_name = None] is the null pointer. *)
Record vfs_fs_type := Fs_type { ft_name : option (list Z); ft_next : Z }.

Record vfs_stat := Stat {
  st_ino : Z; st_mode : Z; st_nlink : Z; st_uid : Z; st_gid : Z; st_size : Z;
  st_blocks : Z; st_atime : Z; st_mtime : Z; st_ctime : Z
}.

(** A directory entry as [readdir] hands it out. *)
Record vfs_dirent := Vfs_dirent { dt_ino : Z; dt_reclen : Z; dt_type : Z; dt_name : list Z }.
(** [sizeof(struct vfs_dirent)] *)
Definition vfs_dirent_bytes : Z := 272.

(** Kernel memory and allocator, the stores, the four globals of vfs.c, and
    the file systems' own static state. *)
Record vst (FS : Type) := Vst {
  v_k : kst;
  v_inodes : gmap Z vfs_inode;
  v_dentries : gmap Z vfs_dentry;
  v_supers : gmap Z vfs_superblock;
  v_mounts : gmap Z vfs_mount;
  v_files : gmap Z vfs_file;
  v_types : gmap Z vfs_fs_type;
  g_fs_types : Z;
  g_mounts : Z;
  g_root_mnt : Z;
  g_root_dent : Z;
  v_fs : FS
}.
Arguments Vst {FS}. Arguments v_k {FS}. Arguments v_inodes {FS}. Arguments v_dentries {FS}.
Arguments v_supers {FS}. Arguments v_mounts {FS}. Arguments v_files {FS}. Arguments v_types {FS}.
Arguments g_fs_types {FS}. Arguments g_mounts {FS}. Arguments g_root_mnt {FS}.
Arguments g_root_dent {FS}. Arguments v_fs {FS}.

(** The tables behind [iops], [fops] and [struct vfs_fs_type]: a null function
    pointer is [None]. *)
Record vfs_inode_ops (FS : Type) := Iops {
  lookup_op : option (Z -> Z -> M (vst FS) Z);
  create_op : option (Z -> Z -> Z -> M (vst FS) Z);
  mkdir_op : option (Z -> Z -> Z -> M (vst FS) Z);
  unlink_op : option (Z -> Z -> M (vst FS) Z);
  getattr_op : option (Z -> vfs_stat -> M (vst FS) (Z * vfs_stat))
}.
Arguments Iops {FS}. Arguments lookup_op {FS}. Arguments create_op {FS}. Arguments mkdir_op {FS}.
Arguments unlink_op {FS}. Arguments getattr_op {FS}.

(** [read] and [write] are given the file, the buffer and the count; they reach
    the position through the file. *)
Record vfs_file_ops (FS : Type) := Fops {
  open_op : option (Z -> Z -> M (vst FS) Z);
  close_op : option (Z -> M (vst FS) Z);
  read_op : option (Z -> Z -> Z -> M (vst FS) Z);
  write_op : option (Z -> Z -> Z -> M (vst FS) Z);
  llseek_op : option (Z -> Z -> Z -> M (vst FS) Z)
}.
Arguments Fops {FS}. Arguments open_op {FS}. Arguments close_op {FS}. Arguments read_op {FS}.
Arguments write_op {FS}. Arguments llseek_op {FS}.

Record vfs_type_ops (FS : Type) := Tops {
  mount_op : option (Z -> Z -> Z -> M (vst FS) Z);
  unmount_op : option (Z -> M (vst FS) unit)
}.
Arguments Tops {FS}. Arguments mount_op {FS}. Arguments unmount_op {FS}.

Class VfsOps (FS : Type) := {
  iops_at : Z -> vfs_inode_ops FS;
  fops_at : Z -> vfs_file_ops FS;
  tops_at : Z -> vfs_type_ops FS
}.

(** ** Paths *)

(** [while ( *s == '/') s++;] *)
Fixpoint skip_slashes (s : list Z) : list Z :=
  match s with
  | c :: s' => if c =? SLASH then skip_slashes s' else s
  | [] => []
  end.

(** The bytes up to the next slash, and what follows them. *)
Fixpoint take_component (s : list Z) : list Z * list Z :=
  match s with
  | c :: s' => if c =? SLASH then ([], s)
               else let '(comp, rest) := take_component s' in (c :: comp, rest)
  | [] => ([], [])
  end.

(** [vfs_next_component]: the component (empty at the end) and the new [*p]. *)
Definition vfs_next_component (p : list Z) : list Z * list Z :=
  let s := skip_slashes p in
  match s with
  | [] => ([], s)
  | _ => let '(comp, rest) := take_component s in (comp, skip_slashes rest)
  end.

Fixpoint bytes_eqb (s lit : list Z) : bool :=
  match s, lit with
  | c :: s', d :: lit' => if c =? d then bytes_eqb s' lit' else false
  | _, _ => true
  end.

Definition vfs_comp_eq (s lit : list Z) : bool :=
  if negb (Nat.eqb (length lit) (length s)) then false else bytes_eqb s lit.

Definition DOT : list Z := [46].
Definition DOTDOT : list Z := [46; 46].

(** ** Store accesses *)

Section Stores.
Context {FS : Type}.

Definition set_vk (k : kst) (s : vst FS) : vst FS :=
  Vst k (v_inodes s) (v_dentries s) (v_supers s) (v_mounts s) (v_files s) (v_types s)
      (g_fs_types s) (g_mounts s) (g_root_mnt s) (g_root_dent s) (v_fs s).
Definition set_inodes (x : gmap Z vfs_inode) (s : vst FS) : vst FS :=
  Vst (v_k s) x (v_dentries s) (v_supers s) (v_mounts s) (v_files s) (v_types s)
      (g_fs_types s) (g_mounts s) (g_root_mnt s) (g_root_dent s) (v_fs s).
Definition set_dentries (x : gmap Z vfs_dentry) (s : vst FS) : vst FS :=
  Vst (v_k s) (v_inodes s) x (v_supers s) (v_mounts s) (v_files s) (v_types s)
      (g_fs_types s) (g_mounts s) (g_root_mnt s) (g_root_dent s) (v_fs s).
Definition set_supers (x : gmap Z vfs_superblock) (s : vst FS) : vst FS :=
  Vst (v_k s) (v_inodes s) (v_dentries s) x (v_mounts s) (v_files s) (v_types s)
      (g_fs_types s) (g_mounts s) (g_root_mnt s) (g_root_dent s) (v_fs s).
Definition set_mounts (x : gmap Z vfs_mount) (s : vst FS) : vst FS :=
  Vst (v_k s) (v_inodes s) (v_dentries s) (v_supers s) x (v_files s) (v_types s)
      (g_fs_types s) (g_mounts s) (g_root_mnt s) (g_root_dent s) (v_fs s).
Definition set_files (x : gmap Z vfs_file) (s : vst FS) : vst FS :=
  Vst (v_k s) (v_inodes s) (v_dentries s) (v_supers s) (v_mounts s) x (v_types s)
      (g_fs_types s) (g_mounts s) (g_root_mnt s) (g_root_dent s) (v_fs s).
Definition set_types (x : gmap Z vfs_fs_type) (s : vst FS) : vst FS :=
  Vst (v_k s) (v_inodes s) (v_dentries s) (v_supers s) (v_mounts s) (v_files s) x
      (g_fs_types s) (g_mounts s) (g_root_mnt s) (g_root_dent s) (v_fs s).
Definition set_globals (ft ms rm rd : Z) (s : vst FS) : vst FS :=
  Vst (v_k s) (v_inodes s) (v_dentries s) (v_supers s) (v_mounts s) (v_files s) (v_types s)
      ft ms rm rd (v_fs s).
Definition set_fs (x : FS) (s : vst FS) : vst FS :=
  Vst (v_k s) (v_inodes s) (v_dentries s) (v_supers s) (v_mounts s) (v_files s) (v_types s)
      (g_fs_types s) (g_mounts s) (g_root_mnt s) (g_root_dent s) x.

(** Dereferences: a null, freed or unknown pointer faults. *)
Definition load {A} (store : vst FS -> gmap Z A) (p : Z) : M (vst FS) A := fun s =>
  match store s !! p with Some x => Ok (x, s) | None => Stuck Fault end.
Definition update {A} (store : vst FS -> gmap Z A) (set : gmap Z A -> vst FS -> vst FS)
    (p : Z) (f : A -> A) : M (vst FS) unit := fun s =>
  match store s !! p with
  | Some x => Ok (tt, set (<[p := f x]> (store s)) s)
  | None => Stuck Fault
  end.
Definition create {A} (store : vst FS -> gmap Z A) (set : gmap Z A -> vst FS -> vst FS)
    (p : Z) (x : A) : M (vst FS) unit := mmodify (fun s => set (<[p := x]> (store s)) s).
Definition destroy {A} (store : vst FS -> gmap Z A) (set : gmap Z A -> vst FS -> vst FS)
    (p : Z) : M (vst FS) unit := mmodify (fun s => set (delete p (store s)) s).

Definition upd_inode := update v_inodes set_inodes.
Definition upd_dentry := update v_dentries set_dentries.
Definition upd_mount := update v_mounts set_mounts.
Definition upd_file := update v_files set_files.
Definition upd_type := update v_types set_types.
Definition upd_super := update v_supers set_supers.

Definition set_i_refcnt (n : Z) (i : vfs_inode) : vfs_inode :=
  Inode (i_ino i) (i_mode i) n (i_sb i) (i_iops i) (i_fops i) (i_priv i).
Definition set_d_refcnt (n : Z) (d : vfs_dentry) : vfs_dentry :=
  Dentry n (d_name d) (d_inode d) (d_parent d) (d_is_mountpoint d) (d_priv d).
Definition set_d_inode (i : Z) (d : vfs_dentry) : vfs_dentry :=
  Dentry (d_refcnt d) (d_name d) i (d_parent d) (d_is_mountpoint d) (d_priv d).
Definition set_d_mountpoint (b : Z) (d : vfs_dentry) : vfs_dentry :=
  Dentry (d_refcnt d) (d_name d) (d_inode d) (d_parent d) b (d_priv d).
Definition set_f_refcnt (n : Z) (f : vfs_file) : vfs_file :=
  File n (f_flags f) (f_pos f) (f_inode f) (f_fops f) (f_priv f).
Definition set_f_pos (n : Z) (f : vfs_file) : vfs_file :=
  File (f_refcnt f) (f_flags f) n (f_inode f) (f_fops f) (f_priv f).
Definition set_ft_next (n : Z) (t : vfs_fs_type) : vfs_fs_type := Fs_type (ft_name t) n.
Definition set_m_next (n : Z) (m : vfs_mount) : vfs_mount :=
  Mount (m_flags m) (m_refcnt m) (m_sb m) (m_mountpoint m) (m_root m) n.
Definition set_m_mountpoint (p : Z) (m : vfs_mount) : vfs_mount :=
  Mount (m_flags m) (m_refcnt m) (m_sb m) p (m_root m) (m_next m).
Definition set_sb_root (p : Z) (x : vfs_superblock) : vfs_superblock :=
  Super (sb_flags x) (sb_refcnt x) (sb_type x) p (sb_priv x).
End Stores.

(** ** The operations *)

Section Ops.
Context {FS : Type} `{PA : PageAllocator} `{VO : VfsOps FS}.
#[local] Abbreviation V := (M (vst FS)).

Definition v_kalloc (n : Z) : V Z := mzoom v_k set_vk (pa_alloc n).
Definition v_kfree (p n : Z) : V unit := mzoom v_k set_vk (pa_free p n).

Definition vfs_inode_get (ino : Z) : V unit :=
  if ino =? 0 then mret tt
  else upd_inode ino (fun i => set_i_refcnt (u32 (i_refcnt i + 1)) i).
Definition vfs_inode_put (ino : Z) : V unit :=
  if ino =? 0 then mret tt
  else upd_inode ino (fun i => set_i_refcnt (u32 (i_refcnt i - 1)) i).

Definition vfs_dentry_get (d : Z) : V unit :=
  if d =? 0 then mret tt
  else upd_dentry d (fun x => set_d_refcnt (u32 (d_refcnt x + 1)) x).
Definition vfs_dentry_put (d : Z) : V unit :=
  if d =? 0 then mret tt
  else
    upd_dentry d (fun x => set_d_refcnt (u32 (d_refcnt x - 1)) x);;
    x ← load v_dentries d;
    if (d_refcnt x =? 0) && (d_parent x =? 0) then
      (if negb (d_inode x =? 0) then vfs_inode_put (d_inode x) else mret tt);;
      v_kfree d 1;;
      destroy v_dentries set_dentries d
    else mret tt.

Definition vfs_file_get (f : Z) : V unit :=
  if f =? 0 then mret tt
  else upd_file f (fun x => set_f_refcnt (u32 (f_refcnt x + 1)) x).
Definition vfs_file_put (f : Z) : V unit :=
  if f =? 0 then mret tt
  else
    upd_file f (fun x => set_f_refcnt (u32 (f_refcnt x - 1)) x);;
    x ← load v_files f;
    if f_refcnt x =? 0 then
      (if negb (f_inode x =? 0) then vfs_inode_put (f_inode x) else mret tt);;
      v_kfree f 1;;
      destroy v_files set_files f
    else mret tt.

Definition vfs_init : V unit := mmodify (set_globals 0 0 0 0).

Definition vfs_set_root (mnt root : Z) : V Z :=
  if (mnt =? 0) || (root =? 0) then mret VFS_EINVAL
  else mmodify (fun s => set_globals (g_fs_types s) (g_mounts s) mnt root s);; mret VFS_OK.

(** *** File system registry *)

(** [it->name && name && kstrcmp(it->name, name) == 0] *)
Definition name_matches (t : vfs_fs_type) (name : option (list Z)) : bool :=
  match ft_name t, name with
  | Some a, Some b => str_diff a b =? 0
  | _, _ => false
  end.

Definition vfs_find_fs (name : option (list Z)) : V Z :=
  it ← mgets g_fs_types;
  mloop (fun it =>
    if it =? 0 then mret (inr 0)
    else
      t ← load v_types it;
      if name_matches t name then mret (inr it) else mret (inl (ft_next t))) it.

Definition vfs_register_fs (type : Z) : V Z :=
  if type =? 0 then mret VFS_EINVAL
  else
    t ← load v_types type;
    if bool_decide (ft_name t = None) || (if mount_op (tops_at type) is None then true else false)
    then mret VFS_EINVAL
    else
      found ← vfs_find_fs (ft_name t);
      if negb (found =? 0) then mret VFS_EEXIST
      else
        h ← mgets g_fs_types;
        upd_type type (set_ft_next h);;
        mmodify (fun s => set_globals type (g_mounts s) (g_root_mnt s) (g_root_dent s) s);;
        mret VFS_OK.

(** A [struct vfs_fs_type **]: the list head or a [next] field. *)
Inductive type_link := Types_head | Type_next (t : Z).
Definition type_link_load (pp : type_link) : V Z :=
  match pp with
  | Types_head => mgets g_fs_types
  | Type_next t => x ← load v_types t; mret (ft_next x)
  end.
Definition type_link_store (pp : type_link) (p : Z) : V unit :=
  match pp with
  | Types_head => mmodify (fun s => set_globals p (g_mounts s) (g_root_mnt s) (g_root_dent s) s)
  | Type_next t => upd_type t (set_ft_next p)
  end.

Definition vfs_unregister_fs (type : Z) : V Z :=
  if type =? 0 then mret VFS_EINVAL
  else
    m ← mgets g_mounts;
    busy ← mloop (fun m =>
      if m =? 0 then mret (inr false)
      else
        x ← load v_mounts m;
        b ← (if m_sb x =? 0 then mret false
             else sb ← load v_supers (m_sb x); mret (sb_type sb =? type));
        if b : bool then mret (inr true) else mret (inl (m_next x))) m;
    if busy : bool then mret VFS_EBUSY
    else
      mloop (fun pp =>
        p ← type_link_load pp;
        if p =? 0 then mret (inr VFS_ENOENT)
        else if p =? type then
          t ← load v_types type;
          type_link_store pp (ft_next t);;
          upd_type type (set_ft_next 0);;
          mret (inr VFS_OK)
        else mret (inl (Type_next p))) Types_head.

(** *** Helpers *)

Definition is_dir_mode (mode : Z) : bool := Z.land mode VFS_S_IFMT =? VFS_S_IFDIR.

Definition vfs_is_dir (ino : Z) : V bool :=
  if ino =? 0 then mret false
  else i ← load v_inodes ino; mret (is_dir_mode (i_mode i)).

Definition vfs_find_mount_by_mountpoint (mp : Z) : V Z :=
  m ← mgets g_mounts;
  mloop (fun m =>
    if m =? 0 then mret (inr 0)
    else
      x ← load v_mounts m;
      if m_mountpoint x =? mp then mret (inr m) else mret (inl (m_next x))) m.

Definition vfs_find_mount_by_inode (ino : Z) : V Z :=
  if ino =? 0 then mret 0
  else
    m ← mgets g_mounts;
    mloop (fun m =>
      if m =? 0 then mret (inr 0)
      else
        x ← load v_mounts m;
        hit ← (if m_mountpoint x =? 0 then mret false
               else
                 d ← load v_dentries (m_mountpoint x);
                 if d_inode d =? 0 then mret false
                 else
                   a ← load v_inodes (d_inode d);
                   b ← load v_inodes ino;
                   mret ((i_ino a =? i_ino b) && (i_sb a =? i_sb b)));
        if hit : bool then mret (inr m) else mret (inl (m_next x))) m.

Definition vfs_tmp_dentry (name : list Z) (parent : Z) : V Z :=
  if 256 <=? Z.of_nat (length name) then mret 0
  else
    d ← v_kalloc 1;
    if d =? 0 then mret 0
    else
      create v_dentries set_dentries d (Dentry 1 name 0 parent 0 0);;
      mret d.

(** The answer, and [*mnt], [*dir_dent] and [*out_child] after the call. *)
Definition vfs_lookup_child (mnt dir_dent : Z) (name : list Z) : V (Z * (Z * Z * Z)) :=
  dir ← load v_dentries dir_dent;
  let dir_ino := d_inode dir in
  isdir ← vfs_is_dir dir_ino;
  if (dir_ino =? 0) || negb isdir then mret (VFS_ENOTDIR, (mnt, dir_dent, 0))
  else
    i ← load v_inodes dir_ino;
    if i_iops i =? 0 then mret (VFS_ENOSYS, (mnt, dir_dent, 0))
    else
      match lookup_op (iops_at (i_iops i)) with
      | None => mret (VFS_ENOSYS, (mnt, dir_dent, 0))
      | Some op =>
          child ← vfs_tmp_dentry name dir_dent;
          if child =? 0 then mret (VFS_ENOMEM, (mnt, dir_dent, 0))
          else
            rc ← op dir_ino child;
            if rc <? 0 then vfs_dentry_put child;; mret (rc, (mnt, dir_dent, 0))
            else
              c ← load v_dentries child;
              if d_inode c =? 0 then vfs_dentry_put child;; mret (VFS_ENOENT, (mnt, dir_dent, 0))
              else
                sub ← vfs_find_mount_by_inode (d_inode c);
                root ← (if sub =? 0 then mret 0 else x ← load v_mounts sub; mret (m_root x));
                if negb (sub =? 0) && negb (root =? 0) then
                  vfs_dentry_put child;;
                  mret (VFS_OK, (sub, root, root))
                else mret (VFS_OK, (mnt, dir_dent, child))
      end.

(** Where resolution starts: the root, or what is mounted over it. *)
Definition start_point : V (Z * Z) :=
  mnt ← mgets g_root_mnt;
  cur ← mgets g_root_dent;
  d ← load v_dentries cur;
  if d_is_mountpoint d =? 0 then mret (mnt, cur)
  else
    overlay ← vfs_find_mount_by_mountpoint cur;
    if overlay =? 0 then mret (mnt, cur)
    else x ← load v_mounts overlay; mret (overlay, m_root x).

(** [..] from [cur]. *)
Definition step_up (mnt cur : Z) : V Z :=
  m ← load v_mounts mnt;
  if (cur =? m_root m) && negb (m_mountpoint m =? 0) then mret (m_mountpoint m)
  else
    d ← load v_dentries cur;
    if d_parent d =? 0 then mret cur else mret (d_parent d).

(** Drop the dentry just left, unless it is a root. *)
Definition put_left (mnt cur : Z) : V unit :=
  rd ← mgets g_root_dent;
  if cur =? rd then mret tt
  else
    m ← load v_mounts mnt;
    if cur =? m_root m then mret tt else vfs_dentry_put cur.

(** One component of a walk: the answer, and the next [mnt] and [cur]. *)
Definition walk_component (mnt cur : Z) (comp : list Z) : V (Z * (Z * Z)) :=
  if vfs_comp_eq comp DOT then mret (VFS_OK, (mnt, cur))
  else if vfs_comp_eq comp DOTDOT then cur ← step_up mnt cur; mret (VFS_OK, (mnt, cur))
  else
    r ← vfs_lookup_child mnt cur comp;
    let '(rc, (mnt, cur, child)) := r in
    if rc <? 0 then mret (rc, (mnt, cur))
    else put_left mnt cur;; mret (VFS_OK, (mnt, child)).

(** One round of the [while (1)] loops of [vfs_lookup] and [vfs_lookup_parent]. *)
Definition lookup_body : Z * Z * list Z -> V ((Z * Z * list Z) + (Z * (Z * Z))) :=
  fun st =>
  let '(mnt, cur, p) := st in
  let '(comp, p) := vfs_next_component p in
  match comp with
  | [] => mret (inr (VFS_OK, (mnt, cur)))
  | _ =>
      r ← walk_component mnt cur comp;
      if r.1 <? 0 then mret (inr (r.1, (0, 0))) else mret (inl (r.2, p))
  end.

Definition lookup_parent_body :
    Z * Z * list Z -> V ((Z * Z * list Z) + (Z * (Z * Z * list Z))) :=
  fun st =>
  let '(mnt, cur, p) := st in
  let '(comp, p) := vfs_next_component p in
  match comp with
  | [] => mret (inr (VFS_OK, (mnt, cur, [])))
  | _ =>
      match (vfs_next_component p).1 with
      | [] => mret (inr (VFS_OK, (mnt, cur, comp)))
      | _ =>
          r ← walk_component mnt cur comp;
          if r.1 <? 0 then mret (inr (r.1, (0, 0, []))) else mret (inl (r.2, p))
      end
  end.

(** The answer and, on success, [out->mnt] and [out->dentry]. *)
Definition vfs_lookup (path : option (list Z)) : V (Z * (Z * Z)) :=
  rm ← mgets g_root_mnt;
  rd ← mgets g_root_dent;
  match path with
  | None => mret (VFS_EINVAL, (0, 0))
  | Some path =>
      if (rm =? 0) || (rd =? 0) then mret (VFS_EINVAL, (0, 0))
      else
        st ← start_point;
        mloop lookup_body (st, skip_slashes path)
  end.

(** The answer, then [out_mnt], [out_parent] and the leaf. *)
Definition vfs_lookup_parent (path : option (list Z)) : V (Z * (Z * Z * list Z)) :=
  rm ← mgets g_root_mnt;
  rd ← mgets g_root_dent;
  match path with
  | None => mret (VFS_EINVAL, (0, 0, []))
  | Some path =>
      if (rm =? 0) || (rd =? 0) then mret (VFS_EINVAL, (0, 0, []))
      else
        st ← start_point;
        mloop lookup_parent_body (st, skip_slashes path)
  end.

(** *** Mounting *)

(** [target_path[0] == '/' && target_path[1] == '\0' && !g_root_mnt] *)
Definition is_root_path (path : list Z) : bool := bool_decide (path = [SLASH]).

(** Fail after the superblock exists: unmount it and give its page back. *)
Definition drop_super (type sb : Z) (unmount : bool) : V unit :=
  (if unmount then
     match unmount_op (tops_at type) with Some op => op sb | None => mret tt end
   else mret tt);;
  v_kfree sb 1;;
  destroy v_supers set_supers sb.

(** The mountpoint dentry, 0 for the initial root mount; an answer below zero
    is an error. *)
Definition mount_target (is_root_mount : bool) (path : list Z) : V (Z * Z) :=
  if is_root_mount then mret (VFS_OK, 0)
  else
    r ← vfs_lookup (Some path);
    let '(rc, (_, dentry)) := r in
    if rc <? 0 then mret (rc, 0)
    else if dentry =? 0 then mret (VFS_EINVAL, 0)
    else
      d ← load v_dentries dentry;
      if d_inode d =? 0 then mret (VFS_EINVAL, 0)
      else
        isdir ← vfs_is_dir (d_inode d);
        if negb isdir then mret (VFS_ENOTDIR, 0) else mret (VFS_OK, dentry).

Definition vfs_mount_fs (type_name : option (list Z)) (device : Z) (target_path : option (list Z))
    (mount_flags opts : Z) : V Z :=
  match type_name, target_path with
  | Some _, Some path =>
      type ← vfs_find_fs type_name;
      if type =? 0 then mret VFS_ENOENT
      else
        rm ← mgets g_root_mnt;
        let is_root_mount := is_root_path path && (rm =? 0) in
        t ← mount_target is_root_mount path;
        let '(rc, mp_dent) := t in
        if rc <? 0 then mret rc
        else
          sb ← v_kalloc 1;
          if sb =? 0 then mret VFS_ENOMEM
          else
            create v_supers set_supers sb (Super mount_flags 1 type 0 0);;
            match mount_op (tops_at type) with
            | None => mstuck Fault
            | Some op =>
                rc ← op sb device opts;
                if rc <? 0 then drop_super type sb false;; mret rc
                else
                  x ← load v_supers sb;
                  ok ← (if sb_root x =? 0 then mret false
                        else d ← load v_dentries (sb_root x); mret (negb (d_inode d =? 0)));
                  if negb ok then drop_super type sb true;; mret VFS_EINVAL
                  else
                    mnt ← v_kalloc 1;
                    if mnt =? 0 then drop_super type sb true;; mret VFS_ENOMEM
                    else
                      create v_mounts set_mounts mnt (Mount mount_flags 1 sb 0 (sb_root x) 0);;
                      (if is_root_mount then
                         mmodify (fun s => set_globals (g_fs_types s) (g_mounts s) mnt (sb_root x) s)
                       else
                         upd_mount mnt (set_m_mountpoint mp_dent);;
                         upd_dentry mp_dent (set_d_mountpoint 1));;
                      h ← mgets g_mounts;
                      upd_mount mnt (set_m_next h);;
                      mmodify (fun s => set_globals (g_fs_types s) mnt (g_root_mnt s) (g_root_dent s) s);;
                      mret VFS_OK
            end
  | _, _ => mret VFS_EINVAL
  end.

(** A [struct vfs_mount **]. *)
Inductive mount_link := Mounts_head | Mount_next (m : Z).
Definition mount_link_load (pp : mount_link) : V Z :=
  match pp with
  | Mounts_head => mgets g_mounts
  | Mount_next m => x ← load v_mounts m; mret (m_next x)
  end.
Definition mount_link_store (pp : mount_link) (p : Z) : V unit :=
  match pp with
  | Mounts_head => mmodify (fun s => set_globals (g_fs_types s) p (g_root_mnt s) (g_root_dent s) s)
  | Mount_next m => upd_mount m (set_m_next p)
  end.

Definition vfs_umount (target_path : option (list Z)) : V Z :=
  match target_path with
  | None => mret VFS_EINVAL
  | Some path =>
      r ← vfs_lookup (Some path);
      let '(rc, (_, dentry)) := r in
      if rc <? 0 then mret rc
      else
        mloop (fun pp =>
          p ← mount_link_load pp;
          if p =? 0 then mret (inr VFS_ENOENT)
          else
            x ← load v_mounts p;
            if m_mountpoint x =? dentry then
              if negb (m_refcnt x =? 1) then mret (inr VFS_EBUSY)
              else
                upd_dentry dentry (set_d_mountpoint 0);;
                mount_link_store pp (m_next x);;
                (if m_sb x =? 0 then mret tt
                 else
                   sb ← load v_supers (m_sb x);
                   (if sb_type sb =? 0 then mret tt
                    else match unmount_op (tops_at (sb_type sb)) with
                         | Some op => op (m_sb x)
                         | None => mret tt
                         end);;
                   v_kfree (m_sb x) 1;;
                   destroy v_supers set_supers (m_sb x));;
                v_kfree p 1;;
                destroy v_mounts set_mounts p;;
                mret (inr VFS_OK)
            else mret (inl (Mount_next p))) Mounts_head
  end.

(** *** Files *)

(** [if (p.dentry != g_root_dent && p.mnt && p.dentry != p.mnt->root)] *)
Definition put_found (mnt dentry : Z) : V unit :=
  rd ← mgets g_root_dent;
  if (dentry =? rd) || (mnt =? 0) then mret tt
  else
    m ← load v_mounts mnt;
    if dentry =? m_root m then mret tt else vfs_dentry_put dentry.

(** The parent of a path's leaf, checked to be a directory; an answer below
    zero is an error. *)
Definition leaf_parent (path : option (list Z)) : V (Z * (Z * Z * list Z)) :=
  r ← vfs_lookup_parent path;
  let '(rc, (_, pdir, leaf)) := r in
  if rc <? 0 then mret (rc, (0, 0, []))
  else if Nat.eqb (length leaf) 0 then mret (VFS_EINVAL, (0, 0, []))
  else
    d ← load v_dentries pdir;
    isdir ← vfs_is_dir (d_inode d);
    if (d_inode d =? 0) || negb isdir then mret (VFS_ENOTDIR, (0, 0, []))
    else
      i ← load v_inodes (d_inode d);
      if i_iops i =? 0 then mret (VFS_ENOSYS, (0, 0, []))
      else mret (VFS_OK, (pdir, d_inode d, leaf)).

(** The inode [vfs_open] opens, with a reference taken. *)
Definition open_create (path : option (list Z)) (mode : Z) : V (Z * Z) :=
  r ← leaf_parent path;
  let '(rc, (pdir, dir_ino, leaf)) := r in
  if rc <? 0 then mret (rc, 0)
  else
    i ← load v_inodes dir_ino;
    match create_op (iops_at (i_iops i)) with
    | None => mret (VFS_ENOSYS, 0)
    | Some op =>
        child ← vfs_tmp_dentry leaf pdir;
        if child =? 0 then mret (VFS_ENOMEM, 0)
        else
          rc ← op dir_ino child mode;
          if rc <? 0 then vfs_dentry_put child;; mret (rc, 0)
          else
            c ← load v_dentries child;
            if d_inode c =? 0 then vfs_dentry_put child;; mret (VFS_EINVAL, 0)
            else
              vfs_inode_get (d_inode c);;
              vfs_dentry_put child;;
              mret (VFS_OK, d_inode c)
    end.

Definition open_existing (path : option (list Z)) : V (Z * Z) :=
  r ← vfs_lookup path;
  let '(rc, (mnt, dentry)) := r in
  if rc <? 0 then mret (rc, 0)
  else if dentry =? 0 then mret (VFS_ENOENT, 0)
  else
    d ← load v_dentries dentry;
    if d_inode d =? 0 then mret (VFS_ENOENT, 0)
    else
      vfs_inode_get (d_inode d);;
      put_found mnt dentry;;
      mret (VFS_OK, d_inode d).

(** A file on an inode whose reference the caller gives away: the answer and
    [*out]. *)
Definition file_of_inode (flags ino : Z) : V (Z * Z) :=
  f ← v_kalloc 1;
  if f =? 0 then vfs_inode_put ino;; mret (VFS_ENOMEM, 0)
  else
    i ← load v_inodes ino;
    create v_files set_files f (File 1 flags 0 ino (i_fops i) 0);;
    match (if i_fops i =? 0 then None else open_op (fops_at (i_fops i))) with
    | None => mret (VFS_OK, f)
    | Some op =>
        rc ← op ino f;
        if rc <? 0 then vfs_file_put f;; mret (rc, 0) else mret (VFS_OK, f)
    end.

(** The answer and [*out]. *)
Definition vfs_open (path : option (list Z)) (flags mode : Z) : V (Z * Z) :=
  match path with
  | None => mret (VFS_EINVAL, 0)
  | Some _ =>
      r ← (if negb (Z.land flags VFS_O_CREAT =? 0) then open_create path mode else open_existing path);
      let '(rc, ino) := r in
      if rc <? 0 then mret (rc, 0) else file_of_inode flags ino
  end.

Definition vfs_close (f : Z) : V Z :=
  if f =? 0 then mret VFS_EINVAL
  else
    x ← load v_files f;
    rc ← match (if f_fops x =? 0 then None else close_op (fops_at (f_fops x))) with
         | Some op => op f
         | None => mret 0
         end;
    if rc <? 0 then mret rc
    else vfs_file_put f;; mret VFS_OK.

Definition vfs_read (f buf count : Z) : V Z :=
  if (f =? 0) || (buf =? 0) then mret VFS_EINVAL
  else
    x ← load v_files f;
    match (if f_fops x =? 0 then None else read_op (fops_at (f_fops x))) with
    | Some op => op f buf count
    | None => mret VFS_ENOSYS
    end.

Definition vfs_write (f buf count : Z) : V Z :=
  if (f =? 0) || (buf =? 0) then mret VFS_EINVAL
  else
    x ← load v_files f;
    match (if f_fops x =? 0 then None else write_op (fops_at (f_fops x))) with
    | Some op => op f buf count
    | None => mret VFS_ENOSYS
    end.

(** [getattr] of an inode, if it has one. *)
Definition inode_getattr (ino : Z) : V (option (Z -> vfs_stat -> V (Z * vfs_stat))) :=
  if ino =? 0 then mret None
  else
    i ← load v_inodes ino;
    if i_iops i =? 0 then mret None else mret (getattr_op (iops_at (i_iops i))).

(** [st] is what the stack holds before [getattr] fills it. *)
Definition vfs_seek (st : vfs_stat) (f off whence : Z) : V Z :=
  if f =? 0 then mret (u64 VFS_EINVAL)
  else
    x ← load v_files f;
    match (if f_fops x =? 0 then None else llseek_op (fops_at (f_fops x))) with
    | Some op => op f off whence
    | None =>
        g ← inode_getattr (f_inode x);
        match g with
        | None => mret (u64 VFS_ENOSYS)
        | Some op =>
            r ← op (f_inode x) st;
            if r.1 <? 0 then mret (u64 VFS_EINVAL)
            else
              x ← load v_files f;
              let newpos :=
                if whence =? VFS_SEEK_SET then Some off
                else if whence =? VFS_SEEK_CUR then Some (u64 (f_pos x + off))
                else if whence =? VFS_SEEK_END then Some (u64 (st_size r.2 + off))
                else None in
              match newpos with
              | None => mret (u64 VFS_EINVAL)
              | Some n => upd_file f (set_f_pos n);; mret n
              end
        end
    end.

Definition vfs_fstat (f : Z) (st : vfs_stat) : V (Z * vfs_stat) :=
  if f =? 0 then mret (VFS_EINVAL, st)
  else
    x ← load v_files f;
    g ← inode_getattr (f_inode x);
    match g with
    | None => mret (VFS_ENOSYS, st)
    | Some op => op (f_inode x) st
    end.

Definition vfs_stat_path (path : option (list Z)) (st : vfs_stat) : V (Z * vfs_stat) :=
  match path with
  | None => mret (VFS_EINVAL, st)
  | Some _ =>
      r ← vfs_lookup path;
      let '(rc, (mnt, dentry)) := r in
      if rc <? 0 then mret (rc, st)
      else if dentry =? 0 then mret (VFS_ENOENT, st)
      else
        d ← load v_dentries dentry;
        if d_inode d =? 0 then mret (VFS_ENOENT, st)
        else
          g ← inode_getattr (d_inode d);
          match g with
          | None => mret (VFS_ENOSYS, st)
          | Some op =>
              r ← op (d_inode d) st;
              put_found mnt dentry;;
              mret r
          end
  end.

Definition vfs_mkdir (path : option (list Z)) (mode : Z) : V Z :=
  r ← leaf_parent path;
  let '(rc, (pdir, dir_ino, leaf)) := r in
  if rc <? 0 then mret rc
  else
    i ← load v_inodes dir_ino;
    match mkdir_op (iops_at (i_iops i)) with
    | None => mret VFS_ENOSYS
    | Some op =>
        child ← vfs_tmp_dentry leaf pdir;
        if child =? 0 then mret VFS_ENOMEM
        else rc ← op dir_ino child mode; vfs_dentry_put child;; mret rc
    end.

Definition vfs_unlink (path : option (list Z)) : V Z :=
  r ← leaf_parent path;
  let '(rc, (pdir, dir_ino, leaf)) := r in
  if rc <? 0 then mret rc
  else
    i ← load v_inodes dir_ino;
    match unlink_op (iops_at (i_iops i)) with
    | None => mret VFS_ENOSYS
    | Some op =>
        child ← vfs_tmp_dentry leaf pdir;
        if child =? 0 then mret VFS_ENOMEM
        else
          lrc ← match lookup_op (iops_at (i_iops i)) with
                | Some lop => lop dir_ino child
                | None => mret 0
                end;
          if lrc <? 0 then vfs_dentry_put child;; mret lrc
          else rc ← op dir_ino child; vfs_dentry_put child;; mret rc
    end.
End Ops.

(** ** Paths as component lists *)

(** Split at slashes, empty pieces included; the components are the rest. *)
Fixpoint split_slash (s : list Z) : list (list Z) :=
  match s with
  | [] => [[]]
  | c :: s' =>
      if c =? SLASH then [] :: split_slash s'
      else match split_slash s' with
           | w :: ws => (c :: w) :: ws
           | [] => [[c]]
           end
  end.
Definition components (s : list Z) : list (list Z) :=
  filter (fun w => w <> []) (split_slash s).

Lemma split_slash_cons s : exists w ws, split_slash s = w :: ws.
Proof.
  destruct s as [|c s]; cbn; [eauto|]. destruct (c =? SLASH); [eauto|].
  destruct (split_slash s); eauto.
Qed.

Lemma components_skip s : components (skip_slashes s) = components s.
Proof.
  induction s as [|c s IH]; [done|]. cbn [skip_slashes]. destruct (c =? SLASH) eqn:E; [|done].
  rewrite IH. unfold components. cbn [split_slash]. by rewrite E.
Qed.

Lemma skip_slashes_shape s :
  skip_slashes s = [] \/ exists c s', skip_slashes s = c :: s' /\ (c =? SLASH) = false.
Proof.
  induction s as [|c s IH]; [by left|]. cbn. destruct (c =? SLASH) eqn:E; [done|]. right. eauto.
Qed.

Lemma take_component_split s :
  let '(comp, rest) := take_component s in
  exists ws, split_slash s = comp :: ws /\ components rest = filter (fun w => w <> []) ws /\
    length s = (length comp + length rest)%nat.
Proof.
  induction s as [|c s IH]; cbn [take_component split_slash]; [by exists []|].
  destruct (c =? SLASH) eqn:E.
  - exists (split_slash s). split_and!; [done| |done]. unfold components. cbn [split_slash]. by rewrite E.
  - destruct (take_component s) as [comp rest]. destruct IH as (ws & -> & Hr & Hl).
    exists ws. split_and!; [done|done|]. cbn. lia.
Qed.

Lemma skip_slashes_length s : (length (skip_slashes s) <= length s)%nat.
Proof. induction s as [|c s IH]; cbn; [done|]. destruct (c =? SLASH); cbn; lia. Qed.

(** Each call hands out the next component and advances; none is left exactly
    when it answers the empty one. *)
Lemma next_component_spec p :
  match vfs_next_component p with
  | ([], _) => components p = []
  | (comp, p') => components p = comp :: components p' /\ (length p' < length p)%nat
  end.
Proof.
  unfold vfs_next_component. rewrite <- (components_skip p).
  pose proof (skip_slashes_length p) as Hlen.
  destruct (skip_slashes_shape p) as [->|(c & s' & E & Hc)]; [done|]. rewrite E in *.
  pose proof (take_component_split (c :: s')) as H. cbn [take_component] in *. rewrite Hc in *.
  destruct (take_component s') as [comp rest]. destruct H as (ws & Hs & Hr & Hl).
  pose proof (skip_slashes_length rest). split.
  - unfold components at 1. rewrite Hs, filter_cons_True by done. by rewrite <- Hr, components_skip.
  - simpl in *. lia.
Qed.

Lemma components_bound p : (length (components p) <= length p)%nat.
Proof.
  induction p as [p IH] using (induction_ltof1 _ (@length Z)). unfold ltof in IH.
  pose proof (next_component_spec p) as H. destruct (vfs_next_component p) as [[|c comp] p'].
  - rewrite H. simpl. lia.
  - destruct H as [-> Hlt]. simpl. specialize (IH p' Hlt). lia.
Qed.

Lemma comp_eq_spec s lit : vfs_comp_eq s lit = bool_decide (s = lit).
Proof.
  unfold vfs_comp_eq. destruct (Nat.eqb_spec (length lit) (length s)) as [Hl|Hl]; cbn [negb].
  - revert lit Hl. induction s as [|c s IH]; intros [|d lit] Hl; try done. cbn.
    destruct (Z.eqb_spec c d) as [->|Hne].
    + rewrite IH by (simpl in Hl; lia). apply bool_decide_ext. split; [by intros ->|by intros [=]].
    + symmetry. apply bool_decide_eq_false. congruence.
  - symmetry. apply bool_decide_eq_false. by intros ->.
Qed.

(** ** Resolution as a walk over the components *)

Section Walk.
Context {FS : Type} `{PA : PageAllocator} `{VO : VfsOps FS}.
#[local] Abbreviation V := (M (vst FS)).

Fixpoint walk (st : Z * Z) (comps : list (list Z)) : V (Z * (Z * Z)) :=
  match comps with
  | [] => mret (VFS_OK, st)
  | comp :: rest =>
      r ← walk_component st.1 st.2 comp;
      if r.1 <? 0 then mret (r.1, (0, 0)) else walk r.2 rest
  end.

(** All components but the last, which is the leaf. *)
Fixpoint walk_parent (st : Z * Z) (comps : list (list Z)) : V (Z * (Z * Z * list Z)) :=
  match comps with
  | [] => mret (VFS_OK, (st, []))
  | [leaf] => mret (VFS_OK, (st, leaf))
  | comp :: rest =>
      r ← walk_component st.1 st.2 comp;
      if r.1 <? 0 then mret (r.1, (0, 0, [])) else walk_parent r.2 rest
  end.

Lemma lookup_loop_runs mnt cur p s :
  exists k, 0 <= k <= Z.of_nat (length (components p)) /\
  runs lookup_body (mnt, cur, p) s (walk (mnt, cur) (components p) s) k.
Proof.
  remember (length p) as n eqn:Hn. assert (length p <= n)%nat as Hle by lia.
  clear Hn. revert mnt cur p s Hle. induction n as [|n IH]; intros mnt cur p s Hle;
    pose proof (next_component_spec p) as H; destruct (vfs_next_component p) as [[|c comp] p'] eqn:E.
  1,3: rewrite H; exists 0; split; [simpl; lia|]; apply runs_stop; unfold lookup_body; by rewrite E.
  { destruct H as [_ Hlt]. lia. }
  destruct H as [-> Hlt]. cbn [walk fst snd length]. unfold mbind, M_bind.
  destruct (walk_component mnt cur (c :: comp) s) as [[[rc st] s1]|w] eqn:Ew.
  - cbn [fst snd]. destruct (rc <? 0) eqn:Erc.
    + exists 0. split; [lia|]. apply runs_stop. unfold lookup_body. rewrite E. unfold mbind, M_bind.
      rewrite Ew. cbn. by rewrite Erc.
    + destruct st as [mnt' cur']. destruct (IH mnt' cur' p' s1) as (k & Hk & Hr); [lia|].
      exists (k + 1). split; [lia|]. eapply runs_next; [|exact Hr|lia].
      unfold lookup_body. rewrite E. unfold mbind, M_bind. rewrite Ew. cbn. by rewrite Erc.
  - exists 0. split; [lia|]. apply runs_stuck. unfold lookup_body. rewrite E. unfold mbind, M_bind. by rewrite Ew.
Qed.

Lemma components_nil_next p : (vfs_next_component p).1 = [] <-> components p = [].
Proof.
  pose proof (next_component_spec p) as H. destruct (vfs_next_component p) as [[|c comp] p']; [done|].
  destruct H as [-> _]. done.
Qed.

Lemma lookup_parent_loop_runs mnt cur p s :
  exists k, 0 <= k <= Z.of_nat (length (components p)) /\
  runs lookup_parent_body (mnt, cur, p) s (walk_parent (mnt, cur) (components p) s) k.
Proof.
  remember (length p) as n eqn:Hn. assert (length p <= n)%nat as Hle by lia.
  clear Hn. revert mnt cur p s Hle. induction n as [|n IH]; intros mnt cur p s Hle;
    pose proof (next_component_spec p) as H; destruct (vfs_next_component p) as [[|c comp] p'] eqn:E.
  1,3: rewrite H; exists 0; split; [simpl; lia|]; apply runs_stop; unfold lookup_parent_body; by rewrite E.
  { destruct H as [_ Hlt]. lia. }
  destruct H as [-> Hlt]. pose proof (components_nil_next p') as Hnil.
  destruct (components p') as [|c2 cs] eqn:Ec.
  { exists 0. split; [simpl; lia|]. apply runs_stop. unfold lookup_parent_body. rewrite E.
    by rewrite (proj2 Hnil eq_refl). }
  cbn [walk_parent fst snd length]. unfold mbind, M_bind.
  destruct (vfs_next_component p').1 as [|c3 comp3] eqn:En; [by apply proj1 in Hnil; specialize (Hnil eq_refl)|].
  destruct (walk_component mnt cur (c :: comp) s) as [[[rc st] s1]|w] eqn:Ew.
  - cbn [fst snd]. destruct (rc <? 0) eqn:Erc.
    + exists 0. split; [lia|]. apply runs_stop. unfold lookup_parent_body. rewrite E, En. unfold mbind, M_bind.
      rewrite Ew. cbn. by rewrite Erc.
    + destruct st as [mnt' cur']. destruct (IH mnt' cur' p' s1) as (k & Hk & Hr); [lia|].
      rewrite Ec in Hr, Hk. exists (k + 1). split; [simpl in *; lia|]. eapply runs_next; [|exact Hr|lia].
      unfold lookup_parent_body. rewrite E, En. unfold mbind, M_bind. rewrite Ew. cbn. by rewrite Erc.
  - exists 0. split; [lia|]. apply runs_stuck. unfold lookup_parent_body. rewrite E, En. unfold mbind, M_bind. by rewrite Ew.
Qed.
End Walk.

(** ** Linked lists of objects *)

(** Following [next] from [p] visits the objects [l] and ends at null. *)
Fixpoint olist {A} (m : gmap Z A) (next : A -> Z) (p : Z) (l : list Z) : Prop :=
  match l with
  | [] => p = 0
  | t :: l' => p = t /\ t <> 0 /\ exists x, m !! t = Some x /\ olist m next (next x) l'
  end.

Lemma olist_frame {A} (m m' : gmap Z A) next p l :
  (forall t, t ∈ l -> m' !! t = m !! t) -> olist m next p l -> olist m' next p l.
Proof.
  revert p. induction l as [|t l IH]; intros p Hf; [done|].
  intros (-> & Hnz & x & Hx & Hl). split_and!; [done|done|]. exists x. split.
  - rewrite Hf; [done|]. apply elem_of_cons. by left.
  - apply IH; [|done]. intros u Hu. apply Hf, elem_of_cons. by right.
Qed.

(** The first object of the list that passes a test on its contents. *)
Fixpoint find_obj {A} (m : gmap Z A) (test : A -> bool) (l : list Z) : option Z :=
  match l with
  | [] => None
  | t :: l' => match m !! t with
               | Some x => if test x then Some t else find_obj m test l'
               | None => find_obj m test l'
               end
  end.

(** A search loop over such a list, the test reading the state. *)
Lemma find_loop_runs {FS A B} (store : vst FS -> gmap Z A) next (test : A -> M (vst FS) bool)
    (f : A -> bool) (found : Z -> B) (none : B) p l s :
  olist (store s) next p l ->
  (forall t x, t ∈ l -> store s !! t = Some x -> test x s = Ok (f x, s)) ->
  exists k, 0 <= k <= Z.of_nat (length l) /\
  runs (fun m =>
          if m =? 0 then mret (inr none)
          else x ← load store m;
               hit ← test x;
               if hit : bool then mret (inr (found m)) else mret (inl (next x))) p s
       (Ok (match find_obj (store s) f l with Some t => found t | None => none end, s)) k.
Proof.
  revert p. induction l as [|t l IH]; intros p; cbn [olist find_obj].
  - intros -> _. exists 0. split; [done|]. by apply runs_stop.
  - intros (-> & Hnz & x & Hx & Hl) Ht. rewrite Hx.
    assert (test x s = Ok (f x, s)) as Etx by (apply (Ht t); [apply elem_of_cons; by left|done]).
    destruct (f x) eqn:Ef.
    + exists 0. split; [lia|]. apply runs_stop. rewrite (proj2 (Z.eqb_neq t 0) Hnz).
      unfold mbind, M_bind, load. by rewrite Hx, Etx.
    + destruct (IH (next x) Hl) as (k & Hk & Hr).
      { intros u y Hu. apply Ht, elem_of_cons. by right. }
      exists (k + 1). split; [simpl; lia|]. eapply runs_next; [|exact Hr|lia].
      rewrite (proj2 (Z.eqb_neq t 0) Hnz). unfold mbind, M_bind, load. by rewrite Hx, Etx.
Qed.

(** ** The registry *)

Section Registry.
Context {FS : Type} `{PA : PageAllocator} `{VO : VfsOps FS}.

(** The registered types, head first, with names. *)
Record registry (s : vst FS) (l : list Z) : Prop := {
  reg_list : olist (v_types s) ft_next (g_fs_types s) l;
  reg_nodup : NoDup l;
  reg_len : Z.of_nat (length l) < 2 ^ 64
}.

Lemma find_fs_spec name s l :
  registry s l ->
  vfs_find_fs name s =
    Ok (default 0 (find_obj (v_types s) (fun t => name_matches t name) l), s).
Proof.
  intros [Hl _ Hlen]. unfold vfs_find_fs, mbind, M_bind, mgets.
  destruct (find_loop_runs v_types ft_next (fun t => mret (name_matches t name))
              (fun t => name_matches t name) id 0 (g_fs_types s) l s Hl) as (k & Hk & Hr); [done|].
  etrans; [eapply mloop_runs; [exact Hr|lia]|]. by destruct (find_obj _ _ l).
Qed.

Lemma find_obj_Some {A} (m : gmap Z A) f l t :
  find_obj m f l = Some t -> t ∈ l /\ exists x, m !! t = Some x /\ f x = true.
Proof.
  induction l as [|u l IH]; cbn; [done|]. destruct (m !! u) as [x|] eqn:E.
  - destruct (f x) eqn:Ef.
    + intros [= <-]. split; [apply elem_of_cons; by left|eauto].
    + intros (H1 & H2)%IH. split; [apply elem_of_cons; by right|done].
  - intros (H1 & H2)%IH. split; [apply elem_of_cons; by right|done].
Qed.

Lemma find_obj_None {A} (m : gmap Z A) f l t x :
  find_obj m f l = None -> t ∈ l -> m !! t = Some x -> f x = false.
Proof.
  induction l as [|u l IH]; cbn; [by intros _ ?%elem_of_nil|].
  intros H [->|Ht]%elem_of_cons Hx.
  - rewrite Hx in H. by destruct (f x).
  - destruct (m !! u) as [y|]; [destruct (f y); [done|]|]; by apply IH.
Qed.

Lemma str_diff_same l : str_diff l l = 0.
Proof. induction l as [|c l IH]; [done|]. cbn. by rewrite Z.eqb_refl. Qed.

Lemma olist_nonzero {A} (m : gmap Z A) next p l t : olist m next p l -> t ∈ l -> t <> 0.
Proof.
  revert p. induction l as [|u l IH]; intros p; [by intros _ ?%elem_of_nil|].
  intros (-> & Hnz & x & _ & Hl) [->|Ht]%elem_of_cons; [done|]. by eapply IH.
Qed.

(** Registering puts the type in front, unless its name is taken. *)
Lemma register_spec t x s l :
  registry s l -> Z.of_nat (length l) + 1 < 2 ^ 64 -> t <> 0 -> v_types s !! t = Some x ->
  wp (vfs_register_fs t) s (fun rc s' =>
    match ft_name x, mount_op (tops_at t) with
    | Some nm, Some _ =>
        if find_obj (v_types s) (fun u => name_matches u (Some nm)) l is Some _
        then rc = VFS_EEXIST /\ s' = s
        else rc = VFS_OK /\ registry s' (t :: l) /\ (t ∉ l) /\
             s' = set_globals t (g_mounts s) (g_root_mnt s) (g_root_dent s)
                    (set_types (<[t := set_ft_next (g_fs_types s) x]> (v_types s)) s)
    | _, _ => rc = VFS_EINVAL /\ s' = s
    end).
Proof.
  intros Hreg Hlen Ht Hx. unfold vfs_register_fs. rewrite (proj2 (Z.eqb_neq t 0) Ht).
  wp_step. eapply wp_run; [unfold load; by rewrite Hx|].
  destruct (ft_name x) as [nm|] eqn:En; [|by wp_step].
  rewrite bool_decide_eq_false_2 by done. destruct (mount_op (tops_at t)); [|by wp_step].
  cbn [orb]. wp_step. eapply wp_run; [by apply find_fs_spec|].
  destruct (find_obj _ _ l) as [u|] eqn:Ef.
  - change (default 0 (Some u)) with u. destruct (find_obj_Some _ _ _ _ Ef) as [Hu _].
    rewrite (proj2 (Z.eqb_neq u 0)) by (eapply olist_nonzero; [apply Hreg|done]). by wp_step.
  - change (default 0 (@None Z)) with 0. rewrite Z.eqb_refl. cbn [negb]. wp_step. apply wp_gets. cbn beta.
    assert (t ∉ l) as Hn.
    { intros Hin. pose proof (find_obj_None _ _ _ _ _ Ef Hin Hx) as Hf.
      unfold name_matches in Hf. by rewrite En, str_diff_same in Hf. }
    wp_step. eapply wp_run; [unfold upd_type, update; by rewrite Hx|].
    wp_step. apply wp_modify. wp_step. split_and!; [done| |done|done].
    destruct Hreg as [Hl Hnd Hb]. split; cbn; [|by constructor|lia].
    split_and!; [done|done|]. exists (set_ft_next (g_fs_types s) x). rewrite lookup_insert_eq.
    split; [done|]. cbn. eapply olist_frame; [|exact Hl]. intros u Hu. cbn.
    rewrite lookup_insert_ne; [done|]. by intros ->.
Qed.

(** *** Unregistering *)

Definition mounted_as (s : vst FS) (t : Z) (m : vfs_mount) : bool :=
  if m_sb m =? 0 then false
  else match v_supers s !! m_sb m with Some sb => sb_type sb =? t | None => false end.

Lemma olist_app {A} (m : gmap Z A) next p l1 l2 :
  olist m next p (l1 ++ l2) ->
  exists q, olist m next q l2 /\
    (l1 = [] /\ q = p \/ exists l0 b x, l1 = l0 ++ [b] /\ m !! b = Some x /\ q = next x).
Proof.
  revert p. induction l1 as [|t l1 IH]; intros p; cbn [app olist].
  - intros Hl. exists p. split; [done|by left].
  - intros (-> & Hnz & x & Hx & Hl). destruct (IH _ Hl) as (q & Hq & [[-> ->]|H]).
    + exists (next x). split; [done|]. right. by exists [], t, x.
    + exists q. split; [done|]. right. destruct H as (l0 & b & y & -> & Hy & ->). by exists (t :: l0), b, y.
Qed.

Definition type_link_after (l : list Z) : type_link :=
  match last l with None => Types_head | Some b => Type_next b end.

Lemma type_link_load_after l1 l2 (s : vst FS) :
  olist (v_types s) ft_next (g_fs_types s) (l1 ++ l2) ->
  exists q, type_link_load (type_link_after l1) s = Ok (q, s) /\ olist (v_types s) ft_next q l2.
Proof.
  intros (q & Hq & [[-> ->]|(l0 & b & x & -> & Hx & ->)])%olist_app.
  - by exists (g_fs_types s).
  - exists (ft_next x). split; [|done]. unfold type_link_after. rewrite last_snoc. cbn.
    unfold mbind, M_bind, load. by rewrite Hx.
Qed.

(** Making the object before [t] skip [t]. *)
Lemma olist_skip {A} (m : gmap Z A) next p l0 b t l2 x y' :
  olist m next p (l0 ++ b :: t :: l2) -> NoDup (l0 ++ b :: t :: l2) ->
  m !! t = Some x -> next y' = next x -> olist (<[b := y']> m) next p (l0 ++ b :: l2).
Proof.
  intros Hl Hnd Hx Hy. revert p Hl. induction l0 as [|c l0 IH]; intros p; cbn [app olist].
  - intros (-> & Hnz & y & _ & (_ & _ & x' & Hx' & Hl)). split_and!; [done|done|].
    exists y'. rewrite lookup_insert_eq. split; [done|]. rewrite Hx in Hx'. injection Hx' as <-.
    rewrite Hy. eapply olist_frame; [|exact Hl]. intros u Hu. rewrite lookup_insert_ne; [done|].
    intros ->. apply NoDup_cons in Hnd as [Hb _]. apply Hb, elem_of_cons. by right.
  - cbn in Hnd. apply NoDup_cons in Hnd as [Hc Hnd]. intros (-> & Hnz & y & Hyc & Hl).
    split_and!; [done|done|]. exists y. rewrite lookup_insert_ne; [split; [done|by apply IH]|].
    intros ->. apply Hc, elem_of_app. right. apply elem_of_cons. by left.
Qed.

Lemma olist_skip_head {A} (m : gmap Z A) next p t l2 x :
  olist m next p (t :: l2) -> m !! t = Some x -> olist m next (next x) l2.
Proof. intros (_ & _ & x' & Hx' & Hl) Hx. rewrite Hx in Hx'. by injection Hx' as <-. Qed.

Lemma olist_insert_other {A} (m : gmap Z A) next p l t x :
  t ∉ l -> olist m next p l -> olist (<[t := x]> m) next p l.
Proof.
  intros Ht. apply olist_frame. intros u Hu. rewrite lookup_insert_ne; [done|]. by intros ->.
Qed.

Lemma names_insert (m : gmap Z vfs_fs_type) t x n u :
  m !! t = Some x -> ft_name <$> <[t := set_ft_next n x]> m !! u = ft_name <$> m !! u.
Proof.
  intros Hx. destruct (decide (u = t)) as [->|]; [by rewrite lookup_insert_eq, Hx|].
  by rewrite lookup_insert_ne.
Qed.

Lemma upd_type_wp t x n (s : vst FS) Q :
  v_types s !! t = Some x -> Q tt (set_types (<[t := set_ft_next n x]> (v_types s)) s) ->
  wp (upd_type t (set_ft_next n)) s Q.
Proof. intros Hx HQ. eapply wp_run; [unfold upd_type, update; by rewrite Hx|done]. Qed.

(** Unlinking [t] rewires one pointer and keeps every name. *)
Lemma type_unlink l1 t l2 x (s : vst FS) :
  registry s (l1 ++ t :: l2) -> v_types s !! t = Some x ->
  wp (type_link_store (type_link_after l1) (ft_next x);; upd_type t (set_ft_next 0)) s
     (fun _ s' => registry s' (l1 ++ l2) /\
                  forall u, ft_name <$> v_types s' !! u = ft_name <$> v_types s !! u).
Proof.
  intros [Hl Hnd Hlen] Hx. pose proof Hnd as Hnd'. rewrite <- Permutation_middle in Hnd'.
  apply NoDup_cons in Hnd' as [Hout Hnd']. rewrite length_app in Hlen. cbn [length] in Hlen.
  assert (Z.of_nat (length (l1 ++ l2)) < 2 ^ 64) as Hlen' by (rewrite length_app; lia).
  wp_step. destruct l1 as [|b l1 _] using rev_ind.
  - apply wp_modify. apply (upd_type_wp t x); [done|]. split; [|intros u; by apply names_insert].
    split; [|done|done]. cbn. apply olist_insert_other; [done|]. by apply (olist_skip_head _ _ _ _ _ _ Hl).
  - unfold type_link_after. rewrite last_snoc. cbn [type_link_store].
    rewrite <- !app_assoc in *. cbn [app] in *.
    assert (exists y, v_types s !! b = Some y) as [y Hy].
    { pose proof (olist_app (v_types s) ft_next (g_fs_types s) l1 (b :: t :: l2) Hl)
        as (q & (-> & _ & y & Hy & _) & _). by exists y. }
    assert (b <> t) as Hbt.
    { intros ->. apply Hout, elem_of_app. right. apply elem_of_cons. by left. }
    apply (upd_type_wp b y); [done|].
    apply (upd_type_wp t x); [cbn; by rewrite lookup_insert_ne|]. split.
    + split; [|done|done]. cbn. apply olist_insert_other; [done|].
      by apply (olist_skip _ _ _ _ _ _ _ _ _ Hl Hnd Hx).
    + intros u. cbn. rewrite names_insert by (by rewrite lookup_insert_ne). by apply names_insert.
Qed.

Lemma busy_loop_spec t (s : vst FS) ms :
  olist (v_mounts s) m_next (g_mounts s) ms -> Z.of_nat (length ms) < 2 ^ 64 ->
  (forall m x, m ∈ ms -> v_mounts s !! m = Some x -> m_sb x = 0 \/ is_Some (v_supers s !! m_sb x)) ->
  mloop (fun m =>
      if m =? 0 then mret (inr false)
      else
        x ← load v_mounts m;
        b ← (if m_sb x =? 0 then mret false
             else sb ← load v_supers (m_sb x); mret (sb_type sb =? t));
        if b : bool then mret (inr true) else mret (inl (m_next x))) (g_mounts s) s
  = Ok (if find_obj (v_mounts s) (mounted_as s t) ms is Some _ then true else false, s).
Proof.
  intros Hl Hlen Hsb.
  destruct (find_loop_runs v_mounts m_next
    (fun x => if m_sb x =? 0 then mret false else sb ← load v_supers (m_sb x); mret (sb_type sb =? t))
    (mounted_as s t) (fun _ => true) false (g_mounts s) ms s Hl) as (k & Hk & Hr).
  - intros m x Hm Hx. unfold mounted_as. destruct (Z.eqb_spec (m_sb x) 0) as [|Hne]; [done|].
    destruct (Hsb m x Hm Hx) as [|[sb Hsb']]; [done|]. unfold mbind, M_bind, load. by rewrite Hsb'.
  - eapply mloop_runs; [exact Hr|lia].
Qed.

(** [vfs_unregister_fs]: refused while mounted, otherwise exactly the type
    leaves the list. *)
Lemma unregister_spec t (s : vst FS) l ms :
  registry s l -> olist (v_mounts s) m_next (g_mounts s) ms -> Z.of_nat (length ms) < 2 ^ 64 ->
  (forall m x, m ∈ ms -> v_mounts s !! m = Some x -> m_sb x = 0 \/ is_Some (v_supers s !! m_sb x)) ->
  t <> 0 ->
  wp (vfs_unregister_fs t) s (fun rc s' =>
    if find_obj (v_mounts s) (mounted_as s t) ms is Some _ then rc = VFS_EBUSY /\ s' = s
    else if decide (t ∈ l)
    then rc = VFS_OK /\ (exists l1 l2, l = l1 ++ t :: l2 /\ registry s' (l1 ++ l2)) /\
         forall u, ft_name <$> v_types s' !! u = ft_name <$> v_types s !! u
    else rc = VFS_ENOENT /\ s' = s).
Proof.
  intros Hreg Hms Hmlen Hsb Ht. unfold vfs_unregister_fs. rewrite (proj2 (Z.eqb_neq t 0) Ht).
  wp_step. apply wp_gets. cbn beta. wp_step. eapply wp_run; [by apply busy_loop_spec|].
  destruct (find_obj (v_mounts s) _ ms); [by wp_step|].
  (* under the binders of the postcondition [decide] is settled first *)
  destruct (decide (t ∈ l)) as [Hin|Hnin];
  eapply (wp_mloop_ix _ (fun n pp s1 => s1 = s /\ exists l1 l2, l = l1 ++ l2 /\ (t ∉ l1) /\
    pp = type_link_after l1 /\ n = Z.of_nat (length l2))); try apply Hreg.
  all: try by (split; [done|]; exists [], l; split_and!; [done|apply not_elem_of_nil|done..]).
  all: intros n pp s1 (-> & l1 & l2 & -> & Hn & -> & ->); pose proof Hreg as [Hl Hnd Hlen];
    destruct (type_link_load_after l1 l2 s Hl) as (q & Hq & Hl2);
    wp_step; (eapply wp_run; [exact Hq|]); destruct l2 as [|u l2].
  1: { rewrite app_nil_r in Hin. done. }
  2: { assert (q = 0) as -> by exact Hl2. rewrite Z.eqb_refl. by wp_step. }
  all: destruct Hl2 as (-> & Hu & x & Hx & Hl2); rewrite (proj2 (Z.eqb_neq u 0) Hu);
    destruct (Z.eqb_spec u t) as [->|Hne].
  3: { exfalso. apply Hnin, elem_of_app. right. apply elem_of_cons. by left. }
  1: { wp_step. eapply wp_run; [unfold load; by rewrite Hx|].
       pose proof (type_unlink l1 t l2 x s Hreg Hx) as Hun. wp_via Hun. wp_step.
       eapply wp_mono; [exact Hun|]. intros [] s2 (Hr2 & Hn2). wp_step. eauto 10. }
  all: wp_step; exists (Z.of_nat (length l2)); (split; [|simpl; lia]); (split; [done|]);
    exists (l1 ++ [u]), l2;
    (split_and!; [by rewrite <- app_assoc| |by unfold type_link_after; rewrite last_snoc|done]);
    rewrite not_elem_of_app, not_elem_of_cons; (split_and!; [done|done|apply not_elem_of_nil]).
Qed.

Lemma find_obj_names (m m' : gmap Z vfs_fs_type) nm l :
  (forall u, ft_name <$> m' !! u = ft_name <$> m !! u) ->
  find_obj m' (fun u => name_matches u nm) l = find_obj m (fun u => name_matches u nm) l.
Proof.
  intros Hn. induction l as [|u l IH]; [done|]. cbn. specialize (Hn u).
  destruct (m' !! u) as [x'|], (m !! u) as [x|]; cbn in Hn; try done.
  injection Hn as E. unfold name_matches at 1 3. rewrite E. by rewrite IH.
Qed.
End Registry.

(** ** Crossing mounts *)

Section Crossing.
Context {FS : Type} `{PA : PageAllocator} `{VO : VfsOps FS}.

(** Mount [x] covers the inode [ci]: its mountpoint is the same inode number
    of the same file system. *)
Definition covers (s : vst FS) (ci : vfs_inode) (x : vfs_mount) : bool :=
  negb (m_mountpoint x =? 0) &&
  match v_dentries s !! m_mountpoint x with
  | Some d => negb (d_inode d =? 0) &&
      match v_inodes s !! d_inode d with
      | Some a => (i_ino a =? i_ino ci) && (i_sb a =? i_sb ci)
      | None => false
      end
  | None => false
  end.

(** The mounts in the list [ms] and what they point to exist. *)
Record mounts_ok (s : vst FS) (ms : list Z) : Prop := {
  mo_list : olist (v_mounts s) m_next (g_mounts s) ms;
  mo_len : Z.of_nat (length ms) < 2 ^ 64;
  mo_points : forall m x, m ∈ ms -> v_mounts s !! m = Some x -> m_mountpoint x <> 0 ->
    exists d, v_dentries s !! m_mountpoint x = Some d /\
      (d_inode d <> 0 -> is_Some (v_inodes s !! d_inode d))
}.

Lemma find_mount_by_inode_spec (s : vst FS) ms ino ci :
  mounts_ok s ms -> ino <> 0 -> v_inodes s !! ino = Some ci ->
  vfs_find_mount_by_inode ino s = Ok (default 0 (find_obj (v_mounts s) (covers s ci) ms), s).
Proof.
  intros [Hl Hlen Hp] Hino Hci. unfold vfs_find_mount_by_inode. rewrite (proj2 (Z.eqb_neq ino 0) Hino).
  unfold mbind at 1, M_bind at 1, mgets.
  destruct (find_loop_runs v_mounts m_next
    (fun x => if m_mountpoint x =? 0 then mret false
              else d ← load v_dentries (m_mountpoint x);
                   if d_inode d =? 0 then mret false
                   else a ← load v_inodes (d_inode d);
                        b ← load v_inodes ino;
                        mret ((i_ino a =? i_ino b) && (i_sb a =? i_sb b)))
    (covers s ci) id 0 (g_mounts s) ms s Hl) as (k & Hk & Hr).
  - intros m x Hm Hx. unfold covers. destruct (Z.eqb_spec (m_mountpoint x) 0) as [|Hne]; [done|].
    destruct (Hp m x Hm Hx Hne) as (d & Hd & Hi). unfold mbind, M_bind, load. rewrite Hd. cbn [negb andb].
    destruct (Z.eqb_spec (d_inode d) 0) as [|Hdi]; [done|]. destruct (Hi Hdi) as [a Ha].
    rewrite Ha, Hci. done.
  - etrans; [eapply mloop_runs; [exact Hr|lia]|]. by destruct (find_obj _ _ ms).
Qed.

Lemma vfs_is_dir_spec ino i (s : vst FS) :
  ino <> 0 -> v_inodes s !! ino = Some i -> vfs_is_dir ino s = Ok (is_dir_mode (i_mode i), s).
Proof.
  intros Hi Hx. unfold vfs_is_dir. rewrite (proj2 (Z.eqb_neq ino 0) Hi).
  unfold mbind, M_bind, load. by rewrite Hx.
Qed.

Lemma v_alloc_page ps (s : vst FS) :
  pa_inv ps (v_k s) -> ps <> [] ->
  wp (v_kalloc 1) s (fun r s' => r <> 0 /\ exists k qs,
    s' = set_vk k s /\ ps ≡ₚ (r / 4096) :: qs /\ pa_inv qs k).
Proof.
  intros Hi Hne. unfold v_kalloc. apply wp_zoom. eapply wp_mono; [by apply alloc_page|].
  intros r k (_ & Hr & _ & qs & Hp & Hq & _). split; [lia|]. by exists k, qs.
Qed.

(** What [vfs_lookup_child] relies on of a file system's [lookup]: on the
    fresh dentry [child] it stores the inode [c] and changes no mount, no
    other dentry and no other inode. *)
Definition lookup_finds (op : Z -> Z -> M (vst FS) Z) (s : vst FS) (dir_ino child : Z)
    (dent : vfs_dentry) (c : Z) (ci : vfs_inode) : Prop :=
  forall s1, v_dentries s1 = <[child := dent]> (v_dentries s) -> v_inodes s1 = v_inodes s ->
    v_mounts s1 = v_mounts s -> g_mounts s1 = g_mounts s ->
    wp (op dir_ino child) s1 (fun rc s2 => rc = 0 /\
      v_dentries s2 = <[child := set_d_inode c dent]> (v_dentries s) /\
      v_inodes s2 = <[c := ci]> (v_inodes s) /\
      v_mounts s2 = v_mounts s /\ g_mounts s2 = g_mounts s).

(** Covering is decided by the mountpoints alone, not by fresh objects. *)
Lemma covers_fresh (s s2 : vst FS) ms child dent c ci m x :
  mounts_ok s ms -> v_dentries s !! child = None -> v_inodes s !! c = None ->
  v_dentries s2 = <[child := dent]> (v_dentries s) -> v_inodes s2 = <[c := ci]> (v_inodes s) ->
  m ∈ ms -> v_mounts s !! m = Some x -> covers s2 ci x = covers s ci x.
Proof.
  intros [_ _ Hp] Hcf Hif Ed Ei Hm Hx. unfold covers.
  destruct (Z.eqb_spec (m_mountpoint x) 0) as [|Hne]; [done|].
  destruct (Hp m x Hm Hx Hne) as (d & Hd & Hi). rewrite Ed, Ei.
  rewrite lookup_insert_ne, Hd by congruence. destruct (Z.eqb_spec (d_inode d) 0) as [|Hdi]; [done|].
  destruct (Hi Hdi) as [a Ha]. by rewrite lookup_insert_ne by congruence.
Qed.

Lemma find_obj_ext {A} (m : gmap Z A) f g l :
  (forall t x, t ∈ l -> m !! t = Some x -> f x = g x) -> find_obj m f l = find_obj m g l.
Proof.
  intros H. induction l as [|t l IH]; [done|]. cbn. rewrite IH.
  - destruct (m !! t) as [x|] eqn:E; [|done]. rewrite (H t x); [done|apply elem_of_cons; by left|done].
  - intros u x Hu. apply H, elem_of_cons. by right.
Qed.

Lemma mounts_ok_fresh (s s2 : vst FS) ms child dent c ci :
  mounts_ok s ms -> v_dentries s !! child = None -> v_inodes s !! c = None ->
  v_dentries s2 = <[child := dent]> (v_dentries s) -> v_inodes s2 = <[c := ci]> (v_inodes s) ->
  v_mounts s2 = v_mounts s -> g_mounts s2 = g_mounts s -> mounts_ok s2 ms.
Proof.
  intros [Hl Hlen Hp] Hcf Hif Ed Ei Em Eg. split; [by rewrite Em, Eg|done|].
  intros m x Hm Hx Hne. rewrite Em in Hx. destruct (Hp m x Hm Hx Hne) as (d & Hd & Hi).
  exists d. rewrite Ed, Ei, lookup_insert_ne by congruence. split; [done|].
  intros Hdi. destruct (Hi Hdi) as [a Ha]. rewrite lookup_insert_ne by congruence. by exists a.
Qed.

Lemma vfs_dentry_put_keeps d x (s : vst FS) :
  d <> 0 -> v_dentries s !! d = Some x -> d_parent x <> 0 ->
  vfs_dentry_put d s =
    Ok (tt, set_dentries (<[d := set_d_refcnt (u32 (d_refcnt x - 1)) x]> (v_dentries s)) s).
Proof.
  intros Hd Hx Hp. unfold vfs_dentry_put. rewrite (proj2 (Z.eqb_neq d 0) Hd).
  unfold mbind, M_bind, upd_dentry, update, load. rewrite Hx. cbn. rewrite lookup_insert_eq. cbn.
  by rewrite (proj2 (Z.eqb_neq _ 0) Hp), andb_false_r.
Qed.
End Crossing.

(** ** Properties *)

Section Properties.
Context {FS : Type} `{PA : PageAllocator} `{VO : VfsOps FS}.


(** The file system registry: registering a type puts it in front of the
    list unless its name is taken ([VFS_EEXIST]), and from then on its name
    finds it; unregistering is refused while a mount uses the type and
    otherwise removes exactly it, so its name finds nothing afterwards. *)
Lemma vfs_registry_correct t x nm op s l ms :
  registry s l -> Z.of_nat (length l) + 2 < 2 ^ 64 -> t <> 0 -> v_types s !! t = Some x ->
  ft_name x = Some nm -> mount_op (tops_at t) = Some op ->
  find_obj (v_types s) (fun u => name_matches u (Some nm)) l = None ->
  olist (v_mounts s) m_next (g_mounts s) ms -> Z.of_nat (length ms) < 2 ^ 64 ->
  (forall m y, m ∈ ms -> v_mounts s !! m = Some y -> m_sb y = 0 \/ is_Some (v_supers s !! m_sb y)) ->
  find_obj (v_mounts s) (mounted_as s t) ms = None ->
  wp (rc ← vfs_register_fs t; found ← vfs_find_fs (Some nm); rc2 ← vfs_register_fs t;
      rc3 ← vfs_unregister_fs t; gone ← vfs_find_fs (Some nm); mret (rc, found, rc2, rc3, gone)) s
     (fun r s' => r = (VFS_OK, t, VFS_EEXIST, VFS_OK, 0) /\ registry s' l).
Proof.
  intros Hreg Hlen Ht Hx Hnm Hop Hfree Hms Hmlen Hsb Hidle.
  wp_step. eapply wp_mono; [apply (register_spec t x s l); (done || lia)|]. intros rc s1.
  rewrite Hnm, Hop, Hfree. intros (-> & Hreg1 & Hnew & Es1).
  set (x1 := set_ft_next (g_fs_types s) x) in *.
  assert (v_types s1 = <[t := x1]> (v_types s)) as Ety by by rewrite Es1.
  assert (v_types s1 !! t = Some x1) as Hx1 by by rewrite Ety, lookup_insert_eq.
  assert (find_obj (v_types s1) (fun u => name_matches u (Some nm)) (t :: l) = Some t) as Hfound.
  { cbn. rewrite Hx1. unfold name_matches. cbn. by rewrite Hnm, str_diff_same. }
  wp_step. eapply wp_run; [by apply find_fs_spec|]. rewrite Hfound. cbn [default from_option].
  wp_step. eapply wp_mono; [apply (register_spec t x1 s1 (t :: l)); (done || (cbn [length]; lia))|].
  intros rc2 s2. change (ft_name x1) with (ft_name x). rewrite Hnm, Hop, Hfound. intros [-> ->].
  wp_step. eapply wp_mono; [apply (unregister_spec t s1 (t :: l) ms); try done; by rewrite Es1|].
  intros rc3 s3.
  replace (find_obj (v_mounts s1) (mounted_as s1 t) ms) with (@None Z) by (rewrite Es1; by symmetry).
  rewrite decide_True by (apply elem_of_cons; by left). intros (-> & (l1 & l2 & El & Hreg3) & Hn3).
  assert (l1 = [] /\ l2 = l) as [-> ->].
  { destruct l1 as [|u l1]; [by injection El as ->|]. injection El as <- ->. exfalso. apply Hnew.
    apply elem_of_app. right. apply elem_of_cons. by left. }
  wp_step. eapply wp_run; [by apply find_fs_spec|].
  assert (find_obj (v_types s3) (fun u => name_matches u (Some nm)) ([] ++ l) = None) as ->.
  { rewrite <- Hfree. apply find_obj_names. intros u. rewrite Hn3, Ety. by apply names_insert. }
  by wp_step.
Qed.
(** resolving a name crosses mounts: if the directory's [lookup] finds the
    inode [ci], the walk continues at the root of the first mount in the list
    whose mountpoint is that inode, and at the fresh child only if no mount
    covers it.  The dentry allocated for the name is never freed in the first
    case: its parent is set, so dropping the last reference keeps its page. *)
Lemma lookup_child_crosses mnt d name s ps ms dir i op c ci :
  d <> 0 -> v_dentries s !! d = Some dir -> d_inode dir <> 0 ->
  v_inodes s !! d_inode dir = Some i -> is_dir_mode (i_mode i) = true -> i_iops i <> 0 ->
  lookup_op (iops_at (i_iops i)) = Some op -> Z.of_nat (length name) < 256 ->
  pa_inv ps (v_k s) -> ps <> [] -> mounts_ok s ms ->
  (forall p x, v_dentries s !! p = Some x -> (p / 4096) ∉ ps) ->
  c <> 0 -> v_inodes s !! c = None ->
  (forall child, lookup_finds op s (d_inode dir) child (Dentry 1 name 0 d 0 0) c ci) ->
  wp (vfs_lookup_child mnt d name) s (fun r s' =>
    match find_obj (v_mounts s) (covers s ci) ms with
    | Some m => forall x, v_mounts s !! m = Some x -> m_root x <> 0 ->
        r = (VFS_OK, (m, m_root x, m_root x)) /\
        exists child, v_dentries s !! child = None /\
          v_dentries s' !! child = Some (Dentry 0 name c d 0 0)
    | None => exists child, r = (VFS_OK, (mnt, d, child)) /\ v_dentries s !! child = None /\
        v_dentries s' !! child = Some (Dentry 1 name c d 0 0)
    end).
Proof.
  intros Hd Hdir Hdi Hi Hmode Hiops Hop Hname Hps Hne Hms Hfresh Hc Hcf Hfind.
  unfold vfs_lookup_child. wp_step. eapply wp_run; [unfold load; by rewrite Hdir|].
  wp_step. eapply wp_run; [by eapply vfs_is_dir_spec|]. rewrite Hmode, (proj2 (Z.eqb_neq _ _) Hdi).
  cbn [orb negb]. wp_step. eapply wp_run; [unfold load; by rewrite Hi|].
  rewrite (proj2 (Z.eqb_neq _ _) Hiops), Hop. wp_step. unfold vfs_tmp_dentry.
  rewrite (proj2 (Z.leb_gt _ _)) by lia. wp_step. eapply wp_mono; [by apply v_alloc_page|].
  intros child s1 (Hcz & k & qs & -> & Hqs & Hk). rewrite (proj2 (Z.eqb_neq _ _) Hcz).
  wp_step. apply wp_modify. wp_step. rewrite (proj2 (Z.eqb_neq _ _) Hcz).
  assert (v_dentries s !! child = None) as Hcn.
  { destruct (v_dentries s !! child) as [x|] eqn:E; [|done]. destruct (Hfresh child x E).
    rewrite Hqs. apply elem_of_cons. by left. }
  wp_step. eapply wp_mono; [by apply (Hfind child)|].
  intros rc s2 (-> & Ed & Ei & Em & Eg). cbn [Z.ltb Z.compare].
  assert (v_dentries s2 !! child = Some (Dentry 1 name c d 0 0)) as Hch by by rewrite Ed, lookup_insert_eq.
  wp_step. eapply wp_run; [unfold load; by rewrite Hch|]. cbn [d_inode].
  rewrite (proj2 (Z.eqb_neq _ _) Hc).
  pose proof (mounts_ok_fresh s s2 ms child _ c ci Hms Hcn Hcf Ed Ei Em Eg) as Hms2.
  wp_step. eapply wp_run.
  { eapply find_mount_by_inode_spec; [exact Hms2|done|]. by rewrite Ei, lookup_insert_eq. }
  rewrite Em. rewrite (find_obj_ext _ (covers s2 ci) (covers s ci)).
  2: { intros m x Hm Hx. by eapply covers_fresh. }
  destruct (find_obj (v_mounts s) (covers s ci) ms) as [m|] eqn:Ef.
  - cbn [default from_option id]. destruct (find_obj_Some _ _ _ _ Ef) as [Hm (x & Hx & _)].
    assert (m <> 0) as Hmz by (eapply olist_nonzero; [apply Hms|done]).
    rewrite (proj2 (Z.eqb_neq _ _) Hmz). wp_step. wp_step.
    eapply wp_run; [unfold load; by rewrite Em, Hx|]. wp_step. cbn [negb andb].
    destruct (Z.eqb_spec (m_root x) 0) as [E|E]; cbn [negb].
    { wp_step. intros y Hy. rewrite Hx in Hy. by injection Hy as <-. }
    wp_step. eapply wp_run; [by eapply vfs_dentry_put_keeps|]. wp_step.
    intros y Hy _. rewrite Hx in Hy. injection Hy as <-. split; [done|]. exists child. split; [done|].
    cbn. by rewrite lookup_insert_eq.
  - cbn [default from_option]. rewrite Z.eqb_refl. wp_step. wp_step. cbn [negb andb]. wp_step.
    by exists child.
Qed.

(** [..] at a root that was mounted over leaves the mounted file system:
    [vfs_lookup] of "/.." ends at the dentry the mount covers, while "/" ends
    at the mounted root, so the hidden tree is reachable by name. *)
Lemma dotdot_escapes_overlay s ov x :
  g_root_mnt s <> 0 -> g_root_dent s <> 0 -> start_point s = Ok ((ov, m_root x), s) ->
  v_mounts s !! ov = Some x -> m_mountpoint x = g_root_dent s -> m_root x <> g_root_dent s ->
  vfs_lookup (Some [SLASH]) s = Ok (VFS_OK, (ov, m_root x), s) /\
  vfs_lookup (Some [SLASH; 46; 46]) s = Ok (VFS_OK, (ov, g_root_dent s), s).
Proof.
  intros Hm Hd Hst Hx Hmp Hne. unfold vfs_lookup, mbind, M_bind, mgets.
  rewrite (proj2 (Z.eqb_neq _ _) Hm), (proj2 (Z.eqb_neq _ _) Hd). cbn [orb]. rewrite Hst.
  split.
  - destruct (lookup_loop_runs ov (m_root x) (skip_slashes [SLASH]) s) as (k & Hk & Hr).
    eapply mloop_runs; [exact Hr|simpl in *; lia].
  - destruct (lookup_loop_runs ov (m_root x) (skip_slashes [SLASH; 46; 46]) s) as (k & Hk & Hr).
    etrans; [eapply mloop_runs; [exact Hr|simpl in *; lia]|].
    change (components (skip_slashes [SLASH; 46; 46])) with [[46; 46]].
    cbn [walk fst snd]. unfold walk_component. rewrite !comp_eq_spec.
    rewrite bool_decide_eq_false_2, bool_decide_eq_true_2 by done.
    unfold step_up, mbind, M_bind, load. rewrite Hx, Z.eqb_refl, Hmp.
    by rewrite (proj2 (Z.eqb_neq _ _) Hd).
Qed.

(** [vfs_close] drops one reference; only the last one gives the inode's
    reference and the file's page back, and then the file is gone. *)
Lemma vfs_close_last_reference f x i s ps :
  f <> 0 -> v_files s !! f = Some x -> 0 < f_refcnt x < 2 ^ 32 ->
  (f_fops x = 0 \/ close_op (fops_at (f_fops x)) = None) ->
  f_inode x <> 0 -> v_inodes s !! f_inode x = Some i -> 0 < i_refcnt i < 2 ^ 32 ->
  pa_inv ps (v_k s) -> f mod 4096 = 0 -> 0 < f -> f + 4096 <= 2 ^ 64 -> (f / 4096) ∉ ps ->
  wp (vfs_close f) s (fun rc s' => rc = VFS_OK /\
    if f_refcnt x =? 1
    then v_files s' = delete f (v_files s) /\ pa_inv ((f / 4096) :: ps) (v_k s') /\
         v_inodes s' = <[f_inode x := set_i_refcnt (i_refcnt i - 1) i]> (v_inodes s)
    else v_files s' = <[f := set_f_refcnt (f_refcnt x - 1) x]> (v_files s) /\ v_k s' = v_k s /\
         v_inodes s' = v_inodes s).
Proof.
  intros Hf Hx Hrc Hcl Hin Hi Hirc Hps Hfa Hf0 Hfe Hfp. unfold vfs_close.
  rewrite (proj2 (Z.eqb_neq _ _) Hf). wp_step. eapply wp_run; [unfold load; by rewrite Hx|].
  assert ((if f_fops x =? 0 then None else close_op (fops_at (f_fops x))) = None) as ->.
  { destruct (Z.eqb_spec (f_fops x) 0); [done|]. by destruct Hcl. }
  wp_step. wp_step. cbn [Z.ltb Z.compare]. unfold vfs_file_put. rewrite (proj2 (Z.eqb_neq _ _) Hf).
  wp_step. wp_step. eapply wp_run; [unfold upd_file, update; by rewrite Hx|].
  wp_step. eapply wp_run; [unfold load; cbn; by rewrite lookup_insert_eq|].
  cbn [f_refcnt f_inode set_f_refcnt]. rewrite u32_small by lia.
  destruct (Z.eqb_spec (f_refcnt x) 1) as [E|E].
  - rewrite E. change (1 - 1 =? 0) with true. cbn [negb]. rewrite (proj2 (Z.eqb_neq _ _) Hin). cbn [negb].
    wp_step. unfold vfs_inode_put. rewrite (proj2 (Z.eqb_neq _ _) Hin).
    eapply wp_run; [unfold upd_inode, update; cbn; by rewrite Hi|].
    wp_step. unfold v_kfree. apply wp_zoom. eapply wp_mono; [by apply (free_page ps)|].
    intros [] k (Hk & _). apply wp_modify. wp_step. split; [done|]. cbn.
    rewrite delete_insert_eq, u32_small by lia. done.
  - rewrite (proj2 (Z.eqb_neq _ _)) by lia. wp_step. by wp_step.
Qed.
End Properties.

(** *** Examples *)

(** A file system whose [lookup] always finds inode 5 of superblock 8192, made
    at address 40960. *)
Definition demo_inode : vfs_inode := Inode 5 VFS_S_IFDIR 1 8192 1 0 0.
Definition demo_lookup (dir child : Z) : M (vst unit) Z :=
  create v_inodes set_inodes 40960 demo_inode;;
  upd_dentry child (set_d_inode 40960);;
  mret 0.

#[export] Instance demo_ops : VfsOps unit := {
  iops_at := fun _ => Iops (Some demo_lookup) None None None None;
  fops_at := fun _ => Fops None None None None None;
  tops_at := fun _ => Tops (Some (fun _ _ _ => mret (-1))) None
}.

(** A root directory, and a second file system mounted on the dentry 20480. *)
Definition demo_vst : vst unit :=
  Vst demo_kst
    (<[4096 := Inode 1 VFS_S_IFDIR 1 8192 1 0 0]> {[ 12288 := demo_inode ]})
    (<[16384 := Dentry 1 [SLASH] 4096 0 0 0]>
      (<[20480 := Dentry 1 [109; 110; 116] 12288 16384 1 0]> {[ 24576 := Dentry 1 [SLASH] 4096 0 0 0 ]}))
    {[ 8192 := Super 0 1 7 16384 0 ]}
    (<[28672 := Mount 0 1 8192 0 16384 0]> {[ 32768 := Mount 0 1 8192 20480 24576 28672 ]})
    {[ 45056 := File 1 0 0 12288 0 0 ]}
    {[ 61440 := Fs_type (Some [105; 110; 105; 116]) 0 ]}
    0 32768 28672 16384 tt.


Lemma demo_registry : registry demo_vst [].
Proof. split; [done|constructor|done]. Qed.

Lemma demo_mounts_ok : mounts_ok demo_vst [32768; 28672].
Proof.
  split; [|done|].
  - split_and!; [done|done|]. eexists. split; [done|]. split_and!; [done|done|]. by eexists.
  - intros m x Hm Hx Hne. rewrite !elem_of_cons in Hm.
    destruct Hm as [->|[->|Hm%elem_of_nil]]; [| |done]; injection Hx as <-; [|done].
    eexists. split; [done|]. intros _. by eexists.
Qed.

Lemma vfs_registry_correct_witness :
  wp (rc ← vfs_register_fs 61440; found ← vfs_find_fs (Some [105; 110; 105; 116]);
      rc2 ← vfs_register_fs 61440; rc3 ← vfs_unregister_fs 61440;
      gone ← vfs_find_fs (Some [105; 110; 105; 116]); mret (rc, found, rc2, rc3, gone)) demo_vst
     (fun r s' => r = (VFS_OK, 61440, VFS_EEXIST, VFS_OK, 0) /\ registry s' []).
Proof.
  eapply (vfs_registry_correct 61440 _ _ _ demo_vst [] [32768; 28672]);
    [apply demo_registry|done|done|done|done|done|done|apply demo_mounts_ok|done| |done].
  intros m y Hm Hy. rewrite !elem_of_cons in Hm.
  destruct Hm as [->|[->|Hm%elem_of_nil]]; [| |done]; injection Hy as <-; right; by eexists.
Defined.

