(* ===== verification/Tables.v ===== *)
(** * Scanning a static table

    The registries of the kernel (initfs.c, devfs.c) are arrays walked by a
    [for] loop that acts on the first entry passing a test and returns.
    [scan] is that loop over any state, [first_at] what it finds. *)
From S2P Require Import Prelude.

#[local] Open Scope Z_scope.

(** The first entry from index [i] on that passes [test]. *)
Fixpoint first_at {A} (test : A -> bool) (l : list A) (i : Z) : option (Z * A) :=
  match l with
  | [] => None
  | x :: l' => if test x then Some (i, x) else first_at test l' (i + 1)
  end.

Lemma first_at_Some {A} (test : A -> bool) l i j x :
  first_at test l i = Some (j, x) -> i <= j /\ l !! Z.to_nat (j - i) = Some x /\ test x = true.
Proof.
  revert i. induction l as [|y l IH]; intros i; cbn [first_at]; [done|]. destruct (test y) eqn:E.
  - intros [= <- <-]. rewrite Z.sub_diag. done.
  - intros (Hle & Hl & Ht)%IH. split_and!; [lia| |done].
    replace (Z.to_nat (j - i)) with (S (Z.to_nat (j - (i + 1)))) by lia. done.
Qed.

Lemma first_at_None {A} (test : A -> bool) l i :
  first_at test l i = None <-> forall x, x ∈ l -> test x = false.
Proof.
  revert i. induction l as [|y l IH]; intros i; cbn [first_at].
  - split; [by intros _ x ?%elem_of_nil|done].
  - destruct (test y) eqn:E.
    + split; [done|]. intros H. rewrite (H y) in E; [done|]. apply elem_of_cons. by left.
    + rewrite IH. split.
      * intros H x [->|Hx]%elem_of_cons; [done|by apply H].
      * intros H x Hx. apply H, elem_of_cons. by right.
Qed.

Lemma first_at_app {A} (test : A -> bool) l l' i :
  first_at test (l ++ l') i =
  match first_at test l i with Some p => Some p | None => first_at test l' (i + Z.of_nat (length l)) end.
Proof.
  revert i. induction l as [|x l IH]; intros i; cbn [app first_at length].
  - by rewrite Z.add_0_r.
  - destruct (test x); [done|]. rewrite IH. replace (i + Z.of_nat (S (length l))) with (i + 1 + Z.of_nat (length l)) by lia. done.
Qed.

Definition table_load {St A} (get : St -> list A) (i : Z) : M St A := fun s =>
  match get s !! Z.to_nat i with Some x => Ok (x, s) | None => Stuck Fault end.

Definition scan_body {St R A} (get : St -> list A) (test : A -> bool) (act : Z -> A -> M St R)
    (i : Z) : M St (option R) :=
  x ← table_load get i;
  if test x then (r ← act i x; mret (Some r)) else mret None.

(** A [for] loop that acts on the first matching entry and returns. *)
Definition scan {St R A} (get : St -> list A) (test : A -> bool) (act : Z -> A -> M St R)
    (n : nat) : M St (option R) :=
  mfor n (scan_body get test act) 0.

Lemma scan_body_eq {St R A} (get : St -> list A) test (act : Z -> A -> M St R) i s x :
  get s !! Z.to_nat i = Some x ->
  scan_body get test act i s = if test x then (r ← act i x; mret (Some r)) s else Ok (None, s).
Proof. intros H. unfold scan_body, table_load, mbind at 1, M_bind at 1. rewrite H. by destruct (test x). Qed.

Lemma scan_from {St R A} (get : St -> list A) test (act : Z -> A -> M St R) l l0 s :
  get s = l0 ++ l ->
  mfor (length l) (scan_body get test act) (Z.of_nat (length l0)) s =
  match first_at test l (Z.of_nat (length l0)) with
  | Some (i, x) => (r ← act i x; mret (Some r)) s
  | None => Ok (None, s)
  end.
Proof.
  revert l0. induction l as [|x l IH]; intros l0 Hg; [done|]. cbn [length mfor first_at].
  unfold mbind at 1, M_bind at 1.
  rewrite (scan_body_eq _ _ _ _ _ x) by (by rewrite Hg, Nat2Z.id, list_lookup_middle).
  destruct (test x).
  - unfold mbind, M_bind. by destruct (act _ x s) as [[r s']|w].
  - specialize (IH (l0 ++ [x])). rewrite <- app_assoc in IH. specialize (IH Hg).
    rewrite length_app in IH. by replace (Z.of_nat (length l0 + length [x]))
      with (Z.of_nat (length l0) + 1) in IH by (simpl; lia).
Qed.

Lemma scan_spec {St R A} (get : St -> list A) test (act : Z -> A -> M St R) n s :
  length (get s) = n ->
  scan get test act n s =
  match first_at test (get s) 0 with
  | Some (i, x) => (r ← act i x; mret (Some r)) s
  | None => Ok (None, s)
  end.
Proof. intros <-. by apply (scan_from get test act (get s) [] s). Qed.

Lemma wp_scan {St R A} (get : St -> list A) test (act : Z -> A -> M St R) n s (Q : option R -> St -> Prop) :
  length (get s) = n ->
  match first_at test (get s) 0 with
  | Some (i, x) => wp (act i x) s (fun r => Q (Some r))
  | None => Q None s
  end -> wp (scan get test act n) s Q.
Proof.
  intros Hn H. unfold wp. rewrite scan_spec by done. destruct (first_at test (get s) 0) as [[i x]|]; [|done].
  unfold wp in H. unfold mbind, M_bind. by destruct (act i x s) as [[r s']|w].
Qed.
