(* ===== verification/Initfs.v ===== *)
(** * The initial root file system (src/src/kernel/initfs.c)

    A table of at most eight directory names.  Its state is one component of
    the file systems' static state, reached through [get_init]/[set_init]. *)
From S2P Require Import Prelude KMem Spinlock BuddySpec Buddy PageAlloc KString Vfs Tables.

#[local] Open Scope Z_scope.

Definition INITFS_MAX_DIRS : Z := 8.

(** [name] and [name_len] together are [id_name]. *)
Record initfs_dir := Initfs_dir { id_name : list Z; id_in_use : Z; id_ino : Z }.
Record initfs_state := Initfs_state { g_dirs : list initfs_dir; g_next_ino : Z }.

(** All zero but [g_next_ino]. *)
Definition initfs_start : initfs_state := Initfs_state (replicate 8 (Initfs_dir [] 0 0)) 2.

(** ** The operations *)

Section Initfs.
Context {FS : Type} `{PA : PageAllocator} `{VO : VfsOps FS}.
Context (get_init : FS -> initfs_state) (set_init : initfs_state -> FS -> FS).
(** The address of the static table [initfs_dir_iops]. *)
Context (initfs_dir_iops : Z).
#[local] Abbreviation V := (M (vst FS)).

Definition dirs_of (s : vst FS) : list initfs_dir := g_dirs (get_init (v_fs s)).
Definition upd_init (f : initfs_state -> initfs_state) : V unit :=
  mmodify (fun s => set_fs (set_init (f (get_init (v_fs s))) (v_fs s)) s).

Definition initfs_make_dir (sb ino : Z) : V Z :=
  v ← v_kalloc 1;
  if v =? 0 then mret 0
  else
    create v_inodes set_inodes v
      (Inode ino (Z.lor VFS_S_IFDIR 493) 1 sb initfs_dir_iops 0 0);;
    mret v.

(** [d->name_len == child->name_len && kstrcmp(d->name, child->name) == 0] *)
Definition dir_matches (name : list Z) (d : initfs_dir) : bool :=
  negb (id_in_use d =? 0) && (Nat.eqb (length (id_name d)) (length name)) && (str_diff (id_name d) name =? 0).

(** Point [child] at a new inode for directory [ino]. *)
Definition fill_child (dir child ino : Z) : V Z :=
  i ← load v_inodes dir;
  v ← initfs_make_dir (i_sb i) ino;
  upd_dentry child (set_d_inode v);;
  mret (if v =? 0 then VFS_ENOMEM else VFS_OK).

Definition initfs_lookup (dir child : Z) : V Z :=
  c ← load v_dentries child;
  r ← scan dirs_of (dir_matches (d_name c)) (fun _ d => fill_child dir child (id_ino d)) 8;
  mret (default VFS_ENOENT r).

Definition initfs_mkdir (dir child mode : Z) : V Z :=
  c ← load v_dentries child;
  r ← scan dirs_of (dir_matches (d_name c)) (fun _ _ => mret VFS_EEXIST) 8;
  match r with
  | Some rc => mret rc
  | None =>
      r ← scan dirs_of (fun d => id_in_use d =? 0) (fun i _ =>
        (* [char name[64]]: a longer name overruns it *)
        if 64 <=? Z.of_nat (length (d_name c)) then mstuck Fault
        else
          ino ← mgets (fun s => g_next_ino (get_init (v_fs s)));
          upd_init (fun st => Initfs_state (<[Z.to_nat i := Initfs_dir (d_name c) 1 ino]> (g_dirs st))
                                           (u32 (g_next_ino st + 1)));;
          fill_child dir child ino) 8;
      mret (default VFS_ENOMEM r)
  end.

(** [st] keeps what the caller had in the fields not set. *)
Definition initfs_getattr (v : Z) (st : vfs_stat) : V (Z * vfs_stat) :=
  i ← load v_inodes v;
  mret (VFS_OK, Stat (i_ino i) (i_mode i) 2 (st_uid st) (st_gid st) 0 (st_blocks st)
                     (st_atime st) (st_mtime st) (st_ctime st)).

Definition initfs_iops : vfs_inode_ops FS :=
  Iops (Some initfs_lookup) None (Some initfs_mkdir) None (Some initfs_getattr).

Definition initfs_mount_fs (sb dev opts : Z) : V Z :=
  root_ino ← initfs_make_dir sb 1;
  if root_ino =? 0 then mret VFS_ENOMEM
  else
    root_dent ← v_kalloc 1;
    if root_dent =? 0 then
      v_kfree root_ino 1;;
      destroy v_inodes set_inodes root_ino;;
      mret VFS_ENOMEM
    else
      create v_dentries set_dentries root_dent (Dentry 1 [SLASH] root_ino 0 0 0);;
      upd_super sb (set_sb_root root_dent);;
      mret VFS_OK.

Definition initfs_tops : vfs_type_ops FS := Tops (Some initfs_mount_fs) None.

(** [initfs_fs_type] is the static object at [type]. *)
Definition initfs_init (type : Z) : V unit := vfs_register_fs type;; mret tt.

(** ** What the table holds *)

(** The table for the names [names], the first with inode number [ino]. *)
Fixpoint entries (names : list (list Z)) (ino : Z) : list initfs_dir :=
  match names with
  | [] => []
  | n :: names' => Initfs_dir n 1 ino :: entries names' (ino + 1)
  end.

(** The inode number of [name]: names are numbered from [ino] on. *)
Fixpoint ino_of (names : list (list Z)) (ino : Z) (name : list Z) : option Z :=
  match names with
  | [] => None
  | n :: names' => if decide (n = name) then Some ino else ino_of names' (ino + 1) name
  end.

(** The file system of the directories [names], in the order they were made. *)
Record init_rep (names : list (list Z)) (s : vst FS) : Prop := {
  rep_dirs : dirs_of s = entries names 2 ++ replicate (8 - length names) (Initfs_dir [] 0 0);
  rep_next : g_next_ino (get_init (v_fs s)) = 2 + Z.of_nat (length names);
  rep_max : (length names <= 8)%nat;
  rep_nodup : NoDup names;
  rep_names : Forall (Forall (fun c => c <> 0)) names
}.

(** [child] names, in [s'], a fresh directory inode of number [ino]. *)
Definition names_dir (s s' : vst FS) (child sb ino : Z) : Prop :=
  exists v c, v <> 0 /\ v_dentries s !! child = Some c /\
    v_dentries s' = <[child := set_d_inode v c]> (v_dentries s) /\
    v_inodes s' = <[v := Inode ino (Z.lor VFS_S_IFDIR 493) 1 sb initfs_dir_iops 0 0]> (v_inodes s).

(** The inode number of a name: the first match. *)
Definition dir_ino (s : vst FS) (name : list Z) : option Z :=
  (fun p => id_ino p.2) <$> first_at (dir_matches name) (dirs_of s) 0.

Hypothesis lens : forall x st, get_init (set_init x st) = x.

Lemma dir_matches_spec name d :
  Forall (fun c => c <> 0) name -> (id_in_use d <> 0 -> Forall (fun c => c <> 0) (id_name d)) ->
  dir_matches name d = bool_decide (id_in_use d <> 0 /\ id_name d = name).
Proof.
  intros Hn Hd. unfold dir_matches. destruct (Z.eqb_spec (id_in_use d) 0) as [E|E]; cbn [negb andb].
  - symmetry. apply bool_decide_eq_false. by intros [H _].
  - destruct (decide (id_name d = name)) as [->|Hne].
    + rewrite Nat.eqb_refl, str_diff_same. symmetry. by apply bool_decide_eq_true.
    + symmetry. rewrite bool_decide_eq_false_2 by (intros [_ H]; done).
      rewrite (proj2 (Z.eqb_neq _ _)), andb_false_r; [done|].
      intros H. apply Hne. by apply str_diff_zero_eq; [apply Hd|..].
Qed.

Lemma fill_child_spec ps dir child ino c i s :
  pa_inv ps (v_k s) -> ps <> [] -> v_inodes s !! dir = Some i -> v_dentries s !! child = Some c ->
  wp (fill_child dir child ino) s (fun rc s' => rc = VFS_OK /\ exists v, v <> 0 /\
    v_fs s' = v_fs s /\ v_dentries s' = <[child := set_d_inode v c]> (v_dentries s) /\
    v_inodes s' = <[v := Inode ino (Z.lor VFS_S_IFDIR 493) 1 (i_sb i) initfs_dir_iops 0 0]> (v_inodes s) /\
    v_mounts s' = v_mounts s /\ g_mounts s' = g_mounts s /\
    exists qs, ps ≡ₚ (v / 4096) :: qs /\ pa_inv qs (v_k s')).
Proof.
  intros Hps Hne Hi Hc. unfold fill_child. wp_step. eapply wp_run; [unfold load; by rewrite Hi|].
  unfold initfs_make_dir. wp_step. wp_step. eapply wp_mono; [by apply v_alloc_page|].
  intros v s1 (Hv & k & qs & -> & Hq & Hk). rewrite (proj2 (Z.eqb_neq _ _) Hv).
  wp_step. apply wp_modify. wp_step. wp_step.
  eapply wp_run; [unfold upd_dentry, update; cbn; by rewrite Hc|]. wp_step.
  rewrite (proj2 (Z.eqb_neq _ _) Hv). split; [done|]. exists v. split_and!; try done. by exists qs.
Qed.

Lemma entries_length names ino : length (entries names ino) = length names.
Proof. revert ino. induction names as [|n names IH]; intros ino; cbn; [done|by rewrite IH]. Qed.

Lemma entries_snoc names ino n :
  entries (names ++ [n]) ino = entries names ino ++ [Initfs_dir n 1 (ino + Z.of_nat (length names))].
Proof.
  revert ino. induction names as [|m names IH]; intros ino; cbn; [by rewrite Z.add_0_r|].
  rewrite IH. do 4 f_equal. lia.
Qed.

Lemma rep_length names s : init_rep names s -> length (dirs_of s) = 8%nat.
Proof.
  intros [-> _ Hm _ _]. rewrite length_app, entries_length, length_replicate. lia.
Qed.

Lemma ino_of_None names ino name : ino_of names ino name = None <-> name ∉ names.
Proof.
  revert ino. induction names as [|n names IH]; intros ino; cbn.
  - split; [by intros _ ?%elem_of_nil|done].
  - rewrite elem_of_cons. destruct (decide (n = name)) as [->|Hne]; [|rewrite IH].
    + split; [done|]. intros []. by left.
    + split; [|tauto]. intros H [<-|Hin]; done.
Qed.

(** The scan for a name answers from the list of names. *)
Lemma dir_ino_rep names s name :
  init_rep names s -> Forall (fun c => c <> 0) name -> dir_ino s name = ino_of names 2 name.
Proof.
  intros [Hd _ _ _ Hn] Hname. unfold dir_ino. rewrite Hd, first_at_app, entries_length.
  rewrite (proj2 (first_at_None _ (replicate _ _) _)).
  2:{ by intros x [-> _]%elem_of_replicate. }
  generalize 0, 2. clear Hd. induction Hn as [|n names Hnz Hn IH]; intros i ino; cbn [entries ino_of first_at]; [done|].
  rewrite dir_matches_spec by done. cbn [id_in_use id_name].
  destruct (decide (n = name)) as [->|Hne].
  - rewrite bool_decide_eq_true_2 by done. done.
  - rewrite bool_decide_eq_false_2 by (intros [_ H]; done). apply IH.
Qed.

(** The first free entry comes right after the used ones. *)
Lemma first_free_rep names s :
  init_rep names s ->
  first_at (fun d => id_in_use d =? 0) (dirs_of s) 0 =
  if Nat.eqb (length names) 8 then None else Some (Z.of_nat (length names), Initfs_dir [] 0 0).
Proof.
  intros [-> _ Hm _ _]. rewrite first_at_app, entries_length.
  rewrite (proj2 (first_at_None _ (entries _ _) _)).
  - destruct (Nat.eqb_spec (length names) 8) as [->|Hne]; [done|].
    by replace (8 - length names)%nat with (S (7 - length names)) by lia.
  - generalize 2. induction names as [|n names IH]; intros ino x; cbn; [by intros ?%elem_of_nil|].
    intros [->|Hx]%elem_of_cons; [done|]. apply (IH ltac:(cbn in Hm; lia) (ino + 1) x Hx).
Qed.

Lemma initfs_lookup_spec dir child s c :
  length (dirs_of s) = 8%nat -> v_dentries s !! child = Some c ->
  initfs_lookup dir child s =
    match dir_ino s (d_name c) with
    | Some ino => fill_child dir child ino s
    | None => Ok (VFS_ENOENT, s)
    end.
Proof.
  intros Hlen Hc. unfold initfs_lookup, mbind, M_bind, load. rewrite Hc.
  rewrite scan_spec by done. unfold dir_ino.
  destruct (first_at _ (dirs_of s) 0) as [[j d]|]; [|done]. cbn. unfold mbind, M_bind.
  by destruct (fill_child dir child (id_ino d) s) as [[r s']|w].
Qed.

(** The table entry [initfs_mkdir] writes. *)
Definition add_dir (j : Z) (name : list Z) (s : vst FS) : vst FS :=
  let st := get_init (v_fs s) in
  set_fs (set_init (Initfs_state (<[Z.to_nat j := Initfs_dir name 1 (g_next_ino st)]> (g_dirs st))
                                 (u32 (g_next_ino st + 1))) (v_fs s)) s.

Lemma initfs_mkdir_spec dir child mode s c :
  length (dirs_of s) = 8%nat -> v_dentries s !! child = Some c -> Z.of_nat (length (d_name c)) < 64 ->
  initfs_mkdir dir child mode s =
    match dir_ino s (d_name c), first_at (fun d => id_in_use d =? 0) (dirs_of s) 0 with
    | Some _, _ => Ok (VFS_EEXIST, s)
    | None, None => Ok (VFS_ENOMEM, s)
    | None, Some (j, _) => fill_child dir child (g_next_ino (get_init (v_fs s))) (add_dir j (d_name c) s)
    end.
Proof.
  intros Hlen Hc Hn. unfold initfs_mkdir, dir_ino.
  unfold mbind at 1 2, M_bind at 1 2, load. rewrite Hc, scan_spec by done.
  destruct (first_at (dir_matches (d_name c)) (dirs_of s) 0) as [[j d]|]; [done|]. cbn [fmap option_fmap option_map].
  unfold mbind at 1, M_bind at 1. rewrite scan_spec by done.
  destruct (first_at _ (dirs_of s) 0) as [[j d]|]; [|done].
  rewrite (proj2 (Z.leb_gt _ _)) by lia. unfold mbind, M_bind, mgets, upd_init, mmodify. unfold add_dir.
  match goal with |- context [fill_child dir child ?n ?t] => destruct (fill_child dir child n t) as [[r s']|w] end; done.
Qed.

(** Recording a new name at the first free entry. *)
Lemma add_dir_rep names name s :
  init_rep names s -> (length names < 8)%nat -> name ∉ names -> Forall (fun c => c <> 0) name ->
  init_rep (names ++ [name]) (add_dir (Z.of_nat (length names)) name s).
Proof.
  intros [Hd Hnx _ Hnd Hn] Hlt Hni Hnz. unfold add_dir, dirs_of in *. split; cbn.
  - unfold dirs_of. cbn. rewrite lens, Hd, Hnx, Nat2Z.id, entries_snoc, length_app. cbn.
    rewrite insert_app_r_alt by (rewrite entries_length; lia). rewrite entries_length, Nat.sub_diag.
    rewrite <- app_assoc. f_equal.
    by replace (8 - length names)%nat with (S (8 - (length names + 1))) by lia.
  - rewrite lens, length_app. cbn. rewrite Hnx, u32_small by lia. lia.
  - rewrite length_app. cbn. lia.
  - apply NoDup_app. split_and!; [done| |by apply NoDup_singleton].
    by intros x Hx ->%list_elem_of_singleton.
  - apply Forall_app. split; [done|]. by apply Forall_singleton.
Qed.

Lemma fill_child_rep names ps dir child ino c i s0 s :
  init_rep names s -> v_dentries s = v_dentries s0 -> v_inodes s = v_inodes s0 ->
  pa_inv ps (v_k s) -> ps <> [] -> v_inodes s !! dir = Some i -> v_dentries s !! child = Some c ->
  wp (fill_child dir child ino) s (fun rc s' => rc = VFS_OK /\ init_rep names s' /\
    names_dir s0 s' child (i_sb i) ino).
Proof.
  intros Hr Ed Ei Hp Hne Hi Hc. eapply wp_mono; [by eapply fill_child_spec|].
  intros rc s' (-> & v & Hv & Ef & Ed' & Ei' & _). split; [done|]. split.
  - destruct Hr as [Hd Hnx Hm Hnd Hn]. unfold dirs_of in *. split; unfold dirs_of; rewrite ?Ef; done.
  - exists v, c. rewrite <- Ed, <- Ei. done.
Qed.

(** Initfs_mkdir implements "append a name to a list of at most eight": a
    name already there is refused with EEXIST, a ninth directory with ENOMEM,
    both without a change; otherwise the name is appended, gets the next inode
    number, and the dentry names a new directory inode of that number. *)
Lemma initfs_mkdir_refines names ps dir child mode c i s :
  init_rep names s -> Forall (fun b => b <> 0) (d_name c) -> Z.of_nat (length (d_name c)) < 64 ->
  pa_inv ps (v_k s) -> ps <> [] -> v_inodes s !! dir = Some i -> v_dentries s !! child = Some c ->
  wp (initfs_mkdir dir child mode) s (fun rc s' =>
    if decide (d_name c ∈ names) then rc = VFS_EEXIST /\ s' = s
    else if Nat.eqb (length names) 8 then rc = VFS_ENOMEM /\ s' = s
    else rc = VFS_OK /\ init_rep (names ++ [d_name c]) s' /\
         names_dir s s' child (i_sb i) (2 + Z.of_nat (length names))).
Proof.
  intros Hr Hnz Hlen Hp Hne Hi Hc. unfold wp.
  rewrite (initfs_mkdir_spec _ _ _ _ _ (rep_length _ _ Hr) Hc Hlen).
  rewrite (dir_ino_rep names), (first_free_rep names) by done.
  destruct (ino_of names 2 (d_name c)) as [ino|] eqn:E.
  - rewrite decide_True; [done|]. destruct (decide (d_name c ∈ names)) as [|Hni]; [done|].
    apply (ino_of_None names 2) in Hni. by rewrite Hni in E.
  - apply ino_of_None in E. destruct (decide (d_name c ∈ names)) as [|_]; [done|].
    destruct (Nat.eqb_spec (length names) 8) as [|Hn8]; [done|].
    pose proof (rep_max _ _ Hr). rewrite (rep_next _ _ Hr).
    by apply (fill_child_rep _ ps _ _ _ c); [apply add_dir_rep; [|lia|..]|..].
Qed.

(** initfs_lookup finds exactly the names made so far: it fills the dentry
    with a new directory inode bearing the number the name was given, and
    answers ENOENT, changing nothing, for any other name. *)
Lemma initfs_lookup_refines names ps dir child c i s :
  init_rep names s -> Forall (fun b => b <> 0) (d_name c) ->
  pa_inv ps (v_k s) -> ps <> [] -> v_inodes s !! dir = Some i -> v_dentries s !! child = Some c ->
  wp (initfs_lookup dir child) s (fun rc s' =>
    match ino_of names 2 (d_name c) with
    | Some ino => rc = VFS_OK /\ init_rep names s' /\ names_dir s s' child (i_sb i) ino
    | None => rc = VFS_ENOENT /\ s' = s
    end).
Proof.
  intros Hr Hnz Hp Hne Hi Hc. unfold wp. rewrite (initfs_lookup_spec _ _ _ _ (rep_length _ _ Hr) Hc).
  rewrite (dir_ino_rep names) by done. destruct (ino_of names 2 (d_name c)) as [ino|]; [|done].
  by apply (fill_child_rep _ ps _ _ _ c).
Qed.

(** The directory a name is looked up in plays no part: two directories of
    the same superblock give the same answer and the same state, so a
    directory is found under every other one. *)
Lemma initfs_flat dir1 dir2 i1 i2 child c s :
  v_inodes s !! dir1 = Some i1 -> v_inodes s !! dir2 = Some i2 -> i_sb i1 = i_sb i2 ->
  length (dirs_of s) = 8%nat -> v_dentries s !! child = Some c ->
  initfs_lookup dir1 child s = initfs_lookup dir2 child s.
Proof.
  intros H1 H2 Hsb Hlen Hc. rewrite !(initfs_lookup_spec _ _ _ _ Hlen Hc).
  destruct (dir_ino s (d_name c)); [|done]. unfold fill_child, mbind, M_bind, load.
  by rewrite H1, H2, Hsb.
Qed.
End Initfs.

(** ** Witnesses *)

Definition demo_initfs : vst initfs_state :=
  Vst demo_kst
    (<[4096 := Inode 1 16877 1 8192 1 0 0]> {[ 12288 := Inode 2 16877 1 8192 1 0 0 ]})
    {[ 20480 := Dentry 1 [117; 115; 114] 0 16384 0 0 ]} ∅ ∅ ∅ ∅ 0 0 0 0 initfs_start.

(** A table holding the directory "usr". *)
Definition demo_initfs_usr : vst initfs_state :=
  set_fs (Initfs_state (Initfs_dir [117; 115; 114] 1 2 :: replicate 7 (Initfs_dir [] 0 0)) 3) demo_initfs.

#[local] Abbreviation id_get := (fun st : initfs_state => st).
#[local] Abbreviation id_set := (fun (x _ : initfs_state) => x).

Lemma demo_rep0 : init_rep id_get [] demo_initfs.
Proof. split; [done|done|simpl; lia|constructor|constructor]. Qed.

Lemma initfs_mkdir_refines_witness :
  wp (initfs_mkdir id_get id_set 1 4096 20480 493) demo_initfs (fun rc s' =>
    rc = VFS_OK /\ init_rep id_get [[117; 115; 114]] s' /\ names_dir 1 demo_initfs s' 20480 8192 2).
Proof.
  apply (initfs_mkdir_refines id_get id_set 1 (fun _ _ => eq_refl) [] demo_pages 4096 20480 493
    (Dentry 1 [117; 115; 114] 0 16384 0 0) (Inode 1 16877 1 8192 1 0 0) demo_initfs);
    [apply demo_rep0|by repeat constructor|done|apply demo_inv|done..].
Defined.

