(* ===== verification/Serial.v ===== *)
(** * The serial line (src/src/kernel/serial.c, serial.h)

    The port instructions of x86.h act on a 16550 UART: its registers, the
    bytes that went out on the wire, and the answers it will give when the line
    status is read (a stream, of which [u_reads] are used up).  A byte written to
    the data register is a divisor byte while DLAB is set and stays in the chip
    while the loop-back bit is set. *)
From S2P Require Import Prelude.

#[local] Open Scope Z_scope.

Definition SERIAL_COM1 : Z := 1016.
Definition PORT : Z := SERIAL_COM1.
Definition UART_DATA : Z := 0.
Definition UART_IER : Z := 1.
Definition UART_FCR : Z := 2.
Definition UART_LCR : Z := 3.
Definition UART_MCR : Z := 4.
Definition UART_LSR : Z := 5.
Definition UART_DLL : Z := 0.
Definition UART_DLH : Z := 1.
Definition UART_LCR_DLAB : Z := 128.
Definition UART_LCR_8N1 : Z := 3.
Definition UART_LSR_THRE : Z := 32.
Definition UART_FCR_ENABLE : Z := 199.
Definition UART_MCR_DTR : Z := 1.
Definition UART_MCR_RTS : Z := 2.
Definition UART_MCR_OUT2 : Z := 8.
Definition UART_MCR_LOOP : Z := 16.
Definition UART_BAUD_DIVISOR : Z := 3.
Definition UART_LOOPBACK_TEST : Z := 174.

Record uart := Uart {
  u_ier : Z; u_fcr : Z; u_lcr : Z; u_mcr : Z; u_dll : Z; u_dlh : Z;
  u_wire : list Z;
  u_lsr : nat -> Z;
  u_reads : nat
}.

Definition bit_set (x bit : Z) : bool := negb (Z.land x bit =? 0).

Definition outb (port v : Z) : M uart unit := fun u =>
  let v := u8 v in
  let r := port - PORT in
  Ok (tt,
    if r =? UART_DATA then
      if bit_set (u_lcr u) UART_LCR_DLAB
      then Uart (u_ier u) (u_fcr u) (u_lcr u) (u_mcr u) v (u_dlh u) (u_wire u) (u_lsr u) (u_reads u)
      else if bit_set (u_mcr u) UART_MCR_LOOP then u
      else Uart (u_ier u) (u_fcr u) (u_lcr u) (u_mcr u) (u_dll u) (u_dlh u) (u_wire u ++ [v]) (u_lsr u) (u_reads u)
    else if r =? UART_IER then
      if bit_set (u_lcr u) UART_LCR_DLAB
      then Uart (u_ier u) (u_fcr u) (u_lcr u) (u_mcr u) (u_dll u) v (u_wire u) (u_lsr u) (u_reads u)
      else Uart v (u_fcr u) (u_lcr u) (u_mcr u) (u_dll u) (u_dlh u) (u_wire u) (u_lsr u) (u_reads u)
    else if r =? UART_FCR then
      Uart (u_ier u) v (u_lcr u) (u_mcr u) (u_dll u) (u_dlh u) (u_wire u) (u_lsr u) (u_reads u)
    else if r =? UART_LCR then
      Uart (u_ier u) (u_fcr u) v (u_mcr u) (u_dll u) (u_dlh u) (u_wire u) (u_lsr u) (u_reads u)
    else if r =? UART_MCR then
      Uart (u_ier u) (u_fcr u) (u_lcr u) v (u_dll u) (u_dlh u) (u_wire u) (u_lsr u) (u_reads u)
    else u).

(** [inb(PORT + UART_LSR)] *)
Definition inb_lsr : M uart Z := fun u =>
  Ok (u8 (u_lsr u (u_reads u)),
      Uart (u_ier u) (u_fcr u) (u_lcr u) (u_mcr u) (u_dll u) (u_dlh u) (u_wire u) (u_lsr u) (S (u_reads u))).

Definition init_serial : M uart unit :=
  outb (PORT + UART_IER) 0;;
  outb (PORT + UART_LCR) UART_LCR_DLAB;;
  outb (PORT + UART_DLL) UART_BAUD_DIVISOR;;
  outb (PORT + UART_DLH) 0;;
  outb (PORT + UART_LCR) UART_LCR_8N1;;
  outb (PORT + UART_FCR) UART_FCR_ENABLE;;
  outb (PORT + UART_MCR) (Z.lor (Z.lor UART_MCR_DTR UART_MCR_RTS) UART_MCR_OUT2);;
  outb (PORT + UART_MCR) (Z.lor (Z.lor (Z.lor UART_MCR_DTR UART_MCR_RTS) UART_MCR_OUT2) UART_MCR_LOOP);;
  outb (PORT + UART_DATA) UART_LOOPBACK_TEST;;
  outb (PORT + UART_MCR) (Z.lor (Z.lor UART_MCR_DTR UART_MCR_RTS) UART_MCR_OUT2).

Definition is_transmit_empty : M uart Z := x ← inb_lsr; mret (Z.land x UART_LSR_THRE).

(** One round of the polling loop. *)
Definition poll (_ : unit) : M uart (unit + unit) :=
  e ← is_transmit_empty; mret (if e =? 0 then inl tt else inr tt).

Definition serial_putc (c : Z) : M uart unit :=
  mloop poll tt;;
  outb (PORT + UART_DATA) c.

Fixpoint serial_puts (s : list Z) : M uart unit :=
  match s with [] => mret tt | c :: s' => serial_putc c;; serial_puts s' end.

(** ** The line *)

(** The transmitter empties: from any read on, one of the next reads finds the
    holding register empty. *)
Definition drains (lsr : nat -> Z) : Prop :=
  forall k, exists d, Z.of_nat d < 2 ^ 63 /\ Z.land (u8 (lsr (k + d)%nat)) UART_LSR_THRE <> 0.

(** Set up for output: no divisor access, no loop-back. *)
Record line_ready (u : uart) : Prop := {
  line_dlab : bit_set (u_lcr u) UART_LCR_DLAB = false;
  line_loop : bit_set (u_mcr u) UART_MCR_LOOP = false;
  line_drains : drains (u_lsr u)
}.

Definition after_reads (u : uart) (reads : nat) : uart :=
  Uart (u_ier u) (u_fcr u) (u_lcr u) (u_mcr u) (u_dll u) (u_dlh u) (u_wire u) (u_lsr u) reads.

Lemma poll_eq u :
  poll tt u = Ok (if Z.land (u8 (u_lsr u (u_reads u))) UART_LSR_THRE =? 0 then inl tt else inr tt,
                  after_reads u (S (u_reads u))).
Proof. done. Qed.

Lemma poll_runs d u :
  Z.land (u8 (u_lsr u (u_reads u + d)%nat)) UART_LSR_THRE <> 0 ->
  exists reads k, 0 <= k <= Z.of_nat d /\ runs poll tt u (Ok (tt, after_reads u reads)) k.
Proof.
  revert u. induction d as [|d IH]; intros u Hb.
  - rewrite Nat.add_0_r in Hb. exists (S (u_reads u)), 0. split; [lia|]. apply runs_stop.
    rewrite poll_eq. by rewrite (proj2 (Z.eqb_neq _ _) Hb).
  - destruct (Z.eqb_spec (Z.land (u8 (u_lsr u (u_reads u))) UART_LSR_THRE) 0) as [E|E].
    + destruct (IH (after_reads u (S (u_reads u)))) as (reads & k & Hk & Hr).
      { cbn. by replace (S (u_reads u + d)) with (u_reads u + S d)%nat by lia. }
      exists reads, (k + 1). split; [lia|]. eapply runs_next; [|exact Hr|lia]. by rewrite poll_eq, E.
    + exists (S (u_reads u)), 0. split; [lia|]. apply runs_stop.
      rewrite poll_eq. by rewrite (proj2 (Z.eqb_neq _ _) E).
Qed.

Lemma poll_run u : drains (u_lsr u) -> exists reads, mloop poll tt u = Ok (tt, after_reads u reads).
Proof.
  intros Hd. destruct (Hd (u_reads u)) as (d & Hlt & Hb). destruct (poll_runs d u Hb) as (reads & k & Hk & Hr).
  exists reads. apply (mloop_runs _ _ _ _ _ Hr). lia.
Qed.

Lemma serial_putc_run c u :
  line_ready u ->
  wp (serial_putc c) u (fun _ u' => line_ready u' /\ u_wire u' = u_wire u ++ [u8 c] /\
    u_dll u' = u_dll u /\ u_dlh u' = u_dlh u /\ u_ier u' = u_ier u).
Proof.
  intros [H1 H2 H3]. unfold serial_putc. wp_step. destruct (poll_run u H3) as [reads E].
  eapply wp_run; [exact E|]. eapply wp_run; [reflexivity|].
  change (PORT + UART_DATA - PORT =? UART_DATA) with true. cbn -[bit_set].
  rewrite H1, H2. by split; [split|].
Qed.

Lemma serial_puts_run s u :
  line_ready u ->
  wp (serial_puts s) u (fun _ u' => line_ready u' /\ u_wire u' = u_wire u ++ (u8 <$> s) /\
    u_dll u' = u_dll u /\ u_dlh u' = u_dlh u /\ u_ier u' = u_ier u).
Proof.
  revert u. induction s as [|c s IH]; intros u Hu; cbn [serial_puts].
  - wp_step. by rewrite app_nil_r.
  - wp_step. eapply wp_mono; [by apply serial_putc_run|]. intros _ u1 (H1 & E1 & E2 & E3 & E4).
    eapply wp_mono; [by apply IH|]. intros _ u2 (H2 & F1 & F2 & F3 & F4).
    rewrite F1, E1, <- app_assoc, F2, F3, F4. done.
Qed.

Lemma init_serial_run u :
  bit_set (u_lcr u) UART_LCR_DLAB = false ->
  init_serial u = Ok (tt, Uart 0 UART_FCR_ENABLE UART_LCR_8N1 11 UART_BAUD_DIVISOR 0 (u_wire u) (u_lsr u) (u_reads u)).
Proof.
  intros H. unfold init_serial. unfold mbind at 1, M_bind at 1.
  assert (outb (PORT + UART_IER) 0 u =
    Ok (tt, Uart 0 (u_fcr u) (u_lcr u) (u_mcr u) (u_dll u) (u_dlh u) (u_wire u) (u_lsr u) (u_reads u))) as ->.
  { unfold outb. cbn -[bit_set]. by rewrite H. }
  reflexivity.
Qed.

(** Setting the UART up and then printing a string puts exactly the string
    on the wire: the loop-back test byte and the divisor bytes do not leave the
    chip, the divisor is 3, interrupts are off, and, as the transmitter drains,
    the calls return. *)
Lemma serial_line s u :
  bit_set (u_lcr u) UART_LCR_DLAB = false -> drains (u_lsr u) ->
  wp (init_serial;; serial_puts s) u (fun _ u' =>
    u_wire u' = u_wire u ++ (u8 <$> s) /\ u_dll u' + 256 * u_dlh u' = UART_BAUD_DIVISOR /\ u_ier u' = 0).
Proof.
  intros Hl Hd. wp_step. eapply wp_run; [by apply init_serial_run|].
  eapply wp_mono; [by apply serial_puts_run|]. intros r u' (_ & -> & -> & -> & ->). done.
Qed.

(** A line that is busy at every other read. *)
Definition demo_uart : uart := Uart 7 0 0 0 0 0 [] (fun n => if Nat.even n then 0 else 96) 0.

