(* ===== verification/Print.v ===== *)
(** * Formatted output (src/src/kernel/print.c)

    [putc] sends a byte to the serial line and to the framebuffer console.
    What the formatter needs of the two is the interface [Console]; its theorems
    hold for every implementation of it.  A [const char *] is the list of its
    bytes without the terminator, a [va_list] the list of arguments left. *)
From S2P Require Import Prelude.

#[local] Open Scope Z_scope.

(** ** The console interface *)

Class Console (St : Type) := {
  serial_putc : Z -> M St unit;
  kconsole_putc : Z -> M St unit;
  con_inv : St -> Prop;
  (** The bytes sent down the serial line so far. *)
  con_out : St -> list Z;
  serial_putc_out c s : con_inv s ->
    wp (serial_putc c) s (fun _ s' => con_inv s' /\ con_out s' = con_out s ++ [u8 c]);
  kconsole_putc_out c s : con_inv s ->
    wp (kconsole_putc c) s (fun _ s' => con_inv s' /\ con_out s' = con_out s)
}.

(** ** Local buffers *)

(** [char buf[n]]: [None] is a byte not written yet. *)
Abbreviation cbuf := (list (option Z)).
Definition buf_set (i v : Z) : M cbuf unit := fun b =>
  if (0 <=? i) && (i <? Z.of_nat (length b)) then Ok (tt, <[Z.to_nat i := Some v]> b) else Stuck Fault.
Definition buf_get (b : cbuf) (i : Z) : option Z :=
  if 0 <=? i then match b !! Z.to_nat i with Some (Some v) => Some v | _ => None end else None.
Definition buf_load (i : Z) : M cbuf Z := fun b =>
  match buf_get b i with Some v => Ok (v, b) | None => Stuck Fault end.

(** Run [m] on a fresh buffer of [n] bytes. *)
Definition with_buf {St A} (n : nat) (m : M cbuf A) : M St (A * cbuf) := fun s =>
  match m (replicate n None) with Ok r => Ok (r, s) | Stuck w => Stuck w end.

(** ** Number formatting *)

(** [while (n > 0) { buf[i++] = digit(n); n = rest(n); }] *)
Definition digit_loop (digit rest : Z -> Z) (n : Z) : M cbuf Z :=
  mloop (fun st : Z * Z =>
    let '(i, n) := st in
    if 0 <? n then buf_set i (digit n);; mret (inl (i + 1, rest n)) else mret (inr i)) (0, n).

Definition dec_digit (n : Z) : Z := 48 + n mod 10.
Definition dec_rest (n : Z) : Z := n / 10.
Definition nibble_char (nib : Z) : Z := if nib <? 10 then 48 + nib else 97 + nib - 10.
Definition hex_digit (n : Z) : Z := nibble_char (u8 (Z.land n 15)).
Definition hex_rest (n : Z) : Z := Z.shiftr n 4.

(** The body of the loop that reverses [buf[0 .. i-1]]. *)
Definition swap_ends (i j : Z) : M cbuf (option unit) :=
  t ← buf_load j;
  x ← buf_load (i - 1 - j);
  buf_set j x;;
  buf_set (i - 1 - j) t;;
  mret None.

Definition fmt_number (digit rest : Z -> Z) (n : Z) : M cbuf Z :=
  if n =? 0 then buf_set 0 48;; mret 1
  else
    i ← digit_loop digit rest n;
    mfor (Z.to_nat (i / 2)) (swap_ends i) 0;;
    mret i.

Definition fmt_dec : Z -> M cbuf Z := fmt_number dec_digit dec_rest.
Definition fmt_hex : Z -> M cbuf Z := fmt_number hex_digit hex_rest.

(** ** Output *)

(** An argument: a 64-bit word, or a string pointer ([None] when null). *)
Inductive parg := Word (x : Z) | Str (s : option (list Z)).

Section Print.
Context {St : Type} `{CO : Console St}.

Definition putc (c : Z) : M St unit := serial_putc c;; kconsole_putc c.

Fixpoint puts (s : list Z) : M St unit :=
  match s with [] => mret tt | c :: s' => putc c;; puts s' end.

(** [for (int i = 0; i < len; i++) putc(buf[i]);] *)
Definition emit_body (b : cbuf) (i : Z) : M St (option unit) :=
  match buf_get b i with Some c => putc c;; mret None | None => mstuck Fault end.
Definition emit (b : cbuf) (len : Z) : M St unit := mfor (Z.to_nat len) (emit_body b) 0;; mret tt.

(** [while (--i >= 0) putc(buf[i]);] *)
Definition putdec (n : Z) : M St unit :=
  if n =? 0 then putc 48
  else
    r ← with_buf 20 (digit_loop dec_digit dec_rest n);
    let '(i, b) := r in
    mfor (Z.to_nat i) (fun k => emit_body b (i - 1 - k)) 0;;
    mret tt.

Definition hex_body (n digits k : Z) : M St (option unit) :=
  let i := digits - 1 - k in
  putc (nibble_char (u8 (Z.land (Z.shiftr n (i * 4)) 15)));;
  mret None.
Definition puthex_n (n digits : Z) : M St unit := mfor (Z.to_nat digits) (hex_body n digits) 0;; mret tt.

Definition puthex8 (n : Z) : M St unit := puthex_n (u8 n) 2.
Definition puthex16 (n : Z) : M St unit := puthex_n (u16 n) 4.
Definition puthex32 (n : Z) : M St unit := puthex_n (u32 n) 8.
Definition puthex64 (n : Z) : M St unit := puthex_n (u64 n) 16.

(** The highest non-zero nibble, counting down from [digits]. *)
Fixpoint trim_digits (n : Z) (digits : nat) : nat :=
  match digits with
  | S (S d as k) => if Z.land (Z.shiftr n (Z.of_nat (S d) * 4)) 15 =? 0 then trim_digits n k else digits
  | _ => digits
  end.
Definition puthex (n : Z) : M St unit :=
  if n =? 0 then putc 48 else puthex_n n (Z.of_nat (trim_digits n 16)).

Definition strlen_ (s : list Z) : Z := i32 (Z.of_nat (length s)).

Definition pad (count c : Z) : M St unit :=
  mfor (Z.to_nat count) (fun _ => putc c;; mret (None : option unit)) 0;; mret tt.

(** *** [do_vprintf] *)

(** The flags [left_align], [zero_pad] and [center]. *)
Record flags := Flags { left_align : bool; zero_pad : bool; center : bool }.

Fixpoint parse_flags (fmt : list Z) (f : flags) : flags * list Z :=
  match fmt with
  | c :: fmt' =>
      if c =? 45 then parse_flags fmt' (Flags true (zero_pad f) (center f))
      else if c =? 48 then parse_flags fmt' (Flags (left_align f) true (center f))
      else if c =? 94 then parse_flags fmt' (Flags (left_align f) (zero_pad f) true)
      else (f, fmt)
  | [] => (f, fmt)
  end.

Definition settle_flags (f : flags) : flags :=
  if left_align f || center f then Flags (left_align f) false (center f) else f.

Fixpoint parse_width (fmt : list Z) (width : Z) : Z * list Z :=
  match fmt with
  | c :: fmt' =>
      if (48 <=? c) && (c <=? 57) then parse_width fmt' (i32 (width * 10 + (c - 48))) else (width, fmt)
  | [] => (width, fmt)
  end.

Definition va_word (args : list parg) : M St (Z * list parg) :=
  match args with Word x :: args' => mret (x, args') | _ => mstuck Fault end.
Definition va_str (args : list parg) : M St (option (list Z) * list parg) :=
  match args with Str s :: args' => mret (s, args') | _ => mstuck Fault end.

(** "(null)" *)
Definition null_text : list Z := [40; 110; 117; 108; 108; 41].

(** [-n] wraps for the least [i64]. *)
Definition conv_d (f : flags) (width : Z) (args : list parg) : M St (list parg) :=
  a ← va_word args;
  let n := i64 a.1 in
  let neg := n <? 0 in
  let n := if neg then i64 (- n) else n in
  r ← with_buf 24 (fmt_dec (u64 n));
  let '(len, buf) := r in
  let total := len + (if neg then 1 else 0) in
  (if negb (left_align f) && negb (zero_pad f) then pad (width - total) 32 else mret tt);;
  (if neg then putc 45 else mret tt);;
  (if negb (left_align f) && zero_pad f then pad (width - total) 48 else mret tt);;
  emit buf len;;
  (if left_align f then pad (width - total) 32 else mret tt);;
  mret a.2.

(** ['u'] and ['x'], and ['X'] with its prefix. *)
Definition conv_unsigned (fmt_n : Z -> M cbuf Z) (prefix : list Z) (f : flags) (width : Z)
    (args : list parg) : M St (list parg) :=
  let padchar := if zero_pad f then 48 else 32 in
  a ← va_word args;
  r ← with_buf 24 (fmt_n (u64 a.1));
  let '(len, buf) := r in
  let total := len + Z.of_nat (length prefix) in
  (if negb (left_align f) then pad (width - total) padchar else mret tt);;
  puts prefix;;
  emit buf len;;
  (if left_align f then pad (width - total) 32 else mret tt);;
  mret a.2.

Definition conv_s (f : flags) (width : Z) (args : list parg) : M St (list parg) :=
  a ← va_str args;
  let s := default null_text a.1 in
  let len := strlen_ s in
  let padding := if width - len <? 0 then 0 else width - len in
  (if center f then
     let left_pad := padding / 2 in
     let right_pad := padding - left_pad in
     pad left_pad 32;; puts s;; pad right_pad 32
   else
     (if negb (left_align f) then pad padding 32 else mret tt);;
     puts s;;
     (if left_align f then pad padding 32 else mret tt));;
  mret a.2.

(** "0x" *)
Definition hex_prefix : list Z := [48; 120].

(** The [switch] on the conversion character. *)
Definition convert (c : Z) (f : flags) (width : Z) (args : list parg) : M St (list parg) :=
  if (c =? 100) || (c =? 105) then conv_d f width args
  else if c =? 117 then conv_unsigned fmt_dec [] f width args
  else if c =? 120 then conv_unsigned fmt_hex [] f width args
  else if c =? 88 then conv_unsigned fmt_hex hex_prefix f width args
  else if c =? 112 then
    a ← va_word args; puts hex_prefix;; puthex64 a.1;; mret a.2
  else if c =? 115 then conv_s f width args
  else if c =? 99 then
    (if negb (left_align f) then pad (width - 1) 32 else mret tt);;
    a ← va_word args;
    putc (u8 a.1);;
    (if left_align f then pad (width - 1) 32 else mret tt);;
    mret a.2
  else if c =? 37 then putc 37;; mret args
  else putc 37;; putc c;; mret args.

(** One round of [while ( *fmt )].  At the terminator right after a ['%'] the
    default case prints ['%'] and the terminator and steps over it: the next
    read is past the end of the string. *)
Definition vprintf_body (st : list Z * list parg) : M St ((list Z * list parg) + unit) :=
  let '(fmt, args) := st in
  match fmt with
  | [] => mret (inr tt)
  | c :: fmt' =>
      if negb (c =? 37) then putc c;; mret (inl (fmt', args))
      else
        let '(f, fmt2) := parse_flags fmt' (Flags false false false) in
        let '(width, fmt3) := parse_width fmt2 0 in
        match fmt3 with
        | k :: fmt4 => args' ← convert k (settle_flags f) width args; mret (inl (fmt4, args'))
        | [] => convert 0 (settle_flags f) width args;; mstuck Fault
        end
  end.

Definition do_vprintf (fmt : list Z) (args : list parg) : M St unit := mloop vprintf_body (fmt, args).

Definition printf (fmt : list Z) (args : list parg) : M St unit := do_vprintf fmt args.

(** ["\r\n  [ %s ] "], and the same around a colour escape. *)
Definition tag_fmt : list Z := [13; 10; 32; 32; 91; 32; 37; 115; 32; 93; 32].
Definition color_fmt (d : Z) : list Z :=
  [13; 10; 32; 32; 91; 32; 27; 91; 51; d; 109; 37; 115; 27; 91; 48; 109; 32; 93; 32].

Definition klog (tag : option (list Z)) (fmt : list Z) (args : list parg) : M St unit :=
  printf tag_fmt [Str tag];; do_vprintf fmt args.
Definition klog_ok (tag : option (list Z)) (fmt : list Z) (args : list parg) : M St unit :=
  printf (color_fmt 50) [Str tag];; do_vprintf fmt args.
Definition klog_fail (tag : option (list Z)) (fmt : list Z) (args : list parg) : M St unit :=
  printf (color_fmt 49) [Str tag];; do_vprintf fmt args.
End Print.

(** *** The output goes through two functions only *)

Section PrintKeeps.
Context {St : Type} `{CO : Console St} (J : St -> Prop).
Context (Hserial : forall c, keeps J (serial_putc c)) (Hconsole : forall c, keeps J (kconsole_putc c)).

Lemma with_buf_keeps {A} n (m : M cbuf A) : keeps J (with_buf n m).
Proof. intros s r s' Hs. unfold with_buf. destruct (m _); [|done]. by intros [= _ <-]. Qed.
#[local] Hint Resolve Hserial Hconsole with_buf_keeps : keeps.

Lemma puts_keeps l : keeps J (puts l).
Proof. induction l; cbn [puts]; unfold putc; solve_keeps. Qed.
#[local] Hint Resolve puts_keeps : keeps.

(** Whatever the two leave alone, [printf] does. *)
Lemma printf_keeps fmt args : keeps J (printf fmt args).
Proof.
  unfold printf, do_vprintf, vprintf_body, convert, conv_d, conv_unsigned, conv_s, va_word, va_str, pad, emit, emit_body,
    puthex64, puthex_n, hex_body, putc.
  solve_keeps.
Qed.
End PrintKeeps.

(** ** Positional notation *)

(** Digits, least significant first; 64 of them are enough for [u64]. *)
Fixpoint lows (fuel : nat) (b n : Z) : list Z :=
  match fuel with
  | O => []
  | S k => if n =? 0 then [] else n mod b :: lows k b (n / b)
  end.
Definition digits (b n : Z) : list Z := if n =? 0 then [0] else rev (lows 64 b n).

(** The number a digit sequence denotes. *)
Definition num (b : Z) (ds : list Z) : Z := fold_left (fun a d => a * b + d) ds 0.
Definition low_num (b : Z) (ds : list Z) : Z := fold_right (fun d a => d + b * a) 0 ds.

Lemma num_rev b ds : num b (rev ds) = low_num b ds.
Proof. unfold num, low_num. rewrite <- fold_left_rev_right, rev_involutive. induction ds; cbn; lia. Qed.

Section Lows.
Context (b : Z) (Hb : 2 <= b).

Lemma lows_num k n : 0 <= n < 2 ^ Z.of_nat k -> low_num b (lows k b n) = n.
Proof.
  revert n. induction k as [|k IH]; intros n Hn; cbn [lows].
  - change (2 ^ Z.of_nat 0) with 1 in Hn. cbn. lia.
  - destruct (Z.eqb_spec n 0) as [->|Hne]; [done|]. cbn. fold (low_num b (lows k b (n / b))).
    rewrite IH.
    + pose proof (Z.div_mod n b). lia.
    + rewrite Nat2Z.inj_succ, Z.pow_succ_r in Hn by lia. split; [apply Z.div_pos; lia|].
      apply Z.div_lt_upper_bound; nia.
Qed.

Lemma lows_bound k n d : 0 <= n -> d ∈ lows k b n -> 0 <= d < b.
Proof.
  revert n. induction k as [|k IH]; intros n Hn; cbn [lows]; [by intros ?%elem_of_nil|].
  destruct (n =? 0); [by intros ?%elem_of_nil|]. intros [->|Hd]%elem_of_cons.
  - apply Z.mod_pos_bound. lia.
  - apply (IH (n / b)); [|done]. apply Z.div_pos; lia.
Qed.

Lemma lows_length k n m : 0 <= n < b ^ Z.of_nat m -> (length (lows k b n) <= m)%nat.
Proof.
  revert n m. induction k as [|k IH]; intros n m Hn; cbn [lows length]; [lia|].
  destruct (Z.eqb_spec n 0) as [->|Hne]; [cbn; lia|]. cbn [length].
  destruct m as [|m]; [change (b ^ Z.of_nat 0) with 1 in Hn; lia|].
  rewrite Nat2Z.inj_succ, Z.pow_succ_r in Hn by lia. apply le_n_S, IH.
  split; [apply Z.div_pos; lia|]. apply Z.div_lt_upper_bound; lia.
Qed.

(** The most significant digit is not zero. *)
Lemma lows_last k n : 0 < n < 2 ^ Z.of_nat k -> exists ds d, lows k b n = ds ++ [d] /\ d <> 0.
Proof.
  revert n. induction k as [|k IH]; intros n Hn; cbn [lows].
  - change (2 ^ Z.of_nat 0) with 1 in Hn. lia.
  - rewrite (proj2 (Z.eqb_neq _ _)) by lia.
    rewrite Nat2Z.inj_succ, Z.pow_succ_r in Hn by lia.
    pose proof (Z.div_mod n b). pose proof (Z.mod_pos_bound n b).
    destruct (Z.eqb_spec (n / b) 0) as [E|Hne].
    + exists [], (n mod b). rewrite E. split; [|lia]. by destruct k.
    + destruct (IH (n / b)) as (ds & d & -> & Hd).
      * split; [|apply Z.div_lt_upper_bound; nia]. assert (0 <= n / b) by (apply Z.div_pos; lia). lia.
      * by exists (n mod b :: ds), d.
Qed.

Lemma lows_step k n : 0 < n < 2 ^ Z.of_nat k ->
  exists k', k = S k' /\ lows k b n = n mod b :: lows k' b (n / b) /\ 0 <= n / b < 2 ^ Z.of_nat k' /\ n / b < n.
Proof.
  intros Hn. destruct k as [|k]; [change (2 ^ Z.of_nat 0) with 1 in Hn; lia|].
  exists k. split; [done|]. cbn [lows]. rewrite (proj2 (Z.eqb_neq _ _)) by lia.
  rewrite Nat2Z.inj_succ, Z.pow_succ_r in Hn by lia. split; [done|].
  split_and!; [apply Z.div_pos; lia|apply Z.div_lt_upper_bound; nia|apply Z.div_lt; lia].
Qed.

Lemma digits_num n : 0 <= n < 2 ^ 64 -> num b (digits b n) = n.
Proof.
  intros Hn. unfold digits. destruct (Z.eqb_spec n 0) as [->|]; [done|].
  rewrite num_rev. by apply lows_num.
Qed.

Lemma digits_length n m : 0 <= n < b ^ Z.of_nat m -> (0 < m)%nat -> (0 < length (digits b n) <= m)%nat.
Proof.
  intros Hn Hm. unfold digits. destruct (Z.eqb_spec n 0) as [->|Hne]; [cbn; lia|].
  rewrite length_rev. split; [|by apply lows_length].
  cbn [lows]. rewrite (proj2 (Z.eqb_neq _ _)) by done. cbn. lia.
Qed.

Lemma digits_bound n d : 0 <= n -> d ∈ digits b n -> 0 <= d < b.
Proof.
  intros Hn. unfold digits. destruct (n =? 0); [intros ->%list_elem_of_singleton; lia|].
  rewrite list_elem_of_In, <- in_rev, <- list_elem_of_In. by apply lows_bound.
Qed.

Lemma low_num_lt ds : Forall (fun d => 0 <= d < b) ds -> low_num b ds < b ^ Z.of_nat (length ds).
Proof.
  induction 1 as [|d ds Hd Hds IH]; [done|]. cbn [low_num fold_right length]. fold (low_num b ds).
  rewrite Nat2Z.inj_succ, Z.pow_succ_r by lia. nia.
Qed.

Lemma digits_lt n : 0 <= n < 2 ^ 64 -> n < b ^ Z.of_nat (length (digits b n)).
Proof.
  intros Hn. unfold digits. destruct (Z.eqb_spec n 0) as [->|Hne]; [cbn; lia|].
  rewrite length_rev. rewrite <- (lows_num 64 n) at 1 by done. apply low_num_lt, Forall_forall.
  intros d Hd. apply (lows_bound 64 n); [lia|done].
Qed.

Lemma digits_head n : 0 < n < 2 ^ 64 -> exists d ds, digits b n = d :: ds /\ d <> 0.
Proof.
  intros Hn. unfold digits. rewrite (proj2 (Z.eqb_neq _ _)) by lia.
  destruct (lows_last 64 n) as (ds & d & -> & Hd); [done|]. rewrite rev_unit. by exists d, (rev ds).
Qed.
End Lows.

(** ** The number formatters *)

(** [digit] and [rest] compute the digits of base [b], shown by [ch]. *)
Record digit_fns (b : Z) (ch digit rest : Z -> Z) : Prop := {
  fns_base : 2 <= b;
  fns_digit n : 0 <= n -> digit n = ch (n mod b);
  fns_rest n : 0 <= n -> rest n = n / b;
  fns_zero : ch 0 = 48
}.

Definition dec_char (d : Z) : Z := 48 + d.

Lemma dec_fns : digit_fns 10 dec_char dec_digit dec_rest.
Proof. split; try done. Qed.

Lemma hex_fns : digit_fns 16 nibble_char hex_digit hex_rest.
Proof.
  split; try done; intros n Hn; unfold hex_digit, hex_rest.
  - change 15 with (2 ^ 4 - 1). rewrite land_low by lia. change (2 ^ 4) with 16.
    pose proof (Z.mod_pos_bound n 16). rewrite u8_small by lia. done.
  - by rewrite Z.shiftr_div_pow2.
Qed.

Lemma buf_set_run i v (b : cbuf) :
  0 <= i < Z.of_nat (length b) -> buf_set i v b = Ok (tt, <[Z.to_nat i := Some v]> b).
Proof.
  intros H. unfold buf_set. by rewrite (proj2 (Z.leb_le _ _)), (proj2 (Z.ltb_lt _ _)) by lia.
Qed.

Lemma buf_get_lookup i v (b : cbuf) : 0 <= i -> b !! Z.to_nat i = Some (Some v) -> buf_get b i = Some v.
Proof. intros Hi E. unfold buf_get. by rewrite (proj2 (Z.leb_le _ _)), E by lia. Qed.

Section Formatters.
Context (b : Z) (ch digit rest : Z -> Z) (F : digit_fns b ch digit rest).

(** The digits in the order the loop stores them. *)
Definition stored_digits (ds : list Z) (size : nat) : cbuf :=
  ((fun d => Some (ch d)) <$> ds) ++ replicate (size - length ds) None.

Lemma digit_loop_run n size :
  0 <= n < 2 ^ 64 -> (length (lows 64 b n) <= size)%nat ->
  wp (digit_loop digit rest n) (replicate size None) (fun i buf =>
    i = Z.of_nat (length (lows 64 b n)) /\ buf = stored_digits (lows 64 b n) size).
Proof.
  intros Hn Hsize. pose proof (fns_base _ _ _ _ F) as Hb.
  apply (wp_mloop _ (fun st (buf : cbuf) => exists ds k, lows 64 b n = ds ++ lows k b st.2 /\
      0 <= st.2 < 2 ^ Z.of_nat k /\ st.1 = Z.of_nat (length ds) /\ buf = stored_digits ds size)
    _ (fun st _ => st.2)).
  - intros [i m] buf (ds & k & El & Hm & Hi & ->). cbn [fst snd] in *. subst i.
    destruct (Z.ltb_spec 0 m) as [Hpos|Hz].
    + destruct (lows_step b Hb k m ltac:(lia)) as (k' & -> & Es & Hk' & Hlt). rewrite Es in El.
      assert (length ds < size)%nat as Hlen by (rewrite El, length_app in Hsize; cbn in Hsize; lia).
      wp_step. eapply wp_run; [apply buf_set_run|].
      { unfold stored_digits. rewrite length_app, length_fmap, length_replicate. lia. }
      wp_step. cbn [snd]. rewrite (fns_rest _ _ _ _ F) by lia. split; [|lia].
      exists (ds ++ [m mod b]), k'. rewrite <- app_assoc, length_app. cbn [fst snd length app].
      split_and!; [done|lia|lia|lia|]. rewrite Nat2Z.id, (fns_digit _ _ _ _ F) by lia.
      unfold stored_digits. rewrite fmap_app, length_app, list_fmap_singleton. cbn [length].
      rewrite insert_app_r_alt by (by rewrite length_fmap). rewrite length_fmap, Nat.sub_diag, <- app_assoc.
      f_equal. by replace (size - length ds)%nat with (S (size - (length ds + 1))) by lia.
    + wp_step. assert (m = 0) as -> by lia. assert (lows k b 0 = []) as E0 by (by destruct k).
      by rewrite El, E0, app_nil_r.
  - exists [], 64%nat. split_and!; cbn; try done; try lia. unfold stored_digits. by rewrite Nat.sub_0_r.
  - cbn. lia.
Qed.

(** Reversing in place, entry by entry. *)
Definition half_reversed (buf0 buf : cbuf) (i j : Z) : Prop :=
  length buf = length buf0 /\
  forall k, 0 <= k < i ->
    buf !! Z.to_nat k = if (k <? j) || (i - 1 - j <? k) then buf0 !! Z.to_nat (i - 1 - k) else buf0 !! Z.to_nat k.

Lemma swap_ends_step buf0 buf i j :
  (forall k, 0 <= k < i -> exists v, buf0 !! Z.to_nat k = Some (Some v)) ->
  i <= Z.of_nat (length buf0) -> 0 <= j < i / 2 -> half_reversed buf0 buf i j ->
  wp (swap_ends i j) buf (fun r buf' => r = None /\ half_reversed buf0 buf' i (j + 1)).
Proof.
  intros Hsome Hlen Hj [El Hk]. assert (2 * j < i - 1) as Hj2 by (Z.to_euclidean_division_equations; lia).
  destruct (Hsome j ltac:(lia)) as [v Hv]. destruct (Hsome (i - 1 - j) ltac:(lia)) as [w Hw].
  assert (buf !! Z.to_nat j = Some (Some v)) as Ej.
  { rewrite Hk, (proj2 (Z.ltb_ge j j)), (proj2 (Z.ltb_ge _ j)) by lia. done. }
  assert (buf !! Z.to_nat (i - 1 - j) = Some (Some w)) as Ei.
  { rewrite Hk, (proj2 (Z.ltb_ge _ j)), (proj2 (Z.ltb_ge _ (i - 1 - j))) by lia. done. }
  unfold swap_ends. wp_step. eapply wp_run; [unfold buf_load; by rewrite (buf_get_lookup j v) by (done || lia)|].
  wp_step. eapply wp_run; [unfold buf_load; by rewrite (buf_get_lookup (i - 1 - j) w) by (done || lia)|].
  wp_step. eapply wp_run; [apply buf_set_run; lia|].
  wp_step. eapply wp_run; [apply buf_set_run; rewrite length_insert; lia|].
  wp_step. split; [done|]. split; [by rewrite !length_insert|]. intros k Hki.
  destruct (Z.eq_dec k (i - 1 - j)) as [->|Hne1].
  { rewrite list_lookup_insert_eq by (rewrite length_insert; lia).
    rewrite (proj2 (Z.ltb_lt (i - 1 - (j + 1)) _)), orb_true_r by lia.
    by replace (i - 1 - (i - 1 - j)) with j by lia. }
  rewrite list_lookup_insert_ne by lia. destruct (Z.eq_dec k j) as [->|Hne2].
  { rewrite list_lookup_insert_eq by lia. by rewrite (proj2 (Z.ltb_lt j (j + 1))) by lia. }
  rewrite list_lookup_insert_ne, Hk by lia.
  replace (k <? j + 1) with (k <? j) by (destruct (Z.ltb_spec k j), (Z.ltb_spec k (j + 1)); lia).
  replace (i - 1 - (j + 1) <? k) with (i - 1 - j <? k); [done|].
  destruct (Z.ltb_spec (i - 1 - j) k), (Z.ltb_spec (i - 1 - (j + 1)) k); lia.
Qed.

Lemma reverse_run buf0 i :
  (forall k, 0 <= k < i -> exists v, buf0 !! Z.to_nat k = Some (Some v)) ->
  0 <= i <= Z.of_nat (length buf0) ->
  wp (mfor (Z.to_nat (i / 2)) (swap_ends i) 0) buf0 (fun _ buf =>
    forall k, 0 <= k < i -> buf !! Z.to_nat k = buf0 !! Z.to_nat (i - 1 - k)).
Proof.
  intros Hsome Hi. apply (wp_mfor _ (fun j buf => half_reversed buf0 buf i j)).
  - intros j buf Hj Hh. eapply wp_mono; [apply (swap_ends_step buf0); [done|lia|lia|done]|].
    by intros r buf' [-> H].
  - intros buf [_ Hk] k Hki. rewrite Hk by done.
    rewrite Z2Nat.id in * by (apply Z.div_pos; lia).
    destruct (Z.ltb_spec k (0 + i / 2)); [done|]. destruct (Z.ltb_spec (i - 1 - (0 + i / 2)) k); [done|].
    cbn. f_equal. f_equal. Z.to_euclidean_division_equations; lia.
  - split; [done|]. intros k Hki. rewrite (proj2 (Z.ltb_ge k 0)), (proj2 (Z.ltb_ge _ k)) by lia. done.
Qed.

(** What a formatter leaves: the digits, most significant first. *)
Definition holds_text (buf : cbuf) (text : list Z) : Prop :=
  forall k c, text !! k = Some c -> buf_get buf (Z.of_nat k) = Some c.

Lemma fmt_number_run n size :
  0 <= n < 2 ^ 64 -> (0 < size)%nat -> (length (digits b n) <= size)%nat ->
  wp (fmt_number digit rest n) (replicate size None) (fun len buf =>
    len = Z.of_nat (length (digits b n)) /\ holds_text buf (ch <$> digits b n)).
Proof.
  intros Hn Hsz Hlen. unfold fmt_number, digits in *. destruct (Z.eqb_spec n 0) as [->|Hne].
  - wp_step. eapply wp_run; [apply buf_set_run; rewrite length_replicate; lia|]. wp_step.
    split; [done|]. intros k c. cbn. rewrite (fns_zero _ _ _ _ F). destruct k; [|done]. intros [= <-].
    apply (buf_get_lookup 0); [lia|]. apply list_lookup_insert_eq. rewrite length_replicate. lia.
  - rewrite length_rev in *. wp_step. eapply wp_mono; [by apply digit_loop_run|].
    intros i buf [-> ->]. wp_step. set (ds := lows 64 b n) in *.
    assert (forall k d, ds !! k = Some d -> stored_digits ds size !! k = Some (Some (ch d))) as Hst.
    { intros k d Hd. unfold stored_digits. rewrite lookup_app_l.
      - by rewrite list_lookup_fmap, Hd.
      - rewrite length_fmap. by eapply lookup_lt_Some. }
    eapply wp_mono; [apply reverse_run|].
    + intros k Hk. destruct (lookup_lt_is_Some_2 ds (Z.to_nat k)) as [d Hd]; [lia|]. rewrite (Hst _ d) by done. by eexists.
    + unfold stored_digits. rewrite length_app, length_fmap, length_replicate. lia.
    + intros r buf Hbuf. cbn beta in Hbuf. wp_step. split; [done|]. intros k c. rewrite list_lookup_fmap.
      destruct (rev ds !! k) as [d|] eqn:E; [|done]. intros [= <-].
      assert (k < length ds)%nat as Hk by (apply lookup_lt_Some in E; by rewrite length_rev in E).
      apply buf_get_lookup; [lia|]. rewrite Hbuf by lia. apply Hst.
      replace (rev ds) with (reverse ds) in E by (unfold reverse; by rewrite rev_alt).
      rewrite reverse_lookup in E by done. rewrite <- E. f_equal. lia.
Qed.
End Formatters.

(** ** Fixed-width hexadecimal *)

Lemma low_digit b k n i : 2 <= b -> 0 <= n < 2 ^ Z.of_nat k ->
  default 0 (lows k b n !! i) = n / b ^ Z.of_nat i mod b.
Proof.
  intros Hb. revert n i. induction k as [|k IH]; intros n i Hn; cbn [lows].
  - change (2 ^ Z.of_nat 0) with 1 in Hn. replace n with 0 by lia. rewrite Z.div_0_l, Z.mod_0_l by lia. done.
  - destruct (Z.eqb_spec n 0) as [->|Hne]; [by rewrite Z.div_0_l, Z.mod_0_l by lia|].
    destruct i as [|i]; [cbn; change (b ^ Z.of_nat 0) with 1; by rewrite Z.div_1_r|].
    cbn [lookup list_lookup]. fold (lows k b (n / b)).
    change (list_lookup i (lows k b (n / b))) with (lows k b (n / b) !! i). rewrite IH.
    + rewrite Z.div_div by lia. do 2 f_equal. rewrite Nat2Z.inj_succ, Z.pow_succ_r by lia. done.
    + rewrite Nat2Z.inj_succ, Z.pow_succ_r in Hn by lia. split; [apply Z.div_pos; lia|].
      apply Z.div_lt_upper_bound; nia.
Qed.

(** The [k] low nibbles of [n], the highest first. *)
Definition hexn (k : nat) (n : Z) : list Z :=
  (fun i : nat => nibble_char (n / 16 ^ Z.of_nat (k - 1 - i) mod 16)) <$> seq 0 k.

(** They are the digits of [n] filled up with zeros. *)
Lemma hexn_digits k n : (0 < k)%nat -> 0 <= n < 2 ^ 64 -> n < 16 ^ Z.of_nat k ->
  hexn k n = replicate (k - length (digits 16 n)) 48 ++ (nibble_char <$> digits 16 n).
Proof.
  intros Hk Hn Hlt. pose proof (digits_length 16 ltac:(lia) n k ltac:(lia) Hk) as Hlen.
  apply list_eq_same_length with k; [|by unfold hexn; rewrite length_fmap, length_seq|].
  { rewrite length_app, length_replicate, length_fmap. lia. }
  intros i x y Hi. unfold hexn. rewrite list_lookup_fmap, lookup_seq_lt by done. intros [= <-].
  set (j := (k - 1 - i)%nat). rewrite <- (low_digit 16 64 n j) by (done || lia).
  assert (digits 16 n = rev (lows 64 16 n) \/ n = 0 /\ digits 16 n = [0]) as Hd.
  { unfold digits. destruct (Z.eqb_spec n 0); [right|left]; done. }
  destruct Hd as [Hd|[-> Hd]].
  - rewrite Hd in *. rewrite length_rev in *. destruct (decide (i < k - length (lows 64 16 n))%nat) as [Hlow|Hhi].
    + rewrite lookup_app_l by (rewrite length_replicate; lia). rewrite lookup_replicate_2 by lia.
      intros [= <-]. rewrite lookup_ge_None_2 by (unfold j; lia). done.
    + rewrite lookup_app_r, length_replicate by (rewrite length_replicate; lia).
      replace (rev (lows 64 16 n)) with (reverse (lows 64 16 n)) by (unfold reverse; by rewrite rev_alt).
      rewrite list_lookup_fmap, reverse_lookup by lia.
      replace (length (lows 64 16 n) - S (i - (k - length (lows 64 16 n))))%nat with j by (unfold j; lia).
      destruct (lows 64 16 n !! j); [|done]. by intros [= <-].
  - rewrite Hd. cbn [length]. change (lows 64 16 0) with (@nil Z). rewrite lookup_nil. cbn [default].
    destruct (decide (i < k - 1)%nat).
    + rewrite lookup_app_l by (rewrite length_replicate; lia). rewrite lookup_replicate_2 by lia. by intros [= <-].
    + rewrite lookup_app_r, length_replicate by (rewrite length_replicate; lia).
      replace (i - (k - 1))%nat with 0%nat by lia. by intros [= <-].
Qed.

Lemma trim_digits_spec n k : 0 < n < 2 ^ 64 -> (0 < k)%nat -> n < 16 ^ Z.of_nat k ->
  trim_digits n k = length (digits 16 n).
Proof.
  intros Hn. assert (digits 16 n = rev (lows 64 16 n)) as Hd.
  { unfold digits. by rewrite (proj2 (Z.eqb_neq _ _)) by lia. }
  induction k as [|[|k] IH]; intros Hk Hlt; [lia| |].
  { pose proof (digits_length 16 ltac:(lia) n 1 ltac:(lia)). cbn [trim_digits]. lia. }
  set (j := S k) in *. change (trim_digits n (S j)) with
    (if Z.land (Z.shiftr n (Z.of_nat j * 4)) 15 =? 0 then trim_digits n j else S j).
  change 15 with (2 ^ 4 - 1). rewrite land_low, Z.shiftr_div_pow2 by lia.
  replace (2 ^ (Z.of_nat j * 4)) with (16 ^ Z.of_nat j) by (change 16 with (2 ^ 4); rewrite <- Z.pow_mul_r by lia; f_equal; lia).
  change (2 ^ 4) with 16. destruct (Z.eqb_spec (n / 16 ^ Z.of_nat j mod 16) 0) as [E|Hne].
  - apply IH; [lia|]. rewrite Nat2Z.inj_succ, Z.pow_succ_r in Hlt by lia.
    rewrite Z.mod_small in E.
    + apply Z.div_small_iff in E; [|lia]. lia.
    + split; [apply Z.div_pos; lia|]. apply Z.div_lt_upper_bound; lia.
  - pose proof (digits_length 16 ltac:(lia) n (S j) ltac:(lia) ltac:(lia)). rewrite Hd, length_rev in *.
    rewrite <- (low_digit 16 64 n j) in Hne by (done || lia).
    destruct (lows 64 16 n !! j) eqn:E; [|done]. apply lookup_lt_Some in E. lia.
Qed.

(** ** What the output functions emit *)

Section Emits.
Context {St : Type} `{CO : Console St}.

(** [m] answers [a], sends exactly [bs], and keeps the console working. *)
Definition emits {A} (m : M St A) (a : A) (bs : list Z) : Prop :=
  forall s, con_inv s -> wp m s (fun r s' => r = a /\ con_inv s' /\ con_out s' = con_out s ++ (u8 <$> bs)).

Lemma emits_ret {A} (a : A) : emits (mret a) a [].
Proof. intros s Hs. wp_step. by rewrite app_nil_r. Qed.

Lemma emits_bind {A B} (m : M St A) (k : A -> M St B) a b bs cs :
  emits m a bs -> emits (k a) b cs -> emits (m ≫= k) b (bs ++ cs).
Proof.
  intros Hm Hk s Hs. wp_step. eapply wp_mono; [by apply Hm|]. intros r s1 (-> & H1 & E1).
  eapply wp_mono; [by apply Hk|]. intros r s2 (-> & H2 & E2). by rewrite E2, E1, fmap_app, app_assoc.
Qed.

Lemma emits_cast {A} (m : M St A) a bs cs : emits m a bs -> bs = cs -> emits m a cs.
Proof. by intros H <-. Qed.

Lemma emits_putc c : emits (putc c) tt [c].
Proof.
  intros s Hs. unfold putc. wp_step. eapply wp_mono; [by apply serial_putc_out|].
  intros r s1 [H1 E1]. eapply wp_mono; [by apply kconsole_putc_out|]. intros [] s2 [H2 E2].
  by rewrite E2, E1.
Qed.

Lemma emits_puts s : emits (puts s) tt s.
Proof.
  induction s as [|c s IH]; cbn [puts]; [apply emits_ret|].
  apply (emits_bind _ _ tt tt [c] s); [apply emits_putc|done].
Qed.

Lemma emits_for {R} n (body : Z -> M St (option R)) i f :
  (forall k, (k < n)%nat -> emits (body (i + Z.of_nat k)) None [f k]) ->
  emits (mfor n body i) None (f <$> seq 0 n).
Proof.
  revert i f. induction n as [|n IH]; intros i f H; cbn [mfor]; [apply emits_ret|].
  cbn [seq fmap list_fmap]. apply (emits_bind _ _ None None [f 0%nat]).
  - rewrite <- (Z.add_0_r i) at 1. apply (H 0%nat). lia.
  - rewrite <- fmap_S_seq, <- list_fmap_compose. apply IH. intros k Hk.
    replace (i + 1 + Z.of_nat k) with (i + Z.of_nat (S k)) by lia. apply H. lia.
Qed.

(** A loop followed by [mret tt]. *)
Lemma emits_loop n (body : Z -> M St (option unit)) i f :
  (forall k, (k < n)%nat -> emits (body (i + Z.of_nat k)) None [f k]) ->
  emits (mfor n body i;; mret tt) tt (f <$> seq 0 n).
Proof.
  intros H. rewrite <- (app_nil_r (f <$> _)). eapply emits_bind; [by apply emits_for|apply emits_ret].
Qed.

Lemma emits_pad n c : emits (pad n c) tt (replicate (Z.to_nat n) c).
Proof.
  eapply emits_cast; [apply (emits_loop _ _ _ (fun _ => c))|].
  - intros k _. apply (emits_bind _ _ tt None [c] []); [apply emits_putc|apply emits_ret].
  - generalize 0%nat. induction (Z.to_nat n) as [|m IH]; intros i; cbn; [done|]. by rewrite <- (IH (S i)).
Qed.

Lemma emits_byte b i c : buf_get b i = Some c -> emits (emit_body b i) None [c].
Proof.
  intros H. unfold emit_body. rewrite H.
  apply (emits_bind _ _ tt None [c] []); [apply emits_putc|apply emits_ret].
Qed.

Lemma seq_lookup_total (l : list Z) : (fun k => l !!! k) <$> seq 0 (length l) = l.
Proof.
  apply list_eq_same_length with (length l); [done|by rewrite length_fmap, length_seq|].
  intros i x y Hi. rewrite list_lookup_fmap, lookup_seq_lt by done. intros [= <-] Hy.
  by apply list_lookup_total_correct.
Qed.

Lemma emits_text b text : holds_text b text -> emits (emit b (Z.of_nat (length text))) tt text.
Proof.
  intros H. unfold emit. rewrite Nat2Z.id. eapply emits_cast; [apply (emits_loop _ _ _ (fun k => text !!! k))|].
  - intros k Hk. apply emits_byte, H. by apply list_lookup_lookup_total_lt.
  - apply seq_lookup_total.
Qed.

(** Running a formatter into a local buffer, then going on. *)
Lemma emits_number {A} b ch digit rest n size (k : Z * cbuf -> M St A) a bs :
  digit_fns b ch digit rest -> 0 <= n < 2 ^ 64 -> (0 < size)%nat -> (length (digits b n) <= size)%nat ->
  (forall buf, holds_text buf (ch <$> digits b n) -> emits (k (Z.of_nat (length (digits b n)), buf)) a bs) ->
  emits (with_buf size (fmt_number digit rest n) ≫= k) a bs.
Proof.
  intros F Hn Hs Hl Hk s Hi. pose proof (fmt_number_run b ch digit rest F n size Hn Hs Hl) as Hw.
  apply wp_ok in Hw as (len & buf & E & -> & Ht). unfold with_buf. wp_step.
  eapply wp_run; [by rewrite E|]. by apply Hk.
Qed.

Lemma emits_puthex_n n k : 0 <= n -> emits (puthex_n n (Z.of_nat k)) tt (hexn k n).
Proof.
  intros Hn. unfold puthex_n, hexn. rewrite Nat2Z.id. apply emits_loop.
  intros i Hi. unfold hex_body. eapply emits_cast; [eapply emits_bind; [apply emits_putc|apply emits_ret]|].
  rewrite app_nil_r. change 15 with (2 ^ 4 - 1). rewrite land_low, Z.shiftr_div_pow2 by lia.
  replace (16 ^ Z.of_nat (k - 1 - i)) with (2 ^ ((Z.of_nat k - 1 - (0 + Z.of_nat i)) * 4)).
  2:{ change 16 with (2 ^ 4). rewrite <- Z.pow_mul_r by lia. f_equal. lia. }
  set (m := n / _). change 16 with (2 ^ 4). pose proof (Z.mod_pos_bound m (2 ^ 4)). by rewrite u8_small by lia.
Qed.
End Emits.

Lemma dec_length n : 0 <= n < 2 ^ 64 -> (0 < length (digits 10 n) <= 20)%nat.
Proof. intros Hn. apply digits_length; lia. Qed.
Lemma hex_length n : 0 <= n < 2 ^ 64 -> (0 < length (digits 16 n) <= 16)%nat.
Proof. intros Hn. apply digits_length; lia. Qed.

Section Numbers.
Context {St : Type} `{CO : Console St}.

Lemma emits_puthex n : 0 <= n < 2 ^ 64 -> emits (puthex n) tt (nibble_char <$> digits 16 n).
Proof.
  intros Hn. unfold puthex. destruct (Z.eqb_spec n 0) as [->|Hne]; [apply emits_putc|].
  eapply emits_cast; [apply emits_puthex_n; lia|].
  pose proof (hex_length n Hn). rewrite trim_digits_spec by (lia || (cbn; lia)).
  rewrite hexn_digits; [by rewrite Nat.sub_diag|lia|lia|by apply digits_lt].
Qed.
End Numbers.

(** ** Formats and what they mean *)

Inductive conv := Cd | Ci | Cu | Cx | CX | Cp | Cs | Cc | Cpct.
Inductive piece := Lit (c : Z) | Conv (fl : list Z) (width : Z) (k : conv).

Definition conv_char (k : conv) : Z :=
  match k with
  | Cd => 100 | Ci => 105 | Cu => 117 | Cx => 120 | CX => 88 | Cp => 112 | Cs => 115 | Cc => 99 | Cpct => 37
  end.

(** The concrete syntax of a format. *)
Definition show_width (w : Z) : list Z := if w =? 0 then [] else dec_char <$> digits 10 w.
Definition show_piece (p : piece) : list Z :=
  match p with Lit c => [c] | Conv fl w k => 37 :: fl ++ show_width w ++ [conv_char k] end.
Definition show_format (ps : list piece) : list Z := concat (show_piece <$> ps).

Definition piece_ok (p : piece) : Prop :=
  match p with
  | Lit c => c <> 37
  | Conv fl w _ => Forall (fun c => c = 45 \/ c = 48 \/ c = 94) fl /\ 0 <= w < 2 ^ 31
  end.
Definition arg_ok (a : parg) : Prop :=
  match a with Str (Some s) => Z.of_nat (length s) < 2 ^ 31 | _ => True end.

#[export] Instance piece_ok_dec p : Decision (piece_ok p).
Proof. destruct p; cbn; apply _. Defined.
#[export] Instance arg_ok_dec a : Decision (arg_ok a).
Proof. destruct a as [|[s|]]; cbn; apply _. Defined.

Definition has_flag (c : Z) (fl : list Z) : bool := bool_decide (c ∈ fl).
Definition flags_of (fl : list Z) : flags :=
  Flags (has_flag 45 fl) (has_flag 48 fl && negb (has_flag 45 fl || has_flag 94 fl)) (has_flag 94 fl).

Definition fill (width : Z) (s : list Z) (c : Z) : list Z := replicate (Z.to_nat (width - Z.of_nat (length s))) c.
(** [s] in a field of [width]: to the left with blanks, or to the right with [c]. *)
Definition justify (f : flags) (width c : Z) (s : list Z) : list Z :=
  if left_align f then s ++ fill width s 32 else fill width s c ++ s.

Definition render_d (f : flags) (width x : Z) : list Z :=
  let sign := if i64 x <? 0 then [45] else [] in
  let ds := dec_char <$> digits 10 (Z.abs (i64 x)) in
  if negb (left_align f) && zero_pad f then sign ++ fill width (sign ++ ds) 48 ++ ds
  else justify f width 32 (sign ++ ds).

Definition render_s (f : flags) (width : Z) (s : list Z) : list Z :=
  if center f then
    let p := Z.max 0 (width - Z.of_nat (length s)) in
    replicate (Z.to_nat (p / 2)) 32 ++ s ++ replicate (Z.to_nat (p - p / 2)) 32
  else justify f width 32 s.

(** The text of one conversion and the arguments left; [None] when the
    arguments do not fit. *)
Definition render_conv (f : flags) (width : Z) (k : conv) (args : list parg) : option (list Z * list parg) :=
  let padc := if zero_pad f then 48 else 32 in
  match k, args with
  | Cpct, _ => Some ([37], args)
  | (Cd | Ci), Word x :: args => Some (render_d f width x, args)
  | Cu, Word x :: args => Some (justify f width padc (dec_char <$> digits 10 (u64 x)), args)
  | Cx, Word x :: args => Some (justify f width padc (nibble_char <$> digits 16 (u64 x)), args)
  | CX, Word x :: args => Some (justify f width padc (hex_prefix ++ (nibble_char <$> digits 16 (u64 x))), args)
  | Cp, Word x :: args => Some (hex_prefix ++ hexn 16 (u64 x), args)
  | Cc, Word x :: args => Some (justify f width 32 [u8 x], args)
  | Cs, Str s :: args => Some (render_s f width (default null_text s), args)
  | _, _ => None
  end.

Fixpoint render (ps : list piece) (args : list parg) : option (list Z) :=
  match ps with
  | [] => Some []
  | Lit c :: ps => (fun r => c :: r) <$> render ps args
  | Conv fl w k :: ps =>
      match render_conv (flags_of fl) w k args with
      | Some (out, args) => (fun r => out ++ r) <$> render ps args
      | None => None
      end
  end.

(** *** Parsing *)

Lemma parse_flags_app fl rest f :
  Forall (fun c => c = 45 \/ c = 48 \/ c = 94) fl ->
  match rest with c :: _ => c <> 45 /\ c <> 48 /\ c <> 94 | [] => True end ->
  parse_flags (fl ++ rest) f =
    (Flags (left_align f || has_flag 45 fl) (zero_pad f || has_flag 48 fl) (center f || has_flag 94 fl), rest).
Proof.
  intros Hfl Hr. revert f. induction Hfl as [|c fl Hc Hfl IH]; intros f; cbn [app].
  - unfold has_flag. rewrite !bool_decide_eq_false_2 by apply not_elem_of_nil. rewrite !orb_false_r.
    assert (parse_flags rest f = (f, rest)) as ->; [|by destruct f].
    destruct rest as [|c rest]; [done|]. destruct Hr as (H1 & H2 & H3). cbn.
    by rewrite !(proj2 (Z.eqb_neq _ _)).
  - cbn [parse_flags].
    assert (forall x, has_flag x (c :: fl) = (x =? c) || has_flag x fl) as Hh.
    { intros x. unfold has_flag. destruct (Z.eqb_spec x c) as [->|Hne]; cbn [orb].
      - apply bool_decide_eq_true_2. by left.
      - apply bool_decide_ext. rewrite elem_of_cons. tauto. }
    rewrite !Hh. destruct Hc as [->|[->| ->]]; cbn [Z.eqb]; rewrite IH; cbn;
      by rewrite ?orb_true_l, ?orb_true_r, ?orb_false_l.
Qed.

Lemma fold_ge ds a : 0 <= a -> Forall (fun d => 0 <= d < 10) ds -> a <= fold_left (fun a d => a * 10 + d) ds a.
Proof.
  intros Ha H. revert a Ha. induction H as [|d ds Hd Hds IH]; intros a Ha; cbn; [lia|].
  specialize (IH (a * 10 + d)). lia.
Qed.

Lemma parse_width_digits ds a c rest :
  0 <= a -> Forall (fun d => 0 <= d < 10) ds -> fold_left (fun a d => a * 10 + d) ds a < 2 ^ 31 ->
  (48 <=? c) && (c <=? 57) = false ->
  parse_width ((dec_char <$> ds) ++ c :: rest) a = (fold_left (fun a d => a * 10 + d) ds a, c :: rest).
Proof.
  intros Ha H. revert a Ha. induction H as [|d ds Hd Hds IH]; intros a Ha Hlt Hc; cbn [fmap list_fmap app].
  - cbn. by rewrite Hc.
  - cbn [parse_width fold_left]. change (dec_char d) with (48 + d).
    rewrite (proj2 (Z.leb_le 48 _)), (proj2 (Z.leb_le _ 57)) by lia. cbn [andb].
    pose proof (fold_ge ds (a * 10 + d) ltac:(lia) Hds) as Hge. cbn [fold_left] in Hlt.
    replace (a * 10 + (48 + d - 48)) with (a * 10 + d) by lia. rewrite i32_small by lia.
    apply IH; [lia|done|done].
Qed.

Lemma parse_width_show w c rest :
  0 <= w < 2 ^ 31 -> (48 <=? c) && (c <=? 57) = false -> parse_width (show_width w ++ c :: rest) 0 = (w, c :: rest).
Proof.
  intros Hw Hc. unfold show_width. destruct (Z.eqb_spec w 0) as [->|Hne]; [cbn; by rewrite Hc|].
  assert (fold_left (fun a d => a * 10 + d) (digits 10 w) 0 = w) as E by (apply (digits_num 10); lia).
  rewrite parse_width_digits; [by rewrite E|lia| |lia|done].
  apply Forall_forall. intros d Hd. apply (digits_bound 10 ltac:(lia) w); [lia|done].
Qed.

Lemma conv_char_cases k : conv_char k <> 45 /\ conv_char k <> 48 /\ conv_char k <> 94 /\
  (48 <=? conv_char k) && (conv_char k <=? 57) = false.
Proof. by destruct k. Qed.

Lemma parse_conv fl w k rest :
  Forall (fun c => c = 45 \/ c = 48 \/ c = 94) fl -> 0 <= w < 2 ^ 31 ->
  parse_flags (fl ++ show_width w ++ conv_char k :: rest) (Flags false false false) =
    (Flags (has_flag 45 fl) (has_flag 48 fl) (has_flag 94 fl), show_width w ++ conv_char k :: rest) /\
  parse_width (show_width w ++ conv_char k :: rest) 0 = (w, conv_char k :: rest).
Proof.
  intros Hfl Hw. destruct (conv_char_cases k) as (H1 & H2 & H3 & H4). split; [|by apply parse_width_show].
  rewrite parse_flags_app; [done|done|]. unfold show_width. destruct (Z.eqb_spec w 0); [done|].
  destruct (digits_head 10 ltac:(lia) w ltac:(lia)) as (d & ds & E & Hd). rewrite E. cbn.
  assert (0 <= d < 10) by (apply (digits_bound 10 ltac:(lia) w); [lia|rewrite E; by left]).
  unfold dec_char. lia.
Qed.

Lemma settle_flags_of fl :
  settle_flags (Flags (has_flag 45 fl) (has_flag 48 fl) (has_flag 94 fl)) = flags_of fl.
Proof.
  unfold settle_flags, flags_of. cbn [left_align center zero_pad].
  destruct (has_flag 45 fl), (has_flag 94 fl), (has_flag 48 fl); done.
Qed.

(** ** The formatter renders *)

Section Render.
Context {St : Type} `{CO : Console St}.

Lemma emits_when (b : bool) (m : M St unit) bs :
  emits m tt bs -> emits (if b then m else mret tt) tt (if b then bs else []).
Proof. destruct b; [done|intros _; apply emits_ret]. Qed.

(** A straight-line sequence of outputs. *)
Ltac emit_all :=
  repeat first
    [ apply emits_when | apply emits_pad | apply emits_putc | apply emits_puts
    | apply emits_ret | by apply emits_text | eapply emits_bind ].

Lemma i64_range x : - 2 ^ 63 <= i64 x < 2 ^ 63.
Proof.
  unfold i64, to_signed. pose proof (Z.mod_pos_bound x (2 ^ 64) eq_refl).
  destruct (Z.ltb_spec (x mod 2 ^ 64) (2 ^ (64 - 1))); lia.
Qed.

(** Negating the least [i64] wraps, and reading it unsigned undoes that. *)
Lemma u64_abs x : u64 (if i64 x <? 0 then i64 (- i64 x) else i64 x) = Z.abs (i64 x).
Proof.
  pose proof (i64_range x) as Hx. destruct (Z.ltb_spec (i64 x) 0) as [Hneg|Hpos].
  - assert (u64 (i64 (- i64 x)) = u64 (- i64 x)) as ->.
    { unfold u64, i64 at 1, to_signed. destruct (Z.ltb_spec (- i64 x mod 2 ^ 64) (2 ^ (64 - 1))).
      - by rewrite Z.mod_mod by lia.
      - rewrite <- (Z.mod_add (_ - _) 1) by lia. by rewrite Z.mul_1_l, Z.sub_add, Z.mod_mod by lia. }
    rewrite u64_small; lia.
  - rewrite u64_small; lia.
Qed.

Lemma emits_conv_d f width x args :
  emits (conv_d f width (Word x :: args)) args (render_d f width x).
Proof.
  unfold conv_d, render_d. cbn [va_word]. apply (emits_bind _ _ (x, args) args []); [apply emits_ret|]. cbn [fst snd].
  rewrite u64_abs. pose proof (i64_range x). pose proof (dec_length (Z.abs (i64 x)) ltac:(lia)).
  apply (emits_number 10 dec_char); [apply dec_fns|lia|lia|lia|]. intros buf Hbuf.
  replace (Z.of_nat (length (digits 10 (Z.abs (i64 x))))) with
    (Z.of_nat (length (dec_char <$> digits 10 (Z.abs (i64 x))))) by (by rewrite length_fmap).
  eapply emits_cast; [emit_all|]. cbn [app]. unfold justify.
  destruct (i64 x <? 0), (left_align f), (zero_pad f); cbn [negb andb app length];
    unfold fill; cbn [length app]; rewrite ?length_fmap, ?app_nil_r, <- ?app_assoc; cbn [app]; repeat f_equal; lia.
Qed.

Lemma emits_conv_unsigned b ch digit rest prefix f width x args :
  digit_fns b ch digit rest -> (0 < length (digits b (u64 x)) <= 24)%nat ->
  emits (conv_unsigned (fmt_number digit rest) prefix f width (Word x :: args)) args
    (justify f width (if zero_pad f then 48 else 32) (prefix ++ (ch <$> digits b (u64 x)))).
Proof.
  intros F Hl. pose proof (u64_range x). unfold conv_unsigned. cbn [va_word].
  apply (emits_bind _ _ (x, args) args []); [apply emits_ret|]. cbn [fst snd].
  apply (emits_number b ch); [done|lia|lia|lia|]. intros buf Hbuf.
  replace (Z.of_nat (length (digits b (u64 x)))) with (Z.of_nat (length (ch <$> digits b (u64 x))))
    by (by rewrite length_fmap).
  eapply emits_cast; [emit_all|]. cbn [app]. unfold justify, fill.
  destruct (left_align f); cbn [negb app]; rewrite ?app_nil_r, <- ?app_assoc, ?length_app, ?length_fmap;
    repeat f_equal; lia.
Qed.

Lemma emits_conv_s f width s args :
  0 <= width < 2 ^ 31 -> arg_ok (Str s) ->
  emits (conv_s f width (Str s :: args)) args (render_s f width (default null_text s)).
Proof.
  intros Hw Ha. assert (Z.of_nat (length (default null_text s)) < 2 ^ 31) as Hs by (by destruct s).
  unfold conv_s. cbn [va_str]. apply (emits_bind _ _ (s, args) args []); [apply emits_ret|]. cbn [fst snd].
  set (t := default null_text s) in *. unfold strlen_. rewrite i32_small by lia.
  replace (if width - Z.of_nat (length t) <? 0 then 0 else width - Z.of_nat (length t)) with
    (Z.max 0 (width - Z.of_nat (length t))) by (destruct (Z.ltb_spec (width - Z.of_nat (length t)) 0); lia).
  set (p := Z.max 0 _). unfold render_s, justify, fill. fold p.
  assert (Z.to_nat (width - Z.of_nat (length t)) = Z.to_nat p) as -> by (unfold p; lia).
  rewrite <- (app_nil_r (if center f then _ else _)). eapply emits_bind; [|apply emits_ret].
  destruct (center f); [emit_all|]. eapply emits_cast; [emit_all|].
  destruct (left_align f); cbn [negb app]; by rewrite ?app_nil_r.
Qed.

(** A conversion of an unsigned argument into at most 24 digits. *)
Lemma emits_unsigned b ch digit rest prefix f width args out args' (m : nat) :
  digit_fns b ch digit rest -> (0 < m <= 24)%nat -> 2 ^ 64 <= b ^ Z.of_nat m ->
  match args with
  | Word x :: args => Some (justify f width (if zero_pad f then 48 else 32) (prefix ++ (ch <$> digits b (u64 x))), args)
  | _ => None
  end = Some (out, args') ->
  emits (conv_unsigned (fmt_number digit rest) prefix f width args) args' out.
Proof.
  intros F Hm Hb H. destruct args as [|[x|?] args]; [done| |done]. injection H as <- <-.
  apply emits_conv_unsigned; [done|]. pose proof (u64_range x).
  pose proof (digits_length b (fns_base _ _ _ _ F) (u64 x) m). lia.
Qed.

Lemma emits_convert f width k args out args' :
  0 <= width < 2 ^ 31 -> Forall arg_ok args -> render_conv f width k args = Some (out, args') ->
  emits (convert (conv_char k) f width args) args' out.
Proof.
  intros Hw Hargs H. destruct k; cbn [render_conv] in H; unfold convert; cbn [conv_char Z.eqb orb Pos.eqb].
  - destruct args as [|[x|?] args]; [done| |done]. injection H as <- <-. apply emits_conv_d.
  - destruct args as [|[x|?] args]; [done| |done]. injection H as <- <-. apply emits_conv_d.
  - apply (emits_unsigned 10 dec_char _ _ [] _ _ _ _ _ 20 dec_fns); [lia|vm_compute; discriminate|exact H].
  - apply (emits_unsigned 16 nibble_char _ _ [] _ _ _ _ _ 16 hex_fns); [lia|vm_compute; discriminate|exact H].
  - apply (emits_unsigned 16 nibble_char _ _ hex_prefix _ _ _ _ _ 16 hex_fns); [lia|vm_compute; discriminate|exact H].
  - destruct args as [|[x|?] args]; [done| |done]. injection H as <- <-. cbn [va_word].
    apply (emits_bind _ _ (x, args) args []); [apply emits_ret|]. cbn [fst snd].
    eapply emits_cast; [eapply emits_bind; [apply emits_puts|eapply emits_bind; [|apply emits_ret]]|].
    + unfold puthex64. pose proof (u64_range x). apply (emits_puthex_n _ 16). lia.
    + by rewrite app_nil_r.
  - destruct args as [|[?|s] args]; [done|done|]. injection H as <- <-.
    apply emits_conv_s; [done|]. by apply Forall_cons in Hargs as [? _].
  - destruct args as [|[x|?] args]; [done| |done]. injection H as <- <-. cbn [va_word].
    eapply emits_cast; [emit_all|]. unfold justify, fill. cbn [fst length].
    destruct (left_align f); cbn [negb app]; by rewrite ?app_nil_r.
  - injection H as <- <-. eapply emits_cast; [emit_all|done].
Qed.

Lemma render_conv_args f width k args out args' :
  Forall arg_ok args -> render_conv f width k args = Some (out, args') -> Forall arg_ok args'.
Proof.
  intros Ha H. destruct k, args as [|[x|s] args]; cbn in H; try done; injection H as _ <-;
    try done; by apply Forall_cons in Ha as [_ ?].
Qed.

Definition at_format (out : list Z) (n : Z) (st : list Z * list parg) (s : St) : Prop :=
  exists ps rest, st.1 = show_format ps /\ n = Z.of_nat (length ps) /\ Forall piece_ok ps /\
    Forall arg_ok st.2 /\ con_inv s /\ render ps st.2 = Some rest /\ out = con_out s ++ (u8 <$> rest).

Lemma vprintf_step out n st s :
  at_format out n st s ->
  wp (vprintf_body st) s (fun r s' =>
    match r with
    | inl st' => exists n', at_format out n' st' s' /\ 0 <= n' < n
    | inr _ => con_inv s' /\ con_out s' = out
    end).
Proof.
  destruct st as [fmt args]. intros (ps & rest & Hf & -> & Hok & Ha & Hs & Hr & ->). cbn [fst snd] in *. subst fmt.
  unfold vprintf_body. destruct Hok as [|p ps Hp Hok]; cbn [show_format fmap list_fmap concat].
  { wp_step. injection Hr as <-. by rewrite app_nil_r. }
  change (concat (show_piece <$> ps)) with (show_format ps). destruct p as [c|fl w k]; cbn [show_piece app].
  - rewrite (proj2 (Z.eqb_neq c 37)) by done. cbn [negb]. cbn [render] in Hr.
    destruct (render ps args) as [rest'|] eqn:Er; [|done]. injection Hr as <-. wp_step.
    eapply wp_mono; [by apply emits_putc|]. intros _ s1 (_ & H1 & E1). wp_step.
    exists (Z.of_nat (length ps)). split; [|cbn; lia]. exists ps, rest'. split_and!; try done.
    by rewrite E1, <- app_assoc.
  - cbn [Z.eqb Pos.eqb negb]. destruct Hp as [Hfl Hw]. rewrite <- !app_assoc. cbn [app].
    destruct (parse_conv fl w k (show_format ps) Hfl Hw) as [-> ->]. rewrite settle_flags_of. cbn [render] in Hr.
    destruct (render_conv (flags_of fl) w k args) as [[o args']|] eqn:Ec; [|done].
    destruct (render ps args') as [rest'|] eqn:Er; [|done]. injection Hr as <-. wp_step.
    eapply wp_mono; [by apply (emits_convert _ _ _ _ _ _ Hw Ha Ec)|]. intros _ s1 (-> & H1 & E1). wp_step.
    exists (Z.of_nat (length ps)). split; [|cbn; lia]. exists ps, rest'. split_and!; try done.
    + by eapply render_conv_args.
    + by rewrite E1, fmap_app, app_assoc.
Qed.

Lemma emits_format ps args out :
  Forall piece_ok ps -> Forall arg_ok args -> Z.of_nat (length ps) < 2 ^ 64 -> render ps args = Some out ->
  emits (do_vprintf (show_format ps) args) tt out.
Proof.
  intros Hp Ha Hl Hr s Hs.
  apply (wp_mloop_ix _ (at_format (con_out s ++ (u8 <$> out))) _ (Z.of_nat (length ps))); [|by exists ps, out|done].
  intros n st t H. eapply wp_mono; [by apply vprintf_step|]. intros [st'|[]] t'; done.
Qed.
End Render.

(** ** Properties *)

Section Properties.
Context {St : Type} `{CO : Console St}.

Lemma emits_putdec n : 0 <= n < 2 ^ 64 -> emits (putdec n) tt (dec_char <$> digits 10 n).
Proof.
  intros Hn. unfold putdec. destruct (Z.eqb_spec n 0) as [->|Hne]; [apply emits_putc|].
  intros s Hs. wp_step. pose proof (dec_length n Hn) as Hl. unfold digits in *.
  rewrite (proj2 (Z.eqb_neq n 0)), ?length_rev in * by done.
  pose proof (digit_loop_run 10 dec_char _ _ dec_fns n 20 Hn ltac:(lia)) as Hw.
  apply wp_ok in Hw as (i & buf & E & -> & ->). eapply wp_run; [unfold with_buf; by rewrite E|].
  set (ds := lows 64 10 n) in *. revert s Hs. apply (emits_cast _ _ ((fun k => dec_char (rev ds !!! k)) <$> seq 0 (length ds))).
  - rewrite Nat2Z.id. apply (emits_loop (CO := CO)). intros k Hk.
    replace (rev ds) with (reverse ds) by (unfold reverse; by rewrite rev_alt).
    apply emits_byte, buf_get_lookup; [lia|].
    replace (Z.to_nat (Z.of_nat (length ds) - 1 - (0 + Z.of_nat k))) with (length ds - S k)%nat by lia.
    destruct (lookup_lt_is_Some_2 ds (length ds - S k)) as [d Hd]; [lia|].
    rewrite (list_lookup_total_correct _ _ d) by (by rewrite reverse_lookup).
    unfold stored_digits. rewrite lookup_app_l by (rewrite length_fmap; lia). by rewrite list_lookup_fmap, Hd.
  - transitivity (dec_char <$> ((fun k => rev ds !!! k) <$> seq 0 (length (rev ds)))).
    + by rewrite <- list_fmap_compose, length_rev.
    + by rewrite seq_lookup_total.
Qed.

(** C35: printf renders its format: for any sequence of literal characters and
    conversions written in its concrete syntax (flags, width, conversion
    character) and arguments that match, the formatter terminates, never reads
    or writes outside its number buffer, and sends exactly the rendered text:
    signs, base 10 and 16 digits, padding and alignment included. *)
Theorem printf_renders ps args out s :
  Forall piece_ok ps -> Forall arg_ok args -> Z.of_nat (length ps) < 2 ^ 64 ->
  render ps args = Some out -> con_inv s ->
  wp (printf (show_format ps) args) s (fun _ s' => con_inv s' /\ con_out s' = con_out s ++ (u8 <$> out)).
Proof.
  intros Hp Ha Hl Hr Hs. eapply wp_mono; [by apply (emits_format ps args out)|]. by intros _ s' (_ & H).
Qed.

(** Putdec and puthex print a 64-bit number exactly: the text they send is
    its decimal, or hexadecimal, digits, which denote the number and have no
    leading zero, and the 20-byte buffer of putdec is never overrun. *)
Lemma putdec_puthex_roundtrip n s :
  0 <= n < 2 ^ 64 -> con_inv s ->
  exists ds hs,
    wp (putdec n) s (fun _ s' => con_out s' = con_out s ++ (u8 <$> (dec_char <$> ds))) /\
    wp (puthex n) s (fun _ s' => con_out s' = con_out s ++ (u8 <$> (nibble_char <$> hs))) /\
    num 10 ds = n /\ num 16 hs = n /\
    (n <> 0 -> head ds <> Some 0 /\ head hs <> Some 0) /\
    Forall (fun d => 0 <= d < 10) ds /\ Forall (fun d => 0 <= d < 16) hs.
Proof.
  intros Hn Hs. exists (digits 10 n), (digits 16 n). split_and!.
  - eapply wp_mono; [by apply emits_putdec|]. by intros _ s' (_ & _ & E).
  - eapply wp_mono; [by apply emits_puthex|]. by intros _ s' (_ & _ & E).
  - by apply digits_num.
  - by apply digits_num.
  - intros Hne. destruct (digits_head 10 ltac:(lia) n ltac:(lia)) as (d & ds & -> & Hd).
    destruct (digits_head 16 ltac:(lia) n ltac:(lia)) as (e & es & -> & He). by split; intros [= ?].
  - apply Forall_forall. intros d. apply digits_bound; lia.
  - apply Forall_forall. intros d. apply digits_bound; lia.
Qed.

(** A format that ends in a bare '%' makes the formatter print '%' and the
    terminator and then read past the end of the string. *)
Lemma trailing_percent_overruns lits args s :
  Forall (fun c => c <> 37) lits -> Z.of_nat (length lits) < 2 ^ 63 -> con_inv s ->
  printf (lits ++ [37]) args s = Stuck Fault.
Proof.
  intros Hl Hlen Hs. apply (mloop_runs _ _ _ _ (Z.of_nat (length lits))); [|lia].
  clear Hlen. revert s Hs. induction Hl as [|c lits Hc Hl IH]; intros s Hs; cbn [app length].
  - apply runs_stuck. cbn. change (convert 0 (settle_flags (Flags false false false)) 0 args)
      with (putc 37;; putc 0;; mret args).
    pose proof (emits_bind _ (fun _ => putc 0;; mret args) tt args _ _ (emits_putc 37)
      (emits_bind _ (fun _ => mret args) tt args _ _ (emits_putc 0) (emits_ret args)) s Hs) as Hw.
    apply wp_ok in Hw as (r & s' & E & _). unfold mbind at 1, M_bind at 1. by rewrite E.
  - pose proof (emits_putc c s Hs) as Hw. apply wp_ok in Hw as ([] & s' & E & _ & Hs' & _).
    rewrite Nat2Z.inj_succ, <- Z.add_1_r. eapply runs_next; [|by apply IH|lia].
    cbn. rewrite (proj2 (Z.eqb_neq c 37)) by done. cbn. unfold mbind, M_bind. by rewrite E.
Qed.

Lemma render_lits lits ps args : render ((Lit <$> lits) ++ ps) args = (fun r => lits ++ r) <$> render ps args.
Proof.
  induction lits as [|c lits IH].
  - change ((Lit <$> []) ++ ps) with ps. by destruct (render ps args).
  - change (render ((Lit <$> c :: lits) ++ ps) args) with
      ((fun r => c :: r) <$> render ((Lit <$> lits) ++ ps) args).
    rewrite IH. by destruct (render ps args).
Qed.

Lemma render_tag tag post :
  render (Conv [] 0 Cs :: (Lit <$> post)) [Str (Some tag)] = Some (tag ++ post).
Proof.
  assert (render (Lit <$> post) [] = Some post) as E.
  { rewrite <- (app_nil_r (Lit <$> post)), render_lits. cbn. by rewrite app_nil_r. }
  change (render (Conv [] 0 Cs :: (Lit <$> post)) [Str (Some tag)]) with
    ((fun r => render_s (flags_of []) 0 tag ++ r) <$> render (Lit <$> post) []).
  rewrite E. unfold render_s. cbn. unfold justify, fill. cbn.
  replace (Z.to_nat (0 - Z.of_nat (length tag))) with 0%nat by lia. done.
Qed.

(** "\r\n  [ " and " ] ", and the colour escapes around a tag. *)
Definition log_open : list Z := [13; 10; 32; 32; 91; 32].
Definition log_close : list Z := [32; 93; 32].
Definition color (d : Z) : list Z := [27; 91; 51; d; 109].
Definition color_off : list Z := [27; 91; 48; 109].

(** A log line is a new line, the tag in brackets (in green or red for
    klog_ok and klog_fail), then the rendered message, and no line end after it. *)
Lemma klog_output tag ps args out s :
  Z.of_nat (length tag) < 2 ^ 31 -> Forall piece_ok ps -> Forall arg_ok args ->
  Z.of_nat (length ps) < 2 ^ 64 -> render ps args = Some out -> con_inv s ->
  let fmt := show_format ps in
  let line open close := con_out s ++ (u8 <$> log_open ++ open ++ tag ++ close ++ log_close ++ out) in
  wp (klog (Some tag) fmt args) s (fun _ s' => con_out s' = line [] []) /\
  wp (klog_ok (Some tag) fmt args) s (fun _ s' => con_out s' = line (color 50) color_off) /\
  wp (klog_fail (Some tag) fmt args) s (fun _ s' => con_out s' = line (color 49) color_off).
Proof.
  intros Ht Hp Ha Hl Hr Hs fmt line.
  assert (forall pre post f, f = show_format ((Lit <$> pre) ++ Conv [] 0 Cs :: (Lit <$> post)) ->
    Forall (fun c => c <> 37) pre -> Forall (fun c => c <> 37) post ->
    Z.of_nat (length pre + S (length post)) < 2 ^ 64 ->
    emits (printf f [Str (Some tag)];; do_vprintf fmt args) tt ((pre ++ tag ++ post) ++ out)) as H.
  { intros pre post f -> Hpre Hpost Hn. eapply emits_bind; [|by apply emits_format].
    apply emits_format.
    - apply Forall_app. split; [by apply Forall_fmap|]. constructor; [by split; [constructor|]|by apply Forall_fmap].
    - by repeat constructor.
    - by rewrite length_app, length_fmap; cbn [length]; rewrite length_fmap.
    - by rewrite render_lits, render_tag. }
  assert (forall m bs line', emits m tt bs -> line' = con_out s ++ (u8 <$> bs) ->
    wp m s (fun (_ : unit) s' => con_out s' = line')) as Hwp.
  { intros m bs line' Hm ->. eapply wp_mono; [by apply Hm|]. by intros _ s' (_ & _ & E). }
  split_and!.
  - eapply Hwp; [apply (H log_open log_close); [done|by_decide|by_decide|done]|]. unfold line. by rewrite <- !app_assoc.
  - eapply Hwp; [apply (H (log_open ++ color 50) (color_off ++ log_close)); [done|by_decide|by_decide|done]|].
    unfold line. by rewrite <- !app_assoc.
  - eapply Hwp; [apply (H (log_open ++ color 49) (color_off ++ log_close)); [done|by_decide|by_decide|done]|].
    unfold line. by rewrite <- !app_assoc.
Qed.
End Properties.

(** ** Witnesses *)

(** A console that only records what is sent. *)
Lemma tape_put (c : Z) (s : list Z) : True ->
  wp (fun t => Ok (tt, t ++ [u8 c])) s (fun (_ : unit) s' => True /\ s' = s ++ [u8 c]).
Proof. done. Qed.
Lemma tape_show (c : Z) (s : list Z) : True -> wp (mret tt) s (fun _ s' => True /\ s' = s).
Proof. done. Qed.

#[export] Instance tape : Console (list Z) := {
  serial_putc := fun c s => Ok (tt, s ++ [u8 c]);
  kconsole_putc := fun _ => mret tt;
  con_inv := fun _ => True;
  con_out := fun s => s;
  serial_putc_out := tape_put;
  kconsole_putc_out := tape_show
}.

(** "a=%05d|%-4s|%X" on -42, "ab", 255 gives "a=-0042|ab  |0xff". *)
Definition demo_format : list piece :=
  [Lit 97; Lit 61; Conv [48] 5 Cd; Lit 124; Conv [45] 4 Cs; Lit 124; Conv [] 0 CX].
Definition demo_args : list parg := [Word (-42); Str (Some [97; 98]); Word 255].

Lemma printf_renders_witness :
  show_format demo_format = [97; 61; 37; 48; 53; 100; 124; 37; 45; 52; 115; 124; 37; 88] /\
  wp (printf (show_format demo_format) demo_args) [] (fun _ s' => True /\
    s' = [] ++ (u8 <$> [97; 61; 45; 48; 48; 52; 50; 124; 97; 98; 32; 32; 124; 48; 120; 102; 102])).
Proof.
  assert (Forall piece_ok demo_format) as H1 by by_decide.
  assert (Forall arg_ok demo_args) as H2 by by_decide.
  assert (render demo_format demo_args =
    Some [97; 61; 45; 48; 48; 52; 50; 124; 97; 98; 32; 32; 124; 48; 120; 102; 102]) as H3 by (vm_compute; reflexivity).
  split; [done|]. exact (printf_renders demo_format demo_args _ ([] : list Z) H1 H2 eq_refl H3 I).
Defined.

Lemma putdec_puthex_roundtrip_witness : exists ds hs,
  wp (putdec 48879) ([] : list Z) (fun _ s' => con_out s' = con_out [] ++ (u8 <$> (dec_char <$> ds))) /\
  wp (puthex 48879) ([] : list Z) (fun _ s' => con_out s' = con_out [] ++ (u8 <$> (nibble_char <$> hs))) /\
  num 10 ds = 48879 /\ num 16 hs = 48879 /\ (48879 <> 0 -> head ds <> Some 0 /\ head hs <> Some 0) /\
  Forall (fun d => 0 <= d < 10) ds /\ Forall (fun d => 0 <= d < 16) hs.
Proof. apply (putdec_puthex_roundtrip 48879 ([] : list Z)); [lia|done]. Defined.


