(* ===== verification/Log.v ===== *)
(** * Log lines of the drivers

    A driver's [klog] call with a literal format.  [pieces] parses the format,
    [log_ok] checks by evaluation that it is well formed and that the kinds of
    the arguments match; such a call returns, and leaves alone whatever the
    two output functions leave alone. *)
From S2P Require Import Prelude Print.

#[local] Open Scope Z_scope.

Definition conv_of (c : Z) : option conv :=
  if c =? 100 then Some Cd else if c =? 105 then Some Ci else if c =? 117 then Some Cu
  else if c =? 120 then Some Cx else if c =? 88 then Some CX else if c =? 112 then Some Cp
  else if c =? 115 then Some Cs else if c =? 99 then Some Cc else if c =? 37 then Some Cpct else None.

(** Parses a format; [st] holds the flags and the width of the conversion
    being read.  Whether the result writes back to the format is checked. *)
Fixpoint pieces (st : option (list Z * Z)) (fmt : list Z) : list piece :=
  match fmt, st with
  | [], _ => []
  | c :: fmt, None => if c =? 37 then pieces (Some ([], 0)) fmt else Lit c :: pieces None fmt
  | c :: fmt, Some (fl, w) =>
      if (w =? 0) && bool_decide (c ∈ [45; 48; 94]) then pieces (Some (fl ++ [c], w)) fmt
      else if (48 <=? c) && (c <=? 57) then pieces (Some (fl, 10 * w + c - 48)) fmt
      else match conv_of c with Some k => Conv fl w k :: pieces None fmt | None => [] end
  end.

(** The kinds of the arguments match the conversions. *)
Fixpoint fits (ps : list piece) (args : list parg) : bool :=
  match ps, args with
  | [], _ => true
  | Lit _ :: ps, _ => fits ps args
  | Conv _ _ Cpct :: ps, _ => fits ps args
  | Conv _ _ Cs :: ps, Str _ :: args => fits ps args
  | Conv _ _ Cs :: _, _ => false
  | Conv _ _ _ :: ps, Word _ :: args => fits ps args
  | _, _ => false
  end.

Lemma fits_render ps args : fits ps args = true -> exists out, render ps args = Some out.
Proof.
  revert args. induction ps as [|[c|fl w k] ps IH]; intros args H; cbn [fits] in H; [by exists []|..].
  - destruct (IH _ H) as [out E]. exists (c :: out). cbn. by rewrite E.
  - destruct k, args as [|[x|s] args]; try done; destruct (IH _ H) as [out E]; cbn; rewrite E; by eexists.
Qed.

Definition log_ok (fmt : list Z) : bool :=
  bool_decide (show_format (pieces None fmt) = fmt /\ Forall piece_ok (pieces None fmt) /\ (length (pieces None fmt) < 1000)%nat).

Section Log.
Context {St : Type} `{CO : Console St} (J : St -> Prop).
Context (Hserial : forall c, keeps J (serial_putc c)) (Hconsole : forall c, keeps J (kconsole_putc c)).

Lemma format_quiet fmt args s : log_ok fmt = true -> fits (pieces None fmt) args = true -> Forall arg_ok args ->
  con_inv s -> J s -> wp (do_vprintf fmt args) s (fun _ s' => con_inv s' /\ J s').
Proof.
  intros Hf Hfit Ha Hs HJ. apply bool_decide_eq_true in Hf as (E & Hp & Hlen).
  destruct (fits_render _ _ Hfit) as [out Hr].
  pose proof (emits_format (CO := CO) _ _ _ Hp Ha ltac:(lia) Hr s Hs) as Hw. rewrite E in Hw.
  apply wp_ok in Hw as (r & s' & E1 & _ & Hs' & _). eapply wp_run; [done|]. split; [done|].
  by eapply (printf_keeps J Hserial Hconsole).
Qed.

#[local] Abbreviation quiet m s := (wp m s (fun _ s' => con_inv s' /\ J s')).

Lemma tagged_quiet pre tag fmt args s :
  log_ok pre = true -> fits (pieces None pre) [Str (Some tag)] = true -> Z.of_nat (length tag) < 2 ^ 31 ->
  log_ok fmt = true -> fits (pieces None fmt) args = true -> Forall arg_ok args ->
  con_inv s -> J s -> quiet (printf pre [Str (Some tag)];; do_vprintf fmt args) s.
Proof.
  intros H1 H2 H3 H4 H5 H6 Hs HJ. wp_step. eapply wp_mono; [apply format_quiet; [done..|by repeat constructor|done|done]|].
  intros [] s1 [Hs1 HJ1]. by apply format_quiet.
Qed.

(** The three kinds of log line. *)
Section Lines.
Context (tag fmt : list Z) (args : list parg) (s : St).
Context (Htag : Z.of_nat (length tag) < 2 ^ 31) (Hfmt : log_ok fmt = true)
  (Hfit : fits (pieces None fmt) args = true) (Hargs : Forall arg_ok args) (Hs : con_inv s) (HJ : J s).

Lemma klog_quiet : quiet (klog (Some tag) fmt args) s.
Proof. by apply tagged_quiet. Qed.
Lemma klog_ok_quiet : quiet (klog_ok (Some tag) fmt args) s.
Proof. by apply tagged_quiet. Qed.
Lemma klog_fail_quiet : quiet (klog_fail (Some tag) fmt args) s.
Proof. by apply tagged_quiet. Qed.
End Lines.
End Log.
