(* ===== verification/Ports.v ===== *)
(** * Port and memory-mapped input and output (src/src/kernel/x86.h)

    What the drivers need of the machine: the [in] and [out] instructions, and
    volatile accesses to device memory.  Drivers are written against the two
    classes; a theorem fixes an instance, a model of the device behind it. *)
From S2P Require Import Prelude.

#[local] Open Scope Z_scope.

(** [outb(port, data)] and the like; what [in] answers has the width of its
    instruction.  [inl] is the sum's constructor, hence [inl_]. *)
Class PortIO (St : Type) := {
  outb : Z -> Z -> M St unit;
  outw : Z -> Z -> M St unit;
  outl : Z -> Z -> M St unit;
  inb : Z -> M St Z;
  inw : Z -> M St Z;
  inl_ : Z -> M St Z;
  inb_u8 p s b s' : inb p s = Ok (b, s') -> 0 <= b < 2 ^ 8;
  inw_u16 p s b s' : inw p s = Ok (b, s') -> 0 <= b < 2 ^ 16;
  inl_u32 p s b s' : inl_ p s = Ok (b, s') -> 0 <= b < 2 ^ 32
}.

(** Accesses through a [volatile u32 *] into a device's registers. *)
Class Mmio (St : Type) := {
  mmio_read32 : Z -> M St Z;
  mmio_write32 : Z -> Z -> M St unit;
  mmio_u32 a s v s' : mmio_read32 a s = Ok (v, s') -> 0 <= v < 2 ^ 32
}.
