(* ===== verification/Pci.v ===== *)
(** * PCI configuration space and enumeration (src/src/kernel/pci.c, pci.h)

    Accesses to configuration space through the address and data ports, base
    address registers, the capability list, message-signalled interrupts, and
    the enumeration of the buses behind bridges.  The enumeration is recursive
    through [pci_scan_bus]; the fuel bounds the depth of the recursion, and
    [pci_scan_terminates] shows that one more than the size of the device
    table is enough, whatever the hardware answers. *)
From S2P Require Import Prelude Print Log Ports.

#[local] Open Scope Z_scope.

Definition PCI_CONFIG_ADDR : Z := 3320.
Definition PCI_CONFIG_DATA : Z := 3324.
Definition PCI_ADDR (bus slot func off : Z) : Z :=
  Z.lor (Z.lor (Z.lor (Z.lor 2147483648 (u32 (Z.shiftl bus 16))) (u32 (Z.shiftl slot 11))) (u32 (Z.shiftl func 8)))
    (Z.land off 252).
Definition PCI_CLASS_STORAGE : Z := 1.
Definition PCI_SUBCLASS_AHCI : Z := 6.
Definition PCI_SUBCLASS_IDE : Z := 1.
Definition PCI_SUBCLASS_NVME : Z := 8.
Definition MAX_PCI_DEVICES : Z := 256.
Definition PCI_BAR0_OFFSET : Z := 16.
Definition PCI_CAP_PTR_OFFSET : Z := 52.
Definition PCI_STATUS_OFFSET : Z := 6.
Definition PCI_BAR_TYPE_MASK : Z := 6.
Definition PCI_BAR_TYPE_64BIT : Z := 4.
Definition PCI_BAR_ADDR_MASK : Z := u64 (Z.lnot 15).
Definition MSI_ADDR_BASE : Z := 4276092928.
Definition PCI_STATUS_CAP_LIST : Z := Z.shiftl 1 4.
Definition PCI_CAP_MSI : Z := 5.
Definition MSI_CTRL_ENABLE : Z := Z.shiftl 1 0.
Definition MSI_CTRL_64BIT : Z := Z.shiftl 1 7.
Definition MSI_CTRL_MME_MASK : Z := Z.shiftl 7 4.

(** ** Headers *)

Record pci_common_header := CommonHeader {
  vendor_id : Z; device_id : Z; command : Z; status : Z;
  revision : Z; prog_if : Z; subclass : Z; class_code : Z;
  cache_line_size : Z; latency_timer : Z; header_type : Z; bist : Z
}.
Record pci_general_header := GeneralHeader {
  gh : pci_common_header;
  gh_bar0 : Z; gh_bar1 : Z; gh_bar2 : Z; gh_bar3 : Z; gh_bar4 : Z; gh_bar5 : Z;
  gh_cis_ptr : Z; gh_sub_vendor_id : Z; gh_subsystem_id : Z; gh_expansion_addr : Z;
  gh_capabilities_ptr : Z;
  gh_int_line : Z; gh_int_pin : Z; gh_min_grant : Z; gh_max_latency : Z
}.
Record pci_bridge_header := BridgeHeader {
  bh : pci_common_header;
  bh_bar0 : Z; bh_bar1 : Z;
  primary_bus_num : Z; secondary_bus_num : Z; subordinate_bus_num : Z; secondary_latency_timer : Z;
  bh_io_base : Z; bh_io_limit : Z; bh_secondary_status : Z;
  bh_memory_base : Z; bh_memory_limit : Z; bh_prefetchable_mem_base : Z; bh_prefetchable_mem_limit : Z;
  bh_prefetchable_mem_base32 : Z; bh_prefetchable_mem_limit32 : Z;
  bh_io_base_upper : Z; bh_io_limit_upper : Z; bh_capabilities_ptr : Z; bh_expansion_addr : Z;
  bh_int_line : Z; bh_int_pin : Z; bh_bridge_control : Z
}.

(** The [union hdr]; both headers start with the common one. *)
Inductive pci_hdr := General (g : pci_general_header) | Bridge (b : pci_bridge_header).
Definition hdr_common (h : pci_hdr) : pci_common_header :=
  match h with General g => gh g | Bridge b => bh b end.

Record pci_device := PciDevice {
  pd_bus : Z; pd_slot : Z; pd_func : Z;
  pd_vendor_id : Z; pd_device_id : Z; pd_header_type : Z; pd_int_line : Z;
  pd_hdr : pci_hdr
}.

(** The packed structs as the 16 double words that are stored into them. *)
Definition word_at (ws : list Z) (i : Z) : Z := ws !!! Z.to_nat i.
Definition half_at (ws : list Z) (off : Z) : Z :=
  Z.land (Z.shiftr (word_at ws (off / 4)) (off mod 4 * 8)) 65535.
Definition byte_at (ws : list Z) (off : Z) : Z :=
  Z.land (Z.shiftr (word_at ws (off / 4)) (off mod 4 * 8)) 255.

#[global] Arguments half_at : simpl never.
#[global] Arguments byte_at : simpl never.
#[global] Arguments word_at : simpl never.

Definition common_of (ws : list Z) : pci_common_header :=
  CommonHeader (half_at ws 0) (half_at ws 2) (half_at ws 4) (half_at ws 6)
    (byte_at ws 8) (byte_at ws 9) (byte_at ws 10) (byte_at ws 11)
    (byte_at ws 12) (byte_at ws 13) (byte_at ws 14) (byte_at ws 15).
Definition general_of (ws : list Z) : pci_general_header :=
  GeneralHeader (common_of ws)
    (word_at ws 4) (word_at ws 5) (word_at ws 6) (word_at ws 7) (word_at ws 8) (word_at ws 9)
    (word_at ws 10) (half_at ws 44) (half_at ws 46) (word_at ws 12)
    (byte_at ws 52) (byte_at ws 60) (byte_at ws 61) (byte_at ws 62) (byte_at ws 63).
Definition bridge_of (ws : list Z) : pci_bridge_header :=
  BridgeHeader (common_of ws) (word_at ws 4) (word_at ws 5)
    (byte_at ws 24) (byte_at ws 25) (byte_at ws 26) (byte_at ws 27)
    (byte_at ws 28) (byte_at ws 29) (half_at ws 30)
    (half_at ws 32) (half_at ws 34) (half_at ws 36) (half_at ws 38)
    (word_at ws 10) (word_at ws 11) (half_at ws 48) (half_at ws 50) (byte_at ws 52) (word_at ws 14)
    (byte_at ws 60) (byte_at ws 61) (half_at ws 62).

Definition zero_device : pci_device := PciDevice 0 0 0 0 0 0 0 (General (general_of (replicate 16 0))).

(** The static variables; [free_bus] is the one inside [pci_bus_alloc]. *)
Record pci_state := PciState {
  pci_devices : list pci_device; pci_device_count : Z; free_bus : Z
}.
Definition pci_start : pci_state := PciState (replicate 256 zero_device) 0 1.

Definition set_bus_nums (primary secondary subordinate : Z) (b : pci_bridge_header) : pci_bridge_header :=
  BridgeHeader (bh b) (bh_bar0 b) (bh_bar1 b) primary secondary subordinate (secondary_latency_timer b)
    (bh_io_base b) (bh_io_limit b) (bh_secondary_status b) (bh_memory_base b) (bh_memory_limit b)
    (bh_prefetchable_mem_base b) (bh_prefetchable_mem_limit b) (bh_prefetchable_mem_base32 b)
    (bh_prefetchable_mem_limit32 b) (bh_io_base_upper b) (bh_io_limit_upper b) (bh_capabilities_ptr b)
    (bh_expansion_addr b) (bh_int_line b) (bh_int_pin b) (bh_bridge_control b).

(** ** Configuration space *)

Section Pci.
Context {St : Type} `{IO : PortIO St} `{CO : Console St}.
Context (get_pci : St -> pci_state) (set_pci : pci_state -> St -> St).

Definition pci_read8 (bus slot func offset : Z) : M St Z :=
  outl PCI_CONFIG_ADDR (PCI_ADDR bus slot func offset);;
  d ← inl_ PCI_CONFIG_DATA;
  mret (Z.land (Z.shiftr d (Z.land offset 3 * 8)) 255).
Definition pci_read16 (bus slot func offset : Z) : M St Z :=
  outl PCI_CONFIG_ADDR (PCI_ADDR bus slot func offset);;
  d ← inl_ PCI_CONFIG_DATA;
  mret (Z.land (Z.shiftr d (Z.land offset 2 * 8)) 65535).
Definition pci_read32 (bus slot func offset : Z) : M St Z :=
  outl PCI_CONFIG_ADDR (PCI_ADDR bus slot func offset);;
  inl_ PCI_CONFIG_DATA.

Definition pci_write8 (bus slot func offset val : Z) : M St unit :=
  outl PCI_CONFIG_ADDR (PCI_ADDR bus slot func offset);;
  data ← inl_ PCI_CONFIG_DATA;
  let shift := Z.land offset 3 * 8 in
  let data := Z.land data (u32 (Z.lnot (Z.shiftl 255 shift))) in
  outl PCI_CONFIG_DATA (Z.lor data (u32 (Z.shiftl val shift))).
Definition pci_write16 (bus slot func offset val : Z) : M St unit :=
  outl PCI_CONFIG_ADDR (PCI_ADDR bus slot func offset);;
  data ← inl_ PCI_CONFIG_DATA;
  let shift := Z.land offset 2 * 8 in
  let data := Z.land data (u32 (Z.lnot (Z.shiftl 65535 shift))) in
  outl PCI_CONFIG_DATA (Z.lor data (u32 (Z.shiftl val shift))).
Definition pci_write32 (bus slot func offset val : Z) : M St unit :=
  outl PCI_CONFIG_ADDR (PCI_ADDR bus slot func offset);;
  outl PCI_CONFIG_DATA val.

Definition pci_dev_read32 (d : pci_device) (off : Z) : M St Z := pci_read32 (pd_bus d) (pd_slot d) (pd_func d) off.
Definition pci_dev_write32 (d : pci_device) (off val : Z) : M St unit :=
  pci_write32 (pd_bus d) (pd_slot d) (pd_func d) off val.
Definition pci_dev_read16 (d : pci_device) (off : Z) : M St Z := pci_read16 (pd_bus d) (pd_slot d) (pd_func d) off.
Definition pci_dev_write16 (d : pci_device) (off val : Z) : M St unit :=
  pci_write16 (pd_bus d) (pd_slot d) (pd_func d) off val.
Definition pci_dev_read8 (d : pci_device) (off : Z) : M St Z := pci_read8 (pd_bus d) (pd_slot d) (pd_func d) off.
Definition pci_dev_write8 (d : pci_device) (off val : Z) : M St unit :=
  pci_write8 (pd_bus d) (pd_slot d) (pd_func d) off val.

Definition pci_read_bar (bus slot func bar : Z) : M St Z :=
  let offset := u8 (PCI_BAR0_OFFSET + bar * 4) in
  low ← pci_read32 bus slot func offset;
  if Z.land low PCI_BAR_TYPE_MASK =? PCI_BAR_TYPE_64BIT then
    high ← pci_read32 bus slot func (u8 (offset + 4));
    mret (Z.lor (u64 (Z.shiftl high 32)) (Z.land low PCI_BAR_ADDR_MASK))
  else mret (Z.land low PCI_BAR_ADDR_MASK).

(** [x & ~0x3] in a [u8]. *)
Definition cap_ptr (x : Z) : Z := u8 (Z.land x (Z.lnot 3)).

(** One turn of [while (ptr)]. *)
Definition find_cap_body (bus slot func cap_id ptr : Z) : M St (Z + Z) :=
  if ptr =? 0 then mret (inr 0)
  else
    id ← pci_read8 bus slot func ptr;
    if id =? cap_id then mret (inr ptr)
    else
      next ← pci_read8 bus slot func (u8 (ptr + 1));
      mret (inl (cap_ptr next)).

Definition pci_find_cap (bus slot func cap_id : Z) : M St Z :=
  status ← pci_read16 bus slot func PCI_STATUS_OFFSET;
  if Z.land status PCI_STATUS_CAP_LIST =? 0 then mret 0
  else
    p ← pci_read8 bus slot func PCI_CAP_PTR_OFFSET;
    mloop (find_cap_body bus slot func cap_id) (cap_ptr p).

Definition pci_msi_enable (d : pci_device) (vector : Z) : M St Z :=
  let bus := pd_bus d in let slot := pd_slot d in let func := pd_func d in
  cap ← pci_find_cap bus slot func PCI_CAP_MSI;
  if cap =? 0 then mret (-1)
  else
    ctrl ← pci_read16 bus slot func (u8 (cap + 2));
    pci_write32 bus slot func (u8 (cap + 4)) MSI_ADDR_BASE;;
    data_off ← (if negb (Z.land ctrl MSI_CTRL_64BIT =? 0) then
                  pci_write32 bus slot func (u8 (cap + 8)) 0;; mret (cap + 12)
                else mret (cap + 8));
    pci_write16 bus slot func (u8 data_off) vector;;
    let ctrl := u16 (Z.land ctrl (Z.lnot MSI_CTRL_MME_MASK)) in
    let ctrl := Z.lor ctrl MSI_CTRL_ENABLE in
    pci_write16 bus slot func (u8 (cap + 2)) ctrl;;
    mret 0.

Definition pci_msi_disable (d : pci_device) : M St unit :=
  let bus := pd_bus d in let slot := pd_slot d in let func := pd_func d in
  cap ← pci_find_cap bus slot func PCI_CAP_MSI;
  if cap =? 0 then mret tt
  else
    ctrl ← pci_read16 bus slot func (u8 (cap + 2));
    pci_write16 bus slot func (u8 (cap + 2)) (u16 (Z.land ctrl (Z.lnot MSI_CTRL_ENABLE))).

(** The 16 double words of a header, from word [i] on. *)
Fixpoint read_words (bus slot func : Z) (n : nat) (i : Z) : M St (list Z) :=
  match n with
  | O => mret []
  | S k => w ← pci_read32 bus slot func (i * 4); ws ← read_words bus slot func k (i + 1); mret (w :: ws)
  end.
Definition pci_read_general_header (bus slot func : Z) : M St pci_general_header :=
  ws ← read_words bus slot func 16 0; mret (general_of ws).
Definition pci_read_bridge_header (bus slot func : Z) : M St pci_bridge_header :=
  ws ← read_words bus slot func 16 0; mret (bridge_of ws).

(** ** Enumeration *)

Definition upd_pci (f : pci_state -> pci_state) : M St unit := mmodify (fun s => set_pci (f (get_pci s)) s).

Definition pci_bus_alloc : M St Z :=
  b ← mgets (fun s => free_bus (get_pci s));
  upd_pci (fun p => PciState (pci_devices p) (pci_device_count p) (u8 (b + 1)));;
  mret b.

Definition dev_update (i : Z) (f : pci_device -> pci_device) : M St unit :=
  upd_pci (fun p => PciState (alter f (Z.to_nat i) (pci_devices p)) (pci_device_count p) (free_bus p)).

Definition set_coords (bus slot func : Z) (d : pci_device) : pci_device :=
  PciDevice bus slot func (pd_vendor_id d) (pd_device_id d) (pd_header_type d) (pd_int_line d) (pd_hdr d).
Definition set_htype (t : Z) (d : pci_device) : pci_device :=
  PciDevice (pd_bus d) (pd_slot d) (pd_func d) (pd_vendor_id d) (pd_device_id d) t (pd_int_line d) (pd_hdr d).
(** [dev->hdr], [vendor_id], [device_id] and [int_line] after the header was read. *)
Definition set_hdr (h : pci_hdr) (d : pci_device) : pci_device :=
  PciDevice (pd_bus d) (pd_slot d) (pd_func d) (vendor_id (hdr_common h)) (device_id (hdr_common h)) (pd_header_type d)
    (match h with General g => gh_int_line g | Bridge b => bh_int_line b end) h.
(** Stores into [dev->hdr.bridge], which holds a bridge header. *)
Definition on_bridge (f : pci_bridge_header -> pci_bridge_header) (d : pci_device) : pci_device :=
  match pd_hdr d with
  | Bridge b => PciDevice (pd_bus d) (pd_slot d) (pd_func d) (pd_vendor_id d) (pd_device_id d) (pd_header_type d)
                  (pd_int_line d) (Bridge (f b))
  | General _ => d
  end.

Definition pci_tag : option (list Z) := Some (str "PCI").

Definition scan_bridge (scan_bus : Z -> M St unit) (dev bus slot func : Z) : M St unit :=
  b ← pci_read_bridge_header bus slot func;
  dev_update dev (set_hdr (Bridge b));;
  secondary ← pci_bus_alloc;
  dev_update dev (on_bridge (set_bus_nums bus secondary secondary));;
  pci_write8 bus slot func 24 bus;;
  pci_write8 bus slot func 25 secondary;;
  pci_write8 bus slot func 26 secondary;;
  klog pci_tag (str "bridge %u:%u.%u -> bus %u") [Word bus; Word slot; Word func; Word secondary];;
  scan_bus secondary;;
  next ← pci_bus_alloc;
  let sub := u8 (next - 1) in
  pci_write8 bus slot func 26 sub;;
  dev_update dev (on_bridge (fun b => set_bus_nums (primary_bus_num b) (secondary_bus_num b) sub b)).

Definition scan_endpoint (dev bus slot func : Z) : M St unit :=
  g ← pci_read_general_header bus slot func;
  dev_update dev (set_hdr (General g));;
  klog pci_tag (str "%u:%u.%u  vendor=%04X device=%04X class=%02x:%02x")
    [Word bus; Word slot; Word func; Word (vendor_id (gh g)); Word (device_id (gh g));
     Word (class_code (gh g)); Word (subclass (gh g))].

(** [scan_bus] is the recursive call of [pci_scan_bus]. *)
Definition pci_scan_function (scan_bus : Z -> M St unit) (bus slot func : Z) : M St unit :=
  v ← pci_read16 bus slot func 0;
  if v =? 65535 then mret tt
  else
    n ← mgets (fun s => pci_device_count (get_pci s));
    if MAX_PCI_DEVICES <=? n then mret tt
    else
      upd_pci (fun p => PciState (pci_devices p) (u32 (n + 1)) (free_bus p));;
      dev_update n (set_coords bus slot func);;
      htype ← pci_read8 bus slot func 14;
      dev_update n (set_htype htype);;
      if Z.land htype 127 =? 1 then scan_bridge scan_bus n bus slot func
      else scan_endpoint n bus slot func.

Definition scan_slot (scan_bus : Z -> M St unit) (bus slot : Z) : M St (option unit) :=
  v ← pci_read16 bus slot 0 0;
  if v =? 65535 then mret None
  else
    pci_scan_function scan_bus bus slot 0;;
    htype ← pci_read8 bus slot 0 14;
    if negb (Z.land htype 128 =? 0)
    then mfor 7 (fun func => pci_scan_function scan_bus bus slot func;; mret None) 1
    else mret None.

Fixpoint pci_scan_bus (fuel : nat) (bus : Z) : M St unit :=
  match fuel with
  | O => mstuck Diverge
  | S k => mfor 32 (scan_slot (pci_scan_bus k) bus) 0;; mret tt
  end.

(** The loop with which the drivers look for their controller: the first
    storage controller of a subclass in the table. *)
Definition storage_of (sub : Z) (d : pci_device) : bool :=
  (class_code (hdr_common (pd_hdr d)) =? PCI_CLASS_STORAGE) && (subclass (hdr_common (pd_hdr d)) =? sub).
Definition first_storage (sub : Z) : M St (option pci_device) :=
  p ← mgets get_pci;
  mfor (Z.to_nat (pci_device_count p)) (fun i =>
    match pci_devices p !! Z.to_nat i with
    | None => mstuck Fault
    | Some d => mret (if storage_of sub d then Some d else None)
    end) 0.

Definition pci_scan : M St unit := pci_scan_bus (S (Z.to_nat MAX_PCI_DEVICES)) 0.
End Pci.

(** ** A machine to run it on *)

(** The hardware has a state of any type [H]; [cread] answers a read of the
    double word at a configuration address, [cwrite] performs a write. *)
Record pci_machine {H : Type} := PciMachine { m_latch : Z; m_hw : H; m_pci : pci_state; m_log : list Z }.
Arguments pci_machine : clear implicits.
Arguments PciMachine {H}.

Definition put_pci {H} (p : pci_state) (m : pci_machine H) : pci_machine H :=
  PciMachine (m_latch m) (m_hw m) p (m_log m).

Section Machine.
Context {H : Type} (cread : Z -> H -> Z * H) (cwrite : Z -> Z -> H -> H).
#[local] Abbreviation mach := (pci_machine H).

Definition config_out (port v : Z) : M mach unit := fun m =>
  if port =? PCI_CONFIG_ADDR then Ok (tt, PciMachine v (m_hw m) (m_pci m) (m_log m))
  else if port =? PCI_CONFIG_DATA then
    Ok (tt, PciMachine (m_latch m) (cwrite (m_latch m) v (m_hw m)) (m_pci m) (m_log m))
  else Ok (tt, m).
Definition config_in (port : Z) : M mach Z := fun m =>
  if port =? PCI_CONFIG_DATA then
    Ok (u32 (cread (m_latch m) (m_hw m)).1,
        PciMachine (m_latch m) (cread (m_latch m) (m_hw m)).2 (m_pci m) (m_log m))
  else Ok (2 ^ 32 - 1, m).

Lemma config_in_u32 p m v m' : config_in p m = Ok (v, m') -> 0 <= v < 2 ^ 32.
Proof. unfold config_in. destruct (p =? _); intros [= <- _]; [apply u32_range|lia]. Qed.

(** Nothing answers on the narrower ports. *)
Definition config_ports : PortIO mach.
Proof.
  refine {| outb := fun _ _ => mret tt; outw := fun _ _ => mret tt; outl := config_out;
            inb := fun _ => mret (2 ^ 8 - 1); inw := fun _ => mret (2 ^ 16 - 1); inl_ := config_in;
            inl_u32 := config_in_u32 |}; by intros p s b s' [= <- _].
Defined.

(** The log is only recorded. *)
Definition log_console : Console mach.
Proof.
  refine {| serial_putc := fun c m => Ok (tt, PciMachine (m_latch m) (m_hw m) (m_pci m) (m_log m ++ [u8 c]));
            kconsole_putc := fun _ => mret tt; con_inv := fun _ => True; con_out := m_log |}; done.
Defined.
#[local] Existing Instance config_ports.
#[local] Existing Instance log_console.

(** *** Any hardware *)

(** The accesses leave the driver's variables alone. *)
Section Frame.
Context (bus slot func off : Z) (m : mach).

Lemma read8_frame Q : (forall v m', m_pci m' = m_pci m -> 0 <= v < 2 ^ 8 -> Q v m') -> wp (pci_read8 bus slot func off) m Q.
Proof.
  intros HQ. unfold pci_read8. wp_step. apply HQ; [done|].
  change 255 with (Z.ones 8). rewrite Z.land_ones by done. by apply Z.mod_pos_bound.
Qed.

Lemma read16_frame Q : (forall v m', m_pci m' = m_pci m -> 0 <= v < 2 ^ 16 -> Q v m') -> wp (pci_read16 bus slot func off) m Q.
Proof.
  intros HQ. unfold pci_read16. wp_step. apply HQ; [done|].
  change 65535 with (Z.ones 16). rewrite Z.land_ones by done. by apply Z.mod_pos_bound.
Qed.

Lemma read32_frame Q : (forall v m', m_pci m' = m_pci m -> 0 <= v < 2 ^ 32 -> Q v m') -> wp (pci_read32 bus slot func off) m Q.
Proof. intros HQ. unfold pci_read32. wp_step. apply HQ; [done|apply u32_range]. Qed.

Lemma write8_frame val Q : (forall m', m_pci m' = m_pci m -> Q tt m') -> wp (pci_write8 bus slot func off val) m Q.
Proof. intros HQ. unfold pci_write8. wp_step. apply wp_bind. by apply HQ. Qed.
End Frame.

Lemma read_words_frame bus slot func n i (m : mach) Q :
  (forall ws m', m_pci m' = m_pci m -> length ws = n -> Q ws m') -> wp (read_words bus slot func n i) m Q.
Proof.
  revert i m Q. induction n as [|n IH]; intros i m Q HQ; cbn [read_words]; [by apply HQ|].
  wp_step. apply read32_frame. intros w m1 E1 _. wp_step. apply IH. intros ws m2 E2 El.
  apply HQ; [by rewrite E2|]. cbn. by rewrite El.
Qed.

Lemma klog_frame fmt args (m : mach) Q :
  log_ok fmt = true -> fits (pieces None fmt) args = true -> Forall arg_ok args ->
  (forall m', m_pci m' = m_pci m -> Q tt m') -> wp (klog pci_tag fmt args) m Q.
Proof.
  intros Hf Hfit Ha HQ.
  assert (forall c, keeps (fun m' : mach => m_pci m' = m_pci m) (serial_putc c)) as Hser by by intros c s r s' Hs [= _ <-].
  assert (forall c, keeps (fun m' : mach => m_pci m' = m_pci m) (kconsole_putc c)) as Hcon by by intros c s r s' Hs [= _ <-].
  eapply wp_mono; [by apply (klog_quiet _ Hser Hcon (str "PCI") fmt args m ltac:(by_decide) Hf Hfit Ha I)|].
  intros [] m' [_ E]. by apply HQ.
Qed.

(** Every field of a record has the range of its type, and the coordinates
    are those of a function. *)
Record dev_ok (d : pci_device) : Prop := {
  ok_bus : 0 <= pd_bus d < 2 ^ 8; ok_slot : 0 <= pd_slot d < 32; ok_func : 0 <= pd_func d < 8;
  ok_vendor : 0 <= pd_vendor_id d < 2 ^ 16; ok_device : 0 <= pd_device_id d < 2 ^ 16;
  ok_header : 0 <= pd_header_type d < 2 ^ 8; ok_line : 0 <= pd_int_line d < 2 ^ 8
}.

Record table_ok (p : pci_state) : Prop := {
  table_length : Z.of_nat (length (pci_devices p)) = MAX_PCI_DEVICES;
  table_count : 0 <= pci_device_count p <= MAX_PCI_DEVICES;
  table_bus : 0 <= free_bus p < 2 ^ 8;
  table_devs : Forall dev_ok (pci_devices p)
}.

Lemma half_at_range ws off : 0 <= half_at ws off < 2 ^ 16.
Proof. unfold half_at. change 65535 with (Z.ones 16). rewrite Z.land_ones by done. by apply Z.mod_pos_bound. Qed.
Lemma byte_at_range ws off : 0 <= byte_at ws off < 2 ^ 8.
Proof. unfold byte_at. change 255 with (Z.ones 8). rewrite Z.land_ones by done. by apply Z.mod_pos_bound. Qed.

Lemma set_coords_ok bus slot func d :
  0 <= bus < 2 ^ 8 -> 0 <= slot < 32 -> 0 <= func < 8 -> dev_ok d -> dev_ok (set_coords bus slot func d).
Proof. intros Hb Hs Hf []. split; assumption. Qed.
Lemma set_htype_ok t d : 0 <= t < 2 ^ 8 -> dev_ok d -> dev_ok (set_htype t d).
Proof. intros Ht []. split; assumption. Qed.
Lemma set_hdr_ok h ws d : h = General (general_of ws) \/ h = Bridge (bridge_of ws) -> dev_ok d -> dev_ok (set_hdr h d).
Proof. intros [-> | ->] []; split; cbn; assumption || apply half_at_range || apply byte_at_range. Qed.
Lemma on_bridge_ok f d : dev_ok d -> dev_ok (on_bridge f d).
Proof. unfold on_bridge. destruct (pd_hdr d); [done|]. intros []. split; assumption. Qed.
#[local] Hint Resolve set_coords_ok set_htype_ok set_hdr_ok on_bridge_ok : core.

(** The table after a step: in order, and no shorter. *)
Definition grown (m m' : mach) : Prop :=
  table_ok (m_pci m') /\ pci_device_count (m_pci m) <= pci_device_count (m_pci m').

Lemma grown_refl m m' : m_pci m' = m_pci m -> table_ok (m_pci m) -> grown m m'.
Proof. intros E. unfold grown. by rewrite E. Qed.
Lemma grown_trans m1 m2 m3 : grown m1 m2 -> grown m2 m3 -> grown m1 m3.
Proof. intros [_ ?] [? ?]. split; [done|lia]. Qed.

#[local] Abbreviation get := (@m_pci H).
#[local] Abbreviation set := put_pci.

Lemma dev_update_grows i f (m : mach) Q :
  table_ok (m_pci m) -> (forall d, dev_ok d -> dev_ok (f d)) ->
  (forall m', grown m m' -> pci_device_count (m_pci m') = pci_device_count (m_pci m) -> Q tt m') ->
  wp (dev_update get set i f) m Q.
Proof.
  intros [] Hf HQ. apply wp_modify, HQ; [|done]. split; [|done]. split; cbn; [by rewrite length_alter|done..|].
  apply Forall_alter; [done|]. intros d _ Hd. by apply Hf.
Qed.

Lemma bus_alloc_grows (m : mach) Q :
  table_ok (m_pci m) ->
  (forall b m', 0 <= b < 2 ^ 8 -> grown m m' -> pci_device_count (m_pci m') = pci_device_count (m_pci m) -> Q b m') ->
  wp (pci_bus_alloc get set) m Q.
Proof.
  intros [] HQ. unfold pci_bus_alloc. wp_steps. apply HQ; [done| |done].
  split; [|done]. split; cbn; [done..|apply u8_range|done].
Qed.

(** What the recursive call is assumed to do, of a table with at least [n]
    records. *)
Definition scans_above (n : Z) (scan : Z -> M mach unit) : Prop := forall bus m,
  0 <= bus < 2 ^ 8 -> table_ok (m_pci m) -> n <= pci_device_count (m_pci m) -> wp (scan bus) m (fun _ m' => grown m m').

Lemma scan_bridge_grows n scan dev bus slot func (m : mach) :
  scans_above n scan -> 0 <= bus < 2 ^ 8 -> table_ok (m_pci m) -> n <= pci_device_count (m_pci m) ->
  wp (scan_bridge get set scan dev bus slot func) m (fun _ m' => grown m m').
Proof.
  intros Hscan Hb Hok Hn. unfold scan_bridge, pci_read_bridge_header.
  wp_step. wp_step. apply read_words_frame. intros ws m1 E1 _. wp_step.
  wp_step. apply dev_update_grows; [by rewrite E1|eauto|]. intros m2 [Hok2 _] C2.
  wp_step. apply bus_alloc_grows; [done|]. intros sec m3 Hsec [Hok3 _] C3.
  wp_step. apply dev_update_grows; [done|eauto|]. intros m4 [Hok4 _] C4.
  do 3 (wp_step; apply write8_frame; intros ? ?).
  wp_step. apply klog_frame; [done..|by repeat constructor|]. intros m8 E8.
  assert (m_pci m8 = m_pci m4) as E by congruence. clear E8.
  wp_step. eapply wp_mono; [apply Hscan; [done|by rewrite E|rewrite E; congruence]|]. intros [] m9 [Hok9 Hle].
  wp_step. apply bus_alloc_grows; [done|]. intros next m10 _ [Hok10 _] C10. cbv zeta.
  wp_step. apply write8_frame. intros m11 E11.
  apply dev_update_grows; [by rewrite E11|eauto|]. intros m12 [Hok12 _] C12.
  split; [done|]. rewrite C12, E11, C10. rewrite E in Hle. congruence || lia.
Qed.

Lemma scan_endpoint_grows dev bus slot func (m : mach) :
  table_ok (m_pci m) -> wp (scan_endpoint get set dev bus slot func) m (fun _ m' => grown m m').
Proof.
  intros Hok. unfold scan_endpoint, pci_read_general_header.
  wp_step. wp_step. apply read_words_frame. intros ws m1 E1 _. wp_step.
  wp_step. apply dev_update_grows; [by rewrite E1|eauto|]. intros m2 [Hok2 Hle] C2.
  apply klog_frame; [done..|by repeat constructor|]. intros m3 E3. unfold grown. by rewrite E3, C2, E1 in *.
Qed.

Lemma scan_function_grows n scan bus slot func (m : mach) :
  scans_above (n + 1) scan -> 0 <= bus < 2 ^ 8 -> 0 <= slot < 32 -> 0 <= func < 8 ->
  table_ok (m_pci m) -> n <= pci_device_count (m_pci m) ->
  wp (pci_scan_function get set scan bus slot func) m (fun _ m' => grown m m').
Proof.
  intros Hscan Hb Hs Hf Hok Hn. unfold pci_scan_function.
  wp_step. apply read16_frame. intros v m1 E1 _. destruct (v =? 65535); [wp_step; by apply grown_refl|].
  do 2 wp_step. rewrite E1. destruct (Z.leb_spec MAX_PCI_DEVICES (pci_device_count (m_pci m))); [wp_step; by apply grown_refl|].
  set (c := pci_device_count (m_pci m)) in *.
  wp_step. apply wp_modify. set (m2 := put_pci _ m1).
  assert (pci_device_count (m_pci m2) = c + 1 /\ table_ok (m_pci m2)) as [C2 Hok2].
  { destruct Hok. unfold c in *. assert (u32 (pci_device_count (m_pci m) + 1) = pci_device_count (m_pci m) + 1) as E
      by (apply u32_small; unfold MAX_PCI_DEVICES in *; lia).
    split; [done|]. split; cbn; rewrite ?E1; [done|rewrite E; unfold MAX_PCI_DEVICES in *; lia|done|done]. }
  wp_step. apply dev_update_grows; [done|eauto|]. intros m3 [Hok3 _] C3.
  wp_step. apply read8_frame. intros t m4 E4 Ht.
  wp_step. apply dev_update_grows; [by rewrite E4|eauto|]. intros m5 [Hok5 _] C5.
  assert (pci_device_count (m_pci m5) = c + 1) as C by congruence.
  destruct (Z.land t 127 =? 1).
  - eapply wp_mono; [apply (scan_bridge_grows (n + 1)); [done..|lia]|]. intros [] m6 [? ?]. split; [done|]. fold c. lia.
  - eapply wp_mono; [by apply scan_endpoint_grows|]. intros [] m6 [? ?]. split; [done|]. fold c. lia.
Qed.

Lemma scan_slot_grows n scan bus slot (m : mach) :
  scans_above (n + 1) scan -> 0 <= bus < 2 ^ 8 -> 0 <= slot < 32 ->
  table_ok (m_pci m) -> n <= pci_device_count (m_pci m) ->
  wp (scan_slot get set scan bus slot) m (fun r m' => r = None /\ grown m m').
Proof.
  intros Hscan Hb Hs Hok Hn. unfold scan_slot.
  wp_step. apply read16_frame. intros v m1 E1 _. destruct (v =? 65535); [wp_step; split; [done|by apply grown_refl]|].
  wp_step. eapply wp_mono; [apply (scan_function_grows n); [done..|lia|by rewrite E1|by rewrite E1]|]. intros [] m2 H2.
  assert (grown m m2) as G2 by (unfold grown in *; by rewrite E1 in H2).
  wp_step. apply read8_frame. intros t m3 E3 _.
  assert (grown m m3) as G3 by (unfold grown in *; by rewrite E3).
  destruct (negb _); [|by wp_step].
  apply (wp_mfor _ (fun _ m' => grown m m')); [|done|done].
  intros func m4 Hf G4. wp_step.
  eapply wp_mono; [apply (scan_function_grows n); [done..|lia|apply G4|destruct G4; lia]|].
  intros [] m5 G5. wp_step. by eapply grown_trans.
Qed.

Lemma scan_bus_grows fuel : scans_above (MAX_PCI_DEVICES + 1 - Z.of_nat fuel) (pci_scan_bus get set fuel).
Proof.
  induction fuel as [|k IH]; intros bus m Hb Hok Hn.
  { destruct Hok. lia. }
  cbn [pci_scan_bus]. wp_step.
  apply (wp_mfor _ (fun _ m' => grown m m')); [|intros m' G; by wp_step|by apply grown_refl].
  intros slot m1 Hs G1. eapply wp_mono.
  - apply (scan_slot_grows (MAX_PCI_DEVICES + 1 - Z.of_nat (S k))); [|done|lia|apply G1|destruct G1; lia].
    by replace (_ + 1) with (MAX_PCI_DEVICES + 1 - Z.of_nat k) by lia.
  - intros r m2 [-> G2]. by eapply grown_trans.
Qed.
End Machine.

(** Bus enumeration always ends, on any hardware: whatever the
    configuration reads answer (bridges that loop back to a bus already
    scanned, a device that changes its answers, numbers that run out),
    [pci_scan] returns, the device table is not overrun, and every record in it
    is well typed with the coordinates of a possible function. *)
Lemma pci_scan_terminates {H} (cread : Z -> H -> Z * H) (cwrite : Z -> Z -> H -> H) (m : pci_machine H) :
  table_ok (m_pci m) ->
  wp (pci_scan (IO := config_ports cread cwrite) (CO := log_console) m_pci put_pci) m (fun _ m' =>
    table_ok (m_pci m') /\ pci_device_count (m_pci m) <= pci_device_count (m_pci m')).
Proof.
  intros Hok. apply (scan_bus_grows cread cwrite (S (Z.to_nat MAX_PCI_DEVICES))); [done|done|].
  destruct Hok. rewrite Nat2Z.inj_succ, Z2Nat.id by done. lia.
Qed.

(** Every function everywhere is a bridge: each scan goes one bus deeper. *)
Lemma pci_scan_terminates_witness :
  wp (pci_scan (IO := config_ports (fun _ h => (65536, h)) (fun _ _ h => h)) (CO := log_console)
        m_pci put_pci) (PciMachine 0 tt pci_start [])
    (fun _ m' => table_ok (m_pci m') /\ 0 <= pci_device_count (m_pci m')).
Proof.
  apply (pci_scan_terminates (fun _ h => (65536, h)) (fun _ _ h => h) (PciMachine 0 tt pci_start [])).
  split; [done|done|done|]. cbn. repeat (constructor; [by split|]). constructor.
Defined.

(** ** Byte-exact accesses *)

(** Configuration registers that hold what is written to them. *)
Definition ram_read (a : Z) (h : Z -> Z) : Z * (Z -> Z) := (h a, h).
Definition ram_write (a v : Z) (h : Z -> Z) : Z -> Z := fun b => if b =? a then v else h b.

(** Coordinates of a byte of configuration space. *)
Record cfg_coords (bus slot func off : Z) : Prop := {
  co_bus : 0 <= bus < 256; co_slot : 0 <= slot < 32; co_func : 0 <= func < 8; co_off : 0 <= off < 256
}.

Lemma land_252 off : 0 <= off < 256 -> Z.land off 252 = 4 * (off / 4).
Proof.
  intros Ho. change 252 with (Z.shiftl (Z.ones 6) 2). rewrite land_field by done.
  change (2 ^ (2 + 6)) with 256. change (2 ^ 2) with 4. rewrite (Z.mod_small off 256) by done.
  pose proof (Z.div_mod off 4). lia.
Qed.

Lemma PCI_ADDR_sum bus slot func off : cfg_coords bus slot func off ->
  PCI_ADDR bus slot func off = 2 ^ 31 + bus * 2 ^ 16 + slot * 2 ^ 11 + func * 2 ^ 8 + 4 * (off / 4).
Proof.
  intros [Hb Hs Hf Ho]. unfold PCI_ADDR. rewrite land_252 by done. rewrite !Z.shiftl_mul_pow2 by done.
  rewrite !u32_small by lia. change 2147483648 with (2 ^ 31).
  rewrite (lor_disjoint (2 ^ 31) (bus * 2 ^ 16) 31) by (done || lia).
  rewrite (lor_disjoint _ (slot * 2 ^ 11) 16) by (Z.to_euclidean_division_equations; lia).
  rewrite (lor_disjoint _ (func * 2 ^ 8) 11) by (Z.to_euclidean_division_equations; lia).
  rewrite (lor_disjoint _ (4 * (off / 4)) 8) by (Z.to_euclidean_division_equations; lia). done.
Qed.

(** Two bytes share a register when only the low two bits of the offset differ. *)
Lemma PCI_ADDR_inj bus slot func off bus' slot' func' off' :
  cfg_coords bus slot func off -> cfg_coords bus' slot' func' off' ->
  PCI_ADDR bus slot func off = PCI_ADDR bus' slot' func' off' ->
  bus = bus' /\ slot = slot' /\ func = func' /\ off / 4 = off' / 4.
Proof.
  intros H H'. rewrite !PCI_ADDR_sum by done. destruct H, H'. intros E.
  Z.to_euclidean_division_equations; lia.
Qed.

Lemma land_3 off : Z.land off 3 = off mod 4.
Proof. by apply (Z.land_ones off 2). Qed.
Lemma land_2 off : Z.land off 2 = off mod 4 - off mod 2.
Proof. by apply (land_field off 1 1). Qed.

(** The byte of configuration space at an offset. *)
Definition conf_byte (h : Z -> Z) (bus slot func off : Z) : Z := nth_byte (h (PCI_ADDR bus slot func off)) (off mod 4).

(** The [n] bytes from [off] on become those of [val]; nothing else changes. *)
Definition bytes_written (n : Z) (h h' : Z -> Z) (bus slot func off val : Z) : Prop :=
  forall bus' slot' func' off', cfg_coords bus' slot' func' off' ->
    conf_byte h' bus' slot' func' off' =
    if bool_decide (bus' = bus /\ slot' = slot /\ func' = func /\ off <= off' < off + n)
    then nth_byte val (off' - off) else conf_byte h bus' slot' func' off'.

Lemma insert_bytes n h bus slot func off val d' :
  cfg_coords bus slot func off -> 0 <= n -> off mod 4 + n <= 4 ->
  (forall j, 0 <= j -> Z.testbit d' j =
     if (8 * (off mod 4) <=? j) && (j <? 8 * (off mod 4) + 8 * n) then Z.testbit val (j - 8 * (off mod 4))
     else Z.testbit (h (PCI_ADDR bus slot func off)) j) ->
  bytes_written n h (ram_write (PCI_ADDR bus slot func off) d' h) bus slot func off val.
Proof.
  intros Hc Hn Hfit Hbits b s f o Hc'. unfold conf_byte, ram_write.
  destruct (Z.eqb_spec (PCI_ADDR b s f o) (PCI_ADDR bus slot func off)) as [E|Hne].
  - pose proof E as E'. apply PCI_ADDR_inj in E as (-> & -> & -> & Hdiv); [|done|done].
    apply Z.bits_inj'. intros j Hj. pose proof (Z.mod_pos_bound o 4 eq_refl). pose proof (Z.div_mod o 4 ltac:(done)).
    pose proof (Z.div_mod off 4 ltac:(done)).
    rewrite testbit_byte, Hbits by lia. rewrite E'.
    case_bool_decide as Hin; rewrite testbit_byte by lia;
    destruct (Z.ltb_spec j 8), (Z.leb_spec (8 * (off mod 4)) (8 * (o mod 4) + j)),
      (Z.ltb_spec (8 * (o mod 4) + j) (8 * (off mod 4) + 8 * n)); cbn [andb]; try done; try (exfalso; lia).
    f_equal. lia.
  - case_bool_decide as Hin; [|done]. destruct Hin as (-> & -> & -> & Ho). exfalso. apply Hne.
    rewrite !PCI_ADDR_sum by done. do 2 f_equal. destruct Hc, Hc'. Z.to_euclidean_division_equations. lia.
Qed.

(** The offsets within a register. *)
Lemma PCI_ADDR_near bus slot func off k :
  cfg_coords bus slot func off -> 0 <= k -> off mod 4 + k < 4 ->
  PCI_ADDR bus slot func (off + k) = PCI_ADDR bus slot func off /\ (off + k) mod 4 = off mod 4 + k.
Proof.
  intros [Hb Hs Hf Ho] Hk Hfit.
  assert (off + k < 256 /\ (off + k) / 4 = off / 4 /\ (off + k) mod 4 = off mod 4 + k) as (? & E & ->)
    by (Z.to_euclidean_division_equations; lia).
  split; [|done]. rewrite !PCI_ADDR_sum by (split; lia). by rewrite E.
Qed.

(** One port access of a concrete machine. *)
Ltac io_last := eapply wp_run; [reflexivity|]; cbn [m_hw m_latch fst snd ram_read].
Ltac io_step := wp_step; io_last.

Section Access.
#[local] Instance ram_ports : PortIO (pci_machine (Z -> Z)) := config_ports ram_read ram_write.
Context (bus slot func off : Z) (m : pci_machine (Z -> Z)).
#[local] Abbreviation h := (m_hw m).

(** C34: a configuration access touches the bytes it names and no others: the
    reads answer the 1, 2 or 4 bytes at the offset, and the writes, two of
    which read the whole double word and write it back, change exactly those
    bytes, of that function of that device on that bus; every other byte of
    configuration space keeps its value. *)
Theorem pci_access_exact val :
  cfg_coords bus slot func off -> (forall a, 0 <= h a < 2 ^ 32) ->
  let byte k := conf_byte h bus slot func (off + k) in
  (wp (pci_read8 bus slot func off) m (fun v m' => v = byte 0 /\ m_hw m' = h)) /\
  (off mod 2 = 0 -> wp (pci_read16 bus slot func off) m (fun v m' => v = byte 0 + 2 ^ 8 * byte 1 /\ m_hw m' = h)) /\
  (off mod 4 = 0 -> wp (pci_read32 bus slot func off) m (fun v m' =>
     v = byte 0 + 2 ^ 8 * byte 1 + 2 ^ 16 * byte 2 + 2 ^ 24 * byte 3 /\ m_hw m' = h)) /\
  (0 <= val < 2 ^ 8 ->
     wp (pci_write8 bus slot func off val) m (fun _ m' => bytes_written 1 h (m_hw m') bus slot func off val)) /\
  (off mod 2 = 0 -> 0 <= val < 2 ^ 16 ->
     wp (pci_write16 bus slot func off val) m (fun _ m' => bytes_written 2 h (m_hw m') bus slot func off val)) /\
  (off mod 4 = 0 -> 0 <= val < 2 ^ 32 ->
     wp (pci_write32 bus slot func off val) m (fun _ m' => bytes_written 4 h (m_hw m') bus slot func off val)).
Proof.
  intros Hc Hu byte. pose proof (Z.mod_pos_bound off 4 eq_refl) as H4.
  assert (forall k, 0 <= k -> off mod 4 + k < 4 -> byte k = nth_byte (h (PCI_ADDR bus slot func off)) (off mod 4 + k)) as Hbyte.
  { intros k Hk Hfit. unfold byte, conf_byte. by destruct (PCI_ADDR_near bus slot func off k Hc Hk Hfit) as [-> ->]. }
  pose proof (Hu (PCI_ADDR bus slot func off)) as Hd. set (d := h (PCI_ADDR bus slot func off)) in *.
  assert (u32 d = d) as Eu by by apply u32_small.
  assert (off mod 2 = 0 -> Z.land off 2 = off mod 4 /\ off mod 4 + 2 <= 4) as Heven.
  { intros E. rewrite land_2. Z.to_euclidean_division_equations; lia. }
  split_and!.
  - unfold pci_read8. do 2 io_step. wp_step. fold d. rewrite Eu, land_3, Hbyte by lia. split; [|done].
    unfold nth_byte. by rewrite Z.add_0_r, (Z.mul_comm 8).
  - intros E. destruct (Heven E) as [E2 Hle]. unfold pci_read16. do 2 io_step. wp_step. fold d. rewrite Eu, E2, !Hbyte by lia. split; [|done].
    rewrite take_half by lia. by rewrite Z.add_0_r.
  - intros E. unfold pci_read32. io_step. io_last. fold d. rewrite Eu, !Hbyte, E by lia. split; [|done]. by apply take_word.
  - intros Hv. unfold pci_write8. do 2 io_step. fold d. rewrite Eu, land_3.
    apply insert_bytes; [done|lia|lia|]. intros j Hj. fold d. change 255 with (Z.ones 8). rewrite testbit_insert by lia.
    by rewrite (Z.mul_comm _ 8).
  - intros E Hv. destruct (Heven E) as [E2 Hle]. unfold pci_write16. do 2 io_step. fold d. rewrite Eu, E2.
    apply insert_bytes; [done|lia|lia|]. intros j Hj. fold d. change 65535 with (Z.ones 16). rewrite testbit_insert by lia.
    by rewrite (Z.mul_comm _ 8).
  - intros E Hv. unfold pci_write32. io_step. apply insert_bytes; [done|lia|lia|]. intros j Hj. fold d. rewrite E.
    change (8 * 0 + 8 * 4) with 32. change (8 * 0) with 0. rewrite (proj2 (Z.leb_le 0 j)), Z.sub_0_r by done. cbn [andb].
    destruct (Z.ltb_spec j 32); [done|]. rewrite (testbit_above val 32) by lia. symmetry. by apply (testbit_above d 32).
Qed.
End Access.

Lemma pci_access_exact_witness :
  let m := PciMachine 0 (fun a => if a =? 2147486736 then 287454020 else 0) pci_start [] in
  cfg_coords 0 1 4 18 /\
  wp (pci_read8 (IO := ram_ports) 0 1 4 18) m (fun v m' => v = 34 /\ m_hw m' = m_hw m) /\
  wp (pci_write8 (IO := ram_ports) 0 1 4 18 255) m (fun _ m' =>
    bytes_written 1 (m_hw m) (m_hw m') 0 1 4 18 255 /\ conf_byte (m_hw m') 0 1 4 18 = 255).
Proof.
  intros m. assert (cfg_coords 0 1 4 18) as Hc by (split; lia).
  assert (forall a, 0 <= m_hw m a < 2 ^ 32) as Hu by (intros a; cbn; destruct (_ =? _); lia).
  split; [done|]. pose proof (pci_access_exact 0 1 4 18 m 255 Hc Hu) as (R8 & _ & _ & W8 & _). split; [exact R8|].
  apply wp_and; [exact (W8 ltac:(lia))|reflexivity].
Defined.
