(* ===== verification/PciScan.v ===== *)
(** * What PCI enumeration finds (src/src/kernel/pci.c)

    [pci_scan] on a hierarchy of buses: the root bus and the buses behind
    bridges, behind bridges, and so on.  A bridge forwards an access to the
    bus numbers between its secondary and its subordinate number.  The scan
    finds every function of the root bus and of the buses right behind its
    bridges, and nothing deeper: while it looks behind a bridge, the
    subordinate number it gave it admits one bus only. *)
From S2P Require Import Prelude Print Log Ports Pci.

#[local] Open Scope Z_scope.

(** ** A hierarchy of buses *)

(** A function is named by the device-function numbers on the way to it,
    the first one on the root bus; its 64 registers are constant but for the
    bus numbers of a bridge (register 6), which are zero after reset. *)
Abbreviation path := (list Z).
Abbreviation topology := (gmap path (list Z)).
Abbreviation numbers := (gmap path Z).

Definition is_bridge (regs : list Z) : bool := Z.land (byte_at regs 14) 127 =? 1.
Definition bridge_at (T : topology) (q : path) : bool :=
  match T !! q with Some regs => is_bridge regs | None => false end.

Definition bus_reg (B : numbers) (q : path) : Z := default 0 (B !! q).
Definition secondary (B : numbers) (q : path) : Z := nth_byte (bus_reg B q) 1.
Definition subordinate (B : numbers) (q : path) : Z := nth_byte (bus_reg B q) 2.

Definition forwards (T : topology) (B : numbers) (q : path) (b : Z) : bool :=
  bridge_at T q && (secondary B q <=? b) && (b <=? subordinate B q).

(** The bus an access to bus [b] reaches, as the path of its bridge; [cur] is
    the number of the bus at [p]. *)
Fixpoint route (fuel : nat) (T : topology) (B : numbers) (p : path) (cur b : Z) : option path :=
  if b =? cur then Some p
  else match fuel with
       | O => None
       | S k =>
           match list_find (fun d => Is_true (forwards T B (p ++ [d]) b)) (seqZ 0 256) with
           | Some (_, d) => route k T B (p ++ [d]) (secondary B (p ++ [d])) b
           | None => None
           end
       end.
Definition bus_route (T : topology) (B : numbers) (b : Z) : option path := route 256 T B [] 0 b.

Definition bus_of (a : Z) : Z := Z.land (Z.shiftr a 16) 255.
Definition devfn_of (a : Z) : Z := Z.land (Z.shiftr a 8) 255.
Definition reg_of (a : Z) : Z := Z.land (Z.shiftr a 2) 63.

Definition target (T : topology) (B : numbers) (a : Z) : option path :=
  p ← bus_route T B (bus_of a); Some (p ++ [devfn_of a]).

Definition reg_value (T : topology) (B : numbers) (q : path) (r : Z) : Z :=
  match T !! q with
  | Some regs => if is_bridge regs && (r =? 6) then bus_reg B q else word_at regs r
  | None => 2 ^ 32 - 1
  end.

(** An access that reaches nothing is answered with ones. *)
Definition top_read (T : topology) (a : Z) (B : numbers) : Z * numbers :=
  (match target T B a with Some q => reg_value T B q (reg_of a) | None => 2 ^ 32 - 1 end, B).
Definition top_write (T : topology) (a v : Z) (B : numbers) : numbers :=
  match target T B a with
  | Some q => if bridge_at T q && (reg_of a =? 6) then <[q := v]> B else B
  | None => B
  end.

(** ** What there is to find *)

Definition present (T : topology) (q : path) : bool := bool_decide (is_Some (T !! q)).
Definition multi (T : topology) (q : path) : bool :=
  match T !! q with Some regs => negb (Z.land (byte_at regs 14) 128 =? 0) | None => false end.

(** The functions of a slot: function 0, and the others if it says so. *)
Definition others (T : topology) (p : path) (slot n : Z) : list Z :=
  filter (fun d => Is_true (present T (p ++ [d]))) (seqZ (8 * slot + 1) n).
Definition slot_functions (T : topology) (p : path) (slot : Z) : list Z :=
  if present T (p ++ [8 * slot]) then
    8 * slot :: (if multi T (p ++ [8 * slot]) then others T p slot 7 else [])
  else [].
Definition visible (T : topology) (p : path) : list Z := concat (slot_functions T p <$> seqZ 0 32).

(** The functions of the root bus, each followed by those right behind it. *)
Definition below (T : topology) (d : Z) : list path :=
  [d] :: (if bridge_at T [d] then (fun c => [d; c]) <$> visible T [d] else []).
Definition within_two (T : topology) : list path := concat (below T <$> visible T []).

Record topology_ok (T : topology) : Prop := {
  regs_length : forall q regs, T !! q = Some regs -> length regs = 64%nat;
  regs_u32 : forall q regs r, T !! q = Some regs -> r ∈ regs -> 0 <= r < 2 ^ 32;
  regs_vendor : forall q regs, T !! q = Some regs -> half_at regs 0 <> 65535
}.

(** [dev] is a record of the function at [q]: the configuration space at its
    coordinates is the function's, and the ids and the header are its own. *)
Record records (T : topology) (B : numbers) (q : path) (dev : pci_device) : Prop := {
  rec_bus : bus_route T B (pd_bus dev) = Some (take (length q - 1) q);
  rec_devfn : last q = Some (8 * pd_slot dev + pd_func dev);
  rec_regs : exists regs, T !! q = Some regs /\
    pd_vendor_id dev = half_at regs 0 /\ pd_device_id dev = half_at regs 2 /\ pd_header_type dev = byte_at regs 14 /\
    hdr_common (pd_hdr dev) = common_of regs /\
    (is_bridge regs = false -> pd_hdr dev = General (general_of (take 16 regs)))
}.

(** ** Accesses through the hierarchy *)

Lemma address_decodes bus slot func off : cfg_coords bus slot func off ->
  bus_of (PCI_ADDR bus slot func off) = bus /\ devfn_of (PCI_ADDR bus slot func off) = 8 * slot + func /\
  reg_of (PCI_ADDR bus slot func off) = off / 4.
Proof.
  intros Hc. unfold bus_of, devfn_of, reg_of. rewrite PCI_ADDR_sum by done.
  change 255 with (Z.ones 8). change 63 with (Z.ones 6). rewrite !Z.land_ones, !Z.shiftr_div_pow2 by done.
  destruct Hc. split_and!; Z.to_euclidean_division_equations; lia.
Qed.

Lemma route_here fuel T B p b : route fuel T B p b b = Some p.
Proof. destruct fuel; cbn [route]; by rewrite Z.eqb_refl. Qed.

Lemma route_step k T B p cur b :
  route (S k) T B p cur b =
  if b =? cur then Some p
  else match list_find (fun d => Is_true (forwards T B (p ++ [d]) b)) (seqZ 0 256) with
       | Some (_, d) => route k T B (p ++ [d]) (secondary B (p ++ [d])) b
       | None => None
       end.
Proof. done. Qed.

Lemma bus_route_step T B b :
  bus_route T B b =
  if b =? 0 then Some []
  else match list_find (fun d => Is_true (forwards T B [d] b)) (seqZ 0 256) with
       | Some (_, d) => route 255 T B [d] (secondary B [d]) b
       | None => None
       end.
Proof. apply (route_step 255). Qed.
#[local] Opaque bus_route.

Section Topology.
Context (T : topology) (HT : topology_ok T).
#[local] Instance top_ports : PortIO (pci_machine numbers) := config_ports (top_read T) (top_write T).
#[local] Existing Instance log_console.
#[local] Abbreviation mach := (pci_machine numbers).
#[local] Abbreviation get := (@m_pci numbers).
#[local] Abbreviation set := put_pci.

(** Only the address latch differs. *)
Definition same (m m' : mach) : Prop := m_pci m' = m_pci m /\ m_hw m' = m_hw m.

Lemma word_u32 q regs r : T !! q = Some regs -> 0 <= word_at regs r < 2 ^ 32.
Proof.
  intros E. unfold word_at. destruct (regs !! Z.to_nat r) as [x|] eqn:Ex.
  - rewrite (list_lookup_total_correct _ _ x) by done. eapply regs_u32; [done..|]. by eapply list_elem_of_lookup_2.
  - rewrite list_lookup_total_alt, Ex. done.
Qed.

Section Reads.
Context (b slot func : Z) (m : mach).
Context (Hb : 0 <= b < 256) (Hslot : 0 <= slot < 32) (Hfunc : 0 <= func < 8).

#[local] Abbreviation B := (m_hw m).

Lemma coords off : 0 <= off < 256 -> cfg_coords b slot func off.
Proof. by split. Qed.

Lemma target_is p off : bus_route T B b = Some p -> 0 <= off < 256 ->
  target T B (PCI_ADDR b slot func off) = Some (p ++ [8 * slot + func]).
Proof.
  intros Hr Ho. unfold target. destruct (address_decodes _ _ _ _ (coords off Ho)) as (-> & -> & _). by rewrite Hr.
Qed.

Lemma read_value p off : bus_route T B b = Some p -> 0 <= off < 256 ->
  (top_read T (PCI_ADDR b slot func off) B).1 = reg_value T B (p ++ [8 * slot + func]) (off / 4).
Proof.
  intros Hr Ho. unfold top_read. rewrite (target_is p) by done. cbn [fst].
  by destruct (address_decodes _ _ _ _ (coords off Ho)) as (_ & _ & ->).
Qed.

(** Nothing is there: on a bus no bridge leads to, or at a missing function. *)
Lemma read16_absent Q :
  match bus_route T B b with Some p => T !! (p ++ [8 * slot + func]) = None | None => True end ->
  (forall m', same m m' -> Q 65535 m') -> wp (pci_read16 b slot func 0) m Q.
Proof.
  intros Hn HQ. unfold pci_read16. wp_step. io_last. wp_step. io_last. wp_step.
  assert ((top_read T (PCI_ADDR b slot func 0) B).1 = 2 ^ 32 - 1) as E.
  { destruct (bus_route T B b) as [p|] eqn:Hr.
    - rewrite (read_value p) by done. unfold reg_value. by rewrite Hn.
    - unfold top_read, target. destruct (address_decodes _ _ _ _ (coords 0 ltac:(lia))) as (-> & _). by rewrite Hr. }
  match goal with |- Q ?x _ => replace x with 65535 end; [by apply HQ|].
  symmetry. transitivity (Z.land (Z.shiftr (u32 (2 ^ 32 - 1)) 0) 65535); [|reflexivity]. by rewrite <- E.
Qed.

Context (p : path) (regs : list Z).
Context (Hroute : bus_route T B b = Some p) (Hregs : T !! (p ++ [8 * slot + func]) = Some regs).

(** The registers as the driver reads them. *)
Definition live_word (r : Z) : Z := if is_bridge regs && (r =? 6) then u32 (bus_reg B (p ++ [8 * slot + func])) else word_at regs r.

Lemma read32_value off Q : 0 <= off < 256 ->
  (forall m', same m m' -> Q (live_word (off / 4)) m') -> wp (pci_read32 b slot func off) m Q.
Proof.
  intros Ho HQ. unfold pci_read32. io_step. io_last.
  match goal with |- Q ?x _ => replace x with (live_word (off / 4)) end; [by apply HQ|].
  rewrite (read_value p) by done. unfold reg_value, live_word. rewrite Hregs.
  destruct (_ && _); [done|]. by rewrite u32_small by by eapply word_u32.
Qed.

Lemma read16_value Q : (forall m', same m m' -> Q (half_at regs 0) m') -> wp (pci_read16 b slot func 0) m Q.
Proof.
  intros HQ. change (wp (d ← pci_read32 b slot func 0; mret (Z.land (Z.shiftr d (Z.land 0 2 * 8)) 65535)) m Q).
  wp_step. apply read32_value; [lia|]. intros m' Hs. wp_step. unfold live_word. rewrite andb_false_r. by apply HQ.
Qed.

Lemma read8_value Q : (forall m', same m m' -> Q (byte_at regs 14) m') -> wp (pci_read8 b slot func 14) m Q.
Proof.
  intros HQ. change (wp (d ← pci_read32 b slot func 14; mret (Z.land (Z.shiftr d (Z.land 14 3 * 8)) 255)) m Q).
  wp_step. apply read32_value; [lia|]. intros m' Hs. wp_step. unfold live_word. rewrite andb_false_r. by apply HQ.
Qed.
End Reads.

Lemma same_refl m : same m m.
Proof. done. Qed.
Lemma same_trans m1 m2 m3 : same m1 m2 -> same m2 m3 -> same m1 m3.
Proof. intros [E1 F1] [E2 F2]. split; congruence. Qed.

Lemma live_word_same slot func m m' p regs r : same m m' -> live_word slot func m' p regs r = live_word slot func m p regs r.
Proof. intros [_ E]. unfold live_word. by rewrite E. Qed.

Lemma read_words_value b slot func p regs n i m Q :
  0 <= b < 256 -> 0 <= slot < 32 -> 0 <= func < 8 ->
  bus_route T (m_hw m) b = Some p -> T !! (p ++ [8 * slot + func]) = Some regs ->
  0 <= i -> i + Z.of_nat n <= 16 ->
  (forall m', same m m' -> Q (live_word slot func m p regs <$> seqZ i (Z.of_nat n)) m') ->
  wp (read_words b slot func n i) m Q.
Proof.
  intros Hb Hs Hf Hr Hregs. revert i m Q Hr. induction n as [|n IH]; intros i m Q Hr Hi Hn HQ; cbn [read_words]; [by apply HQ|].
  wp_step. apply (read32_value b slot func m Hb Hs Hf p regs Hr Hregs); [lia|]. intros m1 H1.
  wp_step. apply IH; [by rewrite (proj2 H1)|lia|lia|]. intros m2 H2. wp_step.
  rewrite Z.div_mul by done. replace (live_word slot func m p regs i :: (live_word slot func m1 p regs <$> seqZ (i + 1) (Z.of_nat n)))
    with (live_word slot func m p regs <$> seqZ i (Z.of_nat (S n))); [apply HQ; by eapply same_trans|].
  rewrite (seqZ_cons i) by lia. rewrite fmap_cons. f_equal. replace (Z.pred (Z.of_nat (S n))) with (Z.of_nat n) by lia.
  rewrite Z.add_1_r. apply list_fmap_ext. intros _ r _. symmetry. by apply live_word_same.
Qed.

(** *** Bus numbers *)

(** Byte [k] of a register replaced. *)
Definition set_byte (d k x : Z) : Z :=
  Z.lor (Z.land (u32 d) (u32 (Z.lnot (Z.shiftl 255 (k * 8))))) (u32 (Z.shiftl x (k * 8))).

Lemma nth_byte_set d k x i : 0 <= k < 4 -> 0 <= i < 4 -> 0 <= x < 256 ->
  nth_byte (set_byte d k x) i = if i =? k then x else nth_byte d i.
Proof.
  intros Hk Hi Hx. apply Z.bits_inj'. intros j Hj. rewrite testbit_byte by lia. unfold set_byte. change 255 with (Z.ones 8).
  rewrite testbit_insert by (lia || apply u32_range).
  destruct (Z.eqb_spec i k) as [->|Hne].
  - destruct (Z.ltb_spec j 8); cbn [andb]; [|by rewrite (testbit_above x 8) by lia].
    rewrite (proj2 (Z.leb_le _ _)), (proj2 (Z.ltb_lt _ _)) by lia. cbn [andb]. f_equal. lia.
  - rewrite testbit_byte by lia. destruct (Z.ltb_spec j 8); cbn [andb]; [|done].
    assert ((k * 8 <=? 8 * i + j) && (8 * i + j <? k * 8 + 8) = false) as -> by lia.
    rewrite testbit_u32 by lia. by rewrite (proj2 (Z.ltb_lt _ _)) by lia.
Qed.

Lemma write8_value (b slot func : Z) (p : path) (k off val : Z) (m : mach) (Q : unit -> mach -> Prop) :
  off = 24 + k ->
  0 <= b < 256 -> 0 <= slot < 32 -> 0 <= func < 8 -> 0 <= k < 4 ->
  bus_route T (m_hw m) b = Some p -> bridge_at T (p ++ [8 * slot + func]) = true ->
  (forall m', m_pci m' = m_pci m ->
     m_hw m' = <[p ++ [8 * slot + func] := set_byte (bus_reg (m_hw m) (p ++ [8 * slot + func])) k val]> (m_hw m) -> Q tt m') ->
  wp (pci_write8 b slot func off val) m Q.
Proof.
  intros -> Hb Hs Hf Hk Hr Hbr HQ. set (q := p ++ [8 * slot + func]) in *.
  assert ((24 + k) / 4 = 6 /\ (24 + k) mod 4 = k) as [Ed Em] by (Z.to_euclidean_division_equations; lia).
  unfold pci_write8. io_step. io_step. apply HQ; cbn [m_pci m_hw m_latch fst snd]; [done|].
  rewrite (read_value b slot func m Hb Hs Hf p) by (done || lia). fold q. unfold top_write.
  rewrite (target_is b slot func m Hb Hs Hf p) by (done || lia). fold q. rewrite Hbr.
  destruct (address_decodes _ _ _ _ (coords b slot func Hb Hs Hf (24 + k) ltac:(lia))) as (_ & _ & ->).
  rewrite Ed. change (6 =? 6) with true. cbn [andb]. f_equal. unfold set_byte. rewrite land_3, Em.
  unfold reg_value. unfold bridge_at in Hbr. destruct (T !! q) as [regs|]; [|done]. by rewrite Hbr.
Qed.

(** The ranges of the bridges on the root bus: numbers below [free], disjoint,
    or not given yet. *)
Record root_ok (B : numbers) (free : Z) : Prop := {
  ro_range : forall d, (secondary B [d] = 0 /\ subordinate B [d] = 0) \/
                       1 <= secondary B [d] <= subordinate B [d] /\ subordinate B [d] < free;
  ro_disjoint : forall d d', d <> d' -> 1 <= secondary B [d] -> 1 <= secondary B [d'] ->
                  subordinate B [d] < secondary B [d'] \/ subordinate B [d'] < secondary B [d]
}.

Lemma route_root B : bus_route T B 0 = Some [].
Proof. by rewrite bus_route_step. Qed.

Lemma forwards_range B q b : forwards T B q b = true <-> bridge_at T q = true /\ secondary B q <= b <= subordinate B q.
Proof. unfold forwards. rewrite !andb_true_iff, !Z.leb_le. tauto. Qed.

Lemma route_behind B free d b :
  root_ok B free -> 0 <= d < 256 -> bridge_at T [d] = true -> 1 <= secondary B [d] -> b = secondary B [d] ->
  bus_route T B b = Some [d].
Proof.
  intros HB Hd Hbr Hs Eb. rewrite bus_route_step, (proj2 (Z.eqb_neq b 0)) by lia.
  assert (forwards T B [d] b = true) as Hf.
  { apply forwards_range. split; [done|]. destruct (ro_range B free HB d); lia. }
  destruct (list_find_elem_of (fun d => Is_true (forwards T B [d] b)) (seqZ 0 256) d) as [[i x] E].
  { apply elem_of_seqZ. lia. }
  { by rewrite Hf. }
  rewrite E. apply list_find_Some in E as (_ & Hx & _). apply Is_true_true in Hx.
  apply forwards_range in Hx as [_ Hx].
  destruct (decide (x = d)) as [->|Hne].
  - subst b. apply route_here.
  - exfalso. pose proof (ro_range B free HB x). pose proof (ro_range B free HB d). pose proof (ro_disjoint B free HB x d Hne). lia.
Qed.

Lemma route_fresh B free b : root_ok B free -> 1 <= free <= b -> bus_route T B b = None.
Proof.
  intros HB Hb. rewrite bus_route_step, (proj2 (Z.eqb_neq b 0)) by lia.
  destruct (list_find _ _) as [[i x]|] eqn:E; [|done]. exfalso.
  apply list_find_Some in E as (_ & Hx & _). apply Is_true_true in Hx. apply forwards_range in Hx as [_ Hx].
  destruct (ro_range B free HB x); lia.
Qed.

(** Only the registers of the root bridges count. *)
Lemma root_ok_ext B B' free : (forall d, bus_reg B' [d] = bus_reg B [d]) -> root_ok B free -> root_ok B' free.
Proof.
  intros E [H1 H2].
  split; [intros d|intros d d']; unfold secondary, subordinate in *; rewrite !E; [apply H1|apply H2].
Qed.

Lemma root_ok_mono B free free' : free <= free' -> root_ok B free -> root_ok B free'.
Proof. intros Hle [H1 H2]. split; [|done]. intros d. destruct (H1 d); [by left|right; lia]. Qed.

(** A bridge that had no numbers gets those from [free] to [u]. *)
Lemma root_ok_give B B' free d u :
  (forall d', d' <> d -> bus_reg B' [d'] = bus_reg B [d']) -> root_ok B free ->
  1 <= free <= u -> secondary B' [d] = free -> subordinate B' [d] = u -> root_ok B' (u + 1).
Proof.
  intros E HB Hu Es Eu.
  assert (forall d', d' <> d -> secondary B' [d'] = secondary B [d'] /\ subordinate B' [d'] = subordinate B [d']) as Eo.
  { intros d' Hne. unfold secondary, subordinate. by rewrite E. }
  split.
  - intros d'. destruct (decide (d' = d)) as [->|Hne]; [right; lia|]. destruct (Eo d' Hne) as [-> ->].
    destruct (ro_range B free HB d'); [by left|right; lia].
  - intros d1 d2 Hne H1 H2. destruct (decide (d1 = d)) as [->|Hn1], (decide (d2 = d)) as [->|Hn2]; [done|..].
    + destruct (Eo d2 Hn2) as [E1 E2]. rewrite E1, E2 in *. destruct (ro_range B free HB d2); lia.
    + destruct (Eo d1 Hn1) as [E1 E2]. rewrite E1, E2 in *. destruct (ro_range B free HB d1); lia.
    + destruct (Eo d1 Hn1) as [E1 E2], (Eo d2 Hn2) as [E3 E4]. rewrite E1, E2, E3, E4 in *.
      by apply (ro_disjoint B free HB).
Qed.

(** *** One bus *)

Lemma others_snoc p slot n : 0 <= n ->
  others T p slot (n + 1) = others T p slot n ++ (if present T (p ++ [8 * slot + (n + 1)]) then [8 * slot + (n + 1)] else []).
Proof.
  intros Hn. unfold others. rewrite seqZ_app, filter_app by lia. f_equal.
  rewrite seqZ_cons, seqZ_nil by lia. replace (8 * slot + 1 + n) with (8 * slot + (n + 1)) by lia.
  rewrite filter_cons, filter_nil. by destruct (present _ _).
Qed.

Lemma others_bound p slot n e : e ∈ others T p slot n -> 8 * slot < e < 8 * slot + 1 + n.
Proof. intros (_ & He%elem_of_seqZ)%list_elem_of_filter. lia. Qed.

Lemma slot_functions_bound p slot e : e ∈ slot_functions T p slot -> 8 * slot <= e < 8 * slot + 8.
Proof.
  unfold slot_functions. destruct (present _ _); [|by intros ?%elem_of_nil].
  intros [->|He]%elem_of_cons; [lia|]. destruct (multi _ _); [|by apply elem_of_nil in He].
  apply others_bound in He. lia.
Qed.

(** What was found in the slots before. *)
Definition before (p : path) (slot : Z) : list Z := concat (slot_functions T p <$> seqZ 0 slot).

Lemma before_bound p slot e : e ∈ before p slot -> e < 8 * slot.
Proof. intros (i & Hi & He)%elem_of_concat_seqZ. apply slot_functions_bound in He. lia. Qed.

Lemma visible_prefix p slot l : 0 <= slot < 32 -> l `prefix_of` slot_functions T p slot -> before p slot ++ l `prefix_of` visible T p.
Proof.
  intros Hs [l' El]. unfold visible. replace 32 with ((slot + 1) + (31 - slot)) by lia.
  rewrite seqZ_app, fmap_app, concat_app, concat_seqZ_snoc by lia. fold (before p slot). rewrite El.
  rewrite <- !app_assoc. apply prefix_app. by exists (l' ++ concat (slot_functions T p <$> seqZ (0 + (slot + 1)) (31 - slot))).
Qed.

Section Bus.
Context (b : Z) (p : path) (Inv : list Z -> mach -> Prop) (scan : Z -> M mach unit).
Context (Hb : 0 <= b < 256).
Context (Hsame : forall L m m', Inv L m -> same m m' -> Inv L m').
Context (Hroute : forall L m, Inv L m -> bus_route T (m_hw m) b = Some p).
Context (Hfn : forall L slot func m, 0 <= slot < 32 -> 0 <= func < 8 -> is_Some (T !! (p ++ [8 * slot + func])) ->
  (forall e, e ∈ L -> e < 8 * slot + func) -> L ++ [8 * slot + func] `prefix_of` visible T p -> Inv L m ->
  wp (pci_scan_function get set scan b slot func) m (fun _ m' => Inv (L ++ [8 * slot + func]) m')).

Lemma function_step L slot func m :
  0 <= slot < 32 -> 0 <= func < 8 -> (forall e, e ∈ L -> e < 8 * slot + func) ->
  (present T (p ++ [8 * slot + func]) = true -> L ++ [8 * slot + func] `prefix_of` visible T p) -> Inv L m ->
  wp (pci_scan_function get set scan b slot func) m (fun _ m' =>
    Inv (L ++ (if present T (p ++ [8 * slot + func]) then [8 * slot + func] else [])) m').
Proof.
  intros Hs Hf HL Hpre HI. unfold present in *. case_bool_decide as Hp; [by apply Hfn; auto|].
  rewrite app_nil_r. unfold pci_scan_function. wp_step. apply read16_absent; [done..| |].
  - rewrite (Hroute L m HI). by apply eq_None_not_Some.
  - intros m' Hm. change (65535 =? 65535) with true. cbn beta iota. wp_step. by eapply Hsame.
Qed.

Lemma slot_step slot m : 0 <= slot < 32 -> Inv (before p slot) m ->
  wp (scan_slot get set scan b slot) m (fun r m' => r = None /\ Inv (before p slot ++ slot_functions T p slot) m').
Proof.
  intros Hs HI. pose proof (Hroute _ _ HI) as Hr. unfold scan_slot.
  destruct (T !! (p ++ [8 * slot])) as [regs|] eqn:Er.
  2:{ wp_step. apply read16_absent; [done..|lia| |].
      - by rewrite Hr, Z.add_0_r.
      - intros m' Hm. change (65535 =? 65535) with true. cbn beta iota. wp_step. split; [done|].
        unfold slot_functions, present. rewrite Er, bool_decide_eq_false_2 by by apply is_Some_None.
        rewrite app_nil_r. by eapply Hsame. }
  assert (T !! (p ++ [8 * slot + 0]) = Some regs) as Er0 by by rewrite Z.add_0_r.
  assert (slot_functions T p slot = 8 * slot :: (if multi T (p ++ [8 * slot]) then others T p slot 7 else [])) as Esf.
  { unfold slot_functions, present. by rewrite Er, bool_decide_eq_true_2. }
  wp_step. apply (read16_value b slot 0 m Hb Hs ltac:(lia) p regs Hr Er0). intros m1 H1.
  rewrite (proj2 (Z.eqb_neq _ _)) by by eapply regs_vendor.
  wp_step. eapply wp_mono.
  { apply (function_step (before p slot) slot 0); [done|lia| | |by eapply Hsame].
    - intros e He%before_bound. lia.
    - intros _. rewrite Z.add_0_r. apply visible_prefix; [done|]. rewrite Esf. by eexists. }
  intros [] m2 H2. unfold present in H2. rewrite Er0, bool_decide_eq_true_2, Z.add_0_r in H2 by done.
  pose proof (Hroute _ _ H2) as Hr2.
  wp_step. apply (read8_value b slot 0 m2 Hb Hs ltac:(lia) p regs Hr2 Er0). intros m3 H3.
  assert (Inv (before p slot ++ [8 * slot]) m3) as HI3 by by eapply Hsame.
  assert (multi T (p ++ [8 * slot]) = negb (Z.land (byte_at regs 14) 128 =? 0)) as Em by (unfold multi; by rewrite Er).
  rewrite Esf. rewrite Em in Esf |- *. destruct (negb _); [|wp_step; split; [reflexivity|exact HI3]].
  apply (wp_mfor _ (fun func m' => Inv (before p slot ++ 8 * slot :: others T p slot (func - 1)) m')); [| |done].
  - intros func m4 Hfu H4. wp_step. eapply wp_mono.
    + apply (function_step (before p slot ++ 8 * slot :: others T p slot (func - 1)) slot func); [done|lia| | |done].
      * intros e [He%before_bound|[->|He%others_bound]%elem_of_cons]%elem_of_app; lia.
      * intros Hp. rewrite <- app_assoc. apply visible_prefix; [done|]. rewrite Esf. cbn [app]. apply prefix_cons.
        exists (filter (fun d => Is_true (present T (p ++ [d]))) (seqZ (8 * slot + 1 + func) (7 - func))).
        unfold others at 1. replace 7 with (func + (7 - func)) at 1 by lia. rewrite seqZ_app, filter_app by lia.
        fold (others T p slot func). replace func with (func - 1 + 1) at 1 by lia. rewrite others_snoc by lia.
        replace (func - 1 + 1) with func by lia. by rewrite Hp.
    + intros [] m5 H5. wp_step. replace (func + 1 - 1) with (func - 1 + 1) by lia. rewrite others_snoc by lia.
      replace (func - 1 + 1) with func by lia. by rewrite <- app_assoc in H5.
  - intros m' H'. split; [done|]. exact H'.
Qed.

(** The scan of a bus visits its functions in order. *)
Lemma bus_visits k m : scan = pci_scan_bus get set k -> Inv [] m ->
  wp (pci_scan_bus get set (S k) b) m (fun _ m' => Inv (visible T p) m').
Proof.
  intros E HI. cbn [pci_scan_bus]. rewrite <- E. wp_step.
  apply (wp_mfor _ (fun slot m' => Inv (before p slot) m')); [| |done].
  - intros slot m1 Hs H1. eapply wp_mono; [apply slot_step; [lia|done]|]. intros r m2 [-> H2].
    unfold before. by rewrite concat_seqZ_snoc by lia.
  - intros m' H'. by wp_step.
Qed.
End Bus.

(** A bus nobody forwards to is empty. *)
Lemma scan_nowhere k b m : 0 <= b < 256 -> bus_route T (m_hw m) b = None ->
  wp (pci_scan_bus get set (S k) b) m (fun _ m' => same m m').
Proof.
  intros Hb Hr. cbn [pci_scan_bus]. wp_step.
  apply (wp_mfor _ (fun _ m' => same m m')); [|intros m' Hm; by wp_step|done].
  intros slot m1 Hs [E1 F1]. unfold scan_slot. wp_step. apply read16_absent; [done|lia|lia|by rewrite F1, Hr|].
  intros m2 [E2 F2]. change (65535 =? 65535) with true. cbn beta iota. wp_step. split; congruence.
Qed.

(** *** One function *)

(** The table holds [l]. *)
Definition recorded (p : pci_state) (l : list pci_device) : Prop :=
  pci_device_count p = Z.of_nat (length l) /\ length (pci_devices p) = 256%nat /\ exists rest, pci_devices p = l ++ rest.

Record describes (b devfn : Z) (regs : list Z) (dev : pci_device) : Prop := {
  de_bus : pd_bus dev = b; de_devfn : 8 * pd_slot dev + pd_func dev = devfn;
  de_vendor : pd_vendor_id dev = half_at regs 0; de_device : pd_device_id dev = half_at regs 2;
  de_htype : pd_header_type dev = byte_at regs 14; de_common : hdr_common (pd_hdr dev) = common_of regs;
  de_general : is_bridge regs = false -> pd_hdr dev = General (general_of (take 16 regs))
}.

Lemma update_recorded (f : pci_device -> pci_device) (l : list pci_device) (d : pci_device) (l' : list pci_device) (i : Z) (m : mach) (Q : unit -> mach -> Prop) :
  recorded (m_pci m) (l ++ d :: l') -> i = Z.of_nat (length l) ->
  (forall m', m_hw m' = m_hw m -> free_bus (m_pci m') = free_bus (m_pci m) -> recorded (m_pci m') (l ++ f d :: l') -> Q tt m') ->
  wp (dev_update get set i f) m Q.
Proof.
  intros (Hc & Hlen & rest & E) -> HQ. apply wp_modify, HQ; [done|done|]. split_and!; cbn.
  - by rewrite Hc, !length_app.
  - by rewrite length_alter.
  - exists rest. rewrite Nat2Z.id, E, <- app_assoc, <- (Nat.add_0_r (length l)), alter_app_r. cbn. by rewrite <- app_assoc.
Qed.

Lemma klog_same (fmt : list Z) (args : list parg) (m : mach) (Q : unit -> mach -> Prop) :
  log_ok fmt = true -> fits (pieces None fmt) args = true -> Forall arg_ok args ->
  (forall m', same m m' -> Q tt m') -> wp (klog pci_tag fmt args) m Q.
Proof.
  intros Hf Hfit Ha HQ.
  assert (forall c, keeps (same m) (serial_putc c)) as Hser by by intros c s r s' Hs [= _ <-].
  assert (forall c, keeps (same m) (kconsole_putc c)) as Hcon by by intros c s r s' Hs [= _ <-].
  eapply wp_mono; [by apply (klog_quiet _ Hser Hcon (str "PCI") fmt args m ltac:(by_decide) Hf Hfit Ha I)|].
  intros [] m' [_ E]. by apply HQ.
Qed.

Lemma same_recorded m m' l : same m m' -> recorded (m_pci m) l -> recorded (m_pci m') l.
Proof. by intros [-> _]. Qed.

(** The record just opened, with its coordinates and header type. *)
Definition opened (b slot func : Z) (regs : list Z) (dev : pci_device) : Prop :=
  pd_bus dev = b /\ pd_slot dev = slot /\ pd_func dev = func /\ pd_header_type dev = byte_at regs 14.

Lemma header_words slot func m p regs : length regs = 64%nat -> is_bridge regs = false ->
  live_word slot func m p regs <$> seqZ 0 16 = take 16 regs.
Proof.
  intros Hl Hb. apply list_eq_same_length with 16%nat; [by rewrite length_take, Hl|by rewrite length_fmap, length_seqZ|].
  intros i x y Hi Hx Hy. rewrite list_lookup_fmap, lookup_seqZ_lt in Hx by lia. injection Hx as <-.
  rewrite lookup_take_lt in Hy by lia. unfold live_word. rewrite Hb. cbn [andb].
  unfold word_at. rewrite Z.add_0_l, Nat2Z.id. by apply list_lookup_total_correct.
Qed.

Lemma header_common slot func m p regs : common_of (live_word slot func m p regs <$> seqZ 0 16) = common_of regs.
Proof. unfold live_word. destruct (is_bridge regs); reflexivity. Qed.

(** The header is read into an opened record. *)
Lemma set_hdr_describes b slot func regs d h :
  hdr_common h = common_of regs -> opened b slot func regs d ->
  (is_bridge regs = false -> h = General (general_of (take 16 regs))) ->
  describes b (8 * slot + func) regs (set_hdr h d).
Proof.
  intros Ec (<- & <- & <- & Et) Hg. unfold set_hdr. rewrite Ec. split; cbn [pd_bus pd_slot pd_func pd_vendor_id pd_device_id pd_header_type pd_hdr]; [reflexivity|reflexivity|reflexivity|reflexivity|exact Et|exact Ec|exact Hg].
Qed.

Lemma open_record p l : recorded p l -> (length l < 256)%nat ->
  exists d, recorded (PciState (pci_devices p) (u32 (pci_device_count p + 1)) (free_bus p)) (l ++ [d]).
Proof.
  intros (Hc & Hlen & rest & E) Hl. destruct rest as [|d rest].
  { rewrite E, length_app in Hlen. cbn in Hlen. lia. }
  exists d. split_and!; cbn; [|done|].
  - rewrite u32_small by lia. rewrite length_app. cbn. lia.
  - exists rest. by rewrite E, <- app_assoc.
Qed.

Lemma function_records scan b slot func p regs l m Q :
  0 <= b < 256 -> 0 <= slot < 32 -> 0 <= func < 8 ->
  bus_route T (m_hw m) b = Some p -> T !! (p ++ [8 * slot + func]) = Some regs ->
  recorded (m_pci m) l -> (length l < 256)%nat ->
  (is_bridge regs = false -> forall m' dev, m_hw m' = m_hw m -> free_bus (m_pci m') = free_bus (m_pci m) ->
     recorded (m_pci m') (l ++ [dev]) -> describes b (8 * slot + func) regs dev -> Q tt m') ->
  (is_bridge regs = true -> forall m' dev, m_hw m' = m_hw m -> free_bus (m_pci m') = free_bus (m_pci m) ->
     recorded (m_pci m') (l ++ [dev]) -> opened b slot func regs dev ->
     wp (scan_bridge get set scan (Z.of_nat (length l)) b slot func) m' Q) ->
  wp (pci_scan_function get set scan b slot func) m Q.
Proof.
  intros Hb Hs Hf Hr Hregs Hl Hlen Hend Hbridge. unfold pci_scan_function.
  wp_step. apply (read16_value b slot func m Hb Hs Hf p regs Hr Hregs). intros m1 [E1 F1].
  rewrite (proj2 (Z.eqb_neq _ _)) by by eapply regs_vendor.
  do 2 wp_step. rewrite E1. pose proof Hl as (Ec & _). rewrite Ec, (proj2 (Z.leb_gt _ _)) by (unfold MAX_PCI_DEVICES; lia).
  wp_step. apply wp_modify. set (m2 := put_pci _ m1).
  destruct (open_record (m_pci m) l Hl Hlen) as [d Hd].
  assert (recorded (m_pci m2) (l ++ [d])) as H2 by (unfold m2; cbn [put_pci m_pci]; by rewrite E1, <- Ec).
  assert (m_hw m2 = m_hw m /\ free_bus (m_pci m2) = free_bus (m_pci m)) as [F2 G2].
  { split; [done|]. unfold m2. cbn [put_pci m_pci free_bus]. by rewrite E1. }
  clearbody m2.
  wp_step. apply (update_recorded _ l d [] _ _ _ H2 eq_refl). intros m3 F3 G3 H3.
  wp_step. apply (read8_value b slot func m3 Hb Hs Hf p regs); [by rewrite F3, F2|done|]. intros m4 [E4 F4].
  wp_step. eapply (update_recorded _ l _ []); [by rewrite E4|done|]. intros m5 F5 G5 H5.
  assert (m_hw m5 = m_hw m) as F by by rewrite F5, F4, F3, F2.
  assert (free_bus (m_pci m5) = free_bus (m_pci m)) as G by by rewrite G5, E4, G3, G2.
  change (Z.land (byte_at regs 14) 127 =? 1) with (is_bridge regs).
  destruct (is_bridge regs) eqn:Ebr.
  { apply (Hbridge eq_refl m5 _ F G H5). repeat split; reflexivity. }
  unfold scan_endpoint, pci_read_general_header. wp_step. wp_step.
  apply (read_words_value b slot func p regs); [done..|by rewrite F|done|lia|lia|]. intros m6 [E6 F6].
  change (Z.of_nat 16) with 16. wp_step.
  wp_step. eapply (update_recorded _ l _ []); [by rewrite E6|done|]. intros m7 F7 G7 H7.
  apply klog_same; [done..|by repeat constructor|]. intros m8 [E8 F8].
  eapply Hend; [done|by rewrite F8, F7, F6, F|by rewrite E8, G7, E6, G|by rewrite E8|].
  apply set_hdr_describes; [apply header_common|repeat split; reflexivity|].
  intros _. rewrite header_words; [reflexivity|exact (regs_length T HT _ _ Hregs)|exact Ebr].
Qed.

(** *** One bridge *)

Lemma on_bridge_describes b devfn regs (f : pci_bridge_header -> pci_bridge_header) dev :
  is_bridge regs = true -> (forall h, bh (f h) = bh h) -> describes b devfn regs dev -> describes b devfn regs (on_bridge f dev).
Proof.
  intros Hb Hf Hd. unfold on_bridge. destruct (pd_hdr dev) as [g|h] eqn:E; [exact Hd|]. destruct Hd as [D1 D2 D3 D4 D5 D6 D7].
  split; cbn [pd_bus pd_slot pd_func pd_vendor_id pd_device_id pd_header_type pd_hdr hdr_common]; [assumption..| |].
  - rewrite Hf. by rewrite E in D6.
  - intros Hn. by rewrite Hb in Hn.
Qed.

Lemma bus_alloc_takes (f : Z) (m : mach) (Q : Z -> mach -> Prop) :
  free_bus (m_pci m) = f -> 0 <= f < 255 ->
  (forall m', m_hw m' = m_hw m -> free_bus (m_pci m') = f + 1 -> (forall l, recorded (m_pci m) l -> recorded (m_pci m') l) -> Q f m') ->
  wp (pci_bus_alloc get set) m Q.
Proof.
  intros E Hf HQ. unfold pci_bus_alloc. do 2 wp_step. rewrite E. wp_step. apply wp_modify. wp_step. apply HQ; [done| |done].
  cbn [put_pci m_pci free_bus]. by rewrite u8_small by lia.
Qed.

Lemma bus_reg_insert B q v : bus_reg (<[q := v]> B) q = v.
Proof. unfold bus_reg. by rewrite lookup_insert_eq. Qed.

Section Bridge.
Context (b slot func : Z) (p : path) (regs : list Z) (scan : Z -> M mach unit).
Context (Hb : 0 <= b < 256) (Hslot : 0 <= slot < 32) (Hfunc : 0 <= func < 8).
#[local] Abbreviation q := (p ++ [8 * slot + func]).
Context (Hregs : T !! q = Some regs) (Hbr : is_bridge regs = true).

Lemma bridge_there : bridge_at T q = true.
Proof. unfold bridge_at. by rewrite Hregs. Qed.

(** The three writes that announce the numbers. *)
Lemma announce (f : Z) (m : mach) (K : M mach unit) (Q : unit -> mach -> Prop) :
  0 <= f < 256 -> bus_route T (m_hw m) b = Some p -> (forall v, bus_route T (<[q := v]> (m_hw m)) b = Some p) ->
  (forall m' v, m_pci m' = m_pci m -> m_hw m' = <[q := v]> (m_hw m) -> nth_byte v 1 = f -> nth_byte v 2 = f -> wp K m' Q) ->
  wp (pci_write8 b slot func 24 b;; pci_write8 b slot func 25 f;; pci_write8 b slot func 26 f;; K) m Q.
Proof.
  intros Hf Hr Hstay HQ. pose proof bridge_there as Hat.
  wp_step. apply (write8_value b slot func p 0); [reflexivity|exact Hb|exact Hslot|exact Hfunc|lia|exact Hr|exact Hat|]. intros m1 E1 F1.
  wp_step. apply (write8_value b slot func p 1); [reflexivity|exact Hb|exact Hslot|exact Hfunc|lia|rewrite F1; apply Hstay|exact Hat|]. intros m2 E2 F2.
  rewrite F1, bus_reg_insert, insert_insert_eq in F2.
  wp_step. apply (write8_value b slot func p 2); [reflexivity|exact Hb|exact Hslot|exact Hfunc|lia|rewrite F2; apply Hstay|exact Hat|]. intros m3 E3 F3.
  rewrite F2, bus_reg_insert, insert_insert_eq in F3.
  apply (HQ m3 _ ltac:(by rewrite E3, E2, E1) F3).
  - rewrite !nth_byte_set by lia. reflexivity.
  - rewrite !nth_byte_set by lia. reflexivity.
Qed.

Lemma bridge_records (l : list pci_device) (dev : pci_device) (f : Z) (m : mach) (Q : unit -> mach -> Prop) :
  bus_route T (m_hw m) b = Some p -> (forall v, bus_route T (<[q := v]> (m_hw m)) b = Some p) ->
  recorded (m_pci m) (l ++ [dev]) -> opened b slot func regs dev -> free_bus (m_pci m) = f -> 0 <= f < 255 ->
  (forall m1 dev1 v, recorded (m_pci m1) (l ++ [dev1]) -> m_hw m1 = <[q := v]> (m_hw m) ->
     nth_byte v 1 = f -> nth_byte v 2 = f -> free_bus (m_pci m1) = f + 1 ->
     wp (scan f) m1 (fun _ m2 => exists l' f2, recorded (m_pci m2) (l ++ dev1 :: l') /\
       free_bus (m_pci m2) = f2 /\ f + 1 <= f2 < 255 /\ bus_reg (m_hw m2) q = v /\ bus_route T (m_hw m2) b = Some p /\
       (forall m3 dev3 v3, recorded (m_pci m3) (l ++ dev3 :: l') -> describes b (8 * slot + func) regs dev3 ->
          m_hw m3 = <[q := v3]> (m_hw m2) -> nth_byte v3 1 = f -> nth_byte v3 2 = f2 - 1 ->
          free_bus (m_pci m3) = f2 + 1 -> Q tt m3))) ->
  wp (scan_bridge get set scan (Z.of_nat (length l)) b slot func) m Q.
Proof.
  intros Hr Hstay Hrec Hop Ef Hf Hscan. unfold scan_bridge, pci_read_bridge_header.
  wp_step. wp_step. apply (read_words_value b slot func p regs); [exact Hb|exact Hslot|exact Hfunc|exact Hr|exact Hregs|lia|lia|]. intros m1 [E1 F1].
  change (Z.of_nat 16) with 16. wp_step. rewrite <- E1 in Hrec, Ef.
  wp_step. apply (update_recorded _ l dev [] _ _ _ Hrec eq_refl). intros m2 F2 G2 H2. rewrite <- G2 in Ef.
  wp_step. apply (bus_alloc_takes f); [done|done|]. intros m3 F3 G3 H3.
  wp_step. apply (update_recorded _ l _ [] _ _ _ (H3 _ H2) eq_refl). intros m4 F4 G4 H4.
  assert (m_hw m4 = m_hw m) as F by by rewrite F4, F3, F2, F1.
  match type of H4 with recorded _ (l ++ [?d]) => set (dev1 := d) in * end.
  assert (describes b (8 * slot + func) regs dev1) as Hd1.
  { apply on_bridge_describes; [done|done|]. apply set_hdr_describes; [apply header_common|exact Hop|].
    intros Hn. by rewrite Hbr in Hn. }
  clearbody dev1. apply (announce f); [lia|rewrite F; exact Hr|intros v; rewrite F; apply Hstay|].
  intros m5 v E5 F5 V1 V2. wp_step. apply klog_same; [reflexivity|reflexivity|by repeat constructor|]. intros m6 [E6 F6].
  wp_step. eapply wp_mono.
  { apply (Hscan m6 dev1 v); [by rewrite E6, E5|by rewrite F6, F5, F|done|done|]. by rewrite E6, E5, G4. }
  intros [] m7 (l' & f2 & H7 & G7 & Hf2 & V7 & R7 & HQ).
  wp_step. apply (bus_alloc_takes f2); [done|lia|]. intros m8 F8 G8 H8. cbv zeta. rewrite u8_small by lia.
  wp_step. apply (write8_value b slot func p 2); [reflexivity|exact Hb|exact Hslot|exact Hfunc|lia|rewrite F8; exact R7|apply bridge_there|]. intros m9 E9 F9.
  rewrite F8, V7 in F9.
  eapply (update_recorded _ l dev1 l'); [rewrite E9; by apply H8|reflexivity|]. intros m10 F10 G10 H10.
  apply (HQ m10 _ (set_byte v 2 (f2 - 1)) H10).
  - by apply on_bridge_describes.
  - by rewrite F10, F9.
  - rewrite nth_byte_set by lia. exact V1.
  - rewrite nth_byte_set by lia. reflexivity.
  - by rewrite G10, E9.
Qed.
End Bridge.

(** *** Behind a bridge of the root bus *)

Lemma bus_reg_other B q q' v : q <> q' -> bus_reg (<[q := v]> B) q' = bus_reg B q'.
Proof. intros Hne. unfold bus_reg. by rewrite lookup_insert_ne. Qed.

Section Behind.
Context (B0 : numbers) (f0 b d : Z) (l0 : list pci_device).
Context (HB0 : root_ok B0 f0) (Hd : 0 <= d < 256) (Hat : bridge_at T [d] = true).
Context (Hsec : secondary B0 [d] = b) (Hb : 1 <= b < f0).
Context (Hroom : f0 + 2 * Z.of_nat (length (visible T [d])) <= 255) (Hl0 : (length l0 + length (visible T [d]) <= 256)%nat).

Definition behind (L : list Z) (m : mach) : Prop := exists devs,
  recorded (m_pci m) (l0 ++ devs) /\
  Forall2 (fun c dev => exists regs, T !! [d; c] = Some regs /\ describes b c regs dev) L devs /\
  (forall d', bus_reg (m_hw m) [d'] = bus_reg B0 [d']) /\
  f0 <= free_bus (m_pci m) <= f0 + 2 * Z.of_nat (length L).

Lemma behind_same L m m' : behind L m -> same m m' -> behind L m'.
Proof. intros (devs & H) [E F]. exists devs. by rewrite E, F. Qed.

Lemma behind_route B : (forall d', bus_reg B [d'] = bus_reg B0 [d']) -> bus_route T B b = Some [d].
Proof.
  intros E. assert (secondary B [d] = b) as Es by (unfold secondary; by rewrite E).
  apply (route_behind B f0); [by apply (root_ok_ext B0)|exact Hd|exact Hat|lia|done].
Qed.

Lemma behind_fresh B f : (forall d', bus_reg B [d'] = bus_reg B0 [d']) -> f0 <= f -> bus_route T B f = None.
Proof. intros E Hf. apply (route_fresh B f0); [by apply (root_ok_ext B0)|lia]. Qed.

Lemma behind_step k L slot func m : 0 <= slot < 32 -> 0 <= func < 8 -> is_Some (T !! ([d] ++ [8 * slot + func])) ->
  L ++ [8 * slot + func] `prefix_of` visible T [d] -> behind L m ->
  wp (pci_scan_function get set (pci_scan_bus get set (S k)) b slot func) m (fun _ m' => behind (L ++ [8 * slot + func]) m').
Proof.
  intros Hs Hf [regs Hregs] Hpre%prefix_length (devs & Hrec & Hdevs & Hroot & Hfree).
  rewrite length_app in Hpre. cbn [length] in Hpre. pose proof (Forall2_length _ _ _ Hdevs) as Elen.
  pose proof (behind_route _ Hroot) as Hr.
  assert (forall dev, describes b (8 * slot + func) regs dev ->
    Forall2 (fun c dev => exists regs, T !! [d; c] = Some regs /\ describes b c regs dev) (L ++ [8 * slot + func]) (devs ++ [dev])) as Hsnoc.
  { intros dev Hdev. apply Forall2_app; [done|]. constructor; [by exists regs|constructor]. }
  apply (function_records _ b slot func [d] regs (l0 ++ devs)); [lia|done|done|exact Hr|exact Hregs|exact Hrec| | |].
  - rewrite length_app. lia.
  - intros _ m' dev F G H' Hdev. exists (devs ++ [dev]). rewrite app_assoc, F, G. split_and!; [done|by apply Hsnoc|done|lia|].
    rewrite length_app. lia.
  - intros Hbr m' dev F G H' Hop.
    assert (forall v d', bus_reg (<[[d] ++ [8 * slot + func] := v]> (m_hw m')) [d'] = bus_reg B0 [d']) as Hother.
    { intros v d'. rewrite bus_reg_other by done. by rewrite F. }
    apply (bridge_records b slot func [d] regs _ ltac:(lia) Hs Hf Hregs Hbr _ dev (free_bus (m_pci m')));
      [rewrite F; exact Hr|intros v; apply behind_route, Hother|exact H'|exact Hop|reflexivity|lia|].
    intros m1 dev1 v H1 F1 V1 V2 G1.
    eapply wp_mono; [apply (scan_nowhere k); [lia|]; rewrite F1; apply behind_fresh; [apply Hother|lia]|].
    intros [] m2 [E2 F2]. exists [], (free_bus (m_pci m') + 1). rewrite E2, F2, F1.
    split_and!; [exact H1|exact G1|lia|lia|apply bus_reg_insert|apply behind_route, Hother|].
    intros m3 dev3 v3 H3 Hdev3 F3 _ _ G3. exists (devs ++ [dev3]).
    split_and!; [by rewrite app_assoc|by apply Hsnoc| |rewrite G3; lia|rewrite G3, length_app; cbn; lia].
    intros d'. rewrite F3, insert_insert_eq. apply Hother.
Qed.

Lemma behind_scan k m : m_hw m = B0 -> recorded (m_pci m) l0 -> free_bus (m_pci m) = f0 ->
  wp (pci_scan_bus get set (S (S k)) b) m (fun _ m' => behind (visible T [d]) m').
Proof.
  intros F Hrec G. apply (bus_visits b [d] behind (pci_scan_bus get set (S k))); [lia|apply behind_same| | |done|].
  - intros L m' (devs & _ & _ & Hroot & _). by apply behind_route.
  - intros L slot func m' Hs Hf Hreg _ Hpre Hm. by apply behind_step.
  - exists []. rewrite app_nil_r. split_and!; [done|constructor|intros d'; by rewrite F|lia|cbn; lia].
Qed.
End Behind.

(** *** The root bus *)

Inductive found (B : numbers) : path -> pci_device -> Prop :=
| found_root d regs dev : T !! [d] = Some regs -> describes 0 d regs dev -> found B [d] dev
| found_behind d c regs dev :
    0 <= d < 256 -> bridge_at T [d] = true -> 1 <= secondary B [d] ->
    T !! [d; c] = Some regs -> describes (secondary B [d]) c regs dev -> found B [d; c] dev.

Lemma Forall2_impl_in {A C} (P R : A -> C -> Prop) l k :
  Forall2 P l k -> (forall x y, x ∈ l -> P x y -> R x y) -> Forall2 R l k.
Proof.
  induction 1 as [|x y l k Hxy Hl IH]; intros HR; constructor.
  - apply HR; [apply list_elem_of_here|done].
  - apply IH. intros x' y' Hx'. apply HR. by apply list_elem_of_further.
Qed.

Lemma below_head d q : q ∈ below T d -> exists r, q = d :: r.
Proof.
  unfold below. intros [->|Hq]%elem_of_cons; [by eexists|]. destruct (bridge_at T [d]); [|by apply elem_of_nil in Hq].
  apply list_elem_of_fmap in Hq as (c & -> & _). by eexists.
Qed.

(** Numbers given to other bridges do not matter. *)
Lemma found_stable B B' L devs :
  Forall2 (found B) (concat (below T <$> L)) devs -> (forall d, d ∈ L -> secondary B' [d] = secondary B [d]) ->
  Forall2 (found B') (concat (below T <$> L)) devs.
Proof.
  intros H E. eapply Forall2_impl_in; [exact H|]. intros q dev Hq Hf.
  assert (forall d r, q = d :: r -> secondary B' [d] = secondary B [d]) as Ed.
  { intros d r ->. apply E. apply list_elem_of_In, in_concat in Hq as (g & Hg%list_elem_of_In & Hq%list_elem_of_In).
    apply list_elem_of_fmap in Hg as (d' & -> & Hd'). apply below_head in Hq as [r' [= -> _]]. done. }
  destruct Hf as [d regs dev Hr Hd|d c regs dev Hd Hat Hs Hr Hde]; [by eapply found_root|].
  eapply found_behind; rewrite ?(Ed d [c] eq_refl); done.
Qed.

Context (Hsize : (length (within_two T) <= 127)%nat).

Definition rooted (L : list Z) (m : mach) : Prop := exists devs,
  recorded (m_pci m) devs /\ Forall2 (found (m_hw m)) (concat (below T <$> L)) devs /\
  root_ok (m_hw m) (free_bus (m_pci m)) /\
  1 <= free_bus (m_pci m) <= 1 + 2 * Z.of_nat (length devs) /\
  (forall d, d ∉ L -> bus_reg (m_hw m) [d] = 0).

Lemma rooted_same L m m' : rooted L m -> same m m' -> rooted L m'.
Proof. intros (devs & H) [E F]. exists devs. by rewrite E, F. Qed.

Lemma below_snoc L d : concat (below T <$> L ++ [d]) = concat (below T <$> L) ++ below T d.
Proof. rewrite fmap_app, concat_app. cbn. by rewrite app_nil_r. Qed.

Lemma prefix_size L d : L ++ [d] `prefix_of` visible T [] -> (length (concat (below T <$> L)) + length (below T d) <= 127)%nat.
Proof.
  intros [rest E]. rewrite <- length_app, <- below_snoc. etrans; [|exact Hsize].
  unfold within_two. rewrite E, (fmap_app _ (L ++ [d])), concat_app, length_app. lia.
Qed.

Lemma unset_range B free d : root_ok B free -> bus_reg B [d] = 0 -> secondary B [d] = 0.
Proof. intros _ E. unfold secondary. by rewrite E. Qed.

Section RootStep.
Context (k : nat) (L : list Z) (slot func : Z) (m : mach) (regs : list Z) (devs : list pci_device).
Context (Hs : 0 <= slot < 32) (Hf : 0 <= func < 8).
#[local] Abbreviation d := (8 * slot + func).
Context (Hregs : T !! [d] = Some regs) (HL : d ∉ L).
Context (Hpre : (length (concat (below T <$> L)) + length (below T d) <= 127)%nat).
Context (Hrec : recorded (m_pci m) devs) (Hdevs : Forall2 (found (m_hw m)) (concat (below T <$> L)) devs).
Context (Hroot : root_ok (m_hw m) (free_bus (m_pci m))) (Hfree : 1 <= free_bus (m_pci m) <= 1 + 2 * Z.of_nat (length devs)).
Context (Hunset : forall d, d ∉ L -> bus_reg (m_hw m) [d] = 0).

Lemma root_endpoint m' dev : is_bridge regs = false -> m_hw m' = m_hw m -> free_bus (m_pci m') = free_bus (m_pci m) ->
  recorded (m_pci m') (devs ++ [dev]) -> describes 0 d regs dev -> rooted (L ++ [d]) m'.
Proof.
  intros Hnb F G H' Hdev. exists (devs ++ [dev]). rewrite F, G, below_snoc.
  assert (bridge_at T [d] = false) as Hat by (unfold bridge_at; by rewrite Hregs).
  split_and!; [exact H'| |exact Hroot|lia|rewrite length_app; lia|].
  - apply Forall2_app; [exact Hdevs|]. unfold below. rewrite Hat. constructor; [by eapply found_root|constructor].
  - intros d' Hd'. apply Hunset. intros ?. apply Hd', elem_of_app. by left.
Qed.

(** After the bus behind a root bridge was scanned and the record closed. *)
Lemma root_bridge_done m2 m3 dev3 v v3 devs2 :
  is_bridge regs = true ->
  recorded (m_pci m3) (devs ++ dev3 :: devs2) ->
  Forall2 (fun c dev => exists regs, T !! [d; c] = Some regs /\ describes (free_bus (m_pci m)) c regs dev) (visible T [d]) devs2 ->
  (forall d', bus_reg (m_hw m2) [d'] = bus_reg (<[[d] := v]> (m_hw m)) [d']) ->
  free_bus (m_pci m) + 1 <= free_bus (m_pci m2) <= free_bus (m_pci m) + 1 + 2 * Z.of_nat (length (visible T [d])) ->
  describes 0 d regs dev3 -> m_hw m3 = <[[d] := v3]> (m_hw m2) ->
  nth_byte v3 1 = free_bus (m_pci m) -> nth_byte v3 2 = free_bus (m_pci m2) - 1 ->
  free_bus (m_pci m3) = free_bus (m_pci m2) + 1 -> rooted (L ++ [d]) m3.
Proof.
  intros Hbr H3 Hdevs2 Hother Hf2 Hdev3 F3 V1 V2 G3. pose proof (Forall2_length _ _ _ Hdevs2) as Elen.
  assert (bridge_at T [d] = true) as Hat by (unfold bridge_at; by rewrite Hregs).
  assert (forall d', d' <> d -> bus_reg (m_hw m3) [d'] = bus_reg (m_hw m) [d']) as Hkeep.
  { intros d' Hne. rewrite F3, bus_reg_other by congruence. rewrite Hother, bus_reg_other by congruence. done. }
  assert (secondary (m_hw m3) [d] = free_bus (m_pci m)) as Es by (unfold secondary; rewrite F3, bus_reg_insert; exact V1).
  assert (subordinate (m_hw m3) [d] = free_bus (m_pci m2) - 1) as Eu by (unfold subordinate; rewrite F3, bus_reg_insert; exact V2).
  exists (devs ++ dev3 :: devs2). rewrite below_snoc. split_and!; [exact H3| | |lia| |].
  - apply Forall2_app.
    + apply (found_stable (m_hw m)); [exact Hdevs|]. intros d' Hd'. unfold secondary. rewrite Hkeep; [done|]. by intros ->.
    + unfold below. rewrite Hat. constructor; [by eapply found_root|]. apply Forall2_fmap_l.
      eapply Forall2_impl; [exact Hdevs2|]. intros c dev (regs' & Hregs' & Hdev). cbn beta.
      eapply found_behind; [lia|exact Hat|rewrite Es; lia|exact Hregs'|]. by rewrite Es.
  - apply (root_ok_mono _ (free_bus (m_pci m2) - 1 + 1)); [lia|].
    by apply (root_ok_give (m_hw m) _ (free_bus (m_pci m)) d); [exact Hkeep|exact Hroot|lia|exact Es|exact Eu].
  - rewrite length_app. cbn [length]. lia.
  - intros d' [Hd' Hne]%not_elem_of_app. rewrite Hkeep; [by apply Hunset|]. intros ->. apply Hne, list_elem_of_here.
Qed.
End RootStep.

Lemma root_step k L slot func m : 0 <= slot < 32 -> 0 <= func < 8 -> is_Some (T !! [8 * slot + func]) ->
  (forall e, e ∈ L -> e < 8 * slot + func) -> L ++ [8 * slot + func] `prefix_of` visible T [] -> rooted L m ->
  wp (pci_scan_function get set (pci_scan_bus get set (S (S k))) 0 slot func) m (fun _ m' => rooted (L ++ [8 * slot + func]) m').
Proof.
  intros Hs Hf [regs Hregs] HL Hpre%prefix_size (devs & Hrec & Hdevs & Hroot & Hfree & Hunset).
  assert (8 * slot + func ∉ L) as Hnew by (intros ?%HL; lia).
  pose proof (Forall2_length _ _ _ Hdevs) as Elen. set (d := 8 * slot + func) in *.
  assert (bus_route T (m_hw m) 0 = Some []) as Hr by apply route_root.
  apply (function_records _ 0 slot func [] regs devs); [lia|done|done|exact Hr|exact Hregs|exact Hrec| | |].
  { assert (1 <= length (below T d))%nat by (unfold below; cbn [length]; lia). lia. }
  { intros Hnb m' dev F G H' Hdev. eapply (root_endpoint L slot func m regs devs); eassumption. }
  intros Hbr m' dev F G H' Hop. set (f := free_bus (m_pci m)) in *.
  assert (bridge_at T [d] = true) as Hat by (unfold bridge_at; by rewrite Hregs).
  assert (length (below T d) = S (length (visible T [d]))) as Eb by (unfold below; rewrite Hat; cbn; by rewrite length_fmap).
  apply (bridge_records 0 slot func [] regs _ ltac:(lia) Hs Hf Hregs Hbr _ dev f);
    [rewrite F; exact Hr|intros v; apply route_root|exact H'|exact Hop|exact G|lia|].
  cbn [app]. fold d. intros m1 dev1 v H1 F1 V1 V2 G1. rewrite F in F1.
  assert (root_ok (m_hw m1) (f + 1)) as Hroot1.
  { apply (root_ok_give (m_hw m) _ f d); [|exact Hroot|lia|unfold secondary|unfold subordinate]; rewrite ?F1, ?bus_reg_insert; try done.
    intros d' Hne. by rewrite bus_reg_other by congruence. }
  assert (secondary (m_hw m1) [d] = f) as Es by (unfold secondary; by rewrite F1, bus_reg_insert).
  eapply wp_mono.
  { apply (behind_scan (m_hw m1) (f + 1) f d (devs ++ [dev1])); [exact Hroot1|unfold d; lia|exact Hat|exact Es|lia|lia| |done|exact H1|exact G1].
    rewrite length_app. cbn [length]. lia. }
  intros [] m2 (devs2 & H2 & Hdevs2 & Hother & Hf2). rewrite F1 in Hother.
  exists devs2, (free_bus (m_pci m2)). rewrite <- app_assoc in H2.
  split_and!; [exact H2|done|lia|lia|rewrite Hother; apply bus_reg_insert|apply route_root|].
  intros m3 dev3 v3 H3 Hdev3 F3 W1 W2 G3.
  eapply (root_bridge_done L slot func m regs devs) with (m2 := m2) (v := v) (v3 := v3); eassumption.
Qed.

Lemma reset_rooted m : m_hw m = ∅ -> m_pci m = pci_start -> rooted [] m.
Proof.
  intros F E. exists []. rewrite F, E. split_and!.
  - split_and!; [done|done|by eexists].
  - constructor.
  - split; [by left|intros d d' _ []]. done.
  - done.
  - done.
  - done.
Qed.

Lemma found_records B free q dev : root_ok B free -> found B q dev -> records T B q dev.
Proof.
  intros HB [d regs dev' Hregs []|d c regs dev' Hd Hat Hs Hregs []].
  - split; [|cbn; by rewrite de_devfn0|by exists regs]. rewrite de_bus0. apply route_root.
  - split; [|cbn; by rewrite de_devfn0|by exists regs]. rewrite de_bus0. by apply (route_behind B free).
Qed.
End Topology.


(** A host bridge, a bridge with a disk and a second bridge behind it, and a
    network card behind the second bridge. *)
Definition demo_regs (vendor device htype : Z) : list Z :=
  [vendor + 65536 * device; 0; 0; 65536 * htype] ++ replicate 60 0.
Definition demo_topology : topology := {[
  [0] := demo_regs 32902 4663 0;
  [8] := demo_regs 32902 10 1;
  [8; 0] := demo_regs 32902 10530 0;
  [8; 8] := demo_regs 32902 10 1;
  [8; 8; 0] := demo_regs 32902 4110 0 ]}.

Lemma demo_topology_ok : topology_ok demo_topology.
Proof.
  assert (forall vendor device htype, vendor = 32902 -> 0 <= device < 2 ^ 15 -> 0 <= htype < 256 ->
    length (demo_regs vendor device htype) = 64%nat /\ (forall r, r ∈ demo_regs vendor device htype -> 0 <= r < 2 ^ 32)) as H.
  { intros vendor device htype -> Hd Ht. split; [done|]. intros r Hr. unfold demo_regs in Hr.
    apply elem_of_app in Hr as [Hr|Hr%elem_of_replicate_inv]; [|lia].
    repeat (apply elem_of_cons in Hr as [Hr|Hr]; [lia|]). by apply elem_of_nil in Hr. }
  assert (map_Forall (fun _ regs => length regs = 64%nat /\ (forall r, r ∈ regs -> 0 <= r < 2 ^ 32) /\ half_at regs 0 <> 65535) demo_topology) as Hall.
  { unfold demo_topology. repeat (apply map_Forall_insert_2; [split_and!; [done|apply H; lia|done]|]).
    apply map_Forall_empty. }
  split; intros q regs; [intros E|intros r E|intros E]; by apply (Hall q regs E).
Qed.

