(* ===== verification/Dma.v ===== *)
(** * Kernel memory as the drivers reach it (src/src/kernel/mem.h)

    Loads and stores of [n]-byte integers through a pointer, and the two
    translations between physical addresses and the kernel's direct map, in a
    state that holds the kernel's memory. *)
From S2P Require Import Prelude KMem Spinlock BuddySpec Buddy.

#[local] Open Scope Z_scope.

Section Dma.
Context {St : Type} (get_kst : St -> kst) (set_kst : kst -> St -> St).

(** [*(uN * )a] and [*(uN * )a = v] *)
Definition load (n : nat) (a : Z) : M St Z := mgets (fun s => rd n (heap (get_kst s)) a).
Definition store (n : nat) (a v : Z) : M St unit :=
  mmodify (fun s => set_kst (set_heap (wr n (heap (get_kst s)) a v) (get_kst s)) s).

(** [PHYS_TO_VIRT(a)] and [VIRT_TO_PHYS(a)] *)
Definition to_virt (a : Z) : M St Z := mgets (fun s => u64 (a + hhdm_offset (get_kst s))).
Definition phys (a : Z) : M St Z := mgets (fun s => u64 (a - hhdm_offset (get_kst s))).
End Dma.
