(* ===== verification/Acpi.v ===== *)
(** * ACPI tables (src/src/kernel/acpi.c, acpi.h)

    The walk from the root pointer to the interrupt controller table.  The
    tables lie in the byte heap, where the loader left them; a struct is read
    through the offsets the compiler gives its fields.  The code declares the
    [rsdt] of the root pointer as an 8-byte pointer and leaves [struct XSDT]
    unpacked, so [xsdt] and [SDTptrs] are not where the ACPI tables have them. *)
From S2P Require Import Prelude KMem Spinlock BuddySpec Buddy PageAlloc PageTable Dma.

#[local] Open Scope Z_scope.

(** Fields of the packed structs [RSDP] and [XSDP], of [ACPISDTHeader], and of
    [RSDT] and [XSDT], whose 8-byte entries are aligned. *)
Definition RSDP_Revision : Z := 15.
Definition RSDP_rsdt : Z := 16.
Definition XSDP_xsdt : Z := 28.
Definition SDT_length : Z := 4.
Definition SDT_HEADER_SIZE : Z := 36.
Definition RSDT_SDTptrs : Z := 36.
Definition XSDT_SDTptrs : Z := 40.
Definition MADT_local_apic_addr : Z := 36.

Record acpi_tables := Acpi_tables { rsdp : Z; xsdp : Z; rsdt : Z; xsdt : Z; madt : Z }.
Definition acpi_none : acpi_tables := Acpi_tables 0 0 0 0 0.
Definition set_madt (p : Z) (t : acpi_tables) : acpi_tables := Acpi_tables (rsdp t) (xsdp t) (rsdt t) (xsdt t) p.

(** "APIC" *)
Definition sig_apic : list Z := str "APIC".

Section Acpi.
Context {St : Type} (get_kst : St -> kst) (get_acpi : St -> acpi_tables) (set_acpi : acpi_tables -> St -> St).

#[local] Abbreviation load := (load get_kst).
#[local] Abbreviation to_virt := (to_virt get_kst).
Definition upd_acpi (f : acpi_tables -> acpi_tables) : M St unit := mmodify (fun s => set_acpi (f (get_acpi s)) s).

Definition sig_eq (sig : Z) (expect : list Z) : M St bool :=
  mgets (fun s => bool_decide (bytes_at 4 (heap (get_kst s)) sig = expect)).

(** One turn of the loop over the [n] entries, pointers of [w] bytes from
    [ptrs] on. *)
Definition sdt_body (w : nat) (ptrs n i : Z) : M St (Z + unit) :=
  if i <? n then
    p ← load w (ptrs + Z.of_nat w * i);
    entry ← to_virt p;
    hit ← sig_eq entry sig_apic;
    (if (hit : bool) then upd_acpi (set_madt entry) else mret tt);;
    mret (inl (i + 1))
  else mret (inr tt).

Definition init_acpi (r : Z) : M St unit :=
  upd_acpi (fun t => Acpi_tables r (xsdp t) (rsdt t) (xsdt t) (madt t));;
  revision ← load 1 (r + RSDP_Revision);
  if 2 <=? revision then
    x ← load 8 (r + XSDP_xsdt);
    xs ← to_virt x;
    upd_acpi (fun t => Acpi_tables (rsdp t) r (rsdt t) xs (madt t));;
    if negb (x =? 0) then
      len ← load 4 (xs + SDT_length);
      mloop (sdt_body 8 (xs + XSDT_SDTptrs) (u64 (len - SDT_HEADER_SIZE) / 8)) 0
    else mret tt
  else
    x ← load 8 (r + RSDP_rsdt);
    rs ← to_virt x;
    upd_acpi (fun t => Acpi_tables (rsdp t) (xsdp t) rs (xsdt t) (madt t));;
    len ← load 4 (rs + SDT_length);
    mloop (sdt_body 4 (rs + RSDT_SDTptrs) (u32 (u64 (len - SDT_HEADER_SIZE) / 4))) 0.
End Acpi.

(** ** The table found *)

(** The entries of a root table, and the last one with the signature. *)
Definition sdt_entries (s : kst) (w : nat) (ptrs n : Z) : list Z :=
  (fun i => u64 (rd w (heap s) (ptrs + Z.of_nat w * i) + hhdm_offset s)) <$> seqZ 0 n.
Definition is_madt (s : kst) (e : Z) : bool := bool_decide (bytes_at 4 (heap s) e = sig_apic).
Definition last_madt (s : kst) (es : list Z) (old : Z) : Z :=
  default old (last (filter (fun e => Is_true (is_madt s e)) es)).

Section AcpiProofs.
Context {St : Type} (get_kst : St -> kst) (get_acpi : St -> acpi_tables) (set_acpi : acpi_tables -> St -> St).
Context (HL : lens get_acpi set_acpi) (Hk : forall t s, get_kst (set_acpi t s) = get_kst s).

Lemma last_madt_snoc s es e old :
  last_madt s (es ++ [e]) old = if is_madt s e then e else last_madt s es old.
Proof.
  unfold last_madt. rewrite filter_app, filter_cons, filter_nil. case_decide as H; destruct (is_madt s e); try done.
  - by rewrite last_snoc.
  - by rewrite app_nil_r.
Qed.

(** The loop visits every entry once, in order. *)
Lemma sdt_scan w ptrs n s : 0 <= n < 2 ^ 64 ->
  wp (mloop (sdt_body get_kst get_acpi set_acpi w ptrs n) 0) s (fun _ s' =>
    s' = set_acpi (set_madt (last_madt (get_kst s) (sdt_entries (get_kst s) w ptrs n) (madt (get_acpi s))) (get_acpi s)) s).
Proof.
  intros Hn.
  apply (wp_mloop _ (fun i s' => 0 <= i <= n /\ s' = set_acpi (set_madt
    (last_madt (get_kst s) (sdt_entries (get_kst s) w ptrs i) (madt (get_acpi s))) (get_acpi s)) s) _ (fun i _ => n - i)); [|split; [lia|]|lia].
  - intros i s' [Hi ->]. set (t := last_madt _ _ _). unfold sdt_body, load, to_virt, sig_eq, upd_acpi. destruct (Z.ltb_spec i n) as [Hlt|]; [|wp_step; by replace n with i by lia].
    do 6 wp_step. rewrite !Hk. set (e := u64 _).
    assert (sdt_entries (get_kst s) w ptrs (i + 1) = sdt_entries (get_kst s) w ptrs i ++ [e]) as E.
    { unfold sdt_entries. rewrite seqZ_app, fmap_app by lia. done. }
    change (bool_decide _) with (is_madt (get_kst s) e). wp_step. destruct (is_madt (get_kst s) e) eqn:Em.
    + apply wp_modify. wp_step. split; [|lia]. split; [lia|]. rewrite E, last_madt_snoc, Em.
      by rewrite (get_set _ _ HL), (set_set _ _ HL).
    + wp_step. wp_step. split; [|lia]. split; [lia|]. by rewrite E, last_madt_snoc, Em.
  - unfold last_madt. cbn. symmetry. transitivity (set_acpi (get_acpi s) s); [|by apply (set_get _ _ HL)].
    f_equal. by destruct (get_acpi s).
Qed.

(** The pointers of the root table the RSDP at [r] leads to: the XSDT from
    revision 2 on, the RSDT before. *)
Definition root_entries (k : kst) (r : Z) : list Z :=
  let virt a := u64 (a + hhdm_offset k) in
  let count t := u64 (rd32 (heap k) (t + SDT_length) - SDT_HEADER_SIZE) in
  if 2 <=? rd 1 (heap k) (r + RSDP_Revision) then
    if rd64 (heap k) (r + XSDP_xsdt) =? 0 then []
    else let t := virt (rd64 (heap k) (r + XSDP_xsdt)) in sdt_entries k 8 (t + XSDT_SDTptrs) (count t / 8)
  else let t := virt (rd64 (heap k) (r + RSDP_rsdt)) in sdt_entries k 4 (t + RSDT_SDTptrs) (u32 (count t / 4)).

(** [init_acpi] ends, and leaves the last table of the root table that has the
    signature "APIC", or what was there before when none has. *)
Lemma init_acpi_finds r s :
  wp (init_acpi get_kst get_acpi set_acpi r) s (fun _ s' =>
    get_kst s' = get_kst s /\ rsdp (get_acpi s') = r /\
    madt (get_acpi s') = last_madt (get_kst s) (root_entries (get_kst s) r) (madt (get_acpi s))).
Proof.
  unfold init_acpi, root_entries, load, to_virt, upd_acpi. do 2 wp_step. do 2 wp_step. rewrite ?Hk, ?(get_set _ _ HL).
  destruct (2 <=? _).
  - do 6 wp_step. rewrite ?Hk, ?(get_set _ _ HL), ?(set_set _ _ HL). cbn [xsdp rsdt xsdt rsdp madt].
    destruct (rd64 _ _ =? 0); cbn [negb].
    + wp_step. by rewrite Hk, (get_set _ _ HL).
    + do 2 wp_step. rewrite ?Hk. eapply wp_mono; [apply sdt_scan|].
      { pose proof (u64_range (rd32 (heap (get_kst s)) (u64 (rd64 (heap (get_kst s)) (r + XSDP_xsdt) + hhdm_offset (get_kst s)) + SDT_length) - SDT_HEADER_SIZE)).
        Z.to_euclidean_division_equations; lia. }
      intros [] s' ->. by rewrite ?Hk, ?(get_set _ _ HL).
  - do 6 wp_step. rewrite ?Hk, ?(get_set _ _ HL), ?(set_set _ _ HL). cbn [xsdp rsdt xsdt rsdp madt].
    do 2 wp_step. rewrite ?Hk. eapply wp_mono; [apply sdt_scan|].
    { match goal with |- 0 <= u32 ?x < _ => pose proof (u32_range x); lia end. }
    intros [] s' ->. by rewrite ?Hk, ?(get_set _ _ HL).
Qed.
End AcpiProofs.
