(* ===== verification/Apic.v ===== *)
(** * Interrupt controllers and timers (src/src/kernel/apic.c, apic.h, pit.h)

    The local APIC and the I/O APIC through their memory-mapped registers, the
    entries of the MADT that describe them, the legacy interrupt controllers
    and the interval timer.  The theorems run the routing functions on an I/O
    APIC with its register-select window. *)
From S2P Require Import Prelude KMem Spinlock BuddySpec Buddy PageAlloc PageTable Print Log Ports Dma Acpi.

#[local] Open Scope Z_scope.

Definition LAPIC_ID : Z := 32.
Definition LAPIC_TPR : Z := 128.
Definition LAPIC_EOI : Z := 176.
Definition LAPIC_SVR : Z := 240.
Definition LAPIC_TIMER : Z := 800.
Definition LAPIC_TIMER_INIT : Z := 896.
Definition LAPIC_TIMER_DIV : Z := 992.
Definition LAPIC_SVR_ENABLE : Z := 256.
Definition LAPIC_SPURIOUS_VECTOR : Z := 255.
Definition LAPIC_TIMER_DIV_16 : Z := 3.
Definition LAPIC_TIMER_PERIODIC : Z := 131072.
Definition LAPIC_TIMER_MASKED : Z := 65536.
Definition IOAPIC_REGSEL : Z := 0.
Definition IOAPIC_REGWIN : Z := 16.
Definition IOAPIC_VER : Z := 1.
Definition IOAPIC_REDTBL : Z := 16.
Definition IOAPIC_REDTBL_MASKED : Z := Z.shiftl 1 16.
Definition IOAPIC_VER_MAX_REDIR (x : Z) : Z := Z.land (Z.shiftr x 16) 255.
Definition IOAPIC_REDTBL_LO (gsi : Z) : Z := u32 (IOAPIC_REDTBL + u32 (gsi * 2)).
Definition IOAPIC_REDTBL_HI (gsi : Z) : Z := u32 (u32 (IOAPIC_REDTBL + u32 (gsi * 2)) + 1).
Definition MADT_IOAPIC : Z := 1.
Definition MADT_ISO : Z := 2.
Definition MADT_LAPIC_OVERRIDE : Z := 5.
Definition MADT_ENTRIES_OFFSET : Z := 44.
Definition PIT_FREQ : Z := 1193182.
Definition PIT_CMD : Z := 67.
Definition PIT_CH0 : Z := 64.
Definition PIT_CMD_CH0_SQUARE : Z := Z.lor (Z.lor 0 48) 6.
Definition PIT_CMD_CH0_ONESHOT : Z := Z.lor (Z.lor 0 48) 0.

(** The static pointers of apic.c. *)
Record apic_state := Apic_state { lapic_base : Z; ioapic_base : Z }.

Section Apic.
Context `{PA : PageAllocator} {St : Type} `{IO : PortIO St} `{MM : Mmio St} `{CO : Console St}.
Context (get_kst : St -> kst) (set_kst : kst -> St -> St).
Context (get_acpi : St -> acpi_tables).
Context (get_apic : St -> apic_state) (set_apic : apic_state -> St -> St).
#[local] Abbreviation ld := (load get_kst).
#[local] Abbreviation virt := (to_virt get_kst).

Definition set_lapic (p : Z) : M St unit := mmodify (fun s => set_apic (Apic_state p (ioapic_base (get_apic s))) s).
Definition set_ioapic (p : Z) : M St unit := mmodify (fun s => set_apic (Apic_state (lapic_base (get_apic s)) p) s).

(** [base[reg / 4]] *)
Definition lapic_read (reg : Z) : M St Z :=
  b ← mgets (fun s => lapic_base (get_apic s)); mmio_read32 (b + 4 * (reg / 4)).
Definition lapic_write (reg val : Z) : M St unit :=
  b ← mgets (fun s => lapic_base (get_apic s)); mmio_write32 (b + 4 * (reg / 4)) val.
Definition ioapic_read (reg : Z) : M St Z :=
  b ← mgets (fun s => ioapic_base (get_apic s));
  mmio_write32 (b + 4 * (IOAPIC_REGSEL / 4)) reg;;
  mmio_read32 (b + 4 * (IOAPIC_REGWIN / 4)).
Definition ioapic_write (reg val : Z) : M St unit :=
  b ← mgets (fun s => ioapic_base (get_apic s));
  mmio_write32 (b + 4 * (IOAPIC_REGSEL / 4)) reg;;
  mmio_write32 (b + 4 * (IOAPIC_REGWIN / 4)) val.

Definition pic_disable : M St unit := outb 161 255;; outb 33 255.

(** [u8 *end] of the entries of the MADT at [m]. *)
Definition madt_end (m : Z) : M St Z := len ← ld 4 (m + SDT_length); mret (m + len).

Definition lapic_override_body (last ptr : Z) : M St (Z + unit) :=
  if ptr <? last then
    type ← ld 1 ptr;
    len ← ld 1 (ptr + 1);
    if len =? 0 then mret (inr tt)
    else
      (if type =? MADT_LAPIC_OVERRIDE then addr ← ld 8 (ptr + 4); v ← virt addr; set_lapic v else mret tt);;
      mret (inl (ptr + len))
  else mret (inr tt).

Definition lapic_init : M St unit :=
  m ← mgets (fun s => madt (get_acpi s));
  if m =? 0 then klog_fail (Some (str "LAPIC")) (str "no MADT found") []
  else
    a ← ld 4 (m + MADT_local_apic_addr);
    v ← virt a;
    set_lapic v;;
    last ← madt_end m;
    mloop (lapic_override_body last) (m + MADT_ENTRIES_OFFSET);;
    a ← ld 4 (m + MADT_local_apic_addr);
    mzoom get_kst set_kst (map_mmio a PAGE_SIZE);;
    lapic_write LAPIC_SVR (Z.lor LAPIC_SVR_ENABLE LAPIC_SPURIOUS_VECTOR);;
    lapic_write LAPIC_TPR 0;;
    klog_ok (Some (str "LAPIC")) (str "initialized") [].

Definition lapic_eoi : M St unit := lapic_write LAPIC_EOI 0.

Definition lapic_init_ap : M St unit :=
  lapic_write LAPIC_SVR (Z.lor LAPIC_SVR_ENABLE LAPIC_SPURIOUS_VECTOR);;
  lapic_write LAPIC_TPR 0.

Definition lapic_id : M St Z := x ← lapic_read LAPIC_ID; mret (Z.shiftr x 24).

(** No check of the length here: an entry of length 0 is looked at forever. *)
Definition find_ioapic_body (last ptr : Z) : M St (Z + unit) :=
  if ptr <? last then
    type ← ld 1 ptr;
    len ← ld 1 (ptr + 1);
    if type =? MADT_IOAPIC then
      b0 ← ld 1 (ptr + 4); b1 ← ld 1 (ptr + 5); b2 ← ld 1 (ptr + 6); b3 ← ld 1 (ptr + 7);
      let addr := u32 (Z.lor (Z.lor (Z.lor b0 (Z.shiftl b1 8)) (Z.shiftl b2 16)) (Z.shiftl b3 24)) in
      mzoom get_kst set_kst (map_mmio addr PAGE_SIZE);;
      v ← virt addr;
      set_ioapic v;;
      mret (inr tt)
    else mret (inl (ptr + len))
  else mret (inr tt).

Definition mask_entry (i : Z) : M St (option unit) :=
  ioapic_write (IOAPIC_REDTBL_LO i) IOAPIC_REDTBL_MASKED;;
  ioapic_write (IOAPIC_REDTBL_HI i) 0;;
  mret None.

Definition ioapic_init : M St unit :=
  m ← mgets (fun s => madt (get_acpi s));
  if m =? 0 then klog_fail (Some (str "IOAPIC")) (str "no MADT found") []
  else
    last ← madt_end m;
    mloop (find_ioapic_body last) (m + MADT_ENTRIES_OFFSET);;
    b ← mgets (fun s => ioapic_base (get_apic s));
    if b =? 0 then klog_fail (Some (str "IOAPIC")) (str "not found in MADT") []
    else
      x ← ioapic_read IOAPIC_VER;
      mfor (Z.to_nat (IOAPIC_VER_MAX_REDIR x + 1)) mask_entry 0;;
      klog_ok (Some (str "IOAPIC")) (str "initialized") [].

Definition iso_body (last irq ptr : Z) : M St (Z + Z) :=
  if ptr <? last then
    type ← ld 1 ptr;
    len ← ld 1 (ptr + 1);
    if len =? 0 then mret (inr irq)
    else if type =? MADT_ISO then
      source_irq ← ld 1 (ptr + 3);
      gsi ← ld 4 (ptr + 4);
      if source_irq =? irq then mret (inr gsi) else mret (inl (ptr + len))
    else mret (inl (ptr + len))
  else mret (inr irq).

Definition irq_to_gsi (irq : Z) : M St Z :=
  m ← mgets (fun s => madt (get_acpi s));
  if m =? 0 then mret irq
  else
    last ← madt_end m;
    mloop (iso_body last irq) (m + MADT_ENTRIES_OFFSET).

Definition ioapic_route_irq (irq vector dest_lapic_id : Z) : M St unit :=
  gsi ← irq_to_gsi irq;
  ioapic_write (IOAPIC_REDTBL_HI gsi) (u32 (Z.shiftl dest_lapic_id 24));;
  ioapic_write (IOAPIC_REDTBL_LO gsi) vector.

Definition ioapic_mask_irq (irq : Z) : M St unit :=
  gsi ← irq_to_gsi irq;
  lo ← ioapic_read (IOAPIC_REDTBL_LO gsi);
  ioapic_write (IOAPIC_REDTBL_LO gsi) (Z.lor lo IOAPIC_REDTBL_MASKED).

Definition ioapic_unmask_irq (irq : Z) : M St unit :=
  gsi ← irq_to_gsi irq;
  lo ← ioapic_read (IOAPIC_REDTBL_LO gsi);
  ioapic_write (IOAPIC_REDTBL_LO gsi) (Z.land lo (u32 (Z.lnot IOAPIC_REDTBL_MASKED))).

(** The division traps on a zero frequency. *)
Definition pit_init (hz : Z) : M St unit :=
  q ← udiv PIT_FREQ hz;
  let divisor := u16 q in
  outb PIT_CMD PIT_CMD_CH0_SQUARE;;
  outb PIT_CH0 (Z.land divisor 255);;
  outb PIT_CH0 (Z.land (Z.shiftr divisor 8) 255).

Definition pit_stop : M St unit :=
  outb PIT_CMD PIT_CMD_CH0_ONESHOT;;
  outb PIT_CH0 0;;
  outb PIT_CH0 0.

Definition lapic_timer_init (vector initial_count : Z) : M St unit :=
  lapic_write LAPIC_TIMER_DIV LAPIC_TIMER_DIV_16;;
  lapic_write LAPIC_TIMER vector;;
  lapic_write LAPIC_TIMER_INIT initial_count.

Definition lapic_timer_periodic (vector initial_count : Z) : M St unit :=
  lapic_write LAPIC_TIMER_DIV LAPIC_TIMER_DIV_16;;
  lapic_write LAPIC_TIMER (Z.lor vector LAPIC_TIMER_PERIODIC);;
  lapic_write LAPIC_TIMER_INIT initial_count.

Definition lapic_timer_stop : M St unit :=
  lapic_write LAPIC_TIMER LAPIC_TIMER_MASKED;;
  lapic_write LAPIC_TIMER_INIT 0.
End Apic.

(** ** The entries of the MADT *)

(** The addresses of the entries between [ptr] and [last], up to the first one
    of length zero. *)
Inductive madt_walk (m : mem) (last : Z) : Z -> list Z -> Prop :=
| walk_end ptr : last <= ptr -> madt_walk m last ptr []
| walk_zero ptr : ptr < last -> rd 1 m (ptr + 1) = 0 -> madt_walk m last ptr []
| walk_next ptr es :
    ptr < last -> rd 1 m (ptr + 1) <> 0 -> madt_walk m last (ptr + rd 1 m (ptr + 1)) es -> madt_walk m last ptr (ptr :: es).

(** What the entries say about an interrupt line: the first override of it,
    or the line itself. *)
Fixpoint override_of (m : mem) (es : list Z) (irq : Z) : Z :=
  match es with
  | [] => irq
  | e :: es => if (rd 1 m e =? MADT_ISO) && (rd 1 m (e + 3) =? irq) then rd32 m (e + 4) else override_of m es irq
  end.

Lemma walk_exists m last ptr : exists es, madt_walk m last ptr es.
Proof.
  remember (Z.to_nat (last - ptr)) as n eqn:En. revert ptr En.
  induction n as [n IH] using (well_founded_induction lt_wf). intros ptr ->.
  destruct (Z.ltb_spec ptr last) as [Hlt|]; [|exists []; by apply walk_end].
  destruct (Z.eqb_spec (rd 1 m (ptr + 1)) 0) as [|Hne]; [exists []; by apply walk_zero|].
  pose proof (rd_range 1 m (ptr + 1)).
  destruct (IH (Z.to_nat (last - (ptr + rd 1 m (ptr + 1)))) ltac:(lia) _ eq_refl) as [es Hes].
  exists (ptr :: es). by apply walk_next.
Qed.

(** ** An I/O APIC *)

(** The select register and the registers behind the window, of which the
    redirection entry [g] is number [16 + 2 * g] (low) and the one after. *)
Record apic_machine := Apic_machine {
  am_kst : kst; am_acpi : acpi_tables; am_apic : apic_state; am_select : Z; am_regs : Z -> Z
}.

Definition window (s : apic_machine) : Z := ioapic_base (am_apic s).
Definition window_read (a : Z) : M apic_machine Z := fun s =>
  if a =? window s + 16 then Ok (u32 (am_regs s (am_select s)), s) else Stuck Fault.
Definition window_write (a v : Z) : M apic_machine unit := fun s =>
  if a =? window s then Ok (tt, Apic_machine (am_kst s) (am_acpi s) (am_apic s) (v mod 256) (am_regs s))
  else if a =? window s + 16 then
    Ok (tt, Apic_machine (am_kst s) (am_acpi s) (am_apic s) (am_select s)
              (fun r => if r =? am_select s then u32 v else am_regs s r))
  else Stuck Fault.

Lemma window_u32 a s v s' : window_read a s = Ok (v, s') -> 0 <= v < 2 ^ 32.
Proof. unfold window_read. destruct (_ =? _); intros [= <- _]. apply u32_range. Qed.

#[export] Instance window_mmio : Mmio apic_machine :=
  {| mmio_read32 := window_read; mmio_write32 := window_write; mmio_u32 := window_u32 |}.

#[local] Abbreviation gsi_of_irq := (irq_to_gsi am_kst am_acpi).
#[local] Abbreviation mask_irq := (ioapic_mask_irq am_kst am_acpi am_apic).
#[local] Abbreviation unmask_irq := (ioapic_unmask_irq am_kst am_acpi am_apic).
#[local] Abbreviation route_irq := (ioapic_route_irq am_kst am_acpi am_apic).

(** Everything but the I/O APIC. *)
Definition kernel_of (s : apic_machine) := (am_kst s, am_acpi s, am_apic s).

(** [g] is the input of the I/O APIC that line [irq] is wired to. *)
Definition wired (s : apic_machine) (irq g : Z) : Prop :=
  let m := madt (am_acpi s) in let h := heap (am_kst s) in
  if m =? 0 then g = irq
  else exists es, madt_walk h (m + rd32 h (m + SDT_length)) (m + MADT_ENTRIES_OFFSET) es /\ g = override_of h es irq.

Lemma iso_runs s last irq ptr es : madt_walk (heap (am_kst s)) last ptr es ->
  exists k, 0 <= k <= Z.max 0 (last - ptr) /\
    runs (iso_body am_kst last irq) ptr s (Ok (override_of (heap (am_kst s)) es irq, s)) k.
Proof.
  set (h := heap (am_kst s)).
  assert (forall p, iso_body am_kst last irq p s =
    if p <? last then
      if rd 1 h (p + 1) =? 0 then Ok (inr irq, s)
      else if rd 1 h p =? MADT_ISO then
        if rd 1 h (p + 3) =? irq then Ok (inr (rd32 h (p + 4)), s) else Ok (inl (p + rd 1 h (p + 1)), s)
      else Ok (inl (p + rd 1 h (p + 1)), s)
    else Ok (inr irq, s)) as Ebody.
  { intros p. unfold iso_body, load, mbind, M_bind, mgets, mret, M_ret. cbv beta iota. unfold h.
    destruct (p <? last); [|done]. cbv beta. destruct (rd 1 _ (p + 1) =? 0); [done|]. cbv beta.
    destruct (rd 1 _ p =? MADT_ISO); [|done]. cbv beta. by destruct (rd 1 _ (p + 3) =? irq). }
  induction 1 as [p Hge|p Hlt Hz|p es Hlt Hnz Hw (k & Hk & IH)]; cbn [override_of].
  - exists 0. split; [lia|]. apply runs_stop. by rewrite Ebody, (proj2 (Z.ltb_ge _ _)).
  - exists 0. split; [lia|]. apply runs_stop. by rewrite Ebody, (proj2 (Z.ltb_lt _ _)), Hz.
  - pose proof (rd_range 1 h (p + 1)). specialize (Ebody p).
    rewrite (proj2 (Z.ltb_lt _ _)), (proj2 (Z.eqb_neq _ _)) in Ebody by done.
    destruct (rd 1 h p =? MADT_ISO); cbn [andb]; [destruct (rd 1 h (p + 3) =? irq)|].
    + exists 0. split; [lia|]. by apply runs_stop.
    + exists (k + 1). split; [lia|]. eapply runs_next; [exact Ebody|exact IH|lia].
    + exists (k + 1). split; [lia|]. eapply runs_next; [exact Ebody|exact IH|lia].
Qed.

Lemma irq_to_gsi_wired irq g s : wired s irq g -> gsi_of_irq irq s = Ok (g, s).
Proof.
  unfold wired, irq_to_gsi, madt_end, load. cbv zeta. unfold mbind, M_bind, mgets.
  destruct (madt (am_acpi s) =? 0); [by intros ->|]. intros (es & Hw & ->).
  destruct (iso_runs s _ irq _ es Hw) as (k & Hk & Hr). apply (mloop_runs _ _ _ _ k); [exact Hr|].
  pose proof (rd_range 4 (heap (am_kst s)) (madt (am_acpi s) + SDT_length)) as H4. change (2 ^ (8 * Z.of_nat 4)) with (2 ^ 32) in H4.
  unfold MADT_ENTRIES_OFFSET in Hk. lia.
Qed.

(** Register accesses through the window. *)
Definition with_reg (s s' : apic_machine) (r v : Z) : Prop :=
  kernel_of s' = kernel_of s /\ forall i, am_regs s' i = if i =? r then u32 v else am_regs s i.

Lemma ioapic_write_run r v s Q : 0 <= r < 256 -> (forall s', with_reg s s' r v -> Q tt s') -> wp (ioapic_write am_apic r v) s Q.
Proof.
  intros Hr HQ. unfold ioapic_write. change (4 * (IOAPIC_REGSEL / 4)) with 0. change (4 * (IOAPIC_REGWIN / 4)) with 16.
  do 2 wp_step. wp_step. eapply wp_run.
  { cbn [mmio_write32 window_mmio]. unfold window_write at 1, window. rewrite Z.add_0_r, Z.eqb_refl. reflexivity. }
  eapply wp_run.
  { cbn [mmio_write32 window_mmio]. unfold window_write, window. cbn [am_apic am_select].
    rewrite (proj2 (Z.eqb_neq _ _)), Z.eqb_refl by lia. reflexivity. }
  apply HQ. split; [done|]. intros i. cbn [am_regs]. by rewrite Z.mod_small by lia.
Qed.

Lemma ioapic_read_run r s Q : 0 <= r < 256 ->
  (forall s', kernel_of s' = kernel_of s -> (forall i, am_regs s' i = am_regs s i) -> Q (u32 (am_regs s r)) s') ->
  wp (ioapic_read am_apic r) s Q.
Proof.
  intros Hr HQ. unfold ioapic_read. change (4 * (IOAPIC_REGSEL / 4)) with 0. change (4 * (IOAPIC_REGWIN / 4)) with 16.
  do 2 wp_step. wp_step. eapply wp_run.
  { cbn [mmio_write32 window_mmio]. unfold window_write, window. rewrite Z.add_0_r, Z.eqb_refl. reflexivity. }
  eapply wp_run.
  { cbn [mmio_read32 window_mmio]. unfold window_read, window. cbn [am_apic]. rewrite Z.eqb_refl. reflexivity. }
  cbn [am_regs am_select]. rewrite Z.mod_small by lia. by apply HQ.
Qed.

(** ** Routing *)

Lemma redtbl_lo g : 0 <= g < 120 -> IOAPIC_REDTBL_LO g = 16 + 2 * g /\ IOAPIC_REDTBL_HI g = 17 + 2 * g.
Proof. intros Hg. unfold IOAPIC_REDTBL_LO, IOAPIC_REDTBL_HI, IOAPIC_REDTBL. rewrite !(u32_small (g * 2)) by lia. rewrite !u32_small by (rewrite ?u32_small; lia). lia. Qed.

Lemma wired_kernel s s' irq g : kernel_of s' = kernel_of s -> wired s irq g -> wired s' irq g.
Proof. unfold wired. by intros [= -> -> _]. Qed.

Section Routing.
Context (s : apic_machine) (irq g : Z) (Hw : wired s irq g) (Hg : 0 <= g < 120).
Context (Hregs : forall i, 0 <= am_regs s i < 2 ^ 32).
#[local] Abbreviation lo := (16 + 2 * g).
#[local] Abbreviation hi := (17 + 2 * g).

(** The low word with bit 16 set to [b]. *)
Definition masked_as (b : bool) (s' : apic_machine) : Prop :=
  kernel_of s' = kernel_of s /\
  forall i, (i <> lo -> am_regs s' i = am_regs s i) /\
    (i = lo -> forall n, 0 <= n -> Z.testbit (am_regs s' i) n = if n =? 16 then b else Z.testbit (am_regs s i) n).

Lemma rewrite_entry (f : Z -> Z) b Q :
  (forall x, 0 <= x < 2 ^ 32 -> 0 <= f x < 2 ^ 32 /\ forall n, 0 <= n -> Z.testbit (f x) n = if n =? 16 then b else Z.testbit x n) ->
  (forall s', masked_as b s' -> Q tt s') ->
  wp (x ← ioapic_read am_apic (IOAPIC_REDTBL_LO g); ioapic_write am_apic (IOAPIC_REDTBL_LO g) (f x)) s Q.
Proof.
  intros Hf HQ. destruct (redtbl_lo g Hg) as [-> _]. wp_step. apply ioapic_read_run; [lia|]. intros s1 E1 R1.
  apply ioapic_write_run; [lia|]. intros s2 [E2 R2]. rewrite (u32_small (am_regs s lo) (Hregs _)) in R2.
  destruct (Hf (am_regs s lo) (Hregs _)) as [Hr Hb]. rewrite (u32_small _ Hr) in R2.
  apply HQ. split; [by rewrite E2|]. intros i. rewrite R2. split.
  - intros Hi. rewrite (proj2 (Z.eqb_neq i lo) Hi). apply R1.
  - intros -> n Hn. rewrite Z.eqb_refl. by apply Hb.
Qed.

(** C22: lines are routed where the tables say: through the first interrupt
    source override of the line in the MADT, or straight when there is none,
    [ioapic_route_irq] writes vector and destination into exactly that
    redirection entry, unmasked, [ioapic_mask_irq] and [ioapic_unmask_irq] set
    and clear its mask bit and no other bit of any register, and the scan of
    the table ends even at an entry of length zero. *)
Theorem ioapic_routes vector dest :
  0 <= vector < 2 ^ 8 -> 0 <= dest < 2 ^ 8 ->
  wp (ioapic_route_irq am_kst am_acpi am_apic irq vector dest) s (fun _ s' =>
    kernel_of s' = kernel_of s /\
    forall i, am_regs s' i = if i =? lo then vector else if i =? hi then dest * 2 ^ 24 else am_regs s i) /\
  wp (ioapic_mask_irq am_kst am_acpi am_apic irq) s (fun _ s' => masked_as true s') /\
  wp (ioapic_unmask_irq am_kst am_acpi am_apic irq) s (fun _ s' => masked_as false s').
Proof.
  intros Hv Hd. pose proof (irq_to_gsi_wired irq g s Hw) as Erun. split_and!.
  - unfold ioapic_route_irq. wp_step. eapply wp_run; [exact Erun|]. destruct (redtbl_lo g Hg) as [-> ->].
    wp_step. apply ioapic_write_run; [lia|]. intros s1 [E1 R1]. apply ioapic_write_run; [lia|]. intros s2 [E2 R2].
    split; [by rewrite E2|]. intros i. rewrite R2, R1, Z.shiftl_mul_pow2 by done.
    by rewrite (u32_small vector), !(u32_small (dest * 2 ^ 24)) by lia.
  - unfold ioapic_mask_irq. wp_step. eapply wp_run; [exact Erun|]. apply (rewrite_entry (fun x => Z.lor x IOAPIC_REDTBL_MASKED) true).
    + intros x Hx. change IOAPIC_REDTBL_MASKED with (2 ^ 16).
      assert (forall n, 0 <= n -> Z.testbit (Z.lor x (2 ^ 16)) n = if n =? 16 then true else Z.testbit x n) as Hb.
      { intros n Hn. rewrite Z.lor_spec, Z.pow2_bits_eqb, (Z.eqb_sym 16) by done.
        destruct (n =? 16); [by rewrite orb_true_r|by rewrite orb_false_r]. }
      split; [|exact Hb]. apply (bits_range _ 32); [done|]. intros n Hn. rewrite Hb, (proj2 (Z.eqb_neq n 16)) by lia.
      by apply (testbit_above x 32).
    + done.
  - unfold ioapic_unmask_irq. wp_step. eapply wp_run; [exact Erun|].
    apply (rewrite_entry (fun x => Z.land x (u32 (Z.lnot IOAPIC_REDTBL_MASKED))) false).
    + intros x Hx. change IOAPIC_REDTBL_MASKED with (2 ^ 16).
      assert (forall n, 0 <= n -> Z.testbit (Z.land x (u32 (Z.lnot (2 ^ 16)))) n = if n =? 16 then false else Z.testbit x n) as Hb.
      { intros n Hn. rewrite Z.land_spec, testbit_u32, Z.lnot_spec, Z.pow2_bits_eqb, (Z.eqb_sym 16) by done.
        destruct (Z.eqb_spec n 16) as [->|]; [by rewrite andb_false_r|]. rewrite andb_true_r.
        destruct (Z.ltb_spec n 32); [by rewrite andb_true_r|]. by rewrite (testbit_above x 32) by lia. }
      split; [|exact Hb]. apply (bits_range _ 32); [done|]. intros n Hn. rewrite Hb, (proj2 (Z.eqb_neq n 16)) by lia.
      by apply (testbit_above x 32).
    + done.
Qed.
End Routing.

(** A MADT at 4096 with one entry, which wires line 0 to input 2. *)
Definition demo_apic : apic_machine :=
  let h := store_bytes (wr32 ∅ (4096 + 4) 54) (4096 + 44) [2; 10; 0; 0; 2; 0; 0; 0; 0; 0] in
  Apic_machine (set_heap h demo_kst) (set_madt 4096 acpi_none) (Apic_state 0 8192) 0 (fun _ => 65536).

Lemma ioapic_routes_witness :
  wired demo_apic 0 2 /\
  wp (ioapic_route_irq am_kst am_acpi am_apic 0 32 1) demo_apic (fun _ s' =>
    kernel_of s' = kernel_of demo_apic /\
    forall i, am_regs s' i = if i =? 20 then 32 else if i =? 21 then 1 * 2 ^ 24 else 65536).
Proof.
  assert (wired demo_apic 0 2) as Hw.
  { exists [4140]. split; [|by vm_compute]. apply walk_next; [by vm_compute|by vm_compute|]. apply walk_end. by vm_compute. }
  split; [exact Hw|]. assert (0 <= 2 < 120) as Hg by lia.
  assert (forall i, 0 <= am_regs demo_apic i < 2 ^ 32) as Hr by (intros i; change (0 <= 65536 < 2 ^ 32); lia).
  pose proof (proj1 (ioapic_routes demo_apic 0 2 Hw Hg Hr 32 1 ltac:(lia) ltac:(lia))) as H.
  eapply wp_mono; [exact H|]. intros [] s' [Hk Hi]. split; [exact Hk|]. exact Hi.
Defined.
