(* ===== verification/Kconsole.v ===== *)
(** * The framebuffer console (src/src/kernel/kconsole.c)

    A text console with ANSI colour escapes drawn into a linear framebuffer of
    32-bit pixels.  The framebuffer is a list of words; an access outside it is a
    [Fault].  The theorems relate the pixels to a grid of character cells. *)
From S2P Require Import Prelude Serial Print.

#[local] Open Scope Z_scope.

Definition font8x8 : list (list Z) := [
  [0; 0; 0; 0; 0; 0; 0; 0]; [126; 129; 165; 129; 189; 153; 129; 126];
  [126; 255; 219; 255; 195; 231; 255; 126]; [108; 254; 254; 254; 124; 56; 16; 0];
  [16; 56; 124; 254; 124; 56; 16; 0]; [56; 124; 56; 254; 254; 16; 16; 124];
  [16; 16; 56; 124; 254; 124; 16; 124]; [0; 0; 24; 60; 60; 24; 0; 0];
  [255; 255; 231; 195; 195; 231; 255; 255]; [0; 60; 102; 66; 66; 102; 60; 0];
  [255; 195; 153; 189; 189; 153; 195; 255]; [15; 7; 15; 125; 204; 204; 204; 120];
  [60; 102; 102; 102; 60; 24; 126; 24]; [63; 51; 63; 48; 48; 112; 240; 224];
  [127; 99; 127; 99; 99; 103; 230; 192]; [153; 90; 60; 231; 231; 60; 90; 153];
  [128; 224; 248; 254; 248; 224; 128; 0]; [2; 14; 62; 254; 62; 14; 2; 0];
  [24; 60; 126; 24; 24; 126; 60; 24]; [102; 102; 102; 102; 102; 0; 102; 0];
  [127; 219; 219; 123; 27; 27; 27; 0]; [62; 99; 56; 108; 108; 56; 204; 120];
  [0; 0; 0; 0; 126; 126; 126; 0]; [24; 60; 126; 24; 126; 60; 24; 255];
  [24; 60; 126; 24; 24; 24; 24; 0]; [24; 24; 24; 24; 126; 60; 24; 0];
  [0; 24; 12; 254; 12; 24; 0; 0]; [0; 48; 96; 254; 96; 48; 0; 0];
  [0; 0; 192; 192; 192; 254; 0; 0]; [0; 36; 102; 255; 102; 36; 0; 0];
  [0; 24; 60; 126; 255; 255; 0; 0]; [0; 255; 255; 126; 60; 24; 0; 0];
  [0; 0; 0; 0; 0; 0; 0; 0]; [24; 60; 60; 24; 24; 0; 24; 0];
  [108; 108; 72; 0; 0; 0; 0; 0]; [108; 108; 254; 108; 254; 108; 108; 0];
  [24; 126; 216; 124; 27; 126; 24; 0]; [0; 102; 108; 24; 48; 102; 6; 0];
  [56; 108; 56; 118; 220; 204; 118; 0]; [48; 48; 96; 0; 0; 0; 0; 0];
  [12; 24; 48; 48; 48; 24; 12; 0]; [48; 24; 12; 12; 12; 24; 48; 0];
  [0; 102; 60; 255; 60; 102; 0; 0]; [0; 24; 24; 126; 24; 24; 0; 0];
  [0; 0; 0; 0; 0; 24; 24; 48]; [0; 0; 0; 126; 0; 0; 0; 0];
  [0; 0; 0; 0; 0; 24; 24; 0]; [6; 12; 12; 24; 48; 96; 96; 0];
  [60; 102; 110; 118; 102; 102; 60; 0]; [24; 56; 24; 24; 24; 24; 126; 0];
  [60; 102; 6; 12; 24; 48; 126; 0]; [60; 102; 6; 28; 6; 102; 60; 0];
  [12; 28; 60; 108; 126; 12; 12; 0]; [126; 96; 124; 6; 6; 102; 60; 0];
  [28; 48; 96; 124; 102; 102; 60; 0]; [126; 6; 12; 24; 24; 48; 48; 0];
  [60; 102; 102; 60; 102; 102; 60; 0]; [60; 102; 102; 62; 6; 12; 56; 0];
  [0; 24; 24; 0; 0; 24; 24; 0]; [0; 24; 24; 0; 0; 24; 24; 48];
  [12; 24; 48; 96; 48; 24; 12; 0]; [0; 0; 126; 0; 126; 0; 0; 0];
  [48; 24; 12; 6; 12; 24; 48; 0]; [60; 102; 6; 12; 24; 0; 24; 0];
  [60; 98; 110; 110; 102; 64; 60; 0]; [24; 60; 102; 102; 126; 102; 102; 0];
  [124; 102; 102; 124; 102; 102; 124; 0]; [60; 102; 96; 96; 96; 102; 60; 0];
  [120; 108; 102; 102; 102; 108; 120; 0]; [126; 96; 96; 124; 96; 96; 126; 0];
  [126; 96; 96; 124; 96; 96; 96; 0]; [60; 102; 96; 110; 102; 102; 62; 0];
  [102; 102; 102; 126; 102; 102; 102; 0]; [60; 24; 24; 24; 24; 24; 60; 0];
  [30; 12; 12; 12; 12; 108; 56; 0]; [102; 108; 120; 112; 120; 108; 102; 0];
  [96; 96; 96; 96; 96; 96; 126; 0]; [99; 119; 127; 107; 99; 99; 99; 0];
  [102; 118; 126; 110; 110; 102; 102; 0]; [60; 102; 102; 102; 102; 102; 60; 0];
  [124; 102; 102; 124; 96; 96; 96; 0]; [60; 102; 102; 102; 118; 108; 54; 0];
  [124; 102; 102; 124; 108; 102; 102; 0]; [60; 102; 96; 60; 6; 102; 60; 0];
  [126; 24; 24; 24; 24; 24; 24; 0]; [102; 102; 102; 102; 102; 102; 60; 0];
  [102; 102; 102; 102; 102; 60; 24; 0]; [99; 99; 99; 107; 127; 119; 99; 0];
  [102; 102; 60; 24; 60; 102; 102; 0]; [102; 102; 102; 60; 24; 24; 24; 0];
  [126; 6; 12; 24; 48; 96; 126; 0]; [60; 48; 48; 48; 48; 48; 60; 0];
  [96; 48; 24; 24; 12; 6; 6; 0]; [60; 12; 12; 12; 12; 12; 60; 0];
  [24; 60; 102; 0; 0; 0; 0; 0]; [0; 0; 0; 0; 0; 0; 0; 255];
  [24; 24; 12; 0; 0; 0; 0; 0]; [0; 0; 60; 6; 62; 102; 62; 0];
  [96; 96; 124; 102; 102; 102; 124; 0]; [0; 0; 60; 102; 96; 102; 60; 0];
  [6; 6; 62; 102; 102; 102; 62; 0]; [0; 0; 60; 102; 126; 96; 60; 0];
  [28; 48; 48; 124; 48; 48; 48; 0]; [0; 0; 62; 102; 102; 62; 6; 60];
  [96; 96; 124; 102; 102; 102; 102; 0]; [24; 0; 56; 24; 24; 24; 60; 0];
  [6; 0; 14; 6; 6; 102; 60; 0]; [96; 96; 102; 108; 120; 108; 102; 0];
  [56; 24; 24; 24; 24; 24; 60; 0]; [0; 0; 102; 127; 107; 99; 99; 0];
  [0; 0; 124; 102; 102; 102; 102; 0]; [0; 0; 60; 102; 102; 102; 60; 0];
  [0; 0; 124; 102; 102; 124; 96; 96]; [0; 0; 62; 102; 102; 62; 6; 6];
  [0; 0; 108; 118; 96; 96; 96; 0]; [0; 0; 62; 96; 60; 6; 124; 0];
  [24; 24; 126; 24; 24; 24; 14; 0]; [0; 0; 102; 102; 102; 102; 62; 0];
  [0; 0; 102; 102; 102; 60; 24; 0]; [0; 0; 99; 107; 127; 54; 54; 0];
  [0; 0; 102; 60; 24; 60; 102; 0]; [0; 0; 102; 102; 102; 62; 6; 60];
  [0; 0; 126; 12; 24; 48; 126; 0]; [14; 24; 24; 112; 24; 24; 14; 0];
  [24; 24; 24; 0; 24; 24; 24; 0]; [112; 24; 24; 14; 24; 24; 112; 0];
  [118; 220; 0; 0; 0; 0; 0; 0]; [0; 0; 0; 0; 0; 0; 0; 0]
].

Definition FONT_W : Z := 8.
Definition FONT_H : Z := 9.
Definition ESC_NONE : Z := 0.
Definition ESC_ESC : Z := 1.
Definition ESC_BRACKET : Z := 2.

Definition ansi_palette : list Z :=
  [1710638; 13382451; 3385907; 13412915; 3364300; 11154346; 3386060; 13421772;
   5592405; 16733525; 5635925; 16777045; 5605631; 16733695; 5636095; 16777215].

(** The static variables of kconsole.c; [fb] is what [fb_addr] points to. *)
Record kcon := Kcon {
  fb : list Z;
  fb_width : Z; fb_height : Z; fb_pitch_u32 : Z; fb_cols : Z; fb_rows : Z;
  cur_col : Z; cur_row : Z;
  fg_color : Z; bg_color : Z; fg_default : Z; bg_default : Z;
  fb_ready : Z;
  esc_state : Z; esc_params : list Z; esc_nparam : Z
}.

(** Before [kconsole_init]: 0xE0E0E0 on 0x1A1A2E. *)
Definition kcon_start : kcon := Kcon [] 0 0 0 0 0 0 0 14737632 1710638 14737632 1710638 0 0 (replicate 8 0) 0.

Definition set_fb (b : list Z) (k : kcon) : kcon :=
  Kcon b (fb_width k) (fb_height k) (fb_pitch_u32 k) (fb_cols k) (fb_rows k) (cur_col k) (cur_row k)
    (fg_color k) (bg_color k) (fg_default k) (bg_default k) (fb_ready k) (esc_state k) (esc_params k) (esc_nparam k).
Definition set_cursor (col row : Z) (k : kcon) : kcon :=
  Kcon (fb k) (fb_width k) (fb_height k) (fb_pitch_u32 k) (fb_cols k) (fb_rows k) col row
    (fg_color k) (bg_color k) (fg_default k) (bg_default k) (fb_ready k) (esc_state k) (esc_params k) (esc_nparam k).
Definition set_colors (fg bg : Z) (k : kcon) : kcon :=
  Kcon (fb k) (fb_width k) (fb_height k) (fb_pitch_u32 k) (fb_cols k) (fb_rows k) (cur_col k) (cur_row k)
    fg bg (fg_default k) (bg_default k) (fb_ready k) (esc_state k) (esc_params k) (esc_nparam k).
Definition set_esc (st : Z) (ps : list Z) (n : Z) (k : kcon) : kcon :=
  Kcon (fb k) (fb_width k) (fb_height k) (fb_pitch_u32 k) (fb_cols k) (fb_rows k) (cur_col k) (cur_row k)
    (fg_color k) (bg_color k) (fg_default k) (bg_default k) (fb_ready k) st ps n.

(** [fb_addr[i]], with [i] computed in 32 bits. *)
Definition fb_store (i v : Z) : M kcon unit := fun k =>
  match fb k !! Z.to_nat (u32 i) with
  | Some _ => Ok (tt, set_fb (<[Z.to_nat (u32 i) := v]> (fb k)) k)
  | None => Stuck Fault
  end.
Definition fb_load (i : Z) : M kcon Z := fun k =>
  match fb k !! Z.to_nat (u32 i) with Some v => Ok (v, k) | None => Stuck Fault end.

Definition param_load (i : Z) : M kcon Z := fun k =>
  match esc_params k !! Z.to_nat i with Some v => Ok (v, k) | None => Stuck Fault end.
Definition param_store (i v : Z) : M kcon unit := fun k =>
  match esc_params k !! Z.to_nat i with
  | Some _ => Ok (tt, set_esc (esc_state k) (<[Z.to_nat i := v]> (esc_params k)) (esc_nparam k) k)
  | None => Stuck Fault
  end.

Definition palette (i : Z) : Z := ansi_palette !!! Z.to_nat i.

(** The bold loop: the bright version of the first of the colours from [j] on
    that is the current one. *)
Fixpoint brighten (n : nat) (j fg : Z) : Z :=
  match n with
  | O => fg
  | S n' => if fg =? palette j then palette (j + 8) else brighten n' (j + 1) fg
  end.

(** One parameter of a colour escape. *)
Definition sgr_param (p fgd bgd : Z) (c : Z * Z) : Z * Z :=
  let '(fg, bg) := c in
  if p =? 0 then (fgd, bgd)
  else if p =? 1 then (brighten 8 0 fg, bg)
  else if (30 <=? p) && (p <=? 37) then (palette (p - 30), bg)
  else if (90 <=? p) && (p <=? 97) then (palette (p - 90 + 8), bg)
  else if (40 <=? p) && (p <=? 47) then (fg, palette (p - 40))
  else if (100 <=? p) && (p <=? 107) then (fg, palette (p - 100 + 8))
  else c.

Definition sgr_body (i : Z) : M kcon (option unit) :=
  p ← param_load i;
  mmodify (fun k =>
    let '(fg, bg) := sgr_param p (fg_default k) (bg_default k) (fg_color k, bg_color k) in set_colors fg bg k);;
  mret None.

Definition fb_apply_sgr : M kcon unit :=
  n ← mgets esc_nparam;
  (if n =? 0 then
     param_store 0 0;; mmodify (fun k => set_esc (esc_state k) (esc_params k) 1 k)
   else mret tt);;
  n ← mgets esc_nparam;
  mfor (Z.to_nat n) sgr_body 0;;
  mret tt.

(** Stores [f x] at [base + x] for [x] below [n]. *)
Definition fill_row (n : nat) (base : Z) (f : Z -> Z) : M kcon (option unit) :=
  mfor n (fun x => fb_store (base + x) (f x);; mret None) 0.

Definition glyph_pixel (bits x fg bg : Z) : Z := if Z.land bits (Z.shiftr 128 x) =? 0 then bg else fg.

Definition glyph_row (glyph : list Z) (px py : Z) (y : Z) : M kcon (option unit) :=
  k ← mget;
  let base := (py + y) * fb_pitch_u32 k + px in
  let bits := glyph !!! Z.to_nat y in
  fill_row 8 base (fun x => glyph_pixel bits x (fg_color k) (bg_color k)).

Definition fb_draw_glyph (col row ch : Z) : M kcon unit :=
  let glyph := font8x8 !!! Z.to_nat (Z.land ch 127) in
  let px := u32 (col * FONT_W) in
  let py := u32 (row * FONT_H) in
  mfor 8 (glyph_row glyph px py) 0;;
  k ← mget;
  fill_row 8 ((py + 8) * fb_pitch_u32 k + px) (fun _ => bg_color k);;
  mret tt.

(** One pixel line of the move. *)
Definition scroll_line (r y : Z) : M kcon (option unit) :=
  k ← mget;
  let dst := ((r - 1) * FONT_H + y) * fb_pitch_u32 k in
  let src := (r * FONT_H + y) * fb_pitch_u32 k in
  mfor (Z.to_nat (fb_cols k * FONT_W)) (fun x => v ← fb_load (src + x); fb_store (dst + x) v;; mret None) 0.

Definition fb_scroll : M kcon unit :=
  k ← mget;
  mfor (Z.to_nat (fb_rows k - 1)) (fun r => mfor (Z.to_nat FONT_H) (scroll_line r) 0) 1;;
  let last_y := u32 (u32 (fb_rows k - 1) * FONT_H) in
  mfor (Z.to_nat FONT_H) (fun y =>
    fill_row (Z.to_nat (fb_cols k * FONT_W)) ((last_y + y) * fb_pitch_u32 k) (fun _ => bg_color k)) 0;;
  mret tt.

Definition kconsole_clear : M kcon unit :=
  k ← mget;
  if fb_ready k =? 0 then mret tt
  else
    mfor (Z.to_nat (fb_height k)) (fun y =>
      fill_row (Z.to_nat (fb_width k)) (y * fb_pitch_u32 k) (fun _ => bg_color k)) 0;;
    mmodify (set_cursor 0 0).

(** [pixels] is the memory at [fb->address]; [width], [height] and [pitch] (in
    bytes) are what the boot loader reports. *)
Definition kconsole_init (pixels : list Z) (width height pitch : Z) : M kcon unit :=
  mmodify (fun k =>
    Kcon pixels (u32 width) (u32 height) (u32 (pitch / 4)) (u32 width / FONT_W) (u32 height / FONT_H) 0 0
      (fg_color k) (bg_color k) (fg_default k) (bg_default k) 1 (esc_state k) (esc_params k) (esc_nparam k));;
  kconsole_clear.

(** [cur_row++], scrolling at the bottom. *)
Definition next_row : M kcon unit :=
  mmodify (fun k => set_cursor 0 (u32 (cur_row k + 1)) k);;
  k ← mget;
  if fb_rows k <=? cur_row k then
    fb_scroll;; mmodify (fun k => set_cursor (cur_col k) (u32 (fb_rows k - 1)) k)
  else mret tt.

(** The bytes of an escape sequence after "ESC [". *)
Definition esc_byte (c : Z) : M kcon unit :=
  k ← mget;
  let n := esc_nparam k in
  if (48 <=? c) && (c <=? 57) then
    p ← param_load n; param_store n (u32 (p * 10 + u32 (c - 48)))
  else if c =? 59 then
    mmodify (fun k => set_esc (esc_state k) (esc_params k) (if n <? 7 then n + 1 else n) k);;
    k ← mget;
    param_store (esc_nparam k) 0
  else
    mmodify (fun k => set_esc (esc_state k) (esc_params k) (u8 (n + 1)) k);;
    (if c =? 109 then fb_apply_sgr else mret tt);;
    mmodify (fun k => set_esc ESC_NONE (esc_params k) (esc_nparam k) k).

Definition kconsole_putc (c : Z) : M kcon unit :=
  let c := i8 c in
  k ← mget;
  if fb_ready k =? 0 then mret tt
  else if esc_state k =? ESC_ESC then
    if c =? 91 then
      mmodify (fun k => set_esc ESC_BRACKET (esc_params k) 0 k);; param_store 0 0
    else mmodify (fun k => set_esc ESC_NONE (esc_params k) (esc_nparam k) k)
  else if esc_state k =? ESC_BRACKET then esc_byte c
  else if u8 c =? 27 then mmodify (fun k => set_esc ESC_ESC (esc_params k) (esc_nparam k) k)
  else if c =? 13 then mmodify (fun k => set_cursor 0 (cur_row k) k)
  else if c =? 10 then next_row
  else if c =? 8 then
    if 0 <? cur_col k then
      mmodify (fun k => set_cursor (cur_col k - 1) (cur_row k) k);;
      fb_draw_glyph (cur_col k - 1) (cur_row k) 32
    else mret tt
  else if (c <? 32) || (126 <? c) then mret tt
  else
    fb_draw_glyph (cur_col k) (cur_row k) (u8 c);;
    mmodify (fun k => set_cursor (u32 (cur_col k + 1)) (cur_row k) k);;
    k ← mget;
    if fb_cols k <=? cur_col k then next_row else mret tt.

(** [width], [height], [pitch_bytes] and [bpp]. *)
Definition kconsole_get_info (k : kcon) : Z * Z * Z * Z :=
  (fb_width k, fb_height k, u32 (fb_pitch_u32 k * 4), 32).
Definition kconsole_get_size (k : kcon) : Z := u64 (u64 (fb_height k * fb_pitch_u32 k) * 4).

(** ** Pixels *)

(** The pixel at column [X] and line [Y] of a buffer with [P] words a line. *)
Definition pix (b : list Z) (P X Y : Z) : option Z := b !! Z.to_nat (Y * P + X).

Record geometry (k : kcon) : Prop := {
  geo_width : 8 <= fb_width k <= fb_pitch_u32 k;
  geo_height : 9 <= fb_height k;
  geo_size : fb_height k * fb_pitch_u32 k <= 2 ^ 32;
  geo_cols : fb_cols k = fb_width k / 8;
  geo_rows : fb_rows k = fb_height k / 9;
  geo_fb : Z.of_nat (length (fb k)) = fb_height k * fb_pitch_u32 k
}.

(** Only pixels change, and every pixel stays defined. *)
Definition repainted (k : kcon) (b : list Z) : Prop := length b = length (fb k).

Lemma repainted_trans k b b' : repainted k b -> repainted (set_fb b k) b' -> repainted k b'.
Proof. unfold repainted. cbn. congruence. Qed.

Lemma geometry_set_fb k b : geometry k -> repainted k b -> geometry (set_fb b k).
Proof. intros [] H. split; cbn; try done. by rewrite H. Qed.

Lemma geometry_cursor k a b : geometry k -> geometry (set_cursor a b k).
Proof. by intros []. Qed.

Lemma geometry_grid k : geometry k ->
  1 <= fb_cols k /\ 1 <= fb_rows k /\ fb_cols k * 8 <= fb_pitch_u32 k /\ fb_rows k * 9 <= fb_height k /\
  fb_pitch_u32 k < 2 ^ 32 /\ fb_height k < 2 ^ 32.
Proof. intros [H1 H2 H3 -> -> _]. split_and!; try nia; Z.to_euclidean_division_equations; lia. Qed.

Lemma fb_store_run i v k :
  0 <= i < Z.of_nat (length (fb k)) -> Z.of_nat (length (fb k)) <= 2 ^ 32 ->
  fb_store i v k = Ok (tt, set_fb (<[Z.to_nat i := v]> (fb k)) k).
Proof.
  intros Hi Hl. unfold fb_store. rewrite u32_small by lia.
  destruct (lookup_lt_is_Some_2 (fb k) (Z.to_nat i)) as [x ->]; [lia|done].
Qed.

Lemma fill_row_run n base f k :
  0 <= base -> base + Z.of_nat n <= Z.of_nat (length (fb k)) -> Z.of_nat (length (fb k)) <= 2 ^ 32 ->
  wp (fill_row n base f) k (fun r k' => r = None /\ exists b, k' = set_fb b k /\ repainted k b /\
    forall i, 0 <= i -> b !! Z.to_nat i =
      if (base <=? i) && (i <? base + Z.of_nat n) then Some (f (i - base)) else fb k !! Z.to_nat i).
Proof.
  intros Hb Hn Hl. unfold fill_row.
  apply (wp_mfor _ (fun j k' => exists b, k' = set_fb b k /\ repainted k b /\
    forall i, 0 <= i -> b !! Z.to_nat i =
      if (base <=? i) && (i <? base + j) then Some (f (i - base)) else fb k !! Z.to_nat i)).
  - intros j k' Hj (b & -> & Hr & Hp). wp_step.
    eapply wp_run; [apply fb_store_run; cbn; rewrite Hr; lia|]. wp_step.
    exists (<[Z.to_nat (base + j) := f j]> b). split; [done|]. split; [by unfold repainted; rewrite length_insert|].
    intros i Hi. destruct (Z.eq_dec i (base + j)) as [->|Hne].
    + rewrite list_lookup_insert_eq by (rewrite Hr; lia).
      rewrite (proj2 (Z.leb_le _ _)), (proj2 (Z.ltb_lt _ _)) by lia. cbn [andb]. do 2 f_equal. lia.
    + rewrite list_lookup_insert_ne by lia. rewrite Hp by done.
      replace (i <? base + (j + 1)) with (i <? base + j); [done|].
      destruct (Z.ltb_spec i (base + j)), (Z.ltb_spec i (base + (j + 1))); lia.
  - intros k' (b & H). split; [done|]. by exists b.
  - exists (fb k). split; [by destruct k|]. split; [done|]. intros i Hi.
    rewrite andb_comm. destruct (Z.ltb_spec i (base + 0)), (Z.leb_spec base i); try lia; done.
Qed.

(** The same by coordinates: [n] pixels of line [Y0] from column [X0]. *)
Lemma fill_line n X0 Y0 f k P H :
  0 <= X0 -> 0 <= Y0 < H -> X0 + Z.of_nat n <= P -> H * P = Z.of_nat (length (fb k)) -> H * P <= 2 ^ 32 ->
  wp (fill_row n (Y0 * P + X0) f) k (fun r k' => r = None /\ exists b, k' = set_fb b k /\ repainted k b /\
    forall X Y, 0 <= X < P -> 0 <= Y -> pix b P X Y =
      if (Y =? Y0) && ((X0 <=? X) && (X <? X0 + Z.of_nat n)) then Some (f (X - X0)) else pix (fb k) P X Y).
Proof.
  intros HX HY HP HL Hs. assert (Y0 * P + P <= H * P) by nia.
  eapply wp_mono; [apply fill_row_run; nia|]. intros r k' (-> & b & -> & Hr & Hp). split; [done|].
  exists b. split_and!; [done|done|]. intros X Y HX' HY'. unfold pix. rewrite Hp by nia.
  replace ((Y0 * P + X0 <=? Y * P + X) && (Y * P + X <? Y0 * P + X0 + Z.of_nat n)) with
    ((Y =? Y0) && ((X0 <=? X) && (X <? X0 + Z.of_nat n))).
  - destruct (Z.eqb_spec Y Y0) as [->|]; [|done]. cbn [andb]. by replace (Y0 * P + X - (Y0 * P + X0)) with (X - X0) by lia.
  - destruct (Z.eqb_spec Y Y0) as [->|Hne]; cbn [andb].
    + f_equal; [destruct (Z.leb_spec X0 X), (Z.leb_spec (Y0 * P + X0) (Y0 * P + X))|
                destruct (Z.ltb_spec X (X0 + Z.of_nat n)), (Z.ltb_spec (Y0 * P + X) (Y0 * P + X0 + Z.of_nat n))]; lia.
    + symmetry. apply andb_false_iff. destruct (Z.leb_spec (Y0 * P + X0) (Y * P + X)); [right|by left].
      apply Z.ltb_ge. assert (Y0 < Y \/ Y < Y0) as [|] by lia; nia.
Qed.

(** ** Character cells *)

Record cell := Cell { c_ch : Z; c_fg : Z; c_bg : Z }.
Definition grid : Type := Z -> Z -> cell.

(** Eight glyph lines and a blank one. *)
Definition cell_pixel (c : cell) (x y : Z) : Z :=
  if y =? 8 then c_bg c
  else glyph_pixel ((font8x8 !!! Z.to_nat (Z.land (c_ch c) 127)) !!! Z.to_nat y) x (c_fg c) (c_bg c).

(** The framebuffer shows [g] (cells by row and column). *)
Definition shows (k : kcon) (g : grid) : Prop :=
  forall r c x y, 0 <= r < fb_rows k -> 0 <= c < fb_cols k -> 0 <= x < 8 -> 0 <= y < 9 ->
    pix (fb k) (fb_pitch_u32 k) (c * 8 + x) (r * 9 + y) = Some (cell_pixel (g r c) x y).

Definition set_cell (row col : Z) (v : cell) (g : grid) : grid :=
  fun r c => if (r =? row) && (c =? col) then v else g r c.
Definition blank (k : kcon) : cell := Cell 32 (fg_color k) (bg_color k).
(** Rows move up by one, the last one is blank. *)
Definition scrolled (rows : Z) (v : cell) (g : grid) : grid :=
  fun r c => if r =? rows - 1 then v else g (r + 1) c.

Lemma blank_pixel fg bg x y : 0 <= y < 9 -> cell_pixel (Cell 32 fg bg) x y = bg.
Proof.
  intros Hy. unfold cell_pixel. destruct (Z.eqb_spec y 8); [done|]. cbn [c_ch c_fg c_bg].
  change (font8x8 !!! Z.to_nat (Z.land 32 127)) with (replicate 8 0).
  rewrite lookup_total_replicate_2 by lia. done.
Qed.

(** Painting inside a rectangle. *)
Definition in_rect (X0 Y0 w h X Y : Z) : bool := ((X0 <=? X) && (X <? X0 + w)) && ((Y0 <=? Y) && (Y <? Y0 + h)).

Ltac ztest := repeat match goal with
  | |- context [?a =? ?b] => destruct (Z.eqb_spec a b)
  | |- context [?a <=? ?b] => destruct (Z.leb_spec a b)
  | |- context [?a <? ?b] => destruct (Z.ltb_spec a b)
  end; cbn [andb orb]; try lia; try done.

Lemma fb_draw_glyph_run col row ch k :
  geometry k -> 0 <= col < fb_cols k -> 0 <= row < fb_rows k -> 
  wp (fb_draw_glyph col row ch) k (fun _ k' => exists b, k' = set_fb b k /\ repainted k b /\
    forall X Y, 0 <= X < fb_pitch_u32 k -> 0 <= Y -> pix b (fb_pitch_u32 k) X Y =
      if in_rect (col * 8) (row * 9) 8 9 X Y
      then Some (cell_pixel (Cell ch (fg_color k) (bg_color k)) (X - col * 8) (Y - row * 9))
      else pix (fb k) (fb_pitch_u32 k) X Y).
Proof.
  intros Hg Hc Hr. destruct (geometry_grid k Hg) as (_ & _ & Hw & Hh & Hp32 & Hh32). pose proof Hg as [_ _ Hsz _ _ Hfb].
  set (P := fb_pitch_u32 k) in *. unfold fb_draw_glyph, FONT_W, FONT_H. rewrite !u32_small by lia.
  set (glyph := font8x8 !!! _). wp_step.
  apply (wp_mfor _ (fun y k' => exists b, k' = set_fb b k /\ repainted k b /\
    forall X Y, 0 <= X < P -> 0 <= Y -> pix b P X Y =
      if in_rect (col * 8) (row * 9) 8 y X Y
      then Some (cell_pixel (Cell ch (fg_color k) (bg_color k)) (X - col * 8) (Y - row * 9))
      else pix (fb k) P X Y)).
  - intros y k' Hy (b & -> & Hb & Hpx). unfold glyph_row. wp_step. wp_step. cbn [fb_pitch_u32 set_fb fg_color bg_color]. fold P.
    eapply wp_mono; [apply (fill_line 8 (col * 8) (row * 9 + y) _ (set_fb b k) P (fb_height k));
      cbn [fb set_fb]; try rewrite Hb; lia|].
    intros r k' (-> & b' & -> & Hb' & Hpx'). exists b'. split_and!; [done|by eapply repainted_trans|].
    intros X Y HX HY. rewrite Hpx' by done. cbn [fb set_fb]. rewrite Hpx by done.
    change (Z.of_nat 8) with 8 in *. unfold in_rect. destruct (Z.eqb_spec Y (row * 9 + y)) as [->|Hne]; cbn [andb].
    + destruct ((col * 8 <=? X) && (X <? col * 8 + 8)); cbn [andb]; [|done].
      rewrite (proj2 (Z.leb_le _ _)), (proj2 (Z.ltb_lt _ (row * 9 + (y + 1)))) by lia. cbn [andb].
      unfold cell_pixel. replace (row * 9 + y - row * 9) with y by lia. by rewrite (proj2 (Z.eqb_neq y 8)) by lia.
    + replace (Y <? row * 9 + (y + 1)) with (Y <? row * 9 + y); [done|].
      destruct (Z.ltb_spec Y (row * 9 + y)), (Z.ltb_spec Y (row * 9 + (y + 1))); lia.
  - intros k' (b & -> & Hb & Hpx). change (0 + Z.of_nat 8) with 8 in Hpx. wp_step. wp_step. wp_step.
    cbn [fb_pitch_u32 set_fb bg_color]. fold P.
    eapply wp_mono; [apply (fill_line 8 (col * 8) (row * 9 + 8) _ (set_fb b k) P (fb_height k));
      cbn [fb set_fb]; try rewrite Hb; lia|].
    intros r k' (-> & b' & -> & Hb' & Hpx'). wp_step. exists b'. split_and!; [done|by eapply repainted_trans|].
    intros X Y HX HY. rewrite Hpx' by done. cbn [fb set_fb]. rewrite Hpx by done.
    change (Z.of_nat 8) with 8. unfold in_rect. destruct (Z.eqb_spec Y (row * 9 + 8)) as [->|Hne]; cbn [andb].
    + destruct ((col * 8 <=? X) && (X <? col * 8 + 8)); cbn [andb]; [|done].
      rewrite (proj2 (Z.leb_le _ _)), (proj2 (Z.ltb_lt _ (row * 9 + 9))) by lia. cbn [andb].
      unfold cell_pixel. by replace (row * 9 + 8 - row * 9) with 8 by lia.
    + replace (Y <? row * 9 + 9) with (Y <? row * 9 + 8); [done|].
      destruct (Z.ltb_spec Y (row * 9 + 8)), (Z.ltb_spec Y (row * 9 + 9)); lia.
  - exists (fb k). split; [by destruct k|]. split; [done|]. intros X Y HX HY. unfold in_rect.
    replace ((row * 9 <=? Y) && (Y <? row * 9 + 0)) with false; [by rewrite andb_false_r|].
    destruct (Z.leb_spec (row * 9) Y), (Z.ltb_spec Y (row * 9 + 0)); lia || done.
Qed.

(** [pos] lines, counted from the top, have moved up by one character row. *)
Definition moved_up (k : kcon) (lines : Z) (b : list Z) : Prop :=
  repainted k b /\
  forall X Y, 0 <= X < fb_pitch_u32 k -> 0 <= Y -> pix b (fb_pitch_u32 k) X Y =
    if (X <? fb_cols k * 8) && (Y <? lines) then pix (fb k) (fb_pitch_u32 k) X (Y + 9)
    else pix (fb k) (fb_pitch_u32 k) X Y.

Lemma pix_defined k b X Y H : repainted k b -> Z.of_nat (length (fb k)) = H * fb_pitch_u32 k ->
  0 <= X < fb_pitch_u32 k -> 0 <= Y < H -> exists v, pix b (fb_pitch_u32 k) X Y = Some v /\
  0 <= Y * fb_pitch_u32 k + X < Z.of_nat (length b).
Proof.
  intros Hb Hl HX HY. assert (0 <= Y * fb_pitch_u32 k + X < H * fb_pitch_u32 k) by nia. unfold pix.
  destruct (lookup_lt_is_Some_2 b (Z.to_nat (Y * fb_pitch_u32 k + X))) as [v Hv]; [rewrite Hb; lia|].
  exists v. split; [done|]. rewrite Hb. lia.
Qed.

Lemma scroll_line_run k r y b :
  geometry k -> 1 <= r < fb_rows k -> 0 <= y < 9 -> moved_up k ((r - 1) * 9 + y) b ->
  wp (scroll_line r y) (set_fb b k) (fun res k' => res = None /\
    exists b', k' = set_fb b' k /\ moved_up k ((r - 1) * 9 + (y + 1)) b').
Proof.
  intros Hg Hr Hy [Hb Hpx]. destruct (geometry_grid k Hg) as (Hc1 & _ & Hw & Hh & Hp32 & Hh32).
  pose proof Hg as [_ _ Hsz _ _ Hfb]. set (P := fb_pitch_u32 k) in *. set (L := (r - 1) * 9 + y) in *.
  unfold scroll_line. wp_step. wp_step. cbn [fb_pitch_u32 fb_cols set_fb]. fold P. unfold FONT_H, FONT_W. fold L.
  replace (r * 9 + y) with (L + 9) by (unfold L; lia).
  apply (wp_mfor _ (fun x k' => exists b', k' = set_fb b' k /\ repainted k b' /\
    forall X Y, 0 <= X < P -> 0 <= Y -> pix b' P X Y =
      if (Y =? L) && (X <? x) then pix (fb k) P X (Y + 9) else pix b P X Y)).
  - intros x k' Hx (b' & -> & Hb' & Hpx').
    destruct (pix_defined k b' x (L + 9) (fb_height k) Hb' Hfb) as (v & Hv & Hvi); [lia|unfold L; lia|]. fold P in Hv, Hvi.
    destruct (pix_defined k b' x L (fb_height k) Hb' Hfb) as (w & _ & Hwi); [lia|unfold L; lia|]. fold P in Hwi.
    assert (pix (fb k) P x (L + 9) = Some v) as Hv0.
    { rewrite <- Hv, Hpx', Hpx by lia. rewrite (proj2 (Z.eqb_neq _ _)) by lia. cbn [andb].
      rewrite (proj2 (Z.ltb_ge (L + 9) L)), andb_false_r by lia. done. }
    wp_step. eapply wp_run.
    { unfold fb_load. rewrite u32_small by (rewrite Hb' in Hvi; lia). cbn [fb set_fb]. unfold pix in Hv. by rewrite Hv. }
    wp_step. eapply wp_run; [apply fb_store_run; cbn [fb set_fb]; rewrite Hb' in *; lia|]. wp_step.
    exists (<[Z.to_nat (L * P + x) := v]> b'). split; [done|]. split; [unfold repainted; by rewrite length_insert|].
    intros X Y HX HY. cbn [fb set_fb]. unfold pix at 1. destruct (Z.eq_dec (Y * P + X) (L * P + x)) as [E|Hne].
    + assert (Y = L /\ X = x) as [-> ->] by (destruct (Z_lt_le_dec Y L), (Z_lt_le_dec L Y); nia).
      rewrite list_lookup_insert_eq by lia. rewrite Z.eqb_refl, (proj2 (Z.ltb_lt _ _)) by lia. done.
    + rewrite list_lookup_insert_ne by nia. fold (pix b' P X Y). rewrite Hpx' by done.
      destruct (Z.eqb_spec Y L) as [->|]; [|done]. cbn [andb].
      replace (X <? x + 1) with (X <? x); [done|]. destruct (Z.ltb_spec X x), (Z.ltb_spec X (x + 1)); nia.
  - intros k' (b' & -> & Hb' & Hpx'). split; [done|]. exists b'. split; [done|]. split; [done|]. fold P. intros X Y HX HY.
    rewrite Hpx' by done. rewrite Z2Nat.id, Z.add_0_l by lia. rewrite Hpx by done.
    destruct (Z.eqb_spec Y L) as [->|Hne]; cbn [andb].
    + rewrite (proj2 (Z.ltb_ge L L)), (proj2 (Z.ltb_lt L _)), andb_true_r, andb_false_r by (unfold L; lia). done.
    + replace (Y <? (r - 1) * 9 + (y + 1)) with (Y <? L); [done|].
      destruct (Z.ltb_spec Y L), (Z.ltb_spec Y ((r - 1) * 9 + (y + 1))); unfold L in *; lia.
  - exists b. split; [done|]. split; [done|]. intros X Y HX HY.
    by rewrite (proj2 (Z.ltb_ge X 0)), andb_false_r by lia.
Qed.

(** Blank lines from [Y0] on, [W] pixels wide. *)
Lemma fill_lines n W Y0 v k :
  geometry k -> 0 <= W <= fb_pitch_u32 k -> 0 <= Y0 -> Y0 + Z.of_nat n <= fb_height k ->
  wp (mfor n (fun y => fill_row (Z.to_nat W) ((Y0 + y) * fb_pitch_u32 k) (fun _ => v)) 0) k (fun _ k' =>
    exists b, k' = set_fb b k /\ repainted k b /\
    forall X Y, 0 <= X < fb_pitch_u32 k -> 0 <= Y -> pix b (fb_pitch_u32 k) X Y =
      if in_rect 0 Y0 W (Z.of_nat n) X Y then Some v else pix (fb k) (fb_pitch_u32 k) X Y).
Proof.
  intros Hg HW HY0 Hn. pose proof Hg as [_ _ Hsz _ _ Hfb]. set (P := fb_pitch_u32 k) in *.
  apply (wp_mfor _ (fun y k' => exists b, k' = set_fb b k /\ repainted k b /\
    forall X Y, 0 <= X < P -> 0 <= Y -> pix b P X Y =
      if in_rect 0 Y0 W y X Y then Some v else pix (fb k) P X Y)).
  - intros y k' Hy (b & -> & Hb & Hpx). rewrite <- (Z.add_0_r ((Y0 + y) * P)).
    eapply wp_mono; [apply (fill_line (Z.to_nat W) 0 (Y0 + y) _ (set_fb b k) P (fb_height k));
      cbn [fb set_fb]; try rewrite Hb; lia|].
    intros r k' (-> & b' & -> & Hb' & Hpx'). exists b'. split_and!; [done|by eapply repainted_trans|].
    intros X Y HX HY. rewrite Hpx' by done. cbn [fb set_fb]. rewrite Hpx by done. rewrite Z2Nat.id by lia.
    unfold in_rect. destruct (Z.eqb_spec Y (Y0 + y)) as [->|Hne]; cbn [andb].
    + destruct ((0 <=? X) && (X <? 0 + W)); cbn [andb]; [|done].
      by rewrite (proj2 (Z.leb_le _ _)), (proj2 (Z.ltb_lt _ (Y0 + (y + 1)))) by lia.
    + replace (Y <? Y0 + (y + 1)) with (Y <? Y0 + y); [done|].
      destruct (Z.ltb_spec Y (Y0 + y)), (Z.ltb_spec Y (Y0 + (y + 1))); lia.
  - intros k' H. exact H.
  - exists (fb k). split; [by destruct k|]. split; [done|]. intros X Y HX HY. unfold in_rect.
    replace ((Y0 <=? Y) && (Y <? Y0 + 0)) with false; [by rewrite andb_false_r|].
    destruct (Z.leb_spec Y0 Y), (Z.ltb_spec Y (Y0 + 0)); lia || done.
Qed.

Lemma fb_scroll_run k g :
  geometry k -> shows k g ->
  wp fb_scroll k (fun _ k' => exists b, k' = set_fb b k /\ repainted k b /\
    shows (set_fb b k) (scrolled (fb_rows k) (blank k) g)).
Proof.
  intros Hg Hs. destruct (geometry_grid k Hg) as (Hc1 & Hr1 & Hw & Hh & Hp32 & Hh32).
  unfold fb_scroll. wp_step. wp_step. wp_step.
  apply (wp_mfor _ (fun r k' => exists b, k' = set_fb b k /\ moved_up k ((r - 1) * 9) b)).
  - intros r k' Hr (b & -> & Hm).
    apply (wp_mfor _ (fun y k' => exists b, k' = set_fb b k /\ moved_up k ((r - 1) * 9 + y) b)).
    + intros y k' Hy (b' & -> & Hm'). unfold FONT_H in Hy.
      eapply wp_mono; [apply scroll_line_run; [done|lia|lia|done]|]. by intros res k' [-> H].
    + intros k' (b' & -> & Hm'). exists b'. split; [done|].
      replace ((r + 1 - 1) * 9) with ((r - 1) * 9 + (0 + Z.of_nat (Z.to_nat FONT_H))) by (change (Z.of_nat (Z.to_nat FONT_H)) with 9; lia). done.
    + exists b. by rewrite Z.add_0_r.
  - intros k' (b & -> & [Hb Hpx]). rewrite Z2Nat.id in Hpx by lia.
    replace (1 + (fb_rows k - 1) - 1) with (fb_rows k - 1) in Hpx by lia. cbn zeta. unfold FONT_H, FONT_W.
    rewrite (u32_small (fb_rows k - 1)), u32_small by lia. wp_step. eapply wp_mono.
    + apply (fill_lines 9 (fb_cols k * 8) ((fb_rows k - 1) * 9) (bg_color k) (set_fb b k));
        [by apply geometry_set_fb|cbn; lia|cbn; lia|cbn; lia].
    + intros r k' (b' & -> & Hb' & Hpx'). wp_step. exists b'. split_and!; [done|by eapply repainted_trans|].
      cbn [fb_pitch_u32 set_fb fb fb_cols] in Hpx'.
      intros row c x y Hrow Hcc Hx Hy. cbn [fb_rows set_fb fb_cols fb fb_pitch_u32] in *.
      rewrite Hpx', Hpx by lia. unfold in_rect, scrolled. change (Z.of_nat 9) with 9.
      rewrite (proj2 (Z.leb_le 0 _)), (proj2 (Z.ltb_lt _ (0 + _))) by lia. cbn [andb].
      rewrite (proj2 (Z.ltb_lt _ (fb_cols k * 8))) by lia. cbn [andb].
      destruct (Z.eqb_spec row (fb_rows k - 1)) as [->|Hne].
      * rewrite (proj2 (Z.leb_le _ _)), (proj2 (Z.ltb_lt _ _)) by lia. unfold blank. by rewrite blank_pixel.
      * rewrite (proj2 (Z.leb_gt _ _)) by lia. cbn [andb]. rewrite (proj2 (Z.ltb_lt _ _)) by lia.
        replace (row * 9 + y + 9) with ((row + 1) * 9 + y) by lia. apply Hs; lia.
  - exists (fb k). split; [by destruct k|]. split; [done|]. intros X Y HX HY.
    by rewrite (proj2 (Z.ltb_ge Y _)), andb_false_r by lia.
Qed.

(** ** The console against a terminal of character cells *)

Record kinv (k : kcon) : Prop := {
  inv_geo : geometry k;
  inv_ready : fb_ready k = 1;
  inv_col : 0 <= cur_col k < fb_cols k;
  inv_row : 0 <= cur_row k < fb_rows k;
  inv_params : length (esc_params k) = 8%nat;
  inv_nparam : 0 <= esc_nparam k /\ (esc_state k = ESC_BRACKET -> esc_nparam k <= 7)
}.

(** The next row, scrolling at the bottom. *)
Definition row_step (k : kcon) (g : grid) : grid :=
  if fb_rows k <=? cur_row k + 1 then scrolled (fb_rows k) (blank k) g else g.

(** What one byte does to the cells ... *)
Definition grid_step (k : kcon) (c : Z) (g : grid) : grid :=
  let c := i8 c in
  if negb (esc_state k =? ESC_NONE) then g
  else if (u8 c =? 27) || (c =? 13) then g
  else if c =? 10 then row_step k g
  else if c =? 8 then if 0 <? cur_col k then set_cell (cur_row k) (cur_col k - 1) (blank k) g else g
  else if (c <? 32) || (126 <? c) then g
  else
    let g := set_cell (cur_row k) (cur_col k) (Cell c (fg_color k) (bg_color k)) g in
    if fb_cols k <=? cur_col k + 1 then row_step k g else g.

(** ... and to the cursor (column, row). *)
Definition cursor_step (k : kcon) (c : Z) : Z * Z :=
  let c := i8 c in
  let next := (0, Z.min (cur_row k + 1) (fb_rows k - 1)) in
  if negb (esc_state k =? ESC_NONE) then (cur_col k, cur_row k)
  else if u8 c =? 27 then (cur_col k, cur_row k)
  else if c =? 13 then (0, cur_row k)
  else if c =? 10 then next
  else if c =? 8 then (Z.max 0 (cur_col k - 1), cur_row k)
  else if (c <? 32) || (126 <? c) then (cur_col k, cur_row k)
  else if fb_cols k <=? cur_col k + 1 then next else (cur_col k + 1, cur_row k).

(** The escape parser's states are the three of the source. *)
Definition esc_ok (k : kcon) : Prop :=
  esc_state k = ESC_NONE \/ esc_state k = ESC_ESC \/ esc_state k = ESC_BRACKET.

Lemma shows_cell k b g row col ch :
  geometry k -> 0 <= col < fb_cols k -> 0 <= row < fb_rows k -> shows k g ->
  (forall X Y, 0 <= X < fb_pitch_u32 k -> 0 <= Y -> pix b (fb_pitch_u32 k) X Y =
      if in_rect (col * 8) (row * 9) 8 9 X Y
      then Some (cell_pixel (Cell ch (fg_color k) (bg_color k)) (X - col * 8) (Y - row * 9))
      else pix (fb k) (fb_pitch_u32 k) X Y) ->
  shows (set_fb b k) (set_cell row col (Cell ch (fg_color k) (bg_color k)) g).
Proof.
  intros Hg Hc Hr Hs Hpx r c x y Hr' Hc' Hx Hy. destruct (geometry_grid k Hg) as (_ & _ & Hw & _).
  cbn [fb set_fb fb_rows fb_cols fb_pitch_u32] in *. rewrite Hpx by lia. unfold in_rect, set_cell.
  destruct (Z.eqb_spec r row) as [->|Hne1]; [destruct (Z.eqb_spec c col) as [->|Hne2]|]; cbn [andb].
  - rewrite !(proj2 (Z.leb_le _ _)), !(proj2 (Z.ltb_lt _ _)) by lia. cbn [andb].
    replace (col * 8 + x - col * 8) with x by lia. by replace (row * 9 + y - row * 9) with y by lia.
  - replace ((col * 8 <=? c * 8 + x) && (c * 8 + x <? col * 8 + 8)) with false; [by apply Hs|].
    destruct (Z.leb_spec (col * 8) (c * 8 + x)), (Z.ltb_spec (c * 8 + x) (col * 8 + 8)); lia || done.
  - replace ((row * 9 <=? r * 9 + y) && (r * 9 + y <? row * 9 + 9)) with false; [rewrite andb_false_r; by apply Hs|].
    destruct (Z.leb_spec (row * 9) (r * 9 + y)), (Z.ltb_spec (r * 9 + y) (row * 9 + 9)); lia || done.
Qed.

Lemma next_row_run k g :
  geometry k -> 0 <= cur_row k < fb_rows k -> shows k g ->
  wp next_row k (fun _ k' => exists b, repainted k b /\
    k' = set_cursor 0 (Z.min (cur_row k + 1) (fb_rows k - 1)) (set_fb b k) /\ shows (set_fb b k) (row_step k g)).
Proof.
  intros Hg Hr Hs. destruct (geometry_grid k Hg) as (_ & Hr1 & _ & Hh & _ & Hh32).
  unfold next_row, row_step. wp_step. wp_step. wp_step. wp_step. cbn [fb_rows cur_row set_cursor].
  rewrite u32_small by lia. destruct (Z.leb_spec (fb_rows k) (cur_row k + 1)) as [Hge|Hlt].
  - wp_step. eapply wp_mono; [apply (fb_scroll_run (set_cursor 0 (cur_row k + 1) k) g); [by apply geometry_cursor|exact Hs]|].
    intros _ k' (b & -> & Hb & Hsh). wp_step. cbn. rewrite u32_small by lia. exists b. split; [done|].
    rewrite Z.min_r by lia. split; [done|exact Hsh].
  - wp_step. exists (fb k). rewrite Z.min_l by lia. split; [done|]. split; [by destruct k|]. by destruct k.
Qed.

(** Steps of the escape parser touch neither pixels nor the cursor. *)
Definition same_screen (k k' : kcon) : Prop :=
  fb k' = fb k /\ fb_width k' = fb_width k /\ fb_height k' = fb_height k /\ fb_pitch_u32 k' = fb_pitch_u32 k /\
  fb_cols k' = fb_cols k /\ fb_rows k' = fb_rows k /\ cur_col k' = cur_col k /\ cur_row k' = cur_row k /\
  fb_ready k' = fb_ready k /\ fg_default k' = fg_default k /\ bg_default k' = bg_default k.

Lemma same_screen_shows k k' g : same_screen k k' -> shows k g -> shows k' g.
Proof. intros (E1 & _ & _ & E2 & E3 & E4 & _). unfold shows. by rewrite E1, E2, E3, E4. Qed.

Lemma same_screen_inv k k' : same_screen k k' -> kinv k ->
  length (esc_params k') = 8%nat -> 0 <= esc_nparam k' -> (esc_state k' = ESC_BRACKET -> esc_nparam k' <= 7) -> kinv k'.
Proof.
  intros (E1 & E2 & E3 & E4 & E5 & E6 & E7 & E8 & E9 & _) [[G1 G2 G3 G4 G5 G6] H2 H3 H4 H5 H6] Hp Hn Hb.
  split; try congruence; [split; congruence|done].
Qed.

(** What [fb_apply_sgr] does to the colours. *)
Definition sgr (ps : list Z) (fgd bgd : Z) (c : Z * Z) : Z * Z := foldl (fun c p => sgr_param p fgd bgd c) c ps.

Lemma fb_apply_sgr_run k :
  length (esc_params k) = 8%nat -> 1 <= esc_nparam k <= 8 ->
  wp fb_apply_sgr k (fun _ k' => same_screen k k' /\ esc_state k' = esc_state k /\
    esc_params k' = esc_params k /\ esc_nparam k' = esc_nparam k /\
    (fg_color k', bg_color k') =
      sgr (take (Z.to_nat (esc_nparam k)) (esc_params k)) (fg_default k) (bg_default k) (fg_color k, bg_color k)).
Proof.
  intros Hl Hn. unfold fb_apply_sgr. wp_step. wp_step. rewrite (proj2 (Z.eqb_neq _ _)) by lia.
  wp_step. wp_step. wp_step. wp_step. wp_step.
  apply (wp_mfor _ (fun i k' => same_screen k k' /\ esc_state k' = esc_state k /\
    esc_params k' = esc_params k /\ esc_nparam k' = esc_nparam k /\
    (fg_color k', bg_color k') =
      sgr (take (Z.to_nat i) (esc_params k)) (fg_default k) (bg_default k) (fg_color k, bg_color k))).
  - intros i k' Hi (Hs & E1 & E2 & E3 & E4). unfold sgr_body.
    destruct (lookup_lt_is_Some_2 (esc_params k) (Z.to_nat i)) as [p Hp]; [lia|].
    wp_step. eapply wp_run; [unfold param_load; by rewrite E2, Hp|]. wp_step. wp_step. wp_step.
    pose proof Hs as (_ & _ & _ & _ & _ & _ & _ & _ & _ & -> & ->).
    replace (Z.to_nat (i + 1)) with (S (Z.to_nat i)) by lia. erewrite take_S_r by done.
    unfold sgr. rewrite foldl_app. cbn [foldl]. fold (sgr (take (Z.to_nat i) (esc_params k)) (fg_default k) (bg_default k) (fg_color k, bg_color k)).
    rewrite <- E4. destruct (sgr_param p _ _ _) as [fg bg]. done.
  - intros k' H. wp_step. by rewrite Z.add_0_l, Z2Nat.id in H by lia.
  - by rewrite take_0.
Qed.

Lemma esc_byte_run c k :
  kinv k -> esc_state k = ESC_BRACKET ->
  wp (esc_byte c) k (fun _ k' => kinv k' /\ same_screen k k' /\ esc_ok k').
Proof.
  intros Hk Hst. pose proof Hk as [_ _ _ _ Hl [Hn0 Hn]]. specialize (Hn Hst). unfold esc_byte. wp_step. wp_step.
  assert (forall v p (k0 : kcon), length (esc_params k0) = 8%nat -> 0 <= p <= 7 ->
    param_store p v k0 = Ok (tt, set_esc (esc_state k0) (<[Z.to_nat p := v]> (esc_params k0)) (esc_nparam k0) k0)) as Hst'.
  { intros v p k0 H0 Hp. unfold param_store. destruct (lookup_lt_is_Some_2 (esc_params k0) (Z.to_nat p)) as [? ->]; [lia|done]. }
  wp_step; [|wp_step].
  - wp_step. destruct (lookup_lt_is_Some_2 (esc_params k) (Z.to_nat (esc_nparam k))) as [p Hp]; [lia|].
    eapply wp_run; [unfold param_load; by rewrite Hp|]. eapply wp_run; [apply Hst'; lia|].
    split_and!; [|by split_and!|by right; right].
    apply (same_screen_inv k); cbn; rewrite ?length_insert; [by split_and!|done|done|done|done].
  - wp_step. wp_step. wp_step. wp_step. cbn [esc_nparam set_esc].
    eapply wp_run; [apply Hst'; [done|destruct (Z.ltb_spec (esc_nparam k) 7); lia]|].
    split_and!; [|by split_and!|by right; right].
    apply (same_screen_inv k); cbn; rewrite ?length_insert; [by split_and!|done|done|..];
      destruct (Z.ltb_spec (esc_nparam k) 7); lia.
  - wp_step. wp_step. rewrite u8_small by lia. set (k1 := set_esc _ _ _ k). wp_step.
    assert (wp (if c =? 109 then fb_apply_sgr else mret tt) k1 (fun _ k' => same_screen k k' /\
      esc_params k' = esc_params k /\ 0 <= esc_nparam k')) as Hw.
    { destruct (c =? 109).
      - eapply wp_mono; [apply fb_apply_sgr_run; cbn; [done|lia]|]. intros _ k' (Hs & _ & E2 & E3 & _). cbn in *.
        split_and!; [exact Hs|done|lia].
      - wp_step. split_and!; [by split_and!|done|cbn; lia]. }
    eapply wp_mono; [exact Hw|]. intros _ k' (Hs & E2 & E3). wp_step.
    assert (same_screen k (set_esc ESC_NONE (esc_params k') (esc_nparam k') k')) as Hs' by exact Hs.
    split_and!; [|done|by left]. apply (same_screen_inv k); [done|done|cbn; by rewrite E2|done|done].
Qed.

Lemma same_screen_steps k c g : esc_state k <> ESC_NONE ->
  grid_step k c g = g /\ cursor_step k c = (cur_col k, cur_row k).
Proof. intros H. unfold grid_step, cursor_step. by rewrite (proj2 (Z.eqb_neq _ _) H). Qed.

(** Repainting and moving the cursor keep the invariant. *)
Lemma kinv_move k b col row :
  kinv k -> repainted k b -> 0 <= col < fb_cols k -> 0 <= row < fb_rows k -> kinv (set_cursor col row (set_fb b k)).
Proof.
  intros [Hg H2 H3 H4 H5 H6] Hb Hc Hr. split; try done. apply geometry_cursor. by apply geometry_set_fb.
Qed.

Lemma kinv_esc k st ps n : kinv k -> length ps = 8%nat -> 0 <= n -> (st = ESC_BRACKET -> n <= 7) ->
  kinv (set_esc st ps n k).
Proof. intros Hk Hp Hn Hst. by apply (same_screen_inv k); [by split_and!|..]. Qed.

Lemma kconsole_putc_run c k g :
  kinv k -> esc_ok k -> shows k g ->
  wp (kconsole_putc c) k (fun _ k' => kinv k' /\ esc_ok k' /\ shows k' (grid_step k c g) /\
    (cur_col k', cur_row k') = cursor_step k c).
Proof.
  intros Hk He Hs. pose proof Hk as [Hg Hready Hcol Hrow Hl [Hn0 Hn]].
  destruct (geometry_grid k Hg) as (Hc1 & Hr1 & Hw & Hh & Hp32 & Hh32).
  unfold kconsole_putc. wp_step. wp_step. rewrite Hready. cbn [Z.eqb].
  destruct (Z.eqb_spec (esc_state k) ESC_ESC) as [E1|E1]; [|destruct (Z.eqb_spec (esc_state k) ESC_BRACKET) as [E2|E2]].
  - destruct (same_screen_steps k c g) as [-> ->]; [by rewrite E1|]. wp_step; repeat wp_step.
    + destruct (lookup_lt_is_Some_2 (esc_params k) 0) as [p Hp]; [lia|].
      eapply wp_run; [unfold param_store; change (Z.to_nat 0) with 0%nat; cbn [esc_params set_esc]; by rewrite Hp|].
      split_and!; [apply kinv_esc; [|cbn; by rewrite length_insert|done|done]|by right; right|exact Hs|done].
      by apply kinv_esc.
    + split_and!; [by apply kinv_esc|by left|exact Hs|done].
  - destruct (same_screen_steps k c g) as [-> ->]; [by rewrite E2|].
    eapply wp_mono; [by apply esc_byte_run|]. intros _ k' (H1 & H2 & H3).
    split_and!; [done|done|by eapply same_screen_shows|]. by destruct H2 as (_ & _ & _ & _ & _ & _ & -> & -> & _).
  - assert (esc_state k = ESC_NONE) as E0 by (by destruct He as [?|[?|?]]).
    unfold grid_step, cursor_step. rewrite E0. cbn [Z.eqb ESC_NONE negb]. set (ch := i8 c).
    destruct (Z.eqb_spec (u8 ch) 27) as [E|E]; cbn [orb].
    { wp_step. split_and!; [by apply kinv_esc|by right; left|exact Hs|done]. }
    destruct (Z.eqb_spec ch 13) as [E3|E3].
    { wp_step. split_and!; [|by left|exact Hs|done]. apply (kinv_move k (fb k)); [done|done|lia|done]. }
    destruct (Z.eqb_spec ch 10) as [E4|E4].
    { eapply wp_mono; [by apply (next_row_run k g)|]. intros _ k' (b & Hb & -> & Hsh).
      split_and!; [|by left|exact Hsh|done]. apply kinv_move; [done|done|lia|lia]. }
    destruct (Z.eqb_spec ch 8) as [E5|E5].
    { destruct (Z.ltb_spec 0 (cur_col k)) as [Hpos|Hz].
      - wp_step. wp_step. eapply wp_mono.
        + apply (fb_draw_glyph_run _ _ _ (set_cursor (cur_col k - 1) (cur_row k) k)); [by apply geometry_cursor|cbn; lia|cbn; lia].
        + intros _ k' (b & -> & Hb & Hpx). rewrite Z.max_r by lia.
          split_and!; [apply (kinv_move k b (cur_col k - 1) (cur_row k)); [done|done|lia|done]|by left| |done].
          unfold blank. exact (shows_cell k b g (cur_row k) (cur_col k - 1) 32 Hg ltac:(lia) Hrow Hs Hpx).
      - wp_step. rewrite Z.max_l by lia. split_and!; [done|by left|done|]. f_equal. lia. }
    destruct ((ch <? 32) || (126 <? ch)) eqn:Ep; [by wp_step|]. apply orb_false_iff in Ep as [Ep1%Z.ltb_ge Ep2%Z.ltb_ge].
    wp_step. eapply wp_mono; [by apply fb_draw_glyph_run|]. intros _ k' (b & -> & Hb & Hpx).
    wp_step. wp_step. wp_step. wp_step. cbn [cur_col set_cursor set_fb fb_cols cur_row]. rewrite u8_small, u32_small in * by lia.
    pose proof (shows_cell k b g _ _ ch Hg Hcol Hrow Hs Hpx) as Hs'.
    destruct (Z.leb_spec (fb_cols k) (cur_col k + 1)) as [Hge|Hlt].
    + eapply wp_mono.
      * apply (next_row_run (set_cursor (cur_col k + 1) (cur_row k) (set_fb b k)));
          [by apply geometry_cursor, geometry_set_fb|exact Hrow|exact Hs'].
      * intros _ k' (b' & Hb' & -> & Hsh). split_and!; [|by left|exact Hsh|done].
        apply (kinv_move k b' 0 (Z.min (cur_row k + 1) (fb_rows k - 1))); [done|by eapply repainted_trans|lia|cbn; lia].
    + wp_step. split_and!; [apply (kinv_move k b (cur_col k + 1) (cur_row k)); [done|done|lia|done]|by left|exact Hs'|done].
Qed.

(** ** Strings of bytes *)

Fixpoint kputs (bs : list Z) : M kcon unit :=
  match bs with [] => mret tt | c :: bs' => kconsole_putc c;; kputs bs' end.

Lemma kputs_cons c bs k k1 : kconsole_putc c k = Ok (tt, k1) -> kputs (c :: bs) k = kputs bs k1.
Proof. intros E. cbn [kputs]. unfold mbind, M_bind. by rewrite E. Qed.

Lemma kputs_app as_ bs k k1 : kputs as_ k = Ok (tt, k1) -> kputs (as_ ++ bs) k = kputs bs k1.
Proof.
  revert k. induction as_ as [|a as_ IH]; intros k; cbn [app kputs]; [by intros [= ->]|].
  unfold mbind, M_bind. destruct (kconsole_putc a k) as [[[] k2]|w]; [apply IH|done].
Qed.

Lemma kputs_ok bs k g :
  kinv k -> esc_ok k -> shows k g -> wp (kputs bs) k (fun _ k' => kinv k' /\ esc_ok k' /\ exists g', shows k' g').
Proof.
  revert k g. induction bs as [|c bs IH]; intros k g Hk He Hs; cbn [kputs].
  - wp_step. split_and!; [done|done|by exists g].
  - wp_step. eapply wp_mono; [by apply (kconsole_putc_run c k g)|]. intros _ k' (H1 & H2 & H3 & _). by eapply IH.
Qed.

Lemma kconsole_init_run pixels width height pitch k :
  8 <= width -> 9 <= height < 2 ^ 32 -> width <= pitch / 4 < 2 ^ 32 -> height * (pitch / 4) <= 2 ^ 32 ->
  Z.of_nat (length pixels) = height * (pitch / 4) ->
  length (esc_params k) = 8%nat -> esc_state k = ESC_NONE -> 0 <= esc_nparam k ->
  wp (kconsole_init pixels width height pitch) k (fun _ k' =>
    kinv k' /\ esc_ok k' /\ cur_col k' = 0 /\ cur_row k' = 0 /\ shows k' (fun _ _ => blank k')).
Proof.
  intros Hw Hh Hp Hs Hl He1 He2 He3. unfold kconsole_init, kconsole_clear. wp_step. apply wp_modify. wp_step. wp_step.
  rewrite !u32_small by lia. set (k1 := Kcon pixels _ _ _ _ _ _ _ _ _ _ _ _ _ _ _). cbn [fb_ready].
  wp_step; [done|]. wp_step.
  assert (geometry k1) as Hg by (split; cbn; unfold FONT_W, FONT_H; lia).
  destruct (geometry_grid k1 Hg) as (Hc1 & Hr1 & Hcw & Hrh & _).
  change (fb_height k1) with height. change (fb_width k1) with width. change (bg_color k1) with (bg_color k).
  pose proof (fill_lines (Z.to_nat height) width 0 (bg_color k) k1 Hg) as Hf.
  eapply wp_mono; [apply Hf; cbn; lia|]. intros r k' (b & -> & Hb & Hpx). wp_step.
  split_and!; [|by left|done|done|].
  - split; [by apply geometry_cursor, geometry_set_fb|done|cbn in *; lia|cbn in *; lia|done|]. cbn. rewrite He2. done.
  - intros row c x y Hrow Hcol Hx Hy. cbn [fb_rows fb_cols set_cursor set_fb fb fb_pitch_u32] in *.
    change (fb_cols k1) with (width / 8) in *. change (fb_rows k1) with (height / 9) in *.
    change (fb_pitch_u32 k1) with (pitch / 4) in *. change (fb_height k1) with height in *.
    rewrite Hpx by lia. unfold in_rect. rewrite Z2Nat.id by lia.
    assert (c * 8 + x < width) by (Z.to_euclidean_division_equations; lia).
    assert (row * 9 + y < height) by (Z.to_euclidean_division_equations; lia).
    rewrite !(proj2 (Z.leb_le _ _)), !(proj2 (Z.ltb_lt _ _)) by lia. cbn [andb]. unfold blank. by rewrite blank_pixel.
Qed.

(** *** Colour escapes *)

Definition show_params (ps : list Z) : list Z := 
  match ps with
  | [] => []
  | p :: ps => (dec_char <$> digits 10 p) ++ concat ((fun p => 59 :: (dec_char <$> digits 10 p)) <$> ps)
  end.
(** ESC [ p1 ; ... ; pn m *)
Definition sgr_escape (ps : list Z) : list Z := [27; 91] ++ show_params ps ++ [109].

Lemma putc_bracket c k : fb_ready k = 1 -> esc_state k = ESC_BRACKET -> kconsole_putc c k = esc_byte (i8 c) k.
Proof. intros H1 H2. unfold kconsole_putc, mbind at 1, M_bind at 1, mget. by rewrite H1, H2. Qed.

Lemma i8_small c : 0 <= c < 128 -> i8 c = c.
Proof.
  intros H. unfold i8, to_signed. rewrite Z.mod_small by lia. by rewrite (proj2 (Z.ltb_lt _ _)) by lia.
Qed.

Definition params_at (k : kcon) (n : Z) (p : Z) : Prop :=
  fb_ready k = 1 /\ esc_state k = ESC_BRACKET /\ esc_nparam k = n /\ 0 <= n < 8 /\
  length (esc_params k) = 8%nat /\ esc_params k !! Z.to_nat n = Some p.

Definition put_param (n p : Z) (k : kcon) : kcon := set_esc ESC_BRACKET (<[Z.to_nat n := p]> (esc_params k)) n k.

Lemma put_param_at n p q k : params_at k n q -> params_at (put_param n p k) n p.
Proof.
  intros (H1 & H2 & H3 & H4 & H5 & H6). split_and!; try done; cbn; try lia.
  - by rewrite length_insert.
  - rewrite list_lookup_insert_eq; [done|lia].
Qed.

Lemma feed_digits ds a n k :
  params_at k n a -> 0 <= a -> Forall (fun d => 0 <= d < 10) ds ->
  fold_left (fun a d => a * 10 + d) ds a < 2 ^ 32 ->
  kputs (dec_char <$> ds) k = Ok (tt, put_param n (fold_left (fun a d => a * 10 + d) ds a) k).
Proof.
  intros Hk Ha Hds. revert a k Hk Ha. induction Hds as [|d ds Hd Hds IH]; intros a k Hk Ha Hlt.
  - cbn. destruct Hk as (H1 & H2 & <- & H4 & H5 & H6). unfold put_param. rewrite list_insert_id by done.
    rewrite <- H2. by destruct k.
  - pose proof (fold_ge ds (a * 10 + d) ltac:(lia) Hds) as Hge. cbn [fold_left] in Hlt.
    change (dec_char <$> d :: ds) with (48 + d :: (dec_char <$> ds)).
    pose proof Hk as (H1 & H2 & H3 & H4 & H5 & H6).
    erewrite kputs_cons.
    2:{ rewrite putc_bracket, i8_small by (done || lia). unfold esc_byte, mbind at 1, M_bind at 1, mget.
        rewrite (proj2 (Z.leb_le 48 _)), (proj2 (Z.leb_le _ 57)) by lia.
        cbn [andb]. unfold mbind, M_bind, param_load. rewrite H3, H6. unfold param_store. rewrite H6.
        replace (48 + d - 48) with d by lia. rewrite (u32_small d), u32_small by lia. rewrite H2, H3. done. }
    fold (put_param n (a * 10 + d) k). rewrite (IH (a * 10 + d)); [|by eapply put_param_at|lia|done].
    unfold put_param. cbn [esc_params set_esc]. by rewrite list_insert_insert_eq.
Qed.

Lemma feed_semicolon n a k :
  params_at k n a -> n < 7 ->
  exists k1, kconsole_putc 59 k = Ok (tt, k1) /\ params_at k1 (n + 1) 0 /\
    k1 = set_esc ESC_BRACKET (<[Z.to_nat (n + 1) := 0]> (esc_params k)) (n + 1) k.
Proof.
  intros (H1 & H2 & H3 & H4 & H5 & H6) Hn. eexists. split; [|split; [|reflexivity]].
  - rewrite putc_bracket by done. change (i8 59) with 59. unfold esc_byte, mbind at 1, M_bind at 1, mget.
    cbn [Z.leb Z.compare Pos.compare Pos.compare_cont andb Z.eqb Pos.eqb CompOpp].
    unfold mbind, M_bind, mmodify, param_store. rewrite H3, (proj2 (Z.ltb_lt n 7)) by done. cbn [esc_params set_esc esc_nparam esc_state].
    destruct (lookup_lt_is_Some_2 (esc_params k) (Z.to_nat (n + 1))) as [x ->]; [lia|]. by rewrite H2.
  - split_and!; cbn; try done; try lia; [by rewrite length_insert|]. apply list_lookup_insert_eq. lia.
Qed.

Lemma digits10 p : 0 <= p < 2 ^ 64 ->
  fold_left (fun a d => a * 10 + d) (digits 10 p) 0 = p /\ Forall (fun d => 0 <= d < 10) (digits 10 p).
Proof.
  intros Hp. split; [by apply (digits_num 10)|]. apply Forall_forall. intros d. apply digits_bound; lia.
Qed.

Lemma feed_params ps n a k :
  params_at k n a -> Forall (fun p => 0 <= p < 2 ^ 32) ps -> n + Z.of_nat (length ps) <= 7 ->
  exists qs, kputs (concat ((fun p => 59 :: (dec_char <$> digits 10 p)) <$> ps)) k =
      Ok (tt, set_esc ESC_BRACKET qs (n + Z.of_nat (length ps)) k) /\ length qs = 8%nat /\
    take (S (Z.to_nat n) + length ps) qs = take (S (Z.to_nat n)) (esc_params k) ++ ps.
Proof.
  intros Hk Hps. revert n a k Hk. induction Hps as [|p ps Hp Hps IH]; intros n a k Hk Hn.
  - exists (esc_params k). destruct Hk as (H1 & H2 & H3 & H4 & H5 & H6). cbn.
    rewrite Z.add_0_r, Nat.add_0_r, app_nil_r, <- H3, <- H2. split_and!; try done. by destruct k.
  - cbn [length] in Hn. destruct (feed_semicolon n a k Hk ltac:(lia)) as (k1 & E1 & Hk1 & Ek1).
    destruct (digits10 p ltac:(lia)) as [Hv Hb].
    pose proof (feed_digits (digits 10 p) 0 (n + 1) k1 Hk1 ltac:(lia) Hb ltac:(lia)) as E2. rewrite Hv in E2.
    pose proof (put_param_at (n + 1) p 0 k1 Hk1) as Hk2.
    destruct (IH (n + 1) p _ Hk2 ltac:(lia)) as (qs & E3 & Hlen & Ht). exists qs.
    change (concat ((fun p => 59 :: (dec_char <$> digits 10 p)) <$> p :: ps)) with
      (59 :: (dec_char <$> digits 10 p) ++ concat ((fun p => 59 :: (dec_char <$> digits 10 p)) <$> ps)).
    rewrite (kputs_cons _ _ _ _ E1), (kputs_app _ _ _ _ E2), E3. destruct Hk as (_ & _ & _ & Hn0 & H5 & _).
    split_and!; [|done|].
    + rewrite Ek1. cbn [length]. unfold put_param, set_esc. cbn. do 2 f_equal. f_equal. lia.
    + replace (S (Z.to_nat n) + length (p :: ps))%nat with (S (Z.to_nat (n + 1)) + length ps)%nat by (cbn; lia).
      rewrite Ht, Ek1. unfold put_param. cbn [esc_params set_esc]. rewrite list_insert_insert_eq.
      erewrite take_S_r; [|apply list_lookup_insert_eq; lia].
      rewrite take_insert_ge by lia. replace (Z.to_nat (n + 1)) with (S (Z.to_nat n)) by lia. by rewrite <- app_assoc.
Qed.

(** ** The kernel's console *)

(** The serial line and the framebuffer. *)
Definition kernel_console : Type := uart * kcon.
Definition on_uart {A} (m : M uart A) : M kernel_console A := mzoom fst (fun u s => (u, s.2)) m.
Definition on_kcon {A} (m : M kcon A) : M kernel_console A := mzoom snd (fun k s => (s.1, k)) m.

(** Before [kconsole_init] the framebuffer ignores every byte. *)
Definition kernel_console_inv (s : kernel_console) : Prop :=
  line_ready s.1 /\ (fb_ready s.2 = 0 \/ kinv s.2 /\ esc_ok s.2 /\ exists g, shows s.2 g).

Lemma kernel_serial_putc c s :
  kernel_console_inv s ->
  wp (on_uart (Serial.serial_putc c)) s (fun _ s' => kernel_console_inv s' /\ u_wire s'.1 = u_wire s.1 ++ [u8 c]).
Proof.
  intros [Hl Hk]. apply wp_zoom. eapply wp_mono; [by apply serial_putc_run|].
  by intros _ u (H1 & H2 & _).
Qed.

Lemma kernel_kconsole_putc c s :
  kernel_console_inv s ->
  wp (on_kcon (kconsole_putc c)) s (fun _ s' => kernel_console_inv s' /\ u_wire s'.1 = u_wire s.1).
Proof.
  intros [Hl Hk]. apply wp_zoom. destruct Hk as [Hk|(Hk & He & g & Hs)].
  - unfold kconsole_putc. wp_step. wp_step. rewrite Hk. wp_step; [|done]. wp_step. split; [|done]. split; [done|by left].
  - eapply wp_mono; [by apply (kconsole_putc_run c s.2 g)|]. intros _ k' (H1 & H2 & H3 & _).
    split; [|done]. split; [done|]. right. split_and!; [done|done|by eexists].
Qed.

#[export] Instance kernel_console_impl : Console kernel_console := {
  serial_putc := fun c => on_uart (Serial.serial_putc c);
  kconsole_putc := fun c => on_kcon (kconsole_putc c);
  con_inv := kernel_console_inv;
  con_out := fun s => u_wire s.1;
  serial_putc_out := kernel_serial_putc;
  kconsole_putc_out := kernel_kconsole_putc
}.

(** ** Properties *)


(** A framebuffer of the size the boot loader reports is cleared by
    kconsole_init to a blank screen with the cursor at the top left, and from
    then on any string of bytes whatever prints without an access out of
    bounds and leaves the cursor on the screen. *)
Lemma kconsole_any_bytes pixels width height pitch bs k :
  8 <= width -> 9 <= height < 2 ^ 32 -> width <= pitch / 4 < 2 ^ 32 -> height * (pitch / 4) <= 2 ^ 32 ->
  Z.of_nat (length pixels) = height * (pitch / 4) ->
  length (esc_params k) = 8%nat -> esc_state k = ESC_NONE -> 0 <= esc_nparam k ->
  wp (kconsole_init pixels width height pitch) k (fun _ k1 =>
    cur_col k1 = 0 /\ cur_row k1 = 0 /\ shows k1 (fun _ _ => blank k1) /\
    wp (kputs bs) k1 (fun _ k2 => 0 <= cur_col k2 < fb_cols k2 /\ 0 <= cur_row k2 < fb_rows k2)).
Proof.
  intros Hw Hh Hp Hs Hl He1 He2 He3. eapply wp_mono; [by apply kconsole_init_run|]. intros _ k1 (H1 & H2 & H3 & H4 & H5).
  split_and!; [done|done|done|]. eapply wp_mono; [by eapply kputs_ok|]. by intros _ k2 ([] & _).
Qed.

(** A colour escape of one to eight parameters, ESC [ p1 ; ... ; pn m, sets
    the colours to what the parameters ask for from left to right (reset, bold,
    the normal and bright foreground and background palettes, others ignored),
    changes nothing on the screen and leaves the parser ready for text. *)
Lemma sgr_escape_sets_colors ps k :
  kinv k -> esc_state k = ESC_NONE -> (1 <= length ps <= 8)%nat -> Forall (fun p => 0 <= p < 2 ^ 32) ps ->
  wp (kputs (sgr_escape ps)) k (fun _ k' => same_screen k k' /\ esc_state k' = ESC_NONE /\
    (fg_color k', bg_color k') = sgr ps (fg_default k) (bg_default k) (fg_color k, bg_color k)).
Proof.
  intros Hk He Hlen Hps. pose proof Hk as [_ Hr _ _ Hl _]. unfold sgr_escape. cbn [app].
  set (k1 := set_esc ESC_ESC (esc_params k) (esc_nparam k) k).
  assert (kconsole_putc 27 k = Ok (tt, k1)) as E1.
  { unfold kconsole_putc, mbind at 1, M_bind at 1, mget. rewrite Hr, He. reflexivity. }
  set (k2 := set_esc ESC_BRACKET (<[0%nat := 0]> (esc_params k)) 0 k).
  assert (kconsole_putc 91 k1 = Ok (tt, k2)) as E2.
  { unfold kconsole_putc, mbind at 1, M_bind at 1, mget. cbn [fb_ready k1 set_esc]. rewrite Hr.
    change (i8 91) with 91. cbn. unfold mbind, M_bind, mmodify, param_store. cbn.
    destruct (lookup_lt_is_Some_2 (esc_params k) 0) as [x Hx]; [lia|]. change (Z.to_nat 0) with 0%nat. by rewrite Hx. }
  rewrite <- (app_nil_l (27 :: _)). unfold wp. cbn [app]. rewrite (kputs_cons _ _ _ _ E1), (kputs_cons _ _ _ _ E2).
  destruct ps as [|p ps]; [cbn in Hlen; lia|]. apply Forall_cons in Hps as [Hp Hps]. cbn [length] in Hlen.
  assert (params_at k2 0 0) as Ha.
  { split_and!; try done; [cbn; by rewrite length_insert|]. apply list_lookup_insert_eq. lia. }
  destruct (digits10 p ltac:(lia)) as [Hv Hb].
  pose proof (feed_digits (digits 10 p) 0 0 k2 Ha ltac:(lia) Hb ltac:(lia)) as E3. rewrite Hv in E3.
  destruct (feed_params ps 0 p _ (put_param_at 0 p 0 k2 Ha) Hps ltac:(lia)) as (qs & E4 & Hq & Ht).
  cbn [show_params]. rewrite <- app_assoc, (kputs_app _ _ _ _ E3), (kputs_app _ _ _ _ E4).
  set (k3 := set_esc _ qs _ _). 
  enough (wp (esc_byte 109) k3 (fun _ k' => same_screen k k' /\ esc_state k' = ESC_NONE /\
    (fg_color k', bg_color k') = sgr (p :: ps) (fg_default k) (bg_default k) (fg_color k, bg_color k))) as Hw.
  { apply wp_bind. unfold wp at 1. rewrite putc_bracket by done. eapply wp_mono; [exact Hw|]. done. }
  unfold esc_byte. wp_step. wp_step. cbn [Z.leb Z.compare Pos.compare Pos.compare_cont andb Z.eqb Pos.eqb CompOpp].
  wp_step. wp_step. rewrite u8_small by (cbn; lia). wp_step. eapply wp_mono; [apply fb_apply_sgr_run; cbn; [done|lia]|].
  intros _ k' (Hs & E5 & E6 & E7 & Ec). wp_step. split_and!; [exact Hs|done|].
  change ((fg_color k', bg_color k') = sgr (p :: ps) (fg_default k) (bg_default k) (fg_color k, bg_color k)).
  assert (take (S (length ps)) qs = p :: ps) as Ht'.
  { change (S (Z.to_nat 0) + length ps)%nat with (S (length ps)) in Ht. rewrite Ht. cbn.
    by destruct (esc_params k). }
  assert (Z.to_nat (esc_nparam k3 + 1) = S (length ps)) as Hn by (cbn; lia).
  rewrite Ec. cbn [esc_nparam esc_params set_esc]. rewrite Hn. change (esc_params k3) with qs. by rewrite Ht'.
Qed.

(** ** Witnesses *)

(** A screen of 2 by 2 cells and a spare column of pixels. *)
Definition demo_pixels : list Z := replicate (17 * 18) 7.
Definition demo_kcon : kcon :=
  Kcon (replicate (17 * 18) 1710638) 17 18 17 2 2 1 1 14737632 1710638 14737632 1710638 1 0 (replicate 8 0) 0.

Lemma demo_kcon_inv : kinv demo_kcon.
Proof. split; [split; by_decide|by_decide|by_decide|by_decide|done|by split]. Qed.

Lemma demo_kcon_shows : shows demo_kcon (fun _ _ => blank demo_kcon).
Proof.
  intros r c x y Hr Hc Hx Hy. unfold blank. rewrite blank_pixel by done. unfold pix. cbn in Hr, Hc.
  change (fb demo_kcon) with (replicate (17 * 18) (bg_color demo_kcon)). apply lookup_replicate_2. cbn. lia.
Qed.


Lemma kconsole_any_bytes_witness :
  wp (kconsole_init demo_pixels 17 18 68) kcon_start (fun _ k1 =>
    cur_col k1 = 0 /\ cur_row k1 = 0 /\ shows k1 (fun _ _ => blank k1) /\
    wp (kputs [72; 105; 10; 27; 91; 255]) k1 (fun _ k2 =>
      0 <= cur_col k2 < fb_cols k2 /\ 0 <= cur_row k2 < fb_rows k2)).
Proof.
  apply (kconsole_any_bytes demo_pixels 17 18 68 [72; 105; 10; 27; 91; 255] kcon_start); by_decide.
Defined.

(** ESC [ 1 ; 31 m *)
Lemma sgr_escape_sets_colors_witness :
  sgr_escape [1; 31] = [27; 91; 49; 59; 51; 49; 109] /\
  wp (kputs (sgr_escape [1; 31])) demo_kcon (fun _ k' => same_screen demo_kcon k' /\ esc_state k' = ESC_NONE /\
    (fg_color k', bg_color k') = (13382451, 1710638)).
Proof.
  split; [reflexivity|].
  apply (sgr_escape_sets_colors [1; 31] demo_kcon); [apply demo_kcon_inv|done|simpl; lia|by_decide].
Defined.
