(* ===== verification/Blk.v ===== *)
(** * The block layer (src/src/kernel/blk.c, blk.h)

    A table of at most eight devices and the synchronous request protocol: the
    request lives on the caller's stack, the device points to it while it is
    under way, and the driver's completion marks it done.  A device pointer is
    the index in the table plus one, 0 the null pointer.  Requests are objects
    of a store, removed when the function that owns them returns, so a pointer
    kept too long faults.  The drivers' [submit] functions are reached by
    address; [halt] is what happens while the CPU waits for an interrupt. *)
From S2P Require Import Prelude Print.

#[local] Open Scope Z_scope.

Definition BLK_MAX_DEVICES : Z := 8.
Definition BLK_NAME_LEN : Z := 16.

Record blk_request := Request {
  rq_lba : Z; rq_count : Z; rq_buf : Z; rq_write : Z; rq_done : Z; rq_status : Z
}.

(** [dv_name] is the whole array, [dv_submit] the one member of [ops]. *)
Record blk_device := Device {
  dv_name : list Z; dv_sector_size : Z; dv_submit : Z; dv_priv : Z; dv_current_req : Z
}.

Record blk_state := Blk_state {
  blk_devices : list blk_device; blk_device_count : Z; requests : gmap Z blk_request
}.

Definition blk_start : blk_state := Blk_state (replicate 8 (Device (replicate 16 0) 0 0 0 0)) 0 ∅.

(** What the block layer offers to the file systems. *)
Class BlockLayer (St : Type) := {
  blk_read : Z -> Z -> Z -> Z -> M St Z;
  blk_write : Z -> Z -> Z -> Z -> M St Z;
  dev_sector_size : Z -> M St Z;
  dev_name : Z -> M St (list Z)
}.

(** [for (i = 0; i < n && name[i]; i++) arr[i] = name[i];] *)
Fixpoint copy_name (n : nat) (name arr : list Z) : list Z :=
  match n, name, arr with
  | S n, c :: name', _ :: arr' => c :: copy_name n name' arr'
  | _, _, _ => arr
  end.

(** The comparison loop of [blk_get]: an array against a string; [None] past
    the end of the array. *)
Fixpoint same_name (a b : list Z) : option bool :=
  match a, b with
  | [], _ => None
  | x :: _, [] => Some (x =? 0)
  | x :: a', y :: b' => if x =? y then same_name a' b' else Some false
  end.

(** The bytes of an array before the first zero. *)
Fixpoint c_string (a : list Z) : list Z :=
  match a with
  | [] => []
  | x :: a' => if x =? 0 then [] else x :: c_string a'
  end.

(** "device table full" *)
Definition full_msg : list Z := [100; 101; 118; 105; 99; 101; 32; 116; 97; 98; 108; 101; 32; 102; 117; 108; 108].

Section Blk.
Context {St : Type} (get_blk : St -> blk_state) (set_blk : blk_state -> St -> St).

Definition upd_blk (f : blk_state -> blk_state) : M St unit := mmodify (fun s => set_blk (f (get_blk s)) s).

Definition dev_load (dev : Z) : M St blk_device := fun s =>
  if 1 <=? dev then
    match blk_devices (get_blk s) !! Z.to_nat (dev - 1) with Some d => Ok (d, s) | None => Stuck Fault end
  else Stuck Fault.
Definition dev_store (dev : Z) (d : blk_device) : M St unit :=
  upd_blk (fun b => Blk_state (<[Z.to_nat (dev - 1) := d]> (blk_devices b)) (blk_device_count b) (requests b)).
Definition set_current (dev rq : Z) : M St unit :=
  d ← dev_load dev;
  dev_store dev (Device (dv_name d) (dv_sector_size d) (dv_submit d) (dv_priv d) rq).

Definition req_load (rq : Z) : M St blk_request := fun s =>
  match requests (get_blk s) !! rq with Some r => Ok (r, s) | None => Stuck Fault end.
Definition req_store (rq : Z) (r : blk_request) : M St unit :=
  upd_blk (fun b => Blk_state (blk_devices b) (blk_device_count b) (<[rq := r]> (requests b))).
(** The end of the request's life. *)
Definition req_drop (rq : Z) : M St unit :=
  upd_blk (fun b => Blk_state (blk_devices b) (blk_device_count b) (delete rq (requests b))).

Definition blk_register `{Console St} (name : list Z) (submit sector_size priv : Z) : M St Z :=
  n ← mgets (fun s => blk_device_count (get_blk s));
  if BLK_MAX_DEVICES <=? n then
    klog_fail (Some [66; 76; 75]) full_msg [];;
    mret 0
  else
    upd_blk (fun b => Blk_state (blk_devices b) (u32 (blk_device_count b + 1)) (requests b));;
    d ← dev_load (n + 1);
    dev_store (n + 1) (Device (copy_name (Z.to_nat (BLK_NAME_LEN - 1)) name (dv_name d)) sector_size submit priv 0);;
    mret (n + 1).

Definition blk_get (name : list Z) : M St Z :=
  n ← mgets (fun s => blk_device_count (get_blk s));
  r ← mfor (Z.to_nat n) (fun i =>
        d ← dev_load (i + 1);
        match same_name (dv_name d) name with
        | None => mstuck Fault
        | Some true => mret (Some (i + 1))
        | Some false => mret None
        end) 0;
  mret (default 0 r).

Definition blk_complete (dev status : Z) : M St unit :=
  d ← dev_load dev;
  if dv_current_req d =? 0 then mret tt
  else
    r ← req_load (dv_current_req d);
    req_store (dv_current_req d) (Request (rq_lba r) (rq_count r) (rq_buf r) (rq_write r) 1 status).

(** [submit_at f] is the driver function at address [f]. *)
Context (submit_at : Z -> Z -> Z -> M St Z) (halt : M St unit).

(** One turn of [while (!req.done) hlt();]. *)
Definition await (rq : Z) (_ : unit) : M St (unit + unit) :=
  r ← req_load rq;
  if rq_done r =? 0 then halt;; mret (inl tt) else mret (inr tt).

(** [rq] is the address of the local [req]. *)
Definition blk_submit_sync (rq dev lba count buf write : Z) : M St Z :=
  if dev =? 0 then mret (-1)
  else
    req_store rq (Request lba count buf write 0 0);;
    set_current dev rq;;
    d ← dev_load dev;
    rc ← submit_at (dv_submit d) dev rq;
    if negb (rc =? 0) then set_current dev 0;; req_drop rq;; mret (-1)
    else
      mloop (await rq) tt;;
      set_current dev 0;;
      r ← req_load rq;
      req_drop rq;;
      mret (rq_status r).

(** The layer as its clients see it; [rq] is where the local [req] lands. *)
Definition block_layer (rq : Z) : BlockLayer St := {|
  blk_read dev lba count buf := blk_submit_sync rq dev lba count buf 0;
  blk_write dev lba count buf := blk_submit_sync rq dev lba count buf 1;
  dev_sector_size dev := d ← dev_load dev; mret (dv_sector_size d);
  dev_name dev := d ← dev_load dev; mret (c_string (dv_name d))
|}.
End Blk.

(** ** A machine to run it on *)

(** What wakes a waiting CPU: the disk interrupt of a device with its status,
    or any other. *)
Inductive irq := Disk (dev status : Z) | Other.

(** How a driver's [submit] behaves: it refuses the request, it polls and
    completes it before it returns, or it leaves the completion to an
    interrupt. *)
Inductive driver := Refuses | Polls (status : Z) | Interrupts.

Record machine := Machine { m_blk : blk_state; m_irqs : list irq }.
#[local] Abbreviation put_blk := (fun b m => Machine b (m_irqs m)).

(** The interrupt handler. *)
Definition handle (i : irq) : M machine unit :=
  match i with
  | Disk dev status => blk_complete m_blk put_blk dev status
  | Other => mret tt
  end.

(** [hlt]: the next interrupt is handled; if none ever comes it never returns. *)
Definition next_irq : M machine unit := fun m =>
  match m_irqs m with
  | [] => Stuck Halt
  | i :: rest => handle i (Machine (m_blk m) rest)
  end.

Section BlkProofs.
Context (drivers : Z -> driver).

Definition submit (f dev rq : Z) : M machine Z :=
  match drivers f with
  | Refuses => mret (-1)
  | Polls status => blk_complete m_blk put_blk dev status;; mret 0
  | Interrupts => mret 0
  end.

Definition finish (status : Z) (r : blk_request) : blk_request :=
  Request (rq_lba r) (rq_count r) (rq_buf r) (rq_write r) 1 status.
Definition with_req (rq : Z) (d : blk_device) : blk_device :=
  Device (dv_name d) (dv_sector_size d) (dv_submit d) (dv_priv d) rq.

(** The effect of an interrupt on the requests of the devices [devs]. *)
Definition mark (devs : list blk_device) (reqs : gmap Z blk_request) (i : irq) : gmap Z blk_request :=
  match i with
  | Disk dev status =>
      match devs !! Z.to_nat (dev - 1) with
      | Some d => if dv_current_req d =? 0 then reqs else alter (finish status) (dv_current_req d) reqs
      | None => reqs
      end
  | Other => reqs
  end.
Definition served (devs : list blk_device) (irqs : list irq) (reqs : gmap Z blk_request) : gmap Z blk_request :=
  foldl (mark devs) reqs irqs.

(** The first interrupt of [dev]: those before it, its status, those after. *)
Fixpoint own_irq (dev : Z) (irqs : list irq) : option (list irq * Z * list irq) :=
  match irqs with
  | [] => None
  | i :: rest =>
      let later := (fun x => (i :: x.1.1, x.1.2, x.2)) <$> own_irq dev rest in
      match i with
      | Disk e status => if e =? dev then Some ([], status, rest) else later
      | Other => later
      end
  end.

Definition irq_ok (devs : list blk_device) (i : irq) : Prop :=
  match i with Disk e _ => 1 <= e <= Z.of_nat (length devs) | Other => True end.

(** The other devices' requests exist, and none is [rq]. *)
Definition others_ok (devs : list blk_device) (dev rq : Z) (reqs : gmap Z blk_request) : Prop :=
  forall e d, e <> dev -> 1 <= e -> devs !! Z.to_nat (e - 1) = Some d ->
    dv_current_req d <> rq /\ (dv_current_req d = 0 \/ is_Some (reqs !! dv_current_req d)).

Lemma dev_load_run dev d (m : machine) :
  1 <= dev -> blk_devices (m_blk m) !! Z.to_nat (dev - 1) = Some d -> dev_load m_blk dev m = Ok (d, m).
Proof. intros H Hd. unfold dev_load. by rewrite (proj2 (Z.leb_le _ _) H), Hd. Qed.

Lemma alter_Some (f : blk_request -> blk_request) i x (m : gmap Z blk_request) :
  m !! i = Some x -> alter f i m = <[i := f x]> m.
Proof.
  intros H. apply map_eq. intros j. destruct (decide (j = i)) as [->|Hj].
  - by rewrite lookup_insert_eq, lookup_alter_eq, H.
  - by rewrite lookup_insert_ne, lookup_alter_ne by congruence.
Qed.

Lemma blk_complete_run dev status devs n reqs irqs d :
  1 <= dev -> devs !! Z.to_nat (dev - 1) = Some d ->
  (dv_current_req d = 0 \/ is_Some (reqs !! dv_current_req d)) ->
  blk_complete m_blk put_blk dev status (Machine (Blk_state devs n reqs) irqs) =
    Ok (tt, Machine (Blk_state devs n (mark devs reqs (Disk dev status))) irqs).
Proof.
  intros H Hd Hr. unfold blk_complete, mbind, M_bind. rewrite (dev_load_run _ d) by done. cbn [mark]. rewrite Hd.
  destruct (Z.eqb_spec (dv_current_req d) 0) as [_|Hne]; [done|].
  destruct Hr as [Hr|[r Hr]]; [done|]. unfold req_load. cbn. rewrite Hr. by rewrite (alter_Some _ _ r).
Qed.

Lemma mark_other devs reqs i dev rq :
  others_ok devs dev rq reqs -> irq_ok devs i -> (forall st, i <> Disk dev st) ->
  mark devs reqs i !! rq = reqs !! rq /\ others_ok devs dev rq (mark devs reqs i) /\
  forall x, mark devs (<[rq := x]> reqs) i = <[rq := x]> (mark devs reqs i).
Proof.
  intros Ho Hi Hne. destruct i as [e st|]; [|done]. cbn [mark]. cbn in Hi.
  destruct (devs !! Z.to_nat (e - 1)) as [d|] eqn:Hd; [|done].
  destruct (Z.eqb_spec (dv_current_req d) 0) as [_|Hz]; [done|].
  destruct (Ho e d) as [Hc Hs]; [by intros ->; eapply Hne|lia|done|]. split_and!.
  - by rewrite lookup_alter_ne.
  - intros e' d' He' H1 Hd'. destruct (Ho e' d' He' H1 Hd') as [Hc' Hs']. split; [done|].
    destruct Hs' as [?|Hs']; [by left|right]. by apply lookup_alter_is_Some.
  - intros x. by rewrite alter_insert_ne by congruence.
Qed.

Lemma handle_other devs n reqs i rest dev rq :
  others_ok devs dev rq reqs -> irq_ok devs i -> (forall st, i <> Disk dev st) ->
  handle i (Machine (Blk_state devs n reqs) rest) = Ok (tt, Machine (Blk_state devs n (mark devs reqs i)) rest).
Proof.
  intros Ho Hi Hne. destruct i as [e st|]; [|done]. cbn in Hi. cbn [handle].
  destruct (lookup_lt_is_Some_2 devs (Z.to_nat (e - 1))) as [d Hd]; [lia|].
  apply (blk_complete_run e st devs n reqs rest d); [lia|done|].
  apply (Ho e d); [by intros ->; eapply Hne|lia|done].
Qed.

Lemma own_irq_later dev i irqs : (forall st, i <> Disk dev st) ->
  own_irq dev (i :: irqs) = (fun x => (i :: x.1.1, x.1.2, x.2)) <$> own_irq dev irqs.
Proof.
  intros H. cbn [own_irq]. destruct i as [e st|]; [|done].
  destruct (Z.eqb_spec e dev) as [->|_]; [by destruct (H st)|done].
Qed.

(** The wait: the interrupts up to the device's own are handled. *)
Lemma await_runs dev rq devs n d r reqs irqs :
  rq <> 0 -> 1 <= dev -> devs !! Z.to_nat (dev - 1) = Some d -> dv_current_req d = rq ->
  others_ok devs dev rq reqs -> Forall (irq_ok devs) irqs -> reqs !! rq = Some r -> rq_done r = 0 ->
  exists k, 0 <= k <= Z.of_nat (length irqs) /\
  runs (await m_blk next_irq rq) tt (Machine (Blk_state devs n reqs) irqs)
    (match own_irq dev irqs with
     | Some (pre, st, rest) => Ok (tt, Machine (Blk_state devs n (<[rq := finish st r]> (served devs pre reqs))) rest)
     | None => Stuck Halt
     end) k.
Proof.
  intros Hrq Hdev Hd Hc Ho Hi Hr Hdone. revert reqs Ho Hr. induction Hi as [|i irqs Hi1 Hi IH]; intros reqs Ho Hr.
  { exists 0. split; [done|]. apply runs_stuck. unfold await, mbind, M_bind, req_load. cbn. by rewrite Hr, Hdone. }
  assert (await m_blk next_irq rq tt (Machine (Blk_state devs n reqs) (i :: irqs)) =
    match handle i (Machine (Blk_state devs n reqs) irqs) with
    | Ok (_, m) => Ok (inl tt, m) | Stuck w => Stuck w end) as Ebody.
  { unfold await at 1, mbind, M_bind, req_load. cbn. rewrite Hr, Hdone. cbn. by destruct (handle i _) as [[[] m]|w]. }
  assert ((exists st, i = Disk dev st) \/ (forall st, i <> Disk dev st)) as [(st & ->)|Hne].
  { destruct i as [e st|]; [|by right]. destruct (decide (e = dev)) as [->|]; [left; by exists st|right; congruence]. }
  - cbn [own_irq]. rewrite Z.eqb_refl. exists (0 + 1). split; [cbn; lia|]. eapply runs_next; [|apply runs_stop|lia].
    + rewrite Ebody. cbn [handle]. rewrite (blk_complete_run _ _ _ _ _ _ d) by (eauto; by right; rewrite Hc, Hr). done.
    + unfold await, mbind, M_bind, req_load. cbn. rewrite Hd, Hc, (proj2 (Z.eqb_neq rq 0)) by done.
      by rewrite (alter_Some _ _ r), lookup_insert_eq.
  - destruct (mark_other devs reqs i dev rq Ho Hi1 Hne) as (E1 & Ho' & _).
    destruct (IH (mark devs reqs i) Ho' ltac:(by rewrite E1)) as (k & Hk & Hrun).
    exists (k + 1). split; [cbn; lia|]. eapply runs_next; [by rewrite Ebody, (handle_other _ _ _ _ _ dev rq)| |lia].
    rewrite own_irq_later by done. destruct (own_irq dev irqs) as [[[pre st] rest]|]; exact Hrun.
Qed.
(** Only the device's pointer to the request tells the tables apart. *)
Lemma mark_set devs devs' dev reqs i :
  (forall e, e <> dev -> 1 <= e -> devs' !! Z.to_nat (e - 1) = devs !! Z.to_nat (e - 1)) ->
  irq_ok devs i -> (forall st, i <> Disk dev st) -> mark devs' reqs i = mark devs reqs i.
Proof. intros H Hi Hne. destruct i as [e st|]; [|done]. cbn in *. rewrite H; [done|intros ->; by eapply Hne|lia]. Qed.

Lemma served_set devs devs' dev rq x pre reqs :
  (forall e, e <> dev -> 1 <= e -> devs' !! Z.to_nat (e - 1) = devs !! Z.to_nat (e - 1)) ->
  Forall (fun i => irq_ok devs i /\ forall st, i <> Disk dev st) pre -> others_ok devs dev rq reqs ->
  served devs' pre (<[rq := x]> reqs) = <[rq := x]> (served devs pre reqs) /\
  served devs pre reqs !! rq = reqs !! rq.
Proof.
  intros Hd Hp. revert reqs. induction Hp as [|i pre [Hi Hne] Hp IH]; intros reqs Ho; [done|]. cbn [served foldl].
  destruct (mark_other devs reqs i dev rq Ho Hi Hne) as (E1 & Ho' & E2).
  rewrite (mark_set devs devs' dev), E2 by done. destruct (IH _ Ho') as [H1 H2]. split; [done|]. unfold served in H2.
  by rewrite H2.
Qed.

Lemma own_or_other dev i : (exists st, i = Disk dev st) \/ (forall st, i <> Disk dev st).
Proof. destruct i as [e st|]; [|by right]. destruct (decide (e = dev)) as [->|]; [left; by exists st|right; congruence]. Qed.

Lemma own_irq_before dev irqs pre st rest :
  own_irq dev irqs = Some (pre, st, rest) ->
  irqs = pre ++ Disk dev st :: rest /\ Forall (fun i => forall st, i <> Disk dev st) pre.
Proof.
  revert pre. induction irqs as [|i irqs IH]; intros pre; [done|]. destruct (own_or_other dev i) as [(x & ->)|Hne].
  - cbn [own_irq]. rewrite Z.eqb_refl. by intros [= <- <- <-].
  - rewrite own_irq_later by done. destruct (own_irq dev irqs) as [[[q y] z]|]; [|done]. intros [= <- -> ->].
    destruct (IH q eq_refl) as [-> Hq]. split; [done|by constructor].
Qed.

Lemma others_ok_busy devs dev rq d x reqs :
  others_ok devs dev rq reqs -> 1 <= dev ->
  others_ok (<[Z.to_nat (dev - 1) := d]> devs) dev rq (<[rq := x]> reqs).
Proof.
  intros Ho Hdev e d' He H1 Hd. rewrite list_lookup_insert_ne in Hd by lia.
  destruct (Ho e d' He H1 Hd) as [Hc Hs]. split; [done|]. by rewrite lookup_insert_ne.
Qed.

Lemma submit_start rq dev d lba count buf write devs n reqs irqs :
  1 <= dev -> devs !! Z.to_nat (dev - 1) = Some d ->
  blk_submit_sync m_blk put_blk submit next_irq rq dev lba count buf write (Machine (Blk_state devs n reqs) irqs) =
  (rc ← submit (dv_submit d) dev rq;
   if negb (rc =? 0) then set_current m_blk put_blk dev 0;; req_drop m_blk put_blk rq;; mret (-1)
   else mloop (await m_blk next_irq rq) tt;;
        set_current m_blk put_blk dev 0;; r ← req_load m_blk rq; req_drop m_blk put_blk rq;; mret (rq_status r))
  (Machine (Blk_state (<[Z.to_nat (dev - 1) := with_req rq d]> devs) n (<[rq := Request lba count buf write 0 0]> reqs)) irqs).
Proof.
  intros Hdev Hd. pose proof (lookup_lt_Some _ _ _ Hd) as Hk.
  unfold blk_submit_sync. rewrite (proj2 (Z.eqb_neq dev 0)) by lia.
  unfold mbind at 1, M_bind at 1, req_store, upd_blk. cbn [mmodify]. unfold mbind at 1, M_bind at 1.
  unfold set_current at 1, mbind at 1, M_bind at 1. cbn [m_blk blk_devices blk_device_count requests m_irqs].
  rewrite (dev_load_run dev d) by done. unfold dev_store at 1, upd_blk. cbn [mmodify].
  unfold mbind at 1, M_bind at 1. cbn [m_blk blk_devices blk_device_count requests m_irqs].
  by rewrite (dev_load_run dev (with_req rq d)) by (done || by apply list_lookup_insert_eq).
Qed.

Lemma submit_end rq dev d devs n reqs irqs :
  1 <= dev -> devs !! Z.to_nat (dev - 1) = Some d ->
  set_current m_blk put_blk dev 0 (Machine (Blk_state (<[Z.to_nat (dev - 1) := with_req rq d]> devs) n reqs) irqs) =
  Ok (tt, Machine (Blk_state (<[Z.to_nat (dev - 1) := with_req 0 d]> devs) n reqs) irqs).
Proof.
  intros Hdev Hd. pose proof (lookup_lt_Some _ _ _ Hd) as Hk. unfold set_current, mbind, M_bind.
  rewrite (dev_load_run dev (with_req rq d)) by (done || by apply list_lookup_insert_eq).
  unfold dev_store, upd_blk, mmodify. cbn. by rewrite list_insert_insert_eq.
Qed.

Lemma finish_request rq dev d devs n reqs irqs r st :
  1 <= dev -> devs !! Z.to_nat (dev - 1) = Some d -> reqs !! rq = Some (finish st r) ->
  (set_current m_blk put_blk dev 0;; r ← req_load m_blk rq; req_drop m_blk put_blk rq;; mret (rq_status r))
    (Machine (Blk_state (<[Z.to_nat (dev - 1) := with_req rq d]> devs) n reqs) irqs) =
  Ok (st, Machine (Blk_state (<[Z.to_nat (dev - 1) := with_req 0 d]> devs) n (delete rq reqs)) irqs).
Proof.
  intros Hdev Hd Hr. unfold mbind at 1, M_bind at 1. rewrite submit_end by done.
  unfold mbind, M_bind, req_load. cbn. by rewrite Hr.
Qed.

End BlkProofs.

(** ** Witness *)

(** Device 1 is driven by interrupts and idle; device 2 waits for the request
    at 8192. *)
Definition demo_devices : list blk_device :=
  [Device (replicate 16 0) 512 100 0 0; Device (replicate 16 0) 512 100 0 8192].
Definition demo_requests : gmap Z blk_request := {[ 8192 := Request 7 1 0 0 0 0 ]}.

