(* ===== verification/DiskBytes.v ===== *)
(** * What a disk driver moves (with src/src/kernel/blk.c)

    The bytes of a disk and the effect of a transfer between them and a buffer
    in memory, stated once for the drivers; and the synchronous request of the
    block layer around a driver that brings its request to an end. *)
From S2P Require Import Prelude KMem Print Blk.

#[local] Open Scope Z_scope.

(** The [n] bytes from byte [a] of a disk, and such a disk after a write of
    what [m] holds at [v]. *)
Definition sectors (disk : Z -> Z) (a : Z) (n : nat) : list Z := (fun i => u8 (disk (a + i))) <$> seqZ 0 (Z.of_nat n).
Definition written (disk : Z -> Z) (a n : Z) (m : mem) (v : Z) : Z -> Z :=
  fun b => if (a <=? b) && (b <? a + n) then rd8 m (v + (b - a)) else disk b.

(** Memory and disk after the device has done its part, [ok] telling success. *)
Definition after_heap (ok read : bool) (disk : Z -> Z) (h : mem) (from n buf : Z) : mem :=
  if ok && read then store_bytes h buf (sectors disk from (Z.to_nat n)) else h.
Definition after_disk (ok read : bool) (disk : Z -> Z) (h : mem) (from n buf : Z) : Z -> Z :=
  if ok && negb read then written disk from n h buf else disk.

(** A whole transfer, byte by byte; [touched] is the memory the driver uses. *)
Definition transferred (touched : Z -> Prop) (ok read : bool) (h h' : mem) (disk disk' : Z -> Z) (from n buf : Z) : Prop :=
  if ok && read then
    disk' = disk /\ (forall i, 0 <= i < n -> rd8 h' (buf + i) = u8 (disk (from + i))) /\
    forall a, ~ (buf <= a < buf + n) -> ~ touched a -> rd8 h' a = rd8 h a
  else
    (forall b, disk' b = if ok && ((from <=? b) && (b <? from + n)) then rd8 h (buf + (b - from)) else disk b) /\
    forall a, ~ touched a -> rd8 h' a = rd8 h a.

Lemma u8_u8 x : u8 (u8 x) = u8 x.
Proof. apply u8_small, u8_range. Qed.

Lemma sectors_lookup disk a n i : (i < n)%nat -> sectors disk a n !! i = Some (u8 (disk (a + Z.of_nat i))).
Proof. intros H. unfold sectors. rewrite list_lookup_fmap, lookup_seqZ_lt by lia. cbn. do 3 f_equal; lia. Qed.

Lemma rd8_sectors m buf disk a n x :
  rd8 (store_bytes m buf (sectors disk a n)) x =
  if (buf <=? x) && (x <? buf + Z.of_nat n) then u8 (disk (a + (x - buf))) else rd8 m x.
Proof.
  rewrite rd8_store_bytes. assert (length (sectors disk a n) = n) as ->.
  { unfold sectors. rewrite length_fmap, length_seqZ. lia. }
  destruct ((buf <=? x) && (x <? buf + Z.of_nat n)) eqn:E; [|done]. apply andb_prop in E as [E1 E2].
  rewrite (list_lookup_total_correct _ _ (u8 (disk (a + (x - buf))))); [apply u8_u8|].
  rewrite sectors_lookup by lia. do 3 f_equal. lia.
Qed.

Lemma transferred_intro (touched : Z -> Prop) ok read h h1 disk from n buf :
  (forall a, ~ touched a -> rd8 h1 a = rd8 h a) -> (forall a, touched a -> ~ (buf <= a < buf + n)) ->
  transferred touched ok read h (after_heap ok read disk h1 from n buf) disk (after_disk ok read disk h1 from n buf) from n buf.
Proof.
  intros H1 Ht. unfold transferred, after_heap, after_disk. destruct ok; cbn [negb andb]; [|split; [done|exact H1]].
  destruct read; cbn [negb]; split; try done.
  - split; intros a H.
    + rewrite rd8_sectors, (proj2 (Z.leb_le _ _)), (proj2 (Z.ltb_lt _ _)) by lia. cbn [andb]. do 2 f_equal. lia.
    + intros Hp. rewrite rd8_sectors. destruct ((buf <=? a) && (a <? buf + Z.of_nat (Z.to_nat n))) eqn:E; [|by apply H1].
      apply andb_prop in E as [E1 E2]. apply Z.leb_le in E1. apply Z.ltb_lt in E2. lia.
  - intros b. unfold written. destruct ((from <=? b) && (b <? from + n)) eqn:E; [|done].
    apply andb_prop in E as [E1 E2]. apply H1. intros Hx. apply Ht in Hx. lia.
Qed.

(** Put together again, the bytes of an address are the address. *)
Lemma lba_pieces lba : 0 <= lba < 2 ^ 48 ->
  u8 lba + 2 ^ 8 * u8 (Z.shiftr lba 8) + 2 ^ 16 * u8 (Z.shiftr lba 16) + 2 ^ 24 * u8 (Z.shiftr lba 24) +
  2 ^ 32 * u8 (Z.shiftr lba 32) + 2 ^ 40 * u8 (Z.shiftr lba 40) = lba.
Proof.
  intros H. rewrite !Z.shiftr_div_pow2 by done. unfold u8.
  assert (forall x k, 0 <= k -> x / 2 ^ (8 + k) = x / 2 ^ k / 2 ^ 8) as E.
  { intros x k Hk. by rewrite Z.div_div, <- Z.pow_add_r, (Z.add_comm 8) by lia. }
  pose proof (E lba 32 ltac:(done)) as E4. pose proof (E lba 24 ltac:(done)) as E3. pose proof (E lba 16 ltac:(done)) as E2.
  pose proof (E lba 8 ltac:(done)) as E1. change (8 + 32) with 40 in E4. change (8 + 24) with 32 in E3. change (8 + 16) with 24 in E2.
  change (8 + 8) with 16 in E1. rewrite E4, E3, E2, E1. clear E E1 E2 E3 E4.
  change (2 ^ 8) with 256. change (2 ^ 16) with 65536. change (2 ^ 24) with 16777216.
  change (2 ^ 32) with 4294967296. change (2 ^ 40) with 1099511627776.
  rewrite !Z.mod_eq by done. assert (lba / 256 / 256 / 256 / 256 / 256 / 256 = 0) as E.
  { rewrite !Z.div_div by done. by apply Z.div_small. }
  rewrite E. lia.
Qed.

(** ** The request around the driver *)

Definition finish_on (status : Z) (r : blk_request) : blk_request :=
  Request (rq_lba r) (rq_count r) (rq_buf r) (rq_write r) 1 status.

Section Sync.
Context {St : Type} (get_blk : St -> blk_state) (set_blk : blk_state -> St -> St) (HL : lens get_blk set_blk).
Context (submit_at : Z -> Z -> Z -> M St Z) (halt : M St unit).

Lemma dev_load_at dev dv s :
  1 <= dev -> blk_devices (get_blk s) !! Z.to_nat (dev - 1) = Some dv -> dev_load get_blk dev s = Ok (dv, s).
Proof. intros H Hd. unfold dev_load. by rewrite (proj2 (Z.leb_le _ _) H), Hd. Qed.

(** The block layer while [rq] is under way on [dev], and after it. *)
Definition under_way (dev rq : Z) (dv : blk_device) (r : blk_request) (b : blk_state) : blk_state :=
  Blk_state (<[Z.to_nat (dev - 1) := with_req rq dv]> (blk_devices b)) (blk_device_count b) (<[rq := r]> (requests b)).
Definition retired (dev rq : Z) (dv : blk_device) (b : blk_state) : blk_state :=
  Blk_state (<[Z.to_nat (dev - 1) := with_req 0 dv]> (blk_devices b)) (blk_device_count b) (delete rq (requests b)).

(** A completion marks the request under way. *)
Lemma complete_at dev rq dv r status b s :
  get_blk s = under_way dev rq dv r b -> 1 <= dev -> (Z.to_nat (dev - 1) < length (blk_devices b))%nat -> rq <> 0 ->
  blk_complete get_blk set_blk dev status s = Ok (tt, set_blk (under_way dev rq dv (finish_on status r) b) s).
Proof.
  intros Hb Hdev Hlen Hrq. unfold blk_complete, mbind, M_bind.
  rewrite (dev_load_at dev (with_req rq dv)); [|done|rewrite Hb; by apply list_lookup_insert_eq].
  cbn [with_req dv_current_req]. rewrite (proj2 (Z.eqb_neq _ _) Hrq). unfold req_load. rewrite Hb.
  cbn [under_way requests]. rewrite lookup_insert_eq. unfold req_store, upd_blk, mmodify. rewrite Hb.
  unfold under_way. cbn [blk_devices blk_device_count requests]. by rewrite insert_insert_eq.
Qed.

(** If the driver takes the request and the wait ends with it completed, the
    call answers its status and cleans up. *)
Lemma blk_submit_sync_wp dev rq lba count buf write dv (P : Z -> St -> Prop) s :
  let b := get_blk s in
  1 <= dev -> blk_devices b !! Z.to_nat (dev - 1) = Some dv -> rq <> 0 ->
  wp (rc ← submit_at (dv_submit dv) dev rq; if negb (rc =? 0) then mstuck Fault else mloop (await get_blk halt rq) tt)
     (set_blk (under_way dev rq dv (Request lba count buf write 0 0) b) s)
     (fun _ s' => exists status, P status s' /\ get_blk s' = under_way dev rq dv (finish_on status (Request lba count buf write 0 0)) b) ->
  wp (blk_submit_sync get_blk set_blk submit_at halt rq dev lba count buf write) s (fun rc s' =>
    exists s2, P rc s2 /\ s' = set_blk (retired dev rq dv b) s2).
Proof.
  cbv zeta. intros Hdev Hdv Hrq Hrun. pose proof (lookup_lt_Some _ _ _ Hdv) as Hlen.
  unfold blk_submit_sync. rewrite (proj2 (Z.eqb_neq dev 0)) by lia. unfold req_store, upd_blk. wp_step. wp_step. cbn beta.
  wp_step. unfold set_current at 1. wp_step. eapply wp_run; [apply (dev_load_at dev dv); [done|by rewrite (get_set _ _ HL)]|].
  cbn beta. unfold dev_store, upd_blk. wp_step. cbn beta. rewrite (set_set _ _ HL), (get_set _ _ HL).
  cbn [blk_devices blk_device_count requests]. change (Device _ _ _ _ rq) with (with_req rq dv).
  set (s1 := set_blk _ s). change s1 with (set_blk (under_way dev rq dv (Request lba count buf write 0 0) (get_blk s)) s) in *. clear s1.
  wp_step. eapply wp_run.
  { apply (dev_load_at dev (with_req rq dv)); [done|]. rewrite (get_set _ _ HL). by apply list_lookup_insert_eq. }
  cbn beta. change (dv_submit (with_req rq dv)) with (dv_submit dv). apply wp_bind_inv in Hrun. wp_step.
  eapply wp_mono; [exact Hrun|]. clear Hrun. intros rc s2 H2. cbn beta in *. destruct (negb (rc =? 0)); [done|].
  wp_step. eapply wp_mono; [exact H2|]. clear H2 s2. intros [] s2 (status & HP & Hb). cbn beta.
  wp_step. unfold set_current. wp_step. eapply wp_run.
  { apply (dev_load_at dev (with_req rq dv)); [done|]. rewrite Hb. by apply list_lookup_insert_eq. }
  cbn beta. unfold dev_store, upd_blk. wp_step. cbn beta. wp_step. eapply wp_run.
  { unfold req_load. rewrite (get_set _ _ HL), Hb. cbn [requests under_way]. by rewrite lookup_insert_eq. }
  cbn beta. wp_step. unfold req_drop, upd_blk. wp_step. cbn beta. wp_step. exists s2. split; [exact HP|].
  rewrite (set_set _ _ HL), (get_set _ _ HL). unfold retired, under_way. cbn [blk_devices blk_device_count requests].
  rewrite list_insert_insert_eq, delete_insert_eq. done.
Qed.
End Sync.
