(* ===== verification/Ata.v ===== *)
(** * The ATA driver (src/src/kernel/ata.c, ata.h)

    One IDE controller with a bus-master engine: a request programs the 48-bit
    task file and a one-entry descriptor table, starts the transfer, polls for
    its end and completes the request before it returns.  AtaDrive.v runs the
    driver against a drive. *)
From S2P Require Import Prelude KMem Spinlock BuddySpec Buddy PageAlloc PageTable KString Vfs Print Blk Log Ports Pci Dma Acpi Apic.

#[local] Open Scope Z_scope.

Definition ATA_PRIMARY_BASE : Z := 496.
Definition ATA_SECONDARY_BASE : Z := 368.
Definition ATA_PRIMARY_CTRL : Z := 1014.
Definition ATA_SECONDARY_CTRL : Z := 886.
Definition ATA_REG_DATA : Z := 0.
Definition ATA_REG_SECCOUNT0 : Z := 2.
Definition ATA_REG_LBA0 : Z := 3.
Definition ATA_REG_LBA1 : Z := 4.
Definition ATA_REG_LBA2 : Z := 5.
Definition ATA_REG_HDDEVSEL : Z := 6.
Definition ATA_REG_COMMAND : Z := 7.
Definition ATA_REG_STATUS : Z := 7.
Definition ATA_REG_SECCOUNT1 : Z := 2.
Definition ATA_REG_LBA3 : Z := 3.
Definition ATA_REG_LBA4 : Z := 4.
Definition ATA_REG_LBA5 : Z := 5.
Definition ATA_SR_BSY : Z := 128.
Definition ATA_SR_DRQ : Z := 8.
Definition ATA_SR_ERR : Z := 1.
Definition ATA_CMD_READ_DMA_EXT : Z := 37.
Definition ATA_CMD_WRITE_DMA_EXT : Z := 53.
Definition ATA_CMD_IDENTIFY : Z := 236.
Definition BM_CMD : Z := 0.
Definition BM_STATUS : Z := 2.
Definition BM_PRDT : Z := 4.
Definition BM_CMD_START : Z := Z.shiftl 1 0.
Definition BM_CMD_READ : Z := Z.shiftl 1 3.
Definition BM_STATUS_ERROR : Z := Z.shiftl 1 1.
Definition BM_STATUS_IRQ : Z := Z.shiftl 1 2.
Definition BM_STATUS_DRV0_DMA : Z := Z.shiftl 1 5.
Definition ATA_PRD_EOT : Z := Z.shiftl 1 15.

(** A [struct ata_channel *] is the index in [channels] plus one; [ch_blk] is
    the device's number in the block layer, 0 for none. *)
Record ata_channel := Channel { ch_base : Z; ch_ctrl : Z; ch_bm_base : Z; ch_prd : Z; ch_prd_phys : Z; ch_blk : Z }.
Definition no_channel : ata_channel := Channel 0 0 0 0 0 0.

(** [struct ata_prd] *)
Definition PRD_base : Z := 0.
Definition PRD_count : Z := 4.
Definition PRD_eot : Z := 6.

Section Ata.
Context `{PA : PageAllocator} {St : Type} `{IO : PortIO St} `{MM : Mmio St} `{CO : Console St}.
Context (get_kst : St -> kst) (set_kst : kst -> St -> St).
Context (get_acpi : St -> acpi_tables) (get_apic : St -> apic_state).
Context (get_blk : St -> blk_state) (set_blk : blk_state -> St -> St).
Context (get_pci : St -> pci_state).
Context (get_ata : St -> list ata_channel) (set_ata : list ata_channel -> St -> St).

(** The address of [ata_submit] in the operations of a device. *)
Context (ata_submit_at : Z).
#[local] Abbreviation dev_load := (dev_load get_blk).
#[local] Abbreviation req_load := (req_load get_blk).
#[local] Abbreviation blk_complete := (blk_complete get_blk set_blk).

Definition chan_load (ch : Z) : M St ata_channel := fun s =>
  if 1 <=? ch then
    match get_ata s !! Z.to_nat (ch - 1) with Some c => Ok (c, s) | None => Stuck Fault end
  else Stuck Fault.
Definition chan_store (ch : Z) (c : ata_channel) : M St unit :=
  mmodify (fun s => set_ata (<[Z.to_nat (ch - 1) := c]> (get_ata s)) s).

#[local] Abbreviation store := (store get_kst set_kst).
#[local] Abbreviation phys := (phys get_kst).

(** [while (inb(port) & ATA_SR_BSY);] *)
Definition busy_body (port : Z) (_ : unit) : M St (unit + unit) :=
  x ← inb port;
  if negb (Z.land x ATA_SR_BSY =? 0) then mret (inl tt) else mret (inr tt).
Definition ata_wait_bsy (c : ata_channel) : M St unit := mloop (busy_body (ch_ctrl c)) tt.

Definition fill_prd (c : ata_channel) (buf_pa bytes : Z) : M St unit :=
  store 4 (ch_prd c + PRD_base) (u32 buf_pa);;
  store 2 (ch_prd c + PRD_count) (u16 (if bytes =? 65536 then 0 else bytes));;
  store 2 (ch_prd c + PRD_eot) ATA_PRD_EOT.

(** The count and the address, high bytes first: each register keeps the
    value written before. *)
Definition task_file (c : ata_channel) (lba count : Z) : M St unit :=
  outb (u16 (ch_base c + ATA_REG_SECCOUNT1)) (u8 (Z.shiftr count 8));;
  outb (u16 (ch_base c + ATA_REG_LBA3)) (u8 (Z.shiftr lba 24));;
  outb (u16 (ch_base c + ATA_REG_LBA4)) (u8 (Z.shiftr lba 32));;
  outb (u16 (ch_base c + ATA_REG_LBA5)) (u8 (Z.shiftr lba 40));;
  outb (u16 (ch_base c + ATA_REG_SECCOUNT0)) (u8 count);;
  outb (u16 (ch_base c + ATA_REG_LBA0)) (u8 lba);;
  outb (u16 (ch_base c + ATA_REG_LBA1)) (u8 (Z.shiftr lba 8));;
  outb (u16 (ch_base c + ATA_REG_LBA2)) (u8 (Z.shiftr lba 16)).

(** One turn of the loop that polls [BM_STATUS]. *)
Definition poll_body (c : ata_channel) (_ : unit) : M St (unit + Z) :=
  x ← inb (u16 (ch_bm_base c + BM_STATUS));
  if Z.land x (Z.lor BM_STATUS_IRQ BM_STATUS_ERROR) =? 0 then mret (inl tt) else mret (inr x).

Definition ata_submit (dev rq : Z) : M St Z :=
  d ← dev_load dev;
  let ch := dv_priv d in
  r ← req_load rq;
  let lba := rq_lba r in
  let count := rq_count r in
  buf_pa ← phys (rq_buf r);
  let bytes := u32 (count * dv_sector_size d) in
  c ← chan_load ch;
  fill_prd c buf_pa bytes;;
  outb (u16 (ch_bm_base c + BM_CMD)) 0;;
  st ← inb (u16 (ch_bm_base c + BM_STATUS));
  outb (u16 (ch_bm_base c + BM_STATUS)) (u8 (Z.lor (Z.lor st BM_STATUS_ERROR) BM_STATUS_IRQ));;
  outl (u16 (ch_bm_base c + BM_PRDT)) (u32 (ch_prd_phys c));;
  let bm_cmd := if rq_write r =? 0 then BM_CMD_READ else 0 in
  outb (u16 (ch_bm_base c + BM_CMD)) bm_cmd;;
  ata_wait_bsy c;;
  outb (u16 (ch_base c + ATA_REG_HDDEVSEL)) 224;;
  task_file c lba count;;
  let irq := if ch =? 1 then 14 else 15 in
  ioapic_mask_irq get_kst get_acpi get_apic irq;;
  outb (u16 (ch_base c + ATA_REG_COMMAND)) (if rq_write r =? 0 then ATA_CMD_READ_DMA_EXT else ATA_CMD_WRITE_DMA_EXT);;
  outb (u16 (ch_bm_base c + BM_CMD)) (Z.lor bm_cmd BM_CMD_START);;
  bm_status ← mloop (poll_body c) tt;
  outb (u16 (ch_bm_base c + BM_CMD)) 0;;
  outb (u16 (ch_bm_base c + BM_STATUS)) bm_status;;
  inb (u16 (ch_base c + ATA_REG_STATUS));;
  lapic_eoi get_apic;;
  ioapic_unmask_irq get_kst get_acpi get_apic irq;;
  blk_complete dev (if negb (Z.land bm_status BM_STATUS_ERROR =? 0) then -1 else 0);;
  mret 0.

(** [channel] is an index. *)
Definition ata_irq_handler (channel : Z) : M St unit :=
  c ← chan_load (channel + 1);
  status ← inb (u16 (ch_bm_base c + BM_STATUS));
  outb (u16 (ch_bm_base c + BM_STATUS)) status;;
  outb (u16 (ch_bm_base c + BM_CMD)) 0;;
  inb (u16 (ch_base c + ATA_REG_STATUS));;
  let err := if negb (Z.land status BM_STATUS_ERROR =? 0) then -1 else 0 in
  if negb (ch_blk c =? 0) then blk_complete (ch_blk c) err else mret tt.

(** The four reads that let 400 ns pass. *)
Definition delay_400ns (c : ata_channel) : M St unit :=
  inb (ch_ctrl c);; inb (ch_ctrl c);; inb (ch_ctrl c);; inb (ch_ctrl c);; mret tt.

(** Waits for data or an error. *)
Definition drq_body (c : ata_channel) (_ : unit) : M St (unit + Z) :=
  status ← inb (u16 (ch_base c + ATA_REG_STATUS));
  if negb (Z.land status ATA_SR_DRQ =? 0) then mret (inr 0)
  else if negb (Z.land status ATA_SR_ERR =? 0) then mret (inr (-1))
  else mret (inl tt).

(** What is read is not used: the sector count is computed and dropped. *)
Definition ata_identify_poll (c : ata_channel) : M St Z :=
  ata_wait_bsy c;;
  outb (u16 (ch_base c + ATA_REG_HDDEVSEL)) 160;;
  delay_400ns c;;
  outb (u16 (ch_base c + ATA_REG_SECCOUNT0)) 0;;
  outb (u16 (ch_base c + ATA_REG_LBA0)) 0;;
  outb (u16 (ch_base c + ATA_REG_LBA1)) 0;;
  outb (u16 (ch_base c + ATA_REG_LBA2)) 0;;
  outb (u16 (ch_base c + ATA_REG_COMMAND)) ATA_CMD_IDENTIFY;;
  delay_400ns c;;
  status ← inb (ch_ctrl c);
  if (status =? 0) || (status =? 255) then mret (-1)
  else
    mloop (busy_body (ch_ctrl c)) tt;;
    l1 ← inb (u16 (ch_base c + ATA_REG_LBA1));
    l2 ← (if negb (l1 =? 0) then mret 0 else inb (u16 (ch_base c + ATA_REG_LBA2)));
    if negb (l1 =? 0) || negb (l2 =? 0) then mret (-1)
    else
      rc ← mloop (drq_body c) tt;
      if rc =? -1 then mret (-1)
      else
        mfor 256 (fun _ => inw (u16 (ch_base c + ATA_REG_DATA));; mret (None : option unit)) 0;;
        mret 0.

Definition find_ide : M St (option pci_device) := first_storage get_pci PCI_SUBCLASS_IDE.

Definition set_ports (base ctrl bm : Z) (c : ata_channel) : ata_channel := Channel base ctrl bm (ch_prd c) (ch_prd_phys c) (ch_blk c).
Definition set_prd (p q : Z) (c : ata_channel) : ata_channel := Channel (ch_base c) (ch_ctrl c) (ch_bm_base c) p q (ch_blk c).
Definition set_chan_blk (b : Z) (c : ata_channel) : ata_channel :=
  Channel (ch_base c) (ch_ctrl c) (ch_bm_base c) (ch_prd c) (ch_prd_phys c) b.
Definition chan_update (ch : Z) (f : ata_channel -> ata_channel) : M St unit := c ← chan_load ch; chan_store ch (f c).

Definition ata_tag : option (list Z) := Some (str "ATA").

(** The body of the loop over the channels, which runs for [i = 0] only. *)
Definition init_channel (i : Z) : M St unit :=
  let ch := i + 1 in
  chan_update ch (set_chan_blk 0);;
  p ← mzoom get_kst set_kst (pa_alloc 1);
  chan_update ch (fun c => Channel (ch_base c) (ch_ctrl c) (ch_bm_base c) p (ch_prd_phys c) (ch_blk c));;
  if p =? 0 then mret tt
  else
    q ← phys p;
    chan_update ch (set_prd p q);;
    c ← chan_load ch;
    st ← inb (u16 (ch_bm_base c + BM_STATUS));
    outb (u16 (ch_bm_base c + BM_STATUS)) (u8 (Z.lor st BM_STATUS_DRV0_DMA));;
    rc ← ata_identify_poll c;
    if negb (rc =? 0) then klog ata_tag (str "no drive on channel %d") [Word i]
    else
      let name := str "ata" ++ [48 + i] in
      b ← blk_register get_blk set_blk name ata_submit_at 512 ch;
      chan_update ch (set_chan_blk b);;
      if negb (b =? 0) then klog_ok ata_tag (str "disk %s") [Str (Some name)] else mret tt.

Definition ata_init : M St unit :=
  ide ← find_ide;
  match ide with
  | None => klog ata_tag (str "no IDE controller found") []
  | Some d =>
      klog ata_tag (str "IDE controller at %u:%u") [Word (pd_bus d); Word (pd_slot d)];;
      cmd ← pci_read16 (pd_bus d) (pd_slot d) (pd_func d) 4;
      pci_write16 (pd_bus d) (pd_slot d) (pd_func d) 4 (Z.lor cmd 4);;
      bar4 ← pci_read32 (pd_bus d) (pd_slot d) (pd_func d) (PCI_BAR0_OFFSET + 4 * 4);
      let bm_base := u16 (Z.land bar4 (u32 (Z.lnot 3))) in
      chan_update 1 (set_ports ATA_PRIMARY_BASE ATA_PRIMARY_CTRL bm_base);;
      chan_update 2 (set_ports ATA_SECONDARY_BASE ATA_SECONDARY_CTRL (u16 (bm_base + 8)));;
      init_channel 0
  end.
End Ata.
