(* ===== verification/AtaDrive.v ===== *)
(** * The ATA driver on a drive (src/src/kernel/ata.c with blk.c)

    A drive that keeps the two-deep registers of the 48-bit task file and a
    bus-master engine that moves the data of a one-entry descriptor table, as
    the port accesses of the driver see them.  A command that does not fit the
    engine's direction, its table or the selected device faults, so that the
    theorem rules it out. *)
From S2P Require Import Prelude KMem Spinlock BuddySpec Buddy PageAlloc PageTable KString Vfs Print Blk DiskBytes Log Ports Pci Dma Acpi Apic Ata.

#[local] Open Scope Z_scope.

(** ** The drive *)

(** A task-file register: what was written last, and before. *)
Record fifo := Fifo { cur : Z; prev : Z }.
Definition feed (v : Z) (f : fifo) : fifo := Fifo v (cur f).

(** [dr_busy] answers of the control port still say busy; a started transfer
    is over after [dr_delay] more reads of the engine's status, [dr_wait]
    while one runs. *)
Record drive := Drive {
  dr_count : fifo; dr_lba0 : fifo; dr_lba1 : fifo; dr_lba2 : fifo; dr_select : Z; dr_cmd : Z;
  dr_bm : Z; dr_status : Z; dr_prdt : Z;
  dr_busy : nat; dr_delay : nat; dr_wait : option nat; dr_fails : bool; dr_disk : Z -> Z
}.

Record computer := Computer { c_kst : kst; c_blk : blk_state; c_ata : list ata_channel; c_drive : drive }.

Definition with_drive (f : drive -> drive) (s : computer) : computer :=
  Computer (c_kst s) (c_blk s) (c_ata s) (f (c_drive s)).

Inductive port := Count | Lba0 | Lba1 | Lba2 | Select | Command | Control | BmCmd | BmStatus | BmPrdt | Nowhere.

(** The registers behind the port numbers; the engine sits at [bm]. *)
Definition decode (bm p : Z) : port :=
  if p =? 498 then Count else if p =? 499 then Lba0 else if p =? 500 then Lba1 else if p =? 501 then Lba2
  else if p =? 502 then Select else if p =? 503 then Command else if p =? 1014 then Control
  else if p =? bm then BmCmd else if p =? bm + 2 then BmStatus else if p =? bm + 4 then BmPrdt else Nowhere.

(** The address and the length, in sectors, the task file holds. *)
Definition task_lba (d : drive) : Z :=
  cur (dr_lba0 d) + 2 ^ 8 * cur (dr_lba1 d) + 2 ^ 16 * cur (dr_lba2 d) +
  2 ^ 24 * prev (dr_lba0 d) + 2 ^ 32 * prev (dr_lba1 d) + 2 ^ 40 * prev (dr_lba2 d).
Definition task_count (d : drive) : Z :=
  let n := cur (dr_count d) + 2 ^ 8 * prev (dr_count d) in if n =? 0 then 65536 else n.

(** The engine is started: the command moves [bytes] bytes between the disk
    and the buffer of the table, unless the drive fails. *)
Definition start (s : computer) : res (unit * computer) :=
  let d := c_drive s in let h := heap (c_kst s) in
  let t := dr_prdt d + hhdm_offset (c_kst s) in
  let base := rd32 h t + hhdm_offset (c_kst s) in
  let len := if rd16 h (t + 4) =? 0 then 65536 else rd16 h (t + 4) in
  let bytes := 512 * task_count d in let from := 512 * task_lba d in
  let running := fun disk => Drive (dr_count d) (dr_lba0 d) (dr_lba1 d) (dr_lba2 d) (dr_select d) 0
    (dr_bm d) (dr_status d) (dr_prdt d) (dr_busy d) (dr_delay d) (Some (dr_delay d)) (dr_fails d) disk in
  if negb (Z.land (dr_select d) 80 =? 64) || negb (Z.testbit (rd16 h (t + 6)) 15) || negb (len =? bytes) then Stuck Fault
  else if dr_fails d then Ok (tt, with_drive (fun d => running (dr_disk d)) s)
  else if (dr_cmd d =? 37) && Z.testbit (dr_bm d) 3 then
    Ok (tt, Computer (set_heap (store_bytes h base (sectors (dr_disk d) from (Z.to_nat bytes))) (c_kst s)) (c_blk s) (c_ata s)
              (running (dr_disk d)))
  else if (dr_cmd d =? 53) && negb (Z.testbit (dr_bm d) 3) then
    Ok (tt, with_drive (fun d => running (written (dr_disk d) from bytes h base)) s)
  else Stuck Fault.

Definition upd (f : drive -> drive) : M computer unit := mmodify (with_drive f).

Section Drive.
(** Where the engine's registers are. *)
Context (bm : Z).

Definition drive_out (p v : Z) : M computer unit :=
  match decode bm p with
  | Count => upd (fun d => Drive (feed v (dr_count d)) (dr_lba0 d) (dr_lba1 d) (dr_lba2 d) (dr_select d) (dr_cmd d)
      (dr_bm d) (dr_status d) (dr_prdt d) (dr_busy d) (dr_delay d) (dr_wait d) (dr_fails d) (dr_disk d))
  | Lba0 => upd (fun d => Drive (dr_count d) (feed v (dr_lba0 d)) (dr_lba1 d) (dr_lba2 d) (dr_select d) (dr_cmd d)
      (dr_bm d) (dr_status d) (dr_prdt d) (dr_busy d) (dr_delay d) (dr_wait d) (dr_fails d) (dr_disk d))
  | Lba1 => upd (fun d => Drive (dr_count d) (dr_lba0 d) (feed v (dr_lba1 d)) (dr_lba2 d) (dr_select d) (dr_cmd d)
      (dr_bm d) (dr_status d) (dr_prdt d) (dr_busy d) (dr_delay d) (dr_wait d) (dr_fails d) (dr_disk d))
  | Lba2 => upd (fun d => Drive (dr_count d) (dr_lba0 d) (dr_lba1 d) (feed v (dr_lba2 d)) (dr_select d) (dr_cmd d)
      (dr_bm d) (dr_status d) (dr_prdt d) (dr_busy d) (dr_delay d) (dr_wait d) (dr_fails d) (dr_disk d))
  | Select => upd (fun d => Drive (dr_count d) (dr_lba0 d) (dr_lba1 d) (dr_lba2 d) v (dr_cmd d)
      (dr_bm d) (dr_status d) (dr_prdt d) (dr_busy d) (dr_delay d) (dr_wait d) (dr_fails d) (dr_disk d))
  | Command => upd (fun d => Drive (dr_count d) (dr_lba0 d) (dr_lba1 d) (dr_lba2 d) (dr_select d) v
      (dr_bm d) (dr_status d) (dr_prdt d) (dr_busy d) (dr_delay d) (dr_wait d) (dr_fails d) (dr_disk d))
  | BmCmd => fun s =>
      let s := with_drive (fun d => Drive (dr_count d) (dr_lba0 d) (dr_lba1 d) (dr_lba2 d) (dr_select d) (dr_cmd d)
        v (dr_status d) (dr_prdt d) (dr_busy d) (dr_delay d) (dr_wait d) (dr_fails d) (dr_disk d)) s in
      if Z.testbit v 0 then start s else Ok (tt, s)
  | BmStatus => upd (fun d => Drive (dr_count d) (dr_lba0 d) (dr_lba1 d) (dr_lba2 d) (dr_select d) (dr_cmd d)
      (dr_bm d) (Z.lor (Z.land (Z.land (dr_status d) 6) (Z.lnot v)) (Z.land v 96)) (dr_prdt d)
      (dr_busy d) (dr_delay d) (dr_wait d) (dr_fails d) (dr_disk d))
  | _ => mret tt
  end.

Definition drive_outl (p v : Z) : M computer unit :=
  match decode bm p with
  | BmPrdt => upd (fun d => Drive (dr_count d) (dr_lba0 d) (dr_lba1 d) (dr_lba2 d) (dr_select d) (dr_cmd d)
      (dr_bm d) (dr_status d) v (dr_busy d) (dr_delay d) (dr_wait d) (dr_fails d) (dr_disk d))
  | _ => mret tt
  end.

Definition with_status (st : Z) (w : option nat) (d : drive) : drive :=
  Drive (dr_count d) (dr_lba0 d) (dr_lba1 d) (dr_lba2 d) (dr_select d) (dr_cmd d) (dr_bm d) st (dr_prdt d)
    (dr_busy d) (dr_delay d) w (dr_fails d) (dr_disk d).
Definition with_busy (n : nat) (d : drive) : drive :=
  Drive (dr_count d) (dr_lba0 d) (dr_lba1 d) (dr_lba2 d) (dr_select d) (dr_cmd d) (dr_bm d) (dr_status d) (dr_prdt d)
    n (dr_delay d) (dr_wait d) (dr_fails d) (dr_disk d).

Definition drive_in (p : Z) : M computer Z := fun s =>
  let d := c_drive s in
  match decode bm p with
  | Control =>
      match dr_busy d with
      | O => Ok (80, s)
      | S n => Ok (208, with_drive (with_busy n) s)
      end
  | BmStatus =>
      match dr_wait d with
      | None => Ok (u8 (dr_status d), s)
      | Some (S n) => Ok (u8 (Z.lor (dr_status d) 1), with_drive (with_status (dr_status d) (Some n)) s)
      | Some O => let st := Z.lor (dr_status d) (if dr_fails d then 6 else 4) in
          Ok (u8 st, with_drive (with_status st None) s)
      end
  | Command => Ok (80, s)
  | _ => Ok (0, s)
  end.

Lemma drive_in_u8 p s b s' : drive_in p s = Ok (b, s') -> 0 <= b < 2 ^ 8.
Proof.
  unfold drive_in. intros H.
  destruct (decode bm p); try (injection H as <- <-; split; [done|by vm_compute]).
  - destruct (dr_busy _); injection H as <- <-; split; first [done | by vm_compute].
  - destruct (dr_wait _) as [[|n]|]; injection H as <- <-; apply u8_range.
Qed.

#[local] Instance drive_ports : PortIO computer.
Proof.
  refine {| outb := fun p v => drive_out p (u8 v); outw := fun _ _ => mret tt; outl := fun p v => drive_outl p (u32 v);
            inb := drive_in; inw := fun _ => mret 0; inl_ := fun _ => mret 0; inb_u8 := drive_in_u8 |}.
  - intros p s b s' H. injection H as <- <-. split; [done|by vm_compute].
  - intros p s b s' H. injection H as <- <-. split; [done|by vm_compute].
Defined.

(** The interrupt controllers answer zero and forget what is written. *)
#[local] Instance quiet_mmio : Mmio computer.
Proof.
  refine {| mmio_read32 := fun _ => mret 0; mmio_write32 := fun _ _ => mret tt |}.
  intros a s v s' H. injection H as <- <-. split; [done|by vm_compute].
Defined.

Definition put_kst (k : kst) (s : computer) : computer := Computer k (c_blk s) (c_ata s) (c_drive s).
Definition put_blk (b : blk_state) (s : computer) : computer := Computer (c_kst s) b (c_ata s) (c_drive s).

Lemma lens_disk_blk : lens c_blk put_blk.
Proof. by split; intros; try done; destruct s. Qed.

(** The driver in the block layer of this computer, its request at [rq]. *)
Definition submit_on : Z -> Z -> M computer Z :=
  ata_submit c_kst put_kst (fun _ => acpi_none) (fun _ => Apic_state 0 0) c_blk put_blk c_ata.
Definition disk_io (dev rq lba count buf write : Z) : M computer Z :=
  blk_submit_sync c_blk put_blk (fun _ => submit_on) (mstuck Halt) rq dev lba count buf write.

(** ** The registers the driver reaches *)

(** The engine's eight ports are ports, and not those of the channel. *)
Definition engine_at : Prop :=
  0 <= bm <= 2 ^ 16 - 8 /\ (bm + 8 <= 498 \/ 504 <= bm) /\ (bm + 8 <= 1014 \/ 1015 <= bm).
Context (Hbm : engine_at).

Lemma decode_cmd : decode bm (u16 (bm + BM_CMD)) = BmCmd.
Proof.
  destruct Hbm as (? & ? & ?). rewrite u16_small by (unfold BM_CMD; lia). unfold decode, BM_CMD.
  repeat (case Z.eqb_spec; intros ?; [first [reflexivity|lia]|]). lia.
Qed.
Lemma decode_status : decode bm (u16 (bm + BM_STATUS)) = BmStatus.
Proof.
  destruct Hbm as (? & ? & ?). rewrite u16_small by (unfold BM_STATUS; lia). unfold decode, BM_STATUS.
  repeat (case Z.eqb_spec; intros ?; [first [reflexivity|lia]|]). lia.
Qed.
Lemma decode_prdt : decode bm (u16 (bm + BM_PRDT)) = BmPrdt.
Proof.
  destruct Hbm as (? & ? & ?). rewrite u16_small by (unfold BM_PRDT; lia). unfold decode, BM_PRDT.
  repeat (case Z.eqb_spec; intros ?; [first [reflexivity|lia]|]). lia.
Qed.

(** ** The waits *)

Lemma wait_bsy_run c k b ats d : ch_ctrl c = ATA_PRIMARY_CTRL -> Z.of_nat (dr_busy d) < 2 ^ 64 ->
  ata_wait_bsy c (Computer k b ats d) = Ok (tt, Computer k b ats (with_busy 0 d)).
Proof.
  intros Hc Hb. unfold ata_wait_bsy. rewrite Hc. apply (mloop_runs _ _ _ _ (Z.of_nat (dr_busy d))); [|done].
  clear Hb. destruct d as [cnt l0 l1 l2 sel cmd m st pt busy dl w f dk]. cbn [dr_busy].
  induction busy as [|n IH]; [by apply runs_stop|].
  rewrite Nat2Z.inj_succ. eapply runs_next; [reflexivity|exact IH|lia].
Qed.

(** The engine's answer at the end of a transfer. *)
Definition finished (d : drive) : Z := u8 (Z.lor (dr_status d) (if dr_fails d then 6 else 4)).

Lemma ata_poll_run c k b ats d n : ch_bm_base c = bm -> dr_wait d = Some n -> Z.of_nat n < 2 ^ 64 ->
  0 <= dr_status d < 256 -> Z.land (dr_status d) 6 = 0 ->
  mloop (poll_body c) tt (Computer k b ats d) =
    Ok (finished d, Computer k b ats (with_status (Z.lor (dr_status d) (if dr_fails d then 6 else 4)) None d)).
Proof.
  intros Hc Hw Hn Hr Hs. apply (mloop_runs _ _ _ _ (Z.of_nat n)); [|done]. clear Hn.
  destruct d as [cnt l0 l1 l2 sel cmd m st pt busy dl w f dk]. cbn [dr_wait dr_status dr_fails] in *. subst w.
  pose proof (all_below (fun st => negb (Z.land st 6 =? 0) ||
    ((Z.land (u8 (Z.lor st 1)) 6 =? 0) && negb (Z.land (u8 (Z.lor st 6)) 6 =? 0) && negb (Z.land (u8 (Z.lor st 4)) 6 =? 0)))
    256 ltac:(by vm_compute) st Hr) as H. cbv beta in H. rewrite Hs in H. cbn in H.
  apply andb_prop in H as [H H4]. apply andb_prop in H as [H1 H6]. apply negb_true_iff in H4, H6.
  induction n as [|n IH].
  - apply runs_stop. unfold poll_body, mbind, M_bind. rewrite Hc. unfold inb, drive_ports, drive_in. rewrite decode_status.
    cbn [c_drive dr_wait dr_fails dr_status]. change (Z.lor BM_STATUS_IRQ BM_STATUS_ERROR) with 6.
    by destruct f; rewrite ?H4, ?H6.
  - rewrite Nat2Z.inj_succ. eapply runs_next; [|exact IH|lia].
    unfold poll_body, mbind, M_bind. rewrite Hc. unfold inb, drive_ports, drive_in. rewrite decode_status.
    cbn [c_drive dr_wait dr_fails dr_status]. change (Z.lor BM_STATUS_IRQ BM_STATUS_ERROR) with 6. by rewrite H1.
Qed.

(** The task file keeps two writes of each register. *)
Lemma task_file_run c lba count k b ats d : ch_base c = ATA_PRIMARY_BASE ->
  exists c0 l0 l1 l2, task_file c lba count (Computer k b ats d) = Ok (tt, Computer k b ats
    (Drive c0 l0 l1 l2 (dr_select d) (dr_cmd d) (dr_bm d) (dr_status d) (dr_prdt d)
       (dr_busy d) (dr_delay d) (dr_wait d) (dr_fails d) (dr_disk d))) /\
  c0 = Fifo (u8 (u8 count)) (u8 (u8 (Z.shiftr count 8))) /\
  l0 = Fifo (u8 (u8 lba)) (u8 (u8 (Z.shiftr lba 24))) /\
  l1 = Fifo (u8 (u8 (Z.shiftr lba 8))) (u8 (u8 (Z.shiftr lba 32))) /\
  l2 = Fifo (u8 (u8 (Z.shiftr lba 16))) (u8 (u8 (Z.shiftr lba 40))).
Proof.
  intros Hc. exists (Fifo (u8 (u8 count)) (u8 (u8 (Z.shiftr count 8)))),
    (Fifo (u8 (u8 lba)) (u8 (u8 (Z.shiftr lba 24)))), (Fifo (u8 (u8 (Z.shiftr lba 8))) (u8 (u8 (Z.shiftr lba 32)))),
    (Fifo (u8 (u8 (Z.shiftr lba 16))) (u8 (u8 (Z.shiftr lba 40)))).
  split; [|done]. unfold task_file. rewrite Hc. reflexivity.
Qed.

(** ** A transfer *)

(** The descriptor table for [bytes] bytes at [pa]. *)
Definition prd_mem (m : mem) (prd pa bytes : Z) : mem :=
  wr 2 (wr 2 (wr 4 m (prd + PRD_base) (u32 pa)) (prd + PRD_count) (u16 (if bytes =? 65536 then 0 else bytes))) (prd + PRD_eot) ATA_PRD_EOT.

Lemma prd_mem_read m prd pa bytes : 0 <= pa < 2 ^ 32 -> 0 < bytes <= 65536 ->
  rd32 (prd_mem m prd pa bytes) prd = pa /\
  (if rd16 (prd_mem m prd pa bytes) (prd + 4) =? 0 then 65536 else rd16 (prd_mem m prd pa bytes) (prd + 4)) = bytes /\
  rd16 (prd_mem m prd pa bytes) (prd + 6) = ATA_PRD_EOT.
Proof.
  intros Hpa Hb. unfold prd_mem, PRD_base, PRD_count, PRD_eot. rewrite Z.add_0_r. split_and!.
  - rewrite !rd_wr_ne by lia. rewrite rd_wr_eq, u32_small by done. by apply Z.mod_small.
  - rewrite rd_wr_ne by lia. rewrite rd_wr_eq. change (2 ^ (8 * Z.of_nat 2)) with (2 ^ 16).
    destruct (Z.eqb_spec bytes 65536) as [->|Hne]; [done|].
    rewrite u16_small by lia. rewrite Z.mod_small by lia. by rewrite (proj2 (Z.eqb_neq _ _)) by lia.
  - by rewrite rd_wr_eq.
Qed.

Lemma prd_mem_ne m prd pa bytes a : ~ (prd <= a < prd + 8) -> rd8 (prd_mem m prd pa bytes) a = rd8 m a.
Proof. intros H. unfold prd_mem, PRD_base, PRD_count, PRD_eot. by rewrite !rd8_wr_ne by lia. Qed.

(** What the driver needs of the computer before a transfer of [count] sectors
    from [lba] on, to or from [buf]: the channel as [ata_init] leaves it, an
    idle drive, and a buffer below 4 GiB apart from the table. *)
Record ready (s : computer) (lba count buf : Z) (c : ata_channel) : Prop := {
  rd_chan : c_ata s !! 0%nat = Some c;
  rd_ports : ch_base c = ATA_PRIMARY_BASE /\ ch_ctrl c = ATA_PRIMARY_CTRL /\ ch_bm_base c = bm;
  rd_prd : ch_prd c = ch_prd_phys c + hhdm_offset (c_kst s) /\ 0 <= ch_prd_phys c <= 2 ^ 32 - 8;
  rd_hhdm : 0 <= hhdm_offset (c_kst s) <= 2 ^ 64 - 2 ^ 32;
  rd_lba : 0 <= lba < 2 ^ 48; rd_count : 1 <= count <= 128;
  rd_buf : hhdm_offset (c_kst s) <= buf <= hhdm_offset (c_kst s) + 2 ^ 32 - 512 * count;
  rd_apart : buf + 512 * count <= ch_prd c \/ ch_prd c + 8 <= buf;
  rd_idle : dr_wait (c_drive s) = None /\ 0 <= dr_status (c_drive s) < 2 ^ 8;
  rd_times : Z.of_nat (dr_busy (c_drive s)) < 2 ^ 64 /\ Z.of_nat (dr_delay (c_drive s)) < 2 ^ 64
}.

(** The engine's status once the driver has cleared it. *)
Definition cleared (st : Z) : Z :=
  let v := u8 (u8 (Z.lor (Z.lor (u8 st) BM_STATUS_ERROR) BM_STATUS_IRQ)) in
  Z.lor (Z.land (Z.land st 6) (Z.lnot v)) (Z.land v 96).

Lemma cleared_ok st : 0 <= st < 2 ^ 8 ->
  0 <= cleared st < 256 /\ Z.land (cleared st) 6 = 0 /\
  Z.land (u8 (Z.lor (cleared st) 6)) BM_STATUS_ERROR <> 0 /\ Z.land (u8 (Z.lor (cleared st) 4)) BM_STATUS_ERROR = 0.
Proof.
  intros H. pose proof (all_below (fun st => (0 <=? cleared st) && (cleared st <? 256) && (Z.land (cleared st) 6 =? 0) &&
    negb (Z.land (u8 (Z.lor (cleared st) 6)) BM_STATUS_ERROR =? 0) && (Z.land (u8 (Z.lor (cleared st) 4)) BM_STATUS_ERROR =? 0))
    256 ltac:(by vm_compute) st H) as E. cbv beta in E.
  repeat (apply andb_prop in E as [E ?]). apply negb_true_iff in H1. split_and!; lia.
Qed.

Lemma start_run (rd : bool) k b ats d lba count pa :
  let h := heap k in let t := dr_prdt d + hhdm_offset k in let buf := pa + hhdm_offset k in
  dr_select d = 224 -> task_lba d = lba -> task_count d = count ->
  rd32 h t = pa -> (if rd16 h (t + 4) =? 0 then 65536 else rd16 h (t + 4)) = 512 * count -> rd16 h (t + 6) = ATA_PRD_EOT ->
  dr_cmd d = (if rd then 37 else 53) -> dr_bm d = u8 (Z.lor (if rd then BM_CMD_READ else 0) BM_CMD_START) ->
  start (Computer k b ats d) = Ok (tt, Computer (set_heap (after_heap (negb (dr_fails d)) rd (dr_disk d) h (512 * lba) (512 * count) buf) k) b ats
    (Drive (dr_count d) (dr_lba0 d) (dr_lba1 d) (dr_lba2 d) (dr_select d) 0 (dr_bm d) (dr_status d) (dr_prdt d)
       (dr_busy d) (dr_delay d) (Some (dr_delay d)) (dr_fails d) (after_disk (negb (dr_fails d)) rd (dr_disk d) h (512 * lba) (512 * count) buf))).
Proof.
  cbv zeta. intros Hs Hl Hc Hb Hn He Hcmd Hbm'. unfold start. cbn [c_drive c_kst]. rewrite Hs, Hl, Hc, Hn, He, Hb, (Z.eqb_refl (512 * count)).
  change (Z.land 224 80 =? 64) with true. change (Z.testbit ATA_PRD_EOT 15) with true. cbn [negb orb].
  unfold after_heap, after_disk. destruct k as [h bd hw hh cr]. cbn [heap set_heap] in *.
  destruct (dr_fails d) eqn:Hf; [by destruct rd|]. cbn [negb andb]. rewrite Hcmd, Hbm'. by destruct rd.
Qed.

(** One port access of the driver: [E] is the register it reaches. *)
#[local] Ltac port E := wp_step; eapply wp_run;
  [unfold outb, inb, outl, drive_ports, drive_out, drive_in, drive_outl; rewrite E; reflexivity|]; cbn beta iota.
#[local] Ltac port_known := wp_step; eapply wp_run; [reflexivity|]; cbn beta iota.

(** From the command to the completion, the registers being set up. *)
Lemma command_wp (rd : bool) c dev rq dv r k b b0 ats d lba count pa :
  let h := heap k in let t := dr_prdt d + hhdm_offset k in let buf := pa + hhdm_offset k in
  ch_bm_base c = bm -> ch_base c = ATA_PRIMARY_BASE ->
  dr_select d = 224 -> task_lba d = lba -> task_count d = count ->
  rd32 h t = pa -> (if rd16 h (t + 4) =? 0 then 65536 else rd16 h (t + 4)) = 512 * count -> rd16 h (t + 6) = ATA_PRD_EOT ->
  (exists st, 0 <= st < 2 ^ 8 /\ dr_status d = cleared st) -> Z.of_nat (dr_delay d) < 2 ^ 64 ->
  b = under_way dev rq dv r b0 -> 1 <= dev -> (Z.to_nat (dev - 1) < length (blk_devices b0))%nat -> rq <> 0 ->
  wp (outb (u16 (ATA_PRIMARY_BASE + ATA_REG_COMMAND)) (if rd then ATA_CMD_READ_DMA_EXT else ATA_CMD_WRITE_DMA_EXT);;
      outb (u16 (bm + BM_CMD)) (Z.lor (if rd then BM_CMD_READ else 0) BM_CMD_START);;
      bm_status ← mloop (poll_body c) tt;
      outb (u16 (bm + BM_CMD)) 0;;
      outb (u16 (bm + BM_STATUS)) bm_status;;
      inb (u16 (ATA_PRIMARY_BASE + ATA_REG_STATUS));;
      lapic_eoi (fun _ => Apic_state 0 0);;
      ioapic_unmask_irq c_kst (fun _ => acpi_none) (fun _ => Apic_state 0 0) 14;;
      blk_complete c_blk put_blk dev (if negb (Z.land bm_status BM_STATUS_ERROR =? 0) then -1 else 0);;
      mret 0) (Computer k b ats d) (fun rc s' =>
    rc = 0 /\ c_blk s' = under_way dev rq dv (finish_on (if dr_fails d then -1 else 0) r) b0 /\
    c_kst s' = set_heap (after_heap (negb (dr_fails d)) rd (dr_disk d) h (512 * lba) (512 * count) buf) k /\ c_ata s' = ats /\
    dr_disk (c_drive s') = after_disk (negb (dr_fails d)) rd (dr_disk d) h (512 * lba) (512 * count) buf).
Proof.
  cbv zeta. intros Hm Hb Hsel Hl Hc Hpa Hn He (st & Hst & Ed) Hdel Hblk Hdev Hlen Hrq.
  destruct (cleared_ok st Hst) as (Hr0 & Hz & He6 & He4). rewrite <- Ed in Hr0, Hz, He6, He4. clear Hst Ed st.
  port_known. wp_step. eapply wp_run.
  { unfold outb, drive_ports, drive_out. rewrite decode_cmd.
    assert (Z.testbit (u8 (Z.lor (if rd then BM_CMD_READ else 0) BM_CMD_START)) 0 = true) as -> by (by destruct rd).
    eapply (start_run rd _ _ _ _ lba count pa); try eassumption; [|reflexivity]. by destruct rd. }
  cbn beta. wp_step. eapply wp_run.
  { eapply (ata_poll_run _ _ _ _ _ (dr_delay d)); try eassumption; reflexivity. }
  cbn beta. port decode_cmd. port decode_status. port_known. port_known. port_known. wp_step. eapply wp_run.
  { eapply (complete_at c_blk put_blk dev rq dv r); [exact Hblk|eassumption..]. }
  cbn beta. wp_step. split; [reflexivity|].
  unfold after_heap, after_disk. cbn [c_blk c_kst c_ata c_drive with_drive dr_disk dr_fails].
  split; [|split; [reflexivity|split; reflexivity]]. do 3 f_equal. unfold finished.
  cbn [dr_status dr_fails c_drive with_drive]. destruct (dr_fails d).
  - by rewrite (proj2 (Z.eqb_neq _ _) He6).
  - by rewrite He4.
Qed.

(** The outcome of a transfer: data, table and registers apart, nothing moved. *)
Definition moved (s s' : computer) (lba count buf write prd : Z) : Prop :=
  c_kst s' = set_heap (heap (c_kst s')) (c_kst s) /\ c_ata s' = c_ata s /\
  transferred (fun a => prd <= a < prd + 8) (negb (dr_fails (c_drive s))) (write =? 0)
    (heap (c_kst s)) (heap (c_kst s')) (dr_disk (c_drive s)) (dr_disk (c_drive s')) (512 * lba) (512 * count) buf.

Lemma ata_submit_wp s b0 dev rq dv r c :
  ready s (rq_lba r) (rq_count r) (rq_buf r) c ->
  c_blk s = under_way dev rq dv r b0 -> 1 <= dev -> (Z.to_nat (dev - 1) < length (blk_devices b0))%nat -> rq <> 0 ->
  dv_sector_size dv = 512 -> dv_priv dv = 1 ->
  wp (submit_on dev rq) s (fun rc s' =>
    rc = 0 /\ c_blk s' = under_way dev rq dv (finish_on (if dr_fails (c_drive s) then -1 else 0) r) b0 /\
    moved s s' (rq_lba r) (rq_count r) (rq_buf r) (rq_write r) (ch_prd c)).
Proof.
  intros [Hc (Hb & Hct & Hm) (Hp & Hpp) Hh Hlba Hcnt Hbuf Hap (Hw & Hst) (Hbusy & Hdel)] Hblk Hdev Hlen Hrq Hss Hpriv.
  destruct s as [k b ats d]. cbn [c_kst c_blk c_ata c_drive] in *. destruct d as [d0 d1 d2 d3 sel cmd m st pt busy dl w f dk].
  cbn [dr_wait dr_status dr_busy dr_delay dr_fails dr_disk] in *. subst w. unfold submit_on, ata_submit.
  wp_step. eapply wp_run.
  { apply (dev_load_at c_blk dev (with_req rq dv)); [done|]. cbn [c_blk]. rewrite Hblk. by apply list_lookup_insert_eq. }
  cbn beta. wp_step. eapply wp_run.
  { unfold req_load. cbn [c_blk]. rewrite Hblk. cbn [under_way requests]. rewrite lookup_insert_eq. rewrite <- Hblk. reflexivity. }
  cbn beta. cbn [with_req dv_priv dv_sector_size]. rewrite Hpriv. change (1 =? 1) with true. cbn iota. wp_step. unfold phys. wp_step. cbn beta.
  wp_step. eapply wp_run.
  { unfold chan_load. cbn [c_ata]. change (1 <=? 1) with true. change (Z.to_nat (1 - 1)) with 0%nat. rewrite Hc. reflexivity. }
  cbn beta. rewrite Hm. cbn [c_kst].
  assert (u64 (rq_buf r - hhdm_offset k) = rq_buf r - hhdm_offset k) as -> by (apply u64_small; lia).
  assert (u32 (rq_count r * dv_sector_size dv) = 512 * rq_count r) as -> by (rewrite Hss, u32_small; lia).
  set (pa := rq_buf r - hhdm_offset k). set (bytes := 512 * rq_count r).
  wp_step. eapply wp_run. { instantiate (2 := tt). instantiate (1 := Computer (set_heap (prd_mem (heap k) (ch_prd c) pa bytes) k) b ats
     (Drive d0 d1 d2 d3 sel cmd m st pt busy dl None f dk)). reflexivity. }
  cbn beta. set (k1 := set_heap _ k).
  port decode_cmd. port decode_status. port decode_status. port decode_prdt.
  set (rd := rq_write r =? 0). wp_step. eapply wp_run.
  { unfold outb, drive_ports, drive_out. rewrite decode_cmd. instantiate (2 := tt).
    instantiate (1 := Computer k1 b ats (Drive d0 d1 d2 d3 sel cmd (if rd then 8 else 0) (cleared st) (u32 (u32 (ch_prd_phys c))) busy dl None f dk)).
    by destruct rd. }
  cbn beta. wp_step. eapply wp_run; [by apply wait_bsy_run|]. cbn beta.
  rewrite Hb. port_known. destruct (task_file_run c (rq_lba r) (rq_count r) k1 b ats
    (Drive d0 d1 d2 d3 224 cmd (if rd then 8 else 0) (cleared st) (u32 (u32 (ch_prd_phys c))) 0 dl None f dk) Hb) as (e0 & e1 & e2 & e3 & Htf & He0 & He1 & He2 & He3).
  wp_step. eapply wp_run; [exact Htf|]. cbn beta. clear Htf.
  cbn [dr_select dr_cmd dr_bm dr_status dr_prdt dr_busy dr_delay dr_wait dr_fails dr_disk].
  port_known.
  assert (ch_prd_phys c + hhdm_offset k = ch_prd c) as Et by done. assert (rq_buf r = pa + hhdm_offset k) as Ebuf by lia.
  destruct (prd_mem_read (heap k) (ch_prd c) pa bytes ltac:(lia) ltac:(lia)) as (Hr1 & Hr2 & Hr3).
  eapply wp_mono; [eapply (command_wp rd c dev rq dv r k1 b b0 ats _ (rq_lba r) (rq_count r) pa); try eassumption|];
    cbn [dr_select dr_prdt dr_status dr_delay]; rewrite ?(u32_small (u32 _)), ?(u32_small (ch_prd_phys c)) by (try apply u32_range; lia);
    cbn [heap hhdm_offset set_heap k1]; rewrite ?Et; try assumption.
  - reflexivity.
  - unfold task_lba. cbn [dr_lba0 dr_lba1 dr_lba2]. rewrite He1, He2, He3. cbn [cur prev]. rewrite !u8_u8. by apply lba_pieces.
  - unfold task_count. cbn [dr_count]. rewrite He0. cbn [cur prev]. rewrite !u8_u8, Z.shiftr_div_pow2 by done. unfold u8.
    rewrite (Z.div_small (rq_count r)), (Z.mod_small (rq_count r)) by lia. rewrite (Z.mod_small 0) by done.
    rewrite (proj2 (Z.eqb_neq _ _)) by lia. lia.
  - by exists st.
  - intros rc s' (-> & Hblk' & Hk & Ha & Hd). split; [done|]. split; [exact Hblk'|].
    unfold moved. rewrite Hk, Hd, <- Ebuf.
    split; [reflexivity|]. split; [exact Ha|]. apply transferred_intro.
    + intros a Hna. by apply prd_mem_ne.
    + intros a Ha'. fold bytes. lia.
Qed.

(** C8: A read or a write of 1 to 128 sectors through the block layer and the
    ATA driver, on an idle drive: the 48-bit address and the count arrive whole,
    the engine gets a valid table, and the call returns 0 with exactly the
    sectors' bytes moved between the disk and the buffer, or -1 and nothing
    moved when the drive reports an error.  Besides the table no other memory
    changes; the request is gone and the device free again. *)
Theorem disk_io_transfers s dev rq lba count buf write dv c :
  ready s lba count buf c -> rq <> 0 ->
  1 <= dev -> blk_devices (c_blk s) !! Z.to_nat (dev - 1) = Some dv -> dv_sector_size dv = 512 -> dv_priv dv = 1 ->
  wp (disk_io dev rq lba count buf write) s (fun rc s' =>
    rc = (if dr_fails (c_drive s) then -1 else 0) /\ moved s s' lba count buf write (ch_prd c) /\
    c_blk s' = retired dev rq dv (c_blk s)).
Proof.
  intros Hready Hrq Hdev Hdv Hss Hpriv. pose proof (lookup_lt_Some _ _ _ Hdv) as Hlen.
  set (P := fun rc s' => rc = (if dr_fails (c_drive s) then -1 else 0) /\ moved s s' lba count buf write (ch_prd c)).
  eapply wp_mono; [apply (blk_submit_sync_wp c_blk put_blk lens_disk_blk _ _ dev rq lba count buf write dv P); try assumption|].
  - set (r := Request lba count buf write 0 0). wp_step. eapply wp_mono; [apply (ata_submit_wp _ (c_blk s) dev rq dv r c); try assumption; try reflexivity|].
    + destruct Hready. by constructor.
    + intros rc s1 (-> & Hb & Hm). cbn beta. change (negb (0 =? 0)) with false. cbn iota. eapply wp_run.
      { apply (mloop_runs _ _ _ _ 0); [|done]. apply runs_stop. unfold await, mbind, M_bind, req_load. rewrite Hb.
        cbn [under_way requests]. rewrite lookup_insert_eq. reflexivity. }
      exists (if dr_fails (c_drive s) then -1 else 0). split; [|exact Hb]. split; [done|exact Hm].
  - intros rc s' (s2 & (-> & Hm) & ->). split; [done|]. split; [exact Hm|reflexivity].
Qed.
End Drive.

(** Two sectors from sector 5 on, into a buffer at [2^40 + 8192]. *)
Definition demo_drive : drive :=
  Drive (Fifo 0 0) (Fifo 0 0) (Fifo 0 0) (Fifo 0 0) 0 0 0 4 0 3 2 None false (fun a => a / 512).
Definition demo_channel : ata_channel := Channel ATA_PRIMARY_BASE ATA_PRIMARY_CTRL 49152 (2 ^ 40 + 4096) 4096 1.
Definition demo_computer : computer :=
  Computer demo_kst (Blk_state [Device [] 512 1 1 0] 1 ∅) [demo_channel; no_channel] demo_drive.

Lemma disk_io_transfers_witness :
  wp (disk_io 49152 1 77 5 2 (2 ^ 40 + 8192) 0) demo_computer (fun rc s' =>
    rc = 0 /\ moved demo_computer s' 5 2 (2 ^ 40 + 8192) 0 (2 ^ 40 + 4096) /\
    c_blk s' = retired 1 77 (Device [] 512 1 1 0) (c_blk demo_computer)).
Proof.
  apply (disk_io_transfers 49152 ltac:(split; [split; by_decide|split; [right; by_decide|right; by_decide]])
    demo_computer 1 77 5 2 (2 ^ 40 + 8192) 0 (Device [] 512 1 1 0) demo_channel).
  - constructor.
    + reflexivity.
    + repeat split; reflexivity.
    + split; [reflexivity|split; by_decide].
    + split; by_decide.
    + split; by_decide.
    + split; by_decide.
    + split; by_decide.
    + right; by_decide.
    + split; [reflexivity|split; by_decide].
    + split; by_decide.
  - done.
  - done.
  - done.
  - done.
  - done.
Defined.
