(* ===== verification/Ahci.v ===== *)
(** * The AHCI driver (src/src/kernel/ahci.c, ahci.h)

    Port registers are device memory; command lists, command tables and
    received frames are pages of kernel memory that the controller reads by
    their physical address.  A port pointer is the address of its registers.
    AhciDisk.v runs the driver against a controller. *)
From S2P Require Import Prelude KMem Spinlock BuddySpec Buddy PageAlloc PageTable KString Vfs Print Blk Log Ports Pci Dma.

#[local] Open Scope Z_scope.

Definition FIS_TYPE_REG_H2D : Z := 39.
Definition FIS_H2D_CMD : Z := Z.shiftl 1 7.

(** [struct fis_reg_h2d] *)
Definition FIS_fis_type : Z := 0.
Definition FIS_flags : Z := 1.
Definition FIS_command : Z := 2.
Definition FIS_lba0 : Z := 4.
Definition FIS_lba1 : Z := 5.
Definition FIS_lba2 : Z := 6.
Definition FIS_device : Z := 7.
Definition FIS_lba3 : Z := 8.
Definition FIS_lba4 : Z := 9.
Definition FIS_lba5 : Z := 10.
Definition FIS_count : Z := 12.
Definition FIS_SIZE : Z := 20.

(** [struct hba_port] *)
Definition PORT_clb : Z := 0.
Definition PORT_clbu : Z := 4.
Definition PORT_fb : Z := 8.
Definition PORT_fbu : Z := 12.
Definition PORT_is : Z := 16.
Definition PORT_ie : Z := 20.
Definition PORT_cmd : Z := 24.
Definition PORT_tfd : Z := 32.
Definition PORT_sig : Z := 36.
Definition PORT_ssts : Z := 40.
Definition PORT_sctl : Z := 44.
Definition PORT_serr : Z := 48.
Definition PORT_sact : Z := 52.
Definition PORT_ci : Z := 56.
Definition PORT_SIZE : Z := 128.

Definition HBA_PORT_CMD_ST : Z := Z.shiftl 1 0.
Definition HBA_PORT_CMD_FRE : Z := Z.shiftl 1 4.
Definition HBA_PORT_CMD_FR : Z := Z.shiftl 1 14.
Definition HBA_PORT_CMD_CR : Z := Z.shiftl 1 15.
Definition HBA_PORT_TFD_DRQ : Z := Z.shiftl 1 3.
Definition HBA_PORT_TFD_BSY : Z := Z.shiftl 1 7.
Definition HBA_PORT_SSTS_DET (x : Z) : Z := Z.land x 15.
Definition HBA_PORT_SSTS_IPM (x : Z) : Z := Z.land (Z.shiftr x 8) 15.
Definition HBA_PORT_SSTS_DET_PRESENT : Z := 3.
Definition HBA_PORT_SSTS_IPM_ACTIVE : Z := 1.
Definition HBA_PORT_IE_DHRE : Z := Z.shiftl 1 0.
Definition HBA_PORT_IE_TFEE : Z := Z.shiftl 1 30.
Definition HBA_PORT_IS_TFES : Z := Z.shiftl 1 30.
Definition SCTL_DET_MASK : Z := 15.
Definition SCTL_DET_COMRESET : Z := 1.
Definition SATA_SIG_ATA : Z := 257.
Definition SATA_SIG_ATAPI : Z := 3943956737.
Definition SATA_SIG_SEMB : Z := 3275489537.
Definition SATA_SIG_PM : Z := 2523463937.

(** [struct hba_mem] *)
Definition HBA_cap : Z := 0.
Definition HBA_ghc : Z := 4.
Definition HBA_is : Z := 8.
Definition HBA_pi : Z := 12.
Definition HBA_vs : Z := 16.
Definition HBA_ports : Z := 256.
Definition HBA_GHC_AE : Z := Z.shiftl 1 31.
Definition HBA_GHC_IE : Z := Z.shiftl 1 1.
Definition HBA_CAP_NP (cap : Z) : Z := Z.land cap 31.

(** [struct hba_cmd_header]: the first two bytes are bit fields. *)
Definition HDR_prdtl : Z := 2.
Definition HDR_ctba : Z := 8.
Definition HDR_ctbau : Z := 12.
Definition HDR_SIZE : Z := 32.

(** [struct hba_cmd_table] with its first [struct hba_prdt_entry]. *)
Definition TBL_prdt : Z := 128.
Definition PRDT_dba : Z := 0.
Definition PRDT_dbau : Z := 4.
Definition PRDT_dbc : Z := 12.

Definition ATA_CMD_READ_DMA_EXT : Z := 37.
Definition ATA_CMD_WRITE_DMA_EXT : Z := 53.
Definition ATA_CMD_IDENTIFY : Z := 236.
Definition ATA_DEV_LBA : Z := Z.shiftl 1 6.
Definition ATA_SECTOR_SIZE_DEFAULT : Z := 512.
Definition ATA_ID_SECTOR_SIZE : Z := 106.
Definition ATA_ID_LOGICAL_SIZE : Z := 117.
Definition ATA_IDENTIFY_MODEL_OFFSET : Z := 27 * 2.
Definition ATA_IDENTIFY_LBA48_OFFSET : Z := 100 * 2.
Definition ATA_ID_W106_VALID : Z := Z.shiftl 1 14.
Definition ATA_ID_W106_LOGICAL_GT512 : Z := Z.shiftl 1 12.

Definition AHCI_DEV_NULL : Z := 0.
Definition AHCI_DEV_SATA : Z := 1.
Definition AHCI_DEV_SATAPI : Z := 2.
Definition AHCI_DEV_SEMB : Z := 3.
Definition AHCI_DEV_PM : Z := 4.

Record ahci_port_info := Port_info { sector_size : Z; sector_count : Z; model : list Z }.
Definition no_info : ahci_port_info := Port_info 0 0 (replicate 41 0).

(** The static variables. *)
Record ahci_state := Ahci_state {
  ahci_dev : option pci_device; hba : Z; ahci_sata_port : Z; ahci_sata_info : ahci_port_info;
  cmd_lists : list Z; fis_areas : list Z; cmd_tables : list (list Z);
  port_info : list ahci_port_info; port_blk : list Z
}.
Definition ahci_start : ahci_state :=
  Ahci_state None 0 0 no_info (replicate 32 0) (replicate 32 0) (replicate 32 (replicate 32 0)) (replicate 32 no_info) (replicate 32 0).

Definition set_hba (d : option pci_device) (b : Z) (a : ahci_state) : ahci_state :=
  Ahci_state d b (ahci_sata_port a) (ahci_sata_info a) (cmd_lists a) (fis_areas a) (cmd_tables a) (port_info a) (port_blk a).
Definition set_sata (p : Z) (i : ahci_port_info) (a : ahci_state) : ahci_state :=
  Ahci_state (ahci_dev a) (hba a) p i (cmd_lists a) (fis_areas a) (cmd_tables a) (port_info a) (port_blk a).
Definition set_areas (ls fs : list Z) (ts : list (list Z)) (a : ahci_state) : ahci_state :=
  Ahci_state (ahci_dev a) (hba a) (ahci_sata_port a) (ahci_sata_info a) ls fs ts (port_info a) (port_blk a).
Definition set_ports (is_ : list ahci_port_info) (bs : list Z) (a : ahci_state) : ahci_state :=
  Ahci_state (ahci_dev a) (hba a) (ahci_sata_port a) (ahci_sata_info a) (cmd_lists a) (fis_areas a) (cmd_tables a) is_ bs.

Definition ahci_tag : option (list Z) := Some (str "AHCI").

(** [for (int j = 39; j >= 0 && model[j] == ' '; j--) model[j] = 0;] on the
    first [n] bytes. *)
Fixpoint trim (n : nat) (m : list Z) : list Z :=
  match n with
  | O => m
  | S j => if m !!! j =? 32 then trim j (<[j := 0]> m) else m
  end.

Section Ahci.
Context `{PA : PageAllocator} {St : Type} `{IO : PortIO St} `{MM : Mmio St} `{CO : Console St}.
Context (get_kst : St -> kst) (set_kst : kst -> St -> St).
Context (get_blk : St -> blk_state) (set_blk : blk_state -> St -> St).
Context (get_pci : St -> pci_state).
Context (get_ahci : St -> ahci_state) (set_ahci : ahci_state -> St -> St).

(** The address of [ahci_submit] in the operations of a device. *)
Context (ahci_submit_at : Z).
#[local] Abbreviation load := (load get_kst).
#[local] Abbreviation store := (store get_kst set_kst).
#[local] Abbreviation phys := (phys get_kst).
#[local] Abbreviation dev_load := (dev_load get_blk).
#[local] Abbreviation req_load := (req_load get_blk).
#[local] Abbreviation blk_complete := (blk_complete get_blk set_blk).

Definition upd_ahci (f : ahci_state -> ahci_state) : M St unit := mmodify (fun s => set_ahci (f (get_ahci s)) s).

(** An element of a static array; out of bounds it faults, also before a
    store to it. *)
Definition elem {A} (f : ahci_state -> list A) (i : Z) : M St A := fun s =>
  if 0 <=? i then match f (get_ahci s) !! Z.to_nat i with Some x => Ok (x, s) | None => Stuck Fault end else Stuck Fault.

(** [port->reg] *)
Definition rget (port reg : Z) : M St Z := mmio_read32 (port + reg).
Definition rset (port reg v : Z) : M St unit := mmio_write32 (port + reg) v.
Definition rmodify (port reg : Z) (f : Z -> Z) : M St unit := v ← rget port reg; rset port reg (f v).

(** [while (port->reg & mask);] *)
Definition until_clear (port reg mask : Z) : M St unit :=
  mloop (fun _ => v ← rget port reg; if Z.land v mask =? 0 then mret (inr tt) else mret (inl tt)) tt.

Definition ahci_port_stop (port : Z) : M St unit :=
  rmodify port PORT_cmd (fun v => u32 (Z.land v (Z.lnot HBA_PORT_CMD_ST)));;
  until_clear port PORT_cmd HBA_PORT_CMD_CR;;
  rmodify port PORT_cmd (fun v => u32 (Z.land v (Z.lnot HBA_PORT_CMD_FRE)));;
  until_clear port PORT_cmd HBA_PORT_CMD_FR.

Definition ahci_port_start (port : Z) : M St unit :=
  until_clear port PORT_cmd HBA_PORT_CMD_CR;;
  rmodify port PORT_cmd (fun v => Z.lor v HBA_PORT_CMD_FRE);;
  rmodify port PORT_cmd (fun v => Z.lor v HBA_PORT_CMD_ST).

(** The counting loop between the two stores of [sctl] only passes time. *)
Definition ahci_port_reset (port : Z) : M St unit :=
  ahci_port_stop port;;
  rmodify port PORT_sctl (fun v => Z.lor (u32 (Z.land v (Z.lnot SCTL_DET_MASK))) SCTL_DET_COMRESET);;
  rmodify port PORT_sctl (fun v => u32 (Z.land v (Z.lnot SCTL_DET_MASK)));;
  mloop (fun _ => v ← rget port PORT_ssts;
           if HBA_PORT_SSTS_DET v =? HBA_PORT_SSTS_DET_PRESENT then mret (inr tt) else mret (inl tt)) tt;;
  rmodify port PORT_serr (fun v => v);;
  ahci_port_start port.

Definition get_port_num (port : Z) : M St Z :=
  mgets (fun s => i32 (u64 (port - (hba (get_ahci s) + HBA_ports)) / PORT_SIZE)).

(** A page for the controller, zeroed; 0 when there is none. *)
Definition zeroed_page : M St Z :=
  p ← mzoom get_kst set_kst (pa_alloc 1);
  if p =? 0 then mret 0
  else mmodify (fun s => set_kst (set_heap (memset (heap (get_kst s)) p 0 PAGE_SIZE) (get_kst s)) s);; mret p.

(** The loop over the slots: [Some (-1)] is the return without memory. *)
Definition alloc_table (port_num cmd_list slot : Z) : M St (option Z) :=
  tbl ← zeroed_page;
  if tbl =? 0 then mret (Some (-1))
  else
    upd_ahci (fun a => set_areas (cmd_lists a) (fis_areas a) (alter (<[Z.to_nat slot := tbl]>) (Z.to_nat port_num) (cmd_tables a)) a);;
    t ← phys tbl;
    store 4 (cmd_list + slot * HDR_SIZE + HDR_ctba) (u32 t);;
    store 4 (cmd_list + slot * HDR_SIZE + HDR_ctbau) (u32 (Z.shiftr t 32));;
    mret None.

Definition ahci_port_init (port : Z) : M St Z :=
  port_num ← get_port_num port;
  ahci_port_stop port;;
  cmd_list ← zeroed_page;
  if cmd_list =? 0 then mret (-1)
  else
    elem cmd_lists port_num;;
    upd_ahci (fun a => set_areas (<[Z.to_nat port_num := cmd_list]> (cmd_lists a)) (fis_areas a) (cmd_tables a) a);;
    cl ← phys cmd_list;
    rset port PORT_clb (u32 cl);;
    rset port PORT_clbu (u32 (Z.shiftr cl 32));;
    fis ← zeroed_page;
    if fis =? 0 then mret (-1)
    else
      upd_ahci (fun a => set_areas (cmd_lists a) (<[Z.to_nat port_num := fis]> (fis_areas a)) (cmd_tables a) a);;
      fp ← phys fis;
      rset port PORT_fb (u32 fp);;
      rset port PORT_fbu (u32 (Z.shiftr fp 32));;
      r ← mfor 32 (alloc_table port_num cmd_list) 0;
      match r with
      | Some rc => mret rc
      | None =>
          rmodify port PORT_is (fun v => v);;
          rmodify port PORT_serr (fun v => v);;
          ahci_port_start port;;
          mret 0
      end.

Definition ahci_port_type (port : Z) : M St Z :=
  ssts ← rget port PORT_ssts;
  let det := u8 (HBA_PORT_SSTS_DET ssts) in
  let ipm := u8 (HBA_PORT_SSTS_IPM ssts) in
  if negb (det =? HBA_PORT_SSTS_DET_PRESENT) then mret AHCI_DEV_NULL
  else if negb (ipm =? HBA_PORT_SSTS_IPM_ACTIVE) then mret AHCI_DEV_NULL
  else
    sig ← rget port PORT_sig;
    mret (if sig =? SATA_SIG_ATA then AHCI_DEV_SATA
          else if sig =? SATA_SIG_ATAPI then AHCI_DEV_SATAPI
          else if sig =? SATA_SIG_SEMB then AHCI_DEV_SEMB
          else if sig =? SATA_SIG_PM then AHCI_DEV_PM
          else AHCI_DEV_NULL).

Definition bit (slot : Z) : Z := u32 (Z.shiftl 1 slot).

(** The first slot from [i] on, of [n], that [slots] leaves free. *)
Fixpoint free_slot (n : nat) (i slots : Z) : Z :=
  match n with
  | O => -1
  | S k => if Z.land slots (bit i) =? 0 then i else free_slot k (i + 1) slots
  end.
Definition ahci_find_slot (port : Z) : M St Z :=
  sact ← rget port PORT_sact;
  ci ← rget port PORT_ci;
  mret (free_slot 32 0 (Z.lor sact ci)).

(** One turn of the poll for completion. *)
Definition poll_body (port slot : Z) (_ : unit) : M St (unit + Z) :=
  ci ← rget port PORT_ci;
  if Z.land ci (bit slot) =? 0 then mret (inr 0)
  else
    is_ ← rget port PORT_is;
    if negb (Z.land is_ HBA_PORT_IS_TFES =? 0) then mret (inr (-1)) else mret (inl tt).

Definition ahci_issue_poll (port slot : Z) : M St Z :=
  until_clear port PORT_tfd (Z.lor HBA_PORT_TFD_BSY HBA_PORT_TFD_DRQ);;
  rset port PORT_ci (bit slot);;
  rc ← mloop (poll_body port slot) tt;
  if rc =? -1 then mret (-1)
  else
    is_ ← rget port PORT_is;
    if negb (Z.land is_ HBA_PORT_IS_TFES =? 0) then mret (-1) else mret 0.

Definition ahci_submit_dma (port slot : Z) : M St unit :=
  until_clear port PORT_tfd (Z.lor HBA_PORT_TFD_BSY HBA_PORT_TFD_DRQ);;
  rset port PORT_ci (bit slot).

(** The answer is the new content of [*info]. *)
Definition ahci_parse_identify (id : Z) : M St ahci_port_info :=
  h ← mgets (fun s => heap (get_kst s));
  let swapped := concat ((fun j => [rd8 h (id + ATA_IDENTIFY_MODEL_OFFSET + 2 * j + 1); rd8 h (id + ATA_IDENTIFY_MODEL_OFFSET + 2 * j)])
                   <$> seqZ 0 20) in
  let name := trim 40 (swapped ++ [0]) in
  count ← load 8 (id + ATA_IDENTIFY_LBA48_OFFSET);
  w106 ← load 2 (id + ATA_ID_SECTOR_SIZE * 2);
  if negb (Z.land w106 ATA_ID_W106_VALID =? 0) && (Z.land w106 (Z.shiftl 1 15) =? 0) then
    if negb (Z.land w106 ATA_ID_W106_LOGICAL_GT512 =? 0) then
      logical_words ← load 4 (id + ATA_ID_LOGICAL_SIZE * 2);
      mret (Port_info (u32 (logical_words * 2)) count name)
    else mret (Port_info ATA_SECTOR_SIZE_DEFAULT count name)
  else mret (Port_info ATA_SECTOR_SIZE_DEFAULT count name).

Definition ahci_get_sector_size (port : Z) : M St Z :=
  port_num ← get_port_num port;
  i ← elem port_info port_num;
  mret (sector_size i).

Definition ahci_port_clear_interrupts (port : Z) : M St unit := rset port PORT_is (u32 (-1)).

(** [hdr->cfl], [hdr->w] and [hdr->prdtl] of the slot's command header: [cfl]
    is the low five bits of the first byte, [w] its bit 6. *)
Definition fill_header (hdr write : Z) : M St unit :=
  b ← load 1 hdr;
  store 1 hdr (Z.lor (Z.land b (Z.lnot 31)) (FIS_SIZE / 4));;
  b ← load 1 hdr;
  store 1 hdr (Z.lor (Z.land b (Z.lnot 64)) (Z.shiftl (Z.land write 1) 6));;
  store 2 (hdr + HDR_prdtl) 1.

(** The one descriptor; [dbc] is the low 22 bits of its last word, [i] bit 31. *)
Definition fill_prdt (tbl buf_phys dbc : Z) : M St unit :=
  let prdt := tbl + TBL_prdt in
  store 4 (prdt + PRDT_dba) (u32 buf_phys);;
  store 4 (prdt + PRDT_dbau) (u32 (Z.shiftr buf_phys 32));;
  x ← load 4 (prdt + PRDT_dbc);
  store 4 (prdt + PRDT_dbc) (Z.lor (Z.land x (Z.lnot 4194303)) (Z.land dbc 4194303));;
  x ← load 4 (prdt + PRDT_dbc);
  store 4 (prdt + PRDT_dbc) (Z.lor (Z.land x (Z.lnot (Z.shiftl 1 31))) (Z.shiftl 1 31)).

Definition ahci_identify (port buf : Z) : M St Z :=
  port_num ← get_port_num port;
  ahci_port_clear_interrupts port;;
  slot ← ahci_find_slot port;
  if slot <? 0 then mret (-1)
  else
    cl ← elem cmd_lists port_num;
    fill_header (cl + slot * HDR_SIZE) 0;;
    ts ← elem cmd_tables port_num;
    let tbl := ts !!! Z.to_nat slot in
    buf_phys ← phys buf;
    fill_prdt tbl buf_phys 511;;
    store 1 (tbl + FIS_fis_type) FIS_TYPE_REG_H2D;;
    store 1 (tbl + FIS_flags) FIS_H2D_CMD;;
    store 1 (tbl + FIS_command) ATA_CMD_IDENTIFY;;
    store 1 (tbl + FIS_device) 0;;
    ahci_issue_poll port slot.

Definition fis_set_lba48 (fis lba : Z) : M St unit :=
  store 1 (fis + FIS_lba0) (u8 lba);;
  store 1 (fis + FIS_lba1) (u8 (Z.shiftr lba 8));;
  store 1 (fis + FIS_lba2) (u8 (Z.shiftr lba 16));;
  store 1 (fis + FIS_lba3) (u8 (Z.shiftr lba 24));;
  store 1 (fis + FIS_lba4) (u8 (Z.shiftr lba 32));;
  store 1 (fis + FIS_lba5) (u8 (Z.shiftr lba 40)).

(** The command frame of a read or a write. *)
Definition fill_fis (fis write lba count : Z) : M St unit :=
  store 1 (fis + FIS_fis_type) FIS_TYPE_REG_H2D;;
  store 1 (fis + FIS_flags) FIS_H2D_CMD;;
  store 1 (fis + FIS_command) (if negb (write =? 0) then ATA_CMD_WRITE_DMA_EXT else ATA_CMD_READ_DMA_EXT);;
  fis_set_lba48 fis lba;;
  store 1 (fis + FIS_device) ATA_DEV_LBA;;
  store 2 (fis + FIS_count) (u16 count).

Definition ahci_submit (dev rq : Z) : M St Z :=
  d ← dev_load dev;
  let port := dv_priv d in
  port_num ← get_port_num port;
  info ← elem port_info port_num;
  let size := if sector_size info =? 0 then ATA_SECTOR_SIZE_DEFAULT else sector_size info in
  ahci_port_clear_interrupts port;;
  slot ← ahci_find_slot port;
  if slot <? 0 then mret (-1)
  else
    cl ← elem cmd_lists port_num;
    r ← req_load rq;
    fill_header (cl + slot * HDR_SIZE) (rq_write r);;
    ts ← elem cmd_tables port_num;
    let tbl := ts !!! Z.to_nat slot in
    buf_phys ← phys (rq_buf r);
    fill_prdt tbl buf_phys (u32 (u32 (rq_count r * size) - 1));;
    fill_fis tbl (rq_write r) (rq_lba r) (rq_count r);;
    ahci_submit_dma port slot;;
    mret 0.

(** The work for port [i], whose bit of the global status is set. *)
Definition irq_port (i : Z) : M St unit :=
  b ← mgets (fun s => hba (get_ahci s));
  let port := b + HBA_ports + i * PORT_SIZE in
  port_is ← rget port PORT_is;
  rset port PORT_is port_is;;
  rset b HBA_is (bit i);;
  let status := if negb (Z.land port_is HBA_PORT_IS_TFES =? 0) then -1 else 0 in
  blk ← elem port_blk i;
  if negb (blk =? 0) then blk_complete blk status else mret tt.

Definition ahci_irq_handler : M St unit :=
  b ← mgets (fun s => hba (get_ahci s));
  global_is ← rget b HBA_is;
  mfor 32 (fun i => (if Z.land global_is (bit i) =? 0 then mret tt else irq_port i);; mret (None : option unit)) 0;;
  mret tt.

Definition find_ahci : M St (option pci_device) := first_storage get_pci PCI_SUBCLASS_AHCI.

(** IDENTIFY and registration of the disk at port [i]; [id] is the page for
    the answer. *)
Definition register_port (i port id : Z) : M St unit :=
  rc ← ahci_identify port id;
  if negb (rc =? 0) then mret tt
  else
    port_num ← get_port_num port;
    elem port_info port_num;;
    info ← ahci_parse_identify id;
    upd_ahci (fun a => set_ports (<[Z.to_nat port_num := info]> (port_info a)) (port_blk a) a);;
    sata ← mgets (fun s => ahci_sata_port (get_ahci s));
    (if port =? sata then upd_ahci (set_sata sata info) else mret tt);;
    let name := str "ahci" ++ [u8 (48 + i)] in
    b ← blk_register get_blk set_blk name ahci_submit_at (sector_size info) port;
    upd_ahci (fun a => set_ports (port_info a) (<[Z.to_nat i := b]> (port_blk a)) a);;
    if negb (b =? 0) then
      klog_ok ahci_tag (str "disk %s  %s  %u MB")
        [Str (Some name); Str (Some (c_string (model info)));
         Word (u32 (u64 (sector_count info * sector_size info) / (1024 * 1024)))]
    else mret tt.

(** The body of the loop over the ports in [pi]. *)
Definition init_port (i : Z) : M St unit :=
  b ← mgets (fun s => hba (get_ahci s));
  let port := b + HBA_ports + i * PORT_SIZE in
  type ← ahci_port_type port;
  if negb (type =? AHCI_DEV_SATA) then mret tt
  else
    rc ← ahci_port_init port;
    if rc <? 0 then klog_fail ahci_tag (str "failed to init port %d") [Word i]
    else
      sata ← mgets (fun s => ahci_sata_port (get_ahci s));
      (if sata =? 0 then upd_ahci (fun a => set_sata port (ahci_sata_info a) a) else mret tt);;
      rset port PORT_ie (Z.lor HBA_PORT_IE_DHRE HBA_PORT_IE_TFEE);;
      id ← mzoom get_kst set_kst (pa_alloc 1);
      (if negb (id =? 0) then register_port i port id else mret tt);;
      if negb (id =? 0) then mzoom get_kst set_kst (pa_free id 1) else mret tt.

Definition ahci_init : M St unit :=
  d ← find_ahci;
  upd_ahci (fun a => set_hba d (hba a) a);;
  match d with
  | None => klog ahci_tag (str "no controller found") []
  | Some d =>
      klog ahci_tag (str "controller at %u:%u.%u") [Word (pd_bus d); Word (pd_slot d); Word (pd_func d)];;
      abar_phys ← pci_read_bar (pd_bus d) (pd_slot d) (pd_func d) 5;
      mzoom get_kst set_kst (map_mmio abar_phys (PAGE_SIZE * 4));;
      b ← to_virt get_kst abar_phys;
      upd_ahci (fun a => set_hba (Some d) b a);;
      rmodify b HBA_ghc (fun v => Z.lor v HBA_GHC_AE);;
      v1 ← rget b HBA_vs;
      v2 ← rget b HBA_vs;
      cap ← rget b HBA_cap;
      klog ahci_tag (str "version %x.%x, %u ports")
        [Word (Z.land (Z.shiftr v1 16) 65535); Word (Z.land v2 65535); Word (u32 (HBA_CAP_NP cap + 1))];;
      pci_msi_enable d 48;;
      pi ← rget b HBA_pi;
      mfor 32 (fun i => (if Z.land pi (bit i) =? 0 then mret tt else init_port i);; mret (None : option unit)) 0;;
      rmodify b HBA_ghc (fun v => Z.lor v HBA_GHC_IE);;
      klog_ok ahci_tag (str "initialized") []
  end.
End Ahci.
