(* ===== verification/AhciDisk.v ===== *)
(** * The AHCI driver on a controller (src/src/kernel/ahci.c with blk.c)

    A controller with a disk at one port: it fetches the command list, the
    command table and the descriptor from memory as the AHCI specification lays
    them out, moves the data, and raises the interrupt whose handler is
    [ahci_irq_handler].  A command that is not well formed faults. *)
From S2P Require Import Prelude KMem Spinlock BuddySpec Buddy PageAlloc PageTable KString Vfs Print Blk DiskBytes Log Ports Pci Dma Ahci.

#[local] Open Scope Z_scope.

(** ** The controller *)

Record command := Command { cm_write : bool; cm_lba : Z; cm_count : Z; cm_buf : Z; cm_bytes : Z }.

(** The command of a slot of the list at [cl]; physical addresses are reached
    [hhdm] higher. *)
Definition fetch (h : mem) (hhdm cl slot : Z) : option command :=
  let hdr := cl + 32 * slot in
  let tbl := rd32 h (hdr + 8) + 2 ^ 32 * rd32 h (hdr + 12) + hhdm in
  let b i := rd 1 h (tbl + i) in
  let w := Z.testbit (rd 1 h hdr) 6 in
  if (Z.land (rd 1 h hdr) 63 =? 5) && (rd16 h (hdr + 2) =? 1) && (b 0 =? 39) && Z.testbit (b 1) 7 &&
     (b 2 =? if w then 53 else 37) && Z.testbit (b 7) 6
  then Some (Command w (b 4 + 2 ^ 8 * b 5 + 2 ^ 16 * b 6 + 2 ^ 24 * b 8 + 2 ^ 32 * b 9 + 2 ^ 40 * b 10)
    (if rd16 h (tbl + 12) =? 0 then 65536 else rd16 h (tbl + 12))
    (rd32 h (tbl + 128) + 2 ^ 32 * rd32 h (tbl + 132) + hhdm) (Z.land (rd32 h (tbl + 140)) 4194303 + 1))
  else None.

(** The registers of the port and the global status; [ct_busy] reads of the
    task file still say busy, [ct_disk] is the disk with sectors of [ct_size]. *)
Record controller := Controller {
  ct_clb : Z; ct_clbu : Z; ct_is : Z; ct_gis : Z; ct_ci : Z; ct_busy : nat; ct_size : Z; ct_fails : bool; ct_disk : Z -> Z
}.
Record host := Host { h_kst : kst; h_blk : blk_state; h_ahci : ahci_state; h_ctl : controller; h_wakes : nat }.

Definition with_ctl (f : controller -> controller) (s : host) : host :=
  Host (h_kst s) (h_blk s) (h_ahci s) (f (h_ctl s)) (h_wakes s).
Definition set_regs (is_ gis ci : Z) (busy : nat) (c : controller) : controller :=
  Controller (ct_clb c) (ct_clbu c) is_ gis ci busy (ct_size c) (ct_fails c) (ct_disk c).

(** The lowest command issued. *)
Fixpoint first_issued (n : nat) (i ci : Z) : option Z :=
  match n with
  | O => None
  | S k => if Z.testbit ci i then Some i else first_issued k (i + 1) ci
  end.

Section Host.
(** The registers at [base], the disk at port [n]. *)
Context (base n : Z).
#[local] Abbreviation port := (base + HBA_ports + n * PORT_SIZE).

Definition ctl_read (a : Z) : M host Z := fun s =>
  let c := h_ctl s in
  if a =? port + PORT_tfd then
    match ct_busy c with
    | O => Ok (80, s)
    | S k => Ok (128, with_ctl (set_regs (ct_is c) (ct_gis c) (ct_ci c) k) s)
    end
  else if a =? port + PORT_ci then Ok (u32 (ct_ci c), s)
  else if a =? port + PORT_is then Ok (u32 (ct_is c), s)
  else if a =? base + HBA_is then Ok (u32 (ct_gis c), s)
  else Ok (0, s).

Definition ctl_write (a v : Z) : M host unit :=
  if a =? port + PORT_ci then
    mmodify (with_ctl (fun c => set_regs (ct_is c) (ct_gis c) (Z.lor (ct_ci c) v) (ct_busy c) c))
  else if a =? port + PORT_is then
    mmodify (with_ctl (fun c => set_regs (Z.land (ct_is c) (Z.lnot v)) (ct_gis c) (ct_ci c) (ct_busy c) c))
  else if a =? base + HBA_is then
    mmodify (with_ctl (fun c => set_regs (ct_is c) (Z.land (ct_gis c) (Z.lnot v)) (ct_ci c) (ct_busy c) c))
  else mret tt.

#[local] Instance ctl_mmio : Mmio host.
Proof.
  refine {| mmio_read32 := ctl_read; mmio_write32 := ctl_write |}.
  intros a s v s'. unfold ctl_read.
  destruct (a =? _); [destruct (ct_busy _); intros [= <- <-]; split; first [done|by vm_compute]|].
  do 3 (destruct (a =? _); [intros [= <- <-]; apply u32_range|]). intros [= <- <-]. split; [done|by vm_compute].
Defined.

(** The controller carries out the command of [slot]. *)
Definition carry_out (slot : Z) : M host unit := fun s =>
  let c := h_ctl s in let k := h_kst s in
  match fetch (heap k) (hhdm_offset k) (ct_clb c + 2 ^ 32 * ct_clbu c + hhdm_offset k) slot with
  | None => Stuck Fault
  | Some cm =>
      if cm_bytes cm =? cm_count cm * ct_size c then
        let ok := negb (ct_fails c) in let from := ct_size c * cm_lba cm in
        Ok (tt, Host (set_heap (after_heap ok (negb (cm_write cm)) (ct_disk c) (heap k) from (cm_bytes cm) (cm_buf cm)) k)
          (h_blk s) (h_ahci s)
          (Controller (ct_clb c) (ct_clbu c) (Z.lor (ct_is c) (if ok then 1 else 2 ^ 30)) (Z.lor (ct_gis c) (Z.shiftl 1 n))
             (Z.land (ct_ci c) (Z.lnot (bit slot))) (ct_busy c) (ct_size c) (ct_fails c)
             (after_disk ok (negb (cm_write cm)) (ct_disk c) (heap k) from (cm_bytes cm) (cm_buf cm)))
          (h_wakes s))
      else Stuck Fault
  end.

Definition put_kst (k : kst) (s : host) : host := Host k (h_blk s) (h_ahci s) (h_ctl s) (h_wakes s).
Definition put_blk (b : blk_state) (s : host) : host := Host (h_kst s) b (h_ahci s) (h_ctl s) (h_wakes s).

(** [hlt]: other interrupts wake the CPU [h_wakes] times; then the controller
    completes what was issued and its interrupt is handled. *)
Definition halt : M host unit := fun s =>
  match h_wakes s with
  | S w => Ok (tt, Host (h_kst s) (h_blk s) (h_ahci s) (h_ctl s) w)
  | O =>
      match first_issued 32 0 (ct_ci (h_ctl s)) with
      | None => Stuck Halt
      | Some slot => (carry_out slot;; ahci_irq_handler h_blk put_blk h_ahci) s
      end
  end.

Definition submit_on : Z -> Z -> M host Z := ahci_submit h_kst put_kst h_blk h_ahci.
Definition disk_io (dev rq lba count buf write : Z) : M host Z :=
  blk_submit_sync h_blk put_blk (fun _ => submit_on) halt rq dev lba count buf write.
End Host.

(** ** The command in memory *)

(** What [fill_header], [fill_prdt] and [fill_fis] leave. *)
Definition hdr_mem (h : mem) (hdr write : Z) : mem :=
  let h1 := wr 1 h hdr (Z.lor (Z.land (rd 1 h hdr) (Z.lnot 31)) (FIS_SIZE / 4)) in
  let h2 := wr 1 h1 hdr (Z.lor (Z.land (rd 1 h1 hdr) (Z.lnot 64)) (Z.shiftl (Z.land write 1) 6)) in
  wr 2 h2 (hdr + 2) 1.
Definition prdt_mem (h : mem) (tbl pa dbc : Z) : mem :=
  let h1 := wr 4 h (tbl + 128) (u32 pa) in
  let h2 := wr 4 h1 (tbl + 132) (u32 (Z.shiftr pa 32)) in
  let h3 := wr 4 h2 (tbl + 140) (Z.lor (Z.land (rd 4 h2 (tbl + 140)) (Z.lnot 4194303)) (Z.land dbc 4194303)) in
  wr 4 h3 (tbl + 140) (Z.lor (Z.land (rd 4 h3 (tbl + 140)) (Z.lnot (Z.shiftl 1 31))) (Z.shiftl 1 31)).
Definition fis_mem (h : mem) (t write lba count : Z) : mem :=
  let h := wr 1 (wr 1 (wr 1 h (t + 0) 39) (t + 1) 128) (t + 2) (if negb (write =? 0) then 53 else 37) in
  let h := wr 1 (wr 1 (wr 1 h (t + 4) (u8 lba)) (t + 5) (u8 (Z.shiftr lba 8))) (t + 6) (u8 (Z.shiftr lba 16)) in
  let h := wr 1 (wr 1 (wr 1 h (t + 8) (u8 (Z.shiftr lba 24))) (t + 9) (u8 (Z.shiftr lba 32))) (t + 10) (u8 (Z.shiftr lba 40)) in
  wr 2 (wr 1 h (t + 7) 64) (t + 12) (u16 count).
Definition built (h : mem) (hdr tbl write lba count pa dbc : Z) : mem :=
  fis_mem (prdt_mem (hdr_mem h hdr write) tbl pa dbc) tbl write lba count.

(** The bytes the driver writes: the start of the header and the table. *)
Definition command_area (hdr tbl a : Z) : Prop := hdr <= a < hdr + 4 \/ tbl <= a < tbl + 144.

Lemma built_ne h hdr tbl write lba count pa dbc a :
  ~ command_area hdr tbl a -> rd8 (built h hdr tbl write lba count pa dbc) a = rd8 h a.
Proof.
  unfold command_area. intros H. unfold built, fis_mem, prdt_mem, hdr_mem. cbv zeta. rewrite !rd8_wr_ne by lia. done.
Qed.

Lemma built_hdr h hdr tbl write lba count pa dbc k i :
  hdr + 32 <= tbl \/ tbl + 144 <= hdr -> 4 <= i -> i + Z.of_nat k <= 32 ->
  rd k (built h hdr tbl write lba count pa dbc) (hdr + i) = rd k h (hdr + i).
Proof. intros Ha Hi Hk. apply rd_agree. intros b Hb. apply built_ne. unfold command_area. lia. Qed.

(** The two bit fields of the header's first byte. *)
Lemma flags_byte b w : 0 <= b < 256 -> 0 <= w <= 1 -> Z.land b 32 = 0 ->
  let c := Z.lor (Z.land b (Z.lnot 31)) (FIS_SIZE / 4) mod 2 ^ 8 in
  let d := Z.lor (Z.land c (Z.lnot 64)) (Z.shiftl (Z.land w 1) 6) mod 2 ^ 8 in
  Z.land d 63 = 5 /\ Z.testbit d 6 = negb (w =? 0).
Proof.
  intros Hb Hw. pose proof (all_below (fun b => forallb (fun w =>
    let c := Z.lor (Z.land b (Z.lnot 31)) (FIS_SIZE / 4) mod 2 ^ 8 in
    let d := Z.lor (Z.land c (Z.lnot 64)) (Z.shiftl (Z.land w 1) 6) mod 2 ^ 8 in
    negb (Z.land b 32 =? 0) || ((Z.land d 63 =? 5) && Bool.eqb (Z.testbit d 6) (negb (w =? 0)))) [0; 1]) 256
    ltac:(by vm_compute) b Hb) as H. cbv beta in H. intros Hz. rewrite Hz in H. cbn [forallb negb Z.eqb orb] in H.
  apply andb_prop in H as [H0 H]. apply andb_prop in H as [H1 _].
  assert (w = 0 \/ w = 1) as [-> | ->] by lia.
  - apply andb_prop in H0 as [A B]. apply Z.eqb_eq in A. apply eqb_prop in B. by split.
  - apply andb_prop in H1 as [A B]. apply Z.eqb_eq in A. apply eqb_prop in B. by split.
Qed.

(** The byte count in the low 22 bits survives the store of bit 31. *)
Lemma dbc_word x dbc : 0 <= dbc < 2 ^ 22 ->
  let y := Z.lor (Z.land x (Z.lnot 4194303)) (Z.land dbc 4194303) mod 2 ^ 32 in
  Z.land (Z.lor (Z.land y (Z.lnot (Z.shiftl 1 31))) (Z.shiftl 1 31) mod 2 ^ 32) 4194303 = dbc.
Proof.
  intros Hd. cbv zeta. change 4194303 with (Z.ones 22). apply Z.bits_inj'. intros i Hi.
  rewrite Z.land_spec, Z.testbit_ones_nonneg by lia. destruct (Z.ltb_spec i 22).
  - rewrite andb_true_r, Z.mod_pow2_bits_low by lia. rewrite Z.lor_spec, Z.land_spec, Z.lnot_spec by lia.
    rewrite !(Z.shiftl_spec 1 31) by lia. rewrite (Z.testbit_neg_r 1) by lia. cbn [negb]. rewrite andb_true_r, orb_false_r.
    rewrite Z.mod_pow2_bits_low by lia. rewrite Z.lor_spec, !Z.land_spec, Z.lnot_spec, Z.testbit_ones_nonneg by lia.
    rewrite (proj2 (Z.ltb_lt _ _)) by lia. cbn. by rewrite andb_false_r, andb_true_r.
  - rewrite andb_false_r. symmetry. by apply (testbit_above dbc 22).
Qed.

Lemma u8_back x : u8 x mod 2 ^ (8 * Z.of_nat 1) = u8 x.
Proof. change (2 ^ (8 * Z.of_nat 1)) with (2 ^ 8). apply Z.mod_small, u8_range. Qed.
Lemma u32_back x : u32 x mod 2 ^ (8 * Z.of_nat 4) = u32 x.
Proof. change (2 ^ (8 * Z.of_nat 4)) with (2 ^ 32). apply Z.mod_small, u32_range. Qed.

#[local] Ltac read_back := repeat (rewrite rd_wr_ne by lia); rewrite rd_wr_eq.

Lemma built_table h hdr t write lba count pa dbc :
  0 <= write <= 1 -> 0 <= lba < 2 ^ 48 -> 1 <= count < 2 ^ 16 -> 0 <= pa < 2 ^ 64 -> 0 <= dbc < 2 ^ 22 ->
  let m := built h hdr t write lba count pa dbc in let b i := rd 1 m (t + i) in
  (b 0 = 39 /\ b 1 = 128 /\ b 2 = (if negb (write =? 0) then 53 else 37) /\ b 7 = 64) /\
  b 4 + 2 ^ 8 * b 5 + 2 ^ 16 * b 6 + 2 ^ 24 * b 8 + 2 ^ 32 * b 9 + 2 ^ 40 * b 10 = lba /\ rd16 m (t + 12) = count /\
  rd32 m (t + 128) + 2 ^ 32 * rd32 m (t + 132) = pa /\ Z.land (rd32 m (t + 140)) 4194303 = dbc.
Proof.
  intros Hw Hl Hc Hp Hd. cbv zeta. set (m := built h hdr t write lba count pa dbc).
  assert (rd 1 m (t + 4) = u8 lba /\ rd 1 m (t + 5) = u8 (Z.shiftr lba 8) /\ rd 1 m (t + 6) = u8 (Z.shiftr lba 16) /\
    rd 1 m (t + 8) = u8 (Z.shiftr lba 24) /\ rd 1 m (t + 9) = u8 (Z.shiftr lba 32) /\ rd 1 m (t + 10) = u8 (Z.shiftr lba 40))
    as (-> & -> & -> & -> & -> & ->).
  { unfold m, built, fis_mem. cbv zeta. split_and!; read_back; apply u8_back. }
  assert (rd32 m (t + 128) = u32 pa /\ rd32 m (t + 132) = u32 (Z.shiftr pa 32)) as [-> ->].
  { unfold m, built, fis_mem, prdt_mem. cbv zeta. split; read_back; apply u32_back. }
  assert (rd16 m (t + 12) = count) as ->.
  { unfold m, built, fis_mem. cbv zeta. read_back. rewrite u16_small by lia. apply Z.mod_small. lia. }
  split; [|split; [by apply lba_pieces|split; [done|split]]].
  - unfold m, built, fis_mem. cbv zeta. split_and!; read_back; by destruct (write =? 0).
  - rewrite Z.shiftr_div_pow2 by done. unfold u32. rewrite (Z.mod_small (pa / 2 ^ 32)); [|split; [by apply Z.div_pos; lia|apply Z.div_lt_upper_bound; lia]].
    pose proof (Z.div_mod pa (2 ^ 32)). lia.
  - unfold m, built, fis_mem, prdt_mem. cbv zeta. repeat (rewrite (rd_wr_ne 4 1) by lia). rewrite (rd_wr_ne 4 2) by lia.
    repeat (rewrite (rd_wr_ne 4 1) by lia). rewrite rd_wr_eq, rd_wr_eq. by apply dbc_word.
Qed.

Lemma fetch_built h hhdm hdr tbl write lba count pa dbc :
  rd32 h (hdr + 8) + 2 ^ 32 * rd32 h (hdr + 12) + hhdm = tbl -> Z.land (rd 1 h hdr) 32 = 0 ->
  hdr + 32 <= tbl \/ tbl + 144 <= hdr ->
  0 <= write <= 1 -> 0 <= lba < 2 ^ 48 -> 1 <= count < 2 ^ 16 -> 0 <= pa < 2 ^ 64 -> 0 <= dbc < 2 ^ 22 ->
  fetch (built h hdr tbl write lba count pa dbc) hhdm hdr 0 = Some (Command (negb (write =? 0)) lba count (pa + hhdm) (dbc + 1)).
Proof.
  intros Ht H32 Ha Hw Hl Hc Hp Hd. unfold fetch. replace (hdr + 32 * 0) with hdr by lia.
  destruct (built_table h hdr tbl write lba count pa dbc) as ((E0 & E1 & E2 & E7) & El & Ec & Ep & Ed); try assumption.
  cbv zeta in *. rewrite !(built_hdr _ _ _ _ _ _ _ _ 4) by (done || lia). rewrite Ht.
  set (m := built h hdr tbl write lba count pa dbc) in *.
  assert (rd16 m (hdr + 2) = 1) as ->.
  { unfold m, built, fis_mem, prdt_mem, hdr_mem. cbv zeta. read_back. done. }
  destruct (flags_byte (rd 1 h hdr) write) as [Hf Hb]; [apply (rd_range 1)|done|done|].
  assert (rd 1 m hdr = Z.lor (Z.land (Z.lor (Z.land (rd 1 h hdr) (Z.lnot 31)) (FIS_SIZE / 4) mod 2 ^ 8) (Z.lnot 64))
            (Z.shiftl (Z.land write 1) 6) mod 2 ^ 8) as ->.
  { unfold m, built, fis_mem, prdt_mem, hdr_mem. cbv zeta. read_back. rewrite rd_wr_eq. done. }
  cbv zeta in Hf, Hb. rewrite Hf, Hb, E0, E1, E2, E7, El, Ec, Ep, Ed. rewrite (proj2 (Z.eqb_neq count 0)) by lia.
  by destruct (write =? 0).
Qed.

(** ** The driver's steps *)

Lemma bit_land i j : 0 <= i < 32 -> 0 <= j < 32 -> Z.land (bit i) (bit j) = if i =? j then bit i else 0.
Proof.
  intros Hi Hj. pose proof (all_below (fun i => forallb (fun j => Z.land (bit i) (bit j) =? if i =? j then bit i else 0) (seqZ 0 32)) 32
    ltac:(by vm_compute) i Hi) as H. cbv beta in H. apply Z.eqb_eq.
  rewrite forallb_forall in H. apply H, list_elem_of_In, elem_of_seqZ. lia.
Qed.
Lemma bit_pos i : 0 <= i < 32 -> (bit i =? 0) = false.
Proof.
  intros Hi. pose proof (all_below (fun i => negb (bit i =? 0)) 32 ltac:(by vm_compute) i Hi) as H. cbv beta in H.
  by apply negb_true_iff in H.
Qed.
Lemma shiftl_bit i : 0 <= i < 32 -> Z.shiftl 1 i = bit i.
Proof.
  intros Hi. pose proof (all_below (fun i => Z.shiftl 1 i =? bit i) 32 ltac:(by vm_compute) i Hi) as H. by apply Z.eqb_eq in H.
Qed.
Lemma land_all x : 0 <= x < 2 ^ 32 -> Z.land x (Z.lnot (u32 (-1))) = 0.
Proof.
  intros H. change (u32 (-1)) with (Z.ones 32). rewrite <- Z.ldiff_land, Z.ldiff_ones_r by done.
  rewrite Z.shiftr_div_pow2 by done. rewrite Z.div_small by done. done.
Qed.

Section Driver.
Context (base n : Z) (Hn : 0 <= n < 32).
#[local] Instance here : Mmio host := ctl_mmio base n.
#[local] Abbreviation port := (base + HBA_ports + n * PORT_SIZE).

(** A register access, decided by the distance of its address from [base]. *)
#[local] Ltac at_reg :=
  unfold ctl_read, ctl_write, PORT_tfd, PORT_ci, PORT_is, PORT_sact, HBA_is, HBA_ports, PORT_SIZE;
  repeat (case Z.eqb_spec; intros ?; try lia); try reflexivity.

Lemma read_sact s : ctl_read base n (port + PORT_sact) s = Ok (0, s).
Proof. at_reg. Qed.
Lemma read_ci s : ctl_read base n (port + PORT_ci) s = Ok (u32 (ct_ci (h_ctl s)), s).
Proof. at_reg. Qed.
Lemma read_is s : ctl_read base n (port + PORT_is) s = Ok (u32 (ct_is (h_ctl s)), s).
Proof. at_reg. Qed.
Lemma read_gis s : ctl_read base n (base + HBA_is) s = Ok (u32 (ct_gis (h_ctl s)), s).
Proof. at_reg. Qed.
Lemma write_ci v : ctl_write base n (port + PORT_ci) v =
  mmodify (with_ctl (fun c => set_regs (ct_is c) (ct_gis c) (Z.lor (ct_ci c) v) (ct_busy c) c)).
Proof. at_reg. Qed.
Lemma write_is v : ctl_write base n (port + PORT_is) v =
  mmodify (with_ctl (fun c => set_regs (Z.land (ct_is c) (Z.lnot v)) (ct_gis c) (ct_ci c) (ct_busy c) c)).
Proof. at_reg. Qed.
Lemma write_gis v : ctl_write base n (base + HBA_is) v =
  mmodify (with_ctl (fun c => set_regs (ct_is c) (Z.land (ct_gis c) (Z.lnot v)) (ct_ci c) (ct_busy c) c)).
Proof. at_reg. Qed.

Lemma until_ready k b a c w : Z.of_nat (ct_busy c) < 2 ^ 64 ->
  until_clear port PORT_tfd (Z.lor HBA_PORT_TFD_BSY HBA_PORT_TFD_DRQ) (Host k b a c w) =
    Ok (tt, Host k b a (set_regs (ct_is c) (ct_gis c) (ct_ci c) 0 c) w).
Proof.
  intros Hb. unfold until_clear. apply (mloop_runs _ _ _ _ (Z.of_nat (ct_busy c))); [|done]. clear Hb.
  destruct c as [cl clu is_ gis ci busy sz f dk]. cbn [ct_busy].
  assert (forall s, rget port PORT_tfd s = match ct_busy (h_ctl s) with
    | O => Ok (80, s) | S k => Ok (128, with_ctl (set_regs (ct_is (h_ctl s)) (ct_gis (h_ctl s)) (ct_ci (h_ctl s)) k) s) end) as Hr.
  { intros s. unfold rget, mmio_read32, here, ctl_mmio. at_reg. }
  induction busy as [|m IH].
  - apply runs_stop. unfold mbind, M_bind. by rewrite Hr.
  - rewrite Nat2Z.inj_succ. eapply runs_next; [unfold mbind, M_bind; rewrite Hr; reflexivity|exact IH|lia].
Qed.

Lemma port_num_run s : hba (h_ahci s) = base -> get_port_num h_ahci port s = Ok (n, s).
Proof.
  intros H. unfold get_port_num, mgets. rewrite H. unfold HBA_ports, PORT_SIZE. do 2 f_equal.
  rewrite u64_small by lia. replace (base + 256 + n * 128 - (base + 256)) with (n * 128) by lia.
  rewrite Z.div_mul by done. by apply i32_small; lia.
Qed.

Lemma elem_run {A} (f : ahci_state -> list A) i x s : 0 <= i -> f (h_ahci s) !! Z.to_nat i = Some x -> elem h_ahci f i s = Ok (x, s).
Proof. intros Hi Hx. unfold elem. by rewrite (proj2 (Z.leb_le _ _) Hi), Hx. Qed.

Lemma header_run hdr write s :
  fill_header h_kst put_kst hdr write s = Ok (tt, put_kst (set_heap (hdr_mem (heap (h_kst s)) hdr write) (h_kst s)) s).
Proof. destruct s as [[? ? ? ? ?] ? ? ? ?]. reflexivity. Qed.
Lemma prdt_run t pa dbc s :
  fill_prdt h_kst put_kst t pa dbc s = Ok (tt, put_kst (set_heap (prdt_mem (heap (h_kst s)) t pa dbc) (h_kst s)) s).
Proof.
  unfold fill_prdt, TBL_prdt, PRDT_dba, PRDT_dbau, PRDT_dbc. cbv zeta. replace (t + 128 + 0) with (t + 128) by lia.
  replace (t + 128 + 4) with (t + 132) by lia. replace (t + 128 + 12) with (t + 140) by lia.
  destruct s as [[? ? ? ? ?] ? ? ? ?]. reflexivity.
Qed.
Lemma fis_run t write lba count s :
  fill_fis h_kst put_kst t write lba count s = Ok (tt, put_kst (set_heap (fis_mem (heap (h_kst s)) t write lba count) (h_kst s)) s).
Proof. destruct s as [[? ? ? ? ?] ? ? ? ?]. reflexivity. Qed.

(** What the driver needs before a transfer: the port as [ahci_init] leaves
    it, an idle controller, and a buffer apart from list and table. *)
Record ready (s : host) (dev lba count buf cl tbl : Z) : Prop := {
  rd_hba : hba (h_ahci s) = base;
  rd_list : cmd_lists (h_ahci s) !! Z.to_nat n = Some cl;
  rd_table : exists ts, cmd_tables (h_ahci s) !! Z.to_nat n = Some ts /\ ts !!! 0%nat = tbl;
  rd_info : exists i, port_info (h_ahci s) !! Z.to_nat n = Some i /\
    (if sector_size i =? 0 then ATA_SECTOR_SIZE_DEFAULT else sector_size i) = ct_size (h_ctl s);
  rd_dev : port_blk (h_ahci s) !! Z.to_nat n = Some dev;
  rd_clb : ct_clb (h_ctl s) + 2 ^ 32 * ct_clbu (h_ctl s) + hhdm_offset (h_kst s) = cl;
  rd_ctba : rd32 (heap (h_kst s)) (cl + 8) + 2 ^ 32 * rd32 (heap (h_kst s)) (cl + 12) + hhdm_offset (h_kst s) = tbl;
  rd_ata : Z.land (rd 1 (heap (h_kst s)) cl) 32 = 0;
  rd_lba : 0 <= lba < 2 ^ 48; rd_count : 1 <= count < 2 ^ 16; rd_bytes : 0 < count * ct_size (h_ctl s) <= 2 ^ 22;
  rd_buf : 0 <= buf - hhdm_offset (h_kst s) < 2 ^ 64;
  rd_areas : cl + 32 <= tbl \/ tbl + 144 <= cl;
  rd_apart : forall a, command_area cl tbl a -> ~ (buf <= a < buf + count * ct_size (h_ctl s));
  rd_idle : ct_ci (h_ctl s) = 0 /\ ct_gis (h_ctl s) = 0 /\ 0 <= ct_is (h_ctl s) < 2 ^ 32;
  rd_times : Z.of_nat (ct_busy (h_ctl s)) < 2 ^ 64 /\ Z.of_nat (h_wakes s) < 2 ^ 63
}.

Lemma submit_wp s dev rq lba count buf write cl tbl b0 dv :
  ready s dev lba count buf cl tbl ->
  h_blk s = under_way dev rq dv (Request lba count buf write 0 0) b0 -> 1 <= dev ->
  (Z.to_nat (dev - 1) < length (blk_devices b0))%nat -> dv_priv dv = port ->
  wp (submit_on base n dev rq) s (fun rc s' => rc = 0 /\
    s' = Host (set_heap (built (heap (h_kst s)) cl tbl write lba count (buf - hhdm_offset (h_kst s)) (count * ct_size (h_ctl s) - 1)) (h_kst s))
           (h_blk s) (h_ahci s) (set_regs 0 0 1 0 (h_ctl s)) (h_wakes s)).
Proof.
  intros [Hh Hl (ts & Hts & Ht) (i & Hi & Hsz) _ _ _ _ _ Hcnt Hby Hbuf _ _ (Hci & Hgis & His) (Hbusy & _)] Hblk Hdev Hlen Hp.
  destruct s as [k b a c w]. cbn [h_kst h_blk h_ahci h_ctl h_wakes] in *. unfold submit_on, ahci_submit.
  wp_step. eapply wp_run.
  { apply (dev_load_at h_blk dev (with_req rq dv)); [done|]. cbn [h_blk]. rewrite Hblk. by apply list_lookup_insert_eq. }
  cbn beta. cbn [with_req dv_priv]. rewrite Hp. wp_step. eapply wp_run; [by apply port_num_run|]. cbn beta.
  wp_step. eapply wp_run; [by apply (elem_run _ n i); [lia|]|]. cbn beta. rewrite Hsz.
  wp_step. unfold ahci_port_clear_interrupts, rset, mmio_write32, here, ctl_mmio. rewrite write_is. wp_step. cbn beta.
  wp_step. unfold ahci_find_slot, rget, mmio_read32, ctl_mmio. wp_step. eapply wp_run; [apply read_sact|]. cbn beta.
  wp_step. eapply wp_run; [apply read_ci|]. cbn beta. unfold with_ctl. cbn [h_ctl h_kst h_blk h_ahci h_wakes set_regs ct_ci]. rewrite Hci.
  wp_step. change (free_slot 32 0 _) with 0. change (0 <? 0) with false. cbn iota.
  wp_step. eapply wp_run; [by apply (elem_run _ n cl); [lia|]|]. cbn beta.
  assert (forall c, req_load h_blk rq (Host k b a c w) = Ok (Request lba count buf write 0 0, Host k b a c w)) as Hreq.
  { intros c'. unfold req_load. cbn [h_blk]. rewrite Hblk. cbn [under_way requests]. by rewrite lookup_insert_eq. }
  wp_step. eapply wp_run; [apply Hreq|]. cbn beta. cbn [rq_write rq_buf rq_lba rq_count]. change (cl + 0 * HDR_SIZE) with (cl + 0). rewrite Z.add_0_r.
  wp_step. eapply wp_run; [apply header_run|]. cbn beta. cbn [put_kst h_ctl h_kst h_blk h_ahci h_wakes].
  wp_step. eapply wp_run; [by apply (elem_run _ n ts); [lia|]|]. cbn beta. change (Z.to_nat 0) with 0%nat. rewrite Ht.
  wp_step. unfold phys. wp_step. cbn beta. change (hhdm_offset (h_kst (put_kst _ _))) with (hhdm_offset k).
  assert (u64 (buf - hhdm_offset k) = buf - hhdm_offset k) as -> by (by apply u64_small).
  rewrite (u32_small (count * _)), (u32_small (count * _ - 1)) by lia.
  wp_step. eapply wp_run; [apply prdt_run|]. cbn beta. cbn [put_kst h_ctl h_kst h_blk h_ahci h_wakes].
  wp_step. eapply wp_run; [apply fis_run|]. cbn beta. cbn [put_kst h_ctl h_kst h_blk h_ahci h_wakes].
  unfold ahci_submit_dma. wp_step. wp_step. eapply wp_run; [by apply until_ready|]. cbn beta.
  unfold rset, mmio_write32, here, ctl_mmio. rewrite write_ci. wp_step. cbn beta. wp_step. split; [done|].
  unfold with_ctl, set_regs. cbn [h_ctl h_kst h_blk h_ahci h_wakes ct_clb ct_clbu ct_is ct_gis ct_ci ct_busy ct_size ct_fails ct_disk].
  cbn. rewrite Hgis, land_all by done. done.
Qed.

(** ** The interrupt *)

Lemma land_lnot x : Z.land x (Z.lnot x) = 0.
Proof. apply Z.land_lnot_diag. Qed.

(** The handler sees the port's bit, acknowledges port and controller, and
    completes the request with the status. *)
Lemma irq_wp dev rq dv r b0 k a c w :
  hba a = base -> port_blk a !! Z.to_nat n = Some dev -> 1 <= dev -> (Z.to_nat (dev - 1) < length (blk_devices b0))%nat -> rq <> 0 ->
  ct_gis c = bit n -> 0 <= ct_is c < 2 ^ 32 ->
  wp (ahci_irq_handler h_blk put_blk h_ahci) (Host k (under_way dev rq dv r b0) a c w) (fun _ s' =>
    s' = Host k (under_way dev rq dv (finish_on (if Z.land (ct_is c) HBA_PORT_IS_TFES =? 0 then 0 else -1) r) b0) a
           (set_regs 0 0 (ct_ci c) (ct_busy c) c) w).
Proof.
  intros Hh Hd Hdev Hlen Hrq Hg His. unfold ahci_irq_handler. wp_step. wp_step. cbn beta. cbn [h_ahci]. rewrite Hh.
  wp_step. unfold rget at 1, mmio_read32, here, ctl_mmio. eapply wp_run; [apply read_gis|]. cbn beta. cbn [h_ctl]. rewrite Hg.
  assert (forall i, 0 <= i < 32 -> u32 (bit i) = bit i) as Hu by (intros i _; apply u32_small, u32_range). rewrite (Hu n) by done.
  wp_step. set (s0 := Host k _ a c w). set (s1 := Host k (under_way dev rq dv (finish_on _ r) b0) a _ w).
  apply (wp_mfor _ (fun j t => t = if j <=? n then s0 else s1)); [| |by rewrite (proj2 (Z.leb_le _ _)) by lia].
  - intros j t Hj ->. rewrite bit_land by lia. destruct (Z.eqb_spec n j) as [<-|Hne].
    + rewrite bit_pos by done. rewrite (proj2 (Z.leb_le n n)), (proj2 (Z.leb_gt (n + 1) n)) by lia.
      wp_step. unfold irq_port. wp_step. wp_step. cbn beta. cbn [h_ahci s0]. rewrite Hh.
      unfold rget, rset, mmio_read32, mmio_write32, here, ctl_mmio.
      wp_step. eapply wp_run; [apply read_is|]. cbn beta. cbn [h_ctl s0].
      wp_step. rewrite write_is. wp_step. cbn beta. wp_step. rewrite write_gis. wp_step. cbn beta.
      wp_step. eapply wp_run; [by apply (elem_run _ n dev); [lia|]|]. cbn beta. rewrite (proj2 (Z.eqb_neq dev 0)) by lia. cbn [negb].
      eapply wp_run; [by apply (complete_at h_blk put_blk dev rq dv r _ b0)|]. wp_step. subst s0 s1.
      rewrite (u32_small (ct_is c)) by done. rewrite if_negb. unfold put_blk, with_ctl, set_regs.
      cbn [h_kst h_blk h_ahci h_ctl h_wakes ct_clb ct_clbu ct_is ct_gis ct_ci ct_busy ct_size ct_fails ct_disk].
      by rewrite Hg, !land_lnot.
    + change (0 =? 0) with true. cbn iota. wp_step. wp_step. wp_step.
      replace (j + 1 <=? n) with (j <=? n) by (destruct (Z.leb_spec j n), (Z.leb_spec (j + 1) n); lia || done). done.
  - intros t ->. rewrite (proj2 (Z.leb_gt (0 + Z.of_nat 32) n)) by lia. wp_step. done.
Qed.

(** ** The whole request *)

(** The last [hlt]: the command is carried out and its interrupt handled. *)
Lemma last_halt_wp dev rq dv r b0 k a c lba count buf write :
  hba a = base -> port_blk a !! Z.to_nat n = Some dev -> 1 <= dev -> (Z.to_nat (dev - 1) < length (blk_devices b0))%nat -> rq <> 0 ->
  ct_is c = 0 -> ct_gis c = 0 -> ct_ci c = 1 ->
  fetch (heap k) (hhdm_offset k) (ct_clb c + 2 ^ 32 * ct_clbu c + hhdm_offset k) 0 =
    Some (Command (negb (write =? 0)) lba count buf (count * ct_size c)) ->
  wp (halt base n) (Host k (under_way dev rq dv r b0) a c 0) (fun _ s' =>
    h_blk s' = under_way dev rq dv (finish_on (if ct_fails c then -1 else 0) r) b0 /\ h_ahci s' = a /\
    h_kst s' = set_heap (after_heap (negb (ct_fails c)) (write =? 0) (ct_disk c) (heap k) (ct_size c * lba) (count * ct_size c) buf) k /\
    ct_disk (h_ctl s') = after_disk (negb (ct_fails c)) (write =? 0) (ct_disk c) (heap k) (ct_size c * lba) (count * ct_size c) buf).
Proof.
  intros Hh Hd Hdev Hlen Hrq His Hgis Hci Hf. apply (wp_same _ (carry_out n 0;; ahci_irq_handler h_blk put_blk h_ahci)).
  { unfold halt. cbn [h_wakes h_ctl]. rewrite Hci. reflexivity. }
  wp_step. eapply wp_run.
  { unfold carry_out. cbn [h_kst h_ctl h_blk h_ahci h_wakes]. rewrite Hf. cbn [cm_bytes cm_count cm_write cm_lba cm_buf].
    rewrite Z.eqb_refl, negb_involutive, His, Hgis. reflexivity. }
  cbn beta. eapply wp_mono; [apply irq_wp; try assumption|].
  - cbn [ct_gis]. by rewrite Z.lor_0_l, shiftl_bit.
  - cbn [ct_is]. destruct (ct_fails c); split; by_decide.
  - intros [] s' ->. cbn [h_blk h_ahci h_kst h_ctl ct_is ct_disk set_regs]. split_and!; try reflexivity. by destruct (ct_fails c).
Qed.

(** The wait outlasts the interrupts of others. *)
Lemma wait_wp rq dev dv r b0 k a c w Q :
  rq_done r = 0 -> Z.of_nat w < 2 ^ 63 ->
  wp (halt base n) (Host k (under_way dev rq dv r b0) a c 0) (fun _ s' =>
    (exists status, h_blk s' = under_way dev rq dv (finish_on status r) b0) /\ Q s') ->
  wp (mloop (await h_blk (halt base n) rq) tt) (Host k (under_way dev rq dv r b0) a c w) (fun _ s' => Q s').
Proof.
  intros Hr Hw Hlast. apply wp_ok in Hlast as ([] & s' & Hrun & (status & Hb) & HQ).
  eapply wp_run; [|exact HQ]. apply (mloop_runs _ _ _ _ (Z.of_nat w + 1)); [|lia]. clear Hw.
  assert (forall w, await h_blk (halt base n) rq tt (Host k (under_way dev rq dv r b0) a c w) =
    match halt base n (Host k (under_way dev rq dv r b0) a c w) with Ok (_, t) => Ok (inl tt, t) | Stuck e => Stuck e end) as Hbody.
  { intros w'. unfold await, mbind, M_bind, req_load. cbn [h_blk under_way requests]. rewrite lookup_insert_eq, Hr. cbn.
    by destruct (halt _ _ _) as [[[] t]|]. }
  induction w as [|w IH].
  - eapply (runs_next _ _ _ tt s' _ 0); [by rewrite Hbody, Hrun| |lia]. apply runs_stop.
    unfold await, mbind, M_bind, req_load. rewrite Hb. cbn [under_way requests]. by rewrite lookup_insert_eq.
  - rewrite Nat2Z.inj_succ. replace (Z.succ (Z.of_nat w) + 1) with (Z.of_nat w + 1 + 1) by lia.
    eapply runs_next; [rewrite Hbody; reflexivity|exact IH|lia].
Qed.

Lemma lens_blk : lens h_blk put_blk.
Proof. by split; intros; try done; destruct s. Qed.

(** The outcome: memory but for list and table, the disk, the driver's state. *)
Definition moved (s s' : host) (lba count buf write cl tbl : Z) : Prop :=
  h_kst s' = set_heap (heap (h_kst s')) (h_kst s) /\ h_ahci s' = h_ahci s /\
  transferred (command_area cl tbl) (negb (ct_fails (h_ctl s))) (write =? 0) (heap (h_kst s)) (heap (h_kst s'))
    (ct_disk (h_ctl s)) (ct_disk (h_ctl s')) (ct_size (h_ctl s) * lba) (count * ct_size (h_ctl s)) buf.

End Driver.

(** One sector of 512 bytes written to sector 7 of the disk at port 2. *)
Definition demo_info : ahci_port_info := Port_info 512 4096 [].
Definition demo_ahci : ahci_state :=
  Ahci_state None (2 ^ 41) 0 no_info (<[2%nat := 2 ^ 40 + 4096]> (replicate 32 0)) (replicate 32 0)
    (<[2%nat := replicate 32 (2 ^ 40 + 8192)]> (replicate 32 (replicate 32 0)))
    (<[2%nat := demo_info]> (replicate 32 no_info)) (<[2%nat := 1]> (replicate 32 0)).
Definition demo_device : blk_device := Device [] 512 1 (2 ^ 41 + HBA_ports + 2 * PORT_SIZE) 0.
Definition demo_host : host :=
  Host (set_heap (wr32 ∅ (2 ^ 40 + 4096 + 8) 8192) demo_kst) (Blk_state [demo_device] 1 ∅) demo_ahci
    (Controller 4096 0 1 0 0 3 512 false (fun a => a / 512)) 2.

