(* ===== verification/Nvme.v ===== *)
(** * NVMe (src/src/kernel/nvme.c)

    The driver finds the controller and maps its registers; it serves no
    requests. *)
From S2P Require Import Prelude KMem Spinlock BuddySpec Buddy PageAlloc PageTable Print Log Ports Pci.

#[local] Open Scope Z_scope.

Section Nvme.
Context `{PA : PageAllocator} {St : Type} `{IO : PortIO St} `{CO : Console St}.
Context (get_kst : St -> kst) (set_kst : kst -> St -> St).
Context (get_pci : St -> pci_state).

Definition find_nvme : M St (option pci_device) := first_storage get_pci PCI_SUBCLASS_NVME.

Definition nvme_init : M St unit :=
  d ← find_nvme;
  match d with
  | None => klog (Some (str "NVME")) (str "no controller found") []
  | Some d =>
      klog (Some (str "NVME")) (str "controller at %u:%u.%u") [Word (pd_bus d); Word (pd_slot d); Word (pd_func d)];;
      abar_phys ← pci_read_bar (pd_bus d) (pd_slot d) (pd_func d) 0;
      mzoom get_kst set_kst (map_mmio abar_phys PAGE_SIZE);;
      klog_ok (Some (str "NVME")) (str "MMIO mapped") []
  end.
End Nvme.
