(* ===== verification/Scratch.v ===== *)
(** * Pages borrowed by a file-system operation

    The file systems allocate a page, use it, and give it back before they
    return.  [calm] is what such an operation leaves behind: the same pages
    free, no byte outside them changed (a stated set of addresses apart), and
    no object of the file-system state touched. *)
From S2P Require Import Prelude KMem Spinlock BuddySpec Buddy PageAlloc KString Vfs.

#[local] Open Scope Z_scope.

Section Scratch.
Context {FS : Type} `{PA : PageAllocator}.
#[local] Abbreviation V := (M (vst FS)).

(** Exactly the pages [ps] are free, in some order. *)
Definition free_pages (ps : list Z) (s : vst FS) : Prop := exists qs, qs ≡ₚ ps /\ pa_inv qs (v_k s).

(** Bytes agree except in the pages [ps] and at the addresses in [W]. *)
Definition agree_but (ps : list Z) (W : Z -> Prop) (m m' : mem) : Prop :=
  forall a, (a / 4096) ∉ ps -> ~ W a -> rd8 m' a = rd8 m a.

(** [s'] differs from [s] in memory as [agree_but] allows and in the file
    systems' static state as [R] allows. *)
Definition calm (R : FS -> FS -> Prop) (ps : list Z) (W : Z -> Prop) (s s' : vst FS) : Prop :=
  exists k f, s' = set_fs f (set_vk k s) /\ R (v_fs s) f /\
    free_pages ps s' /\ agree_but ps W (heap (v_k s)) (heap k).

Lemma set_fs_vk (s : vst FS) : set_fs (v_fs s) (set_vk (v_k s) s) = s.
Proof. by destruct s. Qed.

Lemma agree_but_trans ps qs W m1 m2 m3 :
  (forall x, x ∈ qs -> x ∈ ps) -> agree_but ps W m1 m2 -> agree_but qs W m2 m3 -> agree_but ps W m1 m3.
Proof. intros Hsub H1 H2 a Ha Hw. rewrite H2; [by apply H1|auto|done]. Qed.

Lemma agree_but_mono ps W W' m m' : (forall a, W a -> W' a) -> agree_but ps W m m' -> agree_but ps W' m m'.
Proof. intros Hw H a Ha Hn. apply H; [done|auto]. Qed.

Lemma calm_refl (R : FS -> FS -> Prop) ps W s : R (v_fs s) (v_fs s) -> free_pages ps s -> calm R ps W s s.
Proof. intros HR Hf. exists (v_k s), (v_fs s). rewrite set_fs_vk. done. Qed.

Lemma calm_trans (R : FS -> FS -> Prop) ps W s1 s2 s3 :
  (forall x y z, R x y -> R y z -> R x z) -> calm R ps W s1 s2 -> calm R ps W s2 s3 -> calm R ps W s1 s3.
Proof.
  intros Ht (k & f & -> & HR & _ & Hm) (k2 & f2 & -> & HR2 & Hf2 & Hm2).
  exists k2, f2. split; [done|]. split; [by eapply Ht|]. split; [done|].
  by eapply agree_but_trans; [|exact Hm|exact Hm2].
Qed.

Lemma calm_mono (R : FS -> FS -> Prop) ps (W W' : Z -> Prop) s s' : (forall a, W a -> W' a) -> calm R ps W s s' -> calm R ps W' s s'.
Proof. intros Hw (k & f & E & HR & Hf & Hm). exists k, f. split_and!; try done. by eapply agree_but_mono. Qed.

(** A page taken while one is free. *)
Definition borrowed (ps : list Z) (b : Z) (qs : list Z) : Prop :=
  ps ≡ₚ (b / 4096) :: qs /\ NoDup ps /\ b mod 4096 = 0 /\ 0 < b /\ b + 4096 <= 2 ^ 64.

Lemma kupd_heap ps s s' : kupd ps s s' -> same_outside ps (heap s) (heap s').
Proof. by intros (m & hs & (h & -> & _) & H). Qed.

Lemma take_page ps (s : vst FS) :
  free_pages ps s -> ps <> [] ->
  wp (v_kalloc 1) s (fun b s' => b <> 0 /\ exists k qs, s' = set_vk k s /\ borrowed ps b qs /\
    free_pages qs s' /\ agree_but ps (fun _ => False) (heap (v_k s)) (heap k)).
Proof.
  intros (ps1 & Hp & Hi) Hne. unfold v_kalloc. apply wp_zoom.
  assert (ps1 <> []) as Hne1 by (by intros ->; apply Permutation_nil_l in Hp).
  eapply wp_mono; [by apply alloc_page|]. intros b k (Hal & Hb & He & qs & Hpq & Hq & Hk).
  split; [lia|]. exists k, qs. split; [done|]. split_and!.
  - split_and!; try done; [by rewrite <- Hp|]. rewrite <- Hp. by eapply pa_inv_nodup.
  - by exists qs.
  - intros a Ha _. apply (kupd_heap _ _ _ Hk). by rewrite Hp.
Qed.

Lemma give_page ps b qs (s : vst FS) :
  free_pages qs s -> borrowed ps b qs ->
  wp (v_kfree b 1) s (fun _ s' => exists k, s' = set_vk k s /\ free_pages ps s' /\
    agree_but ps (fun _ => False) (heap (v_k s)) (heap k)).
Proof.
  intros (qs1 & Hq & Hi) (Hp & Hnd & Hal & Hb & He). unfold v_kfree. apply wp_zoom.
  assert ((b / 4096) ∉ qs1) as Hn by (rewrite Hq; rewrite Hp in Hnd; by apply NoDup_cons in Hnd as [? _]).
  eapply wp_mono; [by apply (free_page qs1)|]. intros _ k (Hk & Hu). exists k. split; [done|].
  assert (b / 4096 :: qs1 ≡ₚ ps) as Hps by (by rewrite Hp, Hq).
  split; [by exists (b / 4096 :: qs1)|]. intros a Ha _. apply (kupd_heap _ _ _ Hu). by rewrite Hps.
Qed.

(** Borrow a page, run [body], give it back: the shape of most operations. *)
Lemma wp_borrow {A B} (R : FS -> FS -> Prop) ps (W : Z -> Prop) (s0 s : vst FS) (body : Z -> V A)
    (rest : A -> V B) (none : V B) (Q : B -> vst FS -> Prop) :
  (forall x y z, R x y -> R y z -> R x z) ->
  calm R ps W s0 s -> ps <> [] ->
  (forall b qs s1, b <> 0 -> borrowed ps b qs -> free_pages qs s1 ->
     (exists k, s1 = set_vk k s /\ agree_but ps (fun _ => False) (heap (v_k s)) (heap k)) ->
     wp (body b) s1 (fun a s2 => calm R qs W s1 s2 /\ forall s3, calm R ps W s0 s3 ->
       (exists k, s3 = set_vk k s2 /\ agree_but ps (fun _ => False) (heap (v_k s2)) (heap k)) -> wp (rest a) s3 Q)) ->
  wp (b ← v_kalloc 1; if b =? 0 then none else a ← body b; v_kfree b 1;; rest a) s Q.
Proof.
  intros Ht Hc Hne Hbody. destruct Hc as (k0 & f0 & -> & HR0 & Hf0 & Hm0).
  wp_step. eapply wp_mono; [by apply (take_page ps)|].
  intros b s1 (Hb & k1 & qs & E1 & Hbor & Hf1 & Hm1). rewrite (proj2 (Z.eqb_neq b 0) Hb). wp_step.
  eapply wp_mono; [apply (Hbody b qs s1); [done|done|done|by exists k1]|].
  intros a s2 [(k2 & f2 & E2 & HR2 & Hf2 & Hm2) HQ].
  wp_step. eapply wp_mono; [by apply (give_page ps b qs)|]. intros _ s3 (k3 & E3 & Hf3 & Hm3).
  apply HQ; [|by exists k3]. subst. exists k3, f2. split; [done|]. cbn in *.
  assert (forall x, x ∈ qs -> x ∈ ps) as Hsub.
  { intros x Hx. destruct Hbor as (-> & _). by apply elem_of_cons; right. }
  split; [by eapply Ht|]. split; [done|].
  eapply (agree_but_trans ps ps); [done|exact Hm0|]. eapply (agree_but_trans ps ps W); [done| |].
  - eapply agree_but_mono; [|exact Hm1]. done.
  - eapply (agree_but_trans ps ps W); [done| |eapply agree_but_mono; [|exact Hm3]; done].
    intros a' Ha' Hw. apply Hm2; [|done]. intros Hx. by apply Ha', Hsub.
Qed.

(** A write to addresses of [W], none of them in a free page. *)
Lemma calm_store (R : FS -> FS -> Prop) ps (W : Z -> Prop) s0 s d bs :
  calm R ps W s0 s -> (forall a, W a -> (a / 4096) ∉ ps) ->
  (forall a, d <= a < d + Z.of_nat (length bs) -> W a) ->
  calm R ps W s0 (set_vk (set_heap (store_bytes (heap (v_k s)) d bs) (v_k s)) s).
Proof.
  intros (k & f & -> & HR & (qs & Hq & Hi) & Hm) HW Hd. eexists _, f. split; [reflexivity|]. split; [done|]. cbn in *.
  split.
  - exists qs. split; [done|]. cbn.
    apply (pa_inv_heap qs ((fun a => a / 4096) <$> seqZ d (Z.of_nat (length bs)))); [done| |].
    + intros a Ha. rewrite rd8_store_bytes. destruct (Z.leb_spec d a); [|done].
      destruct (Z.ltb_spec a (d + Z.of_nat (length bs))); [|done]. destruct Ha. apply list_elem_of_fmap.
      exists a. split; [done|]. apply elem_of_seqZ. lia.
    + intros x (a & -> & Ha%elem_of_seqZ)%list_elem_of_fmap. rewrite Hq. apply HW, Hd. lia.
  - intros a Ha Hw. rewrite rd8_store_bytes. destruct (Z.leb_spec d a); [|by apply Hm].
    destruct (Z.ltb_spec a (d + Z.of_nat (length bs))); [|by apply Hm]. destruct Hw. apply Hd. lia.
Qed.

(** *** Blocks of several pages *)

Lemma free_pages_range qs (s : vst FS) m d n :
  free_pages qs s -> (forall a, ~ d <= a < d + n -> rd8 m a = rd8 (heap (v_k s)) a) ->
  (forall a, d <= a < d + n -> (a / 4096) ∉ qs) -> free_pages qs (set_vk (set_heap m (v_k s)) s).
Proof.
  intros (ps & Hp & Hi) Hm Hn. exists ps. split; [done|]. cbn.
  apply (pa_inv_heap ps ((fun a => a / 4096) <$> seqZ d n)); [done| |].
  - intros a Ha. apply Hm. intros Hin. apply Ha, list_elem_of_fmap. exists a. split; [done|]. apply elem_of_seqZ. lia.
  - intros x (a & -> & Ha%elem_of_seqZ)%list_elem_of_fmap. rewrite Hp. apply Hn. lia.
Qed.

(** No aligned run of pages for a request of [n] is entirely free. *)
Definition no_room (n : Z) (ps : list Z) : Prop :=
  forall a, a mod bsize (order_of n) = 0 -> exists p, p ∈ block_pages (order_of n, a) /\ (p ∉ ps).

Definition loaned (ps : list Z) (n b : Z) (qs : list Z) : Prop :=
  wf_block (order_of n, b) /\ ps ≡ₚ block_pages (order_of n, b) ++ qs /\ NoDup ps.

Lemma loaned_inside ps n b qs : loaned ps n b qs -> 0 < n <= 2048 ->
  0 < b /\ b + n * 4096 <= 2 ^ 64 /\
  forall a, b <= a < b + n * 4096 -> (a / 4096) ∈ ps /\ (a / 4096) ∉ qs.
Proof.
  intros ((_ & Hb & Hal & He) & Hp & Hnd) Hn. cbn [fst snd] in *.
  destruct (order_for_order_of n) as [_ Ho]; [lia|]. pose proof (bsize_pages (order_of n)) as Hs.
  split; [done|]. split; [lia|]. intros a Ha. rewrite Hp in Hnd. apply NoDup_app in Hnd as (_ & Hd & _).
  assert ((a / 4096) ∈ block_pages (order_of n, b)) as Hin.
  { apply elem_of_block_pages; [by eapply bsize_mod_page|]. apply bsize_mod_page, Z_div_exact_2 in Hal; [|done].
    Z.to_euclidean_division_equations; lia. }
  split; [|by apply Hd]. rewrite Hp. apply elem_of_app. by left.
Qed.

Lemma take_block ps n (s : vst FS) :
  free_pages ps s -> 0 < n <= 2048 ->
  wp (v_kalloc n) s (fun b s' => exists k, s' = set_vk k s /\ agree_but ps (fun _ => False) (heap (v_k s)) (heap k) /\
    ((b = 0 /\ free_pages ps s' /\ no_room n ps) \/ (b <> 0 /\ exists qs, loaned ps n b qs /\ free_pages qs s'))).
Proof.
  intros (ps1 & Hp & Hi) Hn. unfold v_kalloc. apply wp_zoom.
  eapply wp_mono; [by apply (pa_alloc_law ps1)|]. intros b k H. exists k. split; [done|].
  destruct H as [(-> & Hk & Hu & Hno)|(Hw & qs & Hq & Hk & Hu)].
  - split.
    + intros a Ha _. apply (kupd_heap _ _ _ Hu). by apply not_elem_of_nil.
    + left. split; [done|]. split; [by exists ps1|]. intros a Ha. destruct (Hno a Ha) as (p & H1 & H2). exists p. by rewrite <- Hp.
  - split.
    + intros a Ha _. apply (kupd_heap _ _ _ Hu). by rewrite Hp.
    + right. split; [destruct Hw as (_ & ? & _); cbn in *; lia|]. exists qs. split; [|by exists qs].
      split; [done|]. split; [by rewrite <- Hp|]. rewrite <- Hp. by eapply pa_inv_nodup.
Qed.

Lemma give_block ps n b qs (s : vst FS) :
  free_pages qs s -> loaned ps n b qs -> 0 < n <= 2048 ->
  wp (v_kfree b n) s (fun _ s' => exists k, s' = set_vk k s /\ free_pages ps s' /\
    agree_but ps (fun _ => False) (heap (v_k s)) (heap k)).
Proof.
  intros (qs1 & Hq & Hi) (Hw & Hp & Hnd) Hn. unfold v_kfree. apply wp_zoom.
  assert (block_pages (order_of n, b) ++ qs1 ≡ₚ ps) as Hps by (by rewrite Hp, Hq).
  eapply wp_mono; [apply (pa_free_law qs1); [done|done|done|by rewrite Hps]|]. intros _ k (Hk & Hu). exists k.
  split; [done|]. split; [by eexists|]. intros a Ha _. apply (kupd_heap _ _ _ Hu). by rewrite Hps.
Qed.
End Scratch.
