(* ===== verification/Ext2.v ===== *)
(** * The ext2 file system (src/src/kernel/ext2.c, ext2.h)

    Read-only ext2 over a block device.  The device is reached through
    [blk_read] and [dev_sector_size] (blk.h), which are parameters here; a page
    the code allocates to read a block into is a list of 4096 bytes, allocated
    and freed where the code does.  In-memory inodes and mounts are objects of
    [ext2_state], one component of the file systems' static state.  The lines
    sent to the log are recorded in it. *)
From S2P Require Import Prelude KMem Spinlock BuddySpec Buddy PageAlloc KString Vfs Scratch.

#[local] Open Scope Z_scope.

(** ** On-disk structures *)

Definition EXT2_SIGNATURE : Z := 61267.
Definition EXT2_ROOT_INO : Z := 2.
Definition EXT2_S_IFSOCK : Z := 49152.
Definition EXT2_S_IFLNK : Z := 40960.
Definition EXT2_S_IFREG : Z := 32768.
Definition EXT2_S_IFBLK : Z := 24576.
Definition EXT2_S_IFDIR : Z := 16384.
Definition EXT2_S_IFCHR : Z := 8192.
Definition EXT2_S_IFIFO : Z := 4096.

(** The [n] bytes of [b] from [off]; [None] past the end. *)
Definition slice (b : list Z) (off n : Z) : option (list Z) :=
  if (0 <=? off) && (0 <=? n) && (off + n <=? Z.of_nat (length b))
  then Some (take (Z.to_nat n) (drop (Z.to_nat off) b)) else None.
(** A little-endian integer from its bytes. *)
Definition le_val (bs : list Z) : Z := foldr (fun b a => b + 256 * a) 0 bs.
Definition le (n : Z) (b : list Z) (off : Z) : Z := le_val (take (Z.to_nat n) (drop (Z.to_nat off) b)).

Record ext2_inode := Ext2_inode {
  ei_mode : Z; ei_uid : Z; ei_size_low : Z; ei_atime : Z; ei_ctime : Z; ei_mtime : Z; ei_dtime : Z;
  ei_gid : Z; ei_links_count : Z; ei_blocks_count : Z; ei_flags : Z;
  ei_block : list Z;
  ei_generation : Z; ei_file_acl : Z; ei_size_high : Z; ei_faddr : Z
}.

(** The 128 bytes of a packed [struct ext2_inode]. *)
Definition ext2_inode_bytes : Z := 128.
Definition decode_inode (b : list Z) : ext2_inode :=
  Ext2_inode (le 2 b 0) (le 2 b 2) (le 4 b 4) (le 4 b 8) (le 4 b 12) (le 4 b 16) (le 4 b 20)
    (le 2 b 24) (le 2 b 26) (le 4 b 28) (le 4 b 32)
    ((fun i : nat => le 4 b (40 + 4 * Z.of_nat i)) <$> seq 0 15)
    (le 4 b 100) (le 4 b 104) (le 4 b 108) (le 4 b 112).

(** The fields of [struct ext2_superblock] and its extension that are used. *)
Record ext2_superblock := Ext2_superblock {
  es_total_blocs : Z; es_block_size : Z; es_block_per_group : Z; es_inodes_per_group : Z;
  es_signature : Z; es_version_high : Z; es_first_inode : Z; es_inode_size : Z
}.
Definition decode_superblock (b : list Z) : ext2_superblock :=
  Ext2_superblock (le 4 b 4) (le 4 b 24) (le 4 b 32) (le 4 b 40) (le 2 b 56) (le 4 b 76) (le 4 b 84) (le 2 b 88).

(** [sizeof(struct ext2_bgd)], and the offset of its [inode_table]. *)
Definition ext2_bgd_bytes : Z := 32.
Definition bgd_inode_table : Z := 8.

Record ext2_dirent := Ext2_dirent { de_inode : Z; de_rec_len : Z; de_name_len : Z; de_file_type : Z }.

(** [bgdt] is what [priv->bgdt] points to. *)
Record ext2_priv := Ext2_priv {
  p_dev : Z; p_block_size : Z; p_blocks_per_group : Z; p_inodes_per_group : Z; p_inode_size : Z;
  p_num_groups : Z; p_first_inode : Z;
  p_bgdt : Z; p_bgdt_pages : Z; bgdt : list Z
}.

Record log_line := Log { log_ok : bool; log_fmt : string; log_args : list Z }.

Record ext2_state := Ext2_state {
  e_privs : gmap Z ext2_priv;
  e_inodes : gmap Z ext2_inode;
  e_log : list log_line
}.

(** A new page holds the allocator's fill pattern. *)
Definition new_page : list Z := replicate 4096 MEM_ALLOC_PATTERN.

Section Ext2.
Context {FS : Type} `{PA : PageAllocator} `{VO : VfsOps FS}.
Context (get_ext : FS -> ext2_state) (set_ext : ext2_state -> FS -> FS).
#[local] Abbreviation V := (M (vst FS)).
(** [blk_read(dev, lba, count, buf)]: the answer and what the buffer then holds. *)
Context (blk_read : Z -> Z -> Z -> list Z -> V (Z * list Z)).
Context (dev_sector_size : Z -> V Z).
(** The static tables [ext2_inode_ops] and [ext2_file_ops]. *)
Context (ext2_inode_ops ext2_file_ops : Z).

Definition upd_ext (f : ext2_state -> ext2_state) : V unit :=
  mmodify (fun s => set_fs (set_ext (f (get_ext (v_fs s))) (v_fs s)) s).
Definition klog_line (ok : bool) (fmt : string) (args : list Z) : V unit :=
  upd_ext (fun e => Ext2_state (e_privs e) (e_inodes e) (e_log e ++ [Log ok fmt args])).

Definition priv_load (p : Z) : V ext2_priv := fun s =>
  match e_privs (get_ext (v_fs s)) !! p with Some x => Ok (x, s) | None => Stuck Fault end.
Definition ei_load (p : Z) : V ext2_inode := fun s =>
  match e_inodes (get_ext (v_fs s)) !! p with Some x => Ok (x, s) | None => Stuck Fault end.
Definition priv_set (p : Z) (x : ext2_priv) : V unit :=
  upd_ext (fun e => Ext2_state (<[p := x]> (e_privs e)) (e_inodes e) (e_log e)).
Definition priv_drop (p : Z) : V unit :=
  upd_ext (fun e => Ext2_state (delete p (e_privs e)) (e_inodes e) (e_log e)).
Definition ei_set (p : Z) (x : ext2_inode) : V unit :=
  upd_ext (fun e => Ext2_state (e_privs e) (<[p := x]> (e_inodes e)) (e_log e)).
Definition ei_drop (p : Z) : V unit :=
  upd_ext (fun e => Ext2_state (e_privs e) (delete p (e_inodes e)) (e_log e)).

(** Bytes of a page buffer. *)
Definition page_slice (b : list Z) (off n : Z) : V (list Z) :=
  match slice b off n with Some bs => mret bs | None => mstuck Fault end.
Definition page_le (n : Z) (b : list Z) (off : Z) : V Z := bs ← page_slice b off n; mret (le_val bs).

(** *** Blocks *)

Definition ext2_read_block (p : ext2_priv) (blkno : Z) (buf : list Z) : V (Z * list Z) :=
  ss ← dev_sector_size (p_dev p);
  spb ← udiv (p_block_size p) ss;
  blk_read (p_dev p) (u64 (blkno * spb)) spb buf.

(** The answer, and [*dst] when it is zero. *)
Definition ext2_read_inode (p : ext2_priv) (ino : Z) : V (Z * option ext2_inode) :=
  if ino =? 0 then mret (-1, None)
  else
    grp ← udiv (ino - 1) (p_inodes_per_group p);
    idx ← umod (ino - 1) (p_inodes_per_group p);
    itbl ← page_le 4 (bgdt p) (grp * ext2_bgd_bytes + bgd_inode_table);
    let byte_off := u32 (idx * p_inode_size p) in
    blk_off ← udiv byte_off (p_block_size p);
    off_in_blk ← umod byte_off (p_block_size p);
    buf ← v_kalloc 1;
    if buf =? 0 then mret (-1, None)
    else
      r ← (r ← ext2_read_block p (u32 (itbl + blk_off)) new_page;
           if r.1 =? 0 then bs ← page_slice r.2 off_in_blk ext2_inode_bytes; mret (r.1, Some (decode_inode bs))
           else mret (r.1, None));
      v_kfree buf 1;;
      mret r.

(** Entry [i] of the pointer block [blk]: read into a page of its own, the
    answer of the read ignored; 0 when there is no page. *)
Definition read_ptr (p : ext2_priv) (blk i : Z) : V Z :=
  buf ← v_kalloc 1;
  if buf =? 0 then mret 0
  else
    x ← (r ← ext2_read_block p blk new_page; page_le 4 r.2 (4 * i));
    v_kfree buf 1;;
    mret x.

Definition ext2_block_map (p : ext2_priv) (ei : ext2_inode) (lbn : Z) : V Z :=
  let ptrs := p_block_size p / 4 in
  let block i := ei_block ei !!! Z.to_nat i in
  if lbn <? 12 then mret (block lbn)
  else
    let lbn := lbn - 12 in
    if lbn <? ptrs then
      if block 12 =? 0 then mret 0 else read_ptr p (block 12) lbn
    else
      let lbn := lbn - ptrs in
      if lbn <? u32 (ptrs * ptrs) then
        if block 13 =? 0 then mret 0
        else
          i ← udiv lbn ptrs;
          l1 ← read_ptr p (block 13) i;
          if l1 =? 0 then mret 0 else read_ptr p l1 (lbn mod ptrs)
      else
        let lbn := lbn - u32 (ptrs * ptrs) in
        if block 14 =? 0 then mret 0
        else
          i ← udiv lbn (u32 (ptrs * ptrs));
          l1 ← read_ptr p (block 14) i;
          if l1 =? 0 then mret 0
          else
            l2 ← read_ptr p l1 (lbn / ptrs mod ptrs);
            if l2 =? 0 then mret 0 else read_ptr p l2 (lbn mod ptrs).

(** *** Inodes *)

Definition ext2_vfs_mode (m : Z) : Z :=
  let t := Z.land m 61440 in
  let type :=
    if t =? EXT2_S_IFREG then VFS_S_IFREG
    else if t =? EXT2_S_IFDIR then VFS_S_IFDIR
    else if t =? EXT2_S_IFLNK then VFS_S_IFLNK
    else if t =? EXT2_S_IFCHR then VFS_S_IFCHR
    else if t =? EXT2_S_IFBLK then VFS_S_IFBLK
    else if t =? EXT2_S_IFIFO then VFS_S_IFIFO
    else if t =? EXT2_S_IFSOCK then VFS_S_IFSOCK
    else 0 in
  Z.lor type (Z.land m 4095).

Definition ext2_make_vfs_inode (sb ino_num : Z) (ei : ext2_inode) : V Z :=
  copy ← v_kalloc 1;
  if copy =? 0 then mret 0
  else
    ei_set copy ei;;
    vino ← v_kalloc 1;
    if vino =? 0 then v_kfree copy 1;; ei_drop copy;; mret 0
    else
      create v_inodes set_inodes vino
        (Inode ino_num (ext2_vfs_mode (ei_mode ei)) 1 sb ext2_inode_ops ext2_file_ops copy);;
      mret vino.

Definition file_size (ei : ext2_inode) : Z := Z.lor (ei_size_low ei) (Z.shiftl (ei_size_high ei) 32).

Definition ext2_getattr (vino : Z) (st : vfs_stat) : V (Z * vfs_stat) :=
  i ← load v_inodes vino;
  ei ← ei_load (i_priv i);
  mret (VFS_OK, Stat (i_ino i) (i_mode i) (ei_links_count ei) (ei_uid ei) (ei_gid ei) (file_size ei)
                     (ei_blocks_count ei) (ei_atime ei) (ei_mtime ei) (ei_ctime ei)).

(** *** Directories *)

(** The fixed part of the entry at [off] of a block buffer. *)
Definition dirent_at (b : list Z) (off : Z) : V ext2_dirent :=
  bs ← page_slice b off 8;
  mret (Ext2_dirent (le 4 bs 0) (le 2 bs 4) (le 1 bs 6) (le 1 bs 7)).

(** The comparison loop of [ext2_lookup]; [pos] is where the entry's name is. *)
Fixpoint names_match (b : list Z) (pos : Z) (name : list Z) : V bool :=
  match name with
  | [] => mret true
  | c :: name' =>
      x ← page_le 1 b pos;
      if x =? c then names_match b (pos + 1) name' else mret false
  end.

(** A cursor in a file's blocks: the block the buffer holds, and its bytes. *)
Record block_cursor := Cursor { cur_blk : Z; cur_buf : list Z }.
Definition new_cursor : block_cursor := Cursor (2 ^ 32 - 1) new_page.

(** Bring block [lbn] into the buffer; [None] when the loop must stop. *)
Definition seek_block (p : ext2_priv) (ei : ext2_inode) (lbn : Z) (c : block_cursor) : V (option block_cursor) :=
  if lbn =? cur_blk c then mret (Some c)
  else
    phys ← ext2_block_map p ei lbn;
    if phys =? 0 then mret None
    else
      r ← ext2_read_block p phys (cur_buf c);
      if negb (r.1 =? 0) then mret None else mret (Some (Cursor lbn r.2)).

(** An entry of the right name: make its inode the child's. *)
Definition found_entry (p : ext2_priv) (sb child : Z) (de : ext2_dirent) : V Z :=
  r ← ext2_read_inode p (de_inode de);
  match r with
  | (rc, Some ei) =>
      if negb (rc =? 0) then mret (-1)
      else
        vino ← ext2_make_vfs_inode sb (de_inode de) ei;
        if vino =? 0 then mret VFS_ENOMEM
        else upd_dentry child (set_d_inode vino);; mret VFS_OK
  | (_, None) => mret (-1)
  end.

(** One round of the [while (offset < dir_size)] of [ext2_lookup]. *)
Definition lookup_entry (p : ext2_priv) (dei : ext2_inode) (sb child : Z) (name : list Z)
    (st : Z * block_cursor) : V ((Z * block_cursor) + Z) :=
  let '(offset, c) := st in
  if negb (offset <? ei_size_low dei) then mret (inr VFS_ENOENT)
  else
    lbn ← udiv offset (p_block_size p);
    off_blk ← umod offset (p_block_size p);
    o ← seek_block p dei lbn c;
    match o with
    | None => mret (inr VFS_ENOENT)
    | Some c =>
        de ← dirent_at (cur_buf c) off_blk;
        if de_rec_len de <? 8 then mret (inr VFS_ENOENT)
        else
          hit ← (if negb (de_inode de =? 0) && (de_name_len de =? Z.of_nat (length name))
                 then names_match (cur_buf c) (off_blk + 8) name else mret false);
          if hit : bool then rc ← found_entry p sb child de; mret (inr rc)
          else mret (inl (u32 (offset + de_rec_len de), c))
    end.

Definition ext2_lookup (dir child : Z) : V Z :=
  i ← load v_inodes dir;
  dei ← ei_load (i_priv i);
  sb ← load v_supers (i_sb i);
  p ← priv_load (sb_priv sb);
  d ← load v_dentries child;
  buf ← v_kalloc 1;
  if buf =? 0 then mret VFS_ENOMEM
  else
    result ← mloop (lookup_entry p dei (i_sb i) child (d_name d)) (0, new_cursor);
    v_kfree buf 1;;
    mret result.

(** *** Files *)

Definition ext2_open (inode file : Z) : V Z := mret VFS_OK.
Definition ext2_close (file : Z) : V Z := mret VFS_OK.

(** One round of the copy loop of [ext2_read]; it answers the bytes copied. *)
Definition read_chunk (p : ext2_priv) (ei : ext2_inode) (off count out : Z)
    (st : Z * block_cursor) : V ((Z * block_cursor) + Z) :=
  let '(done, c) := st in
  if negb (done <? count) then mret (inr done)
  else
    q ← udiv (u64 (off + done)) (p_block_size p);
    r ← umod (u64 (off + done)) (p_block_size p);
    let lbn := u32 q in
    let blk_off := u32 r in
    let chunk := u32 (p_block_size p - blk_off) in
    let chunk := if count - done <? chunk then count - done else chunk in
    o ← seek_block p ei lbn c;
    match o with
    | None => mret (inr done)
    | Some c =>
        bs ← page_slice (cur_buf c) blk_off chunk;
        mmodify (fun s => set_vk (set_heap (store_bytes (heap (v_k s)) (u64 (out + done)) bs) (v_k s)) s);;
        mret (inl (u64 (done + chunk), c))
    end.

(** [*off] is the position of the open file [f]. *)
Definition ext2_read (f buf count : Z) : V Z :=
  x ← load v_files f;
  i ← load v_inodes (f_inode x);
  ei ← ei_load (i_priv i);
  sb ← load v_supers (i_sb i);
  p ← priv_load (sb_priv sb);
  let size := file_size ei in
  let off := f_pos x in
  if size <=? off then mret 0
  else
    let count := if size <? u64 (off + count) then size - off else count in
    blk_buf ← v_kalloc 1;
    if blk_buf =? 0 then mret VFS_ENOMEM
    else
      done ← mloop (read_chunk p ei off count buf) (0, new_cursor);
      v_kfree blk_buf 1;;
      upd_file f (set_f_pos (u64 (off + done)));;
      mret (i64 done).

(** One round of [ext2_readdir]. *)
Definition readdir_entry (p : ext2_priv) (ei : ext2_inode) (f : Z) (st : Z * block_cursor) :
    V ((Z * block_cursor) + (Z * option vfs_dirent)) :=
  let '(offset, c) := st in
  if negb (offset <? ei_size_low ei) then mret (inr (VFS_ENOENT, None))
  else
    lbn ← udiv offset (p_block_size p);
    off_blk ← umod offset (p_block_size p);
    o ← seek_block p ei lbn c;
    match o with
    | None => mret (inr (VFS_ENOENT, None))
    | Some c =>
        de ← dirent_at (cur_buf c) off_blk;
        if de_rec_len de <? 8 then mret (inr (VFS_ENOENT, None))
        else
          let offset := u32 (offset + de_rec_len de) in
          if de_inode de =? 0 then mret (inl (offset, c))
          else
            name ← page_slice (cur_buf c) (off_blk + 8) (de_name_len de);
            upd_file f (set_f_pos offset);;
            mret (inr (VFS_OK, Some (Vfs_dirent (de_inode de) vfs_dirent_bytes (de_file_type de) name)))
    end.

(** The answer and, on success, [*out]. *)
Definition ext2_readdir (f : Z) : V (Z * option vfs_dirent) :=
  x ← load v_files f;
  i ← load v_inodes (f_inode x);
  ei ← ei_load (i_priv i);
  sb ← load v_supers (i_sb i);
  p ← priv_load (sb_priv sb);
  if ei_size_low ei <=? u32 (f_pos x) then mret (VFS_ENOENT, None)
  else
    buf ← v_kalloc 1;
    if buf =? 0 then mret (VFS_ENOMEM, None)
    else
      r ← mloop (readdir_entry p ei f) (u32 (f_pos x), new_cursor);
      v_kfree buf 1;;
      mret r.

(** *** Mounting *)

(** [memcpy] of [bs] into the page list [b] at [off]. *)
Definition paste (b : list Z) (off : Z) (bs : list Z) : V (list Z) :=
  if (0 <=? off) && (off + Z.of_nat (length bs) <=? Z.of_nat (length b))
  then mret (take (Z.to_nat off) b ++ bs ++ drop (Z.to_nat off + length bs) b) else mstuck Fault.

(** One round of the loop that reads the group descriptors: [None] when a page
    is missing. *)
Definition bgdt_step (p : ext2_priv) (bgdt_block bgdt_bytes i : Z) (tbl : list Z) : V (option (list Z)) :=
  tmp ← v_kalloc 1;
  if tmp =? 0 then mret None
  else
    r ← ext2_read_block p (u32 (bgdt_block + i)) new_page;
    let written := u64 (i * p_block_size p) in
    let copy := if bgdt_bytes <? u64 (written + p_block_size p) then u64 (bgdt_bytes - written) else p_block_size p in
    bs ← page_slice r.2 0 copy;
    tbl ← paste tbl written bs;
    v_kfree tmp 1;;
    mret (Some tbl).

Fixpoint read_bgdt (p : ext2_priv) (bgdt_block bgdt_bytes i : Z) (n : nat) (tbl : list Z) : V (option (list Z)) :=
  match n with
  | O => mret (Some tbl)
  | S n =>
      r ← bgdt_step p bgdt_block bgdt_bytes i tbl;
      match r with
      | Some tbl => read_bgdt p bgdt_block bgdt_bytes (i + 1) n tbl
      | None => mret None
      end
  end.

(** What the superblock says, before the group descriptors are read. *)
Definition super_priv (dev : Z) (esb : ext2_superblock) : V ext2_priv :=
  bs ← (if 32 <=? es_block_size esb then mstuck Fault else mret (u32 (1024 * 2 ^ es_block_size esb)));
  groups ← udiv (u32 (es_total_blocs esb + es_block_per_group esb - 1)) (es_block_per_group esb);
  mret (Ext2_priv dev bs (es_block_per_group esb) (es_inodes_per_group esb)
          (if 1 <=? es_version_high esb then es_inode_size esb else 128) groups
          (if 1 <=? es_version_high esb then es_first_inode esb else 11) 0 0 []).

Definition set_bgdt (a pages : Z) (b : list Z) (p : ext2_priv) : ext2_priv :=
  Ext2_priv (p_dev p) (p_block_size p) (p_blocks_per_group p) (p_inodes_per_group p) (p_inode_size p)
    (p_num_groups p) (p_first_inode p) a pages b.

(** Free a mount's private data. *)
Definition free_priv (priv bgdt bgdt_pages : Z) : V unit :=
  v_kfree bgdt bgdt_pages;;
  v_kfree priv 1;;
  priv_drop priv.

(** The root inode and dentry, once the descriptors are in memory. *)
Definition mount_root (sb priv : Z) (p : ext2_priv) : V Z :=
  upd_super sb (fun x => Super (sb_flags x) (sb_refcnt x) (sb_type x) (sb_root x) priv);;
  r ← ext2_read_inode p EXT2_ROOT_INO;
  match r with
  | (0, Some root_ei) =>
      root_vino ← ext2_make_vfs_inode sb EXT2_ROOT_INO root_ei;
      if root_vino =? 0 then free_priv priv (p_bgdt p) (p_bgdt_pages p);; mret VFS_ENOMEM
      else
        root_dent ← v_kalloc 1;
        if root_dent =? 0 then
          i ← load v_inodes root_vino;
          v_kfree (i_priv i) 1;;
          ei_drop (i_priv i);;
          v_kfree root_vino 1;;
          destroy v_inodes set_inodes root_vino;;
          free_priv priv (p_bgdt p) (p_bgdt_pages p);;
          mret VFS_ENOMEM
        else
          create v_dentries set_dentries root_dent (Dentry 1 [SLASH] root_vino 0 0 0);;
          upd_super sb (set_sb_root root_dent);;
          klog_line true "mounted  block_size=%u  groups=%u" [p_block_size p; p_num_groups p];;
          mret VFS_OK
  | _ => free_priv priv (p_bgdt p) (p_bgdt_pages p);; mret (-1)
  end.

Definition ext2_mount_fs (sb device opts : Z) : V Z :=
  let dev := device in
  if dev =? 0 then mret (-1)
  else
    ss ← dev_sector_size dev;
    sb_lba ← udiv 1024 ss;
    let sb_sects := if sb_lba =? 0 then 1 else sb_lba in
    raw ← v_kalloc 1;
    if raw =? 0 then mret VFS_ENOMEM
    else
      r ← blk_read dev sb_lba sb_sects new_page;
      if negb (r.1 =? 0) then v_kfree raw 1;; mret (-1)
      else
        let esb := decode_superblock r.2 in
        if negb (es_signature esb =? EXT2_SIGNATURE) then
          klog_line false "bad signature 0x%x" [es_signature esb];;
          v_kfree raw 1;;
          mret (-1)
        else
          priv ← v_kalloc 1;
          if priv =? 0 then v_kfree raw 1;; mret VFS_ENOMEM
          else
            p ← super_priv dev esb;
            let bgdt_block := if p_block_size p =? 1024 then 2 else 1 in
            let bgdt_bytes := u32 (p_num_groups p * ext2_bgd_bytes) in
            let pages := u32 (bgdt_bytes + PAGE_SIZE - 1) / PAGE_SIZE in
            let bgdt_pages := if pages =? 0 then 1 else pages in
            bgdt ← v_kalloc bgdt_pages;
            if bgdt =? 0 then v_kfree raw 1;; v_kfree priv 1;; mret VFS_ENOMEM
            else
              bgdt_blks ← udiv (u32 (bgdt_bytes + p_block_size p - 1)) (p_block_size p);
              t ← read_bgdt p bgdt_block bgdt_bytes 0 (Z.to_nat bgdt_blks) (replicate (Z.to_nat (bgdt_pages * PAGE_SIZE)) 0);
              match t with
              | None => v_kfree bgdt bgdt_pages;; v_kfree raw 1;; v_kfree priv 1;; mret VFS_ENOMEM
              | Some tbl =>
                  v_kfree raw 1;;
                  let p := set_bgdt bgdt bgdt_pages tbl p in
                  priv_set priv p;;
                  mount_root sb priv p
              end.

Definition ext2_unmount (sb : Z) : V unit :=
  if sb =? 0 then mret tt
  else
    x ← load v_supers sb;
    if sb_priv x =? 0 then mret tt
    else
      p ← priv_load (sb_priv x);
      free_priv (sb_priv x) (p_bgdt p) (p_bgdt_pages p);;
      upd_super sb (fun x => Super (sb_flags x) (sb_refcnt x) (sb_type x) (sb_root x) 0).

Definition ext2_tops : vfs_type_ops FS := Tops (Some ext2_mount_fs) (Some ext2_unmount).
(** [ext2_fs_type] is the static object at [type]. *)
Definition ext2_init (type : Z) : V unit := vfs_register_fs type;; mret tt.

Definition ext2_iops : vfs_inode_ops FS := Iops (Some ext2_lookup) None None None (Some ext2_getattr).
Definition ext2_fops : vfs_file_ops FS := Fops (Some ext2_open) (Some ext2_close) (Some ext2_read) None None.
End Ext2.

(** ** Bytes *)

Lemma slice_Some b off n : 0 <= off -> 0 <= n -> off + n <= Z.of_nat (length b) ->
  slice b off n = Some (take (Z.to_nat n) (drop (Z.to_nat off) b)).
Proof. intros. unfold slice. by rewrite !(proj2 (Z.leb_le _ _)) by lia. Qed.

Lemma le_val_range bs : Forall (fun b => 0 <= b < 256) bs -> 0 <= le_val bs < 256 ^ Z.of_nat (length bs).
Proof.
  induction 1 as [|b bs Hb Hbs IH]; [done|]. cbn [le_val foldr length]. fold (le_val bs).
  rewrite Nat2Z.inj_succ, Z.pow_succ_r by lia. lia.
Qed.

(** ** The device *)

Section Ext2Proofs.
Context {FS : Type} `{PA : PageAllocator} `{VO : VfsOps FS}.
Context (get_ext : FS -> ext2_state).
#[local] Abbreviation V := (M (vst FS)).
Context (blk_read : Z -> Z -> Z -> list Z -> V (Z * list Z)).
Context (dev_sector_size : Z -> V Z).

(** The file systems' state with the device idle. *)
Context (ready : FS -> Prop).

(** [sectors] is what the device [dev] of sector size [ss] holds. *)
Definition image (sectors : Z -> list Z) (lba n : Z) : list Z := concat (sectors <$> seqZ lba n).

(** Only the device's own state moves. *)
Definition only_device (s s' : vst FS) : Prop :=
  exists f, s' = set_fs f s /\ get_ext f = get_ext (v_fs s) /\ ready f.

Record device_ok (dev ss : Z) (sectors : Z -> list Z) : Prop := {
  dev_size : forall s, dev_sector_size dev s = Ok (ss, s);
  dev_read : forall s lba n buf, ready (v_fs s) -> 0 <= lba -> 0 < n -> n * ss <= Z.of_nat (length buf) ->
    wp (blk_read dev lba n buf) s (fun r s' =>
      r = (0, image sectors lba n ++ drop (Z.to_nat (n * ss)) buf) /\ only_device s s');
  dev_sectors : forall lba, Z.of_nat (length (sectors lba)) = ss /\ Forall (fun b => 0 <= b < 256) (sectors lba)
}.

(** A mount of supported block size on a working device. *)
Record mount_ok (p : ext2_priv) (ss : Z) (sectors : Z -> list Z) : Prop := {
  mnt_dev : device_ok (p_dev p) ss sectors;
  mnt_ss : 0 < ss;
  mnt_bs : p_block_size p = 1024 \/ p_block_size p = 2048 \/ p_block_size p = 4096;
  mnt_div : p_block_size p mod ss = 0
}.

(** Block [blk] of the volume. *)
Definition disk_block (p : ext2_priv) (ss : Z) (sectors : Z -> list Z) (blk : Z) : list Z :=
  image sectors (blk * (p_block_size p / ss)) (p_block_size p / ss).

Context (p : ext2_priv) (ss : Z) (sectors : Z -> list Z) (MO : mount_ok p ss sectors).
#[local] Abbreviation bs := (p_block_size p).
#[local] Abbreviation block := (disk_block p ss sectors).
#[local] Abbreviation ptrs := (p_block_size p / 4).

Lemma image_length lba n : 0 <= n -> Z.of_nat (length (image sectors lba n)) = n * ss.
Proof.
  intros Hn. unfold image. replace n with (Z.of_nat (Z.to_nat n)) by lia. generalize (Z.to_nat n). clear Hn n.
  intros n. revert lba. induction n as [|n IH]; intros lba; [done|].
  replace (seqZ lba (Z.of_nat (S n))) with (lba :: seqZ (lba + 1) (Z.of_nat n)).
  - cbn [fmap list_fmap concat]. rewrite length_app, Nat2Z.inj_add.
    change (concat (list_fmap _ _ sectors ?l)) with (concat (sectors <$> l)). rewrite IH.
    destruct (dev_sectors _ _ _ (mnt_dev _ _ _ MO) lba) as [-> _]. lia.
  - rewrite (seqZ_cons lba) by lia. f_equal. f_equal; lia.
Qed.

Lemma image_bytes lba n : Forall (fun b => 0 <= b < 256) (image sectors lba n).
Proof.
  unfold image. apply Forall_concat, Forall_fmap, Forall_forall. intros x _. cbn.
  by destruct (dev_sectors _ _ _ (mnt_dev _ _ _ MO) x).
Qed.

Lemma block_length blk : Z.of_nat (length (block blk)) = bs.
Proof.
  unfold disk_block. destruct MO as [_ Hss Hbs Hm]. rewrite image_length by (apply Z.div_pos; lia).
  rewrite Z.mul_comm. symmetry. apply Z_div_exact_2; lia.
Qed.

Lemma block_bytes blk : Forall (fun b => 0 <= b < 256) (block blk).
Proof. apply image_bytes. Qed.

Lemma read_block_run s blk buf :
  ready (v_fs s) -> 0 <= blk < 2 ^ 32 -> length buf = 4096%nat ->
  wp (ext2_read_block blk_read dev_sector_size p blk buf) s (fun r s' =>
    r = (0, block blk ++ drop (Z.to_nat bs) buf) /\ only_device s s').
Proof.
  intros Hr Hblk Hl. pose proof MO as [Hdev Hss Hbs Hm]. unfold ext2_read_block.
  wp_step. eapply wp_run; [apply (dev_size _ _ _ Hdev)|]. wp_step.
  unfold udiv. rewrite (proj2 (Z.eqb_neq ss 0)) by lia. wp_step.
  assert (0 < bs / ss <= 4096) as Hq.
  { assert (bs = ss * (bs / ss)) by (apply Z_div_exact_2; lia). nia. }
  assert (bs / ss * ss = bs) as Hmul by (rewrite Z.mul_comm; symmetry; apply Z_div_exact_2; lia).
  rewrite u64_small by nia. eapply wp_mono; [apply (dev_read _ _ _ Hdev); [done|nia|lia|lia]|].
  intros r s' [-> H]. by rewrite Hmul.
Qed.

(** Nothing but the device's state and borrowed memory changes. *)
Definition dev_step (f f' : FS) : Prop := get_ext f' = get_ext f /\ ready f'.
#[local] Abbreviation quiet := (calm dev_step).

Lemma dev_step_trans x y z : dev_step x y -> dev_step y z -> dev_step x z.
Proof. intros [E _] [E2 H]. split; [by rewrite E2|done]. Qed.

Lemma quiet_ready ps W s0 s : quiet ps W s0 s -> ready (v_fs s).
Proof. by intros (k & f & -> & [_ H] & _). Qed.

Lemma only_device_quiet ps W s s' : only_device s s' -> free_pages ps s -> quiet ps W s s'.
Proof.
  intros (f & -> & E & H) Hf. exists (v_k s), f. split; [by destruct s|]. split; [done|]. done.
Qed.

Lemma block_page blk : length (block blk ++ drop (Z.to_nat bs) new_page) = 4096%nat.
Proof.
  pose proof (block_length blk) as H. destruct MO as [_ _ Hbs _].
  rewrite length_app, length_drop. unfold new_page. rewrite length_replicate. lia.
Qed.

Lemma page_slice_run b off n (s : vst FS) :
  0 <= off -> 0 <= n -> off + n <= Z.of_nat (length b) ->
  page_slice b off n s = Ok (take (Z.to_nat n) (drop (Z.to_nat off) b), s).
Proof. intros. unfold page_slice. by rewrite slice_Some. Qed.

(** A range inside the block part of a page. *)
Lemma take_drop_app {A} (l l' : list A) off n :
  (off + n <= length l)%nat -> take n (drop off (l ++ l')) = take n (drop off l).
Proof. intros H. rewrite drop_app_le by lia. rewrite take_app_le; [done|]. rewrite length_drop. lia. Qed.

(** Entry [i] of the pointer block [blk]. *)
Definition ptr_of (blk i : Z) : Z := le 4 (block blk) (4 * i).

Lemma ptr_of_range blk i : 0 <= ptr_of blk i < 2 ^ 32.
Proof.
  unfold ptr_of, le. pose proof (le_val_range (take (Z.to_nat 4) (drop (Z.to_nat (4 * i)) (block blk)))) as H.
  destruct H as [H1 H2]; [apply Forall_take, Forall_drop, block_bytes|]. split; [done|].
  eapply Z.lt_le_trans; [exact H2|]. change (2 ^ 32) with (256 ^ 4). apply Z.pow_le_mono_r; [lia|].
  rewrite length_take. lia.
Qed.

Lemma read_ptr_run ps W s0 s blk i :
  quiet ps W s0 s -> ps <> [] -> 0 <= blk < 2 ^ 32 -> 0 <= i < ptrs ->
  wp (read_ptr blk_read dev_sector_size p blk i) s (fun r s' => r = ptr_of blk i /\ quiet ps W s0 s').
Proof.
  intros Hq Hne Hblk Hi. unfold read_ptr. pose proof (mnt_bs _ _ _ MO) as Hbs.
  apply (wp_borrow dev_step ps W s0 s); [apply dev_step_trans|done|done|].
  intros b qs s1 Hb Hbor Hf1 (k & -> & Hm). wp_step.
  eapply wp_mono; [apply read_block_run; [exact (quiet_ready _ _ _ _ Hq)|done|by unfold new_page; rewrite length_replicate]|].
  intros r s2 [-> Hd]. cbn [snd]. unfold page_le. wp_step.
  eapply wp_run; [apply page_slice_run; [lia|lia|]|].
  { rewrite block_page. Z.to_euclidean_division_equations; lia. }
  wp_step. split; [by apply only_device_quiet|]. intros s3 Hs3 _. wp_step. split; [|done].
  unfold ptr_of, le. rewrite take_drop_app; [done|]. pose proof (block_length blk). 
  assert (4 * i + 4 <= bs) by (Z.to_euclidean_division_equations; lia). lia.
Qed.

(** ** The block map *)

(** Follow [depth] levels of pointer blocks from [blk] to logical block [n]. *)
Fixpoint tree (depth : nat) (blk n : Z) : Z :=
  match depth with
  | O => blk
  | S d => if blk =? 0 then 0 else tree d (ptr_of blk (n / ptrs ^ Z.of_nat d)) (n mod ptrs ^ Z.of_nat d)
  end.

(** The disk block of logical block [lbn]: twelve direct blocks, then trees of
    one, two and three levels. *)
Definition bmap (ei : ext2_inode) (lbn : Z) : Z :=
  let block i := ei_block ei !!! Z.to_nat i in
  if lbn <? 12 then block lbn
  else if lbn - 12 <? ptrs then tree 1 (block 12) (lbn - 12)
  else if lbn - 12 - ptrs <? ptrs ^ 2 then tree 2 (block 13) (lbn - 12 - ptrs)
  else tree 3 (block 14) (lbn - 12 - ptrs - ptrs ^ 2).

Definition max_blocks : Z := 12 + ptrs + ptrs ^ 2 + ptrs ^ 3.

Record inode_ok (ei : ext2_inode) : Prop := {
  ino_len : length (ei_block ei) = 15%nat;
  ino_ptrs : Forall (fun b => 0 <= b < 2 ^ 32) (ei_block ei)
}.

Lemma inode_ptr ei i : inode_ok ei -> 0 <= i < 15 -> 0 <= ei_block ei !!! Z.to_nat i < 2 ^ 32.
Proof.
  intros [Hl Hp] Hi. rewrite Forall_forall in Hp. apply Hp. apply list_elem_of_lookup_2 with (Z.to_nat i).
  apply list_lookup_lookup_total_lt. lia.
Qed.

Lemma block_map_run ps W s0 s ei lbn :
  quiet ps W s0 s -> ps <> [] -> inode_ok ei -> 0 <= lbn < max_blocks ->
  wp (ext2_block_map blk_read dev_sector_size p ei lbn) s (fun r s' => r = bmap ei lbn /\ quiet ps W s0 s').
Proof.
  intros Hq Hne Hei Hl. pose proof (mnt_bs _ _ _ MO) as Hbs. unfold max_blocks in Hl.
  assert (256 <= ptrs <= 1024) as Hptrs by (Z.to_euclidean_division_equations; lia).
  unfold ext2_block_map, bmap. cbv beta zeta. set (P := ptrs) in *.
  destruct (Z.ltb_spec lbn 12); [by wp_step|].
  destruct (Z.ltb_spec (lbn - 12) P) as [H1|H1].
  { cbn [tree]. fold P. change (P ^ Z.of_nat 0) with 1. rewrite Z.div_1_r.
    destruct (Z.eqb_spec (ei_block ei !!! Z.to_nat 12) 0) as [_|Hnz]; [by wp_step|].
    apply read_ptr_run; [done|done|by apply inode_ptr|fold P; lia]. }
  rewrite u32_small by nia. replace (P ^ 2) with (P * P) in * by lia. replace (P ^ 3) with (P * P * P) in Hl by lia.
  set (n := lbn - 12 - P) in *. destruct (Z.ltb_spec n (P * P)) as [H2|H2].
  { cbn [tree]. fold P. change (P ^ Z.of_nat 0) with 1. change (P ^ Z.of_nat 1) with (P ^ 1). rewrite Z.pow_1_r.
    destruct (Z.eqb_spec (ei_block ei !!! Z.to_nat 13) 0) as [_|Hnz]; [by wp_step|].
    unfold udiv. rewrite (proj2 (Z.eqb_neq P 0)) by lia. wp_step. wp_step. wp_step.
    eapply wp_mono; [apply read_ptr_run; [done|done|by apply inode_ptr|fold P]|].
    { split; [apply Z.div_pos; lia|apply Z.div_lt_upper_bound; lia]. }
    intros l1 s1 [-> Hq1]. rewrite Z.div_1_r.
    destruct (Z.eqb_spec (ptr_of (ei_block ei !!! Z.to_nat 13) (n / P)) 0) as [_|Hnz1]; [by wp_step|].
    apply read_ptr_run; [done|done|apply ptr_of_range|fold P; apply Z.mod_pos_bound; lia]. }
  set (m := n - P * P) in *. replace (n - P * P) with m by done.
  cbn [tree]. fold P. change (P ^ Z.of_nat 0) with 1. change (P ^ Z.of_nat 1) with (P ^ 1). rewrite Z.pow_1_r.
  change (P ^ Z.of_nat 2) with (P ^ 2). replace (P ^ 2) with (P * P) by lia.
  destruct (Z.eqb_spec (ei_block ei !!! Z.to_nat 14) 0) as [_|Hnz]; [by wp_step|].
  unfold udiv. rewrite (proj2 (Z.eqb_neq (P * P) 0)) by nia. wp_step. wp_step. wp_step.
  eapply wp_mono; [apply read_ptr_run; [done|done|by apply inode_ptr|fold P]|].
  { split; [apply Z.div_pos; nia|apply Z.div_lt_upper_bound; unfold m, n in *; nia]. }
  intros l1 s1 [-> Hq1]. rewrite Z.div_1_r.
  destruct (Z.eqb_spec (ptr_of (ei_block ei !!! Z.to_nat 14) (m / (P * P))) 0) as [_|Hnz1]; [by wp_step|].
  assert (m mod (P * P) / P = m / P mod P) as Ed.
  { rewrite Z.rem_mul_r by lia. rewrite Z.mul_comm, Z.div_add by lia.
    rewrite Z.div_small by (apply Z.mod_pos_bound; lia). lia. }
  assert (m mod (P * P) mod P = m mod P) as Em.
  { rewrite Z.rem_mul_r by lia. rewrite Z.mul_comm, Z.mod_add by lia. apply Z.mod_mod. lia. }
  wp_step. eapply wp_mono; [apply read_ptr_run; [done|done|apply ptr_of_range|fold P; apply Z.mod_pos_bound; lia]|].
  intros l2 s2 [-> Hq2]. rewrite Ed, Em.
  destruct (Z.eqb_spec (ptr_of (ptr_of (ei_block ei !!! Z.to_nat 14) (m / (P * P))) (m / P mod P)) 0) as [_|Hnz2]; [by wp_step|].
  apply read_ptr_run; [done|done|apply ptr_of_range|fold P; apply Z.mod_pos_bound; lia].
Qed.

Lemma tree_range d blk n : 0 <= blk < 2 ^ 32 -> 0 <= tree d blk n < 2 ^ 32.
Proof.
  revert blk n. induction d as [|d IH]; intros blk n Hb; cbn [tree]; [done|].
  destruct (blk =? 0); [lia|]. apply IH, ptr_of_range.
Qed.

Lemma bmap_range ei lbn : inode_ok ei -> 0 <= lbn -> 0 <= bmap ei lbn < 2 ^ 32.
Proof.
  intros Hei Hl. unfold bmap. destruct (Z.ltb_spec lbn 12); [apply inode_ptr; [done|lia]|].
  destruct (lbn - 12 <? ptrs); [by apply tree_range, inode_ptr|].
  destruct (lbn - 12 - ptrs <? ptrs ^ 2); by apply tree_range, inode_ptr.
Qed.

Lemma max_blocks_bound : max_blocks < 2 ^ 32 - 1 /\ 12 < max_blocks.
Proof.
  pose proof (mnt_bs _ _ _ MO) as Hbs. unfold max_blocks.
  assert (256 <= ptrs <= 1024) as H by (Z.to_euclidean_division_equations; lia).
  replace (ptrs ^ 2) with (ptrs * ptrs) by lia. replace (ptrs ^ 3) with (ptrs * ptrs * ptrs) by lia. nia.
Qed.

(** ** Reading a file *)

(** The buffer holds the block it claims to. *)
Definition cursor_ok (ei : ext2_inode) (c : block_cursor) : Prop :=
  length (cur_buf c) = 4096%nat /\
  (cur_blk c = 2 ^ 32 - 1 \/ bmap ei (cur_blk c) <> 0 /\ exists junk, cur_buf c = block (bmap ei (cur_blk c)) ++ junk).

Lemma new_cursor_ok ei : cursor_ok ei new_cursor.
Proof. split; [done|]. by left. Qed.

Lemma seek_block_run ps W s0 s ei lbn c :
  quiet ps W s0 s -> ps <> [] -> inode_ok ei -> 0 <= lbn < max_blocks -> cursor_ok ei c ->
  wp (seek_block blk_read dev_sector_size p ei lbn c) s (fun o s' => quiet ps W s0 s' /\
    match o with
    | Some c' => cursor_ok ei c' /\ cur_blk c' = lbn /\ bmap ei lbn <> 0 /\
                 exists junk, cur_buf c' = block (bmap ei lbn) ++ junk
    | None => bmap ei lbn = 0
    end).
Proof.
  intros Hq Hne Hei Hl Hc. pose proof max_blocks_bound as Hmb. unfold seek_block.
  destruct (Z.eqb_spec lbn (cur_blk c)) as [E|E].
  - wp_step. split; [done|]. split; [done|]. split; [done|]. destruct Hc as [_ [Hc|Hc]]; [lia|]. by rewrite E.
  - wp_step. eapply wp_mono; [by apply (block_map_run ps W s0)|]. intros r s1 [-> Hq1].
    destruct (Z.eqb_spec (bmap ei lbn) 0) as [E0|E0]; [by wp_step|].
    wp_step. eapply wp_mono; [apply read_block_run; [exact (quiet_ready _ _ _ _ Hq1)|apply bmap_range; [done|lia]|apply Hc]|].
    intros r s2 [-> Hd]. cbn [fst snd negb Z.eqb]. wp_step.
    assert (quiet ps W s0 s2) as Hq2.
    { eapply calm_trans; [apply dev_step_trans|exact Hq1|]. apply only_device_quiet; [done|].
      by destruct Hq1 as (k & f & _ & _ & H & _). }
    split; [done|]. assert (length (block (bmap ei lbn) ++ drop (Z.to_nat bs) (cur_buf c)) = 4096%nat) as Hlen.
    { rewrite length_app, length_drop. destruct Hc as [-> _]. pose proof (block_length (bmap ei lbn)).
      pose proof (mnt_bs _ _ _ MO). lia. }
    split_and!; [|done|done|by eexists]. split; [done|]. right. split; [done|]. by eexists.
Qed.

(** Byte [i] of a file. *)
Definition file_byte (ei : ext2_inode) (i : Z) : Z := block (bmap ei (i / bs)) !!! Z.to_nat (i mod bs).

(** The bytes from [off] are in memory at [out]. *)
Definition holds_file (ei : ext2_inode) (off out n : Z) (s : vst FS) : Prop :=
  forall j, 0 <= j < n -> rd8 (heap (v_k s)) (out + j) = file_byte ei (off + j).

(** A read of [count] bytes may end after [d]: at the count, or at a hole. *)
Definition read_stops (ei : ext2_inode) (off count d : Z) : Prop :=
  0 <= d <= count /\ (d = count \/ bmap ei ((off + d) / bs) = 0).

Lemma file_chunk_bytes ei lbn junk o n j :
  0 <= o -> 0 <= j < n -> o + n <= bs ->
  take (Z.to_nat n) (drop (Z.to_nat o) (block (bmap ei lbn) ++ junk)) !!! Z.to_nat j =
  file_byte ei (lbn * bs + o + j).
Proof.
  intros Ho Hj Hn. pose proof (mnt_bs _ _ _ MO) as Hbs. pose proof (block_length (bmap ei lbn)) as Hl. unfold file_byte.
  replace ((lbn * bs + o + j) / bs) with lbn.
  2:{ apply (Z.div_unique _ _ _ (o + j)); [left; lia|lia]. }
  replace ((lbn * bs + o + j) mod bs) with (o + j).
  2:{ apply (Z.mod_unique _ _ lbn); [left; lia|lia]. }
  rewrite !list_lookup_total_alt. f_equal. rewrite lookup_take_lt by lia. rewrite lookup_drop.
  rewrite lookup_app_l by lia. f_equal. lia.
Qed.

Lemma file_byte_range ei i : 0 <= file_byte ei i < 2 ^ 8.
Proof.
  unfold file_byte. pose proof (block_bytes (bmap ei (i / bs))) as H. pose proof (block_length (bmap ei (i / bs))) as Hl.
  pose proof (mnt_bs _ _ _ MO) as Hbs. rewrite Forall_forall in H. apply H, (list_elem_of_lookup_2 _ (Z.to_nat (i mod bs))).
  apply list_lookup_lookup_total_lt. pose proof (Z.mod_pos_bound i bs). lia.
Qed.

Lemma read_chunk_run ps W s0 s ei off count out done c :
  let I done c s := 0 <= done <= count /\ cursor_ok ei c /\ quiet ps W s0 s /\ holds_file ei off out done s in
  ps <> [] -> inode_ok ei -> 0 <= off -> 0 <= out -> out + count <= 2 ^ 64 -> off + count <= max_blocks * bs ->
  (forall a, W a -> (a / 4096) ∉ ps) -> (forall a, out <= a < out + count -> W a) ->
  I done c s ->
  wp (read_chunk blk_read dev_sector_size p ei off count out (done, c)) s (fun r s' =>
    match r with
    | inl (done', c') => I done' c' s' /\ 0 <= count - done' < count - done
    | inr d => quiet ps W s0 s' /\ holds_file ei off out d s' /\ read_stops ei off count d
    end).
Proof.
  intros I Hne Hei Hoff Hout Ho64 Hmax HW HWo (Hd & Hc & Hq & Hh). unfold read_chunk.
  destruct (Z.ltb_spec done count) as [Hlt|Hge]; cbn [negb].
  2:{ wp_step. split_and!; [done|done|]. split; [lia|left; lia]. }
  pose proof (mnt_bs _ _ _ MO) as Hbs. pose proof max_blocks_bound as Hmb.
  assert (off + done < 2 ^ 64) by nia. rewrite !(u64_small (off + done)) by lia. unfold udiv, umod.
  rewrite !(proj2 (Z.eqb_neq bs 0)) by lia. wp_step. wp_step. wp_step. wp_step.
  set (lbn := (off + done) / bs). set (o := (off + done) mod bs).
  assert (0 <= o < bs) as Ho by (apply Z.mod_pos_bound; lia).
  assert (off + done = lbn * bs + o) as Eo by (unfold lbn, o; rewrite (Z.div_mod (off + done) bs) at 1; lia).
  assert (0 <= lbn < max_blocks) as Hlbn by (split; [apply Z.div_pos; lia|apply Z.div_lt_upper_bound; lia]).
  cbv beta zeta. rewrite (u32_small lbn), (u32_small o), u32_small by lia.
  set (n := if count - done <? bs - o then count - done else bs - o).
  assert (0 < n <= bs - o /\ n <= count - done) as [Hn1 Hn2]
    by (unfold n; destruct (Z.ltb_spec (count - done) (bs - o)); lia).
  assert (quiet ps (fun _ => False) s s) as Hq0.
  { apply calm_refl; [split; [done|by eapply quiet_ready]|by destruct Hq as (? & ? & _ & _ & ? & _)]. }
  wp_step. eapply wp_mono; [by apply (seek_block_run ps (fun _ => False) s)|]. intros oc s1 [Hq1 Hc1].
  assert (quiet ps W s0 s1) as Hq2.
  { eapply calm_trans; [apply dev_step_trans|exact Hq|]. eapply calm_mono; [|exact Hq1]. done. }
  assert (holds_file ei off out done s1) as Hh1.
  { intros j Hj. destruct Hq1 as (k & f & -> & _ & _ & Hm). cbn. rewrite Hm; [by apply Hh| |tauto].
    apply HW, HWo. lia. }
  destruct oc as [c'|]; [|wp_step; split_and!; [done|done|split; [lia|right; exact Hc1]]].
  destruct Hc1 as (Hc1 & _ & Hnz & junk & Ebuf). wp_step.
  eapply wp_run; [apply page_slice_run; [lia|lia|]|].
  { destruct Hc1 as [-> _]. lia. }
  wp_step. apply wp_modify. wp_step. rewrite (u64_small (out + done)), (u64_small (done + n)) by lia.
  assert (Z.of_nat (length (take (Z.to_nat n) (drop (Z.to_nat o) (cur_buf c')))) = n) as Hlen.
  { rewrite length_take, length_drop. destruct Hc1 as [-> _]. lia. }
  split; [|lia]. split_and!; [lia|lia|done| |].
  - apply calm_store; [done|done|]. intros a Ha. apply HWo. lia.
  - intros j Hj. cbn. rewrite rd8_store_bytes, Hlen. destruct (Z.leb_spec (out + done) (out + j)) as [Hin|Hout'].
    + rewrite (proj2 (Z.ltb_lt _ _)) by lia. cbn [andb]. replace (out + j - (out + done)) with (j - done) by lia.
      rewrite Ebuf, file_chunk_bytes by lia. replace (lbn * bs + o + (j - done)) with (off + j) by lia.
      apply u8_small, file_byte_range.
    + apply Hh1. lia.
Qed.

(** The objects behind an open ext2 file. *)
Record opened (f : Z) (x : vfs_file) (ei : ext2_inode) (s : vst FS) : Prop := {
  op_file : v_files s !! f = Some x;
  op_inode : exists i sb, v_inodes s !! f_inode x = Some i /\ e_inodes (get_ext (v_fs s)) !! i_priv i = Some ei /\
               v_supers s !! i_sb i = Some sb /\ e_privs (get_ext (v_fs s)) !! sb_priv sb = Some p
}.

Lemma borrow_sub {ps b qs} : borrowed ps b qs -> forall x, x ∈ qs -> x ∈ ps.
Proof. intros (Hp & _) x Hx. rewrite Hp. apply elem_of_cons. by right. Qed.

Lemma borrow_length {ps b qs} : borrowed ps b qs -> length ps = S (length qs).
Proof. intros (Hp & _). by rewrite Hp. Qed.

(** The copy loop, its buffer borrowed. *)
Lemma read_loop_run ps s ei off count out :
  let W a := out <= a < out + count in
  (2 <= length ps)%nat -> free_pages ps s -> ready (v_fs s) -> inode_ok ei -> 0 <= count -> 0 <= off -> 0 <= out ->
  out + count <= 2 ^ 64 -> off + count <= max_blocks * bs -> (forall a, W a -> (a / 4096) ∉ ps) ->
  wp (b ← v_kalloc 1; if b =? 0 then mret (-1) else
      a ← mloop (read_chunk blk_read dev_sector_size p ei off count out) (0, new_cursor); v_kfree b 1;; mret a) s
    (fun d s' => quiet ps W s s' /\ holds_file ei off out d s' /\ read_stops ei off count d).
Proof.
  intros W Hps Hf Hrdy Hei Hc Hoff Hout Ho64 Hmax HW.
  assert (quiet ps W s s) as Hq0 by (apply calm_refl; [split|]; done).
  assert (ps <> []) as Hne by (by intros ->; cbn in Hps; lia).
  apply (wp_borrow dev_step ps W s s); [apply dev_step_trans|done|done|].
  intros b qs s1 Hb Hbor Hf1 (k & -> & Hm).
  pose proof (borrow_length Hbor) as Hlen. assert (qs <> []) as Hqs by (intros ->; cbn in Hlen; lia).
  assert (forall a, W a -> (a / 4096) ∉ qs) as HWq by (intros a Ha Hin; by eapply HW, (borrow_sub Hbor)).
  assert (off + count < 2 ^ 64).
  { pose proof max_blocks_bound. pose proof (mnt_bs _ _ _ MO). nia. }
  apply (wp_mloop _ (fun st s' => 0 <= st.1 <= count /\ cursor_ok ei st.2 /\
      quiet qs W (set_vk k s) s' /\ holds_file ei off out st.1 s') _ (fun st _ => count - st.1)).
  - intros [done c] s2 HI. eapply wp_mono; [by apply (read_chunk_run qs W (set_vk k s) s2 ei off count out done c)|].
    intros [[done' c']|d] s3; [done|]. intros (H1 & H2 & H3). split; [exact H1|]. intros s4 Hq4 (k4 & -> & Hm4).
    wp_step. split; [done|]. split; [|done]. intros j Hj. cbn. rewrite Hm4; [by apply H2| |tauto].
    apply HW. unfold W. destruct H3 as [H3 _]. lia.
  - cbn [fst snd]. split; [lia|]. split; [apply new_cursor_ok|]. split; [apply calm_refl; [split|]; done|].
    intros j Hj. lia.
  - cbn. lia.
Qed.
End Ext2Proofs.

(** ** Directories *)

Section Ext2Lookup.
Context {FS : Type} `{PA : PageAllocator} `{VO : VfsOps FS}.
Context (get_ext : FS -> ext2_state) (set_ext : ext2_state -> FS -> FS).
#[local] Abbreviation V := (M (vst FS)).
Context (blk_read : Z -> Z -> Z -> list Z -> V (Z * list Z)).
Context (dev_sector_size : Z -> V Z).
Context (ext2_inode_ops ext2_file_ops : Z).
Context (ready : FS -> Prop).
Context (p : ext2_priv) (ss : Z) (sectors : Z -> list Z).
Context (MO : mount_ok get_ext blk_read dev_sector_size ready p ss sectors).
#[local] Abbreviation bs := (p_block_size p).
#[local] Abbreviation block := (disk_block p ss sectors).
#[local] Abbreviation quiet := (calm (dev_step get_ext ready)).

(** *** The inode table *)

(** Where inode [ino] is: its block and the offset in it. *)
Definition inode_block (ino : Z) : Z :=
  let grp := (ino - 1) / p_inodes_per_group p in
  let idx := (ino - 1) mod p_inodes_per_group p in
  le 4 (bgdt p) (grp * 32 + 8) + idx * p_inode_size p / bs.
Definition inode_offset (ino : Z) : Z := (ino - 1) mod p_inodes_per_group p * p_inode_size p mod bs.
Definition inode_of (ino : Z) : ext2_inode :=
  decode_inode (take 128 (drop (Z.to_nat (inode_offset ino)) (block (inode_block ino)))).

(** The volume has inode [ino], inside its tables. *)
Record has_inode (ino : Z) : Prop := {
  hi_pos : 0 < ino < 2 ^ 32;
  hi_ipg : 0 < p_inodes_per_group p;
  hi_size : 0 <= p_inode_size p /\ p_inodes_per_group p * p_inode_size p < 2 ^ 32;
  hi_group : (ino - 1) / p_inodes_per_group p * 32 + 12 <= Z.of_nat (length (bgdt p));
  hi_block : 0 <= inode_block ino < 2 ^ 32;
  hi_fits : inode_offset ino + 128 <= bs
}.

Lemma read_inode_run ps W s0 s ino :
  quiet ps W s0 s -> ps <> [] -> has_inode ino ->
  wp (ext2_read_inode blk_read dev_sector_size p ino) s (fun r s' => r = (0, Some (inode_of ino)) /\ quiet ps W s0 s').
Proof.
  intros Hq Hne [Hpos Hipg [His1 His2] Hgrp Hblk Hfit]. pose proof (mnt_bs _ _ _ _ _ _ _ MO) as Hbs.
  unfold ext2_read_inode, udiv, umod. rewrite (proj2 (Z.eqb_neq ino 0)) by lia.
  rewrite !(proj2 (Z.eqb_neq (p_inodes_per_group p) 0)), !(proj2 (Z.eqb_neq bs 0)) by lia.
  set (grp := (ino - 1) / p_inodes_per_group p) in *. set (idx := (ino - 1) mod p_inodes_per_group p) in *.
  assert (0 <= grp) by (apply Z.div_pos; lia). assert (0 <= idx < p_inodes_per_group p) by (apply Z.mod_pos_bound; lia).
  wp_step. wp_step. wp_step. wp_step. wp_step. unfold page_le at 1. wp_step.
  unfold ext2_bgd_bytes, bgd_inode_table. eapply wp_run; [apply page_slice_run; lia|]. wp_step.
  rewrite (u32_small (idx * p_inode_size p)) by nia. wp_step. wp_step. wp_step. wp_step.
  unfold inode_block, inode_offset in *. fold grp idx in Hblk, Hfit.
  change (le_val (take (Z.to_nat 4) (drop (Z.to_nat (grp * 32 + 8)) (bgdt p)))) with (le 4 (bgdt p) (grp * 32 + 8)).
  set (blk := le 4 (bgdt p) (grp * 32 + 8) + idx * p_inode_size p / bs) in *. rewrite (u32_small blk) by done.
  set (o := idx * p_inode_size p mod bs) in *. assert (0 <= o < bs) by (apply Z.mod_pos_bound; lia).
  apply (wp_borrow (dev_step get_ext ready) ps W s0 s); [apply dev_step_trans|done|done|].
  intros b qs s1 Hb Hbor Hf1 (k & -> & Hm). wp_step.
  eapply wp_mono; [eapply (read_block_run _ _ _ _ _ _ _ MO); [exact (quiet_ready _ _ _ _ _ _ Hq)|done|by unfold new_page; rewrite length_replicate]|].
  intros r s2 [-> Hd]. cbn [fst snd Z.eqb]. wp_step. eapply wp_run; [apply page_slice_run; [lia|done|]|].
  { rewrite (block_page _ _ _ _ _ _ _ MO). unfold ext2_inode_bytes. lia. }
  wp_step. split; [by apply only_device_quiet|]. intros s3 Hs3 _. wp_step. split; [|done].
  unfold inode_of, ext2_inode_bytes. rewrite take_drop_app.
  - unfold inode_block, inode_offset. fold grp idx. done.
  - pose proof (block_length _ _ _ _ _ _ _ MO blk). lia.
Qed.

(** *** Scanning a directory *)

(** The directory entry at [off] of the file [dei], and its name. *)
Definition entry_bytes (dei : ext2_inode) (off n : Z) : list Z :=
  take (Z.to_nat n) (drop (Z.to_nat (off mod bs)) (block (bmap p ss sectors dei (off / bs)))).
Definition entry_at (dei : ext2_inode) (off : Z) : ext2_dirent :=
  let b := entry_bytes dei off 8 in Ext2_dirent (le 4 b 0) (le 2 b 4) (le 1 b 6) (le 1 b 7).
Definition entry_name (dei : ext2_inode) (off : Z) : list Z :=
  drop 8 (entry_bytes dei off (8 + de_name_len (entry_at dei off))).

(** An entry lies inside its block and moves the scan forward. *)
Record entry_ok (dei : ext2_inode) (off : Z) : Prop := {
  en_off : 0 <= off < ei_size_low dei;
  en_lbn : off / bs < max_blocks p;
  en_mapped : bmap p ss sectors dei (off / bs) <> 0;
  en_fits : off mod bs + 8 + de_name_len (entry_at dei off) <= bs;
  en_rec : 8 <= de_rec_len (entry_at dei off);
  en_next : off + de_rec_len (entry_at dei off) < 2 ^ 32
}.

(** The inode the directory [dei] gives the name: of the first entry from
    [off] on that is in use and has that name. *)
Inductive dir_scan (dei : ext2_inode) (name : list Z) : Z -> option Z -> Prop :=
| scan_end off : ei_size_low dei <= off -> dir_scan dei name off None
| scan_hit off : entry_ok dei off -> de_inode (entry_at dei off) <> 0 -> entry_name dei off = name ->
    dir_scan dei name off (Some (de_inode (entry_at dei off)))
| scan_skip off r : entry_ok dei off -> de_inode (entry_at dei off) = 0 \/ entry_name dei off <> name ->
    dir_scan dei name (off + de_rec_len (entry_at dei off)) r -> dir_scan dei name off r.

Lemma names_match_run b pos name (s : vst FS) :
  0 <= pos -> pos + Z.of_nat (length name) <= Z.of_nat (length b) ->
  names_match b pos name s = Ok (bool_decide (take (length name) (drop (Z.to_nat pos) b) = name), s).
Proof.
  revert pos. induction name as [|c name IH]; intros pos Hp Hl; cbn [names_match length].
  - by rewrite bool_decide_eq_true_2.
  - cbn [length] in Hl. unfold mbind at 1, M_bind at 1, page_le. unfold mbind at 1, M_bind at 1.
    rewrite page_slice_run by lia.
    destruct (lookup_lt_is_Some_2 b (Z.to_nat pos)) as [x Hx]; [lia|].
    rewrite (drop_S b x) by done. change (Z.to_nat 1) with 1%nat.
    assert (le_val (take 1 (x :: drop (S (Z.to_nat pos)) b)) = x) as ->.
    { rewrite firstn_cons, take_0. unfold le_val. cbn [foldr]. lia. } cbn [mret M_ret take].
    destruct (Z.eqb_spec x c) as [->|Hne].
    + rewrite IH by lia. replace (Z.to_nat (pos + 1)) with (S (Z.to_nat pos)) by lia. f_equal. f_equal.
      apply bool_decide_ext. split; [by intros ->|by intros [= ?]].
    + cbn. rewrite bool_decide_eq_false_2; [done|]. by intros [= ? _].
Qed.

Lemma length_entry_name dei off : entry_ok dei off ->
  Z.of_nat (length (entry_name dei off)) = de_name_len (entry_at dei off).
Proof.
  intros [H1 _ _ H4 _ _]. pose proof (mnt_bs _ _ _ _ _ _ _ MO) as Hbs.
  assert (0 <= de_name_len (entry_at dei off)).
  { unfold entry_at. cbn [de_name_len]. unfold le. apply le_val_range, Forall_take, Forall_drop, Forall_take, Forall_drop.
    by apply (block_bytes _ _ _ _ _ _ _ MO). }
  unfold entry_name, entry_bytes. rewrite length_drop, length_take, length_drop.
  pose proof (block_length _ _ _ _ _ _ _ MO (bmap p ss sectors dei (off / bs))). pose proof (Z.mod_pos_bound off bs). lia.
Qed.

(** *** The lookup *)

Hypothesis lens : forall x f, get_ext (set_ext x f) = x.

(** The new objects of a name found: a page for the inode [ei] as read, one
    for the VFS inode that [child] now names. *)
Definition names_inode (ps : list Z) (child : Z) (d : vfs_dentry) (sb ino : Z) (ei : ext2_inode) (s s' : vst FS) : Prop :=
  exists v copy qs, v <> 0 /\ ps ≡ₚ (v / 4096) :: (copy / 4096) :: qs /\ free_pages qs s' /\
    v_dentries s' = <[child := set_d_inode v d]> (v_dentries s) /\
    v_inodes s' = <[v := Inode ino (ext2_vfs_mode (ei_mode ei)) 1 sb ext2_inode_ops ext2_file_ops copy]> (v_inodes s) /\
    e_inodes (get_ext (v_fs s')) = <[copy := ei]> (e_inodes (get_ext (v_fs s))).

(** The page borrowed meanwhile is given back. *)
Lemma names_inode_give ps qs b k child d sb ino ei s s2 :
  borrowed ps b qs -> names_inode qs child d sb ino ei (set_vk k s) s2 ->
  wp (v_kfree b 1) s2 (fun _ s' => names_inode ps child d sb ino ei s s').
Proof.
  intros (Hp & Hnd & Hal & Hb & He) (v & copy & qs2 & Hv & Hq & Hf & Ed & Ei & Ee).
  assert (borrowed (b / 4096 :: qs2) b qs2) as Hb2.
  { split_and!; try done. rewrite Hp, Hq in Hnd. rewrite !NoDup_cons, !elem_of_cons in Hnd. rewrite NoDup_cons. tauto. }
  eapply wp_mono; [by apply (give_page (b / 4096 :: qs2) b qs2)|]. intros _ s3 (k3 & -> & Hf3 & _).
  exists v, copy, (b / 4096 :: qs2). split_and!; try done.
  rewrite Hp, Hq. rewrite (Permutation_swap (b / 4096)). by rewrite (Permutation_swap (b / 4096)).
Qed.

Lemma found_entry_run ps s s0 child d sb de :
  quiet ps (fun _ => False) s0 s -> (2 <= length ps)%nat -> has_inode (de_inode de) -> v_dentries s !! child = Some d ->
  wp (found_entry get_ext set_ext blk_read dev_sector_size ext2_inode_ops ext2_file_ops p sb child de) s (fun rc s' =>
    rc = VFS_OK /\ names_inode ps child d sb (de_inode de) (inode_of (de_inode de)) s0 s').
Proof.
  intros Hq Hps Hi Hd. assert (ps <> []) as Hne by (by intros ->; cbn in Hps; lia). unfold found_entry. wp_step.
  eapply wp_mono; [by eapply (read_inode_run ps)|]. intros r s1 [-> (k1 & f1 & -> & [E1 R1] & Hf1 & _)].
  cbn [negb Z.eqb]. destruct Hq as (k0 & f0 & -> & _). cbn in Hd. set (ei := inode_of (de_inode de)).
  unfold ext2_make_vfs_inode. wp_step. wp_step.
  eapply wp_mono; [by apply (take_page ps)|]. intros copy s2 (Hcopy & k2 & qs & -> & Hb2 & Hf2 & _).
  rewrite (proj2 (Z.eqb_neq copy 0)) by done. wp_step. apply wp_modify. wp_step.
  assert (qs <> []) as Hne2 by (intros ->; apply borrow_length in Hb2; cbn in Hb2; lia).
  eapply wp_mono; [apply (take_page qs); [|done]|].
  { destruct Hf2 as (x & Hx & Hix). by exists x. }
  intros v s3 (Hv & k3 & qs3 & -> & Hb3 & Hf3 & _). rewrite (proj2 (Z.eqb_neq v 0)) by done.
  wp_step. apply wp_modify. wp_step. rewrite (proj2 (Z.eqb_neq v 0)) by done. wp_step.
  eapply wp_run; [unfold upd_dentry, update; cbn; by rewrite Hd|]. wp_step. split; [done|].
  exists v, copy, qs3. cbn. rewrite lens. cbn. rewrite E1. split_and!; try done.
  destruct Hb2 as (Hp2 & _), Hb3 as (Hp3 & _). rewrite Hp2, Hp3. apply Permutation_swap.
Qed.

(** The scan's answer, as [ext2_lookup] reports it. *)
Definition scan_answer (ps : list Z) (child : Z) (d : vfs_dentry) (sb : Z) (r : option Z) (s : vst FS) (rc : Z) (s' : vst FS) : Prop :=
  match r with
  | None => rc = VFS_ENOENT /\ quiet ps (fun _ => False) s s'
  | Some ino => rc = VFS_OK /\ names_inode ps child d sb ino (inode_of ino) s s'
  end.

Lemma lookup_entry_run ps s0 s dei child d sb r off c :
  quiet ps (fun _ => False) s0 s -> (2 <= length ps)%nat -> inode_ok dei -> 0 <= ei_size_low dei < 2 ^ 32 ->
  v_dentries s !! child = Some d -> (forall ino, r = Some ino -> has_inode ino) ->
  0 <= off -> dir_scan dei (d_name d) off r -> cursor_ok p ss sectors dei c ->
  wp (lookup_entry get_ext set_ext blk_read dev_sector_size ext2_inode_ops ext2_file_ops p dei sb child (d_name d) (off, c)) s
    (fun res s' => match res with
      | inl (off', c') => quiet ps (fun _ => False) s0 s' /\ off < off' < 2 ^ 32 /\
          dir_scan dei (d_name d) off' r /\ cursor_ok p ss sectors dei c'
      | inr rc => scan_answer ps child d sb r s0 rc s'
      end).
Proof.
  intros Hq Hps Hdei Hsize Hd Hino Hoff Hscan Hc. pose proof (mnt_bs _ _ _ _ _ _ _ MO) as Hbs. unfold lookup_entry.
  assert (ps <> []) as Hne by (by intros ->; cbn in Hps; lia).
  assert ((ei_size_low dei <= off /\ r = None) \/ entry_ok dei off) as [[Hend ->]|Hok]
    by (destruct Hscan; [left|right|right]; done).
  { rewrite (proj2 (Z.ltb_ge _ _)) by done. cbn [negb]. by wp_step. }
  pose proof Hok as [Ho Hl Hm Hfit Hrec Hnext]. rewrite (proj2 (Z.ltb_lt _ _)) by lia. cbn [negb].
  unfold udiv, umod. rewrite !(proj2 (Z.eqb_neq bs 0)) by lia. wp_step. wp_step. wp_step. wp_step. wp_step.
  eapply wp_mono; [eapply (seek_block_run _ _ _ _ _ _ _ MO); [done|done|done| |done]|].
  { split; [apply Z.div_pos; lia|done]. }
  intros [c'|] s1 [Hq1 Hc1]; [|done]. destruct Hc1 as (Hc1 & _ & _ & junk & Ebuf). pose proof Hc1 as [Hlen _].
  pose proof (Z.mod_pos_bound off bs ltac:(lia)) as Hmod. set (o := off mod bs) in *.
  set (B := block (bmap p ss sectors dei (off / bs))) in *. assert (Z.of_nat (length B) = bs) as HB by apply (block_length _ _ _ _ _ _ _ MO).
  pose proof (length_entry_name dei off Hok) as Hnl.
  unfold dirent_at. wp_step. wp_step. eapply wp_run; [apply page_slice_run; lia|]. wp_step.
  rewrite Ebuf, take_drop_app by lia. fold (entry_bytes dei off 8). change (Ext2_dirent _ _ _ _) with (entry_at dei off).
  rewrite (proj2 (Z.ltb_ge _ _)) by done. wp_step.
  assert (entry_name dei off = take (Z.to_nat (de_name_len (entry_at dei off))) (drop (Z.to_nat (o + 8)) B)) as En.
  { unfold entry_name, entry_bytes. fold o B. rewrite skipn_firstn_comm, drop_drop. f_equal; [|f_equal]; lia. }
  assert (wp (if negb (de_inode (entry_at dei off) =? 0) && (de_name_len (entry_at dei off) =? Z.of_nat (length (d_name d)))
              then names_match (B ++ junk) (o + 8) (d_name d) else mret false) s1 (fun hit s' => s' = s1 /\
      hit = bool_decide (de_inode (entry_at dei off) <> 0 /\ entry_name dei off = d_name d))) as Hhit.
  { destruct (Z.eqb_spec (de_inode (entry_at dei off)) 0) as [E0|E0]; cbn [negb andb].
    { wp_step. split; [done|]. symmetry. by apply bool_decide_eq_false_2; intros [? _]. }
    destruct (Z.eqb_spec (de_name_len (entry_at dei off)) (Z.of_nat (length (d_name d)))) as [E1|E1].
    - eapply wp_run; [apply names_match_run; [lia|rewrite length_app; lia]|]. split; [done|]. apply bool_decide_ext.
      rewrite take_drop_app by lia. rewrite En, E1, Nat2Z.id. split; [done|by intros [_ ?]].
    - wp_step. split; [done|]. symmetry. apply bool_decide_eq_false_2. intros [_ E]. apply E1. rewrite <- E. done. }
  eapply wp_mono; [exact Hhit|]. clear Hhit. intros hit s2 [-> ->]. destruct Hq1 as (k & f & -> & Hr1).
  assert (v_dentries s = v_dentries s0) as Ed by (by destruct Hq as (? & ? & -> & _)).
  destruct (decide (de_inode (entry_at dei off) <> 0 /\ entry_name dei off = d_name d)) as [[Hi Hn]|Hno].
  - rewrite bool_decide_eq_true_2 by done.
    assert (r = Some (de_inode (entry_at dei off))) as ->
      by (destruct Hscan as [|? ? ? ?|? ? ? [?|?]]; [lia|done|done|done]).
    wp_step. eapply wp_mono; [apply (found_entry_run ps _ s0 child d); [by exists k, f|done|by apply Hino|cbn; by rewrite <- Ed]|].
    intros rc s3 H. by wp_step.
  - rewrite bool_decide_eq_false_2 by done.
    assert (dir_scan dei (d_name d) (off + de_rec_len (entry_at dei off)) r) as Hs
      by (destruct Hscan; [lia|by destruct Hno|done]).
    wp_step. rewrite u32_small by lia. split_and!; [by exists k, f|lia|lia|done|done].
Qed.
End Ext2Lookup.

Section Ext2Properties.
Context {FS : Type} `{PA : PageAllocator} `{VO : VfsOps FS}.
Context (get_ext : FS -> ext2_state).
Context (blk_read : Z -> Z -> Z -> list Z -> M (vst FS) (Z * list Z)).
Context (dev_sector_size : Z -> M (vst FS) Z).
Context (ready : FS -> Prop).

(** The block map walks the pointer trees the format prescribes: logical
    blocks below 12 are in the inode, the next ones under one, two and three
    levels of pointer blocks read from the device, and a zero pointer on the way
    is a hole.  Every logical block of a supported block size is covered; each
    pointer block is read into a page that is free again afterwards. *)
Lemma ext2_block_map_correct p ss sectors ps ei lbn s :
  mount_ok get_ext blk_read dev_sector_size ready p ss sectors -> inode_ok ei -> 0 <= lbn < max_blocks p ->
  ready (v_fs s) -> ps <> [] -> free_pages ps s ->
  wp (ext2_block_map blk_read dev_sector_size p ei lbn) s (fun r s' =>
    r = bmap p ss sectors ei lbn /\ calm (dev_step get_ext ready) ps (fun _ => False) s s').
Proof.
  intros MO Hok Hl Hrdy Hne Hf. eapply (block_map_run get_ext); try done.
  apply calm_refl; [by split|done].
Qed.

(** A name to be looked up: the directory's inode and mount, and the negative
    dentry [child] that carries the name. *)
Record looked_up (p : ext2_priv) (dir child sb : Z) (dei : ext2_inode) (d : vfs_dentry) (s : vst FS) : Prop := {
  lk_dir : exists i, v_inodes s !! dir = Some i /\ i_sb i = sb /\ e_inodes (get_ext (v_fs s)) !! i_priv i = Some dei;
  lk_sb : exists x, v_supers s !! sb = Some x /\ e_privs (get_ext (v_fs s)) !! sb_priv x = Some p;
  lk_child : v_dentries s !! child = Some d
}.

Context (set_ext : ext2_state -> FS -> FS) (ext2_inode_ops ext2_file_ops : Z).

(** C33: [ext2_lookup] on a working device answers what the directory says: the
    scan of its entries, block by block through the block map, finds the first
    entry in use that has exactly the name.  Then the child dentry names a new
    VFS inode made from the inode read out of the inode table, and two pages
    were used; otherwise the answer is ENOENT, the same pages are free again and
    no object changed. *)
Theorem ext2_lookup_correct p ss sectors ps dir child sb dei d r s :
  mount_ok get_ext blk_read dev_sector_size ready p ss sectors -> (forall x f, get_ext (set_ext x f) = x) ->
  looked_up p dir child sb dei d s -> inode_ok dei -> 0 <= ei_size_low dei < 2 ^ 32 -> ready (v_fs s) ->
  (3 <= length ps)%nat -> free_pages ps s ->
  dir_scan p ss sectors dei (d_name d) 0 r -> (forall ino, r = Some ino -> has_inode p ino) ->
  wp (ext2_lookup get_ext set_ext blk_read dev_sector_size ext2_inode_ops ext2_file_ops dir child) s
    (scan_answer get_ext ext2_inode_ops ext2_file_ops ready p ss sectors ps child d sb r s).
Proof.
  intros MO Hlens [(i & Hi & <- & Hei) (x & Hx & Hpx) Hd] Hok Hsize Hrdy Hps Hfree Hscan Hino.
  unfold ext2_lookup. wp_step. eapply wp_run; [unfold load; by rewrite Hi|].
  wp_step. eapply wp_run; [unfold ei_load; by rewrite Hei|]. wp_step. eapply wp_run; [unfold load; by rewrite Hx|].
  wp_step. eapply wp_run; [unfold priv_load; by rewrite Hpx|]. wp_step. eapply wp_run; [unfold load; by rewrite Hd|].
  assert (ps <> []) as Hne by (by intros ->; cbn in Hps; lia).
  wp_step. eapply wp_mono; [by apply (take_page ps)|]. intros b s1 (Hb & k & qs & -> & Hbor & Hf1 & Hm1).
  rewrite (proj2 (Z.eqb_neq b 0)) by done. set (s1 := set_vk k s) in *.
  assert (2 <= length qs)%nat as Hqs by (apply borrow_length in Hbor; lia).
  wp_step. eapply wp_mono.
  { apply (wp_mloop _ (fun st s' => calm (dev_step get_ext ready) qs (fun _ => False) s1 s' /\ 0 <= st.1 /\
        dir_scan p ss sectors dei (d_name d) st.1 r /\ cursor_ok p ss sectors dei st.2)
      (scan_answer get_ext ext2_inode_ops ext2_file_ops ready p ss sectors qs child d (i_sb i) r s1)
      (fun st _ => 2 ^ 32 - st.1)).
    - intros [off c] s2 (Hq & Ho & Hs & Hc). cbn [fst snd] in *.
      eapply wp_mono; [eapply (lookup_entry_run get_ext set_ext) with (s0 := s1); try done|].
      + by destruct Hq as (? & ? & -> & _).
      + intros [[off' c']|rc] s3; [|done]. intros (H1 & H2 & H3 & H4). cbn [fst snd]. split_and!; try done; lia.
    - cbn [fst snd]. split_and!; try done; [|apply new_cursor_ok]. apply calm_refl; [|done]. by split.
    - cbn. lia. }
  intros rc s2 Ha. destruct r as [ino|]; cbn [scan_answer] in Ha.
  - destruct Ha as [-> Hn]. wp_step. eapply wp_mono; [by eapply (names_inode_give _ _ _ ps qs b k)|].
    intros u s3 H. cbv beta in H. wp_step. by split.
  - destruct Ha as [-> Hq]. wp_step. eapply wp_mono; [apply (give_page ps b qs); [|done]|].
    { by destruct Hq as (? & ? & _ & _ & ? & _). }
    intros _ s3 (k3 & E3 & Hf3 & Hm3). wp_step. split; [done|].
    destruct Hq as (k2 & f2 & -> & HR & _ & Hm2). subst s3 s1. exists k3, f2. split_and!; try done. cbn in *.
    eapply (agree_but_trans ps ps); [done| |exact Hm3].
    by eapply (agree_but_trans ps qs); [exact (borrow_sub Hbor)|exact Hm1|].
Qed.
End Ext2Properties.

(** ** Witnesses *)

(** A volume of 1024-byte blocks on 512-byte sectors: the inode table is block
    5, the root directory block 8, and the file "a" holds "hello" in block 9,
    logical block 12 of which is block 9 again through the pointer block 10. *)
Definition padded (n : nat) (bs : list Z) : list Z := bs ++ replicate (n - length bs) 0.
Definition demo_file_inode : list Z :=
  padded 128 ([164; 129; 0; 0; 5; 0; 0; 0] ++ replicate 32 0 ++ [9; 0; 0; 0] ++ replicate 44 0 ++ [10; 0; 0; 0]).
Definition demo_sectors (lba : Z) : list Z :=
  match lba with
  | 10 => padded 512 (replicate 256 0 ++ demo_file_inode)
  | 16 => padded 512 [3; 0; 0; 0; 0; 4; 1; 1; 97]
  | 18 => padded 512 [104; 101; 108; 108; 111]
  | 20 => padded 512 [9]
  | _ => replicate 512 0
  end.
Definition demo_priv : ext2_priv :=
  Ext2_priv 7 1024 8192 8 128 1 11 65536 1 (padded 4096 [3; 0; 0; 0; 4; 0; 0; 0; 5]).
Definition demo_dir : ext2_inode := Ext2_inode 16877 0 1024 0 0 0 0 0 2 2 0 (8 :: replicate 14 0) 0 0 0 0.
Definition demo_file : ext2_inode := decode_inode demo_file_inode.

Definition demo_blk_read (dev lba n : Z) (buf : list Z) : M (vst ext2_state) (Z * list Z) :=
  mret (0, image demo_sectors lba n ++ drop (Z.to_nat (n * 512)) buf).
Definition demo_sector_size (dev : Z) : M (vst ext2_state) Z := mret 512.
#[local] Abbreviation id_get := (fun st : ext2_state => st).
#[local] Abbreviation id_set := (fun (x _ : ext2_state) => x).
#[local] Abbreviation idle := (fun _ : ext2_state => True).

(** The directory is inode 4096, the open file 45056, the name "a" dentry 20480. *)
Definition demo_ext2 : vst ext2_state :=
  Vst demo_kst
    (<[4096 := Inode 2 16877 1 8192 1 2 12288]> {[ 28672 := Inode 3 33188 1 8192 1 2 16384 ]})
    {[ 20480 := Dentry 1 [97] 0 24576 0 0 ]} {[ 8192 := Super 0 1 7 24576 36864 ]} ∅
    {[ 45056 := File 1 0 0 28672 0 0 ]} ∅ 0 0 0 0
    (Ext2_state {[ 36864 := demo_priv ]} (<[12288 := demo_dir]> {[ 16384 := demo_file ]}) []).

Lemma demo_mount_ok : mount_ok id_get demo_blk_read demo_sector_size idle demo_priv 512 demo_sectors.
Proof.
  split; [|done|by left|done]. split; [done| |].
  - intros s lba n buf _ _ _ _. unfold wp, demo_blk_read. cbn. split; [done|]. exists (v_fs s). by destruct s.
  - intros lba. unfold demo_sectors. repeat case_match; subst; (split; [done|]);
      try (apply Forall_replicate; lia); apply (bool_decide_unpack _); by vm_compute.
Qed.

Lemma demo_inode_ok b :
  b = demo_dir \/ b = demo_file -> inode_ok b.
Proof. intros [-> | ->]; (split; [done|]); apply (bool_decide_unpack _); by vm_compute. Qed.

Lemma demo_free : free_pages demo_pages demo_ext2.
Proof. exists demo_pages. split; [done|apply demo_inv]. Qed.

Lemma demo_has_inode : has_inode demo_priv 3.
Proof. split; try (vm_compute; done); by vm_compute. Qed.

Lemma demo_scan : dir_scan demo_priv 512 demo_sectors demo_dir [97] 0 (Some 3).
Proof.
  assert (de_inode (entry_at demo_priv 512 demo_sectors demo_dir 0) = 3) as E by by vm_compute.
  rewrite <- E. apply scan_hit; [|by rewrite E|by vm_compute].
  split; try (vm_compute; done); by vm_compute.
Qed.

Lemma ext2_block_map_correct_witness :
  wp (ext2_block_map demo_blk_read demo_sector_size demo_priv demo_file 12) demo_ext2 (fun r s' =>
    r = bmap demo_priv 512 demo_sectors demo_file 12 /\
    calm (dev_step id_get idle) demo_pages (fun _ => False) demo_ext2 s').
Proof.
  apply (ext2_block_map_correct id_get demo_blk_read demo_sector_size idle);
    [apply demo_mount_ok|apply demo_inode_ok; by right|by vm_compute|done|done|apply demo_free].
Defined.

Lemma ext2_lookup_correct_witness :
  wp (ext2_lookup id_get id_set demo_blk_read demo_sector_size 1 2 4096 20480) demo_ext2
    (scan_answer id_get 1 2 idle demo_priv 512 demo_sectors demo_pages 20480 (Dentry 1 [97] 0 24576 0 0) 8192 (Some 3) demo_ext2).
Proof.
  apply (ext2_lookup_correct id_get demo_blk_read demo_sector_size idle id_set 1 2 demo_priv 512 demo_sectors
           demo_pages 4096 20480 8192 demo_dir);
    [apply demo_mount_ok|done| |apply demo_inode_ok; by left|by vm_compute|done| |apply demo_free|apply demo_scan|].
  - split; [by eexists|by eexists|done].
  - cbn. lia.
  - intros ino [= <-]. apply demo_has_inode.
Defined.

