(* ===== verification/Devfs.v ===== *)
(** * The device file system (src/src/kernel/devfs.c, devfs.h)

    A registry of at most 64 named devices, the flat directory that shows
    them, and the built-in devices: null, zero, block devices as byte files,
    the console, the framebuffer and its description.  The registry, the
    keyboard ring and the framebuffer console are components of the file
    systems' static state; the block layer and the console output are reached
    through their interfaces. *)
From S2P Require Import Prelude KMem Spinlock BuddySpec Buddy PageAlloc KString Ring Vfs Tables Print Kconsole Blk Scratch.

#[local] Open Scope Z_scope.

Definition DEVFS_MAX_NODES : Z := 64.
Definition FBCTL_BUF_LEN : Z := 64.
Definition KBD_BUF_LEN : Z := 1024.

(** [dn_name] is the [name_len] bytes of [name] before the terminator. *)
Record devfs_node := Node { dn_name : list Z; dn_ino : Z; dn_mode : Z; dn_fops : Z; dn_priv : Z; dn_in_use : Z }.
Record devfs_state := Devfs_state { g_nodes : list devfs_node; dev_next_ino : Z }.

(** All zero but [g_next_ino]. *)
Definition devfs_start : devfs_state := Devfs_state (replicate 64 (Node [] 0 0 0 0 0)) 2.

Definition in_use (n : devfs_node) : bool := negb (dn_in_use n =? 0).
(** [in_use && kstrcmp(name, ...) == 0] *)
Definition has_name (name : list Z) (n : devfs_node) : bool := in_use n && (str_diff (dn_name n) name =? 0).
(** [in_use && name_len == len] and the byte loop. *)
Definition node_matches (name : list Z) (n : devfs_node) : bool :=
  in_use n && Nat.eqb (length (dn_name n)) (length name) && bytes_eqb (dn_name n) name.

(** The [DT] type of a mode. *)
Definition dirent_type (mode : Z) : Z :=
  let type := Z.land mode VFS_S_IFMT in
  if type =? VFS_S_IFCHR then 3
  else if type =? VFS_S_IFBLK then 4
  else if type =? VFS_S_IFREG then 1
  else 0.
Definition dirent_of (n : devfs_node) : vfs_dirent :=
  Vfs_dirent (dn_ino n) vfs_dirent_bytes (dirent_type (dn_mode n)) (dn_name n).

(** [APPEND_STR]: [tmp] is the text so far, at most 63 bytes. *)
Fixpoint append_str (tmp s : list Z) : list Z :=
  match s with
  | [] => tmp
  | c :: s' => if Z.of_nat (length tmp) <? FBCTL_BUF_LEN - 1 then append_str (tmp ++ [c]) s' else tmp
  end.

(** The digits of [_v] in the order [APPEND_U32] emits them; [char _d[12]]. *)
Definition u32_digits (v : Z) : option (list Z) :=
  if v =? 0 then Some [48]
  else loop (fun '(v, d) => if v =? 0 then inr d else inl (v / 10, (48 + v mod 10) :: d)) (v, []).
Definition append_u32 (tmp : list Z) (v : Z) : option (list Z) := append_str tmp <$> u32_digits v.

(** "width=", " height=", " pitch=", " bpp=" *)
Definition width_text : list Z := [119; 105; 100; 116; 104; 61].
Definition height_text : list Z := [32; 104; 101; 105; 103; 104; 116; 61].
Definition pitch_text : list Z := [32; 112; 105; 116; 99; 104; 61].
Definition bpp_text : list Z := [32; 98; 112; 112; 61].

Definition fbctl_text (w h p bpp : Z) : option (list Z) :=
  t ← append_u32 (append_str [] width_text) w;
  t ← append_u32 (append_str t height_text) h;
  t ← append_u32 (append_str t pitch_text) p;
  t ← append_u32 (append_str t bpp_text) bpp;
  Some (append_str t [10]).

Section Devfs.
Context {FS : Type} `{PA : PageAllocator} `{VO : VfsOps FS} `{CO : Console (vst FS)} `{BL : BlockLayer (vst FS)}.
Context (get_dev : FS -> devfs_state) (set_dev : devfs_state -> FS -> FS).
Context (get_kbd : FS -> ring_t) (set_kbd : ring_t -> FS -> FS).
Context (get_kcon : FS -> kcon) (set_kcon : kcon -> FS -> FS).
(** The addresses of the static tables. *)
Context (devfs_dir_iops devfs_node_iops devfs_dir_fops : Z).
Context (null_fops zero_fops blkdev_fops cons_fops fb_fops fbctl_fops : Z).
#[local] Abbreviation V := (M (vst FS)).

Definition nodes_of (s : vst FS) : list devfs_node := g_nodes (get_dev (v_fs s)).
Definition put_dev (x : devfs_state) (s : vst FS) : vst FS := set_fs (set_dev x (v_fs s)) s.
Definition upd_dev (f : devfs_state -> devfs_state) : V unit := mmodify (fun s => put_dev (f (get_dev (v_fs s))) s).
Definition set_node (i : Z) (n : devfs_node) (x : devfs_state) : devfs_state :=
  Devfs_state (<[Z.to_nat i := n]> (g_nodes x)) (dev_next_ino x).

(** Kernel memory as the device functions use it. *)
Definition heap_upd (f : mem -> mem) : V unit :=
  mmodify (fun s => set_vk (set_heap (f (heap (v_k s))) (v_k s)) s).

(** *** The registry *)

Definition devfs_register (name : option (list Z)) (mode fops priv : Z) : V Z :=
  match name with
  | None => mret VFS_EINVAL
  | Some name =>
      if fops =? 0 then mret VFS_EINVAL
      else
        let nlen := Z.of_nat (length name) in
        if (nlen =? 0) || (64 <=? nlen) then mret VFS_EINVAL
        else
          r ← scan nodes_of (has_name name) (fun _ _ => mret VFS_EEXIST) 64;
          match r with
          | Some rc => mret rc
          | None =>
              r ← scan nodes_of (fun n => negb (in_use n)) (fun i _ =>
                ino ← mgets (fun s => dev_next_ino (get_dev (v_fs s)));
                upd_dev (fun x => set_node i (Node name ino mode fops priv 1)
                                    (Devfs_state (g_nodes x) (u32 (dev_next_ino x + 1))));;
                mret VFS_OK) 64;
              mret (default VFS_ENOMEM r)
          end
  end.

Definition devfs_unregister (name : option (list Z)) : V Z :=
  match name with
  | None => mret VFS_EINVAL
  | Some name =>
      r ← scan nodes_of (has_name name) (fun i n =>
        upd_dev (set_node i (Node (dn_name n) (dn_ino n) (dn_mode n) (dn_fops n) (dn_priv n) 0));;
        mret VFS_OK) 64;
      mret (default VFS_ENOENT r)
  end.

Definition devfs_find (name : list Z) : V (option devfs_node) :=
  scan nodes_of (node_matches name) (fun _ n => mret n) 64.

(** *** Inodes and the directory *)

Definition devfs_make_root (sb : Z) : V Z :=
  v ← v_kalloc 1;
  if v =? 0 then mret 0
  else
    create v_inodes set_inodes v (Inode 1 (Z.lor VFS_S_IFDIR 493) 1 sb devfs_dir_iops devfs_dir_fops 0);;
    mret v.

Definition devfs_make_node_inode (sb : Z) (n : devfs_node) : V Z :=
  v ← v_kalloc 1;
  if v =? 0 then mret 0
  else
    create v_inodes set_inodes v (Inode (dn_ino n) (dn_mode n) 1 sb devfs_node_iops (dn_fops n) (dn_priv n));;
    mret v.

Definition devfs_dir_lookup (dir child : Z) : V Z :=
  c ← load v_dentries child;
  o ← devfs_find (d_name c);
  match o with
  | None => mret VFS_ENOENT
  | Some n =>
      i ← load v_inodes dir;
      v ← devfs_make_node_inode (i_sb i) n;
      if v =? 0 then mret VFS_ENOMEM
      else upd_dentry child (set_d_inode v);; mret VFS_OK
  end.

(** [st] keeps what the caller had in the fields not set. *)
Definition dev_getattr (nlink v : Z) (st : vfs_stat) : V (Z * vfs_stat) :=
  i ← load v_inodes v;
  mret (VFS_OK, Stat (i_ino i) (i_mode i) nlink (st_uid st) (st_gid st) 0 (st_blocks st)
                     (st_atime st) (st_mtime st) (st_ctime st)).
Definition devfs_dir_getattr : Z -> vfs_stat -> V (Z * vfs_stat) := dev_getattr 2.
Definition devfs_node_getattr : Z -> vfs_stat -> V (Z * vfs_stat) := dev_getattr 1.

Definition devfs_dir_open (inode file : Z) : V Z := mret VFS_OK.
Definition devfs_dir_close (file : Z) : V Z := mret VFS_OK.

(** One round of the loop of [devfs_readdir]. *)
Definition readdir_step (f idx : Z) : V (Z + (Z * option vfs_dirent)) :=
  if idx <? DEVFS_MAX_NODES then
    n ← table_load nodes_of idx;
    let idx := u32 (idx + 1) in
    if in_use n then
      upd_file f (set_f_pos idx);;
      mret (inr (VFS_OK, Some (dirent_of n)))
    else mret (inl idx)
  else mret (inr (VFS_ENOENT, None)).

(** The answer and, on success, [*out]. *)
Definition devfs_readdir (f : Z) : V (Z * option vfs_dirent) :=
  x ← load v_files f;
  mloop (readdir_step f) (u32 (f_pos x)).

(** *** null and zero *)

(** [*off += n] on the position of the open file. *)
Definition advance (f n : Z) : V unit := upd_file f (fun x => set_f_pos (u64 (f_pos x + n)) x).

Definition null_read (f buf count : Z) : V Z := mret 0.
Definition null_write (f buf count : Z) : V Z := advance f count;; mret (i64 count).
Definition zero_read (f buf count : Z) : V Z :=
  heap_upd (fun m => memset m buf 0 count);;
  advance f count;;
  mret (i64 count).

(** *** Block devices as byte files *)

(** What both directions compute first: the device, its sector size, the first
    sector, the number of sectors, and the pages for them. *)
Definition sector_plan (x : vfs_file) (count : Z) : V (Z * Z * Z * Z * Z) :=
  i ← load v_inodes (f_inode x);
  let dev := i_priv i in
  ss ← dev_sector_size dev;
  start_sec ← udiv (f_pos x) ss;
  end_sec ← udiv (u64 (f_pos x + count + ss - 1)) ss;
  let nsecs := u64 (end_sec - start_sec) in
  let pages := u64 (u64 (nsecs * ss) + PAGE_SIZE - 1) / PAGE_SIZE in
  mret (dev, ss, start_sec, nsecs, if pages =? 0 then 1 else pages).

Definition blkdev_read (f buf count : Z) : V Z :=
  x ← load v_files f;
  let off := f_pos x in
  plan ← sector_plan x count;
  let '(dev, ss, start_sec, nsecs, buf_pages) := plan in
  tmp ← v_kalloc buf_pages;
  if tmp =? 0 then mret VFS_ENOMEM
  else
    rc ← blk_read dev start_sec (u32 nsecs) tmp;
    if negb (rc =? 0) then v_kfree tmp buf_pages;; mret (-1)
    else
      let delta := u64 (off - start_sec * ss) in
      let avail := u64 (nsecs * ss - delta) in
      let avail := if count <? avail then count else avail in
      heap_upd (fun m => memcpy m buf (u64 (tmp + delta)) avail);;
      v_kfree tmp buf_pages;;
      advance f avail;;
      mret (i64 avail).

Definition blkdev_write (f buf count : Z) : V Z :=
  x ← load v_files f;
  let off := f_pos x in
  plan ← sector_plan x count;
  let '(dev, ss, start_sec, nsecs, buf_pages) := plan in
  tmp ← v_kalloc buf_pages;
  if tmp =? 0 then mret VFS_ENOMEM
  else
    (* the answer of the read is not looked at *)
    blk_read dev start_sec (u32 nsecs) tmp;;
    let delta := u64 (off - start_sec * ss) in
    heap_upd (fun m => memcpy m (u64 (tmp + delta)) buf count);;
    rc ← blk_write dev start_sec (u32 nsecs) tmp;
    v_kfree tmp buf_pages;;
    if negb (rc =? 0) then mret (-1)
    else advance f count;; mret (i64 count).

Definition blkdev_llseek (f off whence : Z) : V Z :=
  if whence =? VFS_SEEK_SET then upd_file f (set_f_pos off);; mret off
  else if whence =? VFS_SEEK_CUR then advance f off;; x ← load v_files f; mret (f_pos x)
  else mret (u64 VFS_EINVAL).

Definition devfs_register_blk (dev : Z) : V Z :=
  if dev =? 0 then mret VFS_EINVAL
  else name ← dev_name dev; devfs_register (Some name) (Z.lor VFS_S_IFBLK 384) blkdev_fops dev.

(** *** The console *)

Definition cons_read (f buf count : Z) : V Z :=
  let n := u32 count in
  let n := if KBD_BUF_LEN <? n then KBD_BUF_LEN else n in
  bs ← mzoom (fun s => get_kbd (v_fs s)) (fun r s => set_fs (set_kbd r (v_fs s)) s) (ring_read n);
  heap_upd (fun m => store_bytes m buf bs);;
  mret (Z.of_nat (length bs)).

Definition cons_write_byte (buf i : Z) : V (option unit) :=
  c ← mgets (fun s => rd8 (heap (v_k s)) (buf + i));
  putc (i8 c);;
  mret None.
Definition cons_write (f buf count : Z) : V Z :=
  mfor (Z.to_nat count) (cons_write_byte buf) 0;;
  advance f count;;
  mret (i64 count).

(** *** The framebuffer *)

(** Byte [i] of the framebuffer's little-endian words. *)
Definition fb_byte (k : kcon) (i : Z) : option Z :=
  (fun w => Z.land (Z.shiftr w (8 * (i mod 4))) 255) <$> fb k !! Z.to_nat (i / 4).
Definition fb_put_byte (k : kcon) (i b : Z) : option kcon :=
  (fun w => set_fb (<[Z.to_nat (i / 4) :=
     Z.lor (Z.land w (Z.lxor 4294967295 (Z.shiftl 255 (8 * (i mod 4))))) (Z.shiftl b (8 * (i mod 4)))]> (fb k)) k)
  <$> fb k !! Z.to_nat (i / 4).

(** [base] is null until [kconsole_init] ran; the count is cut at the end. *)
Definition fb_outside (k : kcon) (off : Z) : bool := (fb_ready k =? 0) || (kconsole_get_size k <=? off).
Definition fb_count (k : kcon) (off count : Z) : Z :=
  if kconsole_get_size k <? u64 (off + count) then u64 (kconsole_get_size k - off) else count.

Definition or_fault {A} (o : option A) : V A := match o with Some a => mret a | None => mstuck Fault end.

(** The byte loops of the two [memcpy]s, to and from the framebuffer. *)
Definition fb_read_byte (buf off j : Z) : V (option unit) :=
  k ← mgets (fun s => get_kcon (v_fs s));
  b ← or_fault (fb_byte k (off + j));
  heap_upd (fun m => wr8 m (buf + j) b);;
  mret None.
Definition fb_write_byte (buf off j : Z) : V (option unit) :=
  k ← mgets (fun s => get_kcon (v_fs s));
  b ← mgets (fun s => rd8 (heap (v_k s)) (buf + j));
  k ← or_fault (fb_put_byte k (off + j) b);
  mmodify (fun s => set_fs (set_kcon k (v_fs s)) s);;
  mret None.

Definition fb_dev_read (f buf count : Z) : V Z :=
  x ← load v_files f;
  k ← mgets (fun s => get_kcon (v_fs s));
  if fb_outside k (f_pos x) then mret 0
  else
    let count := fb_count k (f_pos x) count in
    mfor (Z.to_nat count) (fb_read_byte buf (f_pos x)) 0;;
    advance f count;;
    mret (i64 count).
Definition fb_dev_write (f buf count : Z) : V Z :=
  x ← load v_files f;
  k ← mgets (fun s => get_kcon (v_fs s));
  if fb_outside k (f_pos x) then mret 0
  else
    let count := fb_count k (f_pos x) count in
    mfor (Z.to_nat count) (fb_write_byte buf (f_pos x)) 0;;
    advance f count;;
    mret (i64 count).

Definition fb_dev_llseek (f off whence : Z) : V Z :=
  size ← mgets (fun s => kconsole_get_size (get_kcon (v_fs s)));
  x ← load v_files f;
  let newpos :=
    if whence =? VFS_SEEK_SET then Some off
    else if whence =? VFS_SEEK_CUR then Some (u64 (f_pos x + off))
    else if whence =? VFS_SEEK_END then Some (u64 (size + off))
    else None in
  match newpos with
  | None => mret (u64 VFS_EINVAL)
  | Some n => let n := if size <? n then size else n in upd_file f (set_f_pos n);; mret n
  end.

Definition fbctl_read (f buf count : Z) : V Z :=
  info ← mgets (fun s => kconsole_get_info (get_kcon (v_fs s)));
  let '(w, h, p, bpp) := info in
  text ← mlift (fbctl_text w h p bpp);
  x ← load v_files f;
  let len := Z.of_nat (length text) in
  if len <=? f_pos x then mret 0
  else
    let avail := len - f_pos x in
    let avail := if count <? avail then count else avail in
    heap_upd (fun m => store_bytes m buf (take (Z.to_nat avail) (drop (Z.to_nat (f_pos x)) text)));;
    advance f avail;;
    mret (i64 avail).

(** "fb", "fbctl" *)
Definition devfs_register_fb : V unit :=
  devfs_register (Some [102; 98]) (Z.lor VFS_S_IFCHR 432) fb_fops 0;;
  devfs_register (Some [102; 98; 99; 116; 108]) (Z.lor VFS_S_IFCHR 292) fbctl_fops 0;;
  mret tt.

(** *** Mounting *)

Definition devfs_mount_fs (sb device opts : Z) : V Z :=
  root_vino ← devfs_make_root sb;
  if root_vino =? 0 then mret VFS_ENOMEM
  else
    root_dent ← v_kalloc 1;
    if root_dent =? 0 then v_kfree root_vino 1;; destroy v_inodes set_inodes root_vino;; mret VFS_ENOMEM
    else
      create v_dentries set_dentries root_dent (Dentry 1 [SLASH] root_vino 0 0 0);;
      upd_super sb (fun x => Super (sb_flags x) (sb_refcnt x) (sb_type x) root_dent 0);;
      mret VFS_OK.
Definition devfs_unmount (sb : Z) : V unit := mret tt.

(** "null", "zero", "cons"; [devfs_fs_type] is the static object at [type]. *)
Definition devfs_init (type : Z) : V unit :=
  vfs_register_fs type;;
  devfs_register (Some [110; 117; 108; 108]) (Z.lor VFS_S_IFCHR 438) null_fops 0;;
  devfs_register (Some [122; 101; 114; 111]) (Z.lor VFS_S_IFCHR 438) zero_fops 0;;
  devfs_register (Some [99; 111; 110; 115]) (Z.lor VFS_S_IFCHR 438) cons_fops 0;;
  mret tt.

Definition devfs_tops : vfs_type_ops FS := Tops (Some devfs_mount_fs) (Some devfs_unmount).
Definition devfs_diri : vfs_inode_ops FS := Iops (Some devfs_dir_lookup) None None None (Some devfs_dir_getattr).
Definition devfs_nodei : vfs_inode_ops FS := Iops None None None None (Some devfs_node_getattr).
Definition devfs_dirf : vfs_file_ops FS := Fops (Some devfs_dir_open) (Some devfs_dir_close) None None None.
Definition null_ops : vfs_file_ops FS := Fops None None (Some null_read) (Some null_write) None.
Definition zero_ops : vfs_file_ops FS := Fops None None (Some zero_read) (Some null_write) None.
Definition blkdev_ops : vfs_file_ops FS := Fops None None (Some blkdev_read) (Some blkdev_write) (Some blkdev_llseek).
Definition cons_ops : vfs_file_ops FS := Fops None None (Some cons_read) (Some cons_write) None.
Definition fb_ops : vfs_file_ops FS := Fops None None (Some fb_dev_read) (Some fb_dev_write) (Some fb_dev_llseek).
Definition fbctl_ops : vfs_file_ops FS := Fops None None (Some fbctl_read) None None.
End Devfs.

(** ** The registry as a finite map *)

Definition live (l : list devfs_node) : list devfs_node := filter (fun n => in_use n = true) l.
Definition devices (l : list devfs_node) : gmap (list Z) devfs_node :=
  list_to_map ((fun n => (dn_name n, n)) <$> live l).

Definition name_ok (name : list Z) : Prop := Forall (fun c => c <> 0) name /\ (0 < length name < 64)%nat.

(** The registry is well formed: live nodes have distinct proper names and
    distinct inode numbers, all handed out before. *)
Record dev_ok (x : devfs_state) : Prop := {
  dev_len : length (g_nodes x) = 64%nat;
  dev_names : NoDup (dn_name <$> live (g_nodes x));
  dev_name_ok : Forall (fun n => name_ok (dn_name n)) (live (g_nodes x));
  dev_inos : NoDup (dn_ino <$> live (g_nodes x));
  dev_ino_old : Forall (fun n => 2 <= dn_ino n < dev_next_ino x) (live (g_nodes x));
  dev_next : 2 <= dev_next_ino x < 2 ^ 32
}.

Lemma dev_start_ok : dev_ok devfs_start.
Proof.
  assert (live (g_nodes devfs_start) = []) as E by by vm_compute.
  split; [done|rewrite E..|]; [constructor|constructor|constructor|constructor|done].
Qed.

(** A slot of the table that changes between dead and live. *)
Lemma live_dead l i x y :
  l !! i = Some x -> in_use x = false -> in_use y = true -> live (<[i := y]> l) ≡ₚ y :: live l.
Proof.
  intros Hl Hx Hy. rewrite <- (take_drop_middle l i x Hl) at 2. rewrite insert_take_drop by (by eapply lookup_lt_Some).
  unfold live. rewrite !filter_app, !filter_cons_True, filter_cons_False by congruence.
  by rewrite Permutation_middle.
Qed.

Lemma live_kill l i x y :
  l !! i = Some x -> in_use x = true -> in_use y = false -> live l ≡ₚ x :: live (<[i := y]> l).
Proof.
  intros Hl Hx Hy. rewrite <- (take_drop_middle l i x Hl) at 1. rewrite insert_take_drop by (by eapply lookup_lt_Some).
  unfold live. rewrite !filter_app, filter_cons_True, filter_cons_False by congruence.
  by rewrite Permutation_middle.
Qed.

Lemma devices_lookup l name n : NoDup (dn_name <$> live l) ->
  devices l !! name = Some n <-> n ∈ l /\ in_use n = true /\ dn_name n = name.
Proof.
  intros Hnd. unfold devices. rewrite <- elem_of_list_to_map.
  - rewrite list_elem_of_fmap. unfold live. setoid_rewrite list_elem_of_filter. naive_solver.
  - by rewrite <- list_fmap_compose.
Qed.

Lemma devices_insert l l' n : NoDup (dn_name <$> live l') -> live l' ≡ₚ n :: live l ->
  devices l' = <[dn_name n := n]> (devices l).
Proof.
  intros Hnd Hp. unfold devices.
  rewrite (list_to_map_proper _ ((fun n => (dn_name n, n)) <$> (n :: live l))); [done| |by rewrite Hp].
  by rewrite <- list_fmap_compose.
Qed.

Lemma devices_delete l l' n : NoDup (dn_name <$> live l) -> live l ≡ₚ n :: live l' ->
  devices l' = delete (dn_name n) (devices l).
Proof.
  intros Hnd Hp. rewrite (devices_insert l' l n) by done. rewrite delete_insert_id; [done|].
  apply not_elem_of_list_to_map. rewrite <- list_fmap_compose. rewrite Hp in Hnd. by apply NoDup_cons in Hnd as [? _].
Qed.

Lemma devices_size l : NoDup (dn_name <$> live l) -> size (devices l) = length (live l).
Proof.
  intros Hnd. unfold devices. rewrite map_size_list_to_map by by rewrite <- list_fmap_compose. by rewrite length_fmap.
Qed.

Lemma live_full l : length (live l) = length l <-> forall n, n ∈ l -> in_use n = true.
Proof.
  unfold live. induction l as [|x l IH]; [split; [by intros _ n ?%not_elem_of_nil|done]|].
  pose proof (length_filter (fun n => in_use n = true) l) as Hle. destruct (in_use x) eqn:Hx.
  - rewrite filter_cons_True by done. cbn [length]. split.
    + intros [= H] n [->|Hn]%elem_of_cons; [done|]. by apply IH.
    + intros H. f_equal. apply IH. intros n Hn. apply H, elem_of_cons. by right.
  - rewrite filter_cons_False by congruence. cbn [length]. split; [lia|].
    intros H. rewrite (H x) in Hx; [done|]. apply elem_of_cons. by left.
Qed.

(** What a search by name finds. *)
Lemma find_device (test : devfs_node -> bool) l name :
  NoDup (dn_name <$> live l) -> (forall n, n ∈ l -> test n = true <-> in_use n = true /\ dn_name n = name) ->
  match first_at test l 0 with
  | Some (i, n) => 0 <= i /\ l !! Z.to_nat i = Some n /\ in_use n = true /\ dn_name n = name /\ devices l !! name = Some n
  | None => devices l !! name = None
  end.
Proof.
  intros Hnd Ht. destruct (first_at test l 0) as [[i n]|] eqn:E.
  - apply first_at_Some in E as (Hi & Hl & Hn). rewrite Z.sub_0_r in Hl.
    assert (n ∈ l) as Hin by (by eapply list_elem_of_lookup_2). apply Ht in Hn as [Hu He]; [|done].
    split_and!; try done. by apply devices_lookup.
  - rewrite first_at_None in E. destruct (devices l !! name) as [n|] eqn:Hd; [|done].
    apply devices_lookup in Hd as (Hin & Hu & He); [|done]. specialize (E n Hin).
    rewrite (proj2 (Ht n Hin)) in E by done. done.
Qed.

Lemma live_elem l n : n ∈ live l <-> in_use n = true /\ n ∈ l.
Proof. unfold live. by rewrite list_elem_of_filter. Qed.

Lemma has_name_spec x name n : dev_ok x -> Forall (fun c => c <> 0) name -> n ∈ g_nodes x ->
  has_name name n = true <-> in_use n = true /\ dn_name n = name.
Proof.
  intros Hx Hnm Hin. unfold has_name. destruct (in_use n) eqn:Hu; [|naive_solver]. cbn [andb].
  assert (name_ok (dn_name n)) as [Hz _].
  { pose proof (dev_name_ok x Hx) as H. rewrite Forall_forall in H. apply H. by apply live_elem. }
  rewrite Z.eqb_eq, str_diff_zero_eq by done. naive_solver.
Qed.

Lemma node_matches_spec name n : node_matches name n = true <-> in_use n = true /\ dn_name n = name.
Proof.
  unfold node_matches. pose proof (comp_eq_spec (dn_name n) name) as H. unfold vfs_comp_eq in H.
  destruct (in_use n); [|naive_solver]. cbn [andb]. rewrite Nat.eqb_sym.
  destruct (Nat.eqb (length name) (length (dn_name n))); cbn [negb] in H; cbn [andb].
  - rewrite H, bool_decide_eq_true. naive_solver.
  - symmetry in H. rewrite bool_decide_eq_false in H. naive_solver.
Qed.

(** ** The specification of the registry *)

Record registry := Registry { r_devs : gmap (list Z) devfs_node; r_next : Z }.

Inductive dev_call :=
| Register (name : option (list Z)) (mode fops priv : Z)
| Unregister (name : option (list Z)).

Definition spec_call (c : dev_call) (R : registry) : Z * registry :=
  match c with
  | Register (Some name) mode fops priv =>
      if bool_decide (fops = 0 \/ ~ (0 < length name < 64)%nat) then (VFS_EINVAL, R)
      else if bool_decide (is_Some (r_devs R !! name)) then (VFS_EEXIST, R)
      else if bool_decide (size (r_devs R) = 64%nat) then (VFS_ENOMEM, R)
      else (VFS_OK, Registry (<[name := Node name (r_next R) mode fops priv 1]> (r_devs R)) (r_next R + 1))
  | Unregister (Some name) =>
      if bool_decide (is_Some (r_devs R !! name)) then (VFS_OK, Registry (delete name (r_devs R)) (r_next R))
      else (VFS_ENOENT, R)
  | _ => (VFS_EINVAL, R)
  end.

(** A name is a C string. *)
Definition call_ok (c : dev_call) : Prop :=
  match c with
  | Register (Some name) _ _ _ | Unregister (Some name) => Forall (fun b => b <> 0) name
  | _ => True
  end.

(** The table stands for the registry [R]. *)
Definition stands_for (x : devfs_state) (R : registry) : Prop :=
  dev_ok x /\ r_devs R = devices (g_nodes x) /\ r_next R = dev_next_ino x.

Lemma add_node_ok x i y name mode fops priv :
  dev_ok x -> g_nodes x !! i = Some y -> in_use y = false -> name_ok name -> devices (g_nodes x) !! name = None ->
  dev_next_ino x + 1 < 2 ^ 32 ->
  let n := Node name (dev_next_ino x) mode fops priv 1 in
  let x' := Devfs_state (<[i := n]> (g_nodes x)) (dev_next_ino x + 1) in
  dev_ok x' /\ devices (g_nodes x') = <[name := n]> (devices (g_nodes x)).
Proof.
  intros [H1 H2 H3 H4 H5 H6] Hi Hy Hn Hd Hlt n x'. cbn [g_nodes x'].
  pose proof (live_dead (g_nodes x) i y n Hi Hy eq_refl) as Hp.
  assert (NoDup (dn_name <$> live (<[i := n]> (g_nodes x)))) as Hnd.
  { rewrite Hp. apply NoDup_cons. split; [|done]. intros (m & Hm & Hin)%list_elem_of_fmap.
    apply live_elem in Hin as [Hu Hin]. apply (eq_None_not_Some (devices (g_nodes x) !! name)); [done|].
    exists m. by apply devices_lookup. }
  split; [split; cbn [g_nodes dev_next_ino x']|by apply devices_insert].
  - by rewrite length_insert.
  - done.
  - rewrite Hp. by constructor.
  - rewrite Hp. apply NoDup_cons. split; [|done]. intros (m & Hm & Hin)%list_elem_of_fmap.
    rewrite Forall_forall in H5. specialize (H5 m Hin). cbn in Hm. lia.
  - rewrite Hp. constructor; [cbn; lia|]. eapply Forall_impl; [exact H5|]. cbn. lia.
  - lia.
Qed.

Lemma kill_node_ok x i y z :
  dev_ok x -> g_nodes x !! i = Some y -> in_use y = true -> in_use z = false ->
  let x' := Devfs_state (<[i := z]> (g_nodes x)) (dev_next_ino x) in
  dev_ok x' /\ devices (g_nodes x') = delete (dn_name y) (devices (g_nodes x)).
Proof.
  intros [H1 H2 H3 H4 H5 H6] Hi Hy Hz x'. pose proof (live_kill (g_nodes x) i y z Hi Hy Hz) as Hp. cbn [g_nodes x'].
  split; [|by apply devices_delete]. rewrite Hp in H2, H3, H4, H5.
  split; cbn [g_nodes dev_next_ino x']; [by rewrite length_insert| | | | |done].
  - by apply NoDup_cons in H2 as [_ ?].
  - by apply Forall_cons in H3 as [_ ?].
  - by apply NoDup_cons in H4 as [_ ?].
  - by apply Forall_cons in H5 as [_ ?].
Qed.

Fixpoint spec_calls (cs : list dev_call) (R : registry) : list Z * registry :=
  match cs with
  | [] => ([], R)
  | c :: cs =>
      let '(rc, R1) := spec_call c R in
      let '(rcs, R2) := spec_calls cs R1 in (rc :: rcs, R2)
  end.

Lemma spec_call_next c R : r_next (spec_call c R).2 <= r_next R + 1.
Proof. destruct c as [[name|] mode fops priv|[name|]]; cbn [spec_call]; repeat case_match; cbn; lia. Qed.

(** The live nodes from a position on. *)
Lemma live_next l i : match first_at in_use l i with
  | Some (j, n) => live l = n :: live (drop (Z.to_nat (j + 1 - i)) l)
  | None => live l = [] end.
Proof.
  revert i. induction l as [|x l IH]; intros i; [done|]. cbn [first_at]. unfold live in *. destruct (in_use x) eqn:Hx.
  - rewrite filter_cons_True by done. by replace (Z.to_nat (i + 1 - i)) with 1%nat by lia.
  - rewrite filter_cons_False by congruence. specialize (IH (i + 1)). pose proof (first_at_Some in_use l (i + 1)) as Hs.
    destruct (first_at in_use l (i + 1)) as [[j n]|]; [|done].
    destruct (Hs j n eq_refl) as (Hj & _). replace (Z.to_nat (j + 1 - i)) with (S (Z.to_nat (j + 1 - (i + 1)))) by lia. done.
Qed.

Section Registry.
Context {FS : Type} `{PA : PageAllocator} `{VO : VfsOps FS}.
Context (get_dev : FS -> devfs_state) (set_dev : devfs_state -> FS -> FS) (L : lens get_dev set_dev).
#[local] Abbreviation V := (M (vst FS)).

Definition do_call (c : dev_call) : V Z :=
  match c with
  | Register name mode fops priv => devfs_register get_dev set_dev name mode fops priv
  | Unregister name => devfs_unregister get_dev set_dev name
  end.

Fixpoint do_calls (cs : list dev_call) : V (list Z) :=
  match cs with
  | [] => mret []
  | c :: cs => rc ← do_call c; rcs ← do_calls cs; mret (rc :: rcs)
  end.

Lemma put_dev_same (s : vst FS) : put_dev set_dev (get_dev (v_fs s)) s = s.
Proof. unfold put_dev. rewrite (set_get _ _ L). by destruct s. Qed.

Lemma put_dev_twice x y (s : vst FS) : put_dev set_dev x (put_dev set_dev y s) = put_dev set_dev x s.
Proof. unfold put_dev. cbn. by rewrite (set_set _ _ L). Qed.

Lemma do_call_refines c (s : vst FS) R :
  stands_for (get_dev (v_fs s)) R -> call_ok c -> r_next R + 1 < 2 ^ 32 ->
  wp (do_call c) s (fun rc s' => exists x R', spec_call c R = (rc, R') /\ stands_for x R' /\ s' = put_dev set_dev x s).
Proof.
  intros (Hok & Hd & Hn) Hc Hlt. set (x := get_dev (v_fs s)) in *.
  assert (forall rc : Z, exists x' R', (rc, R) = (rc, R') /\ stands_for x' R' /\ s = put_dev set_dev x' s) as Hsame.
  { intros rc. exists x, R. split_and!; try done. unfold x. by rewrite put_dev_same. }
  assert (length (nodes_of get_dev s) = 64%nat) as Hlen by apply (dev_len x Hok).
  destruct c as [[name|] mode fops priv|[name|]]; cbn [do_call spec_call]; [|apply wp_ret, Hsame| |apply wp_ret, Hsame].
  all: cbn in Hc; assert (forall n, n ∈ nodes_of get_dev s -> has_name name n = true <-> in_use n = true /\ dn_name n = name)
    as Ht by (intros n Hn'; by eapply has_name_spec).
  all: pose proof (find_device (has_name name) _ name (dev_names x Hok) Ht) as Hfind.
  - unfold devfs_register. destruct (Z.eqb_spec fops 0) as [->|Hf].
    { rewrite bool_decide_eq_true_2 by by left. wp_step. apply Hsame. }
    destruct ((Z.of_nat (length name) =? 0) || (64 <=? Z.of_nat (length name))) eqn:Hnl.
    { rewrite bool_decide_eq_true_2 by (right; lia). wp_step. apply Hsame. }
    rewrite bool_decide_eq_false_2 by (intros [?|?]; [done|lia]).
    wp_step. apply wp_scan; [done|]. rewrite Hd. fold (g_nodes x). unfold nodes_of in *. fold x in Hlen, Ht, Hfind |- *.
    destruct (first_at (has_name name) (g_nodes x) 0) as [[i n]|] eqn:E.
    { destruct Hfind as (_ & _ & _ & _ & ->). rewrite bool_decide_eq_true_2 by by eexists. wp_step. wp_step. apply Hsame. }
    rewrite Hfind. rewrite bool_decide_eq_false_2 by by intros [? ?].
    wp_step. apply wp_scan; [done|]. unfold nodes_of. fold x. rewrite devices_size by apply Hok.
    destruct (first_at (fun n => negb (in_use n)) (g_nodes x) 0) as [[i y]|] eqn:E2.
    + apply first_at_Some in E2 as (Hi & Hl & Hy). rewrite Z.sub_0_r in Hl. apply negb_true_iff in Hy.
      assert (length (live (g_nodes x)) <> 64%nat) as Hfull.
      { rewrite <- Hlen, live_full. intros Hall. rewrite Hall in Hy; [done|]. by eapply list_elem_of_lookup_2. }
      rewrite bool_decide_eq_false_2 by done. wp_step. wp_step. wp_step. unfold upd_dev. apply wp_modify. wp_step. wp_step.
      cbn [default]. rewrite Hn in Hlt.
      destruct (add_node_ok x (Z.to_nat i) y name mode fops priv Hok Hl Hy ltac:(split; [done|lia]) Hfind ltac:(lia)) as [H1 H2].
      fold x. unfold set_node. cbn [g_nodes dev_next_ino]. rewrite u32_small by (pose proof (dev_next x Hok); lia).
      eexists _, _. split; [reflexivity|]. split; [|reflexivity]. split_and!; [exact H1|by rewrite Hn, H2|by rewrite Hn].
    + rewrite bool_decide_eq_true_2; [wp_step; apply Hsame|]. rewrite <- Hlen. apply live_full. intros n Hin.
      rewrite first_at_None in E2. apply negb_false_iff. by apply E2.
  - unfold devfs_unregister. wp_step. apply wp_scan; [done|]. rewrite Hd. unfold nodes_of in *. fold x in Hlen, Ht, Hfind |- *.
    destruct (first_at (has_name name) (g_nodes x) 0) as [[i n]|] eqn:E.
    + destruct Hfind as (Hi & Hl & Hu & Hnm & ->). rewrite bool_decide_eq_true_2 by by eexists.
      wp_step. apply wp_modify. wp_step. wp_step. fold x.
      destruct (kill_node_ok x (Z.to_nat i) n (Node (dn_name n) (dn_ino n) (dn_mode n) (dn_fops n) (dn_priv n) 0) Hok Hl Hu eq_refl) as [H1 H2].
      eexists _, _. split; [reflexivity|]. split; [|reflexivity]. split_and!; [exact H1|rewrite <- Hnm; symmetry; exact H2|done].
    + rewrite Hfind. rewrite bool_decide_eq_false_2 by by intros [? ?]. wp_step. apply Hsame.
Qed.

Lemma devfs_find_run (s : vst FS) R name : stands_for (get_dev (v_fs s)) R ->
  devfs_find get_dev name s = Ok (r_devs R !! name, s).
Proof.
  intros (Hok & -> & _). set (x := get_dev (v_fs s)) in *. unfold devfs_find. rewrite scan_spec by apply (dev_len x Hok).
  pose proof (find_device (node_matches name) (g_nodes x) name (dev_names x Hok) (fun n _ => node_matches_spec name n)) as H.
  unfold nodes_of. fold x. destruct (first_at (node_matches name) (g_nodes x) 0) as [[i n]|]; [|by rewrite H].
  destruct H as (_ & _ & _ & _ & ->). done.
Qed.

(** *** Listing the directory *)

Lemma readdir_run f x idx (s : vst FS) :
  v_files s !! f = Some x -> f_pos x = idx -> 0 <= idx <= 64 -> length (nodes_of get_dev s) = 64%nat ->
  devfs_readdir get_dev f s =
    match first_at in_use (drop (Z.to_nat idx) (nodes_of get_dev s)) idx with
    | Some (i, n) => Ok ((VFS_OK, Some (dirent_of n)), set_files (<[f := set_f_pos (i + 1) x]> (v_files s)) s)
    | None => Ok ((VFS_ENOENT, None), s)
    end.
Proof.
  intros Hf <- Hi Hlen. unfold devfs_readdir, mbind, M_bind, load. rewrite Hf, u32_small by lia.
  assert (exists k, 0 <= k <= 64 - f_pos x /\ runs (readdir_step get_dev f) (f_pos x) s
    (match first_at in_use (drop (Z.to_nat (f_pos x)) (nodes_of get_dev s)) (f_pos x) with
    | Some (i, n) => Ok ((VFS_OK, Some (dirent_of n)), set_files (<[f := set_f_pos (i + 1) x]> (v_files s)) s)
    | None => Ok ((VFS_ENOENT, None), s)
    end) k) as (k & Hk & Hr); [|by apply (mloop_runs _ _ _ _ k Hr); lia].
  remember (Z.to_nat (64 - f_pos x)) as m eqn:Em. revert Hi Em. generalize (f_pos x) as idx. induction m as [|m IH]; intros idx Hi Em.
  - exists 0. split; [lia|]. rewrite drop_ge by lia. apply runs_stop. unfold readdir_step, DEVFS_MAX_NODES.
    by rewrite (proj2 (Z.ltb_ge _ _)) by lia.
  - destruct (lookup_lt_is_Some_2 (nodes_of get_dev s) (Z.to_nat idx)) as [n Hn]; [lia|].
    rewrite (drop_S _ n) by done. cbn [first_at].
    assert (readdir_step get_dev f idx s =
      if in_use n then Ok (inr (VFS_OK, Some (dirent_of n)), set_files (<[f := set_f_pos (idx + 1) x]> (v_files s)) s)
      else Ok (inl (idx + 1), s)) as E.
    { unfold readdir_step, DEVFS_MAX_NODES. rewrite (proj2 (Z.ltb_lt _ _)) by lia.
      unfold mbind, M_bind, table_load. rewrite Hn, u32_small by lia. destruct (in_use n); [|done].
      unfold upd_file, update. by rewrite Hf. }
    destruct (in_use n) eqn:Hu; [exists 0; split; [lia|by apply runs_stop]|].
    destruct (IH (idx + 1)) as (k & Hk & Hr); [lia|lia|]. exists (k + 1). split; [lia|].
    eapply runs_next; [exact E| |lia]. replace (S (Z.to_nat idx)) with (Z.to_nat (idx + 1)) by lia. exact Hr.
Qed.

(** [readdir] called until it answers no more entry, [n] times at most. *)
Fixpoint list_dir (n : nat) (f : Z) : V (list vfs_dirent * option Z) :=
  match n with
  | O => mret ([], None)
  | S n =>
      r ← devfs_readdir get_dev f;
      match r with
      | (_, Some d) => x ← list_dir n f; mret (d :: x.1, x.2)
      | (rc, None) => mret ([], Some rc)
      end
  end.

(** Reading the device directory from the start lists every registered
    device exactly once, in the order of the table, with its inode number and
    type, and then answers ENOENT; 65 calls are always enough.  Nothing but the
    position of the open file changes. *)
Lemma devfs_readdir_lists f x (s : vst FS) :
  v_files s !! f = Some x -> f_pos x = 0 -> dev_ok (get_dev (v_fs s)) ->
  exists pos, list_dir 65 f s =
    Ok ((dirent_of <$> live (nodes_of get_dev s), Some VFS_ENOENT), set_files (<[f := set_f_pos pos x]> (v_files s)) s).
Proof.
  intros Hf Hp Hok. pose proof (dev_len _ Hok) as Hlen. change (g_nodes (get_dev (v_fs s))) with (nodes_of get_dev s) in Hlen.
  assert (forall n idx y (t : vst FS), v_files t !! f = Some y -> f_pos y = idx -> 0 <= idx <= 64 -> 64 - idx < Z.of_nat n ->
    length (nodes_of get_dev t) = 64%nat -> exists pos, list_dir n f t =
    Ok ((dirent_of <$> live (drop (Z.to_nat idx) (nodes_of get_dev t)), Some VFS_ENOENT),
        set_files (<[f := set_f_pos pos y]> (v_files t)) t)) as H.
  { clear. induction n as [|n IH]; intros idx y t Hf Hp Hi Hn Hlen; [lia|]. cbn [list_dir]. unfold mbind at 1, M_bind at 1.
    rewrite (readdir_run f y idx) by done. pose proof (live_next (drop (Z.to_nat idx) (nodes_of get_dev t)) idx) as Hl.
    pose proof (first_at_Some in_use (drop (Z.to_nat idx) (nodes_of get_dev t)) idx) as Hs.
    destruct (first_at in_use _ idx) as [[i m]|].
    - destruct (Hs i m eq_refl) as (Hge & Hm & _). apply lookup_lt_Some in Hm. rewrite length_drop in Hm.
      rewrite drop_drop in Hl. replace (Z.to_nat idx + Z.to_nat (i + 1 - idx))%nat with (Z.to_nat (i + 1)) in Hl by lia.
      rewrite Hl. destruct (IH (i + 1) (set_f_pos (i + 1) y) (set_files (<[f := set_f_pos (i + 1) y]> (v_files t)) t)) as (pos & E);
        [by cbn; rewrite lookup_insert_eq|done|lia|lia|done|].
      exists pos. unfold mbind, M_bind. rewrite E. cbn. by rewrite insert_insert_eq.
    - exists idx. rewrite Hl. cbn. rewrite insert_id; [by destruct t|]. rewrite Hf. f_equal. rewrite <- Hp. by destruct y. }
  destruct (H 65%nat 0 x s Hf Hp) as (pos & E); [lia|lia|done|]. exists pos. exact E.
Qed.

(** C27: The device registry is a finite map from names to devices.  Any
    sequence of registrations and removals gives the answers of that map: a
    missing name, a name of no or more than 63 bytes or missing operations are
    refused, a name in use is not registered again, the 65th device finds no
    room, and a removed name is unknown again; a new device gets the next inode
    number.  After the calls a lookup finds exactly the devices registered. *)
Theorem devfs_registry_refines cs (s : vst FS) R :
  stands_for (get_dev (v_fs s)) R -> Forall call_ok cs -> r_next R + Z.of_nat (length cs) < 2 ^ 32 ->
  wp (do_calls cs) s (fun rcs s' => exists x R', spec_calls cs R = (rcs, R') /\ stands_for x R' /\
    s' = put_dev set_dev x s /\ forall name, devfs_find get_dev name s' = Ok (r_devs R' !! name, s')).
Proof.
  intros HR Hcs. revert s R HR. induction Hcs as [|c cs Hc Hcs IH]; intros s R HR Hlt; cbn [do_calls spec_calls length] in *.
  - wp_step. exists (get_dev (v_fs s)), R. rewrite put_dev_same. split_and!; try done. intros name. by apply devfs_find_run.
  - wp_step. eapply wp_mono; [by apply (do_call_refines c s R); [| |lia]|].
    intros rc s1 (x & R1 & E1 & HR1 & ->). wp_step. pose proof (spec_call_next c R) as Hnx. rewrite E1 in Hnx |- *. cbn in Hnx.
    eapply wp_mono; [apply (IH _ R1); [by cbn; rewrite (get_set _ _ L)|lia]|].
    intros rcs s2 (x2 & R2 & E2 & HR2 & -> & Hfind). wp_step. exists x2, R2. rewrite E2. rewrite put_dev_twice in *. done.
Qed.

(** Looking a name up in the device directory gives the device registered
    under exactly that name: the child dentry names a new inode, on a page that
    was free, with the device's inode number, mode, operations and private
    data.  An unknown name answers ENOENT and changes nothing. *)
Lemma devfs_lookup_device (devfs_node_iops : Z) dir child c i ps (s : vst FS) R :
  stands_for (get_dev (v_fs s)) R -> free_pages ps s -> ps <> [] ->
  v_inodes s !! dir = Some i -> v_dentries s !! child = Some c ->
  wp (devfs_dir_lookup get_dev devfs_node_iops dir child) s (fun rc s' =>
    match r_devs R !! d_name c with
    | None => rc = VFS_ENOENT /\ s' = s
    | Some n => rc = VFS_OK /\ exists v k qs, v <> 0 /\ ps ≡ₚ (v / 4096) :: qs /\ free_pages qs s' /\
        s' = set_dentries (<[child := set_d_inode v c]> (v_dentries s))
               (set_inodes (<[v := Inode (dn_ino n) (dn_mode n) 1 (i_sb i) devfs_node_iops (dn_fops n) (dn_priv n)]> (v_inodes s))
                 (set_vk k s))
    end).
Proof.
  intros HR Hf Hne Hd Hc. unfold devfs_dir_lookup. wp_step. eapply wp_run; [unfold load; by rewrite Hc|].
  wp_step. eapply wp_run; [by apply devfs_find_run|]. destruct (r_devs R !! d_name c) as [n|]; [|by wp_step].
  wp_step. eapply wp_run; [unfold load; by rewrite Hd|]. unfold devfs_make_node_inode. wp_step. wp_step.
  eapply wp_mono; [by apply (take_page ps)|]. intros v s1 (Hv & k & qs & -> & Hb & Hq & _).
  rewrite (proj2 (Z.eqb_neq v 0)) by done. wp_step. apply wp_modify. wp_step. rewrite (proj2 (Z.eqb_neq v 0)) by done.
  wp_step. eapply wp_run; [unfold upd_dentry, update; cbn; by rewrite Hc|]. wp_step. split; [done|].
  exists v, k, qs. split_and!; try done. by destruct Hb as (? & _).
Qed.
End Registry.

(** ** Witnesses *)

#[local] Abbreviation id_get := (fun st : devfs_state => st).
#[local] Abbreviation id_set := (fun (x _ : devfs_state) => x).

Lemma id_lens : lens id_get id_set.
Proof. by split. Qed.

(** The registry holds "null" and, after a gap, "zero"; the directory is open
    as the file 45056, the name "zero" is the dentry 20480. *)
Definition demo_nodes : list devfs_node :=
  [Node [110; 117; 108; 108] 2 8630 1 0 1; Node [97] 3 0 0 0 0; Node [122; 101; 114; 111] 4 8630 2 0 1].
Definition demo_table : devfs_state := Devfs_state (demo_nodes ++ replicate 61 (Node [] 0 0 0 0 0)) 5.
Definition demo_devfs : vst devfs_state :=
  Vst demo_kst {[ 4096 := Inode 1 16877 1 8192 1 2 0 ]} {[ 20480 := Dentry 1 [122; 101; 114; 111] 0 16384 0 0 ]} ∅ ∅
    {[ 45056 := File 1 0 0 4096 2 0 ]} ∅ 0 0 0 0 demo_table.

Lemma demo_table_live : live (g_nodes demo_table) = [Node [110; 117; 108; 108] 2 8630 1 0 1; Node [122; 101; 114; 111] 4 8630 2 0 1].
Proof. by vm_compute. Qed.

Lemma demo_table_ok : dev_ok demo_table.
Proof.
  split; [done|rewrite demo_table_live..|]; [by_decide|by repeat constructor|by_decide|by repeat constructor|done].
Qed.

Lemma demo_stands : stands_for demo_table (Registry (devices (g_nodes demo_table)) 5).
Proof. split; [apply demo_table_ok|done]. Qed.

(** "null" again, then "zero" removed and registered anew. *)
Lemma devfs_registry_refines_witness :
  let calls := [Register (Some [110; 117; 108; 108]) 0 1 0; Unregister (Some [122; 101; 114; 111]);
                Register (Some [122; 101; 114; 111]) 8630 9 0] in
  wp (do_calls id_get id_set calls) demo_devfs (fun rcs s' => exists x R',
    spec_calls calls (Registry (devices (g_nodes demo_table)) 5) = (rcs, R') /\ stands_for x R' /\
    s' = put_dev id_set x demo_devfs /\ forall name, devfs_find id_get name s' = Ok (r_devs R' !! name, s')).
Proof.
  intros calls. apply (devfs_registry_refines id_get id_set id_lens calls demo_devfs (Registry (devices (g_nodes demo_table)) 5));
    [apply demo_stands|by repeat constructor|done].
Defined.

Lemma devfs_readdir_lists_witness :
  exists pos, list_dir id_get 65 45056 demo_devfs =
    Ok ((dirent_of <$> live (g_nodes demo_table), Some VFS_ENOENT),
        set_files (<[45056 := set_f_pos pos (File 1 0 0 4096 2 0)]> (v_files demo_devfs)) demo_devfs).
Proof. apply (devfs_readdir_lists id_get 45056 (File 1 0 0 4096 2 0) demo_devfs); [done|done|apply demo_table_ok]. Defined.
