(* ===== verification/Mounting.v ===== *)
(** * Mounting (src/src/kernel/vfs.c)

    [vfs_mount] of Vfs.v against what a file system promises about its own
    [mount] and [unmount] ([FsType]): it either takes effect, and then names
    resolve into the new file system, or leaves no trace but unused objects. *)
From S2P Require Import Prelude KMem Spinlock BuddySpec Buddy PageAlloc KString Ring Vfs Print Kconsole Blk Scratch Initfs Devfs.

#[local] Open Scope Z_scope.

Section Mounting.
Context {FS : Type} `{PA : PageAllocator} `{VO : VfsOps FS}.
#[local] Abbreviation V := (M (vst FS)).

(** No object of a store lies in the pages [ps]. *)
Definition apart {A} (ps : list Z) (m : gmap Z A) : Prop := forall p x, m !! p = Some x -> (p / 4096) ∉ ps.

(** The objects of the virtual file system: the mounts are the list [ms], the
    registered types the list [l], and none of them is in a free page. *)
Record vfs_ok (ps ms l : list Z) (s : vst FS) : Prop := {
  ok_pages : free_pages ps s;
  ok_types : Vfs.registry s l;
  ok_mounts : mounts_ok s ms;
  ok_inodes : apart ps (v_inodes s);
  ok_dentries : apart ps (v_dentries s);
  ok_supers : apart ps (v_supers s);
  ok_mnts : apart ps (v_mounts s)
}.

(** Every object of [m'] is one of [m], unchanged, or in one of the pages [ps]. *)
Definition adds {A} (ps : list Z) (m m' : gmap Z A) : Prop :=
  m ⊆ m' /\ forall p x, m' !! p = Some x -> m !! p = None -> (p / 4096) ∈ ps.

Definition globals (s : vst FS) : Z * Z * Z * Z := (g_fs_types s, g_mounts s, g_root_mnt s, g_root_dent s).

(** Objects may be added in pages of [ps], nothing else changes but superblocks. *)
Record adds_only (ps : list Z) (s s' : vst FS) : Prop := {
  ao_inodes : adds ps (v_inodes s) (v_inodes s');
  ao_dentries : adds ps (v_dentries s) (v_dentries s');
  ao_mounts : v_mounts s' = v_mounts s;
  ao_types : v_types s' = v_types s;
  ao_globals : globals s' = globals s
}.

(** Of the superblocks only [sb] may change, and keeps its flags and type. *)
Definition super_only (sb : Z) (s s' : vst FS) : Prop :=
  delete sb (v_supers s') = delete sb (v_supers s) /\
  forall x, v_supers s !! sb = Some x ->
    exists x', v_supers s' !! sb = Some x' /\ sb_flags x' = sb_flags x /\ sb_type x' = sb_type x.

(** [root] is a new dentry for a directory of [sb]. *)
Definition root_of (sb root : Z) (s s' : vst FS) : Prop :=
  root <> 0 /\ v_dentries s !! root = None /\ exists d i, v_dentries s' !! root = Some d /\ d_is_mountpoint d = 0 /\
    d_inode d <> 0 /\ v_inodes s' !! d_inode d = Some i /\ is_dir_mode (i_mode i) = true /\ i_sb i = sb.

(** What [vfs_mount] relies on of the type [t]: [fs_pre dev] is what its
    [mount] needs of the device, [fs_up sb ps] what its [unmount] needs while
    the pages [ps] are free. *)
Class FsType (t : Z) := {
  fs_pre : Z -> FS -> Prop;
  fs_up : Z -> list Z -> vst FS -> Prop;
  fs_mount : Z -> Z -> Z -> V Z;
  fs_mount_at : mount_op (tops_at t) = Some fs_mount;
  fs_mount_law : forall ps ms l sb x dev opts s,
    vfs_ok ps ms l s -> fs_pre dev (v_fs s) -> v_supers s !! sb = Some x ->
    wp (fs_mount sb dev opts) s (fun rc s' =>
      exists qs, vfs_ok qs ms l s' /\ (forall p, p ∈ qs -> p ∈ ps) /\ adds_only ps s s' /\ super_only sb s s' /\
      (0 <= rc -> exists x', v_supers s' !! sb = Some x' /\ root_of sb (sb_root x') s s' /\ fs_up sb qs s'));
  fs_up_pages : forall sb ps qs k s, fs_up sb ps s -> (forall p, p ∈ qs -> p ∈ ps) -> fs_up sb qs (set_vk k s);
  fs_unmount_law : forall u, unmount_op (tops_at t) = Some u -> forall ps ms l sb x s,
    vfs_ok ps ms l s -> v_supers s !! sb = Some x -> fs_up sb ps s ->
    wp (u sb) s (fun _ s' => (exists qs, vfs_ok qs ms l s') /\ adds_only ps s s' /\ super_only sb s s')
}.

(** ** Objects and pages *)

Lemma adds_refl {A} ps (m : gmap Z A) : adds ps m m.
Proof. split; [done|]. intros p x H1 H2. congruence. Qed.

Lemma adds_trans {A} ps qs (m1 m2 m3 : gmap Z A) :
  (forall p, p ∈ qs -> p ∈ ps) -> adds ps m1 m2 -> adds qs m2 m3 -> adds ps m1 m3.
Proof.
  intros Hsub [S1 N1] [S2 N2]. split; [by etrans|]. intros p x Hx Hn. destruct (m2 !! p) as [y|] eqn:E; [by apply (N1 p y)|].
  by apply Hsub, (N2 p x).
Qed.

Lemma adds_only_refl ps s : adds_only ps s s.
Proof. split; try done; apply adds_refl. Qed.

Lemma adds_only_trans ps qs s1 s2 s3 :
  (forall p, p ∈ qs -> p ∈ ps) -> adds_only ps s1 s2 -> adds_only qs s2 s3 -> adds_only ps s1 s3.
Proof.
  intros Hsub [A1 A2 A3 A4 A5] [B1 B2 B3 B4 B5]. split; [by eapply adds_trans|by eapply adds_trans|congruence..].
Qed.

Lemma apart_sub {A} ps qs (m : gmap Z A) : (forall p, p ∈ qs -> p ∈ ps) -> apart ps m -> apart qs m.
Proof. intros Hsub H p x Hx Hin. by apply (H p x Hx), Hsub. Qed.

Lemma apart_cons {A} q ps (m : gmap Z A) : apart [q] m -> apart ps m -> apart (q :: ps) m.
Proof. intros H1 H2 p x Hx [E|Hin]%elem_of_cons; [|by apply (H2 p x)]. apply (H1 p x Hx). rewrite E. by left. Qed.

Lemma apart_adds {A} q ps (m m' : gmap Z A) : adds ps m m' -> (q ∉ ps) -> apart [q] m -> apart [q] m'.
Proof.
  intros [_ N] Hq H p x Hx Hin. destruct (m !! p) as [y|] eqn:E; [by apply (H p y)|].
  apply list_elem_of_singleton in Hin as <-. by apply Hq, (N p x).
Qed.

(** Taking and giving a page. *)
Lemma vfs_ok_pages ps qs ms l s k :
  vfs_ok ps ms l s -> free_pages qs (set_vk k s) -> (forall p, p ∈ qs -> p ∈ ps) -> vfs_ok qs ms l (set_vk k s).
Proof.
  intros [_ [T1 T2 T3] [M1 M2 M3] H1 H2 H3 H4] Hf Hsub. split; [done|by split|by split|by eapply apart_sub..].
Qed.

Lemma take_page_or_not ps ms l s :
  vfs_ok ps ms l s ->
  wp (v_kalloc 1) s (fun b s' => exists k, s' = set_vk k s /\
    ((b = 0 /\ vfs_ok ps ms l s') \/
     (b <> 0 /\ exists qs, borrowed ps b qs /\ vfs_ok qs ms l s'))).
Proof.
  intros Hok. pose proof (ok_pages _ _ _ _ Hok) as Hf. eapply wp_mono; [by apply (take_block ps)|].
  intros b s' (k & -> & _ & H). exists k. split; [done|]. destruct H as [(-> & Hf' & _)|(Hb & qs & Hl & Hf')].
  - left. split; [done|]. by eapply vfs_ok_pages.
  - right. split; [done|]. destruct Hl as ((_ & H0 & Hal & He) & Hp & Hnd). rewrite block_pages_one in Hp.
    exists qs. split; [by split_and!|]. eapply vfs_ok_pages; [exact Hok|done|]. intros p Hin. rewrite Hp. by right.
Qed.

(** The page of [sb] holds nothing but that superblock. *)
Definition alone (sb : Z) (s : vst FS) : Prop :=
  apart [sb / 4096] (v_inodes s) /\ apart [sb / 4096] (v_dentries s) /\ apart [sb / 4096] (v_mounts s) /\
  apart [sb / 4096] (delete sb (v_supers s)).

Lemma alone_adds sb ps s s' : alone sb s -> adds_only ps s s' -> super_only sb s s' -> (sb / 4096 ∉ ps) -> alone sb s'.
Proof.
  intros (A1 & A2 & A3 & A4) [B1 B2 B3 _ _] [D _] Hn. unfold alone. rewrite B3, D. split_and!; [by eapply apart_adds..|done|done].
Qed.
(** ** Undoing *)

Lemma give_super_back sb x ps ms l s :
  vfs_ok ps ms l s -> v_supers s !! sb = Some x -> alone sb s ->
  sb mod 4096 = 0 -> 0 < sb -> sb + 4096 <= 2 ^ 64 ->
  wp (v_kfree sb 1;; destroy v_supers set_supers sb) s (fun _ s' =>
    (exists qs, vfs_ok qs ms l s') /\ adds_only [] s s' /\ v_supers s' = delete sb (v_supers s)).
Proof.
  intros Hok Hx (A1 & A2 & A3 & A4) Hal Hpos Hend. destruct Hok as [Hf [T1 T2 T3] [M1 M2 M3] H1 H2 H3 H4].
  destruct Hf as (qs & Hq & Hi). pose proof (H3 sb x Hx) as Hn. rewrite <- Hq in Hn. wp_step. unfold v_kfree. apply wp_zoom.
  eapply wp_mono; [by apply (free_page qs)|]. intros _ k [Hk _]. unfold destroy. apply wp_modify. split_and!; [|split; done || apply adds_refl|done].
  exists (sb / 4096 :: ps). split; [|by split|by split| | | |].
  - exists (sb / 4096 :: qs). split; [by rewrite Hq|done].
  - by apply apart_cons.
  - by apply apart_cons.
  - apply apart_cons; [done|]. intros p y Hy. apply (H3 p y). cbn in Hy. by apply lookup_delete_Some in Hy as [_ ?].
  - by apply apart_cons.
Qed.

Lemma drop_super_spec t sb unmount x ps ms l s `{!FsType t} :
  vfs_ok ps ms l s -> v_supers s !! sb = Some x -> alone sb s -> (unmount = true -> fs_up sb ps s) ->
  sb mod 4096 = 0 -> 0 < sb -> sb + 4096 <= 2 ^ 64 ->
  wp (drop_super t sb unmount) s (fun _ s' =>
    (exists qs, vfs_ok qs ms l s') /\ adds_only ps s s' /\ v_supers s' = delete sb (v_supers s)).
Proof.
  intros Hok Hx Ha Hup Hal Hpos Hend. unfold drop_super. wp_step.
  assert (wp (if unmount then match unmount_op (tops_at t) with Some op => op sb | None => mret tt end else mret tt) s
    (fun _ s1 => (exists qs, vfs_ok qs ms l s1) /\ adds_only ps s s1 /\ super_only sb s s1)) as H.
  { assert (wp (mret tt : V unit) s (fun _ s1 => (exists qs, vfs_ok qs ms l s1) /\ adds_only ps s s1 /\ super_only sb s s1)) as Hnone.
    { apply wp_ret. split_and!; [by exists ps|apply adds_only_refl|]. split; [done|]. intros y Hy. by exists y. }
    destruct unmount; [|done]. destruct (unmount_op (tops_at t)) as [u|] eqn:Eu; [|done]. eapply fs_unmount_law; [done|done|done|by apply Hup]. }
  eapply wp_mono; [exact H|]. clear H. intros [] s1 ((qs & Hok1) & Had & Hsup).
  assert (alone sb s1) as Ha1 by (eapply alone_adds; [done..|by apply (ok_supers _ _ _ _ Hok sb x)]).
  destruct Hsup as [Hd Hs]. destruct (Hs x Hx) as (x1 & Hx1 & _).
  eapply wp_mono; [by apply (give_super_back sb x1 qs ms l s1)|]. intros [] s2 (Hok2 & Had2 & Hd2).
  split; [done|]. split; [|by rewrite Hd2]. eapply adds_only_trans; [|exact Had|exact Had2]. by intros p ?%elem_of_nil.
Qed.
(** ** Linking the mount in *)

(** The end of [vfs_mount]. *)
Definition link_mount (is_root : bool) (mnt mp flags sb root : Z) : V Z :=
  create v_mounts set_mounts mnt (Mount flags 1 sb 0 root 0);;
  (if is_root then
     mmodify (fun s => set_globals (g_fs_types s) (g_mounts s) mnt root s)
   else
     upd_mount mnt (set_m_mountpoint mp);;
     upd_dentry mp (set_d_mountpoint 1));;
  h ← mgets g_mounts;
  upd_mount mnt (set_m_next h);;
  mmodify (fun s => set_globals (g_fs_types s) mnt (g_root_mnt s) (g_root_dent s) s);;
  mret VFS_OK.

(** The state it leaves; [mp] is 0 for the first root. *)
Definition linked (is_root : bool) (mnt mp flags sb root : Z) (s : vst FS) : vst FS :=
  set_globals (g_fs_types s) mnt (if is_root then mnt else g_root_mnt s) (if is_root then root else g_root_dent s)
    (set_dentries (if is_root then v_dentries s else alter (set_d_mountpoint 1) mp (v_dentries s))
      (set_mounts (<[mnt := Mount flags 1 sb (if is_root then 0 else mp) root (g_mounts s)]> (v_mounts s)) s)).

Lemma link_mount_runs is_root mnt mp flags sb root (s : vst FS) :
  (is_root = false -> is_Some (v_dentries s !! mp)) ->
  wp (link_mount is_root mnt mp flags sb root) s (fun rc s' => rc = VFS_OK /\ s' = linked is_root mnt mp flags sb root s).
Proof.
  intros Hmp. unfold link_mount, linked. wp_step. apply wp_modify. wp_step.
  destruct is_root.
  - wp_step. wp_step. wp_step. wp_step. eapply wp_run; [unfold upd_mount, update; cbn; by rewrite lookup_insert_eq|].
    wp_step. wp_step. wp_step. split; [done|]. unfold set_globals, set_mounts, set_dentries, set_m_next. cbn. by rewrite insert_insert_eq.
  - destruct (Hmp eq_refl) as [d Hd]. wp_step. eapply wp_run; [unfold upd_mount, update; cbn; by rewrite lookup_insert_eq|].
    eapply wp_run; [unfold upd_dentry, update; cbn; by rewrite Hd|].
    wp_step. wp_step. wp_step. eapply wp_run; [unfold upd_mount, update; cbn; by rewrite !insert_insert_eq, lookup_insert_eq|].
    wp_step. wp_step. wp_step. split; [done|]. unfold set_globals, set_mounts, set_dentries, set_m_next, set_m_mountpoint. cbn.
    rewrite !insert_insert_eq. f_equal. symmetry. apply map_eq. intros p.
    rewrite lookup_alter, lookup_insert. destruct (decide (mp = p)) as [<-|]; [by rewrite Hd|done].
Qed.
Lemma olist_some {A} (m : gmap Z A) next p l t : olist m next p l -> t ∈ l -> is_Some (m !! t).
Proof.
  revert p. induction l as [|u l IH]; intros p; [by intros _ ?%elem_of_nil|].
  intros (_ & _ & x & Hx & Hl) [->|Ht]%elem_of_cons; [by exists x|by apply (IH (next x))].
Qed.

Lemma find_mount_by_mountpoint_spec (s : vst FS) ms mp :
  mounts_ok s ms ->
  vfs_find_mount_by_mountpoint mp s = Ok (default 0 (find_obj (v_mounts s) (fun x => m_mountpoint x =? mp) ms), s).
Proof.
  intros [Hl Hlen _]. unfold vfs_find_mount_by_mountpoint, mbind, M_bind, mgets.
  destruct (find_loop_runs v_mounts m_next (fun x => mret (m_mountpoint x =? mp)) (fun x => m_mountpoint x =? mp) id 0
              (g_mounts s) ms s Hl) as (k & Hk & Hr); [done|].
  etrans; [eapply mloop_runs; [exact Hr|lia]|]. by destruct (find_obj _ _ ms).
Qed.

Section Linked.
Context (is_root : bool) (mnt mp flags sb root : Z) (s : vst FS) (qs ms l : list Z).
#[local] Abbreviation s' := (linked is_root mnt mp flags sb root s).
Hypothesis (Hok : vfs_ok qs ms l s) (Hfresh : v_mounts s !! mnt = None) (Hnz : mnt <> 0) (Hpage : mnt / 4096 ∉ qs).
Hypothesis (Hlen : Z.of_nat (length ms) + 1 < 2 ^ 64).
Hypothesis (Hmp : is_root = false -> mp <> 0 /\ exists d, v_dentries s !! mp = Some d /\ is_Some (v_inodes s !! d_inode d)).

Lemma not_root : is_root = false -> (if is_root then 0 else mp) = mp.
Proof. by intros ->. Qed.

Lemma linked_dentry p d : v_dentries s !! p = Some d ->
  exists d', v_dentries s' !! p = Some d' /\ d_inode d' = d_inode d /\
    d_is_mountpoint d' = if negb is_root && (p =? mp) then 1 else d_is_mountpoint d.
Proof.
  clear Hmp. intros Hd. unfold linked. cbn [v_dentries set_globals set_dentries]. destruct is_root; [by exists d|]. rewrite lookup_alter.
  destruct (Z.eqb_spec p mp) as [->|Hne]; cbn [negb andb].
  - rewrite decide_True, Hd by done. eexists. split; [reflexivity|done].
  - rewrite decide_False by done. by exists d.
Qed.

Lemma linked_dentry_inv p d' : v_dentries s' !! p = Some d' -> exists d, v_dentries s !! p = Some d /\ d_inode d = d_inode d'.
Proof.
  clear Hmp. unfold linked. cbn [v_dentries set_globals set_dentries]. destruct is_root; [by exists d'|]. rewrite lookup_alter.
  destruct (decide (mp = p)) as [->|]; [|by exists d']. destruct (v_dentries s !! p) as [d|]; [|done]. intros [= <-]. by exists d.
Qed.

Lemma mount_not_new m : m ∈ ms -> m <> mnt.
Proof. intros Hm ->. destruct (olist_some _ _ _ _ _ (mo_list _ _ (ok_mounts _ _ _ _ Hok)) Hm) as [x Hx]. congruence. Qed.

Lemma linked_mount m : m <> mnt -> v_mounts s' !! m = v_mounts s !! m.
Proof. intros Hne. unfold linked. cbn. by rewrite lookup_insert_ne. Qed.
Lemma linked_new : v_mounts s' !! mnt = Some (Mount flags 1 sb (if is_root then 0 else mp) root (g_mounts s)).
Proof. unfold linked. cbn. by rewrite lookup_insert_eq. Qed.

Lemma linked_ok : vfs_ok qs (mnt :: ms) l s'.
Proof.
  destruct Hok as [Hf [T1 T2 T3] [M1 M2 M3] H1 H2 H3 H4]. split.
  - done.
  - by split.
  - split.
    + split_and!; [done|done|]. eexists. split; [apply linked_new|]. cbn [m_next]. apply (olist_frame (v_mounts s)); [|done].
      intros t Ht. apply linked_mount. by apply mount_not_new.
    + cbn [length]. lia.
    + intros m x [->|Hm]%elem_of_cons Hx Hpt.
      * rewrite linked_new in Hx. injection Hx as <-. cbn [m_mountpoint] in *.
        assert (is_root = false) as Er by (clear Hmp; by destruct is_root).
        rewrite (not_root Er). destruct (Hmp Er) as (_ & d & Hd & Hi). destruct (linked_dentry mp d Hd) as (d' & Hd' & E & _).
        exists d'. split; [done|]. intros _. by rewrite E.
      * rewrite linked_mount in Hx by by apply mount_not_new. destruct (M3 m x Hm Hx Hpt) as (d & Hd & Hi).
        destruct (linked_dentry _ d Hd) as (d' & Hd' & E & _). exists d'. split; [done|]. by rewrite E.
  - done.
  - intros p d' Hd'. destruct (linked_dentry_inv p d' Hd') as (d & Hd & _). by apply (H2 p d).
  - done.
  - intros p x Hx. destruct (decide (p = mnt)) as [->|Hne]; [done|]. rewrite linked_mount in Hx by done. by apply (H4 p x).
Qed.

(** Resolution starts in the new file system when it is the root or covers it. *)
Lemma start_linked d : v_dentries s !! (if is_root then root else mp) = Some d -> (is_root = true -> d_is_mountpoint d = 0) ->
  (is_root = false -> mp = g_root_dent s) -> start_point s' = Ok ((mnt, root), s').
Proof.
  intros Hd H0 Hg. unfold start_point, mbind at 1 2 3, M_bind at 1 2 3, mgets, load.
  destruct (linked_dentry _ d Hd) as (d' & Hd' & _ & Ef).
  assert (g_root_dent s' = if is_root then root else mp) as -> by (clear Hmp; unfold linked; cbn; destruct is_root; [done|by rewrite Hg]).
  rewrite Hd'. rewrite Ef. assert (is_root = true \/ is_root = false) as [Er|Er] by (clear; destruct is_root; [by left|by right]).
  - assert ((negb is_root && ((if is_root then root else mp) =? mp)) = false) as -> by (by rewrite Er).
    rewrite (H0 Er). unfold linked. by rewrite Er.
  - assert ((negb is_root && ((if is_root then root else mp) =? mp)) = true) as -> by (rewrite Er; apply Z.eqb_refl).
    assert ((if is_root then root else mp) = mp) as -> by (by rewrite Er). change (1 =? 0) with false. cbn iota. unfold mbind, M_bind.
    rewrite (find_mount_by_mountpoint_spec _ (mnt :: ms) mp) by apply linked_ok. cbn [find_obj].
    pose proof linked_new as Hn. rewrite (not_root Er) in Hn.
    rewrite Hn. cbn [m_mountpoint]. rewrite Z.eqb_refl. cbn [default from_option id].
    rewrite (proj2 (Z.eqb_neq mnt 0) Hnz), Hn. done.
Qed.

(** A directory that is the mountpoint, under whatever name and inode object,
    leads to the new mount. *)
Lemma crosses_linked d i ino ci : is_root = false -> v_dentries s !! mp = Some d -> d_inode d <> 0 -> v_inodes s !! d_inode d = Some i ->
  ino <> 0 -> v_inodes s !! ino = Some ci -> i_ino ci = i_ino i -> i_sb ci = i_sb i ->
  vfs_find_mount_by_inode ino s' = Ok (mnt, s').
Proof.
  intros Er Hd Hdi Hi Hino Hci E1 E2. destruct (linked_dentry mp d Hd) as (d' & Hd' & Ed & _).
  rewrite (find_mount_by_inode_spec s' (mnt :: ms) ino ci); [|apply linked_ok|done|done]. cbn [find_obj]. rewrite linked_new.
  unfold covers. cbn [m_mountpoint]. rewrite (not_root Er). destruct (Hmp Er) as (Hz & _). rewrite (proj2 (Z.eqb_neq mp 0) Hz). cbn [negb andb].
  rewrite Hd', Ed, (proj2 (Z.eqb_neq _ 0) Hdi). cbn [negb andb].
  replace (v_inodes s' !! d_inode d) with (Some i) by (symmetry; exact Hi). by rewrite E1, E2, !Z.eqb_refl.
Qed.
End Linked.
(** ** The whole call *)

(** The new superblock's page held nothing before. *)
Lemma fresh_super sb x ps qs ms l s k :
  vfs_ok ps ms l s -> borrowed ps sb qs -> vfs_ok qs ms l (set_vk k s) ->
  let s1 := set_supers (<[sb := x]> (v_supers s)) (set_vk k s) in
  vfs_ok qs ms l s1 /\ alone sb s1 /\ v_supers s !! sb = None.
Proof.
  intros Hok (Hp & Hnd & _) [Hf [T1 T2 T3] [M1 M2 M3] H1 H2 H3 H4]. cbv zeta.
  assert (sb / 4096 ∈ ps) as Hin by (rewrite Hp; by left).
  assert (sb / 4096 ∉ qs) as Hout by (rewrite Hp in Hnd; by apply NoDup_cons in Hnd as [? _]).
  assert (forall p, p ∈ [sb / 4096] -> p ∈ ps) as Hsub by (by intros p ->%list_elem_of_singleton).
  assert (v_supers s !! sb = None) as Hnone.
  { destruct (v_supers s !! sb) as [y|] eqn:E; [|done]. by destruct (ok_supers _ _ _ _ Hok sb y E). }
  split_and!; [|split_and!|done].
  - split; [done|by split|by split|done|done| |done]. intros p y Hy. cbn in Hy.
    apply lookup_insert_Some in Hy as [[<- _]|[_ Hy]]; [done|by apply (H3 p y)].
  - apply (apart_sub ps); [done|apply Hok].
  - apply (apart_sub ps); [done|apply Hok].
  - apply (apart_sub ps); [done|apply Hok].
  - cbn. rewrite delete_insert_id by done. apply (apart_sub ps); [done|apply Hok].
Qed.

(** Where [path] leads for a mount: nowhere yet for the first root, else to
    the directory [mp], the lookup ending in the state [s1]. *)
Definition target (s : vst FS) (path : list Z) (is_root : bool) (mp : Z) (s1 : vst FS) : Prop :=
  is_root = is_root_path path && (g_root_mnt s =? 0) /\
  if is_root then mp = 0 /\ s1 = s
  else mp <> 0 /\ exists m d i, vfs_lookup (Some path) s = Ok ((VFS_OK, (m, mp)), s1) /\
    v_dentries s1 !! mp = Some d /\ d_inode d <> 0 /\ v_inodes s1 !! d_inode d = Some i /\ is_dir_mode (i_mode i) = true.

Lemma mount_target_runs s path is_root mp s1 : target s path is_root mp s1 -> mount_target is_root path s = Ok ((VFS_OK, mp), s1).
Proof.
  intros [_ H]. unfold mount_target. destruct is_root; [by destruct H as [-> ->]|].
  destruct H as (Hz & m & d & i & Hl & Hd & Hdi & Hi & Hdir). unfold mbind, M_bind. rewrite Hl. change (VFS_OK <? 0) with false. cbn iota.
  rewrite (proj2 (Z.eqb_neq _ _) Hz). unfold load. rewrite Hd, (proj2 (Z.eqb_neq _ _) Hdi).
  rewrite (vfs_is_dir_spec _ i) by done. by rewrite Hdir.
Qed.

(** The new mount [mnt] of a superblock of type [t] is in force in [s']. *)
Definition in_force (is_root : bool) (t flags mp : Z) (ms l : list Z) (s s' : vst FS) : Prop :=
  exists mnt sb x qs, vfs_ok qs (mnt :: ms) l s' /\ v_mounts s !! mnt = None /\
    v_mounts s' = <[mnt := Mount flags 1 sb (if is_root then 0 else mp) (sb_root x) (g_mounts s)]> (v_mounts s) /\
    v_supers s !! sb = None /\ v_supers s' !! sb = Some x /\ sb_type x = t /\ sb_flags x = flags /\
    root_of sb (sb_root x) s s' /\
    (is_root = true \/ mp = g_root_dent s -> start_point s' = Ok ((mnt, sb_root x), s')) /\
    (is_root = false -> forall d i ino ci, v_dentries s !! mp = Some d -> v_inodes s !! d_inode d = Some i -> ino <> 0 ->
       v_inodes s' !! ino = Some ci -> i_ino ci = i_ino i -> i_sb ci = i_sb i -> vfs_find_mount_by_inode ino s' = Ok (mnt, s')).

(** Nothing is mounted and no superblock is left. *)
Definition without_trace (ps ms l : list Z) (s s' : vst FS) : Prop :=
  (exists qs, vfs_ok qs ms l s') /\ adds_only ps s s' /\ v_supers s' = v_supers s.

Lemma dropped_without_trace ps qs ms l s k sb x s2 s3 :
  (exists rs, vfs_ok rs ms l s3) -> (forall p, p ∈ qs -> p ∈ ps) -> v_supers s !! sb = None ->
  adds_only qs (set_supers (<[sb := x]> (v_supers s)) (set_vk k s)) s2 ->
  super_only sb (set_supers (<[sb := x]> (v_supers s)) (set_vk k s)) s2 ->
  (exists rs, adds_only rs s2 s3 /\ forall p, p ∈ rs -> p ∈ ps) -> v_supers s3 = delete sb (v_supers s2) -> without_trace ps ms l s s3.
Proof.
  intros Hok Hsub Hn Ha [Hd _] (rs & Hb & Hrs) Hsup. split; [done|]. split.
  - apply (adds_only_trans ps rs s s2 s3 Hrs); [|done]. destruct Ha as [[A1 N1] [A2 N2] A3 A4 A5]. split; [split|split|..]; try done.
    + intros p y Hy Hno. by apply Hsub, (N1 p y).
    + intros p y Hy Hno. by apply Hsub, (N2 p y).
  - rewrite Hsup, Hd. cbn. by apply delete_insert_id.
Qed.
(** The end of a successful call, from the state [s2] after the file system's
    own [mount] of the superblock [sb]. *)
Lemma mount_links is_root t flags mp ps ms l s k sb qs s2 rs mnt qs2 k2 x :
  vfs_ok ps ms l s -> Z.of_nat (length ms) + 1 < 2 ^ 64 -> (forall p, p ∈ qs -> p ∈ ps) -> v_supers s !! sb = None ->
  (is_root = false -> mp <> 0 /\ exists d i, v_dentries s !! mp = Some d /\ d_inode d <> 0 /\ v_inodes s !! d_inode d = Some i) ->
  let s1 := set_supers (<[sb := Super flags 1 t 0 0]> (v_supers s)) (set_vk k s) in
  adds_only qs s1 s2 -> super_only sb s1 s2 -> v_supers s2 !! sb = Some x -> root_of sb (sb_root x) s1 s2 ->
  (forall p, p ∈ rs -> p ∈ qs) -> mnt <> 0 -> borrowed rs mnt qs2 -> vfs_ok qs2 ms l (set_vk k2 s2) ->
  wp (link_mount is_root mnt mp flags sb (sb_root x)) (set_vk k2 s2) (fun rc s' => rc = VFS_OK /\ in_force is_root t flags mp ms l s s').
Proof.
  intros Hok Hlen Hsub Hnone Hmp s1 Ha [_ Hsup] Hx (Hrz & Hrn & d & i & Hd & Hflag & Hdi & Hi & Hdir & Hsb) Hsub2 Hz (Hp & Hnd & _) Hok2.
  destruct (Hsup (Super flags 1 t 0 0)) as (x' & Hx' & Ef & Et); [by apply lookup_insert_eq|].
  rewrite Hx in Hx'. injection Hx' as <-. destruct Ha as [[A1 N1] [A2 N2] A3 A4 A5]. injection A5 as _ Eg _ Erd.
  assert (is_root = false -> mp <> 0 /\ exists d i, v_dentries s2 !! mp = Some d /\ d_inode d <> 0 /\ v_inodes s2 !! d_inode d = Some i) as Hmp2.
  { intros Er. destruct (Hmp Er) as (Hm0 & dm & im & Hdm & Hdn & Him). split; [done|]. exists dm, im.
    split_and!; [by apply (lookup_weaken _ _ _ _ Hdm A2)|done|by apply (lookup_weaken _ _ _ _ Him A1)]. }
  assert (v_mounts s !! mnt = None) as Hfresh.
  { destruct (v_mounts s !! mnt) as [y|] eqn:E; [|done]. destruct (ok_mnts _ _ _ _ Hok mnt y E).
    apply Hsub, Hsub2. rewrite Hp. by left. }
  assert (mnt / 4096 ∉ qs2) as Hout by (rewrite Hp in Hnd; by apply NoDup_cons in Hnd as [? _]).
  assert (v_mounts (set_vk k2 s2) !! mnt = None) as Hfresh2 by (cbn; by rewrite A3).
  assert (is_root = false -> mp <> 0 /\ exists d, v_dentries (set_vk k2 s2) !! mp = Some d /\ is_Some (v_inodes (set_vk k2 s2) !! d_inode d)) as Hmp3.
  { intros Er. destruct (Hmp2 Er) as (? & dm & im & ? & _ & ?). split; [done|]. exists dm. split; [done|by exists im]. }
  pose proof (linked_ok is_root mnt mp flags sb (sb_root x) _ qs2 ms l Hok2 Hfresh2 Hz Hout Hlen Hmp3) as Hfin.
  eapply wp_mono; [apply link_mount_runs; intros Er; destruct (Hmp3 Er) as (_ & dm & ? & _); by exists dm|].
  intros rc s' [-> ->]. split; [done|]. exists mnt, sb, x, qs2. split; [exact Hfin|]. split; [done|].
  split; [unfold linked; cbn; by rewrite A3, Eg|]. split; [done|]. split; [exact Hx|]. split; [done|]. split; [done|].
  assert (sb_root x <> mp \/ is_root = true) as Hother.
  { destruct is_root; [by right|left]. intros E. destruct (Hmp eq_refl) as (_ & dm & im & Hdm & _). cbn in Hrn. congruence. }
  split; [|split].
  - split; [done|]. split; [done|].
    destruct (linked_dentry is_root mnt mp flags sb (sb_root x) (set_vk k2 s2) (sb_root x) d Hd) as (d' & Hd' & Edi & Efl).
    exists d', i. rewrite Edi. split; [done|]. split; [|done]. rewrite Efl, Hflag. destruct Hother as [Hne| ->]; [|done].
    rewrite (proj2 (Z.eqb_neq _ _) Hne). by rewrite andb_false_r.
  - intros Hwhere.
    assert (exists d0, v_dentries s2 !! (if is_root then sb_root x else mp) = Some d0 /\ (is_root = true -> d_is_mountpoint d0 = 0)) as (d0 & Hd0 & Hf0).
    { destruct is_root; [by exists d|]. destruct (Hmp2 eq_refl) as (_ & dm & im & Hdm & _). by exists dm. }
    apply (start_linked is_root mnt mp flags sb (sb_root x) _ qs2 ms l Hok2 Hfresh2 Hz Hout Hlen Hmp3 d0 Hd0 Hf0).
    intros Er. destruct Hwhere as [|E]; [congruence|]. cbn. by rewrite Erd.
  - intros Er dm im ino ci Hdm Him Hino Hci E1 E2. destruct (Hmp Er) as (_ & dm0 & im0 & Hdm0 & Hnz & _).
    assert (dm0 = dm) as -> by congruence.
    eapply (crosses_linked is_root mnt mp flags sb (sb_root x) _ qs2 ms l Hok2 Hfresh2 Hz Hout Hlen Hmp3 dm im ino ci Er); try done.
    + by apply (lookup_weaken _ _ _ _ Hdm A2).
    + by apply (lookup_weaken _ _ _ _ Him A1).
Qed.

Lemma vfs_mount_spec name t dev path flags opts ps0 ps ms l s is_root mp s1 `{!FsType t} :
  vfs_ok ps0 ms l s -> find_obj (v_types s) (fun x => name_matches x (Some name)) l = Some t ->
  target s path is_root mp s1 -> vfs_ok ps ms l s1 -> fs_pre dev (v_fs s1) -> Z.of_nat (length ms) + 1 < 2 ^ 64 ->
  wp (vfs_mount_fs (Some name) dev (Some path) flags opts) s (fun rc s' =>
    (rc = VFS_OK /\ in_force is_root t flags mp ms l s1 s') \/ (rc < 0 /\ without_trace ps ms l s1 s')).
Proof.
  intros Hok0 Hfind Htgt Hok Hpre Hlen. unfold vfs_mount_fs. wp_step.
  eapply wp_run; [by apply (find_fs_spec _ _ l), Hok0|]. rewrite Hfind. cbn [default from_option id].
  assert (t <> 0) as Htz.
  { apply find_obj_Some in Hfind as [Hin _]. by apply (olist_nonzero (v_types s) ft_next (g_fs_types s) l); [apply Hok0|]. }
  rewrite (proj2 (Z.eqb_neq _ _) Htz). wp_step. wp_step. wp_step. destruct (proj1 Htgt).
  eapply wp_run; [by apply mount_target_runs|]. cbn beta iota. change (VFS_OK <? 0) with false. cbn iota.
  wp_step. eapply wp_mono; [by apply (take_page_or_not ps ms l)|]. intros sb sa (k & -> & [(-> & Hoka)|(Hsbz & qs & Hbor & Hoka)]).
  { change (0 =? 0) with true. cbn iota. wp_step. right. split; [done|]. split_and!; [by exists ps| |done]. split; done || apply adds_refl. }
  rewrite (proj2 (Z.eqb_neq _ _) Hsbz). wp_step. unfold create at 1. apply wp_modify. rewrite fs_mount_at.
  destruct (fresh_super sb (Super flags 1 t 0 0) ps qs ms l s1 k Hok Hbor Hoka) as (Hok1 & Halone & Hnone).
  set (s2 := set_supers _ _) in *. assert (forall p, p ∈ qs -> p ∈ ps) as Hsub by (intros p Hp; destruct Hbor as (-> & _); by right).
  assert (sb / 4096 ∉ qs) as Hout by (destruct Hbor as (Hp & Hnd & _); rewrite Hp in Hnd; by apply NoDup_cons in Hnd as [? _]).
  assert (v_supers s2 !! sb = Some (Super flags 1 t 0 0)) as Hsup2 by apply lookup_insert_eq.
  destruct Hbor as (_ & _ & Hal & Hpos & Hend).
  wp_step. eapply wp_mono; [apply (fs_mount_law qs ms l sb _ dev opts s2 Hok1 Hpre Hsup2)|].
  intros rc s3 (rs & Hok3 & Hrs & Ha & Hs & Hroot). pose proof (alone_adds _ _ _ _ Halone Ha Hs Hout) as Halone3.
  destruct (proj2 Hs _ Hsup2) as (x & Hx & _). destruct (Z.ltb_spec rc 0) as [Hneg|Hnn].
  { wp_step. eapply wp_mono; [by apply (drop_super_spec t sb false x rs ms l s3)|]. intros [] s4 (Hok4 & Ha4 & Hd4). wp_step.
    right. split; [done|]. apply (dropped_without_trace ps qs ms l s1 k sb (Super flags 1 t 0 0) s3 s4 Hok4 Hsub Hnone Ha Hs); [|done]. exists rs. auto. }
  destruct (Hroot Hnn) as (x' & Hx' & Hro & Hup). assert (x' = x) as -> by congruence. pose proof Hro as (Hrz & _ & d & i & Hd & _ & Hdi & _).
  wp_step. eapply wp_run; [unfold load; by rewrite Hx|]. rewrite (proj2 (Z.eqb_neq _ _) Hrz). wp_step. wp_step.
  eapply wp_run; [unfold load; by rewrite Hd|]. wp_step. rewrite (proj2 (Z.eqb_neq _ _) Hdi). cbn [negb].
  wp_step. eapply wp_mono; [by apply (take_page_or_not rs ms l)|]. intros mnt sm (k2 & -> & [(-> & Hokm)|(Hmz & qs2 & Hbor2 & Hokm)]).
  { change (0 =? 0) with true. cbn iota. wp_step. eapply wp_mono; [by apply (drop_super_spec t sb true x rs ms l (set_vk k2 s3)); try done; intros _; apply (fs_up_pages sb rs)|].
    intros [] s4 (Hok4 & Ha4 & Hd4). wp_step. right. split; [done|].
    apply (dropped_without_trace ps qs ms l s1 k sb (Super flags 1 t 0 0) (set_vk k2 s3) s4 Hok4 Hsub Hnone); [|exact Hs| |done]; [|exists rs; auto].
    destruct Ha. by split. }
  rewrite (proj2 (Z.eqb_neq _ _) Hmz).
  eapply wp_mono; [apply (mount_links is_root t flags mp ps ms l s1 k sb qs s3 rs mnt qs2 k2 x); try done|].
  - intros Er. destruct Htgt as [_ H]. rewrite Er in H. destruct H as (Hz & m & dd & ii & _ & H1 & H2 & H3 & _). split; [done|]. by exists dd, ii.
  - intros rc' s' [-> H]. by left.
Qed.

(** C30: A mount takes effect or leaves no trace.  For a registered type and a
    directory the path leads to (or "/" when nothing is mounted), on a device the type
    can work with, [vfs_mount] returns; on success the new mount is the first of the list, its root is a
    directory of the new superblock, resolution starts there if it is the
    first root or covers the root, and every directory inode with the
    mountpoint's number and superblock leads into it; on an error the mounts,
    the superblocks and the globals are as before the call. *)
Theorem vfs_mount_takes_effect name t dev path flags opts ps0 ps ms l s is_root mp s1 `{!FsType t} :
  vfs_ok ps0 ms l s -> find_obj (v_types s) (fun x => name_matches x (Some name)) l = Some t ->
  target s path is_root mp s1 -> vfs_ok ps ms l s1 -> fs_pre dev (v_fs s1) -> Z.of_nat (length ms) + 1 < 2 ^ 64 ->
  wp (vfs_mount_fs (Some name) dev (Some path) flags opts) s (fun rc s' =>
    (rc = VFS_OK /\ in_force is_root t flags mp ms l s1 s') \/ (rc < 0 /\ without_trace ps ms l s1 s')).
Proof. intros Hok0 Hfind Htgt Hok Hpre Hlen. eapply vfs_mount_spec; [exact Hok0|exact Hfind|exact Htgt|exact Hok|exact Hpre|exact Hlen]. Qed.

(** ** File systems whose [mount] only makes a root directory *)

(** The inode [ino] and a dentry for it, made the root of [sb] by [f]. *)
Definition mount_dir (ino : vfs_inode) (f : Z -> vfs_superblock -> vfs_superblock) (sb : Z) : V Z :=
  v ← (v ← v_kalloc 1; if v =? 0 then mret 0 else create v_inodes set_inodes v ino;; mret v);
  if v =? 0 then mret VFS_ENOMEM
  else
    r ← v_kalloc 1;
    if r =? 0 then v_kfree v 1;; destroy v_inodes set_inodes v;; mret VFS_ENOMEM
    else
      create v_dentries set_dentries r (Dentry 1 [SLASH] v 0 0 0);;
      upd_super sb (f r);;
      mret VFS_OK.

Lemma adds_insert {A} ps (m : gmap Z A) p x : (p / 4096) ∈ ps -> m !! p = None -> adds ps m (<[p := x]> m).
Proof.
  intros Hp Hn. split; [by apply insert_subseteq|]. intros q y Hq Hq2. destruct (decide (p = q)) as [<-|Hne]; [done|].
  rewrite lookup_insert_ne in Hq by done. congruence.
Qed.

Lemma apart_insert {A} ps (m : gmap Z A) p x : (p / 4096 ∉ ps) -> apart ps m -> apart ps (<[p := x]> m).
Proof. intros Hp H q y [[<- _]|[_ Hy]]%lookup_insert_Some; [done|by apply (H q y)]. Qed.

Lemma apart_fresh {A} ps (m : gmap Z A) p : (p / 4096) ∈ ps -> apart ps m -> m !! p = None.
Proof. intros Hp H. destruct (m !! p) as [x|] eqn:E; [|done]. by destruct (H p x E). Qed.

(** A new inode and a new dentry, and a superblock changed. *)
Lemma vfs_ok_inode ps ms l s v i : vfs_ok ps ms l s -> (v / 4096 ∉ ps) -> v_inodes s !! v = None ->
  vfs_ok ps ms l (set_inodes (<[v := i]> (v_inodes s)) s).
Proof.
  intros [Hf [T1 T2 T3] [M1 M2 M3] H1 H2 H3 H4] Hp Hn. split; [done|by split| |by apply apart_insert|done..].
  split; [done|done|]. intros m x Hm Hx Hpt. destruct (M3 m x Hm Hx Hpt) as (d & Hd & Hi). exists d. split; [done|].
  intros Hdi. destruct (Hi Hdi) as [y Hy]. exists y. cbn. rewrite lookup_insert_ne; [done|congruence].
Qed.
Lemma vfs_ok_dentry ps ms l s r d : vfs_ok ps ms l s -> (r / 4096 ∉ ps) -> v_dentries s !! r = None ->
  vfs_ok ps ms l (set_dentries (<[r := d]> (v_dentries s)) s).
Proof.
  intros [Hf [T1 T2 T3] [M1 M2 M3] H1 H2 H3 H4] Hp Hn. split; [done|by split| |done|by apply apart_insert|done..].
  split; [done|done|]. intros m x Hm Hx Hpt. destruct (M3 m x Hm Hx Hpt) as (y & Hy & Hi). exists y. split; [|done].
  cbn. rewrite lookup_insert_ne; [done|congruence].
Qed.
Lemma vfs_ok_super ps ms l s sb x y : vfs_ok ps ms l s -> v_supers s !! sb = Some x ->
  vfs_ok ps ms l (set_supers (<[sb := y]> (v_supers s)) s).
Proof.
  intros [Hf [T1 T2 T3] [M1 M2 M3] H1 H2 H3 H4] Hx. split; [done|by split|by split|done|done| |done].
  apply apart_insert; [by apply (H3 sb x)|done].
Qed.

Lemma mount_dir_law ino f (up : list Z -> vst FS -> Prop) ps ms l sb x s :
  (forall qs s', up qs s') ->
  is_dir_mode (i_mode ino) = true -> i_sb ino = sb ->
  (forall r y, sb_root (f r y) = r /\ sb_flags (f r y) = sb_flags y /\ sb_type (f r y) = sb_type y) ->
  vfs_ok ps ms l s -> v_supers s !! sb = Some x ->
  wp (mount_dir ino f sb) s (fun rc s' =>
    exists qs, vfs_ok qs ms l s' /\ (forall p, p ∈ qs -> p ∈ ps) /\ adds_only ps s s' /\ super_only sb s s' /\
    (0 <= rc -> exists x', v_supers s' !! sb = Some x' /\ root_of sb (sb_root x') s s' /\ up qs s')).
Proof.
  intros Hup Hdir Hsb Hf Hok Hx. unfold mount_dir.
  assert (forall k, adds_only ps s (set_vk k s)) as Hsame by (intros k; split; done || apply adds_refl).
  assert (forall k, super_only sb s (set_vk k s)) as Hsame2 by (intros k; split; [done|]; intros y Hy; by exists y).
  wp_step. wp_step. eapply wp_mono; [by apply (take_page_or_not ps ms l)|]. intros v sv (k & -> & [(-> & Hokv)|(Hv & qs & Hbor & Hokv)]).
  { change (0 =? 0) with true. cbn iota. wp_step. change (0 =? 0) with true. cbn iota. wp_step.
    exists ps. split; [done|]. split; [done|]. split; [apply Hsame|]. split; [apply Hsame2|]. by intros []. }
  rewrite (proj2 (Z.eqb_neq _ _) Hv). wp_step. unfold create at 1. apply wp_modify. wp_step. rewrite (proj2 (Z.eqb_neq _ _) Hv).
  pose proof Hbor as (Hp & Hnd & Hal & Hpos & Hend). rewrite Hp in Hnd. apply NoDup_cons in Hnd as [Hvq _].
  assert (v / 4096 ∈ ps) as Hvp by (rewrite Hp; by left).
  assert (forall p, p ∈ qs -> p ∈ ps) as Hsub by (intros p Hin; rewrite Hp; by right).
  pose proof (apart_fresh _ _ _ Hvp (ok_inodes _ _ _ _ Hok)) as Hvn.
  pose proof (vfs_ok_inode qs ms l _ v ino Hokv Hvq Hvn) as Hok1. cbn [v_inodes set_vk] in *.
  wp_step. eapply wp_mono; [by apply (take_page_or_not qs ms l)|]. intros r sr (k2 & -> & [(-> & Hokr)|(Hr & qs2 & Hbor2 & Hokr)]).
  - change (0 =? 0) with true. cbn iota. wp_step. eapply wp_mono; [apply (give_page ps v qs); [apply Hokr|done]|].
    intros [] s2 (k3 & -> & Hf3 & _). wp_step. unfold destroy. apply wp_modify. wp_step.
    assert (set_inodes (delete v (<[v := ino]> (v_inodes s))) (set_vk k3 s) = set_vk k3 s) as E.
    { rewrite delete_insert_id by done. done. }
    cbn [v_inodes set_inodes set_vk]. change (set_inodes _ _) with (set_inodes (delete v (<[v := ino]> (v_inodes s))) (set_vk k3 s)).
    rewrite E. exists ps. split; [by eapply vfs_ok_pages|]. split; [done|]. split; [apply Hsame|]. split; [apply Hsame2|]. by intros [].
  - rewrite (proj2 (Z.eqb_neq _ _) Hr). wp_step. unfold create at 1. apply wp_modify. cbn [v_dentries set_inodes set_vk].
    destruct Hbor2 as (Hp2 & Hnd2 & _). assert (r / 4096 ∈ ps) as Hrp by (apply Hsub; rewrite Hp2; by left).
    rewrite Hp2 in Hnd2. apply NoDup_cons in Hnd2 as [Hrq _].
    pose proof (apart_fresh _ _ _ Hrp (ok_dentries _ _ _ _ Hok)) as Hrn.
    pose proof (vfs_ok_dentry qs2 ms l _ r (Dentry 1 [SLASH] v 0 0 0) Hokr Hrq Hrn) as Hok2. cbn [v_dentries set_inodes set_vk] in Hok2.
    wp_step. eapply wp_run; [unfold upd_super, update; cbn; by rewrite Hx|].
    wp_step. destruct (Hf r x) as (F1 & F2 & F3). exists qs2. split; [exact (vfs_ok_super qs2 ms l _ sb x (f r x) Hok2 Hx)|]. split; [|split; [|split]].
    + intros p Hin. apply Hsub. rewrite Hp2. by right.
    + split; try done; [by apply adds_insert|by apply adds_insert].
    + split; [cbn; by rewrite delete_insert_eq|]. intros y Hy. exists (f r x). assert (y = x) as -> by congruence. cbn. by rewrite lookup_insert_eq.
    + intros _. exists (f r x). cbn. split; [by rewrite lookup_insert_eq|]. rewrite F1. split; [|apply Hup]. split; [done|]. split; [done|].
      exists (Dentry 1 [SLASH] v 0 0 0), ino. cbn. rewrite !lookup_insert_eq. done.
Qed.
End Mounting.

(** ** The two file systems without a disk *)

Section Types.
Context {FS : Type} `{PA : PageAllocator} `{VO : VfsOps FS}.

Lemma initfs_mount_makes_root iops sb dev opts :
  initfs_mount_fs iops sb dev opts = mount_dir (FS := FS) (Inode 1 (Z.lor VFS_S_IFDIR 493) 1 sb iops 0 0) set_sb_root sb.
Proof. reflexivity. Qed.

#[export, refine] Instance initfs_type t iops (Ht : tops_at t = initfs_tops iops) : FsType (FS := FS) t := {
  fs_pre := fun _ _ => True;
  fs_up := fun _ _ _ => True;
  fs_mount := initfs_mount_fs iops
}.
Proof.
  - by rewrite Ht.
  - intros ps ms l sb x dev opts s Hok _ Hx. rewrite initfs_mount_makes_root. by apply (mount_dir_law _ _ (fun _ _ => True)) with (x := x).
  - done.
  - intros u. by rewrite Ht.
Defined.

Lemma devfs_mount_makes_root iops fops sb dev opts :
  devfs_mount_fs iops fops sb dev opts =
  mount_dir (FS := FS) (Inode 1 (Z.lor VFS_S_IFDIR 493) 1 sb iops fops 0)
    (fun r x => Super (sb_flags x) (sb_refcnt x) (sb_type x) r 0) sb.
Proof. reflexivity. Qed.

#[export, refine] Instance devfs_type t iops fops (Ht : tops_at t = devfs_tops iops fops) : FsType (FS := FS) t := {
  fs_pre := fun _ _ => True;
  fs_up := fun _ _ _ => True;
  fs_mount := devfs_mount_fs iops fops
}.
Proof.
  - by rewrite Ht.
  - intros ps ms l sb x dev opts s Hok _ Hx. rewrite devfs_mount_makes_root. by apply (mount_dir_law _ _ (fun _ _ => True)) with (x := x).
  - done.
  - intros u. rewrite Ht. intros [= <-] ps ms l sb x s Hok Hx _. apply wp_ret.
    split_and!; [by exists ps|apply adds_only_refl|]. split; [done|]. intros y Hy. by exists y.
Defined.
End Types.

(** ** Witness *)

(** "initfs" is registered and nothing mounted. *)
#[local] Instance boot_ops : VfsOps initfs_state := {
  iops_at := fun _ => initfs_iops (fun st => st) (fun x _ => x) 1;
  fops_at := fun _ => Fops None None None None None;
  tops_at := fun _ => initfs_tops 1
}.

#[local] Instance boot_type : FsType (FS := initfs_state) 61440 := initfs_type 61440 1 eq_refl.

Definition demo_types : vst initfs_state :=
  Vst demo_kst ∅ ∅ ∅ ∅ ∅ {[ 61440 := Fs_type (Some [105; 110; 105; 116; 102; 115]) 0 ]} 61440 0 0 0 initfs_start.

Lemma demo_types_ok : vfs_ok demo_pages [] [61440] demo_types.
Proof.
  split.
  - exists demo_pages. split; [done|apply demo_inv].
  - split; [|by_decide|done]. split_and!; [done|done|]. by eexists.
  - split; [done|done|]. by intros m x ?%elem_of_nil.
  - by intros p x Hx.
  - by intros p x Hx.
  - by intros p x Hx.
  - by intros p x Hx.
Qed.

Lemma vfs_mount_takes_effect_witness :
  wp (vfs_mount_fs (Some [105; 110; 105; 116; 102; 115]) 0 (Some [SLASH]) 0 0) demo_types (fun rc s' =>
    (rc = VFS_OK /\ in_force true 61440 0 0 [] [61440] demo_types s') \/
    (rc < 0 /\ without_trace demo_pages [] [61440] demo_types s')).
Proof.
  apply (vfs_mount_takes_effect [105; 110; 105; 116; 102; 115] 61440 0 [SLASH] 0 0 demo_pages demo_pages [] [61440]
    demo_types true 0 demo_types).
  - apply demo_types_ok.
  - by vm_compute.
  - by vm_compute.
  - apply demo_types_ok.
  - exact I.
  - done.
Defined.
