(* ===== verification/Ext2Mount.v ===== *)
(** * Mounting an ext2 volume (src/src/kernel/ext2.c)

    [ext2_mount_fs] on a working device that holds a volume: the superblock and
    the group descriptors are read, the private data say what they say, and the
    root directory is inode 2.  Without enough pages every page is given back.
    This makes ext2 a file system that vfs_mount can rely on. *)
From S2P Require Import Prelude KMem Spinlock BuddySpec Buddy PageAlloc KString Vfs Scratch Ext2 Mounting.

#[local] Open Scope Z_scope.

(** ** What a volume says *)

(** The superblock, at byte 1024. *)
Definition volume_super (ss : Z) (sectors : Z -> list Z) : ext2_superblock :=
  decode_superblock (image sectors (1024 / ss) (1024 / ss)).

Definition group_count (esb : ext2_superblock) : Z :=
  (es_total_blocs esb + es_block_per_group esb - 1) / es_block_per_group esb.

Definition base_priv (dev : Z) (esb : ext2_superblock) : ext2_priv :=
  Ext2_priv dev (1024 * 2 ^ es_block_size esb) (es_block_per_group esb) (es_inodes_per_group esb)
    (if 1 <=? es_version_high esb then es_inode_size esb else 128) (group_count esb)
    (if 1 <=? es_version_high esb then es_first_inode esb else 11) 0 0 [].

(** The first [n] blocks from [blk] on. *)
Definition blocks_from (p : ext2_priv) (ss : Z) (sectors : Z -> list Z) (blk n : Z) : list Z :=
  concat (disk_block p ss sectors <$> seqZ blk n).

(** The buffer of [size] bytes after [n] blocks of the table of [bytes] bytes
    were copied. *)
Definition table_after (p : ext2_priv) (ss : Z) (sectors : Z -> list Z) (blk bytes size n : Z) : list Z :=
  take (Z.to_nat bytes) (blocks_from p ss sectors blk n) ++
  replicate (Z.to_nat (size - Z.min bytes (n * p_block_size p))) 0.

Definition table_block (p : ext2_priv) : Z := if p_block_size p =? 1024 then 2 else 1.
Definition table_bytes (p : ext2_priv) : Z := p_num_groups p * 32.
Definition table_pages (p : ext2_priv) : Z := Z.max 1 ((table_bytes p + 4095) / 4096).
Definition table_blocks (p : ext2_priv) : Z := (table_bytes p + p_block_size p - 1) / p_block_size p.

(** The private data of a mount, the table at address [a]. *)
Definition volume_priv (dev ss : Z) (sectors : Z -> list Z) (a : Z) : ext2_priv :=
  let p := base_priv dev (volume_super ss sectors) in
  set_bgdt a (table_pages p)
    (table_after p ss sectors (table_block p) (table_bytes p) (table_pages p * 4096) (table_blocks p)) p.

(** Where the table lies in memory plays no part in where inodes are. *)
Lemma has_inode_at p a a' n b ino : has_inode (set_bgdt a n b p) ino <-> has_inode (set_bgdt a' n b p) ino.
Proof. split; intros [H1 H2 H3 H4 H5 H6]; by split. Qed.
Lemma inode_of_at p a a' n b ss sectors ino :
  inode_of (set_bgdt a n b p) ss sectors ino = inode_of (set_bgdt a' n b p) ss sectors ino.
Proof. done. Qed.

(** ** Pages on loan *)

Section Loans.
Context {FS : Type} `{PA : PageAllocator}.

Definition loan_pages (l : Z * Z) : list Z := block_pages (order_of l.1, l.2).
Definition loan_ok (l : Z * Z) : Prop := 0 < l.1 <= 2048 /\ wf_block (order_of l.1, l.2).

(** Of the pages [ps] those of the loans [H], pages and address, are taken. *)
Definition lent (ps : list Z) (H : list (Z * Z)) (s : vst FS) : Prop :=
  exists qs, ps ≡ₚ concat (loan_pages <$> H) ++ qs /\ NoDup ps /\ Forall loan_ok H /\ free_pages qs s.

Lemma lent_start ps (s : vst FS) : free_pages ps s -> lent ps [] s.
Proof.
  intros Hf. exists ps. split_and!; [done| |constructor|done]. destruct Hf as (qs & <- & Hi). by eapply pa_inv_nodup.
Qed.

Lemma lent_end ps (s : vst FS) : lent ps [] s -> free_pages ps s.
Proof. intros (qs & Hp & _ & _ & rs & Hr & Hi). exists rs. split; [|done]. by rewrite Hr, Hp. Qed.

Lemma lent_state ps H (s : vst FS) s' : v_k s' = v_k s -> lent ps H s -> lent ps H s'.
Proof. intros E (qs & H1 & H2 & H3 & rs & Hr & Hi). exists qs. split_and!; try done. exists rs. by rewrite E. Qed.

Lemma lent_perm ps H H' (s : vst FS) : H ≡ₚ H' -> lent ps H s -> lent ps H' s.
Proof. intros E (qs & H1 & H2 & H3 & H4). exists qs. split_and!; [by rewrite <- E|done|by rewrite <- E|done]. Qed.

Lemma lent_take ps H n (s : vst FS) : lent ps H s -> 0 < n <= 2048 ->
  wp (v_kalloc n) s (fun b s' => (exists k, s' = set_vk k s) /\
    ((b = 0 /\ lent ps H s') \/ (b <> 0 /\ lent ps ((n, b) :: H) s'))).
Proof.
  intros (qs & Hp & Hnd & Hok & Hf) Hn. eapply wp_mono; [by apply (take_block qs)|].
  intros b s' (k & -> & _ & [(-> & Hf' & _)|(Hb & rs & (Hw & Hq & _) & Hf')]); (split; [by exists k|]).
  - left. split; [done|]. by exists qs.
  - right. split; [done|]. exists rs. split_and!; [|done|by constructor|done].
    cbn [fmap list_fmap concat]. rewrite Hp, Hq. unfold loan_pages. cbn [fst snd].
    rewrite !app_assoc. apply Permutation_app_tail, Permutation_app_comm.
Qed.

Lemma lent_give ps H H' n b (s : vst FS) : lent ps H s -> H ≡ₚ (n, b) :: H' ->
  wp (v_kfree b n) s (fun _ s' => (exists k, s' = set_vk k s) /\ lent ps H' s').
Proof.
  intros Hl E. apply (lent_perm _ _ _ _ E) in Hl as (qs & Hp & Hnd & ((Hn & Hw) & Hok)%Forall_cons & Hf).
  cbn [fst snd] in *. assert (ps ≡ₚ concat (loan_pages <$> H') ++ loan_pages (n, b) ++ qs) as Hp'.
  { rewrite Hp. cbn [fmap list_fmap concat]. rewrite !app_assoc. apply Permutation_app_tail, Permutation_app_comm. }
  assert (NoDup (loan_pages (n, b) ++ qs)) as Hnd'.
  { rewrite Hp' in Hnd. by apply NoDup_app in Hnd as (_ & _ & ?). }
  eapply wp_mono; [by apply (give_block (loan_pages (n, b) ++ qs) n b qs)|].
  intros _ s' (k & -> & Hf' & _). split; [by exists k|]. by exists (loan_pages (n, b) ++ qs).
Qed.
End Loans.

(** ** Reading the group descriptors *)

Section Table.
Context {FS : Type} `{PA : PageAllocator}.
Context (get_ext : FS -> ext2_state).
Context (blk_read : Z -> Z -> Z -> list Z -> M (vst FS) (Z * list Z)) (dev_sector_size : Z -> M (vst FS) Z).
Context (ready : FS -> Prop).

(** No object of the virtual file system and nothing of ext2's has changed. *)
Definition near (s s' : vst FS) : Prop :=
  exists k f, s' = set_fs f (set_vk k s) /\ get_ext f = get_ext (v_fs s) /\ ready f.

Lemma near_refl s : ready (v_fs s) -> near s s.
Proof. intros H. exists (v_k s), (v_fs s). by rewrite set_fs_vk. Qed.
Lemma near_page s s1 k : near s s1 -> near s (set_vk k s1).
Proof. intros (k0 & f & -> & E & H). by exists k, f. Qed.
Lemma near_ready s s1 : near s s1 -> ready (v_fs s1).
Proof. by intros (k & f & -> & _ & H). Qed.
Lemma near_device s s1 s2 : near s s1 -> only_device get_ext ready s1 s2 -> near s s2.
Proof. intros (k & f & -> & E & _) (g & -> & E2 & H). exists k, g. cbn in *. split_and!; [done|congruence|done]. Qed.
Lemma device_lent ps H s1 s2 : only_device get_ext ready s1 s2 -> lent ps H s1 -> lent ps H s2.
Proof. intros (f & -> & _). by apply lent_state. Qed.

Context (p : ext2_priv) (ss : Z) (sectors : Z -> list Z).
Context (MO : mount_ok get_ext blk_read dev_sector_size ready p ss sectors).
#[local] Abbreviation bs := (p_block_size p).
#[local] Abbreviation block := (disk_block p ss sectors).
Context (blk bytes size : Z).
Hypothesis (Hblk : 0 <= blk) (Hbytes : 0 <= bytes <= size) (Hend : blk + bytes < 2 ^ 32) (Hsize : size < 2 ^ 63).
#[local] Abbreviation after := (table_after p ss sectors blk bytes size).

Lemma blocks_snoc n : 0 <= n -> blocks_from p ss sectors blk (n + 1) = blocks_from p ss sectors blk n ++ block (blk + n).
Proof.
  intros Hn. unfold blocks_from. rewrite seqZ_app, fmap_app, concat_app by lia. f_equal.
  rewrite (seqZ_cons (blk + n)), seqZ_nil by lia. cbn. by rewrite app_nil_r.
Qed.

Lemma blocks_length n : 0 <= n -> Z.of_nat (length (blocks_from p ss sectors blk n)) = n * bs.
Proof.
  intros Hn. rewrite <- (Z2Nat.id n) by done. generalize (Z.to_nat n). clear Hn n. intros n. induction n as [|n IH]; [done|].
  rewrite Nat2Z.inj_succ, <- Z.add_1_r, blocks_snoc, length_app, Nat2Z.inj_add, IH by lia.
  rewrite (block_length _ _ _ _ _ _ _ MO). lia.
Qed.

(** The buffer after one more block. *)
Lemma after_next n : 0 <= n -> n * bs < bytes ->
  let copy := Z.min bs (bytes - n * bs) in
  take (Z.to_nat (n * bs)) (after n) ++ take (Z.to_nat copy) (block (blk + n)) ++
    drop (Z.to_nat (n * bs) + Z.to_nat copy) (after n) = after (n + 1).
Proof.
  intros Hn Hlt copy. pose proof (mnt_bs _ _ _ _ _ _ _ MO) as Hbs. pose proof (blocks_length n Hn) as Hl.
  pose proof (block_length _ _ _ _ _ _ _ MO (blk + n)) as Hb. unfold table_after.
  rewrite blocks_snoc by done. rewrite (take_ge (blocks_from p ss sectors blk n)) by lia.
  rewrite take_app_length' by lia. rewrite take_app_ge by lia. rewrite <- !app_assoc. f_equal.
  rewrite Z.min_r by lia. f_equal.
  - unfold copy. destruct (Z.leb_spec bs (bytes - n * bs)).
    + rewrite !take_ge by lia. done.
    + rewrite Z.min_r by lia. f_equal. lia.
  - rewrite drop_app_ge by lia. rewrite drop_replicate. f_equal. lia.
Qed.

Lemma bgdt_step_run ps H s0 s i :
  near s0 s -> lent ps H s -> 0 <= i -> i * bs < bytes ->
  wp (bgdt_step blk_read dev_sector_size p blk bytes i (after i)) s (fun r s' =>
    near s0 s' /\ lent ps H s' /\ (r = None \/ r = Some (after (i + 1)))).
Proof.
  intros Hn Hl Hi Hlt. pose proof (mnt_bs _ _ _ _ _ _ _ MO) as Hbs. unfold bgdt_step. wp_step.
  eapply wp_mono; [by apply (lent_take ps H)|]. intros tmp s1 [[k ->] [[-> Hl1]|[Htmp Hl1]]].
  { change (0 =? 0) with true. cbn iota. wp_step. split; [by apply near_page|]. split; [done|by left]. }
  rewrite (proj2 (Z.eqb_neq _ _) Htmp). wp_step. rewrite u32_small by nia.
  eapply wp_mono; [eapply (read_block_run _ _ _ _ _ _ _ MO); [by eapply near_ready, near_page|nia|by unfold new_page; rewrite length_replicate]|].
  intros r s2 [-> Hd]. cbn [snd]. cbv zeta. rewrite !u64_small by nia.
  assert ((if bytes <? i * bs + bs then bytes - i * bs else bs) = Z.min bs (bytes - i * bs)) as ->
    by (destruct (Z.ltb_spec bytes (i * bs + bs)); lia).
  pose proof (block_length _ _ _ _ _ _ _ MO (blk + i)) as Hb. pose proof (block_page _ _ _ _ _ _ _ MO (blk + i)) as Hpg.
  wp_step. eapply wp_run; [apply page_slice_run; lia|]. rewrite drop_0, take_app_le by lia.
  wp_step. unfold paste.
  assert (Z.of_nat (length (after i)) = size) as Hlen.
  { unfold table_after. rewrite length_app, length_take, length_replicate. pose proof (blocks_length i Hi). lia. }
  rewrite length_take, Hlen.
  assert ((0 <=? i * bs) && (i * bs + Z.of_nat (Z.to_nat (Z.min bs (bytes - i * bs)) `min` length (block (blk + i))) <=? size) = true) as ->.
  { apply andb_true_intro. split; apply Z.leb_le; nia. }
  replace (Z.to_nat (Z.min bs (bytes - i * bs)) `min` length (block (blk + i)))%nat with (Z.to_nat (Z.min bs (bytes - i * bs))) by lia.
  rewrite after_next by done. wp_step. wp_step.
  eapply wp_mono; [apply (lent_give ps ((1, tmp) :: H) H); [by eapply device_lent|done]|]. intros _ s3 [[k3 ->] Hl3]. wp_step.
  split; [|split; [done|by right]]. apply near_page. eapply near_device; [by apply near_page|done].
Qed.

Lemma read_bgdt_run ps H s0 s i n :
  near s0 s -> lent ps H s -> 0 <= i -> (i + Z.of_nat n - 1) * bs < bytes ->
  wp (read_bgdt blk_read dev_sector_size p blk bytes i n (after i)) s (fun r s' =>
    near s0 s' /\ lent ps H s' /\ (r = None \/ r = Some (after (i + Z.of_nat n)))).
Proof.
  pose proof (mnt_bs _ _ _ _ _ _ _ MO) as Hbs. revert i s. induction n as [|n IH]; intros i s Hn Hl Hi Hlt; cbn [read_bgdt].
  - wp_step. rewrite Z.add_0_r. split; [done|]. split; [done|by right].
  - wp_step. eapply wp_mono; [apply (bgdt_step_run ps H s0 s i Hn Hl Hi); nia|].
    intros r s1 (Hn1 & Hl1 & [->| ->]).
    + wp_step. split; [done|]. split; [done|by left].
    + eapply wp_mono; [apply (IH (i + 1)); [done|done|lia|]|]; [nia|]. intros r s2 H2.
      by replace (i + Z.of_nat (S n)) with (i + 1 + Z.of_nat n) by lia.
Qed.
End Table.

(** ** The root directory *)

Section Root.
Context {FS : Type} `{PA : PageAllocator}.
Context (get_ext : FS -> ext2_state) (set_ext : ext2_state -> FS -> FS).
Context (blk_read : Z -> Z -> Z -> list Z -> M (vst FS) (Z * list Z)) (dev_sector_size : Z -> M (vst FS) Z).
Context (ext2_inode_ops ext2_file_ops : Z) (ready : FS -> Prop).
(** The device's readiness is not part of what ext2 keeps. *)
Hypothesis (Hget : forall x f, get_ext (set_ext x f) = x) (Hready : forall x f, ready f -> ready (set_ext x f)).
Context (p : ext2_priv) (ss : Z) (sectors : Z -> list Z).
Context (MO : mount_ok get_ext blk_read dev_sector_size ready p ss sectors).
#[local] Abbreviation near := (near get_ext ready).
#[local] Abbreviation V := (M (vst FS)).

Lemma lent_in ps H (s : vst FS) b : lent ps ((1, b) :: H) s -> (b / 4096) ∈ ps.
Proof. intros (qs & Hp & _). rewrite Hp. cbn [fmap list_fmap concat app]. by left. Qed.

Lemma read_inode_lent ps H s0 s ino : near s0 s -> lent ps H s -> has_inode p ino ->
  wp (ext2_read_inode blk_read dev_sector_size p ino) s (fun r s' =>
    near s0 s' /\ lent ps H s' /\ (r = (0, Some (inode_of p ss sectors ino)) \/ r = (-1, None))).
Proof.
  intros Hn (qs & Hp & Hnd & Hok & Hf) Hi. destruct qs as [|q qs].
  - pose proof Hi as [Hpos Hipg [His1 His2] Hgrp _ _]. pose proof (mnt_bs _ _ _ _ _ _ _ MO) as Hbs.
    unfold ext2_read_inode, udiv, umod. rewrite (proj2 (Z.eqb_neq ino 0)) by lia.
    rewrite !(proj2 (Z.eqb_neq (p_inodes_per_group p) 0)), !(proj2 (Z.eqb_neq (p_block_size p) 0)) by lia.
    assert (0 <= (ino - 1) / p_inodes_per_group p) by (apply Z.div_pos; lia).
    wp_step. wp_step. wp_step. wp_step. wp_step. unfold page_le at 1. wp_step.
    unfold ext2_bgd_bytes, bgd_inode_table. eapply wp_run; [apply page_slice_run; lia|]. wp_step.
    wp_step. wp_step. wp_step. wp_step. wp_step. eapply wp_mono; [by apply (take_block [] 1)|].
    intros b s1 (k & -> & _ & [(-> & Hf1 & _)|(_ & rs & (_ & Hq & _) & _)]).
    + change (0 =? 0) with true. cbn iota. wp_step. split; [by apply near_page|]. split; [by exists []|by right].
    + rewrite block_pages_one in Hq. by apply Permutation_nil_cons in Hq.
  - eapply wp_mono; [eapply (read_inode_run get_ext blk_read dev_sector_size ready p ss sectors MO (q :: qs) (fun _ => False) s); try done|].
    + apply calm_refl; [|done]. split; [done|]. by eapply near_ready.
    + intros r s1 [-> (k & f & -> & [E R] & Hf1 & _)]. split; [|split; [by exists (q :: qs)|by left]].
      destruct Hn as (k0 & f0 & -> & E0 & _). exists k, f. cbn in *. split_and!; [done|congruence|done].
Qed.

(** What a failed mount leaves: the superblock's private pointer at most. *)
Definition unmounted (sb : Z) (s s' : vst FS) : Prop :=
  exists k f x x', v_supers s !! sb = Some x /\ sb_flags x' = sb_flags x /\ sb_type x' = sb_type x /\
    s' = set_fs f (set_vk k (set_supers (<[sb := x']> (v_supers s)) s)).

(** What a successful one leaves, beside the loans [H]. *)
Record root_mounted (sb priv : Z) (ps : list Z) (H : list (Z * Z)) (s s' : vst FS) (root v copy : Z) : Prop := {
  rm_ptrs : root <> 0 /\ v <> 0;
  rm_pages : lent ps ((1, root) :: (1, v) :: (1, copy) :: H) s';
  rm_inodes : v_inodes s' = <[v := Inode EXT2_ROOT_INO (ext2_vfs_mode (ei_mode (inode_of p ss sectors EXT2_ROOT_INO)))
                                     1 sb ext2_inode_ops ext2_file_ops copy]> (v_inodes s);
  rm_dentries : v_dentries s' = <[root := Dentry 1 [SLASH] v 0 0 0]> (v_dentries s);
  rm_super : exists x, v_supers s !! sb = Some x /\
    v_supers s' = <[sb := Super (sb_flags x) (sb_refcnt x) (sb_type x) root priv]> (v_supers s);
  rm_mounts : v_mounts s' = v_mounts s;
  rm_types : v_types s' = v_types s;
  rm_globals : globals s' = globals s;
  rm_copies : e_inodes (get_ext (v_fs s')) = <[copy := inode_of p ss sectors EXT2_ROOT_INO]> (e_inodes (get_ext (v_fs s)));
  rm_ready : ready (v_fs s')
}.

(** Giving the private data back. *)
Lemma free_priv_run ps priv a n (s : vst FS) : lent ps [(n, a); (1, priv)] s ->
  wp (free_priv get_ext set_ext priv a n) s (fun _ s' => (exists k f, s' = set_fs f (set_vk k s)) /\ lent ps [] s').
Proof.
  intros Hl. unfold free_priv. wp_step. eapply wp_mono; [by eapply lent_give|]. intros _ s1 [[k1 ->] Hl1].
  wp_step. eapply wp_mono; [by eapply lent_give|]. intros _ s2 [[k2 ->] Hl2].
  unfold priv_drop, upd_ext. apply wp_modify. split; [by exists k2; eexists|exact Hl2].
Qed.

Lemma make_inode_run ps H sb ino ei (s : vst FS) : lent ps H s -> apart ps (v_inodes s) ->
  wp (ext2_make_vfs_inode get_ext set_ext ext2_inode_ops ext2_file_ops sb ino ei) s (fun v s' =>
    (v = 0 /\ lent ps H s' /\ exists k f, s' = set_fs f (set_vk k s)) \/
    (v <> 0 /\ v_inodes s !! v = None /\ exists copy k f, lent ps ((1, v) :: (1, copy) :: H) s' /\
       s' = set_inodes (<[v := Inode ino (ext2_vfs_mode (ei_mode ei)) 1 sb ext2_inode_ops ext2_file_ops copy]> (v_inodes s))
              (set_fs f (set_vk k s)) /\
       (ready (v_fs s) -> ready f) /\ e_privs (get_ext f) = e_privs (get_ext (v_fs s)) /\
       e_inodes (get_ext f) = <[copy := ei]> (e_inodes (get_ext (v_fs s))))).
Proof.
  intros Hl Hap. unfold ext2_make_vfs_inode. wp_step.
  eapply wp_mono; [by apply (lent_take ps H 1)|]. intros copy s1 [[k1 ->] [[-> Hl1]|[Hc Hl1]]].
  { change (0 =? 0) with true. cbn iota. wp_step. left. split; [done|]. split; [done|]. exists k1, (v_fs s). by destruct s. }
  rewrite (proj2 (Z.eqb_neq _ _) Hc). wp_step. unfold ei_set, upd_ext. apply wp_modify. cbn beta.
  wp_step. eapply wp_mono; [apply (lent_take ps ((1, copy) :: H) 1); [by eapply lent_state|done]|].
  intros v s2 [[k2 ->] [[-> Hl2]|[Hv Hl2]]].
  - change (0 =? 0) with true. cbn iota. wp_step. eapply wp_mono; [by eapply lent_give|]. intros _ s3 [[k3 ->] Hl3].
    wp_step. unfold ei_drop, upd_ext. apply wp_modify. wp_step. left. split; [done|]. split; [exact Hl3|].
    by exists k3; eexists.
  - rewrite (proj2 (Z.eqb_neq _ _) Hv). wp_step. unfold create. apply wp_modify. wp_step. right. split; [done|].
    split; [by apply (apart_fresh ps); [by eapply lent_in|]|]. exists copy, k2. eexists. split; [exact Hl2|]. split; [reflexivity|].
    cbn. rewrite Hget. split; [apply Hready|done].
Qed.
Lemma ei_drop_run c (s : vst FS) : wp (ei_drop get_ext set_ext c) s (fun _ s' => exists f, s' = set_fs f s).
Proof. unfold ei_drop, upd_ext. apply wp_modify. by eexists. Qed.

(** Giving back an inode just made. *)
Lemma drop_inode_run {A} ps H v ino (s : vst FS) (rest : V A) Q :
  lent ps ((1, v) :: (1, i_priv ino) :: H) s -> v_inodes s !! v = Some ino ->
  (forall k f, lent ps H (set_inodes (delete v (v_inodes s)) (set_fs f (set_vk k s))) ->
     wp rest (set_inodes (delete v (v_inodes s)) (set_fs f (set_vk k s))) Q) ->
  wp (i ← load v_inodes v; v_kfree (i_priv i) 1;; ei_drop get_ext set_ext (i_priv i);; v_kfree v 1;;
      destroy v_inodes set_inodes v;; rest) s Q.
Proof.
  intros Hl Hv HQ. wp_step. eapply wp_run; [unfold load; by rewrite Hv|].
  wp_step. eapply wp_mono; [eapply (lent_give ps _ ((1, v) :: H)); [exact Hl|apply Permutation_swap]|]. intros _ s1 [[k1 ->] Hl1].
  wp_step. eapply wp_mono; [apply ei_drop_run|]. intros _ s2 [f ->].
  wp_step. eapply wp_mono; [eapply (lent_give ps _ H); [by eapply lent_state; [|exact Hl1]|reflexivity]|]. intros _ s3 [[k3 ->] Hl3].
  wp_step. unfold destroy. apply wp_modify. cbn [v_inodes set_fs set_vk]. apply (HQ k3 f). by eapply lent_state; [|exact Hl3].
Qed.

Lemma unmounted_intro sb x x' k f (s : vst FS) : v_supers s !! sb = Some x -> sb_flags x' = sb_flags x -> sb_type x' = sb_type x ->
  unmounted sb s (set_fs f (set_vk k (set_supers (<[sb := x']> (v_supers s)) s))).
Proof. intros. by exists k, f, x, x'. Qed.

Lemma mount_root_run ps priv sb x (s : vst FS) :
  let H := [(p_bgdt_pages p, p_bgdt p); (1, priv)] in
  lent ps H s -> v_supers s !! sb = Some x -> ready (v_fs s) -> has_inode p EXT2_ROOT_INO ->
  apart ps (v_inodes s) -> apart ps (v_dentries s) ->
  wp (mount_root get_ext set_ext blk_read dev_sector_size ext2_inode_ops ext2_file_ops sb priv p) s (fun rc s' =>
    (rc < 0 /\ lent ps [] s' /\ unmounted sb s s') \/
    (rc = VFS_OK /\ e_privs (get_ext (v_fs s')) = e_privs (get_ext (v_fs s)) /\
     exists root v copy, root_mounted sb priv ps H s s' root v copy)).
Proof.
  intros H Hl Hx Hr Hi Ha1 Ha2. unfold mount_root. wp_step. eapply wp_run; [unfold upd_super, update; by rewrite Hx|].
  set (x1 := Super (sb_flags x) (sb_refcnt x) (sb_type x) (sb_root x) priv).
  set (s1 := set_supers (<[sb := x1]> (v_supers s)) s).
  wp_step. eapply wp_mono; [apply (read_inode_lent ps H s1 s1); [by apply near_refl|by eapply lent_state|done]|].
  intros r s2 ((k2 & f2 & -> & E2 & R2) & Hl2 & [->| ->]).
  2: { wp_step. eapply wp_mono; [by apply free_priv_run|]. intros _ s3 [(k3 & f3 & ->) Hl3]. wp_step. left.
    split; [done|]. split; [done|]. by apply (unmounted_intro sb x x1). }
  cbn iota. wp_step. eapply wp_mono; [by apply (make_inode_run ps H)|].
  intros v s3 [(-> & Hl3 & k3 & f3 & ->)|(Hv & Hvn & copy & k3 & f3 & Hl3 & -> & R3 & P3 & C3)].
  { change (0 =? 0) with true. cbn iota. wp_step. eapply wp_mono; [by apply free_priv_run|]. intros _ s4 [(k4 & f4 & ->) Hl4].
    wp_step. left. split; [done|]. split; [done|]. by apply (unmounted_intro sb x x1). }
  rewrite (proj2 (Z.eqb_neq _ _) Hv). cbn [v_inodes set_fs set_vk set_supers s1 v_fs] in *.
  set (ino := Inode _ _ _ _ _ _ copy) in *.
  wp_step. eapply wp_mono; [by eapply (lent_take ps)|]. intros root s4 [[k4 ->] [[-> Hl4]|[Hroot Hl4]]].
  - change (0 =? 0) with true. cbn iota.
    eapply (drop_inode_run ps H v ino); [exact Hl4|by apply lookup_insert_eq|]. intros k5 f5 Hl5. cbn [v_inodes set_inodes set_vk] in Hl5 |- *.
    rewrite delete_insert_id in Hl5 |- * by done. wp_step.
    eapply wp_mono; [by apply (free_priv_run ps)|]. intros _ s7 [(k7 & f7 & ->) Hl7]. wp_step.
    left. split; [done|]. split; [done|]. by apply (unmounted_intro sb x x1).
  - rewrite (proj2 (Z.eqb_neq _ _) Hroot). wp_step. unfold create. apply wp_modify. wp_step.
    assert (v_dentries s !! root = None) as Hrn by (apply (apart_fresh ps); [by eapply lent_in|done]).
    eapply wp_run; [unfold upd_super, update; cbn; by rewrite lookup_insert_eq|].
    wp_step. unfold klog_line, upd_ext. apply wp_modify. wp_step. right. split; [done|]. split; [cbn; rewrite Hget; cbn; by rewrite P3, E2|]. exists root, v, copy.
    split; cbn; rewrite ?Hget; cbn; try done.
    + exists x. split; [done|]. by rewrite insert_insert_eq.
    + by rewrite C3, E2.
    + apply Hready. by apply R3.
Qed.
End Root.

(** ** The whole mount *)

Section Mount.
Context {FS : Type} `{PA : PageAllocator}.
Context (get_ext : FS -> ext2_state) (set_ext : ext2_state -> FS -> FS).
Context (blk_read : Z -> Z -> Z -> list Z -> M (vst FS) (Z * list Z)) (dev_sector_size : Z -> M (vst FS) Z).
Context (ext2_inode_ops ext2_file_ops : Z) (ready : FS -> Prop).
Hypothesis (Hget : forall x f, get_ext (set_ext x f) = x) (Hready : forall x f, ready f -> ready (set_ext x f)).
#[local] Abbreviation near := (near get_ext ready).

(** The device [dev] works and holds a volume: sectors that divide the
    superblock, the signature, block sizes up to a page, descriptors that fit
    one allocation, and a root directory inside its tables. *)
Record ext2_volume (dev ss : Z) (sectors : Z -> list Z) : Prop := {
  vol_null : dev <> 0;
  vol_dev : device_ok get_ext blk_read dev_sector_size ready dev ss sectors;
  vol_ss : 0 < ss /\ 1024 mod ss = 0;
  vol_signature : es_signature (volume_super ss sectors) = EXT2_SIGNATURE;
  vol_block : es_block_size (volume_super ss sectors) <= 2;
  vol_groups : 0 < es_block_per_group (volume_super ss sectors) /\
    es_total_blocs (volume_super ss sectors) + es_block_per_group (volume_super ss sectors) - 1 < 2 ^ 32;
  vol_table : table_bytes (base_priv dev (volume_super ss sectors)) <= 2048 * 4096;
  vol_root : has_inode (volume_priv dev ss sectors 0) EXT2_ROOT_INO;
  vol_root_dir : is_dir_mode (ext2_vfs_mode (ei_mode (inode_of (volume_priv dev ss sectors 0) ss sectors EXT2_ROOT_INO))) = true
}.

Lemma le_range b n off : 0 <= n -> Forall (fun x => 0 <= x < 256) b -> 0 <= le n b off < 256 ^ n.
Proof.
  intros Hn Hb. unfold le. pose proof (le_val_range (take (Z.to_nat n) (drop (Z.to_nat off) b))) as H.
  destruct H as [H1 H2]; [by apply Forall_take, Forall_drop|]. split; [done|]. eapply Z.lt_le_trans; [exact H2|].
  apply Z.pow_le_mono_r; [lia|]. rewrite length_take. lia.
Qed.

Lemma le_app a b n off : 0 <= n -> 0 <= off -> off + n <= Z.of_nat (length a) -> le n (a ++ b) off = le n a off.
Proof. intros. unfold le. rewrite take_drop_app; [done|lia]. Qed.

Lemma decode_super_app a b : length a = 1024%nat -> decode_superblock (a ++ b) = decode_superblock a.
Proof. intros Ha. unfold decode_superblock. by rewrite !le_app by lia. Qed.

Section Volume.
Context (dev ss : Z) (sectors : Z -> list Z) (VOL : ext2_volume dev ss sectors).
#[local] Abbreviation esb := (volume_super ss sectors).
#[local] Abbreviation base := (base_priv dev esb).

Lemma super_bytes : Forall (fun x => 0 <= x < 256) (image sectors (1024 / ss) (1024 / ss)).
Proof.
  unfold image. apply Forall_concat, Forall_fmap, Forall_forall. intros x _. cbn.
  by destruct (dev_sectors _ _ _ _ _ _ _ (vol_dev _ _ _ VOL) x).
Qed.

Lemma base_blocks : p_block_size base = 1024 \/ p_block_size base = 2048 \/ p_block_size base = 4096.
Proof.
  pose proof (vol_block _ _ _ VOL) as H. assert (0 <= es_block_size esb) as H0 by (apply le_range; [done|apply super_bytes]).
  cbn [base_priv p_block_size]. assert (es_block_size esb = 0 \/ es_block_size esb = 1 \/ es_block_size esb = 2) as [->|[->| ->]] by lia; auto.
Qed.

Lemma base_ok : mount_ok get_ext blk_read dev_sector_size ready base ss sectors.
Proof.
  destruct (vol_ss _ _ _ VOL) as [Hss Hd]. split; [apply VOL|done|apply base_blocks|].
  apply Z_div_exact_2 in Hd; [|lia]. cbn [base_priv p_block_size]. set (k := 2 ^ _). clearbody k. set (q := 1024 / ss) in *. clearbody q.
  transitivity (q * k * ss mod ss); [|apply Z.mod_mul; lia]. f_equal. transitivity (ss * q * k); [by rewrite <- Hd|ring].
Qed.

Lemma volume_ok a : mount_ok get_ext blk_read dev_sector_size ready (volume_priv dev ss sectors a) ss sectors.
Proof. destruct base_ok as [H1 H2 H3 H4]. by split. Qed.

Lemma volume_root a : has_inode (volume_priv dev ss sectors a) EXT2_ROOT_INO.
Proof. exact (proj1 (has_inode_at _ 0 a _ _ _) (vol_root _ _ _ VOL)). Qed.

Lemma volume_root_dir a :
  is_dir_mode (ext2_vfs_mode (ei_mode (inode_of (volume_priv dev ss sectors a) ss sectors EXT2_ROOT_INO))) = true.
Proof.
  pose proof (vol_root_dir _ _ _ VOL) as H. unfold volume_priv in *. cbv zeta in *. rewrite (inode_of_at _ a 0). exact H.
Qed.

Lemma table_facts : 0 <= table_bytes base <= table_pages base * 4096 /\ 0 < table_pages base <= 2048 /\
  (table_blocks base - 1) * p_block_size base < table_bytes base /\ 0 <= table_blocks base /\ 0 <= p_num_groups base < 2 ^ 32.
Proof.
  pose proof (vol_table _ _ _ VOL) as Ht. destruct (vol_groups _ _ _ VOL) as [Hg1 Hg2].
  assert (0 <= es_total_blocs esb) as H0 by (apply le_range; [done|apply super_bytes]). pose proof base_blocks as Hb.
  assert (0 <= p_num_groups base) as Hn by (cbn [base_priv p_num_groups]; apply Z.div_pos; lia).
  unfold table_blocks, table_pages, table_bytes in *. set (n := p_num_groups base) in *. clearbody n.
  destruct Hb as [E|[E|E]]; rewrite E; clear -Ht Hn; split_and!; Z.to_euclidean_division_equations; lia.
Qed.

Lemma super_priv_run (s : vst FS) : super_priv dev esb s = Ok (base, s).
Proof.
  pose proof base_blocks as Hb. destruct (vol_groups _ _ _ VOL) as [Hg1 Hg2]. pose proof (vol_block _ _ _ VOL) as H2.
  assert (0 <= es_total_blocs esb) as H0 by (apply le_range; [done|apply super_bytes]).
  unfold super_priv. rewrite (proj2 (Z.leb_gt 32 (es_block_size esb))) by lia. unfold mbind, M_bind, udiv. cbn [mret M_ret].
  rewrite (proj2 (Z.eqb_neq (es_block_per_group esb) 0)) by lia. cbn [base_priv p_block_size] in Hb. rewrite (u32_small (1024 * _)) by lia.
  by rewrite u32_small by lia.
Qed.
End Volume.
Lemma near_unmounted sb x (s s' : vst FS) : v_supers s !! sb = Some x -> near s s' -> unmounted sb s s'.
Proof.
  intros Hx (k & f & -> & _). exists k, f, x, x. split_and!; [done..|]. unfold set_supers. rewrite insert_id by done. by destruct s.
Qed.

(** Giving back what was taken before the table could be read. *)
Lemma give_two {A} ps s0 s n1 b1 n2 b2 (rest : M (vst FS) A) Q : near s0 s -> lent ps [(n1, b1); (n2, b2)] s ->
  (forall s', near s0 s' -> lent ps [] s' -> wp rest s' Q) -> wp (v_kfree b1 n1;; v_kfree b2 n2;; rest) s Q.
Proof.
  intros Hn Hl HQ. wp_step. eapply wp_mono; [by eapply lent_give|]. intros _ s1 [[k1 ->] Hl1].
  wp_step. eapply wp_mono; [by eapply lent_give|]. intros _ s2 [[k2 ->] Hl2]. apply HQ; [|done]. by apply near_page, near_page.
Qed.

(** What a mounted volume looks like, relative to the state before. *)
Definition volume_mounted (dev ss : Z) (sectors : Z -> list Z) (sb : Z) (ps : list Z) (s s' : vst FS) : Prop :=
  exists priv a root v copy, let p := volume_priv dev ss sectors a in
    root_mounted get_ext ext2_inode_ops ext2_file_ops ready p ss sectors sb priv ps [(p_bgdt_pages p, a); (1, priv)] s s' root v copy /\
    priv <> 0 /\ e_privs (get_ext (v_fs s')) !! priv = Some p.

(** From the superblock on. *)
Lemma volume_mount_run dev ss sectors ps sb x raw priv s0 s :
  ext2_volume dev ss sectors -> near s0 s -> lent ps [(1, priv); (1, raw)] s -> priv <> 0 -> v_supers s0 !! sb = Some x ->
  apart ps (v_inodes s0) -> apart ps (v_dentries s0) ->
  let esb := volume_super ss sectors in
  wp (p ← super_priv dev esb;
      let bgdt_block := if p_block_size p =? 1024 then 2 else 1 in
      let bgdt_bytes := u32 (p_num_groups p * ext2_bgd_bytes) in
      let pages := u32 (bgdt_bytes + PAGE_SIZE - 1) / PAGE_SIZE in
      let bgdt_pages := if pages =? 0 then 1 else pages in
      bgdt ← v_kalloc bgdt_pages;
      if bgdt =? 0 then v_kfree raw 1;; v_kfree priv 1;; mret VFS_ENOMEM
      else
        bgdt_blks ← udiv (u32 (bgdt_bytes + p_block_size p - 1)) (p_block_size p);
        t ← read_bgdt blk_read dev_sector_size p bgdt_block bgdt_bytes 0 (Z.to_nat bgdt_blks) (replicate (Z.to_nat (bgdt_pages * PAGE_SIZE)) 0);
        match t with
        | None => v_kfree bgdt bgdt_pages;; v_kfree raw 1;; v_kfree priv 1;; mret VFS_ENOMEM
        | Some tbl =>
            v_kfree raw 1;;
            let p := set_bgdt bgdt bgdt_pages tbl p in
            priv_set get_ext set_ext priv p;;
            mount_root get_ext set_ext blk_read dev_sector_size ext2_inode_ops ext2_file_ops sb priv p
        end) s (fun rc s' =>
    (rc < 0 /\ lent ps [] s' /\ unmounted sb s0 s') \/ (rc = VFS_OK /\ volume_mounted dev ss sectors sb ps s0 s')).
Proof.
  intros VOL Hn Hl Hpriv Hx Ha1 Ha2. cbv zeta. wp_step. eapply wp_run; [by apply super_priv_run|]. cbv zeta.
  pose proof (table_facts _ _ _ VOL) as ([Hb1 Hb2] & [Hp1 Hp2] & Ht1 & Ht2 & Hg).
  pose proof (base_blocks _ _ _ VOL) as Hbs. set (p := base_priv dev (volume_super ss sectors)) in *.
  change ext2_bgd_bytes with 32. change PAGE_SIZE with 4096 in *. fold (table_bytes p) (table_block p).
  rewrite (u32_small (table_bytes p)) by lia. rewrite (u32_small (table_bytes p + 4096 - 1)) by lia.
  assert ((if (table_bytes p + 4096 - 1) / 4096 =? 0 then 1 else (table_bytes p + 4096 - 1) / 4096) = table_pages p) as ->.
  { unfold table_pages. replace (table_bytes p + 4096 - 1) with (table_bytes p + 4095) by lia.
    assert (0 <= (table_bytes p + 4095) / 4096) by (apply Z.div_pos; lia). destruct (Z.eqb_spec ((table_bytes p + 4095) / 4096) 0); lia. }
  wp_step. eapply wp_mono; [by apply (lent_take ps _ (table_pages p) s Hl)|]. intros a s1 [[k1 ->] [[-> Hl1]|[Ha Hl1]]].
  { change (0 =? 0) with true. cbn iota. apply (lent_perm _ _ [(1, raw); (1, priv)]) in Hl1; [|apply Permutation_swap].
    apply (give_two ps s0 _ 1 raw 1 priv); [by apply near_page|done|]. intros s2 Hn2 Hl2. wp_step.
    left. split; [done|]. split; [done|]. by eapply near_unmounted. }
  rewrite (proj2 (Z.eqb_neq _ _) Ha). wp_step. unfold udiv. rewrite (proj2 (Z.eqb_neq (p_block_size p) 0)) by lia. wp_step.
  rewrite u32_small by lia. fold (table_blocks p).
  assert (replicate (Z.to_nat (table_pages p * 4096)) 0 =
    table_after p ss sectors (table_block p) (table_bytes p) (table_pages p * 4096) 0) as ->.
  { unfold table_after, blocks_from. rewrite seqZ_nil by lia. cbn [fmap list_fmap concat]. rewrite take_nil. cbn [app]. f_equal. lia. }
  wp_step. assert (0 <= table_block p <= 2) as Hblk by (unfold table_block; case_match; lia).
  eapply wp_mono; [apply (read_bgdt_run get_ext blk_read dev_sector_size ready p ss sectors (base_ok _ _ _ VOL) (table_block p)
    (table_bytes p) (table_pages p * 4096)) with (s0 := s0);
    [lia|lia|lia|by apply near_page|exact Hl1|done|rewrite Z2Nat.id; lia]|].
  intros t s2 (Hn2 & Hl2 & [->| ->]).
  { wp_step. eapply wp_mono; [by eapply lent_give|]. intros _ s3 [[k3 ->] Hl3].
    apply (lent_perm _ _ [(1, raw); (1, priv)]) in Hl3; [|apply Permutation_swap].
    apply (give_two ps s0 _ 1 raw 1 priv); [by apply near_page|done|]. intros s4 Hn4 Hl4. wp_step.
    left. split; [done|]. split; [done|]. by eapply near_unmounted. }
  rewrite Z.add_0_l, Z2Nat.id by lia. wp_step.
  eapply wp_mono; [eapply (lent_give ps _ [(table_pages p, a); (1, priv)] 1 raw); [exact Hl2|]|].
  { etrans; [apply perm_skip, Permutation_swap|apply Permutation_swap]. }
  intros _ s3 [[k3 ->] Hl3].
  change (set_bgdt a (table_pages p) _ p) with (volume_priv dev ss sectors a). apply (near_page _ _ _ _ k3) in Hn2.
  wp_step. unfold priv_set, upd_ext. apply wp_modify. cbn beta.
  destruct Hn2 as (k4 & f4 & E4 & G4 & R4). rewrite E4 in Hl3 |- *. cbn [v_fs set_fs]. set (f5 := set_ext _ f4).
  eapply wp_mono; [apply (mount_root_run get_ext set_ext blk_read dev_sector_size ext2_inode_ops ext2_file_ops ready Hget Hready
    (volume_priv dev ss sectors a) ss sectors (volume_ok _ _ _ VOL a) ps priv sb x (set_fs f5 (set_fs f4 (set_vk k4 s0))))|];
    [by eapply lent_state; [|exact Hl3]|exact Hx|by apply Hready|by apply volume_root|exact Ha1|exact Ha2|].
  intros rc s5 [(Hrc & Hl5 & Hu)|(-> & Ep & root & v & copy & Hm)].
  - left. split; [done|]. split; [done|]. destruct Hu as (k & f & y & y' & Hy & F1 & F2 & ->). by exists k, f, y, y'.
  - right. split; [done|]. exists priv, a, root, v, copy. cbv zeta. split; [|split; [done|]].
    + destruct Hm as [M1 M2 M3 M4 M5 M6 M7 M8 M9 M10]. split; try done. rewrite M9. cbn [v_fs set_fs]. unfold f5. rewrite Hget. cbn. by rewrite G4.
    + rewrite Ep. cbn [v_fs set_fs]. unfold f5. rewrite Hget. apply lookup_insert_eq.
Qed.
Lemma ext2_mount_run dev ss sectors ps sb x opts s :
  ext2_volume dev ss sectors -> free_pages ps s -> ready (v_fs s) -> v_supers s !! sb = Some x ->
  apart ps (v_inodes s) -> apart ps (v_dentries s) ->
  wp (ext2_mount_fs get_ext set_ext blk_read dev_sector_size ext2_inode_ops ext2_file_ops sb dev opts) s (fun rc s' =>
    (rc < 0 /\ lent ps [] s' /\ unmounted sb s s') \/ (rc = VFS_OK /\ volume_mounted dev ss sectors sb ps s s')).
Proof.
  intros VOL Hf Hr Hx Ha1 Ha2. pose proof (vol_dev _ _ _ VOL) as Hdev. destruct (vol_ss _ _ _ VOL) as [Hss Hdiv].
  apply Z_div_exact_2 in Hdiv; [|lia]. assert (0 < 1024 / ss) as Hlba by nia.
  unfold ext2_mount_fs. rewrite (proj2 (Z.eqb_neq dev 0)) by apply VOL.
  wp_step. eapply wp_run; [apply (dev_size _ _ _ _ _ _ _ Hdev)|].
  wp_step. eapply (wp_run _ (1024 / ss)); [unfold udiv; rewrite (proj2 (Z.eqb_neq ss 0)) by lia; reflexivity|].
  cbv zeta. rewrite (proj2 (Z.eqb_neq (1024 / ss) 0)) by lia.
  wp_step. eapply wp_mono; [apply (lent_take ps [] 1 s); [by apply lent_start|done]|]. intros raw s1 [[k1 ->] [[-> Hl1]|[Hraw Hl1]]].
  { change (0 =? 0) with true. cbn iota. wp_step. left. split; [done|]. split; [done|]. by eapply near_unmounted, near_page, near_refl. }
  rewrite (proj2 (Z.eqb_neq _ _) Hraw). wp_step.
  eapply wp_mono; [apply (dev_read _ _ _ _ _ _ _ Hdev); [done|lia|done|unfold new_page; rewrite length_replicate; lia]|].
  intros r s2 [-> Hd]. cbn [fst snd Z.eqb negb].
  assert (near s s2) as Hn2 by (eapply near_device; [|exact Hd]; by apply near_page, near_refl).
  assert (lent ps [(1, raw)] s2) as Hl2 by (by eapply device_lent).
  rewrite decode_super_app.
  2: { apply Nat2Z.inj. rewrite (image_length _ _ _ _ (base_priv dev (volume_super ss sectors)) ss sectors (base_ok _ _ _ VOL)) by lia. lia. }
  fold (volume_super ss sectors). rewrite (vol_signature _ _ _ VOL), Z.eqb_refl. cbn [negb].
  wp_step. eapply wp_mono; [by apply (lent_take ps _ 1 s2 Hl2)|]. intros priv s3 [[k3 ->] [[-> Hl3]|[Hpriv Hl3]]].
  { change (0 =? 0) with true. cbn iota. wp_step. eapply wp_mono; [by eapply lent_give|]. intros _ s4 [[k4 ->] Hl4]. wp_step.
    left. split; [done|]. split; [done|]. by eapply near_unmounted, near_page, near_page. }
  rewrite (proj2 (Z.eqb_neq _ _) Hpriv). eapply volume_mount_run; try done. by apply near_page.
Qed.

End Mount.

(** ** What vfs_mount relies on *)

Lemma vfs_ok_grown {FS} `{PA : PageAllocator} ps qs ms l (s s' : vst FS) :
  vfs_ok ps ms l s -> adds_only ps s s' -> free_pages qs s' ->
  apart qs (v_inodes s') -> apart qs (v_dentries s') -> apart qs (v_supers s') -> (forall p, p ∈ qs -> p ∈ ps) ->
  vfs_ok qs ms l s'.
Proof.
  intros [_ [T1 T2 T3] [M1 M2 M3] _ _ _ H4] [[A1 _] [A2 _] A3 A4 A5] Hf H1 H2 H3 Hsub. injection A5 as E1 E2 E3 E4.
  split; [done|split; [by rewrite A4, E1|done..]| |done..|rewrite A3; by eapply apart_sub].
  split; [by rewrite A3, E2|done|]. intros m x Hm Hx Hp. rewrite A3 in Hx. destruct (M3 m x Hm Hx Hp) as (d & Hd & Hi).
  exists d. split; [by eapply lookup_weaken|]. intros Hn. destruct (Hi Hn) as [i Hi']. exists i. by eapply lookup_weaken.
Qed.

Section Interface.
Context {FS : Type} `{PA : PageAllocator} `{VO : VfsOps FS}.
Context (get_ext : FS -> ext2_state) (set_ext : ext2_state -> FS -> FS).
Context (blk_read : Z -> Z -> Z -> list Z -> M (vst FS) (Z * list Z)) (dev_sector_size : Z -> M (vst FS) Z).
Context (ext2_inode_ops ext2_file_ops : Z) (ready : FS -> Prop).
Hypothesis (Hget : forall x f, get_ext (set_ext x f) = x) (Hready : forall x f, ready f -> ready (set_ext x f)).

(** The private data of [sb], apart from every other object and from [ps]. *)
Record ext2_up (sb : Z) (ps : list Z) (s : vst FS) : Prop := {
  up_priv : exists x p, v_supers s !! sb = Some x /\ sb_priv x <> 0 /\ e_privs (get_ext (v_fs s)) !! sb_priv x = Some p /\
    let H := [(p_bgdt_pages p, p_bgdt p); (1, sb_priv x)] in let P := concat (loan_pages <$> H) in
    Forall loan_ok H /\ NoDup P /\ (forall q, q ∈ P -> q ∉ ps) /\
    apart P (v_inodes s) /\ apart P (v_dentries s) /\ apart P (v_supers s) /\ apart P (v_mounts s)
}.

Lemma unmounted_ok ps ms l sb (s s' : vst FS) : vfs_ok ps ms l s -> unmounted sb s s' -> free_pages ps s' ->
  vfs_ok ps ms l s' /\ adds_only ps s s' /\ super_only sb s s'.
Proof.
  intros Hok (k & f & x & x' & Hx & E1 & E2 & ->) Hf.
  assert (adds_only ps s (set_fs f (set_vk k (set_supers (<[sb:=x']> (v_supers s)) s)))) as Ha by (split; done || apply adds_refl).
  split; [|split; [done|]].
  - apply (vfs_ok_grown ps ps ms l s _ Hok Ha Hf); [apply Hok|apply Hok| |done]. apply apart_insert; [by apply (ok_supers _ _ _ _ Hok sb x)|apply Hok].
  - split; [apply delete_insert_eq|]. intros y Hy. exists x'. assert (y = x) as -> by congruence. split; [apply lookup_insert_eq|done].
Qed.

Lemma apart_app {A} ps qs (m : gmap Z A) : apart ps m -> apart qs m -> apart (ps ++ qs) m.
Proof. intros H1 H2 p x Hx [Hin|Hin]%elem_of_app; [by apply (H1 p x)|by apply (H2 p x)]. Qed.

Lemma ext2_unmount_law ps ms l sb x (s : vst FS) :
  vfs_ok ps ms l s -> v_supers s !! sb = Some x -> ext2_up sb ps s ->
  wp (ext2_unmount get_ext set_ext sb) s (fun _ s' => (exists qs, vfs_ok qs ms l s') /\ adds_only ps s s' /\ super_only sb s s').
Proof.
  intros Hok Hx [(x' & p & Hx' & Hz & Hp & Hl & Hnd & Hd & A1 & A2 & A3 & A4)]. assert (x' = x) as -> by congruence.
  set (H := [_; _]) in *. set (P := concat _) in *.
  assert (vfs_ok ps ms l s /\ adds_only ps s s /\ super_only sb s s) as Hsame.
  { split; [done|]. split; [apply adds_only_refl|]. split; [done|]. intros y Hy. by exists y. }
  unfold ext2_unmount. destruct (sb =? 0); [wp_step; split; [by exists ps|apply Hsame]|].
  wp_step. eapply wp_run; [unfold load; by rewrite Hx|]. rewrite (proj2 (Z.eqb_neq _ _) Hz).
  wp_step. eapply wp_run; [unfold priv_load; by rewrite Hp|].
  assert (lent (P ++ ps) H s) as Hlent.
  { pose proof (ok_pages _ _ _ _ Hok) as Hf. exists ps. split_and!; [done| |done|done]. apply NoDup_app. split_and!; [done|done|].
    destruct Hf as (qs & <- & Hi). by eapply pa_inv_nodup. }
  wp_step. eapply wp_mono; [by apply free_priv_run|]. intros _ s1 [(k & f & ->) Hl1].
  eapply wp_run; [unfold upd_super, update; cbn; by rewrite Hx|].
  set (s2 := set_supers _ _). assert (adds_only ps s s2) as Ha by (split; done || apply adds_refl).
  split; [|split; [done|]].
  - exists (P ++ ps). apply lent_end in Hl1. destruct Hok as [_ [T1 T2 T3] [M1 M2 M3] H1 H2 H3 H4].
    split; [exact Hl1|by split|by split|by apply apart_app|by apply apart_app| |by apply apart_app].
    apply apart_insert; [|by apply apart_app]. intros [Hin|Hin]%elem_of_app; [by apply (A3 sb x)|by apply (H3 sb x)].
  - split; [apply delete_insert_eq|]. intros y Hy. eexists. split; [apply lookup_insert_eq|]. by assert (y = x) as -> by congruence.
Qed.
#[local] Abbreviation volume := (ext2_volume get_ext blk_read dev_sector_size ready).
#[local] Abbreviation mounted := (volume_mounted get_ext ext2_inode_ops ext2_file_ops ready).

Lemma mounted_ok dev ss sectors sb x ps ms l (s s' : vst FS) :
  volume dev ss sectors -> vfs_ok ps ms l s -> v_supers s !! sb = Some x -> mounted dev ss sectors sb ps s s' ->
  exists qs, vfs_ok qs ms l s' /\ (forall p, p ∈ qs -> p ∈ ps) /\ adds_only ps s s' /\ super_only sb s s' /\
    exists x', v_supers s' !! sb = Some x' /\ root_of sb (sb_root x') s s' /\ ext2_up sb qs s'.
Proof.
  intros VOL Hok Hx (priv & a & root & v & copy & Hm). cbv zeta in Hm. destruct Hm as [[[Hrz Hvz] (qs & Hp & Hnd & Hl & Hf) Ei Ed (x0 & Hx0 & Es) Em Et Eg Ec _] [Hpz Hpriv]].
  assert (x0 = x) as -> by congruence. set (pr := volume_priv dev ss sectors a) in *. set (H := [_; _]) in *.
  set (P := concat (loan_pages <$> H)). cbn [fmap list_fmap concat] in Hp. fold P in Hp. change (loan_pages (1, root)) with [root / 4096] in Hp.
  change (loan_pages (1, v)) with [v / 4096] in Hp. change (loan_pages (1, copy)) with [copy / 4096] in Hp.
  change (concat (list_fmap _ _ loan_pages H)) with P in Hp.
  assert (ps ≡ₚ root / 4096 :: v / 4096 :: copy / 4096 :: P ++ qs) as Hp' by (rewrite Hp; cbn; done). clear Hp.
  assert (forall q, q ∈ P ++ qs -> q ∈ ps /\ q <> root / 4096 /\ q <> v / 4096) as Hin.
  { intros q Hq. rewrite Hp' in Hnd. rewrite !NoDup_cons, !elem_of_cons in Hnd. split; [rewrite Hp'; rewrite !elem_of_cons; tauto|].
    split; intros ->; tauto. }
  assert (forall q, q ∈ P -> q ∈ P ++ qs) as HP by (intros q Hq; apply elem_of_app; by left).
  assert (forall q, q ∈ qs -> q ∈ P ++ qs) as Hqs by (intros q Hq; apply elem_of_app; by right).
  assert (root / 4096 ∈ ps /\ v / 4096 ∈ ps) as [Hr1 Hv1] by (rewrite Hp', !elem_of_cons; tauto).
  assert (apart (P ++ qs) (v_inodes s') /\ apart (P ++ qs) (v_dentries s') /\ apart (P ++ qs) (v_supers s') /\ apart (P ++ qs) (v_mounts s')) as (I1 & I2 & I3 & I4).
  { rewrite Ei, Ed, Es, Em. assert (forall A (m : gmap Z A), apart ps m -> apart (P ++ qs) m) as Hsub.
    { intros A m. apply apart_sub. intros q Hq. by apply Hin. }
    split_and!; [apply apart_insert; [|apply Hsub, Hok]..|apply Hsub, Hok]; intros Hq; apply Hin in Hq; [tauto|tauto|].
    destruct Hq as [Hq _]. by apply (ok_supers _ _ _ _ Hok sb x Hx). }
  assert (adds_only ps s s') as Ha.
  { split; [rewrite Ei|rewrite Ed|done..]; (apply adds_insert; [done|]); (eapply apart_fresh; [eassumption|apply Hok]). }
  exists qs. split; [|split; [|split; [done|split]]].
  - apply (vfs_ok_grown ps qs ms l s s' Hok Ha Hf); try (eapply apart_sub; [exact Hqs|done]). intros q Hq. by apply Hin, Hqs.
  - intros q Hq. by apply Hin, Hqs.
  - split; [by rewrite Es, delete_insert_eq|]. intros y Hy. rewrite Es. eexists. split; [apply lookup_insert_eq|].
    by assert (y = x) as -> by congruence.
  - eexists. split; [rewrite Es; apply lookup_insert_eq|]. cbn [sb_root]. split.
    + split; [done|]. split; [eapply apart_fresh; [exact Hr1|apply Hok]|].
      exists (Dentry 1 [SLASH] v 0 0 0). eexists. rewrite Ed, Ei. cbn [d_inode d_is_mountpoint]. rewrite !lookup_insert_eq.
      split_and!; try done. cbn [i_mode]. exact (volume_root_dir _ _ _ _ _ _ _ VOL a).
    + split. eexists _, pr. rewrite Es. split; [apply lookup_insert_eq|]. cbn [sb_priv]. split; [done|]. split; [done|].
      change (p_bgdt pr) with a. cbv zeta. fold H P. rewrite Hp' in Hnd. rewrite !NoDup_cons in Hnd. destruct Hnd as (_ & _ & _ & Hnd).
      apply NoDup_app in Hnd as (N1 & N2 & _). rewrite <- Es.
      split_and!; try (eapply apart_sub; [exact HP|done]); [|done|done]. by do 3 (apply Forall_cons in Hl as [_ Hl]).
Qed.

(** The root directory can be looked into at once. *)
Lemma mounted_looked_up dev ss sectors sb ps (s s' : vst FS) :
  volume dev ss sectors -> mounted dev ss sectors sb ps s s' ->
  exists p v, mount_ok get_ext blk_read dev_sector_size ready p ss sectors /\ ready (v_fs s') /\
    forall child d, v_dentries s' !! child = Some d -> looked_up get_ext p v child sb (inode_of p ss sectors EXT2_ROOT_INO) d s'.
Proof.
  intros VOL (priv & a & root & v & copy & [_ _ Ei _ (x & _ & Es) _ _ _ Ec Hr] & _ & Hp). exists (volume_priv dev ss sectors a), v.
  split; [exact (volume_ok _ _ _ _ _ _ _ VOL a)|]. split; [done|]. intros child d Hd. split; [|rewrite Es; eexists|done].
  - eexists. rewrite Ei, Ec. split; [apply lookup_insert_eq|]. split; [done|]. apply lookup_insert_eq.
  - by split; [apply lookup_insert_eq|].
Qed.


Lemma ext2_mount_law dev ss sectors ps ms l sb x opts s :
  volume dev ss sectors -> ready (v_fs s) -> vfs_ok ps ms l s -> v_supers s !! sb = Some x ->
  wp (ext2_mount_fs get_ext set_ext blk_read dev_sector_size ext2_inode_ops ext2_file_ops sb dev opts) s (fun rc s' =>
    exists qs, vfs_ok qs ms l s' /\ (forall p, p ∈ qs -> p ∈ ps) /\ adds_only ps s s' /\ super_only sb s s' /\
    (0 <= rc -> exists x', v_supers s' !! sb = Some x' /\ root_of sb (sb_root x') s s' /\ ext2_up sb qs s')).
Proof.
  intros VOL Hr Hok Hx. eapply wp_mono; [by eapply (ext2_mount_run get_ext set_ext); try apply Hok|].
  intros rc s' [(Hrc & Hl & Hu)|[-> Hm]].
  - apply lent_end in Hl. destruct (unmounted_ok ps ms l sb s s' Hok Hu Hl) as (H1 & H2 & H3). exists ps. split_and!; try done. lia.
  - destruct (mounted_ok _ _ _ _ _ _ _ _ _ _ VOL Hok Hx Hm) as (qs & H1 & H2 & H3 & H4 & H5). by exists qs.
Qed.

#[export, refine] Instance ext2_type t
    (Ht : tops_at t = ext2_tops get_ext set_ext blk_read dev_sector_size ext2_inode_ops ext2_file_ops) : FsType (FS := FS) t := {
  fs_pre := fun dev f => ready f /\ exists ss sectors, volume dev ss sectors;
  fs_up := ext2_up;
  fs_mount := ext2_mount_fs get_ext set_ext blk_read dev_sector_size ext2_inode_ops ext2_file_ops
}.
Proof.
  - by rewrite Ht.
  - intros ps ms l sb x dev opts s Hok (Hr & ss & sectors & VOL) Hx. by apply (ext2_mount_law dev ss sectors ps ms l sb x).
  - intros sb ps qs k s [(x & p & H1 & H2 & H3 & H4 & H5 & H6 & H7)] Hsub. split. exists x, p. cbv zeta. split_and!; try done; try apply H7.
    intros q Hq Hin. by apply (H6 q Hq), Hsub.
  - intros u. rewrite Ht. intros [= <-] ps ms l sb x s Hok Hx Hup. by apply (ext2_unmount_law ps ms l sb x).
Defined.
End Interface.

(** ** Witness *)

(** A volume of 64 blocks of 1024 bytes: the superblock, one group descriptor
    in block 2, the inode table in block 5 with the root directory. *)
Definition small_sectors (lba : Z) : list Z :=
  match lba with
  | 2 => padded 512 ([0; 0; 0; 0; 64; 0; 0; 0] ++ replicate 24 0 ++ [0; 32; 0; 0] ++ replicate 4 0 ++ [8; 0; 0; 0] ++
                     replicate 12 0 ++ [83; 239])
  | 4 => padded 512 ([3; 0; 0; 0; 4; 0; 0; 0; 5])
  | 10 => padded 512 (replicate 128 0 ++ [237; 65] ++ replicate 38 0 ++ [8])
  | _ => replicate 512 0
  end.

Definition small_read (dev lba n : Z) (buf : list Z) : M (vst ext2_state) (Z * list Z) :=
  mret (0, image small_sectors lba n ++ drop (Z.to_nat (n * 512)) buf).
#[local] Abbreviation id_get := (fun st : ext2_state => st).
#[local] Abbreviation id_set := (fun (x _ : ext2_state) => x).
#[local] Abbreviation idle := (fun _ : ext2_state => True).

Definition small_vst : vst ext2_state :=
  Vst demo_kst ∅ ∅ {[ 8192 := Super 0 1 57344 0 0 ]} ∅ ∅ {[ 57344 := Fs_type (Some [101; 120; 116; 50]) 0 ]} 57344 0 0 0
    (Ext2_state ∅ ∅ []).

Lemma small_volume : ext2_volume id_get small_read demo_sector_size idle 7 512 small_sectors.
Proof.
  split.
  - done.
  - split; [done| |].
    + intros s lba n buf _ _ _ _. unfold wp, small_read. cbn. split; [done|]. exists (v_fs s). by destruct s.
    + intros lba. unfold small_sectors. repeat case_match; subst; (split; [done|]);
        try (apply Forall_replicate; lia); apply (bool_decide_unpack _); by vm_compute.
  - done.
  - by vm_compute.
  - by vm_compute.
  - by vm_compute.
  - by vm_compute.
  - split; try (vm_compute; done); by vm_compute.
  - by vm_compute.
Qed.

Lemma small_ok : vfs_ok demo_pages [] [57344] small_vst.
Proof.
  split.
  - exists demo_pages. split; [done|apply demo_inv].
  - split; [|by_decide|done]. split_and!; [done|done|]. by eexists.
  - split; [done|done|]. by intros m x ?%elem_of_nil.
  - by intros p x Hx.
  - by intros p x Hx.
  - intros p x Hx. cbn [v_supers small_vst] in Hx. apply lookup_singleton_Some in Hx as [<- _]. by_decide.
  - by intros p x Hx.
Qed.

