(* ===== verification/BootFs.v ===== *)
(** * The file systems at boot (src/src/kernel/main.c)

    The part of [_start] from [vfs_init] to the mount of devfs: the three types
    are registered, initfs becomes the root, a disk's ext2 is laid over it, the
    disks get their device nodes and devfs is mounted at /dev.  Type objects are
    addresses, the driver tables and the console are reached through their
    interfaces. *)
From S2P Require Import Prelude KMem Spinlock BuddySpec Buddy PageAlloc KString Ring Vfs Tables Print Log Kconsole Blk Scratch Initfs Ext2 Devfs Mounting.

#[local] Open Scope Z_scope.

(** "ext2", "initfs", "devfs", "/dev", "VFS", "FS" *)
Definition ext2_name : list Z := [101; 120; 116; 50].
Definition initfs_name : list Z := [105; 110; 105; 116; 102; 115].
Definition devfs_name : list Z := [100; 101; 118; 102; 115].
Definition dev_path : list Z := [47; 100; 101; 118].
Definition vfs_tag : list Z := [86; 70; 83].
Definition fs_tag : list Z := [70; 83].
(** "filesystems registered", "ext2 mounted at /", "ext2 mount failed" *)
Definition registered_msg : list Z :=
  [102; 105; 108; 101; 115; 121; 115; 116; 101; 109; 115; 32; 114; 101; 103; 105; 115; 116; 101; 114; 101; 100].
Definition ext2_ok_msg : list Z := [101; 120; 116; 50; 32; 109; 111; 117; 110; 116; 101; 100; 32; 97; 116; 32; 47].
Definition ext2_fail_msg : list Z := [101; 120; 116; 50; 32; 109; 111; 117; 110; 116; 32; 102; 97; 105; 108; 101; 100].
(** "no block device", a dash in three bytes, "running from initfs only" *)
Definition no_disk_msg : list Z :=
  [110; 111; 32; 98; 108; 111; 99; 107; 32; 100; 101; 118; 105; 99; 101; 32; 226; 128; 148; 32;
   114; 117; 110; 110; 105; 110; 103; 32; 102; 114; 111; 109; 32; 105; 110; 105; 116; 102; 115; 32; 111; 110; 108; 121].
(** "devfs mounted at /dev", "devfs mount failed" *)
Definition devfs_ok_msg : list Z :=
  [100; 101; 118; 102; 115; 32; 109; 111; 117; 110; 116; 101; 100; 32; 97; 116; 32; 47; 100; 101; 118].
Definition devfs_fail_msg : list Z := [100; 101; 118; 102; 115; 32; 109; 111; 117; 110; 116; 32; 102; 97; 105; 108; 101; 100].

(** [blk_names]: "ahci0" to "ahci3", "ata0" to "ata3". *)
Definition ahci_name (n : Z) : list Z := [97; 104; 99; 105; 48 + n].
Definition ata_name (n : Z) : list Z := [97; 116; 97; 48 + n].
Definition blk_names : list (list Z) := (ahci_name <$> [0; 1; 2; 3]) ++ (ata_name <$> [0; 1; 2; 3]).

Section BootFs.
Context {FS : Type} `{PA : PageAllocator} `{VO : VfsOps FS} `{CO : Console (vst FS)} `{BL : BlockLayer (vst FS)}.
Context (get_blk : vst FS -> blk_state).
Context (get_dev : FS -> devfs_state) (set_dev : devfs_state -> FS -> FS).
Context (null_fops zero_fops blkdev_fops cons_fops : Z).
(** The type objects of ext2, initfs and devfs. *)
Context (ext2_type initfs_type devfs_type : Z).
#[local] Abbreviation V := (M (vst FS)).

Definition register_types : V unit :=
  vfs_init;;
  ext2_init ext2_type;;
  initfs_init initfs_type;;
  devfs_init get_dev set_dev null_fops zero_fops cons_fops devfs_type.

Definition register_filesystems : V unit :=
  register_types;;
  klog_ok (Some vfs_tag) registered_msg [].

Definition mount_initfs : V Z := vfs_mount_fs (Some initfs_name) 0 (Some [SLASH]) 0 0.

Definition overlay_disk : V unit :=
  a ← blk_get get_blk (ahci_name 0);
  rootdev ← (if a =? 0 then blk_get get_blk (ata_name 0) else mret a);
  if negb (rootdev =? 0) then
    rc ← vfs_mount_fs (Some ext2_name) rootdev (Some [SLASH]) 0 0;
    if rc =? VFS_OK then klog_ok (Some fs_tag) ext2_ok_msg [] else klog_fail (Some fs_tag) ext2_fail_msg []
  else klog (Some fs_tag) no_disk_msg [].

(** The loop over [blk_names]. *)
Fixpoint register_disks (names : list (list Z)) : V unit :=
  match names with
  | [] => mret tt
  | n :: names =>
      d ← blk_get get_blk n;
      (if negb (d =? 0) then devfs_register_blk get_dev set_dev blkdev_fops d;; mret tt else mret tt);;
      register_disks names
  end.

Definition mount_devfs : V unit :=
  rc ← vfs_mount_fs (Some devfs_name) 0 (Some dev_path) 0 0;
  if rc =? VFS_OK then klog_ok (Some fs_tag) devfs_ok_msg [] else klog_fail (Some fs_tag) devfs_fail_msg [].

Definition boot_filesystems : V unit :=
  register_filesystems;;
  mount_initfs;;
  vfs_mkdir (Some dev_path) 493;;
  overlay_disk;;
  register_disks blk_names;;
  mount_devfs.
End BootFs.

(** ** Registration *)

(** The object [t] carries the name [nm]. *)
Definition named {FS} (s : vst FS) (t : Z) (nm : list Z) : Prop := exists x, v_types s !! t = Some x /\ ft_name x = Some nm.

Fixpoint first_named (nm : list Z) (l : list Z) (names : list (list Z)) : option Z :=
  match l, names with
  | t :: l, n :: names => if str_diff n nm =? 0 then Some t else first_named nm l names
  | _, _ => None
  end.

Lemma find_obj_named {FS} (s : vst FS) nm l names :
  Forall2 (named s) l names -> find_obj (v_types s) (fun x => name_matches x (Some nm)) l = first_named nm l names.
Proof.
  induction 1 as [|t n l names (x & Hx & Hn) _ IH]; [done|]. cbn [find_obj first_named]. unfold name_matches at 1.
  by rewrite Hx, Hn, IH.
Qed.

(** "null", "zero", "cons" *)
Definition builtin_calls (null_fops zero_fops cons_fops : Z) : list dev_call :=
  [Register (Some [110; 117; 108; 108]) (Z.lor VFS_S_IFCHR 438) null_fops 0;
   Register (Some [122; 101; 114; 111]) (Z.lor VFS_S_IFCHR 438) zero_fops 0;
   Register (Some [99; 111; 110; 115]) (Z.lor VFS_S_IFCHR 438) cons_fops 0].

Lemma spec_calls_three c1 c2 c3 R :
  (spec_calls [c1; c2; c3] R).2 = (spec_call c3 (spec_call c2 (spec_call c1 R).2).2).2.
Proof.
  cbn [spec_calls]. destruct (spec_call c1 R) as [r1 R1]. cbn [snd]. destruct (spec_call c2 R1) as [r2 R2]. cbn [snd].
  by destruct (spec_call c3 R2).
Qed.

Section Registration.
Context {FS : Type} `{PA : PageAllocator} `{VO : VfsOps FS} `{CO : Console (vst FS)}.
Context (get_dev : FS -> devfs_state) (set_dev : devfs_state -> FS -> FS) (L : lens get_dev set_dev).
Context (null_fops zero_fops cons_fops ext2_type initfs_type devfs_type : Z).
#[local] Abbreviation V := (M (vst FS)).

(** The console writes nothing of the virtual file system, and its state is
    not part of what registration changes. *)
Hypothesis (Hserial : forall c s u s', (serial_putc c : V unit) s = Ok (u, s') ->
  exists x, s' = set_fs x s /\ get_dev x = get_dev (v_fs s)).
Hypothesis (Hconsole : forall c s u s', (Print.kconsole_putc c : V unit) s = Ok (u, s') ->
  exists x, s' = set_fs x s /\ get_dev x = get_dev (v_fs s)).
Hypothesis (Hglobals : forall a b c d (s : vst FS), con_inv s -> con_inv (set_globals a b c d s)).
Hypothesis (Htypes : forall m (s : vst FS), con_inv s -> con_inv (set_types m s)).
Hypothesis (Hdevs : forall x (s : vst FS), con_inv s -> con_inv (put_dev set_dev x s)).

(** The types [l] are registered under [names], nothing is mounted and the
    devices are [R]. *)
Record registered (ps l : list Z) (names : list (list Z)) (R : Devfs.registry) (s : vst FS) : Prop := {
  rg_ok : vfs_ok ps [] l s;
  rg_names : Forall2 (named s) l names;
  rg_root : g_root_mnt s = 0;
  rg_devs : stands_for (get_dev (v_fs s)) R;
  rg_con : con_inv s
}.

(** Before [vfs_init] the globals hold anything. *)
Record bootable (ps : list Z) (R : Devfs.registry) (s : vst FS) : Prop := {
  bt_pages : free_pages ps s;
  bt_apart : apart ps (v_inodes s) /\ apart ps (v_dentries s) /\ apart ps (v_supers s) /\ apart ps (v_mounts s);
  bt_devs : stands_for (get_dev (v_fs s)) R;
  bt_con : con_inv s
}.

Definition keeps_names (s s' : vst FS) : Prop := forall t nm, named s t nm -> named s' t nm.

Lemma vfs_init_registered ps R s : bootable ps R s ->
  wp vfs_init s (fun _ s' => registered ps [] [] R s' /\ keeps_names s s').
Proof.
  intros [H1 (H2 & H3 & H4 & H5) H6 H7]. unfold vfs_init. apply wp_modify. split; [|by intros t nm H]. split; [|done|done|done|by apply Hglobals].
  split; [done| | |done..].
  - split; [done|constructor|done].
  - split; [done|done|]. by intros m x ?%elem_of_nil.
Qed.

Lemma register_registered ps l names R t nm s :
  registered ps l names R s -> named s t nm -> t <> 0 -> is_Some (mount_op (tops_at t)) ->
  first_named nm l names = None -> Z.of_nat (length l) + 1 < 2 ^ 64 ->
  wp (vfs_register_fs t) s (fun _ s' => registered ps (t :: l) (nm :: names) R s' /\ keeps_names s s').
Proof.
  intros [Hok Hn Hr Hd Hc] (x & Hx & Enm) Ht [op Hop] Hfirst Hlen. destruct Hok as [Hf Hreg [M1 M2 M3] H1 H2 H3 H4].
  eapply wp_mono; [by apply (register_spec t x s l)|]. intros rc s' H. cbn beta in H.
  rewrite Enm, Hop, (find_obj_named s nm l names Hn), Hfirst in H. destruct H as (-> & Hreg' & Hni & Es).
  assert (keeps_names s s') as Hk.
  { intros u n (y & Hy & En). rewrite Es. unfold named. cbn. destruct (decide (t = u)) as [<-|Hne].
    - rewrite lookup_insert_eq. eexists. split; [done|]. assert (y = x) as -> by congruence. done.
    - rewrite lookup_insert_ne by done. by exists y. }
  split; [|done]. split.
  - split; [|done| |rewrite Es; done..].
    + destruct Hf as (qs & Hq & Hi). exists qs. by rewrite Es.
    + rewrite Es. by split.
  - constructor; [apply Hk; by exists x|]. eapply Forall2_impl; [exact Hn|]. exact Hk.
  - by rewrite Es.
  - by rewrite Es.
  - rewrite Es. by apply Hglobals, Htypes.
Qed.

Lemma device_registered ps l names R name mode fops priv s :
  registered ps l names R s -> Forall (fun b => b <> 0) name -> r_next R + 1 < 2 ^ 32 ->
  wp (devfs_register get_dev set_dev (Some name) mode fops priv) s (fun _ s' =>
    registered ps l names (spec_call (Register (Some name) mode fops priv) R).2 s' /\ keeps_names s s').
Proof.
  intros [[Hf [T1 T2 T3] [M1 M2 M3] H1 H2 H3 H4] Hn Hr Hd Hc] Hname Hnext.
  eapply wp_mono; [by apply (do_call_refines get_dev set_dev L (Register (Some name) mode fops priv) s R)|].
  intros rc s' (x & R' & -> & Hx & ->). split; [|by intros t nm H]. split; [|done|done| |by apply Hdevs].
  - split; [done|by split|by split|done..].
  - unfold put_dev. cbn. by rewrite (get_set _ _ L).
Qed.

Lemma devices_registered ps l names R s :
  registered ps l names R s -> r_next R + 3 < 2 ^ 32 ->
  wp (devfs_register get_dev set_dev (Some [110; 117; 108; 108]) (Z.lor VFS_S_IFCHR 438) null_fops 0;;
      devfs_register get_dev set_dev (Some [122; 101; 114; 111]) (Z.lor VFS_S_IFCHR 438) zero_fops 0;;
      devfs_register get_dev set_dev (Some [99; 111; 110; 115]) (Z.lor VFS_S_IFCHR 438) cons_fops 0;; mret tt) s (fun _ s' =>
    registered ps l names (spec_calls (builtin_calls null_fops zero_fops cons_fops) R).2 s').
Proof.
  intros H0 Hnext. unfold builtin_calls. rewrite spec_calls_three.
  set (c1 := Register (Some [110; 117; 108; 108]) (Z.lor VFS_S_IFCHR 438) null_fops 0).
  set (c2 := Register (Some [122; 101; 114; 111]) (Z.lor VFS_S_IFCHR 438) zero_fops 0).
  set (c3 := Register (Some [99; 111; 110; 115]) (Z.lor VFS_S_IFCHR 438) cons_fops 0).
  pose proof (spec_call_next c1 R) as N1. pose proof (spec_call_next c2 (spec_call c1 R).2) as N2.
  wp_step. eapply wp_mono; [apply (device_registered _ _ _ _ _ _ _ _ s H0); [by repeat constructor|lia]|]. intros ? s1 [H1 _].
  wp_step. eapply wp_mono; [apply (device_registered _ _ _ _ _ _ _ _ s1 H1); [by repeat constructor|fold c1; lia]|]. intros ? s2 [H2 _].
  wp_step. eapply wp_mono; [apply (device_registered _ _ _ _ _ _ _ _ s2 H2); [by repeat constructor|fold c1 c2; lia]|]. intros ? s3 [H3 _].
  by wp_step.
Qed.

(** The three types and the three built-in devices, whatever the globals were. *)
Lemma register_types_registered ps R s :
  bootable ps R s -> r_next R + 3 < 2 ^ 32 ->
  named s ext2_type ext2_name -> named s initfs_type initfs_name -> named s devfs_type devfs_name ->
  (forall t, t ∈ [ext2_type; initfs_type; devfs_type] -> t <> 0 /\ is_Some (mount_op (tops_at t))) ->
  wp (register_types get_dev set_dev null_fops zero_fops cons_fops ext2_type initfs_type devfs_type) s (fun _ s' =>
    registered ps [devfs_type; initfs_type; ext2_type] [devfs_name; initfs_name; ext2_name]
      (spec_calls (builtin_calls null_fops zero_fops cons_fops) R).2 s').
Proof.
  intros Hb Hnext He Hi Hd Hops. 
  destruct (Hops ext2_type) as [Ze Oe]; [by left|]. destruct (Hops initfs_type) as [Zi Oi]; [by right; left|].
  destruct (Hops devfs_type) as [Zd Od]; [by right; right; left|]. clear Hops.
  unfold register_types, ext2_init, initfs_init, devfs_init.
  wp_step. eapply wp_mono; [by apply vfs_init_registered|]. intros [] s0 [R0 K0].
  wp_step. wp_step. eapply wp_mono; [apply (register_registered _ _ _ _ _ ext2_name s0 R0); [by apply K0|done..]|]. intros ? s1 [R1 K1].
  wp_step. wp_step. wp_step. eapply wp_mono; [apply (register_registered _ _ _ _ _ initfs_name s1 R1); [by apply K1, K0|done..]|]. intros ? s2 [R2 K2].
  wp_step. wp_step. eapply wp_mono; [apply (register_registered _ _ _ _ _ devfs_name s2 R2); [by apply K2, K1, K0|done..]|]. intros ? s3 [R3 _].
  eapply wp_mono; [by apply (devices_registered _ _ _ R s3 R3)|]. by intros [] s4 R4.
Qed.

(** The log line changes nothing of it. *)
Lemma registered_putc ps l names R (m : V unit) :
  (forall s u s', m s = Ok (u, s') -> exists x, s' = set_fs x s /\ get_dev x = get_dev (v_fs s)) ->
  keeps (fun s => vfs_ok ps [] l s /\ Forall2 (named s) l names /\ g_root_mnt s = 0 /\ stands_for (get_dev (v_fs s)) R) m.
Proof.
  intros Hm s u s' ([Hf [T1 T2 T3] [M1 M2 M3] H1 H2 H3 H4] & Hn & Hr & Hd) E. destruct (Hm s u s' E) as (x & -> & Ex).
  split_and!; [split; [done|by split|by split|done..]|done|done|]. cbn. by rewrite Ex.
Qed.

Lemma register_filesystems_registered ps R s :
  bootable ps R s -> r_next R + 3 < 2 ^ 32 ->
  named s ext2_type ext2_name -> named s initfs_type initfs_name -> named s devfs_type devfs_name ->
  (forall t, t ∈ [ext2_type; initfs_type; devfs_type] -> t <> 0 /\ is_Some (mount_op (tops_at t))) ->
  wp (register_filesystems get_dev set_dev null_fops zero_fops cons_fops ext2_type initfs_type devfs_type) s (fun _ s' =>
    registered ps [devfs_type; initfs_type; ext2_type] [devfs_name; initfs_name; ext2_name]
      (spec_calls (builtin_calls null_fops zero_fops cons_fops) R).2 s').
Proof.
  intros Hb Hnext He Hi Hd Hops. unfold register_filesystems. wp_step.
  eapply wp_mono; [by apply register_types_registered|]. intros [] s1 [H1 H2 H3 H4 H5].
  eapply wp_mono; [eapply klog_ok_quiet; [intros c; apply registered_putc, Hserial|intros c; apply registered_putc, Hconsole|..]|].
  - done.
  - by vm_compute.
  - done.
  - constructor.
  - done.
  - split_and!; [exact H1|exact H2|exact H3|exact H4].
  - intros [] s2 (Hc & K1 & K2 & K3 & K4). by split.
Qed.

End Registration.

(** ** A machine without a disk *)

Record boot_static := Boot_static { bs_init : initfs_state; bs_dev : devfs_state; bs_out : list Z }.
Definition bs_set_init (x : initfs_state) (f : boot_static) : boot_static := Boot_static x (bs_dev f) (bs_out f).
Definition bs_set_dev (x : devfs_state) (f : boot_static) : boot_static := Boot_static (bs_init f) x (bs_out f).

Lemma bs_dev_lens : lens bs_dev bs_set_dev.
Proof. split; by intros; repeat match goal with f : boot_static |- _ => destruct f end. Qed.

(** Type objects: ext2 at 57344, whose [mount] fails, initfs at 61440, devfs at
    65536; the operations are numbered. *)
#[local] Instance bs_ops : VfsOps boot_static := {
  iops_at := fun a => if a =? 1 then initfs_iops bs_init bs_set_init 1
                      else if a =? 2 then devfs_diri bs_dev 3 else devfs_nodei;
  fops_at := fun _ => Fops None None None None None;
  tops_at := fun t => if t =? 61440 then initfs_tops 1
                      else if t =? 65536 then devfs_tops 2 4 else Tops (Some (fun _ _ _ => mret (-1))) None
}.
#[local, refine] Instance bs_console : Console (vst boot_static) := {
  serial_putc := fun c => mmodify (fun s => set_fs (Boot_static (bs_init (v_fs s)) (bs_dev (v_fs s)) (bs_out (v_fs s) ++ [u8 c])) s);
  kconsole_putc := fun _ => mret tt;
  con_inv := fun _ => True;
  con_out := fun s => bs_out (v_fs s)
}.
Proof. all: done. Defined.
#[local] Instance bs_disks : BlockLayer (vst boot_static) := {
  blk_read := fun _ _ _ _ => mret (-1);
  blk_write := fun _ _ _ _ => mret (-1);
  dev_sector_size := fun _ => mstuck Fault;
  dev_name := fun _ => mstuck Fault
}.

(** Thirty-two free pages; the globals are not zero yet. *)
Definition bs_pages : list Z := block_pages (5%nat, 1048576).
Definition bs_kst : kst :=
  Kst ∅ (Buddy_state (initlock 1) 1 (<[5%nat := 1048576]> (replicate 12 0))) (Hw true 4096 {[ 4096 := demo_cpu ]}) (2 ^ 40) 0.
Definition bs_vst : vst boot_static :=
  Vst bs_kst ∅ ∅ ∅ ∅ ∅
    (<[57344 := Fs_type (Some ext2_name) 0]> (<[61440 := Fs_type (Some initfs_name) 0]> {[ 65536 := Fs_type (Some devfs_name) 0 ]}))
    1 2 3 4 (Boot_static initfs_start devfs_start []).

Lemma bs_inv : alloc_inv bs_pages bs_kst.
Proof.
  exists (push empty_blocks 5 1048576). split_and!; [|unfold slists; repeat constructor| |by vm_compute].
  - apply push_wf; [done|apply wf_empty| |by_decide| |].
    + split_and!; cbn [fst snd]; [lia|done..].
    + intros k a Ha. by apply elem_of_nil in Ha.
    + intros _ Ha. by apply elem_of_nil in Ha.
  - intros _. split; [by exists 1|]. by exists demo_cpu.
Qed.

Lemma bs_bootable : bootable bs_dev bs_pages (Devfs.Registry ∅ 2) bs_vst.
Proof.
  split; [|split_and!; by intros p x Hx| |done].
  - exists bs_pages. split; [done|apply bs_inv].
  - split_and!; [apply dev_start_ok|by vm_compute|done].
Qed.


(** What "/dev" and "/dev/zero" lead to after the whole sequence: the answers,
    the type of the file system, the inode number. *)
Definition bs_report : M (vst boot_static) (Z * Z * Z * Z) :=
  boot_filesystems (fun _ => blk_start) bs_dev bs_set_dev 5 6 8 7 57344 61440 65536;;
  r ← vfs_lookup (Some dev_path);
  m ← load v_mounts r.2.1;
  x ← load v_supers (m_sb m);
  z ← vfs_lookup (Some (dev_path ++ [47; 122; 101; 114; 111]));
  d ← load v_dentries z.2.2;
  i ← load v_inodes (d_inode d);
  mret (r.1, sb_type x, z.1, i_ino i).

(** Without a disk devfs covers the directory /dev of initfs, and "zero" is the
    second device in it. *)
Example boot_without_disk : match bs_report bs_vst with Ok (r, _) => Some r | Stuck _ => None end = Some (VFS_OK, 65536, VFS_OK, 3).
Proof. vm_compute. reflexivity. Qed.
