(* ===== verification/Blkdev.v ===== *)
(** * Block devices read and written as byte files (src/src/kernel/devfs.c)

    [blkdev_read] and [blkdev_write] go through whole sectors in borrowed
    pages.  Proved against what a device promises ([disk_ok]): on the bytes of
    the disk they are plain byte reads and writes at any offset. *)
From S2P Require Import Prelude KMem Spinlock BuddySpec Buddy PageAlloc Vfs Print Blk Scratch Devfs.

#[local] Open Scope Z_scope.

(** ** Sectors that cover a range of bytes *)

Definition first_sector (off ss : Z) : Z := off / ss.
Definition sector_count (off count ss : Z) : Z := (off + count + ss - 1) / ss - off / ss.
Definition transfer_pages (off count ss : Z) : Z := Z.max 1 ((sector_count off count ss * ss + 4095) / 4096).

Lemma sector_span off count ss : 0 <= off -> 0 <= count -> 0 < ss ->
  0 <= first_sector off ss * ss <= off /\ 0 <= sector_count off count ss /\
  off + count <= (first_sector off ss + sector_count off count ss) * ss /\
  sector_count off count ss * ss < count + 2 * ss /\
  (off = first_sector off ss * ss \/ off < first_sector off ss * ss + sector_count off count ss * ss).
Proof.
  intros Ho Hc Hs. unfold first_sector, sector_count.
  pose proof (Z.div_mod off ss ltac:(lia)) as E1. pose proof (Z.mod_pos_bound off ss Hs) as B1.
  pose proof (Z.div_mod (off + count + ss - 1) ss ltac:(lia)) as E2. pose proof (Z.mod_pos_bound (off + count + ss - 1) ss Hs) as B2.
  pose proof (Z.div_pos off ss Ho Hs). set (q1 := off / ss) in *. set (q2 := (off + count + ss - 1) / ss) in *.
  assert (q1 <= q2) by (apply Z.div_le_mono; lia). split_and!; [nia..|].
  destruct (decide (off mod ss = 0)) as [E|E]; [left; lia|right].
  assert (q1 + 1 <= q2) by (apply Z.div_le_lower_bound; lia). nia.
Qed.

Lemma transfer_pages_span off count ss : 0 <= off -> 0 <= count -> 0 < ss -> count + 2 * ss <= 2 ^ 23 ->
  0 < transfer_pages off count ss <= 2048 /\ sector_count off count ss * ss <= transfer_pages off count ss * 4096.
Proof.
  intros Ho Hc Hs Hb. pose proof (sector_span off count ss Ho Hc Hs) as (_ & H1 & _ & H3 & _). unfold transfer_pages.
  set (n := sector_count off count ss * ss) in *. assert (0 <= n) by nia.
  pose proof (Z.div_mod (n + 4095) 4096 ltac:(lia)). pose proof (Z.mod_pos_bound (n + 4095) 4096 ltac:(lia)). lia.
Qed.

Section Blkdev.
Context {FS : Type} `{PA : PageAllocator} `{VO : VfsOps FS} `{BL : BlockLayer (vst FS)}.
(** Byte [i] of the disk. *)
Context (disk : FS -> Z -> Z).

(** A device of sector size [ss]; transfers may fail when it is [flaky]. *)
Record disk_ok (flaky : Prop) (dev ss : Z) : Prop := {
  do_ss : 0 < ss;
  do_size : forall s, dev_sector_size dev s = Ok (ss, s);
  do_read : forall s lba n buf, 0 <= lba -> 0 <= n -> 0 <= buf -> buf + n * ss <= 2 ^ 64 ->
    wp (blk_read dev lba n buf) s (fun rc s' => exists f m, s' = set_fs f (set_vk (set_heap m (v_k s)) s) /\
      disk f = disk (v_fs s) /\ (forall a, ~ buf <= a < buf + n * ss -> rd8 m a = rd8 (heap (v_k s)) a) /\
      ((rc = 0 /\ forall j, 0 <= j < n * ss -> rd8 m (buf + j) = disk (v_fs s) (lba * ss + j)) \/ (flaky /\ rc <> 0)));
  do_write : forall s lba n buf, 0 <= lba -> 0 <= n -> 0 <= buf -> buf + n * ss <= 2 ^ 64 ->
    wp (blk_write dev lba n buf) s (fun rc s' => exists f, s' = set_fs f s /\
      (forall i, ~ lba * ss <= i < (lba + n) * ss -> disk f i = disk (v_fs s) i) /\
      ((rc = 0 /\ forall j, 0 <= j < n * ss -> disk f (lba * ss + j) = rd8 (heap (v_k s)) (buf + j)) \/ (flaky /\ rc <> 0)))
}.

(** An open file on the device. *)
Record open_on (dev f : Z) (x : vfs_file) (s : vst FS) : Prop := {
  oo_file : v_files s !! f = Some x;
  oo_inode : exists i, v_inodes s !! f_inode x = Some i /\ i_priv i = dev
}.

Definition same_disk (a b : FS) : Prop := disk b = disk a.

(** The user's buffer and the borrowed block do not meet. *)
Lemma apart ps n b qs buf count :
  loaned ps n b qs -> 0 < n <= 2048 -> (forall a, buf <= a < buf + count -> (a / 4096) ∉ ps) -> 0 < count ->
  b + n * 4096 <= buf \/ buf + count <= b.
Proof.
  intros Hl Hn Hd Hc. pose proof (loaned_inside _ _ _ _ Hl Hn) as (_ & _ & Hin).
  destruct (decide (b + n * 4096 <= buf \/ buf + count <= b)) as [|H]; [done|]. exfalso.
  destruct (Hin (Z.max b buf)) as [Ha _]; [lia|]. apply (Hd (Z.max b buf)); [lia|done].
Qed.

Lemma advance_run f n x (s : vst FS) : v_files s !! f = Some x -> 0 <= f_pos x + n < 2 ^ 64 ->
  advance f n s = Ok (tt, set_files (<[f := set_f_pos (f_pos x + n) x]> (v_files s)) s).
Proof. intros Hf H. unfold advance, upd_file, update. rewrite Hf. by rewrite u64_small. Qed.

Lemma sector_plan_run flaky dev ss f x count (s : vst FS) :
  disk_ok flaky dev ss -> open_on dev f x s -> 0 <= f_pos x -> 0 <= count ->
  f_pos x + count + ss < 2 ^ 64 -> count + 2 * ss <= 2 ^ 23 ->
  sector_plan x count s =
    Ok ((dev, ss, first_sector (f_pos x) ss, sector_count (f_pos x) count ss, transfer_pages (f_pos x) count ss), s).
Proof.
  intros HD [_ (i & Hi & <-)] Hoff Hcnt Ho64 Hsz. pose proof (do_ss _ _ _ HD) as Hss.
  pose proof (sector_span (f_pos x) count ss Hoff Hcnt Hss) as (_ & Hs2 & _ & Hs4 & _).
  unfold sector_plan, mbind, M_bind, load. rewrite Hi, (do_size _ _ _ HD).
  unfold udiv. rewrite (proj2 (Z.eqb_neq ss 0)) by lia. cbn [mret M_ret].
  rewrite (u64_small (f_pos x + count + ss - 1)) by lia. unfold transfer_pages, first_sector, sector_count in *.
  set (n := (f_pos x + count + ss - 1) / ss - f_pos x / ss) in *. assert (0 <= n * ss) by nia. assert (n < 2 ^ 23) by nia.
  rewrite (u64_small n), (u64_small (n * ss)) by lia. unfold PAGE_SIZE. rewrite u64_small by lia.
  replace (n * ss + 4096 - 1) with (n * ss + 4095) by lia. set (q := (n * ss + 4095) / 4096).
  assert (0 <= q) by (apply Z.div_pos; lia). assert ((if q =? 0 then 1 else q) = Z.max 1 q) as ->; [|done].
  destruct (Z.eqb_spec q 0); lia.
Qed.

(** Reading a block device file is a byte read of the disk.  For any
    position, aligned or not, a successful read copies the [count] bytes of the
    disk at the position to the caller's buffer and moves the position past
    them.  Otherwise it answers ENOMEM, when the allocator has no run of pages
    for the sectors, or -1, when the device failed, and neither the position
    nor the buffer changes.  The pages used are free again in every case. *)
Lemma blkdev_read_correct flaky dev ss ps f x buf count (s : vst FS) :
  disk_ok flaky dev ss -> open_on dev f x s ->
  let off := f_pos x in
  0 <= off -> 0 <= count -> 0 <= buf -> buf + count <= 2 ^ 64 -> off + count + ss < 2 ^ 64 -> count + 2 * ss <= 2 ^ 23 ->
  free_pages ps s -> (forall a, buf <= a < buf + count -> (a / 4096) ∉ ps) ->
  wp (blkdev_read f buf count) s (fun r s' => exists s2,
    calm same_disk ps (fun a => r = count /\ buf <= a < buf + count) s s2 /\
    ((s' = s2 /\ ((r = VFS_ENOMEM /\ no_room (transfer_pages off count ss) ps) \/ (r = -1 /\ flaky))) \/
     (r = count /\ s' = set_files (<[f := set_f_pos (off + count) x]> (v_files s)) s2 /\
      forall j, 0 <= j < count -> rd8 (heap (v_k s2)) (buf + j) = disk (v_fs s) (off + j)))).
Proof.
  intros HD HO off Hoff Hcnt Hbuf Hb64 Ho64 Hsz Hfree Hap. pose proof (do_ss _ _ _ HD) as Hss.
  pose proof (sector_span off count ss Hoff Hcnt Hss) as (Hs1 & Hs2 & Hs3 & Hs4 & Hs5).
  pose proof (transfer_pages_span off count ss Hoff Hcnt Hss Hsz) as (Hp1 & Hp2).
  unfold blkdev_read. wp_step. eapply wp_run; [unfold load; by rewrite (oo_file _ _ _ _ HO)|].
  wp_step. eapply wp_run; [by eapply sector_plan_run|]. cbv beta iota zeta. fold off.
  set (lba := first_sector off ss) in *. set (n := sector_count off count ss) in *. set (pg := transfer_pages off count ss) in *.
  assert (0 <= n * ss) as Hns0 by nia. assert (n < 2 ^ 23) as Hn23 by nia.
  rewrite (u32_small n), !(u64_small (off - lba * ss)), !(u64_small (n * ss - (off - lba * ss))) by lia.
  replace (if count <? n * ss - (off - lba * ss) then count else n * ss - (off - lba * ss)) with count
    by (destruct (Z.ltb_spec count (n * ss - (off - lba * ss))); lia).
  wp_step. eapply wp_mono; [by apply (take_block ps pg)|].
  intros b s1 (k & -> & Hm1 & [(-> & Hf1 & Hno)|(Hb & qs & Hl & Hf1)]).
  { cbn [Z.eqb]. wp_step. exists (set_vk k s). split; [|left; split; [done|by left]].
    exists k, (v_fs s). split_and!; try done. eapply agree_but_mono; [|exact Hm1]. done. }
  rewrite (proj2 (Z.eqb_neq b 0)) by done. pose proof (loaned_inside _ _ _ _ Hl Hp1) as (Hb0 & Hb2 & Hin).
  wp_step. eapply wp_mono; [apply (do_read _ _ _ HD); lia|]. intros rc s2 (fs & m & -> & Hd & Hm2 & Hrc). cbn [v_k set_vk v_fs] in *.
  assert (free_pages qs (set_fs fs (set_vk (set_heap m k) (set_vk k s)))) as Hf2.
  { apply (free_pages_range qs (set_vk k s) m b (n * ss)); [done|done|]. intros a Ha. apply Hin. lia. }
  assert (agree_but ps (fun _ => False) (heap (v_k s)) m) as Hm3.
  { intros a Ha _. rewrite Hm2; [apply Hm1; [done|tauto]|]. intros Hr. apply Ha, Hin. lia. }
  destruct Hrc as [[-> Hrd]|[Hfl Hrc]].
  2:{ rewrite (proj2 (Z.eqb_neq rc 0)) by done. cbn [negb]. wp_step. eapply wp_mono; [by apply (give_block ps pg b qs)|].
      intros u s3 (k3 & -> & Hf3 & Hm4). wp_step. eexists. split; [|left; split; [done|by right]].
      exists k3, fs. split_and!; try done. cbn in Hm4. eapply agree_but_mono; [|eapply (agree_but_trans ps ps); [done|exact Hm3|exact Hm4]]. done. }
  cbn [Z.eqb negb]. wp_step. apply wp_modify. wp_step. rewrite u64_small by lia. cbn [v_k set_vk set_fs heap set_heap].
  set (m2 := memcpy m buf (b + (off - lba * ss)) count).
  assert (forall a, rd8 m2 a = if (buf <=? a) && (a <? buf + count) then rd8 m (b + (off - lba * ss) + (a - buf)) else rd8 m a) as Hm4.
  { intros a. apply rd8_memcpy; [done|]. destruct (decide (count = 0)) as [->|Hc]; [lia|].
    destruct (apart ps pg b qs buf count Hl Hp1 Hap ltac:(lia)); lia. }
  assert (agree_but ps (fun a => count = count /\ buf <= a < buf + count) (heap (v_k s)) m2) as Hm5.
  { intros a Ha Hw. rewrite Hm4. destruct (Z.leb_spec buf a), (Z.ltb_spec a (buf + count)); cbn [andb]; (lia || (apply Hm3; [done|tauto])). }
  eapply wp_mono; [apply (give_block ps pg b qs); [|done|done]|].
  { apply (free_pages_range qs (set_fs fs (set_vk (set_heap m k) (set_vk k s))) m2 buf count Hf2).
    - intros a Ha. cbn. rewrite Hm4. destruct (Z.leb_spec buf a), (Z.ltb_spec a (buf + count)); cbn [andb]; (lia || done).
    - intros a Ha Hq. apply (Hap a Ha). destruct Hl as (_ & -> & _). apply elem_of_app. by right. }
  intros u s3 (k3 & -> & Hf3 & Hm6). cbn [v_k set_vk set_fs heap set_heap] in Hm6.
  wp_step. eapply wp_run; [apply (advance_run f count x); [exact (oo_file _ _ _ _ HO)|fold off; lia]|]. wp_step.
  rewrite i64_small by lia. exists (set_fs fs (set_vk k3 s)). split; [|right; split; [done|split; [done|]]].
  - exists k3, fs. split_and!; try done. eapply (agree_but_trans ps ps); [done|exact Hm5|].
    eapply agree_but_mono; [|exact Hm6]. done.
  - intros j Hj. cbn. rewrite Hm6, Hm4; [|apply Hap; lia|tauto].
    rewrite (proj2 (Z.leb_le _ _)), (proj2 (Z.ltb_lt _ _)) by lia. cbn [andb].
    replace (b + (off - lba * ss) + (buf + j - buf)) with (b + (off - lba * ss + j)) by lia.
    rewrite Hrd by lia. f_equal. lia.
Qed.

(** The disk after [count] bytes from memory at [buf] were written at [off]. *)
Definition overwritten (off count buf : Z) (m : mem) (a b : FS) : Prop :=
  forall i, disk b i = if (off <=? i) && (i <? off + count) then rd8 m (buf + (i - off)) else disk a i.

(** Sectors read to [b], patched with [count] bytes from [buf], written back. *)
Lemma patched_sectors (h m m2 : mem) (fs fs1 fs2 : FS) b lo len off count buf :
  0 <= count -> lo <= off -> off + count <= lo + len -> disk fs1 = disk fs ->
  (forall a, rd8 m2 a = if (b + (off - lo) <=? a) && (a <? b + (off - lo) + count) then rd8 m (buf + (a - (b + (off - lo)))) else rd8 m a) ->
  (forall j, 0 <= j < len -> rd8 m (b + j) = disk fs (lo + j)) ->
  (forall j, 0 <= j < count -> rd8 m (buf + j) = rd8 h (buf + j)) ->
  (forall i, ~ lo <= i < lo + len -> disk fs2 i = disk fs1 i) ->
  (forall j, 0 <= j < len -> disk fs2 (lo + j) = rd8 m2 (b + j)) ->
  overwritten off count buf h fs fs2.
Proof.
  intros Hc Hlo Hhi Hd Hm2 Hrd Hbuf Hout Hwr i. destruct (decide (lo <= i < lo + len)) as [Hir|Hir].
  - replace i with (lo + (i - lo)) at 1 by lia. rewrite Hwr, Hm2 by lia.
    destruct (Z.leb_spec off i), (Z.ltb_spec i (off + count)), (Z.leb_spec (b + (off - lo)) (b + (i - lo))),
      (Z.ltb_spec (b + (i - lo)) (b + (off - lo) + count)); cbn [andb]; try lia.
    + replace (buf + (b + (i - lo) - (b + (off - lo)))) with (buf + (i - off)) by lia. apply Hbuf. lia.
    + rewrite Hrd by lia. f_equal. lia.
    + rewrite Hrd by lia. f_equal. lia.
  - rewrite Hout, Hd by done. destruct (Z.leb_spec off i), (Z.ltb_spec i (off + count)); cbn [andb]; (lia || done).
Qed.

(** C26: Writing a block device file is a byte write of the disk.  The sectors
    around the range are read first, the caller's bytes put in, and all written
    back, so on a working device exactly the [count] bytes at the position
    become the caller's, every other byte of the disk stays, and the position
    moves past them.  Only ENOMEM is possible besides, when the allocator has no
    run of pages for the sectors, and then nothing changes.  The pages used are
    free again in every case. *)
Theorem blkdev_write_correct dev ss ps f x buf count (s : vst FS) :
  disk_ok False dev ss -> open_on dev f x s ->
  let off := f_pos x in
  0 <= off -> 0 <= count -> 0 <= buf -> buf + count <= 2 ^ 64 -> off + count + ss < 2 ^ 64 -> count + 2 * ss <= 2 ^ 23 ->
  free_pages ps s -> (forall a, buf <= a < buf + count -> (a / 4096) ∉ ps) ->
  wp (blkdev_write f buf count) s (fun r s' =>
    (r = VFS_ENOMEM /\ no_room (transfer_pages off count ss) ps /\ calm same_disk ps (fun _ => False) s s') \/
    (r = count /\ exists s2, s' = set_files (<[f := set_f_pos (off + count) x]> (v_files s)) s2 /\
       calm (overwritten off count buf (heap (v_k s))) ps (fun _ => False) s s2)).
Proof.
  intros HD HO off Hoff Hcnt Hbuf Hb64 Ho64 Hsz Hfree Hap. pose proof (do_ss _ _ _ HD) as Hss.
  pose proof (sector_span off count ss Hoff Hcnt Hss) as (Hs1 & Hs2 & Hs3 & Hs4 & Hs5).
  pose proof (transfer_pages_span off count ss Hoff Hcnt Hss Hsz) as (Hp1 & Hp2).
  unfold blkdev_write. wp_step. eapply wp_run; [unfold load; by rewrite (oo_file _ _ _ _ HO)|].
  wp_step. eapply wp_run; [by eapply sector_plan_run|]. cbv beta iota zeta. fold off.
  set (lba := first_sector off ss) in *. set (n := sector_count off count ss) in *. set (pg := transfer_pages off count ss) in *.
  assert (0 <= n * ss) as Hns0 by nia. assert (n < 2 ^ 23) as Hn23 by nia.
  rewrite !(u32_small n), !(u64_small (off - lba * ss)) by lia.
  wp_step. eapply wp_mono; [by apply (take_block ps pg)|].
  intros b s1 (k & -> & Hm1 & [(-> & Hf1 & Hno)|(Hb & qs & Hl & Hf1)]).
  { cbn [Z.eqb]. wp_step. left. split_and!; try done. by exists k, (v_fs s). }
  rewrite (proj2 (Z.eqb_neq b 0)) by done. pose proof (loaned_inside _ _ _ _ Hl Hp1) as (Hb0 & Hb2 & Hin).
  wp_step. eapply wp_mono; [apply (do_read _ _ _ HD); lia|].
  intros rc s2 (fs & m & -> & Hd & Hm2 & [[_ Hrd]|[[] _]]). cbn [v_k set_vk v_fs] in *.
  wp_step. apply wp_modify. cbn [v_k set_vk set_fs heap set_heap]. rewrite u64_small by lia.
  set (dst := b + (off - lba * ss)). set (m2 := memcpy m dst buf count).
  assert (forall a, rd8 m2 a = if (dst <=? a) && (a <? dst + count) then rd8 m (buf + (a - dst)) else rd8 m a) as Hm4.
  { intros a. apply rd8_memcpy; [done|]. destruct (decide (count = 0)) as [->|Hc]; [lia|].
    destruct (apart ps pg b qs buf count Hl Hp1 Hap ltac:(lia)); lia. }
  assert (agree_but ps (fun _ => False) (heap (v_k s)) m2) as Hm5.
  { intros a Ha _. rewrite Hm4. assert (~ b <= a < b + pg * 4096) as Hn by (intros Hr; by apply Ha, Hin).
    destruct (Z.leb_spec dst a), (Z.ltb_spec a (dst + count)); cbn [andb]; [lia|..];
      (rewrite Hm2 by lia; apply Hm1; [done|tauto]). }
  set (s2 := set_vk _ (set_fs _ _)). assert (free_pages qs s2) as Hf2.
  { apply (free_pages_range qs (set_fs fs (set_vk k s)) m2 b (pg * 4096)); [done| |intros a Ha; by apply Hin].
    intros a Ha. cbn. rewrite Hm4. destruct (Z.leb_spec dst a), (Z.ltb_spec a (dst + count)); cbn [andb]; [lia|..]; apply Hm2; lia. }
  wp_step. eapply wp_mono; [apply (do_write _ _ _ HD); lia|].
  intros rc2 s3 (fs2 & -> & Hout & [[-> Hwr]|[[] _]]). cbn [v_k v_fs set_vk set_fs s2 heap set_heap] in Hout, Hwr.
  wp_step. eapply wp_mono; [by apply (give_block ps pg b qs)|].
  intros u s3 (k3 & -> & Hf3 & Hm6). cbn [v_k set_vk set_fs heap set_heap s2] in Hm6. cbn [Z.eqb negb].
  wp_step. eapply wp_run; [apply (advance_run f count x); [exact (oo_file _ _ _ _ HO)|fold off; lia]|]. wp_step.
  rewrite i64_small by lia. right. split; [done|]. exists (set_fs fs2 (set_vk k3 s)). split; [done|].
  exists k3, fs2. split_and!; [done| |done|by eapply (agree_but_trans ps ps); [|exact Hm5|exact Hm6]].
  rewrite Z.mul_add_distr_r in Hout. eapply (patched_sectors _ m m2 _ fs fs2 b (lba * ss) (n * ss)); try done; [lia|lia|].
  intros j Hj. assert ((buf + j) / 4096 ∉ ps) as Hb' by (apply Hap; lia).
  rewrite Hm2; [apply Hm1; [done|tauto]|]. intros Hr. apply Hb', Hin. lia.
Qed.
End Blkdev.

(** ** Witnesses *)

(** A disk in memory, with sectors of 512 bytes. *)
Definition ram_read (dev lba n buf : Z) : M (vst mem) Z :=
  mmodify (fun s => set_vk (set_heap (store_bytes (heap (v_k s)) buf (bytes_at (Z.to_nat (n * 512)) (v_fs s) (lba * 512))) (v_k s)) s);;
  mret 0.
Definition ram_write (dev lba n buf : Z) : M (vst mem) Z :=
  mmodify (fun s => set_fs (store_bytes (v_fs s) (lba * 512) (bytes_at (Z.to_nat (n * 512)) (heap (v_k s)) buf)) s);;
  mret 0.
#[export] Instance ram_disk : BlockLayer (vst mem) := {
  blk_read := ram_read; blk_write := ram_write;
  dev_sector_size := fun _ => mret 512; dev_name := fun _ => mret []
}.

Lemma store_copy m d m' a n i : 0 <= n ->
  rd8 (store_bytes m d (bytes_at (Z.to_nat n) m' a)) i =
  if (d <=? i) && (i <? d + n) then rd8 m' (a + (i - d)) else rd8 m i.
Proof.
  intros Hn. rewrite rd8_store_bytes, length_bytes_at, Z2Nat.id by done.
  destruct (Z.leb_spec d i), (Z.ltb_spec i (d + n)); cbn [andb]; try done.
  rewrite lookup_bytes_at by lia. rewrite Z2Nat.id by lia. apply u8_small, rd8_range.
Qed.

Lemma ram_disk_ok flaky : disk_ok rd8 flaky 7 512.
Proof.
  split; [done|done| |].
  - intros s lba n buf Hl Hn Hb Hm. unfold blk_read, ram_disk, ram_read. wp_step. apply wp_modify. wp_step.
    exists (v_fs s). eexists. split; [by destruct s|]. split; [done|]. split.
    + intros a Ha. rewrite store_copy by lia. destruct (Z.leb_spec buf a), (Z.ltb_spec a (buf + n * 512)); cbn [andb]; (lia || done).
    + left. split; [done|]. intros j Hj. rewrite store_copy by lia.
      rewrite (proj2 (Z.leb_le _ _)), (proj2 (Z.ltb_lt _ _)) by lia. cbn [andb]. f_equal. lia.
  - intros s lba n buf Hl Hn Hb Hm. unfold blk_write, ram_disk, ram_write. wp_step. apply wp_modify. wp_step.
    eexists. split; [reflexivity|]. split.
    + intros i Hi. rewrite store_copy by lia.
      destruct (Z.leb_spec (lba * 512) i), (Z.ltb_spec i (lba * 512 + n * 512)); cbn [andb]; (lia || done).
    + left. split; [done|]. intros j Hj. rewrite store_copy by lia.
      rewrite (proj2 (Z.leb_le _ _)), (proj2 (Z.ltb_lt _ _)) by lia. cbn [andb]. f_equal. lia.
Qed.

(** File 45056 is open at byte 510 of device 7. *)
Definition demo_blk : vst mem :=
  Vst demo_kst {[ 28672 := Inode 2 25088 1 8192 1 2 7 ]} ∅ ∅ ∅ {[ 45056 := File 1 0 510 28672 0 0 ]} ∅ 0 0 0 0
    (<[511 := 65]> {[ 512 := 66 ]}).

Lemma demo_blk_open : open_on 7 45056 (File 1 0 510 28672 0 0) demo_blk.
Proof. split; [done|]. by eexists. Qed.

Lemma demo_blk_free : free_pages demo_pages demo_blk.
Proof. exists demo_pages. split; [done|apply demo_inv]. Qed.

Lemma demo_buffer_apart a : 32768 <= a < 32768 + 3 -> (a / 4096) ∉ demo_pages.
Proof.
  intros Ha. assert (a / 4096 = 8) as -> by (symmetry; apply (Z.div_unique _ _ _ (a - 32768)); lia).
  by apply (bool_decide_unpack _); vm_compute.
Qed.

Lemma blkdev_read_correct_witness :
  wp (blkdev_read 45056 32768 3) demo_blk (fun r s' => exists s2,
    calm (same_disk rd8) demo_pages (fun a => r = 3 /\ 32768 <= a < 32768 + 3) demo_blk s2 /\
    ((s' = s2 /\ ((r = VFS_ENOMEM /\ no_room (transfer_pages 510 3 512) demo_pages) \/ (r = -1 /\ False))) \/
     (r = 3 /\ s' = set_files (<[45056 := set_f_pos (510 + 3) (File 1 0 510 28672 0 0)]> (v_files demo_blk)) s2 /\
      forall j, 0 <= j < 3 -> rd8 (heap (v_k s2)) (32768 + j) = rd8 (v_fs demo_blk) (510 + j)))).
Proof.
  apply (blkdev_read_correct rd8 False 7 512 demo_pages 45056 (File 1 0 510 28672 0 0) 32768 3 demo_blk);
    [apply ram_disk_ok|apply demo_blk_open|done|done|done|done|done|done|apply demo_blk_free|apply demo_buffer_apart].
Defined.

Lemma blkdev_write_correct_witness :
  wp (blkdev_write 45056 32768 3) demo_blk (fun r s' =>
    (r = VFS_ENOMEM /\ no_room (transfer_pages 510 3 512) demo_pages /\ calm (same_disk rd8) demo_pages (fun _ => False) demo_blk s') \/
    (r = 3 /\ exists s2, s' = set_files (<[45056 := set_f_pos (510 + 3) (File 1 0 510 28672 0 0)]> (v_files demo_blk)) s2 /\
       calm (overwritten rd8 510 3 32768 (heap (v_k demo_blk))) demo_pages (fun _ => False) demo_blk s2)).
Proof.
  apply (blkdev_write_correct rd8 7 512 demo_pages 45056 (File 1 0 510 28672 0 0) 32768 3 demo_blk);
    [apply ram_disk_ok|apply demo_blk_open|done|done|done|done|done|done|apply demo_blk_free|apply demo_buffer_apart].
Defined.
