(* ===== verification/Ps2.v ===== *)
(** * Keyboard and mouse (src/src/kernel/ps2.c, ps2.h)

    The scancode decoder with its modifiers, the assembler of mouse packets,
    the two interrupt handlers, and the device files on top.  The controller's
    ports are reached through [port_in] and [port_out]; the theorems run the
    handlers on a controller that holds a queue of bytes, each marked as the
    keyboard's or the mouse's. *)
From S2P Require Import Prelude KMem Spinlock BuddySpec Buddy PageAlloc KString Ring Vfs Tables Print Kconsole Blk Scratch Devfs.

#[local] Open Scope Z_scope.

Definition PS2_DATA_PORT : Z := 96.
Definition PS2_STATUS_PORT : Z := 100.
Definition PS2_CMD_PORT : Z := 100.
Definition PS2_STATUS_AUX : Z := 32.
Definition PS2_STATUS_OUTPUT_FULL : Z := 1.
Definition PS2_STATUS_INPUT_FULL : Z := 2.
Definition PS2_CMD_READ_CONFIG : Z := 32.
Definition PS2_CMD_WRITE_CONFIG : Z := 96.
Definition PS2_CMD_DISABLE_PORT2 : Z := 167.
Definition PS2_CMD_ENABLE_PORT2 : Z := 168.
Definition PS2_CMD_DISABLE_PORT1 : Z := 173.
Definition PS2_CMD_ENABLE_PORT1 : Z := 174.
Definition PS2_CMD_WRITE_AUX : Z := 212.
Definition PS2_MOUSE_ENABLE : Z := 244.
Definition PS2_MOUSE_RESET : Z := 255.
Definition MOUSE_X_SIGN : Z := 16.
Definition MOUSE_Y_SIGN : Z := 32.
Definition MOUSE_X_OVERFLOW : Z := 64.
Definition MOUSE_Y_OVERFLOW : Z := 128.
Definition MOUSE_BUF_LEN : Z := 256.
Definition KBD_MOD_SHIFT : Z := 1.
Definition KBD_MOD_CTRL : Z := 4.
Definition KBD_MOD_ALT : Z := 8.
Definition KBD_MOD_CAPS : Z := 64.

(** Zero where no initializer stands. *)
Definition modifier_scancodes (k : Z) : Z :=
  match k with
  | 42 | 54 => KBD_MOD_SHIFT
  | 29 | 157 => KBD_MOD_CTRL
  | 56 | 184 => KBD_MOD_ALT
  | 58 => KBD_MOD_CAPS
  | _ => 0
  end.

(** Rows of the tables: codes from a first one on. *)
Definition row (k first : Z) (chars : list Z) : option Z :=
  if first <=? k then chars !! Z.to_nat (k - first) else None.
Fixpoint rows (k : Z) (t : list (Z * list Z)) : Z :=
  match t with
  | [] => 0
  | (first, chars) :: t => match row k first chars with Some c => c | None => rows k t end
  end.

Definition scancode_to_rune (k : Z) : Z := rows k
  [(2, [49; 50; 51; 52; 53; 54; 55; 56; 57; 48; 45; 61; 8; 9]);
   (16, [113; 119; 101; 114; 116; 121; 117; 105; 111; 112; 91; 93; 10]);
   (30, [97; 115; 100; 102; 103; 104; 106; 107; 108; 59; 39; 96]);
   (44, [122; 120; 99; 118; 98; 110; 109; 44; 46; 47]);
   (57, [32])].
Definition scancode_to_rune_shift (k : Z) : Z := rows k
  [(2, [33; 64; 35; 36; 37; 94; 38; 42; 40; 41; 95; 43]);
   (16, [81; 87; 69; 82; 84; 89; 85; 73; 79; 80; 123; 125]);
   (30, [65; 83; 68; 70; 71; 72; 74; 75; 76; 58; 34; 126]);
   (44, [90; 88; 67; 86; 66; 78; 77; 60; 62; 63])].

(** The static variables of ps2.c; [kbd_e0], [mouse_buf] and [mouse_idx] are
    those inside the functions. *)
Record ps2 := Ps2 {
  kbd_ring_buf : ring_t; mouse_ring_buf : ring_t;
  mouse_x : Z; mouse_y : Z; mouse_buttons : Z; mouse_enabled : Z;
  kbd_modifiers : Z; kbd_e0 : Z;
  mouse_buf : list Z; mouse_idx : Z
}.

Definition no_ring : ring_t := Ring [] 0 0 0.
Definition ps2_start : ps2 := Ps2 no_ring no_ring 0 0 0 1 0 0 [0; 0; 0] 0.

Definition set_kbd_ring (r : ring_t) (p : ps2) : ps2 :=
  Ps2 r (mouse_ring_buf p) (mouse_x p) (mouse_y p) (mouse_buttons p) (mouse_enabled p) (kbd_modifiers p) (kbd_e0 p) (mouse_buf p) (mouse_idx p).
Definition set_mouse_ring (r : ring_t) (p : ps2) : ps2 :=
  Ps2 (kbd_ring_buf p) r (mouse_x p) (mouse_y p) (mouse_buttons p) (mouse_enabled p) (kbd_modifiers p) (kbd_e0 p) (mouse_buf p) (mouse_idx p).
Definition set_mouse (x y b : Z) (p : ps2) : ps2 :=
  Ps2 (kbd_ring_buf p) (mouse_ring_buf p) x y b (mouse_enabled p) (kbd_modifiers p) (kbd_e0 p) (mouse_buf p) (mouse_idx p).
Definition set_enabled (e : Z) (p : ps2) : ps2 :=
  Ps2 (kbd_ring_buf p) (mouse_ring_buf p) (mouse_x p) (mouse_y p) (mouse_buttons p) e (kbd_modifiers p) (kbd_e0 p) (mouse_buf p) (mouse_idx p).
Definition set_keys (m e0 : Z) (p : ps2) : ps2 :=
  Ps2 (kbd_ring_buf p) (mouse_ring_buf p) (mouse_x p) (mouse_y p) (mouse_buttons p) (mouse_enabled p) m e0 (mouse_buf p) (mouse_idx p).
Definition set_packet (b : list Z) (i : Z) (p : ps2) : ps2 :=
  Ps2 (kbd_ring_buf p) (mouse_ring_buf p) (mouse_x p) (mouse_y p) (mouse_buttons p) (mouse_enabled p) (kbd_modifiers p) (kbd_e0 p) b i.

(** ** The keyboard *)

(** The bytes [kbd_put_rune] builds. *)
Definition utf8 (rune : Z) : list Z :=
  let low k := u8 (Z.lor 128 (Z.land (Z.shiftr rune k) 63)) in
  if rune <? 128 then [u8 rune]
  else if rune <? 2048 then [u8 (Z.lor 192 (Z.shiftr rune 6)); low 0]
  else if rune <? 65536 then [u8 (Z.lor 224 (Z.shiftr rune 12)); low 6; low 0]
  else [u8 (Z.lor 240 (Z.shiftr rune 18)); low 12; low 6; low 0].

Definition kbd_put_rune (rune : Z) : M ps2 unit :=
  mzoom kbd_ring_buf set_kbd_ring (ring_write (utf8 rune) (Z.of_nat (length (utf8 rune)))).

Definition is_alpha_rune (r : Z) : bool := ((97 <=? r) && (r <=? 122)) || ((65 <=? r) && (r <=? 90)).

(** [m |= bit] on a press, [m &= ~bit] on a release, in a [u8]. *)
Definition set_modifier (release : bool) (bit : Z) : M ps2 unit :=
  mmodify (fun p => set_keys (if release then Z.land (kbd_modifiers p) (u8 (Z.lnot bit)) else Z.lor (kbd_modifiers p) bit) (kbd_e0 p) p).

Definition key_rune (key : Z) (shift caps : bool) : Z :=
  let base := scancode_to_rune key in
  let shifted := scancode_to_rune_shift key in
  if is_alpha_rune base then
    if xorb shift caps then (if shifted =? 0 then base else shifted) else base
  else if shift && negb (shifted =? 0) then shifted else base.

Definition kbd_handle_scancode (scancode : Z) : M ps2 unit :=
  if scancode =? 224 then mmodify (fun p => set_keys (kbd_modifiers p) 1 p)
  else
    let key := Z.land scancode 127 in
    let release := negb (Z.land scancode 128 =? 0) in
    e0 ← mgets kbd_e0;
    if negb (e0 =? 0) then
      mmodify (fun p => set_keys (kbd_modifiers p) 0 p);;
      if key =? 29 then set_modifier release KBD_MOD_CTRL
      else if key =? 56 then set_modifier release KBD_MOD_ALT
      else mret tt
    else if key =? 58 then
      if negb release then mmodify (fun p => set_keys (Z.lxor (kbd_modifiers p) KBD_MOD_CAPS) (kbd_e0 p) p) else mret tt
    else if negb (modifier_scancodes key =? 0) then set_modifier release (modifier_scancodes key)
    else if release then mret tt
    else
      m ← mgets kbd_modifiers;
      let rune := key_rune key (negb (Z.land m KBD_MOD_SHIFT =? 0)) (negb (Z.land m KBD_MOD_CAPS =? 0)) in
      if negb (rune =? 0) then kbd_put_rune rune else mret tt.

(** ** The mouse *)

(** [puti]: [None] where negating the argument overflows. *)
Definition puti (val : Z) : option (list Z) :=
  if val =? - 2 ^ 31 then None
  else if val =? 0 then Some [48]
  else
    ds ← loop (fun '(v, d) => if 0 <? v then inl (v / 10, (48 + v mod 10) :: d) else inr d) (Z.abs val, []);
    Some ((if val <? 0 then [45] else []) ++ ds).

(** Three numbers as the device files show them, with what follows each. *)
Definition put3 (a b c : Z) : option (list Z) :=
  ta ← puti a; tb ← puti b; tc ← puti c;
  Some (ta ++ [32] ++ tb ++ [32] ++ tc ++ [10]).

(** A movement from its byte and its two flags. *)
Definition mouse_delta (flags b overflow sign : Z) : Z :=
  if negb (Z.land flags overflow =? 0) then 0
  else if negb (Z.land flags sign =? 0) then i32 (Z.lor (u32 (i8 b)) 4294967040)
  else i8 b.

(** Signed addition, undefined on overflow. *)
Definition add_i32 {St} (a b : Z) : M St Z :=
  if (- 2 ^ 31 <=? a + b) && (a + b <? 2 ^ 31) then mret (a + b) else mstuck Fault.

(** A whole packet in [mouse_buf]. *)
Definition mouse_packet : M ps2 unit :=
  p ← mget;
  let flags := mouse_buf p !!! 0%nat in
  if Z.land flags 8 =? 0 then mret tt
  else
    let dx := mouse_delta flags (mouse_buf p !!! 1%nat) MOUSE_X_OVERFLOW MOUSE_X_SIGN in
    let dy := - mouse_delta flags (mouse_buf p !!! 2%nat) MOUSE_Y_OVERFLOW MOUSE_Y_SIGN in
    let buttons := Z.land flags 7 in
    if negb (mouse_enabled p =? 0) then
      x ← add_i32 (mouse_x p) dx;
      y ← add_i32 (mouse_y p) dy;
      mmodify (set_mouse x y buttons);;
      text ← mlift (put3 dx dy buttons);
      let text := [109; 32] ++ text in
      mzoom mouse_ring_buf set_mouse_ring (ring_write text (Z.of_nat (length text)))
    else mret tt.

(** What the handler does with one byte of the mouse. *)
Definition mouse_byte (data : Z) : M ps2 unit :=
  p ← mget;
  if (mouse_idx p =? 0) && (Z.land data 8 =? 0) then mret tt
  else if 3 <=? mouse_idx p then mstuck Fault
  else
    mmodify (fun p => set_packet (<[Z.to_nat (mouse_idx p) := data]> (mouse_buf p)) (u8 (mouse_idx p + 1)) p);;
    p ← mget;
    if mouse_idx p =? 3 then
      mmodify (fun p => set_packet (mouse_buf p) 0 p);;
      mouse_packet
    else mret tt.

Definition mouse_get_pos (p : ps2) : Z * Z := (mouse_x p, mouse_y p).

(** ** The interrupt handlers *)

Section Ports.
Context {St : Type} (get_ps2 : St -> ps2) (set_ps2 : ps2 -> St -> St).
Context (port_in : Z -> M St Z) (port_out : Z -> Z -> M St unit).
#[local] Abbreviation on_ps2 := (mzoom get_ps2 set_ps2).

(** One round of the two [for] loops: [Some tt] is the [break]. *)
Definition kbd_round (i : Z) : M St (option unit) :=
  st ← port_in PS2_STATUS_PORT;
  if Z.land st PS2_STATUS_OUTPUT_FULL =? 0 then mret (Some tt)
  else if negb (Z.land st PS2_STATUS_AUX =? 0) then mret (Some tt)
  else
    sc ← port_in PS2_DATA_PORT;
    on_ps2 (kbd_handle_scancode sc);;
    mret None.
Definition kbd_interrupt : M St unit := mfor 64 kbd_round 0;; mret tt.

Definition mouse_round (i : Z) : M St (option unit) :=
  st ← port_in PS2_STATUS_PORT;
  if Z.land st PS2_STATUS_OUTPUT_FULL =? 0 then mret (Some tt)
  else if Z.land st PS2_STATUS_AUX =? 0 then mret (Some tt)
  else
    data ← port_in PS2_DATA_PORT;
    on_ps2 (mouse_byte data);;
    mret None.
Definition mouse_interrupt : M St unit := mfor 64 mouse_round 0;; mret tt.

Definition ps2_wait_write : M St unit :=
  mloop (fun _ : unit => st ← port_in PS2_STATUS_PORT;
    if Z.land st PS2_STATUS_INPUT_FULL =? 0 then mret (inr tt) else mret (inl tt)) tt.
Definition ps2_wait_read : M St unit :=
  mloop (fun _ : unit => st ← port_in PS2_STATUS_PORT;
    if Z.land st PS2_STATUS_OUTPUT_FULL =? 0 then mret (inl tt) else mret (inr tt)) tt.
(** The loop that empties the output buffer. *)
Definition ps2_flush : M St unit :=
  mloop (fun _ : unit => st ← port_in PS2_STATUS_PORT;
    if Z.land st PS2_STATUS_OUTPUT_FULL =? 0 then mret (inr tt)
    else port_in PS2_DATA_PORT;; mret (inl tt)) tt.
Definition ps2_send (port v : Z) : M St unit := ps2_wait_write;; port_out port v.
End Ports.

(** ** The device files and the start *)

Section Files.
Context {FS : Type} `{PA : PageAllocator} `{VO : VfsOps FS} `{CO : Console (vst FS)}.
Context (get_ps2 : FS -> ps2) (set_ps2 : ps2 -> FS -> FS).
Context (get_dev : FS -> devfs_state) (set_dev : devfs_state -> FS -> FS).
Context (port_in : Z -> M (vst FS) Z) (port_out : Z -> Z -> M (vst FS) unit).
(** The addresses of the static tables. *)
Context (kbd_ops mouse_ops mousectl_ops : Z).
#[local] Abbreviation V := (M (vst FS)).
#[local] Abbreviation on_ps2 := (mzoom (fun s : vst FS => get_ps2 (v_fs s)) (fun p s => set_fs (set_ps2 p (v_fs s)) s)).

(** [ring_read] to the caller's buffer. *)
Definition read_ring (get : ps2 -> ring_t) (set : ring_t -> ps2 -> ps2) (buf n : Z) : V Z :=
  bs ← on_ps2 (mzoom get set (ring_read n));
  heap_upd (fun m => store_bytes m buf bs);;
  mret (Z.of_nat (length bs)).

Definition kbd_read (f buf count : Z) : V Z :=
  let n := u32 count in
  let n := if KBD_BUF_LEN <? n then KBD_BUF_LEN else n in
  read_ring kbd_ring_buf set_kbd_ring buf n.
Definition mouse_read (f buf count : Z) : V Z :=
  let n := if count <? MOUSE_BUF_LEN then u32 count else MOUSE_BUF_LEN in
  read_ring mouse_ring_buf set_mouse_ring buf n.

Definition mousectl_read (f buf count : Z) : V Z :=
  p ← mgets (fun s => get_ps2 (v_fs s));
  text ← mlift (put3 (mouse_x p) (mouse_y p) (mouse_buttons p));
  let len := Z.of_nat (length text) in
  let len := if count <? len then u32 count else len in
  heap_upd (fun m => store_bytes m buf (take (Z.to_nat len) text));;
  mret len.

(** "ena", "dis" *)
Definition mousectl_write (f buf count : Z) : V Z :=
  (if 3 <=? count then
     cmd ← mgets (fun s => bytes_at 3 (heap (v_k s)) buf);
     if bool_decide (cmd = [101; 110; 97]) then on_ps2 (mmodify (set_enabled 1))
     else if bool_decide (cmd = [100; 105; 115]) then on_ps2 (mmodify (set_enabled 0))
     else mret tt
   else mret tt);;
  mret (i64 count).

Definition kbd_file_ops : vfs_file_ops FS := Fops None None (Some kbd_read) None None.
Definition mouse_file_ops : vfs_file_ops FS := Fops None None (Some mouse_read) None None.
Definition mousectl_file_ops : vfs_file_ops FS := Fops None None (Some mousectl_read) (Some mousectl_write) None.

#[local] Abbreviation send := (ps2_send port_in port_out).
#[local] Abbreviation wait_read := (ps2_wait_read port_in).

(** "enabled", "KBD", "MOUSE", and the names of the files. *)
Definition ps2_init : V unit :=
  on_ps2 (mmodify (fun p => set_mouse_ring (ring_init (replicate 256 0) MOUSE_BUF_LEN)
                             (set_kbd_ring (ring_init (replicate 1024 0) KBD_BUF_LEN) p)));;
  send PS2_CMD_PORT PS2_CMD_DISABLE_PORT1;;
  send PS2_CMD_PORT PS2_CMD_DISABLE_PORT2;;
  ps2_flush port_in;;
  send PS2_CMD_PORT PS2_CMD_READ_CONFIG;;
  wait_read;;
  config ← port_in PS2_DATA_PORT;
  send PS2_CMD_PORT PS2_CMD_WRITE_CONFIG;;
  send PS2_DATA_PORT (Z.lor (Z.lor config 1) 2);;
  send PS2_CMD_PORT PS2_CMD_ENABLE_PORT1;;
  klog_ok (Some [75; 66; 68]) [101; 110; 97; 98; 108; 101; 100] [];;
  send PS2_CMD_PORT PS2_CMD_ENABLE_PORT2;;
  devfs_register get_dev set_dev (Some [107; 98; 100]) (Z.lor VFS_S_IFCHR 292) kbd_ops 0;;
  devfs_register get_dev set_dev (Some [109; 111; 117; 115; 101]) (Z.lor VFS_S_IFCHR 292) mouse_ops 0;;
  devfs_register get_dev set_dev (Some [109; 111; 117; 115; 101; 99; 116; 108]) (Z.lor VFS_S_IFCHR 438) mousectl_ops 0;;
  send PS2_CMD_PORT PS2_CMD_WRITE_AUX;;
  send PS2_DATA_PORT PS2_MOUSE_RESET;;
  wait_read;;
  port_in PS2_DATA_PORT;;
  wait_read;;
  port_in PS2_DATA_PORT;;
  send PS2_CMD_PORT PS2_CMD_WRITE_AUX;;
  send PS2_DATA_PORT PS2_MOUSE_ENABLE;;
  wait_read;;
  port_in PS2_DATA_PORT;;
  klog_ok (Some [77; 79; 85; 83; 69]) [101; 110; 97; 98; 108; 101; 100] [].
End Files.

(** ** What the keys mean *)

(** A key going down or up; [ext] marks the codes after an 0xE0 prefix. *)
Record key_event := Key { k_ext : bool; k_code : Z; k_down : bool }.

Record mods := Mods { m_shift : bool; m_ctrl : bool; m_alt : bool; m_caps : bool }.
(** A keyboard between two bytes: its modifiers, and whether a prefix came. *)
Record keyboard := Keyboard { kb_mods : mods; kb_prefix : bool }.

(** The scancode set: one byte of the stream. *)
Definition scan_event (prefix : bool) (sc : Z) : option key_event :=
  if sc =? 224 then None else Some (Key prefix (sc mod 128) (sc <? 128)).

Definition is_shift (k : Z) : bool := (k =? 42) || (k =? 54).

(** What Shift makes of a symbol of the US layout. *)
Definition shifted_symbol (c : Z) : Z :=
  match list_find (fun '(plain, _) => plain = c)
    (zip [49; 50; 51; 52; 53; 54; 55; 56; 57; 48; 45; 61; 91; 93; 59; 39; 96; 44; 46; 47]
         [33; 64; 35; 36; 37; 94; 38; 42; 40; 41; 95; 43; 123; 125; 58; 34; 126; 60; 62; 63]) with
  | Some (_, (_, s)) => s
  | None => c
  end.

(** The character of a key: a letter is a capital when exactly one of Shift and
    CapsLock holds, another character follows Shift alone. *)
Definition key_char (k : Z) (shift caps : bool) : option Z :=
  let c := scancode_to_rune k in
  if c =? 0 then None
  else if (97 <=? c) && (c <=? 122) then Some (if xorb shift caps then c - 32 else c)
  else Some (if shift then shifted_symbol c else c).

(** A key's effect on the modifiers, and the character it types. *)
Definition press (e : key_event) (m : mods) : mods * option Z :=
  if k_ext e then
    if k_code e =? 29 then (Mods (m_shift m) (k_down e) (m_alt m) (m_caps m), None)
    else if k_code e =? 56 then (Mods (m_shift m) (m_ctrl m) (k_down e) (m_caps m), None)
    else (m, None)
  else if k_code e =? 58 then (Mods (m_shift m) (m_ctrl m) (m_alt m) (xorb (m_caps m) (k_down e)), None)
  else if is_shift (k_code e) then (Mods (k_down e) (m_ctrl m) (m_alt m) (m_caps m), None)
  else if k_code e =? 29 then (Mods (m_shift m) (k_down e) (m_alt m) (m_caps m), None)
  else if k_code e =? 56 then (Mods (m_shift m) (m_ctrl m) (k_down e) (m_caps m), None)
  else if k_down e then
    (m, key_char (k_code e) (m_shift m) (m_caps m))
  else (m, None).

(** A stream of scancodes: the keyboard it leaves, and the text typed. *)
Definition key_in (kb : keyboard) (sc : Z) : keyboard * list Z :=
  match scan_event (kb_prefix kb) sc with
  | None => (Keyboard (kb_mods kb) true, [])
  | Some e => let '(m, c) := press e (kb_mods kb) in (Keyboard m false, match c with Some c => [c] | None => [] end)
  end.
Fixpoint type_keys (kb : keyboard) (scs : list Z) : keyboard * list Z :=
  match scs with
  | [] => (kb, [])
  | sc :: scs =>
      let '(kb, t) := key_in kb sc in
      let '(kb, ts) := type_keys kb scs in (kb, t ++ ts)
  end.

(** The code's bits stand for the modifiers. *)
Definition mod_bits (m : mods) : Z :=
  Z.b2z (m_shift m) + 4 * Z.b2z (m_ctrl m) + 8 * Z.b2z (m_alt m) + 64 * Z.b2z (m_caps m).
Definition keys_are (kb : keyboard) (p : ps2) : Prop :=
  kbd_modifiers p = mod_bits (kb_mods kb) /\ kbd_e0 p = Z.b2z (kb_prefix kb).

(** ** The decoder *)

Lemma scan_bits sc : 0 <= sc < 256 -> Z.land sc 127 = sc mod 128 /\ negb (Z.land sc 128 =? 0) = negb (sc <? 128).
Proof.
  intros H. split; [by apply (land_low sc 7)|].
  by apply eqb_prop, (all_below (fun sc => Bool.eqb (negb (Z.land sc 128 =? 0)) (negb (sc <? 128))) 256); [vm_compute|].
Qed.

Lemma modifier_of key : 0 <= key < 128 ->
  modifier_scancodes key = if is_shift key then 1 else if key =? 29 then 4 else if key =? 56 then 8 else if key =? 58 then 64 else 0.
Proof.
  intros H. apply Z.eqb_eq. by apply (all_below (fun key => modifier_scancodes key =? if is_shift key then 1
    else if key =? 29 then 4 else if key =? 56 then 8 else if key =? 58 then 64 else 0) 128); [vm_compute|].
Qed.

Lemma key_char_rune key shift caps : 0 <= key < 128 ->
  key_char key shift caps = let c := key_rune key shift caps in if c =? 0 then None else Some c.
Proof.
  intros H. eapply bool_decide_eq_true.
  refine (all_below (fun key => bool_decide (key_char key shift caps =
    let c := key_rune key shift caps in if c =? 0 then None else Some c)) 128 _ key H).
  destruct shift, caps; by vm_compute.
Qed.

Lemma key_rune_range key shift caps : 0 <= key < 128 -> 0 <= key_rune key shift caps < 128.
Proof.
  intros H. assert ((0 <=? key_rune key shift caps) && (key_rune key shift caps <? 128) = true); [|lia].
  apply (all_below (fun key => (0 <=? key_rune key shift caps) && (key_rune key shift caps <? 128)) 128); [|done].
  destruct shift, caps; by vm_compute.
Qed.

Lemma utf8_ascii c : 0 <= c < 128 -> utf8 c = [c].
Proof. intros H. unfold utf8. rewrite (proj2 (Z.ltb_lt _ _)) by lia. by rewrite u8_small by lia. Qed.

(** The effect of the bytes [scs] on the variables of the keyboard. *)
Definition kbd_after (kb : keyboard) (scs : list Z) (p p' : ps2) : Prop :=
  let '(kb', text) := type_keys kb scs in
  exists r, p' = set_kbd_ring r (set_keys (mod_bits (kb_mods kb')) (Z.b2z (kb_prefix kb')) p) /\ ring_ok r /\
    rcap r = rcap (kbd_ring_buf p) /\
    contents r = lastn (Z.to_nat (rcap (kbd_ring_buf p))) (contents (kbd_ring_buf p) ++ text).

Lemma lastn_contents r : ring_ok r -> lastn (Z.to_nat (rcap r)) (contents r) = contents r.
Proof.
  intros Hr. apply lastn_small. pose proof (length_contents r Hr). pose proof (ring_len r Hr). lia.
Qed.

Lemma kbd_after_nil kb p : keys_are kb p -> ring_ok (kbd_ring_buf p) -> kbd_after kb [] p p.
Proof.
  intros [H1 H2] Hr. exists (kbd_ring_buf p). rewrite app_nil_r, lastn_contents by done. rewrite <- H1, <- H2.
  split_and!; try done. by destruct p.
Qed.

Lemma type_keys_app kb s1 s2 :
  type_keys kb (s1 ++ s2) =
  ((type_keys (type_keys kb s1).1 s2).1, (type_keys kb s1).2 ++ (type_keys (type_keys kb s1).1 s2).2).
Proof.
  revert kb. induction s1 as [|sc s1 IH]; intros kb; cbn; [by destruct (type_keys kb s2)|].
  destruct (key_in kb sc) as [kb1 t]. rewrite IH. destruct (type_keys kb1 s1) as [kb2 ts]. cbn. by rewrite app_assoc.
Qed.

Lemma kbd_after_keys kb scs p p' : kbd_after kb scs p p' -> keys_are (type_keys kb scs).1 p' /\ ring_ok (kbd_ring_buf p').
Proof. unfold kbd_after. destruct (type_keys kb scs) as [kb' t]. by intros (r & -> & Hr & _). Qed.

Lemma kbd_after_app kb s1 s2 p p1 p2 :
  kbd_after kb s1 p p1 -> kbd_after (type_keys kb s1).1 s2 p1 p2 -> kbd_after kb (s1 ++ s2) p p2.
Proof.
  unfold kbd_after. rewrite type_keys_app. destruct (type_keys kb s1) as [kb1 t1]. cbn [fst snd].
  destruct (type_keys kb1 s2) as [kb2 t2]. intros (r1 & -> & Hr1 & Hc1 & E1) (r2 & -> & Hr2 & Hc2 & E2). cbn in *.
  exists r2. split_and!; [done|done|congruence|]. by rewrite E2, Hc1, E1, lastn_app, app_assoc.
Qed.

Lemma kbd_put_rune_run c p : 0 <= c < 128 -> ring_ok (kbd_ring_buf p) ->
  wp (kbd_put_rune c) p (fun _ p' => exists r, p' = set_kbd_ring r p /\ ring_ok r /\ rcap r = rcap (kbd_ring_buf p) /\
    contents r = lastn (Z.to_nat (rcap (kbd_ring_buf p))) (contents (kbd_ring_buf p) ++ [c])).
Proof.
  intros Hc Hr. unfold kbd_put_rune. rewrite utf8_ascii by done. apply wp_zoom.
  eapply wp_mono; [by apply ring_write_spec|]. intros _ r (H1 & H2 & H3). by exists r.
Qed.

(** No character: only the modifiers and the prefix move. *)
Lemma kbd_after_quiet kb kb' sc p m e :
  ring_ok (kbd_ring_buf p) -> key_in kb sc = (kb', []) -> m = mod_bits (kb_mods kb') -> e = Z.b2z (kb_prefix kb') ->
  kbd_after kb [sc] p (set_keys m e p).
Proof.
  intros Hr Hk -> ->. unfold kbd_after. cbn [type_keys]. rewrite Hk. exists (kbd_ring_buf p).
  cbn [app]. rewrite app_nil_r, lastn_contents by done. done.
Qed.

Lemma ctrl_bits m d : (if negb d then Z.land (mod_bits m) (u8 (Z.lnot 4)) else Z.lor (mod_bits m) 4) =
  mod_bits (Mods (m_shift m) d (m_alt m) (m_caps m)).
Proof. by destruct m as [[] [] [] []], d. Qed.
Lemma alt_bits m d : (if negb d then Z.land (mod_bits m) (u8 (Z.lnot 8)) else Z.lor (mod_bits m) 8) =
  mod_bits (Mods (m_shift m) (m_ctrl m) d (m_caps m)).
Proof. by destruct m as [[] [] [] []], d. Qed.
Lemma shift_bits m d : (if negb d then Z.land (mod_bits m) (u8 (Z.lnot 1)) else Z.lor (mod_bits m) 1) =
  mod_bits (Mods d (m_ctrl m) (m_alt m) (m_caps m)).
Proof. by destruct m as [[] [] [] []], d. Qed.
Lemma caps_bits m (d : bool) : (if d then Z.lxor (mod_bits m) 64 else mod_bits m) =
  mod_bits (Mods (m_shift m) (m_ctrl m) (m_alt m) (xorb (m_caps m) d)).
Proof. by destruct m as [[] [] [] []], d. Qed.
Lemma held_bits m : negb (Z.land (mod_bits m) KBD_MOD_SHIFT =? 0) = m_shift m /\ negb (Z.land (mod_bits m) KBD_MOD_CAPS =? 0) = m_caps m.
Proof. by destruct m as [[] [] [] []]. Qed.

(** A modifier key after which the keyboard is [kb']. *)
Lemma set_modifier_run kb kb' sc bit p p0 d :
  ring_ok (kbd_ring_buf p0) -> key_in kb sc = (kb', []) ->
  p = set_keys (mod_bits (kb_mods kb)) (Z.b2z (kb_prefix kb')) p0 ->
  (if negb d then Z.land (mod_bits (kb_mods kb)) (u8 (Z.lnot bit)) else Z.lor (mod_bits (kb_mods kb)) bit) = mod_bits (kb_mods kb') ->
  wp (set_modifier (negb d) bit) p (fun _ p' => kbd_after kb [sc] p0 p').
Proof.
  intros Hr Hk -> Hb. unfold set_modifier. apply wp_modify. cbn [kbd_modifiers set_keys kbd_e0]. rewrite Hb.
  exact (kbd_after_quiet kb kb' sc p0 _ _ Hr Hk eq_refl eq_refl).
Qed.

Lemma kbd_handle_scancode_run kb sc p : 0 <= sc < 256 -> keys_are kb p -> ring_ok (kbd_ring_buf p) ->
  wp (kbd_handle_scancode sc) p (fun _ p' => kbd_after kb [sc] p p').
Proof.
  intros Hsc [Hm He] Hr. unfold kbd_handle_scancode. destruct (Z.eqb_spec sc 224) as [->|Hne].
  { apply wp_modify. rewrite Hm. by apply (kbd_after_quiet kb (Keyboard (kb_mods kb) true)). }
  destruct (scan_bits sc Hsc) as [-> ->]. set (key := sc mod 128). assert (0 <= key < 128) as Hkey by (apply Z.mod_pos_bound; lia).
  assert (scan_event (kb_prefix kb) sc = Some (Key (kb_prefix kb) key (sc <? 128))) as Hev.
  { unfold scan_event. by rewrite (proj2 (Z.eqb_neq _ _)). }
  assert (forall m c, press (Key (kb_prefix kb) key (sc <? 128)) (kb_mods kb) = (m, c) ->
    key_in kb sc = (Keyboard m false, match c with Some c => [c] | None => [] end)) as Hin.
  { intros m c H. unfold key_in. by rewrite Hev, H. }
  assert (p = set_keys (mod_bits (kb_mods kb)) (Z.b2z (kb_prefix kb)) p) as Hp by (rewrite <- Hm, <- He; by destruct p).
  destruct kb as [m pre]. cbn [kb_mods kb_prefix] in *. wp_step. apply wp_gets. rewrite He.
  destruct pre; cbn [Z.b2z negb Z.eqb].
  - wp_step. apply wp_modify. unfold press in Hin. cbn [k_ext k_code k_down] in Hin.
    destruct (Z.eqb_spec key 29) as [E1|E1]; [|destruct (Z.eqb_spec key 56) as [E2|E2]].
    + eapply set_modifier_run; [done|exact (Hin _ None eq_refl)|by rewrite Hm|apply ctrl_bits].
    + eapply set_modifier_run; [done|exact (Hin _ None eq_refl)|by rewrite Hm|apply alt_bits].
    + wp_step. rewrite Hm. eapply kbd_after_quiet; [done|exact (Hin _ None eq_refl)|done|done].
  - unfold press in Hin. cbn [k_ext k_code k_down] in Hin. rewrite (modifier_of key Hkey).
    destruct (Z.eqb_spec key 58) as [E1|E1].
    { assert (wp (if sc <? 128 then mmodify (fun p => set_keys (Z.lxor (kbd_modifiers p) KBD_MOD_CAPS) (kbd_e0 p) p) else mret tt) p
        (fun _ p' => p' = set_keys (if sc <? 128 then Z.lxor (mod_bits m) 64 else mod_bits m) 0 p)) as H.
      { destruct (sc <? 128); [apply wp_modify; by rewrite Hm, He|apply wp_ret; exact Hp]. }
      rewrite negb_involutive. eapply wp_mono; [exact H|]. intros _ p' ->. rewrite caps_bits.
      eapply kbd_after_quiet; [done|exact (Hin _ None eq_refl)|done|done]. }
    destruct (is_shift key) eqn:E2; [|destruct (Z.eqb_spec key 29) as [E3|E3]; [|destruct (Z.eqb_spec key 56) as [E4|E4]]].
    + cbn [Z.eqb negb]. eapply set_modifier_run; [done|exact (Hin _ None eq_refl)|exact Hp|apply shift_bits].
    + cbn [Z.eqb negb]. eapply set_modifier_run; [done|exact (Hin _ None eq_refl)|exact Hp|apply ctrl_bits].
    + cbn [Z.eqb negb]. eapply set_modifier_run; [done|exact (Hin _ None eq_refl)|exact Hp|apply alt_bits].
    + cbn [Z.eqb negb]. destruct (sc <? 128); cbn [negb].
      2:{ wp_step. rewrite Hp at 2. eapply kbd_after_quiet; [done|exact (Hin _ None eq_refl)|done|done]. }
      wp_step. apply wp_gets. rewrite Hm. destruct (held_bits m) as [-> ->].
      rewrite key_char_rune in Hin by done. cbv zeta in Hin.
      pose proof (key_rune_range key (m_shift m) (m_caps m) Hkey) as Hc. set (c := key_rune key (m_shift m) (m_caps m)) in *.
      destruct (Z.eqb_spec c 0) as [E0|E0]; cbn [negb].
      * wp_step. rewrite Hp at 2. eapply kbd_after_quiet; [done|exact (Hin _ None eq_refl)|done|done].
      * eapply wp_mono; [by apply kbd_put_rune_run|]. intros _ p' (r & -> & H1 & H2 & H3).
        unfold kbd_after. cbn [type_keys]. rewrite (Hin _ _ eq_refl). exists r. cbn [kb_mods kb_prefix]. rewrite Hp at 1. done.
Qed.

(** ** The controller *)

(** The variables of ps2.c and the bytes waiting in the controller, each with
    the mark of the mouse. *)
Record ps2_machine := Pm { pm : ps2; pm_queue : list (bool * Z) }.

Definition status (q : list (bool * Z)) : Z :=
  match q with [] => 0 | (aux, _) :: _ => if aux : bool then 33 else 1 end.
Definition queue_in (port : Z) : M ps2_machine Z := fun s =>
  if port =? PS2_STATUS_PORT then Ok (status (pm_queue s), s)
  else if port =? PS2_DATA_PORT then
    match pm_queue s with [] => Ok (0, s) | (_, b) :: q => Ok (b, Pm (pm s) q) end
  else Ok (0, s).

#[local] Abbreviation put_pm := (fun p s => Pm p (pm_queue s)).
Definition kbd_irq : M ps2_machine unit := kbd_interrupt pm put_pm queue_in.
Definition mouse_irq : M ps2_machine unit := mouse_interrupt pm put_pm queue_in.

Fixpoint times (n : nat) (m : M ps2_machine unit) : M ps2_machine unit :=
  match n with O => mret tt | S n => m;; times n m end.

(** The bytes [bs] given to a handler one by one. *)
Fixpoint feed (h : Z -> M ps2 unit) (bs : list Z) : M ps2 unit :=
  match bs with [] => mret tt | b :: bs => h b;; feed h bs end.

Definition marked (aux : bool) (bs : list Z) : list (bool * Z) := pair aux <$> bs.
(** Nothing for the handler: no byte, or one of the other device. *)
Definition stops (aux : bool) (q : list (bool * Z)) : Prop :=
  match q with [] => True | (a, _) :: _ => a = negb aux end.

Section Drain.
Context (aux : bool) (h : Z -> M ps2 unit) (round : Z -> M ps2_machine (option unit)).
Context (Hround : forall i p b q, round i (Pm p ((aux, b) :: q)) =
  match h b p with Ok (_, p') => Ok (None, Pm p' q) | Stuck w => Stuck w end).
Context (Hstop : forall i p q, stops aux q -> round i (Pm p q) = Ok (Some tt, Pm p q)).

Lemma rounds_run k i p bs rest p' : stops aux rest ->
  feed h (take k bs) p = Ok (tt, p') ->
  exists r, mfor k round i (Pm p (marked aux bs ++ rest)) = Ok (r, Pm p' (marked aux (drop k bs) ++ rest)).
Proof.
  intros Hs. revert i p bs. induction k as [|k IH]; intros i p bs Hf; [injection Hf as <-; by exists None|].
  cbn [mfor]. unfold mbind, M_bind. destruct bs as [|b bs]; cbn [marked fmap list_fmap app drop] in *.
  - injection Hf as <-. rewrite Hstop by done. by exists (Some tt).
  - rewrite Hround. cbn [take feed] in Hf. unfold mbind, M_bind in Hf.
    destruct (h b p) as [[[] p1]|w]; [|done]. by apply IH.
Qed.

Lemma feed_app b1 b2 p : feed h (b1 ++ b2) p = (feed h b1;; feed h b2) p.
Proof.
  revert p. induction b1 as [|b b1 IH]; intros p; [done|]. cbn [app feed]. unfold mbind, M_bind.
  destruct (h b p) as [[[] p1]|w]; [|done]. rewrite IH. done.
Qed.

(** Interrupts, of at most 64 bytes each, empty the queue of the device. *)
Lemma times_run n p bs rest p' : stops aux rest -> (length bs <= 64 * n)%nat -> feed h bs p = Ok (tt, p') ->
  times n (mfor 64 round 0;; mret tt) (Pm p (marked aux bs ++ rest)) = Ok (tt, Pm p' rest).
Proof.
  intros Hs. revert p bs. induction n as [|n IH]; intros p bs Hl Hf.
  { destruct bs; [|cbn in Hl; lia]. by injection Hf as <-. }
  cbn [times]. unfold mbind at 1, M_bind at 1. rewrite <- (take_drop 64 bs), feed_app in Hf.
  unfold mbind, M_bind in Hf. destruct (feed h (take 64 bs) p) as [[[] p1]|w] eqn:E; [|done].
  destruct (rounds_run 64 0 p bs rest p1 Hs E) as (r & Er). unfold mbind at 1, M_bind at 1. rewrite Er.
  apply (IH p1 (drop 64 bs)); [rewrite length_drop; lia|done].
Qed.
End Drain.

#[local] Arguments kbd_handle_scancode : simpl never.
#[local] Arguments mouse_byte : simpl never.

Lemma kbd_round_run i p b q : kbd_round pm put_pm queue_in i (Pm p ((false, b) :: q)) =
  match kbd_handle_scancode b p with Ok (_, p') => Ok (None, Pm p' q) | Stuck w => Stuck w end.
Proof. unfold kbd_round, mbind, M_bind, queue_in, mzoom, PS2_STATUS_OUTPUT_FULL, PS2_STATUS_AUX. cbn.
  change (Z.land 1 1) with 1. change (Z.land 1 32) with 0. cbn. by destruct (kbd_handle_scancode b p) as [[[] p']|w]. Qed.

Lemma kbd_round_stop i p q : stops false q -> kbd_round pm put_pm queue_in i (Pm p q) = Ok (Some tt, Pm p q).
Proof. destruct q as [|[a b] q]; [done|]. by intros ->. Qed.

Lemma mouse_round_run i p b q : mouse_round pm put_pm queue_in i (Pm p ((true, b) :: q)) =
  match mouse_byte b p with Ok (_, p') => Ok (None, Pm p' q) | Stuck w => Stuck w end.
Proof. unfold mouse_round, mbind, M_bind, queue_in, mzoom, PS2_STATUS_OUTPUT_FULL, PS2_STATUS_AUX. cbn.
  change (Z.land 33 1) with 1. change (Z.land 33 32) with 32. cbn. by destruct (mouse_byte b p) as [[[] p']|w]. Qed.

Lemma mouse_round_stop i p q : stops true q -> mouse_round pm put_pm queue_in i (Pm p q) = Ok (Some tt, Pm p q).
Proof. destruct q as [|[a b] q]; [done|]. by intros ->. Qed.

Lemma kbd_feed kb scs p : Forall (fun sc => 0 <= sc < 256) scs -> keys_are kb p -> ring_ok (kbd_ring_buf p) ->
  exists p', feed kbd_handle_scancode scs p = Ok (tt, p') /\ kbd_after kb scs p p'.
Proof.
  intros Hs. revert kb p. induction Hs as [|sc scs Hsc Hs IH]; intros kb p Hk Hr.
  { exists p. split; [done|by apply kbd_after_nil]. }
  pose proof (kbd_handle_scancode_run kb sc p Hsc Hk Hr) as Hw. unfold wp in Hw. cbn [feed]. unfold mbind, M_bind.
  destruct (kbd_handle_scancode sc p) as [[[] p1]|w]; [|done].
  destruct (kbd_after_keys _ _ _ _ Hw) as [Hk1 Hr1]. destruct (IH _ p1 Hk1 Hr1) as (p2 & E2 & H2).
  exists p2. split; [done|]. by eapply (kbd_after_app kb [sc]).
Qed.

(** C38: The keyboard types what the keys mean.  Enough interrupts take every
    scancode waiting for the keyboard, stop at a byte of the mouse, and leave in
    the ring the newest bytes of the text typed: letters follow Shift and
    CapsLock together, other keys Shift alone, prefixed keys and releases type
    nothing, and Shift, Ctrl, Alt and CapsLock are as the keys pressed, released
    or toggled them.  How the bytes are split over interrupts plays no part. *)
Theorem kbd_interrupt_types n kb scs rest p :
  Forall (fun sc => 0 <= sc < 256) scs -> (length scs <= 64 * n)%nat -> stops false rest ->
  keys_are kb p -> ring_ok (kbd_ring_buf p) ->
  wp (times n kbd_irq) (Pm p (marked false scs ++ rest)) (fun _ s' =>
    let '(kb', text) := type_keys kb scs in
    pm_queue s' = rest /\ keys_are kb' (pm s') /\ ring_ok (kbd_ring_buf (pm s')) /\
    contents (kbd_ring_buf (pm s')) = lastn (Z.to_nat (rcap (kbd_ring_buf p))) (contents (kbd_ring_buf p) ++ text) /\
    pm s' = set_kbd_ring (kbd_ring_buf (pm s')) (set_keys (kbd_modifiers (pm s')) (kbd_e0 (pm s')) p)).
Proof.
  intros Hs Hl Hrest Hk Hr. destruct (kbd_feed kb scs p Hs Hk Hr) as (p' & E & Ha).
  eapply wp_run; [exact (times_run false kbd_handle_scancode _ kbd_round_run kbd_round_stop n p scs rest p' Hrest Hl E)|].
  pose proof (kbd_after_keys _ _ _ _ Ha) as [H1 H2]. unfold kbd_after in Ha. destruct (type_keys kb scs) as [kb' text].
  destruct Ha as (r & -> & Hr' & _ & E'). split_and!; try done.
Qed.

(** ** Packets of the mouse *)

(** A number as text. *)
Definition show_int (z : Z) : list Z := (if z <? 0 then [45] else []) ++ (dec_char <$> digits 10 (Z.abs z)).

Lemma puti_run z : - 2 ^ 31 < z < 2 ^ 31 -> puti z = Some (show_int z).
Proof.
  intros Hz. unfold puti, show_int. rewrite (proj2 (Z.eqb_neq z _)) by lia.
  destruct (Z.eqb_spec z 0) as [->|Hne]; [done|]. unfold digits. rewrite (proj2 (Z.eqb_neq (Z.abs z) 0)) by lia.
  destruct (loop_total (fun '(v, d) => if 0 <? v then inl (v / 10, (48 + v mod 10) :: d) else inr d)
    (fun '(v, d) => exists k, 0 <= v < 2 ^ Z.of_nat k /\ (dec_char <$> rev (lows k 10 v)) ++ d = dec_char <$> rev (lows 64 10 (Z.abs z)))
    (fun d => d = dec_char <$> rev (lows 64 10 (Z.abs z))) (fun '(v, _) => v) (Z.abs z, [])) as (d & -> & ->); [| |lia|done].
  - intros [v d] (k & Hv & E). destruct (Z.ltb_spec 0 v) as [Hp|Hp].
    + destruct (lows_step 10 ltac:(lia) k v ltac:(lia)) as (k' & -> & El & Hk' & Hlt). split; [|lia].
      exists k'. split; [done|]. rewrite <- E, El. cbn [rev]. by rewrite fmap_app, <- app_assoc.
    + assert (v = 0) as -> by lia. rewrite <- E. by destruct k.
  - exists 64%nat. split; [|by rewrite app_nil_r]. lia.
Qed.

Lemma show_int_length z : - 2 ^ 31 < z < 2 ^ 31 -> (length (show_int z) <= 11)%nat.
Proof.
  intros Hz. unfold show_int. rewrite length_app, length_fmap.
  pose proof (digits_length 10 ltac:(lia) (Z.abs z) 10 ltac:(lia) ltac:(lia)). destruct (z <? 0); cbn [length]; lia.
Qed.

Record packet := Packet { pk_flags : Z; pk_x : Z; pk_y : Z }.
Definition packet_ok (k : packet) : Prop :=
  0 <= pk_flags k < 256 /\ 0 <= pk_x k < 256 /\ 0 <= pk_y k < 256 /\ Z.testbit (pk_flags k) 3 = true.
Definition packet_bytes (k : packet) : list Z := [pk_flags k; pk_x k; pk_y k].

(** A movement: none on overflow; with the sign flag nine bits of two's
    complement; without it the code still reads the byte as signed. *)
Definition move (b : Z) (overflow sign : bool) : Z :=
  if overflow then 0 else if sign then b - 256 else if b <? 128 then b else b - 256.
Definition move_x (k : packet) : Z := move (pk_x k) (Z.testbit (pk_flags k) 6) (Z.testbit (pk_flags k) 4).
Definition move_y (k : packet) : Z := - move (pk_y k) (Z.testbit (pk_flags k) 7) (Z.testbit (pk_flags k) 5).
Definition packet_line (k : packet) : list Z :=
  [109; 32] ++ show_int (move_x k) ++ [32] ++ show_int (move_y k) ++ [32] ++ show_int (pk_flags k mod 8) ++ [10].

Lemma move_range b o s : 0 <= b < 256 -> - 256 <= move b o s < 128.
Proof. intros H. unfold move. destruct o, s; try lia; destruct (Z.ltb_spec b 128); lia. Qed.

Lemma delta_of_byte b : 0 <= b < 256 ->
  i32 (Z.lor (u32 (i8 b)) 4294967040) = b - 256 /\ i8 b = if b <? 128 then b else b - 256.
Proof.
  intros H. split; apply Z.eqb_eq.
  - by apply (all_below (fun b => i32 (Z.lor (u32 (i8 b)) 4294967040) =? b - 256) 256); [vm_compute|].
  - by apply (all_below (fun b => i8 b =? if b <? 128 then b else b - 256) 256); [vm_compute|].
Qed.

Lemma flag_bit f k : 0 <= f < 256 -> 0 <= k < 8 -> (Z.land f (2 ^ k) =? 0) = negb (Z.testbit f k).
Proof.
  intros Hf Hk. apply eqb_prop.
  apply (all_below (fun f => Bool.eqb (Z.land f (2 ^ k) =? 0) (negb (Z.testbit f k))) 256); [|done].
  assert (k ∈ seqZ 0 8) as Hin by (apply elem_of_seqZ; lia). revert k Hin Hk. clear.
  assert (forallb (fun k => forallb (fun f => Bool.eqb (Z.land f (2 ^ k) =? 0) (negb (Z.testbit f k))) (seqZ 0 256)) (seqZ 0 8) = true) as H
    by by vm_compute.
  intros k Hin _. rewrite forallb_forall in H. by apply H, list_elem_of_In.
Qed.

Lemma mouse_delta_move f b o s : 0 <= f < 256 -> 0 <= b < 256 -> 0 <= o < 8 -> 0 <= s < 8 ->
  mouse_delta f b (2 ^ o) (2 ^ s) = move b (Z.testbit f o) (Z.testbit f s).
Proof.
  intros Hf Hb Ho Hs. unfold mouse_delta, move. rewrite !flag_bit, !negb_involutive by done.
  by destruct (delta_of_byte b Hb) as [-> ->].
Qed.

(** The mouse between two packets. *)
Record mouse_ready (p : ps2) : Prop := {
  mr_idx : mouse_idx p = 0;
  mr_buf : length (mouse_buf p) = 3%nat;
  mr_on : mouse_enabled p <> 0;
  mr_ring : ring_ok (mouse_ring_buf p)
}.

(** The effect of the packets [ks]. *)
Definition mouse_after (ks : list packet) (p p' : ps2) : Prop :=
  exists r buf, p' = set_mouse_ring r (set_packet buf 0 (set_mouse
      (foldl (fun x k => x + move_x k) (mouse_x p) ks) (foldl (fun y k => y + move_y k) (mouse_y p) ks)
      (foldl (fun _ k => pk_flags k mod 8) (mouse_buttons p) ks) p)) /\
    length buf = 3%nat /\ ring_ok r /\ rcap r = rcap (mouse_ring_buf p) /\
    contents r = lastn (Z.to_nat (rcap (mouse_ring_buf p))) (contents (mouse_ring_buf p) ++ concat (packet_line <$> ks)).

Lemma mouse_packet_run k b p : packet_ok k -> mouse_ready p -> b = packet_bytes k ->
  Z.abs (mouse_x p) + 256 < 2 ^ 31 -> Z.abs (mouse_y p) + 256 < 2 ^ 31 ->
  wp mouse_packet (set_packet b 0 p) (fun _ p' => mouse_after [k] p p').
Proof.
  intros (Hf & Hx & Hy & H3) [_ _ Hon Hr] -> Hpx Hpy. unfold mouse_packet. wp_step. apply wp_get. cbn.
  change 8 with (2 ^ 3) at 1. rewrite flag_bit, H3 by lia. cbn [negb].
  change MOUSE_X_OVERFLOW with (2 ^ 6). change MOUSE_X_SIGN with (2 ^ 4).
  change MOUSE_Y_OVERFLOW with (2 ^ 7). change MOUSE_Y_SIGN with (2 ^ 5). rewrite !mouse_delta_move by lia.
  change (move (pk_x k) _ _) with (move_x k). change (- move (pk_y k) _ _) with (move_y k).
  assert (- 256 <= move_x k < 128) as Hdx by by apply move_range.
  assert (- 128 < move_y k <= 256) as Hdy by (unfold move_y; pose proof (move_range (pk_y k) (Z.testbit (pk_flags k) 7) (Z.testbit (pk_flags k) 5) Hy); lia).
  rewrite (land_low _ 3) by lia. change (2 ^ 3) with 8. assert (0 <= pk_flags k mod 8 < 8) as Hb by (apply Z.mod_pos_bound; lia).
  rewrite (proj2 (Z.eqb_neq (mouse_enabled p) 0)) by done. cbn [negb]. unfold add_i32.
  assert (forall a d, Z.abs a + 256 < 2 ^ 31 -> - 256 <= d <= 256 -> (- 2 ^ 31 <=? a + d) && (a + d <? 2 ^ 31) = true) as Hadd.
  { intros a d Ha Hd. rewrite (proj2 (Z.leb_le _ _)), (proj2 (Z.ltb_lt _ _)) by lia. done. }
  wp_step. rewrite (Hadd (mouse_x p) (move_x k)) by lia. wp_step. wp_step. rewrite (Hadd (mouse_y p) (move_y k)) by lia.
  wp_step. wp_step. apply wp_modify. wp_step. unfold put3. rewrite !puti_run by lia.
  eapply wp_lift; [reflexivity|].
  match goal with |- wp (mzoom _ _ (ring_write ?t ?n)) _ _ =>
    change t with (packet_line k); change n with (Z.of_nat (length (packet_line k))) end.
  assert (Z.of_nat (length (packet_line k)) < 2 ^ 32) as Hlen.
  { unfold packet_line. rewrite !length_app. pose proof (show_int_length (move_x k) ltac:(lia)).
    pose proof (show_int_length (move_y k) ltac:(lia)). pose proof (show_int_length (pk_flags k mod 8) ltac:(lia)). cbn [length]. lia. }
  apply wp_zoom. eapply wp_mono; [by apply ring_write_spec|]. intros _ r (H1 & H4 & H5).
  exists r, (packet_bytes k). split_and!; try done. cbn [fmap list_fmap concat]. by rewrite app_nil_r.
Qed.

Lemma mouse_byte_run d p : 0 <= mouse_idx p < 2 -> mouse_idx p <> 0 \/ Z.land d 8 <> 0 ->
  mouse_byte d p = Ok (tt, set_packet (<[Z.to_nat (mouse_idx p) := d]> (mouse_buf p)) (mouse_idx p + 1) p).
Proof.
  intros Hi Hd. unfold mouse_byte, mbind, M_bind, mget.
  assert ((mouse_idx p =? 0) && (Z.land d 8 =? 0) = false) as ->.
  { apply andb_false_iff. rewrite !Z.eqb_neq. exact Hd. }
  rewrite (proj2 (Z.leb_gt _ _)) by lia. unfold mmodify. cbn [mouse_idx set_packet].
  rewrite u8_small by lia. by rewrite (proj2 (Z.eqb_neq (mouse_idx p + 1) 3)) by lia.
Qed.

Lemma mouse_byte_last d p : mouse_idx p = 2 ->
  mouse_byte d p = mouse_packet (set_packet (<[2%nat := d]> (mouse_buf p)) 0 p).
Proof. intros Hi. unfold mouse_byte, mbind, M_bind, mget, mmodify. rewrite Hi. change (3 <=? 2) with false. cbn [Z.eqb andb mouse_idx set_packet]. by rewrite Hi. Qed.

(** A byte that cannot begin a packet is dropped. *)
Lemma mouse_byte_noise d p : mouse_idx p = 0 -> Z.land d 8 = 0 -> mouse_byte d p = Ok (tt, p).
Proof. intros Hi Hd. unfold mouse_byte, mbind, M_bind, mget. rewrite Hi, Hd. reflexivity. Qed.

Lemma packet_feed k p : packet_ok k -> mouse_ready p ->
  Z.abs (mouse_x p) + 256 < 2 ^ 31 -> Z.abs (mouse_y p) + 256 < 2 ^ 31 ->
  exists p', feed mouse_byte (packet_bytes k) p = Ok (tt, p') /\ mouse_after [k] p p'.
Proof.
  intros Hk Hr Hpx Hpy. pose proof Hr as [Hi Hb _ _]. pose proof Hk as (Hf & _ & _ & H3).
  pose proof (mouse_packet_run k _ p Hk Hr eq_refl Hpx Hpy) as Hw. unfold wp in Hw.
  destruct (mouse_packet _) as [[[] p']|w] eqn:E in Hw; [|done]. exists p'. split; [|done].
  assert (Z.land (pk_flags k) 8 <> 0) as H8.
  { apply Z.eqb_neq. change 8 with (2 ^ 3). by rewrite flag_bit, H3 by lia. }
  unfold packet_bytes. cbn [feed]. unfold mbind, M_bind.
  rewrite mouse_byte_run by (rewrite ?Hi; tauto || lia). rewrite mouse_byte_run by (cbn; rewrite ?Hi; lia).
  rewrite mouse_byte_last by (cbn; rewrite Hi; done). cbn [mouse_buf mouse_idx set_packet]. rewrite Hi.
  destruct (mouse_buf p) as [|a [|b [|c []]]] eqn:Eb; try done.
  match goal with |- context [mouse_packet ?q] => change q with (set_packet (packet_bytes k) 0 p) end. by rewrite E.
Qed.

Lemma mouse_after_nil p : mouse_ready p -> mouse_after [] p p.
Proof.
  intros [Hi Hb _ Hr]. exists (mouse_ring_buf p), (mouse_buf p). cbn [foldl fmap list_fmap concat].
  rewrite app_nil_r, lastn_contents by done. rewrite <- Hi. split_and!; try done. by destruct p.
Qed.

Lemma mouse_after_ready ks p p' : mouse_ready p -> mouse_after ks p p' -> mouse_ready p'.
Proof. intros [_ _ Hon _] (r & buf & -> & Hb & Hr & _). by constructor. Qed.

Lemma mouse_after_app k1 k2 p p1 p2 : mouse_after k1 p p1 -> mouse_after k2 p1 p2 -> mouse_after (k1 ++ k2) p p2.
Proof.
  intros (r1 & b1 & -> & _ & _ & Hc1 & E1) (r2 & b2 & -> & Hb & Hr & Hc2 & E2). cbn in *.
  exists r2, b2. rewrite !foldl_app. split_and!; [done|done|done|congruence|].
  by rewrite E2, Hc1, E1, lastn_app, fmap_app, concat_app, app_assoc.
Qed.

(** What the mouse sends: packets, and between them bytes that cannot begin
    one. *)
Inductive mouse_item := Noise (b : Z) | Whole (k : packet).
Definition item_ok (i : mouse_item) : Prop :=
  match i with Noise b => 0 <= b < 256 /\ Z.testbit b 3 = false | Whole k => packet_ok k end.
Definition item_bytes (i : mouse_item) : list Z := match i with Noise b => [b] | Whole k => packet_bytes k end.
Definition item_packets (i : mouse_item) : list packet := match i with Noise _ => [] | Whole k => [k] end.

Lemma item_feed i p : item_ok i -> mouse_ready p ->
  Z.abs (mouse_x p) + 256 < 2 ^ 31 -> Z.abs (mouse_y p) + 256 < 2 ^ 31 ->
  exists p', feed mouse_byte (item_bytes i) p = Ok (tt, p') /\ mouse_after (item_packets i) p p'.
Proof.
  intros Hi Hr Hx Hy. destruct i as [b|k]; [|by apply packet_feed]. destruct Hi as [Hb H3]. exists p.
  split; [|by apply mouse_after_nil]. cbn [item_bytes feed]. unfold mbind, M_bind.
  rewrite mouse_byte_noise; [done|apply Hr|]. apply Z.eqb_eq. change 8 with (2 ^ 3). by rewrite flag_bit, H3 by lia.
Qed.

(** A packet moves the pointer by at most 256 each way. *)
Lemma item_move i p p' : item_ok i -> mouse_after (item_packets i) p p' ->
  Z.abs (mouse_x p') <= Z.abs (mouse_x p) + 256 /\ Z.abs (mouse_y p') <= Z.abs (mouse_y p) + 256.
Proof.
  intros Hi (r & b & -> & _). destruct i as [b'|k]; cbn; [lia|]. destruct Hi as (_ & Hx & Hy & _).
  unfold move_x, move_y. pose proof (move_range (pk_x k) (Z.testbit (pk_flags k) 6) (Z.testbit (pk_flags k) 4) Hx).
  pose proof (move_range (pk_y k) (Z.testbit (pk_flags k) 7) (Z.testbit (pk_flags k) 5) Hy). lia.
Qed.

Lemma items_feed its p : Forall item_ok its -> mouse_ready p ->
  Z.abs (mouse_x p) + 256 * Z.of_nat (length its) < 2 ^ 31 -> Z.abs (mouse_y p) + 256 * Z.of_nat (length its) < 2 ^ 31 ->
  exists p', feed mouse_byte (concat (item_bytes <$> its)) p = Ok (tt, p') /\
    mouse_after (concat (item_packets <$> its)) p p'.
Proof.
  intros Hs. revert p. induction Hs as [|i its Hi Hs IH]; intros p Hr Hx Hy.
  { exists p. split; [done|by apply mouse_after_nil]. }
  cbn [length] in Hx, Hy. destruct (item_feed i p Hi Hr) as (p1 & E1 & H1); [lia|lia|].
  pose proof (item_move i p p1 Hi H1). destruct (IH p1) as (p2 & E2 & H2); [by eapply mouse_after_ready|lia|lia|].
  exists p2. cbn [fmap list_fmap concat]. rewrite feed_app. unfold mbind, M_bind. rewrite E1. split; [exact E2|].
  by eapply mouse_after_app.
Qed.


(** ** Concrete inputs *)

Definition small_ps2 : ps2 := Ps2 (ring_init [0; 0; 0] 3) (ring_init [0; 0; 0; 0; 0; 0; 0; 0; 0; 0; 0; 0] 12) 5 5 0 1 0 0 [0; 0; 0] 0.

Lemma small_kbd_ok : ring_ok (kbd_ring_buf small_ps2).
Proof. by constructor. Qed.
Lemma small_mouse_ready : mouse_ready small_ps2.
Proof. by repeat constructor. Qed.

(** Shift held, A, Shift released, A, CapsLock, the right Ctrl, A, one: "AaA1"
    in a ring of three bytes, with a byte of the mouse behind them. *)
Lemma kbd_interrupt_types_witness :
  wp (times 1 kbd_irq) (Pm small_ps2 (marked false [42; 30; 158; 170; 30; 58; 186; 224; 29; 30; 2] ++ [(true, 9)]))
    (fun _ s' => pm_queue s' = [(true, 9)] /\ contents (kbd_ring_buf (pm s')) = [97; 65; 49] /\
      keys_are (Keyboard (Mods false true false true) false) (pm s')).
Proof.
  eapply wp_mono.
  - apply (kbd_interrupt_types 1 (Keyboard (Mods false false false false) false)); [by repeat constructor|cbn; lia|done|done|exact small_kbd_ok].
  - intros [] s' (H1 & H2 & _ & H4 & _). by rewrite H4.
Defined.

