(* ===== verification/AddrSpace.v ===== *)
(** * Building a user address space (src/src/kernel/proc.c, mem.c)

    The loader, [sys_brk] and [copy_user_pml4] all give an address space pages
    one by one: each takes a page, fills it, and maps it.  [built] says what an
    address space holds after a list of such pages, [page_for] which of them an
    address belongs to. *)
From S2P Require Import Prelude KMem Spinlock BuddySpec Buddy PageAlloc PageTable.

#[local] Open Scope Z_scope.

Section Pages.
Context `{PA : PageAllocator}.

(** A page for the user address [va]: allocated, filled, mapped; [false] when
    there is none. *)
Definition map_fresh (pml4 va flags : Z) (fill : Z -> M kst unit) : M kst bool :=
  page ← pa_alloc 1;
  if page =? 0 then mret false
  else
    fill page;;
    phys ← VIRT_TO_PHYS page;
    map_page_pml4 pml4 va phys flags;;
    mret true.

(** [for (va = first; va < last; va += PAGE_SIZE)], left when [body] fails. *)
Definition page_loop (last : Z) (body : Z -> M kst bool) (first : Z) : M kst bool :=
  mloop (fun va =>
    if va <? last then
      ok ← body va;
      if ok : bool then mret (inl (u64 (va + PAGE_SIZE))) else mret (inr false)
    else mret (inr true)) first.

End Pages.

(** ** Pages of an address space *)

(** A page of the image: its address, its flags, and its bytes. *)
Record upage := Upage { up_va : Z; up_flags : Z; up_byte : Z -> Z }.

(** The last page and frame for the address [va]. *)
Definition last_page (va : Z) (l : list (upage * Z)) : option (upage * Z) :=
  foldl (fun acc uf => if decide (same_page (up_va uf.1) va) then Some uf else acc) None l.

Lemma last_page_snoc va l u f :
  last_page va (l ++ [(u, f)]) = if decide (same_page (up_va u) va) then Some (u, f) else last_page va l.
Proof. unfold last_page. by rewrite foldl_app. Qed.

Lemma last_page_elem va l u f : last_page va l = Some (u, f) -> (u, f) ∈ l /\ same_page (up_va u) va.
Proof.
  induction l as [|[u' f'] l IH] using rev_ind; [done|]. rewrite last_page_snoc. case_decide.
  - intros [= -> ->]. split; [|done]. apply elem_of_app. right. by apply list_elem_of_singleton.
  - intros [Hin Hs]%IH. split; [|done]. apply elem_of_app. by left.
Qed.

(** Addresses of the pages from [first] up to [last]. *)
Definition page_range (first last : Z) : list Z := (fun i => first + 4096 * i) <$> seqZ 0 ((last - first) / 4096).

Lemma page_range_nil first : page_range first first = [].
Proof. unfold page_range. by rewrite Z.sub_diag. Qed.

Lemma page_range_snoc first va : first <= va -> first mod 4096 = 0 -> va mod 4096 = 0 ->
  page_range first (va + 4096) = page_range first va ++ [va].
Proof.
  intros Hle H1 H2. unfold page_range. apply Z_div_exact_2 in H1, H2; [|done..].
  replace ((va + 4096 - first) / 4096) with (Z.of_nat (S (Z.to_nat ((va - first) / 4096))))
    by (Z.to_euclidean_division_equations; lia).
  rewrite seqZ_S, fmap_app, Z2Nat.id by (Z.to_euclidean_division_equations; lia). f_equal. cbn. f_equal.
  Z.to_euclidean_division_equations; lia.
Qed.

Lemma length_page_range first last : length (page_range first last) = Z.to_nat ((last - first) / 4096).
Proof. unfold page_range. by rewrite length_fmap, length_seqZ. Qed.

Section Loops.
Context `{PA : PageAllocator}.

Lemma page_loop_spec (P : Z -> kst -> Prop) first last body s :
  0 <= first <= last -> last < 2 ^ 64 -> first mod 4096 = 0 -> last mod 4096 = 0 ->
  (forall va s, first <= va < last -> va mod 4096 = 0 -> P va s ->
     wp (body va) s (fun ok s' => ok = true /\ P (va + 4096) s')) ->
  P first s -> wp (page_loop last body first) s (fun ok s' => ok = true /\ P last s').
Proof.
  intros H1 H2 H3 H4 Hbody HP. unfold page_loop.
  apply (wp_mloop _ (fun va s => first <= va <= last /\ va mod 4096 = 0 /\ P va s) _ (fun va _ => last - va)); [|split_and!; lia || done|lia].
  intros va t (Hva & Hal & Hp). destruct (Z.ltb_spec va last) as [Hlt|Hge].
  - wp_step. eapply wp_mono; [apply Hbody; [lia|done|done]|]. intros ok t' [-> Hp']. wp_step.
    apply Z_div_exact_2 in Hal, H4; [|done..]. unfold PAGE_SIZE. rewrite u64_small by lia.
    split; [|lia]. split; [lia|]. split; [|done]. Z.to_euclidean_division_equations; lia.
  - wp_step. split; [done|]. by replace last with va by lia.
Qed.
End Loops.

Section Building.
Context `{PA : PageAllocator} (root : Z).
Context (T0 : gmap Z nat) (ps0 : list Z) (s0 : kst).
#[local] Abbreviation off := (hhdm_offset s0).

(** Of neither the free pages nor the tables. *)
Definition kept (a : Z) : Prop := ((a / 4096) ∉ ps0) /\ ~ table_pages T0 (a / 4096).

(** A frame taken from the free pages. *)
Record frame_ok (T : gmap Z nat) (ps : list Z) (f : Z) : Prop := {
  fr_aligned : f mod 4096 = 0;
  fr_range : 0 < f /\ f + 4096 <= 2 ^ 64;
  fr_was : (f / 4096) ∈ ps0;
  fr_now : ((f / 4096) ∉ ps) /\ ~ table_pages T (f / 4096)
}.

(** After the pages [l] have been added to the address space of [s0]. *)
Record built_in (l : list upage) (T : gmap Z nat) (ps fr : list Z) (s : kst) : Prop := {
  bi_state : pt_state root T ps s;
  bi_grows : grows T0 ps0 s0 T ps s;
  bi_room : (length ps0 <= 4 * length l + length ps)%nat;
  bi_length : length fr = length l;
  bi_nodup : NoDup fr;
  bi_frames : forall f, f ∈ fr -> frame_ok T ps f;
  bi_bytes : forall u f k, (u, f) ∈ zip l fr -> 0 <= k < 4096 -> rd8 (heap s) (f + k) = up_byte u k;
  bi_maps : forall va, translate (heap s) off root va =
    match last_page va (zip l fr) with
    | Some (u, f) => Some (leaf_entry (u64 (f - off)) (up_flags u))
    | None => translate (heap s0) off root va
    end
}.
Definition built (l : list upage) (s : kst) : Prop := exists T ps fr, built_in l T ps fr s.

Lemma built_start : pt_state root T0 ps0 s0 -> built [] s0.
Proof.
  intros Hs. exists T0, ps0, []. split; try done.
  - apply grows_refl.
  - constructor.
  - intros f Hf. by apply not_elem_of_nil in Hf.
  - intros u f k Hf. by apply not_elem_of_nil in Hf.
Qed.

(** A kept byte still has its first value. *)
Lemma built_kept l s a : built l s -> kept a -> rd8 (heap s) a = rd8 (heap s0) a.
Proof. intros (T & ps & fr & H) [H1 H2]. by apply (gr_frame _ _ _ _ _ _ (bi_grows _ _ _ _ _ H)). Qed.

(** What filling a page must do. *)
Definition fills (fill : Z -> M kst unit) (byte : Z -> Z) : Prop :=
  forall page s1, page mod 4096 = 0 -> 0 < page -> page + 4096 <= 2 ^ 64 -> (page / 4096) ∈ ps0 ->
    hhdm_offset s1 = off -> (forall a, kept a -> rd8 (heap s1) a = rd8 (heap s0) a) ->
    wp (fill page) s1 (fun _ s2 => exists m, s2 = set_heap m s1 /\ same_outside [page / 4096] (heap s1) m /\
      forall k, 0 <= k < 4096 -> rd8 m (page + k) = byte k).

Lemma zero_page_fills : fills zero_page (fun _ => 0).
Proof.
  intros page s1 Hal Hp He _ _ _. unfold zero_page. rewrite (proj2 (Z.eqb_neq page 0)) by lia. apply wp_modify.
  eexists. split; [done|]. split; [by apply memset_page_outside|]. intros k Hk. rewrite rd8_memset.
  unfold PAGE_SIZE. rewrite (proj2 (Z.leb_le _ _)), (proj2 (Z.ltb_lt _ _)) by lia. done.
Qed.

(** A page of memory taken and filled, the tables untouched. *)
Lemma grows_fill T ps s s1 r qs m :
  pt_state root T ps s -> ps ≡ₚ (r / 4096) :: qs -> pa_inv qs s1 -> kupd ps s s1 ->
  same_outside [r / 4096] (heap s1) m ->
  pt_state root T qs (set_heap m s1) /\ grows T ps s T qs (set_heap m s1).
Proof.
  intros [Ht Hp Ha Ho] Hps Hq Hk Hm. destruct Hk as (m1 & hs & (h & -> & Hh) & Hm1).
  assert (forall p, p ∈ qs -> p ∈ ps) as Hsub by (intros p Hin; rewrite Hps; by apply elem_of_cons; right).
  pose proof (pa_inv_nodup _ _ Hp) as Hnd. rewrite Hps in Hnd. apply NoDup_cons in Hnd as [Hrq _].
  assert ((r / 4096) ∈ ps) as Hr by (rewrite Hps; by apply elem_of_cons; left).
  cbn in Hm, Hm1. split; split.
  - apply (pt_inv_outside _ root m1 m [r / 4096]); [done| |].
    + intros p Hp' ->%list_elem_of_singleton. by apply (Ha _ Hp').
    + by apply (pt_inv_outside _ root (heap s) m1 ps).
  - eapply pa_inv_heap; [exact Hq|exact Hm|]. by intros p ->%list_elem_of_singleton.
  - intros p Hp' Hin. apply (Ha _ Hp'). auto.
  - done.
  - done.
  - by left.
  - done.
  - intros b _ Hb. cbn. rewrite Hm; [by apply Hm1|]. intros E%list_elem_of_singleton. by rewrite E in Hb.
  - done.
Qed.

Lemma frame_keeps T ps T' ps' s s' f : frame_ok T ps f -> grows T ps s T' ps' s' -> frame_ok T' ps' f.
Proof.
  intros [H1 H2 H3 [H4 H5]] Hg. split; [done|done|done|]. split.
  - intros Hin. by apply H4, (gr_free _ _ _ _ _ _ Hg).
  - intros Hin. apply (gr_new _ _ _ _ _ _ Hg) in Hin as [Hin|Hin]; done.
Qed.

Lemma frame_bytes T ps T' ps' s s' f k :
  frame_ok T ps f -> grows T ps s T' ps' s' -> 0 <= k < 4096 -> rd8 (heap s') (f + k) = rd8 (heap s) (f + k).
Proof.
  intros [H1 H2 _ [H4 H5]] Hg Hk. assert ((f + k) / 4096 = f / 4096) as E.
  { apply Z_div_exact_2 in H1; [|done]. Z.to_euclidean_division_equations; lia. }
  apply (gr_frame _ _ _ _ _ _ Hg); by rewrite E.
Qed.

Lemma page_byte_div f k : f mod 4096 = 0 -> 0 <= k < 4096 -> (f + k) / 4096 = f / 4096.
Proof. intros H1 Hk. apply Z_div_exact_2 in H1; [|done]. Z.to_euclidean_division_equations; lia. Qed.

(** One more page. *)
Lemma map_fresh_built l va flags fill byte s :
  built l s -> (4 * length l + 4 <= length ps0)%nat -> 0 <= flags < 4096 -> fills fill byte ->
  wp (map_fresh root va flags fill) s (fun ok s' => ok = true /\ built (l ++ [Upage va flags byte]) s').
Proof.
  intros (T & ps & fr & [Hst Hg Hroom Hlen Hnd Hfr Hby Htr]) Hl Hfl Hfill. unfold map_fresh.
  pose proof (ps_pages _ _ _ _ Hst) as Hpa. pose proof (pa_inv_nodup _ _ Hpa) as Hndp.
  assert (hhdm_offset s = off) as Hoff by apply Hg.
  wp_step. eapply wp_mono; [apply (alloc_page ps); [done|intros ->; simpl in *; lia]|].
  intros r s1 (Hr1 & Hr2 & Hr3 & qs & Hps & Hq & Hk). rewrite (proj2 (Z.eqb_neq r 0)) by lia.
  assert ((r / 4096) ∈ ps) as Hrps by (rewrite Hps; by apply elem_of_cons; left).
  assert (hhdm_offset s1 = off) as Hoff1 by (rewrite <- Hoff; by destruct Hk as (m1 & hs & (h & -> & Hh) & Hm1)).
  wp_step. eapply wp_mono; [apply (Hfill r s1); [done|done|done|by apply (gr_free _ _ _ _ _ _ Hg)|done|]|].
  { intros a [Ha1 Ha2]. destruct Hk as (m1 & hs & (h & -> & Hh) & Hm1). cbn. rewrite Hm1.
    - by apply (gr_frame _ _ _ _ _ _ Hg).
    - intros Hin. by apply Ha1, (gr_free _ _ _ _ _ _ Hg). }
  intros _ s2 (m & -> & Hout & Hm). destruct (grows_fill T ps s s1 r qs m Hst Hps Hq Hk Hout) as [Hst2 Hg2].
  wp_step. apply wp_gets. cbn. rewrite Hoff1. wp_step.
  assert (length ps = S (length qs)) as Hlq by (by rewrite Hps).
  eapply wp_mono; [apply (map_in_spec root _ T qs); [done|apply user_table_flags|lia|lia]|].
  intros _ s3 (T' & ps' & Hst3 & Hg3 & Hl3 & Ht3). wp_step. split; [done|].
  cbn [hhdm_offset set_heap] in Ht3. rewrite Hoff1 in Ht3.
  pose proof (grows_trans _ _ _ _ _ _ _ _ _ Hg2 Hg3) as Hg4. rewrite Hps in Hndp. apply NoDup_cons in Hndp as [Hrq _].
  assert (frame_ok T qs r) as Hfr2.
  { split; [done|done|by apply (gr_free _ _ _ _ _ _ Hg)|]. split; [done|]. intros Hin. by apply (ps_apart _ _ _ _ Hst _ Hin). }
  assert (r ∉ fr) as Hrfr.
  { intros Hin. destruct (Hfr r Hin) as [_ _ _ [H _]]. done. }
  exists T', ps', (fr ++ [r]). split.
  - done.
  - by eapply grows_trans.
  - rewrite length_app. cbn [length]. lia.
  - rewrite !length_app. cbn [length]. lia.
  - apply NoDup_app. split; [done|]. split; [|apply NoDup_singleton]. intros x Hx ->%list_elem_of_singleton. done.
  - intros f [Hf|Hf]%elem_of_app.
    + eapply frame_keeps; [by apply Hfr|exact Hg4].
    + apply list_elem_of_singleton in Hf as ->. by eapply frame_keeps.
  - intros u f k Hin Hk'. rewrite zip_with_app in Hin by done. apply elem_of_app in Hin as [Hin|Hin].
    + rewrite (frame_bytes T ps T' ps' s s3 f k); [by apply Hby|apply Hfr|done|done].
      by apply elem_of_zip_r in Hin.
    + apply list_elem_of_singleton in Hin as [= -> ->]. rewrite (frame_bytes T qs T' ps' _ s3 r k Hfr2 Hg3 Hk'). by apply Hm.
  - intros va'. rewrite zip_with_app by done. cbn [zip_with]. rewrite last_page_snoc, Ht3. cbn [up_va up_flags].
    case_decide; [done|]. rewrite <- Htr. pose proof (ps_tree _ _ _ _ Hst) as Htree. rewrite Hoff in Htree.
    apply (translate_ext _ root (heap s) _ T); [done|]. intros t lv i Ht Hi.
    pose proof (pt_aligned _ _ _ _ Htree t lv Ht) as [Hta _].
    assert ((t / 4096) ∉ ps) as Hn by (apply (ps_apart _ _ _ _ Hst); by exists t, lv).
    cbn. rewrite (entry_outside [r / 4096] (heap s1) m t i Hout); [|done..|].
    + destruct Hk as (m1 & hs & (h & -> & Hh) & Hm1). cbn. by apply (entry_outside ps).
    + intros E%list_elem_of_singleton. by rewrite E in Hn.
Qed.

(** Building a run of pages one by one. *)
Lemma page_loop_built l flags (fill : Z -> Z -> M kst unit) (byte : Z -> Z -> Z) first last s :
  built l s -> 0 <= first <= last -> last < 2 ^ 64 -> first mod 4096 = 0 -> last mod 4096 = 0 ->
  (4 * (length l + Z.to_nat ((last - first) / 4096)) <= length ps0)%nat -> 0 <= flags < 4096 ->
  (forall va, first <= va < last -> va mod 4096 = 0 -> fills (fill va) (byte va)) ->
  wp (page_loop last (fun va => map_fresh root va flags (fill va)) first) s (fun ok s' => ok = true /\
    built (l ++ ((fun va => Upage va flags (byte va)) <$> page_range first last)) s').
Proof.
  intros Hb H1 H2 H3 H4 Hroom Hfl Hfill.
  pose (P := fun va s => first <= va /\ va mod 4096 = 0 /\
    built (l ++ ((fun va => Upage va flags (byte va)) <$> page_range first va)) s).
  eapply wp_mono; [apply (page_loop_spec P first last)|].
  1-4: done.
  2: by unfold P; rewrite page_range_nil, app_nil_r.
  2: by intros ok s' (-> & _ & _ & ?).
  unfold P.
  intros va t Hva Hal (_ & _ & Hbt). rewrite (page_range_snoc first va), fmap_app, app_assoc by lia.
    eapply wp_mono; [apply map_fresh_built; [exact Hbt| |done|by apply Hfill]|].
    + rewrite length_app, length_fmap, length_page_range. apply Z_div_exact_2 in Hal, H3, H4; [|done..].
      assert ((va - first) / 4096 + 1 <= (last - first) / 4096) by (Z.to_euclidean_division_equations; lia).
      assert (0 <= (va - first) / 4096) by (Z.to_euclidean_division_equations; lia). lia.
    + intros ok t' (-> & Hb'). split; [done|]. split; [lia|]. split; [|done].
      rewrite Z.add_mod, Hal by lia. done.
Qed.

End Building.

(** The last of the pages [l] for the address [va]. *)
Definition page_for (va : Z) (l : list upage) : option upage :=
  foldl (fun acc u => if decide (same_page (up_va u) va) then Some u else acc) None l.

Lemma page_for_zip va l fr : length fr = length l -> page_for va l = fst <$> last_page va (zip l fr).
Proof.
  revert fr. induction l as [|u l IH] using rev_ind; intros fr Hl; [done|].
  destruct fr as [|f fr _] using rev_ind; rewrite ?length_app in Hl; cbn in Hl; [lia|].
  rewrite zip_with_app by lia. cbn [zip_with]. rewrite last_page_snoc. unfold page_for. rewrite foldl_app. cbn.
  case_decide; [done|]. apply IH. lia.
Qed.

Lemma zip_nodup_r {A} (l : list A) (fr : list Z) u u' f : NoDup fr -> (u, f) ∈ zip l fr -> (u', f) ∈ zip l fr -> u = u'.
Proof.
  intros Hnd (i & Hi)%list_elem_of_lookup (j & Hj)%list_elem_of_lookup.
  apply lookup_zip_with_Some in Hi as (? & ? & [= -> ->] & Hi1 & Hi2).
  apply lookup_zip_with_Some in Hj as (? & ? & [= -> ->] & Hj1 & Hj2).
  rewrite (NoDup_lookup _ _ _ _ Hnd Hi2 Hj2) in Hi1. congruence.
Qed.

Lemma child_aligned off e : off mod 4096 = 0 -> child off e mod 4096 = 0 /\ child off e + 4096 <= 2 ^ 64.
Proof.
  intros Ho. assert (child off e mod 4096 = 0) as Hal.
  { unfold child, u64, pte_get_phys, PAGE_FRAME_MASK. change (2 ^ 64 - 4096) with (Z.shiftl (Z.ones 52) 12).
    rewrite land_field by lia. change 4096 with (2 ^ 12). rewrite (mod_mod_pow2 _ 12 64) by lia.
    change (12 + 52) with 64. change (2 ^ 12) with 4096 in *. rewrite Z.add_mod, Ho, Zminus_mod by lia.
    change 4096 with (2 ^ 12). rewrite (mod_mod_pow2 _ 12 64), (mod_mod_pow2 _ 12 12) by lia. rewrite Z.sub_diag. done. }
  split; [done|]. pose proof (u64_range (pte_get_phys e + off)) as Hr. change (u64 (pte_get_phys e + off)) with (child off e) in Hr.
  apply Z_div_exact_2 in Hal; [|done]. Z.to_euclidean_division_equations; lia.
Qed.

Lemma lor_bound n a b : 0 <= n -> 0 <= a < 2 ^ n -> 0 <= b < 2 ^ n -> 0 <= Z.lor a b < 2 ^ n.
Proof.
  intros Hn Ha Hb. assert (forall x, 0 <= x < 2 ^ n <-> x = Z.land x (Z.ones n)) as Hm.
  { intros x. rewrite Z.land_ones by lia. split; [by intros; rewrite Z.mod_small|].
    intros ->. apply Z.mod_pos_bound. lia. }
  apply Hm. rewrite Z.land_lor_distr_l. f_equal; by apply Hm.
Qed.

Lemma leaf_of_frame off f flags :
  f mod 4096 = 0 -> 0 < f -> f + 4096 <= 2 ^ 64 -> off mod 4096 = 0 -> 0 <= flags < 4096 ->
  let e := leaf_entry (u64 (f - off)) flags in child off e = f /\ e mod 4096 = Z.lor flags PTE_PRESENT.
Proof.
  intros H1 H2 H3 Ho Hf. assert (table_flags (Z.lor flags PTE_PRESENT)) as Ht.
  { split; [by apply (lor_bound 12)|by rewrite present_lor, orb_true_r]. }
  assert (u64 (f - off) mod 4096 = 0) as Hal.
  { unfold u64. rewrite (mod_mod_pow2 _ 12 64) by lia. change (2 ^ 12) with 4096. by rewrite Zminus_mod, H1, Ho. }
  assert (leaf_entry (u64 (f - off)) flags = Z.lor (u64 (f - off)) (Z.lor flags PTE_PRESENT)) as E.
  { unfold leaf_entry. rewrite <- Z.lor_assoc. f_equal. pose proof (phys_of_entry (u64 (f - off)) 0 (u64_range _) Hal ltac:(lia)) as Hp.
    by rewrite Z.lor_0_r in Hp. }
  cbv zeta. rewrite E. split; [apply (fresh_entry f off _ H1 ltac:(lia) Ho Ht)|].
  destruct Ht as [Ht _]. rewrite lor_low_high by done. rewrite Z.add_mod, Hal by lia. rewrite Z.add_0_l, Z.mod_mod by lia.
  by apply Z.mod_small.
Qed.

Definition flags_ok (l : list upage) : Prop := Forall (fun u => 0 <= up_flags u < 4096) l.

(** What the processor finds in the address space [root] of [s] after the pages
    [l] were added to that of [s0], the pages [ps] being free there: each page
    in a frame of its own taken from [ps], everything else as before. *)
Record shows (root : Z) (ps : list Z) (s0 s : kst) (l : list upage) : Prop := {
  sh_page : forall va u, page_for va l = Some u -> exists e,
    translate (heap s) (hhdm_offset s0) root va = Some e /\ e mod 4096 = Z.lor (up_flags u) PTE_PRESENT /\
    (child (hhdm_offset s0) e / 4096) ∈ ps /\
    rd8 (heap s) (child (hhdm_offset s0) e + va mod 4096) = up_byte u (va mod 4096);
  sh_rest : forall va, page_for va l = None ->
    translate (heap s) (hhdm_offset s0) root va = translate (heap s0) (hhdm_offset s0) root va;
  sh_apart : forall va va' e e', page_for va l <> None -> page_for va' l <> None ->
    translate (heap s) (hhdm_offset s0) root va = Some e -> translate (heap s) (hhdm_offset s0) root va' = Some e' ->
    child (hhdm_offset s0) e = child (hhdm_offset s0) e' -> same_page va va'
}.

Lemma built_shows `{PA : PageAllocator} root T ps s l s' :
  built root T ps s l s' -> hhdm_offset s mod 4096 = 0 -> flags_ok l -> shows root ps s s' l.
Proof.
  intros (T' & ps' & fr & [_ _ _ Hlen Hnd Hfr Hby Htr]) Hoff Hfl.
  assert (forall va u f, last_page va (zip l fr) = Some (u, f) ->
    let e := leaf_entry (u64 (f - hhdm_offset s)) (up_flags u) in
    child (hhdm_offset s) e = f /\ e mod 4096 = Z.lor (up_flags u) PTE_PRESENT) as Hleaf.
  { intros va u f [Hin _]%last_page_elem. destruct (Hfr f (elem_of_zip_r _ _ _ _ Hin)) as [H1 [H2 H3] _ _].
    apply leaf_of_frame; try done. unfold flags_ok in Hfl. rewrite Forall_forall in Hfl.
    by apply Hfl, (elem_of_zip_l _ _ _ _ Hin). }
  split.
  - intros va u Hu. rewrite (page_for_zip va l fr Hlen) in Hu. rewrite Htr.
    destruct (last_page va (zip l fr)) as [[u' f]|] eqn:E; [|done]. injection Hu as ->. destruct (Hleaf va u f E) as [H1 H2].
    eexists. split; [done|]. split; [done|]. rewrite H1. apply last_page_elem in E as [Hin _]. split.
    + apply (Hfr f). by eapply elem_of_zip_r.
    + apply Hby; [done|]. apply Z.mod_pos_bound. lia.
  - intros va Hu. rewrite (page_for_zip va l fr Hlen) in Hu. rewrite Htr. by destruct (last_page va (zip l fr)) as [[u f]|].
  - intros va va' e e' H1 H2 H3 H4 Hc. rewrite (page_for_zip va l fr Hlen) in H1. rewrite (page_for_zip va' l fr Hlen) in H2.
    rewrite Htr in H3, H4. destruct (last_page va (zip l fr)) as [[u f]|] eqn:E; [|done].
    destruct (last_page va' (zip l fr)) as [[u' f']|] eqn:E'; [|done].
    injection H3 as <-. injection H4 as <-. destruct (Hleaf va u f E) as [K1 _], (Hleaf va' u' f' E') as [K2 _].
    rewrite K1, K2 in Hc. subst f'. apply last_page_elem in E as [Hin Hs], E' as [Hin' Hs'].
    rewrite (zip_nodup_r l fr u' u f Hnd Hin' Hin) in Hs'. unfold same_page in *. congruence.
Qed.

(** *** A machine with 32 free pages *)

Definition wide_blocks : blocks := push empty_blocks 5 1048576.
Definition wide_pages : list Z := seqZ 256 32.
Definition wide_on (c : cpu) (m : mem) : kst :=
  Kst m (Buddy_state (initlock 1) 1 (<[5%nat := 1048576]> (replicate 12 0)))
      (Hw true 4096 {[ 4096 := c ]}) (2 ^ 40) 0.
Definition wide_kst : mem -> kst := wide_on demo_cpu.

Lemma wide_inv c m : ncli c = 0 -> rd64 m 1048576 = 0 -> alloc_inv wide_pages (wide_on c m).
Proof.
  intros Hc Hm. exists wide_blocks. split_and!.
  - apply push_wf; [done|apply wf_empty| |by_decide| |].
    + split_and!; cbn [fst snd]; [lia|done..].
    + intros k a Ha. by apply elem_of_nil in Ha.
    + intros _ Ha. by apply elem_of_nil in Ha.
  - unfold slists. repeat constructor. cbn. by rewrite Hm.
  - intros _. split; [by exists 1|]. exists c. split_and!; [apply lookup_singleton_eq|lia|lia|done].
  - done.
Qed.

(** An empty root page below the free block. *)
Lemma wide_tables c m : ncli c = 0 -> rd64 m 1048576 = 0 ->
  (forall i, 0 <= i < 512 -> entry m 2097152 i = 0) ->
  pt_state 2097152 {[ 2097152 := 3%nat ]} wide_pages (wide_on c m).
Proof.
  intros Hc Hm Hz. split; [split|by apply wide_inv| |done].
  - by rewrite lookup_singleton_eq.
  - intros t l [<- <-]%lookup_singleton_Some. done.
  - intros t l [_ <-]%lookup_singleton_Some. lia.
  - intros t l i [<- _]%lookup_singleton_Some Hi. cbn [heap wide_on]. by rewrite Hz.
  - intros t l i t' l' i' [<- _]%lookup_singleton_Some _ Hi _. cbn [heap wide_on]. by rewrite Hz.
  - intros p (t & l & [<- _]%lookup_singleton_Some & ->). by_decide.
Qed.
