(* ===== verification/Elf.v ===== *)
(** * Loading a program (src/src/kernel/elf.h, proc.c)

    [elf_load_segments] builds the user half of an address space from an ELF
    image in kernel memory, through the page allocator and the page tables. *)
From S2P Require Import Prelude KMem Spinlock BuddySpec Buddy PageAlloc PageTable AddrSpace.

#[local] Open Scope Z_scope.

Definition USER_STACK_TOP : Z := 549755809792.
Definition USER_STACK_BASE : Z := 549755805696.

Definition ELF_MAGIC : Z := 1179403647.
Definition ELFCLASS64 : Z := 2.
Definition EM_X86_64 : Z := 62.
Definition PT_LOAD : Z := 1.
Definition PF_W : Z := 2.

Record Elf64_Ehdr := Ehdr {
  e_magic : Z; e_class : Z; e_data : Z; e_hversion : Z; e_osabi : Z; e_pad : Z;
  e_type : Z; e_machine : Z; e_version : Z; e_entry : Z; e_phoff : Z; e_shoff : Z;
  e_flags : Z; e_ehsize : Z; e_phentsize : Z; e_phnum : Z; e_shentsize : Z; e_shnum : Z;
  e_shstrndx : Z
}.

Record Elf64_Phdr := Phdr {
  p_type : Z; p_flags : Z; p_offset : Z; p_vaddr : Z; p_paddr : Z; p_filesz : Z;
  p_memsz : Z; p_align : Z
}.

(** The packed structures in memory. *)
Definition ehdr_at (m : mem) (a : Z) : Elf64_Ehdr :=
  Ehdr (rd32 m a) (rd8 m (a + 4)) (rd8 m (a + 5)) (rd8 m (a + 6)) (rd8 m (a + 7)) (rd64 m (a + 8))
    (rd16 m (a + 16)) (rd16 m (a + 18)) (rd32 m (a + 20)) (rd64 m (a + 24)) (rd64 m (a + 32)) (rd64 m (a + 40))
    (rd32 m (a + 48)) (rd16 m (a + 52)) (rd16 m (a + 54)) (rd16 m (a + 56)) (rd16 m (a + 58)) (rd16 m (a + 60))
    (rd16 m (a + 62)).
Definition phdr_at (m : mem) (a : Z) : Elf64_Phdr :=
  Phdr (rd32 m a) (rd32 m (a + 4)) (rd64 m (a + 8)) (rd64 m (a + 16)) (rd64 m (a + 24)) (rd64 m (a + 32))
    (rd64 m (a + 40)) (rd64 m (a + 48)).
(** [sizeof(Elf64_Phdr)] *)
Definition phdr_bytes : Z := 56.

(** [x & ~(PAGE_SIZE - 1)] *)
Definition page_down (x : Z) : Z := Z.land x PAGE_FRAME_MASK.

Section Loader.
Context `{PA : PageAllocator}.

(** The part of segment [ph] of the image at [elf_buf] that lies in the page at
    [va], the rest zero. *)
Definition fill_page (elf_buf ph va page : Z) : M kst unit :=
  zero_page page;;
  h ← mgets (fun s => phdr_at (heap s) ph);
  let seg_start := p_vaddr h in
  let seg_file_end := u64 (seg_start + p_filesz h) in
  if (seg_start <? u64 (va + PAGE_SIZE)) && (va <? seg_file_end) then
    let copy_start := if seg_start <? va then va else seg_start in
    let copy_end := if u64 (va + PAGE_SIZE) <? seg_file_end then u64 (va + PAGE_SIZE) else seg_file_end in
    let src_off := u64 (p_offset h + u64 (copy_start - seg_start)) in
    let dst_off := u64 (copy_start - va) in
    mmodify (fun s => set_heap (memcpy (heap s) (u64 (page + dst_off)) (u64 (elf_buf + src_off)) (u64 (copy_end - copy_start))) s)
  else mret tt.

Definition load_segment (pml4 elf_buf ph : Z) : M kst bool :=
  h ← mgets (fun s => phdr_at (heap s) ph);
  let va_start := page_down (p_vaddr h) in
  let va_end := page_down (u64 (p_vaddr h + p_memsz h + PAGE_SIZE - 1)) in
  let flags := Z.lor PTE_USER (if Z.land (p_flags h) PF_W =? 0 then 0 else PTE_WRITE) in
  page_loop va_end (fun va => map_fresh pml4 va flags (fill_page elf_buf ph va)) va_start.

(** [None] for the answer -1, [Some entry] for 0 with the entry point stored;
    the size is unused. *)
Definition elf_load_segments (pml4 elf_buf elf_size : Z) : M kst (option Z) :=
  ehdr ← mgets (fun s => ehdr_at (heap s) elf_buf);
  if negb (e_magic ehdr =? ELF_MAGIC) || negb (e_class ehdr =? ELFCLASS64) ||
     negb (e_machine ehdr =? EM_X86_64) then mret None
  else
    let phdr := u64 (elf_buf + e_phoff ehdr) in
    ok ← mloop (fun i =>
      ehdr ← mgets (fun s => ehdr_at (heap s) elf_buf);
      if i <? e_phnum ehdr then
        let ph := u64 (phdr + phdr_bytes * i) in
        h ← mgets (fun s => phdr_at (heap s) ph);
        if negb (p_type h =? PT_LOAD) then mret (inl (u16 (i + 1)))
        else
          ok ← load_segment pml4 elf_buf ph;
          if ok : bool then mret (inl (u16 (i + 1))) else mret (inr false)
      else mret (inr true)) 0;
    if negb ok then mret None
    else
      ok ← page_loop (u64 (USER_STACK_TOP + PAGE_SIZE))
        (fun va => map_fresh pml4 va (Z.lor PTE_USER PTE_WRITE) zero_page) USER_STACK_BASE;
      if negb ok then mret None
      else
        ehdr ← mgets (fun s => ehdr_at (heap s) elf_buf);
        mret (Some (e_entry ehdr)).
End Loader.

(** ** What the loader builds *)

Lemma page_down_floor x : 0 <= x < 2 ^ 64 -> page_down x = 4096 * (x / 4096).
Proof.
  intros H. unfold page_down, PAGE_FRAME_MASK. change (2 ^ 64 - 4096) with (Z.shiftl (Z.ones 52) 12).
  rewrite land_field by lia. rewrite Z.mod_small by (change (12 + 52) with 64; lia). change (2 ^ 12) with 4096.
  Z.to_euclidean_division_equations; lia.
Qed.

(** The byte of a segment at [a]: from the file, or zero behind it. *)
Definition seg_byte (m : mem) (elf : Z) (h : Elf64_Phdr) (a : Z) : Z :=
  if (p_vaddr h <=? a) && (a <? p_vaddr h + p_filesz h) then rd8 m (elf + p_offset h + (a - p_vaddr h)) else 0.

Definition segment_flags (h : Elf64_Phdr) : Z :=
  Z.lor PTE_USER (if Z.land (p_flags h) PF_W =? 0 then 0 else PTE_WRITE).
Definition segment_first (h : Elf64_Phdr) : Z := 4096 * (p_vaddr h / 4096).
Definition segment_last (h : Elf64_Phdr) : Z := 4096 * ((p_vaddr h + p_memsz h + 4095) / 4096).

Definition segment_pages (m : mem) (elf : Z) (h : Elf64_Phdr) : list upage :=
  (fun va => Upage va (segment_flags h) (fun k => seg_byte m elf h (va + k))) <$> page_range (segment_first h) (segment_last h).

(** A segment whose file part is inside a file of [size] bytes and whose memory
    is inside the user half. *)
Record segment_ok (size : Z) (h : Elf64_Phdr) : Prop := {
  so_filesz : 0 <= p_filesz h <= p_memsz h;
  so_offset : 0 <= p_offset h /\ p_offset h + p_filesz h <= size;
  so_vaddr : 0 <= p_vaddr h /\ p_vaddr h + p_memsz h <= 2 ^ 47
}.

(** The header of segment [i], and its pages when it is to be loaded. *)
Definition header (m : mem) (elf i : Z) : Z := elf + e_phoff (ehdr_at m elf) + phdr_bytes * i.
Definition header_pages (m : mem) (elf i : Z) : list upage :=
  let h := phdr_at m (header m elf i) in
  if p_type h =? PT_LOAD then segment_pages m elf h else [].
Definition program_pages (m : mem) (elf n : Z) : list upage := concat (header_pages m elf <$> seqZ 0 n).

(** Every page of the image: the segments in the order of their headers, then
    two pages of stack. *)
Definition stack_pages : list upage :=
  (fun va => Upage va (Z.lor PTE_USER PTE_WRITE) (fun _ => 0)) <$> page_range USER_STACK_BASE (USER_STACK_TOP + 4096).
Definition image_pages (m : mem) (elf : Z) : list upage :=
  program_pages m elf (e_phnum (ehdr_at m elf)) ++ stack_pages.

Lemma program_pages_snoc m elf n : 0 <= n ->
  program_pages m elf (n + 1) = program_pages m elf n ++ header_pages m elf n.
Proof. apply concat_seqZ_snoc. Qed.

Lemma program_pages_length m elf i n : 0 <= i <= n ->
  (length (program_pages m elf i) <= length (program_pages m elf n))%nat.
Proof. apply concat_seqZ_length. Qed.

(** An executable the loader accepts, in a file of [size] bytes. *)
Record elf_ok (m : mem) (elf size : Z) : Prop := {
  eo_magic : e_magic (ehdr_at m elf) = ELF_MAGIC;
  eo_class : e_class (ehdr_at m elf) = ELFCLASS64;
  eo_machine : e_machine (ehdr_at m elf) = EM_X86_64;
  eo_size : 64 <= size;
  eo_headers : e_phoff (ehdr_at m elf) + phdr_bytes * e_phnum (ehdr_at m elf) <= size;
  eo_segments : forall i, 0 <= i < e_phnum (ehdr_at m elf) ->
    p_type (phdr_at m (header m elf i)) = PT_LOAD -> segment_ok size (phdr_at m (header m elf i))
}.

Section Building.
Context `{PA : PageAllocator} (root : Z).
Context (T0 : gmap Z nat) (ps0 : list Z) (s0 : kst).
#[local] Abbreviation kept := (kept T0 ps0).
#[local] Abbreviation built := (built root T0 ps0 s0).
#[local] Abbreviation fills := (fills T0 ps0 s0).

(** *** A segment *)

Section File.
Context (elf size : Z).
Context (Hrange : 0 <= elf /\ elf + size < 2 ^ 64).
Context (Hfile : forall j, 0 <= j < size -> kept (elf + j)).

Definition keeps (s : kst) : Prop := forall a, kept a -> rd8 (heap s) a = rd8 (heap s0) a.

Lemma rd_kept n m a : (forall b, kept b -> rd8 m b = rd8 (heap s0) b) ->
  elf <= a -> a + Z.of_nat n <= elf + size -> rd n m a = rd n (heap s0) a.
Proof.
  intros Hm H1 H2. apply rd_agree. intros b Hb. apply Hm. replace b with (elf + (b - elf)) by lia. apply Hfile. lia.
Qed.

Lemma phdr_kept m ph : (forall b, kept b -> rd8 m b = rd8 (heap s0) b) ->
  elf <= ph -> ph + phdr_bytes <= elf + size -> phdr_at m ph = phdr_at (heap s0) ph.
Proof.
  unfold phdr_bytes. intros Hm H1 H2. unfold phdr_at. f_equal; apply rd_kept; done || lia.
Qed.

Lemma ehdr_kept m : (forall b, kept b -> rd8 m b = rd8 (heap s0) b) -> 64 <= size ->
  ehdr_at m elf = ehdr_at (heap s0) elf.
Proof.
  intros Hm H. unfold ehdr_at. f_equal; try (apply rd_kept; done || lia).
  all: apply Hm; apply Hfile; lia.
Qed.

Lemma not_kept_page page b : (page / 4096) ∈ ps0 -> kept b -> b / 4096 <> page / 4096.
Proof. intros Hp [H _] E. by rewrite E in H. Qed.

Lemma fill_page_fills ph va :
  elf <= ph -> ph + phdr_bytes <= elf + size -> segment_ok size (phdr_at (heap s0) ph) ->
  segment_first (phdr_at (heap s0) ph) <= va < segment_last (phdr_at (heap s0) ph) -> va mod 4096 = 0 ->
  fills (fill_page elf ph va) (fun k => seg_byte (heap s0) elf (phdr_at (heap s0) ph) (va + k)).
Proof.
  intros Hp1 Hp2 [Hfs Hof Hva] Hseg Hal page s1 Hpal Hp He Hin _ Hk. set (h := phdr_at (heap s0) ph) in *.
  unfold fill_page. unfold zero_page. rewrite (proj2 (Z.eqb_neq page 0)) by lia. wp_step. apply wp_modify.
  pose proof (memset_page_outside (heap s1) page 0 Hpal) as Hz. set (m1 := memset (heap s1) page 0 PAGE_SIZE) in *.
  assert (forall b, kept b -> rd8 m1 b = rd8 (heap s0) b) as Hm1.
  { intros b Hb. rewrite Hz; [by apply Hk|]. intros E%list_elem_of_singleton. by eapply not_kept_page. }
  assert (forall k, 0 <= k < 4096 -> rd8 m1 (page + k) = 0) as Hm0.
  { intros k Hk'. unfold m1. rewrite rd8_memset. unfold PAGE_SIZE.
    by rewrite (proj2 (Z.leb_le _ _)), (proj2 (Z.ltb_lt _ _)) by lia. }
  wp_step. apply wp_gets. cbn [heap set_heap]. rewrite (phdr_kept m1 ph Hm1 Hp1 Hp2). fold h.
  unfold segment_first, segment_last in Hseg. apply Z_div_exact_2 in Hal; [|done].
  assert (0 <= va /\ va + 4096 <= 2 ^ 48) as Hvr by (Z.to_euclidean_division_equations; lia).
  unfold PAGE_SIZE. rewrite (u64_small (p_vaddr h + p_filesz h)), (u64_small (va + 4096)) by lia.
  destruct ((p_vaddr h <? va + 4096) && (va <? p_vaddr h + p_filesz h)) eqn:Ec.
  - apply andb_true_iff in Ec as [E1%Z.ltb_lt E2%Z.ltb_lt].
    set (cs := if p_vaddr h <? va then va else p_vaddr h).
    set (ce := if va + 4096 <? p_vaddr h + p_filesz h then va + 4096 else p_vaddr h + p_filesz h).
    assert (cs = Z.max va (p_vaddr h)) as Ecs by (unfold cs; destruct (Z.ltb_spec (p_vaddr h) va); lia).
    assert (ce = Z.min (va + 4096) (p_vaddr h + p_filesz h)) as Ece.
    { unfold ce. destruct (Z.ltb_spec (va + 4096) (p_vaddr h + p_filesz h)); lia. }
    clearbody cs ce. apply wp_modify. cbn [heap set_heap].
    rewrite (u64_small (cs - p_vaddr h)), (u64_small (p_offset h + _)), (u64_small (cs - va)), (u64_small (page + _)),
      (u64_small (elf + _)), (u64_small (ce - cs)) by lia.
    assert (page + (cs - va) + (ce - cs) <= elf + (p_offset h + (cs - p_vaddr h)) \/
      elf + (p_offset h + (cs - p_vaddr h)) + (ce - cs) <= page + (cs - va)) as Hdis.
    { destruct (decide (page + (cs - va) + (ce - cs) <= elf + (p_offset h + (cs - p_vaddr h)))) as [|Hn1]; [by left|right].
      destruct (decide (elf + (p_offset h + (cs - p_vaddr h)) + (ce - cs) <= page + (cs - va))) as [|Hn2]; [done|exfalso].
      set (x := Z.max (page + (cs - va)) (elf + (p_offset h + (cs - p_vaddr h)))).
      assert (kept x) as Hx by (replace x with (elf + (x - elf)) by lia; apply Hfile; lia).
      apply (not_kept_page page x Hin Hx). replace x with (page + (x - page)) by lia. apply page_byte_div; [done|lia]. }
    eexists. split; [reflexivity|]. split.
    + intros b Hb. rewrite rd8_memcpy by lia.
      assert (~ page + (cs - va) <= b < page + (cs - va) + (ce - cs)) as Hnb.
      { intros Hb2. apply Hb, list_elem_of_singleton. replace b with (page + (b - page)) by lia. apply page_byte_div; [done|lia]. }
      destruct (Z.leb_spec (page + (cs - va)) b), (Z.ltb_spec b (page + (cs - va) + (ce - cs))); cbn [andb]; try lia; by apply Hz.
    + intros k Hk'. rewrite rd8_memcpy by lia. unfold seg_byte.
      destruct (Z.leb_spec (page + (cs - va)) (page + k)), (Z.ltb_spec (page + k) (page + (cs - va) + (ce - cs))),
        (Z.leb_spec (p_vaddr h) (va + k)), (Z.ltb_spec (va + k) (p_vaddr h + p_filesz h)); cbn [andb]; try lia; try by apply Hm0.
      rewrite Hm1.
      * f_equal. lia.
      * replace (elf + (p_offset h + (cs - p_vaddr h)) + (page + k - (page + (cs - va))))
          with (elf + (p_offset h + (va + k - p_vaddr h))) by lia. apply Hfile. lia.
  - wp_step. exists m1. split; [done|]. split; [done|]. intros k Hk'. rewrite Hm0 by done. unfold seg_byte.
    apply andb_false_iff in Ec as [E1%Z.ltb_ge|E1%Z.ltb_ge];
      destruct (Z.leb_spec (p_vaddr h) (va + k)), (Z.ltb_spec (va + k) (p_vaddr h + p_filesz h)); cbn [andb]; lia || done.
Qed.

Lemma segment_flags_range h : 0 <= segment_flags h < 4096.
Proof. unfold segment_flags. by destruct (_ =? _). Qed.

Lemma load_segment_built l ph s :
  built l s -> elf <= ph -> ph + phdr_bytes <= elf + size -> segment_ok size (phdr_at (heap s0) ph) ->
  (4 * (length l + length (segment_pages (heap s0) elf (phdr_at (heap s0) ph))) <= length ps0)%nat ->
  wp (load_segment root elf ph) s (fun ok s' => ok = true /\
    built (l ++ segment_pages (heap s0) elf (phdr_at (heap s0) ph)) s').
Proof.
  intros Hb Hp1 Hp2 Hseg Hroom. unfold load_segment. wp_step. apply wp_gets.
  rewrite (phdr_kept (heap s) ph) by (try done; intros b Hk; by eapply built_kept).
  set (h := phdr_at (heap s0) ph) in *. pose proof Hseg as [Hfs Hof Hva].
  cbv zeta. rewrite (page_down_floor (p_vaddr h)) by lia. unfold PAGE_SIZE.
  replace (p_vaddr h + p_memsz h + 4096 - 1) with (p_vaddr h + p_memsz h + 4095) by lia.
  rewrite (u64_small (p_vaddr h + p_memsz h + 4095)), (page_down_floor (p_vaddr h + p_memsz h + 4095)) by lia.
  change (4096 * (p_vaddr h / 4096)) with (segment_first h).
  change (4096 * ((p_vaddr h + p_memsz h + 4095) / 4096)) with (segment_last h).
  fold (segment_flags h). unfold segment_pages in Hroom |- *. rewrite length_fmap, length_page_range in Hroom.
  apply page_loop_built; try done.
  - unfold segment_first, segment_last. Z.to_euclidean_division_equations; lia.
  - unfold segment_last. Z.to_euclidean_division_equations; lia.
  - unfold segment_first. by rewrite Z.mul_comm, Z.mod_mul.
  - unfold segment_last. by rewrite Z.mul_comm, Z.mod_mul.
  - apply segment_flags_range.
  - intros va Hr Hal. by apply fill_page_fills.
Qed.

Lemma header_range i : elf_ok (heap s0) elf size -> 0 <= i < e_phnum (ehdr_at (heap s0) elf) ->
  0 <= e_phoff (ehdr_at (heap s0) elf) /\ e_phnum (ehdr_at (heap s0) elf) < 2 ^ 16 /\
  elf <= header (heap s0) elf i /\ header (heap s0) elf i + phdr_bytes <= elf + size.
Proof.
  intros Hok Hi. pose proof (eo_headers _ _ _ Hok) as Hh. unfold header, phdr_bytes in *.
  pose proof (rd_range 8 (heap s0) (elf + 32)) as H1. pose proof (rd_range 2 (heap s0) (elf + 56)) as H2.
  change (8 * Z.of_nat 2) with 16 in H2.
  change (e_phoff (ehdr_at (heap s0) elf)) with (rd64 (heap s0) (elf + 32)) in *.
  change (e_phnum (ehdr_at (heap s0) elf)) with (rd16 (heap s0) (elf + 56)) in *. lia.
Qed.

Lemma elf_load_segments_built size' :
  pt_state root T0 ps0 s0 -> elf_ok (heap s0) elf size ->
  (4 * length (image_pages (heap s0) elf) <= length ps0)%nat ->
  wp (elf_load_segments root elf size') s0 (fun r s' =>
    r = Some (e_entry (ehdr_at (heap s0) elf)) /\ built (image_pages (heap s0) elf) s').
Proof.
  intros Hst Hok Hroom. pose proof Hok as [Hm Hc Hma Hsz Hph Hseg]. unfold elf_load_segments.
  assert (forall s l, built l s -> ehdr_at (heap s) elf = ehdr_at (heap s0) elf) as Heh.
  { intros s l Hb. apply ehdr_kept; [|done]. intros b Hk. by eapply built_kept. }
  set (m0 := heap s0) in *. set (n := e_phnum (ehdr_at m0 elf)) in *.
  unfold image_pages in Hroom |- *. fold n in Hroom |- *. rewrite length_app in Hroom.
  change (length stack_pages) with 2%nat in Hroom.
  wp_step. apply wp_gets. fold m0. rewrite Hm, Hc, Hma. cbn -[e_phoff ehdr_at mloop u64 USER_STACK_BASE].
  wp_step. eapply wp_mono; [apply (wp_mloop _ (fun i s => 0 <= i <= n /\ built (program_pages m0 elf i) s)
    (fun ok s => ok = true /\ built (program_pages m0 elf n) s) (fun i _ => n - i))|].
  - intros i s [Hi Hb]. wp_step. apply wp_gets. rewrite (Heh s _ Hb). fold n.
    destruct (Z.ltb_spec i n) as [Hlt|Hge].
    + destruct (header_range i Hok ltac:(fold m0 n; lia)) as (H1 & H2 & H3 & H4). fold m0 in H1, H2, H3, H4. fold n in H2.
      assert (u64 (u64 (elf + e_phoff (ehdr_at m0 elf)) + phdr_bytes * i) = header m0 elf i) as ->.
      { unfold header, phdr_bytes in *. rewrite (u64_small (elf + _)) by lia. by rewrite u64_small by lia. }
      assert (forall b, kept b -> rd8 (heap s) b = rd8 m0 b) as Hk by (intros b Hk; by eapply built_kept).
      wp_step. apply wp_gets. rewrite (phdr_kept (heap s) (header m0 elf i)) by done. fold m0.
      pose proof (program_pages_length m0 elf (i + 1) n ltac:(lia)) as Hlen.
      rewrite program_pages_snoc, length_app in Hlen by lia. unfold header_pages in Hlen.
      destruct (Z.eqb_spec (p_type (phdr_at m0 (header m0 elf i))) PT_LOAD) as [E|E]; cbn [negb].
      * wp_step. eapply wp_mono; [apply load_segment_built; [exact Hb|done|done|apply Hseg; [lia|done]|]|].
        { fold m0. lia. }
        intros ok s' [-> Hb']. wp_step. rewrite u16_small by lia. split; [|lia]. split; [lia|].
        rewrite program_pages_snoc by lia. unfold header_pages. by rewrite E.
      * wp_step. rewrite u16_small by lia. split; [|lia]. split; [lia|]. rewrite program_pages_snoc by lia.
        unfold header_pages. rewrite (proj2 (Z.eqb_neq _ _) E). by rewrite app_nil_r.
    + wp_step. by replace i with n in Hb by lia.
  - split; [|by apply built_start]. pose proof (rd_range 2 m0 (elf + 56)). unfold n. cbn [e_phnum ehdr_at]. lia.
  - pose proof (rd_range 2 m0 (elf + 56)) as H2. change (8 * Z.of_nat 2) with 16 in H2. unfold n. cbn [e_phnum ehdr_at]. lia.
  - intros ok s [-> Hb]. cbn [negb]. rewrite u64_small by done. wp_step.
    eapply wp_mono; [apply (page_loop_built root T0 ps0 s0 (program_pages m0 elf n) _ (fun _ => zero_page) (fun _ _ => 0)); [exact Hb|done|done|done|done| |done|]|].
    + change (Z.to_nat ((USER_STACK_TOP + PAGE_SIZE - USER_STACK_BASE) / 4096)) with 2%nat. lia.
    + intros va _ _. apply zero_page_fills.
    + intros ok s' [-> Hb']. cbn [negb]. wp_step. apply wp_gets. wp_step. by rewrite (Heh s' _ Hb').
Qed.
End File.
End Building.

Lemma image_flags m elf : flags_ok (image_pages m elf).
Proof.
  unfold image_pages, flags_ok. apply Forall_app. split; [|by repeat constructor].
  unfold program_pages. apply Forall_concat, Forall_fmap, Forall_forall. intros i _. cbn. unfold header_pages.
  destruct (_ =? _); [|constructor]. apply Forall_fmap, Forall_forall. intros va _. apply segment_flags_range.
Qed.

(** C5: Loading a program.  Given enough free pages, a valid image in memory
    the loader does not use, and tables for the new address space,
    [elf_load_segments] returns the entry point, and afterwards the processor's
    walk finds, for every address of a loaded segment, a frame of its own that
    was free before, with the bytes of the file and zeros behind them, user
    access, and write access exactly for a writable segment; the two pages of
    the stack are zero and writable; every other address translates as
    before, and no memory but the free pages and the tables changed.  Where
    segments share a page the last one has it. *)
Theorem elf_load_segments_maps `{PA : PageAllocator} root T ps s elf size :
  pt_state root T ps s -> elf_ok (heap s) elf size -> 0 <= elf -> elf + size < 2 ^ 64 ->
  (forall j, 0 <= j < size -> kept T ps (elf + j)) ->
  (4 * length (image_pages (heap s) elf) <= length ps)%nat ->
  wp (elf_load_segments root elf size) s (fun r s' => r = Some (e_entry (ehdr_at (heap s) elf)) /\
    (exists T' ps', pt_state root T' ps' s' /\ grows T ps s T' ps' s') /\
    shows root ps s s' (image_pages (heap s) elf)).
Proof.
  intros Hst Hok He1 He2 Hfile Hroom.
  eapply wp_mono; [by apply (elf_load_segments_built root T ps s elf size (conj He1 He2) Hfile size)|].
  intros r s' [-> Hb]. split; [done|]. split; [|apply (built_shows root T ps); [exact Hb|apply Hst|apply image_flags]].
  destruct Hb as (T' & ps' & fr & H). exists T', ps'. split; apply H.
Qed.

(** *** A concrete program *)

(** One writable segment at 0x401000: four bytes "ABCD" of the file and four
    zeros. *)
Definition demo_elf : list Z :=
  [127; 69; 76; 70; 2; 1; 1; 0; 0; 0; 0; 0; 0; 0; 0; 0; 2; 0; 62; 0; 1; 0; 0; 0] ++
  [0; 16; 64; 0; 0; 0; 0; 0; 64; 0; 0; 0; 0; 0; 0; 0; 0; 0; 0; 0; 0; 0; 0; 0] ++
  [0; 0; 0; 0; 64; 0; 56; 0; 1; 0; 0; 0; 0; 0; 0; 0] ++
  [1; 0; 0; 0; 7; 0; 0; 0; 120; 0; 0; 0; 0; 0; 0; 0; 0; 16; 64; 0; 0; 0; 0; 0; 0; 16; 64; 0; 0; 0; 0; 0] ++
  [4; 0; 0; 0; 0; 0; 0; 0; 8; 0; 0; 0; 0; 0; 0; 0; 0; 16; 0; 0; 0; 0; 0; 0] ++ [65; 66; 67; 68].

Definition demo_loader : kst := wide_kst (store_bytes ∅ 4194304 demo_elf).

Lemma loader_tables : pt_state 2097152 {[ 2097152 := 3%nat ]} wide_pages demo_loader.
Proof.
  apply wide_tables; [done|done|]. intros i Hi. unfold entry. transitivity (rd64 ∅ (2097152 + 8 * i)); [|done].
  apply rd_agree. intros b Hb. rewrite rd8_store_bytes, (proj2 (Z.leb_gt _ _)) by lia. done.
Qed.

Lemma demo_elf_ok : elf_ok (heap demo_loader) 4194304 124.
Proof.
  split; [by vm_compute|by vm_compute|by vm_compute|done|by vm_compute|].
  intros i Hi _. assert (i = 0) as -> by (change (e_phnum _) with 1 in Hi; lia).
  split; by_decide.
Qed.

Lemma demo_image : let m := heap demo_loader in let h := phdr_at m (header m 4194304 0) in
  image_pages m 4194304 =
    [Upage 4198400 (segment_flags h) (fun k => seg_byte m 4194304 h (4198400 + k));
     Upage USER_STACK_BASE 6 (fun _ => 0); Upage USER_STACK_TOP 6 (fun _ => 0)].
Proof.
  cbv zeta. set (m := heap demo_loader). set (h := phdr_at m (header m 4194304 0)).
  assert (e_phnum (ehdr_at m 4194304) = 1) as En by by vm_compute.
  assert (p_type h = PT_LOAD) as Et by by vm_compute.
  assert (page_range (segment_first h) (segment_last h) = [4198400]) as Er by by vm_compute.
  unfold image_pages, program_pages. rewrite En. change (seqZ 0 1) with [0]. cbn [fmap list_fmap concat].
  unfold header_pages. fold h. rewrite Et. cbn [Z.eqb Pos.eqb PT_LOAD]. unfold segment_pages. by rewrite Er.
Qed.

(** The second byte of the segment is a writable user byte 'B'; the byte after
    the file's part is 0. *)
Lemma elf_load_segments_maps_witness :
  wp (elf_load_segments 2097152 4194304 124) demo_loader (fun r s' => r = Some 4198400 /\
    exists e, translate (heap s') (2 ^ 40) 2097152 4198401 = Some e /\ e mod 4096 = 7 /\
      rd8 (heap s') (child (2 ^ 40) e + 1) = 66).
Proof.
  eapply wp_mono.
  - apply (elf_load_segments_maps 2097152 {[ 2097152 := 3%nat ]} wide_pages demo_loader 4194304 124);
      [exact loader_tables|exact demo_elf_ok|done|done| |by_decide].
    intros j Hj. unfold kept. assert ((4194304 + j) / 4096 = 1024) as -> by (Z.to_euclidean_division_equations; lia).
    split; [by_decide|]. intros (t & l & [<- _]%lookup_singleton_Some & E). by vm_compute in E.
  - intros r s' (-> & _ & [Hm _ _]). split; [by vm_compute|].
    set (h := phdr_at (heap demo_loader) (header (heap demo_loader) 4194304 0)).
    destruct (Hm 4198401 (Upage 4198400 (segment_flags h) (fun k => seg_byte (heap demo_loader) 4194304 h (4198400 + k)))) as (e & H1 & H2 & _ & H3).
    + rewrite demo_image. cbn [page_for foldl up_va].
      by rewrite (decide_False (P := same_page USER_STACK_TOP 4198401)), (decide_False (P := same_page USER_STACK_BASE 4198401)),
        (decide_True (P := same_page 4198400 4198401)) by by_decide.
    + exists e. split; [exact H1|]. split; [exact H2|]. change (4198401 mod 4096) with 1 in H3.
      etransitivity; [exact H3|]. by vm_compute.
Defined.
