(* ===== verification/UserStack.v ===== *)
(** * A program's arguments (src/src/kernel/proc.c)

    [setup_user_stack] writes the argument strings and the table of pointers to
    them into the stack page of a new address space. *)
From S2P Require Import Prelude KMem Spinlock BuddySpec Buddy PageAlloc PageTable KString AddrSpace Elf.

#[local] Open Scope Z_scope.

Section Arguments.
Context `{PA : PageAllocator}.

(** The physical page behind [USER_STACK_BASE]. *)
Definition stack_phys (pml4 : Z) : M kst (option Z) :=
  let va := USER_STACK_BASE in
  e4 ← entry_load pml4 (PML4_INDEX va);
  if Z.land e4 PTE_PRESENT =? 0 then mret None
  else
    p3 ← PHYS_TO_VIRT (Z.land e4 PAGE_FRAME_MASK);
    e3 ← entry_load p3 (PDPT_INDEX va);
    if Z.land e3 PTE_PRESENT =? 0 then mret None
    else
      p2 ← PHYS_TO_VIRT (Z.land e3 PAGE_FRAME_MASK);
      e2 ← entry_load p2 (PD_INDEX va);
      if Z.land e2 PTE_PRESENT =? 0 then mret None
      else
        p1 ← PHYS_TO_VIRT (Z.land e2 PAGE_FRAME_MASK);
        e1 ← entry_load p1 (PT_INDEX va);
        if Z.land e1 PTE_PRESENT =? 0 then mret None
        else mret (Some (Z.land e1 PAGE_FRAME_MASK)).

Definition store64 (a v : Z) : M kst unit := mmodify (fun s => set_heap (wr64 (heap s) a v) s).

(** The strings, the last one highest; answers [str_ptr]. *)
Fixpoint push_strings (kpage argv_uvas i : Z) (rargs : list (list Z)) (str_ptr : Z) : M kst Z :=
  match rargs with
  | [] => mret str_ptr
  | a :: rargs =>
      let str_ptr := u64 (str_ptr - Z.of_nat (S (length a))) in
      mmodify (fun s => set_heap (store_bytes (heap s) str_ptr (a ++ [0])) s);;
      store64 (u64 (argv_uvas + 8 * i)) (u64 (USER_STACK_BASE + (str_ptr - kpage)));;
      push_strings kpage argv_uvas (i - 1) rargs str_ptr
  end.

(** [for (i = n - 1; i >= 0; i--) *--sp = argv_uvas[i];] *)
Fixpoint push_pointers (argv_uvas : Z) (n : nat) (sp : Z) : M kst Z :=
  match n with
  | O => mret sp
  | S i =>
      v ← mgets (fun s => rd64 (heap s) (u64 (argv_uvas + 8 * Z.of_nat i)));
      let sp := u64 (sp - 8) in
      store64 sp v;;
      push_pointers argv_uvas i sp
  end.

(** The two null pointers, the argument pointers and the count. *)
Definition push_table (argv_uvas : Z) (argc : nat) (sp : Z) : M kst Z :=
  let sp := u64 (sp - 8) in
  store64 sp 0;;
  let sp := u64 (sp - 8) in
  store64 sp 0;;
  sp ← push_pointers argv_uvas argc sp;
  let sp := u64 (sp - 8) in
  store64 sp (Z.of_nat argc);;
  mret sp.

(** [argv] is the list of its strings, without their terminators. *)
Definition setup_user_stack (pml4 : Z) (argv : option (list (list Z))) : M kst Z :=
  let args := default [] argv in
  let argc := Z.of_nat (length args) in
  phys ← stack_phys pml4;
  match phys with
  | None => mret USER_STACK_TOP
  | Some phys =>
      kpage ← PHYS_TO_VIRT phys;
      argv_uvas ← pa_alloc 1;
      if argv_uvas =? 0 then mret USER_STACK_TOP
      else
        str_ptr ← push_strings kpage argv_uvas (argc - 1) (reverse args) (u64 (kpage + PAGE_SIZE));
        let rsp := Z.land (u64 (USER_STACK_BASE + (str_ptr - kpage))) (2 ^ 64 - 16) in
        sp ← push_table argv_uvas (length args) (u64 (kpage + (rsp - USER_STACK_BASE)));
        pa_free argv_uvas 1;;
        mret (u64 (USER_STACK_BASE + (sp - kpage)))
  end.
End Arguments.

(** ** What it leaves *)

(** Bytes the strings take, terminators included. *)
Definition total (l : list (list Z)) : Z := foldr (fun a n => Z.of_nat (S (length a)) + n) 0 l.

Lemma total_nonneg l : 0 <= total l.
Proof. induction l as [|a l IH]; cbn [total foldr] in *; [lia|]. fold (total l). lia. Qed.

Lemma total_app l1 l2 : total (l1 ++ l2) = total l1 + total l2.
Proof. induction l1 as [|a l IH]; [done|]. cbn [app total foldr] in *. fold (total (l ++ l2)) (total l). lia. Qed.

Lemma total_rev l : total (reverse l) = total l.
Proof. induction l as [|a l IH]; [done|]. rewrite reverse_cons, total_app, IH. cbn [total foldr]. fold (total l). lia. Qed.

(** An argument: no terminator inside. *)
Definition arg_ok (a : list Z) : Prop := Forall (fun c => 0 < c < 256) a.

Lemma cstr_agree m m' a l : (forall b, a <= b <= a + Z.of_nat (length l) -> rd8 m' b = rd8 m b) -> cstr m a l -> cstr m' a l.
Proof.
  revert a. induction l as [|c l IH]; intros a H; cbn [cstr length] in *.
  - intros <-. apply H. lia.
  - intros (<- & Hc & Hl). split; [apply H; lia|]. split; [done|]. apply IH; [|done]. intros b Hb. apply H. lia.
Qed.

Lemma cstr_stored m a l : arg_ok l -> cstr (store_bytes m a (l ++ [0])) a l.
Proof.
  intros Hl. revert m a. induction Hl as [|c l Hc Hl IH]; intros m a; cbn [app store_bytes cstr].
  - apply rd8_wr8_eq.
  - split; [|split; [lia|apply IH]]. rewrite rd8_store_bytes, (proj2 (Z.leb_gt _ _)) by lia. cbn [andb].
    rewrite rd8_wr8_eq. apply u8_small. lia.
Qed.

Lemma store_bytes_out m a l b : b < a \/ a + Z.of_nat (length l) <= b -> rd8 (store_bytes m a l) b = rd8 m b.
Proof.
  intros H. rewrite rd8_store_bytes. destruct (Z.leb_spec a b), (Z.ltb_spec b (a + Z.of_nat (length l))); cbn [andb]; lia || done.
Qed.

Section Walk.
Context `{PA : PageAllocator}.

Lemma absent_bit e : (Z.land e PTE_PRESENT =? 0) = negb (pte_is_present e).
Proof. unfold pte_is_present. by rewrite negb_involutive. Qed.

(** The entries a walk passes. *)
Lemma walk_entries m off root va e : translate m off root va = Some e ->
  let e3 := entry m root (index 3 va) in let e2 := entry m (child off e3) (index 2 va) in
  let e1 := entry m (child off e2) (index 1 va) in e = entry m (child off e1) (index 0 va) /\
  pte_is_present e3 = true /\ pte_is_present e2 = true /\ pte_is_present e1 = true /\ pte_is_present e = true.
Proof.
  intros H e3 e2 e1. unfold translate in H. cbn [descend] in H. unfold mbind, option_bind in H.
  change (3 - 0)%nat with 3%nat in H. change (3 - 1)%nat with 2%nat in H. change (3 - 2)%nat with 1%nat in H.
  fold e3 in H. destruct (pte_is_present e3); [|done]. fold e2 in H. destruct (pte_is_present e2); [|done].
  fold e1 in H. destruct (pte_is_present e1); [|done]. destruct (pte_is_present (entry m (child off e1) _)) eqn:E; [|done].
  by injection H as <-.
Qed.

(** The walk finds the frame the processor would. *)
Lemma stack_phys_run root s e :
  translate (heap s) (hhdm_offset s) root USER_STACK_BASE = Some e ->
  stack_phys root s = Ok (Some (pte_get_phys e), s).
Proof.
  intros (-> & P3 & P2 & P1 & P0)%walk_entries. unfold stack_phys.
  change (PML4_INDEX USER_STACK_BASE) with (index 3 USER_STACK_BASE).
  change (PDPT_INDEX USER_STACK_BASE) with (index 2 USER_STACK_BASE).
  change (PD_INDEX USER_STACK_BASE) with (index 1 USER_STACK_BASE).
  change (PT_INDEX USER_STACK_BASE) with (index 0 USER_STACK_BASE).
  unfold mbind, M_bind, entry_load, PHYS_TO_VIRT, mgets.
  unfold child, pte_get_phys in P2, P1, P0 |- *.
  rewrite absent_bit, P3. cbn [negb]. rewrite absent_bit, P2. cbn [negb]. rewrite absent_bit, P1. cbn [negb].
  by rewrite absent_bit, P0.
Qed.
End Walk.

(** The strings of [rargs] stored from [top] down, and their user addresses in
    the table at [uvas], the first one in entry [i]. *)
Definition string_at (top : Z) (rargs : list (list Z)) (j : nat) : Z := top - total (take (S j) rargs).

Record strings_pushed (kpage uvas i top : Z) (rargs : list (list Z)) (m m' : mem) : Prop := {
  sp_frame : forall b, ~ top - total rargs <= b < top ->
    ~ uvas + 8 * (i + 1 - Z.of_nat (length rargs)) <= b < uvas + 8 * (i + 1) -> rd8 m' b = rd8 m b;
  sp_strings : forall j a, rargs !! j = Some a ->
    cstr m' (string_at top rargs j) a /\
    rd64 m' (uvas + 8 * (i - Z.of_nat j)) = USER_STACK_BASE + (string_at top rargs j - kpage)
}.

Lemma total_take l j : 0 <= total (take j l) <= total l.
Proof.
  pose proof (total_nonneg (take j l)). pose proof (total_nonneg (drop j l)).
  rewrite <- (take_drop j l) at 3. rewrite total_app. lia.
Qed.

Lemma push_strings_run kpage uvas i rargs top s :
  Forall arg_ok rargs -> kpage <= top - total rargs -> top <= kpage + 4096 -> 0 < kpage -> kpage + 4096 <= 2 ^ 64 ->
  i + 1 = Z.of_nat (length rargs) -> 0 < uvas -> uvas + 8 * (i + 1) <= 2 ^ 64 ->
  uvas + 8 * (i + 1) <= kpage \/ kpage + 4096 <= uvas ->
  exists m, push_strings kpage uvas i rargs top s = Ok (top - total rargs, set_heap m s) /\
    strings_pushed kpage uvas i top rargs (heap s) m.
Proof.
  intros Ha. revert i top s. induction Ha as [|a rargs Ha1 Ha IH]; intros i top s H1 H2 H3 H4 Hi H5 H6 H7.
  - exists (heap s). cbn [push_strings total foldr]. rewrite Z.sub_0_r. split; [by destruct s|]. by split.
  - cbn [push_strings]. cbn [total foldr length] in H1, Hi. fold (total rargs) in H1.
    pose proof (total_nonneg rargs) as Ht. rewrite (u64_small (top - _)) by lia.
    remember (top - Z.of_nat (S (length a))) as q eqn:Eq. unfold mbind, M_bind, store64, mmodify. cbn [heap set_heap].
    rewrite (u64_small (uvas + 8 * i)), (u64_small (USER_STACK_BASE + _)) by (unfold USER_STACK_BASE; lia).
    set (m1 := store_bytes (heap s) q (a ++ [0])). set (m2 := wr64 m1 (uvas + 8 * i) (USER_STACK_BASE + (q - kpage))).
    destruct (IH (i - 1) q (set_heap m2 (set_heap m1 s))) as (m & E & [Hf Hs]); [lia..|].
    exists m. change (set_heap m (set_heap m2 (set_heap m1 s))) with (set_heap m s) in E.
    replace (top - total (a :: rargs)) with (q - total rargs) by (cbn [total foldr]; fold (total rargs); lia).
    split; [exact E|]. cbn [heap set_heap] in Hf. replace (i - 1 + 1) with i in Hf by lia. split.
    + intros b Hb1 Hb2. cbn [length total foldr] in Hb1, Hb2. fold (total rargs) in Hb1. rewrite Hf by lia. unfold m2. rewrite rd8_wr_ne by lia.
      apply store_bytes_out. rewrite length_app. cbn [length]. lia.
    + intros [|j] x Hx; cbn in Hx.
      * injection Hx as <-. unfold string_at. change (total (take 1 (a :: rargs))) with (Z.of_nat (S (length a)) + 0).
        replace (top - (Z.of_nat (S (length a)) + 0)) with q by lia.
        rewrite Z.sub_0_r. split.
        -- apply (cstr_agree m1); [|by apply cstr_stored]. intros b Hb. rewrite Hf by lia. unfold m2. apply rd8_wr_ne. lia.
        -- transitivity (rd64 m2 (uvas + 8 * i)).
           ++ apply rd_agree. intros b Hb. apply Hf; lia.
           ++ unfold m2. apply rd64_wr64_eq. unfold USER_STACK_BASE. lia.
      * destruct (Hs j x Hx) as [Hs1 Hs2]. replace (i - 1 - Z.of_nat j) with (i - Z.of_nat (S j)) in Hs2 by lia.
        assert (string_at top (a :: rargs) (S j) = string_at q rargs j) as ->; [|done].
        unfold string_at. change (total (take (S (S j)) (a :: rargs))) with (Z.of_nat (S (length a)) + total (take (S j) rargs)). lia.
Qed.

Lemma push_pointers_run uvas n sp s :
  8 * Z.of_nat n <= sp -> sp < 2 ^ 64 -> 0 <= uvas -> uvas + 8 * Z.of_nat n <= 2 ^ 64 ->
  uvas + 8 * Z.of_nat n <= sp - 8 * Z.of_nat n \/ sp <= uvas ->
  exists m, push_pointers uvas n sp s = Ok (sp - 8 * Z.of_nat n, set_heap m s) /\
    (forall b, ~ sp - 8 * Z.of_nat n <= b < sp -> rd8 m b = rd8 (heap s) b) /\
    forall j, 0 <= j < Z.of_nat n -> rd64 m (sp - 8 * Z.of_nat n + 8 * j) = rd64 (heap s) (uvas + 8 * j).
Proof.
  revert sp s. induction n as [|i IH]; intros sp s H1 H2 H3 H4 H5.
  - exists (heap s). cbn [push_pointers]. replace (sp - 8 * Z.of_nat 0) with sp by lia. split; [by destruct s|].
    split; [done|]. intros j Hj. lia.
  - cbn [push_pointers]. unfold mbind, M_bind, mgets, store64, mmodify.
    rewrite (u64_small (uvas + _)), (u64_small (sp - 8)) by lia.
    set (m1 := wr64 (heap s) (sp - 8) (rd64 (heap s) (uvas + 8 * Z.of_nat i))).
    destruct (IH (sp - 8) (set_heap m1 s)) as (m & E & Hf & Hv); [lia..|]. cbn [heap set_heap] in Hf, Hv.
    exists m. replace (sp - 8 * Z.of_nat (S i)) with (sp - 8 - 8 * Z.of_nat i) by lia. split; [exact E|]. split.
    + intros b Hb. rewrite Hf by lia. apply rd8_wr_ne. lia.
    + intros j Hj. destruct (decide (j = Z.of_nat i)) as [->|Hne].
      * replace (sp - 8 - 8 * Z.of_nat i + 8 * Z.of_nat i) with (sp - 8) by lia.
        transitivity (rd64 m1 (sp - 8)); [apply rd_agree; intros b Hb; apply Hf; lia|].
        unfold m1. apply rd64_wr64_eq, rd64_range.
      * rewrite Hv by lia. unfold m1. apply rd_wr_ne. lia.
Qed.

Lemma align16 x : 0 <= x < 2 ^ 64 -> Z.land x (2 ^ 64 - 16) = 16 * (x / 16).
Proof.
  intros H. change (2 ^ 64 - 16) with (Z.shiftl (Z.ones 60) 4). rewrite land_field by lia.
  change (4 + 60) with 64. change (2 ^ 4) with 16. rewrite Z.mod_small by lia. Z.to_euclidean_division_equations; lia.
Qed.

(** A pointer table of [n] entries below [top], taken from [uvas]. *)
Record table_pushed (uvas : Z) (n : nat) (top : Z) (m m' : mem) : Prop := {
  tp_frame : forall b, ~ top - 8 * (Z.of_nat n + 3) <= b < top -> rd8 m' b = rd8 m b;
  tp_argc : rd64 m' (top - 8 * (Z.of_nat n + 3)) = Z.of_nat n;
  tp_argv : forall j, 0 <= j < Z.of_nat n ->
    rd64 m' (top - 8 * (Z.of_nat n + 3) + 8 * (1 + j)) = rd64 m (uvas + 8 * j);
  tp_null : rd64 m' (top - 16) = 0 /\ rd64 m' (top - 8) = 0
}.

Lemma push_table_run uvas n top s :
  8 * (Z.of_nat n + 3) <= top -> top < 2 ^ 64 -> 0 <= uvas -> uvas + 8 * Z.of_nat n <= 2 ^ 64 ->
  uvas + 8 * Z.of_nat n <= top - 8 * (Z.of_nat n + 3) \/ top <= uvas ->
  exists m, push_table uvas n top s = Ok (top - 8 * (Z.of_nat n + 3), set_heap m s) /\ table_pushed uvas n top (heap s) m.
Proof.
  intros H1 H2 H3 H4 H5. unfold push_table, mbind, M_bind, store64, mmodify. cbv beta zeta.
  rewrite (u64_small (top - 8)), (u64_small (top - 8 - 8)) by lia.
  set (m1 := wr64 (heap s) (top - 8) 0). cbn [heap set_heap]. set (m2 := wr64 m1 (top - 8 - 8) 0).
  destruct (push_pointers_run uvas n (top - 8 - 8) (set_heap m2 (set_heap m1 s))) as (m & -> & Hf & Hv); [lia..|].
  cbn [heap set_heap] in Hf, Hv |- *. rewrite u64_small by lia.
  set (p := top - 8 * (Z.of_nat n + 3)). assert (p = top - 8 - 8 - 8 * Z.of_nat n - 8) as Ep by lia. rewrite <- Ep.
  exists (wr64 m p (Z.of_nat n)). split; [done|].
  assert (forall b, b < top - 8 - 8 \/ top <= b -> rd8 m2 b = rd8 (heap s) b) as Hm2.
  { intros b Hb. unfold m2, m1. by rewrite !rd8_wr_ne by lia. }
  assert (forall b, top - 8 - 8 <= b < top -> rd8 (wr64 m p (Z.of_nat n)) b = rd8 m2 b) as Hm.
  { intros b Hb. rewrite rd8_wr_ne by lia. apply Hf. lia. }
  split.
  - intros b Hb. rewrite rd8_wr_ne by lia. rewrite Hf by lia. apply Hm2. lia.
  - apply rd64_wr64_eq. lia.
  - intros j Hj. fold p. rewrite rd_wr_ne by lia. replace (p + 8 * (1 + j)) with (top - 8 - 8 - 8 * Z.of_nat n + 8 * j) by lia.
    rewrite Hv by done. apply rd_agree. intros b Hb. apply Hm2. lia.
  - split.
    + transitivity (rd64 m2 (top - 8 - 8)); [|by apply rd64_wr64_eq].
      replace (top - 16) with (top - 8 - 8) by lia. apply rd_agree. intros b Hb. apply Hm. lia.
    + transitivity (rd64 m2 (top - 8)); [apply rd_agree; intros b Hb; apply Hm; lia|].
      unfold m2. rewrite rd_wr_ne by lia. by apply rd64_wr64_eq.
Qed.

(** The arguments as a program finds them at [rsp], its stack page being
    [kpage] in kernel memory. *)
Record args_laid_out (kpage rsp : Z) (args : list (list Z)) (m : mem) : Prop := {
  al_inside : USER_STACK_BASE <= rsp /\ rsp + 8 * (Z.of_nat (length args) + 3) <= USER_STACK_BASE + 4096;
  al_aligned : (rsp + 8 * (Z.of_nat (length args) + 3)) mod 16 = 0;
  al_argc : rd64 m (kpage + (rsp - USER_STACK_BASE)) = Z.of_nat (length args);
  al_argv : forall j a, args !! j = Some a -> exists p,
    rd64 m (kpage + (rsp - USER_STACK_BASE) + 8 * (1 + Z.of_nat j)) = p /\
    USER_STACK_BASE <= p /\ p + Z.of_nat (length a) < USER_STACK_BASE + 4096 /\
    cstr m (kpage + (p - USER_STACK_BASE)) a;
  al_null : rd64 m (kpage + (rsp - USER_STACK_BASE) + 8 * (Z.of_nat (length args) + 1)) = 0 /\
    rd64 m (kpage + (rsp - USER_STACK_BASE) + 8 * (Z.of_nat (length args) + 2)) = 0
}.

Lemma args_laid_out_agree kpage rsp args m m' :
  args_laid_out kpage rsp args m -> (forall b, kpage <= b < kpage + 4096 -> rd8 m' b = rd8 m b) ->
  args_laid_out kpage rsp args m'.
Proof.
  intros [H1 H2 H3 H4 H5] Hm. unfold USER_STACK_BASE in *. split; unfold USER_STACK_BASE; try done.
  - rewrite <- H3. apply rd_agree. intros b Hb. apply Hm. lia.
  - intros j a Hj. destruct (H4 j a Hj) as (p & Hp & Hp1 & Hp2 & Hc). exists p.
    pose proof (lookup_lt_Some _ _ _ Hj) as Hlt. split; [|split; [done|split; [done|]]].
    + rewrite <- Hp. apply rd_agree. intros b Hb. apply Hm. lia.
    + apply (cstr_agree m); [|done]. intros b Hb. apply Hm. lia.
  - destruct H5 as [H5 H6]. split; [rewrite <- H5|rewrite <- H6]; apply rd_agree; intros b Hb; apply Hm; lia.
Qed.

(** Strings and table together. *)
Lemma args_written kpage uvas args m m1 m2 :
  let n := length args in
  let str := kpage + 4096 - total args in
  let top := kpage + 16 * ((str - kpage) / 16) in
  Forall arg_ok args -> total args + 8 * (Z.of_nat n + 3) + 15 <= 4096 -> 0 < kpage ->
  uvas + 8 * Z.of_nat n <= kpage \/ kpage + 4096 <= uvas ->
  strings_pushed kpage uvas (Z.of_nat n - 1) (kpage + 4096) (reverse args) m m1 ->
  table_pushed uvas n top m1 m2 ->
  args_laid_out kpage (USER_STACK_BASE + (top - 8 * (Z.of_nat n + 3) - kpage)) args m2.
Proof.
  intros n str top Ha Hfit Hk Hd [Hsf Hs] [Htf Hargc Hargv [Hn1 Hn2]].
  pose proof (total_nonneg args) as Ht. assert (str = kpage + 4096 - total args) as Estr by done.
  assert (top = kpage + 16 * ((str - kpage) / 16)) as Etop by done.
  assert (str - 15 <= top <= str) as Htop by (Z.to_euclidean_division_equations; lia).
  assert (kpage + (USER_STACK_BASE + (top - 8 * (Z.of_nat n + 3) - kpage) - USER_STACK_BASE) = top - 8 * (Z.of_nat n + 3)) as Esp by lia.
  split; fold n; rewrite ?Esp.
  - lia.
  - replace (USER_STACK_BASE + (top - 8 * (Z.of_nat n + 3) - kpage) + 8 * (Z.of_nat n + 3)) with (34359737856 * 16 + ((str - kpage) / 16) * 16)
      by (unfold USER_STACK_BASE; lia). rewrite <- Z.mul_add_distr_r. by apply Z.mod_mul.
  - done.
  - intros j a Hj. pose proof (lookup_lt_Some _ _ _ Hj) as Hlt. fold n in Hlt.
    assert (reverse args !! (n - 1 - j)%nat = Some a) as Hr.
    { rewrite reverse_lookup by (unfold n in *; lia). rewrite <- Hj. f_equal. unfold n. lia. }
    destruct (Hs _ _ Hr) as [Hc Hv]. set (q := string_at (kpage + 4096) (reverse args) (n - 1 - j)) in *.
    assert (str <= q /\ q + Z.of_nat (length a) < kpage + 4096) as Hq.
    { unfold q, string_at. pose proof (total_take (reverse args) (S (n - 1 - j))) as H1. rewrite total_rev in H1. split; [lia|].
      rewrite (take_S_r _ _ a Hr), total_app. pose proof (total_nonneg (take (n - 1 - j) (reverse args))). cbn [total foldr]. lia. }
    exists (USER_STACK_BASE + (q - kpage)). rewrite Hargv by lia.
    replace (Z.of_nat n - 1 - Z.of_nat (n - 1 - j)) with (Z.of_nat j) in Hv by lia. split; [done|]. split; [lia|]. split; [lia|].
    replace (kpage + (USER_STACK_BASE + (q - kpage) - USER_STACK_BASE)) with q by lia.
    apply (cstr_agree m1); [|done]. intros b Hb. apply Htf. lia.
  - replace (top - 8 * (Z.of_nat n + 3) + 8 * (Z.of_nat n + 1)) with (top - 16) by lia.
    by replace (top - 8 * (Z.of_nat n + 3) + 8 * (Z.of_nat n + 2)) with (top - 8) by lia.
Qed.

(** The pointer table ends at a multiple of 16 below the strings. *)
Lemma table_top kpage str : 0 <= str - kpage <= 4096 -> 0 <= kpage < 2 ^ 64 - 4096 ->
  u64 (kpage + (Z.land (u64 (USER_STACK_BASE + (str - kpage))) (2 ^ 64 - 16) - USER_STACK_BASE)) = kpage + 16 * ((str - kpage) / 16).
Proof.
  intros Hs Hk. unfold USER_STACK_BASE. rewrite (u64_small (549755805696 + _)), align16 by lia.
  assert (0 <= (str - kpage) / 16 <= 256) as Hd by (Z.to_euclidean_division_equations; lia).
  replace ((549755805696 + (str - kpage)) / 16) with (34359737856 + (str - kpage) / 16)
    by (Z.to_euclidean_division_equations; lia). rewrite u64_small by lia. lia.
Qed.

(** The strings go to the stack page, the pointers to the borrowed one. *)
Lemma pushed_frame kpage r i top args (m m1 m2 : mem) :
  kpage mod 4096 = 0 -> r mod 4096 = 0 ->
  let n := length args in let str := kpage + 4096 - total args in
  0 <= total args -> kpage <= top - 8 * (Z.of_nat n + 3) -> top <= str -> 8 * Z.of_nat n <= 4096 -> i = Z.of_nat n - 1 ->
  strings_pushed kpage r i (kpage + 4096) (reverse args) m m1 -> table_pushed r n top m1 m2 ->
  forall b, b / 4096 <> kpage / 4096 -> b / 4096 <> r / 4096 -> rd8 m2 b = rd8 m b.
Proof.
  intros Hk Hr n str Ht Hlow Htop Hn -> Hs Htab b Hb1 Hb2. assert (~ kpage <= b < kpage + 4096) as Hnk.
  { intros Hb. apply Hb1. replace b with (kpage + (b - kpage)) by lia. apply page_byte_div; [done|lia]. }
  assert (~ r <= b < r + 4096) as Hnr.
  { intros Hb. apply Hb2. replace b with (r + (b - r)) by lia. apply page_byte_div; [done|lia]. }
  rewrite (tp_frame _ _ _ _ _ Htab) by lia. apply (sp_frame _ _ _ _ _ _ _ Hs); rewrite ?total_rev, ?length_reverse; fold n; lia.
Qed.

(** Writing a page that is neither free nor a table changes no translation. *)
Lemma page_written `{PA : PageAllocator} root T ps ps' s s' q :
  pt_state root T ps s -> (q ∉ ps) -> ~ table_pages T q -> ps' ≡ₚ ps -> pa_inv ps' s' -> hhdm_offset s' = hhdm_offset s ->
  same_outside (q :: ps) (heap s) (heap s') ->
  pt_state root T ps' s' /\
  (forall va, translate (heap s') (hhdm_offset s) root va = translate (heap s) (hhdm_offset s) root va) /\
  (forall b, b / 4096 <> q -> (b / 4096 ∉ ps) -> rd8 (heap s') b = rd8 (heap s) b).
Proof.
  intros [Htree Hpa Hap Hoff] Hq Hqt Hp Hi Eo Hout.
  assert (forall p, table_pages T p -> p ∉ q :: ps) as Haway by (intros p Hp1 [->|Hp2]%elem_of_cons; [done|by apply (Hap p)]).
  split; [split|split].
  - rewrite Eo. by apply (pt_inv_outside _ root (heap s) _ (q :: ps)).
  - done.
  - intros p Hp1 Hin. apply (Hap p Hp1). by rewrite <- Hp.
  - by rewrite Eo.
  - intros va. apply (translate_ext _ root (heap s) _ T); [done|]. intros t l i Ht Hl.
    apply (entry_outside (q :: ps)); [done|by eapply pt_aligned|done|]. apply Haway. by exists t, l.
  - intros b Hb1 Hb2. apply Hout. by rewrite not_elem_of_cons.
Qed.

(** C16: A program finds its arguments.  When the strings and the pointers fit
    in the stack page, [setup_user_stack] answers a stack pointer in that page
    where the program reads the number of arguments, a pointer to each string
    in order, each with its terminator, and two null pointers; the end of this
    table is 16-byte aligned.  The page it borrowed is free again, the tables
    still translate as before, and no other memory changed. *)
Theorem setup_user_stack_lays_out `{PA : PageAllocator} root T ps s e args :
  pt_state root T ps s -> translate (heap s) (hhdm_offset s) root USER_STACK_BASE = Some e ->
  let kpage := child (hhdm_offset s) e in
  0 < kpage < 2 ^ 64 - 4096 -> (kpage / 4096 ∉ ps) -> ~ table_pages T (kpage / 4096) -> ps <> [] ->
  Forall arg_ok args -> total args + 8 * (Z.of_nat (length args) + 3) + 15 <= 4096 ->
  wp (setup_user_stack root (Some args)) s (fun rsp s' => exists ps', ps' ≡ₚ ps /\ pt_state root T ps' s' /\
    args_laid_out kpage rsp args (heap s') /\
    (forall va, translate (heap s') (hhdm_offset s) root va = translate (heap s) (hhdm_offset s) root va) /\
    (forall b, b / 4096 <> kpage / 4096 -> (b / 4096 ∉ ps) -> rd8 (heap s') b = rd8 (heap s) b)).
Proof.
  intros Hst He kpage Hk Hkp Hkt Hne Ha Hfit. pose proof Hst as [Htree Hpa Hap Hoff].
  destruct (child_aligned (hhdm_offset s) e Hoff) as [Hal Hend]. fold kpage in Hal, Hend.
  pose proof (total_nonneg args) as Ht. set (n := length args) in *.
  unfold setup_user_stack. change (default [] (Some args)) with args. cbv zeta. fold n.
  wp_step. eapply wp_run; [by apply stack_phys_run|]. cbv iota beta.
  wp_step. apply wp_gets. change (u64 (pte_get_phys e + hhdm_offset s)) with kpage.
  cbv beta iota. wp_step. eapply wp_mono; [by apply alloc_page|]. intros r s1 (Hr1 & Hr2 & Hr3 & qs & Hps & Hq & Hu).
  rewrite (proj2 (Z.eqb_neq r 0)) by lia. pose proof (pa_inv_nodup _ _ Hpa) as Hnd. rewrite Hps in Hnd.
  apply NoDup_cons in Hnd as [Hrq _]. assert ((r / 4096) ∈ ps) as Hrps by (rewrite Hps; by apply elem_of_cons; left).
  assert (r + 4096 <= kpage \/ kpage + 4096 <= r) as Hd.
  { assert (r / 4096 <> kpage / 4096) by (intros E; by rewrite E in Hrps). apply Z_div_exact_2 in Hr1, Hal; lia. }
  unfold PAGE_SIZE. rewrite (u64_small (kpage + 4096)) by lia.
  destruct (push_strings_run kpage r (Z.of_nat n - 1) (reverse args) (kpage + 4096) s1) as (m1 & E1 & Hs);
    rewrite ?total_rev, ?length_reverse; try (fold n; lia); [by apply Forall_reverse|].
  wp_step. eapply wp_run; [exact E1|]. rewrite total_rev.
  set (str := kpage + 4096 - total args). set (top := kpage + 16 * ((str - kpage) / 16)).
  assert (str = kpage + 4096 - total args) as Estr by done.
  assert (top = kpage + 16 * ((str - kpage) / 16)) as Etop by done.
  assert (str - 15 <= top <= str) as Htop by (Z.to_euclidean_division_equations; lia).
  rewrite table_top by lia. fold top.
  destruct (push_table_run r n top (set_heap m1 s1)) as (m2 & E2 & Htab); [lia..|]. cbn [heap set_heap] in Htab.
  wp_step. eapply wp_run; [exact E2|].
  pose proof (args_written kpage r args (heap s1) m1 m2 Ha ltac:(fold n; lia) ltac:(lia) ltac:(fold n; lia) Hs Htab) as Hlay.
  fold n str top in Hlay.
  assert (forall b, b / 4096 <> kpage / 4096 -> b / 4096 <> r / 4096 -> rd8 m2 b = rd8 (heap s1) b) as Hm2.
  { by apply (pushed_frame kpage r (Z.of_nat n - 1) top args (heap s1) m1 m2); fold n str; lia || done. }
  set (s2 := set_heap m2 (set_heap m1 s1)) in *.
  assert (pa_inv qs s2) as Hq2.
  { change s2 with (set_heap m2 s1). apply (pa_inv_heap qs [kpage / 4096; r / 4096]); [done| |].
    - intros b Hb. rewrite !not_elem_of_cons in Hb. apply Hm2; tauto.
    - intros p Hp Hpq. rewrite !elem_of_cons in Hp. destruct Hp as [->|[->|Hp%elem_of_nil]]; [|done|done].
      apply Hkp. rewrite Hps. by apply elem_of_cons; right. }
  wp_step. eapply wp_mono; [by apply (free_page qs r s2)|]. intros _ s6 [Hi6 Hu6]. wp_step.
  rewrite u64_small by (unfold USER_STACK_BASE; lia). exists (r / 4096 :: qs). split; [by rewrite Hps|].
  destruct Hu as (h1 & hs1 & (w1 & -> & Hw1) & Ho1). destruct Hu6 as (h6 & hs6 & (w6 & -> & Hw6) & Ho6).
  cbn [heap set_heap set_khw set_lists set_buddy hhdm_offset s2] in *.
  assert (forall p, p ∈ r / 4096 :: qs -> p ∈ ps) as Hsub by (intros p; by rewrite Hps).
  assert (same_outside (kpage / 4096 :: ps) (heap s) h6) as Hout.
  { intros b Hb. rewrite not_elem_of_cons in Hb. destruct Hb as [Hb1 Hb2]. rewrite Ho6 by auto. transitivity (rd8 h1 b); [|by apply Ho1].
    apply Hm2; [done|]. intros E. by rewrite E in Hb2. }
  edestruct (page_written root T ps (r / 4096 :: qs)) as (Hst' & Htr & Hby);
    [exact Hst|exact Hkp|exact Hkt|by rewrite Hps|exact Hi6|done|exact Hout|].
  split; [exact Hst'|]. split; [|split; [exact Htr|exact Hby]].
  eapply args_laid_out_agree; [exact Hlay|]. intros b Hb. apply Ho6.
  replace b with (kpage + (b - kpage)) by lia. rewrite page_byte_div by (done || lia). auto.
Qed.

(** "ls", "-l" on the stack page 8388608 of an address space with nothing
    else. *)
Lemma setup_user_stack_lays_out_witness : exists s,
  wp (setup_user_stack 2097152 (Some [[108; 115]; [45; 108]])) s (fun rsp s' =>
    args_laid_out 8388608 rsp [[108; 115]; [45; 108]] (heap s')).
Proof.
  assert ((3 <= length wide_pages)%nat) as Hlw by by apply Nat.leb_le.
  assert (0 <= 6 < 2 ^ 64) as Hf by done.
  pose proof (map_in_spec 2097152 _ _ _ _ USER_STACK_BASE (u64 (8388608 - 2 ^ 40)) 6 loader_tables user_table_flags Hlw Hf) as Hw.
  destruct (proj1 (wp_ok _ _ _) Hw) as (r & s & Erun & T & ps & Hst & Hg & Hlen & Ht). clear Hw Erun.
  exists s. set (e := leaf_entry (u64 (8388608 - 2 ^ 40)) 6).
  assert (hhdm_offset s = 2 ^ 40) as Hoff by apply Hg. assert (child (2 ^ 40) e = 8388608) as Hc by by vm_compute.
  eapply wp_mono.
  - apply (setup_user_stack_lays_out 2097152 T ps s e); rewrite ?Hoff, ?Hc.
    + exact Hst.
    + specialize (Ht USER_STACK_BASE). rewrite decide_True in Ht by done. exact Ht.
    + done.
    + intros Hin. apply (gr_free _ _ _ _ _ _ Hg) in Hin. revert Hin. by_decide.
    + intros [(t & l & [<- _]%lookup_singleton_Some & E)|Hin]%(gr_new _ _ _ _ _ _ Hg); [by vm_compute in E|].
      revert Hin. by_decide.
    + intros ->. change (length wide_pages) with 32%nat in Hlen. cbn in Hlen. lia.
    + repeat constructor.
    + done.
  - intros rsp s' (ps' & _ & _ & H & _). rewrite Hoff, Hc in H. exact H.
Defined.
