(* ===== verification/UserCopy.v ===== *)
(** * Copying a user address space (src/src/kernel/mem.c)

    [copy_user_pml4] of PageTable.v walks the lower half of one tree of tables
    and gives the other tree a copy of every user page.  Here: the list of
    those pages in the order of the walk, and what the copy shows. *)
From S2P Require Import Prelude KMem Spinlock BuddySpec Buddy PageAlloc PageTable AddrSpace.

#[local] Open Scope Z_scope.

(** The address whose indices are [i4], [i3], [i2], [i1], as the code makes it. *)
Definition join (i4 i3 i2 i1 : Z) : Z :=
  Z.lor (Z.lor (Z.lor (Z.shiftl i4 39) (Z.shiftl i3 30)) (Z.shiftl i2 21)) (Z.shiftl i1 12).

Definition small (i : Z) : Prop := 0 <= i < 512.

Lemma join_sum i4 i3 i2 i1 : small i4 -> small i3 -> small i2 -> small i1 ->
  join i4 i3 i2 i1 = ((i4 * 512 + i3) * 512 + i2) * 2 ^ 21 + i1 * 2 ^ 12.
Proof.
  unfold small, join. intros H4 H3 H2 H1. rewrite !Z.shiftl_mul_pow2 by lia.
  rewrite (lor_disjoint (i4 * 2 ^ 39) (i3 * 2 ^ 30) 39) by (try apply Z.mod_mul; lia).
  rewrite (lor_disjoint _ (i2 * 2 ^ 21) 30); [|lia| |lia].
  2: { replace (i4 * 2 ^ 39 + i3 * 2 ^ 30) with ((i4 * 512 + i3) * 2 ^ 30) by lia. by apply Z.mod_mul. }
  rewrite (lor_disjoint _ (i1 * 2 ^ 12) 21); [lia|lia| |lia].
  replace (i4 * 2 ^ 39 + i3 * 2 ^ 30 + i2 * 2 ^ 21) with (((i4 * 512 + i3) * 512 + i2) * 2 ^ 21) by lia. by apply Z.mod_mul.
Qed.

Lemma join_index i4 i3 i2 i1 : small i4 -> small i3 -> small i2 -> small i1 ->
  let va := join i4 i3 i2 i1 in index 3 va = i4 /\ index 2 va = i3 /\ index 1 va = i2 /\ index 0 va = i1.
Proof.
  intros H4 H3 H2 H1 va. unfold va. rewrite (join_sum i4 i3 i2 i1) by done. unfold small, index in *. rewrite !Z.shiftr_div_pow2 by lia.
  change (2 ^ (12 + 9 * Z.of_nat 3)) with (2 ^ 39). change (2 ^ (12 + 9 * Z.of_nat 2)) with (2 ^ 30).
  change (2 ^ (12 + 9 * Z.of_nat 1)) with (2 ^ 21). change (2 ^ (12 + 9 * Z.of_nat 0)) with (2 ^ 12).
  split_and!; Z.to_euclidean_division_equations; lia.
Qed.

(** The first address of the page of [va]. *)
Definition page_of (va : Z) : Z := join (index 3 va) (index 2 va) (index 1 va) (index 0 va).

Lemma index_small l va : small (index l va).
Proof. apply index_range. Qed.

Lemma page_of_same va : same_page (page_of va) va.
Proof.
  apply same_page_index. destruct (join_index (index 3 va) (index 2 va) (index 1 va) (index 0 va)) as (H3 & H2 & H1 & H0);
    try apply index_small. intros [|[|[|[|l]]]] Hl; done || lia.
Qed.

Lemma page_of_join i4 i3 i2 i1 : small i4 -> small i3 -> small i2 -> small i1 ->
  page_of (join i4 i3 i2 i1) = join i4 i3 i2 i1.
Proof. intros H4 H3 H2 H1. unfold page_of. by destruct (join_index i4 i3 i2 i1 H4 H3 H2 H1) as (-> & -> & -> & ->). Qed.

Lemma page_of_congr va va' : same_page va va' -> page_of va = page_of va'.
Proof. rewrite same_page_index. intros H. unfold page_of. by rewrite !H by lia. Qed.

(** ** The pages of the walk *)

Section Walk.
Context (m : mem) (off old : Z).

(** Below the present entries [i < n] of the table [t]. *)
Definition present_pages (n t : Z) (f : Z -> Z -> list upage) : list upage :=
  concat ((fun i => if pte_is_present (entry m t i) then f i (child off (entry m t i)) else []) <$> seqZ 0 n).

Definition user_bit (pte : Z) : bool := negb (Z.land pte PTE_USER =? 0).
Definition leaf_flags (pte : Z) : Z := Z.ldiff (Z.land pte 4095) PTE_PRESENT.
Definition leaf_page (va pte : Z) : upage := Upage va (leaf_flags pte) (fun k => rd8 m (child off pte + k)).
Definition leaf_pages (va pte : Z) : list upage := if user_bit pte then [leaf_page va pte] else [].

Definition user_pages : list upage :=
  present_pages 256 old (fun i4 t3 =>
    present_pages 512 t3 (fun i3 t2 =>
      present_pages 512 t2 (fun i2 t1 =>
        concat ((fun i1 => if pte_is_present (entry m t1 i1) then leaf_pages (join i4 i3 i2 i1) (entry m t1 i1) else []) <$> seqZ 0 512)))).

(** The user page of the lower half at [va]. *)
Definition user_entry (va : Z) : option Z :=
  if index 3 va <? 256 then
    match translate m off old va with Some e => if user_bit e then Some e else None | None => None end
  else None.

Lemma elem_of_present_pages n t f u : u ∈ present_pages n t f <->
  exists i, 0 <= i < n /\ pte_is_present (entry m t i) = true /\ u ∈ f i (child off (entry m t i)).
Proof.
  unfold present_pages. rewrite elem_of_concat_seqZ. split.
  - intros (i & Hi & Hu). exists i. destruct (pte_is_present (entry m t i)); [done|]. by apply not_elem_of_nil in Hu.
  - intros (i & Hi & Hp & Hu). exists i. by rewrite Hp.
Qed.

Lemma translate_by_index va e3 e2 e1 e0 :
  e3 = entry m old (index 3 va) -> e2 = entry m (child off e3) (index 2 va) ->
  e1 = entry m (child off e2) (index 1 va) -> e0 = entry m (child off e1) (index 0 va) ->
  translate m off old va = if pte_is_present e3 && pte_is_present e2 && pte_is_present e1 && pte_is_present e0 then Some e0 else None.
Proof.
  intros H3 H2 H1 H0. unfold translate. cbn [descend]. unfold mbind, option_bind.
  change (3 - 0)%nat with 3%nat. change (3 - 1)%nat with 2%nat. change (3 - 2)%nat with 1%nat.
  rewrite <- H3. destruct (pte_is_present e3); [|done]. rewrite <- H2. destruct (pte_is_present e2); [|done].
  rewrite <- H1. destruct (pte_is_present e1); [|done]. rewrite <- H0. by destruct (pte_is_present e0).
Qed.

(** The list holds exactly the user pages the processor's walk finds. *)
Lemma elem_of_user_pages u : u ∈ user_pages <->
  page_of (up_va u) = up_va u /\ exists e, user_entry (up_va u) = Some e /\ u = leaf_page (up_va u) e.
Proof.
  unfold user_pages. split.
  - intros (i4 & H4 & P4 & (i3 & H3 & P3 & (i2 & H2 & P2 & Hu)%elem_of_present_pages)%elem_of_present_pages)%elem_of_present_pages.
    apply elem_of_concat_seqZ in Hu as (i1 & H1 & Hu). destruct (pte_is_present _) eqn:P1 in Hu; [|by apply not_elem_of_nil in Hu].
    unfold leaf_pages in Hu. destruct (user_bit _) eqn:Eu in Hu; [|by apply not_elem_of_nil in Hu].
    apply list_elem_of_singleton in Hu as ->. cbn [up_va leaf_page].
    assert (small i4 /\ small i3 /\ small i2 /\ small i1) as (S4 & S3 & S2 & S1) by (unfold small; lia).
    destruct (join_index i4 i3 i2 i1 S4 S3 S2 S1) as (J4 & J3 & J2 & J1). split; [by apply page_of_join|].
    eexists. split; [|reflexivity]. unfold user_entry. rewrite J4, (proj2 (Z.ltb_lt _ _)) by lia.
    erewrite translate_by_index by reflexivity. rewrite J4, J3, J2, J1, P4, P3, P2, P1. cbn [andb]. by rewrite Eu.
  - intros (Hp & e & He & ->). set (va := up_va u) in *. unfold user_entry in He.
    destruct (Z.ltb_spec (index 3 va) 256) as [Hlt|]; [|done]. erewrite translate_by_index in He by reflexivity.
    set (e3 := entry m old (index 3 va)) in *. set (e2 := entry m (child off e3) (index 2 va)) in *.
    set (e1 := entry m (child off e2) (index 1 va)) in *. set (e0 := entry m (child off e1) (index 0 va)) in *.
    destruct (pte_is_present e3) eqn:P3; [|done]. destruct (pte_is_present e2) eqn:P2; [|done].
    destruct (pte_is_present e1) eqn:P1; [|done]. destruct (pte_is_present e0) eqn:P0; [|done]. cbn [andb] in He.
    destruct (user_bit e0) eqn:Eu; [|done]. injection He as <-.
    pose proof (index_range 3 va). apply elem_of_present_pages. exists (index 3 va). split; [lia|]. split; [done|].
    apply elem_of_present_pages. exists (index 2 va). split; [apply index_range|]. split; [done|].
    apply elem_of_present_pages. exists (index 1 va). split; [apply index_range|]. split; [done|].
    apply elem_of_concat_seqZ. exists (index 0 va). split; [apply index_range|]. fold e3 e2 e1 e0. rewrite P0.
    unfold leaf_pages. rewrite Eu. apply list_elem_of_singleton. by rewrite <- Hp at 1.
Qed.

Lemma user_entry_same va va' : same_page va va' -> user_entry va = user_entry va'.
Proof.
  rewrite same_page_index. intros H. unfold user_entry. rewrite (H 3%nat) by lia.
  erewrite !translate_by_index by reflexivity. by rewrite !H by lia.
Qed.

(** What [page_for] finds in a list where an address has one page. *)
Lemma page_for_one l va u : u ∈ l -> same_page (up_va u) va ->
  (forall u', u' ∈ l -> same_page (up_va u') va -> u' = u) -> page_for va l = Some u.
Proof.
  intros Hin Hs Hu. induction l as [|x l IH] using rev_ind; [by apply not_elem_of_nil in Hin|].
  unfold page_for. rewrite foldl_app. cbn. case_decide as E.
  - f_equal. apply Hu; [|done]. apply elem_of_app. right. by apply list_elem_of_singleton.
  - apply IH.
    + apply elem_of_app in Hin as [Hin| ->%list_elem_of_singleton]; done.
    + intros u' Hu'. apply Hu. apply elem_of_app. by left.
Qed.

Lemma page_for_none l va : (forall u, u ∈ l -> ~ same_page (up_va u) va) -> page_for va l = None.
Proof.
  intros Hu. induction l as [|x l IH] using rev_ind; [done|]. unfold page_for. rewrite foldl_app. cbn.
  rewrite decide_False by (apply Hu, elem_of_app; right; by apply list_elem_of_singleton).
  apply IH. intros u Hin. apply Hu, elem_of_app. by left.
Qed.

Lemma page_for_user va : page_for va user_pages = leaf_page (page_of va) <$> user_entry va.
Proof.
  destruct (user_entry va) as [e|] eqn:E.
  - pose proof (page_of_same va) as Hs. apply page_for_one; [|exact Hs|].
    + apply elem_of_user_pages. cbn [up_va leaf_page]. split; [by apply page_of_congr|]. exists e.
      by rewrite (user_entry_same _ _ Hs).
    + intros u (Hp & e' & He & ->)%elem_of_user_pages Hs'. cbn [up_va leaf_page] in *.
      rewrite (user_entry_same _ _ Hs'), E in He. injection He as <-.
      by rewrite <- Hp, (page_of_congr _ _ Hs').
  - apply page_for_none. intros u (Hp & e' & He & _)%elem_of_user_pages Hs'.
    by rewrite (user_entry_same _ _ Hs'), E in He.
Qed.
End Walk.

Lemma leaf_flags_facts pte : 0 <= leaf_flags pte < 4096 /\
  (pte_is_present pte = true -> Z.lor (leaf_flags pte) PTE_PRESENT = pte mod 4096).
Proof.
  unfold leaf_flags. change 4095 with (2 ^ 12 - 1). rewrite land_low by lia. change (2 ^ 12) with 4096.
  pose proof (Z.mod_pos_bound pte 4096 ltac:(lia)) as H.
  assert (pte_is_present pte = Z.testbit (pte mod 4096) 0) as ->.
  { rewrite present_bit. change 4096 with (2 ^ 12). by rewrite Z.mod_pow2_bits_low. }
  assert ((0 <=? Z.ldiff (pte mod 4096) PTE_PRESENT) && (Z.ldiff (pte mod 4096) PTE_PRESENT <? 4096) &&
    implb (Z.testbit (pte mod 4096) 0) (Z.lor (Z.ldiff (pte mod 4096) PTE_PRESENT) PTE_PRESENT =? pte mod 4096) = true) as Hb.
  { apply (all_below (fun x => (0 <=? Z.ldiff x PTE_PRESENT) && (Z.ldiff x PTE_PRESENT <? 4096) &&
      implb (Z.testbit x 0) (Z.lor (Z.ldiff x PTE_PRESENT) PTE_PRESENT =? x)) 4096); [by vm_compute|done]. }
  apply andb_true_iff in Hb as [Hb1 Hb2]. split; [lia|]. intros E. rewrite E in Hb2. by apply Z.eqb_eq.
Qed.

(** ** The copy *)

Section Copying.
Context `{PA : PageAllocator} (root old : Z).
Context (T0 : gmap Z nat) (ps0 : list Z) (s0 : kst).
#[local] Abbreviation kept := (kept T0 ps0).
#[local] Abbreviation built := (built root T0 ps0 s0).
#[local] Abbreviation off := (hhdm_offset s0).
#[local] Abbreviation m0 := (heap s0).

(** A page none of whose bytes the copy touches. *)
Definition kept_page (t : Z) : Prop := t mod 4096 = 0 /\ kept t.

Lemma kept_page_byte t k : kept_page t -> 0 <= k < 4096 -> kept (t + k).
Proof. intros [Hal Hk] Hr. unfold AddrSpace.kept. by rewrite page_byte_div. Qed.

Lemma entry_kept l s t i : built l s -> kept_page t -> 0 <= i < 512 -> entry (heap s) t i = entry m0 t i.
Proof.
  intros Hb Ht Hi. apply rd_agree. intros b Hr. change (Z.of_nat 8) with 8 in Hr.
  apply (built_kept root T0 ps0 s0 l); [done|]. replace b with (t + (b - t)) by lia. apply kept_page_byte; [done|lia].
Qed.

Lemma built_off l s : built l s -> hhdm_offset s = off.
Proof. intros (T & ps & fr & H). apply (gr_regs _ _ _ _ _ _ (bi_grows _ _ _ _ _ _ _ _ _ H)). Qed.

(** A counted loop whose rounds add pages. *)
Lemma mfor_built n (step : Z -> M kst (option unit)) (g : Z -> list upage) l s :
  (forall i l s, 0 <= i < Z.of_nat n -> built l s -> (4 * (length l + length (g i)) <= length ps0)%nat ->
     wp (step i) s (fun r s' => r = None /\ built (l ++ g i) s')) ->
  built l s -> (4 * (length l + length (concat (g <$> seqZ 0 (Z.of_nat n)))) <= length ps0)%nat ->
  wp (mfor n step 0;; mret tt) s (fun _ s' => built (l ++ concat (g <$> seqZ 0 (Z.of_nat n))) s').
Proof.
  intros Hstep Hb Hroom. wp_step.
  apply (wp_mfor _ (fun i s => built (l ++ concat (g <$> seqZ 0 i)) s)).
  - intros i t Hi Hbt. rewrite Z.add_0_l in Hi. pose proof (concat_seqZ_length g (i + 1) (Z.of_nat n) ltac:(lia)) as Hlen.
    rewrite concat_seqZ_snoc, length_app in Hlen by lia.
    eapply wp_mono; [apply (Hstep i (l ++ concat (g <$> seqZ 0 i)) t); [lia|done|rewrite length_app; lia]|].
    intros r t' [-> Hb']. cbn beta iota. by rewrite concat_seqZ_snoc, app_assoc by lia.
  - intros t Hbt. wp_step. done.
  - cbn. by rewrite app_nil_r.
Qed.

Lemma for_present_built n t body (f : Z -> Z -> list upage) l s :
  kept_page t -> (n <= 512)%nat ->
  (forall i l s, 0 <= i < Z.of_nat n -> pte_is_present (entry m0 t i) = true -> built l s ->
     (4 * (length l + length (f i (child off (entry m0 t i)))) <= length ps0)%nat ->
     wp (body i (child off (entry m0 t i))) s (fun _ s' => built (l ++ f i (child off (entry m0 t i))) s')) ->
  built l s -> (4 * (length l + length (present_pages m0 off (Z.of_nat n) t f)) <= length ps0)%nat ->
  wp (for_present n t body) s (fun _ s' => built (l ++ present_pages m0 off (Z.of_nat n) t f) s').
Proof.
  intros Ht Hn Hbody Hb Hroom. unfold for_present. apply mfor_built; [|done|done].
  intros i l1 s1 Hi Hb1 Hr1. wp_step. apply wp_gets. rewrite (entry_kept l1) by (done || lia).
  destruct (pte_is_present (entry m0 t i)) eqn:Ep; cbn [negb].
  - wp_step. wp_step. apply wp_gets. rewrite (built_off l1 s1 Hb1).
    change (u64 (pte_get_phys (entry m0 t i) + off)) with (child off (entry m0 t i)).
    eapply wp_mono; [by apply Hbody|]. intros [] s2 Hb2. by wp_step.
  - wp_step. wp_step. wp_step. by rewrite app_nil_r.
Qed.

(** The copy of one page. *)
Definition copy_fill (pte page : Z) : M kst unit :=
  src ← PHYS_TO_VIRT (pte_get_phys pte);
  mmodify (fun s => set_heap (memcpy (heap s) page src PAGE_SIZE) s).

Lemma copy_leaf_shape va pte s : pte_is_present pte = true -> user_bit pte = true ->
  copy_leaf root va pte s = (map_fresh root va (leaf_flags pte) (copy_fill pte);; mret tt) s.
Proof.
  intros Hp Hu. unfold copy_leaf, map_fresh, copy_fill, leaf_flags. unfold user_bit in Hu. apply negb_true_iff in Hu.
  rewrite Hp, Hu. cbn [negb orb]. unfold mbind, M_bind. destruct (pa_alloc 1 s) as [[page s1]|w]; [|done].
  destruct (page =? 0); [done|]. cbn. destruct (map_page_pml4 _ _ _ _ _) as [[[] s2]|w]; done.
Qed.

Lemma copy_fills pte : kept_page (child off pte) -> child off pte + 4096 <= 2 ^ 64 ->
  fills T0 ps0 s0 (copy_fill pte) (fun k => rd8 m0 (child off pte + k)).
Proof.
  intros Hsrc Hend page s1 Hal Hp He Hin Hoff Hk. unfold copy_fill. wp_step. apply wp_gets. rewrite Hoff.
  change (u64 (pte_get_phys pte + off)) with (child off pte). set (src := child off pte) in *. apply wp_modify.
  assert (page + 4096 <= src \/ src + 4096 <= page) as Hd.
  { destruct Hsrc as [Hs1 [Hs2 _]]. assert (page / 4096 <> src / 4096) by (intros E; by rewrite E in Hin).
    apply Z_div_exact_2 in Hs1, Hal; lia. }
  eexists. split; [reflexivity|]. unfold PAGE_SIZE. split.
  - intros b Hb. rewrite rd8_memcpy by lia. destruct (Z.leb_spec page b), (Z.ltb_spec b (page + 4096)); cbn [andb]; try done.
    exfalso. apply Hb, list_elem_of_singleton. replace b with (page + (b - page)) by lia. apply page_byte_div; [done|lia].
  - intros k Hr. rewrite rd8_memcpy by lia. rewrite (proj2 (Z.leb_le _ _)), (proj2 (Z.ltb_lt _ _)) by lia. cbn [andb].
    replace (page + k - page) with k by lia. apply Hk. by apply kept_page_byte.
Qed.

Lemma copy_leaf_built va pte l s : hhdm_offset s0 mod 4096 = 0 ->
  (pte_is_present pte = true -> user_bit pte = true -> kept_page (child off pte)) ->
  built l s ->
  (4 * (length l + length (if pte_is_present pte then leaf_pages m0 off va pte else [])) <= length ps0)%nat ->
  wp (copy_leaf root va pte) s (fun _ s' => built (l ++ (if pte_is_present pte then leaf_pages m0 off va pte else [])) s').
Proof.
  intros Ho Hsrc Hb Hroom. destruct (pte_is_present pte) eqn:Ep; unfold leaf_pages in *.
  2: { unfold copy_leaf. rewrite Ep. cbn [negb orb]. wp_step. by rewrite app_nil_r. }
  destruct (user_bit pte) eqn:Eu.
  2: { unfold copy_leaf. rewrite Ep. unfold user_bit in Eu. apply negb_false_iff in Eu. rewrite Eu. cbn [negb orb].
       wp_step. by rewrite app_nil_r. }
  unfold wp. rewrite copy_leaf_shape by done. apply wp_bind. cbn [length] in Hroom.
  eapply wp_mono; [apply (map_fresh_built root T0 ps0 s0 l va); [done|lia|apply leaf_flags_facts|]|].
  - apply copy_fills; [by apply Hsrc|]. destruct (Hsrc eq_refl eq_refl) as [Hal _].
    pose proof (u64_range (pte_get_phys pte + off)) as Hr. change (u64 (pte_get_phys pte + off)) with (child off pte) in Hr.
    apply Z_div_exact_2 in Hal; [|done]. Z.to_euclidean_division_equations; lia.
  - intros ok s1 [-> Hb1]. by wp_step.
Qed.

(** The tables and pages of the space copied from are not touched. *)
Definition source_kept : Prop := forall va, index 3 va < 256 ->
  (forall n t, (n <= 3)%nat -> descend n m0 off old va = Some t -> kept_page t) /\
  (forall e, user_entry m0 off old va = Some e -> kept_page (child off e)).

Lemma descend_down n va t i :
  descend n m0 off old va = Some t -> index (3 - n) va = i -> pte_is_present (entry m0 t i) = true ->
  descend (S n) m0 off old va = Some (child off (entry m0 t i)).
Proof. intros H <- Hp. cbn [descend]. rewrite H. cbn. by rewrite Hp. Qed.

Lemma copy_user_pml4_built :
  pt_state root T0 ps0 s0 -> source_kept -> (4 * length (user_pages m0 off old) <= length ps0)%nat ->
  wp (copy_user_pml4 root old) s0 (fun _ s' => built (user_pages m0 off old) s').
Proof.
  intros Hst Hsrc Hroom. pose proof (ps_off _ _ _ _ Hst) as Ho. unfold copy_user_pml4, user_pages in *.
  pose proof (index_small 0 0) as S0. change (index 0 0) with 0 in S0.
  assert (forall n i4 i3 i2 i1 t, 0 <= i4 < 256 -> small i3 -> small i2 -> small i1 -> (n <= 3)%nat ->
    descend n m0 off old (join i4 i3 i2 i1) = Some t -> kept_page t) as Hk.
  { intros n i4 i3 i2 i1 t H4 H3 H2 H1 Hn Hd. assert (small i4) as S4 by (unfold small; lia).
    destruct (join_index i4 i3 i2 i1 S4 H3 H2 H1) as (J & _). apply (Hsrc (join i4 i3 i2 i1)) in Hd; [done|lia|done]. }
  apply (for_present_built 256 old _ _ [] s0); [|lia| |by apply built_start|exact Hroom].
  { by apply (Hk 0%nat 0 0 0 0 old); [lia|done|done|done|lia|]. }
  intros i4 l4 s4 H4 P4 Hb4 Hr4. change (Z.of_nat 256) with 256 in H4. assert (small i4) as S4 by (unfold small; lia).
  assert (forall i3 i2 i1, small i3 -> small i2 -> small i1 ->
    descend 1 m0 off old (join i4 i3 i2 i1) = Some (child off (entry m0 old i4))) as D3.
  { intros i3 i2 i1 H3 H2 H1. by apply (descend_down 0); [|apply (join_index i4 i3 i2 i1)|]. }
  set (t3 := child off (entry m0 old i4)) in *.
  apply (for_present_built 512 t3); [|lia| |exact Hb4|exact Hr4].
  { apply (Hk 1%nat i4 0 0 0); try done; [lia|by apply D3]. }
  intros i3 l3 s3 H3 P3 Hb3 Hr3. change (Z.of_nat 512) with 512 in H3. assert (small i3) as S3 by (unfold small; lia).
  assert (forall i2 i1, small i2 -> small i1 ->
    descend 2 m0 off old (join i4 i3 i2 i1) = Some (child off (entry m0 t3 i3))) as D2.
  { intros i2 i1 H2 H1. by apply (descend_down 1); [by apply D3|apply (join_index i4 i3 i2 i1)|]. }
  set (t2 := child off (entry m0 t3 i3)) in *.
  apply (for_present_built 512 t2); [|lia| |exact Hb3|exact Hr3].
  { apply (Hk 2%nat i4 i3 0 0); try done; [lia|by apply D2]. }
  intros i2 l2 s2 H2 P2 Hb2 Hr2. change (Z.of_nat 512) with 512 in H2. assert (small i2) as S2 by (unfold small; lia).
  assert (forall i1, small i1 ->
    descend 3 m0 off old (join i4 i3 i2 i1) = Some (child off (entry m0 t2 i2))) as D1.
  { intros i1 H1. by apply (descend_down 2); [by apply D2|apply (join_index i4 i3 i2 i1)|]. }
  set (t1 := child off (entry m0 t2 i2)) in *.
  assert (kept_page t1) as K1 by (apply (Hk 3%nat i4 i3 i2 0); try done; by apply D1).
  apply (mfor_built 512); [|exact Hb2|exact Hr2].
  intros i1 l1 s1 H1 Hb1 Hr1. change (Z.of_nat 512) with 512 in H1. assert (small i1) as S1 by (unfold small; lia).
  wp_step. apply wp_gets. rewrite (entry_kept l1) by done. wp_step.
  eapply wp_mono; [apply copy_leaf_built; [exact Ho| |exact Hb1|exact Hr1]|].
  - intros P1 Hu. destruct (join_index i4 i3 i2 i1 S4 S3 S2 S1) as (J4 & J3 & J2 & J1).
    apply (Hsrc (join i4 i3 i2 i1)); [lia|]. unfold user_entry. rewrite J4, (proj2 (Z.ltb_lt _ _)) by lia.
    unfold translate. rewrite (D1 i1 S1). cbn. by rewrite J1, P1, Hu.
  - intros [] s' Hb'. by wp_step.
Qed.
End Copying.

(** C14: Copying an address space.  Given enough free pages,
    [copy_user_pml4] gives the new tables a page for every user page the
    processor finds in the lower half of the old ones, at the same address, with
    the same flags, in a frame of its own that was free before, and with the
    same bytes; every other address translates as before, and no memory but
    the free pages and the new tables changed: parent and child share nothing. *)
Theorem copy_user_pml4_copies `{PA : PageAllocator} root old T ps s :
  pt_state root T ps s -> source_kept old T ps s ->
  (4 * length (user_pages (heap s) (hhdm_offset s) old) <= length ps)%nat ->
  wp (copy_user_pml4 root old) s (fun _ s' =>
    let off := hhdm_offset s in
    (exists T' ps', pt_state root T' ps' s' /\ grows T ps s T' ps' s') /\
    (forall va, match user_entry (heap s) off old va with
     | Some e => exists e', translate (heap s') off root va = Some e' /\ e' mod 4096 = e mod 4096 /\
         (child off e' / 4096) ∈ ps /\
         rd8 (heap s') (child off e' + va mod 4096) = rd8 (heap s) (child off e + va mod 4096)
     | None => translate (heap s') off root va = translate (heap s) off root va
     end) /\
    (forall va va' e e', user_entry (heap s) off old va <> None -> user_entry (heap s) off old va' <> None ->
       translate (heap s') off root va = Some e -> translate (heap s') off root va' = Some e' ->
       child off e = child off e' -> same_page va va')).
Proof.
  intros Hst Hsrc Hroom. eapply wp_mono; [by apply (copy_user_pml4_built root old T ps s)|].
  intros [] s' Hb. cbv zeta. set (off := hhdm_offset s) in *.
  assert (flags_ok (user_pages (heap s) off old)) as Hfl.
  { apply Forall_forall. intros u (_ & e & _ & ->)%elem_of_user_pages. apply leaf_flags_facts. }
  pose proof (built_shows root T ps s _ s' Hb (ps_off _ _ _ _ Hst) Hfl) as [Hpage Hrest Hapart]. fold off in Hpage, Hrest, Hapart.
  split; [destruct Hb as (T' & ps' & fr & H); exists T', ps'; split; apply H|]. split.
  - intros va. specialize (Hpage va). specialize (Hrest va). rewrite page_for_user in Hpage, Hrest.
    destruct (user_entry (heap s) off old va) as [e|] eqn:E; [|by apply Hrest].
    destruct (Hpage _ eq_refl) as (e' & H1 & H2 & H3 & H4). exists e'. split; [done|]. split; [|done].
    rewrite H2. cbn [up_flags leaf_page]. apply leaf_flags_facts. unfold user_entry in E.
    destruct (index 3 va <? 256); [|done]. unfold translate in E.
    destruct (descend 3 (heap s) off old va) as [t|]; [|done]. cbn in E.
    destruct (pte_is_present (entry (heap s) t (index 0 va))) eqn:Ep; [|done]. destruct (user_bit _); [|done]. by injection E as <-.
  - intros va va' e e' H1 H2. apply Hapart; rewrite page_for_user.
    + by destruct (user_entry (heap s) off old va).
    + by destruct (user_entry (heap s) off old va').
Qed.

(** *** A concrete parent *)

(** Tables at pages 512, 514, 515 and 516 that map the page 2048 at 0x400000;
    the child's root is page 513. *)
Definition at_page (n flags : Z) : Z := Z.lor (u64 (4096 * n - 2 ^ 40)) flags.
Definition parent_heap : mem :=
  wr64 (wr64 (wr64 (wr64 (store_bytes ∅ 8388608 [72; 105]) (4096 * 512) (at_page 514 7)) (4096 * 514) (at_page 515 7))
    (4096 * 515 + 16) (at_page 516 7)) (4096 * 516) (at_page 2048 7).
Definition parent_kst : kst := wide_kst parent_heap.

Lemma parent_inv : alloc_inv wide_pages parent_kst.
Proof. by apply wide_inv. Qed.

(** The tables: page, index of the one entry, and the entry. *)
Definition parent_tables : list (Z * Z * Z) :=
  [(512, 0, at_page 514 7); (514, 0, at_page 515 7); (515, 2, at_page 516 7); (516, 0, at_page 2048 7); (513, 0, 0)].

Lemma parent_entry n i e j : (n, i, e) ∈ parent_tables -> 0 <= j < 512 ->
  entry parent_heap (4096 * n) j = if j =? i then e else 0.
Proof.
  intros Hin Hj. apply Z.eqb_eq.
  apply (all_below (fun j => entry parent_heap (4096 * n) j =? if j =? i then e else 0) 512); [|done].
  assert (forallb (fun '(n, i, e) => forallb (fun j => entry parent_heap (4096 * n) j =? if j =? i then e else 0) (seqZ 0 512))
    parent_tables = true) as H by by vm_compute.
  rewrite forallb_forall in H. apply (H (n, i, e)). by apply list_elem_of_In.
Qed.

Lemma table_entry n i e j : (n, i, e) ∈ parent_tables -> 0 <= j < 512 ->
  pte_is_present (entry parent_heap (4096 * n) j) = true -> entry parent_heap (4096 * n) j = e.
Proof.
  intros Ht Hj. rewrite (parent_entry n i e j Ht Hj). by destruct (j =? i).
Qed.

Lemma child_root_ok : pt_state (4096 * 513) {[ 4096 * 513 := 3%nat ]} wide_pages parent_kst.
Proof.
  assert (forall i, 0 <= i < 512 -> pte_is_present (entry parent_heap (4096 * 513) i) = false) as Hz.
  { intros i Hi. rewrite (parent_entry 513 0 0 i ltac:(by_decide) Hi). by destruct (i =? 0). }
  split; [split|exact parent_inv| |done].
  - by rewrite lookup_singleton_eq.
  - intros t l [<- <-]%lookup_singleton_Some. done.
  - intros t l [_ <-]%lookup_singleton_Some. lia.
  - intros t l i [<- _]%lookup_singleton_Some Hi. cbn [heap parent_kst wide_kst wide_on]. by rewrite Hz.
  - intros t l i t' l' i' [<- _]%lookup_singleton_Some _ Hi _. cbn [heap parent_kst wide_kst wide_on]. by rewrite Hz.
  - intros p (t & l & [<- _]%lookup_singleton_Some & ->). by_decide.
Qed.

Lemma parent_page_kept n : n ∈ [512; 514; 515; 516; 2048] ->
  kept_page {[ 4096 * 513 := 3%nat ]} wide_pages (4096 * n).
Proof.
  intros Hn. split; [rewrite Z.mul_comm; by apply Z.mod_mul|]. unfold kept.
  rewrite Z.mul_comm, Z.div_mul by done. split.
  - intros Hin%elem_of_seqZ. revert Hn. rewrite !elem_of_cons. intros [->|[->|[->|[->|[->|Hn%elem_of_nil]]]]]; lia || done.
  - intros (t & l & [<- _]%lookup_singleton_Some & E). change (4096 * 513 / 4096) with 513 in E.
    revert Hn. rewrite !elem_of_cons. intros [->|[->|[->|[->|[->|Hn%elem_of_nil]]]]]; lia || done.
Qed.

Lemma parent_source : source_kept (4096 * 512) {[ 4096 * 513 := 3%nat ]} wide_pages parent_kst.
Proof.
  intros va _. cbn [heap parent_kst wide_kst wide_on hhdm_offset].
  assert (forall n t, (n <= 3)%nat -> descend n parent_heap (2 ^ 40) (4096 * 512) va = Some t ->
    t = 4096 * nth n [512; 514; 515; 516] 0) as Hd.
  { intros n. induction n as [|n IH]; intros t Hn; [by intros [= <-]|]. cbn [descend].
    destruct (descend n parent_heap (2 ^ 40) (4096 * 512) va) as [t0|] eqn:E; [|done]. cbn.
    specialize (IH t0 ltac:(lia) eq_refl). subst t0. destruct (pte_is_present _) eqn:Ep; [|done]. intros [= <-].
    destruct n as [|[|[|n]]]; [| | |lia]; cbn [nth] in *.
    - rewrite (table_entry 512 0 (at_page 514 7) _ ltac:(by_decide) (index_range _ _) Ep). by vm_compute.
    - rewrite (table_entry 514 0 (at_page 515 7) _ ltac:(by_decide) (index_range _ _) Ep). by vm_compute.
    - rewrite (table_entry 515 2 (at_page 516 7) _ ltac:(by_decide) (index_range _ _) Ep). by vm_compute. }
  split.
  - intros n t Hn Ht. rewrite (Hd n t Hn Ht). apply parent_page_kept. destruct n as [|[|[|[|n]]]]; [..|lia]; by_decide.
  - intros e He. unfold user_entry, translate in He. destruct (index 3 va <? 256); [|done].
    destruct (descend 3 parent_heap (2 ^ 40) (4096 * 512) va) as [t|] eqn:E; [|done]. apply Hd in E as ->; [|lia]. cbn in He.
    destruct (pte_is_present _) eqn:Ep; [|done]. rewrite (table_entry 516 0 (at_page 2048 7) _ ltac:(by_decide) (index_range _ _) Ep) in He.
    cbn in He. injection He as <-. replace (child (2 ^ 40) (at_page 2048 7)) with (4096 * 2048) by by vm_compute.
    apply parent_page_kept. by_decide.
Qed.

(** The child finds "i" at 0x400001, in a page of its own. *)
Lemma copy_user_pml4_copies_witness :
  wp (copy_user_pml4 (4096 * 513) (4096 * 512)) parent_kst (fun _ s' => exists e,
    translate (heap s') (2 ^ 40) (4096 * 513) 4194305 = Some e /\ e mod 4096 = 7 /\
    (child (2 ^ 40) e / 4096) ∈ wide_pages /\ rd8 (heap s') (child (2 ^ 40) e + 1) = 105).
Proof.
  eapply wp_mono.
  - apply (copy_user_pml4_copies _ _ _ _ _ child_root_ok parent_source). by_decide.
  - intros [] s' (_ & Hm & _). specialize (Hm 4194305).
    assert (user_entry (heap parent_kst) (hhdm_offset parent_kst) (4096 * 512) 4194305 = Some (at_page 2048 7)) as E by by vm_compute.
    rewrite E in Hm. destruct Hm as (e & H1 & H2 & H3 & H4). exists e. split; [exact H1|]. split; [exact H2|]. split; [exact H3|].
    change (4194305 mod 4096) with 1 in H4. etransitivity; [exact H4|]. by vm_compute.
Defined.
