(* ===== verification/Reclaim.v ===== *)
(** * Giving a user address space back (src/src/kernel/mem.c)

    [free_user_pml4] of PageTable.v frees, on its way through the lower half of
    a tree of tables, every user page and every table but the root.  Here: the
    frames in the order they are freed, what they are to the processor's walk,
    and that exactly they are free afterwards. *)
From S2P Require Import Prelude KMem Spinlock BuddySpec Buddy PageAlloc PageTable AddrSpace UserCopy.

#[local] Open Scope Z_scope.

(** ** The frames of the lower half *)

Section Frames.
Context (m : mem) (off root : Z).

(** The frames that [f] gives for the tables below the present entries [i < n]
    of [t]. *)
Definition frames_below (n t : Z) (f : Z -> list Z) : list Z :=
  concat ((fun i => if pte_is_present (entry m t i) then f (child off (entry m t i)) else []) <$> seqZ 0 n).

Definition leaf_frame (pte : Z) : list Z :=
  if pte_is_present pte && user_bit pte then [child off pte / 4096] else [].
Definition leaf_frames (t : Z) : list Z := concat ((fun i => leaf_frame (entry m t i)) <$> seqZ 0 512).
(** A table of level 1, 2 and 3 with what is below it. *)
Definition frames1 (t : Z) : list Z := leaf_frames t ++ [t / 4096].
Definition frames2 (t : Z) : list Z := frames_below 512 t frames1 ++ [t / 4096].
Definition frames3 (t : Z) : list Z := frames_below 512 t frames2 ++ [t / 4096].
Definition space_frames : list Z := frames_below 256 root frames3.

(** A frame of the lower half: one of a table or of a user page that the
    processor's walk reaches. *)
Definition reached (p : Z) : Prop :=
  exists va, index 3 va < 256 /\
    ((exists n t, (1 <= n <= 3)%nat /\ descend n m off root va = Some t /\ t / 4096 = p) \/
     (exists e, user_entry m off root va = Some e /\ child off e / 4096 = p)).

Lemma elem_of_frames_below n t f p :
  p ∈ frames_below n t f <->
  exists i, 0 <= i < n /\ pte_is_present (entry m t i) = true /\ p ∈ f (child off (entry m t i)).
Proof.
  unfold frames_below. rewrite elem_of_concat_seqZ. split.
  - intros (i & Hi & Hp). exists i. destruct (pte_is_present _); [done|]. by apply not_elem_of_nil in Hp.
  - intros (i & Hi & E & Hp). exists i. by rewrite E.
Qed.

Lemma elem_of_leaf_frames t p :
  p ∈ leaf_frames t <-> exists i, 0 <= i < 512 /\ pte_is_present (entry m t i) = true /\
    user_bit (entry m t i) = true /\ child off (entry m t i) / 4096 = p.
Proof.
  unfold leaf_frames, leaf_frame. rewrite elem_of_concat_seqZ. split.
  - intros (i & Hi & Hp). exists i. destruct (pte_is_present _), (user_bit _); cbn [andb] in Hp; try by apply not_elem_of_nil in Hp.
    by apply list_elem_of_singleton in Hp as ->.
  - intros (i & Hi & E1 & E2 & <-). exists i. rewrite E1, E2. split; [done|]. by apply list_elem_of_singleton.
Qed.

(** The walk, one level at a time. *)
Lemma descend_next n va t i : descend n m off root va = Some t -> index (3 - n) va = i -> pte_is_present (entry m t i) = true ->
  descend (S n) m off root va = Some (child off (entry m t i)).
Proof. intros Hd <- Hp. cbn [descend]. rewrite Hd. cbn. by rewrite Hp. Qed.

Lemma descend_inv n va t : descend (S n) m off root va = Some t ->
  exists t0, descend n m off root va = Some t0 /\ pte_is_present (entry m t0 (index (3 - n) va)) = true /\
    t = child off (entry m t0 (index (3 - n) va)).
Proof.
  cbn [descend]. destruct (descend n m off root va) as [t0|]; [|done]. cbn.
  destruct (pte_is_present _) eqn:E; [|done]. intros [= <-]. by exists t0.
Qed.

Lemma reached_table n va t : index 3 va < 256 -> (1 <= n <= 3)%nat -> descend n m off root va = Some t -> reached (t / 4096).
Proof. intros L Hn Hd. exists va. split; [done|]. left. by exists n, t. Qed.

Lemma elem_of_snoc (l : list Z) x p : p ∈ l ++ [x] <-> p ∈ l \/ p = x.
Proof. by rewrite elem_of_app, list_elem_of_singleton. Qed.

Lemma frames_are_reached p : p ∈ space_frames -> reached p.
Proof.
  pose proof (index_small 0 0) as Z0. change (index 0 0) with 0 in Z0.
  intros (i4 & H4 & P4 & Hp)%elem_of_frames_below. assert (small i4) as S4 by (unfold small; lia).
  assert (forall i3 i2 i1, small i3 -> small i2 -> small i1 -> index 3 (join i4 i3 i2 i1) < 256 /\
    descend 1 m off root (join i4 i3 i2 i1) = Some (child off (entry m root i4))) as D3.
  { intros i3 i2 i1 S3 S2 S1. destruct (join_index i4 i3 i2 i1 S4 S3 S2 S1) as (J & _). split; [lia|]. by apply (descend_next 0 _ root i4). }
  apply elem_of_snoc in Hp as [Hp| ->]; [|destruct (D3 0 0 0 Z0 Z0 Z0) as [L D]; by apply (reached_table 1 (join i4 0 0 0)); [|lia|]].
  apply elem_of_frames_below in Hp as (i3 & H3 & P3 & Hp). assert (small i3) as S3 by done.
  assert (forall i2 i1, small i2 -> small i1 ->
    descend 2 m off root (join i4 i3 i2 i1) = Some (child off (entry m (child off (entry m root i4)) i3))) as D2.
  { intros i2 i1 S2 S1. eapply (descend_next 1); [by apply D3|by apply (join_index i4 i3 i2 i1)|done]. }
  apply elem_of_snoc in Hp as [Hp| ->]; [|by apply (reached_table 2 (join i4 i3 0 0)); [apply D3|lia|apply D2]].
  apply elem_of_frames_below in Hp as (i2 & H2 & P2 & Hp). assert (small i2) as S2 by done.
  set (t2 := child off (entry m (child off (entry m root i4)) i3)) in *.
  assert (forall i1, small i1 -> descend 3 m off root (join i4 i3 i2 i1) = Some (child off (entry m t2 i2))) as D1.
  { intros i1 S1. eapply (descend_next 2); [by apply D2|by apply (join_index i4 i3 i2 i1)|done]. }
  apply elem_of_snoc in Hp as [Hp| ->]; [|by apply (reached_table 3 (join i4 i3 i2 0)); [apply D3|lia|apply D1]].
  apply elem_of_leaf_frames in Hp as (i1 & H1 & P1 & U1 & <-). assert (small i1) as S1 by done.
  exists (join i4 i3 i2 i1). destruct (D3 i3 i2 i1 S3 S2 S1) as [L _]. split; [exact L|]. right. eexists. split; [|reflexivity].
  unfold user_entry. rewrite (proj2 (Z.ltb_lt _ _) L). unfold translate. rewrite (D1 i1 S1). cbn.
  destruct (join_index i4 i3 i2 i1 S4 S3 S2 S1) as (_ & _ & _ & ->). by rewrite P1, U1.
Qed.

Lemma reached_are_frames p : reached p -> p ∈ space_frames.
Proof.
  intros (va & L & H). pose proof (index_range 3 va) as R3. pose proof (index_range 2 va) as R2.
  pose proof (index_range 1 va) as R1. pose proof (index_range 0 va) as R0.
  assert (forall t1 q, descend 3 m off root va = Some t1 -> q ∈ frames1 t1 -> q ∈ space_frames) as F1.
  { intros t1 q (t2 & (t3 & (t4 & [= <-] & P4 & ->)%descend_inv & P3 & ->)%descend_inv & P2 & ->)%descend_inv Hq.
    apply elem_of_frames_below. exists (index 3 va). split; [lia|]. split; [exact P4|]. apply elem_of_snoc. left.
    apply elem_of_frames_below. exists (index 2 va). split; [lia|]. split; [exact P3|]. apply elem_of_snoc. left.
    apply elem_of_frames_below. exists (index 1 va). split; [lia|]. split; [exact P2|]. exact Hq. }
  destruct H as [(n & t & Hn & Hd & <-)|(e & He & <-)].
  - destruct n as [|[|[|[|n]]]]; [lia| | | |lia].
    + apply descend_inv in Hd as (t4 & [= <-] & P4 & ->). apply elem_of_frames_below. exists (index 3 va).
      split; [lia|]. split; [exact P4|]. apply elem_of_snoc. by right.
    + apply descend_inv in Hd as (t3 & (t4 & [= <-] & P4 & ->)%descend_inv & P3 & ->). apply elem_of_frames_below. exists (index 3 va).
      split; [lia|]. split; [exact P4|]. apply elem_of_snoc. left. apply elem_of_frames_below. exists (index 2 va).
      split; [lia|]. split; [exact P3|]. apply elem_of_snoc. by right.
    + apply (F1 t); [done|]. apply elem_of_snoc. by right.
  - unfold user_entry in He. rewrite (proj2 (Z.ltb_lt _ _) L) in He. unfold translate in He.
    destruct (descend 3 m off root va) as [t1|] eqn:D; [|done]. cbn in He.
    destruct (pte_is_present _) eqn:P1; [|done]. destruct (user_bit _) eqn:U1; [|done]. injection He as <-.
    apply (F1 t1); [done|]. apply elem_of_app. left. apply elem_of_leaf_frames. exists (index 0 va). done.
Qed.
End Frames.

(** ** Freeing them *)

Section Freeing.
Context `{PA : PageAllocator} (m0 : mem) (off : Z).

(** [c], which looks at memory only in the page [t] (0 for none) and in the
    frames [l], gives the frames [l] to whatever is free. *)
Definition frees (t : Z) (c : M kst unit) (l : list Z) : Prop := forall qs s,
  pa_inv qs s -> NoDup (l ++ qs) -> hhdm_offset s = off ->
  (forall b, b / 4096 ∈ l \/ (t <> 0 /\ b / 4096 = t / 4096) -> rd8 (heap s) b = rd8 m0 b) ->
  (t <> 0 -> t / 4096 ∉ l ++ qs) ->
  wp c s (fun _ s' => (exists rs, rs ≡ₚ l ++ qs /\ pa_inv rs s') /\ hhdm_offset s' = off /\
    same_outside (l ++ qs) (heap s) (heap s')).

Lemma frees_nothing t : frees t (mret tt) [].
Proof. intros qs s Hi _ Ho _ _. wp_step. split_and!; [by exists qs|done|done]. Qed.

Lemma frees_here t c l : frees 0 c l -> frees t c l.
Proof. intros H qs s Hi Hnd Ho Hm _. apply H; [done..| |done]. intros b [Hb|[]]; [by apply Hm; left|done]. Qed.

(** A page of the heap that may be given back. *)
Definition page_at (t : Z) : Prop := t mod 4096 = 0 /\ 0 < t /\ t + 4096 <= 2 ^ 64.

Lemma frees_page t v : page_at v -> frees t (pa_free v 1) [v / 4096].
Proof.
  intros (Hal & Hv & He) qs s Hi Hnd Ho _ _. eapply wp_mono; [apply (free_page qs v); try done; by apply NoDup_cons in Hnd as [? _]|].
  intros _ s' [Hi' (m & hs & (h & -> & _) & Hs)]. split_and!; [by exists ((v / 4096) :: qs)|done|done].
Qed.

(** One after the other: what the second looks at, the first leaves alone. *)
Lemma frees_app t c d l k : frees t c l -> frees t d k -> frees t (c;; d) (l ++ k).
Proof.
  intros Hc Hd qs s Hi Hnd Ho Hm Ht. rewrite <- app_assoc in Hnd, Ht.
  assert (Permutation (l ++ k ++ qs) (k ++ l ++ qs)) as Hp by (rewrite !app_assoc; by rewrite (Permutation_app_comm l k)).
  apply wp_bind. eapply wp_mono; [apply (Hc qs s)|].
  1,3: done.
  { apply (NoDup_Permutation_proper _ _ Hp), NoDup_app in Hnd. by destruct Hnd as (_ & _ & ?). }
  { intros b [Hb|Hb]; apply Hm; [left; apply elem_of_app; by left|by right]. }
  { intros H0 Hin. apply (Ht H0). rewrite Hp. apply elem_of_app. by right. }
  intros [] s1 ((rs & Hrs & Hi1) & Ho1 & Hs1).
  assert (NoDup (k ++ rs)) as Hnd1 by (rewrite Hrs; by rewrite <- Hp).
  eapply wp_mono; [apply (Hd rs s1); try done|].
  { intros b Hb. assert (b / 4096 ∉ l ++ qs) as Hout.
    { intros Hin. destruct Hb as [Hb|[H0 Hb]].
      - apply NoDup_app in Hnd1 as (_ & Hdis & _). apply (Hdis _ Hb). by rewrite Hrs.
      - apply (Ht H0). rewrite <- Hb, Hp. apply elem_of_app. by right. }
    rewrite (Hs1 b Hout). apply Hm. destruct Hb as [Hb|Hb]; [left; apply elem_of_app; by right|by right]. }
  { intros H0 Hin. apply (Ht H0). by rewrite Hp, <- Hrs. }
  intros [] s2 ((rs2 & Hrs2 & Hi2) & Ho2 & Hs2). split_and!; [|done|].
  - exists rs2. split; [|done]. by rewrite Hrs2, Hrs, <- Hp, app_assoc.
  - intros b Hb. rewrite <- app_assoc, Hp in Hb. rewrite Hs2, Hs1; [done| |].
    + intros Hin. apply Hb, elem_of_app. by right.
    + by rewrite Hrs.
Qed.

(** A table's own page comes last. *)
Lemma frees_table t c l : page_at t -> frees t c l -> frees 0 (c;; pa_free t 1) (l ++ [t / 4096]).
Proof.
  intros Ht Hc qs s Hi Hnd Ho Hm _. rewrite <- app_assoc in Hnd. cbn [app] in Hnd.
  assert (NoDup (t / 4096 :: l ++ qs)) as Hnd' by by rewrite Permutation_middle.
  apply NoDup_cons in Hnd' as [Hl Hnd'].
  apply wp_bind. eapply wp_mono; [apply (Hc qs s); try done|].
  { intros b Hb. apply Hm. left. apply elem_of_app. destruct Hb as [Hb|[_ ->]]; [by left|right; by apply list_elem_of_singleton]. }
  intros [] s1 ((rs & Hrs & Hi1) & Ho1 & Hs1). eapply wp_mono; [apply (frees_page 0 t Ht rs s1 Hi1)|]; try done.
  { constructor; [by rewrite Hrs|]. by rewrite Hrs. }
  { intros b [Hb%list_elem_of_singleton|[]]; [|done]. rewrite Hs1 by (by rewrite Hb). apply Hm. left. apply elem_of_app. right.
    by apply list_elem_of_singleton. }
  intros [] s2 ((rs2 & Hrs2 & Hi2) & Ho2 & Hs2). assert ([t / 4096] ++ rs ≡ₚ (l ++ [t / 4096]) ++ qs) as Hp.
  { rewrite Hrs, <- app_assoc. cbn [app]. by rewrite Permutation_middle. }
  split_and!; [exists rs2; split; [by rewrite Hrs2, Hp|done]|done|].
  intros b Hb. rewrite <- Hp in Hb. rewrite Hs2 by done. apply Hs1. rewrite <- Hrs. intros Hin. apply Hb. by right.
Qed.

Lemma frees_ext t c d l : (forall s, c s = d s) -> frees t c l -> frees t d l.
Proof. intros E H qs s Hi Hnd Ho Hm Ht. unfold wp. rewrite <- E. by apply H. Qed.

(** Sequences regrouped. *)
Lemma mbind_done {A B} (c : M kst A) (d : M kst B) s : ((c;; mret tt);; d) s = (c;; d) s.
Proof. unfold mbind, M_bind. by destruct (c s) as [[a s1]|w]. Qed.
Lemma mbind_assoc {A B} (c : M kst A) (d : M kst unit) (e : M kst B) s : (c;; d;; e) s = ((c;; d);; e) s.
Proof. unfold mbind, M_bind. by destruct (c s) as [[a s1]|w]. Qed.

Lemma frees_loop t n (step : Z -> M kst unit) (g : Z -> list Z) :
  (forall i, 0 <= i < Z.of_nat n -> frees t (step i) (g i)) ->
  frees t (mfor n (fun i => step i;; mret (None : option unit)) 0;; mret tt) (concat (g <$> seqZ 0 (Z.of_nat n))).
Proof.
  assert (forall n i0, (forall i, i0 <= i < i0 + Z.of_nat n -> frees t (step i) (g i)) ->
    frees t (mfor n (fun i => step i;; mret (None : option unit)) i0;; mret tt) (concat (g <$> seqZ i0 (Z.of_nat n)))) as H.
  2: { intros Hs. apply H. intros i Hi. apply Hs. lia. }
  clear n. intros n. induction n as [|n IH]; intros i0 Hs.
  - apply (frees_nothing t).
  - rewrite seqZ_cons by lia. replace (Z.pred (Z.of_nat (S n))) with (Z.of_nat n) by lia. cbn [fmap list_fmap concat].
    eapply frees_ext; [|apply frees_app; [apply (Hs i0); lia|apply (IH (Z.succ i0)); intros i Hi; apply Hs; lia]].
    intros s. unfold mbind, M_bind. cbn [mfor]. unfold mbind, M_bind. destruct (step i0 s) as [[[] s1]|w]; [|done]. cbn.
    by replace (i0 + 1) with (Z.succ i0) by lia.
Qed.

(** What a step looks up. *)
Lemma frees_entry t i k l : page_at t -> 0 <= i < 512 -> frees t (k (entry m0 t i)) l -> frees t (e ← entry_load t i; k e) l.
Proof.
  intros (Hal & Hpos & _) Hi H qs s Hq Hnd Ho Hm Ht. wp_step. apply wp_gets.
  replace (entry (heap s) t i) with (entry m0 t i); [by apply H|]. symmetry. apply rd_agree. intros b Hb.
  change (Z.of_nat 8) with 8 in Hb. apply Hm. right. split; [lia|]. by apply (entry_bytes_page t i).
Qed.
Lemma frees_virt t e k l : frees t (k (child off e)) l -> frees t (v ← PHYS_TO_VIRT (pte_get_phys e); k v) l.
Proof. intros H qs s Hq Hnd Ho Hm Ht. wp_step. apply wp_gets. rewrite Ho. by apply H. Qed.

Lemma frees_present n t body f : page_at t -> (n <= 512)%nat ->
  (forall i, 0 <= i < Z.of_nat n -> pte_is_present (entry m0 t i) = true ->
     frees 0 (body i (child off (entry m0 t i))) (f (child off (entry m0 t i)))) ->
  frees t (for_present n t body) (frames_below m0 off (Z.of_nat n) t f).
Proof.
  intros Ht Hn Hb. unfold for_present, frames_below.
  eapply frees_ext; [|apply (frees_loop t n (fun i => e ← entry_load t i;
    if negb (pte_is_present e) then mret tt else sub ← PHYS_TO_VIRT (pte_get_phys e); body i sub))].
  - intros s. unfold mbind at 1 5, M_bind at 1 5. f_equal.
  - intros i Hi. apply frees_entry; [done|lia|]. destruct (pte_is_present (entry m0 t i)) eqn:E; cbn [negb]; [|apply frees_nothing].
    apply frees_virt, frees_here. by apply Hb.
Qed.
(** The three levels of the walk. *)
Hypothesis off_aligned : off mod 4096 = 0.

Lemma page_at_child e : child off e / 4096 <> 0 -> page_at (child off e).
Proof.
  intros Hz. destruct (child_aligned off e off_aligned) as [Hal He]. pose proof (u64_range (pte_get_phys e + off)) as Hr.
  fold (child off e) in Hr. unfold page_at. Z.to_euclidean_division_equations; lia.
Qed.

Definition free1 (t : Z) : M kst unit :=
  mfor 512 (fun i1 =>
    pte ← entry_load t i1;
    (if pte_is_present pte && negb (Z.land pte PTE_USER =? 0)
     then v ← PHYS_TO_VIRT (pte_get_phys pte); pa_free v 1 else mret tt);;
    mret (None : option unit)) 0;;
  pa_free t 1.
Definition free2 (t : Z) : M kst unit := for_present 512 t (fun _ => free1);; pa_free t 1.
Definition free3 (t : Z) : M kst unit := for_present 512 t (fun _ => free2);; pa_free t 1.

Lemma free1_frees t : page_at t -> (0 ∉ frames1 m0 off t) -> frees 0 (free1 t) (frames1 m0 off t).
Proof.
  intros Ht Hz. eapply frees_ext; [|apply frees_table; [done|apply (frees_loop t 512 (fun i => pte ← entry_load t i;
    if pte_is_present pte && negb (Z.land pte PTE_USER =? 0) then v ← PHYS_TO_VIRT (pte_get_phys pte); pa_free v 1 else mret tt))]].
  - intros s. unfold free1. apply mbind_done.
  - intros i Hi. apply frees_entry; [done|lia|]. unfold leaf_frame. fold (user_bit (entry m0 t i)).
    destruct (pte_is_present (entry m0 t i)) eqn:Ep, (user_bit (entry m0 t i)) eqn:Eu; cbn [andb]; try apply frees_nothing.
    apply frees_virt, frees_page, page_at_child. intros E. apply Hz, elem_of_snoc. left. apply elem_of_leaf_frames. by exists i.
Qed.

(** A level above another. *)
Lemma level_frees t body f : (forall u, page_at u -> (0 ∉ f u) -> frees 0 (body u) (f u)) -> (forall u, u / 4096 ∈ f u) ->
  page_at t -> (0 ∉ frames_below m0 off 512 t f ++ [t / 4096]) ->
  frees 0 (for_present 512 t (fun _ => body);; pa_free t 1) (frames_below m0 off 512 t f ++ [t / 4096]).
Proof.
  intros Hbody Hown Ht Hz. apply frees_table; [done|]. apply (frees_present 512 t (fun _ => body) f Ht); [lia|].
  intros i Hi Hp. assert (0 ∉ f (child off (entry m0 t i))) as Hz'.
  { intros Hin. apply Hz, elem_of_snoc. left. apply elem_of_frames_below. by exists i. }
  apply Hbody; [|done]. apply page_at_child. intros E. apply Hz'. rewrite <- E. apply Hown.
Qed.

Lemma free3_frees t : page_at t -> (0 ∉ frames3 m0 off t) -> frees 0 (free3 t) (frames3 m0 off t).
Proof.
  assert (forall l u, u / 4096 ∈ l ++ [u / 4096]) as Hown by (intros l u; apply elem_of_snoc; by right).
  apply level_frees; [|intros u; apply Hown]. intros u. apply level_frees; [exact free1_frees|intros v; apply Hown].
Qed.
End Freeing.

(** ** The root *)

Section Root.
Context `{PA : PageAllocator} (root : Z) (ps : list Z) (s0 : kst).
#[local] Abbreviation m0 := (heap s0).
#[local] Abbreviation off := (hhdm_offset s0).

(** The frames below the first [i] entries of the root. *)
Definition given (i : Z) : list Z := frames_below m0 off i root (frames3 m0 off).

(** The first [i] entries are cleared and what was below them is free. *)
Definition cleared (i : Z) (s : kst) : Prop :=
  (exists rs, rs ≡ₚ given i ++ ps /\ pa_inv rs s) /\ hhdm_offset s = off /\
  (forall j, 0 <= j < 512 -> entry (heap s) root j = if (j <? i) && pte_is_present (entry m0 root j) then 0 else entry m0 root j) /\
  same_outside (root / 4096 :: given i ++ ps) m0 (heap s).

Lemma given_next i : 0 <= i -> given (i + 1) = given i ++
  (if pte_is_present (entry m0 root i) then frames3 m0 off (child off (entry m0 root i)) else []).
Proof. intros Hi. unfold given, frames_below. by rewrite concat_seqZ_snoc. Qed.

Hypothesis (Hoff : off mod 4096 = 0) (Hroot : page_at root).
Hypothesis (Hnd : NoDup (root / 4096 :: given 256 ++ ps)) (Hnz : 0 ∉ given 256).

Lemma given_sub i p : 0 <= i <= 256 -> p ∈ given i -> p ∈ given 256.
Proof. intros Hi (j & Hj & H)%elem_of_frames_below. apply elem_of_frames_below. exists j. split; [lia|done]. Qed.

Lemma given_nodup i l : 0 <= i < 256 -> given (i + 1) = given i ++ l -> NoDup (root / 4096 :: l ++ given i ++ ps).
Proof.
  intros Hi E. assert (exists k, given 256 = given (i + 1) ++ k) as [k Hk].
  { unfold given, frames_below. replace 256 with (i + 1 + (255 - i)) by lia. rewrite seqZ_app, fmap_app, concat_app by lia. eauto. }
  rewrite Hk, E in Hnd. apply NoDup_cons in Hnd as [Hr H]. rewrite <- !app_assoc in H, Hr.
  assert (given i ++ l ++ k ++ ps ≡ₚ k ++ (l ++ given i ++ ps)) as Hp by solve_Permutation.
  rewrite Hp in H, Hr. apply NoDup_app in H as (_ & _ & H). constructor; [|done]. intros Hin. apply Hr, elem_of_app. by right.
Qed.

Lemma cleared_step i s : 0 <= i < 256 -> cleared i s ->
  wp (e ← entry_load root i;
      (if negb (pte_is_present e) then mret tt
       else sub ← PHYS_TO_VIRT (pte_get_phys e); for_present 512 sub (fun _ => free2);; pa_free sub 1;; entry_store root i 0);;
      mret (None : option unit)) s (fun r s' => r = None /\ cleared (i + 1) s').
Proof.
  intros Hi ((rs & Hrs & Hinv) & Ho & He & Hs). pose proof (given_next i ltac:(lia)) as Hg. wp_step. apply wp_gets.
  rewrite (He i) by lia. rewrite Z.ltb_irrefl. cbn [andb]. destruct (pte_is_present (entry m0 root i)) eqn:Ep; cbn [negb].
  2: { wp_step. wp_step. split; [done|]. rewrite app_nil_r in Hg. unfold cleared. rewrite Hg. split_and!; [by exists rs|done| |done].
       intros j Hj. rewrite He by done. destruct (Z.ltb_spec j i), (Z.ltb_spec j (i + 1)); try lia; cbn [andb]; try done.
       replace j with i by lia. by rewrite Ep. }
  set (t := child off (entry m0 root i)) in *. pose proof (given_nodup i _ Hi Hg) as Hnd'. apply NoDup_cons in Hnd' as [Hr Hnd'].
  assert (0 ∉ frames3 m0 off t) as Hz.
  { intros Hin. apply Hnz, (given_sub (i + 1)); [lia|]. rewrite Hg. apply elem_of_app. by right. }
  assert (page_at t) as Ht.
  { apply (page_at_child off Hoff). fold t. intros E. apply Hz. rewrite <- E. apply elem_of_snoc. by right. }
  wp_step. wp_step. apply wp_gets. rewrite Ho. fold (child off (entry m0 root i)). fold t.
  assert (NoDup (frames3 m0 off t ++ rs)) as Hnd2 by by rewrite Hrs.
  assert (forall b, b / 4096 ∈ frames3 m0 off t -> rd8 (heap s) b = rd8 m0 b) as Hsame.
  { intros b Hb. apply Hs. apply NoDup_app in Hnd' as (_ & Hd & _). intros [E|Hin]%elem_of_cons; [|by apply (Hd _ Hb)].
    apply Hr. rewrite <- E. apply elem_of_app. by left. }
  pose proof (free3_frees m0 off Hoff t Ht Hz rs s Hinv Hnd2 Ho) as Hfree.
  eapply wp_same; [apply mbind_assoc|]. fold (free3 t). wp_step. eapply wp_mono; [apply Hfree|].
  { intros b [Hb|[H0 _]]; [by apply Hsame|by destruct H0]. }
  { intros H0. by destruct H0. }
  intros [] s1 ((rs1 & Hrs1 & Hinv1) & Ho1 & Hs1). unfold entry_store. apply wp_modify. wp_step. split; [done|].
  assert (rs1 ≡ₚ given (i + 1) ++ ps) as Hp.
  { rewrite Hg, Hrs1, Hrs, !app_assoc. apply Permutation_app_tail, Permutation_app_comm. }
  assert (root / 4096 ∉ frames3 m0 off t ++ rs) as Hr1 by by rewrite Hrs.
  destruct Hroot as (Hral & _). unfold cleared. cbn [heap hhdm_offset set_heap]. split_and!.
  - exists rs1. split; [done|]. apply (pa_inv_heap rs1 [root / 4096]); [done|by apply write_entry_outside; [|lia]|].
    intros p ->%list_elem_of_singleton. by rewrite Hrs1.
  - done.
  - intros j Hj. destruct (decide (j = i)) as [->|Hne].
    + rewrite entry_write_eq by lia. rewrite (proj2 (Z.ltb_lt _ _)) by lia. by rewrite Ep.
    + rewrite entry_write_ne by (done || lia || congruence). rewrite (entry_outside _ _ _ root j Hs1) by done. rewrite He by done.
      destruct (Z.ltb_spec j i), (Z.ltb_spec j (i + 1)); try lia; done.
  - intros b Hb. rewrite (write_entry_outside (heap s1) root i 0 Hral ltac:(lia) b).
    2: { intros Hin%list_elem_of_singleton. apply Hb. rewrite Hin. apply elem_of_cons. by left. }
    rewrite Hs1, Hs; [done| |].
    + intros Hin. apply Hb. rewrite Hg. revert Hin. rewrite !elem_of_cons, !elem_of_app. tauto.
    + rewrite Hrs. intros Hin. apply Hb. rewrite Hg. revert Hin. rewrite elem_of_cons, !elem_of_app. tauto.
Qed.

Lemma free_user_pml4_levels : free_user_pml4 root =
  for_present 256 root (fun i4 pdpt => for_present 512 pdpt (fun _ => free2);; pa_free pdpt 1;; entry_store root i4 0).
Proof. unfold free_user_pml4, free2, free1. reflexivity. Qed.

Lemma free_user_pml4_cleared : pa_inv ps s0 -> wp (free_user_pml4 root) s0 (fun _ s' => cleared 256 s').
Proof.
  intros Hinv. rewrite free_user_pml4_levels. unfold for_present at 1. wp_step. apply (wp_mfor _ cleared).
  - intros i s Hi Hc. rewrite Z.add_0_l in Hi. eapply wp_mono; [by apply cleared_step|]. by intros r s' [-> H].
  - intros s Hc. by wp_step.
  - split_and!; [by exists ps|done| |done]. intros j Hj. by rewrite (proj2 (Z.ltb_ge _ _)) by lia.
Qed.
End Root.

(** C15: Tearing an address space down.  When no frame of the lower half is
    mapped twice or free already, [free_user_pml4] gives back exactly the
    frames the processor's walk can reach there, tables and user pages alike:
    afterwards they are free with those that were free before, no address of the
    lower half translates, the kernel's half of the root is as it was, and no
    other byte has changed. *)
Theorem free_user_pml4_reclaims `{PA : PageAllocator} root ps s :
  pa_inv ps s -> hhdm_offset s mod 4096 = 0 -> page_at root ->
  NoDup (root / 4096 :: space_frames (heap s) (hhdm_offset s) root ++ ps) ->
  (0 ∉ space_frames (heap s) (hhdm_offset s) root) ->
  wp (free_user_pml4 root) s (fun _ s' =>
    (exists rs, pa_inv rs s' /\ forall p, p ∈ rs <-> p ∈ ps \/ reached (heap s) (hhdm_offset s) root p) /\
    (forall va, index 3 va < 256 -> translate (heap s') (hhdm_offset s) root va = None) /\
    (forall i, 256 <= i < 512 -> entry (heap s') root i = entry (heap s) root i) /\
    (forall b, b / 4096 <> root / 4096 -> (b / 4096 ∉ ps) -> ~ reached (heap s) (hhdm_offset s) root (b / 4096) ->
       rd8 (heap s') b = rd8 (heap s) b)).
Proof.
  intros Hi Ho Hr Hnd Hz. eapply wp_mono; [by apply (free_user_pml4_cleared root ps s)|].
  intros [] s' ((rs & Hrs & Hi') & _ & He & Hs).
  assert (forall p, p ∈ given root s 256 <-> reached (heap s) (hhdm_offset s) root p) as Hreach.
  { intros p. split; [apply frames_are_reached|apply reached_are_frames]. }
  split_and!.
  - exists rs. split; [done|]. intros p. rewrite Hrs, elem_of_app, Hreach. tauto.
  - intros va Hva. pose proof (index_range 3 va) as Hrange. unfold translate. cbn [descend]. unfold mbind, option_bind.
    change (3 - 0)%nat with 3%nat. rewrite He by lia. rewrite (proj2 (Z.ltb_lt _ _) Hva). cbn [andb].
    by destruct (pte_is_present (entry (heap s) root (index 3 va))) eqn:E; [|rewrite E].
  - intros i Hrange. rewrite He by lia. by rewrite (proj2 (Z.ltb_ge _ _)) by lia.
  - intros b H1 H2 H3. apply Hs. rewrite elem_of_cons, elem_of_app, Hreach. tauto.
Qed.

(** The parent of UserCopy.v exits: its page and its three lower tables come
    back to the 32 free pages. *)
Lemma parent_frames : space_frames (heap parent_kst) (2 ^ 40) (4096 * 512) = [2048; 516; 515; 514].
Proof. by vm_compute. Qed.

Lemma free_user_pml4_reclaims_witness :
  wp (free_user_pml4 (PA := buddy_allocator) (4096 * 512)) parent_kst (fun _ s' =>
    (exists rs, alloc_inv rs s' /\ forall p, p ∈ rs <-> p ∈ wide_pages \/ p ∈ [2048; 516; 515; 514]) /\
    translate (heap s') (2 ^ 40) (4096 * 512) 4194305 = None).
Proof.
  eapply wp_mono.
  - apply (free_user_pml4_reclaims (PA := buddy_allocator) (4096 * 512) wide_pages parent_kst parent_inv).
    + done.
    + by_decide.
    + change (hhdm_offset parent_kst) with (2 ^ 40). rewrite parent_frames. by_decide.
    + change (hhdm_offset parent_kst) with (2 ^ 40). rewrite parent_frames. by_decide.
  - intros [] s' ((rs & Hi & Hrs) & Ht & _). split; [|by apply (Ht 4194305)]. exists rs. split; [exact Hi|].
    intros p. rewrite Hrs, <- parent_frames. split; (intros [?|?]; [by left|right]); [by apply reached_are_frames|by apply frames_are_reached].
Defined.
