(* ===== verification/Proc.v ===== *)
(** * Processes (src/src/kernel/proc.c, proc.h)

    The process table, descriptors, creation, fork and exec, and the two halves
    of a context switch.  The table is part of the static state of the kernel,
    reached through a lens; [struct proc *] is 0 or one more than the index in
    [proc_table].  [swtch], [trapret] and [forkret]'s return are assembly: a
    function that calls [swtch] is given as its part before the call and its
    part after it. *)
From S2P Require Import Prelude KMem Spinlock BuddySpec Buddy PageAlloc PageTable KString Vfs Print AddrSpace Elf UserStack.

#[local] Open Scope Z_scope.

Definition MAX_PROCS : Z := 64.
Definition KSTACK_SIZE : Z := 8192.
Definition USER_HEAP_BASE : Z := 1073741824.
Definition MAX_FDS : Z := 32.
Definition PROC_UNUSED : Z := 0.
Definition PROC_EMBRYO : Z := 1.
Definition PROC_RUNNABLE : Z := 2.
Definition PROC_RUNNING : Z := 3.
Definition PROC_ZOMBIE : Z := 4.
Definition USER_DS : Z := 59.
Definition USER_CS : Z := 67.
Definition VFS_O_RDONLY : Z := 1.
Definition VFS_O_WRONLY : Z := 2.
Definition VFS_O_RDWR : Z := 3.

Record trap_frame := Trap {
  tf_r15 : Z; tf_r14 : Z; tf_r13 : Z; tf_r12 : Z; tf_r11 : Z; tf_r10 : Z; tf_r9 : Z; tf_r8 : Z;
  tf_rbp : Z; tf_rdi : Z; tf_rsi : Z; tf_rdx : Z; tf_rcx : Z; tf_rbx : Z; tf_rax : Z;
  tf_int_no : Z; tf_error_code : Z;
  tf_rip : Z; tf_cs : Z; tf_rflags : Z; tf_rsp : Z; tf_ss : Z
}.
Definition tf_words (t : trap_frame) : list Z :=
  [tf_r15 t; tf_r14 t; tf_r13 t; tf_r12 t; tf_r11 t; tf_r10 t; tf_r9 t; tf_r8 t;
   tf_rbp t; tf_rdi t; tf_rsi t; tf_rdx t; tf_rcx t; tf_rbx t; tf_rax t; tf_int_no t; tf_error_code t;
   tf_rip t; tf_cs t; tf_rflags t; tf_rsp t; tf_ss t].
Definition no_trap : trap_frame := Trap 0 0 0 0 0 0 0 0 0 0 0 0 0 0 0 0 0 0 0 0 0 0.
(** [sizeof(struct trap_frame)], [sizeof(struct context)] and the offset of
    [rip] in the latter. *)
Definition trap_bytes : Z := 176.
Definition context_bytes : Z := 56.
Definition context_rip : Z := 48.

Record proc := Proc {
  p_pid : Z; p_ppid : Z; p_state : Z; p_exit_code : Z; p_pml4 : Z; p_kstack : Z; p_context : Z;
  p_tf : trap_frame; p_brk : Z; p_name : list Z; p_files : list Z
}.
Definition no_proc : proc := Proc 0 0 0 0 0 0 0 no_trap 0 (replicate 16 0) (replicate 32 0).

Definition set_pid (x : Z) (p : proc) : proc :=
  Proc x (p_ppid p) (p_state p) (p_exit_code p) (p_pml4 p) (p_kstack p) (p_context p) (p_tf p) (p_brk p) (p_name p) (p_files p).
Definition set_ppid (x : Z) (p : proc) : proc :=
  Proc (p_pid p) x (p_state p) (p_exit_code p) (p_pml4 p) (p_kstack p) (p_context p) (p_tf p) (p_brk p) (p_name p) (p_files p).
Definition set_state (x : Z) (p : proc) : proc :=
  Proc (p_pid p) (p_ppid p) x (p_exit_code p) (p_pml4 p) (p_kstack p) (p_context p) (p_tf p) (p_brk p) (p_name p) (p_files p).
Definition set_exit_code (x : Z) (p : proc) : proc :=
  Proc (p_pid p) (p_ppid p) (p_state p) x (p_pml4 p) (p_kstack p) (p_context p) (p_tf p) (p_brk p) (p_name p) (p_files p).
Definition set_pml4 (x : Z) (p : proc) : proc :=
  Proc (p_pid p) (p_ppid p) (p_state p) (p_exit_code p) x (p_kstack p) (p_context p) (p_tf p) (p_brk p) (p_name p) (p_files p).
Definition set_kstack (x : Z) (p : proc) : proc :=
  Proc (p_pid p) (p_ppid p) (p_state p) (p_exit_code p) (p_pml4 p) x (p_context p) (p_tf p) (p_brk p) (p_name p) (p_files p).
Definition set_context (x : Z) (p : proc) : proc :=
  Proc (p_pid p) (p_ppid p) (p_state p) (p_exit_code p) (p_pml4 p) (p_kstack p) x (p_tf p) (p_brk p) (p_name p) (p_files p).
Definition set_tf (x : trap_frame) (p : proc) : proc :=
  Proc (p_pid p) (p_ppid p) (p_state p) (p_exit_code p) (p_pml4 p) (p_kstack p) (p_context p) x (p_brk p) (p_name p) (p_files p).
Definition set_brk (x : Z) (p : proc) : proc :=
  Proc (p_pid p) (p_ppid p) (p_state p) (p_exit_code p) (p_pml4 p) (p_kstack p) (p_context p) (p_tf p) x (p_name p) (p_files p).
Definition set_name (x : list Z) (p : proc) : proc :=
  Proc (p_pid p) (p_ppid p) (p_state p) (p_exit_code p) (p_pml4 p) (p_kstack p) (p_context p) (p_tf p) (p_brk p) x (p_files p).
Definition set_pfiles (x : list Z) (p : proc) : proc :=
  Proc (p_pid p) (p_ppid p) (p_state p) (p_exit_code p) (p_pml4 p) (p_kstack p) (p_context p) (p_tf p) (p_brk p) (p_name p) x.

(** The static variables of proc.c. *)
Record procs := Procs { proc_lock : spinlock; proc_table : list proc; next_pid : Z }.
Definition procs_start : procs := Procs (Spinlock 0 0 0) (replicate 64 no_proc) 1.

Definition set_cpu_proc (p : Z) (c : cpu) : cpu :=
  Cpu (kernel_rsp c) (scratch_rsp c) p (scheduler_ctx c) (apic_id c) (ncli c) (intena c) (cpu_id c).
Definition set_kernel_rsp (x : Z) (c : cpu) : cpu :=
  Cpu x (scratch_rsp c) (cpu_proc c) (scheduler_ctx c) (apic_id c) (ncli c) (intena c) (cpu_id c).

(** The last component of a path. *)
Fixpoint basename_from (path name : list Z) : list Z :=
  match path with
  | [] => name
  | c :: path => basename_from path (if c =? 47 then path else name)
  end.
Definition basename (path : list Z) : list Z := basename_from path path.
(** At most fifteen bytes of it, ended by a zero; the rest of the field stays. *)
Definition name_field (path old : list Z) : list Z :=
  let base := take 15 (basename path) in base ++ [0] ++ drop (S (length base)) old.

Definition build_fork_tf (src : trap_frame) : trap_frame :=
  Trap (tf_r15 src) (tf_r14 src) (tf_r13 src) (tf_r12 src) (tf_rflags src) (tf_r10 src) (tf_r9 src) (tf_r8 src)
    (tf_rbp src) (tf_rdi src) (tf_rsi src) (tf_rdx src) (tf_rip src) (tf_rbx src) 0 0 0
    (tf_rip src) USER_CS (tf_rflags src) (tf_rsp src) USER_DS.

Fixpoint store_words (m : mem) (a : Z) (ws : list Z) : mem :=
  match ws with [] => m | w :: ws => store_words (wr64 m a w) (a + 8) ws end.

Section Processes.
Context {FS : Type} `{PA : PageAllocator} `{VO : VfsOps FS} `{CO : Console (vst FS)}.
Context (get_procs : FS -> procs) (set_procs : procs -> FS -> FS).
(** The addresses of [trapret] and [forkret], and of the lock's name. *)
Context (trapret_addr forkret_addr lock_name : Z).
#[local] Abbreviation V := (M (vst FS)).

Definition on_kst {A} (m : M kst A) : V A := mzoom v_k set_vk m.
Definition on_hw {A} (m : M hw A) : V A := on_kst (mzoom khw set_khw m).
Definition on_procs {A} (m : M procs A) : V A :=
  mzoom (fun s : vst FS => get_procs (v_fs s)) (fun p s => set_fs (set_procs p (v_fs s)) s) m.
Definition heap_store (f : mem -> mem) : V unit := on_kst (mmodify (fun s => set_heap (f (heap s)) s)).

(** *** The table, the lock, the CPU *)

Definition proc_load (p : Z) : V proc :=
  t ← on_procs (mgets proc_table);
  if p <=? 0 then mstuck Fault
  else match t !! Z.to_nat (p - 1) with Some x => mret x | None => mstuck Fault end.
Definition proc_store (p : Z) (f : proc -> proc) : V unit :=
  x ← proc_load p;
  on_procs (mmodify (fun g => Procs (proc_lock g) (<[Z.to_nat (p - 1) := f x]> (proc_table g)) (next_pid g))).

Definition set_lock (l : spinlock) (g : procs) : procs := Procs l (proc_table g) (next_pid g).
Definition proc_init : V unit := on_procs (mmodify (set_lock (initlock lock_name))).
Definition acquire_proc_lock : V unit :=
  l ← on_procs (mgets proc_lock); l ← on_hw (acquire l); on_procs (mmodify (set_lock l)).
Definition release_proc_lock : V unit :=
  l ← on_procs (mgets proc_lock); l ← on_hw (release l); on_procs (mmodify (set_lock l)).

Definition this_cpu : V cpu := on_hw (c ← mycpu; cpu_load c).
Definition this_cpu_store (f : cpu -> cpu) : V unit := on_hw (c ← mycpu; cpu_store c f).
Definition current_proc : V Z := c ← this_cpu; mret (cpu_proc c).

(** *** Descriptors *)

Definition fd_store (p fd f : Z) : V unit :=
  if (0 <=? fd) && (fd <? MAX_FDS) then proc_store p (fun x => set_pfiles (<[Z.to_nat fd := f]> (p_files x)) x)
  else mstuck Fault.
Definition fd_load (p fd : Z) : V Z :=
  x ← proc_load p;
  if fd <? 0 then mstuck Fault
  else match p_files x !! Z.to_nat fd with Some f => mret f | None => mstuck Fault end.

Definition fd_alloc (p f : Z) : V Z :=
  r ← mfor (Z.to_nat MAX_FDS) (fun i =>
    old ← fd_load p i;
    if old =? 0 then fd_store p i f;; mret (Some i) else mret None) 0;
  mret (default (-1) r).

Definition fd_get (p fd : Z) : V Z :=
  if (fd <? 0) || (MAX_FDS <=? fd) then mret 0 else fd_load p fd.

Definition proc_close_fds (p : Z) : V unit :=
  mfor (Z.to_nat MAX_FDS) (fun i =>
    f ← fd_load p i;
    (if negb (f =? 0) then vfs_close f;; fd_store p i 0 else mret tt);;
    mret (None : option unit)) 0;;
  mret tt.

(** "/dev/cons" *)
Definition cons_path : list Z := [47; 100; 101; 118; 47; 99; 111; 110; 115].
Definition proc_init_fds (p : Z) : V unit :=
  r ← vfs_open (Some cons_path) VFS_O_RDONLY 0;
  (if r.1 =? VFS_OK then fd_store p 0 r.2 else mret tt);;
  r ← vfs_open (Some cons_path) VFS_O_WRONLY 0;
  if r.1 =? VFS_OK then
    fd_store p 1 r.2;;
    vfs_file_get r.2;;
    fd_store p 2 r.2
  else mret tt.

(** *** Creation *)

Definition proc_alloc : V Z :=
  acquire_proc_lock;;
  r ← mfor (Z.to_nat MAX_PROCS) (fun i =>
    let p := i + 1 in
    x ← proc_load p;
    if p_state x =? PROC_UNUSED then
      pid ← on_procs (mgets next_pid);
      on_procs (mmodify (fun g => Procs (proc_lock g) (proc_table g) (u32 (next_pid g + 1))));;
      proc_store p (set_pid pid);;
      proc_store p (set_state PROC_EMBRYO);;
      release_proc_lock;;
      stack ← v_kalloc (KSTACK_SIZE / PAGE_SIZE);
      proc_store p (set_kstack stack);;
      if stack =? 0 then proc_store p (set_state PROC_UNUSED);; mret (Some 0)
      else
        heap_store (fun m => memset m stack 0 KSTACK_SIZE);;
        mret (Some p)
    else mret None) 0;
  match r with
  | Some p => mret p
  | None => release_proc_lock;; mret 0
  end.

Definition forkret : V unit := release_proc_lock.

Definition kstack_setup (p entry user_rsp : Z) : V unit :=
  x ← proc_load p;
  let sp := u64 (u64 (p_kstack x + KSTACK_SIZE) - trap_bytes) in
  (if negb (tf_rip (p_tf x) =? 0) then heap_store (fun m => store_words m sp (tf_words (p_tf x)))
   else
     heap_store (fun m => store_words m sp (tf_words
       (Trap 0 0 0 0 0 0 0 0 0 0 0 0 0 0 0 0 0 entry USER_CS 514 user_rsp USER_DS))));;
  let sp := u64 (sp - 8) in
  heap_store (fun m => wr64 m sp trapret_addr);;
  let sp := u64 (sp - context_bytes) in
  proc_store p (set_context sp);;
  heap_store (fun m => memset m sp 0 context_bytes);;
  heap_store (fun m => wr64 m (sp + context_rip) forkret_addr).

(** The file's bytes in fresh pages, and how many; 0 on failure.  [st] is what
    the stack held. *)
Definition read_elf (st : vfs_stat) (path : option (list Z)) : V (Z * Z) :=
  r ← vfs_open path VFS_O_RDONLY 0;
  if negb (r.1 =? VFS_OK) then mret (0, 0)
  else
    let f := r.2 in
    r ← vfs_fstat f st;
    if negb (r.1 =? VFS_OK) then vfs_close f;; mret (0, 0)
    else
      let size := st_size r.2 in
      let npages := u32 (u64 (size + PAGE_SIZE - 1) / PAGE_SIZE) in
      buf ← v_kalloc npages;
      if buf =? 0 then vfs_close f;; mret (0, 0)
      else
        n ← vfs_read f buf size;
        if n <? 0 then v_kfree buf npages;; vfs_close f;; mret (0, 0)
        else vfs_close f;; mret (buf, npages).

Definition set_runnable (p : Z) : V unit :=
  acquire_proc_lock;; proc_store p (set_state PROC_RUNNABLE);; release_proc_lock.

(** "PROC", "cannot read %s", "ELF load failed" *)
Definition proc_create (st : vfs_stat) (path : option (list Z)) : V Z :=
  r ← read_elf st path;
  let '(elf_buf, elf_pages) := r in
  if elf_buf =? 0 then
    klog_fail (Some [80; 82; 79; 67]) [99; 97; 110; 110; 111; 116; 32; 114; 101; 97; 100; 32; 37; 115] [Str path];;
    mret 0
  else
    p ← proc_alloc;
    if p =? 0 then v_kfree elf_buf elf_pages;; mret 0
    else
      pml4 ← on_kst create_user_pml4;
      proc_store p (set_pml4 pml4);;
      if pml4 =? 0 then v_kfree elf_buf elf_pages;; proc_store p (set_state PROC_UNUSED);; mret 0
      else
        entry ← on_kst (elf_load_segments pml4 elf_buf (u64 (elf_pages * PAGE_SIZE)));
        match entry with
        | None =>
            klog_fail (Some [80; 82; 79; 67]) [69; 76; 70; 32; 108; 111; 97; 100; 32; 102; 97; 105; 108; 101; 100] [];;
            on_kst (free_user_pml4 pml4);;
            v_kfree pml4 1;;
            v_kfree elf_buf elf_pages;;
            proc_store p (set_state PROC_UNUSED);;
            mret 0
        | Some entry =>
            v_kfree elf_buf elf_pages;;
            kstack_setup p entry USER_STACK_TOP;;
            proc_store p (set_brk USER_HEAP_BASE);;
            proc_store p (set_ppid 0);;
            proc_init_fds p;;
            proc_store p (fun x => set_name (name_field (default [] path) (p_name x)) x);;
            set_runnable p;;
            mret p
        end.

(** *** Fork *)

(** The child's descriptors. *)
Definition inherit_fds (parent child : Z) : V unit :=
  mfor (Z.to_nat MAX_FDS) (fun i =>
    f ← fd_load parent i;
    (if negb (f =? 0) then vfs_file_get f;; fd_store child i f else mret tt);;
    mret (None : option unit)) 0;;
  mret tt.

Definition proc_fork : V Z :=
  parent ← current_proc;
  if parent =? 0 then mret (-1)
  else
    child ← proc_alloc;
    if child =? 0 then mret (-1)
    else
      pml4 ← on_kst create_user_pml4;
      proc_store child (set_pml4 pml4);;
      if pml4 =? 0 then proc_store child (set_state PROC_UNUSED);; mret (-1)
      else
        x ← proc_load parent;
        on_kst (copy_user_pml4 pml4 (p_pml4 x));;
        proc_store child (set_tf (build_fork_tf (p_tf x)));;
        kstack_setup child 0 0;;
        inherit_fds parent child;;
        x ← proc_load parent;
        proc_store child (set_name (p_name x));;
        proc_store child (set_ppid (p_pid x));;
        proc_store child (set_brk (p_brk x));;
        set_runnable child;;
        y ← proc_load child;
        mret (i32 (p_pid y)).

(** *** Exec *)

(** "EXEC" and its four messages. *)
Definition EXEC : option (list Z) := Some [69; 88; 69; 67].
Definition msg_read : list Z := [114; 101; 97; 100; 95; 101; 108; 102; 32; 102; 97; 105; 108; 101; 100; 32; 102; 111; 114; 32; 37; 115].
Definition msg_pml4 : list Z :=
  [99; 114; 101; 97; 116; 101; 95; 117; 115; 101; 114; 95; 112; 109; 108; 52; 32; 102; 97; 105; 108; 101; 100].
Definition msg_load : list Z :=
  [101; 108; 102; 95; 108; 111; 97; 100; 95; 115; 101; 103; 109; 101; 110; 116; 115; 32; 102; 97; 105; 108; 101; 100].

(** [lcr3] *)
Definition lcr3 (x : Z) : M kst unit := mmodify (fun s => Kst (heap s) (buddy s) (khw s) (hhdm_offset s) x).

Definition exec_tf (entry user_rsp : Z) (t : trap_frame) : trap_frame :=
  Trap (tf_r15 t) (tf_r14 t) (tf_r13 t) (tf_r12 t) (tf_r11 t) (tf_r10 t) (tf_r9 t) (tf_r8 t) (tf_rbp t) (tf_rdi t)
    (tf_rsi t) (tf_rdx t) (tf_rcx t) (tf_rbx t) (tf_rax t) (tf_int_no t) (tf_error_code t) entry USER_CS 514 user_rsp USER_DS.

Definition proc_exec (st : vfs_stat) (path : option (list Z)) (argv : option (list (list Z))) : V Z :=
  p ← current_proc;
  if p =? 0 then mret (-1)
  else
    r ← read_elf st path;
    let '(elf_buf, elf_pages) := r in
    if elf_buf =? 0 then klog EXEC msg_read [Str path];; mret (-1)
    else
      new_pml4 ← on_kst create_user_pml4;
      if new_pml4 =? 0 then v_kfree elf_buf elf_pages;; klog EXEC msg_pml4 [];; mret (-1)
      else
        entry ← on_kst (elf_load_segments new_pml4 elf_buf (u64 (elf_pages * PAGE_SIZE)));
        match entry with
        | None =>
            on_kst (free_user_pml4 new_pml4);;
            v_kfree new_pml4 1;;
            v_kfree elf_buf elf_pages;;
            klog EXEC msg_load [];;
            mret (-1)
        | Some entry =>
            v_kfree elf_buf elf_pages;;
            user_rsp ← on_kst (setup_user_stack new_pml4 argv);
            proc_store p (set_brk USER_HEAP_BASE);;
            x ← proc_load p;
            let kstop := u64 (p_kstack x + KSTACK_SIZE) in
            heap_store (fun m => wr64 m (u64 (kstop - 8)) user_rsp);;
            heap_store (fun m => wr64 m (u64 (kstop - 16)) entry);;
            heap_store (fun m => wr64 m (u64 (kstop - 24)) 514);;
            proc_store p (fun x => set_tf (exec_tf entry user_rsp (p_tf x)) x);;
            x ← proc_load p;
            let old_pml4 := p_pml4 x in
            proc_store p (set_pml4 new_pml4);;
            on_kst (free_user_pml4 old_pml4);;
            v_kfree old_pml4 1;;
            on_kst (phys ← VIRT_TO_PHYS new_pml4; lcr3 phys);;
            proc_store p (fun x => set_name (name_field (default [] path) (p_name x)) x);;
            mret 0
        end.
End Processes.

(** ** Runs of the accessors *)

Section Runs.
Context {FS : Type}.
Context (get_procs : FS -> procs) (set_procs : procs -> FS -> FS) (L : lens get_procs set_procs).

(** The process [p] is the entry [i] of the table, and runs on this CPU. *)
Definition runs_on (s : vst FS) (p : Z) : Prop :=
  exists c, cpus (khw (v_k s)) !! gs_base (khw (v_k s)) = Some c /\ cpu_proc c = p.
Definition proc_at (s : vst FS) (p : Z) (x : proc) : Prop :=
  0 < p /\ proc_table (get_procs (v_fs s)) !! Z.to_nat (p - 1) = Some x.

(** The state after a process changed. *)
Definition put_proc (s : vst FS) (p : Z) (x : proc) : vst FS :=
  let g := get_procs (v_fs s) in
  set_fs (set_procs (Procs (proc_lock g) (<[Z.to_nat (p - 1) := x]> (proc_table g)) (next_pid g)) (v_fs s)) s.

Lemma current_proc_run s p : runs_on s p -> current_proc s = Ok (p, s).
Proof.
  intros (c & Hc & <-). unfold current_proc, this_cpu, on_hw, on_kst, mbind, M_bind, mzoom, mycpu, mgets, cpu_load.
  rewrite Hc. cbn. by destruct s as [[] ? ? ? ? ? ? ? ? ? ? ?].
Qed.

Lemma on_procs_gets {A} (f : procs -> A) s : on_procs get_procs set_procs (mgets f) s = Ok (f (get_procs (v_fs s)), s).
Proof. unfold on_procs, mzoom, mgets. rewrite (set_get _ _ L). by destruct s. Qed.

Lemma proc_load_run s p x : proc_at s p x -> proc_load get_procs set_procs p s = Ok (x, s).
Proof.
  intros [Hp Hx]. unfold proc_load, mbind, M_bind. rewrite on_procs_gets, (proj2 (Z.leb_gt _ _)) by lia. by rewrite Hx.
Qed.

Lemma proc_store_run s p x f : proc_at s p x -> proc_store get_procs set_procs p f s = Ok (tt, put_proc s p (f x)).
Proof. intros H. unfold proc_store, mbind, M_bind. by rewrite (proc_load_run s p x H). Qed.

Lemma put_proc_at s p x y : proc_at s p x -> proc_at (put_proc s p y) p y.
Proof.
  intros [Hp Hx]. split; [done|]. unfold put_proc. cbn. rewrite (get_set _ _ L). cbn.
  apply list_lookup_insert_eq. by eapply lookup_lt_Some.
Qed.
End Runs.
