(* ===== verification/Gdt.v ===== *)
(** * Segment descriptors (src/src/kernel/gdt.c, gdt.h)

    The descriptor table of a CPU as the array of bytes the code fills, its
    task state segment, and the registers [load_gdt] sets.  [descriptor] reads
    eight bytes as the processor does; the theorem says that every selector in
    use names a descriptor of the kind it is used as. *)
From Stdlib Require Import ZifyBool.
From S2P Require Import Prelude Proc.

#[local] Open Scope Z_scope.

Definition KERNEL_CS : Z := 40.
Definition KERNEL_DS : Z := 48.
Definition TSS_SEL : Z := 72.
Definition GDT_BYTES : Z := 11 * 8.

Record tss := Tss {
  tss_reserved0 : Z; tss_rsp0 : Z; tss_rsp1 : Z; tss_rsp2 : Z; tss_reserved1 : Z;
  tss_ist1 : Z; tss_ist2 : Z; tss_ist3 : Z; tss_ist4 : Z; tss_ist5 : Z; tss_ist6 : Z; tss_ist7 : Z;
  tss_reserved2 : Z; tss_reserved3 : Z; tss_iopb_offset : Z
}.
Definition no_tss : tss := Tss 0 0 0 0 0 0 0 0 0 0 0 0 0 0 0.
(** [sizeof(struct tss)]; the struct is packed. *)
Definition tss_bytes : Z := 104.

(** A store of [n] bytes at offset [off] of an array of bytes. *)
Fixpoint put_le (n : nat) (off v : Z) (a : list Z) : list Z :=
  match n with
  | O => a
  | S k => put_le k (off + 1) (v / 256) (<[Z.to_nat off := v mod 256]> a)
  end.

(** The fields of [struct gdt_entry] at [gdt[idx * 8]]. *)
Definition gdt_set_entry (idx base limit access gran : Z) (gdt : list Z) : list Z :=
  let e := idx * 8 in
  let gdt := put_le 2 e (Z.land limit 65535) gdt in
  let gdt := put_le 2 (e + 2) (Z.land base 65535) gdt in
  let gdt := put_le 1 (e + 4) (Z.land (Z.shiftr base 16) 255) gdt in
  let gdt := put_le 1 (e + 5) access gdt in
  let gdt := put_le 1 (e + 6) (Z.lor (Z.land (Z.shiftr limit 16) 15) (Z.land gran 240)) gdt in
  put_le 1 (e + 7) (Z.land (Z.shiftr base 24) 255) gdt.

(** The fields of [struct tss_descriptor]. *)
Definition gdt_set_tss (idx base limit : Z) (gdt : list Z) : list Z :=
  let e := idx * 8 in
  let gdt := put_le 2 e (Z.land limit 65535) gdt in
  let gdt := put_le 2 (e + 2) (Z.land base 65535) gdt in
  let gdt := put_le 1 (e + 4) (Z.land (Z.shiftr base 16) 255) gdt in
  let gdt := put_le 1 (e + 5) 137 gdt in
  let gdt := put_le 1 (e + 6) (Z.land (Z.shiftr limit 16) 15) gdt in
  let gdt := put_le 1 (e + 7) (Z.land (Z.shiftr base 24) 255) gdt in
  let gdt := put_le 4 (e + 8) (Z.land (Z.shiftr base 32) 4294967295) gdt in
  put_le 4 (e + 12) 0 gdt.

(** [tss_at] is the address of the segment [tss]. *)
Definition setup_gdt (tss_at : Z) : list Z * tss :=
  let gdt := replicate (Z.to_nat GDT_BYTES) 0 in
  let t := Tss 0 0 0 0 0 0 0 0 0 0 0 0 0 0 tss_bytes in
  let gdt := gdt_set_entry 0 0 0 0 0 gdt in
  let gdt := gdt_set_entry 1 0 65535 154 0 gdt in
  let gdt := gdt_set_entry 2 0 65535 146 0 gdt in
  let gdt := gdt_set_entry 3 0 1048575 154 207 gdt in
  let gdt := gdt_set_entry 4 0 1048575 146 207 gdt in
  let gdt := gdt_set_entry 5 0 1048575 154 175 gdt in
  let gdt := gdt_set_entry 6 0 1048575 146 175 gdt in
  let gdt := gdt_set_entry 7 0 1048575 242 175 gdt in
  let gdt := gdt_set_entry 8 0 1048575 250 175 gdt in
  (gdt_set_tss 9 tss_at (tss_bytes - 1) gdt, t).

(** The registers of a CPU that name descriptors. *)
Record segments := Segments {
  gdtr_limit : Z; gdtr_base : Z;
  seg_cs : Z; seg_ds : Z; seg_es : Z; seg_ss : Z; seg_fs : Z; seg_gs : Z; seg_tr : Z
}.

(** The static arrays, one row per CPU, and the registers of this one. *)
Record gdt_state := Gdt_state { gdt_data : list (list Z); tss_array : list tss; cpu_segs : segments }.

Section Init.
(** Where the arrays lie. *)
Context (gdt_at tss_at : Z).

Definition load_gdt (cpu : Z) : M gdt_state unit := mmodify (fun g =>
  Gdt_state (gdt_data g) (tss_array g)
    (Segments (GDT_BYTES - 1) (gdt_at + cpu * GDT_BYTES) 40 48 48 48 0 0 TSS_SEL)).

Definition init_gdt_ap (cpu_id : Z) : M gdt_state unit := fun g =>
  if (Z.to_nat cpu_id <? length (gdt_data g))%nat && (Z.to_nat cpu_id <? length (tss_array g))%nat then
    let '(gdt, t) := setup_gdt (tss_at + cpu_id * tss_bytes) in
    load_gdt cpu_id (Gdt_state (<[Z.to_nat cpu_id := gdt]> (gdt_data g)) (<[Z.to_nat cpu_id := t]> (tss_array g)) (cpu_segs g))
  else Stuck Fault.
Definition init_gdt : M gdt_state unit := init_gdt_ap 0.
End Init.

(** ** Descriptors as the processor reads them *)

Inductive desc :=
| Null
| Code (dpl : Z) (long : bool) (bits32 : bool) (base limit : Z)
| Data (dpl : Z) (writable : bool) (base limit : Z)
| TaskState (base limit : Z)
| Invalid.

Definition nth_z (a : list Z) (i : Z) : Z := a !!! Z.to_nat i.

(** The descriptor at byte [e] of a table; a limit counts 4096-byte units when
    the granularity bit is set, and a task state descriptor has 16 bytes. *)
Definition descriptor (gdt : list Z) (e : Z) : desc :=
  let b i := nth_z gdt (e + i) in
  let base := b 2 + 256 * b 3 + 65536 * b 4 + 16777216 * b 7 in
  let limit := b 0 + 256 * b 1 + 65536 * (b 6 mod 16) in
  let limit := if Z.testbit (b 6) 7 then limit * 4096 + 4095 else limit in
  let dpl := b 5 / 32 mod 4 in
  if negb (Z.testbit (b 5) 7) then Null
  else if Z.testbit (b 5) 4 then
    if Z.testbit (b 5) 3 then Code dpl (Z.testbit (b 6) 5) (Z.testbit (b 6) 6) base limit
    else Data dpl (Z.testbit (b 5) 1) base limit
  else if b 5 mod 16 =? 9 then
    TaskState (base + 4294967296 * (b 8 + 256 * b 9 + 65536 * b 10 + 16777216 * b 11)) limit
  else Invalid.

(** The descriptor a selector names: its low three bits are not part of the
    index, and all 8 (or 16) bytes must lie within the limit of the table. *)
Definition selected (gdt : list Z) (limit sel : Z) : desc :=
  if (sel / 8 * 8 + 7 <=? limit) && (sel / 8 * 8 + 7 <? Z.of_nat (length gdt)) then descriptor gdt (sel / 8 * 8) else Invalid.

Lemma put_le_length n off v a : length (put_le n off v a) = length a.
Proof. revert off v a. induction n as [|n IH]; intros off v a; cbn; [done|]. by rewrite IH, length_insert. Qed.

Lemma nth_put_le n off v a i : 0 <= off -> off + Z.of_nat n <= Z.of_nat (length a) -> 0 <= i ->
  nth_z (put_le n off v a) i = if (off <=? i) && (i <? off + Z.of_nat n) then v / 256 ^ (i - off) mod 256 else nth_z a i.
Proof.
  revert off v a. induction n as [|n IH]; intros off v a Ho Hl Hi.
  { replace ((off <=? i) && (i <? off + Z.of_nat 0)) with false by lia. done. }
  cbn [put_le]. rewrite IH by (rewrite ?length_insert; lia).
  destruct (Z.ltb_spec i off); [|destruct (Z.eqb_spec i off) as [->|Hne]].
  - replace ((off + 1 <=? i) && _) with false by lia. replace ((off <=? i) && _) with false by lia.
    unfold nth_z. rewrite list_lookup_total_insert_ne by lia. done.
  - replace ((off + 1 <=? off) && _) with false by lia. replace ((off <=? off) && _) with true by lia.
    unfold nth_z. rewrite list_lookup_total_insert_eq by lia. by rewrite Z.sub_diag, Z.div_1_r.
  - destruct (Z.ltb_spec i (off + Z.of_nat (S n))).
    + replace ((off + 1 <=? i) && _) with true by lia. replace ((off <=? i) && _) with true by lia.
      rewrite Z.div_div by lia. do 2 f_equal. rewrite <- Z.pow_succ_r by lia. f_equal. lia.
    + replace ((off + 1 <=? i) && _) with false by lia. replace ((off <=? i) && _) with false by lia.
      unfold nth_z. rewrite list_lookup_total_insert_ne by lia. done.
Qed.

Lemma set_tss_length idx base limit a : length (gdt_set_tss idx base limit a) = length a.
Proof. unfold gdt_set_tss. by rewrite !put_le_length. Qed.

(** Everything below the task state descriptor. *)
Lemma set_tss_below base limit a i : length a = 88%nat -> 0 <= i < 72 -> nth_z (gdt_set_tss 9 base limit a) i = nth_z a i.
Proof.
  intros Hl Hi. unfold gdt_set_tss. change (9 * 8) with 72.
  rewrite !nth_put_le by (rewrite ?put_le_length, ?Hl; lia).
  repeat match goal with |- context [(?x <=? i) && ?y] => replace ((x <=? i) && y) with false by lia end. done.
Qed.

Lemma descriptor_low a a' e :
  (forall i, 0 <= i < 8 -> nth_z a (e + i) = nth_z a' (e + i)) ->
  match descriptor a' e with TaskState _ _ => False | _ => True end -> descriptor a e = descriptor a' e.
Proof.
  intros H. unfold descriptor. cbv zeta. rewrite !H by lia.
  destruct (negb _); [done|]. destruct (Z.testbit _ 4); [by destruct (Z.testbit _ 3)|]. by destruct (_ =? 9).
Qed.

(** The 64-bit address in pieces. *)
Lemma base_pieces x : 0 <= x < 2 ^ 64 ->
  x = x mod 256 + 256 * (x / 256 mod 256) + 65536 * (x / 65536 mod 256) + 16777216 * (x / 16777216 mod 256) +
      4294967296 * (x / 4294967296 mod 256 + 256 * (x / 2 ^ 40 mod 256) + 65536 * (x / 2 ^ 48 mod 256) + 16777216 * (x / 2 ^ 56 mod 256)).
Proof.
  intros Hx. change (2 ^ 40) with (4294967296 * 256). change (2 ^ 48) with (4294967296 * 256 * 256).
  change (2 ^ 56) with (4294967296 * 256 * 256 * 256). change 4294967296 with (256 * 256 * 256 * 256).
  change 16777216 with (256 * 256 * 256). change 65536 with (256 * 256).
  rewrite <- !Z.div_div by lia. Z.to_euclidean_division_equations. lia.
Qed.

Lemma tss_descriptor base a : length a = 88%nat -> 0 <= base < 2 ^ 64 ->
  descriptor (gdt_set_tss 9 base 103 a) 72 = TaskState base 103.
Proof.
  intros Hl Hb.
  assert (forall i, 0 <= i < 16 -> nth_z (gdt_set_tss 9 base 103 a) (72 + i) =
    match i with 0 => 103 | 1 => 0 | 2 => base mod 256 | 3 => base / 256 mod 256 | 4 => base / 65536 mod 256
    | 5 => 137 | 6 => 0 | 7 => base / 16777216 mod 256
    | 8 => base / 4294967296 mod 256 | 9 => base / 2 ^ 40 mod 256 | 10 => base / 2 ^ 48 mod 256 | 11 => base / 2 ^ 56 mod 256
    | _ => 0 end) as H.
  { intros i Hi. unfold gdt_set_tss. change (9 * 8) with 72.
    rewrite !nth_put_le by (rewrite ?put_le_length, ?Hl; lia).
    assert (i = 0 \/ i = 1 \/ i = 2 \/ i = 3 \/ i = 4 \/ i = 5 \/ i = 6 \/ i = 7 \/ i = 8 \/ i = 9 \/ i = 10 \/ i = 11 \/
      i = 12 \/ i = 13 \/ i = 14 \/ i = 15) as Hcase by lia.
    change 65535 with (Z.ones 16). change 255 with (Z.ones 8). change 4294967295 with (Z.ones 32).
    rewrite !Z.land_ones, !Z.shiftr_div_pow2 by done.
    repeat destruct Hcase as [-> | Hcase]; try subst i; try reflexivity;
      repeat match goal with |- context [?x <=? ?y] => let v := eval vm_compute in (x <=? y) in change (x <=? y) with v
             | |- context [?x <? ?y] => let v := eval vm_compute in (x <? y) in change (x <? y) with v end; cbn [andb].
    all: repeat match goal with |- context [?b ^ ?e] => let v := eval vm_compute in (b ^ e) in change (b ^ e) with v end.
    all: clear; Z.to_euclidean_division_equations; lia. }
  unfold descriptor. cbv zeta. rewrite !H by lia. cbv beta iota.
  change (negb (Z.testbit 137 7)) with false. change (Z.testbit 137 4) with false. change (137 mod 16 =? 9) with true.
  change (Z.testbit 0 7) with false. cbv iota. f_equal. symmetry. by apply base_pieces.
Qed.

(** C21: the selectors are well typed: after a CPU's table was built and
    loaded, the kernel's and the users' code selectors name 64-bit code
    segments of privilege 0 and 3, the data selectors writable data segments,
    all flat over 4 GiB, and the task register's selector the available task
    state segment of this CPU, whatever its address, with exactly its limit. *)
Theorem init_gdt_selectors gdt_at tss_at cpu g :
  0 <= cpu -> (Z.to_nat cpu < length (gdt_data g))%nat -> (Z.to_nat cpu < length (tss_array g))%nat ->
  0 <= tss_at -> tss_at + cpu * tss_bytes < 2 ^ 64 ->
  wp (init_gdt_ap gdt_at tss_at cpu) g (fun _ g' => exists gdt t,
    gdt_data g' !! Z.to_nat cpu = Some gdt /\ tss_array g' !! Z.to_nat cpu = Some t /\
    let segs := cpu_segs g' in
    gdtr_base segs = gdt_at + cpu * GDT_BYTES /\ Z.of_nat (length gdt) = gdtr_limit segs + 1 /\
    let sel := selected gdt (gdtr_limit segs) in
    sel 0 = Null /\
    sel KERNEL_CS = Code 0 true false 0 (2 ^ 32 - 1) /\ seg_cs segs = KERNEL_CS /\
    sel KERNEL_DS = Data 0 true 0 (2 ^ 32 - 1) /\ seg_ds segs = KERNEL_DS /\ seg_ss segs = KERNEL_DS /\
    sel USER_CS = Code 3 true false 0 (2 ^ 32 - 1) /\ USER_CS mod 4 = 3 /\
    sel USER_DS = Data 3 true 0 (2 ^ 32 - 1) /\ USER_DS mod 4 = 3 /\
    sel (seg_tr segs) = TaskState (tss_at + cpu * tss_bytes) (tss_bytes - 1) /\
    tss_rsp0 t = 0 /\ tss_iopb_offset t = tss_bytes).
Proof.
  intros Hc Hg Ht H0 Ha. unfold init_gdt_ap. unfold wp.
  rewrite (proj2 (Nat.ltb_lt _ _) Hg), (proj2 (Nat.ltb_lt _ _) Ht). cbn [andb].
  unfold setup_gdt. change (tss_bytes - 1) with 103.
  set (t := Tss _ _ _ _ _ _ _ _ _ _ _ _ _ _ _). match goal with |- context [gdt_set_tss 9 _ _ ?a] => set (base := a) end.
  exists (gdt_set_tss 9 (tss_at + cpu * tss_bytes) 103 base), t. cbn [gdt_data tss_array cpu_segs gdtr_base gdtr_limit seg_cs seg_ds seg_ss seg_tr].
  rewrite !list_lookup_insert_eq by done.
  assert (length base = 88%nat) as Hl by by vm_compute.
  assert (forall sel k, 0 <= k < 9 -> sel / 8 = k -> match descriptor base (k * 8) with TaskState _ _ => False | _ => True end ->
    selected (gdt_set_tss 9 (tss_at + cpu * tss_bytes) 103 base) (GDT_BYTES - 1) sel = descriptor base (k * 8)) as Hsel.
  { intros sel k Hk <- Hd. unfold selected. rewrite set_tss_length, Hl.
    replace ((sel / 8 * 8 + 7 <=? GDT_BYTES - 1) && _) with true by (unfold GDT_BYTES; lia).
    apply descriptor_low; [|done]. intros i Hi. apply set_tss_below; [done|lia]. }
  assert (selected (gdt_set_tss 9 (tss_at + cpu * tss_bytes) 103 base) (GDT_BYTES - 1) TSS_SEL = TaskState (tss_at + cpu * tss_bytes) 103) as Htss.
  { unfold selected. rewrite set_tss_length, Hl. change (_ && _) with true. apply tss_descriptor; [done|unfold tss_bytes in *; lia]. }
  split_and!; try reflexivity; try exact Htss.
Qed.

Definition demo_gdt : gdt_state :=
  Gdt_state (replicate 2 (replicate 88 0)) (replicate 2 no_tss) (Segments 0 0 0 0 0 0 0 0 0).

Lemma init_gdt_selectors_witness :
  wp (init_gdt_ap 4096 8192 1) demo_gdt (fun _ g' => exists gdt t,
    gdt_data g' !! 1%nat = Some gdt /\ tss_array g' !! 1%nat = Some t /\
    let segs := cpu_segs g' in
    gdtr_base segs = 4184 /\ Z.of_nat (length gdt) = gdtr_limit segs + 1 /\
    let sel := selected gdt (gdtr_limit segs) in
    sel 0 = Null /\
    sel KERNEL_CS = Code 0 true false 0 (2 ^ 32 - 1) /\ seg_cs segs = KERNEL_CS /\
    sel KERNEL_DS = Data 0 true 0 (2 ^ 32 - 1) /\ seg_ds segs = KERNEL_DS /\ seg_ss segs = KERNEL_DS /\
    sel USER_CS = Code 3 true false 0 (2 ^ 32 - 1) /\ USER_CS mod 4 = 3 /\
    sel USER_DS = Data 3 true 0 (2 ^ 32 - 1) /\ USER_DS mod 4 = 3 /\
    sel (seg_tr segs) = TaskState 8296 103 /\
    tss_rsp0 t = 0 /\ tss_iopb_offset t = tss_bytes).
Proof.
  exact (init_gdt_selectors 4096 8192 1 demo_gdt ltac:(lia) ltac:(cbn; lia) ltac:(cbn; lia) ltac:(lia) ltac:(unfold tss_bytes; lia)).
Defined.
