(* ===== verification/Panic.v ===== *)
(** * Panic (src/src/kernel/panic.c, panic.h)

    The register dump, the walk up the frame pointers, and the halt at the
    end.  [panic_halts] shows that nothing comes back from it, whatever the
    frame holds. *)
From S2P Require Import Prelude KMem Spinlock BuddySpec Buddy PageAlloc PageTable KString Vfs Print AddrSpace Elf UserStack Proc Log.

#[local] Open Scope Z_scope.

(** [~0] for true, as C's [u8]. *)
Definition canonical (a : Z) : bool := let top := Z.shiftr a 48 in (top =? 0) || (top =? 65535).
Definition aligned16 (a : Z) : bool := Z.land a 7 =? 0.

(** "\r\n" *)
Definition crlf : list Z := [13; 10].

Section Panic.
Context {St : Type} `{CO : Console St} (get_kst : St -> kst).
(** The control registers the dump prints; the page-table base is the kernel's. *)
Context (cr0 cr2 : St -> Z).

(** One frame: [None] goes on with the next one. *)
Definition backtrace_body (i rbp : Z) : M St (option Z) :=
  if negb (canonical rbp) || negb (aligned16 rbp) || (rbp =? 0) then mret None
  else
    next_rbp ← mgets (fun s => rd64 (heap (get_kst s)) rbp);
    ret_addr ← mgets (fun s => rd64 (heap (get_kst s)) (rbp + 8));
    if negb (canonical ret_addr) then mret None
    else
      printf (str "  #%d  rip=%p  rbp=%p" ++ crlf) [Word i; Word ret_addr; Word rbp];;
      if next_rbp <=? rbp then mret None else mret (Some next_rbp).

(** [for (int i = 1; i < max_frames; i++)], [n] rounds left. *)
Fixpoint backtrace_go (n : nat) (i rbp : Z) : M St unit :=
  match n with
  | O => mret tt
  | S k => r ← backtrace_body i rbp; match r with Some next => backtrace_go k (i + 1) next | None => mret tt end
  end.

Definition backtrace_from (start_rbp start_rip max_frames : Z) : M St unit :=
  puts (str "Backtrace:" ++ crlf);;
  printf (str "  #0  rip=%p" ++ crlf) [Word start_rip];;
  backtrace_go (Z.to_nat (max_frames - 1)) 1 start_rbp.

(** "RAX:\t   %p RBX:   %p\r\n" and the like; the first column ends in a tab. *)
Definition dump_fmt (a b : string) : list Z := str a ++ 58 :: 9 :: str "   %p " ++ str b ++ str ":   %p" ++ crlf.

(** Ends in [for (;;) { cli(); hlt(); }]. *)
Definition __panic (msg : option (list Z)) (frame : option trap_frame) : M St unit :=
  (if bool_decide (is_Some msg) || bool_decide (is_Some frame) then
     puts (str "======================== PANIC ========================" ++ crlf) else mret tt);;
  (match msg with Some m => printf (str "%^56s" ++ crlf) [Str (Some m)] | None => mret tt end);;
  (match frame with
   | Some f =>
       c0 ← mgets cr0; c2 ← mgets cr2; c3 ← mgets (fun s => cr3 (get_kst s));
       printf (str "EXCEPTION: %p ERRNO: %p" ++ crlf) [Word (tf_int_no f); Word (tf_error_code f)];;
       printf (dump_fmt "RAX" "RBX") [Word (tf_rax f); Word (tf_rbx f)];;
       printf (dump_fmt "RCX" "RDX") [Word (tf_rcx f); Word (tf_rdx f)];;
       printf (dump_fmt "RIP" "CR0") [Word (tf_rip f); Word c0];;
       printf (dump_fmt "RSP" "RBP") [Word (tf_rsp f); Word (tf_rbp f)];;
       printf (dump_fmt "CR2" "CR3") [Word c2; Word c3];;
       backtrace_from (tf_rbp f) (tf_rip f) 32;;
       puts (str "=======================================================" ++ crlf)
   | None => mret tt
   end);;
  mstuck Halt.

(** ** It ends, and it does not return *)

#[local] Abbreviation runs_on m s := (wp m s (fun _ s' => con_inv s')).

Lemma puts_runs text s : con_inv s -> runs_on (puts text) s.
Proof. intros Hs. eapply wp_mono; [by apply emits_puts|]. by intros [] s' (_ & H & _). Qed.

Lemma printf_runs (fmt : list Z) (args : list parg) (s : St) :
  log_ok fmt = true -> fits (pieces None fmt) args = true -> Forall Print.arg_ok args -> con_inv s -> runs_on (printf fmt args) s.
Proof.
  intros Hf Hfit Ha Hs. eapply wp_mono.
  - apply (format_quiet (fun _ => True)); [by intros ? ? ? ?..|exact Hf|exact Hfit|exact Ha|exact Hs|done].
  - by intros [] s' [H _].
Qed.

Lemma backtrace_body_runs i rbp s : con_inv s -> runs_on (backtrace_body i rbp) s.
Proof.
  intros Hs. unfold backtrace_body. destruct (_ || _); [by wp_step|]. do 4 wp_step. destruct (negb _); [by wp_step|].
  wp_step. eapply wp_mono; [apply printf_runs; [by vm_compute|by vm_compute|by repeat constructor|done]|].
  intros [] s' H. by destruct (_ <=? _); wp_step.
Qed.

Lemma backtrace_go_runs n i rbp s : con_inv s -> runs_on (backtrace_go n i rbp) s.
Proof.
  revert i rbp s. induction n as [|n IH]; intros i rbp s Hs; cbn [backtrace_go]; [by wp_step|].
  wp_step. eapply wp_mono; [by apply backtrace_body_runs|]. intros [next|] s' H; [by apply IH|by wp_step].
Qed.

Lemma backtrace_runs rbp rip s : con_inv s -> runs_on (backtrace_from rbp rip 32) s.
Proof.
  intros Hs. unfold backtrace_from. wp_step. eapply wp_mono; [by apply puts_runs|]. intros [] s1 H1. wp_step.
  eapply wp_mono; [apply printf_runs; [by vm_compute|by vm_compute|by repeat constructor|done]|].
  intros [] s2 H2. by apply backtrace_go_runs.
Qed.

(** Whatever was run before, the end is the end. *)
Lemma stuck_after {A B} (m : M St A) (w : stuck) s : (exists a s', m s = Ok (a, s')) -> (m ≫= (fun _ : A => mstuck w : M St B)) s = Stuck w.
Proof. intros (a & s' & E). unfold mbind, M_bind. by rewrite E. Qed.

(** A panic stops the machine: [__panic] prints what it was given, follows at
    most 31 frames, however the frame pointers are chained, and halts. *)
Lemma panic_halts msg frame s :
  match msg with Some m => Z.of_nat (length m) < 2 ^ 31 | None => True end -> con_inv s -> __panic msg frame s = Stuck Halt.
Proof.
  intros Hm Hs. unfold __panic.
  assert (forall (m : M St unit) k (s : St), con_inv s -> (forall s, con_inv s -> runs_on m s) ->
    (forall s, con_inv s -> k s = Stuck Halt) -> (m ≫= fun _ => k) s = (Stuck Halt : res (unit * St))) as Hseq.
  { intros m k t Ht Hrun Hk. specialize (Hrun t Ht). apply wp_ok in Hrun as ([] & t' & E & Ht').
    unfold mbind, M_bind. rewrite E. by apply Hk. }
  apply Hseq; [done|intros t Ht; destruct (_ || _); [by apply puts_runs|by wp_step]|]. clear s Hs. intros s Hs.
  apply Hseq; [done| |].
  { intros t Ht. destruct msg as [text|]; [|by wp_step].
    apply printf_runs; [by vm_compute|done|by repeat constructor|done]. }
  clear s Hs. intros s Hs. apply Hseq; [done| |done].
  intros t Ht. destruct frame as [f|]; [|by wp_step]. do 6 wp_step.
  do 6 (wp_step; eapply wp_mono; [apply printf_runs; [by vm_compute|by vm_compute|by repeat constructor|done]|];
        let u := fresh "u" in let Hu := fresh "Hu" in intros [] u Hu).
  wp_step. eapply wp_mono; [by apply backtrace_runs|]. intros [] v Hv. by apply puts_runs.
Qed.
End Panic.
