(* ===== verification/Idt.v ===== *)
(** * Interrupts and exceptions (src/src/kernel/idt.c, idt.h)

    The descriptor table and its gates, the entry and exit code every vector
    shares, and the dispatch of [exception_handler].  [isr_common] is inline
    assembly: its instructions are given as operations on a stack of words.
    The device handlers the dispatch calls are arguments. *)
From S2P Require Import Prelude KMem Spinlock BuddySpec Buddy PageAlloc Print Serial Kconsole Proc Ports Dma Acpi Apic Gdt Log Panic.

#[local] Open Scope Z_scope.

Definition IDT_INTERRUPT_GATE : Z := 142.
Definition IDT_ENTRIES : Z := 256.
Definition IRQ_TIMER : Z := 32.
Definition IRQ_KEYBOARD : Z := 33.
Definition IRQ_MOUSE : Z := 44.
Definition IRQ_ATA_PRIMARY : Z := 46.
Definition IRQ_ATA_SECONDARY : Z := 47.
Definition IRQ_AHCI : Z := 48.

(** ** The table *)

Record idt_entry := Idt_entry {
  offset_1 : Z; selector : Z; ist : Z; type_attr : Z; offset_2 : Z; offset_3 : Z; ie_zero : Z
}.
Definition no_entry : idt_entry := Idt_entry 0 0 0 0 0 0 0.

(** The static table and its pointer; [idtr_loaded] is the register. *)
Record idt_state := Idt_state { idt : list idt_entry; idtr : Z * Z; idtr_loaded : Z * Z }.

(** [sizeof(struct idt_entry)] *)
Definition idt_entry_bytes : Z := 16.

Definition idt_set_gate (num handler type : Z) : M idt_state unit := mmodify (fun s =>
  Idt_state (<[Z.to_nat num := Idt_entry (Z.land handler 65535) KERNEL_CS 0 type
     (Z.land (Z.shiftr handler 16) 65535) (Z.land (Z.shiftr handler 32) 4294967295) 0]> (idt s)) (idtr s) (idtr_loaded s)).

Definition load_idt : M idt_state unit := mmodify (fun s => Idt_state (idt s) (idtr s) (idtr s)).

Section Init.
(** The addresses of the table, of the stubs and of [isr_spurious]. *)
Context (idt_at : Z) (isr_table : Z -> Z) (isr_spurious : Z).

Definition init_idt : M idt_state unit :=
  mmodify (fun s => Idt_state (idt s) (IDT_ENTRIES * idt_entry_bytes - 1, idt_at) (idtr_loaded s));;
  mfor (Z.to_nat IDT_ENTRIES) (fun i => idt_set_gate (u8 i) 0 0;; mret (None : option unit)) 0;;
  mfor 49 (fun i => idt_set_gate (u8 i) (isr_table i) IDT_INTERRUPT_GATE;; mret (None : option unit)) 0;;
  idt_set_gate 255 isr_spurious IDT_INTERRUPT_GATE;;
  load_idt.
End Init.

(** ** Entry and exit *)

(** The vectors declared with [ISR_STUB_ERR]. *)
Definition stub_err (num : Z) : bool := bool_decide (num ∈ [8; 10; 11; 12; 13; 14; 17; 21; 30]).

Inductive reg := RAX | RBX | RCX | RDX | RSI | RDI | RBP | R8 | R9 | R10 | R11 | R12 | R13 | R14 | R15.
#[export] Instance reg_eq_dec : EqDecision reg.
Proof. solve_decision. Defined.

(** The registers, the stack (top first), and whether GS holds the user's
    base, which [swapgs] exchanges. *)
Record icpu := Icpu { regs : reg -> Z; stack : list Z; user_gs : bool }.

Definition set_reg (r : reg) (v : Z) (c : icpu) : icpu :=
  Icpu (fun r' => if decide (r' = r) then v else regs c r') (stack c) (user_gs c).
Definition swapgs (c : icpu) : icpu := Icpu (regs c) (stack c) (negb (user_gs c)).
Definition push (r : reg) (c : icpu) : icpu := Icpu (regs c) (regs c r :: stack c) (user_gs c).
Definition push_imm (v : Z) (c : icpu) : icpu := Icpu (regs c) (v :: stack c) (user_gs c).
Definition pop (r : reg) (c : icpu) : icpu :=
  match stack c with v :: st => set_reg r v (Icpu (regs c) st (user_gs c)) | [] => c end.

(** [ISR_STUB] and [ISR_STUB_ERR]. *)
Definition isr_stub (num : Z) (c : icpu) : icpu := push_imm num (if stub_err num then c else push_imm 0 c).

(** [testl $3, off(%rsp); jz 1f; swapgs; 1:] with [off] in words. *)
Definition swapgs_if (off : nat) (c : icpu) : icpu := if Z.land (stack c !!! off) 3 =? 0 then c else swapgs c.

Definition saved : list reg := [RAX; RBX; RCX; RDX; RSI; RDI; RBP; R8; R9; R10; R11; R12; R13; R14; R15].
Definition restored : list reg := [R15; R14; R13; R12; R11; R10; R9; R8; RBP; RDI; RSI; RDX; RCX; RBX; RAX].

(** [isr_common] up to the call; the handler's argument is the stack pointer. *)
Definition isr_common_enter (c : icpu) : icpu := foldl (fun c r => push r c) (swapgs_if 3 c) saved.
(** [trapret] up to [iretq]. *)
Definition trapret (c : icpu) : icpu :=
  let c := foldl (fun c r => pop r c) c restored in
  let c := Icpu (regs c) (drop 2 (stack c)) (user_gs c) in
  swapgs_if 1 c.

(** The words the stack pointer is given as a [struct trap_frame *]. *)
Definition frame_at (st : list Z) : option trap_frame :=
  match st with
  | r15 :: r14 :: r13 :: r12 :: r11 :: r10 :: r9 :: r8 :: rbp :: rdi :: rsi :: rdx :: rcx :: rbx :: rax ::
    int_no :: err :: rip :: cs :: rflags :: rsp :: ss :: _ =>
      Some (Trap r15 r14 r13 r12 r11 r10 r9 r8 rbp rdi rsi rdx rcx rbx rax int_no err rip cs rflags rsp ss)
  | _ => None
  end.

(** ** Dispatch *)

Section Dispatch.
Context {St : Type} `{MM : Mmio St} `{CO : Console St} (get_kst : St -> kst) (get_apic : St -> apic_state).
Context (cr0 cr2 : St -> Z).
Context (get_ticks : St -> Z) (set_ticks : Z -> St -> St).
Context (yield kbd_interrupt mouse_interrupt ahci_irq_handler : M St unit) (ata_irq_handler : Z -> M St unit).
#[local] Abbreviation eoi := (lapic_eoi get_apic).

Definition timer_handler : M St unit :=
  mmodify (fun s => set_ticks (u32 (get_ticks s + 1)) s);;
  yield.

(** The message of the vectors that panic. *)
Definition exception_message (v : Z) : option (list Z) :=
  match v with
  | 0 => Some (str "DIVISION ERROR")
  | 1 => Some (str "DEBUG?")
  | 2 => Some (str "NMI")
  | 3 => Some (str "BREAKPOINT")
  | 4 => Some (str "OVERFLOW")
  | 5 => Some (str "BOUND RANGE")
  | 6 => Some (str "INVALID OPCODE")
  | 7 => Some (str "DEVICE NOT AVAILABLE")
  | 8 => Some (str "DOUBLE FAULT")
  | 9 => Some (str "WHY ARE WE HERE?!?! COPROCESSOR")
  | 10 => Some (str "INVALID TSS")
  | 11 => Some (str "SEGMENT NOT PRESENT")
  | 12 => Some (str "STACK-SEGMENT FAULT")
  | 13 => Some (str "GENERAL PROTECTION FAULT")
  | 14 => Some (str "PAGE FAULT")
  | 16 => Some (str "x87 FPU EXCEPTION")
  | 17 => Some (str "ALIGNMENT CHECK")
  | 18 => Some (str "MACHINE CHECK")
  | 19 => Some (str "SIMD FPU EXCEPTION")
  | 20 => Some (str "VIRT EXCEPTION")
  | 21 => Some (str "CONTROL PROTECTION EXCEPTION")
  | 28 => Some (str "HYPERVISOR INJECTION")
  | 29 => Some (str "VMM COMM EXCEPTION")
  | 30 => Some (str "SECURITY EXCEPTION")
  | _ => None
  end.

Definition exception_handler (frame : trap_frame) : M St unit :=
  let v := tf_int_no frame in
  if v =? IRQ_TIMER then eoi;; timer_handler
  else if v =? IRQ_KEYBOARD then kbd_interrupt;; eoi
  else if v =? IRQ_MOUSE then mouse_interrupt;; eoi
  else if v =? IRQ_ATA_PRIMARY then ata_irq_handler 0;; eoi
  else if v =? IRQ_ATA_SECONDARY then ata_irq_handler 1;; eoi
  else if v =? IRQ_AHCI then ahci_irq_handler;; eoi
  else __panic get_kst cr0 cr2 (exception_message v) (Some frame).
End Dispatch.

(** ** The cursor overlay *)

(** The static caches of [draw_cursor], which nothing calls; the address is
    cached when there is a framebuffer. *)
Record cursor_cache := Cursor_cache { cc_addr : bool; cc_pitch : Z; cc_width : Z; cc_height : Z }.

Definition cursor_fill (x y clear : Z) : M (cursor_cache * kcon) unit :=
  c ← mgets fst;
  let pitch_u32 := cc_pitch c / 4 in
  let x := if x <? 0 then 0 else x in
  let y := if y <? 0 then 0 else y in
  let x := if i32 (cc_width c) <=? x then i32 (u32 (cc_width c - 1)) else x in
  let y := if i32 (cc_height c) <=? y then i32 (u32 (cc_height c - 1)) else y in
  mfor 64 (fun dy =>
    mfor 64 (fun dx =>
      if dx * dx + dy * dy <? 32 * 32 then
        mzoom snd (fun k s => (s.1, k)) (fb_store (u32 (u32 (u32 (y + dy) * pitch_u32) + u32 (x + dx)))
          (if clear =? 0 then 65280 else 0));;
        mret (None : option unit)
      else mret None) (-32)) (-32);;
  mret tt.

Definition draw_cursor (x y clear : Z) : M (cursor_cache * kcon) unit :=
  s ← mget;
  (if negb (cc_addr s.1) && bool_decide (fb s.2 <> []) then
     let '(w, h, p, _) := kconsole_get_info s.2 in mput (Cursor_cache true p w h, s.2)
   else mret tt);;
  c ← mgets fst;
  if negb (cc_addr c) then mret tt else cursor_fill x y clear.

(** ** Gates *)

(** The handler a gate leads to, as the processor assembles it. *)
Definition gate_target (e : idt_entry) : Z := offset_1 e + 2 ^ 16 * offset_2 e + 2 ^ 32 * offset_3 e.

Lemma gate_pieces h : 0 <= h < 2 ^ 64 ->
  Z.land h 65535 + 2 ^ 16 * Z.land (Z.shiftr h 16) 65535 + 2 ^ 32 * Z.land (Z.shiftr h 32) 4294967295 = h.
Proof.
  intros Hh. change 65535 with (Z.ones 16). change 4294967295 with (Z.ones 32).
  rewrite !Z.land_ones, !Z.shiftr_div_pow2 by done. Z.to_euclidean_division_equations. lia.
Qed.

(** What vector [v] leads to. *)
Definition gate_for (isr_table : Z -> Z) (isr_spurious v : Z) : option Z :=
  if v <? 49 then Some (isr_table v) else if v =? 255 then Some isr_spurious else None.

Definition gate_of (handler type : Z) : idt_entry :=
  Idt_entry (Z.land handler 65535) KERNEL_CS 0 type (Z.land (Z.shiftr handler 16) 65535) (Z.land (Z.shiftr handler 32) 4294967295) 0.

(** A loop of [idt_set_gate] replaces a run of entries. *)
Lemma set_gates n (h : Z -> Z) (type : Z) s :
  (n <= 256)%nat -> length (idt s) = 256%nat ->
  wp (mfor n (fun i => idt_set_gate (u8 i) (h i) type;; mret (None : option unit)) 0) s (fun _ s' =>
    s' = Idt_state (((fun i => gate_of (h i) type) <$> seqZ 0 (Z.of_nat n)) ++ drop n (idt s)) (idtr s) (idtr_loaded s)).
Proof.
  intros Hn Hl.
  apply (wp_mfor _ (fun i s' => 0 <= i /\
    s' = Idt_state (((fun i => gate_of (h i) type) <$> seqZ 0 i) ++ drop (Z.to_nat i) (idt s)) (idtr s) (idtr_loaded s))).
  - intros i s1 Hi [_ ->]. wp_step. apply wp_modify. wp_step. split; [lia|]. cbn [idt idtr idtr_loaded]. rewrite u8_small by lia.
    f_equal. change (Idt_entry _ _ _ _ _ _ _) with (gate_of (h i) type).
    destruct (lookup_lt_is_Some_2 (idt s) (Z.to_nat i)) as [e He]; [lia|].
    rewrite (drop_S _ _ _ He). replace (Z.to_nat (i + 1)) with (S (Z.to_nat i)) by lia.
    rewrite insert_app_r_alt by (rewrite length_fmap, length_seqZ; lia).
    rewrite length_fmap, length_seqZ, Nat.sub_diag. cbn [insert list_insert].
    rewrite seqZ_app, fmap_app by lia. by rewrite <- app_assoc.
  - intros s1 [_ ->]. by rewrite Z.add_0_l, Nat2Z.id.
  - split; [done|]. by destruct s.
Qed.

(** After [init_idt] the register covers the table, every vector below 49
    leads to its stub and vector 255 to the spurious handler, through present
    interrupt gates of privilege 0 into the kernel's code segment, and no other
    vector is present. *)
Lemma init_idt_gates idt_at (isr_table : Z -> Z) isr_spurious s :
  (forall v, 0 <= isr_table v < 2 ^ 64) -> 0 <= isr_spurious < 2 ^ 64 -> length (idt s) = 256%nat ->
  wp (init_idt idt_at isr_table isr_spurious) s (fun _ s' =>
    idtr_loaded s' = (4095, idt_at) /\ length (idt s') = 256%nat /\
    forall v, 0 <= v < 256 -> exists e, idt s' !! Z.to_nat v = Some e /\
      match gate_for isr_table isr_spurious v with
      | Some h => gate_target e = h /\ type_attr e = IDT_INTERRUPT_GATE /\ selector e = KERNEL_CS /\ Z.testbit (type_attr e) 7 = true
      | None => Z.testbit (type_attr e) 7 = false
      end).
Proof.
  intros Ht Hs Hl. unfold init_idt. wp_step. apply wp_modify.
  wp_step. change (Z.to_nat IDT_ENTRIES) with 256%nat. eapply wp_mono; [by apply (set_gates 256 (fun _ => 0) 0)|]. intros r1 s1 ->. cbn [idt idtr idtr_loaded].
  wp_step. eapply wp_mono; [apply (set_gates 49 isr_table IDT_INTERRUPT_GATE); [lia|]|].
  { cbn [idt]. by rewrite length_app, length_fmap, length_seqZ, length_drop, Hl. }
  intros r2 s2 ->. cbn [idt idtr idtr_loaded]. wp_step. apply wp_modify. apply wp_modify. cbn [idt idtr idtr_loaded].
  set (base := ((fun i => gate_of (isr_table i) _) <$> _) ++ _).
  assert (length base = 256%nat) as Hbase.
  { unfold base. by rewrite length_app, length_drop, length_app, !length_fmap, !length_seqZ, length_drop, Hl. }
  split_and!; [done|by rewrite length_insert|]. intros v Hv.
  assert (forall h type, 0 <= h < 2 ^ 64 -> gate_target (gate_of h type) = h) as Hgate by (intros h type Hh; by apply gate_pieces).
  destruct (Z.eqb_spec v 255) as [->|Hne].
  { exists (gate_of isr_spurious IDT_INTERRUPT_GATE). split; [by rewrite list_lookup_insert_eq by (rewrite Hbase; lia)|]. cbn.
    split_and!; [by apply Hgate|done|done|done]. }
  rewrite list_lookup_insert_ne by lia. unfold base, gate_for. rewrite (proj2 (Z.eqb_neq v 255) Hne). destruct (Z.ltb_spec v 49).
  - exists (gate_of (isr_table v) IDT_INTERRUPT_GATE). rewrite lookup_app_l by (rewrite length_fmap, length_seqZ; lia).
    rewrite list_lookup_fmap, lookup_seqZ_lt by lia. cbn. rewrite Z2Nat.id by lia. split; [done|]. split_and!; [by apply Hgate|done..].
  - exists (gate_of 0 0). rewrite lookup_app_r by (rewrite length_fmap, length_seqZ; lia).
    rewrite length_fmap, length_seqZ, lookup_drop, lookup_app_l by (rewrite length_fmap, length_seqZ; lia).
    rewrite list_lookup_fmap, lookup_seqZ_lt by lia. done.
Qed.

(** ** What an interrupted program sees *)

(** The vectors for which the processor pushes an error code. *)
Definition hw_err (num : Z) : bool := bool_decide (num ∈ [8; 10; 11; 12; 13; 14; 17; 21; 29; 30]).

(** The stack as the processor leaves it at the stub of vector [num]. *)
Definition delivered (num err rip cs rflags rsp ss : Z) (rest : list Z) : list Z :=
  (if hw_err num then [err] else []) ++ rip :: cs :: rflags :: rsp :: ss :: rest.

Definition frame_of (c : icpu) (num err rip cs rflags rsp ss : Z) : trap_frame :=
  Trap (regs c R15) (regs c R14) (regs c R13) (regs c R12) (regs c R11) (regs c R10) (regs c R9) (regs c R8)
    (regs c RBP) (regs c RDI) (regs c RSI) (regs c RDX) (regs c RCX) (regs c RBX) (regs c RAX)
    num (if hw_err num then err else 0) rip cs rflags rsp ss.

Lemma push_all rs c : foldl (fun c r => push r c) c rs = Icpu (regs c) ((regs c <$> reverse rs) ++ stack c) (user_gs c).
Proof.
  revert c. induction rs as [|r rs IH]; intros c; [by destruct c|]. cbn [foldl]. rewrite IH. cbn [push regs stack user_gs].
  f_equal. by rewrite reverse_cons, fmap_app, <- app_assoc.
Qed.

Lemma stub_same num : 0 <= num < 256 -> num <> 29 -> stub_err num = hw_err num.
Proof.
  intros Hn Hne. unfold stub_err, hw_err. repeat (rewrite <- bool_decide_or || rewrite bool_decide_ext by (rewrite ?elem_of_cons; reflexivity)).
  apply bool_decide_ext. rewrite !elem_of_cons, !elem_of_nil. intuition lia.
Qed.

(** C18: an interrupt is transparent: for every vector but 29, the handler is
    given a trap frame whose fields are the interrupted program's registers,
    its vector, its error code (or 0) and the five words the processor saved;
    and when it returns leaving the frame alone, [trapret] gives every register
    back, leaves exactly the five words [iretq] pops, and GS holds the base
    it held, having held the kernel's in between. *)
Theorem interrupt_transparent num err rip cs rflags rsp ss rest c :
  0 <= num < 256 -> num <> 29 -> stack c = delivered num err rip cs rflags rsp ss rest ->
  user_gs c = negb (Z.land cs 3 =? 0) ->
  let inside := isr_common_enter (isr_stub num c) in
  frame_at (stack inside) = Some (frame_of c num err rip cs rflags rsp ss) /\
  user_gs inside = false /\
  forall c', stack c' = stack inside -> user_gs c' = user_gs inside ->
    (forall r, regs (trapret c') r = regs c r) /\ stack (trapret c') = rip :: cs :: rflags :: rsp :: ss :: rest /\
    user_gs (trapret c') = user_gs c.
Proof.
  intros Hn Hne Hst Hgs inside.
  set (words := num :: (if hw_err num then err else 0) :: rip :: cs :: rflags :: rsp :: ss :: rest).
  assert (isr_stub num c = Icpu (regs c) words (user_gs c)) as Estub.
  { unfold isr_stub, words. rewrite stub_same by done. unfold delivered in Hst.
    destruct (hw_err num); unfold push_imm; cbn [regs stack user_gs]; by rewrite Hst. }
  assert (isr_common_enter (isr_stub num c) = Icpu (regs c) ((regs c <$> reverse saved) ++ words) false) as Eenter.
  { unfold isr_common_enter. rewrite Estub, push_all. unfold swapgs_if. cbn [stack].
    change (words !!! 3%nat) with cs. rewrite Hgs. by destruct (Z.land cs 3 =? 0). }
  unfold inside. rewrite Eenter. split_and!; [done|done|].
  intros c' Hst' Hgs'. cbn [stack user_gs] in Hst', Hgs'. destruct c' as [rs st gs]. cbn [stack user_gs] in Hst', Hgs'. subst st gs.
  unfold trapret, swapgs_if. cbn [foldl restored pop stack set_reg regs user_gs fmap list_fmap reverse saved app drop].
  split_and!.
  - intros r. destruct (Z.land _ 3 =? 0); destruct r; reflexivity.
  - destruct (Z.land _ 3 =? 0); reflexivity.
  - rewrite Hgs. change (_ !!! 1%nat) with cs. by destruct (Z.land cs 3 =? 0).
Qed.

(** Vector 29 pushes an error code the stub does not expect: the frame is one
    word off, and [iretq] would return to the error code. *)
Lemma vmm_exception_misframed err rip cs rflags rsp ss rest c :
  stack c = delivered 29 err rip cs rflags rsp ss rest ->
  (tf_rip <$> frame_at (stack (isr_common_enter (isr_stub 29 c)))) = Some err.
Proof.
  intros Hst. unfold isr_common_enter. rewrite push_all. unfold swapgs_if, isr_stub, push_imm. cbn [stub_err].
  change (stub_err 29) with false. cbn [regs stack user_gs]. rewrite Hst. by destruct (_ =? 0).
Qed.

Definition demo_icpu : icpu := Icpu (fun r => match r with RAX => 7 | RBX => 8 | _ => 0 end) (delivered 14 2 4198400 67 514 8192 59 []) true.

Lemma interrupt_transparent_witness :
  frame_at (stack (isr_common_enter (isr_stub 14 demo_icpu))) = Some (Trap 0 0 0 0 0 0 0 0 0 0 0 0 0 8 7 14 2 4198400 67 514 8192 59) /\
  stack (trapret (isr_common_enter (isr_stub 14 demo_icpu))) = [4198400; 67; 514; 8192; 59].
Proof.
  destruct (interrupt_transparent 14 2 4198400 67 514 8192 59 [] demo_icpu ltac:(lia) ltac:(lia) eq_refl eq_refl) as (Hf & _ & Hr).
  split; [exact Hf|]. by apply Hr.
Defined.

(** ** Settling an interrupt *)

Definition device_vector (v : Z) : bool :=
  bool_decide (v ∈ [IRQ_TIMER; IRQ_KEYBOARD; IRQ_MOUSE; IRQ_ATA_PRIMARY; IRQ_ATA_SECONDARY; IRQ_AHCI]).

Section Settle.
Context {St : Type} `{MM : Mmio St} `{CO : Console St} (get_kst : St -> kst) (get_apic : St -> apic_state).
Context (cr0 cr2 : St -> Z) (get_ticks : St -> Z) (set_ticks : Z -> St -> St).
Context (yield kbd_interrupt mouse_interrupt ahci_irq_handler : M St unit) (ata_irq_handler : Z -> M St unit).
#[local] Abbreviation handler :=
  (exception_handler get_kst get_apic cr0 cr2 get_ticks set_ticks yield kbd_interrupt mouse_interrupt ahci_irq_handler ata_irq_handler).

(** [eois] counts the writes to the local APIC's end-of-interrupt register;
    [I] is an invariant of the kernel. *)
Context (eois : St -> Z) (I : St -> Prop).
Context (HI : forall s, I s -> con_inv s).
Context (Heoi : forall s, I s -> wp (mmio_write32 (lapic_base (get_apic s) + LAPIC_EOI) 0) s (fun _ s' => I s' /\ eois s' = eois s + 1)).
Context (Hticks : forall n s, I s -> I (set_ticks n s) /\ eois (set_ticks n s) = eois s).

(** A device handler returns and acknowledges nothing itself. *)
Definition quiet_handler (m : M St unit) : Prop := forall s, I s -> wp m s (fun _ s' => I s' /\ eois s' = eois s).
Context (Hkbd : quiet_handler kbd_interrupt) (Hmouse : quiet_handler mouse_interrupt)
  (Hahci : quiet_handler ahci_irq_handler) (Hata : forall ch, quiet_handler (ata_irq_handler ch)).

Lemma eoi_counts s : I s -> wp (lapic_eoi get_apic) s (fun _ s' => I s' /\ eois s' = eois s + 1).
Proof. intros Hs. unfold lapic_eoi, lapic_write. do 2 wp_step. by apply Heoi. Qed.

Lemma handler_then_eoi m s : quiet_handler m -> I s -> wp (m;; lapic_eoi get_apic) s (fun _ s' => I s' /\ eois s' = eois s + 1).
Proof.
  intros Hm Hs. wp_step. eapply wp_mono; [by apply Hm|]. intros [] s1 [H1 E1].
  eapply wp_mono; [by apply eoi_counts|]. intros [] s2 [H2 E2]. split; [done|lia].
Qed.

End Settle.

(** A machine that counts acknowledgements and records the log. *)
Record settling := Settling { st_eois : Z; st_ticks : Z; st_log : list Z }.

#[local] Instance settling_mmio : Mmio settling.
Proof.
  refine {| mmio_read32 := fun _ => mret 0;
            mmio_write32 := fun a _ s => if a =? 4096 + LAPIC_EOI then Ok (tt, Settling (st_eois s + 1) (st_ticks s) (st_log s)) else Stuck Fault |}.
  by intros a s v s' [= <- _].
Defined.
#[local] Instance settling_console : Console settling.
Proof.
  refine {| Print.serial_putc := fun c s => Ok (tt, Settling (st_eois s) (st_ticks s) (st_log s ++ [u8 c]));
            Print.kconsole_putc := fun _ => mret tt; con_inv := fun _ => True; con_out := st_log |}; done.
Defined.

Definition demo_handler : trap_frame -> M settling unit :=
  exception_handler (fun _ => demo_kst) (fun _ => Apic_state 4096 0) (fun _ => 0) (fun _ => 0)
    st_ticks (fun n s => Settling (st_eois s) n (st_log s)) (mret tt) (mret tt) (mret tt) (mret tt) (fun _ => mret tt).

