(* ===== verification/Boot.v ===== *)
(** * Kernel entry (src/src/kernel/main.c, and [init_syscall] of syscall.c)

    The parts of the boot path that compute: the memory map handed to the
    allocator, the mapping of what is not memory, the processor table built
    from the boot loader's list, the search each processor makes in it, and the
    registers of the system call instruction.  The boot loader's responses are
    lists of records. *)
From S2P Require Import Prelude KMem Spinlock BuddySpec Buddy PageAlloc PageTable Proc Print Log Gdt.

#[local] Open Scope Z_scope.

(** ** Memory *)

Definition LIMINE_MEMMAP_USABLE : Z := 0.
Definition LIMINE_MEMMAP_BAD_MEMORY : Z := 4.

(** [struct limine_memmap_entry] *)
Record memmap_entry := Entry { me_base : Z; me_length : Z; me_type : Z }.

(** One turn of the loop over the memory map, [total] being [available_mem]. *)
Definition add_entry (e : memmap_entry) (total : Z) : M kst Z :=
  if me_type e =? LIMINE_MEMMAP_USABLE then
    freerange (me_base e) (u64 (me_base e + me_length e));;
    mret (u64 (total + me_length e))
  else mret total.
Fixpoint add_entries (es : list memmap_entry) (total : Z) : M kst Z :=
  match es with
  | [] => mret total
  | e :: es => total ← add_entry e total; add_entries es total
  end.

(** From [kinit] to [buddy_enable_lock]; [name] is the literal the lock gets.
    The answer is the number of megabytes printed. *)
Definition boot_memory (offset name : Z) (es : list memmap_entry) : M kst Z :=
  mmodify (kinit offset name);;
  total ← add_entries es 0;
  buddy_enable_lock;;
  mret (u32 (total / (1024 * 1024))).

(** The loop that maps what the allocator does not own. *)
Fixpoint map_reserved (es : list memmap_entry) : M kst unit :=
  match es with
  | [] => mret tt
  | e :: es =>
      (if negb (me_type e =? LIMINE_MEMMAP_USABLE) && negb (me_type e =? LIMINE_MEMMAP_BAD_MEMORY)
       then map_mmio (me_base e) (me_length e) else mret tt);;
      map_reserved es
  end.

(** ** Processors *)

Definition MAX_CPUS : Z := 16.

(** [cpus], [ncpu]. *)
Record smp := Smp { cpus : list cpu; ncpu : Z }.

Definition set_ids (apic id : Z) (c : cpu) : cpu :=
  Cpu (kernel_rsp c) (scratch_rsp c) (cpu_proc c) (scheduler_ctx c) apic (ncli c) (intena c) id.
Definition cpu_update (i : Z) (f : cpu -> cpu) : M smp unit := fun s =>
  if (0 <=? i) && (i <? Z.of_nat (length (cpus s))) then Ok (tt, Smp (alter f (Z.to_nat i) (cpus s)) (ncpu s)) else Stuck Fault.

(** One turn of the loop over the boot loader's processors; an apic number is
    kept in eight bits. *)
Definition enumerate_body (bsp : Z) (ids : list Z) (i : Z) : M smp (option unit) :=
  n ← mgets ncpu;
  if negb (n <? MAX_CPUS) then mret (Some tt)
  else
    match ids !! Z.to_nat i with
    | None => mstuck Fault
    | Some id =>
        if id =? bsp then mret None
        else
          cpu_update n (set_ids (u8 id) (u8 n));;
          mmodify (fun s => Smp (cpus s) (u32 (n + 1)));;
          mret None
    end.

(** The processor table of [_start]; the answer is [expected_aps]. *)
Definition enumerate (bsp : Z) (ids : list Z) : M smp Z :=
  cpu_update 0 (fun c => set_ids (u8 bsp) (cpu_id c) c);;
  mfor (length ids) (enumerate_body bsp ids) 0;;
  n ← mgets ncpu;
  mret (u32 (n - 1)).

(** The search at the start of [ap_entry]; [None] is the processor that halts
    and never counts as started. *)
Definition ap_slot (apic : Z) : M smp (option Z) :=
  n ← mgets ncpu;
  mfor (Z.to_nat n) (fun i => s ← mget;
    match cpus s !! Z.to_nat i with
    | None => mstuck Fault
    | Some c => mret (if apic_id c =? apic then Some i else None)
    end) 0.

(** ** The system call registers *)

Definition MSR_EFER : Z := 3221225600.
Definition MSR_STAR : Z := 3221225601.
Definition MSR_LSTAR : Z := 3221225602.
Definition MSR_FMASK : Z := 3221225604.
Definition EFER_SCE : Z := Z.shiftl 1 0.

Definition rdmsr (r : Z) : M (Z -> Z) Z := fun s => Ok (s r, s).
Definition wrmsr (r v : Z) : M (Z -> Z) unit := mmodify (fun s x => if x =? r then u64 v else s x).

(** [entry] is the address of [syscall_entry]. *)
Definition init_syscall (entry : Z) : M (Z -> Z) unit :=
  efer ← rdmsr MSR_EFER;
  wrmsr MSR_EFER (Z.lor efer EFER_SCE);;
  wrmsr MSR_STAR (Z.lor (u64 (Z.shiftl 51 48)) (u64 (Z.shiftl KERNEL_CS 32)));;
  wrmsr MSR_LSTAR entry;;
  wrmsr MSR_FMASK 512.

(** The selectors the instructions take from the register: [syscall] loads cs
    and ss from the field at bit 32, 64-bit [sysret] from that at bit 48. *)
Definition star_kernel (star : Z) : Z * Z := let f := Z.land (Z.shiftr star 32) 65535 in (f, f + 8).
Definition star_user (star : Z) : Z * Z := let f := Z.land (Z.shiftr star 48) 65535 in (Z.lor (f + 16) 3, Z.lor (f + 8) 3).

(** A system call enters and leaves through the segments the descriptor tables
    give the kernel and the users, with interrupts masked. *)
Lemma init_syscall_selectors entry s : 0 <= entry < 2 ^ 64 ->
  wp (init_syscall entry) s (fun _ s' =>
    Z.testbit (s' MSR_EFER) 0 = true /\ s' MSR_LSTAR = entry /\ Z.testbit (s' MSR_FMASK) 9 = true /\
    star_kernel (s' MSR_STAR) = (KERNEL_CS, KERNEL_DS) /\ star_user (s' MSR_STAR) = (USER_CS, USER_DS)).
Proof.
  intros He. unfold init_syscall, rdmsr. wp_step. eapply wp_run; [reflexivity|]. cbn beta. unfold wrmsr. do 3 wp_step. cbn beta.
  wp_step. wp_step. cbn beta. wp_step. wp_step. cbn beta. 
  repeat match goal with |- context [?a =? ?b] => let v := eval vm_compute in (a =? b) in change (a =? b) with v end.
  cbv iota. split_and!; try reflexivity.
  - unfold u64. rewrite Z.mod_pow2_bits_low by lia. rewrite Z.lor_spec. apply orb_true_r.
  - by apply u64_small.
Qed.

(** ** The memory map is the allocator's pool *)

(** The whole pages of the usable entries, in the order they were freed. *)
Definition entry_pages (off : Z) (e : memmap_entry) : list Z :=
  if me_type e =? LIMINE_MEMMAP_USABLE then range_pages off (page_up (me_base e)) (me_base e + me_length e) else [].
Definition pool (off : Z) (es : list memmap_entry) (ps : list Z) : list Z := foldl (fun ps e => entry_pages off e ++ ps) ps es.
Definition usable_bytes (es : list memmap_entry) (total : Z) : Z :=
  foldl (fun t e => if me_type e =? LIMINE_MEMMAP_USABLE then u64 (t + me_length e) else t) total es.

Definition entry_ok (off : Z) (e : memmap_entry) : Prop :=
  0 <= me_base e <= 2 ^ 52 /\ 0 <= me_length e /\ me_base e + me_length e <= 2 ^ 52 /\ hhdm_ok off (me_base e + me_length e).

Lemma pool_nodup off es ps : NoDup (pool off es ps) -> NoDup ps.
Proof.
  revert ps. induction es as [|e es IH]; intros ps H; [done|]. cbn in H. apply IH in H. by apply NoDup_app in H as (_ & _ & ?).
Qed.
Lemma pool_incl off es ps p : p ∈ ps -> p ∈ pool off es ps.
Proof. revert ps. induction es as [|e es IH]; intros ps H; [done|]. cbn. apply IH, elem_of_app. by right. Qed.

Lemma add_entries_wp off es ps total s :
  alloc_inv ps s -> hhdm_offset s = off -> Forall (entry_ok off) es -> NoDup (pool off es ps) ->
  wp (add_entries es total) s (fun r s' => r = usable_bytes es total /\
    alloc_inv (pool off es ps) s' /\ touches (pool off es ps) s s').
Proof.
  revert ps total s. induction es as [|e es IH]; intros ps total s Hi Ho Hok Hnd.
  { apply wp_ret. split_and!; [done|done|apply touches_refl]. }
  apply Forall_cons in Hok as [(Hb & Hl & He & Hh) Hok]. cbn [pool foldl usable_bytes] in *. cbn [add_entries]. wp_step.
  unfold add_entry, entry_pages in *. destruct (me_type e =? LIMINE_MEMMAP_USABLE).
  - wp_step. rewrite u64_small by lia. eapply wp_mono; [apply (freerange_frees ps); try assumption|].
    { by rewrite Ho. }
    { rewrite Ho. by apply pool_nodup in Hnd. }
    intros [] s1 (Hi1 & Hm1). cbn beta. wp_step. rewrite Ho in *.
    assert (hhdm_offset s1 = off) as Ho1 by (destruct Hm1 as ((m & hs & ->) & _); exact Ho).
    eapply wp_mono; [by apply (IH _ _ _ Hi1)|]. intros r s2 (Hr & Hi2 & Hm2). split_and!; [done|done|].
    eapply touches_mono; [|eapply touches_trans; [exact Hm1|exact Hm2]].
    intros x [Hx|Hx]%elem_of_app; [by apply pool_incl|done].
  - wp_step. by apply IH.
Qed.

(** C9: From an arbitrary machine to the end of the memory set-up: every entry
    of the boot loader's map is handed over, the allocator owns exactly the
    whole pages of the usable entries and nothing else, no other memory is
    written, locking is on, and the number printed is the usable megabytes. *)
Theorem boot_memory_exact offset name es s :
  Forall (entry_ok offset) es -> NoDup (pool offset es []) -> (exists c, cpu_ready (khw s) c) ->
  wp (boot_memory offset name es) s (fun mb s' =>
    mb = u32 (usable_bytes es 0 / (1024 * 1024)) /\ hhdm_offset s' = offset /\ use_lock (buddy s') = 1 /\
    alloc_inv (pool offset es []) s' /\ same_outside (pool offset es []) (heap s) (heap s')).
Proof.
  intros Hok Hnd Hcpu. unfold boot_memory. wp_step. wp_step. cbn beta. wp_step.
  assert (alloc_inv [] (kinit offset name s)) as Hi.
  { exists empty_blocks. split_and!; [apply wf_empty| |done|done]. unfold slists. repeat constructor. }
  eapply wp_mono; [by apply (add_entries_wp offset es [] 0)|]. intros r s1 (-> & Hi1 & Hm). cbn beta.
  wp_step. unfold buddy_enable_lock. wp_step. cbn beta. wp_step. destruct Hm as ((m & hs & ->) & Hm). split_and!; try done.
  - destruct Hi1 as (F & HF & HL & _ & Hpg). exists F. split_and!; [done|exact HL| |done].
    intros _. split; [by eexists|exact Hcpu].
  - intros b Hb. apply (Hm b). by left.
Qed.

(** Two usable ranges around a reserved one. *)
Definition demo_map : list memmap_entry := [Entry 4096 20480 0; Entry 24576 8192 1; Entry 32868 49152 0].

Lemma boot_memory_exact_witness :
  wp (boot_memory (2 ^ 40) 7 demo_map) demo_kst (fun mb s' =>
    mb = u32 (usable_bytes demo_map 0 / (1024 * 1024)) /\ hhdm_offset s' = 2 ^ 40 /\ use_lock (buddy s') = 1 /\
    alloc_inv (pool (2 ^ 40) demo_map []) s' /\ same_outside (pool (2 ^ 40) demo_map []) (heap demo_kst) (heap s')).
Proof.
  apply (boot_memory_exact (2 ^ 40) 7 demo_map demo_kst).
  - repeat constructor; by_decide.
  - by_decide.
  - by exists demo_cpu.
Defined.

(** ** The processors that come up are the ones the boot waits for *)

(** The slots of the table after the processors [os] besides the first. *)
Definition slots (bsp : Z) (os : list Z) (s : smp) : Prop :=
  Z.of_nat (length (cpus s)) = MAX_CPUS /\ ncpu s = 1 + Z.min 15 (Z.of_nat (length os)) /\
  forall j id, (bsp :: os) !! j = Some id -> (j < 16)%nat -> exists c, cpus s !! j = Some c /\ apic_id c = id /\ cpu_id c = Z.of_nat j.

Definition others (bsp : Z) (ids : list Z) : list Z := filter (fun id => id <> bsp) ids.

Lemma others_next bsp ids id : others bsp (ids ++ [id]) = if id =? bsp then others bsp ids else others bsp ids ++ [id].
Proof.
  unfold others. rewrite filter_app, filter_cons, filter_nil. destruct (Z.eqb_spec id bsp) as [->|Hne].
  - rewrite decide_False by tauto. apply app_nil_r.
  - by rewrite decide_True.
Qed.

(** A turn of the enumeration fills the next slot, as long as there is one. *)
Lemma enumerate_turn bsp ids i id s :
  ids !! i = Some id -> 0 <= id < 2 ^ 8 -> slots bsp (others bsp (take i ids)) s ->
  wp (enumerate_body bsp ids (Z.of_nat i)) s (fun r s' =>
    slots bsp (others bsp (take (S i) ids)) s' /\ (r = None \/ r = Some tt /\ s' = s /\ 16 <= ncpu s)).
Proof.
  intros Hid Hr (Hlen & Hn & Hs). rewrite (take_S_r _ _ id) by done. set (os := others bsp (take i ids)) in *. rewrite others_next. fold os.
  unfold enumerate_body. wp_step. wp_step. cbn beta. destruct (Z.ltb_spec (ncpu s) MAX_CPUS) as [Hlt|Hge]; cbn [negb]; unfold MAX_CPUS in *.
  - rewrite Nat2Z.id, Hid. destruct (Z.eqb_spec id bsp) as [->|Hne]; [wp_step; split; [done|by left]|].
    wp_step. eapply wp_run; [unfold cpu_update; rewrite (proj2 (Z.leb_le _ _)), (proj2 (Z.ltb_lt _ _)) by lia; reflexivity|].
    cbn beta. wp_step. wp_step. cbn beta. wp_step. split; [|by left]. unfold slots. cbn [cpus ncpu]. rewrite length_alter, length_app. cbn [length].
    rewrite u32_small by lia. split_and!; [done|lia|]. intros j id' Hj H16.
    destruct (decide (j < S (length os))%nat) as [Hj2|Hj2].
    + destruct (Hs j id') as (c & Hc & Hc1 & Hc2); [|done|].
      * rewrite <- Hj. destruct j as [|j]; [done|]. cbn. symmetry. apply lookup_app_l. lia.
      * exists c. split; [|done]. rewrite list_lookup_alter_ne; [done|]. lia.
    + assert (j = S (length os)) as -> by (apply lookup_lt_Some in Hj; cbn [length] in Hj; rewrite length_app in Hj; cbn in Hj; lia).
      change ((os ++ [id]) !! length os = Some id') in Hj. rewrite list_lookup_middle in Hj by done. injection Hj as <-. replace (Z.to_nat (ncpu s)) with (S (length os)) by lia.
      destruct (lookup_lt_is_Some_2 (cpus s) (S (length os))) as [c Hc]; [lia|]. exists (set_ids (u8 id) (u8 (ncpu s)) c).
      rewrite list_lookup_alter_eq, Hc. split; [done|]. cbn [set_ids apic_id cpu_id]. rewrite !u8_small by lia. split; [done|lia].
  - wp_step. split; [|right; split_and!; [done|done|lia]]. destruct (id =? bsp); [by split|]. unfold slots, MAX_CPUS. rewrite length_app. cbn [length].
    split_and!; [done|lia|]. intros j id' Hj H16. apply Hs; [|done]. rewrite <- Hj. destruct j as [|j]; [done|]. cbn. symmetry. apply lookup_app_l. lia.
Qed.

Lemma slots_full bsp os more s : slots bsp os s -> 16 <= ncpu s -> slots bsp (os ++ more) s.
Proof.
  intros (Hlen & Hn & Hs) Hge. split; [done|]. rewrite length_app. split; [lia|]. intros j id Hj H16. apply Hs; [|done].
  rewrite <- Hj. destruct j as [|j]; [done|]. cbn. symmetry. apply lookup_app_l. lia.
Qed.

Lemma enumerate_wp bsp ids s :
  Forall (fun id => 0 <= id < 2 ^ 8) ids -> slots bsp [] s ->
  wp (mfor (length ids) (enumerate_body bsp ids) 0) s (fun _ s' => slots bsp (others bsp ids) s').
Proof.
  intros Hr Hs. apply (wp_mfor _ (fun j t => slots bsp (others bsp (take (Z.to_nat j) ids)) t)); [| |exact Hs].
  - intros j t Hj Ht. destruct (lookup_lt_is_Some_2 ids (Z.to_nat j)) as [id Hid]; [lia|].
    pose proof (Forall_lookup_1 _ _ _ _ Hr Hid) as Hrange. cbn beta in Hrange.
    pose proof (enumerate_turn bsp ids (Z.to_nat j) id t Hid Hrange Ht) as Hstep. rewrite Z2Nat.id in Hstep by lia.
    eapply wp_mono; [exact Hstep|]. intros r t' (Ht' & [-> | (-> & -> & Hge)]).
    + by replace (Z.to_nat (j + 1)) with (S (Z.to_nat j)) by lia.
    + rewrite <- (take_drop (S (Z.to_nat j)) ids). unfold others. rewrite filter_app. by apply slots_full.
  - intros t. rewrite Nat2Z.id || (replace (Z.to_nat (0 + Z.of_nat (length ids))) with (length ids) by lia).
    by rewrite take_ge by lia.
Qed.

(** The search finds the processor's own slot. *)
Lemma ap_slot_run bsp os s k id :
  slots bsp os s -> NoDup (bsp :: os) -> os !! k = Some id ->
  ap_slot id s = Ok (if (k <? 15)%nat then Some (Z.of_nat k + 1) else None, s).
Proof.
  intros (Hlen & Hn & Hs) Hnd Hk. unfold MAX_CPUS in Hlen. pose proof (lookup_lt_Some _ _ _ Hk) as Hkl.
  assert (forall j, (j < 16)%nat -> Z.of_nat j < ncpu s -> exists c, cpus s !! j = Some c /\ (apic_id c =? id) = bool_decide (j = S k)) as Hcmp.
  { intros j Hj Hjn. destruct (lookup_lt_is_Some_2 (bsp :: os) j) as [x Hx]; [cbn; lia|].
    destruct (Hs j x Hx Hj) as (c & Hc & Hc1 & _). exists c. split; [done|]. rewrite Hc1.
    destruct (bool_decide_reflect (j = S k)) as [->|Hne].
    - change (os !! k = Some x) in Hx. rewrite Hk in Hx. injection Hx as ->. apply Z.eqb_refl.
    - apply Z.eqb_neq. intros ->. apply Hne. by apply (NoDup_lookup _ _ _ _ Hnd Hx). }
  assert (wp (ap_slot id) s (fun r t => r = (if (k <? 15)%nat then Some (Z.of_nat k + 1) else None) /\ t = s)) as H.
  { unfold ap_slot. wp_step. wp_step. cbn beta.
    apply (wp_mfor _ (fun j t => t = s /\ 0 <= j /\ (j <= Z.of_nat k + 1 \/ 15 <= Z.of_nat k))); [| |split; [done|lia]].
    - intros j t Hj (-> & H0 & Hjk). wp_step. wp_step. cbn beta. destruct (Hcmp (Z.to_nat j)) as (c & Hc & Hcid); [lia|lia|].
      rewrite Hc. wp_step. rewrite Hcid. destruct (bool_decide_reflect (Z.to_nat j = S k)) as [Ej|Hne].
      + rewrite (proj2 (Nat.ltb_lt k 15)) by lia. split; [f_equal; lia|done].
      + split; [done|lia].
    - intros t (-> & _ & Hjk). split; [|done]. destruct (Nat.ltb_spec k 15); [lia|done]. }
  apply wp_ok in H as (r & t & Hrun & -> & ->). exact Hrun.
Qed.

(** An apic number of more than eight bits is in no slot, though its processor
    is counted: [_start] would wait for it for ever. *)
Lemma wide_apic_lost id s : 256 <= id -> Forall (fun c => 0 <= apic_id c < 256) (cpus s) ->
  0 <= ncpu s <= Z.of_nat (length (cpus s)) -> ap_slot id s = Ok (None, s).
Proof.
  intros Hid Hc Hn. assert (wp (ap_slot id) s (fun r t => r = None /\ t = s)) as H.
  { unfold ap_slot. wp_step. wp_step. cbn beta. apply (wp_mfor _ (fun j t => t = s)); [|intros t ->; done|done].
    intros j t Hj ->. wp_step. wp_step. cbn beta. destruct (lookup_lt_is_Some_2 (cpus s) (Z.to_nat j)) as [c Hcj]; [lia|].
    rewrite Hcj. pose proof (Forall_lookup_1 _ _ _ _ Hc Hcj) as Hrange. cbn beta in Hrange. wp_step.
    by rewrite (proj2 (Z.eqb_neq _ _)) by lia. }
  apply wp_ok in H as (r & t & Hrun & -> & ->). exact Hrun.
Qed.

Definition has_slot (s : smp) (id : Z) : bool := match ap_slot id s with Ok (Some _, _) => true | _ => false end.

Lemma count_below {A} (f : A -> bool) n (l : list A) :
  (forall k x, l !! k = Some x -> f x = (k <? n)%nat) -> length (List.filter f l) = Nat.min n (length l).
Proof.
  revert n. induction l as [|x l IH]; intros n H; [by rewrite Nat.min_0_r|]. cbn [List.filter length].
  rewrite (H 0%nat x) by done. destruct n as [|n].
  - change (0 <? 0)%nat with false. cbn iota. rewrite (IH 0%nat); [done|]. intros k y Hk. exact (H (S k) y Hk).
  - change (0 <? S n)%nat with true. cbn iota. cbn [length Nat.min]. f_equal. apply IH. intros k y Hk. exact (H (S k) y Hk).
Qed.

(** C20: With distinct apic numbers of eight bits, [_start] gives the boot
    processor slot 0 and the others the next slots in order until the sixteen
    are full; in [ap_entry] every processor that has a slot finds its own, whose
    number is its place in the table, the others find none and halt; and as many
    find one as [_start] waits for. *)
Theorem smp_bring_up bsp ids s c0 :
  NoDup ids -> Forall (fun id => 0 <= id < 2 ^ 8) ids -> 0 <= bsp < 2 ^ 8 ->
  Z.of_nat (length (cpus s)) = MAX_CPUS -> ncpu s = 1 -> cpus s !! 0%nat = Some c0 -> cpu_id c0 = 0 ->
  wp (enumerate bsp ids) s (fun expected s' =>
    (forall k id, others bsp ids !! k = Some id ->
       ap_slot id s' = Ok (if (k <? 15)%nat then Some (Z.of_nat k + 1) else None, s') /\
       ((k < 15)%nat -> exists c, cpus s' !! S k = Some c /\ apic_id c = id /\ cpu_id c = Z.of_nat k + 1)) /\
    (exists c, cpus s' !! 0%nat = Some c /\ apic_id c = bsp /\ cpu_id c = 0) /\
    expected = Z.of_nat (length (List.filter (has_slot s') (others bsp ids)))).
Proof.
  intros Hnd Hr Hb Hlen Hn H0 Hid0. unfold enumerate. wp_step. eapply wp_run.
  { unfold cpu_update. rewrite Hlen. reflexivity. }
  cbn beta. wp_step. eapply wp_mono; [apply (enumerate_wp bsp ids); [exact Hr|]|].
  { unfold slots. cbn [cpus ncpu length]. rewrite length_alter. split_and!; [done|by rewrite Hn|]. intros [|j] id Hj _; [|done].
    injection Hj as <-. exists (set_ids (u8 bsp) (cpu_id c0) c0). change (Z.to_nat 0) with 0%nat. rewrite list_lookup_alter_eq, H0.
    split; [done|]. cbn [set_ids apic_id cpu_id]. by rewrite u8_small. }
  intros r s' Hs. cbn beta. wp_step. wp_step. cbn beta. wp_step.
  assert (NoDup (bsp :: others bsp ids)) as Hnd'.
  { apply NoDup_cons. split; [|by apply NoDup_filter]. unfold others. rewrite list_elem_of_filter. tauto. }
  assert (forall k id, others bsp ids !! k = Some id ->
    ap_slot id s' = Ok (if (k <? 15)%nat then Some (Z.of_nat k + 1) else None, s')) as Hap by (intros k id; by apply (ap_slot_run bsp (others bsp ids))).
  destruct Hs as (Hlen' & Hn' & Hs). split_and!.
  - intros k id Hk. split; [by apply Hap|]. intros Hk15. destruct (Hs (S k) id Hk ltac:(lia)) as (c & Hc & Hc1 & Hc2).
    exists c. split_and!; [done|done|lia].
  - by apply (Hs 0%nat bsp); [|lia].
  - rewrite (count_below _ 15).
    + rewrite Hn', u32_small; lia.
    + intros k id Hk. unfold has_slot. rewrite (Hap k id Hk). by destruct (k <? 15)%nat.
Qed.

(** Four processors; the boot processor is the second. *)
Definition demo_smp : smp := Smp (replicate 16 (Cpu 0 0 0 0 0 0 0 0)) 1.

Lemma smp_bring_up_witness :
  wp (enumerate 2 [0; 2; 4; 6]) demo_smp (fun expected s' =>
    (forall k id, others 2 [0; 2; 4; 6] !! k = Some id ->
       ap_slot id s' = Ok (if (k <? 15)%nat then Some (Z.of_nat k + 1) else None, s') /\
       ((k < 15)%nat -> exists c, cpus s' !! S k = Some c /\ apic_id c = id /\ cpu_id c = Z.of_nat k + 1)) /\
    (exists c, cpus s' !! 0%nat = Some c /\ apic_id c = 2 /\ cpu_id c = 0) /\
    expected = Z.of_nat (length (List.filter (has_slot s') (others 2 [0; 2; 4; 6])))).
Proof.
  apply (smp_bring_up 2 [0; 2; 4; 6] demo_smp (Cpu 0 0 0 0 0 0 0 0)); try reflexivity.
  - by_decide.
  - repeat constructor; by_decide.
  - split; by_decide.
Defined.
