(* ===== verification/Sched.v ===== *)
(** * Scheduling and exit (src/src/kernel/proc.c, syscall.c, gdt.c)

    [yield], [sys_exit] and [scheduler] hand the CPU over with [swtch], written
    in assembly: each is given as the part before that call and the part after
    it, and [sched_step] lets them alternate on one CPU the way [swtch] makes
    them. *)
From S2P Require Import Prelude KMem Spinlock BuddySpec Buddy PageAlloc PageTable Vfs Print Proc.

#[local] Open Scope Z_scope.

Section Scheduling.
Context {FS : Type} `{PA : PageAllocator} `{VO : VfsOps FS} `{CO : Console (vst FS)}.
Context (get_procs : FS -> procs) (set_procs : procs -> FS -> FS).
(** [rsp0] of the entries of [tss_array]. *)
Context (get_rsp0 : FS -> list Z) (set_rsp0 : list Z -> FS -> FS).
#[local] Abbreviation V := (M (vst FS)).
#[local] Abbreviation proc_load := (proc_load get_procs set_procs).
#[local] Abbreviation proc_store := (proc_store get_procs set_procs).
#[local] Abbreviation acquire_proc_lock := (acquire_proc_lock get_procs set_procs).
#[local] Abbreviation release_proc_lock := (release_proc_lock get_procs set_procs).

Definition tss_set_rsp0 (rsp0 : Z) : V unit :=
  c ← this_cpu;
  mzoom (fun s : vst FS => get_rsp0 (v_fs s)) (fun t s => set_fs (set_rsp0 t (v_fs s)) s)
    (t ← mget;
     match t !! Z.to_nat (cpu_id c) with
     | Some _ => mput (<[Z.to_nat (cpu_id c) := rsp0]> t)
     | None => mstuck Fault
     end).

(** [yield] up to [swtch]; [false] when no process runs. *)
Definition yield_enter : V bool :=
  p ← current_proc;
  if p =? 0 then mret false
  else
    acquire_proc_lock;;
    proc_store p (set_state PROC_RUNNABLE);;
    this_cpu_store (set_cpu_proc 0);;
    mret true.
Definition yield_leave : V unit := release_proc_lock.

(** [sys_exit] up to [swtch], which does not return here; "proc: %d, code: %d". *)
Definition sys_exit_enter (status : Z) : V bool :=
  p ← current_proc;
  if p =? 0 then mret false
  else
    acquire_proc_lock;;
    proc_close_fds get_procs set_procs p;;
    x ← proc_load p;
    printf [112; 114; 111; 99; 58; 32; 37; 100; 44; 32; 99; 111; 100; 101; 58; 32; 37; 100; 13; 10] [Word (p_pid x); Word status];;
    proc_store p (set_exit_code status);;
    proc_store p (set_state PROC_ZOMBIE);;
    this_cpu_store (set_cpu_proc 0);;
    mret true.

(** One pass of [scheduler]: its start, the round for entry [i] of the table up
    to [swtch] ([false] when it is not runnable), what follows [swtch], and the
    end of the pass. *)
Definition scheduler_begin : V unit := on_hw sti;; acquire_proc_lock.
Definition scheduler_dispatch (i : Z) : V bool :=
  let p := i + 1 in
  x ← proc_load p;
  if negb (p_state x =? PROC_RUNNABLE) then mret false
  else
    proc_store p (set_state PROC_RUNNING);;
    this_cpu_store (set_cpu_proc p);;
    x ← proc_load p;
    on_kst (phys ← VIRT_TO_PHYS (p_pml4 x); lcr3 phys);;
    tss_set_rsp0 (u64 (p_kstack x + KSTACK_SIZE));;
    this_cpu_store (set_kernel_rsp (u64 (p_kstack x + KSTACK_SIZE)));;
    mret true.
Definition scheduler_return : V unit := this_cpu_store (set_cpu_proc 0).
Definition scheduler_end : V unit := release_proc_lock.

(** Where the CPU is: before a pass, before the round for entry [i], at the
    first instruction of process [p] after [swtch], in process [p] itself. *)
Inductive place := Idle | Round (i : Z) | Resuming (p : Z) | Running (p : Z).

(** The moves of one CPU.  A process that runs changes the kernel's state in
    system calls as [proc_step] allows, and gives the CPU up by [yield] or
    [sys_exit]. *)
Inductive sched_step (proc_step : Z -> vst FS -> vst FS -> Prop) : place * vst FS -> place * vst FS -> Prop :=
| sched_begin s s' : scheduler_begin s = Ok (tt, s') -> sched_step proc_step (Idle, s) (Round 0, s')
| sched_skip i s s' : i < MAX_PROCS -> scheduler_dispatch i s = Ok (false, s') ->
    sched_step proc_step (Round i, s) (Round (i + 1), s')
| sched_dispatch i s s' : i < MAX_PROCS -> scheduler_dispatch i s = Ok (true, s') ->
    sched_step proc_step (Round i, s) (Resuming (i + 1), s')
| sched_resume p s s' : yield_leave s = Ok (tt, s') -> sched_step proc_step (Resuming p, s) (Running p, s')
| sched_work p s s' : proc_step p s s' -> sched_step proc_step (Running p, s) (Running p, s')
| sched_yield p s s1 s' : yield_enter s = Ok (true, s1) -> scheduler_return s1 = Ok (tt, s') ->
    sched_step proc_step (Running p, s) (Round p, s')
| sched_exit p status s s1 s' : sys_exit_enter status s = Ok (true, s1) -> scheduler_return s1 = Ok (tt, s') ->
    sched_step proc_step (Running p, s) (Round p, s')
| sched_end i s s' : MAX_PROCS <= i -> scheduler_end s = Ok (tt, s') -> sched_step proc_step (Round i, s) (Idle, s').
End Scheduling.
