(* ===== verification/Syscall.v ===== *)
(** * System calls (src/src/kernel/syscall.c, syscall.h, pipe.c)

    Each [sys_*] function, [syscall_handler], and the creation of pipes as
    files.  A user pointer is dereferenced in the byte heap at its own
    address.  What other processes do while this one is switched out is the
    parameter [swtch]: [yield] is its two halves around it. *)
From S2P Require Import Prelude KMem Spinlock BuddySpec Buddy PageAlloc PageTable KString Pipe Vfs Print Kconsole AddrSpace Elf Proc Sched.

#[local] Open Scope Z_scope.

Definition SYS_EXIT : Z := 0.
Definition SYS_WRITE : Z := 1.
Definition SYS_GETPID : Z := 2.
Definition SYS_EXEC : Z := 3.
Definition SYS_FORK : Z := 4.
Definition SYS_OPEN : Z := 5.
Definition SYS_CLOSE : Z := 6.
Definition SYS_READ : Z := 7.
Definition SYS_SEEK : Z := 8.
Definition SYS_FSTAT : Z := 9.
Definition SYS_STAT : Z := 10.
Definition SYS_WAIT : Z := 11.
Definition SYS_DUP : Z := 12.
Definition SYS_DUP2 : Z := 13.
Definition SYS_BRK : Z := 14.
Definition SYS_PIPE : Z := 15.
Definition SYS_FBINFO : Z := 16.

Definition USER_PTR_MAX : Z := 140737488355328.
Definition valid_user_ptr (p : Z) : bool := p <? USER_PTR_MAX.

(** [sizeof(struct pipe)] *)
Definition pipe_bytes : Z := 4144.

(** [struct vfs_stat] in memory. *)
Definition stat_at (m : mem) (a : Z) : vfs_stat :=
  Stat (rd64 m a) (rd32 m (a + 8)) (rd32 m (a + 12)) (rd32 m (a + 16)) (rd32 m (a + 20)) (rd64 m (a + 24))
    (rd64 m (a + 32)) (rd64 m (a + 40)) (rd64 m (a + 48)) (rd64 m (a + 56)).
Definition store_stat (a : Z) (st : vfs_stat) (m : mem) : mem :=
  let m := wr32 (wr32 (wr32 (wr32 (wr64 m a (st_ino st)) (a + 8) (st_mode st)) (a + 12) (st_nlink st)) (a + 16) (st_uid st)) (a + 20) (st_gid st) in
  wr64 (wr64 (wr64 (wr64 (wr64 m (a + 24) (st_size st)) (a + 32) (st_blocks st)) (a + 40) (st_atime st)) (a + 48) (st_mtime st)) (a + 56) (st_ctime st).

(** A string and an array of strings behind a pointer. *)
Definition string_behind (m : mem) (p : Z) : option (option (list Z)) :=
  if p =? 0 then Some None
  else n ← kstrlen m p; Some (Some (bytes_at (Z.to_nat n) m p)).
Definition strings_behind (m : mem) (p : Z) : option (option (list (list Z))) :=
  if p =? 0 then Some None
  else
    r ← loop (fun '(a, acc) =>
      let q := rd64 m a in
      if q =? 0 then inr (Some (rev acc))
      else match string_behind m q with
           | Some (Some s) => inl (a + 8, s :: acc)
           | _ => inr None
           end) (p, []);
    Some <$> r.

Section Calls.
Context {FS : Type} `{PA : PageAllocator} `{VO : VfsOps FS} `{CO : Console (vst FS)}.
Context (get_procs : FS -> procs) (set_procs : procs -> FS -> FS).
Context (get_pipes : FS -> gmap Z pipe) (set_pipes : gmap Z pipe -> FS -> FS).
Context (get_kcon : FS -> kcon).
Context (trapret_addr forkret_addr fb_addr pipe_read_ops pipe_write_ops : Z).
#[local] Abbreviation V := (M (vst FS)).
(** The rest of the machine, until [swtch] comes back to this process. *)
Context (swtch : Z -> V unit).
#[local] Abbreviation proc_load := (proc_load get_procs set_procs).
#[local] Abbreviation proc_store := (proc_store get_procs set_procs).
#[local] Abbreviation fd_alloc := (fd_alloc get_procs set_procs).
#[local] Abbreviation fd_get := (fd_get get_procs set_procs).
#[local] Abbreviation fd_store := (fd_store get_procs set_procs).
#[local] Abbreviation acquire_proc_lock := (acquire_proc_lock get_procs set_procs).
#[local] Abbreviation release_proc_lock := (release_proc_lock get_procs set_procs).

Definition peek {A} (f : mem -> A) : V A := mgets (fun s => f (heap (v_k s))).

Definition yield : V unit :=
  p ← current_proc;
  switched ← yield_enter get_procs set_procs;
  if switched : bool then swtch p;; yield_leave get_procs set_procs else mret tt.

(** Stuck once [swtch] returns: "SYS_EXIT: RETURNED" stops the machine. *)
Definition sys_exit (status : Z) : V unit :=
  p ← current_proc;
  switched ← sys_exit_enter get_procs set_procs status;
  if switched : bool then swtch p;; mstuck Halt else mret tt.

(** *** Files *)

Definition open_flags (flags : Z) : Z :=
  if Z.land flags 3 =? 1 then VFS_O_WRONLY else if Z.land flags 3 =? 2 then VFS_O_RDWR else VFS_O_RDONLY.

(** A descriptor for a file whose reference the caller gives away. *)
Definition fd_install (p f : Z) : V Z :=
  fd ← fd_alloc p f;
  if fd <? 0 then vfs_close f;; mret (-1) else mret fd.

Definition sys_open (path flags : Z) : V Z :=
  p ← current_proc;
  if (p =? 0) || negb (valid_user_ptr path) then mret (-1)
  else
    name ← peek (fun m => string_behind m path);
    name ← mlift name;
    r ← vfs_open name (open_flags flags) 0;
    if negb (r.1 =? VFS_OK) then mret (-1)
    else
      fd_install p r.2.

Definition sys_close (fd : Z) : V Z :=
  p ← current_proc;
  if p =? 0 then mret (-1)
  else
    f ← fd_get p (i32 fd);
    if f =? 0 then mret (-1)
    else
      fd_store p fd 0;;
      vfs_close f;;
      mret 0.

Definition sys_read (fd buf len : Z) : V Z :=
  p ← current_proc;
  if (p =? 0) || negb (valid_user_ptr buf) then mret (-1)
  else
    f ← fd_get p (i32 fd);
    if f =? 0 then mret (-1) else vfs_read f buf (u32 len).

(** [for (i = 0; i < len; i++) putc(buf[i])] *)
Definition put_bytes (buf len : Z) : V unit :=
  mloop (fun i =>
    if i <? len then
      c ← peek (fun m => rd8 m (u64 (buf + i)));
      putc c;;
      mret (inl (u64 (i + 1)))
    else mret (inr tt)) 0.

Definition sys_write (fd buf len : Z) : V Z :=
  if negb (valid_user_ptr buf) then mret (-1)
  else
    p ← current_proc;
    f ← (if negb (p =? 0) then fd_get p (i32 fd) else mret 0);
    if (f =? 0) && ((fd =? 1) || (fd =? 2)) then put_bytes buf len;; mret (i64 len)
    else if f =? 0 then mret (-1)
    else vfs_write f buf (u32 len).

(** [st] is what the stack of [vfs_seek] held. *)
Definition sys_seek (st : vfs_stat) (fd off whence : Z) : V Z :=
  p ← current_proc;
  if p =? 0 then mret (-1)
  else
    f ← fd_get p (i32 fd);
    if f =? 0 then mret (-1)
    else r ← vfs_seek st f (u64 off) (i32 whence); mret (i64 r).

Definition sys_fstat (fd st : Z) : V Z :=
  p ← current_proc;
  if (p =? 0) || negb (valid_user_ptr st) then mret (-1)
  else
    f ← fd_get p (i32 fd);
    if f =? 0 then mret (-1)
    else
      old ← peek (fun m => stat_at m st);
      r ← vfs_fstat f old;
      heap_store (store_stat st r.2);;
      if negb (r.1 =? VFS_OK) then mret (-1) else mret 0.

Definition sys_stat (path st : Z) : V Z :=
  if negb (valid_user_ptr path) || negb (valid_user_ptr st) then mret (-1)
  else
    name ← peek (fun m => string_behind m path);
    name ← mlift name;
    old ← peek (fun m => stat_at m st);
    r ← vfs_stat_path name old;
    heap_store (store_stat st r.2);;
    if negb (r.1 =? VFS_OK) then mret (-1) else mret 0.

Definition sys_dup (fd : Z) : V Z :=
  p ← current_proc;
  if p =? 0 then mret (-1)
  else
    f ← fd_get p (i32 fd);
    if f =? 0 then mret (-1)
    else
      vfs_file_get f;;
      fd_install p f.

Definition sys_dup2 (old_fd new_fd : Z) : V Z :=
  p ← current_proc;
  if (p =? 0) || (MAX_FDS <=? new_fd) then mret (-1)
  else
    f ← fd_get p (i32 old_fd);
    if f =? 0 then mret (-1)
    else if old_fd =? new_fd then mret (i64 new_fd)
    else
      cur ← fd_load get_procs set_procs p new_fd;
      (if negb (cur =? 0) then vfs_close cur;; fd_store p new_fd 0 else mret tt);;
      vfs_file_get f;;
      fd_store p new_fd f;;
      mret (i64 new_fd).

(** *** Pipes *)

Definition make_pipe_end (p ops end_tag : Z) : V Z :=
  ino ← v_kalloc 1;
  if ino =? 0 then mret 0
  else
    create v_inodes set_inodes ino (Inode end_tag 0 1 0 0 ops p);;
    f ← v_kalloc 1;
    if f =? 0 then v_kfree ino 1;; destroy v_inodes set_inodes ino;; mret 0
    else
      create v_files set_files f (File 1 0 0 ino 0 0);;
      mret f.

(** Undoing one end. *)
Definition drop_pipe_end (f : Z) : V unit :=
  if f =? 0 then mret tt
  else
    x ← load v_files f;
    v_kfree (f_inode x) 1;;
    destroy v_inodes set_inodes (f_inode x);;
    v_kfree f 1;;
    destroy v_files set_files f.

Definition on_pipes (g : gmap Z pipe -> gmap Z pipe) : V unit :=
  mmodify (fun s => set_fs (set_pipes (g (get_pipes (v_fs s))) (v_fs s)) s).

(** The two ends, or [None] for -1. *)
Definition pipe_create : V (option (Z * Z)) :=
  p ← v_kalloc 1;
  if p =? 0 then mret None
  else
    heap_store (fun m => memset m p 0 pipe_bytes);;
    on_pipes (<[p := new_pipe]>);;
    r ← make_pipe_end p pipe_read_ops PIPE_READ_END;
    w ← make_pipe_end p pipe_write_ops PIPE_WRITE_END;
    if (r =? 0) || (w =? 0) then
      drop_pipe_end r;;
      drop_pipe_end w;;
      v_kfree p 1;;
      on_pipes (delete p);;
      mret None
    else mret (Some (r, w)).

Definition sys_pipe (fds : Z) : V Z :=
  if negb (valid_user_ptr fds) then mret (-1)
  else
    p ← current_proc;
    if p =? 0 then mret (-1)
    else
      ends ← pipe_create;
      match ends with
      | None => mret (-1)
      | Some (r, w) =>
          rfd ← fd_alloc p r;
          wfd ← fd_alloc p w;
          if (rfd <? 0) || (wfd <? 0) then
            (if 0 <=? rfd then fd_store p rfd 0;; vfs_close r else vfs_close r);;
            vfs_close w;;
            mret (-1)
          else
            heap_store (fun m => wr32 m fds rfd);;
            heap_store (fun m => wr32 m (u64 (fds + 4)) wfd);;
            mret 0
      end.

(** *** Processes *)

Definition sys_getpid : V Z :=
  p ← current_proc;
  if p =? 0 then mret (-1) else x ← proc_load p; mret (p_pid x).

(** One scan of the table: the pid reaped. *)
Definition wait_scan (parent status_out : Z) : V (option Z) :=
  acquire_proc_lock;;
  r ← mfor (Z.to_nat MAX_PROCS) (fun i =>
    let c := i + 1 in
    x ← proc_load c;
    y ← proc_load parent;
    if negb (p_state x =? PROC_ZOMBIE) || negb (p_ppid x =? p_pid y) then mret None
    else
      let pid := i32 (p_pid x) in
      (if negb (status_out =? 0) && valid_user_ptr status_out
       then heap_store (fun m => wr32 m status_out (u32 (p_exit_code x))) else mret tt);;
      on_kst (free_user_pml4 (p_pml4 x));;
      v_kfree (p_pml4 x) 1;;
      v_kfree (p_kstack x) (KSTACK_SIZE / PAGE_SIZE);;
      proc_store c (set_pml4 0);;
      proc_store c (set_kstack 0);;
      proc_store c (set_state PROC_UNUSED);;
      release_proc_lock;;
      mret (Some pid)) 0;
  match r with
  | Some pid => mret (Some pid)
  | None => release_proc_lock;; mret None
  end.

Definition sys_wait (status_out : Z) : V Z :=
  parent ← current_proc;
  if parent =? 0 then mret (-1)
  else
    mloop (fun _ : unit =>
      r ← wait_scan parent status_out;
      match r with Some pid => mret (inr pid) | None => yield;; mret (inl tt) end) tt.

Definition sys_brk (new_brk : Z) : V Z :=
  p ← current_proc;
  if p =? 0 then mret (-1)
  else
    x ← proc_load p;
    if new_brk =? 0 then mret (i64 (p_brk x))
    else if (new_brk <? USER_HEAP_BASE) || (17179869184 <? new_brk) then mret (i64 (p_brk x))
    else
      let old_brk := p_brk x in
      let old_page := page_down (u64 (old_brk + PAGE_SIZE - 1)) in
      let new_page := page_down (u64 (new_brk + PAGE_SIZE - 1)) in
      ok ← (if old_brk <? new_brk
            then on_kst (page_loop new_page (fun va => map_fresh (p_pml4 x) va (Z.lor PTE_USER PTE_WRITE) zero_page) old_page)
            else mret true);
      if negb ok then x ← proc_load p; mret (i64 (p_brk x))
      else
        proc_store p (set_brk new_brk);;
        mret (i64 new_brk).

(** [struct fb_info] *)
Definition sys_fbinfo (info : Z) : V Z :=
  if negb (valid_user_ptr info) then mret (-1)
  else
    k ← mgets (fun s => get_kcon (v_fs s));
    let '(w, h, p, b) := kconsole_get_info k in
    heap_store (fun m => wr64 (wr64 (wr32 (wr32 (wr32 (wr32 m info w) (info + 4) h) (info + 8) p) (info + 12) b)
                                (info + 16) fb_addr) (info + 24) (kconsole_get_size k));;
    mret 0.

(** The dispatcher; [st] is what the stacks of the calls held.  "EXIT ", "RET " *)
Definition syscall_handler (st : vfs_stat) (num a1 a2 a3 a4 a5 : Z) : V Z :=
  if num =? SYS_EXIT then
    puts [69; 88; 73; 84; 32];;
    sys_exit (i32 a1);;
    puts [82; 69; 84; 32];;
    mret 0
  else if num =? SYS_WRITE then sys_write a1 a2 a3
  else if num =? SYS_GETPID then sys_getpid
  else if num =? SYS_EXEC then
    path ← peek (fun m => string_behind m a1);
    path ← mlift path;
    argv ← peek (fun m => strings_behind m a2);
    argv ← mlift argv;
    proc_exec get_procs set_procs st path argv
  else if num =? SYS_FORK then proc_fork get_procs set_procs trapret_addr forkret_addr
  else if num =? SYS_OPEN then sys_open a1 a2
  else if num =? SYS_CLOSE then sys_close a1
  else if num =? SYS_READ then sys_read a1 a2 a3
  else if num =? SYS_SEEK then sys_seek st a1 (i64 a2) a3
  else if num =? SYS_FSTAT then sys_fstat a1 a2
  else if num =? SYS_STAT then sys_stat a1 a2
  else if num =? SYS_WAIT then sys_wait a1
  else if num =? SYS_DUP then sys_dup a1
  else if num =? SYS_DUP2 then sys_dup2 a1 a2
  else if num =? SYS_BRK then sys_brk a1
  else if num =? SYS_PIPE then sys_pipe a1
  else if num =? SYS_FBINFO then sys_fbinfo a1
  else mret (-1).
End Calls.

(** ** Runs of the accessors *)

(** ** The heap of a process *)

(** The pages a break of [b] needs from [USER_HEAP_BASE] on, and those a larger
    break adds. *)
Definition brk_page (b : Z) : Z := 4096 * ((b + 4095) / 4096).
Definition brk_pages (old new : Z) : list upage :=
  (fun va => Upage va (Z.lor PTE_USER PTE_WRITE) (fun _ => 0)) <$> page_range (brk_page old) (brk_page new).

Lemma brk_page_down b : 0 <= b < 2 ^ 64 - 4096 -> page_down (u64 (b + PAGE_SIZE - 1)) = brk_page b.
Proof.
  intros Hb. unfold PAGE_SIZE. rewrite u64_small by lia. rewrite page_down_floor by lia. unfold brk_page. f_equal. f_equal. lia.
Qed.

(** C17: [sys_brk] answers the break without changing anything for a query or an
    address outside the heap's range; otherwise the break is the one asked for.
    Raising it, with enough free pages, adds zeroed, writable user pages exactly
    for the pages the larger break needs, each in a frame of its own, and no
    other address translates differently; lowering it unmaps nothing. *)
Theorem sys_brk_correct {FS} `{PA : PageAllocator} get_procs set_procs (L : lens get_procs set_procs)
    (s : vst FS) p x T ps new_brk :
  runs_on s p -> proc_at get_procs s p x -> pt_state (p_pml4 x) T ps (v_k s) ->
  USER_HEAP_BASE <= p_brk x <= 2 ^ 34 -> (4 * length (brk_pages (p_brk x) new_brk) <= length ps)%nat ->
  wp (sys_brk get_procs set_procs new_brk) s (fun r s' =>
    if bool_decide (USER_HEAP_BASE <= new_brk <= 2 ^ 34) then
      r = new_brk /\ exists k, s' = put_proc get_procs set_procs (set_vk k s) p (set_brk new_brk x) /\
        if new_brk <=? p_brk x then k = v_k s
        else (exists T' ps', pt_state (p_pml4 x) T' ps' k /\ grows T ps (v_k s) T' ps' k) /\
          shows (p_pml4 x) ps (v_k s) k (brk_pages (p_brk x) new_brk)
    else r = p_brk x /\ s' = s).
Proof.
  intros Hrun Hx Hst Hbrk Hroom. pose proof (proj1 Hx) as Hp. unfold USER_HEAP_BASE in Hbrk. unfold sys_brk.
  wp_step. eapply wp_run; [by apply current_proc_run|]. rewrite (proj2 (Z.eqb_neq p 0)) by lia.
  wp_step. eapply wp_run; [by apply (proc_load_run _ _ L)|]. unfold USER_HEAP_BASE.
  assert (i64 (p_brk x) = p_brk x) as Hi by (apply i64_small; lia).
  destruct (Z.eqb_spec new_brk 0) as [->|Hn0].
  { rewrite bool_decide_false by lia. wp_step. by rewrite Hi. }
  destruct ((new_brk <? 1073741824) || (17179869184 <? new_brk)) eqn:Er.
  { rewrite bool_decide_false by lia. wp_step. by rewrite Hi. }
  rewrite bool_decide_true by lia. apply orb_false_iff in Er as [E1%Z.ltb_ge E2%Z.ltb_ge].
  rewrite !brk_page_down by lia. cbv zeta. rewrite (Z.leb_antisym (p_brk x) new_brk). assert (i64 new_brk = new_brk) as Hin by (apply i64_small; lia).
  destruct (Z.ltb_spec (p_brk x) new_brk) as [Hlt|Hge]; cbn [negb].
  - wp_step. apply wp_zoom.
    eapply wp_mono; [apply (page_loop_built (p_pml4 x) T ps (v_k s) [] _ (fun _ => zero_page) (fun _ _ => 0))|].
    + by apply built_start.
    + unfold brk_page. Z.to_euclidean_division_equations; lia.
    + unfold brk_page. Z.to_euclidean_division_equations; lia.
    + unfold brk_page. by rewrite Z.mul_comm, Z.mod_mul.
    + unfold brk_page. by rewrite Z.mul_comm, Z.mod_mul.
    + unfold brk_pages in Hroom. by rewrite length_fmap, length_page_range in Hroom.
    + done.
    + intros va _ _. apply zero_page_fills.
    + cbn [app]. intros ok k [-> Hb]. cbn [negb]. wp_step. eapply wp_run; [by apply (proc_store_run _ _ L _ _ x)|].
      wp_step. split; [done|]. exists k. split; [done|].
      split; [destruct Hb as (T' & ps' & fr & H); exists T', ps'; split; apply H|].
      eapply built_shows; [exact Hb|apply Hst|]. unfold flags_ok. apply Forall_fmap, Forall_forall. done.
  - wp_step. wp_step. cbn [negb]. wp_step. eapply wp_run; [by apply (proc_store_run _ _ L _ _ x)|].
    wp_step. split; [done|]. exists (v_k s). split; [by destruct s|done].
Qed.

(** *** A concrete break *)

(** The process 1 runs, with an empty address space and the break at the bottom
    of the heap's range. *)
Definition heap_proc : proc := set_brk USER_HEAP_BASE (set_pml4 2097152 no_proc).
Definition heap_kst : kst := wide_on (set_cpu_proc 1 demo_cpu) ∅.
Definition heap_vst : vst procs :=
  Vst heap_kst ∅ ∅ ∅ ∅ ∅ ∅ 0 0 0 0 (Procs (Spinlock 0 0 0) [heap_proc] 2).

Lemma procs_lens : lens (fun g : procs => g) (fun g _ => g).
Proof. by split. Qed.

Lemma heap_tables : pt_state 2097152 {[ 2097152 := 3%nat ]} wide_pages heap_kst.
Proof. by apply wide_tables. Qed.

(** Two more bytes of heap are one more page, writable and zeroed. *)
Lemma sys_brk_correct_witness :
  wp (sys_brk (fun g => g) (fun g _ => g) 1073741826) heap_vst (fun r s' => r = 1073741826 /\
    exists e, translate (heap (v_k s')) (2 ^ 40) 2097152 1073741825 = Some e /\ e mod 4096 = 7 /\
      rd8 (heap (v_k s')) (child (2 ^ 40) e + 1) = 0).
Proof.
  assert (brk_pages USER_HEAP_BASE 1073741826 = [Upage USER_HEAP_BASE 6 (fun _ => 0)]) as Hp by by vm_compute.
  eapply wp_mono.
  - apply (sys_brk_correct _ _ procs_lens heap_vst 1 heap_proc {[ 2097152 := 3%nat ]} wide_pages); [..|split|].
    + by exists (set_cpu_proc 1 demo_cpu).
    + by split.
    + exact heap_tables.
    + by_decide.
    + by_decide.
    + change (p_brk heap_proc) with USER_HEAP_BASE. rewrite Hp. by_decide.
  - intros r s'. cbn [p_brk heap_proc set_brk p_pml4 set_pml4 heap_vst v_k]. rewrite Hp.
    rewrite (bool_decide_true (USER_HEAP_BASE <= 1073741826 <= 2 ^ 34)) by by_decide.
    intros (-> & k & -> & [_ [Hm _ _]]). split; [done|].
    destruct (Hm 1073741825 (Upage USER_HEAP_BASE 6 (fun _ => 0))) as (e & H1 & H2 & _ & H3).
    + cbn [page_for foldl up_va]. by rewrite (decide_True (P := same_page USER_HEAP_BASE 1073741825)) by by_decide.
    + exists e. split; [exact H1|]. split; [exact H2|]. exact H3.
Defined.
