(* ===== verification/KStack.v ===== *)
(** * The first stack of a process (src/src/kernel/proc.c)

    [kstack_setup] lays out what [swtch], [forkret] and [trapret] pop when a new
    process is scheduled for the first time. *)
From S2P Require Import Prelude KMem Spinlock BuddySpec Buddy PageAlloc PageTable AddrSpace Vfs Proc Syscall.

#[local] Open Scope Z_scope.

(** ** Words in a row *)

Lemma store_words_outside m a ws b :
  b < a \/ a + 8 * Z.of_nat (length ws) <= b -> rd8 (store_words m a ws) b = rd8 m b.
Proof.
  revert m a. induction ws as [|w ws IH]; intros m a H; [done|]. cbn [store_words length] in *.
  rewrite IH by lia. apply rd8_wr_ne. cbn. lia.
Qed.

Lemma store_words_at m a ws i w :
  Forall (fun w => 0 <= w < 2 ^ 64) ws -> ws !! i = Some w -> rd64 (store_words m a ws) (a + 8 * Z.of_nat i) = w.
Proof.
  intros H. revert m a i. induction H as [|v ws Hv _ IH]; intros m a [|i] Hi; try done; cbn [store_words].
  - injection Hi as <-. rewrite Z.add_0_r. transitivity (rd64 (wr64 m a v) a); [|by apply rd64_wr64_eq].
    apply rd_agree. intros b Hb. apply store_words_outside. cbn in Hb. lia.
  - replace (a + 8 * Z.of_nat (S i)) with (a + 8 + 8 * Z.of_nat i) by lia. by apply IH.
Qed.

(** ** The layout *)

(** What the process starts from: its own registers once it has some, else the
    entry point on an empty stack with interrupts on. *)
Definition first_frame (x : proc) (entry user_rsp : Z) : trap_frame :=
  if tf_rip (p_tf x) =? 0 then Trap 0 0 0 0 0 0 0 0 0 0 0 0 0 0 0 0 0 entry USER_CS 514 user_rsp USER_DS else p_tf x.

Section KStack.
Context {FS : Type} (get_procs : FS -> procs) (set_procs : procs -> FS -> FS) (L : lens get_procs set_procs).
Context (trapret_addr forkret_addr : Z).

Definition set_mem (m : mem) (s : vst FS) : vst FS := set_vk (set_heap m (v_k s)) s.

(** From the top of the stack down: the frame, the address of [trapret], and a
    context of zeros that returns to [forkret]. *)
Record laid_out (m0 m : mem) (top : Z) (frame : trap_frame) : Prop := {
  lo_frame : forall i w, tf_words frame !! i = Some w -> rd64 m (top - 176 + 8 * Z.of_nat i) = w;
  lo_trapret : rd64 m (top - 184) = trapret_addr;
  lo_forkret : rd64 m (top - 240 + 48) = forkret_addr;
  lo_context : forall i, 0 <= i < 6 -> rd64 m (top - 240 + 8 * i) = 0;
  lo_rest : forall a, a < top - 240 \/ top <= a -> rd8 m a = rd8 m0 a
}.

(** C24: [kstack_setup] puts the process's saved registers, or for a process
    that has none the program's entry point and stack in user mode with
    interrupts on, on top of its kernel stack, under them the address of
    [trapret] and a context that starts at [forkret]; it records the context
    and changes no other byte of memory. *)
Theorem kstack_setup_lays_out s p x entry user_rsp :
  proc_at get_procs s p x -> 0 <= p_kstack x -> p_kstack x + KSTACK_SIZE < 2 ^ 64 ->
  0 <= trapret_addr < 2 ^ 64 -> 0 <= forkret_addr < 2 ^ 64 ->
  Forall (fun w => 0 <= w < 2 ^ 64) (tf_words (first_frame x entry user_rsp)) ->
  wp (kstack_setup get_procs set_procs trapret_addr forkret_addr p entry user_rsp) s (fun _ s' =>
    let top := p_kstack x + KSTACK_SIZE in
    exists m, s' = set_mem m (put_proc get_procs set_procs s p (set_context (top - 240) x)) /\
      laid_out (heap (v_k s)) m top (first_frame x entry user_rsp)).
Proof.
  intros Hx Hk0 Hk Ht Hf Hw. unfold kstack_setup, heap_store, on_kst. change trap_bytes with 176. change context_bytes with 56.
  change context_rip with 48. cbv zeta. set (top := p_kstack x + KSTACK_SIZE) in *.
  assert (8192 <= top) as Htop by (unfold top, KSTACK_SIZE; lia).
  wp_step. eapply wp_run; [by apply (proc_load_run _ _ L)|]. cbv zeta. change (p_kstack x + KSTACK_SIZE) with top.
  rewrite (u64_small top), (u64_small (top - 176)), (u64_small (top - 176 - 8)), (u64_small (top - 176 - 8 - 56)) by lia.
  set (frame := first_frame x entry user_rsp) in *.
  set (m0 := heap (v_k s)). set (m1 := store_words m0 (top - 176) (tf_words frame)).
  wp_step. eapply (wp_run _ tt _ (set_mem m1 s)).
  { unfold m1, frame, first_frame. by destruct (Z.eqb_spec (tf_rip (p_tf x)) 0). }
  wp_step. set (m2 := wr64 m1 (top - 176 - 8) trapret_addr). eapply (wp_run _ tt _ (set_mem m2 s)); [done|].
  wp_step. eapply wp_run; [by apply (proc_store_run _ _ L (set_mem m2 s) p x)|].
  set (m3 := memset m2 (top - 176 - 8 - 56) 0 56). set (m := wr64 m3 (top - 176 - 8 - 56 + 48) forkret_addr).
  wp_step. eapply (wp_run _ tt _ (set_mem m3 _)); [done|]. eapply (wp_run _ tt _ (set_mem m _)); [done|].
  exists m. split; [by replace (top - 176 - 8 - 56) with (top - 240) by lia|].
  assert (length (tf_words frame) = 22%nat) as Hl by done.
  assert (forall b, top - 176 <= b < top -> rd8 m b = rd8 m1 b) as H1.
  { intros b Hb. unfold m, m3, m2. rewrite rd8_wr_ne, rd8_memset_out, rd8_wr_ne by (cbn; lia). done. }
  split.
  - intros i w Hi. rewrite <- (store_words_at m0 (top - 176) (tf_words frame) i w Hw Hi). apply rd_agree.
    intros b Hb. apply lookup_lt_Some in Hi. rewrite Hl in Hi. cbn in Hb. apply H1. lia.
  - transitivity (rd64 m2 (top - 184)).
    + apply rd_agree. intros b Hb. cbn in Hb. unfold m, m3. rewrite rd8_wr_ne, rd8_memset_out by (cbn; lia). done.
    + unfold m2. replace (top - 184) with (top - 176 - 8) by lia. by apply rd64_wr64_eq.
  - unfold m. replace (top - 240 + 48) with (top - 176 - 8 - 56 + 48) by lia. by apply rd64_wr64_eq.
  - intros i Hi. transitivity (rd64 m3 (top - 240 + 8 * i)); [apply rd_wr_ne; cbn; lia|].
    unfold m3. apply rd_memset_0; cbn; lia.
  - intros a Ha. unfold m, m3, m2, m1. rewrite rd8_wr_ne, rd8_memset_out, rd8_wr_ne, store_words_outside by (cbn; lia). done.
Qed.
End KStack.

(** *** A new process *)

Definition stack_proc : proc := set_kstack 12288 no_proc.
Definition stack_vst : vst procs := Vst heap_kst ∅ ∅ ∅ ∅ ∅ ∅ 0 0 0 0 (Procs (Spinlock 0 0 0) [stack_proc] 2).

(** It starts at 0x401000 in user mode. *)
Lemma kstack_setup_lays_out_witness :
  wp (kstack_setup (fun g => g) (fun g _ => g) 7 9 1 4198400 8192) stack_vst (fun _ s' =>
    let m := heap (v_k s') in
    rd64 m 20440 = 4198400 /\ rd64 m 20448 = USER_CS /\ rd64 m 20432 = 0).
Proof.
  eapply wp_mono.
  - by apply (kstack_setup_lays_out (fun g => g) (fun g _ => g) procs_lens 7 9 stack_vst 1 stack_proc 4198400 8192);
      [| | | | |repeat constructor].
  - intros [] s' (m & -> & [Hm _ _ _ _]). cbv zeta. split_and!.
    + by apply (Hm 17%nat).
    + by apply (Hm 18%nat).
    + by apply (Hm 16%nat).
Defined.
