(* ===== verification/Fds.v ===== *)
(** * File descriptors share files (src/src/kernel/proc.c, syscall.c, vfs.c)

    A [struct vfs_file] is shared by the descriptors that name it, in one
    process or in several, and counts them.  Here: what the calls that make,
    copy and drop descriptors do to the counts, for the whole process table. *)
From S2P Require Import Prelude KMem Spinlock BuddySpec Buddy PageAlloc PageTable AddrSpace Vfs Print Proc Sched Syscall Ext2 Devfs.

#[local] Open Scope Z_scope.

(** ** Counting *)

Definition is_file (f g : Z) : Z := if decide (f = g) then 1 else 0.
(** How many of the descriptors [l], and of those of the processes [tbl], name
    [f]. *)
Definition uses_in (f : Z) (l : list Z) : Z := foldr (fun g n => is_file f g + n) 0 l.
Definition uses (f : Z) (tbl : list proc) : Z := foldr (fun x n => uses_in f (p_files x) + n) 0 tbl.

Lemma is_file_range f g : 0 <= is_file f g <= 1.
Proof. unfold is_file. case_decide; lia. Qed.

Lemma foldr_sum_insert {A} (g : A -> Z) l i x y :
  l !! i = Some x ->
  foldr (fun a n => g a + n) 0 (<[i := y]> l) = foldr (fun a n => g a + n) 0 l - g x + g y.
Proof.
  revert i. induction l as [|a l IH]; intros [|i] H; try done.
  - injection H as ->. cbn. lia.
  - specialize (IH i H). change (<[S i:=y]> (a :: l)) with (a :: <[i:=y]> l). cbn [foldr]. lia.
Qed.

Lemma foldr_sum_range {A} (g : A -> Z) l b :
  Forall (fun a => 0 <= g a <= b) l -> 0 <= foldr (fun a n => g a + n) 0 l <= b * Z.of_nat (length l).
Proof. induction 1 as [|a l Ha Hl IH]; cbn [foldr length]; lia. Qed.

Lemma foldr_sum_elem {A} (g : A -> Z) l i x :
  Forall (fun a => 0 <= g a) l -> l !! i = Some x -> g x <= foldr (fun a n => g a + n) 0 l.
Proof.
  intros H. revert i. induction H as [|a l Ha Hl IH]; intros [|i] Hi; try done.
  - injection Hi as ->. cbn. enough (0 <= foldr (fun a n => g a + n) 0 l) by lia.
    clear IH. induction Hl as [|b l Hb Hl IH]; cbn; lia.
  - cbn. specialize (IH i Hi). lia.
Qed.

Lemma uses_in_insert f l i g h : l !! i = Some g -> uses_in f (<[i := h]> l) = uses_in f l - is_file f g + is_file f h.
Proof. apply foldr_sum_insert. Qed.
Lemma uses_in_range f l : 0 <= uses_in f l <= Z.of_nat (length l).
Proof.
  rewrite <- (Z.mul_1_l (Z.of_nat _)). apply foldr_sum_range, Forall_forall. intros g _. apply is_file_range.
Qed.
Lemma uses_insert f tbl i x y :
  tbl !! i = Some x -> uses f (<[i := y]> tbl) = uses f tbl - uses_in f (p_files x) + uses_in f (p_files y).
Proof. apply (foldr_sum_insert (fun x => uses_in f (p_files x))). Qed.

(** ** The invariant *)

(** [open] and [close] of the file systems do nothing. *)
Class QuietOps (FS : Type) `{VO : VfsOps FS} := {
  quiet_open : forall a op ino f s, open_op (fops_at a) = Some op -> op ino f s = Ok (VFS_OK, s);
  quiet_close : forall a op f s, close_op (fops_at a) = Some op -> op f s = Ok (VFS_OK, s)
}.

(** One table of operations obeys it. *)
Definition quiet_fops {FS} (o : vfs_file_ops FS) : Prop :=
  (forall op ino f s, open_op o = Some op -> op ino f s = Ok (VFS_OK, s)) /\
  (forall op f s, close_op o = Some op -> op f s = Ok (VFS_OK, s)).

Section Fds.
Context {FS : Type} `{PA : PageAllocator} `{VO : VfsOps FS} `{QO : !QuietOps FS}.
Context (get_procs : FS -> procs) (set_procs : procs -> FS -> FS) (L : lens get_procs set_procs).
#[local] Abbreviation V := (M (vst FS)).

Definition table (s : vst FS) : list proc := proc_table (get_procs (v_fs s)).

(** [e f] references to [f] are held by the kernel outside the descriptor
    tables. *)
Definition held_more (e : Z -> Z) (f n : Z) : Z -> Z := fun g => e g + (if decide (g = f) then n else 0).

(** Every file's count is exact: a file nobody names is gone. *)
Definition refs_exact (e : Z -> Z) (s : vst FS) : Prop :=
  forall f, f <> 0 ->
    match v_files s !! f with
    | Some x => 0 < f_refcnt x /\ f_refcnt x = uses f (table s) + e f
    | None => uses f (table s) + e f = 0
    end.

(** A file's page is not free, and its inode is there. *)
Definition file_ok (ps : list Z) (s : vst FS) (f : Z) (x : vfs_file) : Prop :=
  0 < f /\ f mod 4096 = 0 /\ f + 4096 <= 2 ^ 64 /\ ((f / 4096) ∉ ps) /\
  (f_inode x = 0 \/ is_Some (v_inodes s !! f_inode x)).

Record fd_inv (e : Z -> Z) (s : vst FS) : Prop := {
  fd_exact : refs_exact e s;
  fd_held : forall f, f <> 0 -> e f < 2 ^ 31;
  fd_table : Z.of_nat (length (table s)) <= MAX_PROCS;
  fd_lists : Forall (fun x => Z.of_nat (length (p_files x)) = MAX_FDS) (table s);
  fd_pages : exists ps, pa_inv ps (v_k s) /\ forall f x, v_files s !! f = Some x -> file_ok ps s f x
}.

Lemma uses_bound e s f : fd_inv e s -> 0 <= uses f (table s) <= 2048.
Proof.
  intros [_ _ Ht Hl _]. unfold uses. unfold MAX_PROCS in Ht.
  enough (0 <= foldr (fun x n => uses_in f (p_files x) + n) 0 (table s) <= 32 * Z.of_nat (length (table s))) by lia.
  apply (foldr_sum_range (fun x => uses_in f (p_files x))).
  eapply Forall_impl; [exact Hl|]. cbn. intros x Hx. pose proof (uses_in_range f (p_files x)). unfold MAX_FDS in Hx. lia.
Qed.

Lemma refcnt_bound e s f x : fd_inv e s -> f <> 0 -> v_files s !! f = Some x -> 0 < f_refcnt x < 2 ^ 32 - 1.
Proof.
  intros H Hf Hx. pose proof (fd_exact _ _ H f Hf) as Hr. rewrite Hx in Hr.
  pose proof (uses_bound e s f H). pose proof (fd_held _ _ H f Hf). lia.
Qed.

(** A file somebody names is live. *)
Lemma live_file e s f :
  fd_inv e s -> f <> 0 -> 0 < uses f (table s) + e f ->
  exists y, v_files s !! f = Some y /\ 0 < f_refcnt y < 2 ^ 32 - 1.
Proof.
  intros H Hf Hu. pose proof (fd_exact _ _ H f Hf) as Hr.
  destruct (v_files s !! f) as [y|] eqn:E; [exists y; split; [done|]; by eapply refcnt_bound|lia].
Qed.

Lemma uses_in_elem f l i : l !! i = Some f -> 1 <= uses_in f l.
Proof.
  intros Hi. transitivity (is_file f f); [unfold is_file; by rewrite decide_True|].
  eapply (foldr_sum_elem (is_file f)); [|exact Hi]. apply Forall_forall. intros g _. apply is_file_range.
Qed.

Lemma uses_in_proc f s p x : proc_at get_procs s p x -> uses_in f (p_files x) <= uses f (table s).
Proof.
  intros [_ Hx]. eapply (foldr_sum_elem (fun x => uses_in f (p_files x)) _ _ x); [|exact Hx].
  apply Forall_forall. intros y _. apply uses_in_range.
Qed.

Lemma uses_nonneg f tbl : 0 <= uses f tbl.
Proof. induction tbl as [|x tbl IH]; [done|]. cbn. pose proof (uses_in_range f (p_files x)). unfold uses in IH. lia. Qed.

Lemma uses_none f tbl : f <> 0 -> Forall (fun x => Forall (eq 0) (p_files x)) tbl -> uses f tbl = 0.
Proof.
  intros Hf. induction 1 as [|x tbl Hx _ IH]; [done|]. cbn. fold (uses f tbl). rewrite IH.
  enough (uses_in f (p_files x) = 0) by lia. induction Hx as [|g l <- _ IHl]; [done|]. cbn. fold (uses_in f l).
  rewrite IHl. unfold is_file. by rewrite decide_False.
Qed.

Lemma fd_inv_ext e e' s : (forall f, f <> 0 -> e' f = e f) -> fd_inv e s -> fd_inv e' s.
Proof.
  intros He [H1 H2 H3 H4 H5]. split; [| |done..].
  - intros f Hf. rewrite (He f Hf). by apply H1.
  - intros f Hf. rewrite (He f Hf). by apply H2.
Qed.

(** A process's descriptors change. *)
Lemma inv_put e e' s p x y :
  fd_inv e s -> proc_at get_procs s p x -> Z.of_nat (length (p_files y)) = MAX_FDS ->
  (forall f, f <> 0 -> uses_in f (p_files y) + e' f = uses_in f (p_files x) + e f) ->
  (forall f, f <> 0 -> e' f < 2 ^ 31) -> fd_inv e' (put_proc get_procs set_procs s p y).
Proof.
  intros [H1 H2 H3 H4 H5] [Hp Hx] Hy He He'. change (table s !! Z.to_nat (p - 1) = Some x) in Hx.
  assert (table (put_proc get_procs set_procs s p y) = <[Z.to_nat (p - 1) := y]> (table s)) as Et.
  { unfold table, put_proc. cbn. by rewrite (get_set _ _ L). }
  split; [|done|..].
  - intros f Hf. specialize (H1 f Hf). specialize (He f Hf). rewrite Et, (uses_insert f _ _ x y Hx). cbn [v_files put_proc set_fs].
    destruct (v_files s !! f); lia.
  - by rewrite Et, length_insert.
  - rewrite Et. by apply Forall_insert.
  - destruct H5 as (ps & Hps & Hf). by exists ps.
Qed.

(** *** References *)

(** Of the machine at most the descriptors change, and nothing of the CPU that
    the allocator's lock does not give back. *)
Definition calm (k k' : kst) : Prop :=
  same_hw (khw k) (khw k') /\ hhdm_offset k' = hhdm_offset k /\ cr3 k' = cr3 k.
Definition no_files : proc -> proc := set_pfiles [].
Definition aside (s s' : vst FS) : Prop :=
  calm (v_k s) (v_k s') /\ exists g, v_fs s' = set_procs g (v_fs s) /\
    proc_lock g = proc_lock (get_procs (v_fs s)) /\ no_files <$> proc_table g = no_files <$> table s.

#[export] Instance aside_preorder : PreOrder aside.
Proof.
  split.
  - intros s. split; [by split|]. exists (get_procs (v_fs s)). by rewrite (set_get _ _ L).
  - intros s1 s2 s3 [(H1 & H2 & H3) (g & E & Hl & Ht)] [(H1' & H2' & H3') (g' & E' & Hl' & Ht')].
    split; [split_and!; [by etransitivity|congruence..]|]. exists g'. unfold table in *.
    rewrite E', E, (set_set _ _ L). rewrite E, (get_set _ _ L) in Hl', Ht'. split; [done|]. split; congruence.
Qed.

Definition still (s s' : vst FS) : Prop := v_fs s' = v_fs s /\ calm (v_k s) (v_k s').

Lemma still_aside s s' : still s s' -> aside s s'.
Proof. intros [E Hc]. split; [done|]. exists (get_procs (v_fs s)). by rewrite (set_get _ _ L). Qed.

Lemma aside_put s p x l : proc_at get_procs s p x -> aside s (put_proc get_procs set_procs s p (set_pfiles l x)).
Proof.
  intros [_ Hx]. split; [by split|]. eexists. split; [done|]. split; [done|]. cbn [proc_table].
  change (no_files <$> <[Z.to_nat (p - 1) := set_pfiles l x]> (table s) = no_files <$> table s).
  change (table s !! Z.to_nat (p - 1) = Some x) in Hx.
  rewrite list_fmap_insert. apply list_insert_id. rewrite list_lookup_fmap, Hx. by destruct x.
Qed.

Lemma kupd_calm ps k k' : kupd ps k k' -> calm k k'.
Proof. intros (m & hs & (h & -> & Hh) & _). by split. Qed.

Lemma file_get_run e s f x :
  fd_inv e s -> f <> 0 -> v_files s !! f = Some x -> e f < 2 ^ 31 - 1 ->
  exists s', vfs_file_get f s = Ok (tt, s') /\ still s s' /\ fd_inv (held_more e f 1) s'.
Proof.
  intros H Hf Hx He. pose proof (refcnt_bound e s f x H Hf Hx) as Hb. destruct H as [H1 H2 H3 H4 H5].
  unfold vfs_file_get. rewrite (proj2 (Z.eqb_neq _ _) Hf). unfold upd_file, update. rewrite Hx. eexists. split; [done|].
  split; [by repeat split|]. rewrite u32_small by lia. split; [..|done|done|].
  - intros g Hg. specialize (H1 g Hg). unfold held_more. cbn [v_files set_files table v_fs].
    destruct (decide (g = f)) as [->|Hne].
    + rewrite lookup_insert_eq. rewrite Hx in H1. cbn. unfold table in *. cbn. lia.
    + rewrite lookup_insert_ne by done. unfold table in *. cbn. by rewrite Z.add_0_r.
  - intros g Hg. unfold held_more. specialize (H2 g Hg). case_decide; subst; lia.
  - destruct H5 as (ps & Hps & Hfs). exists ps. split; [done|]. intros g y. cbn [v_files set_files].
    intros [[<- <-]|[_ Hy]]%lookup_insert_Some; [|by apply Hfs]. by apply (Hfs f x).
Qed.

(** The inode's reference is given back. *)
Lemma inode_put_run ino (s : vst FS) :
  ino = 0 \/ is_Some (v_inodes s !! ino) -> exists s' : vst FS, vfs_inode_put ino s = Ok (tt, s') /\ v_files s' = v_files s /\
    v_fs s' = v_fs s /\ v_k s' = v_k s /\ forall i, is_Some (v_inodes s !! i) -> is_Some (v_inodes s' !! i).
Proof.
  intros Hin. unfold vfs_inode_put. destruct (Z.eqb_spec ino 0); [by exists s|]. destruct Hin as [|[i Hi]]; [done|].
  unfold upd_inode, update. rewrite Hi. eexists. split; [done|]. split_and!; [done..|].
  intros j Hj. cbn. destruct (decide (j = ino)) as [->|Hne]; [by rewrite lookup_insert_eq|by rewrite lookup_insert_ne].
Qed.

Lemma file_close_run e s f x :
  fd_inv e s -> f <> 0 -> v_files s !! f = Some x ->
  wp (vfs_close f) s (fun rc s' => rc = VFS_OK /\ still s s' /\ fd_inv (held_more e f (-1)) s').
Proof.
  intros H Hf Hx. pose proof (refcnt_bound e s f x H Hf Hx) as Hb. pose proof (fd_exact _ _ H f Hf) as Hr. rewrite Hx in Hr.
  destruct H as [H1 H2 H3 H4 (ps & Hps & Hfs)]. unfold vfs_close. rewrite (proj2 (Z.eqb_neq _ _) Hf).
  wp_step. eapply wp_run; [unfold load; by rewrite Hx|].
  wp_step. eapply (wp_run _ 0 _ s).
  { destruct (if f_fops x =? 0 then None else close_op (fops_at (f_fops x))) as [op|] eqn:E; [|done].
    destruct (f_fops x =? 0); [done|]. by apply (quiet_close (f_fops x)). }
  cbn [Z.ltb Z.compare]. unfold vfs_file_put. rewrite (proj2 (Z.eqb_neq _ _) Hf).
  wp_step. wp_step. eapply wp_run; [unfold upd_file, update; by rewrite Hx|].
  wp_step. eapply wp_run; [unfold load; cbn; by rewrite lookup_insert_eq|].
  cbn [f_refcnt f_inode set_f_refcnt]. rewrite u32_small by lia.
  assert (forall g, g <> 0 -> held_more e f (-1) g < 2 ^ 31) as H2'.
  { intros g Hg. specialize (H2 g Hg). unfold held_more. case_decide; lia. }
  assert (forall s' : vst FS, v_fs s' = v_fs s -> v_files s' = delete f (v_files s) -> f_refcnt x = 1 ->
    refs_exact (held_more e f (-1)) s') as Hgone.
  { intros s' Es Ef E1 g Hg. specialize (H1 g Hg). rewrite Ef. unfold table in *. rewrite Es. unfold held_more.
    destruct (decide (g = f)) as [->|Hne]; [rewrite lookup_delete_eq; rewrite Hx in H1; lia|].
    rewrite lookup_delete_ne by done. by rewrite Z.add_0_r. }
  destruct (Hfs f x Hx) as (Hf0 & Hfa & Hfe & Hfp & Hin).
  destruct (Z.eqb_spec (f_refcnt x) 1) as [E|E].
  - rewrite E. change (1 - 1 =? 0) with true. cbn [negb]. wp_step. set (s1 := set_files _ s).
    destruct (inode_put_run (f_inode x) s1 Hin) as (s2 & Er & E1 & E2 & E3 & E4).
    eapply (wp_run _ tt _ s2); [by destruct (Z.eqb_spec (f_inode x) 0) as [E0|]; [rewrite E0 in Er|]|].
    wp_step. unfold v_kfree. apply wp_zoom. rewrite E3. eapply wp_mono; [by apply (free_page ps)|].
    intros [] k (Hk & Hu). apply kupd_calm in Hu. apply wp_modify. wp_step. split; [done|].
    split; [by split|].
    change (v_files (set_vk k s2)) with (v_files s2). rewrite E1. cbn [s1 v_files set_files]. rewrite delete_insert_eq. split.
    + by apply Hgone.
    + done.
    + unfold table. cbn. by rewrite E2.
    + unfold table. cbn. by rewrite E2.
    + exists (f / 4096 :: ps). split; [done|]. intros g y. cbn [v_files set_files]. intros [Hne Hg]%lookup_delete_Some.
      destruct (Hfs g y Hg) as (? & ? & ? & Hgp & Hgi). split_and!; [done..| |].
      * rewrite not_elem_of_cons. split; [Z.to_euclidean_division_equations; lia|done].
      * destruct Hgi; [by left|right]. by apply E4.
  - rewrite (proj2 (Z.eqb_neq _ _)) by lia. wp_step. wp_step. split; [done|]. split; [by repeat split|]. split; [|done..|].
    + intros g Hg. specialize (H1 g Hg). unfold held_more, table in *. cbn [v_files set_files v_fs].
      destruct (decide (g = f)) as [->|Hne].
      * rewrite lookup_insert_eq. cbn. lia.
      * rewrite lookup_insert_ne by done. by rewrite Z.add_0_r.
    + exists ps. split; [done|]. intros g y. cbn [v_files set_files].
      intros [[<- <-]|[_ Hy]]%lookup_insert_Some; [|by apply Hfs]. by apply (Hfs f x).
Qed.

(** *** Descriptors *)

#[local] Abbreviation proc_at := (proc_at get_procs).
#[local] Abbreviation put_proc := (put_proc get_procs set_procs).
#[local] Abbreviation fd_load := (fd_load get_procs set_procs).
#[local] Abbreviation fd_store := (fd_store get_procs set_procs).
#[local] Abbreviation fd_alloc := (fd_alloc get_procs set_procs).
#[local] Abbreviation fd_get := (fd_get get_procs set_procs).

Lemma proc_at_fs s s' p x : still s s' -> proc_at s p x -> proc_at s' p x.
Proof. intros [E _] [Hp Hx]. split; [done|]. by rewrite E. Qed.

Lemma proc_lists e s p x : fd_inv e s -> proc_at s p x -> Z.of_nat (length (p_files x)) = MAX_FDS.
Proof. intros [_ _ _ H _] [_ Hx]. rewrite Forall_lookup in H. by eapply H. Qed.

Lemma fd_load_run s p x fd f :
  proc_at s p x -> 0 <= fd -> p_files x !! Z.to_nat fd = Some f -> fd_load p fd s = Ok (f, s).
Proof.
  intros Hx Hfd Hf. unfold Proc.fd_load, mbind, M_bind. rewrite (proc_load_run _ _ L s p x Hx).
  rewrite (proj2 (Z.ltb_ge _ _)) by lia. by rewrite Hf.
Qed.

Definition with_fd (fd f : Z) (x : proc) : proc := set_pfiles (<[Z.to_nat fd := f]> (p_files x)) x.

Lemma fd_store_run s p x fd f :
  proc_at s p x -> 0 <= fd < MAX_FDS -> fd_store p fd f s = Ok (tt, put_proc s p (with_fd fd f x)).
Proof.
  intros Hx Hfd. unfold Proc.fd_store. rewrite (proj2 (Z.leb_le _ _)), (proj2 (Z.ltb_lt _ _)) by lia. cbn [andb].
  by rewrite (proc_store_run _ _ L s p x _ Hx).
Qed.

Lemma with_fd_aside s s1 p x fd f : aside s s1 -> proc_at s1 p x -> aside s (put_proc s1 p (with_fd fd f x)).
Proof. intros Hs Hx. etransitivity; [exact Hs|]. by apply aside_put. Qed.

(** The file a descriptor names, 0 for none. *)
Definition fd_file (x : proc) (fd : Z) : Z :=
  if 0 <=? fd then default 0 (p_files x !! Z.to_nat fd) else 0.

Lemma fd_get_run e s p x fd : fd_inv e s -> proc_at s p x -> fd_get p fd s = Ok (fd_file x fd, s).
Proof.
  intros H Hx. pose proof (proc_lists e s p x H Hx) as Hl. unfold Proc.fd_get, fd_file.
  destruct (Z.ltb_spec fd 0), (Z.leb_spec 0 fd); try lia; [done|]. cbn [orb]. destruct (Z.leb_spec MAX_FDS fd).
  - rewrite lookup_ge_None_2 by lia. done.
  - destruct (lookup_lt_is_Some_2 (p_files x) (Z.to_nat fd)) as [f Hf]; [lia|]. rewrite Hf. by eapply fd_load_run.
Qed.

Lemma fd_file_slot x fd f : fd_file x fd = f -> f <> 0 -> 0 <= fd /\ p_files x !! Z.to_nat fd = Some f.
Proof.
  unfold fd_file. destruct (Z.leb_spec 0 fd); [|by intros <-]. destruct (p_files x !! Z.to_nat fd); by intros <-.
Qed.

(** A descriptor gets another file. *)
Lemma inv_with_fd e e' s p x fd f g :
  fd_inv e s -> proc_at s p x -> 0 <= fd -> p_files x !! Z.to_nat fd = Some g ->
  (forall h, h <> 0 -> e' h = e h + is_file h g - is_file h f) -> (forall h, h <> 0 -> e' h < 2 ^ 31) ->
  fd_inv e' (put_proc s p (with_fd fd f x)).
Proof.
  intros H Hx Hfd Hg He Hb. eapply inv_put; [exact H|exact Hx| | |done].
  - cbn. rewrite length_insert. by eapply proc_lists.
  - intros h Hh. cbn [with_fd p_files set_pfiles]. rewrite (uses_in_insert _ _ _ _ _ Hg), (He h Hh). lia.
Qed.

(** [fd_alloc] takes the lowest free descriptor. *)
Lemma fd_alloc_run e s p x f :
  fd_inv e s -> proc_at s p x ->
  wp (fd_alloc p f) s (fun fd s' =>
    (fd = -1 /\ s' = s /\ forall i, 0 <= i < MAX_FDS -> fd_file x i <> 0) \/
    (0 <= fd < MAX_FDS /\ p_files x !! Z.to_nat fd = Some 0 /\ (forall i, 0 <= i < fd -> fd_file x i <> 0) /\
     s' = put_proc s p (with_fd fd f x))).
Proof.
  intros H Hx. pose proof (proc_lists e s p x H Hx) as Hl. unfold Proc.fd_alloc. wp_step.
  apply (wp_mfor _ (fun j t => t = s /\ forall i, 0 <= i < j -> fd_file x i <> 0)); [| |split; [done|lia]].
  - intros j t Hj [-> Hfull]. change (0 + Z.of_nat (Z.to_nat MAX_FDS)) with MAX_FDS in Hj.
    destruct (lookup_lt_is_Some_2 (p_files x) (Z.to_nat j)) as [g Hg]; [lia|].
    wp_step. eapply wp_run; [by apply (fd_load_run s p x j g); [|lia|]|]. destruct (Z.eqb_spec g 0) as [->|Hg0].
    + wp_step. eapply wp_run; [by apply fd_store_run|]. wp_step. wp_step. right. change (default (-1) (Some j)) with j. split_and!; [lia|lia|done|exact Hfull|done].
    + wp_step. split; [done|]. intros i Hi. destruct (decide (i = j)) as [->|]; [|apply Hfull; lia].
      unfold fd_file. rewrite (proj2 (Z.leb_le _ _)) by lia. by rewrite Hg.
  - intros t [-> Hfull]. wp_step. by left.
Qed.

(** Naming a file the kernel holds; without a free descriptor it is dropped. *)
Lemma fd_install_run e s p x f :
  fd_inv e s -> proc_at s p x -> f <> 0 -> 0 < uses f (table s) + e f ->
  wp (fd_install get_procs set_procs p f) s (fun fd s' => fd_inv (held_more e f (-1)) s' /\ aside s s' /\
    (fd = -1 /\ (forall i, 0 <= i < MAX_FDS -> fd_file x i <> 0) /\ v_fs s' = v_fs s \/
     0 <= fd < MAX_FDS /\ p_files x !! Z.to_nat fd = Some 0 /\ s' = put_proc s p (with_fd fd f x))).
Proof.
  intros H Hx Hf Hu. unfold fd_install. wp_step. eapply wp_mono; [by eapply fd_alloc_run|].
  intros fd s' [(-> & -> & Hfull)|(Hfd & H0 & _ & ->)].
  - change (-1 <? 0) with true. cbn [negb]. destruct (live_file e s f H Hf Hu) as (y & Hy & _).
    wp_step. eapply wp_mono; [by eapply file_close_run|]. intros rc s' (_ & E & Hi). wp_step.
    split; [done|]. split; [by apply still_aside|]. left. split_and!; [done|done|apply E].
  - rewrite (proj2 (Z.ltb_ge _ _)) by lia. wp_step. split; [|split; [by apply with_fd_aside|by right]].
    pose proof (fd_held _ _ H) as Hb. eapply inv_with_fd; [done..|lia|done| |].
    + intros h Hh. unfold held_more, is_file. rewrite (decide_False (P := h = 0)) by done. repeat case_decide; subst; try done; lia.
    + intros h Hh. specialize (Hb h Hh). unfold held_more. case_decide; lia.
Qed.

(** *** The calls of one process *)

(** What the kernel holds between calls. *)
Definition settled (e : Z -> Z) : Prop := forall f, f <> 0 -> 0 <= e f < 2 ^ 30.

Lemma settled_more e f n : settled e -> 0 <= n <= 1 -> forall g, g <> 0 -> held_more e f n g < 2 ^ 31 - 1.
Proof. intros He Hn g Hg. specialize (He g Hg). unfold held_more. case_decide; lia. Qed.

(** The file of a slot is live. *)
Lemma slot_file e s p x fd f :
  settled e -> fd_inv e s -> proc_at s p x -> fd_file x fd = f -> f <> 0 ->
  0 < uses f (table s) + e f /\ exists y, v_files s !! f = Some y.
Proof.
  intros He H Hx Hf Hf0. destruct (fd_file_slot x fd f Hf Hf0) as [_ Hs].
  assert (0 < uses f (table s) + e f) as Hu.
  { pose proof (uses_in_elem f _ _ Hs). pose proof (uses_in_proc f s p x Hx). specialize (He f Hf0). lia. }
  split; [done|]. destruct (live_file e s f H Hf0 Hu) as (y & Hy & _). by exists y.
Qed.

(** A 32-bit number of a descriptor means itself. *)
Lemma fd_file_i32 e s p x fd :
  fd_inv e s -> proc_at s p x -> 0 <= fd < 2 ^ 32 -> fd_file x (i32 fd) = fd_file x fd.
Proof.
  intros H Hx Hfd. pose proof (proc_lists e s p x H Hx) as Hl. unfold MAX_FDS in Hl.
  destruct (Z.ltb_spec fd (2 ^ 31)); [by rewrite i32_small by lia|].
  unfold fd_file. rewrite (proj2 (Z.leb_le 0 fd)) by lia. rewrite (lookup_ge_None_2 _ (Z.to_nat fd)) by lia.
  unfold i32, to_signed. rewrite Z.mod_small by lia. rewrite (proj2 (Z.ltb_ge fd _)) by lia.
  by rewrite (proj2 (Z.leb_gt _ _)) by lia.
Qed.

Lemma sys_dup_run e s p x fd :
  settled e -> fd_inv e s -> runs_on s p -> proc_at s p x ->
  wp (sys_dup get_procs set_procs fd) s (fun r s' => fd_inv e s' /\ aside s s' /\
    let f := fd_file x (i32 fd) in
    if f =? 0 then r = -1 /\ s' = s
    else r = -1 /\ (forall i, 0 <= i < MAX_FDS -> fd_file x i <> 0) /\ v_fs s' = v_fs s \/
      0 <= r < MAX_FDS /\ fd_file x r = 0 /\ proc_at s' p (with_fd r f x)).
Proof.
  intros He H Hr Hx. pose proof (proj1 Hx) as Hp. unfold sys_dup. cbv zeta.
  wp_step. eapply wp_run; [by apply current_proc_run|]. rewrite (proj2 (Z.eqb_neq p 0)) by lia.
  wp_step. eapply wp_run; [by eapply fd_get_run|]. destruct (Z.eqb_spec (fd_file x (i32 fd)) 0) as [|Hf]; [by wp_step|].
  destruct (slot_file e s p x _ _ He H Hx eq_refl Hf) as (Hu & y & Hy).
  destruct (file_get_run e s _ y H Hf Hy) as (s1 & Eg & Es & H1); [specialize (He _ Hf); lia|].
  wp_step. eapply wp_run; [exact Eg|]. pose proof (proc_at_fs s s1 p x Es Hx) as Hx1.
  eapply wp_mono; [apply (fd_install_run _ s1 p x _ H1 Hx1 Hf)|].
  { unfold held_more, table in *. rewrite (proj1 Es), decide_True by done. lia. }
  intros r s2 (H2 & Ha & Hpost). split; [|split; [etransitivity; [by apply still_aside|done]|]].
  - eapply fd_inv_ext; [|exact H2]. intros g _. unfold held_more. case_decide; lia.
  - destruct Hpost as [(-> & Hfull & E)|(Hr0 & H0 & ->)]; [left; by rewrite E, (proj1 Es)|right].
    split; [done|]. split; [unfold fd_file; rewrite (proj2 (Z.leb_le _ _)) by lia; by rewrite H0|].
    by eapply (put_proc_at _ _ L).
Qed.

Lemma sys_close_run e s p x fd :
  settled e -> fd_inv e s -> runs_on s p -> proc_at s p x -> 0 <= fd < 2 ^ 32 ->
  wp (sys_close get_procs set_procs fd) s (fun r s' => fd_inv e s' /\ aside s s' /\
    if fd_file x fd =? 0 then r = -1 /\ s' = s else r = 0 /\ proc_at s' p (with_fd fd 0 x)).
Proof.
  intros He H Hr Hx Hfd. pose proof (proj1 Hx) as Hp. unfold sys_close.
  wp_step. eapply wp_run; [by apply current_proc_run|]. rewrite (proj2 (Z.eqb_neq p 0)) by lia.
  wp_step. eapply wp_run; [by eapply fd_get_run|]. rewrite (fd_file_i32 e s p x fd H Hx Hfd).
  destruct (Z.eqb_spec (fd_file x fd) 0) as [|Hf]; [by wp_step|].
  destruct (slot_file e s p x _ _ He H Hx eq_refl Hf) as (Hu & y & Hy).
  destruct (fd_file_slot x fd _ eq_refl Hf) as [Hfd0 Hs]. pose proof (proc_lists e s p x H Hx) as Hl.
  pose proof (lookup_lt_Some _ _ _ Hs) as Hlt. wp_step. eapply wp_run; [apply (fd_store_run s p x); [done|lia]|].
  assert (fd_inv (held_more e (fd_file x fd) 1) (put_proc s p (with_fd fd 0 x))) as H1.
  { eapply inv_with_fd; [exact H|exact Hx|exact Hfd0|exact Hs| |].
    - intros h Hh. unfold held_more, is_file. rewrite (decide_False (P := h = 0)) by done. case_decide; lia.
    - intros h Hh. pose proof (settled_more e (fd_file x fd) 1 He ltac:(lia) h Hh). lia. }
  wp_step. eapply wp_mono; [eapply (file_close_run _ _ _ y H1 Hf); exact Hy|].
  intros rc s2 (_ & Es & H2). wp_step. split; [|split; [etransitivity; [by eapply aside_put|by apply still_aside]|]].
  - eapply fd_inv_ext; [|exact H2]. intros g _. unfold held_more. case_decide; lia.
  - split; [done|]. eapply proc_at_fs; [exact Es|]. by eapply (put_proc_at _ _ L).
Qed.

Lemma with_fd_twice fd f g x : with_fd fd f (with_fd fd g x) = with_fd fd f x.
Proof. unfold with_fd. destruct x. cbn. by rewrite list_insert_insert_eq. Qed.
Lemma with_fd_same fd f x : p_files x !! Z.to_nat fd = Some f -> with_fd fd f x = x.
Proof. intros H. unfold with_fd. rewrite list_insert_id by done. by destruct x. Qed.

(** Emptying a slot: the file loses one reference. *)
Lemma fd_clear_run e s p x fd f :
  settled e -> fd_inv e s -> proc_at s p x -> 0 <= fd -> p_files x !! Z.to_nat fd = Some f ->
  wp (if negb (f =? 0) then vfs_close f;; fd_store p fd 0 else mret tt) s (fun _ s' =>
    fd_inv e s' /\ aside s s' /\ proc_at s' p (with_fd fd 0 x)).
Proof.
  intros He H Hx Hfd Hs. pose proof (proc_lists e s p x H Hx) as Hl. pose proof (lookup_lt_Some _ _ _ Hs) as Hlt.
  destruct (Z.eqb_spec f 0) as [->|Hf]; cbn [negb].
  { wp_step. split; [done|]. split; [done|]. by rewrite with_fd_same. }
  destruct (slot_file e s p x fd f He H Hx) as (Hu & y & Hy); [unfold fd_file; by rewrite (proj2 (Z.leb_le _ _)), Hs by lia|done|].
  wp_step. eapply wp_mono; [by eapply file_close_run|]. intros rc s1 (_ & Es & H1).
  pose proof (proc_at_fs s s1 p x Es Hx) as Hx1. eapply wp_run; [apply (fd_store_run s1 p x); [done|lia]|].
  split; [|split; [by apply with_fd_aside; [apply still_aside|]|by eapply (put_proc_at _ _ L)]].
  eapply inv_with_fd; [exact H1|exact Hx1|exact Hfd|exact Hs| |].
  - intros h Hh. unfold held_more, is_file. rewrite (decide_False (P := h = 0)) by done. case_decide; lia.
  - intros h Hh. specialize (He h Hh). lia.
Qed.

Lemma sys_dup2_run e s p x old new :
  settled e -> fd_inv e s -> runs_on s p -> proc_at s p x -> 0 <= old < 2 ^ 32 -> 0 <= new < 2 ^ 32 ->
  wp (sys_dup2 get_procs set_procs old new) s (fun r s' => fd_inv e s' /\ aside s s' /\
    if (MAX_FDS <=? new) || (fd_file x old =? 0) then r = -1 /\ s' = s
    else r = new /\ proc_at s' p (with_fd new (fd_file x old) x)).
Proof.
  intros He H Hr Hx Hold Hnew. pose proof (proj1 Hx) as Hp. unfold sys_dup2.
  wp_step. eapply wp_run; [by apply current_proc_run|]. rewrite (proj2 (Z.eqb_neq p 0)) by lia. cbn [orb].
  destruct (Z.leb_spec MAX_FDS new) as [|Hlt]; cbn [orb]; [by wp_step|].
  wp_step. eapply wp_run; [by eapply fd_get_run|]. rewrite (fd_file_i32 e s p x old H Hx Hold).
  destruct (Z.eqb_spec (fd_file x old) 0) as [|Hf]; [by wp_step|].
  destruct (fd_file_slot x old _ eq_refl Hf) as [_ Hs]. pose proof (proc_lists e s p x H Hx) as Hl.
  assert (i64 new = new) as En by (apply i64_small; unfold MAX_FDS in Hlt; lia).
  destruct (Z.eqb_spec old new) as [->|Hne].
  { wp_step. split_and!; [done..|]. by rewrite with_fd_same. }
  destruct (lookup_lt_is_Some_2 (p_files x) (Z.to_nat new)) as [cur Hcur]; [lia|].
  wp_step. eapply wp_run; [by apply (fd_load_run s p x new cur); [|lia|]|].
  wp_step. eapply wp_mono; [apply (fd_clear_run e s p x new cur He H Hx); [lia|done]|]. intros [] s1 (H1 & Ha & Hx1).
  destruct (slot_file e s1 p _ old (fd_file x old) He H1 Hx1) as (Hu & y & Hy); [|done|].
  { unfold fd_file. cbn [with_fd p_files set_pfiles]. by rewrite list_lookup_insert_ne by lia. }
  destruct (file_get_run e s1 _ y H1 Hf Hy) as (s2 & Eg & Es & H2); [specialize (He _ Hf); lia|].
  wp_step. eapply wp_run; [exact Eg|]. pose proof (proc_at_fs s1 s2 p _ Es Hx1) as Hx2.
  wp_step. eapply wp_run; [apply (fd_store_run s2 p (with_fd new 0 x)); [done|lia]|]. wp_step. rewrite En.
  split; [|split; [apply with_fd_aside; [etransitivity; [exact Ha|by apply still_aside]|done]|]].
  - eapply inv_with_fd; [exact H2|exact Hx2|lia| | |].
    + cbn [with_fd p_files set_pfiles]. apply list_lookup_insert_eq. by eapply lookup_lt_Some.
    + intros h Hh. unfold held_more, is_file. rewrite (decide_False (P := h = 0)) by done. case_decide; lia.
    + intros h Hh. specialize (He h Hh). lia.
  - split; [done|]. rewrite with_fd_twice. by eapply (put_proc_at _ _ L).
Qed.

(** *** Files come and go *)

Lemma file_of_inode_run e s flags ino :
  settled e -> fd_inv e s -> is_Some (v_inodes s !! ino) ->
  wp (file_of_inode flags ino) s (fun r s' => still s s' /\
    if r.1 =? VFS_OK then r.2 <> 0 /\ e r.2 = 0 /\ fd_inv (held_more e r.2 1) s' else fd_inv e s').
Proof.
  intros He [H1 H2 H3 H4 (ps & Hps & Hfs)] [i Hi]. unfold file_of_inode, v_kalloc.
  wp_step. apply wp_zoom. eapply wp_mono; [by apply (pa_alloc_law ps)|].
  intros f k [(-> & Hk & Hu & _)|((_ & Hf0 & Hfa & Hfe) & qs & Hq & Hk & Hu)]; apply kupd_calm in Hu.
  - change (0 =? 0) with true. cbn iota. wp_step.
    destruct (inode_put_run ino (set_vk k s) (or_intror (mk_is_Some _ _ Hi))) as (s' & Er & E1 & E2 & E3 & E4).
    eapply wp_run; [exact Er|]. wp_step. split; [split; [done|by rewrite E3]|]. split.
    + intros g Hg. rewrite E1. unfold table. rewrite E2. by apply H1.
    + done.
    + unfold table. by rewrite E2.
    + unfold table. by rewrite E2.
    + exists ps. rewrite E3, E1. split; [done|]. intros g x Hx. destruct (Hfs g x Hx) as (? & ? & ? & ? & Hin).
      split_and!; try done. destruct Hin; [by left|right]. by apply E4.
  - cbn [fst snd] in *. change (bsize (order_of 1)) with 4096 in *. rewrite (block_pages_one f) in Hq.
    assert (v_files s !! f = None) as Hnew.
    { destruct (v_files s !! f) as [x|] eqn:E; [|done]. destruct (Hfs f x E) as (_ & _ & _ & Hn & _). exfalso. apply Hn.
      rewrite Hq. by apply elem_of_cons; left. }
    rewrite (proj2 (Z.eqb_neq f 0)) by lia. wp_step. eapply wp_run; [unfold load; cbn; by rewrite Hi|].
    assert (e f = 0) as Hef.
    { pose proof (H1 f ltac:(lia)) as Hr. rewrite Hnew in Hr. specialize (He f ltac:(lia)).
      pose proof (uses_nonneg f (table s)). lia. }
    wp_step. apply wp_modify. set (s1 := set_files _ _).
    assert (still s s1 /\ fd_inv (held_more e f 1) s1) as [Es Hs1].
    { split; [done|]. split; [| |done..|].
      - intros g Hg. specialize (H1 g Hg). unfold held_more, table in *. cbn [s1 v_files set_files v_fs set_vk].
        destruct (decide (g = f)) as [->|Hne].
        + rewrite lookup_insert_eq. rewrite Hnew in H1. cbn. lia.
        + rewrite lookup_insert_ne by done. by rewrite Z.add_0_r.
      - intros g Hg. pose proof (settled_more e f 1 He ltac:(lia) g Hg). lia.
      - exists qs. split; [done|]. intros g x. cbn [s1 v_files set_files set_vk].
        assert (NoDup ps) as Hnd by (by eapply pa_inv_nodup). rewrite Hq in Hnd. apply NoDup_cons in Hnd as [Hnf _].
        intros [[<- <-]|[Hne Hx]]%lookup_insert_Some.
        + split_and!; [lia|done|done|done|]. right. by exists i.
        + destruct (Hfs g x Hx) as (? & ? & ? & Hgp & Hin). split_and!; [done..| |done].
          intros Hin'. apply Hgp. rewrite Hq. apply elem_of_cons. by right. }
    destruct (if i_fops i =? 0 then None else open_op (fops_at (i_fops i))) as [op|] eqn:Eo.
    + destruct (i_fops i =? 0); [done|]. wp_step. eapply wp_run; [by apply (quiet_open (i_fops i))|].
      change (VFS_OK <? 0) with false. cbn iota. wp_step. split; [done|]. split; [cbn; lia|by split].
    + wp_step. split; [done|]. split; [cbn; lia|by split].
Qed.

(** *** Exit and fork *)

Lemma put_proc_ne s p q x y z : p <> q -> proc_at s p z -> proc_at s q x -> proc_at (put_proc s p y) q x.
Proof.
  intros Hne [Hp _] [Hq Hx]. split; [done|]. unfold Proc.put_proc. cbn. rewrite (get_set _ _ L). cbn.
  by rewrite list_lookup_insert_ne by lia.
Qed.

Lemma cleared_next (l : list Z) j :
  (j < length l)%nat -> <[j := 0]> (replicate j 0 ++ drop j l) = replicate (S j) 0 ++ drop (S j) l.
Proof.
  intros Hj. destruct (lookup_lt_is_Some_2 l j Hj) as [f Hf]. rewrite (drop_S l f j Hf).
  rewrite insert_app_r_alt by (by rewrite length_replicate). rewrite length_replicate, Nat.sub_diag.
  rewrite replicate_S_end, <- app_assoc. done.
Qed.

Lemma copied_next (l : list Z) j k f :
  l !! j = Some f -> <[j := f]> (take j l ++ replicate (S k) 0) = take (S j) l ++ replicate k 0.
Proof.
  intros Hf. pose proof (lookup_lt_Some _ _ _ Hf) as Hj.
  rewrite insert_app_r_alt by (rewrite length_take; lia). rewrite length_take, Nat.min_l, Nat.sub_diag by lia.
  rewrite (take_S_r l j f Hf), <- app_assoc. done.
Qed.

(** An exit drops every descriptor. *)
Lemma proc_close_fds_run e s p x :
  settled e -> fd_inv e s -> proc_at s p x ->
  wp (proc_close_fds get_procs set_procs p) s (fun _ s' =>
    fd_inv e s' /\ aside s s' /\ proc_at s' p (set_pfiles (replicate 32 0) x)).
Proof.
  intros He H Hx. pose proof (proc_lists e s p x H Hx) as Hl. unfold MAX_FDS in Hl. unfold proc_close_fds. wp_step.
  apply (wp_mfor _ (fun j t => fd_inv e t /\ aside s t /\
    proc_at t p (set_pfiles (replicate (Z.to_nat j) 0 ++ drop (Z.to_nat j) (p_files x)) x))).
  - intros j t Hj (Ht & Ha & Hxt). change (0 + Z.of_nat (Z.to_nat MAX_FDS)) with 32 in Hj.
    destruct (lookup_lt_is_Some_2 (p_files x) (Z.to_nat j)) as [f Hf]; [lia|].
    assert (p_files (set_pfiles (replicate (Z.to_nat j) 0 ++ drop (Z.to_nat j) (p_files x)) x) !! Z.to_nat j = Some f) as Hs.
    { cbn [p_files set_pfiles]. rewrite lookup_app_r by (by rewrite length_replicate).
      by rewrite length_replicate, Nat.sub_diag, lookup_drop, Nat.add_0_r. }
    wp_step. eapply wp_run; [eapply fd_load_run; [done|lia|done]|].
    wp_step. eapply wp_mono; [apply (fd_clear_run e t p _ j f He Ht Hxt); [lia|done]|]. intros [] t' (Ht' & Ha' & Hx').
    wp_step. split; [done|]. split; [by etransitivity|]. replace (Z.to_nat (j + 1)) with (S (Z.to_nat j)) by lia.
    rewrite <- cleared_next by lia. by destruct x.
  - intros t (Ht & Ha & Hxt). wp_step. split; [done|]. split; [done|]. change (Z.to_nat (0 + Z.of_nat (Z.to_nat MAX_FDS))) with 32%nat in Hxt.
    by rewrite drop_ge, app_nil_r in Hxt by lia.
  - split; [done|]. split; [done|]. cbn. by destruct x.
Qed.

(** A fork makes the child name the parent's files. *)
Lemma inherit_fds_run e s p x q y :
  settled e -> fd_inv e s -> p <> q -> proc_at s p x -> proc_at s q y -> p_files y = replicate 32 0 ->
  wp (inherit_fds get_procs set_procs p q) s (fun _ s' =>
    fd_inv e s' /\ aside s s' /\ proc_at s' p x /\ proc_at s' q (set_pfiles (p_files x) y)).
Proof.
  intros He H Hne Hx Hy Hz. pose proof (proc_lists e s p x H Hx) as Hl. unfold MAX_FDS in Hl. unfold inherit_fds. wp_step.
  apply (wp_mfor _ (fun j t => fd_inv e t /\ aside s t /\ proc_at t p x /\
    proc_at t q (set_pfiles (take (Z.to_nat j) (p_files x) ++ replicate (Z.to_nat (32 - j)) 0) y))).
  - intros j t Hj (Ht & Ha & Hxt & Hyt). change (0 + Z.of_nat (Z.to_nat MAX_FDS)) with 32 in Hj.
    destruct (lookup_lt_is_Some_2 (p_files x) (Z.to_nat j)) as [f Hf]; [lia|].
    replace (Z.to_nat (32 - j)) with (S (Z.to_nat (32 - (j + 1)))) in Hyt by lia.
    set (y1 := set_pfiles _ y) in Hyt.
    assert (p_files y1 !! Z.to_nat j = Some 0) as Hs.
    { cbn [y1 p_files set_pfiles]. rewrite lookup_app_r by (rewrite length_take; lia).
      by rewrite length_take, Nat.min_l, Nat.sub_diag by lia. }
    assert (with_fd j f y1 = set_pfiles (take (Z.to_nat (j + 1)) (p_files x) ++ replicate (Z.to_nat (32 - (j + 1))) 0) y) as Ey.
    { replace (Z.to_nat (j + 1)) with (S (Z.to_nat j)) by lia. rewrite <- copied_next with (f := f) by done. by destruct y. }
    wp_step. eapply wp_run; [eapply fd_load_run; [exact Hxt|lia|exact Hf]|]. rewrite <- Ey.
    destruct (Z.eqb_spec f 0) as [->|Hf0]; cbn [negb].
    + wp_step. wp_step. wp_step. by rewrite with_fd_same.
    + destruct (slot_file e t p x j f He Ht Hxt) as (Hu & z & Hz'); [unfold fd_file; by rewrite (proj2 (Z.leb_le _ _)), Hf by lia|done|].
      destruct (file_get_run e t f z Ht Hf0 Hz') as (t1 & Eg & Es & H1); [specialize (He _ Hf0); lia|].
      wp_step. wp_step. eapply wp_run; [exact Eg|].
      pose proof (proc_at_fs t t1 p _ Es Hxt) as Hx1. pose proof (proc_at_fs t t1 q _ Es Hyt) as Hy1.
      eapply wp_run; [apply (fd_store_run t1 q y1); [done|unfold MAX_FDS; lia]|]. wp_step. split; [|split; [|split]].
      * eapply inv_with_fd; [exact H1|exact Hy1|lia|exact Hs| |].
        -- intros h Hh. unfold held_more, is_file. rewrite (decide_False (P := h = 0)) by done. case_decide; lia.
        -- intros h Hh. specialize (He h Hh). lia.
      * apply with_fd_aside; [|done]. etransitivity; [exact Ha|]. by apply still_aside.
      * by eapply put_proc_ne.
      * by eapply (put_proc_at _ _ L).
  - intros t (Ht & Ha & Hxt & Hyt). wp_step. split_and!; [done..|].
    change (Z.to_nat (0 + Z.of_nat (Z.to_nat MAX_FDS))) with 32%nat in Hyt. cbn [Z.of_nat] in Hyt.
    rewrite take_ge in Hyt by lia. change (Z.to_nat (32 - (0 + Z.of_nat (Z.to_nat MAX_FDS)))) with 0%nat in Hyt.
    by rewrite app_nil_r in Hyt.
  - split_and!; [done..|]. cbn [take Z.to_nat app]. change (Z.to_nat (32 - 0)) with 32%nat.
    rewrite <- Hz. by destruct y.
Qed.

(** ** Every sequence of calls *)

(** The operations that change descriptors.  [Open_inode] is the part of
    [vfs_open] behind the path lookup, whose file the kernel holds until
    [Install], the end of [sys_open] and of [sys_dup]; [Inherit] is the
    descriptors' part of [proc_fork], for a child without files. *)
Inductive fd_call :=
  Dup (fd : Z) | Dup2 (old new : Z) | Close (fd : Z) | Open_inode (flags ino : Z) | Install (f : Z) |
  Exit (p : Z) | Inherit (p q : Z).

Definition do_call (c : fd_call) : V Z :=
  match c with
  | Dup fd => sys_dup get_procs set_procs fd
  | Dup2 old new => sys_dup2 get_procs set_procs old new
  | Close fd => sys_close get_procs set_procs fd
  | Open_inode flags ino => r ← file_of_inode flags ino; mret (if r.1 =? VFS_OK then r.2 else 0)
  | Install f => p ← current_proc; fd_install get_procs set_procs p f
  | Exit p => proc_close_fds get_procs set_procs p;; mret 0
  | Inherit p q => inherit_fds get_procs set_procs p q;; mret 0
  end.

(** When a call is made: by a running process, with 32-bit descriptors. *)
Definition call_ok (e : Z -> Z) (s : vst FS) (c : fd_call) : Prop :=
  match c with
  | Dup _ => exists p x, runs_on s p /\ proc_at s p x
  | Dup2 old new => (exists p x, runs_on s p /\ proc_at s p x) /\ 0 <= old < 2 ^ 32 /\ 0 <= new < 2 ^ 32
  | Close fd => (exists p x, runs_on s p /\ proc_at s p x) /\ 0 <= fd < 2 ^ 32
  | Open_inode _ ino => is_Some (v_inodes s !! ino)
  | Install f => (exists p x, runs_on s p /\ proc_at s p x) /\ f <> 0 /\ 0 < e f
  | Exit p => exists x, proc_at s p x
  | Inherit p q => p <> q /\ exists x y, proc_at s p x /\ proc_at s q y /\ p_files y = replicate 32 0
  end.

(** What the kernel holds afterwards. *)
Definition held_after (c : fd_call) (r : Z) (e : Z -> Z) : Z -> Z :=
  match c with
  | Open_inode _ _ => if r =? 0 then e else held_more e r 1
  | Install f => held_more e f (-1)
  | _ => e
  end.

(** The rest of the kernel leaves files, their pages and the descriptors alone. *)
Definition elsewhere (s s' : vst FS) : Prop :=
  v_files s' = v_files s /\ table s' = table s /\
  (forall i, is_Some (v_inodes s !! i) -> is_Some (v_inodes s' !! i)) /\
  exists ps, pa_inv ps (v_k s') /\ forall f, is_Some (v_files s !! f) -> (f / 4096) ∉ ps.

Inductive fd_step : (Z -> Z) * vst FS -> (Z -> Z) * vst FS -> Prop :=
| fd_step_call c e s r s' : call_ok e s c -> do_call c s = Ok (r, s') -> fd_step (e, s) (held_after c r e, s')
| fd_step_elsewhere e s s' : elsewhere s s' -> fd_step (e, s) (e, s').

Lemma do_call_keeps c e s :
  settled e -> fd_inv e s -> call_ok e s c ->
  wp (do_call c) s (fun r s' => settled (held_after c r e) /\ fd_inv (held_after c r e) s' /\ aside s s').
Proof.
  intros He H Hc. destruct c as [fd|old new|fd|flags ino|f|p|p q]; cbn [do_call call_ok held_after] in *.
  - destruct Hc as (p & x & Hr & Hx). eapply wp_mono; [by eapply sys_dup_run|]. by intros r s' (? & ? & _).
  - destruct Hc as ((p & x & Hr & Hx) & Ho & Hn). eapply wp_mono; [by eapply sys_dup2_run|]. by intros r s' (? & ? & _).
  - destruct Hc as ((p & x & Hr & Hx) & Hn). eapply wp_mono; [by eapply sys_close_run|]. by intros r s' (? & ? & _).
  - wp_step. eapply wp_mono; [by apply file_of_inode_run|]. intros [rc f] s' [Hst%still_aside Hs']. cbn [fst snd] in *. wp_step.
    destruct (rc =? VFS_OK); [|done]. destruct Hs' as (Hf & Hef & Hs'). rewrite (proj2 (Z.eqb_neq _ _) Hf).
    split; [|done]. intros g Hg. specialize (He g Hg). unfold held_more. case_decide; subst; lia.
  - destruct Hc as ((p & x & Hr & Hx) & Hf & Hef). wp_step. eapply wp_run; [by apply current_proc_run|].
    eapply wp_mono; [eapply fd_install_run; [done..|]|].
    { pose proof (uses_nonneg f (table s)). lia. }
    intros r s' (Hs' & Ha & _). split; [|done]. intros g Hg. specialize (He g Hg). unfold held_more. case_decide; subst; lia.
  - destruct Hc as [x Hx]. wp_step. eapply wp_mono; [by eapply proc_close_fds_run|]. intros [] s' (Hs' & Ha & _). by wp_step.
  - destruct Hc as (Hne & x & y & Hx & Hy & Hz). wp_step. eapply wp_mono; [by eapply inherit_fds_run|].
    intros [] s' (Hs' & Ha & _). by wp_step.
Qed.

Lemma elsewhere_keeps e s s' : fd_inv e s -> elsewhere s s' -> fd_inv e s'.
Proof.
  intros [H1 H2 H3 H4 (ps0 & _ & Hfs)] (E1 & E2 & E3 & ps & Hps & Hp). split; [|done|by rewrite E2|by rewrite E2|].
  - intros f Hf. rewrite E1, E2. by apply H1.
  - exists ps. split; [done|]. intros f x Hx. rewrite E1 in Hx. destruct (Hfs f x Hx) as (? & ? & ? & _ & Hin).
    split_and!; [done..|by apply Hp|]. destruct Hin; [by left|right]. by apply E3.
Qed.


(** [sys_dup2] makes the new descriptor name the old one's file, dropping
    what it named before, and leaves every other descriptor; with equal
    descriptors it changes nothing, and a closed or too large one is refused.
    The counts of all files stay exact. *)
Lemma sys_dup2_correct e s p x old new :
  settled e -> fd_inv e s -> runs_on s p -> proc_at s p x -> 0 <= old < 2 ^ 32 -> 0 <= new < 2 ^ 32 ->
  wp (sys_dup2 get_procs set_procs old new) s (fun r s' => fd_inv e s' /\
    if (MAX_FDS <=? new) || (fd_file x old =? 0) then r = -1 /\ s' = s
    else r = new /\ proc_at s' p (with_fd new (fd_file x old) x)).
Proof.
  intros He H Hr Hx Ho Hn. eapply wp_mono; [by apply (sys_dup2_run e s p x old new)|]. by intros r s' (Hi & _ & Hp).
Qed.

(** C40: A descriptor's number is cut to 32 bits for the lookup but compared in
    64: [sys_dup2] on the only descriptor of a file, once with a number 2^32 too
    large, closes the file and then uses it. *)
Theorem sys_dup2_wide_faults e s p x y k :
  fd_inv e s -> runs_on s p -> proc_at s p x -> 0 <= k -> fd_file x k <> 0 ->
  v_files s !! fd_file x k = Some y -> f_refcnt y = 1 ->
  sys_dup2 get_procs set_procs (k + 2 ^ 32) k s = Stuck Fault.
Proof.
  intros H Hr Hx Hk Hf Hy H1. pose proof (proj1 Hx) as Hp. pose proof (proc_lists e s p x H Hx) as Hl.
  destruct (fd_file_slot x k _ eq_refl Hf) as [_ Hs]. pose proof (lookup_lt_Some _ _ _ Hs) as Hlt. unfold MAX_FDS in Hl.
  unfold sys_dup2, mbind, M_bind. rewrite (current_proc_run s p Hr), (proj2 (Z.eqb_neq p 0)) by lia. cbn [orb].
  unfold MAX_FDS. rewrite (proj2 (Z.leb_gt _ _)) by lia.
  assert (i32 (k + 2 ^ 32) = k) as ->.
  { unfold i32, to_signed. replace (k + 2 ^ 32) with (k + 1 * 2 ^ 32) by lia. rewrite Z.mod_add, Z.mod_small by lia.
    by rewrite (proj2 (Z.ltb_lt _ _)) by lia. }
  rewrite (fd_get_run e s p x k H Hx), (proj2 (Z.eqb_neq _ 0) Hf), (proj2 (Z.eqb_neq (k + 2 ^ 32) k)) by lia.
  rewrite (fd_load_run s p x k (fd_file x k) Hx Hk Hs), (proj2 (Z.eqb_neq _ 0) Hf). cbn [negb].
  pose proof (file_close_run e s _ y H Hf Hy) as Hw. apply wp_ok in Hw as (rc & s1 & -> & _ & Es & Hi).
  pose proof (proc_at_fs s s1 p x Es Hx) as Hx1. rewrite (fd_store_run s1 p x k 0 Hx1) by (unfold MAX_FDS; lia).
  assert (v_files s1 !! fd_file x k = None) as Hgone.
  { pose proof (fd_exact _ _ H _ Hf) as Ha. pose proof (fd_exact _ _ Hi _ Hf) as Hb. rewrite Hy in Ha.
    unfold held_more, table in *. rewrite (proj1 Es) in Hb. rewrite decide_True in Hb by done. destruct (v_files s1 !! _); [lia|done]. }
  unfold vfs_file_get. rewrite (proj2 (Z.eqb_neq _ 0) Hf). unfold upd_file, update. cbn [v_files Proc.put_proc set_fs].
  by rewrite Hgone.
Qed.
End Fds.

(** ** The file systems' operations are quiet *)

Section Quiet.
Context {FS : Type} `{PA : PageAllocator}.

Lemma ext2_fops_quiet blk_read dev_sector_size get_ext : quiet_fops (ext2_fops (FS := FS) blk_read dev_sector_size get_ext).
Proof. by split; [intros op ino f s [= <-]|intros op f s [= <-]]. Qed.

Lemma devfs_dirf_quiet : quiet_fops (devfs_dirf (FS := FS)).
Proof. by split; [intros op ino f s [= <-]|intros op f s [= <-]]. Qed.
End Quiet.

(** ** A concrete table *)

(** Process 1 runs and has the file at 32768 open as descriptor 3. *)
Definition fd_proc : proc := set_pfiles (<[3%nat := 32768]> (replicate 32 0)) no_proc.
Definition fd_vst : vst procs :=
  Vst heap_kst ∅ ∅ ∅ ∅ {[ 32768 := File 1 0 0 0 0 0 ]} ∅ 0 0 0 0 (Procs (Spinlock 0 0 0) [fd_proc; no_proc] 2).

#[export] Instance no_ops : VfsOps procs := {
  iops_at := fun _ => Iops None None None None None;
  fops_at := fun _ => Fops None None None None None;
  tops_at := fun _ => Tops None None
}.
#[export] Instance no_ops_quiet : QuietOps procs.
Proof. by split. Qed.

Lemma fd_vst_inv : fd_inv (fun g => g) (fun _ => 0) fd_vst.
Proof.
  split.
  - intros f Hf. cbn [v_files fd_vst]. destruct (decide (f = 32768)) as [->|Hne].
    + rewrite lookup_singleton_eq. by vm_compute.
    + rewrite lookup_singleton_ne by done. unfold table. cbn. unfold is_file. rewrite !decide_False by done. done.
  - done.
  - by vm_compute.
  - repeat constructor.
  - exists wide_pages. split; [by apply wide_inv|]. intros f x. cbn [v_files fd_vst]. intros [<- <-]%lookup_singleton_Some.
    split_and!; [done..|by_decide|by left].
Qed.
Lemma fd_vst_runs : runs_on fd_vst 1 /\ proc_at (fun g => g) fd_vst 1 fd_proc.
Proof. split; [by exists (set_cpu_proc 1 demo_cpu)|done]. Qed.
Lemma nothing_settled : settled (fun _ => 0).
Proof. intros f _. lia. Qed.

Definition after {A St} (r : res (A * St)) (s : St) : St := match r with Ok (_, s') => s' | Stuck _ => s end.


Lemma sys_dup2_correct_witness :
  wp (sys_dup2 (fun g => g) (fun g _ => g) 3 7) fd_vst (fun r s' => r = 7 /\
    proc_at (fun g => g) s' 1 (with_fd 7 32768 fd_proc)).
Proof.
  eapply wp_mono.
  - by apply (sys_dup2_correct (fun g => g) (fun g _ => g) procs_lens (fun _ => 0) fd_vst 1 fd_proc 3 7
      nothing_settled fd_vst_inv (proj1 fd_vst_runs) (proj2 fd_vst_runs)).
  - by intros r s' [_ H].
Defined.

Lemma sys_dup2_wide_faults_witness :
  sys_dup2 (fun g => g) (fun g _ => g) (3 + 2 ^ 32) 3 fd_vst = Stuck Fault.
Proof.
  by apply (sys_dup2_wide_faults (fun g => g) (fun g _ => g) procs_lens (fun _ => 0) fd_vst 1 fd_proc (File 1 0 0 0 0 0) 3
    fd_vst_inv (proj1 fd_vst_runs) (proj2 fd_vst_runs)).
Defined.
