(* ===== verification/SchedInv.v ===== *)
(** * One process at a time (src/src/kernel/proc.c, syscall.c)

    The invariant of the scheduler's state machine: which process is marked
    running, who holds the process table's lock, and whose address space and
    kernel stack the CPU uses. *)
From S2P Require Import Prelude KMem Spinlock BuddySpec Buddy PageAlloc PageTable AddrSpace Vfs Print Proc Sched Syscall Fds.

#[local] Open Scope Z_scope.

Section Invariant.
Context {FS : Type} `{PA : PageAllocator} `{VO : VfsOps FS} `{QO : !QuietOps FS} `{CO : Console (vst FS)}.
Context (get_procs : FS -> procs) (set_procs : procs -> FS -> FS) (L : lens get_procs set_procs).
Context (get_rsp0 : FS -> list Z) (set_rsp0 : list Z -> FS -> FS) (LT : lens get_rsp0 set_rsp0).
(** The two are separate variables. *)
Context (procs_rsp0 : forall t f, get_procs (set_rsp0 t f) = get_procs f).
Context (rsp0_procs : forall g f, get_rsp0 (set_procs g f) = get_rsp0 f).
#[local] Abbreviation V := (M (vst FS)).
#[local] Abbreviation table := (table get_procs).
#[local] Abbreviation proc_at := (proc_at get_procs).
#[local] Abbreviation put_proc := (put_proc get_procs set_procs).
#[local] Abbreviation fd_inv := (fd_inv get_procs).
#[local] Abbreviation aside := (aside get_procs set_procs).
#[local] Abbreviation plock s := (proc_lock (get_procs (v_fs s))).

(** ** States *)

(** The files are in order; every process has its entry of the table. *)
Definition steady (s : vst FS) : Prop :=
  length (table s) = 64%nat /\ exists e, settled e /\ fd_inv e s.

Definition on_cpu (s : vst FS) (c : cpu) : Prop := cpus (khw (v_k s)) !! gs_base (khw (v_k s)) = Some c.

(** The lock is free, or this CPU's with interrupts off. *)
Definition outside (s : vst FS) (c : cpu) : Prop := on_cpu s c /\ ncli c = 0 /\ locked (plock s) = 0.
Definition inside (s : vst FS) (c : cpu) : Prop :=
  on_cpu s c /\ ncli c = 1 /\ iflag (khw (v_k s)) = false /\ exists nm, plock s = Spinlock 1 nm (gs_base (khw (v_k s))).

(** Exactly the process [l] is marked running. *)
Definition running (l : option Z) (s : vst FS) : Prop :=
  forall i x, table s !! i = Some x -> p_state x = PROC_RUNNING <-> l = Some (Z.of_nat i + 1).

(** The CPU uses the address space and the kernel stack of the process [p]. *)
Definition ready_for (s : vst FS) (p : Z) (c : cpu) : Prop :=
  exists x, proc_at s p x /\ cr3 (v_k s) = u64 (p_pml4 x - hhdm_offset (v_k s)) /\
    kernel_rsp c = u64 (p_kstack x + KSTACK_SIZE) /\
    get_rsp0 (v_fs s) !! Z.to_nat (cpu_id c) = Some (u64 (p_kstack x + KSTACK_SIZE)).

Definition sched_inv (a : place * vst FS) : Prop :=
  let '(pl, s) := a in
  steady s /\ exists c, is_Some (get_rsp0 (v_fs s) !! Z.to_nat (cpu_id c)) /\
    match pl with
    | Idle => outside s c /\ cpu_proc c = 0 /\ running None s
    | Round i => inside s c /\ cpu_proc c = 0 /\ running None s /\ 0 <= i <= MAX_PROCS
    | Resuming p => inside s c /\ cpu_proc c = p /\ running (Some p) s /\ ready_for s p c /\ 0 < p <= MAX_PROCS
    | Running p => outside s c /\ cpu_proc c = p /\ running (Some p) s /\ ready_for s p c /\ 0 < p <= MAX_PROCS
    end.

(** *** Parts of a state change *)

Definition set_hw (h : hw) (s : vst FS) : vst FS := set_vk (set_khw h (v_k s)) s.
Definition put_lock (l : spinlock) (s : vst FS) : vst FS :=
  set_fs (set_procs (set_lock l (get_procs (v_fs s))) (v_fs s)) s.

Lemma plock_put l s : plock (put_lock l s) = l.
Proof. cbn. by rewrite (get_set _ _ L). Qed.
Lemma table_put_lock l s : table (put_lock l s) = table s.
Proof. unfold Fds.table. cbn. by rewrite (get_set _ _ L). Qed.

(** Only the CPU, the lock and the processes' states changed. *)
Lemma fd_inv_moved e s s' :
  fd_inv e s -> v_files s' = v_files s -> v_inodes s' = v_inodes s -> length (table s') = length (table s) ->
  p_files <$> table s' = p_files <$> table s ->
  (forall ps, pa_inv ps (v_k s) -> pa_inv ps (v_k s')) -> fd_inv e s'.
Proof.
  intros [H1 H2 H3 H4 (ps & Hps & Hf)] E1 E2 E3 E4 Hpa. split.
  - intros f Hf0. specialize (H1 f Hf0). rewrite E1.
    assert (forall tbl, uses f tbl = foldr (fun l n => uses_in f l + n) 0 (p_files <$> tbl)) as Hu.
    { intros tbl. unfold uses. induction tbl as [|x tbl IH]; [done|]. cbn. by rewrite IH. }
    unfold Fds.table in *. by rewrite Hu, E4, <- Hu.
  - done.
  - by rewrite E3.
  - apply (Forall_fmap p_files (fun l => Z.of_nat (length l) = MAX_FDS)). rewrite E4. by apply Forall_fmap.
  - exists ps. split; [by apply Hpa|]. intros f x. rewrite E1. intros Hx. destruct (Hf f x Hx) as (? & ? & ? & ? & ?).
    split_and!; try done. by rewrite E2.
Qed.

(** What the scheduler's own steps leave of a state, but for the process
    states: the files and the memory. *)
Record moved (s s' : vst FS) : Prop := {
  mv_files : v_files s' = v_files s;
  mv_inodes : v_inodes s' = v_inodes s;
  mv_len : length (table s') = length (table s);
  mv_lists : p_files <$> table s' = p_files <$> table s;
  mv_pages : forall ps, pa_inv ps (v_k s) -> pa_inv ps (v_k s')
}.

Lemma steady_moved s s' : steady s -> moved s s' -> steady s'.
Proof.
  intros [Hl (e & He & Hi)] [E1 E2 E3 E4 Hp]. split; [by rewrite E3|]. exists e. split; [done|]. by eapply fd_inv_moved.
Qed.

(** The CPU and the lock change: [s'] is [s] but for those. *)
Definition set_cr3 (x : Z) (k : kst) : kst := Kst (heap k) (buddy k) (khw k) (hhdm_offset k) x.

Lemma ready_inside s c : inside s c -> cpu_ready (khw (v_k s)) c.
Proof. intros (Hc & Hn & Hi & _). split_and!; [done|lia|lia|]. by rewrite Hi. Qed.
Lemma ready_outside s c : outside s c -> cpu_ready (khw (v_k s)) c.
Proof. intros (Hc & Hn & _). split_and!; [done|lia|lia|done]. Qed.

Lemma moved_hw s h c l x :
  cpu_ready h c -> moved s (put_lock l (set_vk (set_cr3 x (set_khw h (v_k s))) s)).
Proof.
  intros Hc. split; [done..| | |].
  - by rewrite table_put_lock.
  - by rewrite table_put_lock.
  - intros ps Hps. by apply (pa_inv_cpu ps (v_k s) h c x).
Qed.

Lemma put_lock_id s : put_lock (plock s) s = s.
Proof.
  unfold put_lock. transitivity (set_fs (v_fs s) s); [|by destruct s]. f_equal.
  replace (set_lock _ (get_procs (v_fs s))) with (get_procs (v_fs s)) by (by destruct (get_procs (v_fs s))).
  apply (set_get _ _ L).
Qed.

Lemma moved_cpu s h c x : cpu_ready h c -> moved s (set_vk (set_cr3 x (set_khw h (v_k s))) s).
Proof.
  intros Hc. set (s' := set_vk _ _). rewrite <- (put_lock_id s'). by apply (moved_hw s h c (plock s') x).
Qed.

(** *** The lock *)

Lemma on_procs_lock (m : spinlock -> M hw spinlock) s :
  (l ← on_procs get_procs set_procs (mgets proc_lock);
   l ← on_hw (m l); on_procs get_procs set_procs (mmodify (set_lock l))) s =
  match m (plock s) (khw (v_k s)) with Ok (l, h) => Ok (tt, put_lock l (set_hw h s)) | Stuck w => Stuck w end.
Proof.
  unfold mbind, M_bind. rewrite (on_procs_gets _ _ L). unfold on_hw, on_kst, mzoom.
  destruct (m _ (khw (v_k s))) as [[l h]|]; [|done]. done.
Qed.

(** The processes and the address space in use stay. *)
Record same_but (s s' : vst FS) : Prop := {
  sb_moved : moved s s';
  sb_table : table s' = table s;
  sb_rsp0 : get_rsp0 (v_fs s') = get_rsp0 (v_fs s);
  sb_hhdm : hhdm_offset (v_k s') = hhdm_offset (v_k s);
  sb_cr3 : cr3 (v_k s') = cr3 (v_k s)
}.

Lemma same_but_hw s l h c : cpu_ready h c -> same_but s (put_lock l (set_hw h s)).
Proof.
  intros Hc. split; [by apply (moved_hw s h c l (cr3 (v_k s)))| |by cbn; rewrite rsp0_procs|done|done].
  by rewrite table_put_lock.
Qed.

Lemma proc_at_same s s' p x : table s' = table s -> proc_at s p x -> proc_at s' p x.
Proof. unfold Proc.proc_at, Fds.table. by intros ->. Qed.
Lemma running_same l s s' : table s' = table s -> running l s -> running l s'.
Proof. unfold running. by intros ->. Qed.

Lemma ready_for_same s s' p c c' :
  same_but s s' -> kernel_rsp c' = kernel_rsp c -> cpu_id c' = cpu_id c -> ready_for s p c -> ready_for s' p c'.
Proof.
  intros [_ E1 E2 E3 E4] E5 E6 (x & Hx & H1 & H2 & H3). exists x. rewrite E2, E3, E4, E5, E6.
  split; [by eapply proc_at_same|done].
Qed.

Lemma acquire_steps s c :
  outside s c ->
  wp (acquire_proc_lock get_procs set_procs) s (fun _ s' => same_but s s' /\ exists i, inside s' (set_ncli 1 (set_intena i c))).
Proof.
  intros Ho. pose proof (ready_outside s c Ho) as Hr. destruct Ho as (Hc & Hn & Hl).
  unfold wp, acquire_proc_lock. rewrite on_procs_lock.
  pose proof (acquire_spec (plock s) (khw (v_k s)) c Hr Hl) as Hw. apply wp_ok in Hw as (lk & h & -> & -> & Hh).
  destruct Hh as (c0 & i & Hr0 & Hf & Hg & Hm & _). assert (c0 = c) as -> by (destruct Hr0; unfold on_cpu in Hc; congruence).
  rewrite Hn in Hm. change (0 + 1) with 1 in Hm.
  assert (cpus h !! gs_base h = Some (set_ncli 1 (set_intena i c))) as Hc' by by rewrite Hm, Hg, lookup_insert_eq.
  split.
  - apply (same_but_hw s _ h (set_ncli 1 (set_intena i c))). split; [done|]. split; [by cbn|]. by rewrite Hf.
  - exists i. split; [exact Hc'|]. split; [done|]. split; [exact Hf|]. eexists. rewrite plock_put. cbn. by rewrite Hg.
Qed.

Lemma release_steps s c :
  inside s c ->
  wp (release_proc_lock get_procs set_procs) s (fun _ s' => same_but s s' /\ outside s' (set_ncli 0 c)).
Proof.
  intros (Hc & Hn & Hf & nm & Hl). unfold wp, release_proc_lock. rewrite on_procs_lock. rewrite Hl.
  unfold release, mbind, M_bind. pose proof (holding_nested (Spinlock 1 nm (gs_base (khw (v_k s)))) (khw (v_k s)) c Hc ltac:(lia) Hf) as Hh.
  apply wp_ok in Hh as (b & h1 & -> & -> & ->). unfold holds. cbn [locked lcpu]. rewrite Z.eqb_refl. cbn.
  rewrite (popcli_eq _ c Hc Hf) by lia. rewrite Hn. change (u8 (1 - 1)) with 0. cbn.
  set (h := Hw _ _ _). assert (cpus h !! gs_base h = Some (set_ncli 0 c)) as Hc' by by apply lookup_insert_eq.
  split.
  - by apply (same_but_hw s _ h (set_ncli 0 c)).
  - split; [exact Hc'|]. split; [done|]. by rewrite plock_put.
Qed.

(** *** The CPU's fields and the processes' states *)

Lemma this_cpu_run s c : on_cpu s c -> this_cpu s = Ok (c, s).
Proof.
  intros Hc. unfold this_cpu, on_hw, on_kst, mbind, M_bind, mzoom, mycpu, mgets, cpu_load.
  unfold on_cpu in Hc. rewrite Hc. by destruct s as [[] ? ? ? ? ? ? ? ? ? ? ?].
Qed.

Lemma cpu_store_steps s c f :
  inside s c -> ncli (f c) = ncli c ->
  wp (this_cpu_store f) s (fun _ s' => same_but s s' /\ inside s' (f c)).
Proof.
  intros (Hc & Hn & Hf & nm & Hl) Hfc. unfold wp, this_cpu_store, on_hw, on_kst, mbind, M_bind, mzoom, mycpu, mgets, cpu_store.
  unfold on_cpu in Hc. rewrite Hc. set (s' := set_vk _ s).
  assert (s' = put_lock (plock s) (set_hw (set_cpus (<[gs_base (khw (v_k s)) := f c]> (cpus (khw (v_k s)))) (khw (v_k s))) s)) as ->.
  { unfold s'. set (s1 := set_hw _ s). change (plock s) with (plock s1). by rewrite put_lock_id. }
  set (h := set_cpus _ _). assert (cpus h !! gs_base h = Some (f c)) as Hc' by by apply lookup_insert_eq.
  split.
  - apply (same_but_hw s _ h (f c)). split; [exact Hc'|]. split; [lia|]. cbn. by rewrite Hf.
  - split; [exact Hc'|]. split; [by rewrite Hfc|]. split; [done|]. exists nm. by rewrite plock_put.
Qed.

Lemma table_put_proc s p y : table (put_proc s p y) = <[Z.to_nat (p - 1) := y]> (table s).
Proof. unfold Fds.table, Proc.put_proc. cbn. by rewrite (get_set _ _ L). Qed.

Lemma put_proc_moved s p x y : proc_at s p x -> p_files y = p_files x -> moved s (put_proc s p y).
Proof.
  intros [_ Hx] Hf. split; [done..| | |done].
  - by rewrite table_put_proc, length_insert.
  - rewrite table_put_proc, list_fmap_insert, Hf. apply list_insert_id. change (table s !! Z.to_nat (p - 1) = Some x) in Hx.
    by rewrite list_lookup_fmap, Hx.
Qed.

Lemma put_proc_inside s p y c : inside s c -> inside (put_proc s p y) c.
Proof. intros (Hc & Hn & Hf & nm & Hl). split_and!; try done. exists nm. cbn. by rewrite (get_set _ _ L). Qed.

Lemma running_put l l' s p x y :
  proc_at s p x -> running l s -> (p_state y = PROC_RUNNING <-> l' = Some p) ->
  (forall q, q <> p -> l = Some q <-> l' = Some q) -> running l' (put_proc s p y).
Proof.
  intros [Hp Hx] Hr Hy Hq i z. rewrite table_put_proc, list_lookup_insert_Some. intros [(<- & <- & _)|[Hne Hz]].
  - rewrite Hy. by replace (Z.of_nat (Z.to_nat (p - 1)) + 1) with p by lia.
  - rewrite (Hr i z Hz). apply Hq. lia.
Qed.

Lemma proc_entry s p : steady s -> 0 < p <= MAX_PROCS -> exists x, proc_at s p x.
Proof.
  intros [Hl _] Hp. unfold MAX_PROCS in Hp. destruct (lookup_lt_is_Some_2 (table s) (Z.to_nat (p - 1))) as [x Hx]; [lia|].
  exists x. split; [lia|done].
Qed.

Lemma steady_same s s' : same_but s s' -> steady s -> steady s'.
Proof. intros [Hm _ _ _ _] H. by eapply steady_moved. Qed.

Lemma rsp0_same s s' i : same_but s s' -> is_Some (get_rsp0 (v_fs s) !! i) -> is_Some (get_rsp0 (v_fs s') !! i).
Proof. by intros [_ _ -> _ _]. Qed.

(** ** Each step *)

Lemma begin_steps s :
  sched_inv (Idle, s) -> wp (scheduler_begin get_procs set_procs) s (fun _ s' => sched_inv (Round 0, s')).
Proof.
  intros (Hst & c & Hc & Ho & Hp & Hr). unfold scheduler_begin. wp_step.
  eapply (wp_run _ tt _ (set_hw (set_iflag true (khw (v_k s))) s)); [done|]. set (s1 := set_hw _ s).
  assert (outside s1 c) as Ho1 by done.
  assert (same_but s s1) as H1.
  { unfold s1. rewrite <- (put_lock_id (set_hw _ s)). apply (same_but_hw s _ _ c). by apply (ready_outside s1). }
  eapply wp_mono; [by apply (acquire_steps s1 c)|].
  intros [] s' [H2 (i & Hi)]. split; [by do 2 (eapply steady_same; [done|])|].
  eexists. split; [|split; [exact Hi|]].
  - do 2 (eapply rsp0_same; [done|]). done.
  - split; [done|]. split; [|by unfold MAX_PROCS]. eapply running_same; [|exact Hr]. by rewrite (sb_table _ _ H2).
Qed.

Lemma end_steps i s :
  sched_inv (Round i, s) -> wp (scheduler_end get_procs set_procs) s (fun _ s' => sched_inv (Idle, s')).
Proof.
  intros (Hst & c & Hc & Hi & Hp & Hr & _). eapply wp_mono; [by apply (release_steps s c)|].
  intros [] s' [H Ho]. split; [by eapply steady_same|]. eexists. split; [|split; [exact Ho|]].
  - by eapply rsp0_same.
  - split; [done|]. eapply running_same; [|exact Hr]. apply H.
Qed.

Lemma resume_steps p s :
  sched_inv (Resuming p, s) -> wp (yield_leave get_procs set_procs) s (fun _ s' => sched_inv (Running p, s')).
Proof.
  intros (Hst & c & Hc & Hi & Hp & Hr & Hrd & Hb). eapply wp_mono; [by apply (release_steps s c)|].
  intros [] s' [H Ho]. split; [by eapply steady_same|]. eexists. split; [|split; [exact Ho|]].
  - by eapply rsp0_same.
  - split; [done|]. split; [eapply running_same; [apply H|done]|]. split; [by eapply ready_for_same|done].
Qed.

Lemma return_steps i s :
  sched_inv (Round i, s) -> wp scheduler_return s (fun _ s' => sched_inv (Round i, s')).
Proof.
  intros (Hst & c & Hc & Hi & Hp & Hr & Hb). eapply wp_mono; [by apply (cpu_store_steps s c (set_cpu_proc 0))|].
  intros [] s' [H Hi']. split; [by eapply steady_same|]. eexists. split; [|split; [exact Hi'|]].
  - by eapply rsp0_same.
  - split; [done|]. split; [|done]. eapply running_same; [apply H|done].
Qed.

(** *** Dispatching a process *)

Lemma moved_trans s1 s2 s3 : moved s1 s2 -> moved s2 s3 -> moved s1 s3.
Proof.
  intros [A1 A2 A3 A4 A5] [B1 B2 B3 B4 B5]. split; [congruence|congruence|congruence|congruence|]. intros ps H. by apply B5, A5.
Qed.

(** [lcr3] and [tss_set_rsp0]. *)
Lemma switch_memory_steps s c pml4 :
  inside s c ->
  wp (on_kst (phys ← VIRT_TO_PHYS pml4; lcr3 phys)) s (fun _ s' =>
    moved s s' /\ inside s' c /\ table s' = table s /\ get_rsp0 (v_fs s') = get_rsp0 (v_fs s) /\
    hhdm_offset (v_k s') = hhdm_offset (v_k s) /\ cr3 (v_k s') = u64 (pml4 - hhdm_offset (v_k s'))).
Proof.
  intros Hi. eapply (wp_run _ tt _ (set_vk (set_cr3 (u64 (pml4 - hhdm_offset (v_k s))) (v_k s)) s)); [done|].
  split; [|done]. apply (moved_cpu s (khw (v_k s)) c). by apply ready_inside.
Qed.

Lemma tss_set_rsp0_steps s c r :
  inside s c -> is_Some (get_rsp0 (v_fs s) !! Z.to_nat (cpu_id c)) ->
  wp (tss_set_rsp0 get_rsp0 set_rsp0 r) s (fun _ s' =>
    moved s s' /\ inside s' c /\ table s' = table s /\ v_k s' = v_k s /\
    get_rsp0 (v_fs s') !! Z.to_nat (cpu_id c) = Some r).
Proof.
  intros Hi [r0 Hr]. unfold tss_set_rsp0. wp_step. eapply wp_run; [by apply this_cpu_run, Hi|].
  apply wp_zoom. wp_step. apply wp_get. rewrite Hr. apply wp_put. set (s' := set_fs _ s).
  assert (get_procs (v_fs s') = get_procs (v_fs s)) as E by apply procs_rsp0.
  assert (table s' = table s) as Et by (unfold Fds.table; by rewrite E). split_and!.
  - split; [done|done|by rewrite Et|by rewrite Et|done].
  - destruct Hi as (H1 & H2 & H3 & nm & H4). split_and!; try done. exists nm. by rewrite E.
  - done.
  - done.
  - cbn. rewrite (get_set _ _ LT). apply list_lookup_insert_eq. by eapply lookup_lt_Some.
Qed.

Lemma dispatch_steps i s :
  sched_inv (Round i, s) -> i < MAX_PROCS ->
  wp (scheduler_dispatch get_procs set_procs get_rsp0 set_rsp0 i) s (fun b s' =>
    sched_inv (if b : bool then Resuming (i + 1) else Round (i + 1), s')).
Proof.
  intros Hinv Hlt. pose proof Hinv as (Hst & c & Hc & Hi & Hp & Hr & Hb).
  destruct (proc_entry s (i + 1) Hst ltac:(lia)) as [x Hx]. unfold scheduler_dispatch. cbv zeta.
  wp_step. eapply wp_run; [by apply (proc_load_run _ _ L)|]. destruct (Z.eqb_spec (p_state x) PROC_RUNNABLE) as [Hrun|]; cbn [negb].
  2: { wp_step. split; [done|]. exists c. split_and!; try done; lia. }
  set (y := set_state PROC_RUNNING x). set (s1 := put_proc s (i + 1) y).
  wp_step. eapply wp_run; [by apply (proc_store_run _ _ L s (i + 1) x)|]. fold s1.
  assert (inside s1 c) as Hi1 by by apply put_proc_inside.
  assert (moved s s1) as M1 by by apply (put_proc_moved s (i + 1) x).
  assert (running (Some (i + 1)) s1) as Hr1.
  { apply (running_put None _ s _ x); [done..|]. intros q Hq. split; [done|]. intros [= E]. congruence. }
  assert (proc_at s1 (i + 1) y) as Hy1 by by apply (put_proc_at _ _ L _ _ x).
  assert (get_rsp0 (v_fs s1) = get_rsp0 (v_fs s)) as E1 by by cbn; rewrite rsp0_procs.
  wp_step. eapply wp_mono; [by apply (cpu_store_steps s1 c (set_cpu_proc (i + 1)))|]. intros [] s2 [H2 Hi2].
  pose proof (proc_at_same s1 s2 _ _ (sb_table _ _ H2) Hy1) as Hy2.
  wp_step. eapply wp_run; [by apply (proc_load_run _ _ L)|].
  wp_step. eapply wp_mono; [by apply switch_memory_steps|]. intros [] s3 (M3 & Hi3 & Et3 & Er3 & Eh3 & Ec3).
  wp_step. eapply wp_mono; [apply (tss_set_rsp0_steps s3 _ _ Hi3)|].
  { rewrite Er3, (sb_rsp0 _ _ H2), E1. exact Hc. }
  intros [] s4 (M4 & Hi4 & Et4 & Ek4 & Er4).
  wp_step. eapply wp_mono; [by apply (cpu_store_steps s4 _ (set_kernel_rsp (u64 (p_kstack y + KSTACK_SIZE))) Hi4)|].
  intros [] s5 [H5 Hi5]. wp_step. assert (table s5 = table s1) as Et by (rewrite (sb_table _ _ H5), Et4, Et3; apply H2). split.
  - eapply steady_moved; [exact Hst|]. do 4 (eapply moved_trans; [eassumption || apply H2|]). apply H5.
  - eexists. split; [|split; [exact Hi5|]].
    + eapply (rsp0_same s4); [done|]. eexists. exact Er4.
    + split; [done|]. split; [by eapply running_same|]. split; [|lia]. exists y. split; [by eapply proc_at_same|].
      rewrite (sb_cr3 _ _ H5), (sb_hhdm _ _ H5), (sb_rsp0 _ _ H5), Ek4. done.
Qed.

(** *** Giving the CPU up *)

(** Taking the lock in the process [p]. *)
Lemma enter_steps p s :
  sched_inv (Running p, s) -> current_proc s = Ok (p, s) /\ p <> 0 /\
  wp (acquire_proc_lock get_procs set_procs) s (fun _ s' =>
    steady s' /\ exists c x, inside s' c /\ is_Some (get_rsp0 (v_fs s') !! Z.to_nat (cpu_id c)) /\
      running (Some p) s' /\ proc_at s' p x /\ 0 < p <= MAX_PROCS).
Proof.
  intros (Hst & c & Hc & Ho & Hp & Hr & Hrd & Hb). split; [|split; [lia|]].
  { apply (current_proc_run s p). exists c. split; [apply Ho|done]. }
  eapply wp_mono; [by apply (acquire_steps s c)|]. intros [] s' [H [i Hi]].
  pose proof (steady_same _ _ H Hst) as Hst'. split; [done|].
  destruct (proc_entry s' p Hst' Hb) as [x Hx]. eexists _, x. split; [exact Hi|].
  split; [by eapply rsp0_same|]. split; [eapply running_same; [apply H|done]|done].
Qed.

(** Leaving the process [p] in another state. *)
Lemma leave_steps p s c x y :
  steady s -> inside s c -> is_Some (get_rsp0 (v_fs s) !! Z.to_nat (cpu_id c)) -> running (Some p) s ->
  proc_at s p x -> 0 < p <= MAX_PROCS -> p_files y = p_files x -> p_state y <> PROC_RUNNING ->
  wp (this_cpu_store (set_cpu_proc 0)) (put_proc s p y) (fun _ s' => sched_inv (Round p, s')).
Proof.
  intros Hst Hi Hc Hr Hx Hb Hf Hy. set (s1 := put_proc s p y).
  assert (inside s1 c) as Hi1 by by apply put_proc_inside.
  assert (moved s s1) as M1 by by apply (put_proc_moved s p x).
  assert (running None s1) as Hr1.
  { apply (running_put (Some p) _ s _ x); [done|done|by split|]. intros q Hq. split; [intros [= E]; congruence|done]. }
  eapply wp_mono; [by apply (cpu_store_steps s1 c (set_cpu_proc 0))|]. intros [] s2 [H2 Hi2]. split.
  - eapply steady_same; [exact H2|]. by eapply steady_moved.
  - eexists. split; [|split; [exact Hi2|]].
    + eapply rsp0_same; [exact H2|]. by cbn; rewrite rsp0_procs.
    + split; [done|]. split; [eapply running_same; [apply H2|done]|lia].
Qed.

Lemma yield_steps p s :
  sched_inv (Running p, s) ->
  wp (yield_enter get_procs set_procs) s (fun b s' => b = true /\ sched_inv (Round p, s')).
Proof.
  intros H. destruct (enter_steps p s H) as (Hcur & Hp & Hw). unfold yield_enter.
  wp_step. eapply wp_run; [exact Hcur|]. rewrite (proj2 (Z.eqb_neq p 0) Hp).
  wp_step. eapply wp_mono; [exact Hw|]. intros [] s1 (Hst & c & x & Hi & Hc & Hr & Hx & Hb).
  wp_step. eapply wp_run; [by apply (proc_store_run _ _ L s1 p x)|].
  wp_step. eapply wp_mono; [by apply (leave_steps p s1 c x (set_state PROC_RUNNABLE x))|]. intros [] s2 H2. by wp_step.
Qed.

(** Calls on descriptors and the console leave all this alone. *)
Lemma aside_inside s s' c :
  aside s s' -> inside s c -> exists c', inside s' c' /\ cpu_id c' = cpu_id c /\ cpu_proc c' = cpu_proc c.
Proof.
  intros [((Hf & Hg & Hm) & _ & _) (g & E & El & _)] (Hc & Hn & Hi & nm & Hl). unfold on_cpu in Hc.
  specialize (Hm (gs_base (khw (v_k s)))). rewrite Hc in Hm.
  destruct (cpus (khw (v_k s')) !! gs_base (khw (v_k s))) as [c'|] eqn:Ec; [|done].
  injection Hm as _ _ Hp _ _ Hn' Hid. exists c'. split; [|done]. split; [unfold on_cpu; by rewrite Hg|].
  split; [congruence|]. split; [congruence|]. exists nm. rewrite E, (get_set _ _ L), El, Hl. by rewrite Hg.
Qed.

Lemma aside_table s s' : aside s s' -> no_files <$> table s' = no_files <$> table s.
Proof. intros [_ (g & E & _ & Ht)]. unfold Fds.table in *. by rewrite E, (get_set _ _ L). Qed.

Lemma aside_rsp0 s s' : aside s s' -> get_rsp0 (v_fs s') = get_rsp0 (v_fs s).
Proof. intros [_ (g & -> & _)]. apply rsp0_procs. Qed.

Lemma no_files_running l s s' : no_files <$> table s' = no_files <$> table s -> running l s -> running l s'.
Proof.
  intros Ht Hr i x Hx. assert ((no_files <$> table s') !! i = Some (no_files x)) as Hi by by rewrite list_lookup_fmap, Hx.
  rewrite Ht, list_lookup_fmap in Hi. destruct (table s !! i) as [x0|] eqn:E; [|done].
  injection Hi as Hi. rewrite <- (Hr i x0 E). by replace (p_state x) with (p_state x0) by (by destruct x, x0; cbn in *; congruence).
Qed.

(** The console's own state may change. *)
Record talks (s s' : vst FS) : Prop := {
  tk_files : v_files s' = v_files s;
  tk_inodes : v_inodes s' = v_inodes s;
  tk_procs : get_procs (v_fs s') = get_procs (v_fs s);
  tk_rsp0 : get_rsp0 (v_fs s') = get_rsp0 (v_fs s);
  tk_hw : khw (v_k s') = khw (v_k s);
  tk_pages : forall ps, pa_inv ps (v_k s) -> pa_inv ps (v_k s')
}.
Context (Hserial : forall s c, keeps (talks s) (serial_putc c)) (Hconsole : forall s c, keeps (talks s) (kconsole_putc c)).

Lemma talks_moved s s' : talks s s' -> moved s s' /\ table s' = table s.
Proof.
  intros [H1 H2 H3 _ _ H6]. assert (table s' = table s) as E by (unfold Fds.table; by rewrite H3).
  split; [|done]. split; [done|done|by rewrite E|by rewrite E|done].
Qed.
Lemma talks_inside s s' c : talks s s' -> inside s c -> inside s' c.
Proof. intros [_ _ H3 _ H5 _]. unfold inside, on_cpu. by rewrite H3, H5. Qed.

Lemma printf_talks fmt args s r s' : printf fmt args s = Ok (r, s') -> talks s s'.
Proof. apply (printf_keeps (talks s) (Hserial s) (Hconsole s) fmt args s r s'). by split. Qed.

Lemma exit_steps p status s b s' :
  sched_inv (Running p, s) -> sys_exit_enter get_procs set_procs status s = Ok (b, s') -> sched_inv (Round p, s').
Proof.
  intros H. destruct (enter_steps p s H) as (Hcur & Hp & Hw). unfold sys_exit_enter, mbind, M_bind.
  rewrite Hcur, (proj2 (Z.eqb_neq p 0) Hp). apply wp_ok in Hw as ([] & s1 & -> & Hst & c & x & Hi & Hc & Hr & Hx & Hb).
  destruct Hst as [Hlen (e & He & Hfd)]. pose proof (proc_close_fds_run _ _ L e s1 p x He Hfd Hx) as Hcl.
  apply wp_ok in Hcl as ([] & s2 & -> & Hfd2 & Ha & Hx2). rewrite (proc_load_run _ _ L s2 p _ Hx2).
  pose proof (aside_table _ _ Ha) as Et. assert (steady s2) as Hst2.
  { split; [|by exists e]. rewrite <- (length_fmap no_files), Et, length_fmap. exact Hlen. }
  destruct (aside_inside _ _ c Ha Hi) as (c2 & Hi2 & Ec & _).
  destruct (printf _ _ s2) as [[[] s3]|] eqn:Ep; [|done]. apply printf_talks in Ep as Ht.
  destruct (talks_moved _ _ Ht) as [M3 T3]. pose proof (talks_inside _ _ _ Ht Hi2) as Hi3.
  pose proof (proc_at_same _ _ _ _ T3 Hx2) as Hx3. set (y := set_pfiles _ x) in *.
  rewrite (proc_store_run _ _ L s3 p y _ Hx3). set (s4 := put_proc s3 p (set_exit_code status y)).
  assert (proc_at s4 p (set_exit_code status y)) as Hx4 by by apply (put_proc_at _ _ L _ _ y).
  rewrite (proc_store_run _ _ L s4 p _ _ Hx4).
  assert (running (Some p) s4) as Hr4.
  { apply (running_put (Some p) _ s3 _ y); [done| | |done].
    - eapply running_same; [exact T3|]. by eapply no_files_running.
    - change (p_state x = PROC_RUNNING <-> Some p = Some p). rewrite (Hr (Z.to_nat (p - 1)) x (proj2 Hx)). by replace (Z.of_nat (Z.to_nat (p - 1)) + 1) with p by lia. }
  pose proof (leave_steps p s4 c2 (set_exit_code status y) (set_state PROC_ZOMBIE (set_exit_code status y))) as Hl. apply wp_ok in Hl as (a & s5 & -> & H5).
  - by intros [= _ <-].
  - eapply steady_moved; [by eapply steady_moved; [exact Hst2|]|]. by apply (put_proc_moved s3 p y).
  - by apply put_proc_inside.
  - rewrite Ec. cbn. rewrite rsp0_procs, (tk_rsp0 _ _ Ht), (aside_rsp0 _ _ Ha). exact Hc.
  - exact Hr4.
  - exact Hx4.
  - exact Hb.
  - done.
  - done.
Qed.

(** ** The machine *)

(** What a process may do in the kernel while it runs: anything that keeps the
    lock free, no process but itself marked running, and the CPU on its own
    address space and kernel stack. *)
Definition works (p : Z) (s s' : vst FS) : Prop :=
  steady s' /\ (forall l, running l s -> running l s') /\
  forall c, outside s c -> is_Some (get_rsp0 (v_fs s) !! Z.to_nat (cpu_id c)) -> ready_for s p c ->
    exists c', outside s' c' /\ cpu_proc c' = cpu_proc c /\ is_Some (get_rsp0 (v_fs s') !! Z.to_nat (cpu_id c')) /\
      ready_for s' p c'.

#[local] Abbreviation sched_step := (sched_step get_procs set_procs get_rsp0 set_rsp0 works).

Lemma sched_step_inv a b : sched_inv a -> sched_step a b -> sched_inv b.
Proof.
  intros H Hs. destruct Hs as [s s' E|i s s' Hi E|i s s' Hi E|p s s' E|p s s' Hw|p s s1 s' E1 E2|p st s s1 s' E1 E2|i s s' Hi E].
  - pose proof (begin_steps s H) as Hw. unfold wp in Hw. by rewrite E in Hw.
  - pose proof (dispatch_steps i s H Hi) as Hw. unfold wp in Hw. by rewrite E in Hw.
  - pose proof (dispatch_steps i s H Hi) as Hw. unfold wp in Hw. by rewrite E in Hw.
  - pose proof (resume_steps p s H) as Hw. unfold wp in Hw. by rewrite E in Hw.
  - destruct H as (Hst & c & Hc & Ho & Hp & Hr & Hrd & Hb). destruct Hw as (Hst' & Hr' & Hw).
    destruct (Hw c Ho Hc Hrd) as (c' & Ho' & Hp' & Hc' & Hrd'). split; [done|]. exists c'. split; [done|]. split; [done|].
    split; [congruence|]. split; [by apply Hr'|done].
  - pose proof (yield_steps p s H) as Hw. unfold wp in Hw. rewrite E1 in Hw. destruct Hw as [_ H1].
    pose proof (return_steps p s1 H1) as Hw. unfold wp in Hw. by rewrite E2 in Hw.
  - pose proof (exit_steps p st s _ s1 H E1) as H1. pose proof (return_steps p s1 H1) as Hw. unfold wp in Hw. by rewrite E2 in Hw.
  - pose proof (end_steps i s H) as Hw. unfold wp in Hw. by rewrite E in Hw.
Qed.

(** The next move of the scheduler, or a [yield], is possible. *)
Definition can_move (a : place * vst FS) : Prop :=
  let '(pl, s) := a in
  match pl with
  | Idle => exists s', scheduler_begin get_procs set_procs s = Ok (tt, s')
  | Round i => if i <? MAX_PROCS
               then exists b s', scheduler_dispatch get_procs set_procs get_rsp0 set_rsp0 i s = Ok (b, s')
               else exists s', scheduler_end get_procs set_procs s = Ok (tt, s')
  | Resuming _ => exists s', yield_leave get_procs set_procs s = Ok (tt, s')
  | Running _ => exists s1 s', yield_enter get_procs set_procs s = Ok (true, s1) /\ scheduler_return s1 = Ok (tt, s')
  end.

Lemma sched_can_move a : sched_inv a -> can_move a.
Proof.
  destruct a as [[|i|p|p] s]; intros H; cbn [can_move].
  - pose proof (begin_steps s H) as Hw. apply wp_ok in Hw as ([] & s' & E & _). by exists s'.
  - destruct (Z.ltb_spec i MAX_PROCS).
    + pose proof (dispatch_steps i s H ltac:(done)) as Hw. apply wp_ok in Hw as (b & s' & E & _). by exists b, s'.
    + pose proof (end_steps i s H) as Hw. apply wp_ok in Hw as ([] & s' & E & _). by exists s'.
  - pose proof (resume_steps p s H) as Hw. apply wp_ok in Hw as ([] & s' & E & _). by exists s'.
  - pose proof (yield_steps p s H) as Hw. apply wp_ok in Hw as (b & s1 & E & -> & H1).
    pose proof (return_steps p s1 H1) as Hw. apply wp_ok in Hw as ([] & s' & E' & _). by exists s1, s'.
Qed.

(** The calls on descriptors are such work. *)
Lemma fd_calls_work e s c r s' p :
  length (table s) = 64%nat -> settled e -> fd_inv e s -> call_ok get_procs e s c ->
  do_call get_procs set_procs c s = Ok (r, s') -> works p s s'.
Proof.
  intros Hl He Hfd Hc E. pose proof (do_call_keeps get_procs set_procs L c e s He Hfd Hc) as Hw. unfold wp in Hw. rewrite E in Hw.
  destruct Hw as (He' & Hfd' & Ha). pose proof (aside_table _ _ Ha) as Et. split; [|split].
  - split; [|by eexists]. by rewrite <- (length_fmap no_files), Et, length_fmap.
  - intros l. by apply no_files_running.
  - intros k (Hk & Hn & Hlk) Hr (x & Hx & H1 & H2 & H3). unfold on_cpu in Hk.
    pose proof (aside_rsp0 _ _ Ha) as Er. destruct Ha as (((Hf & Hg & Hm) & Eh & Ec) & g & E1 & El & Et').
    specialize (Hm (gs_base (khw (v_k s)))). rewrite Hk in Hm.
    destruct (cpus (khw (v_k s')) !! gs_base (khw (v_k s))) as [k'|] eqn:Ek; [|done].
    injection Hm as Hm1 _ Hm2 _ _ Hm3 Hm4. exists k'. split; [|split; [done|split]].
    + split; [unfold on_cpu; by rewrite Hg|]. split; [congruence|]. by rewrite E1, (get_set _ _ L), El.
    + by rewrite Er, Hm4.
    + destruct Hx as [Hp Hx]. assert ((no_files <$> table s') !! Z.to_nat (p - 1) = Some (no_files x)) as Hi.
      { rewrite Et, list_lookup_fmap. unfold Fds.table. by rewrite Hx. }
      rewrite list_lookup_fmap in Hi. destruct (table s' !! Z.to_nat (p - 1)) as [x'|] eqn:E'; [|done]. injection Hi as Hi.
      assert (p_pml4 x' = p_pml4 x /\ p_kstack x' = p_kstack x) as [E2 E3] by (destruct x, x'; cbn in *; split; congruence).
      exists x'. split; [done|]. rewrite Ec, Eh, Er, Hm1, Hm4, E2, E3. done.
Qed.

End Invariant.

(** ** A concrete machine *)

(** The process table, [tss_array], and what was printed. *)
Definition demo_static : Type := procs * list Z * list Z.
Definition demo_procs (f : demo_static) : procs := f.1.1.
Definition demo_set_procs (g : procs) (f : demo_static) : demo_static := (g, f.1.2, f.2).
Definition demo_rsp0 (f : demo_static) : list Z := f.1.2.
Definition demo_set_rsp0 (t : list Z) (f : demo_static) : demo_static := (f.1.1, t, f.2).

Lemma demo_procs_lens : lens demo_procs demo_set_procs.
Proof. split; by intros; repeat match goal with f : demo_static |- _ => destruct f as [[? ?] ?] end. Qed.
Lemma demo_rsp0_lens : lens demo_rsp0 demo_set_rsp0.
Proof. split; by intros; repeat match goal with f : demo_static |- _ => destruct f as [[? ?] ?] end. Qed.

#[export] Instance demo_vfs_ops : VfsOps demo_static := {
  iops_at := fun _ => Iops None None None None None;
  fops_at := fun _ => Fops None None None None None;
  tops_at := fun _ => Tops None None
}.
#[export] Instance demo_quiet : QuietOps demo_static.
Proof. by split. Qed.
#[export, refine] Instance demo_console : Console (vst demo_static) := {
  serial_putc := fun c => mmodify (fun s => set_fs ((v_fs s).1, (v_fs s).2 ++ [u8 c]) s);
  kconsole_putc := fun _ => mret tt;
  con_inv := fun _ => True;
  con_out := fun s => (v_fs s).2
}.
Proof. all: done. Defined.

Lemma demo_serial s c : keeps (talks demo_procs demo_rsp0 s) (serial_putc c : M (vst demo_static) unit).
Proof. intros s1 r s2 [H1 H2 H3 H4 H5 H6] [= _ <-]. by split. Qed.
Lemma demo_kconsole s c : keeps (talks demo_procs demo_rsp0 s) (kconsole_putc c : M (vst demo_static) unit).
Proof. by intros s1 r s2 H [= _ <-]. Qed.

(** One runnable process. *)
Definition demo_process : proc := set_state PROC_RUNNABLE (set_pml4 2097152 (set_kstack 12288 no_proc)).
Definition demo_machine : vst demo_static :=
  Vst (wide_on demo_cpu ∅) ∅ ∅ ∅ ∅ ∅ ∅ 0 0 0 0
    (Procs (initlock 1) (demo_process :: replicate 63 no_proc) 2, [0], []).

Lemma machine_idle : sched_inv demo_procs demo_rsp0 (Idle, demo_machine).
Proof.
  split.
  - split; [done|]. exists (fun _ => 0). split; [exact nothing_settled|]. split; [|done|by_decide|by_decide|].
    + intros f Hf. cbn [v_files demo_machine]. rewrite lookup_empty. rewrite uses_none; [done|done|by_decide].
    + exists wide_pages. split; [by apply wide_inv|]. intros f x. cbn [v_files demo_machine]. by rewrite lookup_empty.
  - exists demo_cpu. split; [by exists 0|]. split; [by split|]. split; [done|]. intros i x Hx. split; [|done].
    intros Hs. exfalso. revert Hs. assert (Forall (fun x => p_state x <> PROC_RUNNING) (Fds.table demo_procs demo_machine)) as H by by_decide.
    rewrite Forall_lookup in H. by apply (H i).
Qed.

Definition demo_begun := after (scheduler_begin demo_procs demo_set_procs demo_machine) demo_machine.
Definition demo_resuming := after (scheduler_dispatch demo_procs demo_set_procs demo_rsp0 demo_set_rsp0 0 demo_begun) demo_machine.
Definition demo_running := after (yield_leave demo_procs demo_set_procs demo_resuming) demo_machine.

