(* ===== verification/User.v ===== *)
(** * User programs (src/src/user/)

    The system call wrappers of include/syscall.h, the run-time routines of
    ulib.c, and the two programs, init/init.c and jesh/jesh.c.  A process is
    its memory and whatever the kernel keeps; the [syscall] instruction is the
    one operation the kernel offers. *)
From S2P Require Import Prelude KMem.

#[local] Open Scope Z_scope.

(** [syscall] with the number in rax and the arguments in rdi, rsi, rdx, r10;
    the answer is rax. *)
Class Kernel (St : Type) := {
  trap : Z -> list Z -> M St Z;
  user_mem : St -> mem;
  set_user_mem : mem -> St -> St
}.

Definition SYS_EXIT : Z := 0.
Definition SYS_WRITE : Z := 1.
Definition SYS_GETPID : Z := 2.
Definition SYS_EXEC : Z := 3.
Definition SYS_FORK : Z := 4.
Definition SYS_OPEN : Z := 5.
Definition SYS_CLOSE : Z := 6.
Definition SYS_READ : Z := 7.
Definition SYS_SEEK : Z := 8.
Definition SYS_WAIT : Z := 11.
Definition SYS_DUP2 : Z := 13.
Definition SYS_BRK : Z := 14.
Definition SYS_PIPE : Z := 15.
Definition SYS_FBINFO : Z := 16.
Definition O_RDONLY : Z := 0.

Section User.
Context `{K : Kernel St}.

Definition syscall0 (n : Z) : M St Z := r ← trap n []; mret (i64 r).
Definition syscall1 (n a1 : Z) : M St Z := r ← trap n [u64 a1]; mret (i64 r).
Definition syscall2 (n a1 a2 : Z) : M St Z := r ← trap n [u64 a1; u64 a2]; mret (i64 r).
Definition syscall3 (n a1 a2 a3 : Z) : M St Z := r ← trap n [u64 a1; u64 a2; u64 a3]; mret (i64 r).
Definition syscall4 (n a1 a2 a3 a4 : Z) : M St Z := r ← trap n [u64 a1; u64 a2; u64 a3; u64 a4]; mret (i64 r).

(** What runs after the call in [_exit] is unreachable by its annotation. *)
Definition _exit {A} (code : Z) : M St A := syscall1 SYS_EXIT code;; mstuck Fault.
Definition write (fd buf n : Z) : M St Z := syscall3 SYS_WRITE fd buf (i64 n).
Definition read (fd buf n : Z) : M St Z := syscall3 SYS_READ fd buf (i64 n).
Definition open (path flags : Z) : M St Z := r ← syscall2 SYS_OPEN path flags; mret (i32 r).
Definition close (fd : Z) : M St Z := r ← syscall1 SYS_CLOSE fd; mret (i32 r).
Definition seek (fd off whence : Z) : M St Z := syscall3 SYS_SEEK fd off whence.
Definition fork : M St Z := r ← syscall0 SYS_FORK; mret (i32 r).
Definition exec (path argv : Z) : M St Z := r ← syscall2 SYS_EXEC path argv; mret (i32 r).
Definition wait (status : Z) : M St Z := r ← syscall1 SYS_WAIT status; mret (i32 r).
Definition dup2 (old newfd : Z) : M St Z := r ← syscall2 SYS_DUP2 old newfd; mret (i32 r).
Definition pipe (fds : Z) : M St Z := r ← syscall1 SYS_PIPE fds; mret (i32 r).
Definition brk (addr : Z) : M St Z := r ← syscall1 SYS_BRK addr; mret (u64 r).
Definition getpid : M St Z := r ← syscall0 SYS_GETPID; mret (i32 r).
Definition fbinfo (info : Z) : M St Z := r ← syscall1 SYS_FBINFO info; mret (i32 r).

Definition put (a v : Z) : M St unit := mmodify (fun s => set_user_mem (wr8 (user_mem s) a v) s).
Definition get (a : Z) : M St Z := mgets (fun s => rd8 (user_mem s) a).

(** ** ulib.c *)

(** [while (n--) *p++ = c;] *)
Fixpoint umemset (n : nat) (p c : Z) : M St unit :=
  match n with
  | O => mret tt
  | S k => put p (u8 c);; umemset k (p + 1) c
  end.
Definition memset (s c n : Z) : M St Z := umemset (Z.to_nat n) s c;; mret s.
Fixpoint umemcpy (n : nat) (d s : Z) : M St unit :=
  match n with
  | O => mret tt
  | S k => c ← get s; put d c;; umemcpy k (d + 1) (s + 1)
  end.
Definition memcpy (dst src n : Z) : M St Z := umemcpy (Z.to_nat n) dst src;; mret dst.

(** One turn of the loop; [char] is signed.  Nothing stops it at a zero byte. *)
Definition strcmp_body (s1 s2 i : Z) : M St (Z + Z) :=
  a ← get (s1 + i);
  b ← get (s2 + i);
  if i8 b <? i8 a then mret (inr 1)
  else if i8 a <? i8 b then mret (inr (-1))
  else mret (inl (i + 1)).
Definition strcmp (s1 s2 : Z) : M St Z := mloop (strcmp_body s1 s2) 0.

(** ** jesh.c *)

Definition LINE_MAX : Z := 128.

(** The literals "\n" and "\b \b", the local [c], and a turn of [for (;;)]
    with [len] characters in the line. *)
Context (lit_newline lit_erase c_at : Z).
Definition read_line_body (in_fd out_fd line len : Z) : M St (Z + Z) :=
  r ← read in_fd c_at 1;
  let n := i32 r in
  if n <=? 0 then mret (inl len)
  else
    c ← get c_at;
    (if c =? 13 then put c_at 10 else mret tt);;
    c ← get c_at;
    if c =? 10 then
      write out_fd lit_newline 1;;
      put (line + len) 0;;
      mret (inr len)
    else if (c =? 8) || (c =? 127) then
      if 0 <? len then write out_fd lit_erase 3;; mret (inl (len - 1)) else mret (inl len)
    else if len <? LINE_MAX - 1 then
      put (line + len) c;;
      write out_fd c_at 1;;
      mret (inl (len + 1))
    else mret (inl len).
Definition read_line (in_fd out_fd line : Z) : M St Z := mloop (read_line_body in_fd out_fd line) 0.

(** One turn of the shell's endless loop; [line] is its local array. *)
Context (lit_prompt line_at : Z).
Definition jesh_round (in_fd : Z) : M St unit :=
  write 1 lit_prompt 2;;
  read_line in_fd 1 line_at;;
  mret tt.
Context (lit_cons : Z).
Definition jesh_start : M St unit :=
  in_fd ← open lit_cons O_RDONLY;
  mloop (fun _ : unit => jesh_round in_fd;; mret (inl tt)) tt.

(** ** init.c *)

(** The literals, the pointer [path] and the locals [argv] and [status]. *)
Context (lit_init lit_oops lit_wait lit_big path argv_at status_at : Z).
Definition put64 (a v : Z) : M St unit := mmodify (fun s => set_user_mem (wr64 (user_mem s) a v) s).
Definition init_round : M St unit :=
  pid ← fork;
  if pid =? 0 then
    put64 argv_at path;;
    put64 (argv_at + 8) 0;;
    exec path argv_at;;
    write 1 lit_oops 5;;
    _exit 2
  else if 0 <? pid then
    wait status_at;;
    write 1 lit_wait 5;;
    mret tt
  else
    write 1 lit_big 9;;
    _exit 1.
Definition init_start : M St unit :=
  write 1 lit_init 7;;
  mloop (fun _ : unit => init_round;; mret (inl tt)) tt.
End User.

(** ** The terminal *)

(** What a read of one byte can meet: a byte, or an answer of at most 0. *)
Inductive event := Byte (b : Z) | Nothing (r : Z).

Record term := Term { t_mem : mem; t_input : list event; t_output : list Z }.

Definition terminal_trap (n : Z) (args : list Z) : M term Z := fun s =>
  match args with
  | [fd; buf; len] =>
      if n =? SYS_WRITE then Ok (len, Term (t_mem s) (t_input s) (t_output s ++ bytes_at (Z.to_nat len) (t_mem s) buf))
      else if n =? SYS_READ then
        match t_input s with
        | [] => Stuck Halt
        | Nothing r :: rest => Ok (r, Term (t_mem s) rest (t_output s))
        | Byte b :: rest => Ok (1, Term (wr8 (t_mem s) buf b) rest (t_output s))
        end
      else Stuck Fault
  | _ => Stuck Fault
  end.

#[local] Instance terminal : Kernel term := {|
  trap := terminal_trap; user_mem := t_mem; set_user_mem m s := Term m (t_input s) (t_output s)
|}.

(** Line editing: the line and what the screen has been sent. *)
Definition keystroke (st : list Z * list Z) (b : Z) : list Z * list Z :=
  let '(line, out) := st in
  if (b =? 8) || (b =? 127) then
    match line with [] => (line, out) | _ => (removelast line, out ++ [8; 32; 8]) end
  else if (length line <? 127)%nat then (line ++ [b], out ++ [b])
  else (line, out).
Definition typed (ev : event) : list Z := match ev with Byte b => [b] | Nothing _ => [] end.
Definition edited (evs : list event) : list Z * list Z := foldl keystroke ([], []) (evs ≫= typed).

(** No newline yet. *)
Definition typing (ev : event) : Prop :=
  match ev with Byte b => 0 <= b < 256 /\ b <> 10 /\ b <> 13 | Nothing r => i32 (i64 r) <= 0 end.

Lemma edited_snoc evs ev : edited (evs ++ [ev]) = foldl keystroke (edited evs) (typed ev).
Proof. unfold edited. rewrite bind_app, foldl_app. f_equal. cbn. apply app_nil_r. Qed.

Lemma edited_length evs : (length (edited evs).1 <= 127)%nat.
Proof.
  induction evs as [|ev evs IH] using rev_ind; [cbn; lia|]. rewrite edited_snoc.
  destruct ev as [b|r]; [|done]. cbn [typed foldl]. destruct (edited evs) as [line out]. cbn [fst] in IH. unfold keystroke.
  destruct ((b =? 8) || (b =? 127)).
  - destruct line as [|x line]; [done|]. cbn [fst]. rewrite removelast_firstn_len, length_firstn. lia.
  - destruct (Nat.ltb_spec (length line) 127); cbn [fst]; [rewrite length_app; cbn; lia|lia].
Qed.

Section ReadLine.
Context (in_fd out_fd nl erase c_at line : Z).

(** The memory [read_line] writes: its local and the line. *)
Definition scratch (a : Z) : Prop := a = c_at \/ line <= a < line + LINE_MAX.

Record layout (m : mem) : Prop := {
  lay_newline : bytes_at 1 m nl = [10]; lay_erase : bytes_at 3 m erase = [8; 32; 8];
  lay_nl_apart : ~ scratch nl; lay_erase_apart : forall i, 0 <= i < 3 -> ~ scratch (erase + i);
  lay_c_apart : ~ (line <= c_at < line + LINE_MAX);
  lay_ranges : 0 <= nl < 2 ^ 64 /\ 0 <= erase < 2 ^ 64 /\ 0 <= c_at < 2 ^ 64
}.

Lemma write_run fd buf n s : 0 <= buf < 2 ^ 64 -> 0 <= n < 128 ->
  write fd buf n s = Ok (n, Term (t_mem s) (t_input s) (t_output s ++ bytes_at (Z.to_nat n) (t_mem s) buf)).
Proof.
  intros Hb Hn. unfold write, syscall3, trap, terminal, terminal_trap, mbind, M_bind.
  rewrite (i64_small n), (u64_small buf), (u64_small n) by lia. change (SYS_WRITE =? SYS_WRITE) with true. cbn iota.
  unfold mret, M_ret. by rewrite i64_small by lia.
Qed.

Lemma read_run fd s ev rest : 0 <= c_at < 2 ^ 64 -> t_input s = ev :: rest ->
  read fd c_at 1 s = match ev with
    | Byte b => Ok (1, Term (wr8 (t_mem s) c_at b) rest (t_output s))
    | Nothing r => Ok (i64 r, Term (t_mem s) rest (t_output s))
    end.
Proof.
  intros Hc Hi. unfold read, syscall3, trap, terminal, terminal_trap, mbind, M_bind. rewrite (u64_small c_at) by done.
  change (SYS_READ =? SYS_WRITE) with false. change (SYS_READ =? SYS_READ) with true. cbn iota. rewrite Hi. by destruct ev.
Qed.

(** Between two turns: [evs] are handled, the rest is still to come. *)
Definition reading (s0 : term) (evs : list event) (len : Z) (s : term) : Prop :=
  len = Z.of_nat (length (edited evs).1) /\
  bytes_at (length (edited evs).1) (t_mem s) line = (edited evs).1 /\
  t_output s = t_output s0 ++ (edited evs).2 /\
  forall a, ~ scratch a -> rd8 (t_mem s) a = rd8 (t_mem s0) a.

(** A turn of the loop on anything but a newline. *)
Lemma turn s0 evs ev rest len s :
  layout (t_mem s0) -> typing ev -> reading s0 evs len s -> t_input s = ev :: rest ->
  wp (read_line_body nl erase c_at in_fd out_fd line len) s (fun r s' =>
    exists len', r = inl len' /\ reading s0 (evs ++ [ev]) len' s' /\ t_input s' = rest).
Proof.
  intros [Hnl Her Hna Hea Hca (Rn & Re & Rc)] Hev (-> & Hbuf & Hout & Hmem) Hi. pose proof (edited_length evs) as Hlen.
  unfold read_line_body, reading. rewrite edited_snoc. destruct (edited evs) as [buf out] eqn:E. cbn [fst snd] in *.
  destruct ev as [b|r]; cbn [typed foldl]; wp_step; (eapply wp_run; [by rewrite (read_run _ _ _ _ Rc Hi)|]); cbn beta.
  2: { cbn in Hev. rewrite (proj2 (Z.leb_le _ _) Hev). wp_step. eexists. split; [done|]. by split_and!. }
  destruct Hev as (Hb & H10 & H13). change (i32 1 <=? 0) with false. cbn iota. unfold get, put. wp_step. wp_step. cbn beta.
  cbn [user_mem terminal t_mem]. rewrite rd8_wr8_eq, (u8_small b) by done. rewrite (proj2 (Z.eqb_neq _ _) H13).
  wp_step. wp_step. cbn beta. wp_step. wp_step. cbn beta. cbn [user_mem terminal t_mem]. rewrite rd8_wr8_eq, (u8_small b) by done.
  rewrite (proj2 (Z.eqb_neq _ _) H10). set (m1 := wr8 (t_mem s) c_at b).
  assert (forall a, a <> c_at -> rd8 m1 a = rd8 (t_mem s) a) as Hm1 by (intros a Ha; by apply rd8_wr8_ne).
  assert (bytes_at (length buf) m1 line = buf) as Hbuf1.
  { rewrite <- Hbuf at 2. apply bytes_at_agree. intros a Ha. apply Hm1. unfold LINE_MAX in Hca. lia. }
  assert (forall a, ~ scratch a -> rd8 m1 a = rd8 (t_mem s0) a) as Hmem1.
  { intros a Ha. rewrite Hm1; [by apply Hmem|]. intros ->. apply Ha. by left. }
  unfold keystroke. destruct ((b =? 8) || (b =? 127)).
  - destruct buf as [|x buf]; cbn [length].
    { change (0 <? Z.of_nat 0) with false. cbn iota. wp_step. eexists. split; [done|]. by split_and!. }
    rewrite (proj2 (Z.ltb_lt _ _)) by lia. wp_step. eapply wp_run; [by apply write_run|]. cbn beta. wp_step.
    eexists. split; [done|]. cbn [t_mem t_input t_output fst snd].
    assert (length (removelast (x :: buf)) = length buf) as El by (rewrite removelast_firstn_len, length_firstn; cbn; lia).
    rewrite El. split_and!; [lia| | | |done].
    + cbn [length] in Hbuf1. rewrite bytes_at_snoc in Hbuf1. rewrite <- Hbuf1. by rewrite removelast_last.
    + rewrite Hout, <- app_assoc, <- Her. do 2 f_equal. apply bytes_at_agree. intros a Ha. apply Hmem1.
      replace a with (erase + (a - erase)) by lia. apply Hea. lia.
    + exact Hmem1.
  - replace (Z.of_nat (length buf) <? LINE_MAX - 1) with (length buf <? 127)%nat
      by (unfold LINE_MAX; destruct (Nat.ltb_spec (length buf) 127), (Z.ltb_spec (Z.of_nat (length buf)) (128 - 1)); lia || done).
    destruct (Nat.ltb_spec (length buf) 127) as [Hl|_]; [|wp_step; eexists; split; [done|]; by split_and!].
    wp_step. wp_step. cbn beta. cbn [set_user_mem user_mem terminal t_mem]. set (m2 := wr8 m1 (line + Z.of_nat (length buf)) b).
    assert (forall a, a <> line + Z.of_nat (length buf) -> rd8 m2 a = rd8 m1 a) as Hm2 by (intros a Ha; by apply rd8_wr8_ne).
    wp_step. eapply wp_run; [by apply write_run|]. cbn beta. wp_step. eexists. split; [done|]. cbn [t_mem t_input t_output fst snd].
    rewrite length_app. cbn [length]. rewrite Nat.add_1_r. split_and!; [lia| | | |done].
    + rewrite bytes_at_snoc. f_equal.
      * rewrite <- Hbuf1 at 2. apply bytes_at_agree. intros a Ha. apply Hm2. lia.
      * f_equal. unfold m2. by rewrite rd8_wr8_eq, u8_small.
    + rewrite Hout, <- app_assoc. do 2 f_equal. change (Z.to_nat 1) with 1%nat. cbn [bytes_at]. f_equal.
      rewrite Hm2 by (unfold LINE_MAX in Hca; lia). unfold m1. by rewrite rd8_wr8_eq, u8_small.
    + intros a Ha. rewrite Hm2; [by apply Hmem1|]. intros ->. apply Ha. right. unfold LINE_MAX. lia.
Qed.

(** The turn that meets the newline. *)
Lemma last_turn s0 evs b rest len s :
  layout (t_mem s0) -> b = 10 \/ b = 13 -> reading s0 evs len s -> t_input s = Byte b :: rest ->
  wp (read_line_body nl erase c_at in_fd out_fd line len) s (fun r s' =>
    r = inr len /\ len = Z.of_nat (length (edited evs).1) /\
    bytes_at (length (edited evs).1) (t_mem s') line = (edited evs).1 /\ rd8 (t_mem s') (line + len) = 0 /\
    t_input s' = rest /\ t_output s' = t_output s0 ++ (edited evs).2 ++ [10] /\
    forall a, ~ scratch a -> rd8 (t_mem s') a = rd8 (t_mem s0) a).
Proof.
  intros [Hnl _ Hna _ Hca (Rn & _ & Rc)] Hb (-> & Hbuf & Hout & Hmem) Hi. pose proof (edited_length evs) as Hlen.
  unfold read_line_body. wp_step. eapply wp_run; [by rewrite (read_run _ _ _ _ Rc Hi)|]. cbn beta.
  change (i32 1 <=? 0) with false. cbn iota. unfold get. wp_step. wp_step. cbn beta. cbn [user_mem terminal t_mem]. rewrite rd8_wr8_eq.
  assert (u8 b = b) as Eb by (destruct Hb as [-> | ->]; done). rewrite Eb.
  wp_step. apply (wp_mono _ _ (fun _ s1 => t_input s1 = rest /\ t_output s1 = t_output s /\ rd8 (t_mem s1) c_at = 10 /\
    forall a, a <> c_at -> rd8 (t_mem s1) a = rd8 (t_mem s) a)).
  { unfold put. destruct Hb as [-> | ->]; [change (10 =? 13) with false|change (13 =? 13) with true]; cbn iota; wp_step;
      cbn [set_user_mem user_mem terminal t_mem t_input t_output].
    - split_and!; [done|done|by rewrite rd8_wr8_eq|]. intros a Ha. by apply rd8_wr8_ne.
    - split_and!; [done|done|by rewrite rd8_wr8_eq|]. intros a Ha. by rewrite !rd8_wr8_ne by congruence. }
  intros [] s1 (Hi1 & Ho1 & Hc1 & Hm1). wp_step. wp_step. cbn beta. cbn [user_mem terminal]. rewrite Hc1.
  change (10 =? 10) with true. cbn iota. wp_step. eapply wp_run; [by apply write_run|]. cbn beta. unfold put. wp_step. wp_step. cbn beta. wp_step.
  cbn [set_user_mem user_mem terminal t_mem t_input t_output].
  assert (forall a, line <= a < line + LINE_MAX -> rd8 (t_mem s1) a = rd8 (t_mem s) a) as Hline by (intros a Ha; apply Hm1; lia).
  split_and!; [done|done| |by rewrite rd8_wr8_eq|done| |].
  - etrans; [|exact Hbuf]. apply bytes_at_agree. intros a Ha. rewrite rd8_wr8_ne by lia. apply Hline. unfold LINE_MAX. lia.
  - rewrite Ho1, Hout, <- app_assoc, <- Hnl. do 2 f_equal. change (Z.to_nat 1) with 1%nat. cbn [bytes_at]. f_equal.
    rewrite Hm1; [by apply Hmem|]. intros ->. apply Hna. by left.
  - intros a Ha. rewrite rd8_wr8_ne; [rewrite Hm1; [by apply Hmem|]|].
    + intros ->. apply Ha. by left.
    + intros <-. apply Ha. right. unfold LINE_MAX. lia.
Qed.

(** C23: The shell's [read_line] reads up to the newline and returns the line as
    edited: characters past the 127th are dropped, erase takes the last one
    back, reads that answer 0 or an error are tried again.  The line is stored
    with its terminator inside the array of 128 bytes, nothing outside it is
    written, the screen is sent exactly the echo, and the input after the
    newline is left alone. *)
Theorem read_line_edits s evs b rest :
  layout (t_mem s) -> Forall typing evs -> b = 10 \/ b = 13 -> t_input s = evs ++ Byte b :: rest -> Z.of_nat (length evs) < 2 ^ 63 ->
  wp (read_line nl erase c_at in_fd out_fd line) s (fun len s' =>
    len = Z.of_nat (length (edited evs).1) /\ 0 <= len < LINE_MAX /\
    bytes_at (length (edited evs).1) (t_mem s') line = (edited evs).1 /\ rd8 (t_mem s') (line + len) = 0 /\
    t_input s' = rest /\ t_output s' = t_output s ++ (edited evs).2 ++ [10] /\
    forall a, ~ scratch a -> rd8 (t_mem s') a = rd8 (t_mem s) a).
Proof.
  intros Hlay Hty Hb Hi Hlen.
  apply (wp_mloop_ix _ (fun m len t => exists pre todo, evs = pre ++ todo /\ reading s pre len t /\
    t_input t = todo ++ Byte b :: rest /\ m = Z.of_nat (length todo)) _ (Z.of_nat (length evs))); [| |lia].
  - intros m len t (pre & todo & -> & Hr & Ht & ->). apply Forall_app in Hty as [_ Hty]. destruct todo as [|ev todo].
    + rewrite app_nil_r. eapply wp_mono; [by apply (last_turn s pre b rest len t)|].
      intros r s' (-> & El & H). pose proof (edited_length pre). split; [exact El|]. split; [unfold LINE_MAX; lia|]. exact H.
    + apply Forall_cons in Hty as [Hev _]. eapply wp_mono; [by apply (turn s pre ev (todo ++ Byte b :: rest) len t)|].
      intros r s' (len' & -> & Hr' & Ht'). exists (Z.of_nat (length todo)). split; [|cbn [length]; lia].
      exists (pre ++ [ev]), todo. split; [by rewrite <- app_assoc|done].
  - exists [], evs. split; [done|]. split; [|done]. split_and!; try done. by rewrite app_nil_r.
Qed.
End ReadLine.

(** "ab", erase, a read that fails, "c", return. *)
Definition demo_term : term :=
  Term (store_bytes (wr8 ∅ 4096 10) 4100 [8; 32; 8]) [Byte 97; Byte 98; Byte 127; Nothing 0; Byte 99; Byte 13; Byte 120] [62; 32].

Lemma read_line_edits_witness :
  wp (read_line 4096 4100 8000 0 1 8192) demo_term (fun len s' =>
    len = 2 /\ 0 <= len < LINE_MAX /\ bytes_at 2 (t_mem s') 8192 = [97; 99] /\ rd8 (t_mem s') (8192 + len) = 0 /\
    t_input s' = [Byte 120] /\ t_output s' = [62; 32] ++ [97; 98; 8; 32; 8; 99] ++ [10] /\
    forall a, ~ scratch 8000 8192 a -> rd8 (t_mem s') a = rd8 (t_mem demo_term) a).
Proof.
  apply (read_line_edits 0 1 4096 4100 8000 8192 demo_term [Byte 97; Byte 98; Byte 127; Nothing 0; Byte 99] 13 [Byte 120]).
  - constructor.
    + by vm_compute.
    + by vm_compute.
    + unfold scratch, LINE_MAX. lia.
    + unfold scratch, LINE_MAX. lia.
    + unfold LINE_MAX. lia.
    + split; [|split]; split; by_decide.
  - repeat constructor; by_decide.
  - by right.
  - done.
  - by_decide.
Defined.
